(* ===== verification/_CoqProject ===== *)
-Q . S2P
Prelude.v
CString.v
MkString.v
MkMemory.v
MkUtils.v
MkTypes.v
MkToc.v
MkSession.v
MkEpoll.v
MkPlugin.v
MkScheduler.v
MkConfig.v
MkFile.v
MkResponse.v
MkHttp.v
MkPathSafety.v
MkConnection.v
MkClock.v
MkSocket.v
MkNetIO.v
Liana.v
MkStart.v
MkLoad.v
MkLib.v
Cheetah.v
MkProcess.v
MkMain.v
PluginState.v
LianaSsl.v
LianaSslSpec.v
LianaSslData.v
FcgiProtocol.v
FcgiChunk.v
FcgiRequest.v
FcgiConfig.v
FcgiFd.v
FcgiContext.v
FcgiEnv.v
FcgiCore.v
FcgiRecv.v
FcgiEvents.v
FcgiRecords.v
FcgiRecvSpec.v
FcgiSendSpec.v
FcgiHangup.v
AuthSha1.v
AuthBase64.v
Auth.v
AuthConf.v
Mandril.v
Chunked.v
DirListing.v
DirListingSpec.v
DirListingPage.v
PluginOutput.v
Logger.v
LoggerSpec.v
Cgi.v
CgiState.v
CgiOutput.v
CgiStart.v
PalmProtocol.v
PalmVars.v
Palm.v
PalmOutput.v
PalmState.v
