(* ===== verification/Prelude.v ===== *)
(** * Verification of the Monkey HTTP daemon

    Monkey is an event driven web server: a master process accepts connections
    and gives them to worker threads, each of which owns an epoll instance, the
    sessions of its clients and their requests. Plugins hook into the stages of
    a request, or carry the network. This library translates the C code of the
    server (src/src, src/src/include), of its build as a library and of its
    plugins (src/plugins: auth, cgi, cheetah, dirlisting, fastcgi, liana,
    liana_ssl, logger, mandril, palm) into executable functions and proves what
    they do.

    ** How the code is represented

    A byte is its unsigned value in [Z]; a C pointer is the list of the bytes
    from its address to the end of its memory object. Reading or writing
    outside of an object, dereferencing NULL, passing a negative size to a
    string function and running off a list give [None]: undefined behaviour. A
    theorem that a function returns [Some] is thus also a theorem of memory
    safety. Machine integers are in [Z], with their wrap-around written out by
    [u8] to [u64], [i16] to [i64] where it can matter. NULL results of the code
    are the inner [None] of an [option (option _)]. Memory that nothing
    initialised has contents given by [sys_junk]. Allocations succeed, except
    [realloc] of a request body, which may fail. A call of exit is undefined
    behaviour too, except in [MkProcess] and [MkMain], whose monad [X] has exits.

    Code that changes shared state is written in the monad [M] of [MkTypes]:
    a state of type [world] (the state of one worker: sessions with their
    requests, scheduler node, epoll index, output vector, date caches, clock,
    and the trace of system calls made) and undefined behaviour. Sessions and
    requests are identified by number, so aliasing is explicit: a function that
    gets [cs] and [sr] reads and writes the same session and request as its
    caller. The operating system is the class [Env]: the results of system calls
    are functions of the trace of the calls before, so every behaviour of files
    and network is covered; theorems that need more (a network that makes
    progress, say) state it as a hypothesis. The plugins are a list of [plugin]
    records in [Env], whose functions are parameters.

    A plugin with a state of its own is written in the monad [P] of [PluginState]: the
    state of the plugin beside the world of the server that calls it. It is the
    state of one thread, except in [Cgi], whose table of sockets is shared: there
    it holds the lists of all workers, and [resume] changes from one to another.
    Doubly linked lists ([mk_list]) are lists; red-black trees and lists indexed by
    descriptor are association lists in the order of the code.

    ** Files

    Core, under src/src:
    - [CString]: the C library functions the code calls (strlen, strncmp, memchr,
      strtol, ...), with lemmas that characterise them on NUL-terminated text.
    - [MkString] (mk_string.c): search, split, trim, itop, build.
    - [MkMemory] (mk_memory.c, mk_iov.c): counted pointers, output vectors.
    - [MkUtils] (mk_utils.c, mk_cache.c): date formatting and its cache, URL
      decoding.
    - [MkTypes] (headers of src/include): the records, [world], [M], [Env].
    - [MkToc] (mk_request.c, mk_method.c): index of header lines, header lookup,
      methods and protocols.
    - [MkSession] (mk_request.c, mk_http.c): completeness of requests, pipelining,
      request line, keep-alive, ranges.
    - [MkEpoll] (mk_epoll.c): state index, registration and modes of descriptors.
    - [MkPlugin] (mk_plugin.c): registration, stage lists, running the stages;
      [MkLoad] (mk_plugin.c): loading the libraries, the hooks of process and
      thread, the end of the plugins.
    - [MkScheduler] (mk_scheduler.c): balancing, connection slots, sessions, timeouts.
    - [MkConfig] (mk_config.c): parser of configuration files, settings, hosts.
    - [MkFile] (mk_file.c, mk_mimetype.c): file information, mime types.
    - [MkResponse] (mk_header.c, mk_socket.c, mk_request.c): headers, error
      pages, file transfer.
    - [MkHttp] (mk_http.c, mk_user.c): serving of one request; [MkPathSafety]: which files it
      opens.
    - [MkConnection] (mk_connection.c, mk_epoll.c, mk_request.c): event handlers and
      the loop of a worker; it composes all of the above.
    - [MkClock] (mk_clock.c): the texts of the time, byte by byte, as the workers
      see them while the clock thread writes.
    - [MkSocket] (mk_socket.c): addresses of peers; [MkNetIO] (mk_socket.c, MKPlugin.h):
      the operations a transport gives to the server, as an interface.
    - [MkStart] (mk_config.c, mk_cache.c, mk_scheduler.c, mk_server.c): the
      configuration of the start, the state a worker begins with, the loop that
      accepts connections.
    - [MkProcess] (mk_user.c, mk_signals.c, mk_utils.c): change of user, file with the
      process id, daemon mode, signals, messages; [MkMain] (monkey.c): the program.
    - [MkLib] (mk_lib.c): the functions of the library build.

    Transports: [Liana] (plugins/liana), an instance of the interface of [MkNetIO];
    [LianaSsl] (plugins/liana_ssl) with its invariant in [LianaSslSpec] and its data in
    [LianaSslData].

    Plugins that answer requests, each over [PluginState] (calls between server and
    plugin) and [PluginOutput] (what a client receives):
    - CGI (plugins/cgi): [Cgi] (environment and program), [CgiState] (requests and
      their events), [CgiOutput] (what is delivered), [CgiStart] (the stage).
    - Palm (plugins/palm): [PalmProtocol], [PalmVars] (what is sent to the palm
      server), [Palm], [PalmOutput] (its answer), [PalmState] (the stage).
    - FastCGI (plugins/fastcgi): [FcgiProtocol] (protocol.c, records
      and parameters), [FcgiChunk] (chunk.c, reference counted buffers and vectors
      of pointers into them), [FcgiRequest] (request.c, the state machine and list
      of requests), [FcgiConfig] (fcgi_config.c), [FcgiFd] (fcgi_fd.c, sockets and
      their distribution over threads and servers), [FcgiContext] (fcgi_context.c,
      the contexts of the threads and the interleaved drawing of their numbers),
      [FcgiEnv] (fcgi_env.c, the parameters of a request). The plugin itself,
      fastcgi.c: [FcgiCore] (its state), [FcgiRecv] (reception), [FcgiEvents] (stage and
      events); its theorems: [FcgiRecords], [FcgiRecvSpec], [FcgiSendSpec],
      [FcgiHangup].
    - Directory listings (plugins/dirlisting): [DirListing] (directory and templates),
      [Chunked] (chunked transfer), [DirListingSpec], [DirListingPage] (the page).

    Others: [AuthSha1], [AuthBase64], [Auth], [AuthConf] (plugins/auth), [Mandril]
    (plugins/mandril, rules on addresses and URLs), [Logger] and [LoggerSpec]
    (plugins/logger), [Cheetah] (plugins/cheetah, the console).

    ** Groups of theorems

    - Safety of what is served: [MkPathSafety] (only files under the document
      root, index files and error pages are opened; ".." is answered with 403),
      [Auth] (restricted locations, the check of credentials against SHA-1 and
      Base64, themselves proved equivalent to FIPS 180 and inverted), [Mandril]
      (a refused address or URL is never served).
    - Invariants of the scheduler and of the plugin and epoll tables: rule
      induction over arbitrary interleavings of accepting (choice, epoll and
      count are steps of their own), registering and closing; refinement of the epoll index to a finite map; no connection
      accepted is lost by the server loop.
    - The life of the process: what a configuration that is accepted guarantees, which
      plugins are loaded, the state in which the program reaches its loop, that root is
      given up; the same for the library and every sequence of its calls.
    - Parsing: splitting of pipelined requests, completeness, request line,
      header index and lookup, configuration files (parsing inverts printing),
      users files, FastCGI and palm parameters.
    - Responses: the exact bytes of headers and error replies, termination and
      contiguity of file transfers, bounds of ranges, pages of directories.
    - Gateways: what a program or server answers is what the client receives, in
      order and whole, if its socket takes it (a write that fails, or in palm one
      that takes less, loses output); what is sent to a FastCGI server is the
      request; requests are released when client or server hang up; every
      sequence of events keeps the invariant of the requests.
    - FastCGI: reference counts equal references held, vectors refine queues of
      bytes, fairness of the request list, distinct thread numbers under every
      interleaving, distinct request ids, connections for every thread.
    - Transports: which sockets [Liana] leaves open; under TLS what is read after the
      handshake is what arrived, what is written is sent, the descriptors of the connections
      are tracked through all events.
    - Time and logs: a reader of the clock sees a text of one time or the next;
      lines of the logs are kept in order.
    - Bounds: buffers of the session, of URL decoding, of the epoll and vector
      arrays. Where the code goes out of its buffer the theorem says exactly when.

    ** Fuel

    Loops that are not structural take fuel computed from the size of their data,
    one unit for each iteration at least: the length of the buffer for the parsing
    loops (each consumes a byte) and for the parser of templates, the length of the
    list for the rings of FastCGI, the bits of an index for the binary search, 20
    digits for printing an integer of 64 bits. Where fuel runs out the result is
    [None], and the theorems that the functions return [Some] show that it does not.
    Loops over answers of the system take their number: the reads of
    [fcgi_recv_response], the units of [LianaSsl.read_loop] and of a Cheetah session
    (its bytes, its packets and one more are enough), the rounds of the loops that
    never end ([mk_server_loop], [mklib_run]). [LianaSsl.write_loop] needs more
    than the length of what the library has to send; the handlers of events that
    call each other once more ([FcgiEvents.event_write], [hangup]) need two
    units. The theorems state these amounts.

    ** Not modelled, and why

    Handlers of two workers that overlap in the CGI plugin, which has no lock, are
    not modelled: each runs to its end before another begins, in any order. In
    the scheduler and the clock, and in the contexts of FastCGI, the steps of the
    threads are interleaved. Creation of threads, their keys and masks of signals, sockets, pipes, fork and exec
    are calls of the system, known by their results; the child of a CGI program
    ends with its exec and the closing of its descriptors is left out. The TLS
    library and the loader of shared objects are parameters. Freeing of memory at
    the end of the process or of a plugin, traces, stack traces and the printing of
    errors of configuration files have no effect on the state. The hooks that initialise and end the
    FastCGI plugin and its threads compose the functions that [FcgiConfig], [FcgiFd] and [FcgiContext]
    model. The report and the reopening of the logger's files, the making
    of Cheetah's socket, and the callbacks of the library build inside a stage are
    not modelled. Examples and tests are not part of the server. *)
From Stdlib Require Export ZArith Lia.
From stdpp Require Export base tactics list numbers option strings.

(** ** Scopes and notations *)

Declare Scope monkey_scope.
Delimit Scope monkey_scope with mk.

(** A byte of C memory is its unsigned value; a C pointer is the list of
    bytes from the address it holds to the end of its memory object. *)
Abbreviation bytes := (list Z).

(** String literals of the source, as bytes (without the terminating NUL). *)
Definition lit (s : string) : bytes :=
  List.map (fun a => Z.of_N (Ascii.N_of_ascii a)) (String.list_ascii_of_string s).

(** A string literal as C stores it: NUL-terminated. *)
Definition clit (s : string) : bytes := lit s ++ [0%Z].

Notation "'#' s" := (lit s) (at level 8, s at level 1, format "# s") : monkey_scope.

(** ** Machine integers: the wrap-around of the C integer types (LP64) *)

Definition u8 (z : Z) : Z := (z mod 2 ^ 8)%Z.
Definition u16 (z : Z) : Z := (z mod 2 ^ 16)%Z.
Definition u32 (z : Z) : Z := (z mod 2 ^ 32)%Z.
Definition u64 (z : Z) : Z := (z mod 2 ^ 64)%Z.
Definition i16 (z : Z) : Z := ((z + 2 ^ 15) mod 2 ^ 16 - 2 ^ 15)%Z.
Definition i32 (z : Z) : Z := ((z + 2 ^ 31) mod 2 ^ 32 - 2 ^ 31)%Z.
Definition i64 (z : Z) : Z := ((z + 2 ^ 63) mod 2 ^ 64 - 2 ^ 63)%Z.

(** mk_macros.h: MK_FALSE, MK_TRUE (which is [!MK_FALSE]) and MK_ERROR. *)
Definition MK_FALSE : Z := 0.
Definition MK_TRUE : Z := 1.
Definition MK_ERROR : Z := -1.

Section Wrap.
Local Open Scope Z_scope.

Lemma u8_small z : 0 <= z < 256 -> u8 z = z.
Proof. intros; unfold u8; now apply Z.mod_small. Qed.
Lemma u16_small z : 0 <= z < 65536 -> u16 z = z.
Proof. intros; unfold u16; now apply Z.mod_small. Qed.
Lemma u32_small z : 0 <= z < 2 ^ 32 -> u32 z = z.
Proof. intros; unfold u32; now apply Z.mod_small. Qed.
Lemma u64_small z : 0 <= z < 2 ^ 64 -> u64 z = z.
Proof. intros; unfold u64; now apply Z.mod_small. Qed.
Lemma i32_small z : - 2 ^ 31 <= z < 2 ^ 31 -> i32 z = z.
Proof. intros; unfold i32; rewrite Z.mod_small; lia. Qed.
Lemma i16_small z : - 2 ^ 15 <= z < 2 ^ 15 -> i16 z = z.
Proof. intros; unfold i16; rewrite Z.mod_small; lia. Qed.
Lemma i64_small z : - 2 ^ 63 <= z < 2 ^ 63 -> i64 z = z.
Proof. intros; unfold i64; rewrite Z.mod_small; lia. Qed.

Lemma u8_range z : 0 <= u8 z < 256.
Proof. apply Z.mod_pos_bound; lia. Qed.
Lemma u16_range z : 0 <= u16 z < 65536.
Proof. apply Z.mod_pos_bound; lia. Qed.
Lemma u32_range z : 0 <= u32 z < 2 ^ 32.
Proof. apply Z.mod_pos_bound; lia. Qed.
Lemma u64_range z : 0 <= u64 z < 2 ^ 64.
Proof. apply Z.mod_pos_bound; lia. Qed.

(** Bit masks and shifts as divisions. *)
Lemma land_255 z : Z.land z 255 = z mod 2 ^ 8.
Proof. exact (Z.land_ones z 8 ltac:(lia)). Qed.
Lemma land_127 z : Z.land z 127 = z mod 2 ^ 7.
Proof. exact (Z.land_ones z 7 ltac:(lia)). Qed.
Lemma shiftr_div z n : 0 <= n -> Z.shiftr z n = z / 2 ^ n.
Proof. apply Z.shiftr_div_pow2. Qed.
Lemma shiftl_mul z n : 0 <= n -> Z.shiftl z n = z * 2 ^ n.
Proof. apply Z.shiftl_mul_pow2. Qed.
End Wrap.

Create HintDb mk discriminated.
Create Rewrite HintDb wrap.
Create Rewrite HintDb mk_string.
#[export] Hint Rewrite u8_small u16_small u32_small u64_small i16_small i32_small i64_small
  using lia : wrap.
#[export] Hint Resolve u8_range u16_range u32_range u64_range : mk.

(** Removes the wrap-arounds of values that are in range. *)
Ltac unwrap := autorewrite with wrap in *.

(** Turns masks and shifts by constants into divisions, for [lia]. *)
Ltac unbits := rewrite ?land_255, ?land_127, ?shiftr_div, ?shiftl_mul by lia.

(** ** Booleans and case analysis *)

(** Reflects the boolean comparisons of the hypotheses and the goal. *)
Ltac zbool :=
  repeat match goal with
  | H : (_ =? _)%Z = true |- _ => apply Z.eqb_eq in H
  | H : (_ =? _)%Z = false |- _ => apply Z.eqb_neq in H
  | H : (_ <? _)%Z = true |- _ => apply Z.ltb_lt in H
  | H : (_ <? _)%Z = false |- _ => apply Z.ltb_ge in H
  | H : (_ <=? _)%Z = true |- _ => apply Z.leb_le in H
  | H : (_ <=? _)%Z = false |- _ => apply Z.leb_gt in H
  | H : (_ && _)%bool = true |- _ => apply andb_true_iff in H; destruct H
  | H : (_ || _)%bool = false |- _ => apply orb_false_iff in H; destruct H
  | H : negb _ = true |- _ => apply negb_true_iff in H
  | H : negb _ = false |- _ => apply negb_false_iff in H
  end.

(** Proves the value of a boolean comparison. *)
Ltac zb :=
  repeat match goal with
  | |- true = _ => symmetry
  | |- false = _ => symmetry
  | |- (_ =? _)%Z = true => apply Z.eqb_eq
  | |- (_ =? _)%Z = false => apply Z.eqb_neq
  | |- (_ <? _)%Z = true => apply Z.ltb_lt
  | |- (_ <? _)%Z = false => apply Z.ltb_ge
  | |- (_ <=? _)%Z = true => apply Z.leb_le
  | |- (_ <=? _)%Z = false => apply Z.leb_gt
  | |- (_ && _)%bool = true => apply andb_true_iff; split
  | |- (_ || _)%bool = false => apply orb_false_iff; split
  | |- negb _ = true => apply negb_true_iff
  | |- negb _ = false => apply negb_false_iff
  end; lia.

(** Splits on the condition of the first [if] or [match] of the goal. *)
Ltac case_if :=
  match goal with
  | |- context [if ?b then _ else _] =>
      lazymatch b with
      | context [if _ then _ else _] => fail
      | _ => let E := fresh "E" in destruct b eqn:E
      end
  end.

Ltac case_if_in H :=
  match type of H with
  | context [if ?b then _ else _] =>
      lazymatch b with
      | context [if _ then _ else _] => fail
      | _ => let E := fresh "E" in destruct b eqn:E
      end
  end.

(** Runs the binds of the option monad whose first computation is a value. *)
Ltac mstep := cbn [mbind option_bind fmap option_fmap option_map].

(** Decides a closed proposition by evaluation. *)
Ltac decide_closed := apply (bool_decide_unpack _); vm_compute; exact I.

(** ** Lists *)

Section Lists.
Context {A : Type}.
Implicit Types l : list A.

Lemma length_drop_Z l n : (Z.of_nat (length (drop n l)) = Z.max 0 (Z.of_nat (length l) - Z.of_nat n))%Z.
Proof. rewrite length_drop; lia. Qed.

Lemma drop_S_cons l n x : l !! n = Some x -> drop n l = x :: drop (S n) l.
Proof. apply drop_S. Qed.

Lemma elem_of_rev l x : x ∈ rev l <-> x ∈ l.
Proof. now rewrite !list_elem_of_In, <- in_rev. Qed.

Lemma lookup_Some_lt l i x : l !! i = Some x -> (i < length l)%nat.
Proof. apply lookup_lt_Some. Qed.
End Lists.

(** Checks a boolean property of [n] consecutive integers, by evaluation. *)
Fixpoint all_from (f : Z -> bool) (n : nat) (i : Z) : bool :=
  match n with O => true | S n => f i && all_from f n (i + 1)%Z end.
Definition all_below (f : Z -> bool) (n : Z) : bool := all_from f (Z.to_nat n) 0.

Lemma all_from_spec f n i :
  all_from f n i = true -> forall z, (i <= z < i + Z.of_nat n)%Z -> f z = true.
Proof.
  revert i; induction n as [|n IH]; intros i H z Hz; [lia|].
  cbn [all_from] in H. apply andb_true_iff in H as [H1 H2].
  destruct (decide (z = i)) as [->|]; [done|]. apply (IH _ H2). lia.
Qed.

Lemma all_below_spec f n : all_below f n = true -> forall z, (0 <= z < n)%Z -> f z = true.
Proof. intros H z Hz. apply (all_from_spec _ _ _ H). lia. Qed.

(** ** Record updates

    [r <| f := v |>] is the record [r] with its field [f] set to [v]. A record
    type declares its eta-expansion once, as an instance of [Eta]; the update
    of a field is that expansion with the field's projection abstracted. *)
Class Eta (R : Type) := eta : R -> R.

Class Setter {R T : Type} (f : R -> T) := set_field : R -> T -> R.
Arguments set_field {R T} f {_} _ _ /.

Ltac derive_setter f :=
  lazymatch type of f with
  | ?R -> ?T =>
    let inst := constr:(_ : Eta R) in
    exact (fun r : R =>
      ltac:(let body := eval hnf in (inst r) in
            let abstracted := eval pattern (f r) in body in
            lazymatch abstracted with ?g _ => exact g end))
  end.

#[export] Hint Extern 0 (Setter ?f) => derive_setter f : typeclass_instances.

Notation "r <| f := v |>" := (set_field f r v)
  (at level 12, f at next level, v at level 200, left associativity, format "r <| f  :=  v |>").
