(* ===== verification/CString.v ===== *)
(** * The part of the C library the server uses on strings and memory

    A [char *] is the list of bytes from the address to the end of its object,
    so pointer arithmetic is [drop], the difference of two pointers into one
    object is a difference of lengths, and a read past the end of the object,
    which C leaves undefined, is [None]. *)
From S2P Require Import Prelude.
Local Open Scope Z_scope.

(** ** Character classes (the "C" locale) *)

Definition isspace (c : Z) : bool := ((9 <=? c) && (c <=? 13)) || (c =? 32).
Definition isblank (c : Z) : bool := (c =? 9) || (c =? 32).
Definition isdigit (c : Z) : bool := (48 <=? c) && (c <=? 57).
Definition toupper (c : Z) : Z := if (97 <=? c) && (c <=? 122) then c - 32 else c.
Definition tolower (c : Z) : Z := if (65 <=? c) && (c <=? 90) then c + 32 else c.

(** ** Pointers *)

Definition deref (p : bytes) : option Z := head p.
(** [p + n], defined up to one past the end of the object. *)
Definition padd (p : bytes) (n : Z) : option bytes :=
  if (0 <=? n) && (n <=? Z.of_nat (length p)) then Some (drop (Z.to_nat n) p) else None.
(** [p - q] for two pointers into the same object. *)
Definition pdiff (p q : bytes) : Z := Z.of_nat (length q) - Z.of_nat (length p).
(** [memcpy] of [n] bytes out of [p] (a [size_t]: a negative [n] is huge). *)
Definition memread (p : bytes) (n : Z) : option bytes :=
  if (0 <=? n) && (n <=? Z.of_nat (length p)) then Some (take (Z.to_nat n) p) else None.

(** ** String functions *)

(** One more than a position, if there is one. *)
Definition osucc (r : option Z) : option Z := Z.succ <$> r.

Fixpoint strlen (p : bytes) : option Z :=
  match p with
  | [] => None
  | c :: p' => if c =? 0 then Some 0 else n ← strlen p'; Some (Z.succ n)
  end.

(** The characters of the string, up to its NUL. *)
Fixpoint cstr (p : bytes) : option bytes :=
  match p with
  | [] => None
  | c :: p' => if c =? 0 then Some [] else s ← cstr p'; Some (c :: s)
  end.

Fixpoint strcmp_by (f : Z -> Z) (p q : bytes) : option Z :=
  match p, q with
  | c :: p', d :: q' =>
      if negb (f c =? f d) then Some (f c - f d)
      else if c =? 0 then Some 0 else strcmp_by f p' q'
  | _, _ => None
  end.
Definition strcmp : bytes -> bytes -> option Z := strcmp_by (fun c => c).
Definition strcasecmp : bytes -> bytes -> option Z := strcmp_by tolower.

Fixpoint strncmp_by (f : Z -> Z) (p q : bytes) (n : Z) : option Z :=
  if n <=? 0 then Some 0 else
  match p, q with
  | c :: p', d :: q' =>
      if negb (f c =? f d) then Some (f c - f d)
      else if c =? 0 then Some 0 else strncmp_by f p' q' (n - 1)
  | _, _ => None
  end.
Definition strncmp : bytes -> bytes -> Z -> option Z := strncmp_by (fun c => c).
Definition strncasecmp : bytes -> bytes -> Z -> option Z := strncmp_by tolower.

(** Does the string [needle] start at [p]? *)
Fixpoint starts_by (eqc : Z -> Z -> bool) (p needle : bytes) {struct needle} : option bool :=
  match needle with
  | [] => None
  | d :: n' =>
      if d =? 0 then Some true
      else match p with
           | [] => None
           | c :: p' => if eqc c d then starts_by eqc p' n' else Some false
           end
  end.

Fixpoint strstr_by (eqc : Z -> Z -> bool) (p needle : bytes) : option (option Z) :=
  match p with
  | [] => b ← starts_by eqc [] needle; if b : bool then Some (Some 0) else None
  | c :: p' =>
      b ← starts_by eqc p needle;
      if b : bool then Some (Some 0)
      else if c =? 0 then Some None
      else r ← strstr_by eqc p' needle; Some (osucc r)
  end.
Definition eq_cs (c d : Z) : bool := c =? d.
Definition eq_ci (c d : Z) : bool := toupper c =? toupper d.
Definition strstr : bytes -> bytes -> option (option Z) := strstr_by eq_cs.
Definition strcasestr : bytes -> bytes -> option (option Z) := strstr_by eq_ci.

Fixpoint memchr (p : bytes) (c : Z) (n : Z) : option (option Z) :=
  if n <=? 0 then Some None else
  match p with
  | [] => None
  | d :: p' => if d =? c then Some (Some 0) else r ← memchr p' c (n - 1); Some (osucc r)
  end.

(** Position of the last [c] of a list of bytes. *)
Fixpoint last_index (l : bytes) (c : Z) : option Z :=
  match l with
  | [] => None
  | d :: l' => match last_index l' c with
               | Some i => Some (Z.succ i)
               | None => if d =? c then Some 0 else None
               end
  end.
Definition memrchr (p : bytes) (c : Z) (n : Z) : option (option Z) :=
  s ← memread p n; Some (last_index s c).

(** [index(3)]: position of the first [c] of the string. *)
Fixpoint index (p : bytes) (c : Z) : option (option Z) :=
  match p with
  | [] => None
  | d :: p' => if d =? c then Some (Some 0)
               else if d =? 0 then Some None
               else r ← index p' c; Some (osucc r)
  end.

(** [strncpy(_, p, n)]: the [n] bytes it writes (NUL padded). *)
Fixpoint strncpy (p : bytes) (n : nat) {struct n} : option bytes :=
  match n with
  | O => Some []
  | S n => match p with
           | [] => None
           | c :: p' => if c =? 0 then Some (replicate (S n) 0)
                        else s ← strncpy p' n; Some (c :: s)
           end
  end.

Fixpoint list_prefixb (pre l : bytes) : bool :=
  match pre, l with
  | [], _ => true
  | _, [] => false
  | a :: pre', b :: l' => (a =? b) && list_prefixb pre' l'
  end.
(** Is [needle] a factor of [l]? *)
Fixpoint list_infixb (needle l : bytes) : bool :=
  list_prefixb needle l || match l with [] => false | _ :: l' => list_infixb needle l' end.
(** [memmem]: whether [n] bytes at [p] contain the bytes [needle]. *)
Definition memmem (p : bytes) (n : Z) (needle : bytes) : option bool :=
  s ← memread p n; Some (list_infixb needle s).

(** [strtol(p, NULL, 10)] on a 64-bit [long]: the clamped value, and whether
    [errno] is set to ERANGE. *)
Definition LONG_MAX : Z := 2 ^ 63 - 1.
Definition LONG_MIN : Z := - 2 ^ 63.
Fixpoint strtol_digits (p : bytes) (acc : Z) : option Z :=
  match p with
  | [] => None
  | c :: p' => if isdigit c then strtol_digits p' (10 * acc + (c - 48)) else Some acc
  end.
Fixpoint skip_spaces (p : bytes) : option bytes :=
  match p with
  | [] => None
  | c :: p' => if isspace c then skip_spaces p' else Some p
  end.
Definition strtol (p : bytes) : option (Z * bool) :=
  p ← skip_spaces p;
  c ← head p;
  v ← (if c =? 45 then v ← strtol_digits (tail p) 0; Some (- v)
       else if c =? 43 then strtol_digits (tail p) 0
       else strtol_digits p 0);
  Some (Z.max LONG_MIN (Z.min LONG_MAX v), (v <? LONG_MIN) || (LONG_MAX <? v)).
Definition atol (p : bytes) : option Z := fst <$> strtol p.
(** [atoi] is [(int) strtol]. *)
Definition atoi (p : bytes) : option Z := (i32 ∘ fst) <$> strtol p.

(** ** NUL-terminated strings *)

(** [p] points to the NUL-terminated string [s]. *)
Definition is_cstr (p s : bytes) : Prop := (exists r, p = s ++ 0 :: r) /\ 0 ∉ s.

Lemma is_cstr_clit s : 0 ∉ lit s -> is_cstr (clit s) (lit s).
Proof. intros H; split; [now exists [] | done]. Qed.

Lemma is_cstr_nil p : is_cstr p [] <-> exists r, p = 0 :: r.
Proof. split; [intros [H _]; exact H | intros [r ->]; split; [now exists r | apply not_elem_of_nil]]. Qed.

Lemma is_cstr_cons p c s :
  is_cstr p (c :: s) <-> exists p', p = c :: p' /\ c <> 0 /\ is_cstr p' s.
Proof.
  split.
  - intros [[r ->] Hs]. rewrite not_elem_of_cons in Hs. destruct Hs as [Hc Hs].
    exists (s ++ 0 :: r). split; [done|]. split; [congruence|]. split; [now exists r | done].
  - intros (p' & -> & Hc & [[r ->] Hs]). split; [now exists r|].
    rewrite not_elem_of_cons. split; [congruence | done].
Qed.

Lemma is_cstr_drop p s n :
  is_cstr p s -> (n <= length s)%nat -> is_cstr (drop n p) (drop n s).
Proof.
  intros [[r ->] Hs] Hn. split.
  - exists r. rewrite drop_app_le by done. reflexivity.
  - intros Hin. apply Hs. eapply subseteq_drop, Hin.
Qed.

Lemma strlen_cstr p s : is_cstr p s -> strlen p = Some (Z.of_nat (length s)).
Proof.
  revert p; induction s as [|c s IH]; intros p H.
  - apply is_cstr_nil in H as [r ->]. reflexivity.
  - apply is_cstr_cons in H as (p' & -> & Hc & H). cbn [strlen].
    destruct (c =? 0) eqn:E; [lia|]. rewrite (IH _ H). cbn. f_equal; lia.
Qed.

Lemma cstr_cstr p s : is_cstr p s -> cstr p = Some s.
Proof.
  revert p; induction s as [|c s IH]; intros p H.
  - apply is_cstr_nil in H as [r ->]. reflexivity.
  - apply is_cstr_cons in H as (p' & -> & Hc & H). cbn [cstr].
    destruct (c =? 0) eqn:E; [lia|]. now rewrite (IH _ H).
Qed.

Lemma cstr_Some p s : cstr p = Some s -> is_cstr p s.
Proof.
  revert s; induction p as [|c p IH]; intros s H; [done|]. cbn [cstr] in H.
  destruct (c =? 0) eqn:E.
  - simplify_eq. apply is_cstr_nil. zbool. subst. now exists p.
  - destruct (cstr p) as [s'|] eqn:E'; [|done]. simplify_option_eq.
    apply is_cstr_cons. exists p. zbool. auto.
Qed.

#[export] Hint Resolve is_cstr_drop strlen_cstr cstr_cstr : mk.

(** ** Searching *)

(** Leftmost position of a byte. *)
Fixpoint first_index (l : bytes) (c : Z) : option Z :=
  match l with
  | [] => None
  | d :: l' => if d =? c then Some 0 else osucc (first_index l' c)
  end.

Lemma first_index_Some l c i :
  first_index l c = Some i <->
  0 <= i /\ l !! Z.to_nat i = Some c /\ c ∉ take (Z.to_nat i) l.
Proof.
  revert i; induction l as [|d l IH]; intros i; cbn.
  - split; [done|]. intros (_ & H & _). now rewrite lookup_nil in H.
  - destruct (d =? c) eqn:E; zbool.
    + subst. split.
      * intros [= <-]. cbn. split; [lia|]. split; [done | apply not_elem_of_nil].
      * intros (H1 & H2 & H3). destruct (Z.to_nat i) eqn:Ei.
        -- f_equal; lia.
        -- cbn in H3. rewrite not_elem_of_cons in H3. now destruct H3.
    + unfold osucc. rewrite fmap_Some. split.
      * intros (j & Hj & ->). apply IH in Hj as (H1 & H2 & H3).
        replace (Z.to_nat (Z.succ j)) with (S (Z.to_nat j)) by lia. cbn.
        split; [lia|]. split; [done|]. rewrite not_elem_of_cons. split; [congruence|done].
      * intros (H1 & H2 & H3). destruct (Z.to_nat i) eqn:Ei; cbn in *; [congruence|].
        exists (Z.pred i). split; [|lia]. apply IH.
        replace (Z.to_nat (Z.pred i)) with n by lia.
        rewrite not_elem_of_cons in H3. split; [lia|]. now destruct H3.
Qed.

Lemma first_index_None l c : first_index l c = None <-> c ∉ l.
Proof.
  induction l as [|d l IH]; cbn.
  - split; [intros _; apply not_elem_of_nil | done].
  - rewrite not_elem_of_cons. destruct (d =? c) eqn:E; zbool; [subst; naive_solver|].
    unfold osucc. rewrite fmap_None, IH. naive_solver.
Qed.

Lemma memchr_take p c n :
  0 <= n <= Z.of_nat (length p) -> memchr p c n = Some (first_index (take (Z.to_nat n) p) c).
Proof.
  revert n; induction p as [|d p IH]; intros n Hn; cbn [memchr].
  - cbn in Hn. replace n with 0 by lia. reflexivity.
  - destruct (n <=? 0) eqn:E; zbool; [now replace n with 0 by lia|].
    replace (Z.to_nat n) with (S (Z.to_nat (n - 1))) by lia. cbn [take first_index].
    destruct (d =? c); [done|]. cbn [length] in Hn. rewrite IH by lia. reflexivity.
Qed.

Lemma memread_Some p n s :
  memread p n = Some s <-> 0 <= n <= Z.of_nat (length p) /\ s = take (Z.to_nat n) p.
Proof.
  unfold memread. case_if; zbool; split; [intros [= <-] | intros [_ ->] | done | ].
  - split; [lia|done].
  - done.
  - intros [? _]. apply andb_false_iff in E as []; zbool; lia.
Qed.

Lemma memread_take p n :
  0 <= n <= Z.of_nat (length p) -> memread p n = Some (take (Z.to_nat n) p).
Proof. intros H. now apply memread_Some. Qed.

Lemma memread_inv p n s :
  memread p n = Some s ->
  s = take (Z.to_nat n) p /\ Z.of_nat (length s) = n /\ 0 <= n <= Z.of_nat (length p).
Proof.
  unfold memread. intros H. case_if_in H; [|done]. zbool. injection H as <-.
  rewrite length_take. repeat split; lia.
Qed.

Lemma first_index_split l c :
  match first_index l c with
  | None => c ∉ l
  | Some i => exists pre post, l = pre ++ c :: post /\ i = Z.of_nat (length pre) /\ c ∉ pre
  end.
Proof.
  destruct (first_index l c) as [i|] eqn:E; [|by apply first_index_None in E].
  apply first_index_Some in E as (Hi & Hl & Hn). exists (take (Z.to_nat i) l), (drop (S (Z.to_nat i)) l).
  apply lookup_lt_Some in Hl as Hlt. rewrite length_take. split; [|split; [lia|done]].
  symmetry. now apply take_drop_middle.
Qed.

Lemma padd_drop p n :
  0 <= n <= Z.of_nat (length p) -> padd p n = Some (drop (Z.to_nat n) p).
Proof. intros H. unfold padd. case_if; [done|]. apply andb_false_iff in E as []; zbool; lia. Qed.

Lemma padd_Some p n q :
  padd p n = Some q -> 0 <= n <= Z.of_nat (length p) /\ q = drop (Z.to_nat n) p.
Proof. unfold padd. intros H. case_if_in H; [|done]. zbool. simplify_eq. split; [lia|done]. Qed.

(** [needle] occurs at position [i] of [s], byte by byte up to [eqc]. *)
Definition occurs_at (eqc : Z -> Z -> bool) (s needle : bytes) (i : nat) : Prop :=
  exists u v, drop i s = u ++ v /\ Forall2 (fun c d => eqc c d = true) u needle.

Lemma starts_by_cstr eqc p s q needle :
  (forall d, d <> 0 -> eqc 0 d = false) ->
  is_cstr p s -> is_cstr q needle ->
  exists b, starts_by eqc p q = Some b /\ (b = true <-> occurs_at eqc s needle 0).
Proof.
  intros H0. revert p s q. induction needle as [|d needle IH]; intros p s q Hp Hq.
  - apply is_cstr_nil in Hq as [r ->]. exists true. split; [done|]. split; [|done].
    intros _. exists [], s. split; [done | constructor].
  - apply is_cstr_cons in Hq as (q' & -> & Hd & Hq). cbn [starts_by].
    destruct (d =? 0) eqn:E; [lia|]. destruct s as [|c s].
    + apply is_cstr_nil in Hp as [r ->]. rewrite H0 by done. exists false. split; [done|].
      split; [done|]. intros (u & v & Hu & HF). inversion HF; subst. done.
    + apply is_cstr_cons in Hp as (p' & -> & Hc & Hp). destruct (eqc c d) eqn:Ec.
      * destruct (IH p' s q' Hp Hq) as (b & Hb & Hiff). exists b. split; [done|]. rewrite Hiff.
        split; intros (u & v & Hu & HF).
        -- exists (c :: u), v. rewrite drop_0 in *. cbn. split; [congruence | now constructor].
        -- inversion HF; subst. rewrite drop_0 in *. cbn in Hu. simplify_eq.
           exists l, v. split; [now rewrite drop_0 | done].
      * exists false. split; [done|]. split; [done|]. intros (u & v & Hu & HF).
        inversion HF; subst. rewrite drop_0 in Hu. cbn in Hu. simplify_eq. congruence.
Qed.

Lemma eq_cs_0 d : d <> 0 -> eq_cs 0 d = false.
Proof. intros; unfold eq_cs; apply Z.eqb_neq; lia. Qed.
Lemma eq_ci_0 d : d <> 0 -> eq_ci 0 d = false.
Proof. intros; unfold eq_ci, toupper; apply Z.eqb_neq; repeat case_if; zbool; lia. Qed.
#[export] Hint Resolve eq_cs_0 eq_ci_0 : mk.

Lemma occurs_at_S eqc c s needle i : occurs_at eqc (c :: s) needle (S i) <-> occurs_at eqc s needle i.
Proof. reflexivity. Qed.

(** [strstr] and [strcasestr] return the leftmost occurrence. *)
Lemma strstr_by_cstr eqc p s q needle :
  (forall d, d <> 0 -> eqc 0 d = false) -> is_cstr p s -> is_cstr q needle ->
  exists r, strstr_by eqc p q = Some r /\
    match r with
    | Some i => exists k, i = Z.of_nat k /\ (k <= length s)%nat /\ occurs_at eqc s needle k /\
                forall j, (j < k)%nat -> ~ occurs_at eqc s needle j
    | None => forall j, (j <= length s)%nat -> ~ occurs_at eqc s needle j
    end.
Proof.
  intros H0 Hp Hq. revert p Hp. induction s as [|c s IH]; intros p Hp.
  - destruct (starts_by_cstr eqc p [] q needle H0 Hp Hq) as (b & Hb & Hiff).
    apply is_cstr_nil in Hp as [r ->]. cbn [strstr_by]. rewrite Hb. cbn. destruct b.
    + exists (Some 0). split; [done|]. exists 0%nat. repeat split; [lia | by apply Hiff | lia].
    + exists None. split; [done|]. intros j Hj. replace j with 0%nat by (cbn in Hj; lia).
      rewrite <- Hiff. done.
  - destruct (starts_by_cstr eqc p (c :: s) q needle H0 Hp Hq) as (b & Hb & Hiff).
    apply is_cstr_cons in Hp as (p' & -> & Hc & Hp). cbn [strstr_by]. rewrite Hb. cbn.
    destruct b.
    + exists (Some 0). split; [done|]. exists 0%nat. repeat split; [lia | by apply Hiff | lia].
    + destruct (c =? 0) eqn:E; [lia|]. destruct (IH p' Hp) as (r & Hr & Hspec). rewrite Hr. cbn.
      exists (osucc r). split; [done|]. destruct r as [i|]; cbn.
      * destruct Hspec as (k & -> & Hk & Hocc & Hmin). exists (S k). repeat split; [lia|cbn; lia|done|].
        intros [|j] Hj; [now rewrite <- Hiff | rewrite occurs_at_S; apply Hmin; lia].
      * intros [|j] Hj; [now rewrite <- Hiff | rewrite occurs_at_S; apply Hspec; cbn in Hj; lia].
Qed.

(** ** Comparing with a key *)

Lemma tolower_0 c : tolower c = 0 <-> c = 0.
Proof. unfold tolower. case_if; zbool; split; lia. Qed.

Lemma strncmp_by_spec f p s k r :
  (forall c, f c = 0 <-> c = 0) -> is_cstr p s -> 0 ∉ k ->
  exists c, strncmp_by f p (k ++ r) (Z.of_nat (length k)) = Some c /\
    (c = 0 <-> map f (take (length k) s) = map f k).
Proof.
  intros Hf. revert p s; induction k as [|d k IH]; intros p s Hp Hk.
  { exists 0. destruct p; done. }
  apply not_elem_of_cons in Hk as [Hd Hk]. cbn [app length].
  assert (Hn : (Z.of_nat (S (length k)) <=? 0) = false) by zb. destruct s as [|c s].
  - apply is_cstr_nil in Hp as [r' ->]. cbn [app strncmp_by take map]. rewrite Hn.
    assert (H1 : f 0 = 0) by now apply Hf. assert (H2 : f d <> 0) by (rewrite Hf; congruence).
    destruct (f 0 =? f d) eqn:E; cbn [negb]; zbool; [congruence|].
    eexists. split; [done|]. split; [lia|done].
  - apply is_cstr_cons in Hp as (p' & -> & Hc & Hp). cbn [strncmp_by take map]. rewrite Hn.
    destruct (f c =? f d) eqn:E; cbn [negb]; zbool.
    + replace (c =? 0) with false by lia. replace (Z.of_nat (S (length k)) - 1) with (Z.of_nat (length k)) by lia.
      destruct (IH p' s Hp Hk) as (v & Hv & Hiff). exists v. split; [done|]. rewrite Hiff, E.
      split; congruence.
    + eexists. split; [done|]. split; [lia | congruence].
Qed.

Lemma strncasecmp_spec p s k r :
  is_cstr p s -> 0 ∉ k ->
  exists c, strncasecmp p (k ++ r) (Z.of_nat (length k)) = Some c /\
    (c = 0 <-> map tolower (take (length k) s) = map tolower k).
Proof. apply strncmp_by_spec, tolower_0. Qed.

Lemma strncmp_spec p s k r :
  is_cstr p s -> 0 ∉ k ->
  exists c, strncmp p (k ++ r) (Z.of_nat (length k)) = Some c /\ (c = 0 <-> take (length k) s = k).
Proof.
  intros Hp Hk. destruct (strncmp_by_spec (fun c => c) p s k r) as (c & Hc & Hiff); [done..|].
  exists c. rewrite !map_id in Hiff. done.
Qed.

Lemma is_cstr_split p s : is_cstr p s -> p = s ++ drop (length s) p.
Proof. intros [[r ->] _]. now rewrite drop_app_length. Qed.

(** What follows the first part and one more character. *)
Lemma drop_S_app {A} (a b : list A) c n : n = S (length a) -> drop n (a ++ c :: b) = b.
Proof. intros ->. induction a; cbn; [now rewrite drop_0 | done]. Qed.

Lemma strcmp_cstr p s q t :
  is_cstr p s -> is_cstr q t -> exists c, strcmp p q = Some c /\ (c = 0 <-> s = t).
Proof.
  unfold strcmp. revert p q t; induction s as [|c s IH]; intros p q t Hp Hq.
  - apply is_cstr_nil in Hp as [r ->]. destruct t as [|d t].
    + apply is_cstr_nil in Hq as [r' ->]. exists 0. done.
    + apply is_cstr_cons in Hq as (q' & -> & Hd & _). cbn [strcmp_by].
      replace (0 =? d) with false by zb. exists (0 - d). split; [done|]. split; [lia|done].
  - apply is_cstr_cons in Hp as (p' & -> & Hc & Hp). destruct t as [|d t].
    + apply is_cstr_nil in Hq as [r' ->]. cbn [strcmp_by]. replace (c =? 0) with false by zb.
      exists (c - 0). split; [done|]. split; [lia|done].
    + apply is_cstr_cons in Hq as (q' & -> & Hd & Hq). cbn [strcmp_by].
      destruct (c =? d) eqn:E; cbn [negb]; zbool.
      * replace (c =? 0) with false by zb. destruct (IH _ _ _ Hp Hq) as (v & Hv & Hiff).
        exists v. split; [done|]. rewrite Hiff. split; [congruence | intros [= ? ?]; done].
      * exists (c - d). split; [done|]. split; [lia | intros [= ? ?]; done].
Qed.

(** The sign of a comparison is reversed with its operands. *)
Lemma strcmp_by_antisym f p s q t :
  (forall c, f c = 0 <-> c = 0) -> is_cstr p s -> is_cstr q t ->
  exists c, strcmp_by f p q = Some c /\ strcmp_by f q p = Some (- c) /\ (c = 0 <-> map f s = map f t).
Proof.
  intros Hf. assert (H0 : f 0 = 0) by now apply Hf.
  revert p q t; induction s as [|c s IH]; intros p q t Hp Hq.
  - apply is_cstr_nil in Hp as [r ->]. destruct t as [|d t].
    + apply is_cstr_nil in Hq as [r' ->]. exists 0. cbn. rewrite Z.eqb_refl. done.
    + apply is_cstr_cons in Hq as (q' & -> & Hd & _). cbn [strcmp_by]. rewrite H0.
      assert (Hfd : f d <> 0) by (rewrite Hf; congruence).
      replace (0 =? f d) with false by zb. replace (f d =? 0) with false by zb. cbn [negb].
      exists (- f d). split; [f_equal; lia|]. split; [f_equal; lia|]. split; [lia|done].
  - apply is_cstr_cons in Hp as (p' & -> & Hc & Hp). destruct t as [|d t].
    + apply is_cstr_nil in Hq as [r' ->]. cbn [strcmp_by]. rewrite H0.
      assert (Hfc : f c <> 0) by (rewrite Hf; congruence).
      replace (0 =? f c) with false by zb. replace (f c =? 0) with false by zb. cbn [negb].
      exists (f c). split; [f_equal; lia|]. split; [f_equal; lia|]. split; [lia|done].
    + apply is_cstr_cons in Hq as (q' & -> & Hd & Hq). cbn [strcmp_by].
      rewrite (Z.eqb_sym (f d)). destruct (f c =? f d) eqn:E; cbn [negb]; zbool.
      * replace (c =? 0) with false by zb. replace (d =? 0) with false by zb.
        destruct (IH _ _ _ Hp Hq) as (v & Hv & Hv' & Hiff). exists v. split; [done|]. split; [done|].
        cbn. rewrite Hiff. split; congruence.
      * exists (f c - f d). split; [done|]. split; [f_equal; lia|]. cbn. split; [lia|congruence].
Qed.

Lemma cstr_stop s r : cstr (s ++ 0 :: r) = cstr (s ++ [0]).
Proof. induction s as [|c s IH]; [done|]. cbn. now rewrite IH. Qed.

Lemma cstr_total s : exists t, cstr (s ++ [0]) = Some t.
Proof. induction s as [|c s [t IH]]; cbn; [eauto|]. case_if; [eauto|]. rewrite IH. cbn. eauto. Qed.

Lemma list_prefixb_spec pre l : list_prefixb pre l = true <-> exists r, l = pre ++ r.
Proof.
  revert l; induction pre as [|a pre IH]; intros l; cbn; [split; [eauto|done]|].
  destruct l as [|b l]; [split; [done|intros [r ?]; done]|].
  rewrite andb_true_iff, Z.eqb_eq, IH. split; [intros [-> [r ->]]; eauto|intros [r [= -> ->]]; eauto].
Qed.

Lemma list_infixb_spec needle l : list_infixb needle l = true <-> exists a b, l = a ++ needle ++ b.
Proof.
  induction l as [|c l IH]; cbn [list_infixb]; rewrite orb_true_iff, list_prefixb_spec.
  - split; [intros [[r H]|]; [by exists [], r|done]|]. intros (a & b & H). left. destruct a; [eauto|done].
  - rewrite IH. split.
    + intros [[r ->]|(a & b & ->)]; [by exists [], r|by exists (c :: a), b].
    + intros ([|a0 a] & b & H); [left; eauto|]. injection H as -> ->. right; eauto.
Qed.

(** ** Writing into a buffer *)

(** [n] bytes of a buffer replaced from an offset on; [None] out of it. *)
Definition bwrite (buf : bytes) (off : Z) (d : bytes) : option bytes :=
  if (0 <=? off) && (off + Z.of_nat (length d) <=? Z.of_nat (length buf))
  then Some (take (Z.to_nat off) buf ++ d ++ drop (Z.to_nat off + length d) buf) else None.

Lemma bwrite_ok buf off d :
  0 <= off -> off + Z.of_nat (length d) <= Z.of_nat (length buf) ->
  exists buf', bwrite buf off d = Some buf' /\ length buf' = length buf /\
    (forall s, take (length s) buf = s -> off = Z.of_nat (length s) -> take (length (s ++ d)) buf' = s ++ d) /\
    (forall i, (i < Z.to_nat off)%nat -> buf' !! i = buf !! i) /\
    (forall i, (i < length d)%nat -> buf' !! (Z.to_nat off + i)%nat = d !! i).
Proof.
  intros H1 H2. unfold bwrite. replace (_ && _) with true by zb. eexists. split; [reflexivity|]. split_and!.
  - rewrite !length_app, length_take, length_drop. lia.
  - intros s Hs ->. rewrite Nat2Z.id, Hs, app_assoc. now rewrite take_app_length.
  - intros i Hi. rewrite lookup_app_l by (rewrite length_take; lia). now rewrite lookup_take_lt.
  - intros i Hi. rewrite lookup_app_r by (rewrite length_take; lia). rewrite length_take.
    replace (Z.to_nat off + i - _)%nat with i by lia. now rewrite lookup_app_l.
Qed.

Lemma bwrite_length buf off d buf' : bwrite buf off d = Some buf' -> length buf' = length buf.
Proof.
  unfold bwrite. case_if; [|done]. zbool. intros [= <-]. rewrite !length_app, length_take, length_drop. lia.
Qed.

Lemma bwrite_out buf off d : Z.of_nat (length buf) < off + Z.of_nat (length d) -> bwrite buf off d = None.
Proof. intros H. unfold bwrite. now replace (_ && _) with false by zb. Qed.

(** Writing over a part of the same length. *)
Lemma bwrite_app (a b c d : bytes) off :
  off = Z.of_nat (length a) -> length b = length d -> bwrite (a ++ b ++ c) off d = Some (a ++ d ++ c).
Proof.
  intros -> Hl. unfold bwrite. rewrite !length_app. replace (_ && _) with true by zb.
  rewrite Nat2Z.id, take_app_length. do 3 f_equal.
  rewrite app_assoc, drop_app_length'; [done|]. rewrite length_app. lia.
Qed.

Lemma padd_app (d x : bytes) n : (n <= length d)%nat -> padd (d ++ x) (Z.of_nat n) = Some (drop n d ++ x).
Proof. intros H. unfold padd. rewrite length_app. replace (_ && _) with true by zb. now rewrite Nat2Z.id, drop_app_le. Qed.

(** A buffer seen as what precedes and follows [n] of its bytes. *)
Lemma buffer_split (buf : bytes) off n :
  0 <= off -> off + Z.of_nat n <= Z.of_nat (length buf) ->
  exists a b c : bytes, buf = a ++ b ++ c /\ off = Z.of_nat (length a) /\ length b = n.
Proof.
  intros H1 H2. exists (take (Z.to_nat off) buf), (take n (drop (Z.to_nat off) buf)), (drop n (drop (Z.to_nat off) buf)).
  rewrite !take_drop, !length_take, length_drop. split; [done|]. lia.
Qed.

(** The string that [snprintf] leaves in a buffer of [size] bytes. *)
Definition snprintf (size : Z) (text : bytes) : bytes := take (Z.to_nat (size - 1)) text.
