(* ===== verification/MkString.v ===== *)
(** * mk_string.c: searching, splitting, trimming and printing strings *)
From S2P Require Import Prelude CString.
Local Open Scope Z_scope.

(** ** Definitions *)

Definition MK_STR_SENSITIVE : Z := 0.
Definition MK_STR_INSENSITIVE : Z := 1.

(** The inner [while] of [_mk_string_search] and its [*s == 0] test: does
    [search] start at [p], under the comparison the mode selects? *)
Definition search_match (sensitive : Z) (search p : bytes) : option bool :=
  if sensitive =? MK_STR_SENSITIVE then starts_by eq_cs p search
  else if sensitive =? MK_STR_INSENSITIVE then starts_by eq_ci p search
  else c ← deref search; Some (c =? 0).

(** The [do ... while (star p++)] loop; [i] is both the counter and [p - string]. *)
Fixpoint search_loop (sensitive : Z) (search p : bytes) (i len : Z) : option Z :=
  b ← search_match sensitive search p;
  if b : bool then Some i
  else if len <=? i + 1 then Some (-1)
  else match p with
       | [] => None
       | c :: p' => if c =? 0 then Some (-1) else search_loop sensitive search p' (i + 1) len
       end.

Definition pos_or_minus1 (r : option Z) : Z := match r with Some i => i | None => -1 end.

Definition _mk_string_search (string search : bytes) (sensitive len : Z) : option Z :=
  if len <=? 0 then
    r ← (if sensitive =? MK_STR_SENSITIVE then strstr string search
         else if sensitive =? MK_STR_INSENSITIVE then strcasestr string search
         else Some None);
    Some (pos_or_minus1 r)
  else search_loop sensitive search string 0 len.

Definition mk_string_search (haystack needle : bytes) (sensitive : Z) : option Z :=
  _mk_string_search haystack needle sensitive (-1).
Definition mk_string_search_n (haystack needle : bytes) (sensitive len : Z) : option Z :=
  _mk_string_search haystack needle sensitive len.

Definition mk_string_char_search (string : bytes) (c len : Z) : option Z :=
  n ← (if len <? 0 then strlen string else Some len);
  r ← memchr string c n;
  Some (pos_or_minus1 r).

Definition mk_string_char_search_r (string : bytes) (c len : Z) : option Z :=
  n ← (if len <=? 0 then strlen string else Some len);
  r ← memrchr string c n;
  Some (pos_or_minus1 r).

Definition mk_string_casestr (heystack needle : option bytes) : option (option Z) :=
  match heystack, needle with
  | Some h, Some n => strcasestr h n
  | _, _ => Some None
  end.

Definition mk_string_dup (s : option bytes) : option (option bytes) :=
  match s with
  | None => Some None
  | Some p => t ← cstr p; Some (Some (t ++ [0]))
  end.

(** A fresh string (inner [None]: the NULL returned when [pos_init > pos_end]). *)
Definition mk_string_copy_substr (string : bytes) (pos_init pos_end : Z) : option (option bytes) :=
  if pos_end <? pos_init then Some None
  else q ← padd string pos_init; s ← memread q (pos_end - pos_init); Some (Some (s ++ [0])).

Record mk_string_line := { sl_val : option bytes; sl_len : Z }.

(** The loop of [mk_string_split_line]; each iteration advances [i]. *)
Fixpoint split_loop (fuel : nat) (line : bytes) (len i : Z) : option (list mk_string_line) :=
  match fuel with
  | O => None
  | S fuel =>
    if i <? len then
      q ← padd line i;
      e ← mk_string_char_search q 32 (len - i);
      if (0 <=? e) && (e + i <? len) then
        if i =? e + i then split_loop fuel line len (i + 1)
        else v ← mk_string_copy_substr line i (e + i);
             rest ← split_loop fuel line len (e + i + 1);
             Some ({| sl_val := v; sl_len := e |} :: rest)
      else v ← mk_string_copy_substr line i len;
           rest ← split_loop fuel line len (len + 1);
           Some ({| sl_val := v; sl_len := len - i |} :: rest)
    else Some []
  end.

Definition mk_string_split_line (line : option bytes) : option (option (list mk_string_line)) :=
  match line with
  | None => Some None
  | Some p => len ← strlen p; l ← split_loop (S (Z.to_nat len)) p len 0; Some (Some l)
  end.

(** [mk_string_build], given the text [out] the format expands to: a first
    [vsnprintf] into 64 bytes, and a second one into a grown buffer if it was
    cut. [vsnprintf] stores at most [alloc - 1] characters and a NUL. *)
Definition vsnprintf (alloc : Z) (out : bytes) : bytes * Z :=
  (take (Z.to_nat (alloc - 1)) out ++ [0], Z.of_nat (length out)).

Definition mk_string_build (out : bytes) : option (bytes * Z) :=
  let alloc := 64 in
  let '(buffer, length) := vsnprintf alloc out in
  let '(buffer, length) :=
    if alloc <=? u32 length then vsnprintf (length + 1) out else (buffer, length) in
  if length <? Z.of_nat (List.length buffer) then
    Some (<[Z.to_nat length := 0]> buffer, length)
  else None.

(** [mk_string_trim], on the buffer [*str]. *)
Fixpoint trim_left (buf : bytes) : option nat :=
  match buf with
  | [] => None
  | c :: buf' => if isspace c then S <$> trim_left buf' else Some 0%nat
  end.

(** [while (right != buf)]: moves [right] back over spaces. *)
Fixpoint trim_right (buf : bytes) (right : nat) : option nat :=
  match right with
  | O => Some 0%nat
  | S r => c ← buf !! right; if isspace c then trim_right buf r else Some right
  end.

(** [for (i = 0; i < len; i++) buf[i] = left[i]], [n] iterations from [i]. *)
Fixpoint trim_copy (n i left : nat) (buf : bytes) : option bytes :=
  match n with
  | O => Some buf
  | S n => c ← buf !! (left + i)%nat; trim_copy n (S i) left (<[i := c]> buf)
  end.

Definition mk_string_trim (str : option bytes) : option (Z * option bytes) :=
  match str with
  | None => Some (-1, None)
  | Some buf =>
    len ← strlen buf;
    if len =? 0 then Some (0, Some buf)
    else
      left ← trim_left buf;
      let right := Z.to_nat (len - 1) in
      if (right <? left)%nat then Some (-1, Some (<[0%nat := 0]> buf))
      else
        right ← trim_right buf right;
        let n := (right - left + 1)%nat in
        buf ← trim_copy n 0 left buf;
        if (n <? length buf)%nat then Some (0, Some (<[n := 0]> buf)) else None
  end.

(** [mk_string_itop]: the digits, least significant first ([do ... while]). *)
Fixpoint itop_digits (fuel : nat) (uvalue : Z) : bytes :=
  match fuel with
  | O => []
  | S fuel => (48 + uvalue mod 10) :: (if uvalue / 10 =? 0 then [] else itop_digits fuel (uvalue / 10))
  end.

(** The [while (end > begin)] swap loop. *)
Fixpoint itop_reverse (fuel : nat) (l : bytes) (b e : nat) : bytes :=
  match fuel with
  | O => l
  | S fuel =>
    if (b <? e)%nat then
      match l !! b, l !! e with
      | Some x, Some y => itop_reverse fuel (<[b := y]> (<[e := x]> l)) (S b) (Nat.pred e)
      | _, _ => l
      end
    else l
  end.

(** Writes the text at the start of the buffer [data] of the pointer and
    returns the buffer with the pointer's new [len]; [None] when the text does
    not fit, or for INT_MIN, whose negation overflows. *)
Definition mk_string_itop (value : Z) (data : bytes) : option (bytes * Z) :=
  if value =? - 2 ^ 31 then None else
  let uvalue := u32 (if value <? 0 then - value else value) in
  let w := itop_digits 10 uvalue ++ (if value <? 0 then [45] else []) in
  let w := itop_reverse (length w) w 0 (length w - 1) in
  let out := w ++ [13; 10; 0] in
  if (length out <=? length data)%nat then
    Some (out ++ drop (length out) data, Z.of_nat (length out) - 1)
  else None.

Definition mk_string_tolower (p : bytes) : option bytes :=
  s ← cstr p; Some (map tolower s ++ [0]).

(** ** Searching *)

(** The comparison a mode selects. *)
Definition mode_eqc (sensitive : Z) : option (Z -> Z -> bool) :=
  if sensitive =? MK_STR_SENSITIVE then Some eq_cs
  else if sensitive =? MK_STR_INSENSITIVE then Some eq_ci else None.

(** The positions a search limited to [len] bytes looks at ([len <= 0]: all). *)
Definition in_window (len : Z) (s : bytes) (k : nat) : Prop :=
  (k <= length s)%nat /\ (0 < len -> Z.of_nat k < len).

(** [r] is the leftmost position of the window where [needle] occurs, or -1. *)
Definition leftmost (eqc : Z -> Z -> bool) (s needle : bytes) (len r : Z) : Prop :=
  (exists k, r = Z.of_nat k /\ in_window len s k /\ occurs_at eqc s needle k /\
             forall j, (j < k)%nat -> ~ occurs_at eqc s needle j) \/
  (r = -1 /\ forall j, in_window len s j -> ~ occurs_at eqc s needle j).

Lemma mode_eqc_spec mode eqc p :
  mode_eqc mode = Some eqc ->
  (forall d, d <> 0 -> eqc 0 d = false) /\ forall q, search_match mode q p = starts_by eqc p q.
Proof.
  unfold mode_eqc, search_match. intros H.
  destruct (mode =? MK_STR_SENSITIVE); [simplify_eq; auto with mk|].
  destruct (mode =? MK_STR_INSENSITIVE); [simplify_eq; auto with mk | done].
Qed.

Lemma search_loop_spec mode eqc q needle s p i len :
  mode_eqc mode = Some eqc -> is_cstr p s -> is_cstr q needle -> 0 <= i < len ->
  exists r, search_loop mode q p i len = Some r /\
    ((exists k, r = i + Z.of_nat k /\ in_window (len - i) s k /\ occurs_at eqc s needle k /\
                forall j, (j < k)%nat -> ~ occurs_at eqc s needle j) \/
     (r = -1 /\ forall j, in_window (len - i) s j -> ~ occurs_at eqc s needle j)).
Proof.
  intros Hm Hp Hq. revert p i Hp. induction s as [|c s IH]; intros p i Hp Hi.
  - destruct (mode_eqc_spec mode eqc p Hm) as [H0 Hs].
    destruct (starts_by_cstr eqc p [] q needle H0 Hp Hq) as (b & Hb & Hiff).
    apply is_cstr_nil in Hp as [t ->]. cbn [search_loop]. rewrite Hs, Hb. cbn.
    destruct b.
    + exists i. split; [done|]. left. exists 0%nat.
      repeat split; [lia | lia | lia | by apply Hiff | lia].
    + exists (-1). split; [by case_if|]. right. split; [done|].
      intros j [Hj _]. replace j with 0%nat by (cbn in Hj; lia). now rewrite <- Hiff.
  - destruct (mode_eqc_spec mode eqc p Hm) as [H0 Hs].
    destruct (starts_by_cstr eqc p (c :: s) q needle H0 Hp Hq) as (b & Hb & Hiff).
    apply is_cstr_cons in Hp as (p' & -> & Hc & Hp). cbn [search_loop]. rewrite Hs, Hb. cbn.
    destruct b.
    + exists i. split; [done|]. left. exists 0%nat.
      repeat split; [lia | cbn; lia | lia | by apply Hiff | lia].
    + destruct (len <=? i + 1) eqn:El; zbool.
      * exists (-1). split; [done|]. right. split; [done|]. intros j [_ Hj].
        replace j with 0%nat by lia. now rewrite <- Hiff.
      * destruct (c =? 0) eqn:E; [zbool; lia|].
        destruct (IH p' (i + 1) Hp ltac:(lia)) as (r & Hr & Hspec). exists r. split; [done|].
        destruct Hspec as [(k & -> & [Hk1 Hk2] & Hocc & Hmin) | [-> Hno]].
        -- left. exists (S k). repeat split; [lia | cbn; lia | lia | done |].
           intros [|j] Hj; [now rewrite <- Hiff | rewrite occurs_at_S; apply Hmin; lia].
        -- right. split; [done|]. intros [|j] [Hj1 Hj2]; [now rewrite <- Hiff|].
           rewrite occurs_at_S. apply Hno. split; [cbn in Hj1; lia | intros; lia].
Qed.

(** On NUL-terminated strings [mk_string_search_n] is memory safe and
    returns the leftmost position, among the first [len] ones (all of them
    when [len <= 0]), where the needle occurs under the comparison the mode
    selects, and -1 when there is none. *)
Theorem mk_string_search_n_leftmost mode eqc p s q needle len :
  mode_eqc mode = Some eqc -> is_cstr p s -> is_cstr q needle ->
  exists r, mk_string_search_n p q mode len = Some r /\ leftmost eqc s needle len r.
Proof.
  intros Hm Hp Hq. unfold mk_string_search_n, _mk_string_search.
  destruct (len <=? 0) eqn:El; zbool.
  - destruct (mode_eqc_spec mode eqc p Hm) as [H0 _].
    destruct (strstr_by_cstr eqc p s q needle H0 Hp Hq) as (r & Hr & Hspec).
    exists (pos_or_minus1 r). split.
    + revert Hm. unfold mode_eqc, strstr, strcasestr.
      destruct (mode =? MK_STR_SENSITIVE); [intros [= ->]; now rewrite Hr|].
      destruct (mode =? MK_STR_INSENSITIVE); [intros [= ->]; now rewrite Hr | done].
    + destruct r as [i|]; cbn.
      * destruct Hspec as (k & -> & Hk & Hocc & Hmin). left. exists k. repeat split; auto; lia.
      * right. split; [done|]. intros j [Hj _]. auto.
  - destruct (search_loop_spec mode eqc q needle s p 0 len Hm Hp Hq ltac:(lia)) as (r & Hr & Hs).
    exists r. split; [done|]. rewrite Z.sub_0_r in Hs. exact Hs.
Qed.

Lemma mk_string_search_n_witness :
  exists r, mk_string_search_n (clit "Keep-Alive") (clit "alive") MK_STR_INSENSITIVE 10 = Some r /\
            leftmost eq_ci (lit "Keep-Alive") (lit "alive") 10 r.
Proof.
  apply (mk_string_search_n_leftmost MK_STR_INSENSITIVE eq_ci);
    [reflexivity | apply is_cstr_clit; decide_closed | apply is_cstr_clit; decide_closed].
Defined.

Lemma mk_string_char_search_spec p c len :
  0 <= len <= Z.of_nat (length p) ->
  mk_string_char_search p c len =
  Some (pos_or_minus1 (first_index (take (Z.to_nat len) p) c)).
Proof.
  intros H. unfold mk_string_char_search. destruct (len <? 0) eqn:E; zbool; [lia|].
  cbn. now rewrite memchr_take by done.
Qed.

Lemma copy_substr_take p a b :
  0 <= a <= b -> b <= Z.of_nat (length p) ->
  mk_string_copy_substr p a b =
  Some (Some (take (Z.to_nat (b - a)) (drop (Z.to_nat a) p) ++ [0])).
Proof.
  intros H1 H2. unfold mk_string_copy_substr. destruct (b <? a) eqn:E; zbool; [lia|].
  rewrite padd_drop by lia. cbn. rewrite memread_take by (rewrite length_drop_Z; lia). done.
Qed.
#[export] Hint Rewrite copy_substr_take mk_string_char_search_spec using lia : mk_string.

(** ** Splitting *)

Definition nonempty (l : bytes) : list bytes := match l with [] => [] | _ => [l] end.

(** The maximal runs of non-space characters of a line, in order. *)
Fixpoint words_aux (s cur : bytes) : list bytes :=
  match s with
  | [] => nonempty (rev cur)
  | c :: s' => if c =? 32 then nonempty (rev cur) ++ words_aux s' [] else words_aux s' (c :: cur)
  end.
Definition words (s : bytes) : list bytes := words_aux s [].

(** The list node [mk_string_split_line] builds for a word. *)
Definition word_line (w : bytes) : mk_string_line :=
  {| sl_val := Some (w ++ [0]); sl_len := Z.of_nat (length w) |}.

Lemma words_aux_unfold s cur :
  words_aux s cur =
  match first_index s 32 with
  | None => nonempty (rev cur ++ s)
  | Some k => nonempty (rev cur ++ take (Z.to_nat k) s) ++ words (drop (S (Z.to_nat k)) s)
  end.
Proof.
  revert cur; induction s as [|c s IH]; intros cur; cbn [words_aux first_index].
  - now rewrite app_nil_r.
  - destruct (c =? 32) eqn:E.
    + cbn. now rewrite app_nil_r.
    + rewrite IH. unfold osucc. destruct (first_index s 32) as [k|] eqn:Ek; cbn [fmap option_fmap option_map].
      * apply first_index_Some in Ek as (Hk & _).
        replace (Z.to_nat (Z.succ k)) with (S (Z.to_nat k)) by lia.
        cbn [rev take drop]. now rewrite <- app_assoc.
      * cbn [rev]. now rewrite <- app_assoc.
Qed.

Lemma words_unfold s :
  words s = match first_index s 32 with
            | None => nonempty s
            | Some k => nonempty (take (Z.to_nat k) s) ++ words (drop (S (Z.to_nat k)) s)
            end.
Proof. unfold words at 1. now rewrite words_aux_unfold. Qed.

Lemma nonempty_word_line w ws :
  0 < Z.of_nat (length w) ->
  map word_line (nonempty w ++ ws) =
  {| sl_val := Some (w ++ [0]); sl_len := Z.of_nat (length w) |} :: map word_line ws.
Proof. destruct w; cbn; [lia | done]. Qed.

Lemma first_index_bound l c k : first_index l c = Some k -> 0 <= k < Z.of_nat (length l).
Proof.
  intros H. apply first_index_Some in H as (H1 & H2 & _). apply lookup_lt_Some in H2. lia.
Qed.

Lemma take_drop_cstr (s r : bytes) i n :
  (i + n <= length s)%nat -> take n (drop i (s ++ r)) = take n (drop i s).
Proof.
  intros H. rewrite drop_app_le by lia. rewrite take_app_le; [done|]. rewrite length_drop. lia.
Qed.

Lemma split_loop_words fuel s r i :
  0 <= i -> 0 < Z.of_nat fuel -> Z.of_nat (length s) - i < Z.of_nat fuel ->
  split_loop fuel (s ++ 0 :: r) (Z.of_nat (length s)) i =
  Some (map word_line (words (drop (Z.to_nat i) s))).
Proof.
  revert i. induction fuel as [|fuel IH]; intros i Hi Hf0 Hf.
  - lia.
  - cbn [split_loop]. destruct (i <? Z.of_nat (length s)) eqn:E; zbool; cycle 1.
    { now rewrite drop_ge by lia. }
    assert (Hlen : Z.of_nat (length (s ++ 0 :: r)) = Z.of_nat (length s) + 1 + Z.of_nat (length r))
      by (rewrite length_app; cbn; lia).
    rewrite padd_drop by lia. mstep.
    rewrite mk_string_char_search_spec by (rewrite length_drop_Z; lia). mstep.
    rewrite take_drop_cstr by lia.
    rewrite take_ge by (rewrite length_drop; lia).
    rewrite (words_unfold (drop (Z.to_nat i) s)).
    destruct (first_index (drop (Z.to_nat i) s) 32) as [k|] eqn:Ek; cbn [pos_or_minus1].
    + apply first_index_bound in Ek as Hk. rewrite length_drop_Z in Hk.
      replace ((0 <=? k) && (k + i <? Z.of_nat (length s))) with true by lia.
      destruct (i =? k + i) eqn:E0; zbool.
      * rewrite IH by lia. replace k with 0 by lia.
        change (Z.to_nat 0) with 0%nat. cbn [take nonempty app].
        rewrite drop_drop. now replace (Z.to_nat (i + 1)) with (Z.to_nat i + 1)%nat by lia.
      * rewrite copy_substr_take by lia. mstep. rewrite IH by lia.
        mstep. f_equal. rewrite take_drop_cstr by lia.
        rewrite drop_drop. replace (Z.to_nat (k + i - i)) with (Z.to_nat k) by lia.
        replace (Z.to_nat i + S (Z.to_nat k))%nat with (Z.to_nat (k + i + 1)) by lia.
        assert (Hw : Z.of_nat (length (take (Z.to_nat k) (drop (Z.to_nat i) s))) = k)
          by (rewrite length_take, length_drop; lia).
        rewrite nonempty_word_line by lia. now rewrite Hw.
    + replace ((0 <=? -1) && (-1 + i <? Z.of_nat (length s))) with false by lia.
      rewrite copy_substr_take by lia. mstep. rewrite IH by lia.
      mstep. rewrite (drop_ge s (Z.to_nat (Z.of_nat (length s) + 1))) by lia.
      rewrite take_drop_cstr by lia. rewrite take_ge by (rewrite length_drop; lia). cbn [words words_aux nonempty rev map].
      assert (Hw : Z.of_nat (length (drop (Z.to_nat i) s)) = Z.of_nat (length s) - i)
        by (rewrite length_drop; lia).
      rewrite <- (app_nil_r (nonempty _)), nonempty_word_line by lia. now rewrite Hw.
Qed.

(** [mk_string_split_line] terminates on every NUL-terminated line and
    returns exactly its space-separated words, in order, each as a fresh
    string with its length; a line of spaces only gives the empty list. *)
Theorem mk_string_split_line_words p s :
  is_cstr p s ->
  mk_string_split_line (Some p) = Some (Some (map word_line (words s))).
Proof.
  intros Hp. unfold mk_string_split_line. rewrite (strlen_cstr _ _ Hp). mstep.
  destruct Hp as [[r ->] _]. rewrite Nat2Z.id. now rewrite split_loop_words by lia.
Qed.

Lemma mk_string_split_line_witness :
  mk_string_split_line (Some (clit " a.html  b ")) =
  Some (Some [word_line (lit "a.html"); word_line (lit "b")]).
Proof.
  refine (mk_string_split_line_words (clit " a.html  b ") (lit " a.html  b ") _).
  apply is_cstr_clit; decide_closed.
Defined.

(** ** Trimming *)

(** Specification: drop the leading, then the trailing, spaces. *)
Fixpoint dropspace (s : bytes) : bytes :=
  match s with [] => [] | c :: s' => if isspace c then dropspace s' else s end.
Definition trimmed (s : bytes) : bytes := rev (dropspace (rev (dropspace s))).

Lemma dropspace_length s : (length (dropspace s) <= length s)%nat.
Proof. induction s as [|c s IH]; cbn; [lia|]. case_if; cbn; lia. Qed.

Lemma trim_left_spec s r :
  trim_left (s ++ 0 :: r) = Some (length s - length (dropspace s))%nat.
Proof.
  induction s as [|c s IH]; cbn; [done|]. destruct (isspace c) eqn:E.
  - rewrite IH. pose proof (dropspace_length s). mstep. f_equal; lia.
  - cbn [length]. f_equal. lia.
Qed.


Lemma dropspace_drop s : dropspace s = drop (length s - length (dropspace s)) s.
Proof.
  induction s as [|c s IH]; cbn; [done|]. case_if.
  - pose proof (dropspace_length s). replace (S (length s) - length (dropspace s))%nat
      with (S (length s - length (dropspace s))) by lia. exact IH.
  - cbn [length]. replace (S (length s) - S (length s))%nat with 0%nat by lia. done.
Qed.

(** [right] walks back from [m + k] to the last position that is not a space. *)
Lemma trim_right_at buf m k c :
  buf !! m = Some c -> isspace c = false ->
  (forall j, (m < j <= m + k)%nat -> exists d, buf !! j = Some d /\ isspace d = true) ->
  trim_right buf (m + k) = Some m.
Proof.
  intros Hm Hc. induction k as [|k IH]; intros Hsp.
  - rewrite Nat.add_0_r. destruct m as [|m]; [done|]. cbn [trim_right]. rewrite Hm. mstep.
    now rewrite Hc.
  - rewrite Nat.add_succ_r. cbn [trim_right].
    destruct (Hsp (S (m + k)) ltac:(lia)) as (d & -> & Hd). mstep. rewrite Hd.
    apply IH. intros j Hj. apply Hsp. lia.
Qed.

Lemma dropspace_split l :
  exists sp, l = sp ++ dropspace l /\ Forall (fun c => isspace c = true) sp.
Proof.
  induction l as [|c l (sp & Hl & Hsp)]; [by exists []|]. cbn [dropspace]. case_if.
  - exists (c :: sp). cbn. split; [congruence | now constructor].
  - by exists [].
Qed.

Lemma dropspace_head l c l' : dropspace l = c :: l' -> isspace c = false.
Proof. induction l as [|d l IH]; cbn [dropspace]; [done|]. case_if; [exact IH | congruence]. Qed.

(** A string whose first character is not a space is its trimmed part, which
    ends in a non-space, followed by spaces. *)
Lemma dropspace_decompose s c w :
  dropspace s = c :: w ->
  exists t d sp, trimmed s = t ++ [d] /\ isspace d = false /\
                 dropspace s = (t ++ [d]) ++ sp /\ Forall (fun c => isspace c = true) sp.
Proof.
  intros Hw. unfold trimmed. destruct (dropspace_split (rev (dropspace s))) as (sp & Hrev & Hsp).
  destruct (dropspace (rev (dropspace s))) as [|d t] eqn:Ed.
  - rewrite app_nil_r in Hrev. apply dropspace_head in Hw as Hc.
    assert (Hin : c ∈ rev (dropspace s)) by (rewrite elem_of_rev, Hw; left).
    rewrite Hrev in Hin. rewrite Forall_forall in Hsp. specialize (Hsp _ Hin). congruence.
  - exists (rev t), d, (rev sp). split; [done|].
    split; [now apply dropspace_head in Ed|]. split.
    + apply (f_equal (@rev Z)) in Hrev. rewrite rev_involutive, rev_app_distr in Hrev. exact Hrev.
    + rewrite Forall_forall in *. intros x Hx. apply Hsp.
      now rewrite elem_of_rev in Hx.
Qed.

Lemma insert_take_drop (b d : bytes) i c :
  (i < length b)%nat -> d !! i = Some c ->
  <[i := c]> (take i d ++ drop i b) = take (S i) d ++ drop (S i) b.
Proof.
  intros Hb Hd. apply lookup_lt_Some in Hd as Hl.
  destruct (lookup_lt_is_Some_2 b i Hb) as [x Hx].
  assert (Hi : length (take i d) = i) by (rewrite length_take; lia).
  rewrite insert_app_r_alt by lia. rewrite Hi, Nat.sub_diag, (drop_S _ _ _ Hx). cbn [insert list_insert].
  rewrite (take_S_r _ _ _ Hd), <- app_assoc. done.
Qed.

(** The copy loop works in place: it reads ahead of what it writes. *)
Lemma trim_copy_spec b left n i :
  (left + i + n <= length b)%nat ->
  trim_copy n i left (take i (drop left b) ++ drop i b) =
  Some (take (i + n) (drop left b) ++ drop (i + n) b).
Proof.
  revert i. induction n as [|n IH]; intros i H; cbn [trim_copy].
  - now rewrite Nat.add_0_r.
  - destruct (lookup_lt_is_Some_2 (drop left b) i) as [c Hc]; [rewrite length_drop; lia|].
    assert (Hi : length (take i (drop left b)) = i) by (rewrite length_take, length_drop; lia).
    rewrite lookup_app_r, Hi, lookup_drop by lia.
    replace (i + (left + i - i))%nat with (left + i)%nat by lia.
    rewrite lookup_drop in Hc. rewrite Hc. mstep.
    rewrite insert_take_drop by (rewrite ?lookup_drop; auto with lia).
    rewrite IH by lia. now rewrite Nat.add_succ_r.
Qed.

Lemma trimmed_nil s : trimmed s = [] <-> dropspace s = [].
Proof.
  split; intros H.
  - destruct (dropspace s) as [|c w] eqn:E; [done|].
    destruct (dropspace_decompose s c w E) as (t & d & sp & Ht & _). rewrite H in Ht. now destruct t.
  - unfold trimmed. now rewrite H.
Qed.

Lemma mk_string_trim_nonblank s r c w :
  dropspace s = c :: w -> 0 ∉ s ->
  mk_string_trim (Some (s ++ 0 :: r)) =
  Some (0, Some (trimmed s ++ 0 :: drop (S (length (trimmed s))) (s ++ 0 :: r))).
Proof.
  intros Hw H0. set (b := s ++ 0 :: r).
  destruct (dropspace_decompose s c w Hw) as (t & d & sp & Ht & Hd & Hs & Hsp).
  pose proof (dropspace_length s) as Hle. pose proof (dropspace_drop s) as Hdrop.
  set (left := (length s - length (dropspace s))%nat) in *.
  assert (Hlen : length (dropspace s) = (S (length t) + length sp)%nat)
    by (rewrite Hs, !length_app; cbn; lia).
  assert (Hb : drop left b = (t ++ [d]) ++ sp ++ 0 :: r).
  { unfold b. rewrite drop_app_le by lia. rewrite <- Hdrop, Hs. now rewrite <- !app_assoc. }
  assert (Hlb : length b = (length s + S (length r))%nat) by (unfold b; rewrite length_app; done).
  assert (Hlook : forall j, b !! (left + j)%nat = ((t ++ [d]) ++ sp ++ 0 :: r) !! j)
    by (intros j; now rewrite <- Hb, lookup_drop).
  unfold mk_string_trim. rewrite (strlen_cstr b s) by (split; [now exists r|done]). mstep.
  destruct (Z.of_nat (length s) =? 0) eqn:E; zbool; [lia|].
  assert (Htl : trim_left b = Some left) by apply trim_left_spec. rewrite Htl. mstep.
  destruct (Nat.ltb_spec (Z.to_nat (Z.of_nat (length s) - 1)) left) as [|_]; [lia|].
  replace (Z.to_nat (Z.of_nat (length s) - 1)) with (left + length t + length sp)%nat by lia.
  rewrite (trim_right_at b (left + length t) (length sp) d); [|..|done|]; cycle 1.
  { rewrite Hlook. rewrite lookup_app_l by (rewrite length_app; cbn; lia).
    rewrite lookup_app_r by lia. now rewrite Nat.sub_diag. }
  { intros j Hj. replace j with (left + (j - left))%nat by lia. rewrite Hlook.
    rewrite lookup_app_r by (rewrite length_app; cbn; lia).
    rewrite lookup_app_l by (rewrite length_app; cbn; lia).
    destruct (lookup_lt_is_Some_2 sp (j - left - length (t ++ [d]))) as [x Hx];
      [rewrite length_app; cbn; lia|].
    exists x. split; [done|]. rewrite Forall_forall in Hsp. eapply Hsp, list_elem_of_lookup_2, Hx. }
  mstep. replace (left + length t - left + 1)%nat with (S (length t)) by lia.
  pose proof (trim_copy_spec b left (S (length t)) 0 ltac:(lia)) as Hcopy.
  change (trim_copy (S (length t)) 0 left b =
          Some (take (S (length t)) (drop left b) ++ drop (S (length t)) b)) in Hcopy.
  rewrite Hcopy. mstep.
  assert (Htk : take (S (length t)) (drop left b) = t ++ [d]).
  { rewrite Hb. rewrite take_app_length' by (rewrite length_app; cbn; lia). done. }
  rewrite Htk, Ht. assert (Hltd : length (t ++ [d]) = S (length t)) by (rewrite length_app; cbn; lia).
  destruct (Nat.ltb_spec (S (length t)) (length ((t ++ [d]) ++ drop (S (length t)) b))) as [_|Hf];
    [|rewrite length_app, length_drop in Hf; lia].
  do 3 f_equal. rewrite insert_app_r_alt by lia. rewrite Hltd, Nat.sub_diag.
  destruct (lookup_lt_is_Some_2 b (S (length t))) as [x Hx]; [lia|].
  now rewrite (drop_S _ _ _ Hx).
Qed.

(** [mk_string_trim] on a string with characters strips exactly its leading
    and trailing spaces, in place: it returns 0 and the same buffer holding the
    trimmed string, or -1 and the empty string when there are only spaces. *)
Theorem mk_string_trim_spec p s :
  is_cstr p s -> s <> [] ->
  exists ret p', mk_string_trim (Some p) = Some (ret, Some p') /\
    is_cstr p' (trimmed s) /\ length p' = length p /\
    ret = (if decide (trimmed s = []) then -1 else 0).
Proof.
  intros [[r ->] H0] Hne. destruct (dropspace s) as [|c w] eqn:Ew.
  - assert (Ht : trimmed s = []) by now apply trimmed_nil.
    exists (-1), (<[0%nat := 0]> (s ++ 0 :: r)).
    rewrite Ht. rewrite decide_True by done. split; [|split; [|split; [apply length_insert|done]]].
    + unfold mk_string_trim. rewrite (strlen_cstr _ s) by (split; [now exists r|done]). mstep.
      destruct s as [|c s]; [done|]. destruct (Z.of_nat (length (c :: s)) =? 0) eqn:E; zbool; [done|].
      rewrite trim_left_spec, Ew. mstep.
      change (length (@nil Z)) with 0%nat.
      destruct (Nat.ltb_spec (Z.to_nat (Z.of_nat (length (c :: s)) - 1)) (length (c :: s) - 0));
        [done | cbn [length] in *; lia].
    + destruct s as [|c s]; [done|]. apply is_cstr_nil. by exists (s ++ 0 :: r).
  - exists 0. eexists. split; [exact (mk_string_trim_nonblank s r c w Ew H0)|].
    destruct (dropspace_decompose s c w Ew) as (t & d & sp & Ht & Hd & Hs & Hsp).
    assert (Hin : forall x, x ∈ trimmed s -> x ∈ s).
    { intros x Hx. rewrite Ht in Hx. destruct (dropspace_split s) as (sp' & -> & _).
      rewrite Hs. apply elem_of_app; right. now apply elem_of_app; left. }
    pose proof (dropspace_length s) as Hle.
    assert (length (trimmed s) <= length s)%nat by (rewrite Hs in Hle; rewrite Ht; rewrite !length_app in *; lia).
    split; [|split].
    + split; [by eexists|]. intros Hx. now apply H0, Hin.
    + rewrite !length_app. cbn [length]. rewrite length_drop, !length_app. cbn. lia.
    + rewrite decide_False; [done|]. rewrite Ht. now destruct t.
Qed.

Lemma mk_string_trim_witness :
  exists ret p', mk_string_trim (Some (clit " on ")) = Some (ret, Some p') /\
    is_cstr p' (trimmed (lit " on ")) /\ length p' = length (clit " on ") /\
    ret = (if decide (trimmed (lit " on ") = []) then -1 else 0).
Proof. apply mk_string_trim_spec; [apply is_cstr_clit; decide_closed | done]. Defined.

(** ** Integers as text *)

Lemma itop_reverse_swap l b e fuel x y pre mid post :
  (b < e)%nat -> l = pre ++ [x] ++ mid ++ [y] ++ post ->
  length pre = b -> length (pre ++ [x] ++ mid) = e ->
  itop_reverse (S fuel) l b e =
  itop_reverse fuel (pre ++ [y] ++ mid ++ [x] ++ post) (S b) (Nat.pred e).
Proof.
  intros Hlt -> <- <-. cbn [itop_reverse]. rewrite !length_app in *. cbn [length] in *.
  destruct (Nat.ltb_spec (length pre) (length pre + (1 + length mid))) as [_|]; [|lia].
  rewrite lookup_app_r, Nat.sub_diag by lia. cbn [app lookup list_lookup].
  rewrite lookup_app_r by lia.
  replace (length pre + (1 + length mid) - length pre)%nat with (S (length mid)) by lia.
  change ((x :: mid ++ y :: post) !! S (length mid)) with ((mid ++ y :: post) !! length mid).
  rewrite lookup_app_r, Nat.sub_diag by lia. cbn [lookup list_lookup].
  f_equal. rewrite (insert_app_r_alt pre) by lia.
  replace (length pre + (1 + length mid) - length pre)%nat with (S (length mid)) by lia.
  cbn [app insert list_insert]. rewrite (insert_app_r_alt mid) by lia. rewrite Nat.sub_diag.
  cbn [insert list_insert]. rewrite insert_app_r_alt by lia. now rewrite Nat.sub_diag.
Qed.

Lemma itop_reverse_done fuel l b e : (e <= b)%nat -> itop_reverse fuel l b e = l.
Proof. destruct fuel; cbn [itop_reverse]; [done|]. destruct (Nat.ltb_spec b e); [lia|done]. Qed.

(** The swap loop reverses what lies between its two indices. *)
Lemma itop_reverse_rev n : forall mid pre post fuel, (length mid <= n)%nat -> (length mid <= fuel)%nat ->
  itop_reverse fuel (pre ++ mid ++ post) (length pre) (length pre + length mid - 1) =
  pre ++ rev mid ++ post.
Proof.
  induction n as [|n IH]; intros mid pre post fuel Hn Hf.
  - destruct mid; [|cbn in Hn; lia]. apply itop_reverse_done; cbn; lia.
  - destruct mid as [|x mid]; [apply (IH [] pre post fuel); cbn; lia|].
    destruct mid as [|y mid] using rev_ind.
    + apply itop_reverse_done; cbn; lia.
    + clear IHmid. cbn [length] in *. rewrite !length_app in *. cbn [length] in *.
      destruct fuel as [|fuel]; [lia|].
      rewrite (itop_reverse_swap _ _ _ fuel x y pre mid post);
        [| lia | cbn; now rewrite <- !app_assoc | done | rewrite !length_app; cbn; lia].
      specialize (IH mid (pre ++ [y]) ([x] ++ post) fuel ltac:(lia) ltac:(lia)).
      rewrite length_app in IH. cbn [length] in IH.
      replace (S (length pre)) with (length pre + 1)%nat by lia.
      replace (Nat.pred (length pre + S (length mid + 1) - 1))
        with (length pre + 1 + length mid - 1)%nat by lia.
      rewrite <- !app_assoc in IH. rewrite IH. cbn [app rev]. rewrite rev_app_distr. cbn.
      now rewrite <- !app_assoc.
Qed.

Lemma itop_digits_length fuel u : (length (itop_digits fuel u) <= fuel)%nat.
Proof. revert u; induction fuel as [|fuel IH]; intros u; cbn; [lia|]. case_if; cbn; [lia|]. specialize (IH (u / 10)). lia. Qed.

Lemma itop_digits_digit fuel u : 0 <= u -> Forall (fun c => 48 <= c <= 57) (itop_digits fuel u).
Proof.
  revert u; induction fuel as [|fuel IH]; intros u Hu; cbn; [done|].
  pose proof (Z.mod_pos_bound u 10). constructor; [lia|]. case_if; [done|].
  apply IH. apply Z.div_pos; lia.
Qed.

(** The value of decimal digits read after [acc]. *)
Lemma strtol_digits_app l m acc :
  Forall (fun c => 48 <= c <= 57) l ->
  strtol_digits (l ++ m) acc = strtol_digits m (fold_left (fun a c => 10 * a + (c - 48)) l acc).
Proof.
  revert acc; induction l as [|c l IH]; intros acc H; [done|].
  apply Forall_cons in H as [Hc H]. cbn [app strtol_digits fold_left].
  unfold isdigit at 1. replace ((48 <=? c) && (c <=? 57)) with true by lia. now apply IH.
Qed.

(** Reading the digits, most significant first, gives the number back. *)
Lemma itop_digits_value fuel u :
  0 <= u < 10 ^ Z.of_nat fuel ->
  fold_left (fun a c => 10 * a + (c - 48)) (rev (itop_digits fuel u)) 0 = u.
Proof.
  revert u; induction fuel as [|fuel IH]; intros u Hu; [cbn in *; lia|].
  cbn [itop_digits]. pose proof (Z.div_mod u 10 ltac:(lia)) as Hdm. case_if; zbool.
  - cbn [rev app fold_left]. lia.
  - cbn [rev]. rewrite fold_left_app, IH; [cbn [fold_left]; lia|].
    split; [apply Z.div_pos; lia|]. apply Z.div_lt_upper_bound; [lia|].
    rewrite <- Z.pow_succ_r by lia. now replace (Z.succ (Z.of_nat fuel)) with (Z.of_nat (S fuel)) by lia.
Qed.

Lemma itop_digits_nonempty fuel u : (0 < fuel)%nat -> itop_digits fuel u <> [].
Proof. destruct fuel; [lia|done]. Qed.

(** The text [mk_string_itop] writes before the CRLF. *)
Definition itop_text (value : Z) : bytes :=
  (if value <? 0 then [45] else []) ++ rev (itop_digits 10 (Z.abs value)).

Lemma itop_text_length value : (length (itop_text value) <= 11)%nat.
Proof.
  unfold itop_text. rewrite length_app, length_rev. pose proof (itop_digits_length 10 (Z.abs value)). case_if; cbn [length]; lia.
Qed.

(** A buffer the text fits. *)
Lemma mk_string_itop_fit value data :
  - 2 ^ 31 < value < 2 ^ 31 -> (length (itop_text value) + 3 <= length data)%nat ->
  exists rest, mk_string_itop value data =
    Some (itop_text value ++ 13 :: 10 :: 0 :: rest, Z.of_nat (length (itop_text value)) + 2) /\
    (length (itop_text value) + 3 + length rest)%nat = length data.
Proof.
  intros Hv Hd. unfold mk_string_itop. unfold itop_text in *.
  destruct (value =? - 2 ^ 31) eqn:E; zbool; [lia|].
  assert (Hu : u32 (if value <? 0 then - value else value) = Z.abs value)
    by (case_if; zbool; rewrite u32_small; lia).
  rewrite Hu. set (w := itop_digits 10 (Z.abs value) ++ _).
  pose proof (itop_reverse_rev (length w) w [] [] (length w) ltac:(lia) ltac:(lia)) as Hrev.
  rewrite !app_nil_r in Hrev. cbn [app length Nat.add] in Hrev. rewrite Hrev.
  assert (Hw : rev w = (if value <? 0 then [45] else []) ++ rev (itop_digits 10 (Z.abs value)))
    by (unfold w; rewrite rev_app_distr; now case_if).
  rewrite Hw. set (t := (if value <? 0 then [45] else []) ++ _) in *.
  rewrite length_app. cbn [length].
  destruct (Nat.leb_spec (length t + 3) (length data)) as [_|]; [|lia].
  exists (drop (length t + 3) data). split; [|rewrite length_drop; lia].
  f_equal. f_equal; [now rewrite <- app_assoc | lia].
Qed.

Lemma mk_string_itop_text value data :
  - 2 ^ 31 < value < 2 ^ 31 -> 14 <= Z.of_nat (length data) ->
  exists rest, mk_string_itop value data =
    Some (itop_text value ++ 13 :: 10 :: 0 :: rest, Z.of_nat (length (itop_text value)) + 2) /\
    (length (itop_text value) + 3 + length rest)%nat = length data.
Proof. intros Hv Hd. apply mk_string_itop_fit; [done|]. pose proof (itop_text_length value). lia. Qed.

Lemma itop_text_atoi value c rest :
  - 2 ^ 31 < value < 2 ^ 31 -> isdigit c = false ->
  atoi (itop_text value ++ c :: rest) = Some value.
Proof.
  intros Hv Hc. unfold atoi, strtol, itop_text.
  pose proof (itop_digits_value 10 (Z.abs value) ltac:(lia)) as Hval.
  pose proof (itop_digits_digit 10 (Z.abs value) ltac:(lia)) as Hdig. apply Forall_rev in Hdig.
  assert (Hne : rev (itop_digits 10 (Z.abs value)) <> [])
    by (intros H; apply (f_equal (@rev Z)) in H; rewrite rev_involutive in H; by apply itop_digits_nonempty in H; [|lia]).
  set (ds := rev _) in *. clearbody ds.
  assert (Hstr : strtol_digits (ds ++ c :: rest) 0 = Some (Z.abs value))
    by (rewrite strtol_digits_app by done; cbn [strtol_digits]; now rewrite Hc, Hval).
  destruct (value <? 0) eqn:E; zbool; cbn [app].
  - cbn [skip_spaces]. replace (isspace 45) with false by reflexivity. mstep. cbn [head]. mstep.
    replace (45 =? 45) with true by reflexivity. cbn [tail]. rewrite Hstr. mstep.
    cbn. f_equal. unfold i32, LONG_MIN, LONG_MAX. rewrite Z.mod_small; lia.
  - destruct ds as [|d ds]; [done|]. apply Forall_cons in Hdig as [Hd _].
    cbn [app skip_spaces]. replace (isspace d) with false by (unfold isspace; lia).
    mstep. cbn [head]. mstep. replace (d =? 45) with false by lia. replace (d =? 43) with false by lia.
    cbn [app] in Hstr. rewrite Hstr. mstep.
    cbn. f_equal. unfold i32, LONG_MIN, LONG_MAX. rewrite Z.mod_small; lia.
Qed.

Lemma itop_text_strtol value rest :
  - 2 ^ 31 < value < 2 ^ 31 ->
  atoi (itop_text value ++ 13 :: rest) = Some value.
Proof. intros Hv. now apply itop_text_atoi. Qed.

(** For every [int] but [INT_MIN], [mk_string_itop] fits in the 16-byte
    buffers its callers give it (14 bytes are enough), writes within the
    buffer, ends the text with CRLF and NUL, sets [len] to the text with its
    CRLF, and [atoi] reads the number back. *)
Theorem mk_string_itop_roundtrip value data :
  - 2 ^ 31 < value < 2 ^ 31 -> 14 <= Z.of_nat (length data) ->
  exists data' len, mk_string_itop value data = Some (data', len) /\
    length data' = length data /\ atoi data' = Some value /\ 3 <= len <= 13 /\
    strlen data' = Some len /\ take 3 (drop (Z.to_nat len - 2) data') = [13; 10; 0].
Proof.
  intros Hv Hd. destruct (mk_string_itop_text value data Hv Hd) as (rest & Hr & Hlen).
  do 2 eexists. split; [exact Hr|].
  assert (Ht : (1 <= length (itop_text value) <= 11)%nat).
  { unfold itop_text. rewrite length_app, length_rev. pose proof (itop_digits_length 10 (Z.abs value)).
    pose proof (itop_digits_nonempty 10 (Z.abs value) ltac:(lia)).
    destruct (itop_digits 10 (Z.abs value)); [done|]. case_if; cbn [length] in *; lia. }
  split; [rewrite length_app; cbn; lia|]. split; [now apply itop_text_strtol|]. split; [lia|]. split.
  - rewrite (strlen_cstr _ (itop_text value ++ [13; 10])).
    + f_equal. rewrite length_app. cbn. lia.
    + split; [exists rest; now rewrite <- app_assoc|]. unfold itop_text.
      pose proof (itop_digits_digit 10 (Z.abs value) ltac:(lia)) as Hdig.
      rewrite !elem_of_app, elem_of_rev, Forall_forall in *. intros [[H|H]|H].
      * case_if_in H; rewrite list_elem_of_In in H; cbn in H; lia.
      * apply Hdig in H. lia.
      * rewrite list_elem_of_In in H. cbn in H. lia.
  - replace (Z.to_nat (Z.of_nat (length (itop_text value)) + 2) - 2)%nat
      with (length (itop_text value)) by lia.
    now rewrite drop_app_length.
Qed.

Lemma mk_string_itop_witness :
  exists data' len, mk_string_itop (-120) (replicate 16 0) = Some (data', len) /\
    length data' = length (replicate 16 0) /\ atoi data' = Some (-120) /\ 3 <= len <= 13 /\
    strlen data' = Some len /\ take 3 (drop (Z.to_nat len - 2) data') = [13; 10; 0].
Proof. apply (mk_string_itop_roundtrip (-120)); [lia | cbn; lia]. Defined.
