(* ===== verification/MkMemory.v ===== *)
(** * mk_memory.c and mk_iov.c: counted strings and output vectors

    Module [Pointer] models [mk_pointer], a pointer with a length; module
    [Iov] models the vector of buffers handed to [writev(2)]. *)
From S2P Require Import Prelude CString.
Local Open Scope Z_scope.

(** ** mk_pointer *)
Module Pointer.

(** [None] is the NULL pointer; [len] is an [unsigned long]. *)
Record mk_pointer := { data : option bytes; len : Z }.

Definition mk_pointer_reset : mk_pointer := {| data := None; len := 0 |}.

(** [buf + init], with the length 1 given to an empty range. *)
Definition mk_pointer_create (buf : bytes) (init end_ : Z) : option mk_pointer :=
  p ← padd buf init;
  Some {| data := Some p; len := if negb (init =? end_) then u64 (end_ - init) else 1 |}.

(** [free] and clearing of [len]; the [data] field keeps its dangling value. *)
Definition mk_pointer_free (p : mk_pointer) : mk_pointer := {| data := data p; len := 0 |}.

(** [memcpy] of no bytes takes any pointer. *)
Definition mk_pointer_to_buf (p : mk_pointer) : option bytes :=
  if len p =? 0 then Some [0] else q ← data p; s ← memread q (len p); Some (s ++ [0]).

Definition mk_pointer_set (d : bytes) : option mk_pointer :=
  n ← strlen d; Some {| data := Some d; len := n |}.

(** A pointer to a string literal ([mk_pointer_init], [sizeof(a) - 1]). *)
Definition mk_pointer_init (s : string) : mk_pointer :=
  {| data := Some (clit s); len := Z.of_nat (String.length s) |}.

(** The bytes a pointer designates. *)
Definition view (p : mk_pointer) : option bytes := q ← data p; memread q (len p).
Arguments view : simpl never.

Lemma mk_pointer_create_view buf init end_ :
  0 <= init < end_ -> end_ <= Z.of_nat (length buf) -> Z.of_nat (length buf) < 2 ^ 64 ->
  exists p, mk_pointer_create buf init end_ = Some p /\ len p = end_ - init /\
    view p = Some (take (Z.to_nat (end_ - init)) (drop (Z.to_nat init) buf)).
Proof.
  intros Hi He Hb. unfold mk_pointer_create. rewrite padd_drop by lia. mstep. eexists. split; [done|].
  replace (negb (init =? end_)) with true by lia. cbn [len data]. rewrite u64_small by lia.
  split; [done|]. unfold view. cbn [len data]. mstep. apply memread_take. rewrite length_drop. lia.
Qed.

End Pointer.
Export Pointer.

(** ** mk_iov *)
Module Iov.

Record iovec := { iov_base : option bytes; iov_len : Z }.

(** [io] and [buf_to_free] have [size] cells; a cell is [None] before it is
    written. *)
Record mk_iov := {
  io : list (option iovec);
  buf_to_free : list (option bytes);
  iov_idx : Z;
  buf_idx : Z;
  size : Z;
  total_len : Z;
}.

Definition MK_IOV_FREE_BUF : Z := 1.
Definition MK_IOV_NOT_FREE_BUF : Z := 0.

Definition mk_iov_crlf : mk_pointer := {| data := Some [13; 10; 0]; len := 2 |}.
Definition mk_iov_lf : mk_pointer := {| data := Some [10; 0]; len := 1 |}.
Definition mk_iov_space : mk_pointer := mk_pointer_init " ".
Definition mk_iov_slash : mk_pointer := mk_pointer_init "/".
Definition mk_iov_none : mk_pointer := {| data := Some [0]; len := 0 |}.
Definition mk_iov_equal : mk_pointer := mk_pointer_init "=".

Definition empty_iovec : iovec := {| iov_base := None; iov_len := 0 |}.

(** A cell written in bounds; [None] is an out-of-bounds write. *)
Definition store {A} (l : list (option A)) (i : Z) (x : A) : option (list (option A)) :=
  if (0 <=? i) && (i <? Z.of_nat (length l)) then Some (<[Z.to_nat i := Some x]> l) else None.

Fixpoint zero_entries (n : nat) (i : Z) (l : list (option iovec)) : option (list (option iovec)) :=
  match n with
  | O => Some l
  | S n => l ← store l i empty_iovec; zero_entries n (i + 1) l
  end.

Definition mk_iov_create (n offset : Z) : option mk_iov :=
  let io := replicate (Z.to_nat n) None in
  io ← (if 0 <? offset then zero_entries (Z.to_nat offset) 0 io else Some io);
  Some {| io := io; buf_to_free := replicate (Z.to_nat n) None;
          iov_idx := offset; buf_idx := 0; size := n; total_len := 0 |}.

(** [realloc] keeps the cells that fit and leaves the new ones unwritten. *)
Definition resize_cells {A} (n : nat) (l : list (option A)) : list (option A) :=
  take n l ++ replicate (n - length l) None.

Definition mk_iov_realloc (m : mk_iov) (new_size : Z) : mk_iov :=
  {| io := resize_cells (Z.to_nat new_size) (io m);
     buf_to_free := resize_cells (Z.to_nat new_size) (buf_to_free m);
     iov_idx := iov_idx m; buf_idx := buf_idx m; size := new_size;
     total_len := total_len m |}.

Definition _mk_iov_set_free (m : mk_iov) (buf : bytes) : option mk_iov :=
  b ← store (buf_to_free m) (buf_idx m) buf;
  Some {| io := io m; buf_to_free := b; iov_idx := iov_idx m; buf_idx := buf_idx m + 1;
          size := size m; total_len := total_len m |}.

(** One cell appended at [iov_idx]. *)
Definition push (m : mk_iov) (base : option bytes) (n : Z) : option mk_iov :=
  l ← store (io m) (iov_idx m) {| iov_base := base; iov_len := u64 n |};
  Some {| io := l; buf_to_free := buf_to_free m; iov_idx := iov_idx m + 1;
          buf_idx := buf_idx m; size := size m; total_len := u64 (total_len m + n) |}.

(** Returns [None] on an out-of-bounds write, or when [mk_bug] stops the process. *)
Definition mk_iov_add_entry (m : mk_iov) (buf : option bytes) (n : Z) (sep : mk_pointer)
    (free : Z) : option (mk_iov * Z) :=
  m ← push m buf n;
  m ← (if 0 <? len sep then push m (data sep) (len sep) else Some m);
  m ← (if free =? MK_IOV_FREE_BUF then b ← buf; _mk_iov_set_free m b else Some m);
  if size m <? iov_idx m then None else Some (m, iov_idx m).

Definition mk_iov_set_entry (m : mk_iov) (buf : bytes) (n free idx : Z) : option mk_iov :=
  l ← store (io m) idx {| iov_base := Some buf; iov_len := u64 n |};
  let m := {| io := l; buf_to_free := buf_to_free m; iov_idx := iov_idx m;
              buf_idx := buf_idx m; size := size m; total_len := u64 (total_len m + n) |} in
  if free =? MK_IOV_FREE_BUF then _mk_iov_set_free m buf else Some m.

(** The bytes one cell contributes. *)
Definition cell_bytes (c : option iovec) : option bytes :=
  v ← c;
  if iov_len v =? 0 then Some [] else b ← iov_base v; memread b (iov_len v).

Fixpoint gather (l : list (option iovec)) : option bytes :=
  match l with
  | [] => Some []
  | c :: l => b ← cell_bytes c; r ← gather l; Some (b ++ r)
  end.

(** The bytes [writev(fd, io, iov_idx)] is given. *)
Definition mk_iov_data (m : mk_iov) : option bytes := gather (take (Z.to_nat (iov_idx m)) (io m)).

(** [writev] sends a prefix of those bytes, or fails; [sent] is its result. *)
Definition mk_iov_send (m : mk_iov) (sent : Z) : Z := if sent <? 0 then -1 else sent.

(** The buffers freed, and the vector reset ([total_len] keeps its value). *)
Definition mk_iov_free_marked (m : mk_iov) : list (option bytes) * mk_iov :=
  (take (Z.to_nat (buf_idx m)) (buf_to_free m),
   {| io := io m; buf_to_free := buf_to_free m; iov_idx := 0; buf_idx := 0;
      size := size m; total_len := total_len m |}).

Definition mk_iov_free (m : mk_iov) : list (option bytes) := fst (mk_iov_free_marked m).

(** *** Invariant and the data of a vector *)

(** A vector with [k] cells written, whose data is [d]. *)
Record iov_at (m : mk_iov) (d : bytes) (k : Z) : Prop := {
  at_io : Z.of_nat (length (io m)) = size m;
  at_free : Z.of_nat (length (buf_to_free m)) = size m;
  at_idx : iov_idx m = k;
  at_buf : 0 <= buf_idx m <= k;
  at_size : k <= size m;
  at_data : mk_iov_data m = Some d;
}.

(** Well-formed vector whose data is [d]: the cells below [iov_idx] are
    readable, [total_len] is the length of their concatenation. *)
Record iov_ok (m : mk_iov) (d : bytes) : Prop := {
  ok_at : iov_at m d (iov_idx m);
  ok_total : total_len m = Z.of_nat (length d);
}.

(** The [n] bytes from [buf] are [s]; no byte is read for an empty entry. *)
Definition reads (buf : option bytes) (n : Z) (s : bytes) : Prop :=
  Z.of_nat (length s) = n /\ n < 2 ^ 64 /\ (s = [] \/ exists b, buf = Some b /\ memread b n = Some s).

(** What one entry with its separator adds to the data. *)
Definition entry_cells (sep : mk_pointer) : Z := if 0 <? len sep then 2 else 1.

Lemma gather_app l1 l2 :
  gather (l1 ++ l2) = a ← gather l1; b ← gather l2; Some (a ++ b).
Proof.
  induction l1 as [|c l1 IH]; cbn [app gather]; [mstep; now destruct (gather l2)|].
  rewrite IH. destruct (cell_bytes c); mstep; [|done].
  destruct (gather l1); mstep; [|done]. destruct (gather l2); mstep; [|done]. now rewrite app_assoc.
Qed.

Lemma store_Some {A} (l : list (option A)) i x :
  0 <= i < Z.of_nat (length l) -> store l i x = Some (<[Z.to_nat i := Some x]> l).
Proof. intros H. unfold store. now replace ((0 <=? i) && _) with true by lia. Qed.

Lemma take_insert_snoc {A} (l : list A) n x :
  (n < length l)%nat -> take (S n) (<[n := x]> l) = take n l ++ [x].
Proof.
  intros H. rewrite (take_S_r _ _ x) by now apply list_lookup_insert_eq.
  now rewrite take_insert_ge by lia.
Qed.

Lemma cell_bytes_reads base n s :
  reads base n s -> cell_bytes (Some {| iov_base := base; iov_len := n |}) = Some s.
Proof.
  intros (Hl & _ & Hs). unfold cell_bytes. mstep. cbn [iov_len iov_base]. destruct (n =? 0) eqn:E; zbool.
  - destruct s; [done | cbn in Hl; lia].
  - destruct Hs as [->|(b & -> & Hb)]; [cbn in Hl; lia|]. exact Hb.
Qed.

Lemma push_at m d k base n s :
  iov_at m d k -> k < size m -> reads base n s ->
  exists m', push m base n = Some m' /\ iov_at m' (d ++ s) (k + 1) /\ size m' = size m /\
    buf_idx m' = buf_idx m /\ total_len m' = u64 (total_len m + n).
Proof.
  intros [Hio Hfr Hidx Hbuf Hsz Hdat] Hlt Hs. pose proof Hs as (Hls & Hn & _). unfold push.
  rewrite store_Some by lia. mstep. eexists. split; [done|]. split; [|done].
  split; cbn; [now rewrite length_insert | lia | lia | lia | lia | ].
  unfold mk_iov_data in *. cbn. replace (Z.to_nat (iov_idx m + 1)) with (S (Z.to_nat (iov_idx m))) by lia.
  rewrite take_insert_snoc, gather_app, Hdat by lia. mstep. cbn [gather].
  rewrite u64_small by lia. rewrite (cell_bytes_reads base n s Hs). mstep. now rewrite app_nil_r.
Qed.

Lemma set_free_at m d k b :
  iov_at m d k -> buf_idx m < k ->
  exists m', _mk_iov_set_free m b = Some m' /\ iov_at m' d k /\ size m' = size m /\ total_len m' = total_len m.
Proof.
  intros [Hio Hfr Hidx Hbuf Hsz Hdat] Hlt. unfold _mk_iov_set_free. rewrite store_Some by lia. mstep.
  eexists. split; [done|]. split; [|done]. split; cbn; [done | now rewrite length_insert | lia.. | done].
Qed.

(** While there is room, an entry and its separator are appended. *)
Lemma add_entry_at m d k buf n sep free s t :
  iov_at m d k -> k + entry_cells sep <= size m -> reads buf n s -> reads (data sep) (len sep) t ->
  (free = MK_IOV_FREE_BUF -> buf <> None) ->
  exists m', mk_iov_add_entry m buf n sep free = Some (m', k + entry_cells sep) /\
    iov_at m' (d ++ s ++ t) (k + entry_cells sep) /\ size m' = size m /\
    total_len m' = u64 (total_len m + n + len sep).
Proof.
  intros Hat Hroom Hs Ht Hfree. unfold mk_iov_add_entry, entry_cells in *. pose proof Ht as (Hlt & _ & _).
  destruct (push_at m d k buf n s Hat) as (m1 & -> & Hat1 & Hs1 & Hb1 & Ht1); [case_if_in Hroom; lia|done|]. mstep.
  assert (exists m2, (if 0 <? len sep then push m1 (data sep) (len sep) else Some m1) = Some m2 /\
    iov_at m2 (d ++ s ++ t) (k + (if 0 <? len sep then 2 else 1)) /\ size m2 = size m /\ buf_idx m2 = buf_idx m /\
    total_len m2 = u64 (total_len m + n + len sep)) as (m2 & -> & Hat2 & Hs2 & Hb2 & Ht2).
  { destruct (0 <? len sep) eqn:E; zbool.
    - destruct (push_at m1 (d ++ s) (k + 1) (data sep) (len sep) t Hat1) as (m2 & -> & Hat2 & Hs2 & Hb2 & Ht2);
        [lia|done|].
      exists m2. rewrite app_assoc. replace (k + 2) with (k + 1 + 1) by lia. split_and!; [done|done|lia|lia|].
      rewrite Ht2, Ht1. unfold u64. now rewrite Zplus_mod_idemp_l.
    - destruct t; [|cbn in Hlt; lia]. exists m1. rewrite app_nil_r. replace (len sep) with 0 by (cbn in Hlt; lia).
      rewrite Z.add_0_r. split_and!; [done..|lia|done]. }
  mstep. destruct (free =? MK_IOV_FREE_BUF) eqn:Ef; zbool.
  - destruct buf as [b|]; [|now destruct (Hfree Ef)]. mstep.
    destruct (set_free_at m2 _ _ b Hat2) as (m3 & -> & Hat3 & Hs3 & Ht3);
      [destruct Hat; rewrite Hb2; case_if; lia|]. mstep.
    destruct (size m3 <? iov_idx m3) eqn:E3; zbool; [destruct Hat3; lia|].
    exists m3. rewrite (at_idx _ _ _ Hat3). split_and!; [done|done|lia|congruence].
  - mstep. destruct (size m2 <? iov_idx m2) eqn:E3; zbool; [destruct Hat2; lia|].
    exists m2. rewrite (at_idx _ _ _ Hat2). split_and!; [done|done|lia|done].
Qed.

(** While there is room for the entry and its separator,
    [mk_iov_add_entry] writes within its arrays, returns the new number of
    cells, appends exactly the entry and the separator to the bytes
    [writev(2)] is given, and keeps [total_len] equal to their length. *)
Theorem mk_iov_add_entry_ok m d buf n sep free s t :
  iov_ok m d -> iov_idx m + entry_cells sep <= size m ->
  reads buf n s -> reads (data sep) (len sep) t -> (free = MK_IOV_FREE_BUF -> buf <> None) ->
  Z.of_nat (length d) + n + len sep < 2 ^ 64 ->
  exists m', mk_iov_add_entry m buf n sep free = Some (m', iov_idx m + entry_cells sep) /\
    iov_ok m' (d ++ s ++ t) /\ size m' = size m.
Proof.
  intros [Hat Htot] Hroom Hs Ht Hfree Hlen. pose proof Hs as (Hls & _ & _). pose proof Ht as (Hlt & _ & _).
  destruct (add_entry_at m d (iov_idx m) buf n sep free s t Hat Hroom Hs Ht Hfree) as (m' & H1 & H2 & H3 & H4).
  exists m'. split; [exact H1|]. split; [|exact H3]. split.
  - now rewrite (at_idx _ _ _ H2).
  - rewrite H4, Htot, u64_small by lia. rewrite !length_app. lia.
Qed.

Lemma mk_iov_create_ok n : 0 <= n -> exists m, mk_iov_create n 0 = Some m /\ iov_ok m [] /\ size m = n.
Proof.
  intros Hn. eexists. split; [reflexivity|]. split; [|done].
  split; [split|]; cbn; rewrite ?length_replicate; lia || reflexivity.
Qed.

Definition iov_example : mk_iov :=
  {| io := replicate 3 None; buf_to_free := replicate 3 None; iov_idx := 0; buf_idx := 0;
     size := 3; total_len := 0 |}.

Lemma mk_iov_add_entry_witness :
  exists m', mk_iov_add_entry iov_example (Some (clit "Date: ")) 6 mk_iov_crlf 1 = Some (m', 2) /\
    iov_ok m' (lit "Date: " ++ [13; 10]) /\ size m' = 3.
Proof.
  apply (mk_iov_add_entry_ok iov_example [] (Some (clit "Date: ")) 6 mk_iov_crlf 1 (lit "Date: ") [13; 10]);
    [split; [split|]; cbn; lia || reflexivity | cbn; lia | | | discriminate | cbn; lia];
    (split; [reflexivity|]; split; [reflexivity|]; right; eexists; split; reflexivity).
Defined.

End Iov.
