(* ===== verification/MkUtils.v ===== *)
(** * mk_utils.c: dates, hexadecimal text, URL decoding, buffer concatenation *)
From S2P Require Import Prelude CString MkString MkMemory.
Local Open Scope Z_scope.

(** ** gmtime_r (C library): the broken-down UTC time *)
Record tm := { tm_sec : Z; tm_min : Z; tm_hour : Z; tm_mday : Z; tm_mon : Z; tm_year : Z; tm_wday : Z }.

(** mk_utils.h *)
Definition MK_UTILS_INT2MKP_BUFFER_LEN : nat := 16.

(** Proleptic Gregorian date of a day count from 1970-01-01: year, month 1-12,
    day 1-31, by eras of 400 years that start on a first of March. *)
Definition civil_from_days (z : Z) : Z * Z * Z :=
  let z := z + 719468 in
  let era := z / 146097 in
  let doe := z mod 146097 in
  let yoe := (doe - doe / 1460 + doe / 36524 - doe / 146096) / 365 in
  let doy := doe - (365 * yoe + yoe / 4 - yoe / 100) in
  let mp := (5 * doy + 2) / 153 in
  let d := doy - (153 * mp + 2) / 5 + 1 in
  let m := if mp <? 10 then mp + 3 else mp - 9 in
  (yoe + era * 400 + (if m <=? 2 then 1 else 0), m, d).

Definition gmtime_fields (t : Z) : tm :=
  let days := t / 86400 in
  let s := t mod 86400 in
  let '(y, m, d) := civil_from_days days in
  {| tm_sec := s mod 60; tm_min := (s / 60) mod 60; tm_hour := s / 3600;
     tm_mday := d; tm_mon := m - 1; tm_year := y - 1900; tm_wday := (days + 4) mod 7 |}.

(** [None] is the NULL returned when the year does not fit an [int]. *)
Definition gmtime_r (t : Z) : option tm :=
  let r := gmtime_fields t in
  if (- 2 ^ 31 <=? tm_year r) && (tm_year r <? 2 ^ 31) then Some r else None.

(** ** Dates as text *)

Definition mk_date_wd : list bytes :=
  map lit ["Sun, "; "Mon, "; "Tue, "; "Wed, "; "Thu, "; "Fri, "; "Sat, "]%string.
Definition mk_date_ym : list bytes :=
  map lit ["Jan "; "Feb "; "Mar "; "Apr "; "May "; "Jun "; "Jul "; "Aug "; "Sep "; "Oct ";
           "Nov "; "Dec "]%string.

Definition MK_GMT_CACHES : nat := 10.

Record mk_gmt_cache := { gc_time : Z; gc_text : bytes; gc_hits : Z }.

(** [mk_cache_thread_init]: [MK_GMT_CACHES] zeroed entries per thread. *)
Definition gmt_cache_init : list mk_gmt_cache :=
  replicate MK_GMT_CACHES {| gc_time := 0; gc_text := replicate 32 0; gc_hits := 0 |}.

(** The text found for [date], and the cache with the entry's [hits] counted. *)
Fixpoint mk_utils_gmt_cache_get (gcache : list mk_gmt_cache) (date : Z)
    : option (bytes * list mk_gmt_cache) :=
  match gcache with
  | [] => None
  | g :: rest =>
    if date =? gc_time g then
      Some (gc_text g, {| gc_time := gc_time g; gc_text := gc_text g; gc_hits := u64 (gc_hits g + 1) |} :: rest)
    else '(t, rest) ← mk_utils_gmt_cache_get rest date; Some (t, g :: rest)
  end.

(** The index of the first entry with the fewest hits. *)
Fixpoint gmt_cache_min (gcache : list mk_gmt_cache) (i min : nat) (min_hits : Z) : nat :=
  match gcache with
  | [] => min
  | g :: rest =>
    if gc_hits g <? min_hits then gmt_cache_min rest (S i) i (gc_hits g)
    else gmt_cache_min rest (S i) min min_hits
  end.

Definition mk_utils_gmt_cache_add (gcache : list mk_gmt_cache) (data : bytes) (time : Z)
    : list mk_gmt_cache :=
  match gcache with
  | [] => []
  | g :: rest =>
    <[gmt_cache_min rest 1 0 (gc_hits g) := {| gc_time := time; gc_text := data; gc_hits := 1 |}]> gcache
  end.

(** The 32 bytes [mk_utils_utime2gmt] composes: [unsigned short] fields, and
    [char] digits. *)
Definition digit (z : Z) : Z := u8 (48 + z).
Definition gmt_compose (gtm : tm) : option bytes :=
  let year := u16 (tm_year gtm + 1900) in
  let mday := u16 (tm_mday gtm) in
  let hour := u16 (tm_hour gtm) in
  let min := u16 (tm_min gtm) in
  let sec := u16 (tm_sec gtm) in
  wd ← mk_date_wd !! Z.to_nat (tm_wday gtm);
  ym ← mk_date_ym !! Z.to_nat (tm_mon gtm);
  Some (wd ++ [digit (mday / 10); digit (mday mod 10); 32] ++ ym ++
        [digit (year / 1000 mod 10); digit (year / 100 mod 10); digit (year / 10 mod 10);
         digit (year mod 10); 32;
         digit (hour / 10); digit (hour mod 10); 58;
         digit (min / 10); digit (min mod 10); 58;
         digit (sec / 10); digit (sec mod 10)] ++ lit " GMT" ++ [13; 10; 0]).

(** Result and 32-byte buffer; [now] is [time(NULL)]. A result [(-1, _)] leaves
    the buffer [data] as it was. *)
Definition mk_utils_utime2gmt (now : Z) (gcache : list mk_gmt_cache) (data : bytes) (date : Z)
    : option (Z * bytes * list mk_gmt_cache) :=
  let size := 31 in
  let convert date :=
    match gmtime_r date with
    | None => Some (-1, data, gcache)
    | Some gtm =>
      text ← gmt_compose gtm;
      Some (size, text, mk_utils_gmt_cache_add gcache text date)
    end in
  if date =? 0 then
    if now =? -1 then Some (-1, data, gcache) else convert now
  else
    match mk_utils_gmt_cache_get gcache date with
    | Some (text, gcache) => Some (size, text, gcache)
    | None => convert date
    end.

(** ** mk_buffer_cat, mk_utils_hex2int, mk_utils_url_decode *)

(** [None] inside: the -1 of negative lengths. *)
Definition mk_buffer_cat (buf1 : bytes) (len1 : Z) (buf2 : bytes) (len2 : Z)
    : option (option mk_pointer) :=
  if (len1 <? 0) || (len2 <? 0) then Some None
  else s1 ← memread buf1 len1; s2 ← memread buf2 len2;
       Some (Some {| data := Some (s1 ++ s2 ++ [0]); len := len1 + len2 |}).

Definition hex_digit (c : Z) : option Z :=
  if (97 <=? c) && (c <=? 102) then Some (c - 87)
  else if (65 <=? c) && (c <=? 70) then Some (c - 55)
  else if (48 <=? c) && (c <=? 57) then Some (c - 48)
  else None.

(** The loop of [mk_utils_hex2int]; [None] is an out-of-bounds read or the
    overflow of [res]. *)
Fixpoint hex2int_loop (hex : bytes) (len i res : Z) : option Z :=
  match hex with
  | [] => None
  | c :: hex' =>
    if negb (c =? 0) && (i <? len) then
      match hex_digit c with
      | Some d => if res * 16 + d <? 2 ^ 31 then hex2int_loop hex' len (i + 1) (res * 16 + d) else None
      | None => Some (-1)
      end
    else if res <? 0 then Some (-1) else Some res
  end.
Definition mk_utils_hex2int (hex : bytes) (len : Z) : option Z := hex2int_loop hex len 0 0.

(** A store into the buffer of [mk_utils_url_decode]. *)
Definition bput (buf : bytes) (i : nat) (c : Z) : option bytes :=
  if (i <? length buf)%nat then Some (<[i := c]> buf) else None.

(** The main loop: [s] holds [uri.data[i .. uri.len)]. The inner [None] is the
    NULL returned on a bad escape. *)
Fixpoint url_decode_loop (s : bytes) (buf : bytes) (buf_idx : nat) : option (option bytes) :=
  match s with
  | [] => buf ← bput buf buf_idx 0; Some (Some buf)
  | c :: s' =>
    match s' with
    | h1 :: h2 :: s'' =>
      if c =? 37 then
        hex ← strncpy [h1; h2; 0] 2;
        hex_result ← mk_utils_hex2int (hex ++ [0]) 2;
        if negb (hex_result =? -1) then
          buf ← bput buf buf_idx (u8 hex_result); url_decode_loop s'' buf (S buf_idx)
        else Some None
      else buf ← bput buf buf_idx c; url_decode_loop s' buf (S buf_idx)
    | _ => buf ← bput buf buf_idx c; url_decode_loop s' buf (S buf_idx)
    end
  end.

Definition mk_utils_url_decode (uri : mk_pointer) : option (option bytes) :=
  p ← data uri;
  tmp ← mk_string_char_search p 37 (i32 (len uri));
  if tmp <? 0 then Some None
  else
    s ← memread p (len uri);
    let buf := replicate (Z.to_nat (len uri)) 0 in
    pre ← strncpy p (Z.to_nat tmp);
    url_decode_loop (drop (Z.to_nat tmp) s) (pre ++ drop (Z.to_nat tmp) buf) (Z.to_nat tmp).

(** ** The date cache *)

Example utime2gmt_example :
  mk_utils_utime2gmt 0 gmt_cache_init [] 1277332321 =
  Some (31, lit "Wed, 23 Jun 2010 22:32:01 GMT" ++ [13; 10; 0],
        {| gc_time := 1277332321; gc_text := lit "Wed, 23 Jun 2010 22:32:01 GMT" ++ [13; 10; 0];
           gc_hits := 1 |} :: replicate 9 {| gc_time := 0; gc_text := replicate 32 0; gc_hits := 0 |}).
Proof. vm_compute. reflexivity. Qed.

(** The text of a date without the cache. *)
Definition gmt_text (t : Z) : option bytes := gmtime_r t ≫= gmt_compose.

(** Every entry in use holds the text of its date. *)
Definition entry_ok (g : mk_gmt_cache) : Prop := gc_time g = 0 \/ gmt_text (gc_time g) = Some (gc_text g).
Definition gmt_cache_ok (c : list mk_gmt_cache) : Prop := length c = MK_GMT_CACHES /\ Forall entry_ok c.

Lemma gmt_cache_init_ok : gmt_cache_ok gmt_cache_init.
Proof. split; [done|]. apply Forall_replicate. now left. Qed.

(** A day of an era falls within a year of the era. *)
Lemma civil_doy doe :
  0 <= doe < 146097 ->
  let yoe := (doe - doe / 1460 + doe / 36524 - doe / 146096) / 365 in
  let doy := doe - (365 * yoe + yoe / 4 - yoe / 100) in 0 <= doy <= 366.
Proof.
  intros H yoe doy.
  assert (doe = 146096 \/ doe < 146096) as [->|Hd] by lia; [vm_compute; split; discriminate|].
  assert (doe / 146096 = 0) as E by (apply Z.div_small; lia). subst doy yoe. rewrite E.
  Z.div_mod_to_equations; lia.
Qed.

Lemma civil_month z y m d : civil_from_days z = (y, m, d) -> 1 <= m <= 12.
Proof.
  unfold civil_from_days. set (doe := (z + 719468) mod 146097).
  assert (Hb : 0 <= doe < 146097) by (apply Z.mod_pos_bound; lia). clearbody doe.
  pose proof (civil_doy doe Hb) as C. cbv zeta in *.
  match type of C with 0 <= ?d <= _ => set (doy := d) in * end. clearbody doy. intros H.
  apply (f_equal (fun r => snd (fst r))) in H. cbn [fst snd] in H. subst m.
  assert (0 <= (5 * doy + 2) / 153 <= 11) by (clear -C; Z.div_mod_to_equations; lia).
  destruct ((5 * doy + 2) / 153 <? 10) eqn:E; zbool; lia.
Qed.

Lemma gmt_compose_fields t : exists text, gmt_compose (gmtime_fields t) = Some text /\ length text = 32%nat.
Proof.
  unfold gmtime_fields. destruct (civil_from_days (t / 86400)) as [[y m] d] eqn:Ec.
  apply civil_month in Ec. unfold gmt_compose. cbn [tm_year tm_mday tm_hour tm_min tm_sec tm_wday tm_mon].
  pose proof (Z.mod_pos_bound (t / 86400 + 4) 7 ltac:(lia)) as Hw.
  assert (Hwd : Forall (fun s => length s = 5%nat) mk_date_wd) by (repeat constructor).
  assert (Hym : Forall (fun s => length s = 4%nat) mk_date_ym) by (repeat constructor).
  destruct (lookup_lt_is_Some_2 mk_date_wd (Z.to_nat ((t / 86400 + 4) mod 7))) as [wd Ew]; [cbn; lia|].
  destruct (lookup_lt_is_Some_2 mk_date_ym (Z.to_nat (m - 1))) as [ym Ey]; [cbn; lia|].
  rewrite Ew, Ey. mstep. eexists. split; [done|].
  rewrite !length_app. rewrite (Forall_lookup_1 _ _ _ _ Hwd Ew), (Forall_lookup_1 _ _ _ _ Hym Ey). done.
Qed.

Lemma gmt_cache_get_ok c date text c' :
  Forall entry_ok c -> mk_utils_gmt_cache_get c date = Some (text, c') -> date <> 0 ->
  gmt_text date = Some text /\ Forall entry_ok c' /\ length c' = length c.
Proof.
  revert c'; induction c as [|g c IH]; intros c' Hc Hg Hd; cbn in Hg; [done|].
  apply Forall_cons in Hc as [Hg0 Hc]. case_if_in Hg; zbool.
  - simplify_eq. split; [destruct Hg0; congruence|]. split; [|done]. constructor; [exact Hg0|done].
  - destruct (mk_utils_gmt_cache_get c date) as [[t r]|] eqn:Er; [|done]. cbn in Hg. simplify_eq.
    destruct (IH r Hc eq_refl Hd) as (? & ? & ?). repeat split; [done | now constructor | cbn; congruence].
Qed.

Lemma gmt_cache_add_ok c text date :
  Forall entry_ok c -> gmt_text date = Some text ->
  Forall entry_ok (mk_utils_gmt_cache_add c text date) /\
  length (mk_utils_gmt_cache_add c text date) = length c.
Proof.
  intros Hc Ht. destruct c as [|g c]; [done|]. cbn [mk_utils_gmt_cache_add].
  split; [|now rewrite length_insert]. apply Forall_insert; [done|]. now right.
Qed.

Lemma utime2gmt_facts now c data date :
  gmt_cache_ok c -> (date = 0 -> now <> -1) ->
  gmtime_r (if date =? 0 then now else date) <> None ->
  exists text c', mk_utils_utime2gmt now c data date = Some (31, text, c') /\
    gmt_text (if date =? 0 then now else date) = Some text /\ length text = 32%nat /\ gmt_cache_ok c' /\
    (date <> 0 -> exists c'', mk_utils_utime2gmt now c' data date = Some (31, text, c'')).
Proof.
  intros [Hl Hc] Hnow Hg. unfold mk_utils_utime2gmt. set (t := if date =? 0 then now else date) in *.
  assert (Htext : exists text, gmt_text t = Some text /\ length text = 32%nat).
  { unfold gmt_text, gmtime_r in *. destruct (gmt_compose_fields t) as (text & Ht & Hlt).
    case_if; [|done]. now exists text. }
  destruct Htext as (text & Ht & Hlt). exists text.
  destruct (gmtime_r t) as [gtm|] eqn:Eg; [|done]. unfold gmt_text in Ht. rewrite Eg in Ht. cbn in Ht.
  assert (Hok : gmt_text t = Some text) by (unfold gmt_text; now rewrite Eg).
  assert (Hadd := gmt_cache_add_ok c text t Hc Hok). destruct Hadd as [Ha1 Ha2].
  subst t. destruct (date =? 0) eqn:E0; zbool.
  - destruct (now =? -1) eqn:E1; zbool; [tauto|]. rewrite Eg, Ht. mstep.
    eexists. split; [done|]. repeat split; [done..| congruence | done | congruence].
  - assert (Hnext : forall c', Forall entry_ok c' -> exists c'',
      match mk_utils_gmt_cache_get c' date with
      | Some (text, g) => Some (31, text, g)
      | None => match gmtime_r date with
                | Some gtm => text ← gmt_compose gtm; Some (31, text, mk_utils_gmt_cache_add c' text date)
                | None => Some (-1, data, c')
                end
      end = Some (31, text, c'') /\ gmt_cache_ok c'' \/ length c' <> MK_GMT_CACHES).
    { intros c' Hc'. destruct (mk_utils_gmt_cache_get c' date) as [[text' c'']|] eqn:Eget.
      - destruct (gmt_cache_get_ok c' date text' c'' Hc' Eget E0) as (H1 & H2 & H3).
        exists c''. assert (text' = text) by congruence. subst.
        destruct (decide (length c' = MK_GMT_CACHES)); [left|by right]. split; [done|]. split; [congruence|done].
      - rewrite Eg, Ht. mstep. eexists.
        destruct (decide (length c' = MK_GMT_CACHES)); [left|by right]. split; [done|].
        destruct (gmt_cache_add_ok c' text date Hc' Hok). split; [congruence|done]. }
    destruct (Hnext c Hc) as (c' & [[H1 H2]|?]); [|done]. exists c'. split; [exact H1|].
    split; [done|]. split; [done|]. split; [done|]. intros _.
    destruct H2 as [H2 H3]. destruct (Hnext c' H3) as (c'' & [[H4 _]|?]); [|done]. now exists c''.
Qed.

(** With a coherent cache (the thread's initial one is), the cached
    [mk_utils_utime2gmt] returns the text that composing the date afresh
    gives, 31 characters and a NUL, keeps the cache coherent, and a second
    call for the same date is a cache hit with the same text. *)
Theorem utime2gmt_cached now c data date :
  gmt_cache_ok c -> (date = 0 -> now <> -1) ->
  gmtime_r (if date =? 0 then now else date) <> None ->
  exists text c', mk_utils_utime2gmt now c data date = Some (31, text, c') /\
    gmt_text (if date =? 0 then now else date) = Some text /\ length text = 32%nat /\ gmt_cache_ok c' /\
    (date <> 0 -> exists c'', mk_utils_utime2gmt now c' data date = Some (31, text, c'')).
Proof. apply utime2gmt_facts. Qed.

Lemma utime2gmt_witness :
  exists text c', mk_utils_utime2gmt 0 gmt_cache_init [] 1277332321 = Some (31, text, c') /\
    gmt_text (if 1277332321 =? 0 then 0 else 1277332321) = Some text /\ length text = 32%nat /\
    gmt_cache_ok c' /\
    (1277332321 <> 0 -> exists c'', mk_utils_utime2gmt 0 c' [] 1277332321 = Some (31, text, c'')).
Proof. apply utime2gmt_cached; [apply gmt_cache_init_ok | lia | vm_compute; discriminate]. Defined.

(** ** URL decoding *)

(** Reference decoder: [None] on a bad escape; a '%' among the last two
    characters stands for itself. *)
Fixpoint pct_decode (s : bytes) : option bytes :=
  match s with
  | [] => Some []
  | c :: s' =>
    match s' with
    | h1 :: h2 :: s'' =>
      if c =? 37 then
        a ← hex_digit h1; b ← hex_digit h2; t ← pct_decode s''; Some (a * 16 + b :: t)
      else t ← pct_decode s'; Some (c :: t)
    | _ => t ← pct_decode s'; Some (c :: t)
    end
  end.

Lemma hex_digit_range c d : hex_digit c = Some d -> 0 <= d < 16.
Proof. unfold hex_digit. repeat case_if; intros; simplify_eq; zbool; lia. Qed.

Lemma hex2int_two h1 h2 :
  h1 <> 0 -> h2 <> 0 ->
  mk_utils_hex2int [h1; h2; 0] 2 =
  Some (match hex_digit h1, hex_digit h2 with Some a, Some b => a * 16 + b | _, _ => -1 end).
Proof.
  intros H1 H2. unfold mk_utils_hex2int. cbn [hex2int_loop].
  replace (negb (h1 =? 0) && (0 <? 2)) with true by lia.
  destruct (hex_digit h1) as [a|] eqn:Ea; [|done]. apply hex_digit_range in Ea.
  destruct (0 * 16 + a <? 2 ^ 31) eqn:E; zbool; [|lia].
  replace (negb (h2 =? 0) && (0 + 1 <? 2)) with true by lia.
  destruct (hex_digit h2) as [b|] eqn:Eb; [|done]. apply hex_digit_range in Eb.
  destruct ((0 * 16 + a) * 16 + b <? 2 ^ 31) eqn:E2; zbool; [|lia].
  destruct (negb (0 =? 0)) eqn:E3; [done|]. cbn [andb].
  destruct ((0 * 16 + a) * 16 + b <? 0) eqn:E4; zbool; [lia|]. done.
Qed.

Lemma strncpy_two h1 h2 : h1 <> 0 -> h2 <> 0 -> strncpy [h1; h2; 0] 2 = Some [h1; h2].
Proof. intros H1 H2. cbn [strncpy]. replace (h1 =? 0) with false by lia. now replace (h2 =? 0) with false by lia. Qed.

Lemma bput_in pre n c : (0 < n)%nat -> bput (pre ++ replicate n 0) (length pre) c = Some ((pre ++ [c]) ++ replicate (pred n) 0).
Proof.
  intros Hn. unfold bput. rewrite length_app, length_replicate.
  destruct (Nat.ltb_spec (length pre) (length pre + n)); [|lia]. f_equal.
  rewrite insert_app_r_alt, Nat.sub_diag by lia. destruct n; [lia|]. cbn. now rewrite <- app_assoc.
Qed.

Lemma bput_out pre c : bput pre (length pre) c = None.
Proof. unfold bput. now rewrite Nat.ltb_irrefl. Qed.

(** Escapes only shrink: each decoded character takes one or three. *)
Lemma pct_decode_length n s t : (length s <= n)%nat -> pct_decode s = Some t -> (length t <= length s)%nat.
Proof.
  revert s t; induction n as [|n IH]; intros s t Hn H.
  - destruct s; [cbn in H; simplify_eq; done | cbn in Hn; lia].
  - destruct s as [|c s]; [cbn in H; by simplify_eq|]. cbn [pct_decode length] in *.
    assert (Hplain : (t ← pct_decode s; Some (c :: t)) = Some t -> (length t <= S (length s))%nat).
    { intros Hp. destruct (pct_decode s) as [u|] eqn:Eu; [|done]. cbn in Hp. simplify_eq.
      apply IH in Eu; cbn; lia. }
    destruct s as [|h1 [|h2 s]]; [auto..|]. case_if_in H; [|auto].
    destruct (hex_digit h1), (hex_digit h2); try done. cbn in H.
    destruct (pct_decode s) as [u|] eqn:Eu; [|done]. cbn in H. simplify_eq.
    cbn [length] in *. apply IH in Eu; cbn; lia.
Qed.

(** The loop, started with [pre] written and at least as much room left as
    there are characters to read. *)
Lemma url_decode_loop_spec n s pre room :
  (length s <= n)%nat -> 0 ∉ s -> (length s <= room)%nat ->
  url_decode_loop s (pre ++ replicate room 0) (length pre) =
  match pct_decode s with
  | None => Some None
  | Some t => if (length t <? room)%nat then Some (Some (pre ++ t ++ replicate (room - length t) 0)) else None
  end.
Proof.
  revert s pre room; induction n as [|n IH]; intros s pre room Hn H0 Hr.
  { destruct s; [|cbn in Hn; lia]. cbn [pct_decode url_decode_loop length].
    destruct room; [rewrite app_nil_r, bput_out; done|]. rewrite bput_in by lia. mstep. cbn.
    now rewrite <- app_assoc. }
  destruct s as [|c s].
  { apply (IH [] pre room); cbn; [lia | done | lia]. }
  assert (Hplain : (buf ← bput (pre ++ replicate room 0) (length pre) c; url_decode_loop s buf (S (length pre))) =
    match (t ← pct_decode s; Some (c :: t)) with
    | None => Some None
    | Some t => if (length t <? room)%nat then Some (Some (pre ++ t ++ replicate (room - length t) 0)) else None
    end).
  { cbn [length] in *. rewrite bput_in by lia. mstep.
    replace (S (length pre)) with (length (pre ++ [c])) by (rewrite length_app; cbn; lia).
    rewrite IH by (rewrite ?not_elem_of_cons in *; (tauto || lia)).
    destruct (pct_decode s) as [t|]; mstep; [|done]. cbn [length].
    destruct (Nat.ltb_spec (length t) (pred room)), (Nat.ltb_spec (S (length t)) room); try lia; [|done].
    rewrite <- app_assoc. cbn.
  replace (pred room - length t)%nat with (room - S (length t))%nat by lia. done. }
  cbn [url_decode_loop pct_decode]. destruct s as [|h1 [|h2 s]]; [exact Hplain..|].
  destruct (c =? 37) eqn:Ec; [|exact Hplain]. clear Hplain.
  rewrite !not_elem_of_cons in H0. destruct H0 as (Hc & Hh1 & Hh2 & H0).
  rewrite strncpy_two by auto. mstep. cbn [app]. rewrite hex2int_two by auto. mstep.
  destruct (hex_digit h1) as [a|] eqn:Ea; [|done]. destruct (hex_digit h2) as [b|] eqn:Eb; [|done].
  mstep. apply hex_digit_range in Ea, Eb. replace (negb (a * 16 + b =? -1)) with true by lia.
  cbn [length] in *. rewrite bput_in by lia. mstep.
  replace (S (length pre)) with (length (pre ++ [u8 (a * 16 + b)])) by (rewrite length_app; cbn; lia).
  rewrite IH by (auto; lia). rewrite u8_small by lia.
  destruct (pct_decode s) as [t|] eqn:Et; mstep; [|done]. cbn [length].
  destruct (Nat.ltb_spec (length t) (pred room)), (Nat.ltb_spec (S (length t)) room); try lia; [|done].
  rewrite <- app_assoc. cbn.
  replace (pred room - length t)%nat with (room - S (length t))%nat by lia. done.
Qed.

Lemma strncpy_take p n : (n <= length p)%nat -> 0 ∉ take n p -> strncpy p n = Some (take n p).
Proof.
  revert p; induction n as [|n IH]; intros p Hn H0; [done|].
  destruct p as [|c p]; [cbn in Hn; lia|]. cbn [take strncpy length] in *.
  rewrite not_elem_of_cons in H0. destruct H0 as [Hc H0].
  replace (c =? 0) with false by lia. rewrite IH by (auto; lia). done.
Qed.

Lemma pct_decode_prefix pre s :
  37 ∉ pre -> pct_decode (pre ++ s) = t ← pct_decode s; Some (pre ++ t).
Proof.
  induction pre as [|c pre IH]; intros H; cbn [app]; [now destruct (pct_decode s)|].
  rewrite not_elem_of_cons in H. destruct H as [Hc H].
  assert (Hstep : pct_decode (c :: (pre ++ s)) = t ← pct_decode (pre ++ s); Some (c :: t)).
  { cbn [pct_decode]. destruct (pre ++ s) as [|h1 [|h2 r]]; [done..|]. now replace (c =? 37) with false by lia. }
  rewrite Hstep, IH by done. now destruct (pct_decode s).
Qed.

(** [mk_utils_url_decode] on a URI of [len] characters. Without '%', or
    with a bad escape, it returns NULL; otherwise it decodes each escape. The
    buffer has [len] bytes: the terminating NUL fits when at least one escape
    was decoded, and is stored past the end (undefined) when none was, which
    happens exactly when every '%' is among the last two characters. *)
Theorem mk_utils_url_decode_spec uri s :
  view uri = Some s -> len uri < 2 ^ 31 -> 0 ∉ s ->
  mk_utils_url_decode uri =
  if decide (37 ∈ s) then
    match pct_decode s with
    | None => Some None
    | Some t => if (length t <? length s)%nat
                then Some (Some (t ++ replicate (length s - length t) 0)) else None
    end
  else Some None.
Proof.
  intros Hv Hlen H0. unfold mk_utils_url_decode. unfold view in Hv.
  destruct (data uri) as [p|]; [|done]. mstep. cbn in Hv.
  destruct (memread_inv p (len uri) s Hv) as (Hs & Hl & Hle). unfold mk_string_char_search.
  rewrite i32_small by lia. replace (len uri <? 0) with false by lia. mstep.
  rewrite memchr_take by lia. rewrite <- Hs. mstep. pose proof (first_index_split s 37) as Hfi.
  destruct (first_index s 37) as [r|]; cbn [pos_or_minus1].
  - destruct Hfi as (pre & post & -> & Hr & Hpre).
    rewrite decide_True by (apply elem_of_app; right; left).
    replace (r <? 0) with false by lia. rewrite Hv. mstep.
    assert (Hrn : Z.to_nat r = length pre) by lia. rewrite Hrn.
    assert (Htp : take (length pre) p = pre).
    { transitivity (take (length pre) (take (Z.to_nat (len uri)) p)).
      - rewrite take_take. f_equal. rewrite length_app in Hl. lia.
      - rewrite <- Hs. apply take_app_length. }
    rewrite strncpy_take; cycle 1.
    { rewrite <- Htp, length_take. lia. }
    { rewrite Htp. intros H. apply H0, elem_of_app. now left. }
    mstep. rewrite Htp, drop_app_length, drop_replicate, pct_decode_prefix by done.
    rewrite (url_decode_loop_spec (length (37 :: post))); cycle 1.
    { lia. } { intros H. apply H0, elem_of_app. now right. }
    { rewrite length_app in Hl. lia. }
    destruct (pct_decode (37 :: post)) as [t|] eqn:Et; mstep; [|done].
    rewrite !length_app in *. cbn [length] in *.
    destruct (Nat.ltb_spec (length t) (Z.to_nat (len uri) - length pre)),
      (Nat.ltb_spec (length pre + length t) (length pre + S (length post))); try lia; [|done].
    rewrite <- app_assoc. do 5 f_equal. lia.
  - now rewrite decide_False by done.
Qed.

Lemma mk_utils_url_decode_witness :
  mk_utils_url_decode {| data := Some (clit "/a%20b HTTP"); len := 6 |} =
  Some (Some (lit "/a b" ++ [0; 0])).
Proof.
  refine (eq_trans (mk_utils_url_decode_spec {| data := Some (clit "/a%20b HTTP"); len := 6 |}
    (lit "/a%20b") eq_refl _ _) _); [cbn; lia | decide_closed | vm_compute; reflexivity].
Defined.

(** A '%' that is not followed by two characters: the terminator is stored
    one past the end of the allocation. *)
Example url_decode_overflow : mk_utils_url_decode (mk_pointer_init "/%") = None.
Proof. vm_compute. reflexivity. Qed.

(** Percent-encoding of the characters that are not kept. *)
Definition hex_char (d : Z) : Z := if d <? 10 then 48 + d else 87 + d.
Definition pct_encode (keep : Z -> bool) (s : bytes) : bytes :=
  flat_map (fun c => if keep c then [c] else [37; hex_char (c / 16); hex_char (c mod 16)]) s.

Lemma hex_digit_char d : 0 <= d < 16 -> hex_digit (hex_char d) = Some d.
Proof.
  intros H. unfold hex_char, hex_digit. case_if; zbool.
  - replace ((97 <=? 48 + d) && (48 + d <=? 102)) with false by lia.
    replace ((65 <=? 48 + d) && (48 + d <=? 70)) with false by lia.
    replace ((48 <=? 48 + d) && (48 + d <=? 57)) with true by lia. f_equal. lia.
  - replace ((97 <=? 87 + d) && (87 + d <=? 102)) with true by lia. f_equal. lia.
Qed.

Lemma hex_char_range d : 0 <= d < 16 -> 48 <= hex_char d <= 102.
Proof. intros H. unfold hex_char. case_if; zbool; lia. Qed.

Lemma pct_decode_plain c s : c <> 37 -> pct_decode (c :: s) = t ← pct_decode s; Some (c :: t).
Proof.
  intros Hc. cbn [pct_decode]. destruct s as [|h1 [|h2 r]]; [done..|].
  now replace (c =? 37) with false by lia.
Qed.

Section Encode.
Context (keep : Z -> bool) (Hkeep : keep 37 = false).

Lemma pct_decode_encode s :
  Forall (fun c => 0 <= c < 256) s -> pct_decode (pct_encode keep s) = Some s.
Proof.
  induction s as [|c s IH]; intros H; [done|]. apply Forall_cons in H as [Hc H].
  unfold pct_encode in *. cbn [flat_map]. destruct (keep c) eqn:Ek; cbn [app].
  - rewrite pct_decode_plain by congruence. now rewrite IH.
  - cbn [pct_decode]. change (37 =? 37) with true. cbn match.
    rewrite !hex_digit_char by (Z.div_mod_to_equations; lia). mstep. rewrite IH by done. mstep. do 2 f_equal. pose proof (Z.div_mod c 16). lia.
Qed.

Lemma pct_encode_nonzero s : Forall (fun c => 0 < c < 256) s -> 0 ∉ pct_encode keep s.
Proof.
  induction s as [|c s IH]; intros H; [apply not_elem_of_nil|]. apply Forall_cons in H as [Hc H].
  unfold pct_encode in *. cbn [flat_map]. rewrite elem_of_app. intros [Hin|Hin]; [|by apply IH].
  pose proof (hex_char_range (c / 16)). pose proof (hex_char_range (c mod 16)).
  pose proof (Z.mod_pos_bound c 16). Z.div_mod_to_equations.
  case_if_in Hin; apply list_elem_of_In in Hin; cbn in Hin; lia.
Qed.

Lemma pct_encode_escapes s c :
  c ∈ s -> keep c = false -> 37 ∈ pct_encode keep s /\ (length s < length (pct_encode keep s))%nat.
Proof.
  assert (Hge : forall s, (length s <= length (pct_encode keep s))%nat).
  { intros l. induction l as [|d l IH]; [done|]. unfold pct_encode in *. cbn [flat_map].
    rewrite length_app. case_if; cbn [length]; lia. }
  intros Hin Hk. induction s as [|d s IH]; [by apply not_elem_of_nil in Hin|].
  unfold pct_encode. cbn [flat_map]. fold (pct_encode keep s). rewrite elem_of_app, length_app.
  apply elem_of_cons in Hin as [<-|Hin].
  - rewrite Hk. cbn [length]. specialize (Hge s). split; [left; left | lia].
  - destruct (IH Hin) as [H1 H2]. split; [now right|]. case_if; cbn [length]; lia.
Qed.
End Encode.

(** Decoding a URI encoded with any choice of kept characters (never '%')
    gives the original path back as a C string, once something was escaped. *)
Theorem url_decode_encode keep s r c :
  keep 37 = false -> Forall (fun c => 0 < c < 256) s -> c ∈ s -> keep c = false ->
  Z.of_nat (length (pct_encode keep s)) < 2 ^ 31 ->
  exists buf, mk_utils_url_decode {| data := Some (pct_encode keep s ++ r);
                                     len := Z.of_nat (length (pct_encode keep s)) |} = Some (Some buf) /\
    is_cstr buf s /\ length buf = length (pct_encode keep s).
Proof.
  intros Hk Hs Hc Hck Hl.
  destruct (pct_encode_escapes keep s c Hc Hck) as [Hin Hlt].
  rewrite (mk_utils_url_decode_spec _ (pct_encode keep s)); cycle 1.
  { unfold view. cbn [data len]. mstep. rewrite memread_take by (rewrite length_app; lia).
    now rewrite Nat2Z.id, take_app_length. }
  { exact Hl. } { now apply pct_encode_nonzero. }
  rewrite decide_True by done. rewrite pct_decode_encode; [|done|];
    [|eapply Forall_impl; [exact Hs | cbn; lia]].
  destruct (Nat.ltb_spec (length s) (length (pct_encode keep s))); [|lia].
  eexists. split; [done|]. split; [|rewrite length_app, length_replicate; lia]. split.
  - exists (replicate (pred (length (pct_encode keep s) - length s)) 0).
    destruct (length (pct_encode keep s) - length s)%nat eqn:E; [lia|]. done.
  - intros H0. rewrite Forall_forall in Hs. apply Hs in H0. lia.
Qed.

Lemma url_decode_encode_witness :
  let keep c := negb ((c =? 37) || (c =? 32)) in
  let s := lit "/100% legal" in
  exists buf, mk_utils_url_decode {| data := Some (pct_encode keep s ++ lit " HTTP/1.1");
                                     len := Z.of_nat (length (pct_encode keep s)) |} = Some (Some buf) /\
    is_cstr buf s /\ length buf = length (pct_encode keep s).
Proof.
  intros keep s. apply (url_decode_encode keep s (lit " HTTP/1.1") 37);
    [done | apply (bool_decide_unpack _); vm_compute; exact I | decide_closed | done | vm_compute; done].
Defined.
