(* ===== verification/MkTypes.v ===== *)
(** * The state of a worker: configuration, sessions, scheduler, environment

    The C structs shared by the components, the state a worker thread works on
    ([world]), the environment it runs in ([Env]: configuration, system calls,
    network layer and plugins), and the monad of the handlers. *)
From S2P Require Import Prelude CString MkMemory MkUtils.
Local Open Scope Z_scope.

(** ** Configuration (mk_config.h) *)

Record error_page := { ep_status : Z; ep_file : bytes; ep_real_path : bytes }.
Record host_alias := { ha_name : bytes; ha_len : Z }.

Record host := {
  h_file : bytes;
  h_server_names : list host_alias;
  h_documentroot : mk_pointer;
  h_host_signature : bytes;
  h_header_host_signature : mk_pointer;
  h_error_pages : list error_page;
}.

(** The fields of [struct server_config] that request handling reads. *)
Record server_config := {
  c_worker_capacity : Z;
  c_workers : Z;
  c_user_dir : option bytes;
  c_serverport : Z;
  c_timeout : Z;
  c_standard_port : Z;
  c_resume : Z;
  c_symlink : Z;
  c_keep_alive : Z;
  c_max_keep_alive_request : Z;
  c_keep_alive_timeout : Z;
  c_max_request_size : Z;
  c_index_files : option (list bytes);
  c_hosts : list host;
  c_open_flags : Z;
  c_safe_event_write : Z;
  c_transport : bytes;
}.

(** ** Requests (mk_request.h, mk_file.h) *)

Record file_info := {
  fi_size : Z; fi_last_modification : Z; fi_flags_read_only : Z;
  fi_exists : Z; fi_is_file : Z; fi_is_link : Z; fi_is_directory : Z;
  fi_exec_access : Z; fi_read_access : Z;
}.
#[export] Instance eta_file_info : Eta file_info := fun r =>
  {| fi_size := fi_size r; fi_last_modification := fi_last_modification r;
     fi_flags_read_only := fi_flags_read_only r; fi_exists := fi_exists r;
     fi_is_file := fi_is_file r; fi_is_link := fi_is_link r;
     fi_is_directory := fi_is_directory r; fi_exec_access := fi_exec_access r;
     fi_read_access := fi_read_access r |}.

Record response_headers := {
  sh_status : Z;
  sh_custom_status : mk_pointer;
  sh_content_length : Z;
  sh_real_length : Z;
  sh_cgi : Z;
  sh_pconnections_left : Z;
  sh_range0 : Z;
  sh_range1 : Z;
  sh_transfer_encoding : Z;
  sh_breakline : Z;
  sh_connection : Z;
  sh_last_modified : Z;
  sh_content_type : mk_pointer;
  sh_content_encoding : mk_pointer;
  sh_location : option bytes;
  sh_extra_rows : option Iov.mk_iov;
}.
#[export] Instance eta_response_headers : Eta response_headers := fun r =>
  {| sh_status := sh_status r; sh_custom_status := sh_custom_status r;
     sh_content_length := sh_content_length r; sh_real_length := sh_real_length r;
     sh_cgi := sh_cgi r; sh_pconnections_left := sh_pconnections_left r;
     sh_range0 := sh_range0 r; sh_range1 := sh_range1 r;
     sh_transfer_encoding := sh_transfer_encoding r; sh_breakline := sh_breakline r;
     sh_connection := sh_connection r; sh_last_modified := sh_last_modified r;
     sh_content_type := sh_content_type r; sh_content_encoding := sh_content_encoding r;
     sh_location := sh_location r; sh_extra_rows := sh_extra_rows r |}.

(** A row of the table of contents: the addresses of the header line and of
    its CRLF, and whether it was already given out. *)
Record header_toc_row := { row_init : bytes; row_end : bytes; row_status : Z }.
(** [rows[0 .. length)]. *)
Definition headers_toc : Type := list header_toc_row.

Record session_request := {
  sr_status : Z;
  sr_body : mk_pointer;
  sr_headers_toc : headers_toc;
  sr_headers_len : Z;
  sr_method : Z;
  sr_method_p : mk_pointer;
  sr_uri : mk_pointer;
  sr_uri_processed : mk_pointer;
  sr_protocol : Z;
  sr_protocol_p : mk_pointer;
  sr_close_now : Z;
  sr_content_length : Z;
  sr_content_type : mk_pointer;
  sr_connection : mk_pointer;
  sr_host : mk_pointer;
  sr_host_port : mk_pointer;
  sr_if_modified_since : mk_pointer;
  sr_last_modified_since : mk_pointer;
  sr_range : mk_pointer;
  sr_data : mk_pointer;
  sr_real_path : mk_pointer;
  (** does [real_path.data] point to [real_path_static]? *)
  sr_real_path_static : bool;
  sr_query_string : mk_pointer;
  sr_keep_alive : Z;
  sr_user_home : Z;
  sr_port : Z;
  sr_fd_file : Z;
  sr_stage30_blocked : Z;
  sr_loop : Z;
  sr_bytes_to_send : Z;
  sr_bytes_offset : Z;
  sr_file_info : file_info;
  (** index of the virtual host in [config->hosts] *)
  sr_host_conf : option nat;
  sr_host_alias : option host_alias;
  sr_headers : response_headers;
  (** index of the plugin in [config->plugins] *)
  sr_handled_by : option nat;
}.
#[export] Instance eta_session_request : Eta session_request := fun r =>
  {| sr_status := sr_status r; sr_body := sr_body r; sr_headers_toc := sr_headers_toc r;
     sr_headers_len := sr_headers_len r; sr_method := sr_method r; sr_method_p := sr_method_p r;
     sr_uri := sr_uri r; sr_uri_processed := sr_uri_processed r; sr_protocol := sr_protocol r;
     sr_protocol_p := sr_protocol_p r; sr_close_now := sr_close_now r;
     sr_content_length := sr_content_length r; sr_content_type := sr_content_type r;
     sr_connection := sr_connection r; sr_host := sr_host r; sr_host_port := sr_host_port r;
     sr_if_modified_since := sr_if_modified_since r;
     sr_last_modified_since := sr_last_modified_since r; sr_range := sr_range r;
     sr_data := sr_data r; sr_real_path := sr_real_path r;
     sr_real_path_static := sr_real_path_static r; sr_query_string := sr_query_string r;
     sr_keep_alive := sr_keep_alive r; sr_user_home := sr_user_home r; sr_port := sr_port r;
     sr_fd_file := sr_fd_file r; sr_stage30_blocked := sr_stage30_blocked r; sr_loop := sr_loop r;
     sr_bytes_to_send := sr_bytes_to_send r; sr_bytes_offset := sr_bytes_offset r;
     sr_file_info := sr_file_info r; sr_host_conf := sr_host_conf r;
     sr_host_alias := sr_host_alias r; sr_headers := sr_headers r;
     sr_handled_by := sr_handled_by r |}.

(** [cs_body] is the whole buffer [body] points to; [cs_body_fixed] tells
    whether that is still [body_fixed]. *)
Record client_session := {
  cs_pipelined : Z;
  cs_socket : Z;
  cs_counter_connections : Z;
  cs_status : Z;
  cs_body : bytes;
  cs_body_fixed : bool;
  cs_body_size : Z;
  cs_body_length : Z;
  cs_body_pos_end : Z;
  cs_first_method : Z;
  cs_init_time : Z;
  cs_request_list : list session_request;
}.
#[export] Instance eta_client_session : Eta client_session := fun r =>
  {| cs_pipelined := cs_pipelined r; cs_socket := cs_socket r;
     cs_counter_connections := cs_counter_connections r; cs_status := cs_status r;
     cs_body := cs_body r; cs_body_fixed := cs_body_fixed r; cs_body_size := cs_body_size r;
     cs_body_length := cs_body_length r; cs_body_pos_end := cs_body_pos_end r;
     cs_first_method := cs_first_method r; cs_init_time := cs_init_time r;
     cs_request_list := cs_request_list r |}.

Definition MK_REQUEST_STATUS_INCOMPLETE : Z := -1.
Definition MK_REQUEST_STATUS_COMPLETED : Z := 0.
Definition EXIT_NORMAL : Z := 0.
Definition EXIT_ERROR : Z := -1.
Definition EXIT_ABORT : Z := -2.

(** ** Scheduler and epoll state (mk_scheduler.h, mk_epoll.h) *)

Definition MK_SCHEDULER_CONN_AVAILABLE : Z := -1.
Definition MK_SCHEDULER_CONN_PENDING : Z := 0.
Definition MK_SCHEDULER_CONN_PROCESS : Z := 1.

Record sched_connection := { sc_socket : Z; sc_status : Z; sc_arrive_time : Z }.
#[export] Instance eta_sched_connection : Eta sched_connection := fun r =>
  {| sc_socket := sc_socket r; sc_status := sc_status r; sc_arrive_time := sc_arrive_time r |}.

(** The queues link the elements of a fixed array; an element is its index in
    the array with its contents. *)
Record sched_list_node := {
  sl_accepted_connections : Z;
  sl_closed_connections : Z;
  sl_busy_queue : list (nat * sched_connection);
  sl_av_queue : list (nat * sched_connection);
  sl_idx : Z;
  sl_epoll_fd : Z;
  sl_initialized : Z;
}.
#[export] Instance eta_sched_list_node : Eta sched_list_node := fun r =>
  {| sl_accepted_connections := sl_accepted_connections r;
     sl_closed_connections := sl_closed_connections r; sl_busy_queue := sl_busy_queue r;
     sl_av_queue := sl_av_queue r; sl_idx := sl_idx r; sl_epoll_fd := sl_epoll_fd r;
     sl_initialized := sl_initialized r |}.

Record epoll_state := {
  es_instance : Z; es_fd : Z; es_mode : Z; es_behavior : Z; es_events : Z
}.
#[export] Instance eta_epoll_state : Eta epoll_state := fun r =>
  {| es_instance := es_instance r; es_fd := es_fd r; es_mode := es_mode r;
     es_behavior := es_behavior r; es_events := es_events r |}.

Record epoll_state_index := {
  ei_size : Z; ei_busy_queue : list epoll_state; ei_av_queue : list epoll_state
}.
#[export] Instance eta_epoll_state_index : Eta epoll_state_index := fun r =>
  {| ei_size := ei_size r; ei_busy_queue := ei_busy_queue r; ei_av_queue := ei_av_queue r |}.

(** Plugin registered for the events of a socket. *)
Record plugin_event := { pe_socket : Z; pe_handler : nat }.

(** ** What a worker does to the outside *)

Inductive epoll_op := EPOLL_CTL_ADD | EPOLL_CTL_DEL | EPOLL_CTL_MOD.

Inductive event :=
  | EvOpen (path : bytes) (flags fd : Z)
  | EvClose (fd : Z)
  | EvLseek (fd offset : Z)
  | EvRead (socket : Z) (got : bytes)
  | EvWrite (socket : Z) (sent : bytes)
  | EvSendFile (socket fd offset count n : Z)
  | EvCork (socket state : Z)
  | EvEpollCtl (op : epoll_op) (efd fd events : Z)
  | EvSetFl (fd flags : Z)
  (** a pipe with its ends *)
  | EvPipe (r w : Z)
  (** a process in a directory executes a program *)
  | EvExec (dir path : bytes) (argv envp : list bytes)
  (** a thread is started to write data to a descriptor *)
  | EvSpawn (fd : Z) (data : bytes)
  (** a socket is created, connected, bound, made to listen, given an option;
      a connection is accepted *)
  | EvSocket (domain type protocol fd : Z)
  | EvConnect (fd : Z) (addr : bytes) (r : Z)
  | EvBind (fd : Z) (addr : bytes) (r : Z)
  | EvListen (fd backlog r : Z)
  | EvSockOpt (fd level name value : Z)
  | EvAccept (server fd : Z).

(** The state of a worker thread; [w_trace] lists its actions, oldest first.
    A [client_session *] is the number the session was allocated under. *)
Record world := {
  w_sched : sched_list_node;
  w_epoll : epoll_state_index;
  w_sessions : list (nat * client_session);
  w_next : nat;
  w_events : list plugin_event;
  w_gmt : list mk_gmt_cache;
  w_iov : Iov.mk_iov;
  (** buffer of [mk_cache_header_lm] *)
  w_lm : bytes;
  w_utime : Z;
  w_header_time : mk_pointer;
  w_trace : list event;
}.
#[export] Instance eta_world : Eta world := fun r =>
  {| w_sched := w_sched r; w_epoll := w_epoll r; w_sessions := w_sessions r; w_next := w_next r;
     w_events := w_events r; w_gmt := w_gmt r; w_iov := w_iov r; w_lm := w_lm r; w_utime := w_utime r;
     w_header_time := w_header_time r; w_trace := w_trace r |}.

(** ** The monad of the handlers

    [None] is undefined behaviour or [abort]/[exit]. *)
Definition M (A : Type) : Type := world -> option (A * world).

#[export] Instance M_ret : MRet M := fun A x w => Some (x, w).
#[export] Instance M_bind : MBind M := fun A B f m w =>
  match m w with Some (a, w) => f a w | None => None end.
#[export] Instance M_fmap : FMap M := fun A B f m w =>
  match m w with Some (a, w) => Some (f a, w) | None => None end.

Definition get_w : M world := fun w => Some (w, w).
Definition put_w (w : world) : M unit := fun _ => Some (tt, w).
Definition gets {A} (f : world -> A) : M A := fun w => Some (f w, w).
Definition mod_w (f : world -> world) : M unit := fun w => Some (tt, f w).
Definition lift {A} (o : option A) : M A := fun w => a ← o; Some (a, w).
Definition ub {A} : M A := fun _ => None.
Definition emit (e : event) : M unit := mod_w (fun w => w <| w_trace := w_trace w ++ [e] |>).

(** Runs the monadic steps whose computations are known. *)
Ltac mrun :=
  unfold get_w, put_w, gets, mod_w, lift, emit, mret, M_ret, mbind, M_bind, option_bind;
  cbv beta iota zeta.

(** A pointer to a session: dereferencing a freed one is undefined. *)
Fixpoint assoc {A} (p : nat) (l : list (nat * A)) : option A :=
  match l with [] => None | (q, a) :: l => if (p =? q)%nat then Some a else assoc p l end.
Fixpoint assoc_set {A} (p : nat) (a : A) (l : list (nat * A)) : list (nat * A) :=
  match l with
  | [] => []
  | (q, b) :: l => if (p =? q)%nat then (q, a) :: l else (q, b) :: assoc_set p a l
  end.
Definition get_cs (cs : nat) : M client_session := fun w => c ← assoc cs (w_sessions w); Some (c, w).
Definition put_cs (cs : nat) (c : client_session) : M unit := fun w =>
  _ ← assoc cs (w_sessions w);
  Some (tt, w <| w_sessions := assoc_set cs c (w_sessions w) |>).

(** The [sr]-th request of a session. *)
Definition get_sr (cs sr : nat) : M session_request :=
  c ← get_cs cs; lift (cs_request_list c !! sr).
Definition put_sr (cs sr : nat) (r : session_request) : M unit :=
  c ← get_cs cs;
  _ ← lift (cs_request_list c !! sr);
  put_cs cs (c <| cs_request_list := <[sr := r]> (cs_request_list c) |>).
Definition mod_sr (cs sr : nat) (f : session_request -> session_request) : M unit :=
  r ← get_sr cs sr; put_sr cs sr (f r).

Lemma get_cs_run cs w c : assoc cs (w_sessions w) = Some c -> get_cs cs w = Some (c, w).
Proof. intros H. unfold get_cs. now rewrite H. Qed.

Lemma get_sr_run cs sr w c r :
  assoc cs (w_sessions w) = Some c -> cs_request_list c !! sr = Some r -> get_sr cs sr w = Some (r, w).
Proof.
  intros Hc Hr. unfold get_sr, mbind, M_bind. rewrite (get_cs_run cs w c Hc). unfold lift. now rewrite Hr.
Qed.

(** [cs] is the session [c], and [r] its [sr]-th request. *)
Record at_sr (w : world) (cs sr : nat) (c : client_session) (r : session_request) : Prop := {
  at_cs : assoc cs (w_sessions w) = Some c;
  at_req : cs_request_list c !! sr = Some r;
}.

Lemma assoc_set_eq {A} p (a b : A) l : assoc p l = Some b -> assoc p (assoc_set p a l) = Some a.
Proof.
  induction l as [|[q d] l IH]; cbn; [done|]. destruct (Nat.eqb_spec p q) as [->|Hne]; cbn.
  - now rewrite Nat.eqb_refl.
  - destruct (Nat.eqb_spec p q); [congruence|exact IH].
Qed.

Lemma mod_sr_run cs sr f w c r :
  at_sr w cs sr c r ->
  let c' := c <| cs_request_list := <[sr := f r]> (cs_request_list c) |> in
  let w' := w <| w_sessions := assoc_set cs c' (w_sessions w) |> in
  mod_sr cs sr f w = Some (tt, w') /\ at_sr w' cs sr c' (f r).
Proof.
  intros [Hc Hr] c' w'. split.
  - unfold mod_sr, mbind, M_bind. rewrite (get_sr_run _ _ _ _ _ Hc Hr). unfold put_sr, mbind, M_bind.
    rewrite (get_cs_run _ _ _ Hc). unfold lift. rewrite Hr. cbn. unfold put_cs. now rewrite Hc.
  - split; cbn; [now apply assoc_set_eq with c|].
    rewrite list_lookup_insert_eq; [done|]. now apply lookup_lt_Some in Hr.
Qed.

(** The world with another [sr]-th request in the session [c]. *)
Definition upd_sr (w : world) (cs sr : nat) (c : client_session) (r : session_request) : world :=
  w <| w_sessions := assoc_set cs (c <| cs_request_list := <[sr := r]> (cs_request_list c) |>) (w_sessions w) |>.

Lemma upd_sr_at w cs sr c r r' :
  at_sr w cs sr c r -> at_sr (upd_sr w cs sr c r') cs sr (c <| cs_request_list := <[sr := r']> (cs_request_list c) |>) r'.
Proof.
  intros [Hc Hr]. split; cbn; [now apply assoc_set_eq with c|].
  rewrite list_lookup_insert_eq; [done|]. now apply lookup_lt_Some in Hr.
Qed.

Lemma assoc_set_set {A} p (a b : A) l : assoc_set p b (assoc_set p a l) = assoc_set p b l.
Proof.
  induction l as [|[q d] l IH]; cbn; [done|]. destruct (Nat.eqb_spec p q) as [->|Hne]; cbn.
  - now rewrite Nat.eqb_refl.
  - destruct (Nat.eqb_spec p q); [congruence|]. now rewrite IH.
Qed.

Lemma mod_sr_upd cs sr f w c r : at_sr w cs sr c r -> mod_sr cs sr f w = Some (tt, upd_sr w cs sr c (f r)).
Proof. apply mod_sr_run. Qed.

Lemma mod_upd_sr cs sr f w c r r' :
  at_sr w cs sr c r -> mod_sr cs sr f (upd_sr w cs sr c r') = Some (tt, upd_sr w cs sr c (f r')).
Proof.
  intros H. rewrite (mod_sr_upd _ _ _ _ _ _ (upd_sr_at _ _ _ _ _ r' H)). unfold upd_sr. cbn.
  now rewrite assoc_set_set, list_insert_insert_eq.
Qed.

Lemma get_upd_sr cs sr w c r r' : at_sr w cs sr c r -> get_sr cs sr (upd_sr w cs sr c r') = Some (r', upd_sr w cs sr c r').
Proof. intros H. destruct (upd_sr_at _ _ _ _ _ r' H) as [H1 H2]. exact (get_sr_run _ _ _ _ _ H1 H2). Qed.

Lemma get_at_cs cs sr w c r : at_sr w cs sr c r -> get_cs cs w = Some (c, w).
Proof. intros [H _]. exact (get_cs_run _ _ _ H). Qed.

Lemma get_at_sr cs sr w c r : at_sr w cs sr c r -> get_sr cs sr w = Some (r, w).
Proof. intros [H1 H2]. exact (get_sr_run _ _ _ _ _ H1 H2). Qed.

Lemma put_at_sr cs sr w c r r' : at_sr w cs sr c r -> put_sr cs sr r' w = Some (tt, upd_sr w cs sr c r').
Proof.
  intros H. pose proof (mod_sr_upd cs sr (fun _ => r') w c r H) as Hm. unfold mod_sr in Hm.
  unfold mbind, M_bind in Hm. now rewrite (get_at_sr _ _ _ _ _ H) in Hm.
Qed.

Lemma put_upd_sr cs sr w c r r1 r2 :
  at_sr w cs sr c r -> put_sr cs sr r2 (upd_sr w cs sr c r1) = Some (tt, upd_sr w cs sr c r2).
Proof.
  intros H. pose proof (mod_upd_sr cs sr (fun _ => r2) w c r r1 H) as Hm. unfold mod_sr in Hm.
  unfold mbind, M_bind in Hm. now rewrite (get_upd_sr _ _ _ _ _ _ H) in Hm.
Qed.

(** One step of a handler. *)
Lemma bind_run {A B} (m : M A) (k : A -> M B) w a w1 : m w = Some (a, w1) -> (m ≫= k) w = k a w1.
Proof. intros H. unfold mbind, M_bind. now rewrite H. Qed.

Lemma lift_run {A B} (o : option A) (k : A -> M B) w a : o = Some a -> (lift o ≫= k) w = k a w.
Proof. intros ->. reflexivity. Qed.

(** The world after more events. *)
Definition logged (w : world) (t : list event) : world := w <| w_trace := w_trace w ++ t |>.

Lemma emit_run e w : emit e w = Some (tt, logged w [e]).
Proof. reflexivity. Qed.

(** What was written to a socket. *)
Definition written (fd : Z) (t : list event) : bytes :=
  concat (map (fun e => match e with EvWrite s d => if s =? fd then d else [] | _ => [] end) t).

Lemma written_app fd t t' : written fd (t ++ t') = written fd t ++ written fd t'.
Proof. unfold written. now rewrite map_app, concat_app. Qed.

Lemma written_one fd d t : written fd (t ++ [EvWrite fd d]) = written fd t ++ d.
Proof. rewrite written_app. cbn. now rewrite Z.eqb_refl, app_nil_r. Qed.

Lemma logged_nil w : logged w [] = w.
Proof. unfold logged. rewrite app_nil_r. now destruct w. Qed.
Lemma logged_app w t u : logged (logged w t) u = logged w (t ++ u).
Proof. unfold logged. cbn. now rewrite app_assoc. Qed.
Lemma logged_at w t cs sr c r : at_sr w cs sr c r -> at_sr (logged w t) cs sr c r.
Proof. intros [H1 H2]. now split. Qed.

(** The result and the trace of a run. *)
Definition outcome {A} (run : option (A * world)) : option (A * list event) :=
  p ← run; Some (fst p, w_trace (snd p)).

Lemma outcome_inv {A} (run : option (A * world)) a t :
  outcome run = Some (a, t) -> exists w, run = Some (a, w) /\ w_trace w = t.
Proof. destruct run as [[x w]|]; [|done]. intros [= <- <-]. eauto. Qed.

(** [m] leaves a part of the world alone. *)
Definition keeps {A B} (g : world -> B) (m : M A) : Prop :=
  forall w a w', m w = Some (a, w') -> g w' = g w.

Lemma keeps_ret {A B} (g : world -> B) (x : A) : keeps g (mret x).
Proof. intros w a w' [= <- <-]. done. Qed.
Lemma keeps_bind {A B C} (g : world -> C) (m : M A) (f : A -> M B) :
  keeps g m -> (forall a, keeps g (f a)) -> keeps g (m ≫= f).
Proof.
  intros Hm Hf w b w'. unfold mbind, M_bind. destruct (m w) as [[a w1]|] eqn:E; [|done].
  intros H. rewrite (Hf a w1 b w' H). now apply (Hm w a).
Qed.
Lemma keeps_gets {A B} (g : world -> B) (f : world -> A) : keeps g (gets f).
Proof. intros w a w' [= <- <-]. done. Qed.
Lemma keeps_lift {A B} (g : world -> B) (o : option A) : keeps g (lift o).
Proof. intros w a w'. unfold lift. destruct o; [|done]. now intros [= <- <-]. Qed.
Lemma keeps_ub {A B} (g : world -> B) : keeps g (@ub A).
Proof. done. Qed.
Lemma keeps_mod_w {B} (g : world -> B) f : (forall w, g (f w) = g w) -> keeps g (mod_w f).
Proof. intros H w a w' [= <- <-]. apply H. Qed.
Lemma keeps_emit {B} (g : world -> B) e : (forall w t, g (w <| w_trace := t |>) = g w) -> keeps g (emit e).
Proof. intros H. apply keeps_mod_w. intros w. apply H. Qed.

Create HintDb keeps discriminated.
#[export] Hint Resolve keeps_ret keeps_gets keeps_lift keeps_ub : keeps.
#[export] Hint Extern 1 (keeps _ (_ ≫= _)) => apply keeps_bind; [|intros ?] : keeps.
#[export] Hint Extern 1 (keeps _ (mod_w _)) => apply keeps_mod_w; intros ? : keeps.
#[export] Hint Extern 1 (keeps _ (emit _)) => apply keeps_emit; intros ? ? : keeps.
#[export] Hint Extern 2 (keeps _ (if ?b then _ else _)) => destruct b : keeps.
#[export] Hint Extern 2 (keeps _ (match ?b with _ => _ end)) => destruct b : keeps.
#[export] Hint Extern 5 (_ = _) => reflexivity : keeps.

(** ** Environment *)

(** [lstat(2)]/[stat(2)]: an errno or the fields read. *)
Record stat := { st_mode : Z; st_uid : Z; st_gid : Z; st_size : Z; st_mtime : Z }.

(** [struct plugin]: the hooks, and the callbacks it exports ([None] when the
    symbol is missing). *)
Record plugin := {
  pl_shortname : bytes;
  pl_name : option bytes;
  pl_version : option bytes;
  pl_hooks : Z;
  (** does it export [_mkp_init] and [_mkp_exit]? *)
  pl_init : bool;
  pl_exit : bool;
  pl_s10 : option (Z -> nat -> M Z);
  pl_s20 : option (nat -> nat -> M Z);
  pl_s30 : option (nat -> nat -> M Z);
  pl_s40 : option (nat -> nat -> M Z);
  pl_s50 : option (Z -> M Z);
  pl_event_read : option (Z -> M Z);
  pl_event_write : option (Z -> M Z);
  pl_event_error : option (Z -> M Z);
  pl_event_close : option (Z -> M Z);
  pl_event_timeout : option (Z -> M Z);
}.

(** mk_mimetype.h *)
Record mimetype := { mt_name : bytes; mt_type : mk_pointer }.

(** What the worker's code calls but does not define: the system, whose answers
    may depend on everything done so far, the network layer plugin
    ([plg_netiomap]) and the other plugins; with the tables that the start-up
    code filled and the workers only read. *)
Class Env := {
  config : server_config;
  EUID : Z;
  EGID : Z;
  sys_lstat : list event -> bytes -> Z + stat;
  sys_stat : list event -> bytes -> option stat;
  sys_open : list event -> bytes -> Z -> Z;
  sys_access : list event -> bytes -> Z;
  sys_readlink : list event -> bytes -> Z;
  (** home directory of a user *)
  sys_getpwnam : bytes -> option bytes;
  (** [strptime] with GMT_DATEFORMAT *)
  sys_strptime : bytes -> option tm;
  (** [mktime] of the parsed date, in the local time zone *)
  sys_mktime : tm -> Z;
  (** result, and whether [errno] is EEXIST *)
  sys_epoll_ctl : list event -> epoll_op -> Z -> Z -> Z -> Z * bool;
  (** bytes read, or the negative result and whether [errno] is EAGAIN *)
  net_read : list event -> Z -> Z -> bytes + Z * bool;
  net_write : list event -> Z -> bytes -> Z;
  net_writev : list event -> Z -> bytes -> Z;
  (** bytes sent from the file offset *)
  net_send_file : list event -> Z -> Z -> Z -> Z -> Z;
  (** [fcntl(fd, F_GETFD, 0)] *)
  sys_getfd : list event -> Z -> Z;
  (** does [realloc] find memory? *)
  sys_realloc : list event -> Z -> bool;
  (** contents of memory that nothing initialised *)
  sys_junk : nat -> Z;
  mimecommon : list mimetype;
  mimearr : list mimetype;
  mimetype_default : mimetype;
  plugins : list plugin;
}.

(** ** A concrete environment, for the examples

    A server with one virtual host whose every file is a readable 5-byte file,
    on a network that takes all it is given. *)
Definition example_config : server_config :=
  {| c_worker_capacity := 10; c_workers := 1; c_user_dir := None; c_serverport := 2001; c_timeout := 15;
     c_standard_port := 80; c_resume := MK_TRUE; c_symlink := MK_FALSE; c_keep_alive := MK_TRUE;
     c_max_keep_alive_request := 50; c_keep_alive_timeout := 5; c_max_request_size := 32768;
     c_index_files := None;
     c_hosts := [ {| h_file := []; h_server_names := [ {| ha_name := clit "x"; ha_len := 1 |} ];
                     h_documentroot := mk_pointer_init "/srv"; h_host_signature := clit "Monkey";
                     h_header_host_signature := mk_pointer_init "Server: Monkey"; h_error_pages := [] |} ];
     c_open_flags := 0; c_safe_event_write := MK_FALSE; c_transport := clit "http" |}.

Definition example_stat : stat :=
  {| st_mode := 33188; st_uid := 1000; st_gid := 1000; st_size := 5; st_mtime := 1000 |}.

Definition example_mime (name type : string) : mimetype :=
  {| mt_name := clit name; mt_type := {| data := Some (lit type ++ [13; 10; 0]); len := Z.of_nat (String.length type) + 2 |} |}.
Definition example_mimes : list mimetype :=
  [ example_mime "html" "text/html"; example_mime "htm" "text/html"; example_mime "css" "text/css";
    example_mime "js" "application/x-javascript"; example_mime "gif" "image/gif";
    example_mime "jpg" "image/jpeg"; example_mime "png" "image/png"; example_mime "txt" "text/plain";
    example_mime "xml" "text/xml"; example_mime "pdf" "application/pdf" ].

Definition example_env : Env :=
  {| config := example_config; EUID := 1000; EGID := 1000;
     sys_lstat := fun _ _ => inr example_stat; sys_stat := fun _ _ => Some example_stat;
     sys_open := fun _ _ _ => 7; sys_access := fun _ _ => -1; sys_readlink := fun _ _ => -1;
     sys_getpwnam := fun _ => None; sys_strptime := fun _ => None; sys_mktime := fun _ => 0;
     sys_epoll_ctl := fun _ _ _ _ _ => (0, false);
     net_read := fun _ _ _ => inr (0, false);
     net_write := fun _ _ d => Z.of_nat (length d); net_writev := fun _ _ d => Z.of_nat (length d);
     net_send_file := fun _ _ _ _ n => n; sys_getfd := fun _ _ => 0; sys_realloc := fun _ _ => true; sys_junk := fun _ => 0;
     mimecommon := example_mimes; mimearr := []; mimetype_default := example_mime "default" "text/plain";
     plugins := [] |}.

(** The same with another network. *)
Definition example_net (read : list event -> Z -> Z -> bytes + Z * bool) (writev : list event -> Z -> bytes -> Z) : Env :=
  {| config := @config example_env; EUID := 1000; EGID := 1000; sys_lstat := @sys_lstat example_env;
     sys_stat := @sys_stat example_env; sys_open := @sys_open example_env;
     sys_access := @sys_access example_env; sys_readlink := @sys_readlink example_env;
     sys_getpwnam := @sys_getpwnam example_env; sys_strptime := @sys_strptime example_env;
     sys_mktime := @sys_mktime example_env; sys_epoll_ctl := @sys_epoll_ctl example_env;
     net_read := read; net_write := @net_write example_env; net_writev := writev;
     net_send_file := @net_send_file example_env; sys_getfd := @sys_getfd example_env; sys_realloc := @sys_realloc example_env;
     sys_junk := @sys_junk example_env; mimecommon := @mimecommon example_env;
     mimearr := @mimearr example_env; mimetype_default := @mimetype_default example_env; plugins := [] |}.
