(* ===== verification/MkToc.v ===== *)
(** * Request syntax: methods, protocol versions, the header table of contents

    The parts of mk_http.c, mk_request.c and mk_method.c that read the text of
    a request and nothing else. *)
From S2P Require Import Prelude CString MkString MkMemory MkUtils MkTypes.
Local Open Scope Z_scope.

(** ** Constants *)

Definition HTTP_METHOD_UNKNOWN : Z := -1.
Definition HTTP_METHOD_GET : Z := 0.
Definition HTTP_METHOD_POST : Z := 1.
Definition HTTP_METHOD_HEAD : Z := 2.
Definition HTTP_METHOD_PUT : Z := 3.
Definition HTTP_METHOD_DELETE : Z := 4.
Definition HTTP_PROTOCOL_UNKNOWN : Z := -1.
Definition HTTP_PROTOCOL_09 : Z := 9.
Definition HTTP_PROTOCOL_10 : Z := 10.
Definition HTTP_PROTOCOL_11 : Z := 11.

Definition MK_CRLF : bytes := [13; 10; 0].
Definition MK_ENDBLOCK : bytes := [13; 10; 13; 10; 0].
Definition mk_crlf : mk_pointer := {| data := Some MK_CRLF; len := 2 |}.
Definition mk_endblock : mk_pointer := {| data := Some MK_ENDBLOCK; len := 4 |}.

Definition mk_rh_connection : mk_pointer := mk_pointer_init "Connection:".
Definition mk_rh_content_length : mk_pointer := mk_pointer_init "Content-Length:".
Definition mk_rh_content_type : mk_pointer := mk_pointer_init "Content-type:".
Definition mk_rh_if_modified_since : mk_pointer := mk_pointer_init "If-Modified-Since:".
Definition mk_rh_host : mk_pointer := mk_pointer_init "Host:".
Definition mk_rh_range : mk_pointer := mk_pointer_init "Range:".

(** ** Methods and protocol versions *)

Definition mk_http_method_check (method : mk_pointer) : option Z :=
  p ← data method;
  g ← strncmp p (clit "GET") (len method);
  if g =? 0 then Some HTTP_METHOD_GET else
  g ← strncmp p (clit "POST") (len method);
  if g =? 0 then Some HTTP_METHOD_POST else
  g ← strncmp p (clit "HEAD") (len method);
  if g =? 0 then Some HTTP_METHOD_HEAD else
  g ← strncmp p (clit "PUT") (len method);
  if g =? 0 then Some HTTP_METHOD_PUT else
  g ← strncmp p (clit "DELETE") (len method);
  if g =? 0 then Some HTTP_METHOD_DELETE else
  Some HTTP_METHOD_UNKNOWN.

Definition mk_http_method_check_str (method : Z) : mk_pointer :=
  if method =? HTTP_METHOD_GET then mk_pointer_init "GET"
  else if method =? HTTP_METHOD_POST then mk_pointer_init "POST"
  else if method =? HTTP_METHOD_HEAD then mk_pointer_init "HEAD"
  else if method =? HTTP_METHOD_PUT then mk_pointer_init "PUT"
  else if method =? HTTP_METHOD_DELETE then mk_pointer_init "DELETE"
  else mk_pointer_reset.

Definition mk_http_method_get (body : bytes) : option Z :=
  let max_len_method := 7 in
  pos ← mk_string_char_search body 32 7;
  if (pos <=? 2) || (max_len_method <=? pos) then Some HTTP_METHOD_UNKNOWN
  else mk_http_method_check {| data := Some body; len := pos |}.

(** [len] is converted to the [size_t] of [strncmp]. *)
Definition mk_http_protocol_check (protocol : bytes) (len : Z) : option Z :=
  g ← strncmp protocol (clit "HTTP/1.1") (u64 len);
  if g =? 0 then Some HTTP_PROTOCOL_11 else
  g ← strncmp protocol (clit "HTTP/1.0") (u64 len);
  if g =? 0 then Some HTTP_PROTOCOL_10 else
  g ← strncmp protocol (clit "HTTP/0.9") (u64 len);
  if g =? 0 then Some HTTP_PROTOCOL_09 else
  Some HTTP_PROTOCOL_UNKNOWN.

Definition mk_http_protocol_check_str (protocol : Z) : mk_pointer :=
  if protocol =? HTTP_PROTOCOL_11 then mk_pointer_init "HTTP/1.1"
  else if protocol =? HTTP_PROTOCOL_10 then mk_pointer_init "HTTP/1.0"
  else if protocol =? HTTP_PROTOCOL_09 then mk_pointer_init "HTTP/0.9"
  else mk_pointer_reset.

(** ** Table of contents of the headers *)

Definition MK_HEADERS_TOC_LEN : nat := 32.

(** The rows filled from [p] on, [n] more at most; [l] is the offset of the
    last line end, [None] before the first. *)
Fixpoint toc_loop (n : nat) (dat : bytes) (len : Z) (l : option Z) (p : bytes) : option headers_toc :=
  match n with
  | O => Some []
  | S n =>
    if match l with None => true | Some l => l <? len end then
      r ← strstr p MK_CRLF;
      match r with
      | Some k =>
        q ← padd p k;
        p' ← padd q 2;
        rows ← toc_loop n dat len (Some (pdiff q dat)) p';
        Some ({| row_init := p; row_end := q; row_status := 0 |} :: rows)
      | None => Some []
      end
    else Some []
  end.

Definition mk_request_header_toc_parse (dat : bytes) (len : Z) : option headers_toc :=
  toc_loop MK_HEADERS_TOC_LEN dat len None dat.

(** The value of the first header not given out yet whose line starts with
    [key_name], and the table with its row marked. *)
Fixpoint mk_request_header_get (toc : headers_toc) (key_name : bytes) (key_len : Z)
    : option (mk_pointer * headers_toc) :=
  match toc with
  | [] => Some (mk_pointer_reset, [])
  | row :: rest =>
    if row_status row =? 1 then
      '(var, rest) ← mk_request_header_get rest key_name key_len; Some (var, row :: rest)
    else
      c ← strncasecmp (row_init row) key_name key_len;
      if c =? 0 then
        d ← padd (row_init row) (key_len + 1);
        Some ({| data := Some d; len := u64 (pdiff (row_end row) d) |},
              {| row_init := row_init row; row_end := row_end row; row_status := 1 |} :: rest)
      else '(var, rest) ← mk_request_header_get rest key_name key_len; Some (var, row :: rest)
  end.

(** The key given as one of the [mk_rh_*] pointers. *)
Definition header_get (toc : headers_toc) (key : mk_pointer) : option (mk_pointer * headers_toc) :=
  k ← data key; mk_request_header_get toc k (len key).

(** ** Content length *)

Definition mk_method_validate_content_length (body : bytes) (body_len : Z) : option Z :=
  toc ← mk_request_header_toc_parse body body_len;
  '(tmp, _) ← header_get toc mk_rh_content_length;
  match data tmp with
  | None =>
    pos_header ← mk_string_search body (clit "Content-Length:") MK_STR_INSENSITIVE;
    if pos_header <=? 0 then Some (-1) else
    q ← padd body pos_header;
    pos_crlf ← mk_string_search q MK_CRLF MK_STR_SENSITIVE;
    if pos_crlf <=? 0 then Some (-1) else
    q ← padd body (pos_header + len mk_rh_content_length + 1);
    str_cl ← mk_string_copy_substr q 0 (pos_header + pos_crlf);
    str_cl ← str_cl;
    atol str_cl
  | Some p => atol p
  end.

Definition mk_method_get_data (p : bytes) (size : Z) : mk_pointer :=
  {| data := Some p; len := u64 size |}.

(** ** The table of contents lists the header lines *)

(** The text of a row, without its CRLF. *)
Definition row_text (r : header_toc_row) : bytes :=
  take (length (row_init r) - length (row_end r)) (row_init r).

(** A row as the parser makes it: its line holds no CRLF and ends at one, in
    a NUL-terminated buffer. *)
Record row_ok (r : header_toc_row) (line : bytes) : Prop := {
  row_ok_init : row_init r = line ++ row_end r;
  row_ok_end : exists rest, row_end r = 13 :: 10 :: rest;
  row_ok_line : forall i, ~ (line !! i = Some 13 /\ line !! S i = Some 10);
  row_ok_cstr : exists s, is_cstr (row_init r) s /\ (length line + 2 <= length s)%nat;
}.

(** Reference: the text up to the first CRLF, and what follows it. *)
Fixpoint split_crlf (s : bytes) : option (bytes * bytes) :=
  match s with
  | [] => None
  | c :: s' =>
    match s' with
    | d :: r => if (c =? 13) && (d =? 10) then Some ([], r)
                else '(a, b) ← split_crlf s'; Some (c :: a, b)
    | [] => None
    end
  end.

(** Reference: at most [n] lines; a line that ends at [budget] or later is the last. *)
Fixpoint crlf_lines (n : nat) (budget : Z) (s : bytes) : list bytes :=
  match n with
  | O => []
  | S n =>
    match split_crlf s with
    | None => []
    | Some (a, r) =>
      a :: if Z.of_nat (length a) <? budget then crlf_lines n (budget - Z.of_nat (length a) - 2) r else []
    end
  end.

Lemma split_crlf_cons c d r :
  split_crlf (c :: d :: r) =
  if (c =? 13) && (d =? 10) then Some ([], r) else '(a, b) ← split_crlf (d :: r); Some (c :: a, b).
Proof. reflexivity. Qed.

Lemma split_crlf_app a b s :
  split_crlf s = Some (a, b) -> s = a ++ 13 :: 10 :: b /\
  forall i, ~ (a !! i = Some 13 /\ (a ++ [13]) !! S i = Some 10).
Proof.
  revert a; induction s as [|c s IH]; intros a H; [done|]. cbn [split_crlf] in H.
  destruct s as [|d r]; [done|]. destruct ((c =? 13) && (d =? 10)) eqn:E.
  - zbool. simplify_eq. split; [done|]. intros i [Hi _]. done.
  - destruct (split_crlf (d :: r)) as [[a' b']|] eqn:Es; [|done]. cbn in H. simplify_eq.
    destruct (IH a' eq_refl) as [Hs Hno]. split; [cbn; congruence|].
    intros [|i] [H1 H2].
    + injection H1 as ->. destruct a' as [|e a']; cbn in H2; [discriminate|].
      injection H2 as ->. injection Hs as -> _. discriminate.
    + apply (Hno i). done.
Qed.

Lemma starts_crlf c d p :
  starts_by eq_cs (c :: d :: p) MK_CRLF = Some ((c =? 13) && (d =? 10)).
Proof. cbn. unfold eq_cs. destruct (c =? 13); [|done]. now destruct (d =? 10). Qed.

Lemma strstr_crlf p s :
  is_cstr p s ->
  strstr p MK_CRLF = Some (match split_crlf s with Some (a, _) => Some (Z.of_nat (length a)) | None => None end).
Proof.
  unfold strstr. revert p; induction s as [|c s IH]; intros p Hp.
  - apply is_cstr_nil in Hp as [r ->]. done.
  - apply is_cstr_cons in Hp as (p' & -> & Hc & Hp). destruct s as [|d s].
    + apply is_cstr_nil in Hp as [r ->]. cbn. unfold eq_cs.
      destruct (c =? 13); cbn; replace (c =? 0) with false by lia; done.
    + specialize (IH _ Hp). apply is_cstr_cons in Hp as (p'' & -> & Hd & Hp'').
      rewrite split_crlf_cons. cbn [strstr_by] in *. rewrite starts_crlf. mstep.
      destruct ((c =? 13) && (d =? 10)); [done|]. replace (c =? 0) with false by lia.
      rewrite IH. mstep. destruct (split_crlf (d :: s)) as [[a b]|]; mstep; [|done].
      cbn [osucc length]. now rewrite Nat2Z.inj_succ.
Qed.

(** The rows cover the text from [p] without a gap, all still to be read. *)
Fixpoint rows_from (p : bytes) (rows : headers_toc) : Prop :=
  match rows with
  | [] => True
  | r :: rows => row_init r = p /\ row_status r = 0 /\ rows_from (drop 2 (row_end r)) rows
  end.

Definition toc_continues (l : option Z) (len : Z) : bool :=
  match l with None => true | Some l => l <? len end.

Lemma toc_loop_spec n dat h len l k :
  is_cstr dat h -> (k <= length h)%nat ->
  exists rows, toc_loop n dat len l (drop k dat) = Some rows /\
    Forall2 row_ok rows
      (if toc_continues l len then crlf_lines n (len - Z.of_nat k) (drop k h) else []) /\
    rows_from (drop k dat) rows.
Proof.
  intros Hd. revert l k. induction n as [|n IH]; intros l k Hk.
  { exists []. repeat split. destruct (toc_continues l len); constructor. }
  cbn [toc_loop crlf_lines]. fold (toc_continues l len). destruct (toc_continues l len).
  2: { exists []. repeat split; constructor. }
  pose proof (is_cstr_drop _ _ k Hd Hk) as Hp. rewrite (strstr_crlf _ _ Hp). mstep.
  destruct (split_crlf (drop k h)) as [[a b]|] eqn:Es.
  2: { exists []. repeat split; constructor. }
  apply split_crlf_app in Es as [Hs Hno]. set (q := drop (length a) (drop k dat)).
  assert (Hlen : (k + length a + 2 <= length h)%nat).
  { assert (length (drop k h) = (length a + S (S (length b)))%nat) as Hl by (rewrite Hs, length_app; done).
    rewrite length_drop in Hl. lia. }
  destruct Hp as [[r Hr] H0].
  assert (Hq : q = 13 :: 10 :: (b ++ 0 :: r)).
  { unfold q. rewrite Hr, Hs, <- app_assoc. apply drop_app_length. }
  assert (Hlp : length (drop k dat) = Nat.add (length a) (S (S (length (b ++ 0 :: r))))).
  { rewrite Hr, Hs, <- app_assoc, length_app. done. }
  rewrite padd_drop, Nat2Z.id by lia. mstep. fold q.
  rewrite padd_drop by (rewrite Hq; cbn; lia). mstep.
  replace (drop (Z.to_nat 2) q) with (b ++ 0 :: r) by (now rewrite Hq).
  assert (Hpos : pdiff q dat = Z.of_nat (k + length a)).
  { unfold pdiff, q. rewrite !length_drop. destruct Hd as [[r' ->] _]. rewrite length_app. cbn. lia. }
  rewrite Hpos.
  assert (Hnext : b ++ 0 :: r = drop (k + length a + 2) dat).
  { rewrite <- drop_drop, <- drop_drop. fold q. now rewrite Hq. }
  destruct (IH (Some (Z.of_nat (k + length a))) (k + length a + 2)%nat ltac:(lia)) as (rows & Hrows & HF & Hch).
  rewrite Hnext, Hrows. mstep. eexists. split; [done|]. split.
  - constructor.
    + split; cbn.
      * unfold q. rewrite Hr, Hs, <- app_assoc. now rewrite drop_app_length.
      * rewrite Hq. eauto.
      * intros i [H1 H2]. apply (Hno i). split; [done|]. now rewrite lookup_app_l by (now apply lookup_lt_Some in H2).
      * exists (drop k h). split; [split; [by exists r|done]|]. rewrite length_drop. lia.
    + cbn [toc_continues] in HF.
      assert (Hlt : (Z.of_nat (k + length a) <? len) = (Z.of_nat (length a) <? len - Z.of_nat k))
        by (destruct (Z.ltb_spec (Z.of_nat (k + length a)) len),
              (Z.ltb_spec (Z.of_nat (length a)) (len - Z.of_nat k)); lia || done).
      rewrite Hlt in HF.
      replace (len - Z.of_nat k - Z.of_nat (length a) - 2) with (len - Z.of_nat (k + length a + 2)) by lia.
      assert (Hb : b = drop (k + length a + 2) h).
      { rewrite <- drop_drop, <- drop_drop. rewrite Hs, drop_app_length. done. }
      rewrite Hb. exact HF.
  - cbn. repeat split. rewrite Hq. cbn. rewrite drop_0, Hnext. exact Hch.
Qed.

(** [mk_request_header_toc_parse] reads a NUL-terminated text in bounds
    and fills at most 32 rows, one per CRLF-ended line, in order and without a
    gap, up to and including the first line that ends at [len] or later. *)
Theorem mk_request_header_toc_parse_spec dat h len :
  is_cstr dat h ->
  exists rows, mk_request_header_toc_parse dat len = Some rows /\
    Forall2 row_ok rows (crlf_lines MK_HEADERS_TOC_LEN len h) /\
    rows_from dat rows /\ (length rows <= MK_HEADERS_TOC_LEN)%nat.
Proof.
  intros Hd. destruct (toc_loop_spec MK_HEADERS_TOC_LEN dat h len None 0 Hd ltac:(lia)) as (rows & Hr & HF & Hch).
  rewrite drop_0 in *. exists rows. cbn [toc_continues] in HF. rewrite Z.sub_0_r in HF.
  repeat split; [exact Hr | exact HF | exact Hch|]. rewrite (Forall2_length _ _ _ HF). clear.
  generalize MK_HEADERS_TOC_LEN as n. intros n. revert h len.
  induction n as [|n IH]; intros h len; cbn [crlf_lines length]; [done|].
  destruct (split_crlf h) as [[a b]|]; cbn [length]; [|lia].
  case_if; cbn [length]; [specialize (IH b (len - Z.of_nat (length a) - 2))|]; lia.
Qed.

Definition toc_example : bytes := lit "Host: a" ++ [13; 10] ++ lit "Range: b" ++ [13; 10; 13; 10; 0].

Lemma mk_request_header_toc_parse_witness :
  exists rows, mk_request_header_toc_parse toc_example 17 = Some rows /\
    Forall2 row_ok rows [lit "Host: a"; lit "Range: b"] /\
    rows_from toc_example rows /\ (length rows <= MK_HEADERS_TOC_LEN)%nat.
Proof.
  apply (mk_request_header_toc_parse_spec toc_example (removelast toc_example) 17).
  split; [by exists [] | decide_closed].
Defined.

(** ** Looking a header up *)

(** Does a line start with the key, letter case aside? *)
Definition line_matches (key line : bytes) : Prop :=
  map tolower (take (length key) line) = map tolower key.
#[export] Instance line_matches_dec key line : Decision (line_matches key line).
Proof. unfold line_matches. apply _. Defined.

(** Reference: the position of the first line not given out that matches. *)
Fixpoint find_row (key : bytes) (rows : headers_toc) (lines : list bytes) : option (nat * header_toc_row * bytes) :=
  match rows, lines with
  | row :: rows, line :: lines =>
    if bool_decide (row_status row <> 1 /\ line_matches key line) then Some (0%nat, row, line)
    else '(i, r, l) ← find_row key rows lines; Some (S i, r, l)
  | _, _ => None
  end.

Lemma row_matches row line key r :
  row_ok row line -> 0 ∉ key -> 13 ∉ key ->
  exists c, strncasecmp (row_init row) (key ++ r) (Z.of_nat (length key)) = Some c /\
    (c = 0 <-> line_matches key line).
Proof.
  intros [Hi (rest & He) _ (s & Hs & Hl)] H0 H13.
  destruct (strncasecmp_spec _ s key r Hs H0) as (c & Hc & Hiff). exists c. split; [done|].
  rewrite Hiff. unfold line_matches.
  assert (Hpre : exists s', s = line ++ 13 :: s').
  { destruct Hs as [[u Hu] _]. rewrite Hi, He in Hu.
    exists (drop (S (length line)) s).
    assert (Ht : take (S (length line)) s = line ++ [13]).
    { transitivity (take (S (length line)) (s ++ 0 :: u)); [now rewrite take_app_le by lia|].
      rewrite <- Hu. rewrite take_app_ge by lia. replace (S (length line) - length line)%nat with 1%nat by lia.
      done. }
    rewrite <- (take_drop (S (length line)) s) at 1. rewrite Ht, <- app_assoc. done. }
  destruct Hpre as [s' ->]. destruct (le_lt_dec (length key) (length line)) as [Hle|Hgt].
  - now rewrite take_app_le by done.
  - (* the key would have to match the CR *)
    rewrite take_app_ge, (take_ge line) by lia. split; intros H; exfalso.
    + apply H13. assert (Hl13 : (map tolower key) !! length line = Some 13).
      { rewrite <- H, list_lookup_fmap, lookup_app_r, Nat.sub_diag by lia.
        destruct (length key - length line)%nat eqn:E; [lia|]. done. }
      rewrite list_lookup_fmap in Hl13. destruct (key !! length line) as [x|] eqn:Ex; [|done].
      cbn in Hl13. injection Hl13 as Hx. replace 13 with x; [now apply list_elem_of_lookup_2 in Ex|].
      unfold tolower in Hx. case_if_in Hx; lia.
    + apply (f_equal (@length Z)) in H. rewrite !length_map in H. lia.
Qed.

(** Over the rows of parsed lines, [mk_request_header_get] finds the first
    row not given out whose line starts with the key, letter case aside,
    returns what follows the key and one more character, and marks that row
    only. It needs every matching line to be longer than its key: [len] wraps
    around otherwise. *)
Theorem mk_request_header_get_spec key rows lines :
  Forall2 row_ok rows lines -> 0 ∉ key -> 13 ∉ key ->
  Forall (fun l => Z.of_nat (length l) < 2 ^ 64 /\ (line_matches key l -> (length key < length l)%nat)) lines ->
  exists var, mk_request_header_get rows (key ++ [0]) (Z.of_nat (length key)) =
    Some (var, match find_row key rows lines with
               | Some (i, r, _) => <[i := {| row_init := row_init r; row_end := row_end r; row_status := 1 |}]> rows
               | None => rows
               end) /\
    match find_row key rows lines with
    | Some (_, _, line) => view var = Some (drop (S (length key)) line)
    | None => var = mk_pointer_reset
    end.
Proof.
  intros HF H0 H13 Hlen. induction HF as [|row line rows lines Hrow HF IH]; cbn [mk_request_header_get find_row].
  { exists mk_pointer_reset. done. }
  apply Forall_cons in Hlen as [Hline Hlen]. destruct (IH Hlen) as (var & Hget & Hvar).
  assert (Hskip : exists var', ('(var, rest) ← mk_request_header_get rows (key ++ [0]) (Z.of_nat (length key));
                                Some (var, row :: rest)) =
    Some (var', match ('(i, r, l) ← find_row key rows lines; Some (S i, r, l)) with
               | Some (i, r, _) => <[i := {| row_init := row_init r; row_end := row_end r; row_status := 1 |}]> (row :: rows)
               | None => row :: rows
               end) /\
    match ('(i, r, l) ← find_row key rows lines; Some (S i, r, l)) with
    | Some (_, _, line) => view var' = Some (drop (S (length key)) line)
    | None => var' = mk_pointer_reset
    end).
  { rewrite Hget. mstep. exists var. destruct (find_row key rows lines) as [[[i r] l]|]; done. }
  destruct (row_status row =? 1) eqn:E; zbool.
  - rewrite bool_decide_false by tauto. exact Hskip.
  - destruct (row_matches row line key [0] Hrow H0 H13) as (c & -> & Hc). mstep.
    destruct (c =? 0) eqn:Ec; zbool.
    + rewrite bool_decide_true by tauto. apply Hc in Ec. destruct Hline as [Hsmall Hline]. specialize (Hline Ec).
      destruct Hrow as [Hi (rest & He) _ _].
      assert (Hli : length (row_init row) = (length line + length (row_end row))%nat)
        by (rewrite Hi at 1; now rewrite length_app).
      rewrite padd_drop by lia. mstep. eexists. split; [done|].
      replace (Z.to_nat (Z.of_nat (length key) + 1)) with (S (length key)) by lia.
      unfold view. cbn [data len]. mstep. unfold pdiff. rewrite length_drop.
      rewrite u64_small by lia. rewrite memread_take by (rewrite length_drop; lia). f_equal.
      replace (Z.to_nat _) with (length line - S (length key))%nat by lia.
      rewrite Hi, drop_app_le by lia. rewrite <- length_drop. apply take_app_length.
    + rewrite bool_decide_false by tauto. exact Hskip.
Qed.

Definition toc_example_rows : headers_toc := default [] (mk_request_header_toc_parse toc_example 17).

Lemma mk_request_header_get_witness :
  exists var, mk_request_header_get toc_example_rows (lit "RANGE:" ++ [0]) 6 =
    Some (var, match find_row (lit "RANGE:") toc_example_rows [lit "Host: a"; lit "Range: b"] with
               | Some (i, r, _) => <[i := {| row_init := row_init r; row_end := row_end r; row_status := 1 |}]>
                                     toc_example_rows
               | None => toc_example_rows
               end) /\
    match find_row (lit "RANGE:") toc_example_rows [lit "Host: a"; lit "Range: b"] with
    | Some (_, _, line) => view var = Some (drop 7 line)
    | None => var = mk_pointer_reset
    end.
Proof.
  apply (mk_request_header_get_spec (lit "RANGE:") toc_example_rows [lit "Host: a"; lit "Range: b"]);
    [| decide_closed | decide_closed | repeat constructor; cbn; lia].
  destruct (mk_request_header_toc_parse_spec toc_example (removelast toc_example) 17) as (rows & Hr & HF & _).
  - split; [by exists [] | decide_closed].
  - unfold toc_example_rows. rewrite Hr. exact HF.
Defined.

(** The value of a header with nothing after its colon has a length that wrapped around. *)
Example header_get_empty :
  (p ← mk_request_header_toc_parse (lit "Host:" ++ [13; 10; 0]) 5;
   '(var, _) ← header_get p mk_rh_host; Some (len var)) = Some (2 ^ 64 - 1).
Proof. vm_compute. reflexivity. Qed.
