(* ===== verification/MkSession.v ===== *)
(** * Requests and sessions: parsing, completeness, keep-alive

    The parts of mk_request.c and mk_http.c that work on a session or a request
    and perform no input or output. A function that updates its argument
    returns the new value; [None] is undefined behaviour. *)
From S2P Require Import Prelude CString MkString MkMemory MkUtils MkTypes MkToc.
Local Open Scope Z_scope.

Section WithEnv.
Context `{env : Env}.

(** ** Initial values *)

(** [mk_header_response_reset] on zeroed headers. *)
Definition mk_header_response_reset : response_headers :=
  {| sh_status := 0; sh_custom_status := mk_pointer_reset; sh_content_length := -1;
     sh_real_length := 0; sh_cgi := 0; sh_pconnections_left := 0; sh_range0 := -1;
     sh_range1 := -1; sh_transfer_encoding := -1; sh_breakline := 0; sh_connection := 0;
     sh_last_modified := -1; sh_content_type := mk_pointer_reset;
     sh_content_encoding := mk_pointer_reset; sh_location := None; sh_extra_rows := None |}.

Definition file_info_init : file_info :=
  {| fi_size := -1; fi_last_modification := 0; fi_flags_read_only := 0; fi_exists := 0;
     fi_is_file := 0; fi_is_link := 0; fi_is_directory := 0; fi_exec_access := 0;
     fi_read_access := 0 |}.

Definition mk_request_init : session_request :=
  {| sr_status := MK_TRUE; sr_body := mk_pointer_reset; sr_headers_toc := []; sr_headers_len := 0;
     sr_method := HTTP_METHOD_UNKNOWN; sr_method_p := mk_pointer_reset;
     sr_uri := mk_pointer_reset; sr_uri_processed := mk_pointer_reset; sr_protocol := 0;
     sr_protocol_p := mk_pointer_reset; sr_close_now := 0; sr_content_length := 0;
     sr_content_type := mk_pointer_reset; sr_connection := mk_pointer_reset;
     sr_host := mk_pointer_reset; sr_host_port := mk_pointer_reset;
     sr_if_modified_since := mk_pointer_reset; sr_last_modified_since := mk_pointer_reset;
     sr_range := mk_pointer_reset; sr_data := mk_pointer_reset; sr_real_path := mk_pointer_reset;
     sr_real_path_static := false; sr_query_string := mk_pointer_reset; sr_keep_alive := 0;
     sr_user_home := 0; sr_port := 0; sr_fd_file := -1; sr_stage30_blocked := 0; sr_loop := 0;
     sr_bytes_to_send := -1; sr_bytes_offset := 0; sr_file_info := file_info_init;
     sr_host_conf := None; sr_host_alias := None; sr_headers := mk_header_response_reset;
     sr_handled_by := None |}.

(** ** mk_request_header_process *)

(** The Host header: name, port. The result is whether parsing goes on. *)
Definition header_process_host (sr : session_request) (host : mk_pointer) : option (Z * session_request) :=
  match data host with
  | None => Some (0, sr <| sr_host := {| data := None; len := len (sr_host sr) |} |>)
  | Some hd =>
    pos_sep ← mk_string_char_search_r hd 58 (i32 (len host));
    if 0 <=? pos_sep then
      let sr := sr <| sr_host := {| data := Some hd; len := pos_sep |} |> <| sr_host_port := host |> in
      let port_len := i16 (u64 (len host - pos_sep - 1)) in
      if 6 <=? port_len then Some (-1, sr) else
      q ← padd hd (pos_sep + 1);
      port ← memread q port_len;
      digits ← cstr (port ++ [0]);
      if negb (forallb isdigit digits) then Some (-1, sr) else
      '(v, erange) ← strtol (port ++ [0]);
      let sr := sr <| sr_port := v |> in
      if (erange && ((v =? LONG_MAX) || (v =? LONG_MIN))) || (v =? 0) then Some (-1, sr)
      else Some (0, sr)
    else Some (0, sr <| sr_host := host |> <| sr_port := c_standard_port config |>)
  end.

(** The Connection header and the default of the protocol version. *)
Definition header_process_connection (sr : session_request) : option session_request :=
  let sr :=
    if sr_protocol sr =? HTTP_PROTOCOL_10 then sr <| sr_keep_alive := MK_FALSE |> <| sr_close_now := MK_TRUE |>
    else if sr_protocol sr =? HTTP_PROTOCOL_11 then sr <| sr_keep_alive := MK_TRUE |> <| sr_close_now := MK_FALSE |>
    else sr in
  match data (sr_connection sr) with
  | None => Some sr
  | Some cd =>
    n ← mk_string_search_n cd (clit "Keep-Alive") MK_STR_INSENSITIVE (i32 (len (sr_connection sr)));
    if 0 <=? n then Some (sr <| sr_keep_alive := MK_TRUE |> <| sr_close_now := MK_FALSE |>) else
    n ← mk_string_search_n cd (clit "Close") MK_STR_INSENSITIVE (i32 (len (sr_connection sr)));
    if 0 <=? n then Some (sr <| sr_keep_alive := MK_FALSE |> <| sr_close_now := MK_TRUE |>)
    else Some (sr <| sr_connection := {| data := Some cd; len := 0 |} |>)
  end.

(** The request line: URI, query string and protocol version. *)
Definition header_process_line (sr : session_request) (body : bytes) (uri_init uri_end fh_limit : Z)
    : option (Z * session_request) :=
  let prot_init := uri_end + 2 in
  q ← padd body uri_init;
  query_init ← mk_string_char_search q 63 prot_init;
  '(sr, uri_end) ←
    (if 0 <? query_init then
       let init := query_init + uri_init in
       if init <=? uri_end then
         qs ← mk_pointer_create body (init + 1) (uri_end + 1);
         Some (sr <| sr_query_string := qs |>, init - 1)
       else Some (sr, uri_end)
     else Some (sr, uri_end));
  uri ← mk_pointer_create body uri_init (uri_end + 1);
  let sr := sr <| sr_uri := uri |> in
  if len uri <? 1 then Some (-1, sr) else
  let prot_end := fh_limit - 1 in
  if prot_init =? prot_end then Some (-1, sr) else
  if 0 <? prot_end then
    q ← padd body prot_init;
    p ← mk_http_protocol_check q (prot_end - prot_init);
    Some (0, sr <| sr_protocol := p |> <| sr_protocol_p := mk_http_protocol_check_str p |>)
  else Some (0, sr).

(** [(int)(index(p, c) - p)], when the character is there. *)
Definition index_pos (p : bytes) (c : Z) : option (option Z) := index p c.

(** The request line; also gives [prot_end], where the line ends. *)
Definition header_process_first (sr : session_request) : option (Z * session_request * Z) :=
  let sr := sr <| sr_method_p := mk_http_method_check_str (sr_method sr) |> in
  body ← data (sr_body sr);
  sp ← index_pos body 32;
  nl ← index_pos body 10;
  fh_limit ← nl;
  e ← mk_string_char_search_r body 32 fh_limit;
  let uri_end := e - 1 in
  if uri_end <=? 0 then Some (-1, sr, 0) else
  sp ← sp;
  let uri_init := sp + 1 in
  if uri_end <? uri_init then Some (-1, sr, 0) else
  '(ret, sr) ← header_process_line sr body uri_init uri_end fh_limit;
  Some (ret, sr, fh_limit - 1).

Definition mk_request_header_process (sr : session_request) : option (Z * session_request) :=
  '(ret, sr, prot_end) ← header_process_first sr;
  if ret <? 0 then Some (-1, sr) else
  body ← data (sr_body sr);
  headers ← padd body (prot_end + 2);
  temp ← mk_utils_url_decode (sr_uri sr);
  up ← (match temp with
        | Some t => mk_pointer_set t
        | None => Some (sr_uri sr)
        end);
  let sr := sr <| sr_uri_processed := up |> in
  let headers_len := i32 (u64 (len (sr_body sr) - (prot_end + 2))) in
  toc ← mk_request_header_toc_parse headers headers_len;
  let sr := sr <| sr_headers_len := headers_len |> in
  '(host, toc) ← header_get toc mk_rh_host;
  '(ret, sr) ← header_process_host (sr <| sr_headers_toc := toc |>) host;
  if ret <? 0 then Some (-1, sr) else
  '(connection, toc) ← header_get toc mk_rh_connection;
  '(range, toc) ← header_get toc mk_rh_range;
  '(ims, toc) ← header_get toc mk_rh_if_modified_since;
  sr ← header_process_connection
         (sr <| sr_connection := connection |> <| sr_range := range |>
             <| sr_if_modified_since := ims |> <| sr_headers_toc := toc |>);
  Some (0, sr).

(** ** mk_request_parse: the requests of the body buffer *)

Definition append_request (cs : client_session) (sr : session_request) : client_session :=
  cs <| cs_request_list := cs_request_list cs ++ [sr] |>.

Fixpoint parse_loop (fuel : nat) (cs : client_session) (i : Z) : option (Z * client_session) :=
  match fuel with
  | O => None
  | S fuel =>
    if i <=? cs_body_pos_end cs then
      q ← padd (cs_body cs) i;
      end_ ← (if 0 <? cs_counter_connections cs then
                n ← mk_string_search q MK_ENDBLOCK MK_STR_SENSITIVE; Some (n + i)
              else Some (cs_body_pos_end cs));
      if end_ <? 0 then Some (-1, cs) else
      let sr := mk_request_init <| sr_body := {| data := Some q; len := u64 (end_ - i) |} |> in
      m ← (if i =? 0 then Some (cs_first_method cs) else mk_http_method_get q);
      let sr := sr <| sr_method := m |> in
      sr ← (if m =? HTTP_METHOD_POST then
              let offset := end_ + 4 in
              d ← padd (cs_body cs) offset;
              Some (sr <| sr_data := mk_method_get_data d (i32 (cs_body_length cs - offset)) |>)
            else Some sr);
      parse_loop fuel (append_request cs sr) (end_ + 4)
    else Some (0, cs)
  end.

(** The [blocks] linked are those of the list, which was empty. *)
Definition mk_request_parse (cs : client_session) : option (Z * client_session) :=
  '(ret, cs) ← parse_loop (Z.to_nat (cs_body_pos_end cs + 2)) cs 0;
  if ret <? 0 then Some (-1, cs)
  else if (1 <? length (cs_request_list cs))%nat then
    if forallb (fun sr => (sr_method sr =? HTTP_METHOD_GET) || (sr_method sr =? HTTP_METHOD_HEAD))
               (cs_request_list cs)
    then Some (0, cs <| cs_pipelined := MK_TRUE |>)
    else Some (-1, cs)
  else Some (0, cs).

(** ** mk_http_pending_request, mk_http_keepalive_check *)

Definition mk_http_pending_request (cs : client_session) : option (Z * client_session) :=
  if cs_body_length cs <? 4 then Some (-1, cs) else
  end_ ← padd (cs_body cs) (cs_body_length cs - 4);
  r ← (if cs_body_pos_end cs <? 0 then
         c ← strncmp end_ MK_ENDBLOCK 4;
         if c =? 0 then Some (Some (cs <| cs_body_pos_end := cs_body_length cs - 4 |>))
         else n ← mk_string_search (cs_body cs) MK_ENDBLOCK MK_STR_SENSITIVE;
              if 0 <=? n then Some (Some (cs <| cs_body_pos_end := n |>)) else Some None
       else Some (Some cs));
  match r with
  | None => Some (-1, cs)
  | Some cs =>
    m ← (if cs_first_method cs =? HTTP_METHOD_UNKNOWN then mk_http_method_get (cs_body cs)
         else Some (cs_first_method cs));
    let cs := cs <| cs_first_method := m |> in
    if (m =? HTTP_METHOD_POST) || (m =? HTTP_METHOD_PUT) then
      if 0 <? cs_body_pos_end cs then
        let current := i32 (cs_body_length cs - cs_body_pos_end cs - 4) in
        cl ← mk_method_validate_content_length (cs_body cs) current;
        let content_length := i32 cl in
        if c_max_request_size config <=? content_length then Some (0, cs)
        else if cs_body_pos_end cs =? cs_body_length cs - 4 then
          if content_length <=? 0 then Some (0, cs <| cs_status := MK_REQUEST_STATUS_COMPLETED |>)
          else Some (-1, cs)
        else if current <? content_length then Some (-1, cs)
        else Some (0, cs <| cs_status := MK_REQUEST_STATUS_COMPLETED |>)
      else Some (-1, cs)
    else Some (0, cs <| cs_status := MK_REQUEST_STATUS_COMPLETED |>)
  end.

Definition mk_http_keepalive_check (cs : client_session) : Z :=
  match last (cs_request_list cs) with
  | None => -1
  | Some sr =>
    if (c_keep_alive config =? MK_FALSE) || (sr_keep_alive sr =? MK_FALSE) then -1
    else if (sr_protocol sr <? HTTP_PROTOCOL_11) && (len (sr_connection sr) <=? 0) then -1
    else if (sr_protocol sr <? HTTP_PROTOCOL_11) && (sh_content_length (sr_headers sr) <=? 0) then -1
    else if sr_close_now sr =? MK_TRUE then -1
    else if c_max_keep_alive_request config <=? cs_counter_connections cs then -1
    else 0
  end.

(** [mk_request_ka_next]; [now] is [log_current_utime]. *)
Definition mk_request_ka_next (now : Z) (cs : client_session) : client_session :=
  cs <| cs_first_method := -1 |> <| cs_body_pos_end := -1 |> <| cs_body_length := 0 |>
     <| cs_counter_connections := cs_counter_connections cs + 1 |>
     <| cs_init_time := now |> <| cs_status := MK_REQUEST_STATUS_INCOMPLETE |>.

(** ** mk_http_range_parse *)

Definition set_headers (f : response_headers -> response_headers) (sr : session_request) : session_request :=
  sr <| sr_headers := f (sr_headers sr) |>.

(** An [int] result; [None] is signed overflow. *)
Definition int_ok (z : Z) : option Z :=
  if (- 2 ^ 31 <=? z) && (z <? 2 ^ 31) then Some z else None.

(** [(int)(unsigned long) atol(p)] *)
Definition atol_int (p : bytes) : option Z := v ← atol p; Some (i32 v).

Definition mk_http_range_parse (sr : session_request) : option (Z * session_request) :=
  match data (sr_range sr) with
  | None => Some (-1, sr)
  | Some rd =>
    let len := i32 (len (sr_range sr)) in
    eq_pos ← mk_string_char_search rd 61 len;
    if eq_pos <? 0 then Some (-1, sr) else
    c ← strncasecmp rd (clit "Bytes") eq_pos;
    if negb (c =? 0) then Some (-1, sr) else
    sep_pos ← mk_string_char_search rd 45 len;
    if sep_pos <? 0 then Some (-1, sr) else
    if eq_pos + 1 =? sep_pos then
      q ← padd rd (sep_pos + 1);
      r1 ← atol_int q;
      let sr := set_headers (fun sh => sh <| sh_range0 := -1 |> <| sh_range1 := r1 |>) sr in
      if r1 <=? 0 then Some (-1, sr)
      else Some (0, set_headers (fun sh => sh <| sh_content_length := r1 |>) sr)
    else if sep_pos + 1 <? len then
      buffer ← mk_string_copy_substr rd (eq_pos + 1) sep_pos;
      b ← buffer; r0 ← atol_int b;
      buffer ← mk_string_copy_substr rd (sep_pos + 1) len;
      b ← buffer; r1 ← atol_int b;
      let sr := set_headers (fun sh => sh <| sh_range0 := r0 |> <| sh_range1 := r1 |>) sr in
      if (r1 <=? 0) || (r1 <? r0) then Some (-1, sr)
      else
        d ← int_ok (r1 - r0);
        n ← int_ok (Z.abs d + 1);
        Some (0, set_headers (fun sh => sh <| sh_content_length := n |>) sr)
    else if len =? sep_pos + 1 then
      buffer ← mk_string_copy_substr rd (eq_pos + 1) len;
      b ← buffer; r0 ← atol_int b;
      Some (0, set_headers (fun sh => sh <| sh_range0 := r0 |>
                                         <| sh_content_length := sh_content_length sh - r0 |>) sr)
    else Some (-1, sr)
  end.

(** The decision of [mk_http_range_set]: the request with its offset and count,
    and whether it is within the size of the file. *)
Definition range_select (sr : session_request) (file_size : Z) : session_request * bool :=
  let r0 := sh_range0 (sr_headers sr) in
  let r1 := sh_range1 (sr_headers sr) in
  (* bytes_offset, bytes_to_send *)
  let sel := (0, file_size) in
  if (c_resume config =? MK_TRUE) && match data (sr_range sr) with Some _ => true | None => false end then
    let sel := if (0 <=? r0) && (r1 =? -1) then (r0, file_size - r0) else sel in
    let sel := if (0 <=? r0) && (0 <=? r1) then (r0, Z.abs (r1 - r0) + 1) else sel in
    let sel := if (r0 =? -1) && (0 <? r1) then (file_size - r1, r1) else sel in
    (sr <| sr_bytes_offset := fst sel |> <| sr_bytes_to_send := snd sel |>,
     negb ((file_size <? fst sel) || (file_size <? snd sel)))
  else (sr <| sr_bytes_offset := fst sel |> <| sr_bytes_to_send := snd sel |>, true).

(** ** The request line *)

Lemma index_first p s c :
  is_cstr p s -> c <> 0 -> index p c = Some (first_index s c).
Proof.
  revert p; induction s as [|d s IH]; intros p Hp Hc.
  - apply is_cstr_nil in Hp as [r ->]. cbn [index first_index]. replace (0 =? c) with false by lia. done.
  - apply is_cstr_cons in Hp as (p' & -> & Hd & Hp). cbn [index first_index].
    destruct (d =? c); [done|]. replace (d =? 0) with false by lia. rewrite (IH _ Hp Hc). mstep.
    unfold osucc. destruct (first_index s c); done.
Qed.

Lemma first_index_app a b c : c ∉ a -> first_index (a ++ c :: b) c = Some (Z.of_nat (length a)).
Proof.
  induction a as [|d a IH]; intros H; cbn [app first_index length].
  - now rewrite Z.eqb_refl.
  - apply not_elem_of_cons in H as [Hd H]. replace (d =? c) with false by lia.
    rewrite (IH H). cbn. f_equal. lia.
Qed.

Lemma last_index_notin b c : c ∉ b -> last_index b c = None.
Proof.
  induction b as [|d b IH]; intros H; cbn; [done|]. apply not_elem_of_cons in H as [Hd H].
  rewrite (IH H). now replace (d =? c) with false by lia.
Qed.

Lemma last_index_app a b c : c ∉ b -> last_index (a ++ c :: b) c = Some (Z.of_nat (length a)).
Proof.
  intros H. induction a as [|d a IH]; cbn [app last_index length].
  - now rewrite (last_index_notin _ _ H), Z.eqb_refl.
  - rewrite IH. f_equal. lia.
Qed.

(** The versions the server knows. *)
Definition protocol_of (text : bytes) : Z :=
  if decide (text = lit "HTTP/1.1") then HTTP_PROTOCOL_11
  else if decide (text = lit "HTTP/1.0") then HTTP_PROTOCOL_10
  else if decide (text = lit "HTTP/0.9") then HTTP_PROTOCOL_09
  else HTTP_PROTOCOL_UNKNOWN.

Lemma mk_http_protocol_check_spec p s text :
  is_cstr p (text ++ s) -> length text = 8%nat ->
  mk_http_protocol_check p 8 = Some (protocol_of text).
Proof.
  intros Hp Hl. unfold mk_http_protocol_check, protocol_of. rewrite u64_small by lia.
  assert (Hcmp : forall v, length (lit v) = 8%nat -> 0 ∉ lit v ->
    exists c, strncmp p (clit v) 8 = Some c /\ (c = 0 <-> text = lit v)).
  { intros v Hv H0. destruct (strncmp_spec p _ (lit v) [0] Hp H0) as (c & Hc & Hiff).
    rewrite Hv in *. exists c. split; [exact Hc|]. rewrite Hiff, <- Hl, take_app_length. done. }
  destruct (Hcmp "HTTP/1.1"%string eq_refl ltac:(decide_closed)) as (c1 & -> & H1). mstep.
  destruct (c1 =? 0) eqn:E1; zbool; [rewrite decide_True by tauto; done|]. rewrite decide_False by tauto.
  destruct (Hcmp "HTTP/1.0"%string eq_refl ltac:(decide_closed)) as (c2 & -> & H2). mstep.
  destruct (c2 =? 0) eqn:E2; zbool; [rewrite decide_True by tauto; done|]. rewrite decide_False by tauto.
  destruct (Hcmp "HTTP/0.9"%string eq_refl ltac:(decide_closed)) as (c3 & -> & H3). mstep.
  destruct (c3 =? 0) eqn:E3; zbool; [rewrite decide_True by tauto; done|]. by rewrite decide_False by tauto.
Qed.

(** A request line: method, path, optional query and version. *)
Record request_line (h m path : bytes) (query : option bytes) (ver rest : bytes) : Prop := {
  rl_text : h = m ++ 32 :: path ++ match query with Some q => 63 :: q | None => [] end ++
                32 :: ver ++ 13 :: 10 :: rest;
  rl_method : 32 ∉ m /\ 10 ∉ m;
  rl_path : path <> [] /\ 32 ∉ path /\ 10 ∉ path /\ 63 ∉ path;
  rl_query : match query with Some q => q <> [] /\ 32 ∉ q /\ 10 ∉ q | None => True end;
  rl_ver : length ver = 8%nat /\ 32 ∉ ver /\ 10 ∉ ver;
}.

Definition query_part (query : option bytes) : bytes := match query with Some q => 63 :: q | None => [] end.

Lemma first_query s rest path query n :
  s = path ++ query_part query ++ 32 :: rest -> 63 ∉ path -> (length path < n)%nat ->
  match query with
  | Some q => first_index (take n s) 63 = Some (Z.of_nat (length path))
  | None => match first_index (take n s) 63 with
            | Some k => Z.of_nat (length path) < k | None => True end
  end.
Proof.
  intros -> Hp Hn. rewrite take_app_ge by lia. destruct query as [q|]; cbn [query_part app].
  - destruct (n - length path)%nat eqn:E; [lia|]. cbn [take]. now apply first_index_app.
  - destruct (n - length path)%nat eqn:E; [lia|]. cbn [take].
    destruct (first_index (path ++ 32 :: take n0 rest) 63) as [k|] eqn:Ek; [|done].
    apply first_index_Some in Ek as (Hk & Hl & _).
    destruct (Z.lt_trichotomy k (Z.of_nat (length path))) as [Hlt|[->|Hgt]]; [| |done]; exfalso.
    + rewrite lookup_app_l in Hl by lia. apply Hp. now apply list_elem_of_lookup_2 in Hl.
    + rewrite Nat2Z.id, lookup_app_r, Nat.sub_diag in Hl by lia. done.
Qed.

Lemma header_process_line_spec sr p h m path query ver rest :
  is_cstr p h -> request_line h m path query ver rest ->
  Z.of_nat (length p) < 2 ^ 31 ->
  let ulen := Z.of_nat (length path + length (query_part query)) in
  let uri_init := Z.of_nat (length m) + 1 in
  let uri_end := uri_init + ulen - 1 in
  2 * uri_init + ulen + 1 <= Z.of_nat (length p) ->
  exists sr', header_process_line sr p uri_init uri_end (uri_end + 11) = Some (0, sr') /\
    view (sr_uri sr') = Some path /\
    match query with
    | Some q => view (sr_query_string sr') = Some q
    | None => sr_query_string sr' = sr_query_string sr
    end /\
    sr_protocol sr' = protocol_of ver /\ sr_body sr' = sr_body sr.
Proof.
  intros Hp [Ht [Hm1 Hm2] (Hpne & Hp32 & Hp10 & Hp63) Hq (Hv8 & Hv32 & Hv10)] Hlen ulen uri_init uri_end Hbuf.
  fold (query_part query) in Ht.
  assert (Hpl : (0 < length path)%nat) by (destruct path; [done|cbn; lia]).
  assert (Hh : drop (S (length m)) p =
               path ++ query_part query ++ 32 :: ver ++ 13 :: 10 :: rest ++ drop (length h) p).
  { rewrite (is_cstr_split p h Hp) at 1. rewrite Ht at 1. rewrite <- app_assoc. cbn [app].
    rewrite drop_S_app by done. rewrite <- !app_assoc. cbn [app]. rewrite <- !app_assoc. done. }
  unfold header_process_line. rewrite (padd_drop p uri_init) by lia. mstep.
  replace (Z.to_nat uri_init) with (S (length m)) by lia.
  unfold mk_string_char_search. replace (uri_end + 2 <? 0) with false by zb. mstep.
  assert (Hld : length (drop (S (length m)) p) = (length p - S (length m))%nat) by apply length_drop.
  rewrite memchr_take by lia. mstep.
  pose proof (first_query _ _ path query (Z.to_nat (uri_end + 2)) Hh Hp63 ltac:(lia)) as Hfq.
  set (fi := first_index _ 63) in *.
  (* the end of the path, and the query string *)
  assert (Hqs : exists sr1, (if 0 <? pos_or_minus1 fi then
       if pos_or_minus1 fi + uri_init <=? uri_end then
         qs ← mk_pointer_create p (pos_or_minus1 fi + uri_init + 1) (uri_end + 1);
         Some (sr <| sr_query_string := qs |>, pos_or_minus1 fi + uri_init - 1)
       else Some (sr, uri_end)
     else Some (sr, uri_end)) = Some (sr1, uri_init + Z.of_nat (length path) - 1) /\
     match query with
     | Some q => view (sr_query_string sr1) = Some q
     | None => sr_query_string sr1 = sr_query_string sr
     end /\ sr_body sr1 = sr_body sr).
  { destruct query as [q|]; cbn [query_part length] in *.
    - rewrite Hfq. cbn [pos_or_minus1]. replace (0 <? Z.of_nat (length path)) with true by zb.
      destruct Hq as (Hqne & _). assert (0 < length q)%nat by (destruct q; [done|cbn; lia]).
      replace (Z.of_nat (length path) + uri_init <=? uri_end) with true by zb.
      destruct (mk_pointer_create_view p (Z.of_nat (length path) + uri_init + 1) (uri_end + 1))
        as (qs & -> & _ & Hvq); [lia..|]. mstep. eexists. split; [do 2 f_equal; lia|].
      split; [|done]. cbn. rewrite Hvq. f_equal.
      replace (Z.to_nat (Z.of_nat (length path) + uri_init + 1))
        with (S (length m) + S (length path))%nat by lia.
      rewrite <- drop_drop, Hh. cbn [app]. rewrite drop_S_app by done. rewrite take_app_length'; [done|lia].
    - exists sr. split; [|done]. destruct (0 <? pos_or_minus1 fi) eqn:E; [|do 2 f_equal; lia].
      destruct fi as [k|]; cbn [pos_or_minus1] in *; [|discriminate].
      replace (k + uri_init <=? uri_end) with false by zb. do 2 f_equal; lia. }
  destruct Hqs as (sr1 & -> & Hq1 & Hb1). mstep.
  destruct (mk_pointer_create_view p uri_init (uri_init + Z.of_nat (length path) - 1 + 1))
    as (uri & -> & Hlu & Hvu); [lia..|]. mstep.
  replace (len uri <? 1) with false by zb.
  replace (uri_end + 2 =? uri_end + 11 - 1) with false by zb.
  replace (0 <? uri_end + 11 - 1) with true by zb.
  assert (Hpl2 : (length h + length (drop (length h) p) = length p)%nat).
  { rewrite (is_cstr_split p h Hp) at 2. now rewrite length_app. }
  assert (Hhl : length h = (length m + 1 + length path + length (query_part query) + 1 + 8 + 2 + length rest)%nat).
  { rewrite Ht, !length_app. cbn [length]. rewrite !length_app. cbn [length]. rewrite length_app. cbn. lia. }
  rewrite padd_drop by lia. mstep. replace (uri_end + 11 - 1 - (uri_end + 2)) with 8 by lia.
  replace (Z.to_nat (uri_end + 2)) with (S (length m) + S (length path + length (query_part query)))%nat by lia.
  rewrite <- drop_drop, Hh, app_assoc. rewrite drop_S_app by (now rewrite length_app).
  assert (Hcv : is_cstr (ver ++ 13 :: 10 :: rest ++ drop (length h) p) (ver ++ 13 :: 10 :: rest)).
  { destruct Hp as [[u Hu] H0]. split.
    - exists u. rewrite Hu, drop_app_length, <- app_assoc. done.
    - intros Hin. apply H0. rewrite Ht. apply elem_of_app; right. apply elem_of_cons; right.
      do 2 (apply elem_of_app; right). apply elem_of_cons; right. exact Hin. }
  rewrite (mk_http_protocol_check_spec _ _ ver Hcv Hv8). mstep.
  eexists. split; [reflexivity|]. cbn. split; [|split; [exact Hq1|split; [done|exact Hb1]]].
  rewrite Hvu. f_equal. replace (Z.to_nat uri_init) with (S (length m)) by lia. rewrite Hh.
  apply take_app_length'. lia.
Qed.

Lemma request_line_positions p h m path query ver rest :
  is_cstr p h -> request_line h m path query ver rest ->
  let ulen := Z.of_nat (length path + length (query_part query)) in
  let uri_init := Z.of_nat (length m) + 1 in
  let fh_limit := uri_init + ulen + 10 in
  index_pos p 32 = Some (Some (uri_init - 1)) /\ index_pos p 10 = Some (Some fh_limit) /\
  mk_string_char_search_r p 32 fh_limit = Some (uri_init + ulen).
Proof.
  intros Hp [Ht [Hm1 Hm2] (Hpne & Hp32 & Hp10 & Hp63) Hq (Hv8 & Hv32 & Hv10)] ulen uri_init fh_limit.
  fold (query_part query) in Ht.
  assert (Hq' : 32 ∉ query_part query /\ 10 ∉ query_part query).
  { destruct query as [q|]; cbn; [|split; apply not_elem_of_nil]. rewrite !not_elem_of_cons. naive_solver. }
  unfold index_pos. rewrite !(index_first p h) by (done || lia).
  set (first := m ++ 32 :: path ++ query_part query).
  assert (Ht' : h = first ++ 32 :: (ver ++ [13]) ++ 10 :: rest).
  { rewrite Ht. unfold first. rewrite <- !app_assoc. cbn. now rewrite <- !app_assoc. }
  assert (Hfl : Z.of_nat (length first) = uri_init + ulen).
  { unfold first. rewrite length_app. cbn. rewrite length_app. lia. }
  assert (Hf10 : 10 ∉ first).
  { unfold first. rewrite not_elem_of_app, not_elem_of_cons, not_elem_of_app. naive_solver lia. }
  repeat split.
  - rewrite Ht. rewrite first_index_app by done. do 2 f_equal. lia.
  - rewrite Ht'. change (32 :: (ver ++ [13]) ++ 10 :: rest) with ((32 :: ver ++ [13]) ++ 10 :: rest).
    rewrite app_assoc. rewrite first_index_app.
    + do 2 f_equal. rewrite !length_app. cbn. rewrite length_app. cbn. lia.
    + rewrite not_elem_of_app, not_elem_of_cons, not_elem_of_app, list_elem_of_singleton. naive_solver lia.
  - unfold mk_string_char_search_r. replace (fh_limit <=? 0) with false by zb. mstep.
    unfold memrchr. assert (Hpl : (length h <= length p)%nat)
      by (rewrite (is_cstr_split p h Hp), length_app; lia).
    assert (Hhl : Z.of_nat (length h) = uri_init + ulen + 11 + Z.of_nat (length rest)).
    { rewrite Ht', !length_app. cbn. rewrite !length_app. cbn. lia. }
    assert (Hpe : p = (first ++ 32 :: ver ++ [13]) ++ 10 :: rest ++ drop (length h) p).
    { rewrite (is_cstr_split p h Hp) at 1. rewrite Ht' at 1. rewrite <- !app_assoc. cbn [app].
      now rewrite <- !app_assoc. }
    rewrite memread_take by lia. mstep. rewrite Hpe, take_app_length'.
    + rewrite last_index_app; [cbn; f_equal; lia|].
      rewrite not_elem_of_app, list_elem_of_singleton. naive_solver lia.
    + rewrite length_app. cbn. rewrite length_app. cbn. lia.
Qed.

(** On a well-formed request line, [mk_request_header_process] finds the
    path, the query string when there is one, and the protocol version, and
    the end of the line. The hypothesis on the buffer bounds the search of the
    '?', which looks [prot_init] bytes past the start of the URI. *)
Theorem header_process_first_spec sr p h m path query ver rest :
  data (sr_body sr) = Some p -> is_cstr p h -> request_line h m path query ver rest ->
  (0 < length m)%nat -> Z.of_nat (length p) < 2 ^ 31 ->
  (2 * length m + length path + length (query_part query) + 3 <= length p)%nat ->
  exists sr', header_process_first sr =
      Some (0, sr', Z.of_nat (length m + length path + length (query_part query)) + 10) /\
    view (sr_uri sr') = Some path /\
    match query with
    | Some q => view (sr_query_string sr') = Some q
    | None => sr_query_string sr' = sr_query_string sr
    end /\
    sr_protocol sr' = protocol_of ver /\ sr_body sr' = sr_body sr.
Proof.
  intros Hb Hp Hr Hm Hlen Hbuf. unfold header_process_first.
  set (sr0 := sr <| sr_method_p := mk_http_method_check_str (sr_method sr) |>).
  change (data (sr_body sr0) = Some p) in Hb.
  destruct (request_line_positions p h m path query ver rest Hp Hr) as (H1 & H2 & H3).
  assert (Hpl : (0 < length path)%nat).
  { destruct Hr as [_ _ (Hne & _) _ _]. destruct path; [done|cbn; lia]. }
  rewrite Hb. mstep. rewrite H1, H2. mstep. rewrite H3. mstep.
  set (uri_init := Z.of_nat (length m) + 1) in *.
  set (ulen := Z.of_nat (length path + length (query_part query))) in *.
  replace (uri_init + ulen - 1 <=? 0) with false by zb.
  replace (uri_init - 1 + 1) with uri_init by lia.
  replace (uri_init + ulen - 1 <? uri_init) with false by zb.
  destruct (header_process_line_spec sr0 p h m path query ver rest Hp Hr Hlen ltac:(lia)) as (sr' & Hl & Hspec).
  fold ulen uri_init in Hl. replace (uri_init + ulen + 10) with (uri_init + ulen - 1 + 11) by lia.
  rewrite Hl. mstep. exists sr'. split; [do 2 f_equal; lia | exact Hspec].
Qed.

(** ** Pipelined requests *)

Definition endblock : bytes := [13; 10; 13; 10].

(** A header block that ends at its first blank line. *)
Definition block_ok (b : bytes) : Prop :=
  forall j, (j < length b)%nat -> take 4 (drop j (b ++ endblock)) <> endblock.

Lemma occurs_endblock s j : occurs_at eq_cs s endblock j <-> take 4 (drop j s) = endblock.
Proof.
  unfold occurs_at. split.
  - intros (u & v & Hu & HF).
    assert (u = endblock) as ->.
    { apply list_eq_Forall2. eapply Forall2_impl; [exact HF|]. intros x y H. now apply Z.eqb_eq. }
    rewrite Hu. done.
  - intros H. exists endblock, (drop 4 (drop j s)). split.
    + rewrite <- H at 1. now rewrite take_drop.
    + repeat constructor.
Qed.

Lemma search_endblock q b t :
  is_cstr q (b ++ endblock ++ t) -> block_ok b ->
  mk_string_search q MK_ENDBLOCK MK_STR_SENSITIVE = Some (Z.of_nat (length b)).
Proof.
  intros Hq Hb. unfold mk_string_search, _mk_string_search. cbn [Z.leb Z.compare].
  change (MK_STR_SENSITIVE =? MK_STR_SENSITIVE) with true. cbn match.
  destruct (strstr_by_cstr eq_cs q _ MK_ENDBLOCK endblock eq_cs_0 Hq) as (r & Hr & Hspec);
    [split; [by exists [] | decide_closed]|].
  unfold strstr. rewrite Hr. mstep. f_equal.
  assert (Hat : occurs_at eq_cs (b ++ endblock ++ t) endblock (length b))
    by (apply occurs_endblock; now rewrite drop_app_length).
  assert (Hno : forall j, (j < length b)%nat -> ~ occurs_at eq_cs (b ++ endblock ++ t) endblock j).
  { intros j Hj Ho. apply occurs_endblock in Ho. apply (Hb j Hj). rewrite app_assoc in Ho.
    rewrite drop_app_le, take_app_le in Ho; [exact Ho|..];
      rewrite ?length_drop, length_app; cbn; lia. }
  destruct r as [i|]; cbn [pos_or_minus1].
  - destruct Hspec as (k & -> & Hk & Hocc & Hmin). f_equal.
    destruct (Nat.lt_trichotomy k (length b)) as [Hlt|[->|Hgt]]; [|done|].
    + now apply Hno in Hlt.
    + now apply Hmin in Hgt.
  - exfalso. apply (Hspec (length b)); [rewrite length_app; lia | exact Hat].
Qed.

(** A pipelined GET request: its header block. *)
Definition get_block (b : bytes) : Prop := block_ok b /\ exists r, b = lit "GET " ++ r.

Definition blocks_text (bs : list bytes) : bytes := concat (map (fun b => b ++ endblock) bs).

Definition parsed_request (p : bytes) (i : nat) (b : bytes) : session_request :=
  mk_request_init <| sr_body := {| data := Some (drop i p); len := Z.of_nat (length b) |} |>
                  <| sr_method := HTTP_METHOD_GET |>.

(** The requests of the blocks of [bs], found from offset [i] of the buffer. *)
Fixpoint parsed_requests (p : bytes) (i : nat) (bs : list bytes) : list session_request :=
  match bs with
  | [] => []
  | b :: bs => parsed_request p i b :: parsed_requests p (i + length b + 4) bs
  end.

Lemma method_get_GET r : mk_http_method_get (lit "GET " ++ r) = Some HTTP_METHOD_GET.
Proof. reflexivity. Qed.

Lemma blocks_text_cons b bs : blocks_text (b :: bs) = b ++ endblock ++ blocks_text bs.
Proof. unfold blocks_text. cbn. now rewrite <- app_assoc. Qed.

Lemma parse_loop_blocks bs : forall fuel cs i h,
  is_cstr (cs_body cs) h -> drop i h = blocks_text bs -> (i <= length h)%nat ->
  cs_body_pos_end cs = Z.of_nat (length h) - 4 -> 0 < cs_counter_connections cs ->
  (i = 0%nat -> cs_first_method cs = HTTP_METHOD_GET) ->
  Forall get_block bs -> Z.of_nat (length h) < 2 ^ 31 -> (length bs < fuel)%nat ->
  parse_loop fuel cs (Z.of_nat i) =
  Some (0, cs <| cs_request_list := cs_request_list cs ++ parsed_requests (cs_body cs) i bs |>).
Proof.
  induction bs as [|b bs IH]; intros fuel cs i h Hp Hd Hi Hpos Hcnt Hfm HF Hh Hfuel;
    (destruct fuel as [|fuel]; [cbn in Hfuel; lia|]); cbn [parse_loop parsed_requests].
  - assert (Hl : length (drop i h) = 0%nat) by now rewrite Hd. rewrite length_drop in Hl.
    rewrite Hpos. replace (Z.of_nat i <=? Z.of_nat (length h) - 4) with false by zb.
    rewrite app_nil_r. now destruct cs.
  - apply Forall_cons in HF as [[Hb (r & Hg)] HF]. rewrite blocks_text_cons in Hd.
    assert (Hl : length (drop i h) = (length b + 4 + length (blocks_text bs))%nat)
      by (rewrite Hd, !length_app; cbn; lia).
    rewrite length_drop in Hl.
    rewrite Hpos. replace (Z.of_nat i <=? Z.of_nat (length h) - 4) with true by zb.
    assert (Hph : (length h <= length (cs_body cs))%nat)
      by (rewrite (is_cstr_split _ h Hp), length_app; lia).
    rewrite (padd_drop _ (Z.of_nat i)), Nat2Z.id by lia. mstep.
    replace (0 <? cs_counter_connections cs) with true by zb.
    pose proof (is_cstr_drop _ _ i Hp ltac:(lia)) as Hq. rewrite Hd in Hq.
    rewrite (search_endblock _ b _ Hq Hb). mstep.
    replace (Z.of_nat (length b) + Z.of_nat i <? 0) with false by zb.
    replace (u64 (Z.of_nat (length b) + Z.of_nat i - Z.of_nat i)) with (Z.of_nat (length b))
      by (rewrite u64_small; lia).
    assert (Hm : (if Z.of_nat i =? 0 then Some (cs_first_method cs) else mk_http_method_get (drop i (cs_body cs)))
                 = Some HTTP_METHOD_GET).
    { destruct (Z.of_nat i =? 0) eqn:E; zbool; [f_equal; apply Hfm; lia|].
      destruct Hq as [[u Hu] _]. rewrite Hu, Hg, <- !app_assoc. apply method_get_GET. }
    rewrite Hm. mstep. change (HTTP_METHOD_GET =? HTTP_METHOD_POST) with false. mstep.
    replace (Z.of_nat (length b) + Z.of_nat i + 4) with (Z.of_nat (i + length b + 4)) by lia.
    set (cs1 := append_request cs _).
    rewrite (IH fuel cs1 _ h); [| exact Hp | | lia | exact Hpos | exact Hcnt | lia | exact HF | exact Hh | cbn in Hfuel; lia].
    + unfold cs1, append_request. cbn. rewrite <- app_assoc. done.
    + replace (i + length b + 4)%nat with (i + (length b + 4))%nat by lia.
      rewrite <- drop_drop, Hd, app_assoc. rewrite drop_app_length'; [done|].
      rewrite length_app. done.
Qed.
Lemma blocks_text_length bs : (4 * length bs <= length (blocks_text bs))%nat.
Proof.
  induction bs as [|b bs IH]; [done|]. rewrite blocks_text_cons, !length_app.
  change (length endblock) with 4%nat. cbn [length]. lia.
Qed.

Lemma parsed_requests_spec p i bs h :
  is_cstr p h -> drop i h = blocks_text bs ->
  map (fun sr => view (sr_body sr)) (parsed_requests p i bs) = map Some bs /\
  Forall (fun sr => sr_method sr = HTTP_METHOD_GET) (parsed_requests p i bs) /\
  length (parsed_requests p i bs) = length bs.
Proof.
  intros Hp. revert i; induction bs as [|b bs IH]; intros i Hd; [done|].
  rewrite blocks_text_cons in Hd. destruct (IH (i + length b + 4)%nat) as (H1 & H2 & H3).
  { replace (i + length b + 4)%nat with (i + (length b + 4))%nat by lia.
    rewrite <- drop_drop, Hd, app_assoc, drop_app_length'; [done|]. rewrite length_app. done. }
  cbn [parsed_requests map length]. rewrite H1, H3. split; [|split; [|done]].
  - f_equal. unfold view, parsed_request. cbn. mstep.
    assert (Hdp : drop i p = b ++ endblock ++ blocks_text bs ++ drop (length h) p).
    { rewrite (is_cstr_split p h Hp) at 1. rewrite drop_app_le, Hd, <- !app_assoc; [done|].
      apply (f_equal length) in Hd. rewrite length_drop, !length_app in Hd. cbn in Hd. lia. }
    rewrite Hdp, memread_take by (rewrite length_app; lia). now rewrite Nat2Z.id, take_app_length.
  - now constructor.
Qed.

(** C7: on a keep-alive connection whose buffer holds the header blocks of
    pipelined GET requests, [mk_request_parse] ends, accepts them, and links
    one request per block, in order, each with its own block as body; the
    session is marked pipelined when there are several. *)
Theorem mk_request_parse_pipelined cs bs h :
  is_cstr (cs_body cs) h -> h = blocks_text bs -> bs <> [] -> Forall get_block bs ->
  cs_request_list cs = [] -> cs_first_method cs = HTTP_METHOD_GET ->
  0 < cs_counter_connections cs -> cs_body_pos_end cs = Z.of_nat (length h) - 4 ->
  Z.of_nat (length h) < 2 ^ 31 ->
  exists cs', mk_request_parse cs = Some (0, cs') /\
    map (fun sr => view (sr_body sr)) (cs_request_list cs') = map Some bs /\
    Forall (fun sr => sr_method sr = HTTP_METHOD_GET) (cs_request_list cs') /\
    cs_pipelined cs' = (if (1 <? length bs)%nat then MK_TRUE else cs_pipelined cs).
Proof.
  intros Hp Hh Hne HF Hl Hfm Hcnt Hpos Hlen. unfold mk_request_parse.
  pose proof (blocks_text_length bs) as Hbl. rewrite <- Hh in Hbl.
  assert (Hbs : (0 < length bs)%nat) by (destruct bs; [done|cbn; lia]).
  pose proof (parse_loop_blocks bs (Z.to_nat (cs_body_pos_end cs + 2)) cs 0 h Hp
    ltac:(now rewrite drop_0) ltac:(lia) Hpos Hcnt ltac:(done) HF Hlen ltac:(lia)) as Hloop.
  change (Z.of_nat 0) with 0 in Hloop. rewrite Hloop, Hl. mstep.
  destruct (parsed_requests_spec (cs_body cs) 0 bs h Hp ltac:(now rewrite drop_0)) as (H1 & H2 & H3).
  change (0 <? 0) with false. cbn [app cs_request_list set_field]. rewrite H3.
  destruct (1 <? length bs)%nat.
  - replace (forallb _ _) with true.
    + eexists. split; [done|]. cbn. done.
    + symmetry. apply forallb_forall. intros sr Hin. rewrite Forall_forall in H2.
      rewrite H2; [done|]. now apply list_elem_of_In.
  - eexists. split; [done|]. cbn. done.
Qed.

(** ** Completeness of a request *)

(** [body] holds [s], the [body_length] bytes received, and a NUL. *)
Definition received (cs : client_session) (s : bytes) : Prop :=
  is_cstr (cs_body cs) s /\ cs_body_length cs = Z.of_nat (length s).

Lemma strncmp_endblock p s :
  is_cstr p s -> exists c, strncmp p MK_ENDBLOCK 4 = Some c /\ (c = 0 <-> take 4 s = endblock).
Proof. intros Hp. apply (strncmp_spec p s endblock [0] Hp). decide_closed. Qed.

Lemma search_endblock_any p s :
  is_cstr p s ->
  exists n, mk_string_search p MK_ENDBLOCK MK_STR_SENSITIVE = Some n /\
    ((exists k, n = Z.of_nat k /\ take 4 (drop k s) = endblock) \/
     (n = -1 /\ forall k, take 4 (drop k s) <> endblock)).
Proof.
  intros Hp. unfold mk_string_search, _mk_string_search. cbn [Z.leb Z.compare].
  change (MK_STR_SENSITIVE =? MK_STR_SENSITIVE) with true. cbn match.
  destruct (strstr_by_cstr eq_cs p s MK_ENDBLOCK endblock eq_cs_0 Hp) as (r & Hr & Hspec);
    [split; [by exists [] | decide_closed]|].
  unfold strstr. rewrite Hr. mstep. eexists. split; [done|]. destruct r as [i|]; cbn [pos_or_minus1].
  - destruct Hspec as (k & -> & _ & Ho & _). left. exists k. split; [done|]. now apply occurs_endblock.
  - right. split; [done|]. intros k Hk. destruct (le_lt_dec k (length s)) as [Hle|Hgt].
    + apply (Hspec k Hle). now apply occurs_endblock.
    + rewrite drop_ge in Hk by lia. done.
Qed.

(** As long as the end of the headers was not seen, for a method without a
    body, [mk_http_pending_request] declares the request complete exactly when
    the received bytes contain a blank line; it then records where one is,
    and otherwise leaves the session as it was. *)
Theorem mk_http_pending_request_complete cs s m :
  received cs s -> cs_body_pos_end cs < 0 -> cs_first_method cs = HTTP_METHOD_UNKNOWN ->
  mk_http_method_get (cs_body cs) = Some m -> m <> HTTP_METHOD_POST -> m <> HTTP_METHOD_PUT ->
  (exists k, take 4 (drop k s) = endblock /\
     mk_http_pending_request cs =
     Some (0, cs <| cs_body_pos_end := Z.of_nat k |> <| cs_first_method := m |>
                 <| cs_status := MK_REQUEST_STATUS_COMPLETED |>)) \/
  ((forall k, take 4 (drop k s) <> endblock) /\ mk_http_pending_request cs = Some (-1, cs)).
Proof.
  intros [Hp Hl] Hpos Hfm Hm Hpost Hput. unfold mk_http_pending_request. rewrite Hl.
  destruct (Z.of_nat (length s) <? 4) eqn:E4; zbool.
  { right. split; [|done]. intros k Hk. apply (f_equal length) in Hk.
    rewrite length_take, length_drop in Hk. change (length endblock) with 4%nat in Hk. lia. }
  assert (Hps : (length s <= length (cs_body cs))%nat)
    by (rewrite (is_cstr_split _ s Hp), length_app; lia).
  rewrite padd_drop by lia. mstep. replace (cs_body_pos_end cs <? 0) with true by zb.
  set (k := Z.to_nat (Z.of_nat (length s) - 4)).
  destruct (strncmp_endblock (drop k (cs_body cs)) (drop k s)) as (c & Hc & Hiff);
    [apply is_cstr_drop; [exact Hp|lia]|].
  rewrite Hc. mstep.
  assert (Hmm : (m =? HTTP_METHOD_POST) || (m =? HTTP_METHOD_PUT) = false) by zb.
  destruct (c =? 0) eqn:Ec; [apply Z.eqb_eq in Ec | apply Z.eqb_neq in Ec].
  - left. exists k. split; [tauto|]. mstep. cbn [cs_first_method set_field cs_body].
    rewrite Hfm. change (HTTP_METHOD_UNKNOWN =? HTTP_METHOD_UNKNOWN) with true. cbn match.
    rewrite Hm. mstep. rewrite Hmm. do 2 f_equal. replace (Z.of_nat (length s) - 4) with (Z.of_nat k) by lia. done.
  - destruct (search_endblock_any (cs_body cs) s Hp) as (n & Hn & [(k' & -> & Hk')|[-> Hno]]); rewrite Hn; mstep.
    + left. exists k'. split; [exact Hk'|]. replace (0 <=? Z.of_nat k') with true by zb. mstep.
      cbn [cs_first_method set_field cs_body]. rewrite Hfm.
      change (HTTP_METHOD_UNKNOWN =? HTTP_METHOD_UNKNOWN) with true. cbn match. rewrite Hm. mstep.
      now rewrite Hmm.
    + right. split; [exact Hno|]. done.
Qed.

(** ** Ranges *)

(** The ranges [mk_http_range_parse] accepts: "-n", "a-", "a-b". *)
Definition range_parsed (sh : response_headers) : Prop :=
  (sh_range0 sh = -1 /\ 0 < sh_range1 sh) \/ (0 <= sh_range0 sh /\ sh_range1 sh = -1) \/
  (0 <= sh_range0 sh <= sh_range1 sh /\ 0 < sh_range1 sh).

(** The bytes [mk_http_range_set] selects for a parsed range, when it
    accepts it: the last [n], those from [a] on, or those from [a] to [b]. They
    lie within the file, but for a range "a-b" that ends at the file size or
    later, which it accepts as long as its length is at most the size: then
    they reach past the end of the file. *)
Theorem range_select_spec sr rd file_size sr' :
  c_resume config = MK_TRUE -> 0 <= file_size -> data (sr_range sr) = Some rd ->
  range_parsed (sr_headers sr) -> range_select sr file_size = (sr', true) ->
  let r0 := sh_range0 (sr_headers sr) in
  let r1 := sh_range1 (sr_headers sr) in
  (sr_bytes_offset sr', sr_bytes_to_send sr') =
    (if r0 =? -1 then (file_size - r1, r1)
     else if r1 =? -1 then (r0, file_size - r0) else (r0, r1 - r0 + 1)) /\
  0 <= sr_bytes_offset sr' /\ 0 <= sr_bytes_to_send sr' /\
  (sr_bytes_offset sr' + sr_bytes_to_send sr' <= file_size <-> ~ (0 <= r0 /\ file_size <= r1)).
Proof.
  intros Hres Hfs Hrd Hr Hsel r0 r1. unfold range_select in Hsel. rewrite Hres, Hrd in Hsel.
  change (MK_TRUE =? MK_TRUE) with true in Hsel. cbn [andb] in Hsel. fold r0 r1 in Hsel.
  unfold range_parsed in Hr. fold r0 r1 in Hr. clearbody r0 r1.
  destruct Hr as [[-> Hr1]|[[Hr0 ->]|[Hr0 Hr1]]].
  - change (0 <=? -1) with false in Hsel. cbn [andb] in Hsel. change (-1 =? -1) with true in *.
    replace (0 <? r1) with true in Hsel by zb. cbn [fst snd andb] in Hsel. injection Hsel as Hsr Hok.
    zbool. subst sr'. cbn. split; [done|]. lia.
  - replace (0 <=? r0) with true in Hsel by zb. change (-1 =? -1) with true in *.
    change (0 <=? -1) with false in *. change (0 <? -1) with false in Hsel.
    rewrite andb_false_r in Hsel. cbn [fst snd andb] in Hsel. injection Hsel as Hsr Hok.
    zbool. replace (r0 =? -1) with false by zb. subst sr'. cbn. split; [done|]. lia.
  - replace (0 <=? r0) with true in Hsel by zb. replace (r1 =? -1) with false in * by zb.
    replace (0 <=? r1) with true in Hsel by zb. replace (r0 =? -1) with false in * by zb.
    cbn [fst snd andb] in Hsel. injection Hsel as Hsr Hok. zbool. subst sr'. cbn.
    rewrite Z.abs_eq in * by lia. split; [done|]. lia.
Qed.

End WithEnv.

Definition request_example : bytes :=
  lit "GET /index.html?a=1 HTTP/1.1" ++ [13; 10] ++ lit "Host: x" ++ [13; 10; 13; 10].

Lemma header_process_first_witness :
  let sr := mk_request_init <| sr_body := {| data := Some (request_example ++ [0]); len := 37 |} |> in
  exists sr', header_process_first sr = Some (0, sr', 28) /\
    view (sr_uri sr') = Some (lit "/index.html") /\
    view (sr_query_string sr') = Some (lit "a=1") /\
    sr_protocol sr' = protocol_of (lit "HTTP/1.1") /\ sr_body sr' = sr_body sr.
Proof.
  intros sr.
  apply (header_process_first_spec sr (request_example ++ [0]) request_example (lit "GET") (lit "/index.html")
           (Some (lit "a=1")) (lit "HTTP/1.1") (lit "Host: x" ++ [13; 10; 13; 10]));
    [reflexivity | split; [by exists [] | decide_closed] | split | cbn; lia | vm_compute; done | cbn; lia].
  - reflexivity.
  - split; decide_closed.
  - repeat split; (discriminate || decide_closed).
  - repeat split; (discriminate || decide_closed).
  - repeat split; decide_closed.
Defined.

Definition session_example (body : bytes) (counter : Z) : client_session :=
  {| cs_pipelined := MK_FALSE; cs_socket := 5; cs_counter_connections := counter;
     cs_status := MK_REQUEST_STATUS_INCOMPLETE; cs_body := body ++ [0]; cs_body_fixed := true;
     cs_body_size := 4096; cs_body_length := Z.of_nat (length body); cs_body_pos_end := -1;
     cs_first_method := HTTP_METHOD_UNKNOWN; cs_init_time := 0; cs_request_list := [] |}.

Definition blocks_example : list bytes := [lit "GET /a HTTP/1.1"; lit "GET /b HTTP/1.1"].

Lemma mk_request_parse_witness :
  let cs := session_example (blocks_text blocks_example) 1 <| cs_first_method := HTTP_METHOD_GET |>
              <| cs_body_pos_end := 34 |> in
  exists cs', mk_request_parse cs = Some (0, cs') /\
    map (fun sr => view (sr_body sr)) (cs_request_list cs') = map Some blocks_example /\
    Forall (fun sr => sr_method sr = HTTP_METHOD_GET) (cs_request_list cs') /\ cs_pipelined cs' = MK_TRUE.
Proof.
  intros cs. apply (mk_request_parse_pipelined cs blocks_example (blocks_text blocks_example));
    [split; [by exists [] | decide_closed] | reflexivity | discriminate | | reflexivity | reflexivity
    | cbn; lia | reflexivity | vm_compute; done].
  repeat constructor; try (by eexists);
    (intros j Hj; do 15 (destruct j as [|j]; [vm_compute; discriminate|]); cbn in Hj; lia).
Defined.

Lemma mk_http_pending_request_witness :
  let s := lit "GET / HTTP/1.1" ++ [13; 10; 13; 10] in
  let cs := session_example s 0 in
  (exists k, take 4 (drop k s) = endblock /\
     @mk_http_pending_request example_env cs =
     Some (0, cs <| cs_body_pos_end := Z.of_nat k |> <| cs_first_method := HTTP_METHOD_GET |>
                 <| cs_status := MK_REQUEST_STATUS_COMPLETED |>)) \/
  ((forall k, take 4 (drop k s) <> endblock) /\ @mk_http_pending_request example_env cs = Some (-1, cs)).
Proof.
  intros s cs. apply (@mk_http_pending_request_complete example_env cs s HTTP_METHOD_GET);
    [split; [split; [by exists [] | decide_closed] | reflexivity] | cbn; lia | reflexivity | reflexivity
    | discriminate | discriminate].
Defined.

(** "bytes=50-149" of a file of 100 bytes is accepted: 100 bytes from offset 50. *)
Definition range_example : session_request :=
  mk_request_init <| sr_range := mk_pointer_init "bytes=50-149" |>
    <| sr_headers := mk_header_response_reset <| sh_range0 := 50 |> <| sh_range1 := 149 |> |>.

Lemma range_select_witness :
  let sr' := fst (@range_select example_env range_example 100) in
  (sr_bytes_offset sr', sr_bytes_to_send sr') = (50, 100) /\
  0 <= sr_bytes_offset sr' /\ 0 <= sr_bytes_to_send sr' /\
  (sr_bytes_offset sr' + sr_bytes_to_send sr' <= 100 <-> ~ (0 <= 50 /\ 100 <= 149)).
Proof.
  intros sr'. apply (@range_select_spec example_env range_example (clit "bytes=50-149") 100 sr');
    [reflexivity | lia | reflexivity | right; right; cbn; lia | reflexivity].
Defined.

(** The range "bytes=0-0" (the first byte) is refused. *)
Example range_parse_zero :
  fst <$> mk_http_range_parse (mk_request_init <| sr_range := mk_pointer_init "bytes=0-0" |>) = Some (-1).
Proof. vm_compute. reflexivity. Qed.
