(* ===== verification/MkEpoll.v ===== *)
(** * mk_epoll.c: the epoll queue and the state of each descriptor *)
From S2P Require Import Prelude CString MkMemory MkUtils MkTypes.
Local Open Scope Z_scope.

Definition MK_EPOLL_READ : Z := 0.
Definition MK_EPOLL_WRITE : Z := 1.
Definition MK_EPOLL_RW : Z := 2.
Definition MK_EPOLL_SLEEP : Z := 3.
Definition MK_EPOLL_WAKEUP : Z := 4.
Definition MK_EPOLL_LEVEL_TRIGGERED : Z := 2.
Definition EPOLLIN : Z := 1.
Definition EPOLLOUT : Z := 4.
Definition EPOLLERR : Z := 8.
Definition EPOLLHUP : Z := 16.
Definition EPOLLRDHUP : Z := 8192.
Definition EPOLLET : Z := 2 ^ 31.
Definition MK_EPOLL_EDGE_TRIGGERED : Z := EPOLLET.
Definition MK_EPOLL_STATE_INDEX_CHUNK : nat := 64.

(** ** The state index *)

Definition epoll_state_zero : epoll_state :=
  {| es_instance := 0; es_fd := 0; es_mode := 0; es_behavior := 0; es_events := 0 |}.

Definition mk_epoll_state_init : epoll_state_index :=
  {| ei_size := Z.of_nat MK_EPOLL_STATE_INDEX_CHUNK; ei_busy_queue := [];
     ei_av_queue := replicate MK_EPOLL_STATE_INDEX_CHUNK epoll_state_zero |}.

Definition es_key (efd fd : Z) (es : epoll_state) : bool :=
  (es_instance es =? efd) && (es_fd es =? fd).

(** [mk_epoll_state_get]: the first busy entry of the descriptor. *)
Definition mk_epoll_state_get (index : epoll_state_index) (efd fd : Z) : option epoll_state :=
  List.find (es_key efd fd) (ei_busy_queue index).

(** The first busy entry of the descriptor, rewritten in place. *)
Fixpoint update_first (p : epoll_state -> bool) (f : epoll_state -> epoll_state) (l : list epoll_state)
    : list epoll_state :=
  match l with [] => [] | e :: l => if p e then f e :: l else e :: update_first p f l end.

(** [mode] and [behavior] are [uint8_t], [events] is [uint32_t]; the grown
    entries are uninitialised, all their fields are set below. *)
Definition mk_epoll_state_set (index : epoll_state_index) (efd fd mode behavior events : Z)
    : epoll_state_index :=
  match mk_epoll_state_get index efd fd with
  | None =>
    let index :=
      match ei_av_queue index with
      | [] => index <| ei_av_queue := replicate MK_EPOLL_STATE_INDEX_CHUNK epoll_state_zero |>
                    <| ei_size := ei_size index + Z.of_nat MK_EPOLL_STATE_INDEX_CHUNK |>
      | _ => index
      end in
    index <| ei_av_queue := tail (ei_av_queue index) |>
          <| ei_busy_queue := ei_busy_queue index ++
               [ {| es_instance := efd; es_fd := fd; es_mode := u8 mode; es_behavior := u8 behavior;
                    es_events := u32 events |} ] |>
  | Some _ =>
    let touch es :=
      (if u8 mode =? MK_EPOLL_SLEEP then es
       else es <| es_events := u32 events |> <| es_behavior := u8 behavior |>) <| es_mode := u8 mode |> in
    index <| ei_busy_queue := update_first (es_key efd fd) touch (ei_busy_queue index) |>
  end.

(** The first entry of the descriptor goes from the busy to the available queue. *)
Fixpoint remove_first (p : epoll_state -> bool) (l : list epoll_state) : list epoll_state * option epoll_state :=
  match l with
  | [] => ([], None)
  | e :: l => if p e then (l, Some e) else let '(l, r) := remove_first p l in (e :: l, r)
  end.

Definition mk_epoll_state_del (index : epoll_state_index) (efd fd : Z) : Z * epoll_state_index :=
  match remove_first (es_key efd fd) (ei_busy_queue index) with
  | (busy, Some es) => (0, index <| ei_busy_queue := busy |> <| ei_av_queue := ei_av_queue index ++ [es] |>)
  | (_, None) => (-1, index)
  end.

(** ** The calls *)

(** Events of a mode on top of a base mask; [None] for modes without events of
    their own. *)
Definition mode_events (base mode : Z) : Z :=
  if mode =? MK_EPOLL_READ then Z.lor base EPOLLIN
  else if mode =? MK_EPOLL_WRITE then Z.lor base EPOLLOUT
  else if mode =? MK_EPOLL_RW then Z.lor base (Z.lor EPOLLIN EPOLLOUT)
  else if mode =? MK_EPOLL_SLEEP then 0
  else base.

Section WithEnv.
Context `{env : Env}.

Definition epoll_ctl (op : epoll_op) (efd fd events : Z) : M (Z * bool) :=
  t ← gets w_trace;
  emit (EvEpollCtl op efd fd events);;
  mret (sys_epoll_ctl t op efd fd events).

(** [mk_epoll_state_set] on the index of the thread; in the main thread there
    is none and nothing is recorded. *)
Definition state_set (in_thread : bool) (efd fd mode behavior events : Z) : M unit :=
  if in_thread then mod_w (fun w => w <| w_epoll := mk_epoll_state_set (w_epoll w) efd fd mode behavior events |>)
  else mret tt.

Definition mk_epoll_add (in_thread : bool) (efd fd init_mode behavior : Z) : M Z :=
  let events := Z.lor EPOLLERR (Z.lor EPOLLHUP EPOLLRDHUP) in
  let events := if u32 behavior =? MK_EPOLL_EDGE_TRIGGERED then Z.lor events EPOLLET else events in
  let events := mode_events events init_mode in
  '(ret, eexist) ← epoll_ctl EPOLL_CTL_ADD efd fd events;
  if (ret <? 0) && negb eexist then mret ret
  else state_set in_thread efd fd init_mode behavior events;; mret ret.

Definition mk_epoll_del (efd fd : Z) : M Z :=
  '(ret, _) ← epoll_ctl EPOLL_CTL_DEL efd fd 0;
  mod_w (fun w => w <| w_epoll := snd (mk_epoll_state_del (w_epoll w) efd fd) |>);;
  mret ret.

(** A wake-up of a descriptor that does not sleep exits. *)
Definition mk_epoll_change_mode (efd fd mode behavior : Z) : M Z :=
  index ← gets w_epoll;
  '(events, behavior) ←
    (if mode =? MK_EPOLL_WAKEUP then
       match mk_epoll_state_get index efd fd with
       | Some state => if es_mode state =? MK_EPOLL_SLEEP then mret (es_events state, es_behavior state) else ub
       | None => ub
       end
     else mret (mode_events (Z.lor EPOLLERR EPOLLHUP) mode, behavior));
  let events := if u32 behavior =? MK_EPOLL_EDGE_TRIGGERED then Z.lor events EPOLLET else events in
  '(ret, _) ← epoll_ctl EPOLL_CTL_MOD efd fd events;
  state_set true efd fd mode behavior events;;
  mret ret.

End WithEnv.

(** ** Invariant of the index *)

Definition key_of (es : epoll_state) : Z * Z := (es_instance es, es_fd es).

(** Every allocated entry is in one queue, and a descriptor has one state. *)
Record index_ok (index : epoll_state_index) : Prop := {
  ix_size : ei_size index = Z.of_nat (length (ei_busy_queue index) + length (ei_av_queue index));
  ix_keys : NoDup (map key_of (ei_busy_queue index));
}.

Lemma es_key_spec efd fd es : es_key efd fd es = true <-> key_of es = (efd, fd).
Proof.
  unfold es_key, key_of. rewrite andb_true_iff, !Z.eqb_eq.
  split; [intros [-> ->]; done | intros [= -> ->]; done].
Qed.

Lemma get_In index efd fd es :
  mk_epoll_state_get index efd fd = Some es -> es ∈ ei_busy_queue index /\ key_of es = (efd, fd).
Proof. intros H. apply List.find_some in H as [H1 H2]. now rewrite list_elem_of_In, <- es_key_spec. Qed.

Lemma get_None index efd fd :
  mk_epoll_state_get index efd fd = None -> (efd, fd) ∉ map key_of (ei_busy_queue index).
Proof.
  intros H Hin. apply list_elem_of_fmap in Hin as (es & Hk & Hes).
  apply list_elem_of_In in Hes. apply (List.find_none _ _ H) in Hes.
  symmetry in Hk. apply es_key_spec in Hk. congruence.
Qed.

Lemma update_first_keys p f l :
  (forall e, key_of (f e) = key_of e) -> map key_of (update_first p f l) = map key_of l.
Proof. intros Hf. induction l as [|e l IH]; cbn; [done|]. case_if; cbn; congruence. Qed.

Lemma find_update_first_same f efd fd l es :
  (forall e, key_of (f e) = key_of e) -> List.find (es_key efd fd) l = Some es ->
  List.find (es_key efd fd) (update_first (es_key efd fd) f l) = Some (f es).
Proof.
  intros Hf. induction l as [|e l IH]; cbn; [done|]. destruct (es_key efd fd e) eqn:E; cbn.
  - intros [= <-]. replace (es_key efd fd (f e)) with true; [done|].
    symmetry. apply es_key_spec. rewrite Hf. now apply es_key_spec.
  - rewrite E. apply IH.
Qed.

Lemma find_update_first_other f efd fd efd' fd' l :
  (forall e, key_of (f e) = key_of e) -> (efd', fd') <> (efd, fd) ->
  List.find (es_key efd' fd') (update_first (es_key efd fd) f l) = List.find (es_key efd' fd') l.
Proof.
  intros Hf Hne. induction l as [|e l IH]; cbn; [done|]. destruct (es_key efd fd e) eqn:E; cbn.
  - replace (es_key efd' fd' (f e)) with false; [replace (es_key efd' fd' e) with false; [done|]|];
      symmetry; apply not_true_iff_false; rewrite es_key_spec, ?Hf; apply es_key_spec in E; congruence.
  - destruct (es_key efd' fd' e); [done|apply IH].
Qed.

Lemma find_app {A} (p : A -> bool) l1 l2 :
  List.find p (l1 ++ l2) = match List.find p l1 with Some x => Some x | None => List.find p l2 end.
Proof. induction l1 as [|x l1 IH]; cbn; [done|]. now destruct (p x). Qed.

(** What a descriptor's state becomes. *)
Definition state_after (old : option epoll_state) (efd fd mode behavior events : Z) : epoll_state :=
  match old with
  | Some es => if u8 mode =? MK_EPOLL_SLEEP then es <| es_mode := u8 mode |>
               else {| es_instance := efd; es_fd := fd; es_mode := u8 mode;
                       es_behavior := u8 behavior; es_events := u32 events |}
  | None => {| es_instance := efd; es_fd := fd; es_mode := u8 mode;
               es_behavior := u8 behavior; es_events := u32 events |}
  end.

Lemma mk_epoll_state_set_facts index efd fd mode behavior events :
  index_ok index ->
  let index' := mk_epoll_state_set index efd fd mode behavior events in
  index_ok index' /\
  mk_epoll_state_get index' efd fd =
    Some (state_after (mk_epoll_state_get index efd fd) efd fd mode behavior events) /\
  (forall efd' fd', (efd', fd') <> (efd, fd) ->
     mk_epoll_state_get index' efd' fd' = mk_epoll_state_get index efd' fd').
Proof.
  intros [Hsz Hk] index'. unfold index', mk_epoll_state_set.
  destruct (mk_epoll_state_get index efd fd) as [es|] eqn:Eg.
  - set (touch := fun es0 : epoll_state => _).
    assert (Ht : forall e, key_of (touch e) = key_of e) by (intros e; unfold touch; now case_if).
    split; [split; cbn|split].
    + rewrite <- (length_map key_of (update_first _ _ _)), update_first_keys, length_map by done. exact Hsz.
    + now rewrite update_first_keys.
    + unfold mk_epoll_state_get in *. cbn. rewrite (find_update_first_same touch efd fd _ es) by done.
      apply (get_In index) in Eg as [_ Hke]. injection Hke as <- <-. unfold touch, state_after.
      case_if; [done|]. now destruct es.
    + intros efd' fd' Hne. unfold mk_epoll_state_get. cbn. now apply find_update_first_other.
  - set (grown := match ei_av_queue index with [] => _ | _ => index end).
    remember (ei_av_queue index) as av eqn:Hav0.
    assert (Hg : ei_busy_queue grown = ei_busy_queue index /\ index_ok grown /\ ei_av_queue grown <> []).
    { unfold grown. clear grown. destruct av as [|a l].
      - split; [done|]. split; [|done]. split; [|exact Hk].
        change (ei_size index + Z.of_nat 64 = Z.of_nat (length (ei_busy_queue index) + 64)).
        rewrite Hsz. cbn [length]. lia.
      - split; [done|]. split; [split; [congruence | exact Hk] | congruence]. }
    destruct Hg as (Hb & [Hsz' Hk'] & Hav). rewrite Hb. split; [split; cbn|split].
    + rewrite Hsz', Hb, length_app. destruct (ei_av_queue grown); [done|]. cbn. lia.
    + rewrite map_app. apply NoDup_app. split; [exact Hk|]. split; [|apply NoDup_singleton].
      intros k Hin Hin2. apply list_elem_of_singleton in Hin2. subst k.
      now apply get_None in Eg.
    + unfold mk_epoll_state_get in *. cbn. rewrite find_app, Eg. cbn.
      unfold es_key. cbn. now rewrite !Z.eqb_refl.
    + intros efd' fd' Hne. unfold mk_epoll_state_get. cbn. rewrite find_app.
      destruct (List.find _ _); [done|]. cbn. unfold es_key. cbn.
      destruct (efd =? efd') eqn:E1, (fd =? fd') eqn:E2; cbn; zbool; congruence.
Qed.

Lemma remove_first_spec efd fd l :
  NoDup (map key_of l) ->
  match remove_first (es_key efd fd) l with
  | (l', Some es) => List.find (es_key efd fd) l = Some es /\ length l = S (length l') /\
      NoDup (map key_of l') /\ (forall k, k ∈ map key_of l' -> k ∈ map key_of l /\ k <> (efd, fd)) /\
      forall efd' fd', (efd', fd') <> (efd, fd) ->
        List.find (es_key efd' fd') l' = List.find (es_key efd' fd') l
  | (l', None) => List.find (es_key efd fd) l = None
  end.
Proof.
  induction l as [|e l IH]; intros Hk; [done|]. cbn [map] in Hk. apply NoDup_cons in Hk as [He Hk].
  cbn [remove_first List.find]. destruct (es_key efd fd e) eqn:E.
  - apply es_key_spec in E. repeat split; [done | | | ].
    + cbn. now right.
    + intros ->. congruence.
    + intros efd' fd' Hne. destruct (es_key efd' fd' e) eqn:E'; [|done].
      apply es_key_spec in E'. congruence.
  - specialize (IH Hk). destruct (remove_first (es_key efd fd) l) as [l' [es|]]; [|done].
    destruct IH as (H1 & H2 & H3 & H4 & H5). cbn. rewrite H2. repeat split; [done | | | |].
    + apply NoDup_cons. split; [|done]. intros Hin. now apply H4 in Hin as [Hin _].
    + apply elem_of_cons in H as [->|H]; [left | right; now apply H4].
    + apply elem_of_cons in H as [->|H]; [|now apply H4].
      intros Heq. apply es_key_spec in Heq. congruence.
    + intros efd' fd' Hne. destruct (es_key efd' fd' e); [done | now apply H5].
Qed.

(** C8: the state index behaves as a finite map from descriptors to states.
    [mk_epoll_state_set] records the new state of its descriptor, where going
    to sleep keeps the events and behaviour it had; [mk_epoll_state_del] forgets
    it and reports whether it was there; both leave the other descriptors alone
    and keep the index well formed: no entry is lost, even when it grows, and
    no descriptor has two states. *)
Theorem epoll_state_index_spec index efd fd mode behavior events :
  index_ok index ->
  let set := mk_epoll_state_set index efd fd mode behavior events in
  let '(ret, del) := mk_epoll_state_del index efd fd in
  (index_ok set /\
   mk_epoll_state_get set efd fd =
     Some (state_after (mk_epoll_state_get index efd fd) efd fd mode behavior events) /\
   forall efd' fd', (efd', fd') <> (efd, fd) ->
     mk_epoll_state_get set efd' fd' = mk_epoll_state_get index efd' fd') /\
  (index_ok del /\ mk_epoll_state_get del efd fd = None /\
   ret = (match mk_epoll_state_get index efd fd with Some _ => 0 | None => -1 end) /\
   forall efd' fd', (efd', fd') <> (efd, fd) ->
     mk_epoll_state_get del efd' fd' = mk_epoll_state_get index efd' fd').
Proof.
  intros Hok set. pose proof (mk_epoll_state_set_facts index efd fd mode behavior events Hok) as Hset.
  destruct (mk_epoll_state_del index efd fd) as [ret del] eqn:Ed. split; [exact Hset|]. clear Hset.
  destruct Hok as [Hsz Hk]. unfold mk_epoll_state_del in Ed.
  pose proof (remove_first_spec efd fd _ Hk) as Hr. unfold mk_epoll_state_get.
  destruct (remove_first (es_key efd fd) (ei_busy_queue index)) as [busy [es|]].
  - destruct Hr as (H1 & H2 & H3 & H4 & H5). injection Ed as <- <-. rewrite H1. cbn.
    repeat split; [cbn | done | | done].
    + rewrite Hsz, H2, length_app. cbn. lia.
    + destruct (List.find (es_key efd fd) busy) as [es'|] eqn:E; [|done]. exfalso.
      apply List.find_some in E as [E1 E2]. apply es_key_spec in E2.
      destruct (H4 (key_of es')) as [_ Hn]; [|congruence].
      apply list_elem_of_fmap. exists es'. now rewrite list_elem_of_In.
  - injection Ed as <- <-. rewrite Hr. repeat split; done.
Qed.

Lemma mk_epoll_state_init_ok : index_ok mk_epoll_state_init.
Proof. split; [done | apply NoDup_nil_2]. Qed.

Lemma epoll_state_index_witness :
  let index := mk_epoll_state_set mk_epoll_state_init 4 9 MK_EPOLL_READ MK_EPOLL_LEVEL_TRIGGERED 8217 in
  let set := mk_epoll_state_set index 4 9 MK_EPOLL_SLEEP MK_EPOLL_LEVEL_TRIGGERED 0 in
  let '(ret, del) := mk_epoll_state_del index 4 9 in
  (index_ok set /\
   mk_epoll_state_get set 4 9 =
     Some (state_after (mk_epoll_state_get index 4 9) 4 9 MK_EPOLL_SLEEP MK_EPOLL_LEVEL_TRIGGERED 0) /\
   forall efd' fd', (efd', fd') <> (4, 9) ->
     mk_epoll_state_get set efd' fd' = mk_epoll_state_get index efd' fd') /\
  (index_ok del /\ mk_epoll_state_get del 4 9 = None /\
   ret = (match mk_epoll_state_get index 4 9 with Some _ => 0 | None => -1 end) /\
   forall efd' fd', (efd', fd') <> (4, 9) ->
     mk_epoll_state_get del efd' fd' = mk_epoll_state_get index efd' fd').
Proof.
  intros index.
  apply (epoll_state_index_spec index 4 9 MK_EPOLL_SLEEP MK_EPOLL_LEVEL_TRIGGERED 0).
  apply mk_epoll_state_set_facts, mk_epoll_state_init_ok.
Defined.

(** ** Sleeping and waking up *)

Section Sleep.
Context `{env : Env}.

Lemma change_mode_run w efd fd mode behavior :
  mode <> MK_EPOLL_WAKEUP -> 0 <= mode < 256 ->
  exists r events, mk_epoll_change_mode efd fd mode behavior w =
    Some (r, w <| w_trace := w_trace w ++ [EvEpollCtl EPOLL_CTL_MOD efd fd events] |>
               <| w_epoll := mk_epoll_state_set (w_epoll w) efd fd mode behavior events |>).
Proof.
  intros Hm Hr. unfold mk_epoll_change_mode, epoll_ctl, state_set. mrun.
  replace (mode =? MK_EPOLL_WAKEUP) with false by zb.
  match goal with |- context [sys_epoll_ctl ?a ?o ?c ?d ?e] => destruct (sys_epoll_ctl a o c d e) as [r x] end.
  exists r. eexists. done.
Qed.

Lemma change_mode_wakeup w efd fd behavior es :
  mk_epoll_state_get (w_epoll w) efd fd = Some es -> es_mode es = MK_EPOLL_SLEEP ->
  0 <= es_behavior es < 256 ->
  exists r, mk_epoll_change_mode efd fd MK_EPOLL_WAKEUP behavior w =
    Some (r, w <| w_trace := w_trace w ++ [EvEpollCtl EPOLL_CTL_MOD efd fd (es_events es)] |>
               <| w_epoll := mk_epoll_state_set (w_epoll w) efd fd MK_EPOLL_WAKEUP (es_behavior es) (es_events es) |>).
Proof.
  intros Hg Hm Hb. unfold mk_epoll_change_mode, epoll_ctl, state_set. mrun.
  change (MK_EPOLL_WAKEUP =? MK_EPOLL_WAKEUP) with true. cbv beta iota. rewrite Hg, Hm.
  change (MK_EPOLL_SLEEP =? MK_EPOLL_SLEEP) with true. cbv beta iota zeta.
  replace (u32 (es_behavior es) =? MK_EPOLL_EDGE_TRIGGERED) with false
    by (rewrite u32_small by lia; unfold MK_EPOLL_EDGE_TRIGGERED, EPOLLET; zb).
  match goal with |- context [sys_epoll_ctl ?a ?o ?c ?d ?e] => destruct (sys_epoll_ctl a o c d e) as [r x] end.
  exists r. done.
Qed.

(** Putting a descriptor to sleep and waking it up hands the kernel the
    event mask the descriptor had before, and its recorded state has that mask
    and behaviour again; waking it up a second time is refused (the process
    exits). *)
Theorem epoll_sleep_wakeup w efd fd es b b' :
  index_ok (w_epoll w) -> mk_epoll_state_get (w_epoll w) efd fd = Some es ->
  0 <= es_events es < 2 ^ 32 -> 0 <= es_behavior es < 256 ->
  exists r r' m w1 w2,
    mk_epoll_change_mode efd fd MK_EPOLL_SLEEP b w = Some (r, w1) /\
    mk_epoll_change_mode efd fd MK_EPOLL_WAKEUP b' w1 = Some (r', w2) /\
    w_trace w2 = w_trace w ++ [EvEpollCtl EPOLL_CTL_MOD efd fd m;
                               EvEpollCtl EPOLL_CTL_MOD efd fd (es_events es)] /\
    mk_epoll_state_get (w_epoll w2) efd fd = Some (es <| es_mode := MK_EPOLL_WAKEUP |>) /\
    mk_epoll_change_mode efd fd MK_EPOLL_WAKEUP b' w2 = None.
Proof.
  intros Hok Hg He Hb. destruct (get_In _ _ _ _ Hg) as [_ Hkey]. injection Hkey as Hi Hf.
  destruct (change_mode_run w efd fd MK_EPOLL_SLEEP b) as (r & m & H1); [discriminate | done |].
  set (w1 := _ <| w_epoll := _ |>) in H1.
  destruct (mk_epoll_state_set_facts (w_epoll w) efd fd MK_EPOLL_SLEEP b m Hok) as (Hok1 & Hg1 & _).
  rewrite Hg in Hg1. cbn [state_after] in Hg1. change (u8 MK_EPOLL_SLEEP) with MK_EPOLL_SLEEP in Hg1.
  change (MK_EPOLL_SLEEP =? MK_EPOLL_SLEEP) with true in Hg1. cbn match in Hg1.
  destruct (change_mode_wakeup w1 efd fd b' _ Hg1 eq_refl Hb) as (r' & H2).
  set (w2 := _ <| w_epoll := _ |>) in H2.
  destruct (mk_epoll_state_set_facts (w_epoll w1) efd fd MK_EPOLL_WAKEUP (es_behavior es) (es_events es) Hok1)
    as (_ & Hg2 & _).
  assert (Hg2' : mk_epoll_state_get (w_epoll w2) efd fd = Some (es <| es_mode := MK_EPOLL_WAKEUP |>)).
  { change (w_epoll w2) with
      (mk_epoll_state_set (w_epoll w1) efd fd MK_EPOLL_WAKEUP (es_behavior es) (es_events es)).
    rewrite Hg2. change (mk_epoll_state_get (w_epoll w1) efd fd) with
      (mk_epoll_state_get (mk_epoll_state_set (w_epoll w) efd fd MK_EPOLL_SLEEP b m) efd fd).
    rewrite Hg1. cbn [state_after]. change (u8 MK_EPOLL_WAKEUP) with MK_EPOLL_WAKEUP.
    change (MK_EPOLL_WAKEUP =? MK_EPOLL_SLEEP) with false. cbn match.
    rewrite u8_small, u32_small by lia. destruct es; cbn in *; congruence. }
  exists r, r', m, w1, w2. repeat split; [exact H1 | exact H2 | | exact Hg2' |].
  - cbn. now rewrite <- app_assoc.
  - unfold mk_epoll_change_mode, gets, mbind, M_bind. rewrite Hg2'. done.
Qed.

End Sleep.

(** A worker with one descriptor, 9, in its epoll queue 4. *)
Definition example_world : world :=
  {| w_sched := {| sl_accepted_connections := 1; sl_closed_connections := 0; sl_busy_queue := [];
                   sl_av_queue := []; sl_idx := 0; sl_epoll_fd := 4; sl_initialized := 1 |};
     w_epoll := mk_epoll_state_set mk_epoll_state_init 4 9 MK_EPOLL_READ MK_EPOLL_LEVEL_TRIGGERED 8217;
     w_sessions := []; w_next := 0; w_events := []; w_gmt := gmt_cache_init;
     w_iov := {| Iov.io := replicate 32 None; Iov.buf_to_free := replicate 32 None; Iov.iov_idx := 0;
                 Iov.buf_idx := 0; Iov.size := 32; Iov.total_len := 0 |};
     w_lm := replicate 32 0;
     w_utime := 1000; w_header_time := mk_pointer_init "now"; w_trace := [] |}.

Lemma epoll_sleep_wakeup_witness :
  let es := {| es_instance := 4; es_fd := 9; es_mode := 0; es_behavior := 2; es_events := 8217 |} in
  exists r r' m w1 w2,
    @mk_epoll_change_mode example_env 4 9 MK_EPOLL_SLEEP 2 example_world = Some (r, w1) /\
    @mk_epoll_change_mode example_env 4 9 MK_EPOLL_WAKEUP 2 w1 = Some (r', w2) /\
    w_trace w2 = w_trace example_world ++ [EvEpollCtl EPOLL_CTL_MOD 4 9 m;
                               EvEpollCtl EPOLL_CTL_MOD 4 9 (es_events es)] /\
    mk_epoll_state_get (w_epoll w2) 4 9 = Some (es <| es_mode := MK_EPOLL_WAKEUP |>) /\
    @mk_epoll_change_mode example_env 4 9 MK_EPOLL_WAKEUP 2 w2 = None.
Proof.
  intros es. apply (@epoll_sleep_wakeup example_env example_world 4 9 es 2 2);
    [apply mk_epoll_state_set_facts, mk_epoll_state_init_ok | reflexivity | cbn; lia | cbn; lia].
Defined.
