(* ===== verification/MkPlugin.v ===== *)
(** * mk_plugin.c: registering plugins, running their stages, routing events *)
From S2P Require Import Prelude CString MkMemory MkTypes MkSession MkEpoll.
Local Open Scope Z_scope.

Definition MK_PLUGIN_STAGE_10 : Z := 4.
Definition MK_PLUGIN_STAGE_20 : Z := 8.
Definition MK_PLUGIN_STAGE_30 : Z := 16.
Definition MK_PLUGIN_STAGE_40 : Z := 32.
Definition MK_PLUGIN_STAGE_50 : Z := 64.
Definition MK_PLUGIN_NETWORK_IO : Z := 128.
Definition MK_PLUGIN_RET_NOT_ME : Z := -1.
Definition MK_PLUGIN_RET_CONTINUE : Z := 100.
Definition MK_PLUGIN_RET_END : Z := 200.
Definition MK_PLUGIN_RET_CLOSE_CONX : Z := 300.
Definition MK_PLUGIN_RET_EVENT_NEXT : Z := -300.
Definition MK_PLUGIN_RET_EVENT_OWNED : Z := -400.
Definition MK_PLUGIN_RET_EVENT_CLOSE : Z := -500.
Definition MK_PLUGIN_RET_EVENT_CONTINUE : Z := -600.
Definition MK_PLUGIN_HEADER_EXTRA_ROWS : Z := 18.

(** ** Registration *)

(** The linked lists of [struct plugin_stagemap]; a plugin is its position in
    [config->plugins]. *)
Record plugin_stagemap := {
  stage_10 : list nat; stage_20 : list nat; stage_30 : list nat; stage_40 : list nat; stage_50 : list nat
}.

Definition empty_stagemap : plugin_stagemap :=
  {| stage_10 := []; stage_20 := []; stage_30 := []; stage_40 := []; stage_50 := [] |}.

(** Is a hook bit set? *)
Definition hooked (hooks stage : Z) : bool := negb (Z.land hooks stage =? 0).

(** Appends the plugin at the end of the list of a stage. *)
Definition mk_plugin_register_stagemap_add (stm : list nat) (p : nat) : list nat := stm ++ [p].

Definition mk_plugin_register_stagemap (m : plugin_stagemap) (p : nat) (hooks : Z) : plugin_stagemap :=
  let add stage stm := if hooked hooks stage then mk_plugin_register_stagemap_add stm p else stm in
  {| stage_10 := add MK_PLUGIN_STAGE_10 (stage_10 m);
     stage_20 := add MK_PLUGIN_STAGE_20 (stage_20 m);
     stage_30 := add MK_PLUGIN_STAGE_30 (stage_30 m);
     stage_40 := add MK_PLUGIN_STAGE_40 (stage_40 m);
     stage_50 := add MK_PLUGIN_STAGE_50 (stage_50 m) |}.

(** [config->plugins], [plg_stagemap] and the plugin whose [net_io] is
    [plg_netiomap]. *)
Record registry := { reg_plugins : list plugin; reg_stages : plugin_stagemap; reg_netio : option nat }.

Definition empty_registry : registry :=
  {| reg_plugins := []; reg_stages := empty_stagemap; reg_netio := None |}.

(** The registry after the call, and whether the plugin was accepted; a refused
    plugin is freed. [None] is an out-of-bounds read of a name. *)
Definition mk_plugin_register (transport_layer : option bytes) (reg : registry) (p : plugin)
    : option (registry * bool) :=
  match pl_name p, pl_version p with
  | Some _, Some _ =>
    if pl_hooks p =? 0 then Some (reg, false)
    else if negb (pl_init p) || negb (pl_exit p) then Some (reg, false)
    else
      let me := length (reg_plugins reg) in
      netio ← (if hooked (pl_hooks p) MK_PLUGIN_NETWORK_IO then
                 match transport_layer with
                 | Some t => c ← strcmp t (pl_shortname p);
                             Some (if c =? 0 then Some me else reg_netio reg)
                 | None => Some (reg_netio reg)
                 end
               else Some (reg_netio reg));
      Some ({| reg_plugins := reg_plugins reg ++ [p];
               reg_stages := mk_plugin_register_stagemap (reg_stages reg) me (pl_hooks p);
               reg_netio := netio |}, true)
  | _, _ => Some (reg, false)
  end.

(** The positions of the plugins hooked to a stage. *)
Fixpoint hooked_from (stage : Z) (i : nat) (l : list plugin) : list nat :=
  match l with
  | [] => []
  | p :: l => if hooked (pl_hooks p) stage then i :: hooked_from stage (S i) l else hooked_from stage (S i) l
  end.

Definition stages_of (l : list plugin) : plugin_stagemap :=
  {| stage_10 := hooked_from MK_PLUGIN_STAGE_10 0 l; stage_20 := hooked_from MK_PLUGIN_STAGE_20 0 l;
     stage_30 := hooked_from MK_PLUGIN_STAGE_30 0 l; stage_40 := hooked_from MK_PLUGIN_STAGE_40 0 l;
     stage_50 := hooked_from MK_PLUGIN_STAGE_50 0 l |}.

Section WithEnv.
Context `{env : Env}.

(** The stage map of the plugins of the environment. *)
Definition plg_stagemap : plugin_stagemap := stages_of plugins.

(** ** Running a stage *)

(** Calls a stage function of a plugin; a NULL one is undefined behaviour. *)
Definition call_stage {A} (sel : plugin -> option A) (p : nat) : M A :=
  pl ← lift (plugins !! p); lift (sel pl).

Fixpoint run_stage_10 (stm : list nat) (socket : Z) (conx : nat) : M (option Z) :=
  match stm with
  | [] => mret None
  | p :: stm =>
    f ← call_stage pl_s10 p;
    ret ← f socket conx;
    if ret =? MK_PLUGIN_RET_CLOSE_CONX then mret (Some MK_PLUGIN_RET_CLOSE_CONX)
    else run_stage_10 stm socket conx
  end.

Fixpoint run_stage_20 (stm : list nat) (cs sr : nat) : M (option Z) :=
  match stm with
  | [] => mret None
  | p :: stm =>
    f ← call_stage pl_s20 p;
    ret ← f cs sr;
    if ret =? MK_PLUGIN_RET_CLOSE_CONX then mret (Some MK_PLUGIN_RET_CLOSE_CONX)
    else run_stage_20 stm cs sr
  end.

(** An answer out of the four allowed ones exits. *)
Fixpoint run_stage_30 (stm : list nat) (cs sr : nat) : M (option Z) :=
  match stm with
  | [] => mret None
  | p :: stm =>
    f ← call_stage pl_s30 p;
    ret ← f cs sr;
    if ret =? MK_PLUGIN_RET_NOT_ME then run_stage_30 stm cs sr
    else if (ret =? MK_PLUGIN_RET_END) || (ret =? MK_PLUGIN_RET_CLOSE_CONX) || (ret =? MK_PLUGIN_RET_CONTINUE)
    then mret (Some ret)
    else ub
  end.

Fixpoint run_stage_40 (stm : list nat) (cs sr : nat) : M unit :=
  match stm with
  | [] => mret tt
  | p :: stm => f ← call_stage pl_s40 p; _ ← f cs sr; run_stage_40 stm cs sr
  end.

Fixpoint run_stage_50 (stm : list nat) (socket : Z) : M (option Z) :=
  match stm with
  | [] => mret None
  | p :: stm =>
    f ← call_stage pl_s50 p;
    ret ← f socket;
    if ret =? MK_PLUGIN_RET_CONTINUE then mret (Some MK_PLUGIN_RET_CONTINUE)
    else run_stage_50 stm socket
  end.

(** The pointers a stage does not use are NULL in its callers. *)
Definition mk_plugin_stage_run (hook socket : Z) (conx cs sr : option nat) : M Z :=
  r ← (if hooked hook MK_PLUGIN_STAGE_10 then
         conx ← lift conx; run_stage_10 (stage_10 plg_stagemap) socket conx
       else mret None);
  match r with Some ret => mret ret | None =>
  r ← (if hooked hook MK_PLUGIN_STAGE_20 then
         cs ← lift cs; sr ← lift sr; run_stage_20 (stage_20 plg_stagemap) cs sr
       else mret None);
  match r with Some ret => mret ret | None =>
  r ← (if hooked hook MK_PLUGIN_STAGE_30 then
         cs ← lift cs; sr ← lift sr;
         req ← get_sr cs sr;
         match sr_handled_by req with
         | None => run_stage_30 (stage_30 plg_stagemap) cs sr
         | Some _ => mret None
         end
       else mret None);
  match r with Some ret => mret ret | None =>
  _ ← (if hooked hook MK_PLUGIN_STAGE_40 then
         cs ← lift cs; sr ← lift sr; run_stage_40 (stage_40 plg_stagemap) cs sr
       else mret tt);
  r ← (if hooked hook MK_PLUGIN_STAGE_50 then run_stage_50 (stage_50 plg_stagemap) socket
       else mret None);
  match r with Some ret => mret ret | None => mret (-1) end
  end end end.

(** ** Events *)

Definition mk_plugin_event_check_return (ret : Z) : Z :=
  if (ret =? MK_PLUGIN_RET_EVENT_NEXT) || (ret =? MK_PLUGIN_RET_EVENT_OWNED) ||
     (ret =? MK_PLUGIN_RET_EVENT_CLOSE) || (ret =? MK_PLUGIN_RET_EVENT_CONTINUE)
  then 0 else -1.

Definition mk_plugin_event_get (socket : Z) : M (option plugin_event) :=
  events ← gets w_events; mret (List.find (fun e => pe_socket e =? socket) events).

(** The loop over all the plugins of an event function. *)
Fixpoint ask_plugins (hook : plugin -> option (Z -> M Z)) (default : Z) (l : list plugin) (socket : Z) : M Z :=
  match l with
  | [] => mret default
  | node :: l =>
    match hook node with
    | Some f =>
      ret ← f socket;
      if ret =? MK_PLUGIN_RET_EVENT_NEXT then ask_plugins hook default l socket else mret ret
    | None => ask_plugins hook default l socket
    end
  end.

(** The common body of the five event functions: the plugin that registered the
    socket, if it has the hook, decides alone. *)
Definition event_hook (hook : plugin -> option (Z -> M Z)) (default socket : Z) : M Z :=
  event ← mk_plugin_event_get socket;
  match event with
  | Some e =>
    handler ← lift (plugins !! pe_handler e);
    match hook handler with
    | Some f => f socket
    | None => ask_plugins hook default plugins socket
    end
  | None => ask_plugins hook default plugins socket
  end.

Definition mk_plugin_event_read (socket : Z) : M Z :=
  event_hook pl_event_read MK_PLUGIN_RET_EVENT_CONTINUE socket.
Definition mk_plugin_event_write (socket : Z) : M Z :=
  event_hook pl_event_write MK_PLUGIN_RET_CONTINUE socket.
Definition mk_plugin_event_error (socket : Z) : M Z :=
  event_hook pl_event_error MK_PLUGIN_RET_CONTINUE socket.
Definition mk_plugin_event_close (socket : Z) : M Z :=
  event_hook pl_event_close MK_PLUGIN_RET_CONTINUE socket.
Definition mk_plugin_event_timeout (socket : Z) : M Z :=
  event_hook pl_event_timeout MK_PLUGIN_RET_CONTINUE socket.

Definition mk_plugin_event_add (socket mode : Z) (handler : option nat) (behavior : Z) : M Z :=
  match handler with
  | Some h => mod_w (fun w => w <| w_events := w_events w ++ [ {| pe_socket := socket; pe_handler := h |} ] |>)
  | None => mret tt
  end;;
  sched ← gets w_sched;
  _ ← mk_epoll_add true (sl_epoll_fd sched) socket mode behavior;
  mret 0.

Fixpoint remove_event (socket : Z) (l : list plugin_event) : list plugin_event :=
  match l with
  | [] => []
  | e :: l => if pe_socket e =? socket then l else e :: remove_event socket l
  end.

Definition mk_plugin_event_del (socket : Z) : M Z :=
  if socket <=? 0 then mret (-1) else
  event ← mk_plugin_event_get socket;
  match event with
  | Some _ =>
    mod_w (fun w => w <| w_events := remove_event socket (w_events w) |>);;
    sched ← gets w_sched;
    _ ← mk_epoll_del (sl_epoll_fd sched) socket;
    mret 0
  | None => mret (-1)
  end.

Definition mk_plugin_event_socket_change_mode (socket mode behavior : Z) : M Z :=
  sched ← gets w_sched; mk_epoll_change_mode (sl_epoll_fd sched) socket mode behavior.

(** Adds a row and its CRLF to the extra headers of a response. *)
Definition mk_plugin_header_add (sr : session_request) (row : bytes) (n : Z) : option session_request :=
  iov ← (match sh_extra_rows (sr_headers sr) with
         | None => Iov.mk_iov_create (MK_PLUGIN_HEADER_EXTRA_ROWS * 2) 0
         | Some iov => Some iov
         end);
  '(iov, _) ← Iov.mk_iov_add_entry iov (Some row) n Iov.mk_iov_crlf Iov.MK_IOV_NOT_FREE_BUF;
  Some (sr <| sr_headers := sr_headers sr <| sh_extra_rows := Some iov |> |>).

End WithEnv.

(** ** The stage map follows the registration order *)

Lemma hooked_from_app stage i l p :
  hooked_from stage i (l ++ [p]) =
  hooked_from stage i l ++ (if hooked (pl_hooks p) stage then [(i + length l)%nat] else []).
Proof.
  revert i; induction l as [|q l IH]; intros i; cbn.
  - rewrite Nat.add_0_r. now case_if.
  - rewrite IH. rewrite Nat.add_succ_r. now case_if.
Qed.

(** Accepting a plugin: what the source requires of it. *)
Definition acceptable (p : plugin) : bool :=
  match pl_name p, pl_version p with
  | Some _, Some _ => negb (pl_hooks p =? 0) && pl_init p && pl_exit p
  | _, _ => false
  end.

Fixpoint register_all (t : option bytes) (reg : registry) (l : list plugin) : option registry :=
  match l with
  | [] => Some reg
  | p :: l => '(reg, _) ← mk_plugin_register t reg p; register_all t reg l
  end.

Definition registry_ok (reg : registry) : Prop :=
  reg_stages reg = stages_of (reg_plugins reg) /\
  match reg_netio reg with
  | Some i => exists p, reg_plugins reg !! i = Some p /\ hooked (pl_hooks p) MK_PLUGIN_NETWORK_IO = true
  | None => True
  end.

Lemma mk_plugin_register_ok t s reg p :
  registry_ok reg -> is_cstr t s -> (exists n, is_cstr (pl_shortname p) n) ->
  exists reg', mk_plugin_register (Some t) reg p = Some (reg', acceptable p) /\ registry_ok reg' /\
    reg_plugins reg' = reg_plugins reg ++ (if acceptable p then [p] else []).
Proof.
  intros [Hst Hnet] Ht [n Hn]. unfold mk_plugin_register, acceptable.
  assert (Hkeep : exists reg', Some (reg, false) = Some (reg', false) /\ registry_ok reg' /\
            reg_plugins reg' = reg_plugins reg ++ []).
  { exists reg. rewrite app_nil_r. done. }
  destruct (pl_name p); [|done]. destruct (pl_version p); [|done].
  destruct (pl_hooks p =? 0); [exact Hkeep|]. destruct (pl_init p), (pl_exit p); try exact Hkeep.
  cbn [negb orb andb].
  assert (Hst' : mk_plugin_register_stagemap (reg_stages reg) (length (reg_plugins reg)) (pl_hooks p) =
                 stages_of (reg_plugins reg ++ [p])).
  { rewrite Hst. unfold mk_plugin_register_stagemap, stages_of, mk_plugin_register_stagemap_add.
    cbn [stage_10 stage_20 stage_30 stage_40 stage_50]. rewrite !hooked_from_app.
    repeat case_if; now rewrite ?app_nil_r. }
  assert (Hold : match reg_netio reg with
    | Some i => exists q, (reg_plugins reg ++ [p]) !! i = Some q /\ hooked (pl_hooks q) MK_PLUGIN_NETWORK_IO = true
    | None => True end).
  { destruct (reg_netio reg) as [i|]; [|done]. destruct Hnet as (q & Hq & Hh). exists q.
    split; [now apply lookup_app_l_Some|done]. }
  destruct (hooked (pl_hooks p) MK_PLUGIN_NETWORK_IO) eqn:Eh.
  - destruct (strcmp_cstr t s (pl_shortname p) n Ht Hn) as (c & -> & _). mstep.
    eexists. split; [done|]. split; [|done]. split; [exact Hst'|]. cbn. destruct (c =? 0); [|exact Hold].
    exists p. rewrite lookup_app_r, Nat.sub_diag by lia. done.
  - mstep. eexists. split; [done|]. split; [|done]. split; [exact Hst'|exact Hold].
Qed.

(** The position of the last of [l] that has network I/O and the name [s],
    counting from [i]; [cur] when there is none. *)
Definition is_transport (s : bytes) (p : plugin) : bool :=
  hooked (pl_hooks p) MK_PLUGIN_NETWORK_IO &&
  match cstr (pl_shortname p) with Some n => bool_decide (n = s) | None => false end.

Fixpoint last_transport (s : bytes) (i : nat) (cur : option nat) (l : list plugin) : option nat :=
  match l with
  | [] => cur
  | p :: l => last_transport s (S i) (if is_transport s p then Some i else cur) l
  end.

Lemma last_transport_app s i cur l p :
  last_transport s i cur (l ++ [p]) =
  if is_transport s p then Some (i + length l)%nat else last_transport s i cur l.
Proof.
  revert i cur; induction l as [|q l IH]; intros i cur; cbn; [now rewrite Nat.add_0_r|].
  now rewrite IH, Nat.add_succ_r.
Qed.

Lemma mk_plugin_register_netio t s reg p reg' :
  is_cstr t s -> (exists n, is_cstr (pl_shortname p) n) ->
  reg_netio reg = last_transport s 0 None (reg_plugins reg) ->
  mk_plugin_register (Some t) reg p = Some (reg', acceptable p) ->
  reg_netio reg' = last_transport s 0 None (reg_plugins reg').
Proof.
  intros Ht [n Hn] Hcur. unfold mk_plugin_register, acceptable.
  destruct (pl_name p); [|congruence]. destruct (pl_version p); [|congruence].
  destruct (pl_hooks p =? 0); [congruence|].
  destruct (pl_init p), (pl_exit p); cbn [negb orb andb]; try congruence.
  assert (Hlt := last_transport_app s 0 None (reg_plugins reg) p).
  unfold is_transport in Hlt. rewrite (cstr_cstr _ _ Hn) in Hlt.
  destruct (hooked (pl_hooks p) MK_PLUGIN_NETWORK_IO).
  - destruct (strcmp_cstr t s (pl_shortname p) n Ht Hn) as (c & -> & Hc). mstep.
    intros [= <-]. cbn [reg_netio reg_plugins]. rewrite Hlt. cbn [andb]. rewrite Hcur.
    destruct (c =? 0) eqn:E; zbool.
    + rewrite bool_decide_true by (symmetry; now apply Hc). done.
    + rewrite bool_decide_false; [done|]. intros ->. now apply E, Hc.
  - mstep. intros [= <-]. cbn [reg_netio reg_plugins]. rewrite Hlt. exact Hcur.
Qed.

(** Registering plugins one after the other keeps exactly those that give
    their name and version, hook something and export init and exit, in the
    order given. Each stage list then holds the positions of the plugins that
    hooked the stage, in registration order, and the network layer is the last
    accepted one with network I/O whose short name is the configured
    transport. *)
Theorem register_all_spec t s l :
  is_cstr t s -> Forall (fun p => exists n, is_cstr (pl_shortname p) n) l ->
  exists reg, register_all (Some t) empty_registry l = Some reg /\
    reg_plugins reg = List.filter acceptable l /\
    reg_stages reg = stages_of (List.filter acceptable l) /\
    reg_netio reg = last_transport s 0 None (List.filter acceptable l).
Proof.
  intros Ht. enough (H : forall reg, registry_ok reg ->
    reg_netio reg = last_transport s 0 None (reg_plugins reg) ->
    Forall (fun p => exists n, is_cstr (pl_shortname p) n) l ->
    exists reg', register_all (Some t) reg l = Some reg' /\ registry_ok reg' /\
      reg_plugins reg' = reg_plugins reg ++ List.filter acceptable l /\
      reg_netio reg' = last_transport s 0 None (reg_plugins reg')).
  { intros Hl. destruct (H empty_registry) as (reg & H1 & [H2 _] & H3 & H4); [done..|].
    exists reg. rewrite H3 in H2, H4. done. }
  induction l as [|p l IH]; intros reg Hok Hnet Hl.
  { exists reg. now rewrite app_nil_r. }
  apply Forall_cons in Hl as [Hp Hl].
  destruct (mk_plugin_register_ok t s reg p Hok Ht Hp) as (reg1 & H1 & Hok1 & Hp1).
  pose proof (mk_plugin_register_netio t s reg p reg1 Ht Hp Hnet H1) as Hnet1.
  destruct (IH reg1 Hok1 Hnet1 Hl) as (reg2 & H2 & Hok2 & Hp2 & Hnet2).
  exists reg2. cbn [register_all]. rewrite H1. mstep. repeat split; try done; try apply Hok2.
  rewrite Hp2, Hp1. cbn [List.filter]. destruct (acceptable p); now rewrite <- app_assoc.
Qed.

(** ** Who answers in stage 30 *)

Section Stage30.
Context `{env : Env}.

(** Each plugin of the list answers NOT_ME, taking the world from [w] to [w']. *)
Inductive all_decline (cs sr : nat) : list nat -> world -> world -> Prop :=
  | decline_nil w : all_decline cs sr [] w w
  | decline_cons p pl f stm w w1 w2 :
      plugins !! p = Some pl -> pl_s30 pl = Some f -> f cs sr w = Some (MK_PLUGIN_RET_NOT_ME, w1) ->
      all_decline cs sr stm w1 w2 -> all_decline cs sr (p :: stm) w w2.

Definition stage_30_answer (ret : Z) : Prop :=
  ret = MK_PLUGIN_RET_END \/ ret = MK_PLUGIN_RET_CLOSE_CONX \/ ret = MK_PLUGIN_RET_CONTINUE.

Lemma call_stage_inv {A} (sel : plugin -> option A) p w f w' :
  call_stage sel p w = Some (f, w') -> w' = w /\ exists pl, plugins !! p = Some pl /\ sel pl = Some f.
Proof.
  unfold call_stage. mrun. destruct (plugins !! p) as [pl|]; [|done]. intros H.
  destruct (sel pl) as [f'|] eqn:E; [|done]. injection H as <- <-. eauto.
Qed.

Lemma call_stage_ok {A} (sel : plugin -> option A) p pl f w :
  plugins !! p = Some pl -> sel pl = Some f -> call_stage sel p w = Some (f, w).
Proof. intros H1 H2. unfold call_stage. mrun. now rewrite H1, H2. Qed.

Lemma run_stage_30_spec stm cs sr w r w' :
  run_stage_30 stm cs sr w = Some (r, w') <->
  match r with
  | None => all_decline cs sr stm w w'
  | Some ret => stage_30_answer ret /\ exists pre p post pl f w1, stm = pre ++ p :: post /\
      all_decline cs sr pre w w1 /\ plugins !! p = Some pl /\ pl_s30 pl = Some f /\
      f cs sr w1 = Some (ret, w')
  end.
Proof.
  revert w; induction stm as [|p stm IH]; intros w.
  - cbn. split.
    + intros [= <- <-]. constructor.
    + destruct r; [intros (_ & pre & q & post & pl & f & w1 & H & _); now destruct pre|].
      intros H; now inversion H.
  - cbn [run_stage_30]. unfold mbind at 1, M_bind at 1. split.
    + destruct (call_stage pl_s30 p w) as [[f w0]|] eqn:E; [|done].
      apply call_stage_inv in E as (-> & pl & Hp & Hf). unfold mbind, M_bind.
      destruct (f cs sr w) as [[ret w1]|] eqn:Ef; [|done].
      destruct (ret =? MK_PLUGIN_RET_NOT_ME) eqn:E1.
      * apply Z.eqb_eq in E1 as ->. intros H. apply IH in H. destruct r as [ret|].
        -- destruct H as (Ha & pre & q & post & pl' & f' & w2 & -> & Hd & H1 & H2 & H3).
           split; [done|]. exists (p :: pre), q, post, pl', f', w2. split_and!; try done.
           eapply decline_cons; eassumption.
        -- eapply decline_cons; eassumption.
      * case_if; [|done]. intros [= <- <-]. split.
        -- unfold stage_30_answer. apply orb_true_iff in E as [E|E]; [apply orb_true_iff in E as [E|E]|];
             zbool; auto.
        -- exists [], p, stm, pl, f, w. split_and!; try done. constructor.
    + intros H. assert (Hcase : (exists pl f w1, plugins !! p = Some pl /\ pl_s30 pl = Some f /\
          f cs sr w = Some (MK_PLUGIN_RET_NOT_ME, w1) /\ run_stage_30 stm cs sr w1 = Some (r, w')) \/
        (exists pl f ret, r = Some ret /\ stage_30_answer ret /\ plugins !! p = Some pl /\
          pl_s30 pl = Some f /\ f cs sr w = Some (ret, w'))).
      { destruct r as [ret|].
        - destruct H as (Ha & pre & q & post & pl & f & w1 & Heq & Hd & H1 & H2 & H3).
          destruct pre as [|q' pre]; injection Heq as -> ->.
          + inversion Hd; subst. right; eauto 10.
          + inversion Hd; subst. left. do 3 eexists. split_and!; try eassumption. apply IH.
            split; [done|]. exists pre, q, post, pl, f, w1. done.
        - inversion H; subst. left. do 3 eexists. split_and!; try eassumption. now apply IH. }
      destruct Hcase as [(pl & f & w1 & H1 & H2 & H3 & H4)|(pl & f & ret & -> & Ha & H1 & H2 & H3)].
      * rewrite (call_stage_ok _ _ _ _ _ H1 H2). unfold mbind, M_bind. now rewrite H3.
      * rewrite (call_stage_ok _ _ _ _ _ H1 H2). unfold mbind, M_bind. rewrite H3.
        destruct Ha as [-> | [-> | ->]]; done.
Qed.

(** In stage 30 the plugins are asked in the order of the stage list
    until one does not decline; its answer, which must be one of END,
    CLOSE_CONX and CONTINUE, is the result, and no later plugin runs. The
    result is -1 exactly when all decline, or when a plugin already handles the
    request, in which case none is asked. *)
Theorem mk_plugin_stage_run_30 socket conx cs sr req w ret w' :
  get_sr cs sr w = Some (req, w) ->
  mk_plugin_stage_run MK_PLUGIN_STAGE_30 socket conx (Some cs) (Some sr) w = Some (ret, w') <->
  match sr_handled_by req with
  | Some _ => ret = -1 /\ w' = w
  | None =>
    (ret = -1 /\ all_decline cs sr (stage_30 plg_stagemap) w w') \/
    (stage_30_answer ret /\ exists pre p post pl f w1, stage_30 plg_stagemap = pre ++ p :: post /\
       all_decline cs sr pre w w1 /\ plugins !! p = Some pl /\ pl_s30 pl = Some f /\
       f cs sr w1 = Some (ret, w'))
  end.
Proof.
  intros Hsr. unfold mk_plugin_stage_run.
  change (hooked MK_PLUGIN_STAGE_30 MK_PLUGIN_STAGE_10) with false.
  change (hooked MK_PLUGIN_STAGE_30 MK_PLUGIN_STAGE_20) with false.
  change (hooked MK_PLUGIN_STAGE_30 MK_PLUGIN_STAGE_30) with true.
  change (hooked MK_PLUGIN_STAGE_30 MK_PLUGIN_STAGE_40) with false.
  change (hooked MK_PLUGIN_STAGE_30 MK_PLUGIN_STAGE_50) with false.
  mrun. rewrite Hsr. destruct (sr_handled_by req).
  { split; [intros [= <- <-]|intros [-> ->]]; done. }
  destruct (run_stage_30 (stage_30 plg_stagemap) cs sr w) as [[[r|] w1]|] eqn:E.
  - apply run_stage_30_spec in E as HE. split.
    + intros [= <- <-]. right. exact HE.
    + intros [[-> H]|H].
      * apply (run_stage_30_spec _ _ _ _ None) in H. congruence.
      * apply (run_stage_30_spec _ _ _ _ (Some ret)) in H. congruence.
  - apply run_stage_30_spec in E as HE. split.
    + intros [= <- <-]. left. done.
    + intros [[-> H]|H].
      * apply (run_stage_30_spec _ _ _ _ None) in H. congruence.
      * apply (run_stage_30_spec _ _ _ _ (Some ret)) in H. congruence.
  - split; [done|]. intros [[-> H]|H].
    + apply (run_stage_30_spec _ _ _ _ None) in H. congruence.
    + apply (run_stage_30_spec _ _ _ _ (Some ret)) in H. congruence.
Qed.

End Stage30.

(** ** What the core relies on of the plugins

    A plugin's hooks work through the API, which does not hand out the
    scheduler's queues; those called outside a request leave the sessions and
    the clock alone as well, and the stage 50 hooks return. *)
Definition core (w : world) : sched_list_node * list (nat * client_session) * Z :=
  (w_sched w, w_sessions w, w_utime w).

Lemma core_sched w w' : core w' = core w -> w_sched w' = w_sched w.
Proof. now intros [= -> _ _]. Qed.
Lemma core_at_sr w w' cs sr c r : core w' = core w -> at_sr w cs sr c r -> at_sr w' cs sr c r.
Proof. intros [= _ Hs _] [H1 H2]. split; congruence. Qed.

Class QuietPlugins `{env : Env} : Prop := {
  quiet_s10 p pl f s c : plugins !! p = Some pl -> pl_s10 pl = Some f -> keeps core (f s c);
  quiet_s50 p pl : plugins !! p = Some pl -> hooked (pl_hooks pl) MK_PLUGIN_STAGE_50 = true ->
    exists f, pl_s50 pl = Some f /\ forall s w, exists r w', f s w = Some (r, w') /\ core w' = core w;
  quiet_close p pl f s : plugins !! p = Some pl -> pl_event_close pl = Some f -> keeps core (f s);
}.

Lemma hooked_from_lookup stage p i l :
  p ∈ hooked_from stage i l ->
  exists pl, (i <= p)%nat /\ l !! (p - i)%nat = Some pl /\ hooked (pl_hooks pl) stage = true.
Proof.
  revert i; induction l as [|q l IH]; intros i; cbn; [now intros ?%elem_of_nil|].
  assert (Hl : p ∈ hooked_from stage (S i) l ->
    exists pl, (i <= p)%nat /\ (q :: l) !! (p - i)%nat = Some pl /\ hooked (pl_hooks pl) stage = true).
  { intros H. apply IH in H as (pl & H1 & H2 & H3). exists pl. replace (p - i)%nat with (S (p - S i)) by lia.
    split; [lia|done]. }
  destruct (hooked (pl_hooks q) stage) eqn:E; [|exact Hl]. intros H.
  apply elem_of_cons in H as [->|H]; [|now apply Hl]. exists q. rewrite Nat.sub_diag. split; [lia|done].
Qed.

Section Quiet.
Context `{env : Env}.

Lemma epoll_ctl_keeps op efd fd ev : keeps core (epoll_ctl op efd fd ev).
Proof. unfold epoll_ctl. eauto 10 with keeps. Qed.

Lemma mk_epoll_del_run efd fd w : exists r w', mk_epoll_del efd fd w = Some (r, w') /\ core w' = core w.
Proof.
  unfold mk_epoll_del, epoll_ctl. mrun.
  match goal with |- context [sys_epoll_ctl ?a ?o ?c ?d ?e] => destruct (sys_epoll_ctl a o c d e) as [r x] end.
  eexists _, _. split; reflexivity.
Qed.

Lemma mk_epoll_add_core b efd fd mode behavior : keeps core (mk_epoll_add b efd fd mode behavior).
Proof.
  unfold mk_epoll_add. apply keeps_bind; [apply epoll_ctl_keeps|]. intros [ret e].
  case_if; [eauto with keeps|]. unfold state_set. destruct b; eauto 10 with keeps.
Qed.

Context {quiet : QuietPlugins}.

Lemma run_stage_10_keeps stm s c : keeps core (run_stage_10 stm s c).
Proof.
  induction stm as [|p stm IH]; cbn [run_stage_10]; [eauto with keeps|].
  intros w b w'. unfold mbind at 1, M_bind at 1. destruct (call_stage pl_s10 p w) as [[f w1]|] eqn:E; [|done].
  apply call_stage_inv in E as (-> & pl & H1 & H2). revert w b w'.
  apply keeps_bind; [eapply quiet_s10; eassumption|]. intros a. case_if; eauto with keeps.
Qed.

Lemma run_stage_50_run stm s w :
  (forall p, p ∈ stm -> exists pl, plugins !! p = Some pl /\ hooked (pl_hooks pl) MK_PLUGIN_STAGE_50 = true) ->
  exists r w', run_stage_50 stm s w = Some (r, w') /\ core w' = core w.
Proof.
  revert w; induction stm as [|p stm IH]; intros w H; cbn [run_stage_50]; [eexists _, _; done|].
  destruct (H p) as (pl & Hp & Hh); [left|]. destruct (quiet_s50 p pl Hp Hh) as (f & Hf & Hrun).
  destruct (Hrun s w) as (r & w1 & Hr & Hc). unfold mbind, M_bind.
  rewrite (call_stage_ok pl_s50 p pl f w Hp Hf), Hr. case_if; [eexists _, _; done|].
  destruct (IH w1) as (r2 & w2 & H2 & Hc2); [intros q Hq; apply H; now right|].
  eexists _, _. split; [exact H2|congruence].
Qed.

Lemma stage_10_keeps s c : keeps core (mk_plugin_stage_run MK_PLUGIN_STAGE_10 s (Some c) None None).
Proof.
  unfold mk_plugin_stage_run.
  change (hooked MK_PLUGIN_STAGE_10 MK_PLUGIN_STAGE_10) with true.
  change (hooked MK_PLUGIN_STAGE_10 MK_PLUGIN_STAGE_20) with false.
  change (hooked MK_PLUGIN_STAGE_10 MK_PLUGIN_STAGE_30) with false.
  change (hooked MK_PLUGIN_STAGE_10 MK_PLUGIN_STAGE_40) with false.
  change (hooked MK_PLUGIN_STAGE_10 MK_PLUGIN_STAGE_50) with false.
  cbv iota. apply keeps_bind; [|intros [r|]; eauto 10 with keeps].
  apply keeps_bind; [eauto with keeps|]. intros a. apply run_stage_10_keeps.
Qed.

Lemma stage_50_run s w :
  exists r w', mk_plugin_stage_run MK_PLUGIN_STAGE_50 s None None None w = Some (r, w') /\ core w' = core w.
Proof.
  unfold mk_plugin_stage_run.
  change (hooked MK_PLUGIN_STAGE_50 MK_PLUGIN_STAGE_10) with false.
  change (hooked MK_PLUGIN_STAGE_50 MK_PLUGIN_STAGE_20) with false.
  change (hooked MK_PLUGIN_STAGE_50 MK_PLUGIN_STAGE_30) with false.
  change (hooked MK_PLUGIN_STAGE_50 MK_PLUGIN_STAGE_40) with false.
  change (hooked MK_PLUGIN_STAGE_50 MK_PLUGIN_STAGE_50) with true.
  mrun. destruct (run_stage_50_run (stage_50 plg_stagemap) s w) as (r & w' & -> & Hc).
  - intros p Hp. apply hooked_from_lookup in Hp as (pl & _ & H1 & H2). rewrite Nat.sub_0_r in H1. eauto.
  - destruct r; eexists _, _; done.
Qed.

Lemma event_hook_keeps {B} (g : world -> B) hook default s :
  (forall p pl f, plugins !! p = Some pl -> hook pl = Some f -> keeps g (f s)) ->
  keeps g (event_hook hook default s).
Proof.
  intros H. unfold event_hook.
  assert (Hask : keeps g (ask_plugins hook default plugins s)).
  { assert (Hall : forall pl f, pl ∈ plugins -> hook pl = Some f -> keeps g (f s)).
    { intros pl f Hin Hf. apply list_elem_of_lookup in Hin as [p Hp]. now apply (H p pl f). }
    revert Hall. generalize plugins as l. induction l as [|pl l IH]; intros Hall; cbn; [eauto with keeps|].
    assert (Hl : keeps g (ask_plugins hook default l s)).
    { apply IH. intros pl' f Hin Hf. apply (Hall pl'); [now right|done]. }
    destruct (hook pl) as [f|] eqn:Ef; [|done]. apply keeps_bind; [apply (Hall pl f); [left|done]|].
    intros a. case_if; eauto with keeps. }
  apply keeps_bind; [unfold mk_plugin_event_get; eauto with keeps|]. intros [e|]; [|done].
  intros w b w'. mrun. destruct (plugins !! pe_handler e) as [pl|] eqn:Ep; [|done].
  destruct (hook pl) as [f|] eqn:Ef; [|apply Hask]. now apply (H (pe_handler e) pl f).
Qed.

Lemma event_close_keeps s : keeps core (mk_plugin_event_close s).
Proof. apply event_hook_keeps. intros p pl f. apply quiet_close. Qed.

End Quiet.

(** ** Witnesses *)

(** A plugin with the given hooks whose stage 30 answers [ret]. *)
Definition plugin_example (name : string) (hooks ret : Z) : plugin :=
  {| pl_shortname := clit name; pl_name := Some (clit name); pl_version := Some (clit "1");
     pl_hooks := hooks; pl_init := true; pl_exit := true; pl_s10 := None; pl_s20 := None;
     pl_s30 := Some (fun _ _ => mret ret); pl_s40 := None; pl_s50 := None;
     pl_event_read := None; pl_event_write := None; pl_event_error := None;
     pl_event_close := None; pl_event_timeout := None |}.

Definition plugins_example : list plugin :=
  [ plugin_example "liana" MK_PLUGIN_NETWORK_IO 0;
    plugin_example "auth" (Z.lor MK_PLUGIN_STAGE_20 MK_PLUGIN_STAGE_30) MK_PLUGIN_RET_NOT_ME;
    plugin_example "void" 0 0;
    plugin_example "cgi" MK_PLUGIN_STAGE_30 MK_PLUGIN_RET_CONTINUE ].

Lemma register_all_witness :
  let l := List.filter acceptable plugins_example in
  exists reg, register_all (Some (clit "liana")) empty_registry plugins_example = Some reg /\
    reg_plugins reg = l /\ reg_stages reg = stages_of l /\
    reg_netio reg = last_transport (lit "liana") 0 None l.
Proof.
  intros l. apply (register_all_spec (clit "liana") (lit "liana") plugins_example).
  - apply is_cstr_clit. decide_closed.
  - unfold plugins_example, plugin_example.
    repeat (apply Forall_cons_2; [eexists; apply is_cstr_clit; decide_closed|]). apply Forall_nil_2.
Defined.

Example stages_example :
  stage_30 (stages_of (List.filter acceptable plugins_example)) = [1%nat; 2%nat].
Proof. reflexivity. Qed.

(** [example_env] with plugins. *)
Definition plugin_env (l : list plugin) : Env :=
  {| config := @config example_env; EUID := 1000; EGID := 1000; sys_lstat := @sys_lstat example_env;
     sys_stat := @sys_stat example_env; sys_open := @sys_open example_env;
     sys_access := @sys_access example_env; sys_readlink := @sys_readlink example_env;
     sys_getpwnam := @sys_getpwnam example_env; sys_strptime := @sys_strptime example_env;
     sys_mktime := @sys_mktime example_env;
     sys_epoll_ctl := @sys_epoll_ctl example_env; net_read := @net_read example_env;
     net_write := @net_write example_env; net_writev := @net_writev example_env;
     net_send_file := @net_send_file example_env; sys_getfd := @sys_getfd example_env; sys_realloc := @sys_realloc example_env;
     sys_junk := @sys_junk example_env; mimecommon := @mimecommon example_env;
     mimearr := @mimearr example_env; mimetype_default := @mimetype_default example_env;
     plugins := l |}.

Definition session_world : world :=
  example_world <| w_sessions := [(1%nat, session_example (lit "GET / HTTP/1.1") 0
                                     <| cs_request_list := [mk_request_init] |>)] |>.

Lemma mk_plugin_stage_run_30_witness :
  let e := plugin_env (List.filter acceptable plugins_example) in
  @mk_plugin_stage_run e MK_PLUGIN_STAGE_30 5 None (Some 1%nat) (Some 0%nat) session_world =
    Some (MK_PLUGIN_RET_CONTINUE, session_world).
Proof.
  intros e.
  apply (@mk_plugin_stage_run_30 e 5 None 1 0 mk_request_init session_world MK_PLUGIN_RET_CONTINUE
           session_world eq_refl).
  right. split; [right; now right|].
  exists [1%nat], 2%nat, [], (plugin_example "cgi" MK_PLUGIN_STAGE_30 MK_PLUGIN_RET_CONTINUE).
  eexists. exists session_world. split_and!; try reflexivity.
  eapply decline_cons; [reflexivity..|]. apply decline_nil.
Defined.
