(* ===== verification/MkScheduler.v ===== *)
(** * mk_scheduler.c: balancing, the queues of a worker, timeouts

    With the list of sessions of the worker (mk_request.c) and the closing of a
    connection (mk_connection.c), which the scheduler calls. *)
From stdpp Require Import relations.
From S2P Require Import Prelude CString MkMemory MkUtils MkTypes MkToc MkSession MkEpoll MkPlugin.
Local Open Scope Z_scope.

(** ** Balancing: the main thread *)

(** Active connections of a worker, an [unsigned long long]. *)
Definition load (s : sched_list_node) : Z := u64 (sl_accepted_connections s - sl_closed_connections s).

(** The loop of [_next_target] from worker [i]. *)
Fixpoint next_target_loop (l : list sched_list_node) (i target : nat) (cur : Z) : nat * Z :=
  match l with
  | [] => (target, cur)
  | s :: l =>
    let tmp := load s in
    if tmp <? cur then
      if tmp =? 0 then (i, tmp) else next_target_loop l (S i) i tmp
    else next_target_loop l (S i) target cur
  end.

(** [sched_list] has [config->workers] nodes. *)
Definition _next_target (capacity : Z) (sched_list : list sched_list_node) : option Z :=
  match sched_list with
  | [] => None
  | s :: l =>
    let cur := load s in
    if cur =? 0 then Some 0 else
    let '(target, cur) := next_target_loop l 1 0 cur in
    if capacity <=? cur then Some (-1) else Some (Z.of_nat target)
  end.

(** Nodes of the workers as [mk_sched_init] and [mk_sched_register_thread]
    leave them: the connections of the array are all available. *)
Definition sched_connection_init : sched_connection :=
  {| sc_socket := -1; sc_status := MK_SCHEDULER_CONN_AVAILABLE; sc_arrive_time := 0 |}.

Definition mk_sched_register_thread (capacity : nat) (wid efd : Z) : sched_list_node :=
  {| sl_accepted_connections := 0; sl_closed_connections := 0; sl_busy_queue := [];
     sl_av_queue := imap (fun i c => (i, c)) (replicate capacity sched_connection_init);
     sl_idx := i16 wid; sl_epoll_fd := efd; sl_initialized := 0 |}.

(** ** The worker *)

(** First entry of a queue with the socket. *)
Definition find_socket (socket : Z) (q : list (nat * sched_connection)) : option (nat * sched_connection) :=
  List.find (fun e => sc_socket (snd e) =? socket) q.

(** The first busy entry with the socket gets the status, in place. *)
Fixpoint set_status (socket status : Z) (q : list (nat * sched_connection)) : list (nat * sched_connection) :=
  match q with
  | [] => []
  | (i, c) :: q =>
    if sc_socket c =? socket then (i, c <| sc_status := status |>) :: q
    else (i, c) :: set_status socket status q
  end.

(** [mk_list_del] of the [i]-th element of the array. *)
Definition unlink (i : nat) (q : list (nat * sched_connection)) : list (nat * sched_connection) :=
  List.filter (fun e => negb (fst e =? i)%nat) q.

(** The bookkeeping of [mk_sched_remove_client] on the entry found. *)
Definition release_conn (s : sched_list_node) (i : nat) (c : sched_connection) : sched_list_node :=
  s <| sl_closed_connections := u64 (sl_closed_connections s + 1) |>
    <| sl_busy_queue := unlink i (sl_busy_queue s) |>
    <| sl_av_queue := unlink i (sl_av_queue s) ++
         [(i, c <| sc_status := MK_SCHEDULER_CONN_AVAILABLE |> <| sc_socket := -1 |>)] |>.

(** Taking the first available entry for a socket, as
    [mk_sched_register_client] does after stage 10. *)
Definition take_conn (s : sched_list_node) (i : nat) (c : sched_connection) (remote_fd now : Z)
    : sched_list_node :=
  s <| sl_av_queue := unlink i (sl_av_queue s) |>
    <| sl_busy_queue := unlink i (sl_busy_queue s) ++
         [(i, c <| sc_socket := remote_fd |> <| sc_status := MK_SCHEDULER_CONN_PENDING |>
                <| sc_arrive_time := now |>)] |>.

(** [mk_request.c]: the sessions of the worker, in creation order. *)
Definition MK_REQUEST_CHUNK : Z := 4096.

Fixpoint remove_session (socket : Z) (l : list (nat * client_session)) : list (nat * client_session) :=
  match l with
  | [] => []
  | (p, c) :: l => if cs_socket c =? socket then l else (p, c) :: remove_session socket l
  end.

Section WithEnv.
Context `{env : Env}.

Definition mk_session_get (socket : Z) : M (option nat) :=
  gets (fun w => fst <$> List.find (fun e => cs_socket (snd e) =? socket) (w_sessions w)).

Definition mk_session_remove (socket : Z) : M unit :=
  mod_w (fun w => w <| w_sessions := remove_session socket (w_sessions w) |>).

(** The entry found: its position in the array and its contents. *)
Definition mk_sched_get_connection (remote_fd : Z) : M (option (nat * sched_connection)) :=
  gets (fun w => find_socket remote_fd (sl_busy_queue (w_sched w))).

(** Fields the source leaves uninitialised are set before they are read, but
    for the body. *)
Definition mk_session_create (socket : Z) : M (option nat) :=
  sc ← mk_sched_get_connection socket;
  match sc with
  | None => mret None
  | Some (_, sc) =>
    p ← gets w_next;
    let cs :=
      {| cs_pipelined := MK_FALSE; cs_socket := socket; cs_counter_connections := 0;
         cs_status := MK_REQUEST_STATUS_INCOMPLETE;
         cs_body := imap (fun i _ => sys_junk i) (replicate (Z.to_nat MK_REQUEST_CHUNK) 0);
         cs_body_fixed := true; cs_body_size := MK_REQUEST_CHUNK; cs_body_length := 0;
         cs_body_pos_end := -1; cs_first_method := HTTP_METHOD_UNKNOWN;
         cs_init_time := sc_arrive_time sc; cs_request_list := [] |} in
    mod_w (fun w => w <| w_sessions := w_sessions w ++ [(p, cs)] |> <| w_next := S p |>);;
    mret (Some p)
  end.

Definition mk_sched_remove_client (remote_fd : Z) : M Z :=
  sched ← gets w_sched;
  _ ← mk_epoll_del (sl_epoll_fd sched) remote_fd;
  emit (EvClose remote_fd);;
  sc ← mk_sched_get_connection remote_fd;
  match sc with
  | Some (i, _) =>
    _ ← mk_plugin_stage_run MK_PLUGIN_STAGE_50 remote_fd None None None;
    sched ← gets w_sched;
    e ← lift (List.find (fun e => fst e =? i)%nat (sl_busy_queue sched ++ sl_av_queue sched));
    mod_w (fun w => w <| w_sched := release_conn sched i (snd e) |>);;
    mret 0
  | None => mret (-1)
  end.

(** mk_connection.c *)
Definition mk_conn_close (socket : Z) : M Z :=
  ret ← mk_plugin_event_close socket;
  if ret =? MK_PLUGIN_RET_EVENT_OWNED then mret MK_PLUGIN_RET_CONTINUE
  else if ret =? MK_PLUGIN_RET_EVENT_CLOSE then mret (-1)
  else _ ← mk_sched_remove_client socket; mret 0.

(** With no available entry the source takes the list head for one: undefined. *)
Definition mk_sched_register_client (remote_fd : Z) : M Z :=
  sched ← gets w_sched;
  '(i, _) ← lift (head (sl_av_queue sched));
  ret ← mk_plugin_stage_run MK_PLUGIN_STAGE_10 remote_fd (Some i) None None;
  if ret =? MK_PLUGIN_RET_CLOSE_CONX then _ ← mk_conn_close remote_fd; mret (-1)
  else
    sched ← gets w_sched;
    e ← lift (List.find (fun e => fst e =? i)%nat (sl_busy_queue sched ++ sl_av_queue sched));
    mod_w (fun w => w <| w_sched := take_conn sched i (snd e) remote_fd (w_utime w) |>);;
    mret 0.

Definition mk_sched_update_conn_status (remote_fd status : Z) : M Z :=
  sched ← gets w_sched;
  match find_socket remote_fd (sl_busy_queue sched) with
  | Some _ =>
    mod_w (fun w => w <| w_sched := sched <| sl_busy_queue := set_status remote_fd status (sl_busy_queue sched) |> |>);;
    mret 0
  | None => mret (-1)
  end.

(** The main thread's part: the node of the target counts the connection once
    epoll has it. *)
Definition mk_sched_add_client (sched_list : list sched_list_node) (remote_fd : Z)
    : M (Z * list sched_list_node) :=
  t ← lift (_next_target (c_worker_capacity config) sched_list);
  if t =? -1 then mret (-1, sched_list) else
  sched ← lift (sched_list !! Z.to_nat t);
  r ← mk_epoll_add false (sl_epoll_fd sched) remote_fd MK_EPOLL_READ MK_EPOLL_LEVEL_TRIGGERED;
  mret (r, if r =? 0
           then <[Z.to_nat t := sched <| sl_accepted_connections := u64 (sl_accepted_connections sched + 1) |> ]> sched_list
           else sched_list).

(** ** Timeouts *)

(** First loop, over the busy entries there were at its start. *)
Fixpoint timeout_pending (q : list (nat * sched_connection)) : M unit :=
  match q with
  | [] => mret tt
  | (i, _) :: q =>
    sched ← gets w_sched;
    e ← lift (List.find (fun e => fst e =? i)%nat (sl_busy_queue sched ++ sl_av_queue sched));
    let entry_conn := snd e in
    now ← gets w_utime;
    (if (sc_status entry_conn =? MK_SCHEDULER_CONN_PENDING) &&
        (i32 (sc_arrive_time entry_conn + c_timeout config) <=? now)
     then _ ← mk_sched_remove_client (sc_socket entry_conn); mret tt
     else mret tt);;
    timeout_pending q
  end.

(** Second loop, over the sessions there were at its start. *)
Fixpoint timeout_sessions (l : list (nat * client_session)) : M unit :=
  match l with
  | [] => mret tt
  | (p, _) :: l =>
    cs_node ← get_cs p;
    now ← gets w_utime;
    let client_timeout :=
      i32 (cs_init_time cs_node +
           (if cs_counter_connections cs_node =? 0 then c_timeout config else c_keep_alive_timeout config)) in
    (if (cs_status cs_node =? MK_REQUEST_STATUS_INCOMPLETE) && (client_timeout <=? now)
     then _ ← mk_sched_remove_client (cs_socket cs_node); mk_session_remove (cs_socket cs_node)
     else mret tt);;
    timeout_sessions l
  end.

Definition mk_sched_check_timeouts : M Z :=
  sched ← gets w_sched;
  timeout_pending (sl_busy_queue sched);;
  sessions ← gets w_sessions;
  timeout_sessions sessions;;
  mret 0.

End WithEnv.

(** ** The balancer picks the first worker with the least load *)

Definition least_loaded (l : list sched_list_node) (i : nat) (s : sched_list_node) : Prop :=
  l !! i = Some s /\
  forall j s', l !! j = Some s' -> load s <= load s' /\ ((j < i)%nat -> load s < load s').

Lemma load_nonneg s : 0 <= load s.
Proof. apply u64_range. Qed.

Lemma next_target_loop_spec l pre target s :
  least_loaded pre target s ->
  exists s', let '(t, c) := next_target_loop l (length pre) target (load s) in
    least_loaded (pre ++ l) t s' /\ c = load s'.
Proof.
  revert pre target s; induction l as [|s1 l IH]; intros pre target s [H1 H2].
  { exists s. cbn. rewrite app_nil_r. done. }
  cbn [next_target_loop]. destruct (load s1 <? load s) eqn:E; zbool.
  - assert (Hnew : least_loaded (pre ++ [s1]) (length pre) s1).
    { split; [now rewrite lookup_app_r, Nat.sub_diag by lia|]. intros j s' Hj.
      apply lookup_app_Some in Hj as [Hj|[Hj1 Hj2]].
      - apply H2 in Hj as [Hle _]. lia.
      - apply list_lookup_singleton_Some in Hj2 as [Hj2 <-]. lia. }
    destruct (load s1 =? 0) eqn:E0; zbool.
    + exists s1. split; [|done]. destruct Hnew as [Hn1 Hn2]. rewrite cons_middle, app_assoc. split.
      * now apply lookup_app_l_Some.
      * intros j s' Hj. pose proof (load_nonneg s').
        apply lookup_app_Some in Hj as [Hj|[Hj1 Hj2]]; [now apply Hn2 in Hj|].
        split; [lia|]. rewrite length_app in Hj1. cbn in Hj1. lia.
    + destruct (IH (pre ++ [s1]) (length pre) s1 Hnew) as [s' Hs'].
      rewrite length_app, Nat.add_1_r in Hs'. exists s'. now rewrite cons_middle, app_assoc.
  - assert (Hnew : least_loaded (pre ++ [s1]) target s).
    { split; [now apply lookup_app_l_Some|]. intros j s' Hj. apply lookup_lt_Some in H1.
      apply lookup_app_Some in Hj as [Hj|[Hj1 Hj2]]; [now apply H2 in Hj|].
      apply list_lookup_singleton_Some in Hj2 as [Hj2 <-]. lia. }
    destruct (IH (pre ++ [s1]) target s Hnew) as [s' Hs'].
    rewrite length_app, Nat.add_1_r in Hs'. exists s'. now rewrite cons_middle, app_assoc.
Qed.

Lemma next_target_facts capacity sched_list :
  0 < capacity -> sched_list <> [] ->
  exists i s, least_loaded sched_list i s /\
    _next_target capacity sched_list = Some (if capacity <=? load s then -1 else Z.of_nat i).
Proof.
  intros Hc Hne. destruct sched_list as [|s l]; [done|]. unfold _next_target.
  assert (H0 : least_loaded [s] 0 s).
  { split; [done|]. intros j s' Hj. apply list_lookup_singleton_Some in Hj as [-> <-]. lia. }
  destruct (load s =? 0) eqn:E; zbool.
  - exists 0%nat, s. split; [|].
    + split; [done|]. intros j s' Hj. pose proof (load_nonneg s'). lia.
    + replace (capacity <=? load s) with false by zb. done.
  - destruct (next_target_loop_spec l [s] 0 s H0) as [s' H]. cbn [length app] in H.
    destruct (next_target_loop l 1 0 (load s)) as [t c]. destruct H as [H ->].
    exists t, s'. split; [exact H|]. now case_if.
Qed.

(** [_next_target] gives the first of the workers with the fewest active
    connections, and refuses the client (-1) exactly when even that one is
    full, hence when all are. *)
Theorem _next_target_spec capacity sched_list :
  0 < capacity -> sched_list <> [] ->
  exists i s, least_loaded sched_list i s /\
    _next_target capacity sched_list = Some (if capacity <=? load s then -1 else Z.of_nat i) /\
    (_next_target capacity sched_list = Some (-1) <-> Forall (fun s => capacity <= load s) sched_list).
Proof.
  intros Hc Hne. destruct (next_target_facts capacity sched_list Hc Hne) as (i & s & Hl & Heq).
  exists i, s. split; [exact Hl|]. split; [exact Heq|]. rewrite Heq. destruct Hl as [H1 H2].
  destruct (capacity <=? load s) eqn:E; zbool; (split; intros H).
  - apply Forall_lookup. intros j s' Hj. apply H2 in Hj as [Hj _]. lia.
  - done.
  - injection H as H. lia.
  - apply (Forall_lookup_1 _ _ _ _ H) in H1. lia.
Qed.

(** ** The queues *)

(** Every connection of the array is in exactly one queue: busy ones have a
    status, available ones no socket. *)
Record conns_ok (capacity : nat) (s : sched_list_node) : Prop := {
  co_perm : Permutation (map fst (sl_busy_queue s) ++ map fst (sl_av_queue s)) (seq 0 capacity);
  co_busy : Forall (fun e => sc_status (snd e) <> MK_SCHEDULER_CONN_AVAILABLE) (sl_busy_queue s);
  co_av : Forall (fun e => sc_status (snd e) = MK_SCHEDULER_CONN_AVAILABLE /\ sc_socket (snd e) = -1)
            (sl_av_queue s);
}.

Lemma mk_sched_register_thread_ok capacity wid efd : conns_ok capacity (mk_sched_register_thread capacity wid efd).
Proof.
  split; cbn; [|done|].
  - assert (H : forall n i, map fst (imap (fun j c => ((i + j)%nat, c)) (replicate n sched_connection_init)) = seq i n).
    { induction n as [|n IH]; intros i; [done|]. rewrite replicate_S, imap_cons. cbn. f_equal; [lia|].
      rewrite <- (IH (S i)). f_equal. apply imap_ext. intros j c _. unfold compose. f_equal. lia. }
    now rewrite <- (H capacity 0%nat).
  - apply Forall_lookup. intros i [j c] H. apply list_lookup_imap_Some in H as (c' & Hc & [= -> ->]).
    apply lookup_replicate in Hc as [-> _]. done.
Qed.

Lemma unlink_notin i q : i ∉ map fst q -> unlink i q = q.
Proof.
  unfold unlink. induction q as [|[j c] q IH]; cbn; intros H; [done|].
  apply not_elem_of_cons in H as [H1 H2]. destruct (Nat.eqb_spec j i); [congruence|]. cbn. f_equal. now apply IH.
Qed.

Lemma unlink_split i c q1 q2 :
  NoDup (map fst (q1 ++ (i, c) :: q2)) -> unlink i (q1 ++ (i, c) :: q2) = q1 ++ q2.
Proof.
  rewrite map_app. cbn. intros H. apply NoDup_app in H as (_ & H1 & H2). apply NoDup_cons in H2 as [H2 _].
  unfold unlink. rewrite List.filter_app. cbn. rewrite Nat.eqb_refl. cbn.
  fold (unlink i q1) (unlink i q2). rewrite !unlink_notin; [done|done|].
  intros Hin. apply (H1 i Hin). left.
Qed.

Lemma find_fst_split i c (q1 q2 : list (nat * sched_connection)) :
  i ∉ map fst q1 -> List.find (fun e => fst e =? i)%nat (q1 ++ (i, c) :: q2) = Some (i, c).
Proof.
  intros H. rewrite find_app. replace (List.find _ q1) with (@None (nat * sched_connection)).
  - cbn. now rewrite Nat.eqb_refl.
  - symmetry. induction q1 as [|[j d] q1 IH]; cbn in *; [done|]. apply not_elem_of_cons in H as [H1 H2].
    destruct (Nat.eqb_spec j i); [congruence|]. now apply IH.
Qed.

Lemma conns_NoDup capacity s :
  conns_ok capacity s -> NoDup (map fst (sl_busy_queue s ++ sl_av_queue s)).
Proof. intros [H _ _]. rewrite map_app, H. apply NoDup_seq. Qed.

Lemma conns_length capacity s :
  conns_ok capacity s -> (length (sl_busy_queue s) + length (sl_av_queue s) = capacity)%nat.
Proof.
  intros [H _ _]. apply Permutation_length in H. now rewrite length_app, !length_map, length_seq in H.
Qed.

(** Where [find_socket] finds the entry. *)
Lemma find_socket_split socket q e :
  find_socket socket q = Some e ->
  exists q1 q2, q = q1 ++ e :: q2 /\ sc_socket (snd e) = socket /\
    Forall (fun e => sc_socket (snd e) <> socket) q1.
Proof.
  induction q as [|x q IH]; cbn; [done|]. destruct (sc_socket (snd x) =? socket) eqn:E; zbool.
  - intros [= ->]. exists [], q. done.
  - intros H. destruct (IH H) as (q1 & q2 & -> & H1 & H2). exists (x :: q1), q2.
    split; [done|]. split; [done|]. now constructor.
Qed.

Lemma release_split capacity s q1 i c q2 :
  conns_ok capacity s -> sl_busy_queue s = q1 ++ (i, c) :: q2 ->
  let s' := release_conn s i c in
  sl_busy_queue s' = q1 ++ q2 /\
  sl_av_queue s' = sl_av_queue s ++ [(i, c <| sc_status := MK_SCHEDULER_CONN_AVAILABLE |> <| sc_socket := -1 |>)] /\
  conns_ok capacity s'.
Proof.
  intros Hok Hb s'. pose proof (conns_NoDup _ _ Hok) as Hnd. rewrite map_app in Hnd.
  apply NoDup_app in Hnd as (Hnd1 & Hnd2 & _). rewrite Hb in Hnd1.
  assert (Hbq : sl_busy_queue s' = q1 ++ q2) by (cbn; rewrite Hb; now apply unlink_split).
  assert (Haq : sl_av_queue s' = sl_av_queue s ++
     [(i, c <| sc_status := MK_SCHEDULER_CONN_AVAILABLE |> <| sc_socket := -1 |>)]).
  { cbn. rewrite unlink_notin; [done|]. apply Hnd2. rewrite Hb, map_app. cbn.
    apply elem_of_app. right. left. }
  split; [exact Hbq|]. split; [exact Haq|]. destruct Hok as [H1 H2 H3]. rewrite Hb in H1, H2.
  split; rewrite ?Hbq, ?Haq.
  - rewrite <- H1, !map_app. cbn. solve_Permutation.
  - apply Forall_app in H2 as [H2 H4]. apply Forall_cons in H4 as [_ H4]. now apply Forall_app.
  - apply Forall_app. split; [exact H3|]. now repeat constructor.
Qed.

Lemma take_split capacity s i c av fd now :
  conns_ok capacity s -> sl_av_queue s = (i, c) :: av ->
  let s' := take_conn s i c fd now in
  sl_av_queue s' = av /\ conns_ok capacity s' /\
  sl_busy_queue s' = sl_busy_queue s ++
    [(i, {| sc_socket := fd; sc_status := MK_SCHEDULER_CONN_PENDING; sc_arrive_time := now |})].
Proof.
  intros Hok Ha s'. pose proof (conns_NoDup _ _ Hok) as Hnd. rewrite map_app in Hnd.
  apply NoDup_app in Hnd as (_ & Hnd2 & Hnd3). rewrite Ha in Hnd3.
  assert (Haq : sl_av_queue s' = av) by (cbn; rewrite Ha; exact (unlink_split i c [] av Hnd3)).
  assert (Hbq : sl_busy_queue s' = sl_busy_queue s ++
    [(i, {| sc_socket := fd; sc_status := MK_SCHEDULER_CONN_PENDING; sc_arrive_time := now |})]).
  { cbn. rewrite unlink_notin; [done|]. intros Hin. apply (Hnd2 i Hin). rewrite Ha. left. }
  split; [exact Haq|]. split; [|exact Hbq]. destruct Hok as [H1 H2 H3]. rewrite Ha in H1, H3.
  apply Forall_cons in H3 as [_ H3]. split; rewrite ?Hbq, ?Haq; [|apply Forall_app; split|]; try done.
  - rewrite <- H1, !map_app. cbn. solve_Permutation.
  - now repeat constructor.
Qed.

Lemma set_status_ok capacity s fd status :
  status <> MK_SCHEDULER_CONN_AVAILABLE -> conns_ok capacity s ->
  conns_ok capacity (s <| sl_busy_queue := set_status fd status (sl_busy_queue s) |>) /\
  length (set_status fd status (sl_busy_queue s)) = length (sl_busy_queue s).
Proof.
  intros Hs [H1 H2 H3].
  assert (H : forall q, map fst (set_status fd status q) = map fst q /\
     (Forall (fun e => sc_status (snd e) <> MK_SCHEDULER_CONN_AVAILABLE) q ->
      Forall (fun e => sc_status (snd e) <> MK_SCHEDULER_CONN_AVAILABLE) (set_status fd status q))).
  { induction q as [|[i c] q [IH1 IH2]]; [done|]. cbn. case_if; cbn; rewrite ?IH1; (split; [done|]);
      intros Hq; apply Forall_cons in Hq as [Hq1 Hq2]; constructor; auto. }
  destruct (H (sl_busy_queue s)) as [Hm Hf]. split.
  - split; cbn; rewrite ?Hm; auto.
  - rewrite <- (length_map fst), Hm. apply length_map.
Qed.

Section Worker.
Context `{env : Env} {quiet : QuietPlugins}.

(** [mk_sched_remove_client] always returns, and releases the first busy entry
    with the socket. *)
Lemma mk_sched_remove_client_run capacity fd w :
  conns_ok capacity (w_sched w) ->
  exists w1, core w1 = core w /\
  mk_sched_remove_client fd w =
    match find_socket fd (sl_busy_queue (w_sched w)) with
    | Some (i, c) => Some (0, w1 <| w_sched := release_conn (w_sched w) i c |>)
    | None => Some (-1, w1)
    end.
Proof.
  intros Hok. unfold mk_sched_remove_client, mk_sched_get_connection. mrun.
  destruct (mk_epoll_del_run (sl_epoll_fd (w_sched w)) fd w) as (r & w1 & -> & Hc1). unfold mod_w.
  set (w2 := w1 <| w_trace := _ |>).
  assert (Hc2 : core w2 = core w) by exact Hc1. pose proof (core_sched _ _ Hc2) as Hs2.
  rewrite Hs2. destruct (find_socket fd _) as [[i c]|] eqn:Ef; [|exists w2; done].
  destruct (stage_50_run fd w2) as (r3 & w3 & -> & Hc3).
  assert (Hc : core w3 = core w) by congruence. rewrite (core_sched _ _ Hc).
  apply find_socket_split in Ef as (q1 & q2 & Hb & _).
  assert (Hfind : List.find (fun e => fst e =? i)%nat
    (sl_busy_queue (w_sched w) ++ sl_av_queue (w_sched w)) = Some (i, c)).
  { pose proof (conns_NoDup _ _ Hok) as Hnd. rewrite Hb in *. rewrite <- app_assoc in *. cbn in *.
    apply find_fst_split. rewrite map_app in Hnd. apply NoDup_app in Hnd as (_ & Hnd & _).
    intros Hin. apply (Hnd i Hin). left. }
  rewrite Hfind. exists w3. done.
Qed.

Lemma mk_conn_close_sched capacity fd w r w' :
  conns_ok capacity (w_sched w) -> mk_conn_close fd w = Some (r, w') ->
  w_sched w' = w_sched w \/
  exists i c, find_socket fd (sl_busy_queue (w_sched w)) = Some (i, c) /\ w_sched w' = release_conn (w_sched w) i c.
Proof.
  intros Hok. unfold mk_conn_close. mrun.
  destruct (mk_plugin_event_close fd w) as [[ret w1]|] eqn:E; [|done].
  apply event_close_keeps in E. apply core_sched in E as Es.
  case_if; [intros [= <- <-]; now left|]. case_if; [intros [= <- <-]; now left|].
  rewrite <- Es in Hok. destruct (mk_sched_remove_client_run capacity fd w1 Hok) as (w2 & Hc & ->).
  rewrite Es. destruct (find_socket fd _) as [[i c]|] eqn:Ef; intros [= <- <-].
  - right. exists i, c. done.
  - left. apply core_sched in Hc. congruence.
Qed.

(** Registering takes the first available entry, unless stage 10 refuses. *)
Lemma mk_sched_register_client_sched capacity fd w r w' :
  conns_ok capacity (w_sched w) -> mk_sched_register_client fd w = Some (r, w') ->
  exists i c av, sl_av_queue (w_sched w) = (i, c) :: av /\
  ((r = 0 /\ exists now, w_sched w' = take_conn (w_sched w) i c fd now) \/
   (r = -1 /\ exists w1 r1, core w1 = core w /\ mk_conn_close fd w1 = Some (r1, w'))).
Proof.
  intros Hok. unfold mk_sched_register_client. mrun.
  destruct (sl_av_queue (w_sched w)) as [|[i c] av] eqn:Ha; [done|]. cbn [head]. intros H.
  exists i, c, av. split; [done|].
  destruct (mk_plugin_stage_run MK_PLUGIN_STAGE_10 fd (Some i) None None w) as [[ret w1]|] eqn:E; [|done].
  apply stage_10_keeps in E. case_if_in H.
  - right. destruct (mk_conn_close fd w1) as [[r1 w2]|] eqn:Ec; [|done]. injection H as <- <-.
    split; [done|]. exists w1, r1. done.
  - left. pose proof (core_sched _ _ E) as Es. rewrite Es in H.
    pose proof (conns_NoDup _ _ Hok) as Hnd. rewrite Ha, map_app in Hnd.
    apply NoDup_app in Hnd as (_ & Hnd & _). rewrite Ha, find_fst_split in H.
    + unfold mod_w in H. injection H as <- <-. split; [done|]. now exists (w_utime w1).
    + intros Hin. apply (Hnd i Hin). left.
Qed.

(** Where the main thread is in [mk_sched_add_client] for this worker: outside,
    after [_next_target] chose it, or after epoll has the socket, which the
    worker can then handle, and before the connection is counted. *)
Inductive adding := Idle | Chosen | Added.

(** What happens to a worker: its state, where the main thread is, and the number
    of clients that epoll has and that the worker has not registered yet. The
    main thread reads the loads [l] of all workers, of which this is one. Only
    the main thread writes the number of accepted connections, only the worker
    the rest. *)
Inductive worker_step : world * adding * nat -> world * adding * nat -> Prop :=
  | step_choose l i w n :
      _next_target (c_worker_capacity config) l = Some (Z.of_nat i) -> l !! i = Some (w_sched w) ->
      worker_step (w, Idle, n) (w, Chosen, n)
  | step_epoll fd r w w' n :
      mk_epoll_add false (sl_epoll_fd (w_sched w)) fd MK_EPOLL_READ MK_EPOLL_LEVEL_TRIGGERED w = Some (r, w') ->
      worker_step (w, Chosen, n) (if r =? 0 then (w', Added, S n) else (w', Idle, n))
  | step_count w n :
      worker_step (w, Added, n)
        (w <| w_sched := w_sched w <| sl_accepted_connections := u64 (sl_accepted_connections (w_sched w) + 1) |> |>, Idle, n)
  | step_register fd w r w' ph n :
      mk_sched_register_client fd w = Some (r, w') -> worker_step (w, ph, S n) (w', ph, n)
  | step_close fd w r w' ph n : mk_conn_close fd w = Some (r, w') -> worker_step (w, ph, n) (w', ph, n)
  | step_remove fd w r w' ph n : mk_sched_remove_client fd w = Some (r, w') -> worker_step (w, ph, n) (w', ph, n)
  | step_status fd status w r w' ph n :
      status <> MK_SCHEDULER_CONN_AVAILABLE ->
      mk_sched_update_conn_status fd status w = Some (r, w') -> worker_step (w, ph, n) (w', ph, n)
  | step_other w w' ph n : w_sched w' = w_sched w -> worker_step (w, ph, n) (w', ph, n).

(** The call of the main thread is its three steps when nothing comes between. *)
Lemma add_client_steps fd w s w1 n :
  0 < c_worker_capacity config -> mk_sched_add_client [w_sched w] fd w = Some ((0, [s]), w1) ->
  rtc worker_step (w, Idle, n) (w1 <| w_sched := s |>, Idle, S n).
Proof.
  intros Hcap. unfold mk_sched_add_client. mrun.
  destruct (next_target_facts (c_worker_capacity config) [w_sched w]) as (i & s0 & [Hi _] & Ht); [lia|done|].
  apply list_lookup_singleton_Some in Hi as [-> <-]. rewrite Ht. case_if; [by intros [=]|].
  change (Z.of_nat 0 =? -1) with false. cbv iota. change (Z.to_nat (Z.of_nat 0)) with O. cbn [lookup list_lookup insert list_insert].
  destruct (mk_epoll_add false _ fd _ _ w) as [[r w2]|] eqn:Ea; [|done]. intros [= -> He <-]. cbn in He. injection He as <-.
  pose proof (core_sched _ _ (mk_epoll_add_core _ _ _ _ _ _ _ _ Ea)) as Hs.
  eapply rtc_l; [apply (step_choose [w_sched w] 0 w n Ht eq_refl)|].
  eapply rtc_l; [apply (step_epoll fd 0 w w2 n Ea)|]. rewrite <- Hs. eapply rtc_l; [apply step_count|]. apply rtc_refl.
Qed.

(** The connections accepted and not closed, with the one that is not counted
    yet. *)
Definition active (s : sched_list_node) (ph : adding) : Z :=
  u64 (sl_accepted_connections s + (match ph with Added => 1 | _ => 0 end) - sl_closed_connections s).

Definition worker_inv (st : world * adding * nat) : Prop :=
  let '(w, ph, n) := st in
  let capacity := c_worker_capacity config in
  conns_ok (Z.to_nat capacity) (w_sched w) /\
  Z.of_nat (length (sl_busy_queue (w_sched w)) + n) <= active (w_sched w) ph <= capacity /\
  (ph = Chosen -> active (w_sched w) ph < capacity).

Lemma active_load s ph : ph <> Added -> active s ph = load s.
Proof. unfold active, load. intros H. f_equal. destruct ph; [lia|lia|done]. Qed.

Lemma u64_succ x : u64 x + 1 < 2 ^ 64 -> u64 (x + 1) = u64 x + 1.
Proof. intros H. pose proof (u64_range x). rewrite <- (u64_small (u64 x + 1)) by lia. unfold u64. by rewrite Zplus_mod_idemp_l. Qed.
Lemma u64_pred x : 0 < u64 x -> u64 (x - 1) = u64 x - 1.
Proof. intros H. pose proof (u64_range x). rewrite <- (u64_small (u64 x - 1)) by lia. unfold u64. by rewrite Zminus_mod_idemp_l. Qed.

Lemma active_release s i c ph : 0 < active s ph -> active (release_conn s i c) ph = active s ph - 1.
Proof.
  intros H. unfold active in *. rewrite <- u64_pred by exact H. cbn [release_conn set_field sl_accepted_connections sl_closed_connections].
  unfold u64. rewrite Zminus_mod_idemp_r. f_equal. lia.
Qed.

Lemma active_count s : active (s <| sl_accepted_connections := u64 (sl_accepted_connections s + 1) |>) Idle = active s Added.
Proof.
  unfold active. cbn [set_field sl_accepted_connections sl_closed_connections]. rewrite Z.add_0_r. unfold u64.
  by rewrite Zminus_mod_idemp_l.
Qed.

Lemma load_add s : load s + 1 < 2 ^ 64 ->
  load (s <| sl_accepted_connections := u64 (sl_accepted_connections s + 1) |>) = load s + 1.
Proof.
  intros H. pose proof (load_nonneg s). unfold load in *. cbn [set_field sl_accepted_connections sl_closed_connections].
  rewrite <- (u64_small (u64 _ + 1)) by lia. unfold u64. rewrite Zminus_mod_idemp_l, Zplus_mod_idemp_l. f_equal. lia.
Qed.

Lemma inv_sched w w' ph n : w_sched w' = w_sched w -> worker_inv (w, ph, n) -> worker_inv (w', ph, n).
Proof. unfold worker_inv. now intros ->. Qed.

Lemma inv_release w w' ph n fd i c :
  find_socket fd (sl_busy_queue (w_sched w)) = Some (i, c) -> w_sched w' = release_conn (w_sched w) i c ->
  worker_inv (w, ph, n) -> worker_inv (w', ph, n).
Proof.
  unfold worker_inv. intros Hf -> (Hok & Hl & Hc). apply find_socket_split in Hf as (q1 & q2 & Hb & _).
  destruct (release_split _ _ _ _ _ _ Hok Hb) as (H1 & _ & H3). rewrite Hb, length_app in Hl. cbn [length] in Hl.
  pose proof (active_release (w_sched w) i c ph ltac:(lia)) as Ha. rewrite H1, Ha. split; [exact H3|]. rewrite length_app.
  split; [lia|]. intros E. specialize (Hc E). lia.
Qed.

Lemma inv_drop w ph n : worker_inv (w, ph, S n) -> worker_inv (w, ph, n).
Proof. unfold worker_inv. intros (H1 & H2 & H3). split; [done|]. split; [lia|done]. Qed.

Lemma inv_close w w' ph n fd r :
  mk_conn_close fd w = Some (r, w') -> worker_inv (w, ph, n) -> worker_inv (w', ph, n).
Proof.
  intros Hr Hinv. destruct (mk_conn_close_sched _ _ _ _ _ (proj1 Hinv) Hr) as [Hs|(i & c & Hf & Hs)].
  - exact (inv_sched _ _ _ _ Hs Hinv).
  - exact (inv_release _ _ _ _ _ _ _ Hf Hs Hinv).
Qed.

Lemma inv_choose l i w n :
  0 < c_worker_capacity config -> _next_target (c_worker_capacity config) l = Some (Z.of_nat i) -> l !! i = Some (w_sched w) ->
  worker_inv (w, Idle, n) -> worker_inv (w, Chosen, n).
Proof.
  intros Hcap Ht Hi (H1 & H2 & _). split; [exact H1|]. split; [exact H2|]. intros _.
  destruct (next_target_facts (c_worker_capacity config) l Hcap) as (j & s & [Hj _] & Hn); [by intros ->|].
  rewrite Hn in Ht. destruct (c_worker_capacity config <=? load s) eqn:E; [injection Ht as Ht; lia|]. zbool.
  injection Ht as Ht. replace j with i in Hj by lia. rewrite Hi in Hj. injection Hj as <-. by rewrite active_load.
Qed.

Lemma inv_epoll fd r w w' n :
  c_worker_capacity config < 2 ^ 32 ->
  mk_epoll_add false (sl_epoll_fd (w_sched w)) fd MK_EPOLL_READ MK_EPOLL_LEVEL_TRIGGERED w = Some (r, w') ->
  worker_inv (w, Chosen, n) -> worker_inv (if r =? 0 then (w', Added, S n) else (w', Idle, n)).
Proof.
  intros Hcap H (H1 & H2 & H3). specialize (H3 eq_refl). assert (Hs : w_sched w' = w_sched w) by exact (core_sched _ _ (mk_epoll_add_core _ _ _ _ _ _ _ _ H)).
  assert (Ha : active (w_sched w) Added = active (w_sched w) Chosen + 1).
  { unfold active in *. rewrite <- u64_succ by lia. f_equal. lia. }
  case_if; unfold worker_inv; rewrite Hs.
  - rewrite Ha. split; [exact H1|]. split; [lia|done].
  - split; [exact H1|]. split; [exact H2|done].
Qed.

Lemma worker_inv_step st st' :
  0 < c_worker_capacity config < 2 ^ 32 -> worker_step st st' -> worker_inv st -> worker_inv st'.
Proof.
  intros Hcap Hst Hinv.
  destruct Hst as [l i w n Ht Hi|fd r w w' n H|w n|fd w r w' ph n H|fd w r w' ph n H|fd w r w' ph n H|fd status w r w' ph n Hne H|w w' ph n H].
  - apply (inv_choose l i); [lia|done..].
  - apply (inv_epoll fd r w); [lia|done|done].
  - destruct Hinv as (H1 & H2 & _). unfold worker_inv. rewrite <- active_count in H2. split; [|split; [exact H2|done]].
    destruct H1 as [Ha Hb Hc]. split; assumption.
  - destruct (mk_sched_register_client_sched _ _ _ _ _ (proj1 Hinv) H) as
      (i & c & av & Ha & [(_ & now & Hs)|(_ & w1 & r1 & Hc & Hr)]).
    + destruct Hinv as (Hok & Hl & Hcs). destruct (take_split _ _ _ _ _ fd now Hok Ha) as (_ & H2 & H3).
      unfold worker_inv. rewrite Hs. split; [exact H2|]. rewrite H3, length_app. cbn [length].
      change (active (take_conn _ _ _ _ _) ph) with (active (w_sched w) ph). split; [lia|exact Hcs].
    + apply (inv_close w1 w' ph n fd r1 Hr). apply inv_drop in Hinv.
      exact (inv_sched _ _ _ _ (core_sched _ _ Hc) Hinv).
  - exact (inv_close _ _ _ _ _ _ H Hinv).
  - destruct (mk_sched_remove_client_run _ fd w (proj1 Hinv)) as (w1 & Hc & Hr). rewrite Hr in H.
    destruct (find_socket fd _) as [[i c]|] eqn:Ef; injection H as <- <-.
    + now apply (inv_release w _ ph n fd i c).
    + exact (inv_sched _ _ _ _ (core_sched _ _ Hc) Hinv).
  - revert H. unfold mk_sched_update_conn_status. mrun. destruct (find_socket fd _); [|intros [= <- <-]; done].
    unfold mod_w. intros [= <- <-]. destruct Hinv as (Hok & Hl & Hcs).
    destruct (set_status_ok _ _ fd _ Hne Hok) as [H1 H2]. split; [exact H1|]. cbn. rewrite H2. split; [exact Hl|exact Hcs].
  - exact (inv_sched _ _ _ _ H Hinv).
Qed.

(** C2: with plugins that leave the scheduler alone, however the steps of a
    worker (registering, status changes, closing, timeouts) interleave with those
    of the main thread, which chooses the worker, puts the socket into its epoll
    and only then counts it: each entry of the connection array stays in exactly
    one of the two queues; connections, registered or waiting, are no more than
    the active ones, the one that is not counted yet included, and these are no
    more than the capacity; hence a client that epoll has always finds an available
    entry when it is registered. Outside of that gap of the main thread the active
    ones are the counted load; in the gap the load may be one less. *)
Theorem worker_queues_safe w0 wid efd w ph n :
  0 < c_worker_capacity config < 2 ^ 32 ->
  w_sched w0 = mk_sched_register_thread (Z.to_nat (c_worker_capacity config)) wid efd ->
  rtc worker_step (w0, Idle, O) (w, ph, n) ->
  conns_ok (Z.to_nat (c_worker_capacity config)) (w_sched w) /\
  Z.of_nat (length (sl_busy_queue (w_sched w)) + n) <= active (w_sched w) ph <= c_worker_capacity config /\
  ((0 < n)%nat -> sl_av_queue (w_sched w) <> []) /\
  load (w_sched w) = u64 (active (w_sched w) ph - (match ph with Added => 1 | _ => 0 end)).
Proof.
  intros Hcap H0 Hr. assert (Hinv : worker_inv (w, ph, n)).
  { assert (Hi : worker_inv (w0, Idle, O)).
    { unfold worker_inv. rewrite H0. split; [apply mk_sched_register_thread_ok|]. change (0 <= 0 <= c_worker_capacity config /\ (Idle = Chosen -> 0 < c_worker_capacity config)). split; [lia|done]. }
    revert Hi. generalize (w, ph, n) (w0, Idle, O) Hr. clear -Hcap quiet. intros st st0 Hr.
    induction Hr as [|x y z Hxy _ IH]; [done|]. intros Hi. now apply IH, (worker_inv_step x y). }
  destruct Hinv as (Hok & Hl & _). split; [exact Hok|]. split; [exact Hl|]. split.
  - intros Hn. pose proof (conns_length _ _ Hok) as Hlen. intros Ha. rewrite Ha in Hlen. cbn in Hlen. lia.
  - unfold load, active, u64. rewrite Zminus_mod_idemp_l. f_equal. lia.
Qed.

(** a client that a stage 10 plugin refuses was counted by the main thread
    and is never discounted: after its connection was closed the worker's queues and its load
    are as before. *)
Theorem refused_client_stays_counted capacity fd w w' :
  conns_ok capacity (w_sched w) -> find_socket fd (sl_busy_queue (w_sched w)) = None ->
  mk_sched_register_client fd w = Some (-1, w') ->
  w_sched w' = w_sched w /\ load (w_sched w') = load (w_sched w).
Proof.
  intros Hok Hf H. enough (Hs : w_sched w' = w_sched w) by now rewrite Hs.
  destruct (mk_sched_register_client_sched _ _ _ _ _ Hok H) as
    (i & c & av & Ha & [(? & _)|(_ & w1 & r1 & Hc & Hr)]); [done|].
  pose proof (core_sched _ _ Hc) as Hs. rewrite <- Hs in Hok.
  destruct (mk_conn_close_sched _ _ _ _ _ Hok Hr) as [Hs'|(i' & c' & Hf' & _)]; congruence.
Qed.

(** *** Timeouts *)

Definition conn_expired (now : Z) (e : nat * sched_connection) : bool :=
  (sc_status (snd e) =? MK_SCHEDULER_CONN_PENDING) && (i32 (sc_arrive_time (snd e) + c_timeout config) <=? now).

Definition session_expired (now : Z) (e : nat * client_session) : bool :=
  let cs := snd e in
  (cs_status cs =? MK_REQUEST_STATUS_INCOMPLETE) &&
  (i32 (cs_init_time cs + (if cs_counter_connections cs =? 0 then c_timeout config
                           else c_keep_alive_timeout config)) <=? now).

Definition sockets (q : list (nat * sched_connection)) : list Z := map (fun e => sc_socket (snd e)) q.
Definition session_sockets (l : list (nat * client_session)) : list Z := map (fun e => cs_socket (snd e)) l.

(** Is the connection on none of the sockets? *)
Definition off (fds : list Z) (e : nat * sched_connection) : bool :=
  negb (existsb (fun fd => sc_socket (snd e) =? fd) fds).

Lemma filter_all {A} (p : A -> bool) l : Forall (fun x => p x = true) l -> List.filter p l = l.
Proof. induction 1 as [|x l H _ IH]; cbn; [done|]. now rewrite H, IH. Qed.

Lemma filter_filter_and {A} (p q : A -> bool) l :
  List.filter q (List.filter p l) = List.filter (fun x => p x && q x) l.
Proof. induction l as [|x l IH]; cbn; [done|]. destruct (p x); cbn; now rewrite IH. Qed.

Lemma filter_ext_in' {A} (p q : A -> bool) l : (forall x, p x = q x) -> List.filter p l = List.filter q l.
Proof. intros H. induction l as [|x l IH]; cbn; [done|]. now rewrite H, IH. Qed.

Lemma sockets_filter p q : NoDup (sockets q) -> NoDup (sockets (List.filter p q)).
Proof.
  unfold sockets. induction q as [|e q IH]; cbn; [done|]. intros H. apply NoDup_cons in H as [H1 H2].
  case_if; cbn; [|now apply IH]. apply NoDup_cons. split; [|now apply IH]. intros Hin. apply H1.
  apply list_elem_of_fmap in Hin as (e' & -> & He). apply list_elem_of_fmap. exists e'. split; [done|].
  rewrite list_elem_of_In in *. now apply List.filter_In in He.
Qed.

(** Taking out the entry of a socket is a filter when sockets are unique. *)
Lemma off_split q1 e q2 :
  NoDup (sockets (q1 ++ e :: q2)) -> List.filter (off [sc_socket (snd e)]) (q1 ++ e :: q2) = q1 ++ q2.
Proof.
  unfold sockets. rewrite map_app. cbn. intros H. apply NoDup_app in H as (_ & H1 & H2).
  apply NoDup_cons in H2 as [H2 _]. rewrite List.filter_app. cbn. unfold off at 2. cbn.
  rewrite Z.eqb_refl. cbn. f_equal; apply filter_all, Forall_forall; intros x Hx; unfold off; cbn.
  all: destruct (sc_socket (snd x) =? sc_socket (snd e)) eqn:E; [exfalso; zbool|done].
  - apply (H1 (sc_socket (snd e))); [|left]. rewrite <- E. now apply (list_elem_of_fmap_2 (fun e => sc_socket (snd e))).
  - apply H2. rewrite <- E. now apply (list_elem_of_fmap_2 (fun e => sc_socket (snd e))).
Qed.

Lemma off_cons fd fds e : off (fd :: fds) e = off [fd] e && off fds e.
Proof. unfold off. cbn. rewrite orb_false_r. apply negb_orb. Qed.

Lemma u64_sub_sub x a b : u64 (u64 (x - a) - b) = u64 (x - (a + b)).
Proof. unfold u64. rewrite Zminus_mod_idemp_l. f_equal. lia. Qed.

(** What removing clients changes: the queues and the load. *)
Record removed (capacity : nat) (w w' : world) (busy : list (nat * sched_connection)) : Prop := {
  rm_ok : conns_ok capacity (w_sched w');
  rm_busy : sl_busy_queue (w_sched w') = busy;
  rm_load : load (w_sched w') = u64 (load (w_sched w) - Z.of_nat (length (sl_busy_queue (w_sched w)) - length busy));
  rm_utime : w_utime w' = w_utime w;
}.

Lemma removed_refl capacity w : conns_ok capacity (w_sched w) -> removed capacity w w (sl_busy_queue (w_sched w)).
Proof.
  intros H. split; try done. rewrite Nat.sub_diag, Z.sub_0_r. unfold load.
  now rewrite (u64_small (u64 _)) by apply u64_range.
Qed.

Lemma removed_trans capacity w1 w2 w3 b2 b3 :
  (length b2 <= length (sl_busy_queue (w_sched w1)))%nat -> (length b3 <= length b2)%nat ->
  removed capacity w1 w2 b2 -> removed capacity w2 w3 b3 -> removed capacity w1 w3 b3.
Proof.
  intros L1 L2 [A1 A2 A3 A4] [B1 B2 B3 B4]. split; try done; [|congruence].
  rewrite B3, A3, A2, u64_sub_sub. f_equal. lia.
Qed.

Lemma remove_client_off capacity fd w :
  conns_ok capacity (w_sched w) -> NoDup (sockets (sl_busy_queue (w_sched w))) ->
  exists r w', mk_sched_remove_client fd w = Some (r, w') /\ w_sessions w' = w_sessions w /\
    removed capacity w w' (List.filter (off [fd]) (sl_busy_queue (w_sched w))).
Proof.
  intros Hok Hnd. destruct (mk_sched_remove_client_run capacity fd w Hok) as (w1 & Hc & ->).
  pose proof (core_sched _ _ Hc) as Hs. unfold core in Hc. injection Hc as _ Hse Hu.
  destruct (find_socket fd _) as [[i c]|] eqn:Ef.
  - exists 0, (w1 <| w_sched := release_conn (w_sched w) i c |>). split; [done|]. split; [done|].
    apply find_socket_split in Ef as (q1 & q2 & Hb & <- & _).
    destruct (release_split _ _ _ _ _ _ Hok Hb) as (H1 & _ & H3).
    rewrite Hb in Hnd |- *. rewrite (off_split _ _ _ Hnd). split; try done. rewrite Hb. cbn [w_sched set_field].
    rewrite !length_app. cbn [length]. replace (_ - _)%nat with 1%nat by lia.
    unfold load. cbn [sl_accepted_connections sl_closed_connections release_conn set_field]. unfold u64.
    rewrite Zminus_mod_idemp_r, Zminus_mod_idemp_l. f_equal. lia.
  - exists (-1), w1. split; [done|]. split; [done|].
    replace (List.filter _ _) with (sl_busy_queue (w_sched w)).
    { pose proof (removed_refl capacity w Hok) as [R1 R2 R3 R4]. split; congruence. }
    symmetry. apply filter_all, Forall_forall. intros x Hx. unfold off. cbn.
    apply list_elem_of_In in Hx. apply (List.find_none _ _ Ef) in Hx. now rewrite Hx.
Qed.

Lemma timeout_pending_run capacity q seen w :
  conns_ok capacity (w_sched w) -> sl_busy_queue (w_sched w) = seen ++ q ->
  NoDup (sockets (seen ++ q)) ->
  exists w', timeout_pending q w = Some (tt, w') /\ w_sessions w' = w_sessions w /\
    removed capacity w w' (seen ++ List.filter (fun e => negb (conn_expired (w_utime w) e)) q).
Proof.
  revert seen w; induction q as [|[i c] q IH]; intros seen w Hok Hb Hnd.
  { exists w. split; [done|]. split; [done|]. cbn. rewrite <- Hb. now apply removed_refl. }
  cbn [timeout_pending List.filter]. mrun.
  assert (Hfind : List.find (fun e => fst e =? i)%nat
    (sl_busy_queue (w_sched w) ++ sl_av_queue (w_sched w)) = Some (i, c)).
  { pose proof (conns_NoDup _ _ Hok) as Hn. rewrite Hb, <- app_assoc in *. cbn in *.
    apply find_fst_split. rewrite map_app in Hn. apply NoDup_app in Hn as (_ & Hn & _).
    intros Hin. apply (Hn i Hin). left. }
  rewrite Hfind. cbn [snd]. change (_ && _) with (conn_expired (w_utime w) (i, c)) at 1.
  destruct (conn_expired (w_utime w) (i, c)); cbn [negb].
  - rewrite <- Hb in Hnd. destruct (remove_client_off capacity (sc_socket c) w Hok Hnd) as (r & w1 & -> & Hs1 & R1).
    rewrite Hb in R1, Hnd. change (sc_socket c) with (sc_socket (snd (i, c))) in R1. rewrite (off_split seen (i, c) q Hnd) in R1.
    destruct (IH seen w1) as (w2 & H2 & Hs2 & R2); [apply R1|apply R1| |].
    { revert Hnd. unfold sockets. rewrite !map_app. cbn. intros Hn. apply NoDup_app in Hn as (N1 & N2 & N3).
      apply NoDup_cons in N3 as [_ N3]. apply NoDup_app. split; [done|]. split; [|done].
      intros x Hx Hin. apply (N2 x Hx). now right. }
    exists w2. split; [exact H2|]. split; [congruence|]. rewrite (rm_utime _ _ _ _ R1) in R2.
    eapply removed_trans; [| |exact R1|exact R2].
    + rewrite Hb, !length_app. cbn. lia.
    + rewrite !length_app. apply Nat.add_le_mono_l, List.filter_length_le.
  - destruct (IH (seen ++ [(i, c)]) w) as (w2 & H2 & Hs2 & R2); rewrite <- ?app_assoc; try done.
    exists w2. split; [exact H2|]. split; [exact Hs2|]. now rewrite <- app_assoc in R2.
Qed.

Lemma assoc_split {A} p (c : A) l1 l2 : p ∉ map fst l1 -> assoc p (l1 ++ (p, c) :: l2) = Some c.
Proof.
  induction l1 as [|[q d] l1 IH]; cbn; intros H; [now rewrite Nat.eqb_refl|].
  apply not_elem_of_cons in H as [H1 H2]. destruct (Nat.eqb_spec p q); [congruence|]. now apply IH.
Qed.

Lemma remove_session_split p c l1 l2 :
  cs_socket c ∉ session_sockets l1 -> remove_session (cs_socket c) (l1 ++ (p, c) :: l2) = l1 ++ l2.
Proof.
  induction l1 as [|[q d] l1 IH]; cbn; intros H; [now rewrite Z.eqb_refl|].
  apply not_elem_of_cons in H as [H1 H2]. replace (cs_socket d =? cs_socket c) with false by zb.
  f_equal. now apply IH.
Qed.

Lemma NoDup_map_drop {A B} (f : A -> B) l1 x l2 :
  NoDup (map f (l1 ++ x :: l2)) -> f x ∉ map f l1 /\ NoDup (map f (l1 ++ l2)).
Proof.
  rewrite !map_app. cbn. intros Hn. apply NoDup_app in Hn as (N1 & N2 & N3).
  apply NoDup_cons in N3 as [N3 N4]. split; [intros Hin; apply (N2 _ Hin); left|].
  apply NoDup_app. split; [done|]. split; [|done]. intros y Hy Hin. apply (N2 y Hy). now right.
Qed.

Lemma timeout_sessions_run capacity l seen w :
  conns_ok capacity (w_sched w) -> NoDup (sockets (sl_busy_queue (w_sched w))) ->
  w_sessions w = seen ++ l -> NoDup (map fst (seen ++ l)) -> NoDup (session_sockets (seen ++ l)) ->
  exists w', timeout_sessions l w = Some (tt, w') /\
    w_sessions w' = seen ++ List.filter (fun e => negb (session_expired (w_utime w) e)) l /\
    removed capacity w w' (List.filter (off (session_sockets (List.filter (session_expired (w_utime w)) l)))
                             (sl_busy_queue (w_sched w))).
Proof.
  revert seen w; induction l as [|[p c] l IH]; intros seen w Hok Hnd Hs Hids Hsock.
  { exists w. split; [done|]. split; [done|]. rewrite filter_all; [now apply removed_refl|].
    now apply Forall_forall. }
  cbn [timeout_sessions List.filter]. unfold get_cs. mrun.
  destruct (NoDup_map_drop _ _ _ _ Hids) as [Hp Hids']. destruct (NoDup_map_drop _ _ _ _ Hsock) as [Hso Hsock'].
  rewrite Hs, (assoc_split p c seen l Hp).
  change (_ && _) with (session_expired (w_utime w) (p, c)) at 1.
  destruct (session_expired (w_utime w) (p, c)); cbn [negb].
  - destruct (remove_client_off capacity (cs_socket c) w Hok Hnd) as (r & w1 & -> & Hs1 & R1).
    unfold mk_session_remove, mod_w. set (w2 := w1 <| w_sessions := _ |>).
    assert (R2 : removed capacity w w2 (List.filter (off [cs_socket c]) (sl_busy_queue (w_sched w)))).
    { destruct R1; split; assumption. }
    assert (Hs2 : w_sessions w2 = seen ++ l).
    { cbn. rewrite Hs1, Hs. now apply remove_session_split. }
    destruct (IH seen w2) as (w3 & H3 & Hs3 & R3); try done; [apply R2| |].
    { rewrite (rm_busy _ _ _ _ R2). now apply sockets_filter. }
    exists w3. split; [exact H3|]. pose proof (rm_utime _ _ _ _ R2) as Hu. rewrite Hu in Hs3, R3.
    split; [exact Hs3|]. rewrite (rm_busy _ _ _ _ R2), filter_filter_and in R3.
    rewrite (filter_ext_in' _ (off (session_sockets ((p, c) :: List.filter (session_expired (w_utime w)) l)))) in R3
      by (intros x; symmetry; apply off_cons).
    eapply removed_trans; [apply List.filter_length_le| |exact R2|exact R3].
    unfold session_sockets. cbn [map snd].
    rewrite (filter_ext_in' (off (_ :: _)) _ _ (off_cons _ _)), <- filter_filter_and. apply List.filter_length_le.
  - destruct (IH (seen ++ [(p, c)]) w) as (w2 & H2 & Hs2 & R2); rewrite <- ?app_assoc; try done.
    exists w2. split; [exact H2|]. split; [|exact R2]. now rewrite <- app_assoc in Hs2.
Qed.

(** [mk_sched_check_timeouts] always returns and removes exactly the
    expired: the connections still pending [timeout] seconds after they came,
    and the incomplete sessions past their (keep-alive) timeout with their
    connections. Everyone else keeps its place; the removed entries are
    available again and no longer count in the load. *)
Theorem mk_sched_check_timeouts_spec capacity w :
  let busy := sl_busy_queue (w_sched w) in
  let now := w_utime w in
  conns_ok capacity (w_sched w) -> NoDup (sockets busy) ->
  NoDup (map fst (w_sessions w)) -> NoDup (session_sockets (w_sessions w)) ->
  exists w', mk_sched_check_timeouts w = Some (0, w') /\
    w_sessions w' = List.filter (fun e => negb (session_expired now e)) (w_sessions w) /\
    sl_busy_queue (w_sched w') =
      List.filter (fun e => negb (conn_expired now e) &&
                            off (session_sockets (List.filter (session_expired now) (w_sessions w))) e) busy /\
    conns_ok capacity (w_sched w') /\
    load (w_sched w') = u64 (load (w_sched w) - Z.of_nat (length busy - length (sl_busy_queue (w_sched w')))).
Proof.
  intros busy now Hok Hnd Hids Hsock. unfold mk_sched_check_timeouts. mrun. fold busy.
  destruct (timeout_pending_run capacity busy [] w Hok eq_refl Hnd) as (w1 & -> & Hs1 & R1). cbn [app] in R1.
  pose proof (rm_utime _ _ _ _ R1) as Hu. fold now in Hu, R1. rewrite Hs1.
  destruct (timeout_sessions_run capacity (w_sessions w) [] w1) as (w2 & -> & Hs2 & R2); try done; [apply R1| |].
  { rewrite (rm_busy _ _ _ _ R1). now apply sockets_filter. }
  exists w2. split; [done|]. rewrite Hu in Hs2, R2. split; [exact Hs2|].
  rewrite (rm_busy _ _ _ _ R1), filter_filter_and in R2.
  assert (R : removed capacity w w2 (List.filter (fun e => negb (conn_expired now e) &&
     off (session_sockets (List.filter (session_expired now) (w_sessions w))) e) busy)).
  { eapply removed_trans; [apply List.filter_length_le| |exact R1|exact R2].
    rewrite <- filter_filter_and. apply List.filter_length_le. }
  destruct R as [A1 A2 A3 A4]. split; [exact A2|]. split; [exact A1|]. now rewrite A2.
Qed.

End Worker.

(** ** Witnesses *)

(** A plugin that refuses socket 66 and watches the ends of connections. *)
Definition gate_plugin : plugin :=
  {| pl_shortname := clit "gate"; pl_name := Some (clit "gate"); pl_version := Some (clit "1");
     pl_hooks := Z.lor MK_PLUGIN_STAGE_10 MK_PLUGIN_STAGE_50; pl_init := true; pl_exit := true;
     pl_s10 := Some (fun s _ => mret (if s =? 66 then MK_PLUGIN_RET_CLOSE_CONX else MK_PLUGIN_RET_CONTINUE));
     pl_s20 := None; pl_s30 := None; pl_s40 := None;
     pl_s50 := Some (fun s => emit (EvCork s 0);; mret MK_PLUGIN_RET_CONTINUE);
     pl_event_read := None; pl_event_write := None; pl_event_error := None;
     pl_event_close := None; pl_event_timeout := None |}.

Definition gate_env : Env := plugin_env [gate_plugin].

Lemma gate_quiet : @QuietPlugins gate_env.
Proof.
  split.
  - intros [|[|p]] pl f s c; cbn; try done. intros [= <-] [= <-]. apply keeps_ret.
  - intros [|[|p]] pl; cbn; try done. intros [= <-] _. eexists. split; [reflexivity|].
    intros s w. eexists _, _. split; reflexivity.
  - intros [|[|p]] pl f s; cbn; try done. intros [= <-]. done.
Qed.

Lemma _next_target_witness :
  let node a c := {| sl_accepted_connections := a; sl_closed_connections := c; sl_busy_queue := [];
                     sl_av_queue := []; sl_idx := 0; sl_epoll_fd := 4; sl_initialized := 1 |} in
  let l := [node 9 2; node 5 2; node 8 5] in
  exists i s, least_loaded l i s /\
    _next_target 10 l = Some (if 10 <=? load s then -1 else Z.of_nat i) /\
    (_next_target 10 l = Some (-1) <-> Forall (fun s => 10 <= load s) l).
Proof. intros node l. apply (_next_target_spec 10 l); done. Defined.

Definition fresh_worker : world := example_world <| w_sched := mk_sched_register_thread 10 0 4 |>.

(** Client 9 accepted and registered, client 66 accepted. *)
Definition accept_client (fd : Z) (w : world) : world :=
  match @mk_sched_add_client gate_env [w_sched w] fd w with
  | Some ((_, [s]), w1) => w1 <| w_sched := s |>
  | _ => w
  end.
Definition registered_client (fd : Z) (w : world) : world :=
  match @mk_sched_register_client gate_env fd w with Some (_, w1) => w1 | None => w end.
Definition busy_worker : world := accept_client 66 (registered_client 9 (accept_client 9 fresh_worker)).

(** Client 9 is registered before the main thread counts it: the load of the
    worker is then -1, an unsigned number. *)
Definition early_worker : world := registered_client 9 fresh_worker.

Lemma worker_queues_safe_witness :
  conns_ok 10 (w_sched early_worker) /\
  Z.of_nat (length (sl_busy_queue (w_sched early_worker)) + 0) <= active (w_sched early_worker) Added <= 10 /\
  ((0 < 0)%nat -> sl_av_queue (w_sched early_worker) <> []) /\
  load (w_sched early_worker) = u64 (active (w_sched early_worker) Added - 1).
Proof.
  apply (@worker_queues_safe gate_env gate_quiet fresh_worker 0 4 early_worker Added 0).
  - vm_compute. done.
  - reflexivity.
  - eapply rtc_l; [apply (@step_choose gate_env [w_sched fresh_worker] 0 fresh_worker 0); vm_compute; reflexivity|].
    eapply rtc_l; [eapply (@step_epoll gate_env 9 0 fresh_worker); vm_compute; reflexivity|].
    change (0 =? 0) with true. cbv iota.
    eapply rtc_l; [eapply (@step_register gate_env 9); vm_compute; reflexivity|].
    match goal with |- rtc _ (?x, _, _) (?y, _, _) => eapply rtc_l; [apply (@step_other gate_env x y); vm_compute; reflexivity|] end. apply rtc_refl.
Defined.

(** Between the call of epoll and the count the worker may register and close
    the connection: its load wraps around until the main thread counts. *)
Example load_wraps :
  match @mk_sched_remove_client gate_env 9 early_worker with
  | Some (_, w) => (load (w_sched w), active (w_sched w) Added)
  | None => (0, 0)
  end = (2 ^ 64 - 1, 0).
Proof. vm_compute. reflexivity. Qed.

Lemma busy_worker_ok : conns_ok 10 (w_sched busy_worker).
Proof.
  split; [|vm_compute; repeat constructor; done|vm_compute; repeat constructor; done].
  apply (bool_decide_unpack _). vm_compute. exact I.
Qed.

Lemma refused_client_witness :
  let w' := registered_client 66 busy_worker in
  w_sched w' = w_sched busy_worker /\ load (w_sched w') = load (w_sched busy_worker).
Proof.
  apply (@refused_client_stays_counted gate_env gate_quiet 10 66 busy_worker (registered_client 66 busy_worker));
    [apply busy_worker_ok|vm_compute; reflexivity|vm_compute; reflexivity].
Defined.

Lemma mk_sched_check_timeouts_witness :
  let w := busy_worker <| w_utime := 2000 |> in
  let busy := sl_busy_queue (w_sched w) in
  exists w', @mk_sched_check_timeouts gate_env w = Some (0, w') /\
    w_sessions w' = List.filter (fun e => negb (@session_expired gate_env 2000 e)) (w_sessions w) /\
    sl_busy_queue (w_sched w') =
      List.filter (fun e => negb (@conn_expired gate_env 2000 e) &&
        off (session_sockets (List.filter (@session_expired gate_env 2000) (w_sessions w))) e) busy /\
    conns_ok 10 (w_sched w') /\
    load (w_sched w') = u64 (load (w_sched w) - Z.of_nat (length busy - length (sl_busy_queue (w_sched w')))).
Proof.
  intros w busy. apply (@mk_sched_check_timeouts_spec gate_env gate_quiet 10 w);
    [apply busy_worker_ok|decide_closed|decide_closed|decide_closed].
Defined.
