(* ===== verification/MkConfig.v ===== *)
(** * mk_config.c: the configuration parser, the settings, the virtual hosts *)
From S2P Require Import Prelude CString MkString MkMemory MkUtils MkTypes.
Local Open Scope Z_scope.

(** ** The parser *)

Record mk_config_entry := { ce_key : bytes; ce_val : bytes }.
Record mk_config_section := { cs_name : bytes; cs_entries : list mk_config_entry }.
Definition mk_config : Type := list mk_config_section.

(** [mk_config_error] ends the process; the rest is the state of the loop of
    [mk_config_create]: the line buffer, [line], [indent], [n_keys], [current]
    (is there one?) and the sections. *)
Inductive cfg_error := Previous_section_without_keys | Bad_header | Invalid_indentation | Key_without_value | Section_without_keys.

Record cfg_state := {
  st_buf : bytes; st_line : Z; st_indent : option bytes; st_keys : Z; st_current : bool; st_conf : mk_config
}.
#[export] Instance eta_cfg_state : Eta cfg_state := fun r =>
  {| st_buf := st_buf r; st_line := st_line r; st_indent := st_indent r; st_keys := st_keys r;
     st_current := st_current r; st_conf := st_conf r |}.

(** What one line, or the file, gives. *)
Inductive cfg_result (A : Type) := CfgExit (line : Z) (e : cfg_error) | CfgOk (a : A).
Arguments CfgExit {A}. Arguments CfgOk {A}.

(** [mk_config_section_add] *)
Definition mk_config_section_add (conf : mk_config) (section_name : bytes) : option mk_config :=
  name ← mk_string_dup (Some section_name); name ← name;
  Some (conf ++ [ {| cs_name := name; cs_entries := [] |} ]).

(** An entry goes to the last section; without one the source uses the list
    head as a section: undefined. *)
Fixpoint mk_config_entry_add (conf : mk_config) (e : mk_config_entry) : option mk_config :=
  match conf with
  | [] => None
  | [s] => Some [ {| cs_name := cs_name s; cs_entries := cs_entries s ++ [e] |} ]
  | s :: conf => conf ← mk_config_entry_add conf e; Some (s :: conf)
  end.

(** [fgets(buf, 255, f)]: the characters it stores, up to a newline. *)
Fixpoint fgets (n : nat) (f : bytes) : bytes * bytes :=
  match n, f with
  | S n, c :: f => if c =? 10 then ([c], f) else let '(l, f) := fgets n f in (c :: l, f)
  | _, _ => ([], f)
  end.

(** [do { i++; } while (i < len && isblank(buf[i]))] *)
Fixpoint indent_end (fuel : nat) (buf : bytes) (len i : Z) : option Z :=
  match fuel with
  | O => None
  | S fuel =>
    let i := i + 1 in
    if i <? len then c ← buf !! Z.to_nat i; if isblank c then indent_end fuel buf len i else Some i
    else Some i
  end.

(** The end of line is cut off: [buf] and [len]. *)
Definition cut_newline (buf : bytes) (len : Z) : option (bytes * Z) :=
  c ← (if len - 1 <? 0 then None else buf !! Z.to_nat (len - 1));
  if c =? 10 then
    let len := len - 1 in
    let buf := <[Z.to_nat len := 0]> buf in
    if 0 <? len then
      d ← buf !! Z.to_nat (len - 1);
      if d =? 13 then let len := len - 1 in Some (<[Z.to_nat len := 0]> buf, len) else Some (buf, len)
    else Some (buf, len)
  else Some (buf, len).

(** A key line, after the indentation. *)
Definition config_key_line (st : cfg_state) (buf indent : bytes) (indent_len len : Z)
    : option (cfg_result cfg_state) :=
  cmp ← strncmp buf indent indent_len;
  b ← buf !! Z.to_nat indent_len;
  if negb (cmp =? 0) || isblank b then Some (CfgExit (st_line st) Invalid_indentation)
  else if (b =? 35) || (indent_len =? len) then Some (CfgOk st)
  else
    q ← padd buf indent_len;
    i ← mk_string_char_search q 32 (len - indent_len);
    key ← mk_string_copy_substr q 0 i;
    q' ← (if indent_len + i <? 0 then None else padd buf (indent_len + i));
    val ← mk_string_copy_substr q' 1 (len - indent_len);
    match key, val with
    | Some key, Some val =>
      if i <? 0 then Some (CfgExit (st_line st) Key_without_value) else
      '(_, key) ← mk_string_trim (Some key);
      '(_, val) ← mk_string_trim (Some val);
      key ← mk_string_dup key; val ← mk_string_dup val;
      key ← key; val ← val;
      conf ← mk_config_entry_add (st_conf st) {| ce_key := key; ce_val := val |};
      Some (CfgOk (st <| st_conf := conf |> <| st_keys := st_keys st + 1 |>))
    | _, _ => Some (CfgExit (st_line st) Key_without_value)
    end.

(** One iteration of the loop; the line read is in [st_buf]. *)
Definition config_line (st : cfg_state) : option (cfg_result cfg_state) :=
  len ← strlen (st_buf st);
  '(buf, len) ← cut_newline (st_buf st) len;
  let st := st <| st_buf := buf |> <| st_line := st_line st + 1 |> in
  c ← deref buf;
  if (c =? 0) || (c =? 35) then Some (CfgOk st)
  else if c =? 91 then
    end_ ← mk_string_char_search buf 93 len;
    if 0 <? end_ then
      if st_current st && (st_keys st =? 0) then Some (CfgExit (st_line st) Previous_section_without_keys)
      else
        section ← mk_string_copy_substr buf 1 end_; section ← section;
        conf ← mk_config_section_add (st_conf st) section;
        Some (CfgOk (st <| st_conf := conf |> <| st_current := true |> <| st_keys := 0 |>))
    else Some (CfgExit (st_line st) Bad_header)
  else
    match st_indent st with
    | Some indent => indent_len ← strlen indent; config_key_line st buf indent indent_len len
    | None =>
      i ← indent_end (length buf) buf len 0;
      indent ← mk_string_copy_substr buf 0 i; indent ← indent;
      indent_len ← strlen indent;
      let st := st <| st_indent := Some indent |> in
      if i =? len then Some (CfgOk st) else config_key_line st buf indent indent_len len
    end.

(** The loop; every call of [fgets] takes at least one byte of the file. *)
Fixpoint config_loop (fuel : nat) (st : cfg_state) (f : bytes) : option (cfg_result cfg_state) :=
  match fuel with
  | O => None
  | S fuel =>
    match f with
    | [] => Some (CfgOk st)
    | _ =>
      let '(l, f) := fgets 254 f in
      let buf := l ++ [0] ++ drop (S (length l)) (st_buf st) in
      r ← config_line (st <| st_buf := buf |>);
      match r with CfgExit n e => Some (CfgExit n e) | CfgOk st => config_loop fuel st f end
    end
  end.

Section WithEnv.
Context `{env : Env}.

(** [mk_config_create], on the contents of the file; a file that cannot be
    opened gives NULL. *)
Definition mk_config_create (file : option bytes) : option (option (cfg_result mk_config)) :=
  match file with
  | None => Some None
  | Some f =>
    let st := {| st_buf := imap (fun i _ => sys_junk i) (replicate 255 0); st_line := 0; st_indent := None;
                 st_keys := 0; st_current := false; st_conf := [] |} in
    r ← config_loop (S (length f)) st f;
    Some (Some (match r with
                | CfgExit n e => CfgExit n e
                | CfgOk st => if st_keys st =? 0 then CfgExit (st_line st) Section_without_keys
                              else CfgOk (st_conf st)
                end))
  end.

End WithEnv.

(** ** Looking values up *)

Fixpoint mk_config_section_get (conf : mk_config) (section_name : bytes) : option (option mk_config_section) :=
  match conf with
  | [] => Some None
  | s :: conf =>
    c ← strcasecmp (cs_name s) section_name;
    if c =? 0 then Some (Some s) else mk_config_section_get conf section_name
  end.

Inductive cfg_mode := MK_CONFIG_VAL_STR | MK_CONFIG_VAL_NUM | MK_CONFIG_VAL_BOOL | MK_CONFIG_VAL_LIST.

(** The [void *] result: a fresh string, a list of words, or a number in a
    pointer; NULL, which a number reader takes for 0, when the key is missing. *)
Inductive cfg_val := VNull | VStr (s : bytes) | VNum (z : Z) | VList (l : list mk_string_line).

Fixpoint getval (entries : list mk_config_entry) (key : bytes) (mode : cfg_mode) : option cfg_val :=
  match entries with
  | [] => Some VNull
  | e :: entries =>
    c ← strcasecmp (ce_key e) key;
    if c =? 0 then
      match mode with
      | MK_CONFIG_VAL_STR => s ← mk_string_dup (Some (ce_val e)); s ← s; Some (VStr s)
      | MK_CONFIG_VAL_NUM => n ← atol (ce_val e); Some (VNum n)
      | MK_CONFIG_VAL_BOOL =>
        on ← strcasecmp (ce_val e) (clit "on");
        off ← strcasecmp (ce_val e) (clit "off");
        Some (VNum (if negb (on =? 0) && negb (off =? 0) then -1 else if 0 <=? on then MK_TRUE else MK_FALSE))
      | MK_CONFIG_VAL_LIST => l ← mk_string_split_line (Some (ce_val e)); l ← l; Some (VList l)
      end
    else getval entries key mode
  end.

Definition mk_config_section_getval (section : mk_config_section) (key : bytes) (mode : cfg_mode) : option cfg_val :=
  getval (cs_entries section) key mode.

Definition val_str (v : cfg_val) : option bytes := match v with VStr s => Some s | _ => None end.
Definition val_num (v : cfg_val) : Z := match v with VNum z => z | _ => 0 end.
Definition val_list (v : cfg_val) : option (list mk_string_line) := match v with VList l => Some l | _ => None end.

(** ** mk_config_read_files *)

(** [mk_server_worker_capacity] (mk_server.c), given [RLIMIT_NOFILE]. *)
Definition mk_server_worker_capacity (rlim_cur nworkers : Z) : Z :=
  let max := u32 rlim_cur in
  let avl := u32 (max - (3 + 1 + u16 nworkers + 1 + 2)) in
  avl / 2 / u16 nworkers.

(** The settings the function stores in [config]. *)
Record server_settings := {
  ss_listen_addr : bytes; ss_serverport : Z; ss_workers : Z; ss_worker_capacity : Z; ss_max_load : Z;
  ss_timeout : Z; ss_keep_alive : Z; ss_max_keep_alive_request : Z; ss_keep_alive_timeout : Z;
  ss_pid_file_path : option bytes; ss_user_dir : option bytes; ss_index_files : option (list mk_string_line);
  ss_hideversion : Z; ss_user : option bytes; ss_resume : Z; ss_max_request_size : Z; ss_symlink : Z;
  ss_transport_layer : option bytes; ss_default_mimetype : bytes
}.

Inductive settings_result := BadVariable (name : string) | Settings (s : server_settings).

(** The number in the pointer, as the type of the variable it is stored in. *)
Definition get_num (section : mk_config_section) (key : string) (mode : cfg_mode) : option Z :=
  v ← mk_config_section_getval section (clit key) mode; Some (val_num v).
Definition get_str (section : mk_config_section) (key : string) : option (option bytes) :=
  v ← mk_config_section_getval section (clit key) MK_CONFIG_VAL_STR; Some (val_str v).

Definition i8 (z : Z) : Z := (z + 2 ^ 7) mod 2 ^ 8 - 2 ^ 7.

(** [nprocs] is [sysconf(_SC_NPROCESSORS_ONLN)]; a NULL section is dereferenced. *)
Definition mk_config_read_files (section : option mk_config_section) (nprocs rlim_cur : Z)
    : option settings_result :=
  section ← section;
  listen_addr ← get_str section "Listen";
  let listen_addr := default (clit "0.0.0.0") listen_addr in
  serverport ← get_num section "Port" MK_CONFIG_VAL_NUM;
  let serverport := i32 serverport in
  if (serverport <=? 1) || (65535 <=? serverport) then Some (BadVariable "Port") else
  workers ← get_num section "Workers" MK_CONFIG_VAL_NUM;
  let workers := i16 workers in
  let workers := if workers <? 1 then i16 nprocs else workers in
  if workers <? 1 then Some (BadVariable "Workers") else
  let worker_capacity := mk_server_worker_capacity rlim_cur workers in
  let max_load := u32 (worker_capacity * workers) in
  timeout ← get_num section "Timeout" MK_CONFIG_VAL_NUM;
  let timeout := i32 timeout in
  if timeout <? 1 then Some (BadVariable "Timeout") else
  keep_alive ← get_num section "KeepAlive" MK_CONFIG_VAL_BOOL;
  let keep_alive := i8 keep_alive in
  if keep_alive =? MK_ERROR then Some (BadVariable "KeepAlive") else
  max_ka ← get_num section "MaxKeepAliveRequest" MK_CONFIG_VAL_NUM;
  let max_ka := i32 max_ka in
  if max_ka =? 0 then Some (BadVariable "MaxKeepAliveRequest") else
  ka_timeout ← get_num section "KeepAliveTimeout" MK_CONFIG_VAL_NUM;
  let ka_timeout := i32 ka_timeout in
  if ka_timeout =? 0 then Some (BadVariable "KeepAliveTimeout") else
  pid_file_path ← get_str section "PidFile";
  user_dir ← get_str section "UserDir";
  index_files ← mk_config_section_getval section (clit "Indexfile") MK_CONFIG_VAL_LIST;
  hideversion ← get_num section "HideVersion" MK_CONFIG_VAL_BOOL;
  let hideversion := i8 hideversion in
  if hideversion =? MK_ERROR then Some (BadVariable "HideVersion") else
  user ← get_str section "User";
  resume ← get_num section "Resume" MK_CONFIG_VAL_BOOL;
  let resume := i8 resume in
  if resume =? MK_ERROR then Some (BadVariable "Resume") else
  max_request_size ← get_num section "MaxRequestSize" MK_CONFIG_VAL_NUM;
  let max_request_size := i32 max_request_size in
  if max_request_size <=? 0 then Some (BadVariable "MaxRequestSize") else
  if 2 ^ 31 <=? max_request_size * 1024 then None else
  symlink ← get_num section "SymLink" MK_CONFIG_VAL_BOOL;
  let symlink := i8 symlink in
  if symlink =? MK_ERROR then Some (BadVariable "SymLink") else
  transport_layer ← get_str section "TransportLayer";
  tmp ← get_str section "DefaultMimeType";
  default_mimetype ← (match tmp with
                      | None => Some (lit "text/plain" ++ [13; 10; 0])
                      | Some t => s ← cstr t; '(b, _) ← mk_string_build (s ++ [13; 10]); Some b
                      end);
  Some (Settings {|
    ss_listen_addr := listen_addr; ss_serverport := serverport; ss_workers := workers;
    ss_worker_capacity := worker_capacity; ss_max_load := max_load; ss_timeout := timeout;
    ss_keep_alive := keep_alive; ss_max_keep_alive_request := max_ka;
    ss_keep_alive_timeout := ka_timeout; ss_pid_file_path := pid_file_path; ss_user_dir := user_dir;
    ss_index_files := val_list index_files; ss_hideversion := hideversion; ss_user := user;
    ss_resume := resume; ss_max_request_size := max_request_size * 1024; ss_symlink := symlink;
    ss_transport_layer := transport_layer; ss_default_mimetype := default_mimetype |}).

(** ** Virtual hosts *)

Definition MK_HOSTNAME_LEN : Z := 64.

(** The aliases: words of Servername that are not too long, in lower case. *)
Fixpoint host_names (l : list mk_string_line) : option (list host_alias) :=
  match l with
  | [] => Some []
  | entry :: l =>
    if MK_HOSTNAME_LEN - 1 <? sl_len entry then host_names l
    else
      val ← sl_val entry;
      host_low ← mk_string_tolower val;
      name ← strncpy host_low (Z.to_nat (sl_len entry));
      rest ← host_names l;
      Some ({| ha_name := name ++ [0]; ha_len := u32 (sl_len entry) |} :: rest)
  end.

Fixpoint host_error_pages (documentroot : bytes) (entries : list mk_config_entry) : option (list error_page) :=
  match entries with
  | [] => Some []
  | e :: entries =>
    ep_status ← atoi (ce_key e);
    if (ep_status <? 400) || (505 <? ep_status) then host_error_pages documentroot entries
    else
      file ← mk_string_dup (Some (ce_val e)); file ← file;
      d ← cstr documentroot; f ← cstr file;
      '(real_path, _) ← mk_string_build (d ++ [47] ++ f);
      rest ← host_error_pages documentroot entries;
      Some ({| ep_status := ep_status; ep_file := file; ep_real_path := real_path |} :: rest)
  end.

Inductive host_result := NoHost | MissingServername | HostRead (h : host).

(** The host a parsed file defines; [version] is the VERSION the build
    configures. A NULL configuration or document root is dereferenced. *)
Definition mk_config_get_host (path : bytes) (cnf : option mk_config) (hideversion : Z) (version : bytes)
    : option host_result :=
  cnf ← cnf;
  section_host ← mk_config_section_get cnf (clit "HOST");
  match section_host with
  | None => Some NoHost
  | Some section_host =>
    file ← mk_string_dup (Some path); file ← file;
    names ← mk_config_section_getval section_host (clit "Servername") MK_CONFIG_VAL_LIST;
    match val_list names with
    | None => Some MissingServername
    | Some names =>
      server_names ← host_names names;
      root ← get_str section_host "DocumentRoot"; root ← root;
      root_len ← strlen root;
      match server_names with
      | [] => Some NoHost
      | _ =>
        section_ep ← mk_config_section_get cnf (clit "ERROR_PAGES");
        error_pages ← (match section_ep with
                       | Some s => host_error_pages root (cs_entries s)
                       | None => Some []
                       end);
        let sign := if hideversion =? MK_FALSE then lit "Monkey/" ++ version else lit "Monkey" in
        '(signature, _) ← mk_string_build sign;
        '(hh, hh_len) ← mk_string_build (lit "Server: " ++ sign);
        Some (HostRead {| h_file := file; h_server_names := server_names;
                          h_documentroot := {| data := Some root; len := root_len |};
                          h_host_signature := signature;
                          h_header_host_signature := {| data := Some hh; len := hh_len |};
                          h_error_pages := error_pages |})
      end
    end
  end.

(** The files of sites/, in the order of [readdir]: names and parsed contents. *)
Fixpoint read_sites (path : bytes) (hideversion : Z) (version : bytes) (ents : list (bytes * option mk_config))
    : option (option (list host)) :=
  match ents with
  | [] => Some (Some [])
  | (name, cnf) :: ents =>
    dot ← strcmp name (clit "."); dotdot ← strcmp name (clit ".."); def ← strcasecmp name (clit "default");
    if (dot =? 0) || (dotdot =? 0) || (def =? 0) then read_sites path hideversion version ents
    else
      p ← cstr path; n ← cstr name;
      '(file, _) ← mk_string_build (p ++ lit "/sites/" ++ n);
      h ← mk_config_get_host file cnf hideversion version;
      match h with
      | MissingServername => Some None
      | NoHost => read_sites path hideversion version ents
      | HostRead h => rest ← read_sites path hideversion version ents; Some (option_map (cons h) rest)
      end
  end.

(** [config->hosts]; inner [None] is an exit. A default host that cannot be
    read is dereferenced all the same. *)
Definition mk_config_read_hosts (path : bytes) (hideversion : Z) (version : bytes) (dflt : option mk_config)
    (ents : list (bytes * option mk_config)) : option (option (list host)) :=
  p ← cstr path;
  '(buf, _) ← mk_string_build (p ++ lit "/sites/default");
  h ← mk_config_get_host buf dflt hideversion version;
  match h with
  | NoHost => None
  | MissingServername => Some None
  | HostRead h => rest ← read_sites path hideversion version ents; Some (option_map (cons h) rest)
  end.

(** [mk_config_host_find]: the position of the host and the alias. *)
Fixpoint alias_find (name : mk_pointer) (l : list host_alias) : option (option host_alias) :=
  match l with
  | [] => Some None
  | a :: l =>
    if ha_len a =? len name then
      d ← data name;
      c ← strncmp (ha_name a) d (len name);
      if c =? 0 then Some (Some a) else alias_find name l
    else alias_find name l
  end.

Fixpoint hosts_find (name : mk_pointer) (i : nat) (hosts : list host) : option (option (nat * host_alias)) :=
  match hosts with
  | [] => Some None
  | h :: hosts =>
    r ← alias_find name (h_server_names h);
    match r with Some a => Some (Some (i, a)) | None => hosts_find name (S i) hosts end
  end.

Definition mk_config_host_find (hosts : list host) (name : mk_pointer) : option (option (nat * host_alias)) :=
  hosts_find name 0 hosts.

(** ** What is printed is read back *)

(** A configuration as text: section names with their keys and values. *)
Definition config_text : Type := list (bytes * list (bytes * bytes)).

Definition entry_line (indent : bytes) (e : bytes * bytes) : bytes := indent ++ e.1 ++ 32 :: e.2.
Definition section_line (name : bytes) : bytes := 91 :: name ++ [93].

Definition render_section (indent : bytes) (s : bytes * list (bytes * bytes)) : bytes :=
  section_line s.1 ++ [10] ++ concat (map (fun e => entry_line indent e ++ [10]) s.2).
Definition render (indent : bytes) (c : config_text) : bytes := concat (map (render_section indent) c).

(** The parsed form. *)
Definition stored_entry (e : bytes * bytes) : mk_config_entry := {| ce_key := e.1 ++ [0]; ce_val := e.2 ++ [0] |}.
Definition stored_section (s : bytes * list (bytes * bytes)) : mk_config_section :=
  {| cs_name := s.1 ++ [0]; cs_entries := map stored_entry s.2 |}.

(** No NUL, no newline. *)
Definition one_line (s : bytes) : Prop := 0 ∉ s /\ 10 ∉ s.

(** A key has no space and does not start like a comment; key and value have no
    space around. The copy of the value reads [length key] bytes too many
    ([buf + indent_len + i] up to [len - indent_len]), which must be in [buf]. *)
Record entry_ok (indent : bytes) (e : bytes * bytes) : Prop := {
  eo_key : one_line e.1; eo_val : one_line e.2; eo_nospace : 32 ∉ e.1;
  eo_first : exists c k, e.1 = c :: k /\ isblank c = false /\ c <> 35 /\ c <> 91;
  eo_trim_key : trimmed e.1 = e.1; eo_trim_val : trimmed e.2 = e.2; eo_val_nonempty : e.2 <> [];
  eo_length : (length (entry_line indent e) + length e.1 < 254)%nat;
}.
Record section_ok (indent : bytes) (s : bytes * list (bytes * bytes)) : Prop := {
  so_name : one_line s.1; so_bracket : 93 ∉ s.1; so_length : (length (section_line s.1) < 254)%nat;
  so_keys : s.2 <> []; so_entries : Forall (entry_ok indent) s.2;
}.
Record indent_ok (indent : bytes) : Prop := {
  io_nonempty : indent <> []; io_blank : Forall (fun c => isblank c = true) indent;
}.

Lemma fgets_line n l rest :
  10 ∉ l -> (length l < n)%nat -> fgets n (l ++ 10 :: rest) = (l ++ [10], rest).
Proof.
  revert n; induction l as [|c l IH]; intros n Hl Hn; (destruct n as [|n]; [cbn in Hn; lia|]); [done|].
  apply not_elem_of_cons in Hl as [Hc Hl]. cbn. replace (c =? 10) with false by zb.
  rewrite IH; [done|done|cbn in Hn; lia].
Qed.

Lemma cut_newline_spec l c r :
  c <> 13 ->
  cut_newline ((l ++ [c]) ++ 10 :: 0 :: r) (Z.of_nat (length (l ++ [c])) + 1) =
  Some ((l ++ [c]) ++ 0 :: 0 :: r, Z.of_nat (length (l ++ [c]))).
Proof.
  intros Hc. unfold cut_newline. set (b := l ++ [c]).
  assert (Hb : length b = S (length l)) by (unfold b; rewrite length_app; cbn; lia).
  replace (_ - 1 <? 0) with false by zb.
  replace (Z.of_nat (length b) + 1 - 1) with (Z.of_nat (length b)) by lia. rewrite Nat2Z.id.
  rewrite lookup_app_r, Nat.sub_diag by lia. change ((10 :: 0 :: r) !! 0%nat) with (Some 10). mstep.
  change (10 =? 10) with true. cbv iota.
  rewrite insert_app_r_alt, Nat.sub_diag by lia. cbn [insert list_insert].
  replace (0 <? Z.of_nat (length b)) with true by zb.
  replace (Z.to_nat (Z.of_nat (length b) - 1)) with (length l) by lia.
  rewrite lookup_app_l by lia. unfold b. rewrite lookup_app_r, Nat.sub_diag by lia.
  change ([c] !! 0%nat) with (Some c). mstep. now replace (c =? 13) with false by zb.
Qed.

Lemma first_index_at l c r : c ∉ l -> first_index (l ++ c :: r) c = Some (Z.of_nat (length l)).
Proof.
  induction l as [|d l IH]; cbn; intros H; [now rewrite Z.eqb_refl|].
  apply not_elem_of_cons in H as [H1 H2]. replace (d =? c) with false by zb.
  rewrite (IH H2). cbn. f_equal. lia.
Qed.

(** Searching and copying, given how the buffer splits. *)
Lemma char_search_at l c r len :
  c ∉ l -> Z.of_nat (length l) < len <= Z.of_nat (length (l ++ c :: r)) ->
  mk_string_char_search (l ++ c :: r) c len = Some (Z.of_nat (length l)).
Proof.
  intros Hc Hlen. rewrite mk_string_char_search_spec by lia.
  replace (Z.to_nat len) with (length l + S (Z.to_nat len - S (length l)))%nat by lia.
  rewrite take_app_add' by done. cbn [take]. rewrite first_index_at by done. done.
Qed.

Lemma copy_substr_at a l r i e :
  i = Z.of_nat (length a) -> e = Z.of_nat (length a + length l) ->
  mk_string_copy_substr (a ++ l ++ r) i e = Some (Some (l ++ [0])).
Proof.
  intros -> ->. rewrite copy_substr_take by (rewrite ?length_app; lia).
  rewrite Nat2Z.id, drop_app_length. replace (Z.to_nat _) with (length l) by lia. now rewrite take_app_length.
Qed.

Lemma dup_text s r : 0 ∉ s -> mk_string_dup (Some (s ++ 0 :: r)) = Some (Some (s ++ [0])).
Proof. intros H. cbn. now rewrite (cstr_cstr _ s) by (split; [by exists r|done]). Qed.

Lemma trim_text s r :
  0 ∉ s -> s <> [] -> trimmed s = s ->
  exists r', mk_string_trim (Some (s ++ 0 :: r)) = Some (0, Some (s ++ 0 :: r')).
Proof.
  intros H0 Hne Ht. destruct (dropspace s) as [|c w] eqn:E.
  - apply trimmed_nil in E. congruence.
  - eexists. rewrite (mk_string_trim_nonblank s r c w E H0), Ht. done.
Qed.

Lemma entry_add_last conf s e :
  mk_config_entry_add (conf ++ [s]) e = Some (conf ++ [ {| cs_name := cs_name s; cs_entries := cs_entries s ++ [e] |} ]).
Proof.
  induction conf as [|s' conf IH]; [done|]. cbn [app mk_config_entry_add]. rewrite IH.
  destruct (conf ++ [s]) eqn:E; [now destruct conf|]. done.
Qed.

(** *** One line *)

Lemma last_not_cr v : trimmed v = v -> v <> [] -> exists w d, v = w ++ [d] /\ d <> 13.
Proof.
  intros Ht Hne. destruct (dropspace v) as [|c w] eqn:E; [apply trimmed_nil in E; congruence|].
  destruct (dropspace_decompose v c w E) as (t & d & sp & H1 & H2 & _). exists t, d.
  split; [congruence|]. intros ->. done.
Qed.

Lemma section_line_run st name r :
  one_line name -> 93 ∉ name -> st_buf st = section_line name ++ 10 :: 0 :: r ->
  (st_current st = true -> st_keys st <> 0) ->
  exists buf', length buf' = length (st_buf st) /\
  config_line st = Some (CfgOk (st <| st_buf := buf' |> <| st_line := st_line st + 1 |>
     <| st_conf := st_conf st ++ [stored_section (name, [])] |> <| st_current := true |> <| st_keys := 0 |>)).
Proof.
  intros [H0 H10] H93 Hb Hcur. exists (section_line name ++ 0 :: 0 :: r).
  split; [rewrite Hb, !length_app; done|]. unfold config_line. rewrite Hb.
  set (len := Z.of_nat (length (section_line name))).
  assert (Hlen : len = Z.of_nat (length name) + 2) by (unfold len; cbn; rewrite length_app; cbn; lia).
  rewrite (strlen_cstr _ (section_line name ++ [10])); cycle 1.
  { split; [exists r; now rewrite <- app_assoc|]. unfold section_line. cbn. rewrite <- app_assoc.
    rewrite not_elem_of_cons, not_elem_of_app. split; [done|]. split; [done|].
    intros Hin. repeat (apply elem_of_cons in Hin as [?|Hin]; [done|]). now apply elem_of_nil in Hin. }
  mstep. rewrite length_app. cbn [length]. rewrite Nat2Z.inj_add. fold len.
  pose proof (cut_newline_spec (91 :: name) 93 r ltac:(done)) as Hcut. fold (section_line name) in Hcut.
  change ((91 :: name) ++ [93]) with (section_line name) in Hcut. fold len in Hcut.
  change (Z.of_nat 1) with 1. rewrite Hcut. mstep.
  change (deref (section_line name ++ 0 :: 0 :: r)) with (Some 91). mstep.
  change ((91 =? 0) || (91 =? 35)) with false. change (91 =? 91) with true. cbv iota.
  replace (section_line name ++ 0 :: 0 :: r) with ((91 :: name) ++ 93 :: 0 :: 0 :: r)
    by (unfold section_line; cbn; now rewrite <- app_assoc).
  rewrite (char_search_at (91 :: name) 93); [|now apply not_elem_of_cons|rewrite length_app; cbn [length]; lia].
  mstep. replace (0 <? _) with true by (cbn [length]; zb). cbn [set_field st_current st_keys st_conf st_line].
  replace (st_current st && (st_keys st =? 0)) with false
    by (destruct (st_current st); [symmetry; apply Z.eqb_neq; now apply Hcur|done]).
  rewrite (copy_substr_at [91] name (93 :: 0 :: 0 :: r)) by (cbn [length]; lia). mstep.
  unfold mk_config_section_add. rewrite dup_text by done. mstep. done.
Qed.

Lemma indent_end_spec indent c r fuel len i :
  Forall (fun c => isblank c = true) indent -> isblank c = false -> (0 < i <= length indent)%nat ->
  Z.of_nat (length indent) < len -> (length indent < fuel + i)%nat ->
  indent_end fuel (indent ++ c :: r) len (Z.of_nat i - 1) = Some (Z.of_nat (length indent)).
Proof.
  intros Hi Hc. revert i; induction fuel as [|fuel IH]; intros i Hr Hl Hf; [lia|].
  cbn [indent_end]. replace (Z.of_nat i - 1 + 1) with (Z.of_nat i) by lia.
  replace (Z.of_nat i <? len) with true by zb. rewrite Nat2Z.id.
  destruct (decide (i = length indent)) as [->|].
  - rewrite lookup_app_r, Nat.sub_diag by lia. change ((c :: r) !! 0%nat) with (Some c). mstep. now rewrite Hc.
  - destruct (lookup_lt_is_Some_2 indent i) as [x Hx]; [lia|]. rewrite lookup_app_l, Hx by lia. mstep.
    rewrite (Forall_lookup_1 _ _ _ _ Hi Hx). replace (Z.of_nat i) with (Z.of_nat (S i) - 1) by lia.
    apply IH; lia.
Qed.

Lemma config_key_line_run st indent e conf s r :
  indent_ok indent -> 0 ∉ indent -> entry_ok indent e -> (length e.1 <= S (length r))%nat ->
  st_conf st = conf ++ [s] ->
  config_key_line st (entry_line indent e ++ 0 :: 0 :: r) (indent ++ [0]) (Z.of_nat (length indent))
    (Z.of_nat (length (entry_line indent e))) =
  Some (CfgOk (st <| st_conf := conf ++ [ {| cs_name := cs_name s; cs_entries := cs_entries s ++ [stored_entry e] |} ] |>
                  <| st_keys := st_keys st + 1 |>)).
Proof.
  intros [Hne Hbl] Hi0 [[Hk0 _] [Hv0 _] Hsp (c & k & Hk & Hcb & Hc35 & _) Htk Htv Hvne _] Hr Hconf.
  destruct e as [key val]. cbn [fst snd] in *. unfold config_key_line.
  assert (Hbuf : entry_line indent (key, val) ++ 0 :: 0 :: r = indent ++ key ++ 32 :: val ++ 0 :: 0 :: r)
    by (unfold entry_line; cbn; rewrite <- !app_assoc; done).
  assert (Hlen : length (entry_line indent (key, val)) = (length indent + length key + 1 + length val)%nat)
    by (unfold entry_line; rewrite !length_app; cbn; lia).
  assert (Hkl : (0 < length key)%nat) by (rewrite Hk; cbn; lia).
  destruct (strncmp_spec (entry_line indent (key, val) ++ 0 :: 0 :: r)
    (indent ++ key ++ 32 :: val) indent [0]) as (v & -> & Hv); [|done|].
  { rewrite Hbuf. split; [exists (0 :: r); now rewrite <- !app_assoc|].
    rewrite !not_elem_of_app, not_elem_of_cons. done. }
  rewrite take_app_length in Hv. mstep. rewrite (proj2 Hv eq_refl), Hbuf, Nat2Z.id, Hlen.
  rewrite lookup_app_r, Nat.sub_diag, Hk by lia. change ((_ ++ _) !! 0%nat) with (Some c). rewrite <- Hk. mstep.
  rewrite Hcb. replace (c =? 35) with false by zb.
  replace (Z.of_nat (length indent) =? _) with false by zb. cbn [negb orb Z.eqb].
  rewrite padd_drop by (rewrite length_app; lia). rewrite Nat2Z.id, drop_app_length. mstep.
  rewrite char_search_at; [|done|rewrite length_app; cbn; rewrite length_app; cbn; lia]. mstep.
  assert (Hcopy := copy_substr_at [] key (32 :: val ++ 0 :: 0 :: r) 0 (Z.of_nat (length key)) eq_refl eq_refl).
  cbn [app] in Hcopy. rewrite Hcopy. mstep.
  replace (_ + _ <? 0) with false by zb.
  rewrite padd_drop by (rewrite !length_app; lia).
  replace (Z.to_nat _) with (length indent + length key)%nat by lia.
  rewrite drop_app_add', drop_app_length by done. mstep.
  rewrite copy_substr_take by (cbn; rewrite ?length_app; cbn; lia). mstep.
  replace (_ <? 0) with false by zb.
  replace (Z.to_nat (_ - 1)) with (length val + length key)%nat by lia.
  change (drop (Z.to_nat 1) (32 :: val ++ 0 :: 0 :: r)) with (val ++ 0 :: 0 :: r).
  rewrite take_app_add' by done. replace (length key) with (S (length k)) by (rewrite Hk; done). cbn [take].
  destruct (trim_text key []) as [r1 H1]; [done|destruct key; done|done|]. rewrite H1. mstep.
  rewrite <- app_assoc. cbn [app].
  destruct (trim_text val (take (length k) (0 :: r) ++ [0])) as [r2 H2]; [done..|]. rewrite H2. mstep.
  rewrite !dup_text by done. mstep. rewrite Hconf, entry_add_last. done.
Qed.

Lemma entry_line_run st indent e conf s r :
  indent_ok indent -> entry_ok indent e -> st_buf st = entry_line indent e ++ 10 :: 0 :: r ->
  length (st_buf st) = 255%nat -> st_conf st = conf ++ [s] ->
  (st_indent st = None \/ st_indent st = Some (indent ++ [0])) ->
  exists buf', length buf' = 255%nat /\
  config_line st = Some (CfgOk (st <| st_buf := buf' |> <| st_line := st_line st + 1 |>
    <| st_indent := Some (indent ++ [0]) |>
    <| st_conf := conf ++ [ {| cs_name := cs_name s; cs_entries := cs_entries s ++ [stored_entry e] |} ] |>
    <| st_keys := st_keys st + 1 |>)).
Proof.
  intros Hi He Hb Hlb Hconf Hind. pose proof Hi as [Hne Hbl]. pose proof He as
    [[Hk0 Hk10] [Hv0 Hv10] Hsp (c & k & Hk & Hcb & Hc35 & Hc91) Htk Htv Hvne Hlen].
  exists (entry_line indent e ++ 0 :: 0 :: r). rewrite Hb, length_app in Hlb. cbn in Hlb.
  split; [rewrite length_app; cbn; lia|].
  assert (Hi0 : 0 ∉ indent) by (intros Hin; rewrite Forall_forall in Hbl; now apply Hbl in Hin).
  destruct (last_not_cr _ Htv Hvne) as (w & d & Hwd & Hd).
  assert (Hline : entry_line indent e = (indent ++ e.1 ++ 32 :: w) ++ [d])
    by (unfold entry_line; rewrite Hwd, <- !app_assoc; done).
  assert (H0 : 0 ∉ entry_line indent e)
    by (unfold entry_line; rewrite !not_elem_of_app, not_elem_of_cons; done).
  destruct indent as [|i0 indent']; [done|]. set (indent := i0 :: indent') in *.
  assert (Hi0b : isblank i0 = true) by (apply (Forall_lookup_1 _ _ 0%nat i0 Hbl); done).
  unfold config_line. rewrite Hb.
  rewrite (strlen_cstr _ (entry_line indent e ++ [10])); cycle 1.
  { split; [exists r; now rewrite <- app_assoc|]. rewrite not_elem_of_app, list_elem_of_singleton. done. }
  mstep. rewrite length_app, Nat2Z.inj_add. change (Z.of_nat (length [10])) with 1.
  pose proof (cut_newline_spec (indent ++ e.1 ++ 32 :: w) d r Hd) as Hcut. rewrite <- Hline in Hcut.
  rewrite Hcut. mstep. change (deref (entry_line indent e ++ 0 :: 0 :: r)) with (Some i0). mstep.
  replace ((i0 =? 0) || (i0 =? 35)) with false by (destruct (Z.eqb_spec i0 0), (Z.eqb_spec i0 35); subst; done).
  replace (i0 =? 91) with false by (destruct (Z.eqb_spec i0 91); subst; done).
  cbn [set_field st_indent st_buf st_line st_conf st_keys st_current].
  assert (Hkr : (length e.1 <= S (length r))%nat) by lia.
  set (st0 := st <| st_buf := entry_line indent e ++ 0 :: 0 :: r |> <| st_line := st_line st + 1 |>
                 <| st_indent := Some (indent ++ [0]) |>).
  pose proof (config_key_line_run st0 indent e conf s r Hi Hi0 He Hkr Hconf) as Hrun.
  assert (Hsl : strlen (indent ++ [0]) = Some (Z.of_nat (length indent)))
    by (apply strlen_cstr; split; [by exists []|done]).
  destruct Hind as [Hnone|Hsome].
  - rewrite Hnone. assert (Hbuf : entry_line indent e ++ 0 :: 0 :: r = indent ++ c :: k ++ 32 :: e.2 ++ 0 :: 0 :: r)
      by (unfold entry_line; rewrite Hk, <- !app_assoc; done).
    assert (Hll : (length indent < length (entry_line indent e))%nat)
      by (unfold entry_line; rewrite !length_app, Hk; cbn; lia).
    assert (Hend : indent_end (length (entry_line indent e ++ 0 :: 0 :: r)) (entry_line indent e ++ 0 :: 0 :: r)
              (Z.of_nat (length (entry_line indent e))) 0 = Some (Z.of_nat (length indent))).
    { rewrite Hbuf at 2. apply (indent_end_spec indent c _ _ _ 1); try done; try lia; [cbn; lia|].
      rewrite length_app. lia. }
    rewrite Hend. mstep. rewrite Hbuf at 1.
    pose proof (copy_substr_at [] indent (c :: k ++ 32 :: e.2 ++ 0 :: 0 :: r) 0 (Z.of_nat (length indent)) eq_refl eq_refl)
      as Hcopy. cbn [app] in Hcopy. rewrite Hcopy. mstep. rewrite Hsl. mstep.
    replace (Z.of_nat (length indent) =? _) with false by zb. exact Hrun.
  - rewrite Hsome. rewrite Hsl. mstep.
    match goal with |- config_key_line ?x _ _ _ _ = _ => replace x with st0; [exact Hrun|] end.
    unfold st0. destruct st. cbn in *. congruence.
Qed.

(** *** The file *)

Section RoundTrip.
Variable indent : bytes.
Hypothesis Hindent : indent_ok indent.

Lemma config_loop_line fuel st l rest :
  10 ∉ l -> (length l < 254)%nat ->
  config_loop (S fuel) st (l ++ 10 :: rest) =
  r ← config_line (st <| st_buf := (l ++ [10]) ++ [0] ++ drop (S (length (l ++ [10]))) (st_buf st) |>);
  match r with CfgExit n e => Some (CfgExit n e) | CfgOk st => config_loop fuel st rest end.
Proof.
  intros Hl Hn. cbn [config_loop]. rewrite (fgets_line 254 l rest Hl Hn).
  destruct (l ++ 10 :: rest) eqn:E; [now destruct l|]. done.
Qed.

Lemma fill_length (l : bytes) (buf : bytes) :
  (length l < 254)%nat -> length buf = 255%nat ->
  length ((l ++ [10]) ++ [0] ++ drop (S (length (l ++ [10]))) buf) = 255%nat.
Proof. intros H1 H2. rewrite !length_app, length_drop, ?length_app. cbn. lia. Qed.

Lemma one_line_entry e : indent_ok indent -> entry_ok indent e -> 10 ∉ entry_line indent e.
Proof.
  intros [_ Hbl] [[_ H1] [_ H2] _ _ _ _ _ _]. unfold entry_line.
  rewrite !not_elem_of_app, not_elem_of_cons. split_and!; try done.
  intros Hin. rewrite Forall_forall in Hbl. now apply Hbl in Hin.
Qed.

(** The state of the loop, after the sections [done] and the start of another. *)
Record loop_at (st : cfg_state) (conf : mk_config) (keys : Z) : Prop := {
  la_buf : length (st_buf st) = 255%nat;
  la_indent : st_indent st = None \/ st_indent st = Some (indent ++ [0]);
  la_conf : st_conf st = conf;
  la_keys : st_keys st = keys;
}.

Lemma config_entries_run es st conf s rest :
  Forall (entry_ok indent) es -> loop_at st (conf ++ [s]) (st_keys st) ->
  exists st', (forall fuel,
      config_loop (length es + fuel) st (concat (map (fun e => entry_line indent e ++ [10]) es) ++ rest) =
      config_loop fuel st' rest) /\
    loop_at st' (conf ++ [ {| cs_name := cs_name s; cs_entries := cs_entries s ++ map stored_entry es |} ])
      (st_keys st + Z.of_nat (length es)).
Proof.
  revert st s; induction es as [|e es IH]; intros st s Hes [H1 H2 H3 _].
  { exists st. cbn. split; [done|]. split; try done; [|lia]. rewrite app_nil_r, H3. now destruct s. }
  apply Forall_cons in Hes as [He Hes].
  assert (Hl : (length (entry_line indent e) < 254)%nat) by (destruct He; lia).
  set (st1 := st <| st_buf := (entry_line indent e ++ [10]) ++ [0] ++
                        drop (S (length (entry_line indent e ++ [10]))) (st_buf st) |>).
  destruct (entry_line_run st1 indent e conf s (drop (S (length (entry_line indent e ++ [10]))) (st_buf st)))
    as (buf' & Hbuf & Hline); try done; [unfold st1; cbn; now rewrite <- !app_assoc|now apply fill_length|].
  set (st2 := st1 <| st_buf := buf' |> <| st_line := _ |> <| st_indent := _ |> <| st_conf := _ |> <| st_keys := _ |>)
    in Hline.
  destruct (IH st2 {| cs_name := cs_name s; cs_entries := cs_entries s ++ [stored_entry e] |} Hes) as (st' & Hrun & Hat).
  { split; try done. now right. }
  exists st'. split.
  - intros fuel. cbn [map concat length]. rewrite <- !app_assoc. cbn [app Nat.add].
    rewrite config_loop_line by (auto using one_line_entry). fold st1. rewrite Hline. apply Hrun.
  - destruct Hat as [A1 A2 A3 A4]. split; try done.
    + rewrite A3. cbn. now rewrite <- app_assoc.
    + rewrite A4. cbn. lia.
Qed.

Lemma config_section_run name es st conf keys rest :
  section_ok indent (name, es) -> loop_at st conf keys -> (st_current st = true -> keys <> 0) ->
  exists st', (forall fuel, config_loop (S (length es) + fuel) st (render_section indent (name, es) ++ rest) =
                            config_loop fuel st' rest) /\
    loop_at st' (conf ++ [stored_section (name, es)]) (Z.of_nat (length es)).
Proof.
  intros [Hn Hbr Hlen _ Hes] [H1 H2 H3 H4] Hcur. cbn [fst snd] in *.
  assert (H10 : 10 ∉ section_line name).
  { destruct Hn as [_ Hn]. unfold section_line. rewrite not_elem_of_cons, not_elem_of_app, list_elem_of_singleton. done. }
  set (st1 := st <| st_buf := (section_line name ++ [10]) ++ [0] ++ drop (S (length (section_line name ++ [10]))) (st_buf st) |>).
  destruct (section_line_run st1 name (drop (S (length (section_line name ++ [10]))) (st_buf st)))
    as (buf' & Hbuf & Hline); try done; [unfold st1; cbn [set_field st_buf]; now rewrite <- !app_assoc| |].
  { intros Hx. change (st_keys st1) with (st_keys st). rewrite H4. now apply Hcur. }
  set (st2 := st1 <| st_buf := buf' |> <| st_line := _ |> <| st_conf := _ |> <| st_current := _ |> <| st_keys := _ |>) in Hline.
  destruct (config_entries_run es st2 conf (stored_section (name, [])) rest Hes) as (st3 & Hrun & Hat3).
  { split; try done; [|cbn; now rewrite H3]. cbn. rewrite Hbuf. now apply fill_length. }
  exists st3. split; [|exact Hat3]. intros fuel. rewrite <- Hrun. unfold render_section. cbn [fst snd].
  rewrite <- !app_assoc. cbn [app Nat.add]. rewrite config_loop_line by done. fold st1. now rewrite Hline.
Qed.

Lemma render_section_length s : (S (length s.2) <= length (render_section indent s))%nat.
Proof.
  unfold render_section, section_line. rewrite length_app. cbn. rewrite length_app. cbn.
  induction s.2 as [|e es IH]; cbn; rewrite ?length_app in *; cbn in *; lia.
Qed.

Lemma config_sections_run (c : config_text) st conf keys rest :
  Forall (section_ok indent) c -> loop_at st conf keys -> (st_current st = true -> keys <> 0) ->
  exists n st', (forall fuel, config_loop (n + fuel) st (render indent c ++ rest) = config_loop fuel st' rest) /\
    (n <= length (render indent c))%nat /\
    loop_at st' (conf ++ map stored_section c) (st_keys st') /\ (keys <> 0 \/ c <> [] -> st_keys st' <> 0).
Proof.
  revert st conf keys; induction c as [|[name es] c IH]; intros st conf keys Hc Hat Hcur.
  { exists O, st. cbn. rewrite app_nil_r. destruct Hat. split_and!; try done.
    intros [?|?]; [congruence|done]. }
  apply Forall_cons in Hc as [Hs Hc]. pose proof (so_keys _ _ Hs) as Hke. cbn [snd] in Hke.
  destruct (config_section_run name es st conf keys (render indent c ++ rest) Hs Hat Hcur) as (st1 & Hrun1 & Hat1).
  assert (Hk : Z.of_nat (length es) <> 0) by (destruct es; [done|cbn; lia]).
  destruct (IH st1 _ _ Hc Hat1) as (n & st2 & Hrun2 & Hn & Hat2 & Hk2); [done|].
  exists (S (length es) + n)%nat, st2. split; [|split; [|split]].
  - intros fuel. unfold render. cbn [map concat]. rewrite <- app_assoc, <- Nat.add_assoc.
    fold (render indent c). now rewrite Hrun1, Hrun2.
  - unfold render in *. cbn [map concat]. rewrite length_app. pose proof (render_section_length (name, es)). cbn in *. lia.
  - now rewrite <- app_assoc in Hat2.
  - intros _. apply Hk2. now left.
Qed.

End RoundTrip.

(** C30: a configuration printed as sections of indented keys is read back as
    the same sections, keys and values in the same order, provided that no line
    is too long, every section has keys, and names, keys and values are free of
    the characters that delimit them. *)
Theorem mk_config_create_render `{env : Env} indent (c : config_text) :
  indent_ok indent -> c <> [] -> Forall (section_ok indent) c ->
  mk_config_create (Some (render indent c)) = Some (Some (CfgOk (map stored_section c))).
Proof.
  intros Hi Hne Hc. unfold mk_config_create. set (st := {| st_buf := _ |}).
  assert (Hat : loop_at indent st [] 0).
  { split; [cbn [st_buf st]; now rewrite length_imap|now left|done|done]. }
  destruct (config_sections_run indent Hi c st [] 0 [] Hc Hat) as (n & st' & Hrun & Hn & Hat' & Hk); [done|].
  rewrite app_nil_r in Hrun.
  replace (S (length (render indent c))) with (n + S (length (render indent c) - n))%nat by lia.
  rewrite Hrun. cbn [config_loop]. mstep. specialize (Hk (or_intror Hne)).
  replace (st_keys st' =? 0) with false by zb. destruct Hat' as [_ _ -> _]. done.
Qed.

(** ** Virtual hosts by name *)

Definition alias_ok (a : host_alias) : Prop := exists n, is_cstr (ha_name a) n /\ ha_len a = Z.of_nat (length n).

(** Is that the name of the alias? *)
Definition alias_is (n : bytes) (a : host_alias) : bool :=
  match cstr (ha_name a) with Some m => bool_decide (m = n) | None => false end.

Lemma alias_find_spec name n l :
  view name = Some n -> len name = Z.of_nat (length n) -> 0 ∉ n -> Forall alias_ok l ->
  alias_find name l = Some (List.find (alias_is n) l).
Proof.
  intros Hv Hlen H0. induction 1 as [|a l (m & Hm & Hml) _ IH]; [done|]. cbn [alias_find List.find].
  unfold alias_is at 1. rewrite (cstr_cstr _ _ Hm). unfold view in Hv.
  destruct (data name) as [d|]; [|done]. cbn in Hv. apply memread_inv in Hv as (Hd & _).
  destruct (ha_len a =? len name) eqn:E; zbool.
  - mstep. assert (Hdn : d = n ++ drop (length n) d).
    { rewrite Hd at 1. now rewrite Hlen, Nat2Z.id, take_drop. }
    rewrite Hdn, Hlen. destruct (strncmp_spec (ha_name a) m n (drop (length n) d) Hm H0) as (c & -> & Hc). mstep.
    assert (Htake : take (length n) m = m) by (apply take_ge; lia). rewrite Htake in Hc.
    destruct (c =? 0) eqn:E0; zbool.
    + rewrite bool_decide_true; [done|]. now apply Hc.
    + rewrite bool_decide_false by (intros ->; now apply E0, Hc). exact IH.
  - rewrite bool_decide_false by (intros ->; congruence). exact IH.
Qed.

(** First host, in configuration order, with an alias of that very name. *)
Fixpoint first_host (n : bytes) (i : nat) (hosts : list host) : option (nat * host_alias) :=
  match hosts with
  | [] => None
  | h :: hosts =>
    match List.find (alias_is n) (h_server_names h) with
    | Some a => Some (i, a)
    | None => first_host n (S i) hosts
    end
  end.

(** [mk_config_host_find] gives the first virtual host, and its first
    alias, whose name is exactly the requested one, letter case included, and
    nothing when there is none. *)
Theorem mk_config_host_find_spec hosts name n :
  view name = Some n -> len name = Z.of_nat (length n) -> 0 ∉ n ->
  Forall (fun h => Forall alias_ok (h_server_names h)) hosts ->
  mk_config_host_find hosts name = Some (first_host n 0 hosts).
Proof.
  intros Hv Hlen H0. unfold mk_config_host_find. generalize O.
  induction hosts as [|h hosts IH]; intros i Hh; [done|]. apply Forall_cons in Hh as [Hh Hhs].
  cbn [hosts_find first_host]. rewrite (alias_find_spec name n _ Hv Hlen H0 Hh). mstep.
  destruct (List.find _ _); [done|]. now apply IH.
Qed.

(** ** Witnesses *)

Definition config_example : config_text :=
  [ (lit "SERVER", [ (lit "Port", lit "2001"); (lit "Indexfile", lit "index.html index.php") ]);
    (lit "LOGGER", [ (lit "AccessLog", lit "/var/log/access.log") ]) ].

Lemma entry_ok_check indent e :
  (bool_decide (0 ∉ e.1 /\ 10 ∉ e.1) && bool_decide (0 ∉ e.2 /\ 10 ∉ e.2) && bool_decide (32 ∉ e.1) &&
   match e.1 with c :: _ => negb (isblank c) && negb (c =? 35) && negb (c =? 91) | [] => false end &&
   bool_decide (trimmed e.1 = e.1) && bool_decide (trimmed e.2 = e.2) && bool_decide (e.2 <> []) &&
   bool_decide (length (entry_line indent e) + length e.1 < 254)%nat) = true -> entry_ok indent e.
Proof.
  rewrite !andb_true_iff, !bool_decide_eq_true. intros (((((((H1 & H2) & H3) & H4) & H5) & H6) & H7) & H8).
  split; try assumption. destruct e.1 as [|c k]; [done|]. exists c, k.
  rewrite !andb_true_iff, !negb_true_iff, !Z.eqb_neq in H4. destruct H4 as [[? ?] ?]. done.
Qed.

Lemma mk_config_create_witness :
  @mk_config_create example_env (Some (render (lit "    ") config_example)) =
  Some (Some (CfgOk (map stored_section config_example))).
Proof.
  apply (@mk_config_create_render example_env (lit "    ") config_example).
  - split; [done|]. repeat constructor.
  - done.
  - repeat (apply Forall_cons_2; [split; [decide_closed|decide_closed|decide_closed|done|
      repeat (apply Forall_cons_2; [apply entry_ok_check; vm_compute; reflexivity|]); apply Forall_nil_2]|]).
    apply Forall_nil_2.
Defined.

(** The aliases of a host with the given names. *)
Definition host_example (names : list string) : host :=
  {| h_file := []; h_server_names := map (fun n => {| ha_name := clit n; ha_len := Z.of_nat (String.length n) |}) names;
     h_documentroot := mk_pointer_init "/srv"; h_host_signature := clit "Monkey";
     h_header_host_signature := mk_pointer_init "Server: Monkey"; h_error_pages := [] |}.

Lemma mk_config_host_find_witness :
  let hosts := [host_example ["localhost"]; host_example ["a.org"; "www.a.org"]] in
  mk_config_host_find hosts (mk_pointer_init "www.a.org") = Some (first_host (lit "www.a.org") 0 hosts).
Proof.
  intros hosts. apply (mk_config_host_find_spec hosts (mk_pointer_init "www.a.org") (lit "www.a.org"));
    [reflexivity|reflexivity|decide_closed|].
  repeat (apply Forall_cons_2; [repeat (apply Forall_cons_2; [eexists; split; [apply is_cstr_clit; decide_closed|reflexivity]|]);
    apply Forall_nil_2|]). apply Forall_nil_2.
Defined.

(** The names are stored in lower case, the header is not: "A.org" is served by
    the default host. *)
Example host_find_case :
  mk_config_host_find [host_example ["localhost"]; host_example ["a.org"]] (mk_pointer_init "A.org") = Some None.
Proof. reflexivity. Qed.

(** Without indentation, the first letter of the first key is taken for it. *)
Example config_unindented :
  @mk_config_create example_env (Some (lit "[A]" ++ [10] ++ lit "Port 80" ++ [10])) =
  Some (Some (CfgOk [stored_section (lit "A", [(lit "ort", lit "80")])])).
Proof. vm_compute. reflexivity. Qed.
