(* ===== verification/MkFile.v ===== *)
(** * mk_file.c and mk_mimetype.c: what a file is, and its type *)
From stdpp Require Import sorting.
From S2P Require Import Prelude CString MkString MkMemory MkUtils MkTypes MkSession MkConfig.
Local Open Scope Z_scope.

(** ** mk_file.c *)

Definition EACCES : Z := 13.
Definition S_IFMT : Z := 61440.
Definition S_IFLNK : Z := 40960.
Definition S_IFDIR : Z := 16384.
Definition S_IRUSR : Z := 256.
Definition S_IRGRP : Z := 32.
Definition S_IROTH : Z := 4.
Definition S_IXUSR : Z := 64.
Definition S_IXGRP : Z := 8.
Definition S_IXOTH : Z := 1.
Definition O_RDONLY : Z := 0.
Definition O_NONBLOCK : Z := 2048.
Definition O_NOATIME : Z := 262144.

Definition S_ISLNK (mode : Z) : bool := Z.land mode S_IFMT =? S_IFLNK.
Definition S_ISDIR (mode : Z) : bool := Z.land mode S_IFMT =? S_IFDIR.
Definition has_bit (mode bit : Z) : bool := negb (Z.land mode bit =? 0).

Section WithEnv.
Context `{env : Env}.

(** The access tests: owner, group or others. *)
Definition access_ok (target : stat) (usr grp oth : Z) : bool :=
  (has_bit (st_mode target) usr && (st_uid target =? EUID)) ||
  (has_bit (st_mode target) grp && (st_gid target =? EGID)) ||
  has_bit (st_mode target) oth.

(** [path] is the C string's text. *)
Definition mk_file_get_info (path : bytes) (f_info : file_info) : M (Z * file_info) :=
  t ← gets w_trace;
  let f_info := f_info <| fi_exists := MK_FALSE |> in
  match sys_lstat t path with
  | inl errno => mret (-1, if errno =? EACCES then f_info <| fi_exists := MK_TRUE |> else f_info)
  | inr f =>
    let f_info := f_info <| fi_exists := MK_TRUE |> <| fi_is_file := MK_TRUE |> <| fi_is_link := MK_FALSE |>
                         <| fi_is_directory := MK_FALSE |> <| fi_exec_access := MK_FALSE |>
                         <| fi_read_access := MK_FALSE |> in
    let f_info := if S_ISLNK (st_mode f) then f_info <| fi_is_link := MK_TRUE |> <| fi_is_file := MK_FALSE |>
                  else f_info in
    match (if S_ISLNK (st_mode f) then sys_stat t path else Some f) with
    | None => mret (-1, f_info)
    | Some target =>
      let f_info := f_info <| fi_size := st_size target |> <| fi_last_modification := st_mtime target |> in
      let f_info := if S_ISDIR (st_mode target)
                    then f_info <| fi_is_directory := MK_TRUE |> <| fi_is_file := MK_FALSE |> else f_info in
      let f_info := if access_ok target S_IRUSR S_IRGRP S_IROTH
                    then f_info <| fi_read_access := MK_TRUE |> else f_info in
      let f_info := if access_ok target S_IXUSR S_IXGRP S_IXOTH
                    then f_info <| fi_exec_access := MK_TRUE |> else f_info in
      let flags := Z.lor O_RDONLY O_NONBLOCK in
      let flags := if (st_uid target =? EUID) || (EUID =? 0) then Z.lor flags O_NOATIME else flags in
      mret (0, f_info <| fi_flags_read_only := flags |>)
    end
  end.

(** [fopen_read] gives the contents of a file that [fopen] opens; [fread] is
    asked for one item of the size of the file. *)
Definition mk_file_to_buffer (fopen_read : bytes -> option bytes) (path : bytes) : M (option bytes) :=
  '(r, finfo) ← mk_file_get_info path file_info_init;
  if negb (r =? 0) then mret None else
  match fopen_read path with
  | None => mret None
  | Some text =>
    let n := fi_size finfo in
    if (n <=? 0) || (Z.of_nat (length text) <? n) then mret None
    else mret (Some (take (Z.to_nat n) text ++ [0]))
  end.

(** ** mk_mimetype.c *)

Definition MIME_COMMON : nat := 10.

(** [!strcasecmp(name, mimecommon[i].name)] for [n] entries from [i]; reading
    past the table is undefined. *)
Fixpoint mime_common_find (n i : nat) (name : bytes) : option (option mimetype) :=
  match n with
  | O => Some None
  | S n =>
    m ← mimecommon !! i;
    c ← strcasecmp name (mt_name m);
    if c =? 0 then Some (Some m) else mime_common_find n (S i) name
  end.

(** [bsearch(3)] between [l] and [u]. *)
Fixpoint bsearch (fuel : nat) (name : bytes) (arr : list mimetype) (l u : nat) : option (option mimetype) :=
  match fuel with
  | O => None
  | S fuel =>
    if (l <? u)%nat then
      let idx := ((l + u) / 2)%nat in
      p ← arr !! idx;
      c ← strcmp name (mt_name p);
      if c <? 0 then bsearch fuel name arr l idx
      else if 0 <? c then bsearch fuel name arr (S idx) u
      else Some (Some p)
    else Some None
  end.

Definition mk_mimetype_lookup (name : bytes) : option (option mimetype) :=
  r ← mime_common_find MIME_COMMON 0 name;
  match r with
  | Some m => Some (Some m)
  | None => bsearch (S (length mimearr)) name mimearr 0 (length mimearr)
  end.

(** [while (data[j] != '.' && j >= 0) j--]: the byte is read first, so running
    past the beginning reads before the string. *)
Fixpoint find_dot (fuel : nat) (d : bytes) (j : Z) : option Z :=
  match fuel with
  | O => None
  | S fuel =>
    c ← (if j <? 0 then None else d !! Z.to_nat j);
    if negb (c =? 46) && (0 <=? j) then find_dot fuel d (j - 1) else Some j
  end.

Definition mk_mimetype_find (filename : mk_pointer) : option (option mimetype) :=
  d ← data filename;
  j ← find_dot (S (Z.to_nat (len filename))) d (i32 (len filename));
  if j =? 0 then Some None else q ← padd d (j + 1); mk_mimetype_lookup q.

End WithEnv.

(** Filling the tables at start-up. *)
Definition mk_mimetype_add (name type : bytes) (arr : list mimetype) : option (list mimetype) :=
  n ← cstr name; t ← cstr type;
  Some (arr ++ [ {| mt_name := n ++ [0];
                    mt_type := {| data := Some (t ++ [13; 10; 0]); len := Z.of_nat (length t) + 2 |} |} ]).

(** [mime_cmp], as the order [qsort] sorts with. *)
Definition mime_le (a b : mimetype) : Prop := match strcmp (mt_name a) (mt_name b) with Some c => c <= 0 | None => True end.
#[export] Instance mime_le_dec a b : Decision (mime_le a b).
Proof. unfold mime_le. destruct (strcmp _ _); apply _. Defined.

Definition mk_mimearr_sort (arr : list mimetype) : list mimetype := merge_sort mime_le arr.

(** The loop of [mk_mimetype_read_config]: the first entries are common, the
    others are sorted afterwards. *)
Fixpoint read_mimes (i : nat) (common arr : list mimetype) (entries : list mk_config_entry)
    : option (list mimetype * list mimetype) :=
  match entries with
  | [] => Some (common, arr)
  | e :: entries =>
    if (i <? MIME_COMMON)%nat then
      common ← mk_mimetype_add (ce_key e) (ce_val e) common; read_mimes (S i) common arr entries
    else arr ← mk_mimetype_add (ce_key e) (ce_val e) arr; read_mimes (S i) common arr entries
  end.

Definition mk_mimetype_read_config (section : mk_config_section) : option (list mimetype * list mimetype) :=
  '(common, arr) ← read_mimes 0 [] [] (cs_entries section);
  Some (common, mk_mimearr_sort arr).

(** ** Finding a type *)

(** The text of a type's name. *)
Definition mime_named (m : mimetype) (s : bytes) : Prop := is_cstr (mt_name m) s.

Definition mime_lt (a b : mimetype) : Prop := exists c, strcmp (mt_name a) (mt_name b) = Some c /\ c < 0.

(** The table is in strictly increasing order. *)
Definition mimes_sorted (arr : list mimetype) : Prop :=
  Forall (fun m => exists s, mime_named m s) arr /\
  forall i j a b, arr !! i = Some a -> arr !! j = Some b -> (i < j)%nat -> mime_lt a b.

Lemma strcmp_names p s q t : is_cstr p s -> is_cstr q t ->
  exists c, strcmp p q = Some c /\ strcmp q p = Some (- c) /\ (c = 0 <-> s = t).
Proof.
  intros Hp Hq. destruct (strcmp_by_antisym (fun c => c) p s q t) as (c & H1 & H2 & H3); [done..|].
  rewrite !map_id in H3. eauto.
Qed.

Lemma strcmp_text p s q q' t c :
  is_cstr p s -> is_cstr q t -> is_cstr q' t -> strcmp p q = Some c -> strcmp p q' = Some c.
Proof.
  unfold strcmp. revert p q q' t; induction s as [|a s IH]; intros p q q' t Hp Hq Hq'.
  - apply is_cstr_nil in Hp as [r ->]. destruct t as [|d t].
    + apply is_cstr_nil in Hq as [r1 ->]. apply is_cstr_nil in Hq' as [r2 ->]. done.
    + apply is_cstr_cons in Hq as (q1 & -> & Hd & _). apply is_cstr_cons in Hq' as (q2 & -> & _ & _).
      cbn [strcmp_by]. now replace (0 =? d) with false by zb.
  - apply is_cstr_cons in Hp as (p' & -> & Ha & Hp). destruct t as [|d t].
    + apply is_cstr_nil in Hq as [r1 ->]. apply is_cstr_nil in Hq' as [r2 ->]. cbn [strcmp_by].
      now replace (a =? 0) with false by zb.
    + apply is_cstr_cons in Hq as (q1 & -> & Hd & Hq). apply is_cstr_cons in Hq' as (q2 & -> & _ & Hq').
      cbn [strcmp_by]. destruct (a =? d); cbn [negb]; [|done]. replace (a =? 0) with false by zb.
      now apply IH with t.
Qed.

Section Find.
Context `{env : Env}.

(** Which of the texts is the first that equals [s] up to the case. *)
Definition same_nocase (s : bytes) (m : mimetype) : bool :=
  match cstr (mt_name m) with Some n => bool_decide (map tolower s = map tolower n) | None => false end.

Definition mime_is (s : bytes) (m : mimetype) : bool :=
  match cstr (mt_name m) with Some n => bool_decide (s = n) | None => false end.

Lemma mime_common_find_spec n i p s :
  is_cstr p s -> Forall (fun m => exists t, mime_named m t) mimecommon -> (i + n <= length mimecommon)%nat ->
  mime_common_find n i p = Some (List.find (same_nocase s) (take n (drop i mimecommon))).
Proof.
  intros Hp Hm. revert i; induction n as [|n IH]; intros i Hn; [done|]. cbn [mime_common_find].
  destruct (lookup_lt_is_Some_2 mimecommon i) as [m Hi]; [lia|]. rewrite Hi, (drop_S _ _ _ Hi). mstep.
  cbn [take List.find]. destruct (Forall_lookup_1 _ _ _ _ Hm Hi) as [t Ht].
  destruct (strcmp_by_antisym tolower p s (mt_name m) t tolower_0 Hp Ht) as (c & H1 & _ & H3).
  unfold strcasecmp. rewrite H1. mstep. unfold same_nocase at 1. rewrite (cstr_cstr _ _ Ht).
  destruct (c =? 0) eqn:E; zbool.
  - rewrite bool_decide_true; [done|]. now apply H3.
  - rewrite bool_decide_false; [|intros Heq; now apply E, H3]. apply IH. lia.
Qed.

Lemma bsearch_spec fuel p s arr l u :
  is_cstr p s -> mimes_sorted arr -> (l <= u <= length arr)%nat -> (u - l < fuel)%nat ->
  (forall i m, arr !! i = Some m -> mime_named m s -> (l <= i < u)%nat) ->
  exists r, bsearch fuel p arr l u = Some r /\
    match r with
    | Some m => m ∈ arr /\ mime_named m s
    | None => Forall (fun m => ~ mime_named m s) arr
    end.
Proof.
  intros Hp [Hn Hs]. revert l u; induction fuel as [|fuel IH]; intros l u Hlu Hf Hin; [lia|]. cbn [bsearch].
  destruct (Nat.ltb_spec l u).
  - set (idx := ((l + u) / 2)%nat). assert (Hidx : (l <= idx < u)%nat).
    { unfold idx. split; [apply Nat.div_le_lower_bound; lia|apply Nat.div_lt_upper_bound; lia]. }
    destruct (lookup_lt_is_Some_2 arr idx) as [m Hm]; [lia|]. rewrite Hm. mstep.
    destruct (Forall_lookup_1 _ _ _ _ Hn Hm) as [t Ht].
    destruct (strcmp_names p s (mt_name m) t Hp Ht) as (c & H1 & H2 & H3). rewrite H1. mstep.
    destruct (c <? 0) eqn:E1; zbool; [|destruct (0 <? c) eqn:E2; zbool].
    + apply IH; [lia|lia|]. intros i m' Hi Hm'. pose proof (Hin i m' Hi Hm') as Hr.
      split; [lia|]. destruct (Nat.lt_trichotomy i idx) as [Hlt|[->|Hgt]]; [done| |]; exfalso.
      * rewrite Hm in Hi. injection Hi as <-. pose proof (strcmp_text _ _ _ _ _ _ Hp Ht Ht H1).
        assert (s = t) by (pose proof (cstr_cstr _ _ Hm'); pose proof (cstr_cstr _ _ Ht); congruence).
        subst. assert (c = 0) by now apply H3. lia.
      * destruct (Hs idx i m m' Hm Hi Hgt) as (c' & Hc' & Hneg).
        pose proof (strcmp_text _ _ _ _ _ _ Ht Hm' Hp Hc'). assert (c' = - c) by congruence. lia.
    + apply IH; [lia|lia|]. intros i m' Hi Hm'. pose proof (Hin i m' Hi Hm') as Hr.
      split; [|lia]. destruct (Nat.lt_trichotomy i idx) as [Hlt|[->|Hgt]]; [| |lia]; exfalso.
      * destruct (Hs i idx m' m Hi Hm Hlt) as (c' & Hc' & Hneg).
        destruct (strcmp_names (mt_name m') s (mt_name m) t Hm' Ht) as (c2 & A1 & A2 & _).
        pose proof (strcmp_text _ _ _ _ _ _ Ht Hm' Hp A2). assert (c2 = c') by congruence.
        assert (- c2 = - c) by congruence. lia.
      * rewrite Hm in Hi. injection Hi as <-.
        assert (s = t) by (pose proof (cstr_cstr _ _ Hm'); pose proof (cstr_cstr _ _ Ht); congruence).
        assert (c = 0) by now apply H3. lia.
    + exists (Some m). split; [done|]. split; [now apply list_elem_of_lookup_2 with idx|].
      assert (s = t) as -> by (apply H3; lia). exact Ht.
  - exists None. split; [done|]. apply Forall_lookup. intros i m Hi Hm. pose proof (Hin i m Hi Hm). lia.
Qed.

Lemma find_dot_spec d a ext rest fuel j :
  d = a ++ 46 :: ext ++ rest -> 46 ∉ ext -> (length a <= j <= length a + length ext)%nat -> (j < fuel + length a)%nat ->
  find_dot fuel d (Z.of_nat j) = Some (Z.of_nat (length a)).
Proof.
  intros -> He. revert j; induction fuel as [|fuel IH]; intros j Hj Hf; [lia|]. cbn [find_dot].
  replace (Z.of_nat j <? 0) with false by zb. rewrite Nat2Z.id.
  destruct (decide (j = length a)) as [->|].
  - rewrite lookup_app_r, Nat.sub_diag by lia. change ((46 :: ext ++ rest) !! 0%nat) with (Some 46). done.
  - destruct (lookup_lt_is_Some_2 ext (pred (j - length a))) as [c Hc]; [lia|].
    rewrite lookup_app_r, lookup_cons_ne_0, lookup_app_l, Hc by lia. mstep.
    assert (c <> 46) by (intros ->; apply He; now apply list_elem_of_lookup_2 with (pred (j - length a))).
    replace (c =? 46) with false by zb. replace (0 <=? Z.of_nat j) with true by zb. cbn [negb andb].
    replace (Z.of_nat j - 1) with (Z.of_nat (j - 1)) by lia. apply IH; lia.
Qed.

(** For a path whose last component has an extension, not at the very
    start, [mk_mimetype_find] gives the first of the ten common types whose name
    is the extension up to case, or else the type of the sorted table with that
    very name; it gives none exactly when neither table has one. *)
Theorem mk_mimetype_find_spec d a ext n :
  is_cstr d (a ++ 46 :: ext) -> 46 ∉ ext -> a <> [] -> n = Z.of_nat (length (a ++ 46 :: ext)) -> n < 2 ^ 31 ->
  (MIME_COMMON <= length mimecommon)%nat -> Forall (fun m => exists t, mime_named m t) mimecommon ->
  mimes_sorted mimearr ->
  exists r, mk_mimetype_find {| data := Some d; len := n |} = Some r /\
    match List.find (same_nocase ext) (take MIME_COMMON mimecommon) with
    | Some m => r = Some m
    | None => match r with
              | Some m => m ∈ mimearr /\ mime_named m ext
              | None => Forall (fun m => ~ mime_named m ext) mimearr
              end
    end.
Proof.
  intros Hd He Ha -> Hn Hlc Hcom Hs. unfold mk_mimetype_find. cbn [data len]. mstep.
  assert (Hq : is_cstr (drop (S (length a)) d) ext).
  { pose proof (is_cstr_drop d (a ++ 46 :: ext) (S (length a)) Hd) as H. rewrite length_app in H. cbn in H.
    specialize (H ltac:(lia)). now rewrite drop_S_app in H. }
  destruct Hd as [[r Hd] H0]. rewrite length_app in *. cbn [length] in *.
  rewrite i32_small by lia. rewrite Nat2Z.id.
  rewrite (find_dot_spec d a (ext ++ [0]) r); cycle 1.
  { rewrite Hd, <- !app_assoc. done. }
  { rewrite not_elem_of_app, list_elem_of_singleton. done. }
  { rewrite length_app. cbn. lia. }
  { lia. }
  mstep.
  replace (Z.of_nat (length a) =? 0) with false by (destruct a; [done|cbn [length]; zb]).
  rewrite padd_drop by (rewrite Hd, !length_app; cbn [length]; lia).
  replace (Z.to_nat _) with (S (length a)) by lia. mstep. unfold mk_mimetype_lookup.
  rewrite (mime_common_find_spec _ _ _ ext Hq Hcom) by lia. rewrite drop_0. mstep.
  destruct (List.find _ _) as [m|]; [by exists (Some m)|].
  apply (bsearch_spec _ _ _ _ _ _ Hq Hs); [lia|lia|]. intros i m Hi _. apply lookup_lt_Some in Hi. lia.
Qed.

End Find.

Lemma mk_mimetype_find_witness :
  exists r, @mk_mimetype_find example_env {| data := Some (clit "/srv/a.HTML"); len := 11 |} = Some r /\
    match List.find (same_nocase (lit "HTML")) (take MIME_COMMON (@mimecommon example_env)) with
    | Some m => r = Some m
    | None => match r with
              | Some m => m ∈ @mimearr example_env /\ mime_named m (lit "HTML")
              | None => Forall (fun m => ~ mime_named m (lit "HTML")) (@mimearr example_env)
              end
    end.
Proof.
  apply (@mk_mimetype_find_spec example_env (clit "/srv/a.HTML") (lit "/srv/a") (lit "HTML") 11).
  - apply is_cstr_clit. decide_closed.
  - decide_closed.
  - discriminate.
  - reflexivity.
  - lia.
  - vm_compute. repeat constructor.
  - repeat (apply Forall_cons_2; [eexists; apply is_cstr_clit; decide_closed|]). apply Forall_nil_2.
  - split; [apply Forall_nil_2|]. intros i j a b Hi. now destruct i.
Defined.

(** A path without a dot is searched past its beginning. *)
Example mimetype_no_dot :
  @mk_mimetype_find example_env {| data := Some (clit "/srv/README"); len := 11 |} = None.
Proof. reflexivity. Qed.
