(* ===== verification/MkResponse.v ===== *)
(** * Responding: mk_socket.c, mk_header.c, error pages and sending files *)
From S2P Require Import Prelude CString MkString MkMemory MkUtils MkTypes MkToc MkSession MkEpoll MkPlugin MkFile.
Import Iov.
Local Open Scope Z_scope.

(** A string literal that ends in CRLF, as text. *)
Definition line (s : string) : bytes := lit s ++ [13; 10].

(** A pointer to a literal of that text. *)
Definition lit_pointer (s : bytes) : mk_pointer := {| data := Some (s ++ [0]); len := Z.of_nat (length s) |}.

(** The digits printed by [%d] and [%ld]. *)
Definition dec (z : Z) : bytes := (if z <? 0 then [45] else []) ++ rev (itop_digits 20 (Z.abs z)).

(** ** Status codes and their lines *)

Definition MK_CUSTOM_STATUS : Z := 7.
Definition MK_HTTP_OK : Z := 200.
Definition MK_HTTP_PARTIAL : Z := 206.
Definition MK_REDIR_MULTIPLE : Z := 300.
Definition MK_REDIR_MOVED : Z := 301.
Definition MK_NOT_MODIFIED : Z := 304.
Definition MK_REDIR_USE_PROXY : Z := 305.
Definition MK_CLIENT_BAD_REQUEST : Z := 400.
Definition MK_CLIENT_FORBIDDEN : Z := 403.
Definition MK_CLIENT_NOT_FOUND : Z := 404.
Definition MK_CLIENT_METHOD_NOT_ALLOWED : Z := 405.
Definition MK_CLIENT_REQUEST_TIMEOUT : Z := 408.
Definition MK_CLIENT_LENGTH_REQUIRED : Z := 411.
Definition MK_CLIENT_REQUEST_ENTITY_TOO_LARGE : Z := 413.
Definition MK_SERVER_INTERNAL_ERROR : Z := 500.
Definition MK_SERVER_NOT_IMPLEMENTED : Z := 501.
Definition MK_SERVER_HTTP_VERSION_UNSUP : Z := 505.

Definition status_response : list (Z * bytes) := [
    (200, line "HTTP/1.1 200 OK");
    (404, line "HTTP/1.1 404 Not Found");
    (100, line "HTTP/1.1 100 Continue");
    (101, line "HTTP/1.1 101 Switching Protocols");
    (201, line "HTTP/1.1 201 Created");
    (202, line "HTTP/1.1 202 Accepted");
    (203, line "HTTP/1.1 203 Non-Authoritative Information");
    (204, line "HTTP/1.1 204 No Content");
    (205, line "HTTP/1.1 205 Reset Content");
    (206, line "HTTP/1.1 206 Partial Content");
    (300, line "HTTP/1.1 300 Multiple Choices");
    (301, line "HTTP/1.1 301 Moved Permanently");
    (302, line "HTTP/1.1 302 Found");
    (303, line "HTTP/1.1 303 See Other");
    (304, line "HTTP/1.1 304 Not Modified");
    (305, line "HTTP/1.1 305 Use Proxy");
    (400, line "HTTP/1.1 400 Bad Request");
    (401, line "HTTP/1.1 401 Unauthorized");
    (402, line "HTTP/1.1 402 Payment Required");
    (403, line "HTTP/1.1 403 Forbidden");
    (405, line "HTTP/1.1 405 Method Not Allowed");
    (406, line "HTTP/1.1 406 Not Acceptable");
    (407, line "HTTP/1.1 407 Proxy Authentication Required");
    (408, line "HTTP/1.1 408 Request Timeout");
    (409, line "HTTP/1.1 409 Conflict");
    (410, line "HTTP/1.1 410 Gone");
    (411, line "HTTP/1.1 411 Length Required");
    (412, line "HTTP/1.1 412 Precondition Failed");
    (413, line "HTTP/1.1 413 Request Entity Too Large");
    (414, line "HTTP/1.1 414 Request-URI Too Long");
    (415, line "HTTP/1.1 415 Unsupported Media Type");
    (500, line "HTTP/1.1 500 Internal Server Error");
    (501, line "HTTP/1.1 501 Not Implemented");
    (502, line "HTTP/1.1 502 Bad Gateway");
    (503, line "HTTP/1.1 503 Service Unavailable");
    (504, line "HTTP/1.1 504 Gateway Timeout");
    (505, line "HTTP/1.1 505 HTTP Version Not Supported") ].

(** The response line of a status; [None] is the abort of [mk_bug]. *)
Definition response_line (sh : response_headers) : option mk_pointer :=
  if sh_status sh =? MK_CUSTOM_STATUS then Some (sh_custom_status sh)
  else e ← List.find (fun e => fst e =? sh_status sh) status_response; Some (lit_pointer (snd e)).

Definition mk_header_short_date : mk_pointer := mk_pointer_init "Date: ".
Definition mk_header_short_location : mk_pointer := mk_pointer_init "Location: ".
Definition mk_header_short_ct : mk_pointer := mk_pointer_init "Content-Type: ".
Definition mk_header_conn_ka : mk_pointer := lit_pointer (line "Connection: Keep-Alive").
Definition mk_header_conn_close : mk_pointer := lit_pointer (line "Connection: Close").
Definition mk_header_content_length : mk_pointer := mk_pointer_init "Content-Length: ".
Definition mk_header_content_encoding : mk_pointer := mk_pointer_init "Content-Encoding: ".
Definition mk_header_te_chunked : mk_pointer := lit_pointer (line "Transfer-Encoding: Chunked").
Definition mk_header_last_modified : mk_pointer := mk_pointer_init "Last-Modified: ".
Definition MK_HEADER_TE_TYPE_CHUNKED : Z := 0.
Definition MK_HEADER_BREAKLINE : Z := 1.
Definition SH_NOCGI : Z := 0.
Definition TCP_CORK_ON : Z := 1.
Definition TCP_CORK_OFF : Z := 0.

Section WithEnv.
Context `{env : Env}.

(** ** mk_socket.c *)

Definition mk_socket_safe_event_write (socket : Z) : M unit :=
  if c_safe_event_write config =? MK_TRUE then
    sched ← gets w_sched;
    _ ← mk_epoll_change_mode (sl_epoll_fd sched) socket MK_EPOLL_WRITE MK_EPOLL_LEVEL_TRIGGERED;
    mret tt
  else mret tt.

Definition mk_socket_set_cork_flag (fd state : Z) : M unit := emit (EvCork fd state).

(** [F_SETFL] on an open socket succeeds; the flags of the descriptor itself
    are what the code combines. *)
Definition mk_socket_set_nonblocking (sockfd : Z) : M Z :=
  t ← gets w_trace;
  emit (EvSetFl sockfd (Z.lor (sys_getfd t sockfd) O_NONBLOCK));;
  mret 0.

Definition mk_socket_sendv (socket_fd : Z) (mk_io : mk_iov) : M Z :=
  d ← lift (mk_iov_data mk_io);
  t ← gets w_trace;
  let n := net_writev t socket_fd d in
  emit (EvWrite socket_fd (take (Z.to_nat n) d));;
  mk_socket_safe_event_write socket_fd;;
  mret (i32 n).

Definition mk_socket_send (socket_fd : Z) (buf : bytes) (count : Z) : M Z :=
  d ← lift (memread buf count);
  t ← gets w_trace;
  let n := net_write t socket_fd d in
  emit (EvWrite socket_fd (take (Z.to_nat n) d));;
  mk_socket_safe_event_write socket_fd;;
  mret (i32 n).

(** The bytes read, or the negative result and whether [errno] is EAGAIN. *)
Definition mk_socket_read (socket_fd count : Z) : M (bytes + Z * bool) :=
  t ← gets w_trace;
  let r := net_read t socket_fd count in
  emit (EvRead socket_fd (match r with inl b => b | inr _ => [] end));;
  mret r.

(** Result and the new value of [*file_offset], which [sendfile(2)] moves. *)
Definition mk_socket_send_file (socket_fd file_fd file_offset file_count : Z) : M (Z * Z) :=
  t ← gets w_trace;
  let n := net_send_file t socket_fd file_fd file_offset file_count in
  emit (EvSendFile socket_fd file_fd file_offset file_count n);;
  mk_socket_safe_event_write socket_fd;;
  mret (i32 n, if 0 <? n then file_offset + n else file_offset).

(** ** mk_header_send, section by section *)

Definition add_entry (iov : mk_iov) (p sep : mk_pointer) (free : Z) : option mk_iov :=
  '(iov, _) ← mk_iov_add_entry iov (data p) (len p) sep free; Some iov.

(** Last-Modified: the date text goes to the cached buffer. *)
Definition header_last_modified (sh : response_headers) (iov : mk_iov) : M mk_iov :=
  if 0 <? sh_last_modified sh then
    gcache ← gets w_gmt; lm ← gets w_lm; now ← gets w_utime;
    '(n, text, gcache) ← lift (mk_utils_utime2gmt now gcache lm (sh_last_modified sh));
    mod_w (fun w => w <| w_gmt := gcache |> <| w_lm := text |>);;
    lift (add_entry iov mk_header_last_modified {| data := Some text; len := u64 n |} MK_IOV_NOT_FREE_BUF)
  else mret iov.

(** [mk_cache_thread_init]: "Keep-Alive: timeout=%i, max=" *)
Definition ka_format : option mk_pointer :=
  '(b, n) ← mk_string_build (lit "Keep-Alive: timeout=" ++ dec (c_keep_alive_timeout config) ++ lit ", max=");
  Some {| data := Some b; len := n |}.

Definition header_connection (cs : client_session) (sr : session_request) (iov : mk_iov) : option mk_iov :=
  if sh_connection (sr_headers sr) =? 0 then
    if mk_http_keepalive_check cs =? 0 then
      if 0 <? len (sr_connection sr) then
        ka_format ← ka_format;
        '(b, n) ← mk_string_itop (i32 (c_max_keep_alive_request config - cs_counter_connections cs))
                    (imap (fun i _ => sys_junk i) (replicate 64 0));
        iov ← add_entry iov ka_format mk_iov_none MK_IOV_NOT_FREE_BUF;
        add_entry iov {| data := Some b; len := n |} mk_header_conn_ka MK_IOV_NOT_FREE_BUF
      else Some iov
    else add_entry iov mk_header_conn_close mk_iov_none MK_IOV_NOT_FREE_BUF
  else Some iov.

Definition header_location (sh : response_headers) (iov : mk_iov) : option mk_iov :=
  match sh_location sh with
  | Some location =>
    iov ← add_entry iov mk_header_short_location mk_iov_none MK_IOV_NOT_FREE_BUF;
    n ← strlen location;
    add_entry iov {| data := Some location; len := n |} mk_iov_crlf MK_IOV_FREE_BUF
  | None => Some iov
  end.

Definition header_content_type (sh : response_headers) (iov : mk_iov) : option mk_iov :=
  if 0 <? len (sh_content_type sh) then add_entry iov mk_header_short_ct (sh_content_type sh) MK_IOV_NOT_FREE_BUF
  else Some iov.

Definition header_transfer_encoding (sh : response_headers) (iov : mk_iov) : option mk_iov :=
  if (sh_status sh <? MK_REDIR_MULTIPLE) || (MK_REDIR_USE_PROXY <? sh_status sh) then
    if sh_transfer_encoding sh =? MK_HEADER_TE_TYPE_CHUNKED
    then add_entry iov mk_header_te_chunked mk_iov_none MK_IOV_NOT_FREE_BUF
    else Some iov
  else Some iov.

Definition header_content_encoding (sh : response_headers) (iov : mk_iov) : option mk_iov :=
  if 0 <? len (sh_content_encoding sh) then
    iov ← add_entry iov mk_header_content_encoding mk_iov_none MK_IOV_NOT_FREE_BUF;
    add_entry iov (sh_content_encoding sh) mk_iov_none MK_IOV_NOT_FREE_BUF
  else Some iov.

(** [mk_string_itop] takes an [int]. *)
Definition header_content_length (sh : response_headers) (iov : mk_iov) : option mk_iov :=
  if 0 <=? sh_content_length sh then
    '(b, n) ← mk_string_itop (i32 (sh_content_length sh)) (imap (fun i _ => sys_junk i) (replicate 16 0));
    add_entry iov mk_header_content_length {| data := Some b; len := n |} MK_IOV_NOT_FREE_BUF
  else Some iov.

(** One Content-Range line. *)
Definition add_range (iov : mk_iov) (first last real : bytes) : option mk_iov :=
  '(buffer, n) ← mk_string_build (lit "Content-Range: bytes " ++ first ++ [45] ++ last ++ [47] ++ real);
  add_entry iov {| data := Some buffer; len := n |} mk_iov_crlf MK_IOV_FREE_BUF.

Definition header_range (sh : response_headers) (iov : mk_iov) : option mk_iov :=
  let r0 := sh_range0 sh in
  let r1 := sh_range1 sh in
  let real := dec (sh_real_length sh) in
  if negb (sh_content_length sh =? 0) && ((0 <=? r0) || (0 <=? r1)) && (c_resume config =? MK_TRUE) then
    iov ← (if (0 <=? r0) && (r1 =? -1) then add_range iov (dec r0) (dec (sh_real_length sh - 1)) real else Some iov);
    iov ← (if (0 <=? r0) && (0 <=? r1) then add_range iov (dec r0) (dec r1) real else Some iov);
    if (r0 =? -1) && (0 <? r1)
    then add_range iov (dec (sh_real_length sh - r1)) (dec (sh_real_length sh - 1)) real
    else Some iov
  else Some iov.

(** The empty line: in the header vector, or after the rows of the plugins. *)
Definition header_breakline (sh : response_headers) (iov : mk_iov) : option (mk_iov * option mk_iov) :=
  if (sh_cgi sh =? SH_NOCGI) || (sh_breakline sh =? MK_HEADER_BREAKLINE) then
    match sh_extra_rows sh with
    | None => iov ← add_entry iov mk_iov_crlf mk_iov_none MK_IOV_NOT_FREE_BUF; Some (iov, None)
    | Some rows => rows ← add_entry rows mk_iov_crlf mk_iov_none MK_IOV_NOT_FREE_BUF; Some (iov, Some rows)
    end
  else Some (iov, sh_extra_rows sh).

(** The virtual host of a request. *)
Definition request_vhost (sr : session_request) : option host := i ← sr_host_conf sr; c_hosts config !! i.

(** The sections that follow the status, server and date lines. *)
Definition header_rest (cs : client_session) (sr : session_request) (iov : mk_iov) : option mk_iov :=
  let sh := sr_headers sr in
  iov ← header_connection cs sr iov;
  iov ← header_location sh iov;
  iov ← header_content_type sh iov;
  iov ← header_transfer_encoding sh iov;
  iov ← header_content_encoding sh iov;
  iov ← header_content_length sh iov;
  header_range sh iov.

(** The end of the header is added, and both vectors are sent. *)
Definition header_finish (fd : Z) (cs sr : nat) (sh : response_headers) (iov : mk_iov) : M Z :=
  mk_socket_set_cork_flag fd TCP_CORK_ON;;
  '(iov, rows) ← lift (header_breakline sh iov);
  _ ← mk_socket_sendv fd iov;
  match rows with
  | Some rows =>
    _ ← mk_socket_sendv fd rows;
    mod_sr cs sr (set_headers (fun sh => sh <| sh_extra_rows := None |>))
  | None => mret tt
  end;;
  mod_w (fun w => w <| w_iov := snd (mk_iov_free_marked iov) |>);;
  mret 0.

Definition mk_header_send (fd : Z) (cs sr : nat) : M Z :=
  c ← get_cs cs;
  r ← get_sr cs sr;
  let sh := sr_headers r in
  iov ← gets w_iov;
  response ← lift (response_line sh);
  iov ← lift (add_entry iov response mk_iov_none MK_IOV_NOT_FREE_BUF);
  h ← lift (request_vhost r);
  iov ← lift (add_entry iov (h_header_host_signature h) mk_iov_crlf MK_IOV_NOT_FREE_BUF);
  header_current_time ← gets w_header_time;
  iov ← lift (add_entry iov mk_header_short_date header_current_time MK_IOV_NOT_FREE_BUF);
  iov ← header_last_modified sh iov;
  iov ← lift (header_rest c r iov);
  header_finish fd cs sr sh iov.

Definition mk_header_set_http_status (cs sr : nat) (status : Z) : M unit :=
  mod_sr cs sr (set_headers (fun sh => sh <| sh_status := status |>)).

(** ** mk_http_send_file *)

Definition mk_http_send_file (cs sr : nat) : M Z :=
  c ← get_cs cs;
  r ← get_sr cs sr;
  '(nbytes, offset) ← mk_socket_send_file (cs_socket c) (sr_fd_file r) (sr_bytes_offset r) (sr_bytes_to_send r);
  mod_sr cs sr (fun r => r <| sr_bytes_offset := offset |>);;
  (if 0 <? nbytes then
     mod_sr cs sr (fun r => r <| sr_bytes_to_send := sr_bytes_to_send r - nbytes |>);;
     r ← get_sr cs sr;
     if sr_bytes_to_send r =? 0 then mk_socket_set_cork_flag (cs_socket c) TCP_CORK_OFF else mret tt
   else mret tt);;
  mod_sr cs sr (fun r => r <| sr_loop := sr_loop r + 1 |>);;
  if nbytes <? 0 then mret EXIT_ABORT
  else r ← get_sr cs sr; mret (i32 (sr_bytes_to_send r)).

End WithEnv.

(** ** What the header is *)

(** [f] appends [s] to the data of a vector, in at most [n] cells. *)
Definition appends (n : Z) (f : mk_iov -> option mk_iov) (s : bytes) : Prop :=
  forall iov d k, iov_at iov d k -> k + n <= size iov ->
  exists iov' k', f iov = Some iov' /\ iov_at iov' (d ++ s) k' /\ k <= k' <= k + n /\ size iov' = size iov.

Lemma appends_skip : appends 0 Some [].
Proof. intros iov d k H Hk. exists iov, k. rewrite app_nil_r. split_and!; [done..|lia|lia|done]. Qed.

Lemma appends_more n m f s : n <= m -> appends n f s -> appends m f s.
Proof.
  intros Hnm Hf iov d k H Hk. destruct (Hf iov d k H) as (iov' & k' & H1 & H2 & H3 & H4); [lia|].
  exists iov', k'. split_and!; [done..|lia|lia|done].
Qed.

Lemma appends_bind n m f g s t :
  appends n f s -> appends m g t -> 0 <= m -> appends (n + m) (fun iov => iov ← f iov; g iov) (s ++ t).
Proof.
  intros Hf Hg Hm iov d k H Hk. destruct (Hf iov d k H) as (iov1 & k1 & -> & H2 & H3 & H4); [lia|]. mstep.
  destruct (Hg iov1 _ k1 H2) as (iov2 & k2 & -> & A2 & A3 & A4); [lia|].
  exists iov2, k2. rewrite app_assoc. split_and!; [done..|lia|lia|congruence].
Qed.

Lemma appends_entry p sep free s t :
  reads (data p) (len p) s -> reads (data sep) (len sep) t -> (free = MK_IOV_FREE_BUF -> data p <> None) ->
  appends (entry_cells sep) (fun iov => add_entry iov p sep free) (s ++ t).
Proof.
  intros Hs Ht Hf iov d k H Hk. unfold add_entry.
  destruct (add_entry_at iov d k (data p) (len p) sep free s t H Hk Hs Ht Hf) as (iov' & -> & H2 & H3 & _). mstep.
  exists iov', (k + entry_cells sep). unfold entry_cells. split_and!; [done..|case_if; lia|case_if; lia|done].
Qed.

Lemma reads_lit s : Z.of_nat (length s) < 2 ^ 64 -> reads (data (lit_pointer s)) (len (lit_pointer s)) s.
Proof.
  intros H. split; [done|]. split; [done|]. right. eexists. split; [done|]. cbn.
  rewrite memread_take by (rewrite length_app; lia). now rewrite Nat2Z.id, take_app_length.
Qed.

Lemma mk_pointer_init_lit s : mk_pointer_init s = lit_pointer (lit s).
Proof.
  unfold mk_pointer_init, lit_pointer, clit. f_equal. unfold lit. rewrite length_map.
  induction s as [|a s IH]; [done|]. cbn. rewrite !Nat2Z.inj_succ. congruence.
Qed.

Lemma reads_text s r n : n = Z.of_nat (length s) -> n < 2 ^ 64 -> reads (Some (s ++ r)) n s.
Proof.
  intros -> H. split; [done|]. split; [done|]. right. eexists. split; [done|].
  rewrite memread_take by (rewrite length_app; lia). now rewrite Nat2Z.id, take_app_length.
Qed.

Lemma reads_none : reads (data mk_iov_none) (len mk_iov_none) [].
Proof. split; [done|]. split; [done|]. now left. Qed.
Lemma reads_crlf : reads (data mk_iov_crlf) (len mk_iov_crlf) [13; 10].
Proof. split; [done|]. split; [done|]. right. eexists. done. Qed.
#[local] Hint Resolve reads_none reads_crlf : mk.

(** The text [mk_string_build] gives, in a buffer. *)
Lemma mk_string_build_run out :
  0 ∉ out -> Z.of_nat (length out) < 2 ^ 32 ->
  mk_string_build out = Some (out ++ [0], Z.of_nat (length out)).
Proof.
  intros H0 Hlen. unfold mk_string_build, vsnprintf. change (Z.to_nat (64 - 1)) with 63%nat. rewrite u32_small by lia.
  destruct (64 <=? Z.of_nat (length out)) eqn:E; zbool.
  - rewrite take_ge by lia. rewrite length_app. cbn [length]. replace (_ <? _) with true by zb.
    rewrite Nat2Z.id. f_equal. f_equal. rewrite insert_app_r_alt, Nat.sub_diag by lia. done.
  - rewrite take_ge by lia. rewrite length_app. cbn [length]. replace (_ <? _) with true by zb.
    rewrite Nat2Z.id. f_equal. f_equal. rewrite insert_app_r_alt, Nat.sub_diag by lia. done.
Qed.

Lemma itop_digits_fuel n m z :
  0 <= z < 10 ^ Z.of_nat n -> (n <= m)%nat -> (0 < n)%nat -> itop_digits m z = itop_digits n z.
Proof.
  revert m z; induction n as [|n IH]; intros m z Hz Hm Hn; [lia|]. destruct m as [|m]; [lia|]. cbn [itop_digits].
  destruct (z / 10 =? 0) eqn:E; zbool; [done|]. f_equal. destruct (decide (n = 0%nat)) as [->|].
  - rewrite Z.div_small in E by lia. done.
  - apply IH; [|lia|lia]. rewrite Nat2Z.inj_succ, Z.pow_succ_r in Hz by lia.
    split; [apply Z.div_pos; lia|apply Z.div_lt_upper_bound; lia].
Qed.

Lemma dec_itop z : - 2 ^ 31 < z < 2 ^ 31 -> itop_text z = dec z.
Proof. intros Hz. unfold itop_text, dec. rewrite (itop_digits_fuel 10 20); [done|lia|lia|lia]. Qed.

Lemma itop_digits_ascii n z : 0 <= z -> Forall (fun c => 48 <= c <= 57) (itop_digits n z).
Proof.
  revert z; induction n as [|n IH]; intros z Hz; cbn; [constructor|]. constructor.
  - pose proof (Z.mod_pos_bound z 10 ltac:(lia)). lia.
  - case_if; [constructor|]. apply IH. apply Z.div_pos; lia.
Qed.

Lemma dec_ascii z : 0 ∉ dec z.
Proof.
  unfold dec. rewrite not_elem_of_app, elem_of_rev. split; [case_if; [rewrite list_elem_of_singleton; done|apply not_elem_of_nil]|].
  intros Hin. pose proof (itop_digits_ascii 20 (Z.abs z) ltac:(lia)) as H. rewrite Forall_forall in H. apply H in Hin. lia.
Qed.

Lemma dec_length z : (length (dec z) <= 21)%nat.
Proof.
  unfold dec. rewrite length_app, length_rev. assert (H : forall n z, (length (itop_digits n z) <= n)%nat).
  { induction n as [|n IH]; intros y; cbn; [lia|]. case_if; cbn; [lia|]. specialize (IH (y / 10)). lia. }
  specialize (H 20%nat (Z.abs z)). case_if; cbn [length]; lia.
Qed.

Section HeaderText.
Context `{env : Env}.

Definition crlf : bytes := [13; 10].

Definition connection_text (cs : client_session) (sr : session_request) : bytes :=
  if sh_connection (sr_headers sr) =? 0 then
    if mk_http_keepalive_check cs =? 0 then
      if 0 <? len (sr_connection sr) then
        lit "Keep-Alive: timeout=" ++ dec (c_keep_alive_timeout config) ++ lit ", max=" ++
        dec (c_max_keep_alive_request config - cs_counter_connections cs) ++ crlf ++ line "Connection: Keep-Alive"
      else []
    else line "Connection: Close"
  else [].

Definition location_text (location : option bytes) : bytes :=
  match location with Some l => lit "Location: " ++ default [] (cstr l) ++ crlf | None => [] end.

(** The content type and the encoding end in CRLF themselves. *)
Definition pointer_text (name : string) (p : mk_pointer) : bytes :=
  if 0 <? len p then lit name ++ default [] (view p) else [].

Definition te_text (sh : response_headers) : bytes :=
  if ((sh_status sh <? MK_REDIR_MULTIPLE) || (MK_REDIR_USE_PROXY <? sh_status sh)) &&
     (sh_transfer_encoding sh =? MK_HEADER_TE_TYPE_CHUNKED)
  then line "Transfer-Encoding: Chunked" else [].

Definition content_length_text (sh : response_headers) : bytes :=
  if 0 <=? sh_content_length sh then lit "Content-Length: " ++ dec (sh_content_length sh) ++ crlf else [].

Definition range_line (first last real : Z) : bytes :=
  lit "Content-Range: bytes " ++ dec first ++ lit "-" ++ dec last ++ lit "/" ++ dec real ++ crlf.

Definition range_text (sh : response_headers) : bytes :=
  let real := sh_real_length sh in
  if negb (sh_content_length sh =? 0) && (c_resume config =? MK_TRUE) then
    if 0 <=? sh_range0 sh then
      if sh_range1 sh =? -1 then range_line (sh_range0 sh) (real - 1) real
      else if 0 <=? sh_range1 sh then range_line (sh_range0 sh) (sh_range1 sh) real else []
    else if (sh_range0 sh =? -1) && (0 <? sh_range1 sh) then range_line (real - sh_range1 sh) (real - 1) real
    else []
  else [].

Definition rest_text (cs : client_session) (sr : session_request) : bytes :=
  let sh := sr_headers sr in
  connection_text cs sr ++ location_text (sh_location sh) ++ pointer_text "Content-Type: " (sh_content_type sh) ++
  te_text sh ++ pointer_text "Content-Encoding: " (sh_content_encoding sh) ++ content_length_text sh ++ range_text sh.

(** A pointer that designates memory, if it is not empty. *)
Definition readable (p : mk_pointer) : Prop := 0 <= len p < 2 ^ 64 /\ (0 < len p -> exists s, view p = Some s).

(** What a response may be made of. *)
Record header_ok (cs : client_session) (sr : session_request) : Prop := {
  hk_type : readable (sh_content_type (sr_headers sr));
  hk_encoding : readable (sh_content_encoding (sr_headers sr));
  hk_location : match sh_location (sr_headers sr) with
                | Some l => exists s, is_cstr l s /\ Z.of_nat (length s) < 2 ^ 64
                | None => True end;
  hk_left : - 2 ^ 31 < c_max_keep_alive_request config - cs_counter_connections cs < 2 ^ 31;
  hk_length : sh_content_length (sr_headers sr) < 2 ^ 31;
}.

Lemma readable_reads p : readable p -> 0 < len p -> reads (data p) (len p) (default [] (view p)).
Proof.
  intros [H1 H2] Hl. destruct (H2 Hl) as [s Hs]. rewrite Hs. cbn. unfold view in Hs.
  destruct (data p) as [b|] eqn:E; [|done]. cbn in Hs. apply memread_inv in Hs as Hi. destruct Hi as (_ & Hi & _).
  split; [done|]. split; [lia|]. right. eauto.
Qed.

Lemma header_connection_text cs sr : header_ok cs sr -> appends 3 (header_connection cs sr) (connection_text cs sr).
Proof.
  intros Hok. unfold header_connection, connection_text.
  assert (Hskip : appends 3 Some []) by (apply (appends_more 0); [lia|apply appends_skip]).
  case_if; [|exact Hskip]. case_if.
  - case_if; [|exact Hskip]. unfold ka_format. rewrite mk_string_build_run; cycle 1.
    { rewrite !not_elem_of_app. split_and!; [decide_closed|apply dec_ascii|decide_closed]. }
    { rewrite !length_app. pose proof (dec_length (c_keep_alive_timeout config)). cbn. lia. }
    set (ka := lit "Keep-Alive: timeout=" ++ _ ++ lit ", max="). mstep.
    destruct Hok as [_ _ _ Hleft _].
    destruct (mk_string_itop_text (c_max_keep_alive_request config - cs_counter_connections cs)
      (imap (fun i _ => sys_junk i) (replicate 64 0)) Hleft) as (rest & Hit & _); [rewrite length_imap; cbn; lia|].
    rewrite i32_small by lia. rewrite Hit, dec_itop by done. mstep.
    replace (lit "Keep-Alive: timeout=" ++ _) with ((ka ++ []) ++ (dec (c_max_keep_alive_request config -
      cs_counter_connections cs) ++ crlf) ++ line "Connection: Keep-Alive")
      by (unfold ka; rewrite app_nil_r, <- !app_assoc; done).
    apply (appends_bind 1 2).
    + apply (appends_entry _ mk_iov_none); [|apply reads_none|done]. apply (reads_text ka [0]); [done|].
      unfold ka. rewrite !length_app. pose proof (dec_length (c_keep_alive_timeout config)). cbn. lia.
    + apply (appends_entry {| data := _ |} mk_header_conn_ka); [|apply reads_lit; cbn; lia|done]. cbn [data len].
      set (ds := dec _). replace (ds ++ 13 :: 10 :: 0 :: rest) with ((ds ++ crlf) ++ 0 :: rest)
        by (rewrite <- app_assoc; done).
      apply reads_text; rewrite ?length_app; cbn; unfold ds; pose proof (dec_length (c_max_keep_alive_request config -
        cs_counter_connections cs)); lia.
    + lia.
  - replace (line "Connection: Close") with (line "Connection: Close" ++ []) by apply app_nil_r.
    apply (appends_more 1); [lia|]. apply (appends_entry _ mk_iov_none); [|apply reads_none|done].
    apply reads_lit. cbn. lia.
Qed.

Lemma header_location_text cs sr :
  header_ok cs sr -> appends 3 (header_location (sr_headers sr)) (location_text (sh_location (sr_headers sr))).
Proof.
  intros [_ _ Hl _ _]. unfold header_location, location_text.
  destruct (sh_location (sr_headers sr)) as [l|]; [|apply (appends_more 0); [lia|apply appends_skip]].
  destruct Hl as (s & Hs & Hlen). rewrite (strlen_cstr _ _ Hs), (cstr_cstr _ _ Hs). change (default [] (Some s)) with s.
  replace (lit "Location: " ++ s ++ crlf) with ((lit "Location: " ++ []) ++ s ++ crlf) by now rewrite app_nil_r.
  apply (appends_bind 1 2); [|mstep|lia].
  - apply (appends_entry _ mk_iov_none); [|apply reads_none|done]. unfold mk_header_short_location.
    rewrite mk_pointer_init_lit. apply reads_lit. cbn. lia.
  - apply (appends_entry {| data := _ |} mk_iov_crlf); [|apply reads_crlf|done]. cbn [data len].
    rewrite (is_cstr_split _ _ Hs). now apply reads_text.
Qed.

Lemma pointer_entry_text name p :
  readable p -> 0 < len p -> Z.of_nat (length (lit name)) < 2 ^ 64 ->
  appends 2 (fun iov => add_entry iov (mk_pointer_init name) p MK_IOV_NOT_FREE_BUF) (lit name ++ default [] (view p)).
Proof.
  intros Hr Hl Hn. assert (He : entry_cells p = 2) by (unfold entry_cells; now replace (0 <? len p) with true by zb).
  rewrite <- He. apply appends_entry; [|now apply readable_reads|done]. rewrite mk_pointer_init_lit. now apply reads_lit.
Qed.

Lemma header_content_type_text cs sr : header_ok cs sr ->
  appends 2 (header_content_type (sr_headers sr)) (pointer_text "Content-Type: " (sh_content_type (sr_headers sr))).
Proof.
  intros [Hr _ _ _ _]. unfold header_content_type, pointer_text. case_if; zbool.
  - apply (pointer_entry_text "Content-Type: "); [done|done|cbn; lia].
  - apply (appends_more 0); [lia|apply appends_skip].
Qed.

Lemma header_te_text sh : appends 1 (header_transfer_encoding sh) (te_text sh).
Proof.
  unfold header_transfer_encoding, te_text.
  case_if; [case_if|]; cbn [andb]; try (apply (appends_more 0); [lia|apply appends_skip]).
  replace (line "Transfer-Encoding: Chunked") with (line "Transfer-Encoding: Chunked" ++ []) by apply app_nil_r.
  apply (appends_entry _ mk_iov_none); [|apply reads_none|done]. apply reads_lit. cbn. lia.
Qed.

Lemma header_encoding_text cs sr : header_ok cs sr ->
  appends 2 (header_content_encoding (sr_headers sr))
    (pointer_text "Content-Encoding: " (sh_content_encoding (sr_headers sr))).
Proof.
  intros [_ Hr _ _ _]. unfold header_content_encoding, pointer_text. case_if; zbool;
    [|apply (appends_more 0); [lia|apply appends_skip]].
  replace (lit "Content-Encoding: " ++ default [] (view (sh_content_encoding (sr_headers sr)))) with
    ((lit "Content-Encoding: " ++ []) ++ default [] (view (sh_content_encoding (sr_headers sr))) ++ [])
    by now rewrite !app_nil_r.
  apply (appends_bind 1 1); [| |lia].
  - apply (appends_entry _ mk_iov_none); [|apply reads_none|done]. unfold mk_header_content_encoding.
    rewrite mk_pointer_init_lit. apply reads_lit. cbn. lia.
  - apply (appends_entry _ mk_iov_none); [|apply reads_none|done]. now apply readable_reads.
Qed.

Lemma header_length_text cs sr : header_ok cs sr ->
  appends 2 (header_content_length (sr_headers sr)) (content_length_text (sr_headers sr)).
Proof.
  intros [_ _ _ _ Hl]. unfold header_content_length, content_length_text. case_if; zbool;
    [|apply (appends_more 0); [lia|apply appends_skip]].
  set (n := sh_content_length (sr_headers sr)) in *.
  destruct (mk_string_itop_text n (imap (fun i _ => sys_junk i) (replicate 16 0))) as (rest & Hit & _);
    [lia|rewrite length_imap; cbn; lia|].
  rewrite i32_small by lia. rewrite Hit, dec_itop by lia. mstep.
  pose proof (dec_length n) as Hd.
  assert (Hsep : reads (Some (dec n ++ 13 :: 10 :: 0 :: rest)) (Z.of_nat (length (dec n)) + 2) (dec n ++ crlf)).
  { replace (dec n ++ 13 :: 10 :: 0 :: rest) with ((dec n ++ crlf) ++ 0 :: rest) by (rewrite <- app_assoc; done).
    apply reads_text; rewrite ?length_app; cbn; lia. }
  set (p := {| data := _ |}). assert (He : entry_cells p = 2).
  { unfold entry_cells. cbn [len p]. now replace (0 <? _) with true by zb. }
  rewrite <- He. apply appends_entry; [|exact Hsep|done]. unfold mk_header_content_length.
  rewrite mk_pointer_init_lit. apply reads_lit. cbn. lia.
Qed.

Lemma add_range_text a b c : appends 2 (fun iov => add_range iov (dec a) (dec b) (dec c)) (range_line a b c).
Proof.
  unfold add_range, range_line. rewrite mk_string_build_run; cycle 1.
  { rewrite !not_elem_of_app, !list_elem_of_singleton. split_and!; try apply dec_ascii; try done. decide_closed. }
  { rewrite !length_app. pose proof (dec_length a). pose proof (dec_length b). pose proof (dec_length c). cbn. lia. }
  mstep. set (t := lit "Content-Range: bytes " ++ dec a ++ [45] ++ dec b ++ [47] ++ dec c).
  replace (lit "Content-Range: bytes " ++ _) with (t ++ crlf) by (unfold t; rewrite <- !app_assoc; done).
  apply (appends_entry {| data := _ |} mk_iov_crlf); [|apply reads_crlf|done]. cbn [data len].
  apply reads_text; [done|]. unfold t. rewrite !length_app.
  pose proof (dec_length a). pose proof (dec_length b). pose proof (dec_length c). cbn. lia.
Qed.

Lemma header_range_text sh : appends 2 (header_range sh) (range_text sh).
Proof.
  unfold header_range, range_text.
  assert (Hskip : appends 2 Some []) by (apply (appends_more 0); [lia|apply appends_skip]).
  destruct (negb (sh_content_length sh =? 0)); cbn [andb]; [|exact Hskip].
  destruct (c_resume config =? MK_TRUE); [|rewrite andb_false_r; exact Hskip]. rewrite andb_true_r.
  destruct (0 <=? sh_range0 sh) eqn:E0; zbool; cbn [orb andb].
  - replace (sh_range0 sh =? -1) with false by zb. cbn [andb].
    destruct (sh_range1 sh =? -1) eqn:E1; zbool.
    + replace (0 <=? sh_range1 sh) with false by zb. intros iov d k H Hk.
      destruct (add_range_text (sh_range0 sh) (sh_real_length sh - 1) (sh_real_length sh) iov d k H Hk) as (iov' & k' & -> & ?).
      mstep. eauto.
    + mstep. destruct (0 <=? sh_range1 sh) eqn:E2; [|exact Hskip]. intros iov d k H Hk.
      destruct (add_range_text (sh_range0 sh) (sh_range1 sh) (sh_real_length sh) iov d k H Hk) as (iov' & k' & -> & ?).
      mstep. eauto.
  - destruct (0 <=? sh_range1 sh) eqn:E1; zbool.
    + mstep. case_if; [apply add_range_text|exact Hskip].
    + replace (0 <? sh_range1 sh) with false by zb. rewrite andb_false_r. exact Hskip.
Qed.

(** The optional sections give their text, in order, in at most 15 cells. *)
Lemma header_rest_text cs sr : header_ok cs sr -> appends 15 (header_rest cs sr) (rest_text cs sr).
Proof.
  intros Hok. unfold rest_text, header_rest.
  apply (appends_bind 3 12); [now apply header_connection_text| |lia].
  apply (appends_bind 3 9); [now apply (header_location_text cs)| |lia].
  apply (appends_bind 2 7); [now apply (header_content_type_text cs)| |lia].
  apply (appends_bind 1 6); [apply header_te_text| |lia].
  apply (appends_bind 2 4); [now apply (header_encoding_text cs)| |lia].
  apply (appends_bind 2 2); [now apply (header_length_text cs)|apply header_range_text|lia].
Qed.

(** *** The whole header *)

Definition last_modified_text (sh : response_headers) : bytes :=
  if 0 <? sh_last_modified sh
  then lit "Last-Modified: " ++ take 31 (default [] (gmt_text (sh_last_modified sh))) else [].

(** The response header for the given status line, host signature and date,
    without and with its end. *)
Definition sections_text (status signature now : bytes) (cs : client_session) (sr : session_request) : bytes :=
  status ++ signature ++ crlf ++ lit "Date: " ++ now ++ last_modified_text (sr_headers sr) ++ rest_text cs sr.
Definition header_text (status signature now : bytes) (cs : client_session) (sr : session_request) : bytes :=
  sections_text status signature now cs sr ++ crlf.

(** The worker's state a response starts from: the shared vector is empty. *)
Record header_world (w : world) (now : bytes) : Prop := {
  hw_iov : iov_at (w_iov w) [] 0;
  hw_size : size (w_iov w) = 32;
  hw_time : reads (data (w_header_time w)) (len (w_header_time w)) now;
  hw_gmt : gmt_cache_ok (w_gmt w);
}.

Lemma header_last_modified_run w sh iov d k :
  gmt_cache_ok (w_gmt w) -> (0 < sh_last_modified sh -> gmtime_r (sh_last_modified sh) <> None) ->
  iov_at iov d k -> k + 2 <= size iov ->
  exists iov' k' gcache lm, gmt_cache_ok gcache /\
    header_last_modified sh iov w = Some (iov', w <| w_gmt := gcache |> <| w_lm := lm |>) /\
    iov_at iov' (d ++ last_modified_text sh) k' /\ k <= k' <= k + 2 /\ size iov' = size iov.
Proof.
  intros Hg Hd H Hk. unfold header_last_modified, last_modified_text. destruct (0 <? sh_last_modified sh) eqn:E; zbool.
  - set (date := sh_last_modified sh) in *.
    destruct (utime2gmt_facts (w_utime w) (w_gmt w) (w_lm w) date Hg) as (text & c' & Hrun & Htext & Hlen & Hg' & _);
      [lia|replace (date =? 0) with false by zb; now apply Hd|].
    replace (date =? 0) with false in Htext by zb. rewrite Htext. mrun. rewrite Hrun. unfold mod_w.
    change (default [] (Some text)) with text.
    assert (Hr : reads (Some text) 31 (take 31 text)).
    { rewrite <- (take_drop 31 text) at 1. apply reads_text; [rewrite length_take; lia|lia]. }
    destruct (appends_entry mk_header_last_modified {| data := Some text; len := u64 31 |} MK_IOV_NOT_FREE_BUF
      (lit "Last-Modified: ") (take 31 text)) with (iov := iov) (d := d) (k := k) as (iov' & k' & -> & A1 & A2 & A3).
    + unfold mk_header_last_modified. rewrite mk_pointer_init_lit. apply reads_lit. cbn. lia.
    + exact Hr.
    + done.
    + done.
    + exact Hk.
    + exists iov', k', c', text. split_and!; [done|reflexivity|done|lia| |done].
      change (entry_cells _) with 2 in A2. lia.
  - exists iov, k, (w_gmt w), (w_lm w). rewrite app_nil_r. split_and!; [done|by destruct w|done|lia|lia|done].
Qed.

(** A request whose response header can be sent: the status has a line, the
    virtual host a signature, the pointers of the response are readable; no
    plugin added rows and no CGI program writes the end of the header. *)
Record response_ready (w : world) (c : client_session) (r : session_request) (status signature now : bytes) : Prop := {
  rr_world : header_world w now;
  rr_header : header_ok c r;
  rr_status : exists p, response_line (sr_headers r) = Some p /\ reads (data p) (len p) status;
  rr_host : exists h, request_vhost r = Some h /\
    reads (data (h_header_host_signature h)) (len (h_header_host_signature h)) signature;
  rr_date : 0 < sh_last_modified (sr_headers r) -> gmtime_r (sh_last_modified (sr_headers r)) <> None;
  rr_rows : sh_extra_rows (sr_headers r) = None;
  rr_cgi : (sh_cgi (sr_headers r) =? SH_NOCGI) || (sh_breakline (sr_headers r) =? MK_HEADER_BREAKLINE) = true;
}.

Record sections_ready (w : world) (c : client_session) (r : session_request) (status signature now : bytes) : Prop := {
  sec_world : header_world w now;
  sec_header : header_ok c r;
  sec_status : exists p, response_line (sr_headers r) = Some p /\ reads (data p) (len p) status;
  sec_host : exists h, request_vhost r = Some h /\
    reads (data (h_header_host_signature h)) (len (h_header_host_signature h)) signature;
  sec_date : 0 < sh_last_modified (sr_headers r) -> gmtime_r (sh_last_modified (sr_headers r)) <> None
}.

Lemma response_sections w c r status signature now :
  response_ready w c r status signature now -> sections_ready w c r status signature now.
Proof. intros []. now split. Qed.

(** What sending a response header does: the network, after the cork, takes
    what it wants of the text. *)
Definition header_events (t : list event) (fd : Z) (text : bytes) : list event :=
  [EvCork fd TCP_CORK_ON;
   EvWrite fd (take (Z.to_nat (net_writev (t ++ [EvCork fd TCP_CORK_ON]) fd text)) text)].

(** The sections of a header that is ready fit the vector. *)
Lemma header_sections_run fd cs sr w c r status signature now :
  at_sr w cs sr c r -> sections_ready w c r status signature now ->
  exists iov k gc lm, gmt_cache_ok gc /\ iov_at iov (sections_text status signature now c r) k /\ k < 32 /\ size iov = 32 /\
    mk_header_send fd cs sr w = header_finish fd cs sr (sr_headers r) iov (w <| w_gmt := gc |> <| w_lm := lm |>).
Proof.
  intros [Hc Hr] [[Hiov Hsize Htime Hgmt] Hok (p & Hp & Hst) (h & Hh & Hsig) Hlm].
  unfold mk_header_send. mrun. rewrite (get_cs_run _ _ _ Hc), (get_sr_run _ _ _ _ _ Hc Hr), Hp.
  destruct (appends_entry p mk_iov_none MK_IOV_NOT_FREE_BUF status [] Hst reads_none ltac:(done) _ _ _ Hiov)
    as (iov1 & k1 & -> & A1 & B1 & C1); [change (entry_cells _) with 1; lia|]. change (entry_cells _) with 1 in B1.
  rewrite Hh.
  destruct (appends_entry (h_header_host_signature h) mk_iov_crlf MK_IOV_NOT_FREE_BUF signature _ Hsig reads_crlf ltac:(done) _ _ _ A1)
    as (iov2 & k2 & -> & A2 & B2 & C2); [change (entry_cells _) with 2; lia|]. change (entry_cells _) with 2 in B2.
  assert (Hcells : entry_cells (w_header_time w) <= 2) by (unfold entry_cells; case_if; lia).
  destruct (appends_entry mk_header_short_date (w_header_time w) MK_IOV_NOT_FREE_BUF (lit "Date: ") now) with
    (iov := iov2) (d := ([] ++ status ++ []) ++ signature ++ crlf) (k := k2) as (iov3 & k3 & -> & A3 & B3 & C3);
    [unfold mk_header_short_date; rewrite mk_pointer_init_lit; apply reads_lit; cbn; lia|done|done|done|lia|].
  destruct (header_last_modified_run w (sr_headers r) iov3 _ _ Hgmt Hlm A3)
    as (iov4 & k4 & gc & lm & Hgc & -> & A4 & B4 & C4); [lia|].
  destruct (header_rest_text c r Hok iov4 _ _ A4) as (iov5 & k5 & -> & A5 & B5 & C5); [lia|].
  exists iov5, k5, gc, lm. split; [done|]. split; [|split; [lia|split; [lia|reflexivity]]].
  match type of A5 with iov_at _ ?t _ => replace t with (sections_text status signature now c r) in A5
    by (unfold sections_text; cbn [app]; rewrite ?app_nil_r, <- !app_assoc; done) end.
  exact A5.
Qed.

(** One vector is sent. *)
Lemma mk_socket_sendv_run fd iov d k w :
  c_safe_event_write config = MK_FALSE -> iov_at iov d k ->
  exists n, mk_socket_sendv fd iov w = Some (n, w <| w_trace := w_trace w ++ [EvWrite fd (take (Z.to_nat (net_writev (w_trace w) fd d)) d)] |>).
Proof.
  intros Hsafe H. unfold mk_socket_sendv, mk_socket_safe_event_write. mrun. rewrite (at_data _ _ _ H), Hsafe.
  change (MK_FALSE =? MK_TRUE) with false. unfold mod_w. eauto.
Qed.

Lemma freed_world w iov d k now :
  iov_at iov d k -> size iov = 32 -> reads (data (w_header_time w)) (len (w_header_time w)) now -> gmt_cache_ok (w_gmt w) ->
  header_world (w <| w_iov := snd (mk_iov_free_marked iov) |>) now.
Proof.
  intros [D1 D2 D3 D4 D5 D6] Hs Ht Hg. split; [split; cbn; try done; lia|cbn; lia|done|done].
Qed.

Lemma mk_header_send_run fd cs sr w c r status signature now :
  at_sr w cs sr c r -> response_ready w c r status signature now -> c_safe_event_write config = MK_FALSE ->
  exists w', mk_header_send fd cs sr w = Some (0, w') /\
    w_trace w' = w_trace w ++ header_events (w_trace w) fd (header_text status signature now c r) /\
    core w' = core w /\ header_world w' now.
Proof.
  intros Hat Hready Hsafe. destruct (header_sections_run fd cs sr w c r status signature now Hat (response_sections _ _ _ _ _ _ Hready))
    as (iov & k & gc & lm & Hgc & Hiov & Hk & Hs & ->).
  destruct Hready as [[_ _ Htime _] _ _ _ _ Hrows Hcgi]. unfold header_finish, mk_socket_set_cork_flag, emit, mod_w, header_breakline. mrun.
  rewrite Hcgi, Hrows.
  destruct (appends_entry mk_iov_crlf mk_iov_none MK_IOV_NOT_FREE_BUF _ [] reads_crlf reads_none ltac:(done) _ _ _ Hiov)
    as (iov' & k' & -> & A & B & C); [change (entry_cells _) with 1; lia|]. mstep. rewrite app_nil_r in A. fold (header_text status signature now c r) in A.
  set (w1 := _ <| w_trace := _ |>). destruct (mk_socket_sendv_run fd iov' _ k' w1 Hsafe A) as (n & ->).
  eexists. split; [reflexivity|]. split; [|split].
  - subst w1. cbn [w_trace set_field]. rewrite <- app_assoc. reflexivity.
  - reflexivity.
  - apply (freed_world _ iov' _ k' now A); [lia|done|done].
Qed.

(** The header of an answer whose end a program writes. *)
Lemma mk_header_send_open fd cs sr w c r status signature now :
  at_sr w cs sr c r -> sections_ready w c r status signature now -> c_safe_event_write config = MK_FALSE ->
  sh_extra_rows (sr_headers r) = None -> (sh_cgi (sr_headers r) =? SH_NOCGI) || (sh_breakline (sr_headers r) =? MK_HEADER_BREAKLINE) = false ->
  exists w', mk_header_send fd cs sr w = Some (0, w') /\
    w_trace w' = w_trace w ++ header_events (w_trace w) fd (sections_text status signature now c r) /\
    core w' = core w /\ header_world w' now.
Proof.
  intros Hat Hready Hsafe Hrows Hcgi. destruct (header_sections_run fd cs sr w c r status signature now Hat Hready)
    as (iov & k & gc & lm & Hgc & Hiov & Hk & Hs & ->).
  destruct Hready as [[_ _ Htime _] _ _ _ _]. unfold header_finish, mk_socket_set_cork_flag, emit, mod_w, header_breakline. mrun.
  rewrite Hcgi, Hrows. set (w1 := _ <| w_trace := _ |>). destruct (mk_socket_sendv_run fd iov _ k w1 Hsafe Hiov) as (n & ->).
  eexists. split; [reflexivity|]. split; [|split].
  - subst w1. cbn [w_trace set_field]. rewrite <- app_assoc. reflexivity.
  - reflexivity.
  - apply (freed_world _ iov _ k now Hiov); [lia|done|done].
Qed.

(** C21: for a response whose status has a line, without rows of plugins, whose
    header the server ends itself (no answer of a CGI program) and whose length
    is below 2^31, with SafeEventWrite off: [mk_header_send] gives the network
    exactly the response header: status line, server signature, date, then the
    optional fields in their order, each ended by CRLF, and the empty line. It
    never overflows its vector of 32 cells, and leaves it empty for the next
    response, with the date cache coherent and queues and sessions untouched. *)
Theorem mk_header_send_text fd cs sr w c r status signature now :
  at_sr w cs sr c r -> response_ready w c r status signature now -> c_safe_event_write config = MK_FALSE ->
  exists w', mk_header_send fd cs sr w = Some (0, w') /\
    w_trace w' = w_trace w ++ header_events (w_trace w) fd (header_text status signature now c r) /\
    core w' = core w /\ header_world w' now.
Proof. apply mk_header_send_run. Qed.

(** With rows of plugins two vectors are sent, the rows and the end of the
    header after the sections. *)
Definition rows_events (t : list event) (fd : Z) (text rows : bytes) : list event :=
  let t := t ++ [EvCork fd TCP_CORK_ON] in
  let e := EvWrite fd (take (Z.to_nat (net_writev t fd text)) text) in
  [EvCork fd TCP_CORK_ON; e; EvWrite fd (take (Z.to_nat (net_writev (t ++ [e]) fd rows)) rows)].

Lemma mk_header_send_rows fd cs sr w c r status signature now rows d k :
  at_sr w cs sr c r -> sections_ready w c r status signature now -> c_safe_event_write config = MK_FALSE ->
  sh_extra_rows (sr_headers r) = Some rows -> iov_at rows d k -> k + 1 <= size rows -> sh_cgi (sr_headers r) = SH_NOCGI ->
  exists w' c' r', mk_header_send fd cs sr w = Some (0, w') /\ at_sr w' cs sr c' r' /\
    w_trace w' = w_trace w ++ rows_events (w_trace w) fd (sections_text status signature now c r) (d ++ crlf) /\
    w_sched w' = w_sched w /\ header_world w' now.
Proof.
  intros Hat Hready Hsafe Hrows Hd Hk Hcgi.
  destruct (header_sections_run fd cs sr w c r status signature now Hat Hready) as (iov & k1 & gc & lm & Hgc & Hiov & Hk1 & Hs & ->).
  destruct Hready as [[_ _ Htime _] _ _ _ _]. unfold header_finish, mk_socket_set_cork_flag, emit, mod_w, header_breakline. mrun.
  rewrite Hcgi, Hrows. change (SH_NOCGI =? SH_NOCGI) with true. cbn [orb].
  destruct (appends_entry mk_iov_crlf mk_iov_none MK_IOV_NOT_FREE_BUF _ [] reads_crlf reads_none ltac:(done) _ _ _ Hd)
    as (rows' & k' & -> & A & B & C); [change (entry_cells _) with 1; lia|]. mstep. rewrite app_nil_r in A.
  set (w1 := _ <| w_trace := _ |>). destruct (mk_socket_sendv_run fd iov _ k1 w1 Hsafe Hiov) as (n & ->). mstep.
  set (w2 := _ <| w_trace := _ |>). destruct (mk_socket_sendv_run fd rows' _ k' w2 Hsafe A) as (n' & ->). mstep.
  set (w3 := _ <| w_trace := _ |>). assert (Hat3 : at_sr w3 cs sr c r) by (destruct Hat; now split).
  destruct (mod_sr_run cs sr (set_headers (fun sh => sh <| sh_extra_rows := None |>)) w3 c r Hat3) as [-> Hat4]. mstep.
  eexists _, _, _. split; [reflexivity|]. split; [destruct Hat4; split; [eassumption|eassumption]|]. split; [|split].
  - subst w3 w2 w1. cbn [w_trace set_field]. unfold rows_events. cbn [app]. rewrite <- !app_assoc. reflexivity.
  - reflexivity.
  - apply (freed_world _ iov _ k1 now Hiov); [lia|done|done].
Qed.

End HeaderText.

(** ** Error responses *)

(** MK_REQUEST_DEFAULT_PAGE, filled in. *)
Definition default_page_text (title message signature : bytes) : bytes :=
  lit "<HTML><HEAD><STYLE type=" ++ [34] ++ lit "text/css" ++ [34] ++
  lit "> body {font-size: 12px;} </STYLE></HEAD><BODY><H1>" ++ title ++ lit "</H1>" ++ message ++
  lit "<BR><HR><ADDRESS>Powered by " ++ signature ++ lit "</ADDRESS></BODY></HTML>".

Definition mk_request_set_default_page (title : string) (message : mk_pointer) (signature : bytes) : option mk_pointer :=
  temp ← mk_pointer_to_buf message;
  m ← cstr temp; s ← cstr signature;
  '(b, n) ← mk_string_build (default_page_text (lit title) m s);
  Some {| data := Some b; len := n |}.

(** The page of a status; inner [None] when there is none. *)
Definition error_page_for (http_status : Z) (uri : mk_pointer) (signature : bytes) : option (option mk_pointer) :=
  let page title message := p ← mk_request_set_default_page title message signature; Some (Some p) in
  if http_status =? MK_CLIENT_BAD_REQUEST then page "Bad Request" uri
  else if http_status =? MK_CLIENT_FORBIDDEN then page "Forbidden" uri
  else if http_status =? MK_CLIENT_NOT_FOUND then
    page "Not Found" (lit_pointer (lit "The requested URL was not found on this server."))
  else if http_status =? MK_CLIENT_REQUEST_ENTITY_TOO_LARGE then
    page "Entity too large" (lit_pointer (lit "The request entity is too large."))
  else if http_status =? MK_CLIENT_METHOD_NOT_ALLOWED then page "Method Not Allowed" uri
  else if http_status =? MK_SERVER_NOT_IMPLEMENTED then page "Method Not Implemented" uri
  else if http_status =? MK_SERVER_INTERNAL_ERROR then page "Internal Server Error" uri
  else if http_status =? MK_SERVER_HTTP_VERSION_UNSUP then page "HTTP Version Not Supported" mk_pointer_reset
  else Some None.

Section WithEnv.
Context `{env : Env}.

Definition sys_open_ev (path : bytes) (flags : Z) : M Z :=
  t ← gets w_trace;
  let fd := sys_open t path flags in
  emit (EvOpen path flags fd);; mret fd.

(** The customized page of the virtual host for the status: its descriptor and
    information. Only the first one is tried. *)
Definition custom_error_page (h : host) (http_status : Z) : M (option (Z * file_info)) :=
  match List.find (fun e => ep_status e =? http_status) (h_error_pages h) with
  | None => mret None
  | Some entry =>
    path ← lift (cstr (ep_real_path entry));
    '(ret, finfo) ← mk_file_get_info path file_info_init;
    if ret =? -1 then mret None else
    fd ← sys_open_ev path (c_open_flags config);
    if fd =? -1 then mret None else mret (Some (fd, finfo))
  end.

Definition mk_request_error (http_status : Z) (cs sr : nat) : M Z :=
  mk_header_set_http_status cs sr http_status;;
  c ← get_cs cs;
  r ← get_sr cs sr;
  h ← lift (request_vhost r);
  custom ← (if negb (http_status =? MK_CLIENT_LENGTH_REQUIRED) && negb (http_status =? MK_CLIENT_BAD_REQUEST) &&
               negb (http_status =? MK_CLIENT_REQUEST_ENTITY_TOO_LARGE)
            then custom_error_page h http_status else mret None);
  match custom with
  | Some (fd, finfo) =>
    mod_sr cs sr (fun r => set_headers (fun sh => sh <| sh_content_length := fi_size finfo |>
                                                    <| sh_real_length := fi_size finfo |>)
      (r <| sr_fd_file := fd |> <| sr_bytes_to_send := fi_size finfo |> <| sr_file_info := finfo |>));;
    _ ← mk_header_send (cs_socket c) cs sr;
    mk_http_send_file cs sr
  | None =>
    page ← lift (error_page_for http_status (sr_uri r) (h_host_signature h));
    mod_sr cs sr (set_headers (fun sh =>
      (match page with Some p => sh <| sh_content_length := len p |> | None => sh end)
      <| sh_location := None |> <| sh_cgi := SH_NOCGI |> <| sh_pconnections_left := 0 |>
      <| sh_last_modified := -1 |>
      <| sh_content_type := match page with
                            | None => mk_pointer_reset
                            | Some _ => lit_pointer (lit "text/html" ++ [13; 10])
                            end |>));;
    _ ← mk_header_send (cs_socket c) cs sr;
    match page with
    | Some p =>
      r ← get_sr cs sr;
      if negb (sr_method r =? HTTP_METHOD_HEAD) then
        b ← lift (data p); _ ← mk_socket_send (cs_socket c) b (len p); mret tt
      else mret tt
    | None => mret tt
    end;;
    mk_socket_set_cork_flag (cs_socket c) TCP_CORK_OFF;;
    mret EXIT_ERROR
  end.

End WithEnv.

(** ** Properties of file sending and error responses *)

Section Responses.
Context `{env : Env}.

(** The request after the network sent [n] bytes of its file. *)
Definition sent_more (r : session_request) (n : Z) : session_request :=
  r <| sr_bytes_offset := sr_bytes_offset r + Z.max 0 n |> <| sr_bytes_to_send := sr_bytes_to_send r - Z.max 0 n |>
    <| sr_loop := sr_loop r + 1 |>.

(** One call of the network, and the cork removed after the last byte. *)
Definition send_events (c : client_session) (r : session_request) (n : Z) : list event :=
  EvSendFile (cs_socket c) (sr_fd_file r) (sr_bytes_offset r) (sr_bytes_to_send r) n ::
  (if (0 <? n) && (sr_bytes_to_send r =? n) then [EvCork (cs_socket c) TCP_CORK_OFF] else []).

Lemma mk_socket_send_file_run fd file off count w :
  c_safe_event_write config = MK_FALSE ->
  let n := net_send_file (w_trace w) fd file off count in
  mk_socket_send_file fd file off count w =
  Some ((i32 n, if 0 <? n then off + n else off), logged w [EvSendFile fd file off count n]).
Proof.
  intros Hsafe n. unfold mk_socket_send_file, mk_socket_safe_event_write. mrun. now rewrite Hsafe.
Qed.

Lemma cork_run (b : bool) fd w :
  (if b then mk_socket_set_cork_flag fd TCP_CORK_OFF else mret tt) w =
  Some (tt, logged w (if b then [EvCork fd TCP_CORK_OFF] else [])).
Proof. destruct b; [done|]. now rewrite logged_nil. Qed.

Lemma mk_http_send_file_run cs sr w c r n :
  at_sr w cs sr c r -> c_safe_event_write config = MK_FALSE ->
  net_send_file (w_trace w) (cs_socket c) (sr_fd_file r) (sr_bytes_offset r) (sr_bytes_to_send r) = n ->
  - 2 ^ 31 <= n < 2 ^ 31 ->
  mk_http_send_file cs sr w =
  Some (if n <? 0 then EXIT_ABORT else i32 (sr_bytes_to_send r - n),
        upd_sr (logged w (send_events c r n)) cs sr c (sent_more r n)).
Proof.
  intros Hat Hsafe Hn Hr. unfold mk_http_send_file.
  rewrite (bind_run _ _ _ _ _ (get_cs_run _ _ _ (at_cs _ _ _ _ _ Hat))).
  rewrite (bind_run _ _ _ _ _ (get_sr_run _ _ _ _ _ (at_cs _ _ _ _ _ Hat) (at_req _ _ _ _ _ Hat))).
  rewrite (bind_run _ _ _ _ _ (mk_socket_send_file_run _ _ _ _ w Hsafe)), Hn, i32_small by lia.
  set (w1 := logged w _). assert (H1 : at_sr w1 cs sr c r) by now apply logged_at.
  rewrite (bind_run _ _ _ _ _ (mod_sr_upd _ _ _ _ _ _ H1)). unfold send_events, sent_more.
  destruct (0 <? n) eqn:E; zbool; cbn [andb].
  - rewrite Z.max_r by lia. replace (n <? 0) with false by zb.
    unfold mbind at 1, M_bind at 1. rewrite (bind_run _ _ _ _ _ (mod_upd_sr _ _ _ _ _ _ _ H1)).
    rewrite (bind_run _ _ _ _ _ (get_upd_sr _ _ _ _ _ _ H1)), cork_run. cbn [sr_bytes_to_send set_field].
    replace (sr_bytes_to_send r - n =? 0) with (sr_bytes_to_send r =? n) by zb.
    set (t := if _ =? _ then _ else _). change (logged (upd_sr w1 cs sr c ?r) t) with (upd_sr (logged w1 t) cs sr c r).
    assert (H2 : at_sr (logged w1 t) cs sr c r) by now apply logged_at.
    rewrite (bind_run _ _ _ _ _ (mod_upd_sr _ _ _ _ _ _ _ H2)), (bind_run _ _ _ _ _ (get_upd_sr _ _ _ _ _ _ H2)).
    unfold w1. rewrite logged_app. reflexivity.
  - rewrite Z.max_l, Z.sub_0_r, Z.add_0_r by lia.
    unfold mbind at 1, M_bind at 1, mret at 1, M_ret at 1. rewrite (bind_run _ _ _ _ _ (mod_upd_sr _ _ _ _ _ _ _ H1)).
    destruct (n <? 0) eqn:E2; zbool; [reflexivity|]. assert (n = 0) as -> by lia. rewrite Z.sub_0_r.
    rewrite (bind_run _ _ _ _ _ (get_upd_sr _ _ _ _ _ _ H1)). reflexivity.
Qed.

(** with [n] the network's answer to sending the rest of the file,
    [mk_http_send_file] advances the offset and lowers the count by what was
    sent, uncorks exactly when nothing is left, and fails when [n] is negative.
    Its result is the count left cut to an [int]: positive exactly while bytes
    remain when fewer than 2^31 do, and no longer beyond, where a transfer in
    progress looks finished. *)
Theorem mk_http_send_file_progress cs sr w c r n :
  at_sr w cs sr c r -> c_safe_event_write config = MK_FALSE ->
  net_send_file (w_trace w) (cs_socket c) (sr_fd_file r) (sr_bytes_offset r) (sr_bytes_to_send r) = n ->
  n <= sr_bytes_to_send r -> - 2 ^ 31 <= n < 2 ^ 31 ->
  exists ret w' c' r', mk_http_send_file cs sr w = Some (ret, w') /\ at_sr w' cs sr c' r' /\
    let sent := Z.max 0 n in
    let left := sr_bytes_to_send r - sent in
    sr_bytes_to_send r' = left /\ sr_bytes_offset r' = sr_bytes_offset r + sent /\
    w_trace w' = w_trace w ++
      EvSendFile (cs_socket c) (sr_fd_file r) (sr_bytes_offset r) (sr_bytes_to_send r) n ::
      (if (0 <? n) && (left =? 0) then [EvCork (cs_socket c) TCP_CORK_OFF] else []) /\
    ret = (if n <? 0 then EXIT_ABORT else i32 left) /\
    (0 <= n -> left < 2 ^ 31 -> 0 < ret <-> 0 < left) /\
    (0 <= n -> 2 ^ 31 <= left < 2 ^ 32 -> ret < 0).
Proof.
  intros Hat Hsafe Hn Hle Hr.
  assert (Hres : forall left, 0 <= left -> (left < 2 ^ 31 -> 0 < i32 left <-> 0 < left) /\ (2 ^ 31 <= left < 2 ^ 32 -> i32 left < 0)).
  { intros l Hl. split; intros Hb; [rewrite i32_small by lia; lia|]. unfold i32.
    rewrite <- (Z.mod_unique (l + 2 ^ 31) (2 ^ 32) 1 (l - 2 ^ 31)); lia. }
  eexists _, _, _, _. split; [exact (mk_http_send_file_run _ _ _ _ _ n Hat Hsafe Hn Hr)|]. split; [eapply upd_sr_at, logged_at, Hat|].
  cbn zeta. split; [done|]. split; [done|].
  destruct (n <? 0) eqn:E; zbool.
  - rewrite Z.max_l by lia. cbn. unfold send_events. replace (0 <? n) with false by zb. split_and!; [done|done|lia|lia].
  - rewrite Z.max_r by lia. destruct (Hres (sr_bytes_to_send r - n)) as [A B]; [lia|]. split_and!; [|done|done|done].
    cbn. unfold send_events. destruct (Z.eqb_spec (sr_bytes_to_send r) n), (Z.eqb_spec (sr_bytes_to_send r - n) 0); done || lia.
Qed.

(** The headers of an error response. *)
Definition error_headers (http_status : Z) (page : option mk_pointer) (sh : response_headers) : response_headers :=
  let sh := sh <| sh_status := http_status |> in
  (match page with Some p => sh <| sh_content_length := len p |> | None => sh end)
  <| sh_location := None |> <| sh_cgi := SH_NOCGI |> <| sh_pconnections_left := 0 |> <| sh_last_modified := -1 |>
  <| sh_content_type := match page with
                        | None => mk_pointer_reset
                        | Some _ => lit_pointer (lit "text/html" ++ [13; 10])
                        end |>.

(** No page of the virtual host is meant for the status. *)
Definition no_custom_page (h : host) (http_status : Z) : Prop :=
  http_status = MK_CLIENT_LENGTH_REQUIRED \/ http_status = MK_CLIENT_BAD_REQUEST \/
  http_status = MK_CLIENT_REQUEST_ENTITY_TOO_LARGE \/
  List.find (fun e => ep_status e =? http_status) (h_error_pages h) = None.

(** What [mk_request_error] needs of its request. *)
Record error_ready (w : world) (c : client_session) (r : session_request) (h : host) (http_status : Z)
    (page : option mk_pointer) (status signature now : bytes) : Prop := {
  er_world : header_world w now;
  er_host : request_vhost r = Some h;
  er_signature : reads (data (h_header_host_signature h)) (len (h_header_host_signature h)) signature;
  er_custom : no_custom_page h http_status;
  er_status : List.find (fun e => fst e =? http_status) status_response = Some (http_status, status);
  er_page : error_page_for http_status (sr_uri r) (h_host_signature h) = Some page;
  er_text : match page with Some p => len p < 2 ^ 31 /\ exists t, view p = Some t | None => True end;
  er_encoding : readable (sh_content_encoding (sr_headers r));
  er_length : sh_content_length (sr_headers r) < 2 ^ 31;
  er_left : - 2 ^ 31 < c_max_keep_alive_request config - cs_counter_connections c < 2 ^ 31;
  er_rows : sh_extra_rows (sr_headers r) = None;
}.

Lemma readable_literal t : Z.of_nat (length t) < 2 ^ 64 -> readable (lit_pointer t).
Proof.
  intros H. split; [cbn; lia|]. intros _. exists t. unfold view. cbn.
  rewrite memread_take by (rewrite length_app; lia). now rewrite Nat2Z.id, take_app_length.
Qed.

Lemma custom_error_page_none h http_status w :
  no_custom_page h http_status ->
  (if negb (http_status =? MK_CLIENT_LENGTH_REQUIRED) && negb (http_status =? MK_CLIENT_BAD_REQUEST) &&
      negb (http_status =? MK_CLIENT_REQUEST_ENTITY_TOO_LARGE)
   then custom_error_page h http_status else mret None) w = Some (None, w).
Proof.
  intros [->|[->|[->|Hf]]]; [done..|]. case_if; [|done]. unfold custom_error_page. now rewrite Hf.
Qed.

Lemma error_response_ready w c r h http_status page status signature now c' r' :
  error_ready w c r h http_status page status signature now -> status <> [] -> Z.of_nat (length status) < 2 ^ 64 ->
  header_world w now -> http_status <> MK_CUSTOM_STATUS ->
  sr_headers r' = error_headers http_status page (sr_headers r) -> sr_host_conf r' = sr_host_conf r ->
  cs_counter_connections c' = cs_counter_connections c ->
  response_ready w c' r' status signature now.
Proof.
  intros [_ Hh Hsig _ Hst _ Htext Henc Hlen Hleft Hrows] _ Hsl Hw Hnc Hhd Hhc Hcc.
  assert (Hstat : sh_status (sr_headers r') = http_status) by (rewrite Hhd; unfold error_headers; now destruct page).
  split; try done.
  - split; rewrite ?Hhd, ?Hcc; unfold error_headers; try done.
    + destruct page; cbn; [apply readable_literal; cbn; lia|]. split; cbn; [lia|lia].
    + now destruct page.
    + destruct page; cbn; [tauto|done].
  - exists (lit_pointer status). unfold response_line. rewrite Hstat, Hst.
    replace (http_status =? MK_CUSTOM_STATUS) with false by zb. split; [done|]. now apply reads_lit.
  - exists h. split; [|done]. unfold request_vhost in *. now rewrite Hhc.
  - rewrite Hhd. unfold error_headers. destruct page; cbn; lia.
  - rewrite Hhd. unfold error_headers. now destruct page.
  - rewrite Hhd. unfold error_headers. now destruct page.
Qed.

(** The page of an error response. *)
Definition page_events (t : list event) (fd method : Z) (page : option mk_pointer) : list event :=
  match page with
  | Some p => if method =? HTTP_METHOD_HEAD then []
              else let text := default [] (view p) in [EvWrite fd (take (Z.to_nat (net_write t fd text)) text)]
  | None => []
  end.

Lemma mk_request_error_run http_status cs sr w c r h page status signature now :
  at_sr w cs sr c r -> error_ready w c r h http_status page status signature now ->
  c_safe_event_write config = MK_FALSE ->
  exists w' c' r', mk_request_error http_status cs sr w = Some (EXIT_ERROR, w') /\
    at_sr w' cs sr c' r' /\ r' = r <| sr_headers := error_headers http_status page (sr_headers r) |> /\
    c' = c <| cs_request_list := <[sr := r']> (cs_request_list c) |> /\
    (let t := w_trace w ++ header_events (w_trace w) (cs_socket c) (header_text status signature now c' r') in
     w_trace w' = t ++ page_events t (cs_socket c) (sr_method r) page ++ [EvCork (cs_socket c) TCP_CORK_OFF]) /\
    w_sched w' = w_sched w /\ header_world w' now.
Proof.
  intros Hat Hready Hsafe. unfold mk_request_error, mk_header_set_http_status. mrun.
  destruct (mod_sr_run cs sr (set_headers (fun sh => sh <| sh_status := http_status |>)) w c r Hat) as [-> H1].
  set (w1 := w <| w_sessions := _ |>) in *. set (c1 := c <| cs_request_list := _ |>) in *.
  set (r1 := set_headers _ r) in *.
  rewrite (get_cs_run _ _ _ (at_cs _ _ _ _ _ H1)), (get_sr_run _ _ _ _ _ (at_cs _ _ _ _ _ H1) (at_req _ _ _ _ _ H1)).
  assert (Hh : request_vhost r1 = Some h) by apply Hready. rewrite Hh.
  pose proof (custom_error_page_none h http_status w1 (er_custom _ _ _ _ _ _ _ _ _ Hready)) as Hcust.
  unfold mret, M_ret in Hcust. rewrite Hcust.
  change (sr_uri r1) with (sr_uri r). rewrite (er_page _ _ _ _ _ _ _ _ _ Hready).
  match goal with |- context [mod_sr cs sr ?f w1] => destruct (mod_sr_run cs sr f w1 c1 r1 H1) as [-> H2] end.
  set (w2 := w1 <| w_sessions := _ |>) in *. set (c2 := c1 <| cs_request_list := _ |>) in *.
  set (r2 := set_headers _ r1) in *.
  assert (Hr2 : r2 = r <| sr_headers := error_headers http_status page (sr_headers r) |>) by reflexivity.
  assert (Hc2 : c2 = c <| cs_request_list := <[sr := r2]> (cs_request_list c) |>).
  { unfold c2, c1. cbn [cs_request_list set_field]. now rewrite list_insert_insert_eq. }
  assert (Hstat : 100 <= http_status /\ status <> [] /\ Z.of_nat (length status) < 2 ^ 64).
  { pose proof (er_status _ _ _ _ _ _ _ _ _ Hready) as Hf. apply List.find_some in Hf as [Hin Hz]. clear -Hin.
    assert (Hall : Forall (fun e => 100 <= fst e /\ snd e <> [] /\ Z.of_nat (length (snd e)) < 2 ^ 64) status_response)
      by (apply (bool_decide_unpack _); vm_compute; exact I).
    rewrite List.Forall_forall in Hall. now apply Hall in Hin. }
  destruct Hstat as (Hs1 & Hs2 & Hs3).
  assert (Hw2 : header_world w2 now) by (destruct (er_world _ _ _ _ _ _ _ _ _ Hready); split; assumption).
  assert (Hrr : response_ready w2 c2 r2 status signature now).
  { apply (error_response_ready w2 c r h http_status page);
      [|exact Hs2|exact Hs3|exact Hw2|unfold MK_CUSTOM_STATUS; lia|reflexivity|reflexivity|reflexivity].
    destruct Hready; split; assumption. }
  destruct (mk_header_send_run (cs_socket c1) cs sr w2 c2 r2 status signature now H2 Hrr Hsafe)
    as (w3 & -> & Ht3 & Hcore3 & Hw3).
  pose proof (core_at_sr _ _ _ _ _ _ Hcore3 H2) as H3.
  assert (Hsch : w_sched w3 = w_sched w) by exact (core_sched _ _ Hcore3).
  unfold mk_socket_set_cork_flag, emit, mod_w. change (cs_socket c1) with (cs_socket c) in *.
  destruct page as [p|].
  - rewrite (get_sr_run _ _ _ _ _ (at_cs _ _ _ _ _ H3) (at_req _ _ _ _ _ H3)). change (sr_method r2) with (sr_method r).
    destruct (er_text _ _ _ _ _ _ _ _ _ Hready) as (_ & t & Hview). unfold page_events. rewrite Hview. cbn [default].
    unfold view in Hview. destruct (data p) as [b|] eqn:Eb; [|done]. cbn in Hview.
    destruct (sr_method r =? HTTP_METHOD_HEAD); cbn [negb].
    + eexists _, c2, r2. split; [reflexivity|]. split; [destruct H3; split; done|].
      split; [exact Hr2|]. split; [exact Hc2|]. split; [|split; [exact Hsch|destruct Hw3; split; done]].
      cbn [w_trace set_field]. rewrite Ht3, <- !app_assoc. reflexivity.
    + unfold mk_socket_send, mk_socket_safe_event_write. mrun. rewrite Hview, Hsafe.
      change (MK_FALSE =? MK_TRUE) with false. unfold mod_w. cbv iota.
      eexists _, c2, r2. split; [reflexivity|]. split; [destruct H3; split; done|].
      split; [exact Hr2|]. split; [exact Hc2|]. split; [|split; [exact Hsch|destruct Hw3; split; done]].
      cbn [w_trace set_field]. rewrite Ht3, <- !app_assoc. reflexivity.
  - eexists _, c2, r2. split; [reflexivity|]. split; [destruct H3; split; done|].
    split; [exact Hr2|]. split; [exact Hc2|]. split; [|split; [exact Hsch|destruct Hw3; split; done]].
    cbn [w_trace set_field]. rewrite Ht3, <- !app_assoc. reflexivity.
Qed.

(** [mk_request_error], when the virtual host has no page of its own for
    the status, sends the header of that status (with the length of the default
    page, closing the connection), then the page, except to HEAD, and uncorks.
    It returns EXIT_ERROR, and changes nothing else than the response headers
    of the request. *)
Theorem mk_request_error_reply http_status cs sr w c r h page status signature now :
  at_sr w cs sr c r -> error_ready w c r h http_status page status signature now ->
  c_safe_event_write config = MK_FALSE ->
  exists w' c' r', mk_request_error http_status cs sr w = Some (EXIT_ERROR, w') /\
    at_sr w' cs sr c' r' /\ r' = r <| sr_headers := error_headers http_status page (sr_headers r) |> /\
    c' = c <| cs_request_list := <[sr := r']> (cs_request_list c) |> /\
    (let t := w_trace w ++ header_events (w_trace w) (cs_socket c) (header_text status signature now c' r') in
     w_trace w' = t ++ page_events t (cs_socket c) (sr_method r) page ++ [EvCork (cs_socket c) TCP_CORK_OFF]) /\
    w_sched w' = w_sched w /\ header_world w' now.
Proof. apply mk_request_error_run. Qed.

End Responses.

(** *** A request for "/a.html" *)

Definition get_request (uri : string) : session_request :=
  mk_request_init <| sr_method := HTTP_METHOD_GET |> <| sr_protocol := HTTP_PROTOCOL_11 |>
    <| sr_uri := mk_pointer_init uri |> <| sr_uri_processed := mk_pointer_init uri |>
    <| sr_host_conf := Some O |> <| sr_user_home := MK_FALSE |>.
Definition request_session (r : session_request) : client_session :=
  session_example [] 0 <| cs_request_list := [r] |>.
Definition request_world (r : session_request) : world := example_world <| w_sessions := [(1%nat, request_session r)] |>.

Lemma request_world_at r : at_sr (request_world r) 1 0 (request_session r) r.
Proof. split; reflexivity. Qed.

Lemma header_world_example r : header_world (request_world r) (lit "now").
Proof.
  split; [split; done| done | | apply gmt_cache_init_ok].
  change (w_header_time _) with (mk_pointer_init "now"). rewrite mk_pointer_init_lit. apply reads_lit. cbn. lia.
Qed.

(** The response to "/a.html": 5 bytes of HTML. *)
Definition ok_request : session_request :=
  set_headers (fun sh => sh <| sh_status := MK_HTTP_OK |> <| sh_content_length := 5 |> <| sh_real_length := 5 |>
    <| sh_last_modified := 1000 |> <| sh_content_type := {| data := Some (lit "text/html" ++ [13; 10; 0]); len := 11 |} |>)
    (get_request "/a.html").

Lemma ok_request_ready :
  @response_ready example_env (request_world ok_request) (request_session ok_request) ok_request
    (lit "HTTP/1.1 200 OK" ++ [13; 10]) (lit "Server: Monkey") (lit "now").
Proof.
  split; [apply header_world_example | | | | intros _; vm_compute; discriminate | done | done].
  - split; [split; cbn; [lia|intros _; eexists; reflexivity] | split; cbn; lia | done | cbn; lia | cbn; lia].
  - eexists. split; [reflexivity|]. now apply reads_lit.
  - eexists. split; [reflexivity|]. apply (reads_lit (lit "Server: Monkey")). cbn. lia.
Qed.

Lemma mk_header_send_witness :
  exists w', @mk_header_send example_env 5 1 0 (request_world ok_request) = Some (0, w') /\
    w_trace w' = [] ++ @header_events example_env [] 5 (@header_text example_env (lit "HTTP/1.1 200 OK" ++ [13; 10])
      (lit "Server: Monkey") (lit "now") (request_session ok_request) ok_request) /\
    core w' = core (request_world ok_request) /\ header_world w' (lit "now").
Proof.
  apply (@mk_header_send_text example_env 5 1 0 (request_world ok_request)); [apply request_world_at | | reflexivity].
  apply ok_request_ready.
Defined.

Example header_text_example :
  @header_text example_env (lit "HTTP/1.1 200 OK" ++ [13; 10]) (lit "Server: Monkey") (lit "now" ++ [13; 10])
    (request_session ok_request) ok_request =
  lit "HTTP/1.1 200 OK" ++ [13; 10] ++ lit "Server: Monkey" ++ [13; 10] ++ lit "Date: now" ++ [13; 10] ++
  lit "Last-Modified: Thu, 01 Jan 1970 00:16:40 GMT" ++ [13; 10] ++ lit "Connection: Close" ++ [13; 10] ++
  lit "Content-Type: text/html" ++ [13; 10] ++ lit "Content-Length: 5" ++ [13; 10; 13; 10].
Proof. vm_compute. reflexivity. Qed.

Definition sending_request : session_request := ok_request <| sr_bytes_to_send := 5 |> <| sr_bytes_offset := 0 |>.

Lemma mk_http_send_file_witness :
  exists ret w' c' r', @mk_http_send_file example_env 1 0 (request_world sending_request) = Some (ret, w') /\
    at_sr w' 1 0 c' r' /\
    let sent := Z.max 0 5 in
    let left := 5 - sent in
    sr_bytes_to_send r' = left /\ sr_bytes_offset r' = 0 + sent /\
    w_trace w' = [] ++ EvSendFile 5 (sr_fd_file sending_request) 0 5 5 ::
      (if (0 <? 5) && (left =? 0) then [EvCork 5 TCP_CORK_OFF] else []) /\
    ret = (if 5 <? 0 then EXIT_ABORT else i32 left) /\
    (0 <= 5 -> left < 2 ^ 31 -> 0 < ret <-> 0 < left) /\
    (0 <= 5 -> 2 ^ 31 <= left < 2 ^ 32 -> ret < 0).
Proof.
  apply (@mk_http_send_file_progress example_env 1 0 (request_world sending_request) (request_session sending_request)
    sending_request 5); [apply request_world_at | reflexivity | reflexivity | cbn; lia | lia].
Defined.

Definition backward_request : session_request := get_request "/a/../b".
Definition forbidden_page : option mk_pointer :=
  default None (error_page_for MK_CLIENT_FORBIDDEN (sr_uri backward_request) (clit "Monkey")).

Lemma forbidden_ready :
  @error_ready example_env (request_world backward_request) (request_session backward_request) backward_request
    (hd {| h_file := []; h_server_names := []; h_documentroot := mk_pointer_reset; h_host_signature := [];
           h_header_host_signature := mk_pointer_reset; h_error_pages := [] |} (c_hosts (@config example_env)))
    MK_CLIENT_FORBIDDEN forbidden_page (lit "HTTP/1.1 403 Forbidden" ++ [13; 10]) (lit "Server: Monkey") (lit "now").
Proof.
  split.
  - apply header_world_example.
  - reflexivity.
  - apply (reads_lit (lit "Server: Monkey")). cbn. lia.
  - right; right; right. reflexivity.
  - reflexivity.
  - vm_compute. reflexivity.
  - split; [vm_compute; reflexivity|]. eexists. vm_compute. reflexivity.
  - split; cbn; lia.
  - cbn. lia.
  - cbn. lia.
  - reflexivity.
Qed.

Lemma mk_request_error_witness :
  exists w' c' r', @mk_request_error example_env MK_CLIENT_FORBIDDEN 1 0 (request_world backward_request) =
      Some (EXIT_ERROR, w') /\
    at_sr w' 1 0 c' r' /\
    r' = backward_request <| sr_headers := error_headers MK_CLIENT_FORBIDDEN forbidden_page (sr_headers backward_request) |> /\
    c' = request_session backward_request <| cs_request_list := <[0%nat := r']> [backward_request] |> /\
    (let t := [] ++ @header_events example_env [] 5 (@header_text example_env
        (lit "HTTP/1.1 403 Forbidden" ++ [13; 10]) (lit "Server: Monkey") (lit "now") c' r') in
     w_trace w' = t ++ @page_events example_env t 5 HTTP_METHOD_GET forbidden_page ++ [EvCork 5 TCP_CORK_OFF]) /\
    w_sched w' = w_sched example_world /\ header_world w' (lit "now").
Proof.
  apply (@mk_request_error_reply example_env MK_CLIENT_FORBIDDEN 1 0 (request_world backward_request)
    (request_session backward_request) backward_request _ _ _ _ _ (request_world_at _) forbidden_ready eq_refl).
Defined.
