(* ===== verification/MkHttp.v ===== *)
(** * mk_http.c, mk_user.c, mk_method.c, mk_request.c: serving a request *)
From S2P Require Import Prelude CString MkString MkMemory MkUtils MkTypes MkToc MkSession MkEpoll MkPlugin MkScheduler MkConfig MkFile MkResponse.
Local Open Scope Z_scope.

Definition HTTP_DIRECTORY_BACKWARD : bytes := lit "..".
Definition MK_USER_HOME : Z := 126.
Definition MK_PATH_BASE : Z := 128.
Definition MAX_PATH : Z := 1024.

(** The C string of a pointer. *)
Definition text_of (p : mk_pointer) : option bytes := d ← data p; cstr d.

Section WithEnv.
Context `{env : Env}.

(** Memory from an address on, that nothing initialised. *)
Definition junk (n : nat) : bytes := imap (fun i _ => sys_junk i) (replicate n 0).

(** A buffer of [size] bytes that holds the string [s]. *)
Definition in_buffer (size : Z) (s : bytes) : bytes := s ++ [0] ++ junk (Z.to_nat size - length s - 1).

(** [mk_utils_gmt2utime] *)
Definition mk_utils_gmt2utime (date : bytes) : option Z :=
  s ← cstr date;
  Some (match sys_strptime s with None => -1 | Some t => sys_mktime t end).

(** ** mk_user_init *)

Definition user_len : Z := 255.

(** Where the name of "/~name/path" ends, after the offset 2. *)
Definition user_limit (up : mk_pointer) : option Z :=
  d ← data up; q ← padd d 2;
  limit ← mk_string_char_search q 47 (i32 (len up));
  Some (if limit =? -1 then i32 (len up - 2) else limit).

(** The real path of a user's page. *)
Definition user_path (up : mk_pointer) (limit : Z) (pw_dir user_dir : bytes) : option mk_pointer :=
  d ← data up;
  user_uri ← (if 2 + limit <? len up then
                q ← padd d (2 + limit); s ← strncpy q (Z.to_nat (len up - 2 - limit)); cstr (s ++ [0])
              else Some []);
  '(b, n) ← mk_string_build (pw_dir ++ [47] ++ user_dir ++ user_uri);
  Some {| data := Some b; len := n |}.

Definition mk_user_init (cs sr : nat) : M Z :=
  r ← get_sr cs sr;
  let up := sr_uri_processed r in
  if len up <=? 2 then mret (-1) else
  limit ← lift (user_limit up);
  if user_len <=? limit + 2 then mret (-1) else
  d ← lift (data up);
  user ← lift (q ← padd d 2; u ← strncpy q (Z.to_nat limit); cstr (u ++ [0]));
  match sys_getpwnam user with
  | None => _ ← mk_request_error MK_CLIENT_NOT_FOUND cs sr; mret (-1)
  | Some pw_dir =>
    user_dir ← lift (c_user_dir config); user_dir ← lift (cstr user_dir); pw_dir ← lift (cstr pw_dir);
    p ← lift (user_path up limit pw_dir user_dir);
    mod_sr cs sr (fun r => r <| sr_real_path := p |> <| sr_real_path_static := false |> <| sr_user_home := MK_TRUE |>);;
    mret 0
  end.

(** ** mk_method_parse_data *)

Definition mk_method_parse_data (cs sr : nat) : M Z :=
  c ← get_cs cs;
  n ← lift (mk_method_validate_content_length (cs_body c) (i32 (cs_body_length c)));
  if n =? -1 then _ ← mk_request_error MK_CLIENT_LENGTH_REQUIRED cs sr; mret (-1)
  else if n <=? 0 then _ ← mk_request_error MK_CLIENT_BAD_REQUEST cs sr; mret (-1)
  else if cs_body_size c <=? n then _ ← mk_request_error MK_CLIENT_REQUEST_ENTITY_TOO_LARGE cs sr; mret (-1)
  else
    r ← get_sr cs sr;
    '(tmp, toc) ← lift (header_get (sr_headers_toc r) mk_rh_content_type);
    mod_sr cs sr (fun r => r <| sr_headers_toc := toc |>);;
    match data tmp with
    | None => _ ← mk_request_error MK_CLIENT_BAD_REQUEST cs sr; mret (-1)
    | Some _ =>
      mod_sr cs sr (fun r => r <| sr_content_type := tmp |> <| sr_content_length := i32 n |>);;
      mret 0
    end.

(** ** Directories *)

(** "transport://host[:port]/path/" *)
Definition redirect_location (r : session_request) : option bytes :=
  let up := sr_uri_processed r in
  host ← mk_pointer_to_buf (sr_host r); host ← cstr host;
  d ← data up; s ← memread d (len up);
  location ← cstr (s ++ [47; 0]);
  let port_redirect :=
    if (match data (sr_host r) with Some _ => true | None => false end) && (0 <? sr_port r) &&
       negb (sr_port r =? c_standard_port config) then i32 (sr_port r) else 0 in
  transport ← cstr (c_transport config);
  '(b, _) ← mk_string_build (transport ++ lit "://" ++ host ++
               (if 0 <? port_redirect then [58] ++ dec port_redirect else []) ++ location);
  Some b.

Definition mk_http_directory_redirect_check (cs sr : nat) : M Z :=
  c ← get_cs cs;
  r ← get_sr cs sr;
  let up := sr_uri_processed r in
  last ← lift (d ← data up; d !! Z.to_nat (len up - 1));
  if last =? 47 then mret 0 else
  real_location ← lift (redirect_location r);
  mk_header_set_http_status cs sr MK_REDIR_MOVED;;
  mod_sr cs sr (set_headers (fun sh => sh <| sh_content_length := 0 |> <| sh_content_type := mk_pointer_reset |>
    <| sh_location := Some real_location |> <| sh_cgi := SH_NOCGI |>
    <| sh_pconnections_left := i32 (c_max_keep_alive_request config - cs_counter_connections c) |>));;
  _ ← mk_header_send (cs_socket c) cs sr;
  mk_socket_set_cork_flag (cs_socket c) TCP_CORK_OFF;;
  mod_sr cs sr (set_headers (fun sh => sh <| sh_location := None |>));;
  mret (-1).

(** [mk_request_index]: the first index file that exists; the path is cut at
    the size of the buffer, the length is not. *)
Fixpoint index_loop (l : list bytes) (pathfile : bytes) : M mk_pointer :=
  match l with
  | [] => mret mk_pointer_reset
  | entry :: l =>
    e ← lift (cstr entry);
    let s := pathfile ++ e in
    let n := if MAX_PATH <? Z.of_nat (length s) then MAX_PATH else Z.of_nat (length s) in
    let file_aux := take (Z.to_nat (MAX_PATH - 1)) s in
    t ← gets w_trace;
    if sys_access t file_aux =? 0 then mret {| data := Some (in_buffer MAX_PATH file_aux); len := n |}
    else index_loop l pathfile
  end.

Definition mk_request_index (pathfile : bytes) : M mk_pointer :=
  match c_index_files config with
  | None => mret mk_pointer_reset
  | Some l => index_loop l pathfile
  end.

(** The part of [mk_http_init] on a directory; the result is whether a
    redirection was sent. *)
Definition http_directory (cs sr : nat) : M bool :=
  redirect ← mk_http_directory_redirect_check cs sr;
  if redirect =? -1 then mret true else
  r ← get_sr cs sr;
  path ← lift (text_of (sr_real_path r));
  index_file ← mk_request_index path;
  match data index_file with
  | None => mret false
  | Some f =>
    name ← lift (cstr f);
    (if negb (sr_real_path_static r) then
       mod_sr cs sr (fun r => r <| sr_real_path := {| data := Some (name ++ [0]); len := len index_file |} |>)
     else if len index_file <? MK_PATH_BASE then
       copied ← lift (memread f (len index_file));
       mod_sr cs sr (fun r => r <| sr_real_path := {| data := Some (in_buffer MK_PATH_BASE copied); len := len index_file |} |>)
     else
       mod_sr cs sr (fun r => r <| sr_real_path := {| data := Some (name ++ [0]); len := len index_file |} |>
                                <| sr_real_path_static := false |>));;
    r ← get_sr cs sr;
    path ← lift (text_of (sr_real_path r));
    '(_, finfo) ← mk_file_get_info path (sr_file_info r);
    mod_sr cs sr (fun r => r <| sr_file_info := finfo |>);;
    mret false
  end.

(** ** mk_http_range_set *)

Definition mk_http_range_set (cs sr : nat) (file_size : Z) : M Z :=
  r ← get_sr cs sr;
  let '(r', ok) := range_select r file_size in
  put_sr cs sr r';;
  if negb ok then mret (-1) else
  (if (c_resume config =? MK_TRUE) && match data (sr_range r) with Some _ => true | None => false end
   then emit (EvLseek (sr_fd_file r') (sr_bytes_offset r')) else mret tt);;
  mret 0.

(** ** mk_http_init *)

(** The real path: document root and URI, in the request's own buffer when it
    fits. The result is false for EXIT_ERROR. *)
Definition compose_real_path (cs sr : nat) : M bool :=
  r ← get_sr cs sr;
  h ← lift (request_vhost r);
  let root := h_documentroot h in
  let up := sr_uri_processed r in
  d ← lift (data up);
  (if len up =? 1 then
     first ← lift (deref d);
     if first =? 47
     then mod_sr cs sr (fun r => r <| sr_real_path := root |> <| sr_real_path_static := false |>) else mret tt
   else mret tt);;
  if sr_user_home r =? MK_FALSE then
    let n := i32 (len root + len up) in
    rd ← lift (data root);
    if n <? MK_PATH_BASE then
      s1 ← lift (memread rd (len root));
      s2 ← lift (memread d (len up));
      mod_sr cs sr (fun r => r <| sr_real_path := {| data := Some (in_buffer MK_PATH_BASE (s1 ++ s2)); len := n |} |>
                               <| sr_real_path_static := true |>);;
      mret true
    else
      p ← lift (mk_buffer_cat rd (i32 (len root)) d (i32 (len up)));
      match p with
      | None => mret false
      | Some p => mod_sr cs sr (fun r => r <| sr_real_path := p |> <| sr_real_path_static := false |>);; mret true
      end
  else mret true.

(** A stage 30 plugin closed the connection: its status, or 403. *)
Definition stage_30_closed (cs sr : nat) : M Z :=
  r ← get_sr cs sr;
  if 0 <? sh_status (sr_headers r) then mk_request_error (sh_status (sr_headers r)) cs sr
  else mk_request_error MK_CLIENT_FORBIDDEN cs sr.

(** What a stage 30 answer decides; [None] goes on. *)
Definition stage_30_result (ret : Z) (cs sr : nat) : M (option Z) :=
  if ret =? MK_PLUGIN_RET_CLOSE_CONX then z ← stage_30_closed cs sr; mret (Some z)
  else if ret =? MK_PLUGIN_RET_CONTINUE then mret (Some MK_PLUGIN_RET_CONTINUE)
  else if ret =? MK_PLUGIN_RET_END then mret (Some EXIT_NORMAL)
  else mret None.

(** The last part: opening the file, sending header and content. *)
Definition http_send (cs sr : nat) : M Z :=
  c ← get_cs cs;
  r ← get_sr cs sr;
  opened ← (if 0 <? fi_size (sr_file_info r) then
              path ← lift (text_of (sr_real_path r));
              fd ← sys_open_ev path (fi_flags_read_only (sr_file_info r));
              mod_sr cs sr (fun r => r <| sr_fd_file := fd |>);;
              mret (negb (fd =? -1))
            else mret true);
  if negb opened then mk_request_error MK_CLIENT_FORBIDDEN cs sr else
  _ ← mk_header_send (cs_socket c) cs sr;
  r ← get_sr cs sr;
  if sh_content_length (sr_headers r) =? 0 then mret 0
  else if (sr_method r =? HTTP_METHOD_GET) || (sr_method r =? HTTP_METHOD_POST) then
    ok ← mk_http_range_set cs sr (fi_size (sr_file_info r));
    if negb (ok =? 0) then mk_request_error MK_CLIENT_BAD_REQUEST cs sr else mk_http_send_file cs sr
  else mret 0.

(** Status, lengths, type and range of the response to a file. *)
Definition http_content (mime : mimetype) (cs sr : nat) : M Z :=
  mk_header_set_http_status cs sr MK_HTTP_OK;;
  mod_sr cs sr (fun r => set_headers (fun sh => sh <| sh_location := None |>
    <| sh_content_length := fi_size (sr_file_info r) |> <| sh_real_length := fi_size (sr_file_info r) |>) r);;
  r ← get_sr cs sr;
  if (sr_method r =? HTTP_METHOD_GET) || (sr_method r =? HTTP_METHOD_HEAD) then
    mod_sr cs sr (set_headers (fun sh => sh <| sh_content_type := mt_type mime |>));;
    if (match data (sr_range r) with Some _ => true | None => false end) && (c_resume config =? MK_TRUE) then
      r ← get_sr cs sr;
      '(ret, r) ← lift (mk_http_range_parse r);
      put_sr cs sr r;;
      if ret <? 0 then mk_request_error MK_CLIENT_BAD_REQUEST cs sr
      else
        (if (0 <=? sh_range0 (sr_headers r)) || (0 <=? sh_range1 (sr_headers r))
         then mk_header_set_http_status cs sr MK_HTTP_PARTIAL else mret tt);;
        http_send cs sr
    else http_send cs sr
  else
    mod_sr cs sr (set_headers (fun sh => sh <| sh_content_type := mk_pointer_reset |>));;
    http_send cs sr.

(** Checks on the file, If-Modified-Since. *)
Definition http_file (cs sr : nat) : M Z :=
  c ← get_cs cs;
  r ← get_sr cs sr;
  let m := sr_method r in
  if (m =? HTTP_METHOD_PUT) || (m =? HTTP_METHOD_DELETE) || (m =? HTTP_METHOD_UNKNOWN)
  then mk_request_error MK_SERVER_NOT_IMPLEMENTED cs sr
  else if fi_read_access (sr_file_info r) =? MK_FALSE then mk_request_error MK_CLIENT_FORBIDDEN cs sr
  else
    mime ← lift (mk_mimetype_find (sr_real_path r));
    let mime := default mimetype_default mime in
    if fi_is_directory (sr_file_info r) =? MK_TRUE then mk_request_error MK_CLIENT_FORBIDDEN cs sr
    else if fi_size (sr_file_info r) <? 0 then mk_request_error MK_CLIENT_NOT_FOUND cs sr
    else
      mod_sr cs sr (fun r => set_headers (fun sh =>
        sh <| sh_pconnections_left := i32 (c_max_keep_alive_request config - cs_counter_connections c) |>
           <| sh_last_modified := fi_last_modification (sr_file_info r) |>) r);;
      date_client ← (match data (sr_if_modified_since r) with
                     | Some d => if m =? HTTP_METHOD_GET then v ← lift (mk_utils_gmt2utime d); mret (Some v)
                                 else mret None
                     | None => mret None
                     end);
      now ← gets w_utime;
      match date_client with
      | Some date_client =>
        if (fi_last_modification (sr_file_info r) <=? date_client) && (0 <? date_client) && (date_client <=? now) then
          mk_header_set_http_status cs sr MK_NOT_MODIFIED;;
          _ ← mk_header_send (cs_socket c) cs sr;
          mret EXIT_NORMAL
        else http_content mime cs sr
      | None => http_content mime cs sr
      end.

(** Symbolic links, then stage 30. *)
Definition http_link_and_stage_30 (cs sr : nat) : M Z :=
  c ← get_cs cs;
  r ← get_sr cs sr;
  linked ← (if fi_is_link (sr_file_info r) =? MK_TRUE then
              if c_symlink config =? MK_FALSE then mret false
              else
                path ← lift (text_of (sr_real_path r));
                t ← gets w_trace; mret (0 <=? sys_readlink t path)
            else mret true);
  if negb linked then mk_request_error MK_CLIENT_FORBIDDEN cs sr else
  if sr_stage30_blocked r =? MK_FALSE then
    ret ← mk_plugin_stage_run MK_PLUGIN_STAGE_30 (cs_socket c) None (Some cs) (Some sr);
    res ← stage_30_result ret cs sr;
    match res with Some z => mret z | None => http_file cs sr end
  else http_file cs sr.

(** The file is not there or not accessible: plugins may still answer. *)
Definition http_no_file (cs sr : nat) : M (option Z) :=
  c ← get_cs cs;
  ret ← mk_plugin_stage_run MK_PLUGIN_STAGE_30 (cs_socket c) None (Some cs) (Some sr);
  res ← stage_30_result ret cs sr;
  match res with
  | Some z => mret (Some z)
  | None =>
    r ← get_sr cs sr;
    if fi_exists (sr_file_info r) =? MK_FALSE then z ← mk_request_error MK_CLIENT_NOT_FOUND cs sr; mret (Some z)
    else if sr_stage30_blocked r =? MK_FALSE then z ← mk_request_error MK_CLIENT_FORBIDDEN cs sr; mret (Some z)
    else mret None
  end.

Definition mk_http_init (cs sr : nat) : M Z :=
  ok ← compose_real_path cs sr;
  if negb ok then mret EXIT_ERROR else
  r ← get_sr cs sr;
  backward ← lift (d ← data (sr_uri_processed r); memmem d (len (sr_uri_processed r)) HTTP_DIRECTORY_BACKWARD);
  if backward : bool then mk_request_error MK_CLIENT_FORBIDDEN cs sr else
  path ← lift (text_of (sr_real_path r));
  '(ret, finfo) ← mk_file_get_info path (sr_file_info r);
  mod_sr cs sr (fun r => r <| sr_file_info := finfo |>);;
  res ← (if negb (ret =? 0) then http_no_file cs sr else mret None);
  match res with
  | Some z => mret z
  | None =>
    r ← get_sr cs sr;
    redirected ← (if fi_is_directory (sr_file_info r) =? MK_TRUE then http_directory cs sr else mret false);
    if redirected : bool then mret (-1) else http_link_and_stage_30 cs sr
  end.

(** ** mk_request_process *)

Definition mk_request_process (cs sr : nat) : M Z :=
  c ← get_cs cs;
  mod_sr cs sr (fun r => r <| sr_host_conf := Some O |>);;
  r ← get_sr cs sr;
  '(status, r) ← lift (mk_request_header_process r);
  put_sr cs sr r;;
  if status <? 0 then
    mk_header_set_http_status cs sr MK_CLIENT_BAD_REQUEST;;
    _ ← mk_request_error MK_CLIENT_BAD_REQUEST cs sr; mret EXIT_ABORT
  else
  mod_sr cs sr (fun r => r <| sr_user_home := MK_FALSE |>);;
  first ← lift (d ← data (sr_uri_processed r); deref d);
  if negb (first =? 47) then _ ← mk_request_error MK_CLIENT_BAD_REQUEST cs sr; mret EXIT_NORMAL
  else if (match data (sr_host r) with Some _ => false | None => true end) && (sr_protocol r =? HTTP_PROTOCOL_11)
  then _ ← mk_request_error MK_CLIENT_BAD_REQUEST cs sr; mret EXIT_NORMAL
  else if sr_protocol r =? HTTP_PROTOCOL_UNKNOWN
  then _ ← mk_request_error MK_SERVER_HTTP_VERSION_UNSUP cs sr; mret EXIT_ABORT
  else
  h ← lift (request_vhost r);
  alias ← lift (head (h_server_names h));
  mod_sr cs sr (fun r => r <| sr_host_alias := Some alias |>);;
  (match data (sr_host r) with
   | Some _ =>
     found ← lift (mk_config_host_find (c_hosts config) (sr_host r));
     match found with
     | Some (i, a) => mod_sr cs sr (fun r => r <| sr_host_conf := Some i |> <| sr_host_alias := Some a |>)
     | None => mret tt
     end
   | None => mret tt
   end);;
  home ← (match c_user_dir config with
          | Some _ =>
            if 2 <? len (sr_uri_processed r) then
              second ← lift (d ← data (sr_uri_processed r); d !! 1%nat);
              if second =? MK_USER_HOME then mk_user_init cs sr else mret 0
            else mret 0
          | None => mret 0
          end);
  if negb (home =? 0) then _ ← mk_request_error MK_CLIENT_NOT_FOUND cs sr; mret EXIT_ABORT else
  posted ← (if (sr_method r =? HTTP_METHOD_POST) || (sr_method r =? HTTP_METHOD_PUT)
            then mk_method_parse_data cs sr else mret 0);
  if negb (posted =? 0) then mret posted else
  ret ← mk_plugin_stage_run MK_PLUGIN_STAGE_20 (cs_socket c) None (Some cs) (Some sr);
  if ret =? MK_PLUGIN_RET_CLOSE_CONX then mret EXIT_ABORT else mk_http_init cs sr.

End WithEnv.
