(* ===== verification/MkPathSafety.v ===== *)
(** * Which files the server opens

    A Hoare logic for the handlers of one request, that tracks its real path
    and every file opened, and its application to [mk_http_init]. *)
From S2P Require Import Prelude CString MkString MkMemory MkUtils MkTypes MkToc MkSession MkEpoll MkPlugin MkScheduler MkConfig MkFile MkResponse MkHttp.
Import Iov.
Local Open Scope Z_scope.

(** What decides the file of a request. *)
Record req_paths := { rp_real : mk_pointer; rp_uri : mk_pointer; rp_host : option nat; rp_home : Z }.
Definition paths_of (r : session_request) : req_paths :=
  {| rp_real := sr_real_path r; rp_uri := sr_uri_processed r; rp_host := sr_host_conf r; rp_home := sr_user_home r |}.

Section Logic.
Context `{env : Env}.
(** The request, and the paths that may be opened. *)
Variables (cs sr : nat) (allowed : bytes -> Prop).

Definition event_ok (e : event) : Prop := match e with EvOpen path _ _ => allowed path | _ => True end.

(** The request exists and its paths satisfy [K]. *)
Definition Inv (K : req_paths -> Prop) (w : world) : Prop :=
  exists c r, at_sr w cs sr c r /\ K (paths_of r).

(** From a world in [Pre], [m] ends in [Post], which may depend on its result,
    and opens allowed files only. *)
Definition opens_res {A} (Pre : world -> Prop) (Post : A -> world -> Prop) (m : M A) : Prop :=
  forall w a w', Pre w -> m w = Some (a, w') ->
  Post a w' /\ exists tr, w_trace w' = w_trace w ++ tr /\ Forall event_ok tr.
Notation opens Pre Post := (opens_res Pre (fun _ => Post)).

Lemma opens_ret {A} (Pre : world -> Prop) (x : A) : opens Pre Pre (mret x).
Proof. intros w a w' H [= <- <-]. split; [done|]. exists []. now rewrite app_nil_r. Qed.

Lemma opens_ret_res {A} (Pre : world -> Prop) (Post : A -> world -> Prop) x :
  (forall w, Pre w -> Post x w) -> opens_res Pre Post (mret x).
Proof. intros HP w a w' H [= <- <-]. split; [auto|]. exists []. now rewrite app_nil_r. Qed.

Lemma opens_bind_res {A B} Pre (Mid : A -> world -> Prop) Post (m : M A) (k : A -> M B) :
  opens_res Pre Mid m -> (forall a, opens_res (Mid a) Post (k a)) -> opens_res Pre Post (m ≫= k).
Proof.
  intros Hm Hk w b w' Hp. unfold mbind, M_bind. destruct (m w) as [[a w1]|] eqn:E; [|done]. intros H.
  destruct (Hm _ _ _ Hp E) as (Hmid & t1 & H1 & F1). destruct (Hk a _ _ _ Hmid H) as (Hpost & t2 & H2 & F2).
  split; [done|]. exists (t1 ++ t2). rewrite H2, H1, app_assoc. split; [done|now apply Forall_app].
Qed.

Lemma opens_bind {A B} Pre Mid Post (m : M A) (k : A -> M B) :
  opens Pre Mid m -> (forall a, opens_res Mid Post (k a)) -> opens_res Pre Post (m ≫= k).
Proof. apply opens_bind_res. Qed.

Lemma opens_lift {A B} Pre Post (o : option A) (k : A -> M B) :
  (forall a, o = Some a -> opens_res Pre Post (k a)) -> opens_res Pre Post (lift o ≫= k).
Proof.
  intros Hk w b w' Hp. unfold mbind, M_bind, lift. destruct o as [a|]; [|done]. now apply Hk.
Qed.

Lemma opens_gets {A B} Pre Post (f : world -> A) (k : A -> M B) :
  (forall a, opens_res Pre Post (k a)) -> opens_res Pre Post (gets f ≫= k).
Proof. intros Hk w b w' Hp H. exact (Hk (f w) w b w' Hp H). Qed.

Lemma opens_get_sr {B} K Post (k : session_request -> M B) :
  (forall r, K (paths_of r) -> opens_res (Inv K) Post (k r)) -> opens_res (Inv K) Post (get_sr cs sr ≫= k).
Proof.
  intros Hk w b w' Hp. pose proof Hp as (c & r & [Hc Hr] & HK). unfold mbind, M_bind.
  rewrite (get_sr_run _ _ _ _ _ Hc Hr). now apply Hk.
Qed.

Lemma opens_get_cs {B} K Post (k : client_session -> M B) :
  (forall c, opens_res (Inv K) Post (k c)) -> opens_res (Inv K) Post (get_cs cs ≫= k).
Proof.
  intros Hk w b w' Hp. pose proof Hp as (c & r & [Hc Hr] & HK). unfold mbind, M_bind.
  rewrite (get_cs_run _ _ _ Hc). now apply Hk.
Qed.

Lemma opens_mod_sr K K' f :
  (forall r, K (paths_of r) -> K' (paths_of (f r))) -> opens (Inv K) (Inv K') (mod_sr cs sr f).
Proof.
  intros Hf w a w' (c & r & Hat & HK). destruct (mod_sr_run cs sr f w c r Hat) as [-> H2]. intros [= <- <-].
  split; [eexists _, _; split; [exact H2|now apply Hf]|]. exists []. now rewrite app_nil_r.
Qed.

Lemma opens_put_sr K K' r' : K' (paths_of r') -> opens (Inv K) (Inv K') (put_sr cs sr r').
Proof.
  intros HK' w a w' (c & r & Hat & HK) H. apply (opens_mod_sr K K' (fun _ => r')) with a; [done|by exists c, r|].
  rewrite <- H. unfold mod_sr, mbind, M_bind. destruct Hat as [Hc Hr]. now rewrite (get_sr_run _ _ _ _ _ Hc Hr).
Qed.

Lemma opens_emit K e : event_ok e -> opens (Inv K) (Inv K) (emit e).
Proof.
  intros He w a w' (c & r & [Hc Hr] & HK) [= <- <-]. split; [by exists c, r|]. exists [e].
  split; [done|]. now repeat constructor.
Qed.

Lemma opens_mod_w K f :
  (forall w, w_sessions (f w) = w_sessions w /\ w_trace (f w) = w_trace w) -> opens (Inv K) (Inv K) (mod_w f).
Proof.
  intros Hf w a w' (c & r & [Hc Hr] & HK) [= <- <-]. destruct (Hf w) as [H1 H2].
  split; [exists c, r; split; [split; congruence|done]|]. exists []. rewrite app_nil_r. split; [congruence|done].
Qed.

Lemma opens_lift_end {A} (Pre : world -> Prop) (o : option A) : opens Pre Pre (lift o).
Proof.
  intros w a w' Hp. unfold lift. destruct o as [x|]; [|done]. intros [= <- <-]. split; [done|].
  exists []. now rewrite app_nil_r.
Qed.

Lemma opens_ub {A} Pre Post : opens Pre Post (@ub A).
Proof. done. Qed.

Lemma opens_post {A} Pre (Post Post' : A -> world -> Prop) (m : M A) :
  (forall a w, Post a w -> Post' a w) -> opens_res Pre Post m -> opens_res Pre Post' m.
Proof. intros HP Hm w a w' Hp H. destruct (Hm w a w' Hp H) as [H1 H2]. auto. Qed.

Lemma opens_pre {A} (Pre Pre' : world -> Prop) Post (m : M A) :
  (forall w, Pre' w -> Pre w) -> opens_res Pre Post m -> opens_res Pre' Post m.
Proof. intros HP Hm w a w' Hp H. exact (Hm w a w' (HP w Hp) H). Qed.

End Logic.
Notation opens allowed Pre Post := (opens_res allowed Pre (fun _ => Post)).

(** One step of a proof that handlers only open allowed files. *)
Ltac opens_step :=
  lazymatch goal with
  | |- forall _, _ => intro
  | |- opens_res _ _ _ (mret _) => apply opens_ret
  | |- opens_res _ _ _ (lift _) => apply opens_lift_end
  | |- opens_res _ _ _ (lift _ ≫= _) => apply opens_lift; intros ? ?
  | |- opens_res _ _ _ (gets _ ≫= _) => apply opens_gets; intro
  | |- opens_res _ _ _ (get_sr _ _ ≫= _) => apply opens_get_sr; intros ? ?
  | |- opens_res _ _ _ (get_cs _ ≫= _) => apply opens_get_cs; intro
  | |- opens_res _ _ _ (_ ≫= _) => eapply opens_bind; [|intro]
  | |- opens_res _ _ _ (mod_sr _ _ _) => eapply opens_mod_sr; let H := fresh in intros ? H; exact H
  | |- opens_res _ _ _ (emit _) => apply opens_emit; exact I
  | |- opens_res _ _ _ (mod_w _) => apply opens_mod_w; intro; split; reflexivity
  | |- opens_res _ _ _ ub => apply opens_ub
  | |- opens_res _ _ _ (if ?b then _ else _) => destruct b
  | |- opens_res _ _ _ (match ?b with _ => _ end) => destruct b
  end.
Ltac opens_tac := repeat first [opens_step | solve [eauto with opens]].

Create HintDb opens discriminated.

Section Handlers.
Context `{env : Env}.
Variables (cs sr : nat) (allowed : bytes -> Prop) (K : req_paths -> Prop).
Notation keeps_path := (opens allowed (Inv cs sr K) (Inv cs sr K)).

Lemma opens_epoll_ctl op efd fd ev : keeps_path (epoll_ctl op efd fd ev).
Proof. unfold epoll_ctl. opens_tac. Qed.
#[local] Hint Resolve opens_epoll_ctl : opens.

Lemma opens_change_mode efd fd mode behavior : keeps_path (mk_epoll_change_mode efd fd mode behavior).
Proof. unfold mk_epoll_change_mode, state_set. opens_tac. Qed.
#[local] Hint Resolve opens_change_mode : opens.

Lemma opens_safe_event fd : keeps_path (mk_socket_safe_event_write fd).
Proof. unfold mk_socket_safe_event_write. opens_tac. Qed.
#[local] Hint Resolve opens_safe_event : opens.

Lemma opens_sendv fd iov : keeps_path (mk_socket_sendv fd iov).
Proof. unfold mk_socket_sendv. opens_tac. Qed.
Lemma opens_send fd b n : keeps_path (mk_socket_send fd b n).
Proof. unfold mk_socket_send. opens_tac. Qed.
Lemma opens_sock_file a b c d : keeps_path (mk_socket_send_file a b c d).
Proof. unfold mk_socket_send_file. opens_tac. Qed.
Lemma opens_cork fd s : keeps_path (mk_socket_set_cork_flag fd s).
Proof. unfold mk_socket_set_cork_flag. opens_tac. Qed.
Lemma opens_last_modified sh iov : keeps_path (header_last_modified sh iov).
Proof. unfold header_last_modified. opens_tac. Qed.
#[local] Hint Resolve opens_sendv opens_send opens_sock_file opens_cork opens_last_modified : opens.

Lemma opens_header_send fd : keeps_path (mk_header_send fd cs sr).
Proof. unfold mk_header_send, header_finish. opens_tac. Qed.
#[local] Hint Resolve opens_header_send : opens.

Lemma opens_status status : keeps_path (mk_header_set_http_status cs sr status).
Proof. unfold mk_header_set_http_status. opens_tac. Qed.
Lemma opens_http_send_file : keeps_path (mk_http_send_file cs sr).
Proof. unfold mk_http_send_file. opens_tac. Qed.
#[local] Hint Resolve opens_status opens_http_send_file : opens.

Lemma opens_get_info path fi : keeps_path (mk_file_get_info path fi).
Proof. unfold mk_file_get_info. opens_tac. Qed.
#[local] Hint Resolve opens_get_info : opens.

Lemma opens_open path flags : allowed path -> keeps_path (sys_open_ev path flags).
Proof.
  intros Ha. unfold sys_open_ev. apply opens_gets. intros t.
  eapply opens_bind; [now apply opens_emit|intros []; apply opens_ret].
Qed.

(** Error pages of the configuration may always be opened. *)
Definition page_path (p : bytes) : Prop :=
  exists h e, h ∈ c_hosts config /\ e ∈ h_error_pages h /\ cstr (ep_real_path e) = Some p.
Hypothesis pages_allowed : forall p, page_path p -> allowed p.

Lemma opens_custom_page h status : h ∈ c_hosts config -> keeps_path (custom_error_page h status).
Proof.
  intros Hh. unfold custom_error_page. destruct (List.find _ _) as [e|] eqn:Ef; [|apply opens_ret].
  apply List.find_some in Ef as [Hin _]. apply opens_lift. intros path Hpath.
  eapply opens_bind; [apply opens_get_info|]. intros [ret fi]. case_if; [apply opens_ret|].
  eapply opens_bind; [apply opens_open, pages_allowed; exists h, e; split_and!; [done|now apply list_elem_of_In|done]|].
  intros fd. case_if; apply opens_ret.
Qed.

Lemma vhost_in r h : request_vhost r = Some h -> h ∈ c_hosts config.
Proof.
  unfold request_vhost. destruct (sr_host_conf r) as [i|]; [|done]. cbn. intros H. now apply list_elem_of_lookup_2 with i.
Qed.

Lemma opens_request_error status : keeps_path (mk_request_error status cs sr).
Proof.
  unfold mk_request_error. eapply opens_bind; [apply opens_status|intros _]. apply opens_get_cs. intros c.
  apply opens_get_sr. intros r Hr. apply opens_lift. intros h Hh.
  eapply opens_bind; [case_if; [apply opens_custom_page; now apply (vhost_in r)|apply opens_ret]|].
  intros custom. opens_tac.
Qed.
#[local] Hint Resolve opens_request_error : opens.

Lemma opens_stage_30_result ret : keeps_path (stage_30_result ret cs sr).
Proof. unfold stage_30_result, stage_30_closed. opens_tac. Qed.
#[local] Hint Resolve opens_stage_30_result : opens.

(** The stage 30 plugins play by the same rules. *)
Hypothesis plugins_ok : forall p pl f,
  plugins !! p = Some pl -> pl_s30 pl = Some f -> keeps_path (f cs sr).

Lemma opens_call_stage {A B} (sel : plugin -> option A) p (k : A -> M B) Pre Post :
  (forall pl f, plugins !! p = Some pl -> sel pl = Some f -> opens allowed Pre Post (k f)) ->
  opens allowed Pre Post (call_stage sel p ≫= k).
Proof.
  intros Hk w b w' Hp. unfold mbind at 1, M_bind at 1. destruct (call_stage sel p w) as [[f w1]|] eqn:E; [|done].
  apply call_stage_inv in E as (-> & pl & H1 & H2). now apply (Hk pl f).
Qed.

Lemma opens_stage_30 socket : keeps_path (mk_plugin_stage_run MK_PLUGIN_STAGE_30 socket None (Some cs) (Some sr)).
Proof.
  assert (Hrun : forall stm, keeps_path (run_stage_30 stm cs sr)).
  { induction stm as [|p stm IH]; cbn [run_stage_30]; [apply opens_ret|]. apply opens_call_stage.
    intros pl f H1 H2. eapply opens_bind; [eapply plugins_ok; eassumption|]. intros a. opens_tac. }
  unfold mk_plugin_stage_run.
  change (hooked MK_PLUGIN_STAGE_30 MK_PLUGIN_STAGE_10) with false.
  change (hooked MK_PLUGIN_STAGE_30 MK_PLUGIN_STAGE_20) with false.
  change (hooked MK_PLUGIN_STAGE_30 MK_PLUGIN_STAGE_30) with true.
  change (hooked MK_PLUGIN_STAGE_30 MK_PLUGIN_STAGE_40) with false.
  change (hooked MK_PLUGIN_STAGE_30 MK_PLUGIN_STAGE_50) with false.
  cbv iota. eapply opens_bind; [apply opens_ret|intros [r|]; [apply opens_ret|]].
  eapply opens_bind; [apply opens_ret|intros [r|]; [apply opens_ret|]].
  eapply opens_bind; [|intros [r|]; [apply opens_ret|]; opens_tac].
  apply opens_lift; intros ? [= <-]. apply opens_lift; intros ? [= <-]. apply opens_get_sr; intros r _.
  destruct (sr_handled_by r); [apply opens_ret|apply Hrun].
Qed.

Lemma opens_no_file : keeps_path (http_no_file cs sr).
Proof.
  unfold http_no_file. apply opens_get_cs. intros c. eapply opens_bind; [apply opens_stage_30|intros ret].
  eapply opens_bind; [apply opens_stage_30_result|]. intros res. opens_tac.
Qed.

Lemma opens_redirect_check : keeps_path (mk_http_directory_redirect_check cs sr).
Proof. unfold mk_http_directory_redirect_check. opens_tac. Qed.

End Handlers.
#[export] Hint Resolve opens_epoll_ctl opens_change_mode opens_safe_event opens_sendv opens_send opens_sock_file
  opens_cork opens_last_modified opens_header_send opens_status opens_http_send_file opens_get_info
  opens_request_error opens_stage_30_result opens_stage_30 opens_no_file opens_redirect_check : opens.

(** ** The path of a request *)

Section Paths.
Context `{env : Env}.
Variables (cs sr : nat) (allowed : bytes -> Prop).

(** The document root of the request's host followed by the URI. *)
Definition base_path (q : req_paths) (p : bytes) : Prop :=
  exists i h root uri, rp_host q = Some i /\ c_hosts config !! i = Some h /\
    view (h_documentroot h) = Some root /\ view (rp_uri q) = Some uri /\ cstr (root ++ uri ++ [0]) = Some p.

(** An index file of the directory [p]. *)
Definition index_path (p f : bytes) : Prop :=
  exists l e name, c_index_files config = Some l /\ e ∈ l /\ cstr e = Some name /\
    f = take (Z.to_nat (MAX_PATH - 1)) (p ++ name).

Definition served_path (q : req_paths) (p : bytes) : Prop :=
  exists base, base_path q base /\ (p = base \/ index_path base p).

Definition same_request (q q' : req_paths) : Prop :=
  rp_uri q' = rp_uri q /\ rp_host q' = rp_host q /\ rp_home q' = rp_home q.

(** The paths of the request are those of [q], with the real path [p]. *)
Definition at_path (q : req_paths) (p : bytes) (q' : req_paths) : Prop :=
  same_request q q' /\ text_of (rp_real q') = Some p.

Definition small_len (p : mk_pointer) : Prop := 0 <= len p < 2 ^ 30.

Lemma opens_then_ret {A} Pre (Mid : world -> Prop) (Post : A -> world -> Prop) (m : M unit) (a : A) :
  opens allowed Pre Mid m -> (forall w, Mid w -> Post a w) -> opens_res allowed Pre Post (m ;; mret a).
Proof.
  intros Hm HP. eapply opens_bind; [exact Hm|]. intros []. now apply opens_ret_res.
Qed.

Lemma base_path_cat q i h root uri :
  rp_host q = Some i -> c_hosts config !! i = Some h -> view (h_documentroot h) = Some root ->
  view (rp_uri q) = Some uri -> forall rest, exists p, base_path q p /\ cstr (root ++ uri ++ 0 :: rest) = Some p.
Proof.
  intros Hi Hh Hr Hu rest. destruct (cstr_total (root ++ uri)) as [p Hp]. rewrite <- app_assoc in Hp.
  exists p. split; [by exists i, h, root, uri|]. rewrite app_assoc, cstr_stop, <- app_assoc. exact Hp.
Qed.

(** The composed path, when the server composes one. *)
Lemma opens_compose q :
  rp_home q = MK_FALSE -> small_len (rp_uri q) -> Forall (fun h => small_len (h_documentroot h)) (c_hosts config) ->
  opens_res allowed (Inv cs sr (eq q))
    (fun b w => b = true -> exists base, base_path q base /\ Inv cs sr (at_path q base) w)
    (compose_real_path cs sr).
Proof.
  intros Hhome Hu Hroots. unfold compose_real_path. apply opens_get_sr. intros r Hq. apply opens_lift. intros h Hh.
  apply opens_lift. intros d Hd. subst q. cbn in Hhome, Hu.
  apply opens_pre with (Inv cs sr (same_request (paths_of r))).
  { intros w (c & r' & Hat & Heq). exists c, r'. now rewrite <- Heq. }
  apply opens_bind with (Inv cs sr (same_request (paths_of r))); [opens_tac|].
  intros []. rewrite Hhome. change (MK_FALSE =? MK_FALSE) with true. cbv iota. apply opens_lift. intros rd Hrd.
  unfold request_vhost in Hh. destruct (sr_host_conf r) as [i|] eqn:Hi; [|done]. cbn in Hh.
  pose proof (Forall_lookup_1 _ _ _ _ Hroots Hh) as Hroot. unfold small_len in *.
  rewrite !i32_small by lia.
  assert (Hset : forall p f, (exists s1 s2 rest, memread rd (len (h_documentroot h)) = Some s1 /\
      memread d (len (sr_uri_processed r)) = Some s2 /\ data p = Some (s1 ++ s2 ++ 0 :: rest)) ->
    opens_res allowed (Inv cs sr (same_request (paths_of r)))
      (fun b w => b = true -> exists base, base_path (paths_of r) base /\ Inv cs sr (at_path (paths_of r) base) w)
      (mod_sr cs sr (fun r0 => r0 <| sr_real_path := p |> <| sr_real_path_static := f |>) ;; mret true)).
  { intros p f (s1 & s2 & rest & H1 & H2 & H3).
    assert (V1 : view (h_documentroot h) = Some s1) by (unfold view; now rewrite Hrd).
    assert (V2 : view (rp_uri (paths_of r)) = Some s2) by (unfold view; cbn; now rewrite Hd).
    destruct (base_path_cat (paths_of r) i h s1 s2 Hi Hh V1 V2 rest) as (base & Hb & Hc).
    apply opens_then_ret with (Inv cs sr (at_path (paths_of r) base)); [|eauto].
    apply opens_mod_sr. intros r0 H0. split; [exact H0|]. unfold text_of. cbn. rewrite H3. exact Hc. }
  case_if.
  - apply opens_lift. intros s1 H1. apply opens_lift. intros s2 H2. apply Hset.
    exists s1, s2, (junk (Z.to_nat MK_PATH_BASE - length (s1 ++ s2) - 1)). split_and!; [done..|].
    cbn [data]. unfold in_buffer. now rewrite <- app_assoc.
  - apply opens_lift. intros [p|]; [|intros _; apply opens_ret_res; done]. unfold mk_buffer_cat. case_if; [done|].
    destruct (memread rd _) as [s1|] eqn:E1; [|done]. destruct (memread d _) as [s2|] eqn:E2; [|done].
    intros [= <-]. apply Hset. now exists s1, s2, [].
Qed.
End Paths.

(** ** From the composed path to the response *)

Lemma range_select_paths `{env : Env} r n : paths_of (fst (range_select r n)) = paths_of r.
Proof. unfold range_select, paths_of, set_headers. repeat case_match; done. Qed.

Lemma range_parse_paths r ret r' : mk_http_range_parse r = Some (ret, r') -> paths_of r' = paths_of r.
Proof.
  unfold mk_http_range_parse, set_headers, mbind, option_bind. intros H.
  repeat (case_match; try done); now simplify_eq.
Qed.

Section Serve.
Context `{env : Env}.
Variables (cs sr : nat) (allowed : bytes -> Prop) (q : req_paths) (base : bytes).
Hypothesis pages_allowed : forall p, page_path p -> allowed p.
Hypothesis base_allowed : forall p, p = base \/ index_path base p -> allowed p.

(** The real path is the composed one, or an index file under it. *)
Definition resolved (q' : req_paths) : Prop :=
  same_request q q' /\ exists p, text_of (rp_real q') = Some p /\ (p = base \/ index_path base p).

Hypothesis plugins_ok : forall p pl f,
  plugins !! p = Some pl -> pl_s30 pl = Some f -> opens allowed (Inv cs sr resolved) (Inv cs sr resolved) (f cs sr).
Notation keeps_path := (opens allowed (Inv cs sr resolved) (Inv cs sr resolved)).

Lemma opens_real_path r path flags :
  resolved (paths_of r) -> text_of (sr_real_path r) = Some path -> keeps_path (sys_open_ev path flags).
Proof. intros (_ & p & Hp & Hb) Ht. apply opens_open, base_allowed. cbn in Hp. congruence. Qed.

Lemma opens_range_set n : keeps_path (mk_http_range_set cs sr n).
Proof.
  unfold mk_http_range_set. apply opens_get_sr. intros r Hr. destruct (range_select r n) as [r' ok] eqn:E.
  eapply opens_bind; [apply opens_put_sr; rewrite <- (range_select_paths r n), E in Hr; exact Hr|]. intros [].
  opens_tac.
Qed.
#[local] Hint Resolve opens_range_set : opens.

Lemma opens_http_send : keeps_path (http_send cs sr).
Proof.
  unfold http_send. apply opens_get_cs. intros c. apply opens_get_sr. intros r Hr.
  eapply opens_bind.
  { case_if; [|apply opens_ret]. apply opens_lift. intros path Hp.
    eapply opens_bind; [now apply opens_real_path with r|]. intros fd. opens_tac. }
  opens_tac.
Qed.
#[local] Hint Resolve opens_http_send : opens.

Lemma opens_http_content mime : keeps_path (http_content mime cs sr).
Proof.
  unfold http_content. opens_tac.
  all: apply opens_put_sr; erewrite range_parse_paths by eassumption; assumption.
Qed.
#[local] Hint Resolve opens_http_content : opens.

Lemma opens_http_file : keeps_path (http_file cs sr).
Proof. unfold http_file. opens_tac. Qed.
#[local] Hint Resolve opens_http_file : opens.

Lemma opens_link_and_stage_30 : keeps_path (http_link_and_stage_30 cs sr).
Proof. unfold http_link_and_stage_30. opens_tac. Qed.
#[local] Hint Resolve opens_link_and_stage_30 : opens.

(** What the search for an index file of [base] gives. *)
Definition index_result (p : mk_pointer) : Prop :=
  forall f, data p = Some f -> exists file, index_path base file /\ cstr f = Some file /\
    (len p < MK_PATH_BASE -> memread f (len p) = Some file).

Lemma in_buffer_cstr n s : 0 ∉ s -> cstr (in_buffer n s) = Some s.
Proof. intros H. apply cstr_cstr. split; [|done]. unfold in_buffer. now eexists. Qed.

Lemma opens_pure {A} (P : Prop) Pre (Post : A -> world -> Prop) m :
  (P -> opens_res allowed Pre Post m) -> opens_res allowed (fun w => P /\ Pre w) Post m.
Proof. intros H w a w' [HP Hw]. now apply H. Qed.

Lemma opens_index_loop K all l :
  c_index_files config = Some all -> (forall e, e ∈ l -> e ∈ all) -> 0 ∉ base ->
  opens_res allowed (Inv cs sr K) (fun p w => index_result p /\ Inv cs sr K w) (index_loop l base).
Proof.
  intros Hall Hl Hb. induction l as [|e l IH]; cbn [index_loop].
  { apply opens_ret_res. intros w Hw. split; [done|exact Hw]. }
  apply opens_lift. intros name He. apply opens_gets. intros t. case_if; [|apply IH; intros e' H'; apply Hl; now right].
  apply opens_ret_res. intros w Hw. split; [|exact Hw]. intros f [= <-]. cbn [len].
  apply cstr_Some in He as Hn. destruct Hn as [_ Hn].
  exists (take (Z.to_nat (MAX_PATH - 1)) (base ++ name)).
  assert (H0 : 0 ∉ take (Z.to_nat (MAX_PATH - 1)) (base ++ name)).
  { intros Hin. apply subseteq_take, elem_of_app in Hin. tauto. }
  split; [exists all, e, name; split_and!; [done|apply Hl; left|done..]|].
  split; [now apply in_buffer_cstr|]. intros Hlt.
  destruct (MAX_PATH <? Z.of_nat (length (base ++ name))) eqn:Elen; [unfold MAX_PATH, MK_PATH_BASE in *; lia|].
  unfold in_buffer. rewrite take_ge by (unfold MAX_PATH, MK_PATH_BASE in *; lia).
  rewrite memread_take by (rewrite !length_app; lia). now rewrite Nat2Z.id, take_app_length.
Qed.

Lemma opens_index K :
  0 ∉ base ->
  opens_res allowed (Inv cs sr K) (fun p w => index_result p /\ Inv cs sr K w) (mk_request_index base).
Proof.
  intros Hb. unfold mk_request_index. destruct (c_index_files config) as [l|] eqn:El.
  - now apply opens_index_loop with l.
  - apply opens_ret_res. intros w Hw. split; [done|exact Hw].
Qed.

Lemma opens_directory : opens allowed (Inv cs sr (at_path q base)) (Inv cs sr resolved) (http_directory cs sr).
Proof.
  assert (Hweak : forall w, Inv cs sr (at_path q base) w -> Inv cs sr resolved w).
  { intros w (c & r & Hat & Hs & Ht). exists c, r. split; [done|]. split; [done|]. exists base. tauto. }
  unfold http_directory. apply opens_bind with (Inv cs sr (at_path q base)); [apply opens_redirect_check; assumption|].
  intros redirect. case_if; [apply opens_ret_res; exact Hweak|].
  apply opens_get_sr. intros r [Hr Ht]. apply opens_lift. intros path Hpath.
  assert (path = base) as -> by (cbn in Ht; congruence).
  assert (Hb : 0 ∉ base).
  { unfold text_of in Hpath. destruct (data (sr_real_path r)); [|done]. now apply cstr_Some in Hpath as [_ ?]. }
  eapply opens_bind_res; [now apply opens_index|]. intros p. apply opens_pure. intros Hp.
  destruct (data p) as [f|] eqn:Ef; [|apply opens_ret_res; exact Hweak].
  apply opens_lift. intros name Hname. destruct (Hp f Ef) as (file & Hi & Hf & Hm).
  assert (name = file) as -> by congruence. apply cstr_Some in Hname as Hn. destruct Hn as [_ Hn].
  assert (Hset : forall x n r0, cstr x = Some file -> at_path q base (paths_of r0) ->
    resolved (paths_of (r0 <| sr_real_path := {| data := Some x; len := n |} |>))).
  { intros x n r0 Hx [H0 _]. split; [exact H0|]. exists file. auto. }
  assert (H0 : cstr (file ++ [0]) = Some file) by (apply cstr_cstr; split; [by exists []|done]).
  apply opens_bind with (Inv cs sr resolved); [|intros []; opens_tac].
  case_if; [apply opens_mod_sr; intros r0; now apply Hset|]. case_if.
  - zbool. rewrite Hm by done. apply opens_lift. intros copied [= <-]. apply opens_mod_sr. intros r0.
    apply Hset. now apply in_buffer_cstr.
  - apply opens_mod_sr. intros r0. now apply Hset.
Qed.

End Serve.

(** ** mk_http_init *)

(** The URI has no "..". *)
Definition no_backward (q : req_paths) : Prop :=
  exists uri, view (rp_uri q) = Some uri /\ ~ exists a b, uri = a ++ HTTP_DIRECTORY_BACKWARD ++ b.

Section Init.
Context `{env : Env}.
Variables (cs sr : nat).

(** What a request with the paths [q] may open. *)
Definition may_open (q : req_paths) (p : bytes) : Prop := page_path p \/ (served_path q p /\ no_backward q).

(** The stage 30 plugins open no file themselves and keep the paths. *)
Definition plugins_keep_paths : Prop :=
  forall p pl f K, plugins !! p = Some pl -> pl_s30 pl = Some f ->
  opens (fun _ => False) (Inv cs sr K) (Inv cs sr K) (f cs sr).

Lemma opens_allowed {A} (al al' : bytes -> Prop) Pre Post (m : M A) :
  (forall p, al p -> al' p) -> opens_res al Pre Post m -> opens_res al' Pre Post m.
Proof.
  intros Hal Hm w a w' Hp H. destruct (Hm w a w' Hp H) as (H1 & tr & H2 & H3). split; [done|]. exists tr.
  split; [done|]. eapply Forall_impl; [exact H3|]. intros [] ?; cbn; auto.
Qed.

Lemma opens_exists {A X} (al : bytes -> Prop) (P : X -> Prop) (Q : X -> world -> Prop) Post (m : M A) :
  (forall x, P x -> opens_res al (Q x) Post m) -> opens_res al (fun w => exists x, P x /\ Q x w) Post m.
Proof. intros H w a w' (x & HP & HQ). now apply (H x). Qed.

Lemma opens_http_init q :
  rp_home q = MK_FALSE -> small_len (rp_uri q) -> Forall (fun h => small_len (h_documentroot h)) (c_hosts config) ->
  plugins_keep_paths ->
  opens (may_open q) (Inv cs sr (eq q)) (fun _ => True) (mk_http_init cs sr).
Proof.
  intros Hhome Hu Hroots Hpl. unfold mk_http_init.
  assert (Hpages : forall p, page_path p -> may_open q p) by (intros p Hp; now left).
  assert (Hplug : forall K p pl f, plugins !! p = Some pl -> pl_s30 pl = Some f ->
            opens (may_open q) (Inv cs sr K) (Inv cs sr K) (f cs sr)).
  { intros K p pl f H1 H2. eapply opens_allowed; [|eapply Hpl; eassumption]. done. }
  eapply opens_bind_res; [now apply opens_compose|]. intros ok. destruct ok; [|cbn; now apply opens_ret_res].
  apply opens_pre with (fun w => exists base, base_path q base /\ Inv cs sr (at_path q base) w); [auto|].
  apply opens_exists. intros base Hbase. cbn [negb].
  apply opens_get_sr. intros r (Hs & Ht). apply opens_lift. intros backward Hback. destruct backward.
  { eapply opens_post; [|apply opens_request_error; exact Hpages]. done. }
  assert (Hclean : no_backward q).
  { destruct Hs as (Huri & _). unfold no_backward. rewrite <- Huri. unfold view, memmem in *. cbn [paths_of rp_uri].
    destruct (data (sr_uri_processed r)) as [d|]; [|done]. revert Hback. mstep.
    destruct (memread d _) as [uri|]; [|done]. mstep. intros [= Hback]. exists uri. split; [done|].
    intros Hex. apply list_infixb_spec in Hex. congruence. }
  assert (Hserved : forall p, p = base \/ index_path base p -> may_open q p).
  { intros p Hp. right. split; [|done]. now exists base. }
  assert (Hweak : forall w, Inv cs sr (at_path q base) w -> Inv cs sr (resolved q base) w).
  { intros w (c & r' & Hat & H1 & H2). exists c, r'. split; [done|]. split; [done|]. exists base. tauto. }
  assert (Htrue : forall A (m : M A) Pre Post, opens_res (may_open q) Pre Post m ->
            opens (may_open q) Pre (fun _ => True) m) by (intros; eapply opens_post; [|eassumption]; done).
  apply opens_lift. intros path _. eapply opens_bind; [apply opens_get_info|]. intros [ret finfo].
  apply opens_bind with (Inv cs sr (at_path q base)); [opens_tac|]. intros [].
  apply opens_bind with (Inv cs sr (at_path q base)).
  { case_if; [|apply opens_ret]. apply opens_no_file; [assumption|apply Hplug]. }
  intros [z|]; [now apply opens_ret_res|]. apply opens_get_sr. intros r' _.
  apply opens_bind with (Inv cs sr (resolved q base)).
  { case_if; [now apply opens_directory|]. apply opens_pre with (Inv cs sr (resolved q base)); [done|apply opens_ret]. }
  intros redirected. destruct redirected; [now apply opens_ret_res|]. apply Htrue with (fun _ => Inv cs sr (resolved q base)).
  now apply opens_link_and_stage_30; [| |apply Hplug].
Qed.

(** C1: with stage 30 plugins that open nothing, every file that serving a
    request outside the user homes opens is an error page of the configuration,
    or the document root of its virtual host followed by its URI, or an index
    file under that path; in the last two cases the URI has no "..". *)
Theorem mk_http_init_paths w c r z w' path flags fd :
  at_sr w cs sr c r -> sr_user_home r = MK_FALSE -> small_len (sr_uri_processed r) ->
  Forall (fun h => small_len (h_documentroot h)) (c_hosts config) -> plugins_keep_paths ->
  mk_http_init cs sr w = Some (z, w') -> EvOpen path flags fd ∈ w_trace w' ->
  EvOpen path flags fd ∈ w_trace w \/ page_path path \/
  (served_path (paths_of r) path /\ no_backward (paths_of r)).
Proof.
  intros Hat Hhome Hu Hroots Hpl Hrun Hin.
  destruct (opens_http_init (paths_of r) Hhome Hu Hroots Hpl w z w') as (_ & tr & Htr & Hall);
    [by exists c, r|done|]. rewrite Htr in Hin. apply elem_of_app in Hin as [Hin|Hin]; [now left|right].
  rewrite Forall_forall in Hall. exact (Hall _ Hin).
Qed.

(** Composing the path of a URI of two characters or more. *)
Lemma compose_real_path_run w c r h root uri :
  at_sr w cs sr c r -> request_vhost r = Some h -> sr_user_home r = MK_FALSE ->
  view (h_documentroot h) = Some root -> view (sr_uri_processed r) = Some uri ->
  small_len (h_documentroot h) -> small_len (sr_uri_processed r) -> len (sr_uri_processed r) <> 1 ->
  exists ss c' rp st, compose_real_path cs sr w = Some (true, w <| w_sessions := ss |>) /\
    at_sr (w <| w_sessions := ss |>) cs sr c' (r <| sr_real_path := rp |> <| sr_real_path_static := st |>) /\
    cs_socket c' = cs_socket c /\ cs_counter_connections c' = cs_counter_connections c.
Proof.
  intros Hat Hh Hhome Hroot Huri Hsr Hsu Hne. unfold compose_real_path. mrun.
  rewrite (get_sr_run _ _ _ _ _ (at_cs _ _ _ _ _ Hat) (at_req _ _ _ _ _ Hat)), Hh. unfold view in Hroot, Huri.
  destruct (data (sr_uri_processed r)) as [d|]; [|done]. destruct (data (h_documentroot h)) as [rd|]; [|done].
  revert Hroot Huri. mstep. intros Hroot Huri. replace (len (sr_uri_processed r) =? 1) with false by zb.
  rewrite Hhome. change (MK_FALSE =? MK_FALSE) with true. cbv iota. unfold small_len in *. rewrite !i32_small by lia.
  rewrite Hroot, Huri.
  case_if.
  - match goal with |- context [mod_sr cs sr ?f w] => destruct (mod_sr_run cs sr f w c r Hat) as [-> H2] end. 
    do 4 eexists. split; [reflexivity|]. split; [exact H2|done].
  - unfold mk_buffer_cat. rewrite Hroot, Huri.
    replace (_ || _) with false by zb. mstep.
    match goal with |- context [mod_sr cs sr ?f w] => destruct (mod_sr_run cs sr f w c r Hat) as [-> H2] end. 
    do 4 eexists. split; [reflexivity|]. split; [exact H2|done].
Qed.

(** A request whose URI has ".." gets exactly the 403 reply, and no file
    is opened or looked at. *)
Theorem mk_http_init_backward w c r h root uri page status signature now :
  at_sr w cs sr c r -> sr_user_home r = MK_FALSE -> request_vhost r = Some h ->
  view (h_documentroot h) = Some root -> view (sr_uri_processed r) = Some uri ->
  small_len (h_documentroot h) -> small_len (sr_uri_processed r) ->
  (exists a b, uri = a ++ HTTP_DIRECTORY_BACKWARD ++ b) ->
  error_ready w c r h MK_CLIENT_FORBIDDEN page status signature now -> c_safe_event_write config = MK_FALSE ->
  exists w' c' r', mk_http_init cs sr w = Some (EXIT_ERROR, w') /\ at_sr w' cs sr c' r' /\
    (let t := w_trace w ++ header_events (w_trace w) (cs_socket c) (header_text status signature now c' r') in
     w_trace w' = t ++ page_events t (cs_socket c) (sr_method r) page ++ [EvCork (cs_socket c) TCP_CORK_OFF]).
Proof.
  intros Hat Hhome Hh Hroot Huri Hsr Hsu Hback Hready Hsafe.
  assert (Hlen : len (sr_uri_processed r) <> 1).
  { unfold view in Huri. destruct (data (sr_uri_processed r)) as [d|]; [|done].
    apply memread_inv in Huri as (_ & H2 & _). destruct Hback as (a & b & ->).
    rewrite !length_app in H2. change (length HTTP_DIRECTORY_BACKWARD) with 2%nat in H2. lia. }
  destruct (compose_real_path_run w c r h root uri Hat Hh Hhome Hroot Huri Hsr Hsu Hlen)
    as (ss & c1 & rp & st & Hrun & H1 & Hsock & Hcnt).
  assert (Hw1 : header_world (w <| w_sessions := ss |>) now /\ w_trace (w <| w_sessions := ss |>) = w_trace w).
  { split; [|done]. destruct (er_world _ _ _ _ _ _ _ _ _ Hready). now split. }
  unfold mk_http_init. unfold mbind at 1, M_bind at 1. rewrite Hrun. set (w1 := w <| w_sessions := ss |>) in *.
  destruct Hw1 as [Hw1 Htr1]. cbn [negb]. mrun.
  rewrite (get_sr_run _ _ _ _ _ (at_cs _ _ _ _ _ H1) (at_req _ _ _ _ _ H1)). cbn [sr_uri_processed set_field].
  unfold view in Huri. unfold memmem.
  destruct (data (sr_uri_processed r)) as [d|]; [|done]. revert Huri. mstep. intros ->.
  apply list_infixb_spec in Hback. mstep. rewrite Hback.
  destruct (mk_request_error_run MK_CLIENT_FORBIDDEN cs sr w1 c1
    (r <| sr_real_path := rp |> <| sr_real_path_static := st |>) h page status signature now H1)
    as (w' & c' & r' & -> & H2 & _ & _ & Ht & _); [|exact Hsafe|].
  - destruct Hready as [_ ? ? ? ? ? ? ? ? Hleft ?]. split; try assumption. now rewrite Hcnt.
  - exists w', c', r'. split; [reflexivity|]. split; [exact H2|]. rewrite Hsock, Htr1 in Ht. exact Ht.
Qed.

End Init.

Lemma mk_http_init_paths_witness :
  exists w', @mk_http_init example_env 1 0 (request_world (get_request "/a.html")) = Some (0, w') /\
  EvOpen (lit "/srv/a.html") 264192 7 ∈ w_trace w' /\
  (EvOpen (lit "/srv/a.html") 264192 7 ∈ w_trace (request_world (get_request "/a.html")) \/
   @page_path example_env (lit "/srv/a.html") \/
   (@served_path example_env (paths_of (get_request "/a.html")) (lit "/srv/a.html") /\
    no_backward (paths_of (get_request "/a.html")))).
Proof.
  edestruct (outcome_inv (@mk_http_init example_env 1 0 (request_world (get_request "/a.html")))) as (w' & H & Ht);
    [vm_compute; reflexivity|].
  assert (Hin : EvOpen (lit "/srv/a.html") 264192 7 ∈ w_trace w') by (rewrite Ht; apply list_elem_of_In; cbn; auto).
  exists w'. split; [exact H|split; [exact Hin|]].
  apply (@mk_http_init_paths example_env 1 0 (request_world (get_request "/a.html")) _ _ 0 w' _ 264192 7
    (request_world_at _)); [reflexivity | split; cbn; lia | | done | exact H | exact Hin].
  repeat constructor; cbn; lia.
Defined.

Lemma mk_http_init_backward_witness :
  exists w' c' r', @mk_http_init example_env 1 0 (request_world backward_request) = Some (EXIT_ERROR, w') /\
    at_sr w' 1 0 c' r' /\
    (let t := [] ++ @header_events example_env [] 5 (@header_text example_env
        (lit "HTTP/1.1 403 Forbidden" ++ [13; 10]) (lit "Server: Monkey") (lit "now") c' r') in
     w_trace w' = t ++ @page_events example_env t 5 HTTP_METHOD_GET forbidden_page ++ [EvCork 5 TCP_CORK_OFF]).
Proof.
  eapply (@mk_http_init_backward example_env 1 0 (request_world backward_request) (request_session backward_request)
    backward_request _ (lit "/srv") (lit "/a/../b") _ _ _ _ (request_world_at _) eq_refl eq_refl eq_refl eq_refl);
    [split; cbn; lia | split; cbn; lia | by exists (lit "/a/"), (lit "/b") | exact forbidden_ready | reflexivity].
Defined.
