(* ===== verification/MkConnection.v ===== *)
(** * mk_connection.c, mk_request.c, mk_http.c, mk_epoll.c: the life of a connection

    The handlers of the events of a socket, reading and answering requests, and
    the event loop of a worker. *)
From S2P Require Import Prelude CString MkString MkMemory MkUtils MkTypes MkToc MkSession MkEpoll MkPlugin MkScheduler MkConfig MkFile MkResponse MkHttp.
Local Open Scope Z_scope.

Section WithEnv.
Context `{env : Env}.

(** ** Ending a request *)

(** The memory it frees is not followed. *)
Definition mk_request_free (sr : session_request) : M unit :=
  if 0 <? sr_fd_file sr then emit (EvClose (sr_fd_file sr)) else mret tt.

Fixpoint free_requests (l : list session_request) : M unit :=
  match l with
  | [] => mret tt
  | sr :: l => mk_request_free sr;; free_requests l
  end.

Definition mk_request_free_list (cs : nat) : M unit :=
  c ← get_cs cs;
  free_requests (cs_request_list c);;
  c ← get_cs cs;
  put_cs cs (c <| cs_request_list := [] |>).

Definition mk_request_premature_close (http_status : Z) (cs : nat) : M unit :=
  c ← get_cs cs;
  (match cs_request_list c with
   | [] => put_cs cs (c <| cs_request_list := [mk_request_init] |>)
   | _ => mret tt
   end);;
  (if 0 <? http_status then
     mod_sr cs 0 (fun r => match sr_host_conf r with None => r <| sr_host_conf := Some O |> | Some _ => r end);;
     _ ← mk_request_error http_status cs 0;
     _ ← mk_plugin_stage_run MK_PLUGIN_STAGE_40 (cs_socket c) None (Some cs) (Some O);
     mret tt
   else mret tt);;
  _ ← mk_plugin_stage_run MK_PLUGIN_STAGE_50 (cs_socket c) None None None;
  mk_session_remove (cs_socket c).

Definition mk_http_request_end (socket : Z) : M Z :=
  sched ← gets w_sched;
  cs ← mk_session_get socket;
  match cs with
  | None => mret (-1)
  | Some cs =>
    c ← get_cs cs;
    let ka := mk_http_keepalive_check c in
    mk_request_free_list cs;;
    if ka <? 0 then mk_session_remove socket;; mret (-1)
    else
      c ← get_cs cs;
      now ← gets w_utime;
      put_cs cs (mk_request_ka_next now c);;
      _ ← mk_epoll_change_mode (sl_epoll_fd sched) socket MK_EPOLL_READ MK_EPOLL_LEVEL_TRIGGERED;
      mret 0
  end.

(** ** Reading *)

(** Room for more data; [false] when the connection was given up. *)
Definition make_room (cs : nat) : M bool :=
  c ← get_cs cs;
  if 0 <? i32 (cs_body_size c - cs_body_length c) then mret true else
  let new_size := i32 (cs_body_size c + MK_REQUEST_CHUNK) in
  if c_max_request_size config <=? new_size
  then mk_request_premature_close MK_CLIENT_REQUEST_ENTITY_TOO_LARGE cs;; mret false
  else if cs_body_fixed c then
    copied ← lift (memread (cs_body c) (cs_body_length c));
    put_cs cs (c <| cs_body := copied ++ junk (Z.to_nat (new_size + 1) - length copied) |>
                 <| cs_body_fixed := false |> <| cs_body_size := new_size |>);;
    mret true
  else
    t ← gets w_trace;
    if sys_realloc t (new_size + 1) then
      let kept := take (Z.to_nat (new_size + 1)) (cs_body c) in
      put_cs cs (c <| cs_body := kept ++ junk (Z.to_nat (new_size + 1) - length kept) |>
                   <| cs_body_size := new_size |>);;
      mret true
    else mk_request_premature_close MK_SERVER_INTERNAL_ERROR cs;; mret false.

Definition mk_handler_read (socket : Z) (cs : nat) : M Z :=
  room ← make_room cs;
  if negb room then mret (-1) else
  c ← get_cs cs;
  got ← mk_socket_read socket (i32 (cs_body_size c - cs_body_length c));
  match got with
  | inr (_, eagain) => if eagain : bool then mret 1 else mk_session_remove socket;; mret (-1)
  | inl [] => mk_session_remove socket;; mret (-1)
  | inl b =>
    body ← lift (bwrite (cs_body c) (cs_body_length c) b);
    let n := u32 (cs_body_length c + Z.of_nat (length b)) in
    body ← lift (bwrite body n [0]);
    put_cs cs (c <| cs_body := body |> <| cs_body_length := n |>);;
    mret (i32 (Z.of_nat (length b)))
  end.

(** ** Writing *)

(** The loop over the requests of the session. *)
Fixpoint write_loop (l : list nat) (socket : Z) (cs : nat) (final_status : Z) : M Z :=
  match l with
  | [] => mret 0
  | sr :: l =>
    r ← get_sr cs sr;
    final_status ←
      (match sr_handled_by r with
       | Some _ => mret final_status
       | None =>
         if 0 <? sr_bytes_to_send r then mk_http_send_file cs sr
         else if sr_bytes_to_send r <? 0 then mk_request_process cs sr
         else mret final_status
       end);
    if 0 <? final_status then mret final_status
    else
      _ ← mk_plugin_stage_run MK_PLUGIN_STAGE_40 socket None (Some cs) (Some sr);
      r ← get_sr cs sr;
      if (final_status =? EXIT_NORMAL) || (final_status =? EXIT_ERROR) then
        if sr_close_now r =? MK_TRUE then mret (-1) else write_loop l socket cs final_status
      else if final_status =? EXIT_ABORT then mret (-1)
      else write_loop l socket cs final_status
  end.

Definition mk_handler_write (socket : Z) (cs : nat) : M Z :=
  c ← get_cs cs;
  parsed ← (match cs_request_list c with
            | [] => '(ret, c) ← lift (mk_request_parse c); put_cs cs c;; mret (ret =? 0)
            | _ => mret true
            end);
  if negb parsed then mret (-1) else
  c ← get_cs cs;
  write_loop (seq 0 (length (cs_request_list c))) socket cs 0.

(** ** The handlers of the events *)

Definition mk_conn_read (socket : Z) : M Z :=
  ret ← mk_plugin_event_read socket;
  if ret =? MK_PLUGIN_RET_EVENT_OWNED then mret MK_PLUGIN_RET_CONTINUE
  else if ret =? MK_PLUGIN_RET_EVENT_CLOSE then mret (-1)
  else
    sched ← gets w_sched;
    found ← mk_session_get socket;
    cs ← (match found with
          | Some cs => mret (inl cs)
          | None =>
            sc ← mk_sched_get_connection socket;
            match sc with
            | None =>
              r ← mk_sched_register_client socket;
              if r =? -1 then mret (inr (-1))
              else
                state_set true (sl_epoll_fd sched) socket MK_EPOLL_READ MK_EPOLL_LEVEL_TRIGGERED
                  (Z.lor EPOLLERR (Z.lor EPOLLHUP (Z.lor EPOLLRDHUP EPOLLIN)));;
                mret (inr 0)
            | Some _ =>
              cs ← mk_session_create socket;
              match cs with Some cs => mret (inl cs) | None => mret (inr (-1)) end
            end
          end);
    match cs with
    | inr z => mret z
    | inl cs =>
      ret ← mk_handler_read socket cs;
      if 0 <? ret then
        c ← get_cs cs;
        '(pending, c) ← lift (mk_http_pending_request c);
        put_cs cs c;;
        if pending =? 0 then
          _ ← mk_epoll_change_mode (sl_epoll_fd sched) socket MK_EPOLL_WRITE MK_EPOLL_LEVEL_TRIGGERED;
          mret ret
        else if u32 (c_max_request_size config) <=? u32 (cs_body_length c + 1)
        then mk_session_remove socket;; mret (-1)
        else mret ret
      else mret ret
    end.

Definition mk_conn_write (socket : Z) : M Z :=
  ret ← mk_plugin_event_write socket;
  if ret =? MK_PLUGIN_RET_EVENT_OWNED then mret MK_PLUGIN_RET_CONTINUE
  else if ret =? MK_PLUGIN_RET_EVENT_CLOSE then mret (-1)
  else
    _ ← mk_sched_update_conn_status socket MK_SCHEDULER_CONN_PROCESS;
    cs ← mk_session_get socket;
    match cs with
    | None => mret 0
    | Some cs =>
      ret ← mk_handler_write socket cs;
      if ret <? 0 then mk_request_free_list cs;; mk_session_remove socket;; mret (-1)
      else if ret =? 0 then mk_http_request_end socket
      else mret 0
    end.

Definition mk_conn_error (socket : Z) : M Z :=
  ret ← mk_plugin_event_error socket;
  if ret =? MK_PLUGIN_RET_EVENT_OWNED then mret MK_PLUGIN_RET_CONTINUE
  else if ret =? MK_PLUGIN_RET_EVENT_CLOSE then mret (-1)
  else
    _ ← mk_sched_remove_client socket;
    cs ← mk_session_get socket;
    (match cs with Some _ => mk_session_remove socket | None => mret tt end);;
    mret 0.

Definition mk_conn_timeout (socket : Z) : M Z :=
  ret ← mk_plugin_event_timeout socket;
  if ret =? MK_PLUGIN_RET_EVENT_OWNED then mret MK_PLUGIN_RET_CONTINUE
  else if ret =? MK_PLUGIN_RET_EVENT_CLOSE then mret (-1)
  else _ ← mk_sched_check_timeouts; mret 0.

(** ** The event loop *)

(** The handler of an event; with none, the last result stands. *)
Definition dispatch (ret fd events : Z) : M Z :=
  ret ← (if negb (Z.land events EPOLLIN =? 0) then mk_conn_read fd
         else if negb (Z.land events EPOLLOUT =? 0) then mk_conn_write fd
         else if negb (Z.land events (Z.lor EPOLLHUP (Z.lor EPOLLERR EPOLLRDHUP)) =? 0) then mk_conn_error fd
         else mret ret);
  (if ret <? 0 then _ ← mk_conn_close fd; mret tt else mret tt);;
  mret ret.

Fixpoint dispatch_all (ret : Z) (evs : list (Z * Z)) : M unit :=
  match evs with
  | [] => mret tt
  | (fd, events) :: evs => ret ← dispatch ret fd events; dispatch_all ret evs
  end.

(** What one [epoll_wait] returns, and the clock then and after the events. *)
Record wait := { wt_now : Z; wt_events : list (Z * Z); wt_then : Z }.

Fixpoint epoll_loop (waits : list wait) (fds_timeout : Z) : M unit :=
  match waits with
  | [] => mret tt
  | wt :: waits =>
    mod_w (fun w => w <| w_utime := wt_now wt |>);;
    dispatch_all (-1) (wt_events wt);;
    mod_w (fun w => w <| w_utime := wt_then wt |>);;
    now ← gets w_utime;
    fds_timeout ← (if fds_timeout <=? now
                   then _ ← mk_sched_check_timeouts; mret (i32 (now + c_timeout config))
                   else mret fds_timeout);
    epoll_loop waits fds_timeout
  end.

(** The loop never ends; its behaviour is that on every sequence of waits. *)
Definition mk_epoll_init (waits : list wait) : M unit :=
  now ← gets w_utime;
  mod_w (fun w => w <| w_sched := w_sched w <| sl_initialized := 1 |> |>);;
  epoll_loop waits (i32 (now + c_timeout config)).

End WithEnv.

(** ** Sending a file event after event *)

Section Transfer.
Context `{env : Env}.

(** The writable events of a session until its writer waits for none. *)
Fixpoint write_events (n : nat) (socket : Z) (cs : nat) : M Z :=
  match n with
  | O => mret 1
  | S n => ret ← mk_handler_write socket cs; if 0 <? ret then write_events n socket cs else mret ret
  end.

(** Contiguous pieces of sizes [ks] of the [count] bytes from [off]. *)
Fixpoint pieces (socket fd off count : Z) (ks : list Z) : list event :=
  match ks with
  | [] => []
  | k :: ks => EvSendFile socket fd off count k :: pieces socket fd (off + k) (count - k) ks
  end.

Definition sum (ks : list Z) : Z := foldr Z.add 0 ks.

(** Each call of the network sends something, and no more than asked. *)
Definition network_progresses : Prop :=
  forall t s fd off count, 0 < count -> 1 <= net_send_file t s fd off count <= count.

Lemma stage_40_none socket cs sr w :
  stage_40 plg_stagemap = [] ->
  mk_plugin_stage_run MK_PLUGIN_STAGE_40 socket None (Some cs) (Some sr) w = Some (-1, w).
Proof.
  intros H. unfold mk_plugin_stage_run.
  change (hooked MK_PLUGIN_STAGE_40 MK_PLUGIN_STAGE_10) with false.
  change (hooked MK_PLUGIN_STAGE_40 MK_PLUGIN_STAGE_20) with false.
  change (hooked MK_PLUGIN_STAGE_40 MK_PLUGIN_STAGE_30) with false.
  change (hooked MK_PLUGIN_STAGE_40 MK_PLUGIN_STAGE_40) with true.
  change (hooked MK_PLUGIN_STAGE_40 MK_PLUGIN_STAGE_50) with false.
  mrun. rewrite H. reflexivity.
Qed.

(** One writable event of a session that sends a file. *)
Lemma mk_handler_write_step socket cs w c r n :
  at_sr w cs 0 c r -> cs_request_list c = [r] -> sr_handled_by r = None ->
  c_safe_event_write config = MK_FALSE -> stage_40 plg_stagemap = [] -> 0 < sr_bytes_to_send r < 2 ^ 31 ->
  net_send_file (w_trace w) (cs_socket c) (sr_fd_file r) (sr_bytes_offset r) (sr_bytes_to_send r) = n ->
  1 <= n <= sr_bytes_to_send r ->
  mk_handler_write socket cs w =
  Some (if n =? sr_bytes_to_send r then if sr_close_now r =? MK_TRUE then -1 else 0 else sr_bytes_to_send r - n,
        upd_sr (logged w (send_events c r n)) cs 0 c (sent_more r n)).
Proof.
  intros Hat Hl Hh Hsafe H40 Hb Hn Hr. unfold mk_handler_write.
  pose proof (get_cs_run _ _ _ (at_cs _ _ _ _ _ Hat)) as Hcs. rewrite (bind_run _ _ _ _ _ Hcs), Hl.
  unfold mbind at 1, M_bind at 1, mret at 1, M_ret at 1. cbn [negb]. rewrite (bind_run _ _ _ _ _ Hcs), Hl. cbn [length seq write_loop].
  rewrite (bind_run _ _ _ _ _ (get_sr_run _ _ _ _ _ (at_cs _ _ _ _ _ Hat) (at_req _ _ _ _ _ Hat))), Hh.
  replace (0 <? sr_bytes_to_send r) with true by zb.
  rewrite (bind_run _ _ _ _ _ (mk_http_send_file_run _ _ _ _ _ n Hat Hsafe Hn ltac:(lia))).
  replace (n <? 0) with false by zb. rewrite i32_small by lia.
  destruct (n =? sr_bytes_to_send r) eqn:E; zbool.
  - replace (sr_bytes_to_send r - n) with 0 by lia. change (0 <? 0) with false. cbv iota.
    rewrite (bind_run _ _ _ _ _ (stage_40_none _ _ _ _ H40)).
    rewrite (bind_run _ _ _ _ _ (get_upd_sr _ _ _ _ _ _ (logged_at _ _ _ _ _ _ Hat))).
    change (0 =? EXIT_NORMAL) with true. cbn [orb]. change (sr_close_now (sent_more r n)) with (sr_close_now r).
    case_if; done.
  - replace (0 <? sr_bytes_to_send r - n) with true by zb. done.
Qed.

Lemma transfer_run fuel : forall socket cs w c r,
  at_sr w cs 0 c r -> cs_request_list c = [r] -> sr_handled_by r = None ->
  c_safe_event_write config = MK_FALSE -> stage_40 plg_stagemap = [] -> network_progresses ->
  0 < sr_bytes_to_send r < 2 ^ 31 -> sr_bytes_to_send r <= Z.of_nat fuel ->
  exists ks w', write_events fuel socket cs w = Some (if sr_close_now r =? MK_TRUE then -1 else 0, w') /\
    Forall (fun k => 0 < k) ks /\ sum ks = sr_bytes_to_send r /\
    w_trace w' = w_trace w ++ pieces (cs_socket c) (sr_fd_file r) (sr_bytes_offset r) (sr_bytes_to_send r) ks ++
                 [EvCork (cs_socket c) TCP_CORK_OFF] /\
    exists c' r', at_sr w' cs 0 c' r' /\ sr_bytes_to_send r' = 0.
Proof.
  induction fuel as [|fuel IH]; intros socket cs w c r Hat Hl Hh Hsafe H40 Hnet Hb Hf; [lia|]. cbn [write_events].
  set (n := net_send_file (w_trace w) (cs_socket c) (sr_fd_file r) (sr_bytes_offset r) (sr_bytes_to_send r)).
  assert (Hn : 1 <= n <= sr_bytes_to_send r) by (apply Hnet; lia).
  rewrite (bind_run _ _ _ _ _ (mk_handler_write_step socket cs w c r n Hat Hl Hh Hsafe H40 Hb eq_refl Hn)).
  pose proof (upd_sr_at _ _ _ _ _ (sent_more r n) (logged_at _ (send_events c r n) _ _ _ _ Hat)) as H1.
  destruct (n =? sr_bytes_to_send r) eqn:E; zbool.
  - assert (Hret : (0 <? (if sr_close_now r =? MK_TRUE then -1 else 0)) = false) by (case_if; done). rewrite Hret.
    exists [n]. eexists. split; [reflexivity|]. split; [repeat constructor; lia|]. split; [cbn; lia|]. split.
    + cbn. unfold send_events. replace (0 <? n) with true by zb. replace (sr_bytes_to_send r =? n) with true by zb. done.
    + eexists _, _. split; [exact H1|]. unfold sent_more. cbn. lia.
  - replace (0 <? sr_bytes_to_send r - n) with true by zb.
    destruct (IH socket cs _ _ _ H1) as (ks & w' & -> & H2 & H3 & H4 & H5); try done.
    + cbn. now rewrite Hl.
    + unfold sent_more. cbn. lia.
    + unfold sent_more. cbn. lia.
    + exists (n :: ks), w'. revert H3 H4. unfold sent_more. cbn. rewrite Z.max_r by lia. intros H3 H4.
      split; [reflexivity|]. split; [constructor; [lia|done]|]. split; [unfold sum in *; cbn; lia|]. split; [|exact H5].
      rewrite H4. unfold send_events. replace (0 <? n) with true by zb.
      replace (sr_bytes_to_send r =? n) with false by zb. now rewrite <- app_assoc.
Qed.

(** C3: for a session with exactly one request, which no plugin handles, in a
    server without plugins of stage 40 and with SafeEventWrite off: on a network
    that takes a byte at least whenever it is called, the file of the request,
    of less than 2^31 bytes, is sent after finitely many writable events, at
    most one a byte: the pieces sent are contiguous and make up exactly the
    bytes asked for, the socket is then uncorked, and the last answer of the
    writer is to go on with the connection or, when the request asked for it, to
    close it. *)
Theorem mk_handler_write_completes socket cs w c r :
  at_sr w cs 0 c r -> cs_request_list c = [r] -> sr_handled_by r = None ->
  c_safe_event_write config = MK_FALSE -> stage_40 plg_stagemap = [] -> network_progresses ->
  0 < sr_bytes_to_send r < 2 ^ 31 ->
  exists ks w', write_events (Z.to_nat (sr_bytes_to_send r)) socket cs w =
      Some (if sr_close_now r =? MK_TRUE then -1 else 0, w') /\
    Forall (fun k => 0 < k) ks /\ sum ks = sr_bytes_to_send r /\
    w_trace w' = w_trace w ++ pieces (cs_socket c) (sr_fd_file r) (sr_bytes_offset r) (sr_bytes_to_send r) ks ++
                 [EvCork (cs_socket c) TCP_CORK_OFF] /\
    exists c' r', at_sr w' cs 0 c' r' /\ sr_bytes_to_send r' = 0.
Proof. intros. apply transfer_run; try assumption. lia. Qed.

End Transfer.

(** ** Reading into the buffer *)

(** The session's buffer holds the bytes [s] received so far. *)
Record body_ok (c : client_session) (s : bytes) : Prop := {
  bo_size : MK_REQUEST_CHUNK <= cs_body_size c < 2 ^ 30;
  bo_len : cs_body_length c = Z.of_nat (length s);
  bo_fit : Z.of_nat (length s) <= cs_body_size c;
  bo_buf : Z.of_nat (length (cs_body c)) = cs_body_size c + (if cs_body_fixed c then 0 else 1);
  bo_data : take (length s) (cs_body c) = s;
}.

Section Reading.
Context `{env : Env}.

Definition set_cs (w : world) (cs : nat) (c : client_session) : world :=
  w <| w_sessions := assoc_set cs c (w_sessions w) |>.

Lemma put_cs_run w cs c c' : assoc cs (w_sessions w) = Some c -> put_cs cs c' w = Some (tt, set_cs w cs c').
Proof. intros H. unfold put_cs. now rewrite H. Qed.

Lemma set_cs_same w cs c : assoc cs (w_sessions w) = Some c -> set_cs w cs c = w.
Proof.
  intros H. assert (Hl : assoc_set cs c (w_sessions w) = w_sessions w).
  { revert H. induction (w_sessions w) as [|[q d] l IH]; cbn; [done|].
    destruct (Nat.eqb_spec cs q) as [->|]; [now intros [= ->]|]. intros H. now rewrite IH. }
  unfold set_cs. rewrite Hl. now destruct w.
Qed.

(** Is there room, or can room be made, for more than the [n] bytes? *)
Definition can_grow (w : world) (c : client_session) : Prop :=
  cs_body_size c + MK_REQUEST_CHUNK < c_max_request_size config /\ c_max_request_size config < 2 ^ 30 /\
  (cs_body_fixed c = true \/ sys_realloc (w_trace w) (cs_body_size c + MK_REQUEST_CHUNK + 1) = true).

Lemma length_junk n : length (junk n) = n.
Proof. unfold junk. now rewrite length_imap, length_replicate. Qed.

Lemma make_room_run w cs c s :
  assoc cs (w_sessions w) = Some c -> body_ok c s -> Z.of_nat (length s) < cs_body_size c \/ can_grow w c ->
  let full := Z.of_nat (length s) =? cs_body_size c in
  exists c', make_room cs w = Some (true, set_cs w cs c') /\ body_ok c' s /\
    cs_body_size c' = (if full then cs_body_size c + MK_REQUEST_CHUNK else cs_body_size c) /\
    cs_body_fixed c' = cs_body_fixed c && negb full /\ cs_socket c' = cs_socket c.
Proof.
  intros Hc [H1 H2 H3 H4 H5] Hroom full. unfold make_room. rewrite (bind_run _ _ _ _ _ (get_cs_run _ _ _ Hc)).
  unfold MK_REQUEST_CHUNK in *. rewrite H2, i32_small by lia. unfold full.
  destruct (Z.eqb_spec (Z.of_nat (length s)) (cs_body_size c)) as [He|Hne].
  - destruct Hroom as [|(Hg1 & Hg2 & Hg3)]; [lia|]. unfold MK_REQUEST_CHUNK in *.
    replace (0 <? _) with false by zb. rewrite (i32_small (cs_body_size c + 4096)) by lia.
    replace (c_max_request_size config <=? _) with false by zb.
    assert (Hlen : take (Z.to_nat (Z.of_nat (length s))) (cs_body c) = s) by now rewrite Nat2Z.id.
    destruct (cs_body_fixed c) eqn:Ef.
    + rewrite memread_take by lia. rewrite Hlen.
      rewrite (bind_run (lift (Some s)) _ w s w eq_refl), (bind_run _ _ _ _ _ (put_cs_run _ _ _ _ Hc)).
      eexists. split; [reflexivity|]. split; [|split; [done|split; done]]. split; cbn; unfold MK_REQUEST_CHUNK; rewrite ?length_app, ?length_junk; try lia.
      now rewrite take_app_length.
    + destruct Hg3 as [|Hg3]; [done|]. rewrite (bind_run (gets w_trace) _ w _ w eq_refl), Hg3.
      rewrite (bind_run _ _ _ _ _ (put_cs_run _ _ _ _ Hc)). rewrite take_ge by lia.
      eexists. split; [reflexivity|]. split; [|split; [done|split; [now cbn; rewrite Ef|done]]].
      split; cbn; unfold MK_REQUEST_CHUNK; rewrite ?length_app, ?length_junk, ?Ef; try lia. rewrite take_app_le by lia. exact H5.
  - replace (0 <? _) with true by zb. exists c. rewrite (set_cs_same _ _ _ Hc). split; [done|].
    split; [split; assumption|]. split; [done|]. cbn [negb]. now rewrite andb_true_r.
Qed.

(** Storing what was read, and its NUL. *)
Lemma store_received c s d :
  body_ok c s -> Z.of_nat (length (s ++ d)) <= cs_body_size c ->
  let n := u32 (cs_body_length c + Z.of_nat (length d)) in
  n = Z.of_nat (length (s ++ d)) /\
  if cs_body_fixed c && (n =? cs_body_size c)
  then (body ← bwrite (cs_body c) (cs_body_length c) d; bwrite body n [0]) = None
  else exists body body', bwrite (cs_body c) (cs_body_length c) d = Some body /\ bwrite body n [0] = Some body' /\
    body_ok (c <| cs_body := body' |> <| cs_body_length := n |>) (s ++ d) /\
    body' !! length (s ++ d) = Some 0.
Proof.
  intros [H1 H2 H3 H4 H5] Hd n. unfold MK_REQUEST_CHUNK in *.
  assert (Hn : n = Z.of_nat (length (s ++ d))).
  { unfold n. rewrite H2, u32_small, length_app; [lia|]. rewrite length_app in Hd. lia. }
  split; [exact Hn|]. rewrite length_app in *.
  destruct (bwrite_ok (cs_body c) (cs_body_length c) d) as (b1 & -> & L1 & D1 & _); [lia|destruct (cs_body_fixed c); lia|].
  specialize (D1 s H5 H2). cbn [mbind option_bind].
  destruct (cs_body_fixed c && (n =? cs_body_size c)) eqn:E.
  - apply andb_true_iff in E as [Ef E]. rewrite Ef in H4. zbool. apply bwrite_out. cbn. lia.
  - destruct (bwrite_ok b1 n [0]) as (b2 & E2 & L2 & _ & K2 & D2); [lia|cbn|].
    { rewrite L1, H4. apply andb_false_iff in E as [E|E]; [rewrite E|]; zbool; case_match; lia. }
    exists b1, b2. split; [done|]. split; [exact E2|]. split.
    + split; cbn; unfold MK_REQUEST_CHUNK; rewrite ?length_app; try lia. apply list_eq. intros i.
      rewrite <- D1, length_app. destruct (decide (i < length s + length d)%nat) as [Hi|Hi].
      * rewrite !lookup_take_lt by lia. apply K2. lia.
      * rewrite !lookup_ge_None_2; [done|rewrite length_take; lia..].
    + specialize (D2 0%nat ltac:(cbn; lia)). cbn in D2. rewrite <- D2. f_equal. lia.
Qed.

(** C9: with [s] received so far and room in the buffer, or leave to grow it,
    [mk_handler_read] makes room and asks the network for no more than fits.
    What it gives is appended and NUL-terminated, within the buffer, but for
    one case: a read that fills the 4096 bytes inside the session itself puts
    the NUL one byte past them. A closed or failing socket removes the session,
    a read that would block leaves it. *)
Theorem mk_handler_read_spec socket w cs c s :
  assoc cs (w_sessions w) = Some c -> body_ok c s -> Z.of_nat (length s) < cs_body_size c \/ can_grow w c ->
  exists c', body_ok c' s /\
  let full := Z.of_nat (length s) =? cs_body_size c in
  let room := cs_body_size c' - Z.of_nat (length s) in
  cs_body_size c' = (if full then cs_body_size c + MK_REQUEST_CHUNK else cs_body_size c) /\
  cs_body_fixed c' = cs_body_fixed c && negb full /\ 0 < room /\
  match net_read (w_trace w) socket room with
  | inr (_, true) => mk_handler_read socket cs w = Some (1, logged (set_cs w cs c') [EvRead socket []])
  | inr (_, false) | inl [] =>
      exists w', mk_handler_read socket cs w = Some (-1, w') /\ w_trace w' = w_trace w ++ [EvRead socket []] /\
        w_sessions w' = remove_session socket (w_sessions (set_cs w cs c'))
  | inl d => Z.of_nat (length d) <= room ->
      if cs_body_fixed c' && (Z.of_nat (length d) =? room) then mk_handler_read socket cs w = None
      else exists body, mk_handler_read socket cs w =
          Some (Z.of_nat (length d), set_cs (logged (set_cs w cs c') [EvRead socket d]) cs
                  (c' <| cs_body := body |> <| cs_body_length := Z.of_nat (length (s ++ d)) |>)) /\
        body_ok (c' <| cs_body := body |> <| cs_body_length := Z.of_nat (length (s ++ d)) |>) (s ++ d) /\
        body !! length (s ++ d) = Some 0
  end.
Proof.
  intros Hc Hok Hroom. destruct (make_room_run w cs c s Hc Hok Hroom) as (c' & Hrun & Hok' & Hsize & Hfix & Hsock).
  exists c'. split; [exact Hok'|]. pose proof Hok as [_ _ Hfit _ _]. pose proof Hok' as [G1 G2 _ _ _].
  intros full room. unfold MK_REQUEST_CHUNK in *. split; [exact Hsize|]. split; [exact Hfix|].
  assert (Hpos : 0 < room). { unfold room. rewrite Hsize. unfold full. case_match; zbool; lia. }
  split; [exact Hpos|]. unfold mk_handler_read. rewrite (bind_run _ _ _ _ _ Hrun). cbn [negb].
  assert (Hc' : assoc cs (w_sessions (set_cs w cs c')) = Some c') by (cbn; now apply assoc_set_eq with c).
  rewrite (bind_run _ _ _ _ _ (get_cs_run _ _ _ Hc')). rewrite G2, i32_small by lia. fold room.
  set (w1 := set_cs w cs c') in *. change (w_trace w) with (w_trace w1).
  destruct (net_read (w_trace w1) socket room) as [d|[z eagain]] eqn:En.
  - rewrite (bind_run (mk_socket_read socket room) _ w1 (inl d) (logged w1 [EvRead socket d]));
      [|unfold mk_socket_read; mrun; now rewrite En].
    destruct d as [|x d]; [eexists; split; [reflexivity|]; split; done|]. set (dd := x :: d) in *.
    intros Hle. assert (Hroom' : room = cs_body_size c' - Z.of_nat (length s)) by reflexivity.
    destruct (store_received c' s dd Hok') as [Hn Hst]; [rewrite length_app; lia|].
    rewrite G2 in Hn, Hst. replace (_ =? cs_body_size c') with (Z.of_nat (length dd) =? room) in Hst
      by (rewrite Hn, length_app, Nat2Z.inj_add; apply Z.b2z_inj; unfold Z.b2z; repeat case_match; zbool; lia).
    rewrite Hn in Hst |- *. destruct (cs_body_fixed c' && _).
    + destruct (bwrite _ _ dd) as [b1|]; [|reflexivity]. cbn [mbind option_bind] in Hst.
      rewrite (bind_run (lift (Some b1)) _ _ b1 _ eq_refl), Hst. reflexivity.
    + destruct Hst as (b1 & b2 & -> & Hb2 & Hok2 & Hnul). exists b2. split; [|split; [exact Hok2|exact Hnul]].
      rewrite (bind_run (lift (Some b1)) _ _ b1 _ eq_refl), Hb2, (bind_run (lift (Some b2)) _ _ b2 _ eq_refl).
      erewrite bind_run; [|eapply put_cs_run; exact Hc']. rewrite i32_small; [reflexivity|].
      unfold dd in *. cbn [length] in *. lia.
  - rewrite (bind_run (mk_socket_read socket room) _ w1 (inr (z, eagain)) (logged w1 [EvRead socket []]));
      [|unfold mk_socket_read; mrun; now rewrite En].
    destruct eagain; [reflexivity|]. eexists. split; [reflexivity|]. split; done.
Qed.

End Reading.

(** ** The end of a request *)

Section RequestEnd.
Context `{env : Env}.

(** The descriptors closed with the requests. *)
Definition closed_files (l : list session_request) : list event :=
  map (fun r => EvClose (sr_fd_file r)) (List.filter (fun r => 0 <? sr_fd_file r) l).

Lemma free_requests_run l w : free_requests l w = Some (tt, logged w (closed_files l)).
Proof.
  revert w; induction l as [|r l IH]; intros w; cbn [free_requests]; [now rewrite logged_nil|].
  unfold closed_files, mk_request_free. cbn [List.filter]. destruct (0 <? sr_fd_file r).
  - rewrite (bind_run (emit _) _ w tt (logged w [EvClose (sr_fd_file r)]) eq_refl), IH, logged_app. done.
  - rewrite (bind_run (mret tt) _ w tt w eq_refl). apply IH.
Qed.

Lemma free_list_run w cs c :
  assoc cs (w_sessions w) = Some c ->
  mk_request_free_list cs w =
  Some (tt, set_cs (logged w (closed_files (cs_request_list c))) cs (c <| cs_request_list := [] |>)).
Proof.
  intros Hc. unfold mk_request_free_list. rewrite (bind_run _ _ _ _ _ (get_cs_run _ _ _ Hc)).
  rewrite (bind_run _ _ _ _ _ (free_requests_run _ _)). set (w1 := logged w _).
  assert (H1 : assoc cs (w_sessions w1) = Some c) by exact Hc.
  rewrite (bind_run _ _ _ _ _ (get_cs_run _ _ _ H1)). exact (put_cs_run _ _ _ _ H1).
Qed.

(** At the end of a request its files are closed, each once, and its
    requests dropped. With keep-alive the session waits for the next request:
    nothing received, no method, no end of headers, one more request counted,
    and its socket watched for reading. Without, it is removed. *)
Theorem mk_http_request_end_spec socket w cs c :
  mk_session_get socket w = Some (Some cs, w) -> assoc cs (w_sessions w) = Some c ->
  let w1 := logged w (closed_files (cs_request_list c)) in
  if mk_http_keepalive_check c <? 0 then
    exists w', mk_http_request_end socket w = Some (-1, w') /\ w_trace w' = w_trace w1 /\
      w_sessions w' = remove_session socket (assoc_set cs (c <| cs_request_list := [] |>) (w_sessions w))
  else
    exists w' c', mk_http_request_end socket w = Some (0, w') /\ assoc cs (w_sessions w') = Some c' /\
      c' = mk_request_ka_next (w_utime w) (c <| cs_request_list := [] |>) /\
      cs_request_list c' = [] /\ cs_body_length c' = 0 /\ cs_body_pos_end c' = -1 /\
      cs_first_method c' = HTTP_METHOD_UNKNOWN /\ cs_status c' = MK_REQUEST_STATUS_INCOMPLETE /\
      w_trace w' = w_trace w1 ++
        [EvEpollCtl EPOLL_CTL_MOD (sl_epoll_fd (w_sched w)) socket (Z.lor (Z.lor EPOLLERR EPOLLHUP) EPOLLIN)].
Proof.
  intros Hget Hc w1. unfold mk_http_request_end. rewrite (bind_run (gets w_sched) _ w _ w eq_refl).
  rewrite (bind_run _ _ _ _ _ Hget), (bind_run _ _ _ _ _ (get_cs_run _ _ _ Hc)).
  rewrite (bind_run _ _ _ _ _ (free_list_run _ _ _ Hc)). fold w1. set (c1 := c <| cs_request_list := [] |>).
  assert (H1 : assoc cs (w_sessions (set_cs w1 cs c1)) = Some c1) by (cbn; now apply assoc_set_eq with c).
  destruct (mk_http_keepalive_check c <? 0); [eexists; split; [reflexivity|]; split; done|].
  rewrite (bind_run _ _ _ _ _ (get_cs_run _ _ _ H1)), (bind_run (gets w_utime) _ _ _ _ eq_refl).
  rewrite (bind_run _ _ _ _ _ (put_cs_run _ _ _ _ H1)). set (c2 := mk_request_ka_next _ c1).
  assert (H2 : assoc cs (w_sessions (set_cs (set_cs w1 cs c1) cs c2)) = Some c2)
    by (cbn; eapply assoc_set_eq, assoc_set_eq, Hc).
  unfold mk_epoll_change_mode, epoll_ctl, state_set. change (MK_EPOLL_READ =? MK_EPOLL_WAKEUP) with false. mrun.
  match goal with |- context [sys_epoll_ctl ?a ?b ?d ?e ?f] => destruct (sys_epoll_ctl a b d e f) as [ret ee] end.
  eexists _, c2. split; [reflexivity|]. split; [exact H2|]. split_and!; done.
Qed.

End RequestEnd.

(** [example_env] on a network that sends two bytes of a file at a time. *)
Definition slow_env : Env :=
  {| config := @config example_env; EUID := 1000; EGID := 1000; sys_lstat := @sys_lstat example_env;
     sys_stat := @sys_stat example_env; sys_open := @sys_open example_env;
     sys_access := @sys_access example_env; sys_readlink := @sys_readlink example_env;
     sys_getpwnam := @sys_getpwnam example_env; sys_strptime := @sys_strptime example_env;
     sys_mktime := @sys_mktime example_env;
     sys_epoll_ctl := @sys_epoll_ctl example_env; net_read := fun _ _ _ => inl (lit "GET ");
     net_write := @net_write example_env; net_writev := @net_writev example_env;
     net_send_file := fun _ _ _ _ n => Z.min 2 n; sys_getfd := @sys_getfd example_env; sys_realloc := @sys_realloc example_env;
     sys_junk := @sys_junk example_env; mimecommon := @mimecommon example_env;
     mimearr := @mimearr example_env; mimetype_default := @mimetype_default example_env;
     plugins := [] |}.

Lemma mk_handler_write_completes_witness :
  exists ks w', @write_events slow_env (Z.to_nat 5) 5 1 (request_world sending_request) =
      Some (if sr_close_now sending_request =? MK_TRUE then -1 else 0, w') /\
    Forall (fun k => 0 < k) ks /\ sum ks = 5 /\
    w_trace w' = [] ++ pieces 5 (sr_fd_file sending_request) 0 5 ks ++ [EvCork 5 TCP_CORK_OFF] /\
    exists c' r', at_sr w' 1 0 c' r' /\ sr_bytes_to_send r' = 0.
Proof.
  apply (@mk_handler_write_completes slow_env 5 1 (request_world sending_request) (request_session sending_request)
    sending_request); [apply request_world_at | done | done | done | done | | cbn; lia].
  intros t s fd off count H. cbn. lia.
Defined.

Definition reading_session : client_session :=
  session_example [] 0 <| cs_body := replicate 4096 0 |>.
Definition reading_world : world := example_world <| w_sessions := [(1%nat, reading_session)] |>.

Lemma reading_ok : body_ok reading_session [].
Proof. split; [cbn; unfold MK_REQUEST_CHUNK; lia|reflexivity|cbn; lia|reflexivity|reflexivity]. Qed.

Lemma mk_handler_read_witness :
  exists c', body_ok c' [] /\ 0 < cs_body_size c' - 0 /\
  (4 <= cs_body_size c' - 0 ->
   if cs_body_fixed c' && (4 =? cs_body_size c' - 0) then @mk_handler_read slow_env 5 1 reading_world = None
   else exists body, @mk_handler_read slow_env 5 1 reading_world =
          Some (4, set_cs (logged (set_cs reading_world 1 c') [EvRead 5 (lit "GET ")]) 1
                     (c' <| cs_body := body |> <| cs_body_length := Z.of_nat (length ([] ++ lit "GET ")) |>)) /\
        body_ok (c' <| cs_body := body |> <| cs_body_length := Z.of_nat (length ([] ++ lit "GET ")) |>) ([] ++ lit "GET ") /\
        body !! length ([] ++ lit "GET ") = Some 0).
Proof.
  destruct (@mk_handler_read_spec slow_env 5 reading_world 1 reading_session [] eq_refl reading_ok ltac:(left; cbn; lia))
    as (c' & H1 & _ & _ & H2 & H3).
  exists c'. split; [exact H1|]. split; [exact H2|exact H3].
Defined.

(** Two pipelined requests, the first to be refused. *)
Definition pipelined_body : bytes :=
  lit "GET /a/../b HTTP/1.1" ++ [13; 10] ++ lit "Host: x" ++ [13; 10; 13; 10] ++
  lit "GET /a.html HTTP/1.1" ++ [13; 10] ++ lit "Host: x" ++ [13; 10; 13; 10].
Definition pipelined_session : client_session :=
  session_example pipelined_body 1 <| cs_body_pos_end := Z.of_nat (length pipelined_body) - 4 |>
    <| cs_first_method := HTTP_METHOD_GET |>.
Definition pipelined_world : world := example_world <| w_sessions := [(1%nat, pipelined_session)] |>.

(** The writes of a trace that begin like the response to a 403. *)
Definition refusals (t : list event) : nat :=
  length (List.filter (fun e => match e with EvWrite _ d => list_prefixb (lit "HTTP/1.1 403") d | _ => false end) t).

(** while the file of the second of two pipelined requests is being sent,
    each writable event answers the first request, refused long ago, again: its
    response, in full, comes between the pieces of the file. *)
Theorem mk_handler_write_repeats_error :
  exists w1 w2,
    @mk_handler_write slow_env 5 1 pipelined_world = Some (3, w1) /\
    @mk_handler_write slow_env 5 1 w1 = Some (1, w2) /\
    refusals (w_trace w1) = 1%nat /\ refusals (w_trace w2) = 2%nat /\
    exists t, w_trace w2 = w_trace w1 ++ t ++ [EvSendFile 5 7 2 3 2] /\ refusals t = 1%nat /\
      EvSendFile 5 7 0 5 2 ∈ w_trace w1.
Proof.
  edestruct (outcome_inv (@mk_handler_write slow_env 5 1 pipelined_world)) as (w1 & H1 & T1); [vm_compute; reflexivity|].
  edestruct (outcome_inv (p ← @mk_handler_write slow_env 5 1 pipelined_world; @mk_handler_write slow_env 5 1 (snd p)))
    as (w2 & H2 & T2); [vm_compute; reflexivity|].
  rewrite H1 in H2. exists w1, w2. split; [exact H1|]. split; [exact H2|]. rewrite T1, T2.
  split; [reflexivity|]. split; [reflexivity|].
  eexists (take 4 (drop (length (w_trace w1)) (w_trace w2))). rewrite T1, T2. split; [reflexivity|]. split; [reflexivity|].
  apply list_elem_of_In. cbn. auto 10.
Qed.

(** A finished request that keeps the connection. *)
Definition finished_request : session_request :=
  ok_request <| sr_keep_alive := MK_TRUE |> <| sr_protocol := HTTP_PROTOCOL_11 |> <| sr_fd_file := 7 |>
    <| sr_bytes_to_send := 0 |>.

Lemma mk_http_request_end_witness :
  exists w' c', @mk_http_request_end example_env 5 (request_world finished_request) = Some (0, w') /\
      assoc 1%nat (w_sessions w') = Some c' /\
      c' = mk_request_ka_next 1000 (request_session finished_request <| cs_request_list := [] |>) /\
      cs_request_list c' = [] /\ cs_body_length c' = 0 /\ cs_body_pos_end c' = -1 /\
      cs_first_method c' = HTTP_METHOD_UNKNOWN /\ cs_status c' = MK_REQUEST_STATUS_INCOMPLETE /\
      w_trace w' = [EvClose 7] ++ [EvEpollCtl EPOLL_CTL_MOD 4 5 (Z.lor (Z.lor EPOLLERR EPOLLHUP) EPOLLIN)].
Proof.
  exact (@mk_http_request_end_spec example_env 5 (request_world finished_request) 1 (request_session finished_request)
           eq_refl eq_refl).
Defined.
