(* ===== verification/MkClock.v ===== *)
(** * mk_clock.c: the time as text

    One thread formats the time once a second, for the log and for the response
    header; the workers read the texts without a lock. Each text has two buffers
    that are written in turn. *)
From S2P Require Import Prelude CString MkString MkMemory MkUtils MkResponse.
Local Open Scope Z_scope.

Definition HEADER_TIME_BUFFER_SIZE : Z := 32.
Definition LOG_TIME_BUFFER_SIZE : Z := 30.

(** ** Dates as text (time.h)

    [strftime] in the C locale, for the two formats of the program. *)

Definition two (z : Z) : bytes := [48 + z / 10; 48 + z mod 10].
Definition clock_text (t : tm) : bytes := two (tm_hour t) ++ [58] ++ two (tm_min t) ++ [58] ++ two (tm_sec t).

(** "%a, %d %b %Y %H:%M:%S GMT\r\n" *)
Definition GMT_DATEFORMAT (t : tm) : option bytes :=
  wd ← mk_date_wd !! Z.to_nat (tm_wday t);
  ym ← mk_date_ym !! Z.to_nat (tm_mon t);
  Some (wd ++ two (tm_mday t) ++ [32] ++ ym ++ dec (tm_year t + 1900) ++ [32] ++ clock_text t ++ lit " GMT" ++ [13; 10]).

(** A local time: the day of the year and the offset from UTC in seconds. *)
Record local_tm := { lt_tm : tm; lt_yday : Z; lt_gmtoff : Z }.
Class LocalTime := localtime_r : Z -> option local_tm.

Definition leap (year : Z) : bool := (year mod 4 =? 0) && (negb (year mod 100 =? 0) || (year mod 400 =? 0)).
(** "%G": the year of the Thursday of the week. *)
Definition iso_year (l : local_tm) : Z :=
  let year := tm_year (lt_tm l) + 1900 in
  let thursday := lt_yday l - (tm_wday (lt_tm l) + 6) mod 7 + 3 in
  if thursday <? 0 then year - 1
  else if (if leap year then 366 else 365) <=? thursday then year + 1 else year.
(** "%z" *)
Definition zone (off : Z) : bytes :=
  let m := Z.abs off / 60 in (if off <? 0 then [45] else [43]) ++ two (m / 60) ++ two (m mod 60).

(** "[%d/%b/%G %T %z]" *)
Definition log_format (l : local_tm) : option bytes :=
  let t := lt_tm l in
  ym ← mk_date_ym !! Z.to_nat (tm_mon t);
  Some (lit "[" ++ two (tm_mday t) ++ lit "/" ++ take 3 ym ++ lit "/" ++ dec (iso_year l) ++ [32] ++ clock_text t ++ [32] ++
        zone (lt_gmtoff l) ++ lit "]").

(** A text that does not fit leaves the buffer undefined. *)
Definition strftime (buf : bytes) (max : Z) (text : bytes) : option bytes :=
  if Z.of_nat (length text) <? max then bwrite buf 0 (text ++ [0]) else None.

(** ** The two buffers *)

(** [log_current_time] and [header_current_time] with their buffers; the data is
    a buffer, or NULL. *)
Record clock_pointer := { cp_data : option nat; cp_len : Z; cp_buffers : list bytes }.
#[export] Instance eta_clock_pointer : Eta clock_pointer := fun r =>
  {| cp_data := cp_data r; cp_len := cp_len r; cp_buffers := cp_buffers r |}.

Record clock := { log_current_utime : Z; log_current_time : clock_pointer; header_current_time : clock_pointer }.
#[export] Instance eta_clock : Eta clock := fun r =>
  {| log_current_utime := log_current_utime r; log_current_time := log_current_time r; header_current_time := header_current_time r |}.

Definition _next_buffer (p : clock_pointer) : nat := match cp_data p with Some O => 1%nat | _ => 0%nat end.

(** One text formatted into the next buffer, which is then announced. *)
Definition set_time (p : clock_pointer) (max : Z) (text : bytes) : option clock_pointer :=
  let i := _next_buffer p in
  b ← cp_buffers p !! i;
  b ← strftime b max text;
  Some (p <| cp_buffers := <[i := b]> (cp_buffers p) |> <| cp_data := Some i |>).

Section Clock.
Context `{LocalTime}.

Definition mk_clock_log_set_time (utime : Z) (c : clock) : option clock :=
  text ← (l ← localtime_r utime; log_format l);
  p ← set_time (log_current_time c) LOG_TIME_BUFFER_SIZE text;
  Some (c <| log_current_utime := utime |> <| log_current_time := p |>).

Definition mk_clock_header_set_time (utime : Z) (c : clock) : option clock :=
  text ← (t ← gmtime_r utime; GMT_DATEFORMAT t);
  p ← set_time (header_current_time c) HEADER_TIME_BUFFER_SIZE text;
  Some (c <| header_current_time := p |>).

(** A round of the thread; [cur_time] is the result of [time(2)]. *)
Definition mk_clock_round (cur_time : Z) (c : clock) : option clock :=
  if cur_time =? -1 then Some c else c ← mk_clock_log_set_time cur_time c; mk_clock_header_set_time cur_time c.

(** Also the value of [monkey_init_time]. *)
Definition mk_clock_sequential_init (init_time cur_time : Z) : option (Z * clock) :=
  let buffers n := [replicate (Z.to_nat n) 0; replicate (Z.to_nat n) 0] in
  c ← mk_clock_round cur_time
    {| log_current_utime := 0;
       log_current_time := {| cp_data := None; cp_len := LOG_TIME_BUFFER_SIZE - 2; cp_buffers := buffers LOG_TIME_BUFFER_SIZE |};
       header_current_time := {| cp_data := None; cp_len := HEADER_TIME_BUFFER_SIZE - 1; cp_buffers := buffers HEADER_TIME_BUFFER_SIZE |} |};
  Some (init_time, c).

(** ** The thread, byte by byte

    What the workers can see of it: a text grows in its buffer, and the pointer
    changes when it is complete. *)

Inductive text_kind := LogText | HeaderText.
#[export] Instance text_kind_eq_dec : EqDecision text_kind.
Proof. solve_decision. Defined.
Definition pointer_of (k : text_kind) (c : clock) : clock_pointer :=
  match k with LogText => log_current_time c | HeaderText => header_current_time c end.
Definition set_pointer (k : text_kind) (p : clock_pointer) (c : clock) : clock :=
  match k with LogText => c <| log_current_time := p |> | HeaderText => c <| header_current_time := p |> end.
Definition size_of (k : text_kind) : Z := match k with LogText => LOG_TIME_BUFFER_SIZE | HeaderText => HEADER_TIME_BUFFER_SIZE end.
Definition text_of (k : text_kind) (utime : Z) : option bytes :=
  match k with
  | LogText => l ← localtime_r utime; log_format l
  | HeaderText => t ← gmtime_r utime; GMT_DATEFORMAT t
  end.

(** Asleep, or in [strftime] with the bytes it has still to write. *)
Inductive clock_pc := Asleep | Writing (k : text_kind) (utime : Z) (i pos : nat) (rest : bytes).
Inductive clock_act := Tick (cur_time : Z) | Byte | Publish.

Definition begin_text (k : text_kind) (utime : Z) (c : clock) : option (clock * clock_pc) :=
  text ← text_of k utime;
  if Z.of_nat (length text) <? size_of k then
    Some (match k with LogText => c <| log_current_utime := utime |> | HeaderText => c end,
          Writing k utime (_next_buffer (pointer_of k c)) 0 (text ++ [0]))
  else None.

Definition clock_step (a : clock_act) (s : clock * clock_pc) : option (clock * clock_pc) :=
  let '(c, pc) := s in
  match a, pc with
  | Tick t, Asleep => if t =? -1 then Some (c, Asleep) else begin_text LogText t c
  | Byte, Writing k t i pos (x :: rest) =>
    b ← cp_buffers (pointer_of k c) !! i;
    b ← bput b pos x;
    Some (set_pointer k (pointer_of k c <| cp_buffers := <[i := b]> (cp_buffers (pointer_of k c)) |>) c, Writing k t i (S pos) rest)
  | Publish, Writing k t i pos [] =>
    let c := set_pointer k (pointer_of k c <| cp_data := Some i |>) c in
    match k with LogText => begin_text HeaderText t c | HeaderText => Some (c, Asleep) end
  | _, _ => None
  end.
Fixpoint clock_run (acts : list clock_act) (s : clock * clock_pc) : option (clock * clock_pc) :=
  match acts with [] => Some s | a :: acts => s ← clock_step a s; clock_run acts s end.

Lemma clock_run_app l1 l2 s : clock_run (l1 ++ l2) s = s ← clock_run l1 s; clock_run l2 s.
Proof. revert s. induction l1 as [|a l1 IH]; intros s; [done|]. cbn [app clock_run]. destruct (clock_step a s); [apply IH|done]. Qed.

(** The times that were ticked. *)
Fixpoint ticks (acts : list clock_act) : list Z :=
  match acts with
  | [] => []
  | Tick t :: acts => if t =? -1 then ticks acts else t :: ticks acts
  | _ :: acts => ticks acts
  end.
Lemma ticks_app l1 l2 : ticks (l1 ++ l2) = ticks l1 ++ ticks l2.
Proof. induction l1 as [|[t| |] l1 IH]; cbn; rewrite ?IH; [done|case_if; by rewrite ?IH|done..]. Qed.

Lemma set_pointer_id k c : set_pointer k (pointer_of k c) c = c.
Proof. by destruct k, c. Qed.
Lemma set_pointer_twice k p q c : set_pointer k p (set_pointer k q c) = set_pointer k p c.
Proof. by destruct k, c. Qed.
Lemma pointer_set k p c : pointer_of k (set_pointer k p c) = p.
Proof. by destruct k, c. Qed.
Lemma pointer_set_ne k k' p c : k <> k' -> pointer_of k (set_pointer k' p c) = pointer_of k c.
Proof. by destruct k, k'. Qed.

(** A text written to its end. *)
Lemma write_bytes k t i rest : forall pos c b,
  cp_buffers (pointer_of k c) !! i = Some b -> (pos + length rest <= length b)%nat ->
  clock_run (replicate (length rest) Byte) (c, Writing k t i pos rest) =
  Some (set_pointer k (pointer_of k c <| cp_buffers := <[i := take pos b ++ rest ++ drop (pos + length rest) b]> (cp_buffers (pointer_of k c)) |>) c,
        Writing k t i (pos + length rest) []).
Proof.
  induction rest as [|x rest IH]; intros pos c b Hb Hl.
  - cbn [length replicate clock_run app]. rewrite Nat.add_0_r, take_drop, list_insert_id by done.
    do 2 f_equal. rewrite <- (set_pointer_id k c) at 1. f_equal. by destruct (pointer_of k c).
  - cbn [length] in Hl. cbn [length replicate clock_run clock_step]. rewrite Hb. mstep. unfold bput.
    destruct (Nat.ltb_spec pos (length b)); [|lia]. mstep.
    erewrite IH; [ |rewrite pointer_set; cbn; apply list_lookup_insert_eq; by apply lookup_lt_Some in Hb|rewrite length_insert; lia].
    rewrite pointer_set, set_pointer_twice. cbn [cp_buffers]. do 2 f_equal; [|f_equal; lia]. f_equal.
    destruct (pointer_of k c) as [d n bs]. cbn. f_equal. rewrite list_insert_insert_eq. f_equal.
    rewrite Iov.take_insert_snoc by lia. rewrite drop_insert_lt by lia. rewrite <- app_assoc. cbn. do 3 f_equal. f_equal. lia.
Qed.

(** The bytes of a text and its announcement are [set_time]. *)
Lemma text_steps k t c c1 text p :
  text_of k t = Some text -> set_time (pointer_of k c) (size_of k) text = Some p ->
  c1 = match k with LogText => c <| log_current_utime := t |> | HeaderText => c end ->
  exists i pos, begin_text k t c = Some (c1, Writing k t i 0 (text ++ [0])) /\
    clock_run (replicate (length (text ++ [0])) Byte) (c1, Writing k t i 0 (text ++ [0])) =
      Some (set_pointer k (p <| cp_data := cp_data (pointer_of k c) |>) c1, Writing k t i pos []) /\ cp_data p = Some i.
Proof.
  intros Ht Hp ->. unfold set_time, strftime in Hp. destruct (cp_buffers (pointer_of k c) !! _) as [b|] eqn:Hb; [|done].
  cbn [mbind option_bind] in Hp. destruct (_ <? size_of k) eqn:Hs; [|done]. unfold bwrite in Hp. case_if_in Hp; [|done]. cbn [mbind option_bind] in Hp. injection Hp as <-. zbool.
  exists (_next_buffer (pointer_of k c)), (0 + length (text ++ [0%Z]))%nat. unfold begin_text. rewrite Ht. mstep.
  replace (_ <? size_of k) with true by zb. split; [done|].
  split; [|done]. destruct k; (erewrite write_bytes; [|exact Hb|lia]); cbn; by destruct (_ c).
Qed.

Lemma run_tick t acts s s1 : t <> -1 -> clock_step (Tick t) s = Some s1 -> clock_run (Tick t :: acts) s = clock_run acts s1.
Proof. intros _ H1. cbn [clock_run]. by rewrite H1. Qed.

Lemma ticks_text n acts : ticks (replicate n Byte ++ Publish :: acts) = ticks acts.
Proof. induction n as [|n IH]; [done|]. exact IH. Qed.

(** A round of the thread seen byte by byte: a round of the code. *)
Lemma clock_round_steps t c c' :
  mk_clock_round t c = Some c' -> t <> -1 ->
  exists acts, ticks acts = [t] /\ clock_run acts (c, Asleep) = Some (c', Asleep).
Proof.
  intros Hr Ht. unfold mk_clock_round, mk_clock_log_set_time, mk_clock_header_set_time in Hr. replace (t =? -1) with false in Hr by zb.
  change (l ← localtime_r t; log_format l) with (text_of LogText t) in Hr.
  change (u ← gmtime_r t; GMT_DATEFORMAT u) with (text_of HeaderText t) in Hr.
  destruct (text_of LogText t) as [lt|] eqn:El; [|done]. cbn [mbind option_bind] in Hr.
  destruct (set_time (log_current_time c) _ lt) as [lp|] eqn:Elp; [|done]. cbn [mbind option_bind] in Hr.
  destruct (text_of HeaderText t) as [ht|] eqn:Eh; [|done]. cbn [mbind option_bind] in Hr.
  destruct (set_time _ HEADER_TIME_BUFFER_SIZE ht) as [hp|] eqn:Ehp; [|done]. injection Hr as <-.
  destruct (text_steps LogText t c _ lt lp El Elp eq_refl) as (i & n & Hb & Hw & Hi).
  set (c2 := c <| log_current_utime := t |> <| log_current_time := lp |>) in *.
  destruct (text_steps HeaderText t c2 _ ht hp Eh Ehp eq_refl) as (j & m & Hb2 & Hw2 & Hj).
  exists (Tick t :: replicate (length (lt ++ [0])) Byte ++ Publish :: replicate (length (ht ++ [0])) Byte ++ [Publish]).
  cbn [ticks]. replace (t =? -1) with false by zb. rewrite !ticks_text. split; [done|].
  erewrite run_tick; [|done|cbn [clock_step]; replace (t =? -1) with false by zb; exact Hb].
  rewrite clock_run_app, Hw. cbn [mbind option_bind clock_run clock_step].
  match goal with |- context [begin_text HeaderText t ?x] => replace x with c2 by (destruct c, lp; cbn in *; by subst) end.
  rewrite Hb2. cbn [mbind option_bind]. rewrite clock_run_app, Hw2. cbn. do 2 f_equal. destruct c, hp; cbn in *; by subst.
Qed.

(** ** What the workers read *)

(** The buffer [i] holds the whole text of one of the times [ts]. *)
Definition holds (k : text_kind) (ts : list Z) (p : clock_pointer) (i : nat) : Prop :=
  exists t text rest, t ∈ ts /\ text_of k t = Some text /\ cp_buffers p !! i = Some (text ++ 0 :: rest).

Definition buffers_ok (k : text_kind) (p : clock_pointer) : Prop :=
  length (cp_buffers p) = 2%nat /\ Forall (fun b => Z.of_nat (length b) = size_of k) (cp_buffers p).
Definition shown_ok (k : text_kind) (ts : list Z) (p : clock_pointer) : Prop :=
  exists i, cp_data p = Some i /\ (i < 2)%nat /\ holds k ts p i.
(** The thread writes the other buffer. *)
Definition pc_ok (ts : list Z) (c : clock) (pc : clock_pc) : Prop :=
  match pc with
  | Asleep => True
  | Writing k t i pos rest =>
    t ∈ ts /\ i = _next_buffer (pointer_of k c) /\ exists text b, text_of k t = Some text /\ cp_buffers (pointer_of k c) !! i = Some b /\
      (pos <= length b)%nat /\ take pos b ++ rest = text ++ [0]
  end.
Definition clock_ok (ts : list Z) (s : clock * clock_pc) : Prop :=
  (forall k, buffers_ok k (pointer_of k (fst s)) /\ shown_ok k ts (pointer_of k (fst s))) /\ pc_ok ts (fst s) (snd s).

Lemma next_buffer_other p i : cp_data p = Some i -> (i < 2)%nat -> _next_buffer p <> i /\ (_next_buffer p < 2)%nat.
Proof. intros Hd Hi. unfold _next_buffer. rewrite Hd. destruct i as [|[|i]]; lia. Qed.

Lemma clock_ok_more ts ts' s : clock_ok ts s -> clock_ok (ts ++ ts') s.
Proof.
  intros [Hk Hp]. split.
  - intros k. destruct (Hk k) as [Hb (i & H1 & H2 & t & text & r & H3 & H4)]. split; [done|]. exists i. split; [done|]. split; [done|].
    exists t, text, r. split; [|done]. apply elem_of_app. by left.
  - destruct s as [c [|k t i pos rest]]; [done|]. destruct Hp as (Ht & H1). split; [apply elem_of_app; by left|done].
Qed.

Lemma begin_ok k t ts c s :
  (forall k, buffers_ok k (pointer_of k c) /\ shown_ok k ts (pointer_of k c)) -> t ∈ ts -> begin_text k t c = Some s -> clock_ok ts s.
Proof.
  intros Hk Ht Hb. unfold begin_text in Hb. destruct (text_of k t) as [text|] eqn:Et; [|done]. cbn [mbind option_bind] in Hb.
  case_if_in Hb; [|done]. injection Hb as <-.
  set (c1 := match k with LogText => _ | HeaderText => _ end). assert (Hc : forall k, pointer_of k c1 = pointer_of k c) by (intros []; by destruct k).
  split; cbn [fst snd]; [intros k'; rewrite Hc; apply Hk|]. split; [done|]. split; [by rewrite Hc|].
  destruct (Hk k) as [[Hl Hb] (i & Hi & Hi2 & _)]. destruct (next_buffer_other _ _ Hi Hi2) as [_ Hn]. rewrite Hc.
  destruct (lookup_lt_is_Some_2 (cp_buffers (pointer_of k c)) (_next_buffer (pointer_of k c))) as [b Eb]; [lia|].
  exists text, b. split; [done|]. split; [done|]. split; [lia|done].
Qed.

(** A byte goes to the buffer that is not shown, and nowhere else. *)
Lemma byte_ok k t i pos x rest ts c s :
  clock_ok ts (c, Writing k t i pos (x :: rest)) -> clock_step Byte (c, Writing k t i pos (x :: rest)) = Some s -> clock_ok ts s.
Proof.
  intros [Hk (Ht & Hi & text & b & Htext & Hb & Hpos & Htake)] Hs. cbn [fst snd] in *. cbn [clock_step] in Hs. rewrite Hb in Hs. cbn [mbind option_bind] in Hs.
  unfold bput in Hs. destruct (Nat.ltb_spec pos (length b)) as [Hlt|]; [|done]. injection Hs as <-.
  destruct (Hk k) as [[Hl Hf] (j & Hj & Hj2 & t' & text' & r' & Ht' & Htext' & Hb')].
  destruct (next_buffer_other _ _ Hj Hj2) as [Hne Hn]. rewrite <- Hi in Hne, Hn. split; cbn [fst snd].
  - intros k'. destruct (decide (k = k')) as [<-|Hkk].
    + rewrite pointer_set. split.
      * split; cbn; [by rewrite length_insert|]. apply Forall_insert; [done|]. rewrite length_insert. by eapply Forall_lookup_1 in Hf.
      * exists j. split; [done|]. split; [done|]. exists t', text', r'. split; [done|]. split; [done|]. cbn. by rewrite list_lookup_insert_ne.
    + rewrite pointer_set_ne by congruence. apply Hk.
  - split; [done|]. rewrite pointer_set. split; [done|]. exists text, (<[pos := x]> b). split; [done|].
    split; [cbn; apply list_lookup_insert_eq; by apply lookup_lt_Some in Hb|]. rewrite length_insert. split; [lia|].
    rewrite Iov.take_insert_snoc by done. by rewrite <- app_assoc.
Qed.

(** What was written is shown. *)
Lemma publish_shown k t i pos ts c :
  clock_ok ts (c, Writing k t i pos []) ->
  let c' := set_pointer k (pointer_of k c <| cp_data := Some i |>) c in
  forall k', buffers_ok k' (pointer_of k' c') /\ shown_ok k' ts (pointer_of k' c').
Proof.
  intros [Hk (Ht & Hi & text & b & Htext & Hb & Hpos & Htake)] c' k'. cbn [fst snd] in *. rewrite app_nil_r in Htake.
  destruct (decide (k = k')) as [<-|Hkk]; [|unfold c'; rewrite pointer_set_ne by congruence; apply Hk].
  unfold c'. rewrite pointer_set. destruct (Hk k) as [Hbuf (j & Hj & Hj2 & _)]. split; [done|].
  exists i. split; [done|]. split; [rewrite Hi; by eapply next_buffer_other|]. exists t, text, (drop pos b). split; [done|]. split; [done|].
  cbn. rewrite Hb. f_equal. rewrite <- (take_drop pos b) at 1. rewrite Htake, <- app_assoc. done.
Qed.

Lemma clock_step_ok a ts s s' : clock_ok ts s -> clock_step a s = Some s' -> clock_ok (ts ++ ticks [a]) s'.
Proof.
  intros Hok Hs. destruct s as [c pc]. destruct a as [t| |].
  - destruct pc; [|done]. cbn [clock_step ticks] in *. destruct (t =? -1) eqn:E; [injection Hs as <-; by apply clock_ok_more|].
    eapply begin_ok; [|apply elem_of_app; right; apply list_elem_of_here|exact Hs]. apply (clock_ok_more ts [t]) in Hok. apply Hok.
  - destruct pc as [|k t i pos [|x rest]]; [done..|]. rewrite app_nil_r. by eapply byte_ok.
  - destruct pc as [|k t i pos [|x rest]]; [done| |done]. cbn [ticks]. rewrite app_nil_r. cbn [clock_step] in Hs.
    pose proof (publish_shown _ _ _ _ _ _ Hok) as Hp. destruct k; [|injection Hs as <-; by split].
    eapply begin_ok; [exact Hp| |exact Hs]. by destruct Hok as [_ [? _]].
Qed.

Lemma clock_run_ok acts ts s s' : clock_ok ts s -> clock_run acts s = Some s' -> clock_ok (ts ++ ticks acts) s'.
Proof.
  revert ts s. induction acts as [|a acts IH]; intros ts s Hok Hr; [injection Hr as <-; by rewrite app_nil_r|].
  cbn [clock_run] in Hr. destruct (clock_step a s) as [s1|] eqn:E; [|done]. cbn [mbind option_bind] in Hr.
  change (a :: acts) with ([a] ++ acts). rewrite ticks_app, app_assoc. eapply IH; [|exact Hr]. by eapply clock_step_ok.
Qed.

(** ** A reader that is slow *)

(** The buffer [i] with the content [b] is not written while at most [left]
    updates begin: it is shown, or was and the update that replaced it goes on. *)
Definition stays (k : text_kind) (i : nat) (b : bytes) (left : nat) (s : clock * clock_pc) : Prop :=
  let p := pointer_of k (fst s) in
  cp_buffers p !! i = Some b /\
  ((cp_data p = Some i /\ (snd s = Asleep \/ left = 0%nat) /\ (left <= 1)%nat) \/
   (left = 0%nat /\ (snd s = Asleep \/ (k = LogText /\ exists t j pos rest, snd s = Writing HeaderText t j pos rest)))).

Lemma stays_begin k k' i b t c s :
  begin_text k' t c = Some s -> stays k i b 0 (c, Asleep) -> (k' = k -> cp_data (pointer_of k c) = Some i) ->
  (k' = LogText -> cp_data (pointer_of k c) = Some i) -> stays k i b 0 s.
Proof.
  intros Hb [Hbuf Hs] Hk Hl. unfold begin_text in Hb. destruct (text_of k' t) as [text|]; [|done]. cbn [mbind option_bind] in Hb.
  case_if_in Hb; [|done]. injection Hb as <-. unfold stays. cbn [fst snd] in *.
  destruct k, k'; cbn [pointer_of] in *; (split; [exact Hbuf|]); cbn; [left|right|left|left]; split; auto; try (split; [by right|lia]).
  right. split; [done|]. eauto.
Qed.

Lemma stays_step k i b left a ts s s' :
  clock_ok ts s -> stays k i b left s -> (length (ticks [a]) <= left)%nat -> clock_step a s = Some s' ->
  stays k i b (left - length (ticks [a])) s'.
Proof.
  intros Hok Hst Hl Hs. destruct s as [c pc]. destruct a as [t| |].
  - destruct pc; [|done]. cbn [clock_step ticks] in *. destruct (t =? -1) eqn:E.
    + injection Hs as <-. cbn [length]. by rewrite Nat.sub_0_r.
    + cbn [length] in *. destruct Hst as [Hbuf [(Hd & _ & Hle)|[-> _]]]; [|lia]. replace (left - 1)%nat with 0%nat by lia.
      eapply stays_begin; [exact Hs| |done..]. split; [done|]. left. split; [done|]. split; [by left|lia].
  - cbn [ticks length]. rewrite Nat.sub_0_r. destruct pc as [|k' t j pos [|x rest]]; [done..|].
    destruct Hok as [Hk (_ & Hj & _)]. cbn [fst snd] in *. cbn [clock_step] in Hs. destruct (cp_buffers (pointer_of k' c) !! j) as [b'|] eqn:Eb; [|done].
    cbn [mbind option_bind] in Hs. destruct (bput b' pos x) as [b2|]; [|done]. injection Hs as <-.
    destruct Hst as [Hbuf Hst]. unfold stays. cbn [fst snd] in *. destruct (decide (k = k')) as [<-|Hne].
    + destruct Hst as [(Hd & [?| ->] & Hle)|(_ & [?|(-> & ? & ? & ? & ? & ?)])]; try done. rewrite pointer_set. cbn [cp_buffers cp_data].
      destruct (Hk k) as [_ (i' & Hi' & Hlt & _)]. assert (i' = i) as -> by congruence. destruct (next_buffer_other _ _ Hd Hlt) as [Hne _]. rewrite <- Hj in Hne.
      split; [by rewrite list_lookup_insert_ne|]. left. split; [done|]. split; [by right|lia].
    + rewrite pointer_set_ne by done. split; [done|].
      destruct Hst as [(Hd & [?| ->] & Hle)|(-> & [?|( -> & t' & j' & pos' & rest' & E)])]; try done; [left|right].
      * split; [done|]. split; [by right|lia].
      * split; [done|]. right. split; [done|]. injection E as -> -> -> -> <-. eauto.
  - cbn [ticks length]. rewrite Nat.sub_0_r. destruct pc as [|k' t j pos [|x rest]]; [done| |done].
    destruct Hst as [Hbuf Hst]. cbn [fst snd clock_step] in *.
    assert (left = 0%nat) as -> by (destruct Hst as [(_ & [?|?] & _)|[? _]]; done).
    set (c' := set_pointer k' _ c) in *. assert (Hst' : stays k i b 0 (c', Asleep) /\ (k <> k' -> cp_data (pointer_of k c') = cp_data (pointer_of k c))).
    { unfold stays. cbn [fst snd]. split.
      - split; [|right; auto]. destruct (decide (k = k')) as [<-|Hne]; [unfold c'; by rewrite pointer_set|unfold c'; by rewrite pointer_set_ne].
      - intros Hne. unfold c'. by rewrite pointer_set_ne. }
    destruct Hst' as [Hst' Hsame]. destruct k'; [|injection Hs as <-; exact Hst'].
    unfold begin_text in Hs. destruct (text_of HeaderText t) as [text|]; [|done]. cbn [mbind option_bind] in Hs. case_if_in Hs; [|done]. injection Hs as <-.
    unfold stays. cbn [fst snd]. split; [apply Hst'|]. destruct k.
    + right. split; [done|]. right. split; [done|]. eauto.
    + left. rewrite Hsame by done. destruct Hst as [(Hd & _ & _)|[_ [?|[? _]]]]; [|done..]. split; [done|]. split; [by right|lia].
Qed.

Lemma stays_run k i b acts : forall left ts s s',
  clock_ok ts s -> stays k i b left s -> (length (ticks acts) <= left)%nat -> clock_run acts s = Some s' ->
  cp_buffers (pointer_of k (fst s')) !! i = Some b.
Proof.
  induction acts as [|a acts IH]; intros left ts s s' Hok Hst Hl Hr; [injection Hr as <-; apply Hst|].
  cbn [clock_run] in Hr. destruct (clock_step a s) as [s1|] eqn:E; [|done]. cbn [mbind option_bind] in Hr.
  change (a :: acts) with ([a] ++ acts) in Hl. rewrite ticks_app, length_app in Hl.
  eapply (IH (left - length (ticks [a]))%nat (ts ++ ticks [a])); [by eapply clock_step_ok|eapply stays_step; [exact Hok|done|lia|done]|lia|exact Hr].
Qed.

(** ** From the start of the server on *)

Lemma set_time_shown k t p text p' :
  buffers_ok k p -> text_of k t = Some text -> set_time p (size_of k) text = Some p' -> buffers_ok k p' /\ shown_ok k [t] p' /\ cp_len p' = cp_len p.
Proof.
  intros [Hl Hf] Ht Hs. unfold set_time, strftime in Hs. destruct (cp_buffers p !! _) as [b|] eqn:Hb; [|done]. cbn [mbind option_bind] in Hs.
  case_if_in Hs; [|done]. destruct (bwrite b 0 _) as [b'|] eqn:Hw; [|done]. injection Hs as <-.
  pose proof (bwrite_length _ _ _ _ Hw) as Hlen. unfold bwrite in Hw. case_if_in Hw; [|done]. injection Hw as <-. cbn in *.
  split; [split; cbn; [by rewrite length_insert|apply Forall_insert; [done|rewrite Hlen; by eapply Forall_lookup_1 in Hf]]|]. split; [|done].
  exists (_next_buffer p). split; [done|]. split; [apply lookup_lt_Some in Hb; lia|]. exists t, text, (drop (length (text ++ [0])) b).
  split; [by apply list_elem_of_singleton|]. split; [done|]. cbn. rewrite list_lookup_insert_eq by (by apply lookup_lt_Some in Hb). by rewrite <- app_assoc.
Qed.

Lemma fresh_buffers k d n :
  buffers_ok k {| cp_data := d; cp_len := n; cp_buffers := [replicate (Z.to_nat (size_of k)) 0; replicate (Z.to_nat (size_of k)) 0] |}.
Proof. split; [done|]. destruct k; repeat constructor. Qed.

Lemma mk_clock_init_ok init t0 c0 :
  mk_clock_sequential_init init t0 = Some (init, c0) -> t0 <> -1 ->
  clock_ok [t0] (c0, Asleep) /\ cp_len (log_current_time c0) = 28 /\ cp_len (header_current_time c0) = 31.
Proof.
  intros H0 Ht. unfold mk_clock_sequential_init, mk_clock_round, mk_clock_log_set_time, mk_clock_header_set_time in H0. replace (t0 =? -1) with false in H0 by zb.
  change (l ← localtime_r t0; log_format l) with (text_of LogText t0) in H0.
  change (u ← gmtime_r t0; GMT_DATEFORMAT u) with (text_of HeaderText t0) in H0.
  destruct (text_of LogText t0) as [lt|] eqn:El; [|done]. cbn [mbind option_bind log_current_time] in H0.
  destruct (set_time _ LOG_TIME_BUFFER_SIZE lt) as [lp|] eqn:Elp; [|done]. cbn [mbind option_bind header_current_time] in H0.
  destruct (text_of HeaderText t0) as [ht|] eqn:Eh; [|done]. cbn [mbind option_bind] in H0.
  destruct (set_time _ HEADER_TIME_BUFFER_SIZE ht) as [hp|] eqn:Ehp; [|done]. injection H0 as <-.
  destruct (set_time_shown LogText t0 _ lt lp (fresh_buffers LogText _ _) El Elp) as (H1 & H2 & H3).
  destruct (set_time_shown HeaderText t0 _ ht hp (fresh_buffers HeaderText _ _) Eh Ehp) as (H4 & H5 & H6).
  split; [|done]. split; [|done]. by intros [].
Qed.

(** C17: from the start on, whatever the workers interleave with the clock, each
    of the two pointers shows the whole text of a time that was ticked; and a
    worker that took the pointer still finds that text in its buffer as long as
    at most one update, the one that goes on included, overlaps its reading: with
    a second between updates it has a second to read. *)
Theorem mk_clock_readers init t0 c0 acts s acts' s' k :
  mk_clock_sequential_init init t0 = Some (init, c0) -> t0 <> -1 ->
  clock_run acts (c0, Asleep) = Some s -> clock_run acts' s = Some s' ->
  (length (ticks acts') <= match snd s with Asleep => 1 | Writing _ _ _ _ _ => 0 end)%nat ->
  exists i t text rest, cp_data (pointer_of k (fst s)) = Some i /\ t ∈ t0 :: ticks acts /\ text_of k t = Some text /\
    cp_buffers (pointer_of k (fst s)) !! i = Some (text ++ 0 :: rest) /\
    cp_buffers (pointer_of k (fst s')) !! i = Some (text ++ 0 :: rest).
Proof.
  intros H0 Ht Hr Hr' Hl. destruct (mk_clock_init_ok _ _ _ H0 Ht) as [Hok _].
  pose proof (clock_run_ok _ _ _ _ Hok Hr) as Hoks. pose proof Hoks as [Hk _].
  destruct (Hk k) as [_ (i & Hi & _ & t & text & rest & H1 & H2 & H3)]. exists i, t, text, rest. do 4 (split; [done|]).
  eapply stays_run; [exact Hoks| |exact Hl|exact Hr']. split; [done|]. left. split; [done|]. destruct (snd s); auto with lia.
Qed.

(** The header of a response has the same text that composes the dates of
    files (mk_utils.c). *)
Lemma dec_year y : 1000 <= y <= 9999 ->
  dec y = [48 + y / 1000; 48 + y / 100 mod 10; 48 + y / 10 mod 10; 48 + y mod 10].
Proof.
  intros Hy. unfold dec. rewrite Z.abs_eq by lia. replace (y <? 0) with false by zb. change 20%nat with (4 + 16)%nat. cbn [itop_digits Nat.add].
  replace (y / 10 =? 0) with false by (symmetry; apply Z.eqb_neq; Z.div_mod_to_equations; lia). rewrite !Z.div_div by lia.
  replace (y / (10 * 10) =? 0) with false by (symmetry; apply Z.eqb_neq; Z.div_mod_to_equations; lia).
  replace (y / (10 * 10 * 10) =? 0) with false by (symmetry; apply Z.eqb_neq; Z.div_mod_to_equations; lia).
  replace (y / (10 * 10 * 10 * 10) =? 0) with true by (symmetry; apply Z.eqb_eq; Z.div_mod_to_equations; lia).
  cbn [rev app]. do 2 f_equal. Z.div_mod_to_equations; lia.
Qed.

Lemma header_text_gmt t text :
  1000 <= tm_year t + 1900 <= 9999 -> 0 <= tm_mday t < 100 -> 0 <= tm_hour t < 100 -> 0 <= tm_min t < 100 -> 0 <= tm_sec t < 100 ->
  GMT_DATEFORMAT t = Some text -> gmt_compose t = Some (text ++ [0]) /\ length text = 31%nat.
Proof.
  intros Hy Hd Hh Hm Hs. unfold GMT_DATEFORMAT, gmt_compose.
  destruct (mk_date_wd !! _) as [wd|] eqn:Ew; [|done]. destruct (mk_date_ym !! _) as [ym|] eqn:Ey; [|done]. mstep. intros [= <-].
  assert (Hwd : Forall (fun s => length s = 5%nat) mk_date_wd) by (repeat constructor).
  assert (Hym : Forall (fun s => length s = 4%nat) mk_date_ym) by (repeat constructor).
  rewrite !u16_small by lia. rewrite dec_year by lia. unfold clock_text, two, digit. rewrite !u8_small by (Z.div_mod_to_equations; lia). split.
  - rewrite <- !app_assoc. cbn [app]. rewrite <- !app_assoc. cbn [app]. do 8 f_equal. rewrite (Z.mod_small (_ / 1000)) by (Z.div_mod_to_equations; lia). done.
  - rewrite length_app, (Forall_lookup_1 _ _ _ _ Hwd Ew). cbn [length app]. rewrite length_app, (Forall_lookup_1 _ _ _ _ Hym Ey). done.
Qed.
End Clock.

(** ** Examples *)

(** Central European time of a server started on the first of January 2012, a
    Sunday. *)
Definition winter_time (days sec : Z) : local_tm :=
  {| lt_tm := {| tm_sec := sec mod 60; tm_min := sec / 60 mod 60; tm_hour := sec / 3600; tm_mday := days + 1; tm_mon := 0; tm_year := 112; tm_wday := days mod 7 |};
     lt_yday := days; lt_gmtoff := 3600 |}.
Definition example_local : LocalTime := fun t => let s := t - 1325372400 in Some (winter_time (s / 86400) (s mod 86400)).

(** The week that began in 2011 gives the year of the log. *)
Example log_year_2011 :
  @text_of example_local LogText 1325372400 = Some (lit "[01/Jan/2011 00:00:00 +0100]") /\
  @text_of example_local LogText 1325458800 = Some (lit "[02/Jan/2012 00:00:00 +0100]") /\
  @text_of example_local HeaderText 1325372400 = Some (lit "Sat, 31 Dec 2011 23:00:00 GMT" ++ [13; 10]).
Proof. vm_compute. done. Qed.

(** A server that runs for two seconds: a worker that took the header's text in
    the first reads it after the second. *)
Definition example_clock : option (Z * clock) := @mk_clock_sequential_init example_local 0 1325372400.
Definition second (t : Z) : list clock_act := Tick t :: replicate 29 Byte ++ Publish :: replicate 32 Byte ++ [Publish].
Definition clock_after (acts : list clock_act) : clock * clock_pc :=
  default ({| log_current_utime := 0; log_current_time := {| cp_data := None; cp_len := 0; cp_buffers := [] |};
              header_current_time := {| cp_data := None; cp_len := 0; cp_buffers := [] |} |}, Asleep)
    ('(_, c) ← example_clock; @clock_run example_local acts (c, Asleep)).

Definition clock_0 : clock := Eval vm_compute in fst (clock_after []).
Definition clock_1 : clock * clock_pc := Eval vm_compute in clock_after (second 1325372401).
Definition clock_2 : clock * clock_pc := Eval vm_compute in clock_after (second 1325372401 ++ second 1325372402).

Lemma mk_clock_readers_witness :
  exists i t text rest, cp_data (pointer_of HeaderText (fst clock_1)) = Some i /\
    t ∈ 1325372400 :: ticks (second 1325372401) /\ @text_of example_local HeaderText t = Some text /\
    cp_buffers (pointer_of HeaderText (fst clock_1)) !! i = Some (text ++ 0 :: rest) /\
    cp_buffers (pointer_of HeaderText (fst clock_2)) !! i = Some (text ++ 0 :: rest).
Proof.
  apply (@mk_clock_readers example_local 0 1325372400 clock_0 (second 1325372401) clock_1 (second 1325372402) clock_2 HeaderText);
    [vm_compute; reflexivity|discriminate|vm_compute; reflexivity|vm_compute; reflexivity|cbn; lia].
Defined.
