(* ===== verification/MkSocket.v ===== *)
(** * mk_socket.c: the address of a peer *)
From S2P Require Import Prelude CString MkTypes.
Local Open Scope Z_scope.

(** What the system tells about the peer of a socket: the address with its
    family, and its text in a buffer of the given size. *)
Inductive sockaddr := AF_INET (addr : Z) | AF_INET6 (addr : Z) | AF_OTHER.
Class PeerNames := {
  peer_name : list event -> Z -> option sockaddr;
  addr_text : sockaddr -> Z -> option bytes
}.

Definition INET6_ADDRSTRLEN : Z := 46.

(** The result, the buffer and the length stored; the buffer has at least
    [size] bytes. The address of another family leaves it as it was. *)
Definition mk_socket_ip_str `{PeerNames} (socket_fd : Z) (buf : bytes) (size : Z) : M (option (bytes * Z)) :=
  t ← gets w_trace;
  match peer_name t socket_fd with
  | None => mret None
  | Some addr =>
    let written :=
      match addr with
      | AF_INET _ | AF_INET6 _ => match addr_text addr size with Some text => Some (bwrite buf 0 (text ++ [0])) | None => None end
      | AF_OTHER => Some (Some buf)
      end in
    match written with
    | None => mret None
    | Some buf => buf ← lift buf; n ← lift (strlen buf); mret (Some (buf, n))
    end
  end.

(** The system knows the peer of the socket by this text, which fits the buffer. *)
Definition peer_text `{PeerNames} (w : world) (socket : Z) (ip : bytes) : Prop :=
  exists a, peer_name (w_trace w) socket = Some a /\ match a with AF_INET _ | AF_INET6 _ => True | AF_OTHER => False end /\
    addr_text a (INET6_ADDRSTRLEN + 1) = Some ip /\ 0 ∉ ip /\ (length ip < 47)%nat.

Definition peer_buffer (ip b : bytes) : bytes := ip ++ 0 :: drop (length ip + 1) b.

Lemma mk_socket_ip_str_run `{PeerNames} w socket ip b :
  peer_text w socket ip -> length b = 47%nat ->
  mk_socket_ip_str socket b (INET6_ADDRSTRLEN + 1) w = Some (Some (peer_buffer ip b, Z.of_nat (length ip)), w).
Proof.
  intros (a & Ha & Hfam & Ht & H0 & Hl) Hlb.
  assert (Hw : bwrite b 0 (ip ++ [0]) = Some (peer_buffer ip b)).
  { unfold bwrite. rewrite length_app. cbn [length]. replace (_ && _) with true by zb. cbn [take Z.to_nat app]. rewrite <- app_assoc. reflexivity. }
  assert (Hs : strlen (peer_buffer ip b) = Some (Z.of_nat (length ip))) by (apply strlen_cstr; split; [by eexists|done]).
  unfold mk_socket_ip_str. erewrite bind_run by reflexivity. rewrite Ha.
  destruct a; try done; rewrite Ht; cbv zeta; (erewrite lift_run by exact Hw); (erewrite lift_run by exact Hs); reflexivity.
Qed.

Lemma peer_buffer_length ip b : (length ip < 47)%nat -> length b = 47%nat -> length (peer_buffer ip b) = 47%nat.
Proof. intros H Hb. unfold peer_buffer. rewrite length_app. cbn [length]. rewrite length_drop. lia. Qed.

(** Peers of this machine, for the examples. *)
Definition local_peer : PeerNames := {| peer_name := fun _ _ => Some (AF_INET 1); addr_text := fun _ _ => Some (lit "127.0.0.1") |}.
