(* ===== verification/MkNetIO.v ===== *)
(** * The transport layer (mk_plugin.h, mk_socket.c)

    The operations a network plugin gives to the server, and the functions of
    the server that only pass on to them or to the socket. The socket calls of
    the system are parameters. *)
From S2P Require Import Prelude CString MkMemory MkTypes MkResponse.
Local Open Scope Z_scope.

(** ** The system *)

(** netdb.h *)
Record addrinfo := { ai_family : Z; ai_socktype : Z; ai_protocol : Z; ai_addr : bytes }.

(** The answers may depend on everything done so far. *)
Class SockSys := {
  (** of a host and a port, with the flags of the hints; or the error *)
  sys_getaddrinfo : bytes -> bytes -> Z -> list addrinfo + Z;
  sys_socket : list event -> Z -> Z -> Z -> Z;
  sys_connect : list event -> Z -> bytes -> Z;
  sys_bind : list event -> Z -> bytes -> Z;
  sys_listen : list event -> Z -> Z -> Z;
  sys_setsockopt : list event -> Z -> Z -> Z -> Z -> Z;
  (** [accept(2)], or [accept4(2)] with SOCK_NONBLOCK *)
  sys_accept : list event -> Z -> Z;
  (** [ACCEPT_GENERIC] of the build *)
  accept_generic : bool;
  (** bytes read, or the negative result and whether [errno] is EAGAIN *)
  sock_read : list event -> Z -> Z -> bytes + Z * bool;
  sock_write : list event -> Z -> bytes -> Z;
  sock_writev : list event -> Z -> bytes -> Z;
  sock_sendfile : list event -> Z -> Z -> Z -> Z -> Z
}.

Definition AF_UNSPEC : Z := 0.
Definition PF_INET6 : Z := 10.
Definition SOCK_STREAM : Z := 1.
Definition AI_PASSIVE : Z := 1.
Definition SOL_SOCKET : Z := 1.
Definition SO_REUSEADDR : Z := 2.
Definition SOL_TCP : Z := 6.
Definition TCP_NODELAY : Z := 1.
Definition TCP_DEFER_ACCEPT : Z := 9.
(** mk_limits.h *)
Definition MK_SOMAXCONN : Z := 128.

(** ** The operations of a transport

    Over the computations of the plugin that gives them. [read] gives the bytes
    or the negative result with whether [errno] is EAGAIN; [send_file] the result
    and the new offset. *)
Record plugin_network_io (F : Type -> Type) := {
  nio_accept : Z -> F Z;
  nio_read : Z -> Z -> F (bytes + Z * bool)%type;
  nio_write : Z -> bytes -> Z -> F Z;
  nio_writev : Z -> Iov.mk_iov -> F Z;
  nio_close : Z -> F Z;
  nio_connect : bytes -> Z -> F Z;
  nio_send_file : Z -> Z -> Z -> Z -> F (Z * Z)%type;
  nio_create_socket : Z -> Z -> Z -> F Z;
  nio_bind : Z -> bytes -> Z -> F Z;
  nio_server : Z -> bytes -> F Z;
}.
Arguments nio_accept {F}. Arguments nio_read {F}. Arguments nio_write {F}. Arguments nio_writev {F}. Arguments nio_close {F}.
Arguments nio_connect {F}. Arguments nio_send_file {F}. Arguments nio_create_socket {F}. Arguments nio_bind {F}. Arguments nio_server {F}.

Section Sockets.
Context `{sys : SockSys}.

(** ** System calls on the world *)

Definition socket (domain type protocol : Z) : M Z :=
  t ← gets w_trace;
  let fd := sys_socket t domain type protocol in
  emit (EvSocket domain type protocol fd);; mret fd.
Definition connect (fd : Z) (addr : bytes) : M Z :=
  t ← gets w_trace;
  let r := sys_connect t fd addr in
  emit (EvConnect fd addr r);; mret r.
Definition bind (fd : Z) (addr : bytes) : M Z :=
  t ← gets w_trace;
  let r := sys_bind t fd addr in
  emit (EvBind fd addr r);; mret r.
Definition listen (fd backlog : Z) : M Z :=
  t ← gets w_trace;
  let r := sys_listen t fd backlog in
  emit (EvListen fd backlog r);; mret r.
Definition setsockopt (fd level name value : Z) : M Z :=
  t ← gets w_trace;
  let r := sys_setsockopt t fd level name value in
  emit (EvSockOpt fd level name value);; mret r.

(** ** mk_socket.c *)

Definition mk_socket_set_tcp_nodelay (sockfd : Z) : M Z := setsockopt sockfd SOL_TCP TCP_NODELAY 1.
Definition mk_socket_set_tcp_defer_accept (sockfd : Z) : M Z := setsockopt sockfd SOL_TCP TCP_DEFER_ACCEPT 0.
Definition mk_socket_close (fd : Z) : M Z := emit (EvClose fd);; mret 0.
Definition mk_socket_create : M Z := fd ← socket PF_INET6 SOCK_STREAM 0; mret fd.
(** A failure ends the process. *)
Definition mk_socket_reset (fd : Z) : M Z :=
  r ← setsockopt fd SOL_SOCKET SO_REUSEADDR 1;
  if r =? -1 then ub else mret 0.

Section Netiomap.
Variable plg_netiomap : plugin_network_io M.

Definition mk_socket_connect (host : bytes) (port : Z) : M Z := nio_connect plg_netiomap host port.
Definition mk_socket_server (port : Z) (listen_addr : bytes) : M Z :=
  socket_fd ← nio_server plg_netiomap port listen_addr;
  if socket_fd <? 0 then ub else mret socket_fd.
Definition mk_socket_accept (server_fd : Z) : M Z := nio_accept plg_netiomap server_fd.
End Netiomap.
End Sockets.
