(* ===== verification/Liana.v ===== *)
(** * plugins/liana: the plain transport

    The operations pass on to the system; a client or server socket is made from
    the first address that works. *)
From S2P Require Import Prelude CString MkString MkMemory MkTypes MkEpoll MkResponse MkNetIO.
Local Open Scope Z_scope.

Section Liana.
Context `{env : Env} `{sys : SockSys}.

Definition _mkp_network_io_accept (server_fd : Z) : M Z :=
  t ← gets w_trace;
  let remote_fd := sys_accept t server_fd in
  emit (EvAccept server_fd remote_fd);;
  if accept_generic then _ ← mk_socket_set_nonblocking remote_fd; mret remote_fd else mret remote_fd.

Definition _mkp_network_io_read (socket_fd count : Z) : M (bytes + Z * bool) :=
  t ← gets w_trace;
  let r := sock_read t socket_fd count in
  emit (EvRead socket_fd (match r with inl b => b | inr _ => [] end));;
  mret r.

Definition _mkp_network_io_write (socket_fd : Z) (buf : bytes) (count : Z) : M Z :=
  d ← lift (memread buf count);
  t ← gets w_trace;
  let bytes_sent := sock_write t socket_fd d in
  emit (EvWrite socket_fd (take (Z.to_nat bytes_sent) d));;
  mret (i32 bytes_sent).

(** [mk_iov_send] *)
Definition iov_send (fd : Z) (iov : Iov.mk_iov) : M Z :=
  d ← lift (Iov.mk_iov_data iov);
  t ← gets w_trace;
  let n := sock_writev t fd d in
  emit (EvWrite fd (take (Z.to_nat n) d));;
  mret (Iov.mk_iov_send iov n).

Definition _mkp_network_io_writev (socket_fd : Z) (mk_io : Iov.mk_iov) : M Z :=
  bytes_sent ← iov_send socket_fd mk_io; mret (i32 bytes_sent).

Definition _mkp_network_io_close (socket_fd : Z) : M Z := emit (EvClose socket_fd);; mret 0.

Definition _mkp_network_io_create_socket (domain type protocol : Z) : M Z := socket domain type protocol.

(** The first address whose socket connects; the others are closed. *)
Fixpoint connect_loop (res : list addrinfo) : M Z :=
  match res with
  | [] => mret (-1)
  | rp :: res =>
    socket_fd ← _mkp_network_io_create_socket (ai_family rp) (ai_socktype rp) (ai_protocol rp);
    if socket_fd =? -1 then connect_loop res
    else
      ret ← connect socket_fd (ai_addr rp);
      if ret =? -1 then emit (EvClose socket_fd);; connect_loop res else mret socket_fd
  end.

Definition _mkp_network_io_connect (host : bytes) (port : Z) : M Z :=
  host ← lift (cstr host);
  match sys_getaddrinfo host (dec (i32 port)) 0 with
  | inr _ => mret (-1)
  | inl res => connect_loop res
  end.

(** Result and the new value of the offset. *)
Definition _mkp_network_io_send_file (socket_fd file_fd file_offset file_count : Z) : M (Z * Z) :=
  t ← gets w_trace;
  let bytes_written := sock_sendfile t socket_fd file_fd file_offset file_count in
  emit (EvSendFile socket_fd file_fd file_offset file_count bytes_written);;
  if bytes_written =? -1 then mret (-1, file_offset)
  else mret (i32 bytes_written, if 0 <? bytes_written then file_offset + bytes_written else file_offset).

Definition _mkp_network_io_bind (socket_fd : Z) (addr : bytes) (backlog : Z) : M Z :=
  ret ← bind socket_fd addr;
  if ret =? -1 then mret ret
  else
    ret ← listen socket_fd backlog;
    if ret =? -1 then mret (-1) else mret ret.

(** The first address whose socket is bound and listens; the sockets of the
    others stay open. *)
Fixpoint server_loop (res : list addrinfo) : M Z :=
  match res with
  | [] => mret (-1)
  | rp :: res =>
    socket_fd ← _mkp_network_io_create_socket (ai_family rp) (ai_socktype rp) (ai_protocol rp);
    if socket_fd =? -1 then server_loop res
    else
      _ ← mk_socket_set_tcp_nodelay socket_fd;
      _ ← mk_socket_reset socket_fd;
      ret ← _mkp_network_io_bind socket_fd (ai_addr rp) MK_SOMAXCONN;
      if ret =? -1 then server_loop res else mret socket_fd
  end.

Definition _mkp_network_io_server (port : Z) (listen_addr : bytes) : M Z :=
  listen_addr ← lift (cstr listen_addr);
  match sys_getaddrinfo listen_addr (dec (i32 port)) AI_PASSIVE with
  | inr _ => mret (-1)
  | inl res => server_loop res
  end.

Definition liana : plugin_network_io M :=
  {| nio_accept := _mkp_network_io_accept; nio_read := _mkp_network_io_read; nio_write := _mkp_network_io_write;
     nio_writev := _mkp_network_io_writev; nio_close := _mkp_network_io_close; nio_connect := _mkp_network_io_connect;
     nio_send_file := _mkp_network_io_send_file; nio_create_socket := _mkp_network_io_create_socket;
     nio_bind := _mkp_network_io_bind; nio_server := _mkp_network_io_server |}.
End Liana.

(** ** Which sockets a run leaves open *)

Definition step_open (l : list Z) (e : event) : list Z :=
  match e with
  | EvSocket _ _ _ fd => if fd =? -1 then l else fd :: l
  | EvClose fd => List.remove Z.eq_dec fd l
  | _ => l
  end.
(** The sockets made and not closed, the newest first. *)
Definition still_open (l : list Z) (t : list event) : list Z := fold_left step_open t l.

(** The sockets made, the newest first. *)
Definition made (t : list event) : list Z :=
  rev (omap (fun e => match e with EvSocket _ _ _ fd => if fd =? -1 then None else Some fd | _ => None end) t).

Definition failed_connect (e : event) : Prop := match e with EvConnect _ _ x => x = -1 | _ => True end.
Definition failed_listen (e : event) : Prop := match e with EvListen _ _ x => x = -1 | _ => True end.

Lemma still_open_app l t t' : still_open l (t ++ t') = still_open (still_open l t) t'.
Proof. apply fold_left_app. Qed.

(** Where nothing is closed, all that was made is open. *)
Definition keeps (e : event) : Prop := match e with EvClose _ => False | _ => True end.

Lemma keeps_open t : Forall keeps t -> forall l, still_open l t = made t ++ l.
Proof.
  unfold made. induction 1 as [|e t He Ht IH]; intros l; [reflexivity|]. cbn [still_open fold_left]. fold (still_open (step_open l e) t).
  rewrite IH. destruct e; try done. cbn. case_if; cbn; [done|]. by rewrite <- app_assoc.
Qed.

Section Facts.
Context `{env : Env} `{sys : SockSys}.

Lemma socket_run d ty p w : exists fd, socket d ty p w = Some (fd, logged w [EvSocket d ty p fd]).
Proof. by exists (sys_socket (w_trace w) d ty p). Qed.
Lemma connect_run fd a w : exists r, connect fd a w = Some (r, logged w [EvConnect fd a r]).
Proof. by exists (sys_connect (w_trace w) fd a). Qed.

(** What [connect_loop] does with the addresses [res]. *)
Record connected (res : list addrinfo) (t : list event) (r : Z) : Prop := {
  co_open : still_open [] t = if r =? -1 then [] else [r];
  co_fail : r = -1 -> Forall failed_connect t;
  co_done : r <> -1 -> exists rp pre x, rp ∈ res /\ x <> -1 /\ t = pre ++ [EvConnect r (ai_addr rp) x] /\ Forall failed_connect pre;
}.

Lemma connected_cons rp res t0 t r :
  still_open [] t0 = [] -> Forall failed_connect t0 -> connected res t r -> connected (rp :: res) (t0 ++ t) r.
Proof.
  intros H0 Hf [Ho Hm Hd]. split.
  - now rewrite still_open_app, H0.
  - intros Hr. apply Forall_app. auto.
  - intros Hr. destruct (Hd Hr) as (rp' & pre & x & Hin & Hx & -> & Hp). exists rp', (t0 ++ pre), x.
    split; [now right|]. split; [done|]. rewrite app_assoc. split; [done|]. now apply Forall_app.
Qed.

Lemma connect_loop_run res : forall w, exists t r, connect_loop res w = Some (r, logged w t) /\ connected res t r.
Proof.
  induction res as [|rp res IH]; intros w.
  - exists [], (-1). split; [unfold logged; cbn; rewrite app_nil_r; by destruct w|]. split; [done|constructor|done].
  - cbn [connect_loop]. unfold _mkp_network_io_create_socket.
    destruct (socket_run (ai_family rp) (ai_socktype rp) (ai_protocol rp) w) as (fd & Hfd). erewrite bind_run by exact Hfd. cbv beta.
    destruct (fd =? -1) eqn:Efd.
    + destruct (IH (logged w [EvSocket (ai_family rp) (ai_socktype rp) (ai_protocol rp) fd])) as (t & r & Ht & Hc).
      exists ([EvSocket (ai_family rp) (ai_socktype rp) (ai_protocol rp) fd] ++ t), r.
      rewrite Ht, logged_app. split; [reflexivity|]. apply connected_cons; [|by repeat constructor|done].
      cbn. by rewrite Efd.
    + destruct (connect_run fd (ai_addr rp) (logged w [EvSocket (ai_family rp) (ai_socktype rp) (ai_protocol rp) fd])) as (x & Hx).
      erewrite bind_run by exact Hx. cbv beta. destruct (x =? -1) eqn:Ex.
      * erewrite bind_run by apply emit_run.
        match goal with |- context [connect_loop res ?w1] => destruct (IH w1) as (t & r & Ht & Hc) end.
        exists ([EvSocket (ai_family rp) (ai_socktype rp) (ai_protocol rp) fd; EvConnect fd (ai_addr rp) x; EvClose fd] ++ t), r.
        rewrite Ht, !logged_app. split; [reflexivity|].
        apply connected_cons; [|repeat constructor; cbn; lia|done]. cbn. rewrite Efd. cbn. by destruct (Z.eq_dec fd fd).
      * eexists _, fd. rewrite !logged_app. split; [reflexivity|]. cbn [app]. split.
        -- cbn. by rewrite Efd.
        -- lia.
        -- intros _. exists rp, [EvSocket (ai_family rp) (ai_socktype rp) (ai_protocol rp) fd], x.
           repeat split; [left|lia|by repeat constructor].
Qed.

Lemma listen_run fd b w : exists r, listen fd b w = Some (r, logged w [EvListen fd b r]).
Proof. by exists (sys_listen (w_trace w) fd b). Qed.
Lemma bind_socket_run fd a w : exists r, bind fd a w = Some (r, logged w [EvBind fd a r]).
Proof. by exists (sys_bind (w_trace w) fd a). Qed.

(** A candidate of the server: its events, and whether it listens. *)
Lemma mkp_bind_run fd addr backlog w :
  exists t r, _mkp_network_io_bind fd addr backlog w = Some (r, logged w t) /\ Forall keeps t /\
    (r = -1 -> Forall failed_listen t) /\ (r <> -1 -> exists b, b <> -1 /\ t = [EvBind fd addr b; EvListen fd backlog r]).
Proof.
  unfold _mkp_network_io_bind. destruct (bind_socket_run fd addr w) as (b & Hb). erewrite bind_run by exact Hb. cbv beta.
  destruct (b =? -1) eqn:Eb.
  - eexists _, b. split; [reflexivity|]. split; [by repeat constructor|]. split; [by repeat constructor|lia].
  - destruct (listen_run fd backlog (logged w [EvBind fd addr b])) as (x & Hx). erewrite bind_run by exact Hx. cbv beta.
    rewrite logged_app. destruct (x =? -1) eqn:Ex; eexists _, _; (split; [reflexivity|]); (split; [by repeat constructor|]).
    + split; [|lia]. intros _. repeat constructor. cbn. lia.
    + split; [lia|]. intros _. exists b. split; [lia|reflexivity].
Qed.

(** The options of a socket can be set. *)
Hypothesis options_set : forall t fd, sys_setsockopt t fd SOL_SOCKET SO_REUSEADDR 1 <> -1.

Lemma nodelay_run fd w : exists r, mk_socket_set_tcp_nodelay fd w = Some (r, logged w [EvSockOpt fd SOL_TCP TCP_NODELAY 1]).
Proof. by exists (sys_setsockopt (w_trace w) fd SOL_TCP TCP_NODELAY 1). Qed.
Lemma reset_run fd w : mk_socket_reset fd w = Some (0, logged w [EvSockOpt fd SOL_SOCKET SO_REUSEADDR 1]).
Proof.
  unfold mk_socket_reset. erewrite bind_run by (by unfold setsockopt; erewrite bind_run by reflexivity). cbv beta.
  pose proof (options_set (w_trace w) fd). destruct (_ =? -1) eqn:E; [lia|reflexivity].
Qed.

(** What [server_loop] does with the addresses [res]. *)
Record served (res : list addrinfo) (t : list event) (r : Z) : Prop := {
  se_keeps : Forall keeps t;
  se_fail : r = -1 -> Forall failed_listen t;
  se_done : r <> -1 -> exists rp pre b x, rp ∈ res /\ b <> -1 /\ x <> -1 /\
    t = pre ++ [EvBind r (ai_addr rp) b; EvListen r MK_SOMAXCONN x] /\ Forall failed_listen pre;
}.

Lemma served_cons rp res t0 t r :
  Forall keeps t0 -> Forall failed_listen t0 -> served res t r -> served (rp :: res) (t0 ++ t) r.
Proof.
  intros H0 Hf [Ho Hm Hd]. split.
  - now apply Forall_app.
  - intros Hr. apply Forall_app. auto.
  - intros Hr. destruct (Hd Hr) as (rp' & pre & b & x & Hin & Hb & Hx & -> & Hp). exists rp', (t0 ++ pre), b, x.
    split; [now right|]. split; [done|]. split; [done|]. rewrite app_assoc. split; [done|]. now apply Forall_app.
Qed.

Lemma server_loop_run res : forall w, exists t r, server_loop res w = Some (r, logged w t) /\ served res t r.
Proof.
  induction res as [|rp res IH]; intros w.
  - exists [], (-1). rewrite logged_nil. split; [done|]. split; [constructor|constructor|done].
  - cbn [server_loop]. unfold _mkp_network_io_create_socket.
    destruct (socket_run (ai_family rp) (ai_socktype rp) (ai_protocol rp) w) as (fd & Hfd). erewrite bind_run by exact Hfd. cbv beta.
    set (e := EvSocket _ _ _ fd). destruct (fd =? -1) eqn:Efd.
    + destruct (IH (logged w [e])) as (t & r & Ht & Hc). exists ([e] ++ t), r. rewrite Ht, logged_app. split; [reflexivity|].
      apply served_cons; [by repeat constructor|by repeat constructor|done].
    + destruct (nodelay_run fd (logged w [e])) as (x & Hx). erewrite bind_run by exact Hx. cbv beta.
      erewrite bind_run by apply reset_run. cbv beta. rewrite !logged_app.
      match goal with |- context [logged w ?l] => set (pre := l) end.
      assert (Hpre : Forall keeps pre /\ Forall failed_listen pre) by (split; by repeat constructor). destruct Hpre as [Hk Hl].
      destruct (mkp_bind_run fd (ai_addr rp) MK_SOMAXCONN (logged w pre)) as (t1 & r1 & H1 & Hk1 & Hf1 & Hd1).
      erewrite bind_run by exact H1. cbv beta. rewrite logged_app. destruct (r1 =? -1) eqn:Er.
      * destruct (IH (logged w (pre ++ t1))) as (t & r & Ht & Hc). exists ((pre ++ t1) ++ t), r. rewrite Ht, logged_app. split; [reflexivity|].
        apply served_cons; [by apply Forall_app|apply Forall_app; split; [done|apply Hf1; lia]|done].
      * exists (pre ++ t1), fd. split; [reflexivity|]. destruct (Hd1 ltac:(lia)) as (b & Hb & Ht1). split.
        -- by apply Forall_app.
        -- lia.
        -- intros _. exists rp, pre, b, r1. split; [left|]. split; [done|]. split; [lia|]. split; [by rewrite Ht1|done].
Qed.

(** ** Claims *)

(** C36: a client socket of liana is connected to an address that the resolver
    gave for the host and the port, every attempt before it failed, and it is the
    only socket of the run that is still open; the result is -1, with no socket
    left open, exactly when no address could be connected. *)
Theorem liana_connect_spec host h port w :
  cstr host = Some h ->
  exists r t, nio_connect liana host port w = Some (r, logged w t) /\
    still_open [] t = (if r =? -1 then [] else [r]) /\
    (r = -1 -> Forall failed_connect t) /\
    (r <> -1 -> exists res rp pre x, sys_getaddrinfo h (dec (i32 port)) 0 = inl res /\ rp ∈ res /\ x <> -1 /\
       t = pre ++ [EvConnect r (ai_addr rp) x] /\ Forall failed_connect pre).
Proof.
  intros Hh. cbn [nio_connect liana]. unfold _mkp_network_io_connect. erewrite lift_run by exact Hh. cbv beta.
  destruct (sys_getaddrinfo h (dec (i32 port)) 0) as [res|e].
  - destruct (connect_loop_run res w) as (t & r & Ht & [Ho Hm Hd]). exists r, t. repeat (split; [done|]). intros Hr.
    destruct (Hd Hr) as (rp & pre & x & ?). by exists res, rp, pre, x.
  - exists (-1), []. rewrite logged_nil. split; [done|]. split; [done|]. split; [constructor|done].
Qed.

(** A server socket of liana is bound to an address the resolver gave and
    listens with the backlog of the server, after every earlier address failed;
    but a socket that could not be bound is not closed: every socket the run made
    is open at its end. *)
Theorem liana_server_spec port addr a w :
  cstr addr = Some a ->
  exists r t, nio_server liana port addr w = Some (r, logged w t) /\
    still_open [] t = made t /\
    (r = -1 -> Forall failed_listen t) /\
    (r <> -1 -> exists res rp pre b x, sys_getaddrinfo a (dec (i32 port)) AI_PASSIVE = inl res /\ rp ∈ res /\ b <> -1 /\ x <> -1 /\
       t = pre ++ [EvBind r (ai_addr rp) b; EvListen r MK_SOMAXCONN x] /\ Forall failed_listen pre).
Proof.
  intros Hh. cbn [nio_server liana]. unfold _mkp_network_io_server. erewrite lift_run by exact Hh. cbv beta.
  destruct (sys_getaddrinfo a (dec (i32 port)) AI_PASSIVE) as [res|e].
  - destruct (server_loop_run res w) as (t & r & Ht & [Ho Hm Hd]). exists r, t. split; [done|].
    split; [by rewrite (keeps_open t Ho), app_nil_r|]. split; [done|]. intros Hr.
    destruct (Hd Hr) as (rp & pre & b & x & ?). by exists res, rp, pre, b, x.
  - exists (-1), []. rewrite logged_nil. split; [done|]. split; [done|]. split; [constructor|done].
Qed.
End Facts.

(** ** Examples

    A host with two addresses, the first of which refuses connections and is in
    use; the descriptors are 5 and 6. *)
Definition refused : addrinfo := {| ai_family := PF_INET6; ai_socktype := SOCK_STREAM; ai_protocol := SOL_TCP; ai_addr := lit "::1" |}.
Definition accepted : addrinfo := {| ai_family := 2; ai_socktype := SOCK_STREAM; ai_protocol := SOL_TCP; ai_addr := lit "127.0.0.1" |}.
Definition example_sys : SockSys :=
  {| sys_getaddrinfo := fun _ _ _ => inl [refused; accepted];
     sys_socket := fun t d _ _ => 5 + Z.of_nat (length (made t));
     sys_connect := fun _ _ a => if bool_decide (a = ai_addr refused) then -1 else 0;
     sys_bind := fun _ _ a => if bool_decide (a = ai_addr refused) then -1 else 0;
     sys_listen := fun _ _ _ => 0; sys_setsockopt := fun _ _ _ _ _ => 0; sys_accept := fun _ _ => 7; accept_generic := false;
     sock_read := fun _ _ _ => inl (lit "GET "); sock_write := fun _ _ d => Z.of_nat (length d);
     sock_writev := fun _ _ d => Z.of_nat (length d); sock_sendfile := fun _ _ _ _ n => n |}.

Lemma liana_connect_spec_witness :
  let _ := example_env in let _ := example_sys in
  exists r t, nio_connect liana (clit "localhost") 80 example_world = Some (r, logged example_world t) /\
    still_open [] t = (if r =? -1 then [] else [r]) /\
    (r = -1 -> Forall failed_connect t) /\
    (r <> -1 -> exists res rp pre x, sys_getaddrinfo (lit "localhost") (dec (i32 80)) 0 = inl res /\ rp ∈ res /\ x <> -1 /\
       t = pre ++ [EvConnect r (ai_addr rp) x] /\ Forall failed_connect pre).
Proof. intros env sys. apply (liana_connect_spec (env := env) (sys := sys)). reflexivity. Defined.

Lemma liana_server_spec_witness :
  let _ := example_env in let _ := example_sys in
  exists r t, nio_server liana 80 (clit "localhost") example_world = Some (r, logged example_world t) /\
    still_open [] t = made t /\
    (r = -1 -> Forall failed_listen t) /\
    (r <> -1 -> exists res rp pre b x, sys_getaddrinfo (lit "localhost") (dec (i32 80)) AI_PASSIVE = inl res /\ rp ∈ res /\ b <> -1 /\
       x <> -1 /\ t = pre ++ [EvBind r (ai_addr rp) b; EvListen r MK_SOMAXCONN x] /\ Forall failed_listen pre).
Proof. intros env sys. apply (liana_server_spec (env := env) (sys := sys)); [intros t fd; cbn; lia|reflexivity]. Defined.

(** The socket of the refused address stays open. *)
Example server_leaks :
  let _ := example_env in let _ := example_sys in
  (t ← (r ← nio_server liana 80 (clit "localhost"); t ← gets w_trace; mret (r, still_open [] t)) example_world; Some (fst t)) = Some (6, [6; 5]).
Proof. vm_compute. reflexivity. Qed.
