(* ===== verification/MkStart.v ===== *)
(** * The start of the server (mk_config.c, mk_cache.c, mk_scheduler.c, mk_server.c)

    The configuration from its initial values to what the files set, the state a
    worker thread begins with, and the loop that accepts connections. *)
From S2P Require Import Prelude CString MkString MkMemory MkUtils MkTypes MkSession MkEpoll MkPlugin MkScheduler MkConfig MkFile MkResponse MkConnection MkNetIO Liana.
Local Open Scope Z_scope.

(** ** The configuration of the server

    The fields of [struct server_config] that the start sets; a pointer of the
    zeroed memory is [None]. *)
Record start_config := {
  k_is_daemon : Z;
  k_is_seteuid : Z;
  k_serverconf : option bytes;
  k_file_config : bytes;
  k_listen_addr : bytes;
  k_server_software : mk_pointer;
  k_user : option bytes;
  k_user_dir : option bytes;
  k_pid_file_path : option bytes;
  k_pid_status : Z;
  k_server_fd : Z;
  k_worker_capacity : Z;
  k_max_load : Z;
  k_workers : Z;
  k_serverport : Z;
  k_timeout : Z;
  k_standard_port : Z;
  k_hideversion : Z;
  k_resume : Z;
  k_symlink : Z;
  k_keep_alive : Z;
  k_max_keep_alive_request : Z;
  k_keep_alive_timeout : Z;
  k_max_request_size : Z;
  k_index_files : option (list mk_string_line);
  k_nhosts : Z;
  k_hosts : list host;
  k_open_flags : Z;
  k_safe_event_write : Z;
  k_transport : bytes;
  k_transport_layer : option bytes;
  k_default_mimetype : option bytes;
}.
#[export] Instance eta_start_config : Eta start_config := fun r =>
  {| k_is_daemon := k_is_daemon r; k_is_seteuid := k_is_seteuid r; k_serverconf := k_serverconf r; k_file_config := k_file_config r;
     k_listen_addr := k_listen_addr r; k_server_software := k_server_software r; k_user := k_user r; k_user_dir := k_user_dir r;
     k_pid_file_path := k_pid_file_path r; k_pid_status := k_pid_status r; k_server_fd := k_server_fd r;
     k_worker_capacity := k_worker_capacity r; k_max_load := k_max_load r; k_workers := k_workers r; k_serverport := k_serverport r;
     k_timeout := k_timeout r; k_standard_port := k_standard_port r; k_hideversion := k_hideversion r; k_resume := k_resume r;
     k_symlink := k_symlink r; k_keep_alive := k_keep_alive r; k_max_keep_alive_request := k_max_keep_alive_request r;
     k_keep_alive_timeout := k_keep_alive_timeout r; k_max_request_size := k_max_request_size r; k_index_files := k_index_files r;
     k_nhosts := k_nhosts r; k_hosts := k_hosts r; k_open_flags := k_open_flags r; k_safe_event_write := k_safe_event_write r;
     k_transport := k_transport r; k_transport_layer := k_transport_layer r; k_default_mimetype := k_default_mimetype r |}.

(** [mk_mem_malloc_z(sizeof(struct server_config))] *)
Definition zero_config : start_config :=
  {| k_is_daemon := 0; k_is_seteuid := 0; k_serverconf := None; k_file_config := []; k_listen_addr := [];
     k_server_software := mk_pointer_reset; k_user := None; k_user_dir := None; k_pid_file_path := None; k_pid_status := 0;
     k_server_fd := 0; k_worker_capacity := 0; k_max_load := 0; k_workers := 0; k_serverport := 0; k_timeout := 0;
     k_standard_port := 0; k_hideversion := 0; k_resume := 0; k_symlink := 0; k_keep_alive := 0; k_max_keep_alive_request := 0;
     k_keep_alive_timeout := 0; k_max_request_size := 0; k_index_files := None; k_nhosts := 0; k_hosts := []; k_open_flags := 0;
     k_safe_event_write := 0; k_transport := []; k_transport_layer := None; k_default_mimetype := None |}.

(** mk_config.h, mk_macros.h *)
Definition MK_DEFAULT_LISTEN_ADDR : bytes := clit "0.0.0.0".
Definition MK_WORKERS_DEFAULT : Z := 1.
Definition MK_TRANSPORT_HTTP : bytes := clit "http".

Definition mk_config_set_init_values (k : start_config) : start_config :=
  k <| k_is_seteuid := MK_FALSE |> <| k_timeout := 15 |> <| k_hideversion := MK_FALSE |> <| k_keep_alive := MK_TRUE |>
    <| k_keep_alive_timeout := 15 |> <| k_max_keep_alive_request := 50 |> <| k_resume := MK_TRUE |> <| k_standard_port := 80 |>
    <| k_listen_addr := MK_DEFAULT_LISTEN_ADDR |> <| k_serverport := 2001 |> <| k_symlink := MK_FALSE |> <| k_nhosts := 0 |>
    <| k_hosts := [] |> <| k_user := None |> <| k_open_flags := Z.lor O_RDONLY O_NONBLOCK |> <| k_index_files := None |>
    <| k_user_dir := None |> <| k_workers := MK_WORKERS_DEFAULT |> <| k_max_request_size := MK_REQUEST_CHUNK * 8 |>
    <| k_safe_event_write := MK_FALSE |> <| k_transport := MK_TRANSPORT_HTTP |> <| k_transport_layer := None |>.

(** [mk_config_read_files]: the settings are stored in the configuration. *)
Definition store_settings (s : server_settings) (k : start_config) : start_config :=
  k <| k_listen_addr := ss_listen_addr s |> <| k_serverport := ss_serverport s |> <| k_workers := ss_workers s |>
    <| k_worker_capacity := ss_worker_capacity s |> <| k_max_load := ss_max_load s |> <| k_timeout := ss_timeout s |>
    <| k_keep_alive := ss_keep_alive s |> <| k_max_keep_alive_request := ss_max_keep_alive_request s |>
    <| k_keep_alive_timeout := ss_keep_alive_timeout s |> <| k_pid_file_path := ss_pid_file_path s |>
    <| k_user_dir := ss_user_dir s |> <| k_index_files := ss_index_files s |> <| k_hideversion := ss_hideversion s |>
    <| k_user := ss_user s |> <| k_resume := ss_resume s |> <| k_max_request_size := ss_max_request_size s |>
    <| k_symlink := ss_symlink s |> <| k_transport_layer := ss_transport_layer s |>
    <| k_default_mimetype := Some (ss_default_mimetype s) |>.

(** monkey.h *)
Definition MAX_PATH : Z := 1024.

(** What the start asks the system: the contents of a file, whether a path
    exists, the names in a directory, [sysconf(_SC_NPROCESSORS_ONLN)],
    [RLIMIT_NOFILE]; with VERSION and OS of the build. *)
Class StartSys := {
  fopen_read : bytes -> option bytes;
  stat_exists : bytes -> bool;
  sys_readdir : bytes -> option (list bytes);
  nprocs : Z;
  rlim_cur : Z;
  VERSION : bytes;
  OS : bytes
}.

Section Start.
Context `{env : Env} `{start : StartSys}.

(** [mk_config_create]; an error in a file ends the process. *)
Definition config_create (path : bytes) : option (option mk_config) :=
  r ← mk_config_create (fopen_read path);
  match r with
  | None => Some None
  | Some (CfgOk conf) => Some (Some conf)
  | Some (CfgExit _ _) => None
  end.

(** The files of the sites, parsed; one that does not exist is not. *)
Fixpoint site_files (path : bytes) (names : list bytes) : option (list (bytes * option mk_config)) :=
  match names with
  | [] => Some []
  | name :: names =>
    n ← cstr name;
    '(file, _) ← mk_string_build (path ++ lit "/sites/" ++ n);
    conf ← config_create file;
    rest ← site_files path names;
    Some ((name, conf) :: rest)
  end.

(** [M_DEFAULT_CONFIG_FILE] *)
Definition M_DEFAULT_CONFIG_FILE : bytes := lit "monkey.conf".

(** The exits are undefined. *)
Definition read_settings (k : start_config) : option start_config :=
  path ← cstr (k_file_config k);
  if negb (stat_exists (k_file_config k)) then None
  else
    '(tmp, _) ← mk_string_build (path ++ lit "/" ++ M_DEFAULT_CONFIG_FILE);
    cnf ← config_create tmp; cnf ← cnf;
    section ← mk_config_section_get cnf (clit "SERVER");
    r ← mk_config_read_files section nprocs rlim_cur;
    match r with
    | BadVariable _ => None
    | Settings s =>
      let k := store_settings s (k <| k_serverconf := Some (path ++ [0]) |>) in
      '(dflt, _) ← mk_string_build (path ++ lit "/sites/default");
      dflt ← config_create dflt;
      '(dir, _) ← mk_string_build (path ++ lit "/sites/");
      names ← sys_readdir dir;
      ents ← site_files path names;
      hosts ← mk_config_read_hosts (k_file_config k) (k_hideversion k) VERSION dflt ents;
      hosts ← hosts;
      Some (k <| k_hosts := hosts |> <| k_nhosts := Z.of_nat (length hosts) |>)
    end.

(** [mk_mimetype_read_config] of the server's files *)
Definition read_mimetypes (k : start_config) : option (list mimetype * list mimetype) :=
  serverconf ← k_serverconf k; path ← cstr serverconf;
  cnf ← config_create (snprintf MAX_PATH (path ++ lit "/monkey.mime") ++ [0]); cnf ← cnf;
  section ← mk_config_section_get cnf (clit "MIMETYPES");
  section ← section;
  mk_mimetype_read_config section.

Definition server_software (hideversion : Z) : bytes :=
  if hideversion =? MK_FALSE then lit "Monkey/" ++ VERSION ++ lit " (" ++ OS ++ lit ")" else lit "Monkey Server".

(** The configuration and the types of files. *)
Definition mk_config_start_configure (k : start_config) : option (start_config * (list mimetype * list mimetype)) :=
  k ← read_settings (mk_config_set_init_values k);
  mimes ← read_mimetypes k;
  '(software, len) ← mk_string_build (server_software (k_hideversion k));
  Some (k <| k_server_software := {| data := Some software; len := len |} |>, mimes).

(** O_NOATIME is used when the file of the configuration can be opened with it. *)
Definition mk_config_sanity_check (k : start_config) : M start_config :=
  let flags := Z.lor (k_open_flags k) O_NOATIME in
  t ← gets w_trace;
  let fd := sys_open t (k_file_config k) flags in
  emit (EvOpen (k_file_config k) flags fd);;
  if -1 <? fd then emit (EvClose fd);; mret (k <| k_open_flags := flags |>) else mret k.

(** ** A worker thread *)

(** The caches of a thread. *)
Record thread_cache := {
  tc_header_lm : mk_pointer;
  tc_header_cl : mk_pointer;
  tc_header_ka : mk_pointer;
  tc_header_ka_max : mk_pointer;
  tc_iov_header : Iov.mk_iov;
  tc_gmt_text : list mk_gmt_cache;
}.

Definition mk_cache_thread_init : option thread_cache :=
  cache_header_ka ← ka_format;
  cache_iov_header ← Iov.mk_iov_create 32 0;
  Some {| tc_header_lm := {| data := Some (replicate 32 0); len := u64 (-1) |};
          tc_header_cl := {| data := Some (replicate MK_UTILS_INT2MKP_BUFFER_LEN 0); len := u64 (-1) |};
          tc_header_ka := cache_header_ka;
          tc_header_ka_max := {| data := Some (replicate 64 0); len := 0 |};
          tc_iov_header := cache_iov_header; tc_gmt_text := gmt_cache_init |}.

(** The world of the thread when it enters the loop: its caches, its node with
    the connections of [mk_sched_register_thread], [mk_epoll_state_init],
    [mk_plugin_event_init_list] and no sessions ([mk_sched_thread_lists_init]);
    the clock has set the time. *)
Definition worker_begin (wid efd now : Z) (header_time : mk_pointer) : option world :=
  tc ← mk_cache_thread_init;
  lm ← data (tc_header_lm tc);
  Some {| w_sched := mk_sched_register_thread (Z.to_nat (c_worker_capacity config)) wid efd;
          w_epoll := mk_epoll_state_init; w_sessions := []; w_next := 0; w_events := []; w_gmt := tc_gmt_text tc;
          w_iov := tc_iov_header tc; w_lm := lm; w_utime := now; w_header_time := header_time; w_trace := [] |}.

(** The thread, for the events that epoll reports. *)
Definition mk_sched_launch_worker_loop (wid efd now : Z) (header_time : mk_pointer) (waits : list wait) : option world :=
  w ← worker_begin wid efd now header_time;
  '(_, w) ← mk_epoll_init waits w;
  Some w.

(** ** The server loop *)

Section Loop.
Context `{sys : SockSys}.
Variable plg_netiomap : plugin_network_io M.

(** One round of [mk_server_loop]: a connection is given to a worker, or
    closed. *)
Definition serve_client (server_fd : Z) (sched_list : list sched_list_node) : M (list sched_list_node) :=
  remote_fd ← mk_socket_accept plg_netiomap server_fd;
  if remote_fd =? -1 then mret sched_list
  else
    '(ret, sched_list) ← mk_sched_add_client sched_list remote_fd;
    if ret =? -1 then emit (EvClose remote_fd);; mret sched_list else mret sched_list.

(** [n] rounds of the loop, which does not end. *)
Fixpoint serve_clients (n : nat) (server_fd : Z) (sched_list : list sched_list_node) : M (list sched_list_node) :=
  match n with
  | O => mret sched_list
  | S n => l ← serve_client server_fd sched_list; serve_clients n server_fd l
  end.

Definition mk_server_loop (n : nat) (server_fd : Z) (sched_list : list sched_list_node) : M (list sched_list_node) :=
  _ ← mk_socket_set_tcp_defer_accept server_fd;
  serve_clients n server_fd sched_list.
End Loop.
End Start.

(** ** What a configuration that was accepted guarantees *)

Record settings_valid (s : server_settings) : Prop := {
  sv_port : 1 < ss_serverport s < 65535;
  sv_workers : 1 <= ss_workers s;
  sv_timeout : 1 <= ss_timeout s;
  sv_keep_alive : ss_keep_alive s <> MK_ERROR /\ ss_max_keep_alive_request s <> 0 /\ ss_keep_alive_timeout s <> 0;
  sv_request_size : 1024 <= ss_max_request_size s < 2 ^ 31;
  sv_load : ss_max_load s = u32 (ss_worker_capacity s * ss_workers s);
  sv_flags : ss_hideversion s <> MK_ERROR /\ ss_resume s <> MK_ERROR /\ ss_symlink s <> MK_ERROR;
}.

(** Runs through the steps of an option that has a result. *)
Ltac option_steps H :=
  repeat first
    [ match type of H with (mbind ?f ?o) = Some _ => destruct o eqn:?; [cbn [mbind option_bind] in H|discriminate H] end
    | match type of H with (let '(_, _) := ?p in _) = Some _ => destruct p eqn:? end
    | match type of H with (if ?b then Some (BadVariable _) else _) = _ => destruct b eqn:?; [discriminate H|] end
    | match type of H with (if ?b then None else _) = _ => destruct b eqn:?; [discriminate H|] end ].

Lemma mk_config_read_files_valid section np rl s : mk_config_read_files section np rl = Some (Settings s) -> settings_valid s.
Proof.
  intros H. unfold mk_config_read_files in H. cbv zeta in H. option_steps H. injection H as <-.
  repeat match goal with E : _ || _ = false |- _ => apply orb_false_elim in E as [??] end. zbool.
  split; cbn; try lia.
Qed.

Section StartFacts.
Context `{env : Env} `{start : StartSys}.

Lemma mk_config_read_hosts_some path hv v dflt ents l :
  mk_config_read_hosts path hv v dflt ents = Some (Some l) -> l <> [].
Proof.
  unfold mk_config_read_hosts. intros H. option_steps H.
  match type of H with match ?h with _ => _ end = _ => destruct h; try discriminate end.
  option_steps H. match type of H with _ = Some (Some _) => idtac end. destruct o; [|discriminate]. now injection H as <-.
Qed.

Lemma read_settings_facts k k' :
  read_settings k = Some k' ->
  exists (s : server_settings) (hosts : list host), settings_valid s /\ hosts <> [] /\
    k' = store_settings s (k <| k_serverconf := k_serverconf k' |>) <| k_hosts := hosts |> <| k_nhosts := Z.of_nat (length hosts) |>.
Proof.
  unfold read_settings. intros H. option_steps H. destruct s; [discriminate|]. option_steps H. injection H as <-.
  eexists _, _. split; [eapply mk_config_read_files_valid; eassumption|].
  split; [eapply mk_config_read_hosts_some; subst; eassumption|]. reflexivity.
Qed.

(** What the server runs with, whatever the zeroed configuration held before. *)
Record config_valid (k : start_config) : Prop := {
  kv_port : 1 < k_serverport k < 65535;
  kv_workers : 1 <= k_workers k;
  kv_timeout : 1 <= k_timeout k;
  kv_keep_alive : k_max_keep_alive_request k <> 0 /\ k_keep_alive_timeout k <> 0;
  kv_request_size : 1024 <= k_max_request_size k < 2 ^ 31;
  kv_load : k_max_load k = u32 (k_worker_capacity k * k_workers k);
  kv_hosts : k_hosts k <> [] /\ k_nhosts k = Z.of_nat (length (k_hosts k));
  kv_transport : k_transport k = MK_TRANSPORT_HTTP;
  kv_flags : k_open_flags k = Z.lor O_RDONLY O_NONBLOCK;
}.

Lemma read_settings_valid k s : read_settings (mk_config_set_init_values k) = Some s -> config_valid s.
Proof.
  intros H. destruct (read_settings_facts _ _ H) as (st & hosts & [? ? ? (? & ? & ?)] & Hh & ->).
  generalize (k_serverconf s) as sc. intros sc. split; first [assumption|reflexivity|by split].
Qed.

Lemma config_valid_software k p : config_valid k -> config_valid (k <| k_server_software := p |>).
Proof. intros []. by split. Qed.

Lemma server_software_hidden h : h <> MK_FALSE -> mk_string_build (server_software h) = Some (clit "Monkey Server", 13).
Proof. intros Hh. unfold server_software. replace (h =? MK_FALSE) with false by zb. reflexivity. Qed.

Lemma start_configure_inv k k' mimes :
  mk_config_start_configure k = Some (k', mimes) ->
  exists s sw, read_settings (mk_config_set_init_values k) = Some s /\
    (k_hideversion s <> MK_FALSE -> sw = {| data := Some (clit "Monkey Server"); len := 13 |}) /\
    k' = s <| k_server_software := sw |>.
Proof.
  unfold mk_config_start_configure. destruct (read_settings _) as [s|]; [|done]. cbn [mbind option_bind].
  destruct (read_mimetypes s) as [m|]; [|done]. cbn [mbind option_bind].
  destruct (mk_string_build _) as [[d n]|] eqn:E; [|done]. cbn [mbind option_bind].
  intros H. exists s, {| data := Some d; len := n |}. split; [done|]. split; [|congruence].
  intros Hh. rewrite server_software_hidden in E by exact Hh. by inversion E.
Qed.

(** C31: a server whose files were accepted has a port, a number of workers and
    timeouts it can run with, a buffer of at least 1 KB and of less than 2 GB
    for a request, the hosts of the site files with the default one among them,
    counted, and plain HTTP until a transport plugin says otherwise; with the
    version hidden it calls itself Monkey Server. *)
Theorem start_configure_valid k k' mimes :
  mk_config_start_configure k = Some (k', mimes) ->
  config_valid k' /\
  (k_hideversion k' <> MK_FALSE ->
   k_server_software k' = {| data := Some (clit "Monkey Server"); len := 13 |}).
Proof.
  intros H. destruct (start_configure_inv _ _ _ H) as (s & sw & Hs & Hsw & ->).
  apply read_settings_valid in Hs. split; [now apply config_valid_software|]. intros Hh. exact (Hsw Hh).
Qed.
End StartFacts.

(** ** The world of a worker *)

(** The state a worker thread begins with is one the theorems about its
    handlers speak of: every place for a connection is available, no descriptor is
    recorded, the cached dates are well formed and the vector of headers is
    empty; there are no sessions and nothing has happened. *)
Theorem worker_begins `{env : Env} wid efd now ht :
  0 <= c_worker_capacity config ->
  exists w, worker_begin wid efd now ht = Some w /\
    worker_inv (w, Idle, 0%nat) /\ load (w_sched w) = 0 /\ sl_epoll_fd (w_sched w) = efd /\
    index_ok (w_epoll w) /\ ei_busy_queue (w_epoll w) = [] /\ gmt_cache_ok (w_gmt w) /\
    Iov.iov_ok (w_iov w) [] /\ length (w_lm w) = 32%nat /\ w_sessions w = [] /\ w_trace w = [].
Proof.
  intros Hc. unfold worker_begin, mk_cache_thread_init, ka_format. rewrite mk_string_build_run; cycle 1.
  { rewrite !not_elem_of_app. split_and!; [decide_closed|apply dec_ascii|decide_closed]. }
  { rewrite !length_app. pose proof (dec_length (c_keep_alive_timeout config)). cbn. lia. }
  destruct (Iov.mk_iov_create_ok 32 ltac:(lia)) as (m & Hm & Hok & _). cbn [mbind option_bind]. rewrite Hm. cbn [mbind option_bind].
  eexists. split; [reflexivity|]. unfold worker_inv. cbn [w_sched w_epoll w_gmt w_iov w_sessions w_trace w_lm].
  split; [split; [apply mk_sched_register_thread_ok|]|].
  { change (0 <= 0 <= c_worker_capacity config /\ (Idle = Chosen -> 0 < c_worker_capacity config)). split; [lia|done]. }
  split; [reflexivity|]. split; [reflexivity|]. split; [apply mk_epoll_state_init_ok|].
  split; [reflexivity|]. split; [apply gmt_cache_init_ok|]. done.
Qed.

(** ** The server loop *)

(** The connections accepted and not closed, the newest first, each with the
    epoll that was last told to watch it. *)
Definition step_client (l : list (Z * option Z)) (e : event) : list (Z * option Z) :=
  match e with
  | EvAccept _ fd => if fd =? -1 then l else (fd, None) :: l
  | EvEpollCtl EPOLL_CTL_ADD efd fd _ =>
    match l with
    | (x, o) :: l' => if x =? fd then (x, Some efd) :: l' else l
    | [] => []
    end
  | EvClose fd => match l with (x, o) :: l' => if x =? fd then l' else l | [] => [] end
  | _ => l
  end.
Definition clients (l : list (Z * option Z)) (t : list event) : list (Z * option Z) := fold_left step_client t l.

(** The worker with the number [i] watches the connection. *)
Definition watched_by (l : list sched_list_node) (c : Z * option Z) (i : nat) : Prop :=
  exists s, l !! i = Some s /\ snd c = Some (sl_epoll_fd s).

(** The worker counts the connections among [owners] that are its own, on top of
    what it counted before. *)
Definition counts (l l' : list sched_list_node) (owners : list nat) : Prop :=
  forall i s s', l !! i = Some s -> l' !! i = Some s' -> load s' = load s + Z.of_nat (count_occ Nat.eq_dec owners i).

Lemma clients_app l t t' : clients l (t ++ t') = clients (clients l t) t'.
Proof. apply fold_left_app. Qed.

Lemma counts_app l l1 l2 o o' : length l1 = length l -> counts l l1 o -> counts l1 l2 o' -> counts l l2 (o' ++ o).
Proof.
  intros Hl H1 H2 i s s' Hi Hi'. destruct (lookup_lt_is_Some_2 l1 i) as (s1 & Hi1); [rewrite Hl; by eapply lookup_lt_Some|].
  rewrite (H2 i s1 s' Hi1 Hi'), (H1 i s s1 Hi Hi1), count_occ_app. lia.
Qed.

Lemma counts_insert l i s s' : l !! i = Some s -> load s' = load s + 1 -> counts l (<[i := s']> l) [i].
Proof.
  intros Hi Hs j x x' Hj Hj'. cbn [count_occ]. destruct (Nat.eq_dec i j) as [<-|Hne].
  - rewrite list_lookup_insert_eq in Hj' by (by eapply lookup_lt_Some). injection Hj' as <-. rewrite Hi in Hj. injection Hj as <-. exact Hs.
  - rewrite list_lookup_insert_ne in Hj' by done. replace x' with x by congruence. lia.
Qed.

Lemma counts_refl l : counts l l [].
Proof. intros i s s' Hi Hi'. replace s' with s by congruence. cbn. lia. Qed.

Section Loop.
Context `{env : Env} `{sys : SockSys}.

(** What [epoll_ctl(2)] returns. *)
Definition epoll_results : Prop := forall t op efd fd ev, fst (sys_epoll_ctl t op efd fd ev) = 0 \/ fst (sys_epoll_ctl t op efd fd ev) = -1.

Lemma epoll_add_main efd fd mode b w :
  epoll_results -> exists r ev, mk_epoll_add false efd fd mode b w = Some (r, logged w [EvEpollCtl EPOLL_CTL_ADD efd fd ev]) /\ (r = 0 \/ r = -1).
Proof.
  intros Hr. unfold mk_epoll_add. set (ev := mode_events _ _). pose proof (Hr (w_trace w) EPOLL_CTL_ADD efd fd ev) as He.
  destruct (sys_epoll_ctl (w_trace w) EPOLL_CTL_ADD efd fd ev) as [r x] eqn:E. exists r, ev. split; [|exact He].
  assert (Hc : epoll_ctl EPOLL_CTL_ADD efd fd ev w = Some ((r, x), logged w [EvEpollCtl EPOLL_CTL_ADD efd fd ev])) by (unfold epoll_ctl; mrun; by rewrite E).
  erewrite bind_run by exact Hc. cbv beta iota. destruct ((r <? 0) && negb x); reflexivity.
Qed.

(** What a round does with the workers [l]. *)
Record round (l l' : list sched_list_node) (t : list event) : Prop := {
  ro_fds : map sl_epoll_fd l' = map sl_epoll_fd l;
  ro_cap : Forall (fun s => load s <= c_worker_capacity config) l';
  ro_open : exists given owners, (forall c, clients c t = given ++ c) /\ Forall2 (watched_by l) given owners /\ counts l l' owners;
}.

Lemma round_idle l t : Forall (fun s => load s <= c_worker_capacity config) l -> (forall c, clients c t = c) -> round l l t.
Proof. intros Hc Ht. split; [done..|]. exists [], []. split; [done|]. split; [constructor|apply counts_refl]. Qed.

Lemma watched_by_fds l l' c i : map sl_epoll_fd l' = map sl_epoll_fd l -> watched_by l' c i -> watched_by l c i.
Proof.
  intros Hf (s' & Hi & Hc). assert (H : map sl_epoll_fd l !! i = Some (sl_epoll_fd s')).
  { rewrite <- Hf. change (map sl_epoll_fd l') with (sl_epoll_fd <$> l'). by rewrite list_lookup_fmap, Hi. }
  change (map sl_epoll_fd l) with (sl_epoll_fd <$> l) in H. apply list_lookup_fmap_Some in H as (s & Hs & He).
  exists s. split; [done|]. congruence.
Qed.

Lemma round_app l l1 l2 t t' : round l l1 t -> round l1 l2 t' -> round l l2 (t ++ t').
Proof.
  intros [Hf _ (g & o & Hg & Hw & Hl)] [Hf' Hc' (g' & o' & Hg' & Hw' & Hl')]. split; [congruence|done|].
  exists (g' ++ g), (o' ++ o). split; [intros c; by rewrite clients_app, Hg, Hg', app_assoc|]. split.
  - apply Forall2_app; [|exact Hw]. eapply Forall2_impl; [exact Hw'|]. intros c i. by apply watched_by_fds.
  - eapply counts_app; [|exact Hl|exact Hl']. apply (f_equal (@length Z)) in Hf. by rewrite !length_map in Hf.
Qed.

Lemma given_fds (l : list sched_list_node) i s s' : l !! i = Some s -> sl_epoll_fd s' = sl_epoll_fd s ->
  map sl_epoll_fd (<[i := s']> l) = map sl_epoll_fd l.
Proof. intros Hi Hs. change (sl_epoll_fd <$> <[i:=s']> l = sl_epoll_fd <$> l). rewrite list_fmap_insert, Hs. apply list_insert_id. by rewrite list_lookup_fmap, Hi. Qed.

(** Giving a connection to a worker. *)
Lemma add_client_round fd l w :
  epoll_results -> l <> [] -> 0 < c_worker_capacity config < 2 ^ 32 -> Forall (fun s => load s <= c_worker_capacity config) l ->
  exists r l' t, mk_sched_add_client l fd w = Some ((r, l'), logged w t) /\
    ((r = -1 /\ l' = l /\ (forall o c, exists o', clients ((fd, o) :: c) t = (fd, o') :: c)) \/
     (r <> -1 /\ forall pre, (forall c, clients c pre = (fd, None) :: c) -> round l l' (pre ++ t))).
Proof.
  intros Hr Hne Hcap Hl. unfold mk_sched_add_client.
  destruct (next_target_facts (c_worker_capacity config) l (proj1 Hcap) Hne) as (i & s & [Hi _] & Ht). rewrite Ht.
  erewrite bind_run by reflexivity. cbv beta. destruct (c_worker_capacity config <=? load s) eqn:Efull; zbool.
  { exists (-1), l, []. rewrite logged_nil. split; [done|]. left. split; [done|]. split; [done|]. intros o c. by exists o. }
  replace (Z.of_nat i =? -1) with false by zb. rewrite Nat2Z.id, Hi. erewrite bind_run by reflexivity. cbv beta.
  assert (Hadd : forall o c ev, clients ((fd, o) :: c) [EvEpollCtl EPOLL_CTL_ADD (sl_epoll_fd s) fd ev] = (fd, Some (sl_epoll_fd s)) :: c)
    by (intros o c ev; cbn; by rewrite Z.eqb_refl).
  destruct (epoll_add_main (sl_epoll_fd s) fd MK_EPOLL_READ MK_EPOLL_LEVEL_TRIGGERED w Hr) as (r & ev & He & [-> | ->]);
    erewrite bind_run by exact He; cbv beta; [change (0 =? 0) with true|change (-1 =? 0) with false]; cbv iota;
    eexists _, _, _; (split; [reflexivity|]); [right|left].
  2: { split; [done|]. split; [done|]. intros o c. eexists. apply Hadd. }
  split; [done|]. intros pre Hpre. pose proof (load_add s ltac:(lia)) as Hla. split.
  - by apply (given_fds l i s).
  - apply Forall_insert; [done|lia].
  - exists [(fd, Some (sl_epoll_fd s))], [i]. split; [intros c; by rewrite clients_app, Hpre, Hadd|]. split.
    + apply Forall2_cons_2; [|constructor]. by exists s.
    + by apply (counts_insert l i s).
Qed.

Lemma serve_client_round server_fd l w :
  epoll_results -> l <> [] -> 0 < c_worker_capacity config < 2 ^ 32 -> Forall (fun s => load s <= c_worker_capacity config) l ->
  exists l' t, serve_client liana server_fd l w = Some (l', logged w t) /\ round l l' t.
Proof.
  intros Hr Hne Hcap Hl. unfold serve_client, mk_socket_accept. cbn [nio_accept liana].
  assert (exists fd t, _mkp_network_io_accept server_fd w = Some (fd, logged w t) /\
            forall c, clients c t = if fd =? -1 then c else (fd, None) :: c) as (fd & t & Ha & Ht).
  { unfold _mkp_network_io_accept. set (fd := sys_accept (w_trace w) server_fd). exists fd.
    erewrite bind_run by reflexivity. erewrite bind_run by reflexivity. destruct accept_generic.
    - eexists ([EvAccept server_fd fd] ++ [EvSetFl fd _]). split; [rewrite <- logged_app; reflexivity|]. by intros c.
    - exists [EvAccept server_fd fd]. split; [reflexivity|]. by intros c. }
  erewrite bind_run by exact Ha. cbv beta. destruct (fd =? -1) eqn:Efd.
  { eexists _, _. split; [reflexivity|]. by apply round_idle. }
  destruct (add_client_round fd l (logged w t) Hr Hne Hcap Hl) as (r & l' & t' & Hrun & [(-> & -> & Hc)|(Hr1 & Hround)]);
    erewrite bind_run by exact Hrun; cbv beta iota; rewrite logged_app.
  - change (-1 =? -1) with true. cbv iota. erewrite bind_run by apply emit_run. eexists l, _. split; [by rewrite logged_app|].
    apply round_idle; [done|]. intros c. rewrite !clients_app, Ht. destruct (Hc None c) as (o' & ->). cbn. by rewrite Z.eqb_refl.
  - replace (r =? -1) with false by zb. eexists _, _. split; [reflexivity|]. by apply Hround.
Qed.

Lemma serve_clients_round server_fd n : forall l w,
  epoll_results -> l <> [] -> 0 < c_worker_capacity config < 2 ^ 32 -> Forall (fun s => load s <= c_worker_capacity config) l ->
  exists l' t, serve_clients liana n server_fd l w = Some (l', logged w t) /\ round l l' t.
Proof.
  induction n as [|n IH]; intros l w Hr Hne Hcap Hl.
  - exists l, []. rewrite logged_nil. split; [done|]. by apply round_idle.
  - cbn [serve_clients]. destruct (serve_client_round server_fd l w Hr Hne Hcap Hl) as (l1 & t1 & H1 & R1). erewrite bind_run by exact H1. cbv beta.
    assert (Hne1 : l1 <> []) by (intros ->; pose proof (ro_fds _ _ _ R1) as Hf; by destruct l).
    destruct (IH l1 (logged w t1) Hr Hne1 Hcap (ro_cap _ _ _ R1)) as (l2 & t2 & H2 & R2). exists l2, (t1 ++ t2).
    split; [by rewrite H2, logged_app|]. by eapply round_app.
Qed.

(** C4: in any number of rounds of the main thread, while no worker ends a
    connection, the server loop never loses one: each connection accepted is
    closed again, or has an owner, the worker whose epoll watches it; every worker
    counts the connections it owns on top of those it counted before, and has
    no more than its capacity. *)
Theorem server_loop_serves n server_fd l w :
  epoll_results -> l <> [] -> 0 < c_worker_capacity config < 2 ^ 32 -> Forall (fun s => load s <= c_worker_capacity config) l ->
  exists l' t owners, mk_server_loop liana n server_fd l w = Some (l', logged w t) /\
    map sl_epoll_fd l' = map sl_epoll_fd l /\
    Forall (fun s => load s <= c_worker_capacity config) l' /\
    Forall2 (watched_by l) (clients [] t) owners /\ counts l l' owners.
Proof.
  intros Hr Hne Hcap Hl. unfold mk_server_loop, mk_socket_set_tcp_defer_accept, setsockopt.
  erewrite bind_run; [|erewrite bind_run by reflexivity; erewrite bind_run by apply emit_run; reflexivity]. cbv beta.
  match goal with |- context [logged w ?t0] =>
    destruct (serve_clients_round server_fd n l (logged w t0) Hr Hne Hcap Hl) as (l' & t & Hrun & Hround);
    apply (round_app l l l' t0 t (round_idle l t0 Hl (fun c => eq_refl))) in Hround end.
  rewrite Hrun, logged_app. destruct Hround as [H1 H2 (g & o & H3 & H4 & H5)]. eexists _, _, o. split; [reflexivity|].
  rewrite (H3 []), app_nil_r in *. done.
Qed.
End Loop.

(** ** Examples *)

Definition example_files : config_text :=
  [ (lit "SERVER", [ (lit "Port", lit "2001"); (lit "Workers", lit "2"); (lit "Timeout", lit "15"); (lit "KeepAlive", lit "on");
                     (lit "MaxKeepAliveRequest", lit "50"); (lit "KeepAliveTimeout", lit "5"); (lit "HideVersion", lit "on");
                     (lit "Resume", lit "on"); (lit "MaxRequestSize", lit "32"); (lit "SymLink", lit "off") ]) ].
Definition example_site : config_text :=
  [ (lit "HOST", [ (lit "Servername", lit "localhost"); (lit "DocumentRoot", lit "/srv") ]) ].
Definition example_mime_file : config_text := [ (lit "MIMETYPES", [ (lit "html", lit "text/html") ]) ].
Definition file_text (path : bytes) : option bytes :=
  if bool_decide (path = clit "/etc/monkey/monkey.conf") then Some (render (lit "    ") example_files)
  else if bool_decide (path = clit "/etc/monkey/sites/default") then Some (render (lit "    ") example_site)
  else if bool_decide (path = clit "/etc/monkey/monkey.mime") then Some (render (lit "    ") example_mime_file)
  else None.
Definition example_start : StartSys :=
  {| fopen_read := file_text; stat_exists := fun _ => true; sys_readdir := fun _ => Some [clit "."; clit ".."; clit "default"];
     nprocs := 4; rlim_cur := 1024; VERSION := lit "1.2.0"; OS := lit "Linux" |}.
#[local] Abbreviation configured :=
  (@mk_config_start_configure example_env example_start (zero_config <| k_file_config := clit "/etc/monkey" |>)).

Lemma start_configure_valid_witness :
  match configured with
  | Some (k, _) => config_valid k /\
      (k_hideversion k <> MK_FALSE -> k_server_software k = {| data := Some (clit "Monkey Server"); len := 13 |})
  | None => False
  end.
Proof.
  assert (Hc : (if configured then true else false) = true) by (vm_compute; reflexivity).
  destruct configured as [[k mimes]|] eqn:E; [|discriminate Hc].
  exact (@start_configure_valid example_env example_start (zero_config <| k_file_config := clit "/etc/monkey" |>) k mimes E).
Defined.

(** Two workers; connection 7 is accepted again and again. *)
Definition two_workers : list sched_list_node := [mk_sched_register_thread 10 0 4; mk_sched_register_thread 10 1 5].

Lemma server_loop_serves_witness :
  let _ := example_env in let _ := example_sys in
  exists l' t owners, mk_server_loop liana 3 6 two_workers example_world = Some (l', logged example_world t) /\
    map sl_epoll_fd l' = [4; 5] /\
    Forall (fun s => load s <= c_worker_capacity config) l' /\
    Forall2 (watched_by two_workers) (clients [] t) owners /\ counts two_workers l' owners.
Proof.
  intros env sys. apply (@server_loop_serves example_env example_sys 3 6 two_workers example_world).
  - intros t op efd fd ev. by left.
  - done.
  - vm_compute. done.
  - repeat constructor; vm_compute; discriminate.
Defined.

(** The third connection goes to the first worker again. *)
Example three_clients :
  let _ := example_env in let _ := example_sys in
  (r ← mk_server_loop liana 3 6 two_workers; t ← gets w_trace; mret (map load r, clients [] t)) example_world ≫=
    (fun x => Some (fst x)) = Some ([2; 1], [(7, Some 4); (7, Some 5); (7, Some 4)]).
Proof. vm_compute. reflexivity. Qed.

Lemma worker_begins_witness :
  let _ := example_env in
  exists w, worker_begin 0 4 0 mk_pointer_reset = Some w /\
    worker_inv (w, Idle, 0%nat) /\ load (w_sched w) = 0 /\ sl_epoll_fd (w_sched w) = 4 /\
    index_ok (w_epoll w) /\ ei_busy_queue (w_epoll w) = [] /\ gmt_cache_ok (w_gmt w) /\
    Iov.iov_ok (w_iov w) [] /\ length (w_lm w) = 32%nat /\ w_sessions w = [] /\ w_trace w = [].
Proof. intros env. apply (@worker_begins example_env 0 4 0 mk_pointer_reset). vm_compute. discriminate. Defined.
