(* ===== verification/MkLoad.v ===== *)
(** * Loading plugins (mk_plugin.c)

    The shared libraries of the plugins are opened, their symbols are put in a
    [struct plugin], the plugin is initialised and registered; the hooks of the
    process and of the threads are called; at the end the plugins are left and
    their libraries closed. *)
From S2P Require Import Prelude CString MkString MkTypes MkSession MkPlugin MkScheduler MkConfig MkResponse MkNetIO MkStart.
Local Open Scope Z_scope.

(** ** Shared libraries

    A library is what [dlsym(3)] finds in it: a value of the type that the server
    expects under that name, or nothing. *)

Record plugin_info := { pi_shortname : bytes; pi_name : option bytes; pi_version : option bytes; pi_hooks : Z }.

Inductive symbol : Type -> Type :=
  | Sym_plugin_info : symbol plugin_info
  | Sym_mkp_init : symbol (bytes -> Z)
  | Sym_mkp_exit : symbol unit
  | Sym_mkp_core_prctx : symbol unit
  | Sym_mkp_core_thctx : symbol unit
  | Sym_mkp_stage_10 : symbol (Z -> nat -> M Z)
  | Sym_mkp_stage_20 : symbol (nat -> nat -> M Z)
  | Sym_mkp_stage_30 : symbol (nat -> nat -> M Z)
  | Sym_mkp_stage_40 : symbol (nat -> nat -> M Z)
  | Sym_mkp_stage_50 : symbol (Z -> M Z)
  | Sym_mkp_network_io_accept : symbol (Z -> M Z)
  | Sym_mkp_network_io_read : symbol (Z -> Z -> M (bytes + Z * bool)%type)
  | Sym_mkp_network_io_write : symbol (Z -> bytes -> Z -> M Z)
  | Sym_mkp_network_io_writev : symbol (Z -> MkMemory.Iov.mk_iov -> M Z)
  | Sym_mkp_network_io_close : symbol (Z -> M Z)
  | Sym_mkp_network_io_connect : symbol (bytes -> Z -> M Z)
  | Sym_mkp_network_io_send_file : symbol (Z -> Z -> Z -> Z -> M (Z * Z)%type)
  | Sym_mkp_network_io_create_socket : symbol (Z -> Z -> Z -> M Z)
  | Sym_mkp_network_io_bind : symbol (Z -> bytes -> Z -> M Z)
  | Sym_mkp_network_io_server : symbol (Z -> bytes -> M Z)
  | Sym_mkp_data : symbol unit
  | Sym_mkp_event_read : symbol (Z -> M Z)
  | Sym_mkp_event_write : symbol (Z -> M Z)
  | Sym_mkp_event_error : symbol (Z -> M Z)
  | Sym_mkp_event_close : symbol (Z -> M Z)
  | Sym_mkp_event_timeout : symbol (Z -> M Z).

Definition library : Type := forall A, symbol A -> option A.

Definition mk_plugin_load_symbol {A} (handler : library) (s : symbol A) : option A := handler A s.

(** [struct plugin_network_io] of a plugin: a function that is missing is NULL. *)
Record net_io := {
  np_accept : option (Z -> M Z);
  np_read : option (Z -> Z -> M (bytes + Z * bool)%type);
  np_write : option (Z -> bytes -> Z -> M Z);
  np_writev : option (Z -> MkMemory.Iov.mk_iov -> M Z);
  np_close : option (Z -> M Z);
  np_connect : option (bytes -> Z -> M Z);
  np_send_file : option (Z -> Z -> Z -> Z -> M (Z * Z)%type);
  np_create_socket : option (Z -> Z -> Z -> M Z);
  np_bind : option (Z -> bytes -> Z -> M Z);
  np_server : option (Z -> bytes -> M Z);
}.

(** [struct plugin]: the fields that the requests need are those of
    [MkTypes.plugin]; [lp_path] identifies the handle. *)
Record loaded := {
  lp_plugin : plugin;
  lp_path : bytes;
  lp_init : option (bytes -> Z);
  lp_prctx : option unit;
  lp_thctx : option unit;
  lp_net_io : net_io;
  lp_thread_key : option unit;
}.

Definition mk_plugin_alloc (handler : library) (path : bytes) : option loaded :=
  let load {A} (s : symbol A) : option A := mk_plugin_load_symbol handler s in
  match load Sym_plugin_info with
  | None => None
  | Some info =>
    Some {|
      lp_plugin := {|
        pl_shortname := pi_shortname info; pl_name := pi_name info; pl_version := pi_version info; pl_hooks := u32 (pi_hooks info);
        pl_init := bool_decide (is_Some (load Sym_mkp_init)); pl_exit := bool_decide (is_Some (load Sym_mkp_exit));
        pl_s10 := load Sym_mkp_stage_10; pl_s20 := load Sym_mkp_stage_20; pl_s30 := load Sym_mkp_stage_30;
        pl_s40 := load Sym_mkp_stage_40; pl_s50 := load Sym_mkp_stage_50;
        pl_event_read := load Sym_mkp_event_read; pl_event_write := load Sym_mkp_event_write;
        pl_event_error := load Sym_mkp_event_error; pl_event_close := load Sym_mkp_event_close;
        pl_event_timeout := load Sym_mkp_event_timeout |};
      lp_path := path;
      lp_init := load Sym_mkp_init;
      lp_prctx := load Sym_mkp_core_prctx;
      lp_thctx := load Sym_mkp_core_thctx;
      lp_net_io := {|
        np_accept := load Sym_mkp_network_io_accept; np_read := load Sym_mkp_network_io_read;
        np_write := load Sym_mkp_network_io_write; np_writev := load Sym_mkp_network_io_writev;
        np_close := load Sym_mkp_network_io_close; np_connect := load Sym_mkp_network_io_connect;
        np_send_file := load Sym_mkp_network_io_send_file; np_create_socket := load Sym_mkp_network_io_create_socket;
        np_bind := load Sym_mkp_network_io_bind; np_server := load Sym_mkp_network_io_server |};
      lp_thread_key := load Sym_mkp_data |}
  end.

(** ** The loader *)

(** What the server calls in the plugins, by their short names. *)
Inductive hook_call :=
  | CallInit (shortname confdir : bytes) (ret : Z)
  | CallExit (shortname : bytes)
  | CallPrctx (shortname : bytes)
  | CallThctx (shortname : bytes)
  | CreateKey (shortname : bytes).

(** [config->plugins] with what was registered, the handles that are open (the
    newest first; a library opened twice is there twice) and the calls made. *)
Record loader := {
  ld_plugins : list loaded;
  ld_reg : registry;
  ld_open : list bytes;
  ld_calls : list hook_call;
}.
#[export] Instance eta_loader : Eta loader := fun r =>
  {| ld_plugins := ld_plugins r; ld_reg := ld_reg r; ld_open := ld_open r; ld_calls := ld_calls r |}.

Definition mk_plugin_init : loader := {| ld_plugins := []; ld_reg := empty_registry; ld_open := []; ld_calls := [] |}.

(** The first of the elements that are equal to [x] is taken out. *)
Fixpoint remove_one (x : bytes) (l : list bytes) : list bytes :=
  match l with [] => [] | y :: l => if bool_decide (x = y) then l else y :: remove_one x l end.

Definition dlclose (path : bytes) (ld : loader) : loader := ld <| ld_open := remove_one path (ld_open ld) |>.
Definition called (calls : list hook_call) (ld : loader) : loader := ld <| ld_calls := ld_calls ld ++ calls |>.

(** [mk_plugin_register] of the plugin and its place in [config->plugins]. *)
Definition register (transport_layer : option bytes) (p : loaded) (ld : loader) : option loader :=
  '(reg, ok) ← mk_plugin_register transport_layer (ld_reg ld) (lp_plugin p);
  Some (if ok : bool then ld <| ld_reg := reg |> <| ld_plugins := ld_plugins ld ++ [p] |> else ld).

Section Load.
(** The library of a path, or nothing when [dlopen(3)] fails. *)
Variable dlopen : bytes -> option library.

Definition mk_plugin_load (path : bytes) (ld : loader) : option library * loader :=
  match dlopen path with
  | Some handle => (Some handle, ld <| ld_open := path :: ld_open ld |>)
  | None => (None, ld)
  end.

(** One entry of the section PLUGINS. The init function is called before it is
    checked that there is one. *)
Definition load_entry (serverconf : bytes) (transport_layer : option bytes) (e : mk_config_entry) (ld : loader) : option loader :=
  c ← strcasecmp (ce_key e) (clit "Load");
  if negb (c =? 0) then Some ld
  else
    let '(handle, ld) := mk_plugin_load (ce_val e) ld in
    match handle with
    | None => Some ld
    | Some handle =>
      match mk_plugin_alloc handle (ce_val e) with
      | None => Some (dlclose (ce_val e) ld)
      | Some p =>
        conf ← cstr serverconf; name ← cstr (pl_shortname (lp_plugin p));
        '(plugin_confdir, _) ← mk_string_build (conf ++ lit "/plugins/" ++ name ++ lit "/");
        init ← lp_init p;
        let ret := init plugin_confdir in
        let ld := called [CallInit name plugin_confdir ret] ld in
        if ret <? 0 then Some ld else register transport_layer p ld
      end
    end.

Fixpoint load_entries (serverconf : bytes) (transport_layer : option bytes) (entries : list mk_config_entry) (ld : loader) : option loader :=
  match entries with
  | [] => Some ld
  | e :: entries => ld ← load_entry serverconf transport_layer e ld; load_entries serverconf transport_layer entries ld
  end.

(** The calls of the plugins that have the hook, in the order of the list. *)
Definition hook_calls (hook : loaded -> option unit) (call : bytes -> hook_call) (l : list loaded) : list hook_call :=
  omap (fun p => (fun _ => call (pl_shortname (lp_plugin p))) <$> hook p) l.

Definition mk_plugin_preworker_calls (ld : loader) : loader := called (hook_calls lp_thread_key CreateKey (ld_plugins ld)) ld.
Definition mk_plugin_core_process (ld : loader) : loader := called (hook_calls lp_prctx CallPrctx (ld_plugins ld)) ld.
Definition mk_plugin_core_thread (ld : loader) : loader := called (hook_calls lp_thctx CallThctx (ld_plugins ld)) ld.

Definition MK_PLUGIN_LOAD : bytes := lit "plugins.load".

(** Without a transport layer the process exits, which is [None] here as
    undefined behaviour is. *)
Definition mk_plugin_read_config `{env : Env} `{start : StartSys} (k : start_config) (ld : loader) : option loader :=
  serverconf ← k_serverconf k; path ← cstr serverconf;
  cnf ← config_create (snprintf 1024 (path ++ lit "/" ++ MK_PLUGIN_LOAD) ++ [0]); cnf ← cnf;
  section ← mk_config_section_get cnf (clit "PLUGINS");
  section ← section;
  ld ← load_entries serverconf (k_transport_layer k) (cs_entries section) ld;
  match reg_netio (ld_reg ld) with
  | None => None
  | Some _ => Some (mk_plugin_preworker_calls ld)
  end.

(** Every plugin is left, then every library of the list closed. *)
Definition mk_plugin_exit_all (ld : loader) : loader :=
  let l := ld_plugins ld in
  let ld := called (map (fun p => CallExit (pl_shortname (lp_plugin p))) l) ld in
  foldl (fun ld p => dlclose (lp_path p) ld <| ld_plugins := drop 1 (ld_plugins ld) |>) ld l.
End Load.

(** ** Functions of the interface in a worker *)

Section Interface.
Context `{env : Env}.

Definition mk_plugin_event_init_list : M unit := mod_w (fun w => w <| w_events := [] |>).
Definition mk_plugin_time_now_unix : M Z := gets w_utime.
Definition mk_plugin_sched_remove_client (socket : Z) : M Z := mk_sched_remove_client socket.
End Interface.

(** ** What is loaded *)

Lemma remove_one_in x l : x ∈ l -> x :: remove_one x l ≡ₚ l.
Proof.
  induction 1 as [l|y l Hx IH]; cbn; [by rewrite bool_decide_true|].
  case_bool_decide; [by subst|]. etrans; [apply Permutation_swap|by constructor].
Qed.

Section Facts.
Variable dlopen : bytes -> option library.
Variables serverconf sc transport s : bytes.
Hypothesis Hconf : is_cstr serverconf sc.
Hypothesis Htransport : is_cstr transport s.

(** The plugin of an entry that loads one, and where its configuration is. *)
Definition is_load (e : mk_config_entry) : bool :=
  match strcasecmp (ce_key e) (clit "Load") with Some c => c =? 0 | None => false end.
Definition candidate (e : mk_config_entry) : option loaded :=
  if is_load e then match dlopen (ce_val e) with Some handle => mk_plugin_alloc handle (ce_val e) | None => None end
  else None.
Definition confdir (name : bytes) : bytes := sc ++ lit "/plugins/" ++ name ++ lit "/" ++ [0].
Definition initialised (p : loaded) : bool :=
  match lp_init p, cstr (pl_shortname (lp_plugin p)) with
  | Some f, Some name => 0 <=? f (confdir name)
  | _, _ => false
  end.
Definition good (p : loaded) : bool := initialised p && acceptable (lp_plugin p).

(** The keys are strings; the libraries that describe a plugin export an init
    function, and its short name is a string. *)
Record entries_ok (entries : list mk_config_entry) : Prop := {
  eo_keys : Forall (fun e => exists key, is_cstr (ce_key e) key) entries;
  eo_plugins : forall e p, e ∈ entries -> candidate e = Some p ->
    lp_init p <> None /\ exists n, is_cstr (pl_shortname (lp_plugin p)) n /\ Z.of_nat (length (confdir n)) < 2 ^ 32;
}.

(** What holds of the loader after the plugins [all] were looked at. *)
Record loads (all : list loaded) (ld : loader) : Prop := {
  lo_plugins : ld_plugins ld = List.filter good all;
  lo_reg : reg_plugins (ld_reg ld) = map lp_plugin (ld_plugins ld);
  lo_ok : registry_ok (ld_reg ld);
  lo_netio : reg_netio (ld_reg ld) = last_transport s 0 None (reg_plugins (ld_reg ld));
  lo_open : ld_open ld ≡ₚ map lp_path all;
}.

Lemma strcasecmp_some p q a b : is_cstr p a -> is_cstr q b -> exists c, strcasecmp p q = Some c.
Proof.
  intros Hp Hq. destruct (strcmp_by_antisym tolower p a q b) as (c & H & _); [|done|done|by exists c].
  intros c. unfold tolower. case_if; zbool; lia.
Qed.

Lemma filter_snoc {A} (f : A -> bool) l x : List.filter f (l ++ [x]) = List.filter f l ++ (if f x then [x] else []).
Proof. rewrite List.filter_app. cbn. by destruct (f x). Qed.

(** A plugin that is not kept leaves its library open. *)
Lemma loads_drop all p calls ld : good p = false -> loads all ld ->
  loads (all ++ [p]) (ld <| ld_open := lp_path p :: ld_open ld |> <| ld_calls := calls |>).
Proof.
  intros Hg [H1 H2 H3 H4 H5]. split; cbn; try done.
  - by rewrite filter_snoc, Hg, app_nil_r.
  - rewrite H5, map_app. cbn. apply Permutation_cons_append.
Qed.

Lemma register_loads all p calls ld :
  (exists n, is_cstr (pl_shortname (lp_plugin p)) n) -> initialised p = true -> loads all ld ->
  exists ld', register (Some transport) p (ld <| ld_open := lp_path p :: ld_open ld |> <| ld_calls := calls |>) = Some ld' /\ loads (all ++ [p]) ld'.
Proof.
  intros Hn Hi Hl. pose proof Hl as [H1 H2 H3 H4 H5].
  destruct (mk_plugin_register_ok transport s (ld_reg ld) (lp_plugin p) H3 Htransport Hn) as (reg' & Hr & Hok & Hp).
  pose proof (mk_plugin_register_netio transport s (ld_reg ld) (lp_plugin p) reg' Htransport Hn H4 Hr) as Hnet.
  unfold register. cbn [set_field ld_reg]. rewrite Hr. cbn [mbind option_bind].
  assert (Hg : good p = acceptable (lp_plugin p)) by (unfold good; by rewrite Hi).
  destruct (acceptable (lp_plugin p)) eqn:Ea.
  - eexists. split; [reflexivity|]. split; cbn; try done.
    + by rewrite filter_snoc, Hg, H1.
    + by rewrite Hp, H2, map_app.
    + rewrite H5, map_app. cbn. apply Permutation_cons_append.
  - eexists. split; [reflexivity|]. by apply loads_drop.
Qed.

Lemma load_entry_loads e all ld entries :
  entries_ok entries -> e ∈ entries -> loads all ld ->
  exists ld', load_entry dlopen serverconf (Some transport) e ld = Some ld' /\ loads (all ++ option_list (candidate e)) ld'.
Proof.
  intros [Hk Hp] He Hl. destruct (proj1 (Forall_forall _ _) Hk e He) as (key & Hkey).
  specialize (Hp e). unfold load_entry, candidate in *. unfold is_load in *.
  destruct (strcasecmp_some (ce_key e) (clit "Load") key (lit "Load") Hkey ltac:(apply is_cstr_clit; decide_closed)) as (c & Hc).
  rewrite Hc in *. cbn [mbind option_bind]. destruct (c =? 0); cbn [negb option_list]; [|exists ld; by rewrite app_nil_r].
  unfold mk_plugin_load. destruct (dlopen (ce_val e)) as [handle|]; [|exists ld; cbn; by rewrite app_nil_r].
  cbn [mbind option_bind] in *. destruct (mk_plugin_alloc handle (ce_val e)) as [p|] eqn:Ep.
  2:{ eexists. split; [reflexivity|]. cbn [option_list]. rewrite app_nil_r. destruct Hl as [? ? ? ? ?]. split; try done.
      cbn. by rewrite bool_decide_true. }
  destruct (Hp p He eq_refl) as (Hinit & n & Hn & Hlen). destruct (lp_init p) as [init|] eqn:Ei; [|done].
  rewrite (cstr_cstr _ _ Hconf), (cstr_cstr _ _ Hn). cbn [mbind option_bind].
  assert (Hb : mk_string_build (sc ++ lit "/plugins/" ++ n ++ lit "/") = Some (confdir n, Z.of_nat (length (sc ++ lit "/plugins/" ++ n ++ lit "/")))).
  { rewrite mk_string_build_run.
    - unfold confdir. by rewrite <- !app_assoc.
    - rewrite !not_elem_of_app. split_and!; [apply Hconf|decide_closed|apply Hn|decide_closed].
    - unfold confdir in Hlen. rewrite !length_app in *. lia. }
  rewrite Hb. cbn [mbind option_bind option_list].
  assert (Hpath : lp_path p = ce_val e) by (unfold mk_plugin_alloc in Ep; destruct (mk_plugin_load_symbol _ _); [by injection Ep as <-|done]).
  assert (Hi : initialised p = (0 <=? init (confdir n))) by (unfold initialised; by rewrite Ei, (cstr_cstr _ _ Hn)).
  rewrite <- Hpath. unfold called. destruct (init (confdir n) <? 0) eqn:E.
  - eexists. split; [reflexivity|]. apply loads_drop; [|done]. unfold good. rewrite Hi. by replace (0 <=? init (confdir n)) with false by zb.
  - apply register_loads; [by exists n| |done]. rewrite Hi. zb.
Qed.

Lemma load_entries_loads entries0 : forall entries all ld,
  entries_ok entries0 -> entries ⊆ entries0 -> loads all ld ->
  exists ld', load_entries dlopen serverconf (Some transport) entries ld = Some ld' /\ loads (all ++ omap candidate entries) ld'.
Proof.
  induction entries as [|e entries IH]; intros all ld Hok Hsub Hl.
  - exists ld. cbn. by rewrite app_nil_r.
  - destruct (load_entry_loads e all ld entries0 Hok (Hsub e ltac:(left)) Hl) as (ld1 & H1 & Hl1).
    destruct (IH (all ++ option_list (candidate e)) ld1 Hok (fun x Hx => Hsub x ltac:(by right)) Hl1) as (ld2 & H2 & Hl2).
    exists ld2. cbn [load_entries]. rewrite H1. cbn [mbind option_bind]. split; [exact H2|].
    rewrite <- app_assoc in Hl2. cbn [omap list_omap]. destruct (candidate e); exact Hl2.
Qed.

(** Leaving the plugins [l] when the libraries of [l] and [rest] are open. *)
Lemma exit_loop_open l : forall ld rest, ld_plugins ld = l -> ld_open ld ≡ₚ map lp_path l ++ rest ->
  let ld' := foldl (fun ld p => dlclose (lp_path p) ld <| ld_plugins := drop 1 (ld_plugins ld) |>) ld l in
  ld_plugins ld' = [] /\ ld_open ld' ≡ₚ rest /\ ld_calls ld' = ld_calls ld.
Proof.
  induction l as [|p l IH]; intros ld rest Hl Ho; [done|]. cbn [foldl].
  destruct (IH (dlclose (lp_path p) ld <| ld_plugins := drop 1 (ld_plugins ld) |>) rest) as (H1 & H2 & H3); [by cbn; rewrite Hl| |done].
  cbn. cbn in Ho. apply (Permutation_cons_inv (a := lp_path p)). rewrite remove_one_in; [done|]. rewrite Ho. left.
Qed.

Lemma split_good all : map lp_path all ≡ₚ map lp_path (List.filter good all) ++ map lp_path (List.filter (fun p => negb (good p)) all).
Proof.
  induction all as [|p all IH]; [done|]. cbn. destruct (good p); cbn; [by constructor|]. etrans; [by constructor; apply IH|]. apply Permutation_middle.
Qed.

(** C19: the plugins that the server runs are those of the Load entries of
    plugins.load, in their order, whose library can be opened and describes a
    plugin, whose init function does not fail, and that are registered: the lists
    of the stages hold them in that order, the transport is the last of them
    with network functions and the configured name, and without one the server
    does not start. *)
Theorem mk_plugin_read_config_loads `{env : Env} `{start : StartSys} k cnf section :
  k_serverconf k = Some serverconf -> k_transport_layer k = Some transport ->
  config_create (snprintf 1024 (sc ++ lit "/" ++ MK_PLUGIN_LOAD) ++ [0]) = Some (Some cnf) ->
  mk_config_section_get cnf (clit "PLUGINS") = Some (Some section) ->
  entries_ok (cs_entries section) ->
  let l := List.filter good (omap candidate (cs_entries section)) in
  match mk_plugin_read_config dlopen k mk_plugin_init with
  | Some ld => ld_plugins ld = l /\ reg_plugins (ld_reg ld) = map lp_plugin l /\
      reg_stages (ld_reg ld) = stages_of (map lp_plugin l) /\
      is_Some (reg_netio (ld_reg ld)) /\ reg_netio (ld_reg ld) = last_transport s 0 None (map lp_plugin l)
  | None => last_transport s 0 None (map lp_plugin l) = None
  end.
Proof.
  intros Hk Ht Hc Hs Hok l. unfold mk_plugin_read_config. rewrite Hk. cbn [mbind option_bind]. rewrite (cstr_cstr _ _ Hconf). cbn [mbind option_bind].
  rewrite Hc. cbn [mbind option_bind]. rewrite Hs. cbn [mbind option_bind]. rewrite Ht.
  destruct (load_entries_loads (cs_entries section) (cs_entries section) [] mk_plugin_init Hok (fun x Hx => Hx)) as (ld & Hrun & [H1 H2 H3 H4 _]); [by split|].
  rewrite Hrun. cbn [mbind option_bind]. cbn [app] in *. fold l in H1. rewrite H2, H1 in H4. rewrite <- H4.
  destruct (reg_netio (ld_reg ld)) as [i|] eqn:E; [|done]. cbn. split; [done|]. split; [by rewrite H2, H1|]. split; [|by rewrite E].
  destruct H3 as [H3 _]. by rewrite H3, H2, H1.
Qed.

(** C20: at the end every plugin that runs is left once, in order, and its
    library closed; but the libraries of the plugins whose init failed, or that
    were not accepted, were never closed and stay open. *)
Theorem mk_plugin_exit_all_leaks entries ld :
  entries_ok entries -> load_entries dlopen serverconf (Some transport) entries mk_plugin_init = Some ld ->
  let ld' := mk_plugin_exit_all ld in
  ld_plugins ld' = [] /\
  ld_calls ld' = ld_calls ld ++ map (fun p => CallExit (pl_shortname (lp_plugin p))) (List.filter good (omap candidate entries)) /\
  ld_open ld' ≡ₚ map lp_path (List.filter (fun p => negb (good p)) (omap candidate entries)).
Proof.
  intros Hok Hrun. destruct (load_entries_loads entries entries [] mk_plugin_init Hok (fun x Hx => Hx)) as (ld0 & Hrun0 & [H1 _ _ _ H5]); [by split|].
  rewrite Hrun0 in Hrun. injection Hrun as ->. cbn [app] in *. unfold mk_plugin_exit_all. rewrite H1.
  match goal with |- context [foldl _ ?x _] => destruct (exit_loop_open (List.filter good (omap candidate entries)) x
    (map lp_path (List.filter (fun p => negb (good p)) (omap candidate entries)))) as (Ha & Hb & Hc) end; [done| |].
  - cbn. rewrite H5. apply split_good.
  - split; [exact Ha|]. split; [|exact Hb]. rewrite Hc. done.
Qed.
End Facts.

(** ** Examples

    A library with the network functions, one whose init fails, one that is not
    a plugin. *)
Definition example_library (name : string) (hooks : Z) (init : bytes -> Z) : library := fun A s =>
  match s in symbol A return option A with
  | Sym_plugin_info => Some {| pi_shortname := clit name; pi_name := Some (clit name); pi_version := Some (clit "1"); pi_hooks := hooks |}
  | Sym_mkp_init => Some init
  | Sym_mkp_exit => Some tt
  | Sym_mkp_data => Some tt
  | _ => None
  end.
Definition no_library : library := fun A s => None.
Definition example_dlopen (path : bytes) : option library :=
  if bool_decide (path = clit "/lib/liana.so") then Some (example_library "liana" MK_PLUGIN_NETWORK_IO (fun _ => 0))
  else if bool_decide (path = clit "/lib/auth.so") then Some (example_library "auth" MK_PLUGIN_STAGE_30 (fun _ => -1))
  else if bool_decide (path = clit "/lib/libc.so") then Some no_library
  else None.
Definition example_entries : list mk_config_entry :=
  map (fun p => {| ce_key := clit "Load"; ce_val := clit p |}) ["/lib/auth.so"%string; "/lib/liana.so"%string; "/lib/libc.so"%string; "/lib/none.so"%string].
Definition load_file : config_text :=
  [ (lit "PLUGINS", map (fun p => (lit "Load", lit p)) ["/lib/auth.so"%string; "/lib/liana.so"%string; "/lib/libc.so"%string; "/lib/none.so"%string]) ].
Definition load_start : StartSys :=
  {| fopen_read := fun path => if bool_decide (path = clit "/etc/monkey/plugins.load") then Some (render (lit "    ") load_file) else None;
     stat_exists := fun _ => true; sys_readdir := fun _ => None; nprocs := 1; rlim_cur := 1024; VERSION := lit "1"; OS := lit "Linux" |}.

Lemma example_entries_ok : entries_ok example_dlopen (lit "/etc/monkey") example_entries.
Proof.
  split.
  - repeat constructor; exists (lit "Load"); apply is_cstr_clit; decide_closed.
  - assert (Hall : Forall (fun e => match candidate example_dlopen e with
                      | Some p => lp_init p <> None /\ pl_shortname (lp_plugin p) = clit "auth" \/ lp_init p <> None /\ pl_shortname (lp_plugin p) = clit "liana"
                      | None => True end) example_entries).
    { repeat (apply Forall_cons_2; [vm_compute; first [exact I|left; split; [discriminate|reflexivity]|right; split; [discriminate|reflexivity]]|]).
      apply Forall_nil_2. }
    intros e p He Hp. pose proof (proj1 (Forall_forall _ _) Hall e He) as H. cbn beta in H. rewrite Hp in H.
    destruct H as [[H1 ->]|[H1 ->]]; (split; [exact H1|]); eexists; (split; [apply is_cstr_clit; decide_closed|]); vm_compute; reflexivity.
Qed.

Lemma mk_plugin_read_config_witness :
  let _ := example_env in let _ := load_start in
  let k := zero_config <| k_serverconf := Some (clit "/etc/monkey") |> <| k_transport_layer := Some (clit "liana") |> in
  let l := List.filter (good (lit "/etc/monkey")) (omap (candidate example_dlopen) example_entries) in
  match mk_plugin_read_config example_dlopen k mk_plugin_init with
  | Some ld => ld_plugins ld = l /\ reg_plugins (ld_reg ld) = map lp_plugin l /\
      reg_stages (ld_reg ld) = stages_of (map lp_plugin l) /\
      is_Some (reg_netio (ld_reg ld)) /\ reg_netio (ld_reg ld) = last_transport (lit "liana") 0 None (map lp_plugin l)
  | None => last_transport (lit "liana") 0 None (map lp_plugin l) = None
  end.
Proof.
  intros env start k.
  apply (@mk_plugin_read_config_loads example_dlopen (clit "/etc/monkey") (lit "/etc/monkey") (clit "liana") (lit "liana")
    ltac:(apply is_cstr_clit; decide_closed) ltac:(apply is_cstr_clit; decide_closed) example_env load_start k
    (map stored_section load_file) {| cs_name := clit "PLUGINS"; cs_entries := example_entries |}).
  - reflexivity.
  - reflexivity.
  - vm_compute. reflexivity.
  - vm_compute. reflexivity.
  - apply example_entries_ok.
Defined.

(** The library of auth, whose init failed, stays open. *)
Lemma mk_plugin_exit_all_witness :
  match load_entries example_dlopen (clit "/etc/monkey") (Some (clit "liana")) example_entries mk_plugin_init with
  | Some ld => let ld' := mk_plugin_exit_all ld in
      ld_plugins ld' = [] /\
      ld_calls ld' = ld_calls ld ++ map (fun p => CallExit (pl_shortname (lp_plugin p)))
                       (List.filter (good (lit "/etc/monkey")) (omap (candidate example_dlopen) example_entries)) /\
      ld_open ld' ≡ₚ map lp_path (List.filter (fun p => negb (good (lit "/etc/monkey") p)) (omap (candidate example_dlopen) example_entries))
  | None => False
  end.
Proof.
  assert (Hs : (if load_entries example_dlopen (clit "/etc/monkey") (Some (clit "liana")) example_entries mk_plugin_init then true else false) = true)
    by (vm_compute; reflexivity).
  destruct (load_entries example_dlopen (clit "/etc/monkey") (Some (clit "liana")) example_entries mk_plugin_init) as [ld|] eqn:E; [|discriminate Hs].
  apply (mk_plugin_exit_all_leaks example_dlopen (clit "/etc/monkey") (lit "/etc/monkey") (clit "liana") (lit "liana")
    ltac:(apply is_cstr_clit; decide_closed) ltac:(apply is_cstr_clit; decide_closed) example_entries ld); [apply example_entries_ok|exact E].
Defined.

Example auth_stays_open :
  option_map (fun ld => ld_open (mk_plugin_exit_all ld))
    (load_entries example_dlopen (clit "/etc/monkey") (Some (clit "liana")) example_entries mk_plugin_init) = Some [clit "/lib/auth.so"].
Proof. vm_compute. reflexivity. Qed.
