(* ===== verification/MkLib.v ===== *)
(** * The server as a library (mk_lib.c, monkey.h)

    The functions that a program which embeds the server calls: they set it up,
    start and stop it, and read its tables. A NULL context is refused by all of
    them; here the context is given. *)
From S2P Require Import Prelude CString MkString MkMemory MkTypes MkToc MkSession MkEpoll MkPlugin MkScheduler MkConfig MkFile MkResponse MkNetIO MkStart MkLoad.
From stdpp Require Import relations.
Local Open Scope Z_scope.

(** ** Data (monkey.h, mk_lib.h) *)

Definition MKLIB_FALSE : Z := 0.
Definition MKLIB_TRUE : Z := 1.
Definition MKLIB_LIANA_SSL : Z := 2.

Definition MKC_WORKERS : Z := 1.
Definition MKC_TIMEOUT : Z := 2.
Definition MKC_USERDIR : Z := 3.
Definition MKC_INDEXFILE : Z := 4.
Definition MKC_HIDEVERSION : Z := 5.
Definition MKC_RESUME : Z := 6.
Definition MKC_KEEPALIVE : Z := 7.
Definition MKC_KEEPALIVETIMEOUT : Z := 8.
Definition MKC_MAXKEEPALIVEREQUEST : Z := 9.
Definition MKC_MAXREQUESTSIZE : Z := 10.
Definition MKC_SYMLINK : Z := 11.
Definition MKC_DEFAULTMIMETYPE : Z := 12.

Definition MKV_SERVERNAME : Z := 1.
Definition MKV_DOCUMENTROOT : Z := 2.

Definition MKCB_IPCHECK : Z := 1.
Definition MKCB_URLCHECK : Z := 2.
Definition MKCB_DATA : Z := 3.
Definition MKCB_CLOSE : Z := 4.

Record mklib_vhost := { vh_name : bytes; vh_document_root : option bytes; vh_server_names : bytes }.
Record mklib_worker_info := { wi_active_connections : Z; wi_pid : Z }.
Record mklib_mime := { mi_name : bytes; mi_type : option bytes }.

(** A function of the program is a number; NULL is [None]. *)
Record mklib_ctx_t := {
  lc_ipf : option nat;
  lc_urlf : option nat;
  lc_dataf : option nat;
  lc_closef : option nat;
  lc_worker_info : list mklib_worker_info;
  lc_running : bool;
}.
#[export] Instance eta_mklib_ctx : Eta mklib_ctx_t := fun r =>
  {| lc_ipf := lc_ipf r; lc_urlf := lc_urlf r; lc_dataf := lc_dataf r; lc_closef := lc_closef r;
     lc_worker_info := lc_worker_info r; lc_running := lc_running r |}.

(** The context with the variables of the server: [config], [sched_list] with the
    process ids, [mimecommon], [mimearr], [mimetype_default], the loaded plugins,
    and how many pointers the static list of [mklib_mimetype_list] has. *)
Record lib := {
  lb_ctx : mklib_ctx_t;
  lb_config : start_config;
  lb_sched : list sched_list_node;
  lb_pids : list Z;
  lb_mimecommon : list mimetype;
  lb_mimearr : list mimetype;
  lb_mime_default : mk_pointer;
  lb_loader : loader;
  lb_mimes : option nat;
}.
#[export] Instance eta_lib : Eta lib := fun r =>
  {| lb_ctx := lb_ctx r; lb_config := lb_config r; lb_sched := lb_sched r; lb_pids := lb_pids r; lb_mimecommon := lb_mimecommon r;
     lb_mimearr := lb_mimearr r; lb_mime_default := lb_mime_default r; lb_loader := lb_loader r; lb_mimes := lb_mimes r |}.

Definition mod_config (f : start_config -> start_config) (lb : lib) : lib := lb <| lb_config := f (lb_config lb) |>.

(** ** Hosts and callbacks *)

Fixpoint host_by_file (name : bytes) (l : list host) : option (option host) :=
  match l with
  | [] => Some None
  | h :: l => c ← strcmp name (h_file h); if c =? 0 then Some (Some h) else host_by_file name l
  end.

Definition mklib_host_find (name : bytes) (lb : lib) : option (option host) := host_by_file name (k_hosts (lb_config lb)).

Definition mklib_callback_set (cb : Z) (func : option nat) (lb : lib) : Z * lib :=
  let ctx := lb_ctx lb in
  if (cb =? 0) || lc_running ctx then (MKLIB_FALSE, lb)
  else if cb =? MKCB_IPCHECK then (MKLIB_TRUE, lb <| lb_ctx := ctx <| lc_ipf := func |> |>)
  else if cb =? MKCB_URLCHECK then (MKLIB_TRUE, lb <| lb_ctx := ctx <| lc_urlf := func |> |>)
  else if cb =? MKCB_DATA then (MKLIB_TRUE, lb <| lb_ctx := ctx <| lc_dataf := func |> |>)
  else if cb =? MKCB_CLOSE then (MKLIB_TRUE, lb <| lb_ctx := ctx <| lc_closef := func |> |>)
  else (MKLIB_FALSE, lb).

(** ** Options

    The arguments after the last named one; reading one of another type, or one
    that is not there, is undefined. *)
Inductive va := VInt (i : Z) | VStr (s : bytes).

Definition va_int (a : va) : option Z := match a with VInt i => Some (i32 i) | VStr _ => None end.
Definition va_str (a : va) : option bytes := match a with VStr s => Some s | VInt _ => None end.
Definition truth (i : Z) : Z := if i =? 0 then MK_FALSE else MK_TRUE.

(** A node of the memory that [mk_sched_init] clears. *)
Definition zero_node : sched_list_node :=
  {| sl_accepted_connections := 0; sl_closed_connections := 0; sl_busy_queue := []; sl_av_queue := []; sl_idx := 0;
     sl_epoll_fd := 0; sl_initialized := 0 |}.

(** The memory of a negative number of nodes is not given. *)
Definition mk_sched_init (workers : Z) : option (list sched_list_node) :=
  if workers <? 0 then None else Some (replicate (Z.to_nat workers) zero_node).

Section Lib.
Context `{start : StartSys}.

(** The capacity is divided by the number of workers. *)
Definition set_workers (i : Z) (lb : lib) : option lib :=
  let workers := i16 i in
  if u16 workers =? 0 then None
  else
    let capacity := mk_server_worker_capacity rlim_cur workers in
    sched ← mk_sched_init workers;
    Some (mod_config (fun k => k <| k_workers := workers |> <| k_worker_capacity := capacity |> <| k_max_load := u32 (capacity * workers) |>) lb
            <| lb_sched := sched |> <| lb_pids := replicate (length sched) 0 |>).

(** The texts that name the server, and the header of the first host. *)
Definition set_hideversion (i : Z) (lb : lib) : option lib :=
  let text := if i =? 0 then lit "libmonkey/" ++ VERSION ++ lit " (" ++ OS ++ lit ")" else lit "libmonkey" in
  '(software, n) ← mk_string_build text;
  match k_hosts (lb_config lb) with
  | [] => None
  | def :: hosts =>
    signature ← cstr software;
    '(header, m) ← mk_string_build (lit "Server: " ++ signature);
    let def := {| h_file := h_file def; h_server_names := h_server_names def; h_documentroot := h_documentroot def;
                  h_host_signature := signature ++ [0]; h_header_host_signature := {| data := Some header; len := m |};
                  h_error_pages := h_error_pages def |} in
    Some (mod_config (fun k => k <| k_server_software := {| data := Some software; len := n |} |> <| k_hosts := def :: hosts |>) lb)
  end.

Definition set_default_mimetype (s : bytes) (lb : lib) : option lib :=
  s ← cstr s;
  '(m, _) ← mk_string_build (s ++ [13; 10]);
  n ← strlen m;
  Some (mod_config (fun k => k <| k_default_mimetype := Some m |>) lb <| lb_mime_default := {| data := Some m; len := n |} |>).

(** The [switch] of [mklib_config]; [None] in the result is an option that it
    does not know, whose argument is not read. *)
Definition set_option (e : Z) (a : va) (lb : lib) : option lib :=
  if e =? MKC_WORKERS then i ← va_int a; set_workers i lb
  else if e =? MKC_TIMEOUT then i ← va_int a; Some (mod_config (fun k => k <| k_timeout := i |>) lb)
  else if e =? MKC_USERDIR then s ← va_str a; d ← cstr s; Some (mod_config (fun k => k <| k_user_dir := Some (d ++ [0]) |>) lb)
  else if e =? MKC_INDEXFILE then
    s ← va_str a; l ← mk_string_split_line (Some s); Some (mod_config (fun k => k <| k_index_files := l |>) lb)
  else if e =? MKC_HIDEVERSION then i ← va_int a; set_hideversion i lb
  else if e =? MKC_RESUME then i ← va_int a; Some (mod_config (fun k => k <| k_resume := truth i |>) lb)
  else if e =? MKC_KEEPALIVE then i ← va_int a; Some (mod_config (fun k => k <| k_keep_alive := truth i |>) lb)
  else if e =? MKC_KEEPALIVETIMEOUT then i ← va_int a; Some (mod_config (fun k => k <| k_keep_alive_timeout := i |>) lb)
  else if e =? MKC_MAXKEEPALIVEREQUEST then i ← va_int a; Some (mod_config (fun k => k <| k_max_keep_alive_request := i |>) lb)
  else if e =? MKC_MAXREQUESTSIZE then i ← va_int a; Some (mod_config (fun k => k <| k_max_request_size := i |>) lb)
  else if e =? MKC_SYMLINK then i ← va_int a; Some (mod_config (fun k => k <| k_symlink := truth i |>) lb)
  else s ← va_str a; set_default_mimetype s lb.

(** The loop of a function with options: those from 1 to [last] have an argument,
    which [set] takes; of another one only the number is read. *)
Fixpoint read_options {A} (last : Z) (set : Z -> va -> A -> option A) (args : list va) (x : A) : option A :=
  match args with
  | VInt e :: args =>
    let e := i32 e in
    if e =? 0 then Some x
    else if (1 <=? e) && (e <=? last) then
      match args with
      | a :: args => x ← set e a x; read_options last set args x
      | [] => None
      end
    else read_options last set args x
  | _ => None
  end.

Definition mklib_config (args : list va) (lb : lib) : option (Z * lib) :=
  if lc_running (lb_ctx lb) then Some (MKLIB_FALSE, lb)
  else lb ← read_options MKC_DEFAULTMIMETYPE set_option args lb; Some (MKLIB_TRUE, lb).
End Lib.

(** ** Virtual hosts *)

Fixpoint vhost_names (l : list mk_string_line) : option (list host_alias) :=
  match l with
  | [] => Some []
  | entry :: l =>
    if MK_HOSTNAME_LEN - 1 <? sl_len entry then vhost_names l
    else
      val ← sl_val entry; name ← mk_string_tolower val; rest ← vhost_names l;
      Some ({| ha_name := name; ha_len := u32 (sl_len entry) |} :: rest)
  end.

Definition set_vhost_option (e : Z) (a : va) (h : host) : option host :=
  s ← va_str a;
  if e =? MKV_SERVERNAME then
    l ← mk_string_split_line (Some s); l ← l; names ← vhost_names l;
    Some {| h_file := h_file h; h_server_names := h_server_names h ++ names; h_documentroot := h_documentroot h;
            h_host_signature := h_host_signature h; h_header_host_signature := h_header_host_signature h; h_error_pages := h_error_pages h |}
  else
    d ← cstr s;
    Some {| h_file := h_file h; h_server_names := h_server_names h;
            h_documentroot := {| data := Some (d ++ [0]); len := Z.of_nat (length d) |};
            h_host_signature := h_host_signature h; h_header_host_signature := h_header_host_signature h; h_error_pages := h_error_pages h |}.

Definition dev_null : mk_pointer := mk_pointer_init "/dev/null".

Definition mklib_vhost_config (name : bytes) (args : list va) (lb : lib) : option (Z * lib) :=
  h ← mklib_host_find name lb;
  match h with
  | Some _ => Some (MKLIB_FALSE, lb)
  | None =>
    defaulth ← mklib_host_find (clit "default") lb;
    match defaulth with
    | None => Some (MKLIB_FALSE, lb)
    | Some defaulth =>
      n ← cstr name;
      h ← read_options MKV_DOCUMENTROOT set_vhost_option args
            {| h_file := n ++ [0]; h_server_names := []; h_documentroot := dev_null; h_host_signature := [];
               h_header_host_signature := mk_pointer_reset; h_error_pages := [] |};
      signature ← cstr (h_host_signature defaulth);
      d ← data (h_header_host_signature defaulth); header ← cstr d;
      let h := {| h_file := h_file h; h_server_names := h_server_names h; h_documentroot := h_documentroot h;
                  h_host_signature := signature ++ [0];
                  h_header_host_signature := {| data := Some (header ++ [0]); len := len (h_header_host_signature defaulth) |};
                  h_error_pages := [] |} in
      Some (MKLIB_TRUE, mod_config (fun k => k <| k_hosts := k_hosts k ++ [h] |> <| k_nhosts := k_nhosts k + 1 |>) lb)
    end
  end.

(** The names of a host, at most 50, in a buffer of [total_len] bytes: [text] is
    what it holds. *)
Fixpoint strcat_names (total_len : Z) (text : bytes) (names : list bytes) : option bytes :=
  match names with
  | [] => Some text
  | name :: names =>
    n ← cstr name;
    let text := text ++ n ++ [32] in
    if total_len <=? Z.of_nat (length text) then None else strcat_names total_len text names
  end.

Definition NAMES : nat := 50.

Definition vhost_entry (h : host) : option mklib_vhost :=
  let names := map ha_name (h_server_names h) in
  if (NAMES <? length names)%nat then None
  else
    let total_len := u32 (1 + foldr (fun a n => ha_len a + 1 + n) 0 (h_server_names h)) in
    servernames ← (if total_len <? 1 then None else strcat_names total_len [] names);
    Some {| vh_name := h_file h; vh_document_root := data (h_documentroot h); vh_server_names := servernames ++ [0] |}.

Definition mklib_vhost_list (lb : lib) : option (list mklib_vhost) := mapM vhost_entry (k_hosts (lb_config lb)).

(** ** Starting and stopping *)

(** [threads] are the threads that the system makes, by their epoll descriptors
    and process ids. When one cannot be made the call never ends: the result
    is [None], as that of undefined behaviour. *)
Definition mklib_start (threads : list (option (Z * Z))) (lb : lib) : option (Z * lib) :=
  if lc_running (lb_ctx lb) then Some (MKLIB_FALSE, lb)
  else
    let k := lb_config lb in
    let ld := mk_plugin_core_process (lb_loader lb) in
    l ← mapM id (take (Z.to_nat (k_workers k)) threads);
    if negb (Z.of_nat (length l) =? k_workers k) then None
    else
      let nodes := imap (fun i t => mk_sched_register_thread (Z.to_nat (k_worker_capacity k)) (Z.of_nat i) (fst t)
                                      <| sl_initialized := 1 |>) l in
      let pids := map snd l in
      let info := map (fun pid => {| wi_active_connections := 0; wi_pid := pid |}) pids in
      Some (MKLIB_TRUE, lb <| lb_loader := ld |> <| lb_sched := nodes |> <| lb_pids := pids |>
                           <| lb_ctx := lb_ctx lb <| lc_worker_info := info |> <| lc_running := true |> |>).

(** The context is freed: only the loader is left. *)
Definition mklib_stop (lb : lib) : Z * (lib + loader) :=
  if lc_running (lb_ctx lb) then (MKLIB_TRUE, inr (mk_plugin_exit_all (lb_loader lb))) else (MKLIB_FALSE, inl lb).

(** The thread of the server, one round for each of [running]: it waits while
    the library does not run. *)
Fixpoint mklib_rounds `{env : Env} `{sys : SockSys} (plg_netiomap : plugin_network_io M) (running : list bool) (server_fd : Z)
    (sched_list : list sched_list_node) : M (list sched_list_node) :=
  match running with
  | [] => mret sched_list
  | false :: running => mklib_rounds plg_netiomap running server_fd sched_list
  | true :: running => l ← serve_client plg_netiomap server_fd sched_list; mklib_rounds plg_netiomap running server_fd l
  end.

Definition mklib_run `{env : Env} `{sys : SockSys} (plg_netiomap : plugin_network_io M) (running : list bool) (server_fd : Z)
    (sched_list : list sched_list_node) : M (list sched_list_node) :=
  _ ← mk_socket_set_tcp_defer_accept server_fd;
  mklib_rounds plg_netiomap running server_fd sched_list.

(** ** Tables *)

(** The numbers of [worker_info] are set from the nodes, up to the number of
    workers. *)
Definition mklib_scheduler_worker_info (lb : lib) : option (option (list mklib_worker_info) * lib) :=
  if lc_running (lb_ctx lb) then
    let workers := Z.to_nat (u32 (k_workers (lb_config lb))) in
    info ← mapM (fun i => s ← lb_sched lb !! i; w ← lc_worker_info (lb_ctx lb) !! i;
                          Some {| wi_active_connections := load s; wi_pid := wi_pid w |}) (seq 0 workers);
    let info := info ++ drop workers (lc_worker_info (lb_ctx lb)) in
    Some (Some info, lb <| lb_ctx := lb_ctx lb <| lc_worker_info := info |> |>)
  else Some (None, lb).

(** With no types in [mimearr] the count is that of the common ones, and memory
    that is not set is read: undefined. *)
Definition mime_total (lb : lib) : option nat :=
  match lb_mimearr lb with [] => None | l => Some (length l + MIME_COMMON)%nat end.

(** The list given before is freed first: as many pointers as the new one has. *)
Definition mklib_mimetype_list (lb : lib) : option (list mklib_mime * lib) :=
  total ← mime_total lb;
  if match lb_mimes lb with Some n => (n <? total)%nat | None => false end then None
  else
    lst ← mapM (fun i => m ← (if (i <? MIME_COMMON)%nat then lb_mimecommon lb !! i else lb_mimearr lb !! (i - MIME_COMMON)%nat);
                         Some {| mi_name := mt_name m; mi_type := data (mt_type m) |}) (seq 0 total);
    Some (lst, lb <| lb_mimes := Some (S total) |>).

(** The types of the library, for the functions of mk_mimetype.c. *)
Definition mime_env (base : Env) (lb : lib) : Env :=
  {| config := @config base; EUID := @EUID base; EGID := @EGID base; sys_lstat := @sys_lstat base;
     sys_stat := @sys_stat base; sys_open := @sys_open base; sys_access := @sys_access base; sys_readlink := @sys_readlink base;
     sys_getpwnam := @sys_getpwnam base; sys_strptime := @sys_strptime base; sys_mktime := @sys_mktime base;
     sys_epoll_ctl := @sys_epoll_ctl base; net_read := @net_read base; net_write := @net_write base; net_writev := @net_writev base;
     net_send_file := @net_send_file base; sys_getfd := @sys_getfd base; sys_realloc := @sys_realloc base;
     sys_junk := @sys_junk base; mimecommon := lb_mimecommon lb; mimearr := lb_mimearr lb;
     mimetype_default := @mimetype_default base; plugins := @plugins base |}.

Definition mklib_mimetype_add (base : Env) (name type : option bytes) (lb : lib) : option (Z * lib) :=
  match name, type with
  | Some name, Some type =>
    m ← @mk_mimetype_lookup (mime_env base lb) name;
    match m with
    | Some _ => Some (MKLIB_FALSE, lb)
    | None =>
      _ ← mime_total lb;
      arr ← mk_mimetype_add name type (lb_mimearr lb);
      Some (MKLIB_TRUE, lb <| lb_mimearr := mk_mimearr_sort arr |>)
    end
  | _, _ => Some (MKLIB_FALSE, lb)
  end.

(** The loop of [mklib_get_request_header] over the rows: the value of a header,
    NULL when it is empty or there is none. *)
Fixpoint header_value (rows : headers_toc) (key : bytes) (key_len : Z) : option (option bytes) :=
  match rows with
  | [] => Some None
  | row :: rows =>
    let len := pdiff (row_end row) (row_init row) in
    if len <=? 0 then header_value rows key key_len
    else if len <? key_len + 2 then header_value rows key key_len
    else
      c ← strncasecmp key (row_init row) key_len;
      if negb (c =? 0) then header_value rows key key_len
      else
        colon ← row_init row !! Z.to_nat key_len;
        if negb (colon =? 58) then header_value rows key key_len
        else
          let value_len := len - (key_len + 2) in
          if value_len =? 0 then Some None
          else
            p ← padd (row_init row) (key_len + 2);
            v ← memread p value_len;
            Some (Some (v ++ [0]))
  end.

Definition mklib_get_request_header (ms : option session_request) (key : bytes) : option (Z * option (option bytes)) :=
  key_len ← strlen key;
  match ms with
  | None => Some (-1, None)
  | Some sr => value ← header_value (sr_headers_toc sr) key key_len; Some (0, Some value)
  end.

(** ** Setting up *)

Section Init.
Context `{env : Env} `{start : StartSys}.
Variable dlopen : bytes -> option library.
(** of the build *)
Variables MONKEY_PATH_CONF PLUGDIR : bytes.

Definition MKLIB_PATH_MAX : Z := 4096.

(** The result of the call, and the plugins. *)
Definition load_networking (transport_layer : option bytes) (path : bytes) (ld : loader) : option (Z * loader) :=
  let '(handle, ld) := mk_plugin_load dlopen path ld in
  match handle with
  | None => Some (MKLIB_FALSE, ld)
  | Some handle =>
    match mk_plugin_alloc handle path with
    | None => Some (MKLIB_FALSE, dlclose path ld)
    | Some p =>
      name ← cstr (pl_shortname (lp_plugin p));
      init ← lp_init p;
      let ret := init [0] in
      let ld := called [CallInit name [0] ret] ld in
      if ret <? 0 then Some (MKLIB_FALSE, dlclose path ld)
      else ld ← register transport_layer p ld; Some (MKLIB_TRUE, ld)
    end
  end.

(** The host that is there from the start. *)
Definition default_host (listen_addr : bytes) (documentroot : option bytes) : option host :=
  '(signature, _) ← mk_string_build (lit "libmonkey");
  '(header, n) ← mk_string_build (lit "Server: libmonkey");
  addr ← cstr listen_addr;
  root ← match documentroot with
         | Some d => s ← cstr d; Some {| data := Some (s ++ [0]); len := Z.of_nat (length s) |}
         | None => Some dev_null
         end;
  Some {| h_file := clit "default"; h_server_names := [ {| ha_name := addr ++ [0]; ha_len := u32 (Z.of_nat (length addr)) |} ];
          h_documentroot := root; h_host_signature := signature;
          h_header_host_signature := {| data := Some header; len := n |}; h_error_pages := [] |}.

(** The configuration, once the transport layer is loaded. *)
Definition init_config (address : option bytes) (port : Z) (documentroot : option bytes) (k : start_config) : option start_config :=
  let k := if port =? 0 then k else k <| k_serverport := i32 port |> in
  addr ← cstr (default (k_listen_addr k) address);
  let k := k <| k_listen_addr := addr ++ [0] |> in
  h ← default_host (k_listen_addr k) documentroot;
  Some (k <| k_hosts := k_hosts k ++ [h] |> <| k_nhosts := k_nhosts k + 1 |>
          <| k_server_software := mk_pointer_init "" |>
          <| k_default_mimetype := Some (lit "text/plain" ++ [13; 10; 0]) |>).

(** The networking of the plugin that is [plg_netiomap]. *)
Definition netio_server (ld : loader) (port : Z) (listen_addr : bytes) : M Z :=
  p ← lift (i ← reg_netio (ld_reg ld); ld_plugins ld !! i);
  server ← lift (np_server (lp_net_io p));
  socket_fd ← server port listen_addr;
  if socket_fd <? 0 then ub else mret socket_fd.

(** [None] in the result is the NULL of an error. *)
Definition mklib_init (address : option bytes) (port plugins : Z) (documentroot : option bytes) : M (option lib) :=
  conf ← lift (cstr MONKEY_PATH_CONF); dir ← lift (cstr PLUGDIR);
  let k := mk_config_set_init_values (zero_config <| k_serverconf := Some (conf ++ [0]) |>) in
  sched ← lift (mk_sched_init (k_workers k));
  let ssl := negb (Z.land plugins MKLIB_LIANA_SSL =? 0) in
  let k := k <| k_transport_layer := Some (if ssl then clit "liana_ssl" else clit "liana") |> in
  let tmppath := snprintf MKLIB_PATH_MAX (dir ++ if ssl then lit "/monkey-liana_ssl.so" else lit "/monkey-liana.so") ++ [0] in
  '(r, ld) ← lift (load_networking (k_transport_layer k) tmppath mk_plugin_init);
  if (r =? MKLIB_FALSE) || bool_decide (reg_netio (ld_reg ld) = None) then mret None
  else
    let ld := mk_plugin_preworker_calls ld in
    k ← lift (init_config address port documentroot k);
    '(common, arr) ← lift (read_mimetypes k);
    m ← lift (k_default_mimetype k); n ← lift (strlen m);
    let capacity := mk_server_worker_capacity rlim_cur (k_workers k) in
    let k := k <| k_worker_capacity := capacity |> <| k_max_load := u32 (capacity * k_workers k) |> in
    server_fd ← netio_server ld (k_serverport k) (k_listen_addr k);
    let ctx := {| lc_ipf := None; lc_urlf := None; lc_dataf := None; lc_closef := None; lc_worker_info := []; lc_running := false |} in
    mret (Some {| lb_ctx := ctx; lb_config := k <| k_server_fd := server_fd |>; lb_sched := sched; lb_pids := replicate (length sched) 0;
                  lb_mimecommon := common; lb_mimearr := arr; lb_mime_default := {| data := Some m; len := n |};
                  lb_loader := ld; lb_mimes := None |}).
End Init.

(** ** The value of a header *)

(** A line with the name, letter case aside, a colon and one more character at
    least. *)
Definition header_line (key line : bytes) : Prop :=
  (length key + 2 <= length line)%nat /\ line_matches key line /\ line !! length key = Some 58.
#[export] Instance header_line_dec key line : Decision (header_line key line).
Proof. unfold header_line. apply _. Defined.

(** What follows the name and two more characters. *)
Definition line_value (key line : bytes) : option bytes :=
  match drop (length key + 2) line with [] => None | v => Some (v ++ [0]) end.

Lemma key_compare key row line :
  row_ok row line -> 0 ∉ key -> (length key + 2 <= length line)%nat ->
  exists c, strncasecmp (key ++ [0]) (row_init row) (Z.of_nat (length key)) = Some c /\ (c = 0 <-> line_matches key line).
Proof.
  intros Hrow H0 Hlen. pose proof Hrow as [Hi _ _ (s & Hs & Hsl)].
  assert (Hr : row_init row = take (length key) line ++ drop (length key) (row_init row)).
  { rewrite Hi at 2. rewrite drop_app_le by lia. rewrite app_assoc, take_drop. exact Hi. }
  assert (Hs' : take (length key) line = take (length key) s).
  { destruct Hs as [[u Hu] _]. rewrite Hu in Hi. apply (f_equal (take (length key))) in Hi.
    rewrite !take_app_le in Hi by lia. done. }
  destruct (strncasecmp_spec (key ++ [0]) key (take (length key) line) (drop (length key) (row_init row))) as (c & Hc & Hiff).
  - split; [by exists []|done].
  - rewrite Hs'. intros H. apply (proj2 Hs). apply elem_of_take in H as (i & Hi' & _). by eapply list_elem_of_lookup_2.
  - rewrite <- Hr in Hc. rewrite length_take, Nat.min_l in Hc, Hiff by lia. exists c. split; [done|]. rewrite Hiff, take_ge by lia.
    unfold line_matches. split; congruence.
Qed.

Lemma header_value_spec key rows lines :
  Forall2 row_ok rows lines -> 0 ∉ key ->
  header_value rows (key ++ [0]) (Z.of_nat (length key)) =
    Some (List.find (fun l => bool_decide (header_line key l)) lines ≫= line_value key).
Proof.
  intros HF H0. induction HF as [|row line rows lines Hrow HF IH]; [done|]. cbn [header_value List.find].
  pose proof Hrow as [Hi _ _ _].
  assert (Hd : pdiff (row_end row) (row_init row) = Z.of_nat (length line)).
  { unfold pdiff. rewrite Hi at 1. rewrite length_app. lia. }
  rewrite Hd. destruct (decide (length key + 2 <= length line)%nat) as [Hle|Hgt].
  2:{ rewrite bool_decide_false by (unfold header_line; lia). case_if; [exact IH|]. by replace (_ <? _) with true by zb. }
  replace (_ <=? 0) with false by zb. replace (_ <? _) with false by zb.
  destruct (key_compare key row line Hrow H0 Hle) as (c & -> & Hc). cbn [mbind option_bind].
  destruct (c =? 0) eqn:E; zbool; cbn [negb]; [|rewrite bool_decide_false by (unfold header_line; tauto); exact IH].
  rewrite Nat2Z.id. destruct (lookup_lt_is_Some_2 line (length key) ltac:(lia)) as (x & Hx).
  rewrite Hi at 1. rewrite lookup_app_l, Hx by lia. cbn [mbind option_bind].
  destruct (x =? 58) eqn:Ex; zbool; cbn [negb].
  2:{ rewrite bool_decide_false; [exact IH|]. intros (_ & _ & H). congruence. }
  rewrite bool_decide_true by (split; [done|]; split; [tauto|congruence]). cbn [mbind option_bind]. unfold line_value.
  assert (Hlr : (length line <= length (row_init row))%nat) by (rewrite Hi, length_app; lia).
  case_if; zbool. { rewrite drop_ge by lia. done. }
  rewrite padd_drop by lia. cbn [mbind option_bind]. rewrite memread_take by (rewrite length_drop; lia). cbn [mbind option_bind].
  replace (take _ _) with (drop (length key + 2) line).
  - destruct (drop _ line) eqn:Ed; [|done]. apply (f_equal (@length Z)) in Ed. rewrite length_drop in Ed. cbn in Ed. lia.
  - rewrite Hi, drop_app_le by lia. replace (Z.to_nat (Z.of_nat (length key) + 2)) with (length key + 2)%nat by lia.
    rewrite take_app_le by (rewrite length_drop; lia). rewrite take_ge; [done|]. rewrite length_drop. lia.
Qed.

(** C39: the value that the library gives for a header of a request is that of
    the first line of its text with the name, letter case aside, and a colon: what
    follows the name and two more characters, whatever the second is; NULL
    when nothing follows, or there is no such line. *)
Theorem mklib_get_request_header_spec sr dat h n key :
  is_cstr dat h -> mk_request_header_toc_parse dat n = Some (sr_headers_toc sr) -> 0 ∉ key ->
  mklib_get_request_header (Some sr) (key ++ [0]) =
    Some (0, Some (List.find (fun l => bool_decide (header_line key l)) (crlf_lines MK_HEADERS_TOC_LEN n h) ≫= line_value key)).
Proof.
  intros Hd Ht H0. destruct (mk_request_header_toc_parse_spec dat h n Hd) as (rows & Hr & HF & _). rewrite Hr in Ht. injection Ht as ->.
  unfold mklib_get_request_header. rewrite (strlen_cstr (key ++ [0]) key) by (split; [by exists []|done]). cbn [mbind option_bind].
  rewrite (header_value_spec key _ _ HF H0). done.
Qed.

(** ** What holds while the library is used *)

Definition host_names_of (lb : lib) : list (option bytes) := map (fun h => cstr (h_file h)) (k_hosts (lb_config lb)).

Record lib_ok (lb : lib) : Prop := {
  li_names : NoDup (host_names_of lb) /\ Forall (fun n => n <> None) (host_names_of lb);
  li_default : exists l, host_names_of lb = Some (lit "default") :: l;
  li_nhosts : k_nhosts (lb_config lb) = Z.of_nat (length (k_hosts (lb_config lb)));
  li_workers : 0 <= k_workers (lb_config lb) < 2 ^ 15 /\ length (lb_sched lb) = Z.to_nat (k_workers (lb_config lb));
  li_info : lc_running (lb_ctx lb) = true -> length (lc_worker_info (lb_ctx lb)) = Z.to_nat (k_workers (lb_config lb));
}.

(** One call of the program, or what the threads of the server do to their nodes. *)
Inductive lib_step `{start : StartSys} (base : Env) : lib -> lib -> Prop :=
  | step_config args r lb lb' : mklib_config args lb = Some (r, lb') -> lib_step base lb lb'
  | step_vhost name n args r lb lb' : is_cstr name n -> mklib_vhost_config name args lb = Some (r, lb') -> lib_step base lb lb'
  | step_callback cb f lb : lib_step base lb (snd (mklib_callback_set cb f lb))
  | step_start threads r lb lb' : mklib_start threads lb = Some (r, lb') -> lib_step base lb lb'
  | step_info r lb lb' : mklib_scheduler_worker_info lb = Some (r, lb') -> lib_step base lb lb'
  | step_mimes l lb lb' : mklib_mimetype_list lb = Some (l, lb') -> lib_step base lb lb'
  | step_mime_add name type r lb lb' : mklib_mimetype_add base name type lb = Some (r, lb') -> lib_step base lb lb'
  | step_threads nodes lb : length nodes = length (lb_sched lb) -> lib_step base lb (lb <| lb_sched := nodes |>).

(** The parts of the state the invariant speaks of. *)
Definition lib_view (lb : lib) := (host_names_of lb, k_nhosts (lb_config lb), length (k_hosts (lb_config lb)), k_workers (lb_config lb),
  length (lb_sched lb), lc_running (lb_ctx lb), length (lc_worker_info (lb_ctx lb))).

Lemma lib_ok_view lb lb' : lib_view lb' = lib_view lb -> lib_ok lb -> lib_ok lb'.
Proof. intros H [H1 H2 H3 H4 H5]. injection H as Ha Hb Hc Hd He Hf Hg. split; rewrite ?Ha, ?Hb, ?Hc, ?Hd, ?He, ?Hf, ?Hg; assumption. Qed.

Lemma read_options_ind {A} (P : A -> Prop) last set args : forall x x',
  (forall e a x x', set e a x = Some x' -> P x -> P x') -> read_options last set args x = Some x' -> P x -> P x'.
Proof.
  assert (H : forall n args, (length args <= n)%nat -> forall x x', (forall e a x x', set e a x = Some x' -> P x -> P x') ->
    read_options last set args x = Some x' -> P x -> P x').
  { induction n as [|n IH]; intros [|[i|s] l] Hn x x' Hset Hrun Hx; try discriminate; cbn in Hn; [lia|].
    cbn [read_options] in Hrun. destruct (i32 i =? 0); [by injection Hrun as <-|].
    destruct (_ && _); [|eapply (IH l); try eassumption; lia].
    destruct l as [|a l]; [discriminate|]. destruct (set (i32 i) a x) as [x1|] eqn:E; [|discriminate].
    refine (IH l _ x1 x' Hset Hrun _); [cbn in Hn; lia|]. by eapply Hset. }
  intros x x'. by eapply (H (length args)).
Qed.

Ltac steps_in H :=
  repeat match type of H with
  | mbind _ ?o = Some _ => destruct o eqn:?; [cbn [mbind option_bind] in H|discriminate H]
  | (let '(_, _) := ?p in _) = Some _ => destruct p
  | (if ?b then _ else _) = Some _ => destruct b eqn:?
  | match ?o with _ => _ end = Some _ => destruct o eqn:?; try discriminate H
  end; try discriminate H.

Section Steps.
Context `{start : StartSys}.

(** Options leave the hosts' names and the state of the library as they are. *)
Definition stopped_ok (lb : lib) : Prop := lib_ok lb /\ lc_running (lb_ctx lb) = false.

Lemma stopped_ok_view lb lb' : lib_view lb' = lib_view lb -> stopped_ok lb -> stopped_ok lb'.
Proof. intros H [Hok Hr]. split; [by eapply lib_ok_view|]. injection H as _ _ _ _ _ Hf _. congruence. Qed.

Lemma set_workers_ok i lb lb' : set_workers i lb = Some lb' -> stopped_ok lb -> stopped_ok lb'.
Proof.
  intros H [[H1 H2 H3 H4 H5] Hr]. unfold set_workers, mk_sched_init in H. set (n := i16 i) in *.
  assert (Hn : n < 2 ^ 15) by (unfold n, i16; pose proof (Z.mod_pos_bound (i + 2 ^ 15) (2 ^ 16)); lia). clearbody n.
  destruct (u16 n =? 0); [discriminate|]. destruct (n <? 0) eqn:E; [discriminate|]. cbn [mbind option_bind] in H. injection H as <-. zbool.
  split; [|exact Hr]. split; try assumption; cbn.
  - by rewrite length_replicate.
  - congruence.
Qed.

Lemma set_hideversion_ok i lb lb' : set_hideversion i lb = Some lb' -> stopped_ok lb -> stopped_ok lb'.
Proof.
  unfold set_hideversion. intros H. steps_in H. injection H as <-. apply stopped_ok_view.
  unfold lib_view, host_names_of. cbn. match goal with E : k_hosts _ = _ |- _ => by rewrite E end.
Qed.

Lemma set_option_ok e a lb lb' : set_option e a lb = Some lb' -> stopped_ok lb -> stopped_ok lb'.
Proof.
  unfold set_option. intros H. 
  repeat match type of H with (if ?b then _ else _) = _ => destruct b end; steps_in H;
    try (injection H as <-; by apply stopped_ok_view); try (by eapply set_workers_ok); try (by eapply set_hideversion_ok).
  unfold set_default_mimetype in H. steps_in H. injection H as <-. by apply stopped_ok_view.
Qed.

Lemma mklib_config_ok args r lb lb' : mklib_config args lb = Some (r, lb') -> lib_ok lb -> lib_ok lb'.
Proof.
  unfold mklib_config. intros H Hok. destruct (lc_running (lb_ctx lb)) eqn:Er; [by injection H as <- <-|]. steps_in H. injection H as <- <-.
  eapply (read_options_ind stopped_ok); [intros e a x x'; apply set_option_ok|eassumption|by split].
Qed.

Lemma host_by_file_spec name n l :
  is_cstr name n -> Forall (fun h => cstr (h_file h) <> None) l ->
  exists r, host_by_file name l = Some r /\ (r <> None <-> Some n ∈ map (fun h => cstr (h_file h)) l).
Proof.
  intros Hn Hl. induction Hl as [|h l Hh Hl IH]; cbn [host_by_file map].
  - exists None. split; [done|]. split; [done|]. intros H. by apply elem_of_nil in H.
  - destruct (cstr (h_file h)) as [f|] eqn:Ef; [|done]. apply cstr_Some in Ef as Hf.
    destruct (strcmp_cstr name n (h_file h) f Hn Hf) as (c & -> & Hc). cbn [mbind option_bind].
    destruct (c =? 0) eqn:E; zbool.
    + exists (Some h). split; [done|]. split; [|done]. intros _. rewrite (proj1 Hc E). left.
    + destruct IH as (r & Hr & Hiff). exists r. split; [done|]. rewrite Hiff. rewrite elem_of_cons. split; [tauto|].
      intros [H|H]; [|done]. injection H as H. exfalso. apply E, Hc. done.
Qed.

Lemma mklib_host_find_spec name n lb : is_cstr name n -> lib_ok lb ->
  exists r, mklib_host_find name lb = Some r /\ (r <> None <-> Some n ∈ host_names_of lb).
Proof.
  intros Hn [[_ H] _ _ _ _]. apply host_by_file_spec; [exact Hn|]. unfold host_names_of in H. rewrite Forall_map in H. exact H.
Qed.

Lemma set_vhost_option_file e a h h' : set_vhost_option e a h = Some h' -> h_file h' = h_file h.
Proof.
  unfold set_vhost_option. destruct (va_str a) as [s|]; [|discriminate]. cbn [mbind option_bind].
  destruct (e =? MKV_SERVERNAME).
  - destruct (mk_string_split_line (Some s)) as [[l|]|]; try discriminate. cbn [mbind option_bind].
    destruct (vhost_names l); [|discriminate]. intros H. by injection H as <-.
  - destruct (cstr s); [|discriminate]. intros H. by injection H as <-.
Qed.

(** What a call does: a host with the name was there and nothing changes, or
    one more host is at the end. *)
Lemma mklib_vhost_config_run name n args r lb lb' :
  is_cstr name n -> lib_ok lb -> mklib_vhost_config name args lb = Some (r, lb') ->
  (r = MKLIB_FALSE /\ lb' = lb /\ Some n ∈ host_names_of lb) \/
  (r = MKLIB_TRUE /\ Some n ∉ host_names_of lb /\ exists h, cstr (h_file h) = Some n /\
     lb' = mod_config (fun k => k <| k_hosts := k_hosts k ++ [h] |> <| k_nhosts := k_nhosts k + 1 |>) lb).
Proof.
  intros Hn Hok H. unfold mklib_vhost_config in H. destruct (mklib_host_find_spec name n lb Hn Hok) as (f & Hf & Hin).
  rewrite Hf in H. cbn [mbind option_bind] in H. destruct f as [h|].
  { injection H as <- <-. left. split; [done|]. split; [done|]. by apply Hin. }
  right. destruct (mklib_host_find_spec (clit "default") (lit "default") lb ltac:(apply is_cstr_clit; decide_closed) Hok) as (d & Hd & Hdin).
  rewrite Hd in H. cbn [mbind option_bind] in H. destruct d as [defaulth|].
  2:{ exfalso. apply (proj2 Hdin); [|done]. destruct (li_default lb Hok) as [l ->]. left. }
  rewrite (cstr_cstr _ _ Hn) in H. cbn [mbind option_bind] in H.
  destruct (read_options MKV_DOCUMENTROOT set_vhost_option args _) as [h|] eqn:Eh; [|discriminate]. cbn [mbind option_bind] in H.
  apply (read_options_ind (fun h => h_file h = n ++ [0])) in Eh; [|by intros e a x x' Hx <-; apply (set_vhost_option_file _ _ _ _ Hx)|done].
  destruct (cstr (h_host_signature defaulth)) as [sg|]; [|discriminate]. cbn [mbind option_bind] in H.
  destruct (data (h_header_host_signature defaulth)) as [hd|]; [|discriminate]. cbn [mbind option_bind] in H.
  destruct (cstr hd) as [header|]; [|discriminate]. cbn [mbind option_bind] in H. injection H as <- <-.
  split; [done|]. split; [intros Hc; by apply (proj2 Hin Hc)|]. eexists. split; [|reflexivity]. cbn [h_file]. rewrite Eh.
  apply cstr_cstr. split; [by exists []|apply Hn].
Qed.

Lemma add_host_names h n lb :
  host_names_of (mod_config (fun k => k <| k_hosts := k_hosts k ++ [h] |> <| k_nhosts := n |>) lb) = host_names_of lb ++ [cstr (h_file h)].
Proof. unfold host_names_of. cbn. by rewrite map_app. Qed.

Lemma mklib_vhost_config_ok name n args r lb lb' :
  is_cstr name n -> mklib_vhost_config name args lb = Some (r, lb') -> lib_ok lb -> lib_ok lb'.
Proof.
  intros Hn H Hok. destruct (mklib_vhost_config_run name n args r lb lb' Hn Hok H) as [(_ & -> & _)|(_ & Hnew & h & Hh & ->)]; [done|].
  destruct Hok as [[H1 H1'] (l & H2) H3 H4 H5]. split; try assumption.
  - change (fun k : start_config => _) with (fun k => k <| k_hosts := k_hosts k ++ [h] |> <| k_nhosts := k_nhosts k + 1 |>).
    unfold host_names_of. cbn. rewrite map_app. cbn. rewrite Hh. fold (host_names_of lb). split.
    + apply NoDup_app. split; [done|]. split; [|apply NoDup_singleton]. intros x Hx Hx'. apply list_elem_of_singleton in Hx'. by subst.
    + apply Forall_app. split; [done|]. by repeat constructor.
  - unfold host_names_of. cbn. rewrite map_app. fold (host_names_of lb). rewrite H2. by eexists.
  - cbn. rewrite length_app, H3. cbn. lia.
Qed.

Lemma mklib_callback_set_ok cb f lb : lib_ok lb -> lib_ok (snd (mklib_callback_set cb f lb)).
Proof. intros Hok. unfold mklib_callback_set. repeat case_if; try exact Hok; by apply (lib_ok_view lb). Qed.

Lemma mapM_length {A B} (f : A -> option B) l : forall k, mapM f l = Some k -> length k = length l.
Proof. intros k H. apply mapM_Some in H. symmetry. by eapply Forall2_length. Qed.

Lemma mklib_start_ok threads r lb lb' : mklib_start threads lb = Some (r, lb') -> lib_ok lb -> lib_ok lb'.
Proof.
  unfold mklib_start. intros H Hok. destruct (lc_running (lb_ctx lb)) eqn:Er; [by injection H as <- <-|].
  destruct (mapM id _) as [l|]; [|discriminate]. cbn [mbind option_bind] in H.
  destruct (Z.of_nat (length l) =? _) eqn:El; [|discriminate]. cbn [negb] in H. injection H as <- <-. zbool.
  destruct Hok as [H1 H2 H3 H4 H5]. split; try assumption.
  - split; [apply H4|]. cbn. rewrite length_imap. lia.
  - intros _. cbn. rewrite !length_map. lia.
Qed.

Lemma map_seq_lookup {A B} (g : A -> B) (d : A) (l : list A) : map (fun i => g (default d (l !! i))) (seq 0 (length l)) = map g l.
Proof.
  apply list_eq. intros i. change (map ?f ?l) with (f <$> l). rewrite !list_lookup_fmap.
  destruct (decide (i < length l)%nat) as [H|H].
  - rewrite lookup_seq_lt by done. cbn. destruct (lookup_lt_is_Some_2 l i H) as (x & Hx). by rewrite Hx.
  - rewrite (lookup_ge_None_2 l) by lia. by rewrite lookup_seq_ge by lia.
Qed.

Lemma mklib_scheduler_worker_info_run lb : lib_ok lb -> lc_running (lb_ctx lb) = true ->
  exists info lb', mklib_scheduler_worker_info lb = Some (Some info, lb') /\ lib_ok lb' /\
    map wi_active_connections info = map load (lb_sched lb).
Proof.
  intros Hok Hr. pose proof Hok as [_ _ _ [Hw Hs] Hi]. specialize (Hi Hr). unfold mklib_scheduler_worker_info. rewrite Hr.
  rewrite u32_small by lia. rewrite <- Hs. rewrite <- Hs in Hi.
  match goal with |- context [mapM ?f _] => assert (Hm : forall l, Forall (fun i => (i < length (lb_sched lb))%nat) l ->
    exists k, mapM f l = Some k /\ map wi_active_connections k = map (fun i => load (default zero_node (lb_sched lb !! i))) l) end.
  { induction 1 as [|i l Hl _ (k & Hk & Hv)]; [by exists []|].
    destruct (lookup_lt_is_Some_2 (lb_sched lb) i ltac:(lia)) as (sn & Hsn).
    destruct (lookup_lt_is_Some_2 (lc_worker_info (lb_ctx lb)) i ltac:(lia)) as (wi & Hwi).
    eexists. cbn [mapM]. rewrite Hsn, Hwi. cbn [mbind option_bind]. rewrite Hk. cbn [mbind option_bind].
    split; [reflexivity|]. cbn. by rewrite Hsn, Hv. }
  destruct (Hm (seq 0 (length (lb_sched lb)))) as (k & Hk & Hv); [apply Forall_seq; lia|]. rewrite Hk. cbn [mbind option_bind].
  assert (Hlk : length k = length (lb_sched lb)) by (apply (f_equal (@length Z)) in Hv; by rewrite !length_map, length_seq in Hv).
  eexists _, _. split; [reflexivity|]. rewrite drop_ge, app_nil_r by lia. split.
  - apply (lib_ok_view lb); [|done]. unfold lib_view. cbn. by rewrite Hi, Hlk.
  - rewrite Hv. apply map_seq_lookup.
Qed.

Lemma lib_step_ok base lb lb' : lib_step base lb lb' -> lib_ok lb -> lib_ok lb'.
Proof.
  intros [args r lb0 lb1 H|name n args r lb0 lb1 Hn H|cb f lb0|threads r lb0 lb1 H|r lb0 lb1 H|l lb0 lb1 H|name type r lb0 lb1 H|nodes lb0 H] Hok.
  - by eapply mklib_config_ok.
  - by eapply mklib_vhost_config_ok.
  - by apply mklib_callback_set_ok.
  - by eapply mklib_start_ok.
  - destruct (lc_running (lb_ctx lb0)) eqn:Er.
    + destruct (mklib_scheduler_worker_info_run lb0 Hok Er) as (info & lb2 & Hrun & Hok2 & _). rewrite Hrun in H. by injection H as _ <-.
    + unfold mklib_scheduler_worker_info in H. rewrite Er in H. by injection H as _ <-.
  - unfold mklib_mimetype_list in H. steps_in H. injection H as _ <-. by apply (lib_ok_view lb0).
  - unfold mklib_mimetype_add in H. steps_in H; injection H as _ <-; by apply (lib_ok_view lb0).
  - apply (lib_ok_view lb0); [|done]. unfold lib_view. cbn. by rewrite H.
Qed.

Lemma lib_steps_ok base lb lb' : rtc (lib_step base) lb lb' -> lib_ok lb -> lib_ok lb'.
Proof. induction 1 as [|lb lb1 lb2 H _ IH]; [done|]. intros Hok. by apply IH, (lib_step_ok base lb). Qed.

Lemma default_host_file addr root h : default_host addr root = Some h -> h_file h = clit "default".
Proof.
  unfold default_host. intros H. steps_in H; by injection H as <-.
Qed.

Lemma init_config_ok address port documentroot k k' :
  k_hosts k = [] -> k_nhosts k = 0 -> init_config address port documentroot k = Some k' ->
  map (fun h => cstr (h_file h)) (k_hosts k') = [Some (lit "default")] /\ k_nhosts k' = 1 /\ k_workers k' = k_workers k.
Proof.
  intros Hh Hn H. unfold init_config in H. set (k1 := if port =? 0 then k else _) in H.
  assert (Hk1 : k_hosts k1 = [] /\ k_nhosts k1 = 0 /\ k_workers k1 = k_workers k) by (unfold k1; by destruct (port =? 0)).
  clearbody k1. destruct Hk1 as (Hh1 & Hn1 & Hw1).
  destruct (cstr _) as [addr|]; [|discriminate]. cbn [mbind option_bind] in H.
  destruct (default_host _ _) as [h|] eqn:Eh; [|discriminate]. apply default_host_file in Eh. cbn [mbind option_bind] in H. injection H as <-.
  cbn [set_field k_hosts k_nhosts k_workers]. rewrite Hh1, Hn1, Hw1. cbn [app map]. rewrite Eh. done.
Qed.
End Steps.

Lemma bind_inv {A B} (m : M A) (k : A -> M B) w b w' : (m ≫= k) w = Some (b, w') -> exists a w1, m w = Some (a, w1) /\ k a w1 = Some (b, w').
Proof. unfold mbind, M_bind. destruct (m w) as [[a w1]|]; [|discriminate]. by exists a, w1. Qed.
Lemma lift_inv {A} (o : option A) w a w1 : lift o w = Some (a, w1) -> o = Some a /\ w1 = w.
Proof. unfold lift. destruct o; [|discriminate]. intros H. by injection H as <- <-. Qed.
Ltac bind_steps H :=
  repeat (let E := fresh "E" in let x := fresh "x" in let w := fresh "w" in
          apply bind_inv in H as (x & w & E & H); apply lift_inv in E as [E ->]; cbv beta in H).

Section Init.
Context `{env : Env} `{start : StartSys}.

Lemma mklib_init_ok dlopen conf plugdir address port plugins documentroot w lb w' :
  mklib_init dlopen conf plugdir address port plugins documentroot w = Some (Some lb, w') -> lib_ok lb.
Proof.
  unfold mklib_init. cbv zeta. intros H. bind_steps H. destruct x2 as [r ld]. cbv iota beta in H.
  destruct ((r =? MKLIB_FALSE) || _); [discriminate|]. bind_steps H. destruct x3 as [common arr]. cbv iota beta in H. bind_steps H.
  apply bind_inv in H as (fd & w1 & _ & H). injection H as <- _.
  apply init_config_ok in E3 as (Hn & Hc & Hw); [|done|done]. injection E1 as <-.
  assert (Hl : length (k_hosts x2) = 1%nat) by (apply (f_equal length) in Hn; by rewrite length_map in Hn).
  split; unfold host_names_of; cbn [lb_config lb_sched lb_ctx set_field k_hosts k_nhosts k_workers lc_running].
  - rewrite Hn. split; [apply NoDup_singleton|by repeat constructor].
  - rewrite Hn. by exists [].
  - by rewrite Hc, Hl.
  - rewrite Hw. change (0 <= 1 < 2 ^ 15 /\ 1%nat = Z.to_nat 1). lia.
  - done.
Qed.

(** C38: however a program uses the library once it is set up, the first host is
    the default one and no two hosts have the same name, so that a host is
    refused exactly when its name is taken and is added at the end otherwise;
    a running library takes no options and cannot be started again; and the
    numbers it gives are the loads of all its workers. *)
Theorem lib_reachable dlopen conf plugdir address port plugins documentroot w lb0 w' lb :
  mklib_init dlopen conf plugdir address port plugins documentroot w = Some (Some lb0, w') ->
  rtc (lib_step env) lb0 lb ->
  NoDup (host_names_of lb) /\ (exists l, host_names_of lb = Some (lit "default") :: l) /\
  k_nhosts (lb_config lb) = Z.of_nat (length (k_hosts (lb_config lb))) /\
  (forall name n args r lb', is_cstr name n -> mklib_vhost_config name args lb = Some (r, lb') ->
     (r = MKLIB_FALSE /\ lb' = lb /\ Some n ∈ host_names_of lb) \/
     (r = MKLIB_TRUE /\ Some n ∉ host_names_of lb /\ host_names_of lb' = host_names_of lb ++ [Some n])) /\
  (lc_running (lb_ctx lb) = true ->
     (forall args, mklib_config args lb = Some (MKLIB_FALSE, lb)) /\ (forall threads, mklib_start threads lb = Some (MKLIB_FALSE, lb)) /\
     exists info lb', mklib_scheduler_worker_info lb = Some (Some info, lb') /\
       map wi_active_connections info = map load (lb_sched lb) /\ Z.of_nat (length info) = k_workers (lb_config lb)).
Proof.
  intros Hi Hs. apply mklib_init_ok in Hi. pose proof (lib_steps_ok env lb0 lb Hs Hi) as Hok. clear Hi Hs.
  pose proof Hok as [[H1 _] H2 H3 [H4 H5] _]. split; [done|]. split; [done|]. split; [done|]. split.
  - intros name n args r lb' Hn Hrun. destruct (mklib_vhost_config_run name n args r lb lb' Hn Hok Hrun) as [H|(-> & Hnew & h & Hh & ->)]; [by left|].
    right. split; [done|]. split; [done|]. unfold host_names_of. cbn. by rewrite map_app, <- Hh.
  - intros Hr. split; [intros args; unfold mklib_config; by rewrite Hr|]. split; [intros threads; unfold mklib_start; by rewrite Hr|].
    destruct (mklib_scheduler_worker_info_run lb Hok Hr) as (info & lb' & Hrun & _ & Hv). exists info, lb'. split; [done|]. split; [done|].
    apply (f_equal (@length Z)) in Hv. rewrite !length_map in Hv. rewrite Hv, H5. lia.
Qed.
End Init.

(** ** Examples *)

Lemma mklib_get_request_header_witness :
  let sr := mk_request_init <| sr_headers_toc := toc_example_rows |> in
  mklib_get_request_header (Some sr) (clit "range") =
    Some (0, Some (List.find (fun l => bool_decide (header_line (lit "range") l)) (crlf_lines MK_HEADERS_TOC_LEN 17 (removelast toc_example))
                     ≫= line_value (lit "range"))).
Proof.
  intros sr. apply (mklib_get_request_header_spec sr toc_example (removelast toc_example) 17 (lit "range")).
  - split; [by exists []|decide_closed].
  - reflexivity.
  - decide_closed.
Defined.

(** The blank after the colon is taken to be there: without it, the first
    character of the value is lost. *)
Example header_value_blank :
  header_value (default [] (mk_request_header_toc_parse (lit "Range:bytes" ++ [13; 10; 13; 10; 0]) 20)) (clit "Range") 5 =
    Some (Some (clit "ytes")).
Proof. vm_compute. reflexivity. Qed.

Definition lib_library : library := fun A s =>
  match s in symbol A return option A with
  | Sym_plugin_info => Some {| pi_shortname := clit "liana"; pi_name := Some (clit "liana"); pi_version := Some (clit "1"); pi_hooks := MK_PLUGIN_NETWORK_IO |}
  | Sym_mkp_init => Some (fun _ => 0)
  | Sym_mkp_exit => Some tt
  | Sym_mkp_network_io_server => Some (fun _ _ => mret 6)
  | _ => None
  end.
Definition lib_dlopen (path : bytes) : option library := if bool_decide (path = clit "/lib/monkey-liana.so") then Some lib_library else None.
Definition mime_rows : config_text :=
  [ (lit "MIMETYPES", map (fun n => (lit n, lit "text/plain"))
      ["a"; "b"; "c"; "d"; "e"; "f"; "g"; "h"; "i"; "j"; "txt"]%string) ].
Definition lib_start : StartSys :=
  {| fopen_read := fun path => if bool_decide (path = clit "/etc/monkey.mime") then Some (render (lit "    ") mime_rows) else None;
     stat_exists := fun _ => true; sys_readdir := fun _ => None; nprocs := 1; rlim_cur := 1024; VERSION := lit "1"; OS := lit "Linux" |}.
#[local] Abbreviation example_init :=
  (@mklib_init example_env lib_start lib_dlopen (clit "/etc") (clit "/lib") None 8080 1 None example_world).

(** A host is added, then the library is started with one worker. *)
Definition example_calls (lb : lib) : option lib :=
  '(_, lb) ← mklib_vhost_config (clit "a") [VInt MKV_SERVERNAME; VStr (clit "A.org www.a.org"); VInt 0] lb;
  '(_, lb) ← mklib_start [Some (4, 100)] lb;
  Some lb.

Lemma lib_reachable_witness :
  match example_init with
  | Some (Some lb0, _) =>
    match example_calls lb0 with
    | Some lb => NoDup (host_names_of lb) /\ (exists l, host_names_of lb = Some (lit "default") :: l) /\
        exists info lb', mklib_scheduler_worker_info lb = Some (Some info, lb') /\ map wi_active_connections info = map load (lb_sched lb)
    | None => False
    end
  | _ => False
  end.
Proof.
  assert (Hs : match example_init with
               | Some (Some lb0, _) => match example_calls lb0 with Some lb => lc_running (lb_ctx lb) | None => false end
               | _ => false end = true) by (vm_compute; reflexivity).
  destruct example_init as [[[lb0|] w']|] eqn:E; try discriminate Hs.
  unfold example_calls in *. destruct (mklib_vhost_config _ _ lb0) as [[r1 lb1]|] eqn:E1; [|discriminate Hs].
  cbn [mbind option_bind] in *. destruct (mklib_start _ lb1) as [[r2 lb2]|] eqn:E2; [|discriminate Hs]. cbn [mbind option_bind] in *.
  assert (Hst : rtc (@lib_step lib_start example_env) lb0 lb2).
  { eapply rtc_l; [eapply (step_vhost _ (clit "a") (lit "a")); [apply is_cstr_clit; decide_closed|exact E1]|].
    eapply rtc_l; [eapply step_start; exact E2|]. apply rtc_refl. }
  destruct (@lib_reachable example_env lib_start lib_dlopen (clit "/etc") (clit "/lib") None 8080 1 None example_world lb0 w' lb2 E Hst)
    as (H1 & H2 & _ & _ & H3).
  destruct (H3 Hs) as (_ & _ & info & lb' & H4 & H5 & _). split; [exact H1|]. split; [exact H2|]. exists info, lb'. split; [exact H4|exact H5].
Defined.

(** After two types were added, freeing the list given before reads past its end. *)
Example mimetype_list_overflow :
  match example_init with
  | Some (Some lb, _) =>
    ('(_, lb) ← mklib_mimetype_list lb; '(_, lb) ← mklib_mimetype_add example_env (Some (clit "x")) (Some (clit "text/x")) lb;
     '(_, lb) ← mklib_mimetype_add example_env (Some (clit "y")) (Some (clit "text/y")) lb; mklib_mimetype_list lb) = None
  | _ => False
  end.
Proof. vm_compute. reflexivity. Qed.

(** A number that is no option is not skipped together with its argument: the
    argument, 1, is taken for MKC_WORKERS. *)
Example unknown_option :
  match example_init with
  | Some (Some lb, _) => option_map (fun r => k_workers (lb_config (snd r))) (@mklib_config lib_start [VInt 50; VInt 1; VInt 7; VInt 0] lb) = Some 7
  | _ => False
  end.
Proof. vm_compute. reflexivity. Qed.

(** The largest request is given in bytes; the manual says KiB. *)
Example request_size_bytes :
  match example_init with
  | Some (Some lb, _) => option_map (fun r => k_max_request_size (lb_config (snd r))) (@mklib_config lib_start [VInt MKC_MAXREQUESTSIZE; VInt 32; VInt 0] lb) = Some 32
  | _ => False
  end.
Proof. vm_compute. reflexivity. Qed.
