(* ===== verification/Cheetah.v ===== *)
(** * The Cheetah plugin (cheetah/cheetah.c, cmd.c, cutils.c, loop.c)

    A shell that shows the state of the server, on the standard input or on a
    socket of the file system. *)
From S2P Require Import Prelude CString MkString MkMemory MkTypes MkSession MkPlugin MkScheduler MkConfig MkResponse MkStart MkLoad.
Local Open Scope Z_scope.

(** ** Data (cheetah.h) *)

Definition ANSI (code : string) : bytes := 27 :: lit "[" ++ lit code ++ lit "m".
Definition ANSI_BOLD : bytes := ANSI "1".
Definition ANSI_RED : bytes := ANSI "31".
Definition ANSI_YELLOW : bytes := ANSI "33".
Definition ANSI_BLUE : bytes := ANSI "34".
Definition ANSI_GREEN : bytes := ANSI "32".
Definition ANSI_WHITE : bytes := ANSI "37".
Definition ANSI_RESET : bytes := ANSI "0".

Definition MK_CHEETAH_ONEDAY : Z := 86400.
Definition MK_CHEETAH_ONEHOUR : Z := 3600.
Definition MK_CHEETAH_ONEMINUTE : Z := 60.
Definition LISTEN_STDIN : Z := 0.
Definition LISTEN_SERVER : Z := 1.
Definition MK_PLUGIN_CORE_PRCTX : Z := 1.
Definition MK_PLUGIN_CORE_THCTX : Z := 2.

(** What the shell shows: the configuration, the hosts with their files, the
    plugins, the nodes of the workers with their process ids, the seconds since
    the plugin was loaded, the name of the user and the process id. *)
Record shell_view := {
  sv_mode : Z;
  sv_config : start_config;
  sv_hosts : list (host * option mk_config);
  sv_plugins : list loaded;
  sv_sched : list (sched_list_node * Z);
  sv_uptime : Z;
  sv_user : bytes;
  sv_pid : Z;
  sv_version : bytes;
}.

(** ** Output

    The texts handed to [fprintf] or [write], in order. *)
Definition W (A : Type) : Type := list bytes -> option (A * list bytes).
#[export] Instance W_ret : MRet W := fun A x o => Some (x, o).
#[export] Instance W_bind : MBind W := fun A B f m o => match m o with Some (a, o) => f a o | None => None end.
Definition liftW {A} (x : option A) : W A := fun o => a ← x; Some (a, o).

(** A text that is taken for a format: [%%] is one percent sign; anything else
    after a percent sign reads arguments that are not there. *)
Fixpoint as_format (text : bytes) : option bytes :=
  match text with
  | [] => Some []
  | 37 :: 37 :: text => t ← as_format text; Some (37 :: t)
  | 37 :: _ => None
  | c :: text => t ← as_format text; Some (c :: t)
  end.

Section Shell.
Variable v : shell_view.

(** [text] is what the format of the call expands to; it is put in a buffer of
    1024 bytes. *)
Definition mk_cheetah_write (text : bytes) : W unit := fun o =>
  if 1024 <=? Z.of_nat (length text) then None
  else if sv_mode v =? LISTEN_STDIN then t ← as_format text; Some (tt, o ++ [t])
  else Some (tt, o ++ [text]).

(** [%s] of a pointer that may be NULL. *)
Definition show (s : option bytes) : option bytes := match s with Some s => cstr s | None => Some (lit "(null)") end.
Definition nl : bytes := [10].
Definition int (z : Z) : bytes := dec (i32 z).
Definition on_off (b : Z) : bytes := if b =? MK_TRUE then lit "On" else lit "Off".
Definition plural (n : Z) : bytes := if 1 <? n then lit "s" else [].

Fixpoint write_all {A} (f : A -> W unit) (l : list A) : W unit :=
  match l with [] => mret tt | x :: l => f x;; write_all f l end.

(** ** Commands (cmd.c) *)

Definition mk_cheetah_cmd_clear : W unit := mk_cheetah_write (27 :: lit "[2J" ++ 27 :: lit "[1;1H").

(** Days, hours, minutes and seconds, each in an [int]. *)
Definition uptime_parts (uptime : Z) : Z * Z * Z * Z :=
  let days := i32 (uptime ÷ MK_CHEETAH_ONEDAY) in
  let upmind := uptime - i32 (days * MK_CHEETAH_ONEDAY) in
  let hours := i32 (upmind ÷ MK_CHEETAH_ONEHOUR) in
  let upminh := upmind - i32 (hours * MK_CHEETAH_ONEHOUR) in
  let minutes := i32 (upminh ÷ MK_CHEETAH_ONEMINUTE) in
  let seconds := i32 (upminh - i32 (minutes * MK_CHEETAH_ONEMINUTE)) in
  (days, hours, minutes, seconds).

(** The product of the days overflows an [int] after 24855 of them. *)
Definition mk_cheetah_cmd_uptime : W unit :=
  let '(days, hours, minutes, seconds) := uptime_parts (sv_uptime v) in
  if 2 ^ 31 <=? Z.abs (days * MK_CHEETAH_ONEDAY) then fun _ => None
  else
    mk_cheetah_write (lit "Server has been running: " ++ int days ++ lit " day" ++ plural days ++ lit ", " ++ int hours ++ lit " hour" ++ plural hours ++
      lit ", " ++ int minutes ++ lit " minute" ++ plural minutes ++ lit " and " ++ int seconds ++ lit " second" ++ plural seconds ++ nl ++ nl).

Definition print_plugin (p : loaded) : W unit :=
  name ← liftW (show (pl_name (lp_plugin p))); short ← liftW (cstr (pl_shortname (lp_plugin p)));
  version ← liftW (show (pl_version (lp_plugin p))); path ← liftW (cstr (lp_path p));
  mk_cheetah_write (nl ++ lit "  [" ++ short ++ lit "] " ++ name ++ lit " v" ++ version ++ lit " on " ++ [34] ++ path ++ [34]).

Definition print_hooked (stage : Z) (p : loaded) : W unit :=
  if hooked (pl_hooks (lp_plugin p)) stage then print_plugin p else mret tt.

Definition mk_cheetah_cmd_plugins_print_stage (l : list loaded) (stage : string) (stage_bw : Z) : W unit :=
  match l with
  | [] => mret tt
  | _ =>
    mk_cheetah_write (ANSI_BOLD ++ ANSI_YELLOW ++ lit "[" ++ lit stage ++ lit "]" ++ ANSI_RESET);;
    write_all (print_hooked stage_bw) l;;
    mk_cheetah_write (nl ++ nl)
  end.

Definition mk_cheetah_cmd_plugins_print_core (l : list loaded) : W unit :=
  mk_cheetah_write (nl ++ ANSI_BOLD ++ ANSI_BLUE ++ lit "[CORE PROCESS CONTEXT]" ++ ANSI_RESET);;
  write_all (print_hooked MK_PLUGIN_CORE_PRCTX) l;;
  mk_cheetah_write (nl ++ nl ++ ANSI_BOLD ++ ANSI_BLUE ++ lit "[CORE THREAD CONTEXT]" ++ ANSI_RESET);;
  write_all (print_hooked MK_PLUGIN_CORE_THCTX) l;;
  mk_cheetah_write (nl ++ nl).

Definition mk_cheetah_cmd_plugins_print_network (l : list loaded) : W unit :=
  mk_cheetah_write (ANSI_BOLD ++ ANSI_RED ++ lit "[NETWORK I/O]" ++ ANSI_RESET);;
  write_all (print_hooked MK_PLUGIN_NETWORK_IO) l;;
  mk_cheetah_write nl.

Definition mk_cheetah_cmd_plugins : W unit :=
  let l := sv_plugins v in
  mk_cheetah_write (lit "List of plugins and hooks associated" ++ nl);;
  mk_cheetah_cmd_plugins_print_core l;;
  mk_cheetah_cmd_plugins_print_stage l "STAGE_10" MK_PLUGIN_STAGE_10;;
  mk_cheetah_cmd_plugins_print_stage l "STAGE_20" MK_PLUGIN_STAGE_20;;
  mk_cheetah_cmd_plugins_print_stage l "STAGE_30" MK_PLUGIN_STAGE_30;;
  mk_cheetah_cmd_plugins_print_stage l "STAGE_40" MK_PLUGIN_STAGE_40;;
  mk_cheetah_cmd_plugins_print_stage l "STAGE_50" MK_PLUGIN_STAGE_50;;
  mk_cheetah_cmd_plugins_print_network l;;
  mk_cheetah_write nl.

(** [%11.10s] *)
Definition field (s : bytes) : bytes := let s := take 10 s in replicate (11 - length s) 32 ++ s.

Definition print_entry (e : mk_config_entry) : W unit :=
  key ← liftW (cstr (ce_key e)); val ← liftW (cstr (ce_val e));
  mk_cheetah_write (lit "        - " ++ field key ++ lit " : " ++ val ++ nl).

Definition print_section (s : mk_config_section) : W unit :=
  name ← liftW (cstr (cs_name s));
  mk_cheetah_write (lit "      " ++ ANSI_GREEN ++ lit "+" ++ ANSI_RESET ++ lit " [" ++ name ++ lit "]" ++ nl);;
  write_all print_entry (cs_entries s).

(** A host without a name has the head of its list taken for one. *)
Definition print_vhost (h : host * option mk_config) : W unit :=
  let '(h, conf) := h in
  first ← liftW (head (h_server_names h)); first ← liftW (cstr (ha_name first));
  mk_cheetah_write (ANSI_BOLD ++ lit "[" ++ ANSI_YELLOW ++ lit "VHost '" ++ first ++ lit "'" ++ ANSI_BOLD ++ ANSI_WHITE ++ lit "]" ++ ANSI_RESET ++ nl);;
  mk_cheetah_write (lit "      - Names         : ");;
  write_all (fun a => name ← liftW (cstr (ha_name a)); mk_cheetah_write (name ++ lit " ")) (h_server_names h);;
  mk_cheetah_write nl;;
  root ← liftW (show (data (h_documentroot h))); mk_cheetah_write (lit "      - Document root : " ++ root ++ nl);;
  file ← liftW (cstr (h_file h)); mk_cheetah_write (lit "      - Config file   : " ++ file ++ nl);;
  match conf with
  | None => mret tt
  | Some sections => write_all print_section sections
  end.

Definition mk_cheetah_cmd_vhosts : W unit := write_all print_vhost (sv_hosts v);; mk_cheetah_write nl.

Definition print_worker (n : sched_list_node * Z) : W unit :=
  let '(s, pid) := n in
  mk_cheetah_write (lit "* Worker " ++ int (sl_idx s) ++ nl);;
  mk_cheetah_write (lit "      - Task ID           : " ++ int pid ++ nl);;
  mk_cheetah_write (lit "      - Active Connections: " ++ dec (load s) ++ nl).

(** The first [config->workers] nodes. *)
Definition mk_cheetah_cmd_workers : W unit :=
  let n := Z.to_nat (k_workers (sv_config v)) in
  if (length (sv_sched v) <? n)%nat then fun _ => None
  else write_all print_worker (take n (sv_sched v));; mk_cheetah_write nl.

Definition mk_cheetah_cmd_help : W unit :=
  write_all mk_cheetah_write
    [ lit "List of available commands for Cheetah Shell" ++ nl; nl ++ lit "command  shortcut  description";
      nl ++ lit "----------------------------------------------------"; nl ++ lit "?          (\?)    Synonym for 'help'";
      nl ++ lit "config     (\f)    Display global configuration"; nl ++ lit "plugins    (\g)    List loaded plugins and associated stages";
      nl ++ lit "status     (\s)    Display general web server information";
      nl ++ lit "uptime     (\u)    Display how long the web server has been running"; nl ++ lit "vhosts     (\v)    List virtual hosts configured";
      nl ++ lit "workers    (\w)    Show thread workers information" ++ nl; nl ++ lit "clear      (\c)    Clear screen";
      nl ++ lit "help       (\h)    Print this help"; nl ++ lit "quit       (\q)    Exit Cheetah shell :_(" ++ nl ++ nl ].

(** A list of index files that is not there is dereferenced. *)
Definition mk_cheetah_cmd_config : W unit :=
  let k := sv_config v in
  mk_cheetah_write (lit "Basic configuration");;
  mk_cheetah_write (nl ++ lit "-------------------");;
  mk_cheetah_write (nl ++ lit "Server Port     : " ++ int (k_serverport k));;
  addr ← liftW (cstr (k_listen_addr k));
  (if bool_decide (addr = lit "0.0.0.0") then mk_cheetah_write (nl ++ lit "Listen          : All interfaces")
   else mk_cheetah_write (nl ++ lit "Listen          : " ++ addr));;
  mk_cheetah_write (nl ++ lit "Workers         : " ++ int (k_workers k) ++ lit " threads");;
  mk_cheetah_write (nl ++ lit "Timeout         : " ++ int (k_timeout k) ++ lit " seconds");;
  pid_file ← liftW (show (k_pid_file_path k));
  mk_cheetah_write (nl ++ lit "PidFile         : " ++ pid_file ++ lit "." ++ int (k_serverport k));;
  user_dir ← liftW (show (k_user_dir k));
  mk_cheetah_write (nl ++ lit "UserDir         : " ++ user_dir);;
  index_files ← liftW (k_index_files k);
  match index_files with
  | [] => mk_cheetah_write (nl ++ lit "IndexFile       : No index files defined")
  | _ =>
    mk_cheetah_write (nl ++ lit "IndexFile       : ");;
    write_all (fun e => val ← liftW (show (sl_val e)); mk_cheetah_write (val ++ lit " ")) index_files
  end;;
  mk_cheetah_write (nl ++ lit "HideVersion     : ");; mk_cheetah_write (on_off (k_hideversion k));;
  mk_cheetah_write (nl ++ lit "Resume          : ");; mk_cheetah_write (on_off (k_resume k));;
  user ← liftW (show (k_user k));
  mk_cheetah_write (nl ++ lit "User            : " ++ user);;
  mk_cheetah_write (nl ++ nl ++ lit "Advanced configuration");;
  mk_cheetah_write (nl ++ lit "----------------------");;
  mk_cheetah_write (nl ++ lit "KeepAlive           : ");; mk_cheetah_write (on_off (k_keep_alive k));;
  mk_cheetah_write (nl ++ lit "MaxKeepAliveRequest : " ++ int (k_max_keep_alive_request k) ++ lit " req/connection");;
  mk_cheetah_write (nl ++ lit "KeepAliveTimeout    : " ++ int (k_keep_alive_timeout k) ++ lit " seconds");;
  mk_cheetah_write (nl ++ lit "MaxRequestSize      : " ++ int (k_max_request_size k ÷ 1024) ++ lit " KB");;
  mk_cheetah_write (nl ++ lit "SymLink             : ");; mk_cheetah_write (on_off (k_symlink k));;
  mk_cheetah_write (nl ++ nl).

(** The socket of the shell. *)
Definition cheetah_server : option bytes :=
  '(path, _) ← mk_string_build (lit "/tmp/cheetah." ++ int (k_serverport (sv_config v))); Some path.

Definition mk_cheetah_cmd_status : W unit :=
  let k := sv_config v in
  mk_cheetah_write (lit "Monkey Version     : " ++ sv_version v ++ nl);;
  conf ← liftW (show (k_serverconf k));
  mk_cheetah_write (lit "Configutarion path : " ++ conf ++ nl);;
  mk_cheetah_write (lit "Cheetah! mode      : ");;
  (if sv_mode v =? LISTEN_STDIN then mk_cheetah_write (lit "STDIN" ++ nl)
   else server ← liftW cheetah_server; server ← liftW (cstr server); mk_cheetah_write (lit "SERVER @ " ++ server ++ nl));;
  mk_cheetah_write (lit "Process ID         : " ++ int (sv_pid v) ++ nl);;
  mk_cheetah_write (lit "Process User       : ");;
  mk_cheetah_write (sv_user v ++ nl);;
  mk_cheetah_write (lit "Server Port        : " ++ int (k_serverport k) ++ nl);;
  mk_cheetah_write (lit "Worker Threads     : " ++ int (k_workers k) ++ lit " (per configuration: " ++ int (k_workers k) ++ lit ")" ++ nl ++ nl).

(** What a command does to its caller: it goes on, the connection is closed
    (-1), or the thread ends. *)
Inductive cmd_result := Next | Close | ThreadExit.

Definition mk_cheetah_cmd_quit : W cmd_result :=
  mk_cheetah_write (lit "Cheeta says: Good Bye!" ++ nl);;
  mret (if sv_mode v =? LISTEN_STDIN then ThreadExit else Close).

(** The commands and their names. *)
Inductive command := Config | Status | Clear | Uptime | Plugins | Workers | Vhosts | Help | Quit | Nothing | Invalid.

Definition command_names : list (string * command) :=
  [ ("config", Config); ("\f", Config); ("status", Status); ("\s", Status); ("clear", Clear); ("\c", Clear); ("uptime", Uptime); ("\u", Uptime);
    ("plugins", Plugins); ("\g", Plugins); ("workers", Workers); ("\w", Workers); ("vhosts", Vhosts); ("\v", Vhosts);
    ("help", Help); ("\h", Help); ("?", Help); ("\?", Help); ("quit", Quit); ("\q", Quit); ("", Nothing) ]%string.

Definition command_of (cmd : bytes) : command :=
  match List.find (fun e => bool_decide (lit (fst e) = cmd)) command_names with Some (_, c) => c | None => Invalid end.

(** [cmd] is the text of the string. *)
Definition mk_cheetah_cmd (cmd : bytes) : W cmd_result :=
  match command_of cmd with
  | Config => mk_cheetah_cmd_config;; mret Next
  | Status => mk_cheetah_cmd_status;; mret Next
  | Clear => mk_cheetah_cmd_clear;; mret Next
  | Uptime => mk_cheetah_cmd_uptime;; mret Next
  | Plugins => mk_cheetah_cmd_plugins;; mret Next
  | Workers => mk_cheetah_cmd_workers;; mret Next
  | Vhosts => mk_cheetah_cmd_vhosts;; mret Next
  | Help => mk_cheetah_cmd_help;; mret Next
  | Quit => mk_cheetah_cmd_quit
  | Nothing => mret Next
  | Invalid => mk_cheetah_write (lit "Invalid command, type 'help' for a list of available commands" ++ nl);; mret Next
  end.

(** ** The loops (cheetah.c, loop.c) *)

Definition mk_cheetah_welcome_msg : W unit :=
  mk_cheetah_write (nl ++ ANSI_BOLD ++ ANSI_YELLOW ++ lit "***" ++ ANSI_WHITE ++ lit " Welcome to " ++ ANSI_GREEN ++ lit "Cheetah!" ++ ANSI_WHITE ++
    lit ", the " ++ ANSI_RED ++ lit "Monkey Shell " ++ ANSI_WHITE ++ lit ":) " ++ ANSI_YELLOW ++ lit "***" ++ ANSI_RESET ++ nl);;
  mk_cheetah_write (nl ++ lit "      << " ++ ANSI_BLUE ++ lit "Type 'help' or '\h' for help" ++ ANSI_RESET ++ lit " >>" ++ nl ++ nl).

Definition prompt : W unit := mk_cheetah_write (ANSI_BOLD ++ ANSI_GREEN ++ lit "cheetah>" ++ ANSI_RESET ++ lit " ").

(** The text of the string in the first [n] bytes. *)
Definition text_of (n : nat) (buf : bytes) : option bytes := cstr (take n buf ++ [0]).

(** The inner loop of the server: [packets] are what arrives on the connection,
    one read getting no more than one of them and no more than there is room for.
    The fuel is one unit for each read. *)
Fixpoint server_session (fuel : nat) (packets : list bytes) (buf : bytes) : W unit :=
  match fuel with
  | O => fun _ => None
  | S fuel =>
    match packets with
    | [] => mret tt
    | p :: packets =>
      let room := (1024 - length buf)%nat in
      let got := take room p in
      let packets := match drop room p with [] => packets | rest => rest :: packets end in
      match got with
      | [] => mret tt
      | _ =>
        let buf := buf ++ got in
        if bool_decide (last buf = Some 10) then
          cmd ← liftW (text_of (length buf - 1) buf);
          ret ← mk_cheetah_cmd cmd;
          match ret with
          | Next => prompt;; server_session fuel packets []
          | Close => mret tt
          | ThreadExit => mret tt
          end
        else server_session fuel packets buf
      end
    end
  end.

(** One connection of the server. *)
Definition server_connection (packets : list bytes) : W unit :=
  mk_cheetah_welcome_msg;; prompt;; server_session (S (length (concat packets) + length packets)) packets [].

(** The loop on the standard input, for the results of [fgets]; [None] is the
    end of the input, which is not looked at. *)
Fixpoint stdin_lines (lines : list (option bytes)) : W unit :=
  match lines with
  | [] => mret tt
  | line :: lines =>
    prompt;;
    match line with
    | None => stdin_lines lines
    | Some line =>
      text ← liftW (text_of (length line) line);
      match text with
      | [] => mk_cheetah_write nl;; _ ← mk_cheetah_cmd_quit; mret tt
      | _ =>
        ret ← mk_cheetah_cmd (take (length text - 1) text);
        match ret with ThreadExit => mret tt | _ => stdin_lines lines end
      end
    end
  end.

Definition mk_cheetah_loop_stdin (lines : list (option bytes)) : W unit := mk_cheetah_welcome_msg;; stdin_lines lines.
End Shell.

(** The mode, from cheetah.conf; without a section CHEETAH the message is written
    to an output that is not there yet. *)
Definition mk_cheetah_config `{env : Env} `{start : StartSys} (path : bytes) (is_daemon : Z) : option Z :=
  p ← cstr path;
  '(file, _) ← mk_string_build (p ++ lit "cheetah.conf");
  conf ← config_create file; conf ← conf;
  section ← mk_config_section_get conf (clit "CHEETAH"); section ← section;
  listen ← get_str section "Listen"; listen ← listen;
  stdin ← strcasecmp listen (clit "STDIN"); server ← strcasecmp listen (clit "SERVER");
  listen_mode ← if stdin =? 0 then Some LISTEN_STDIN else if server =? 0 then Some LISTEN_SERVER else None;
  Some (if (listen_mode =? LISTEN_STDIN) && (is_daemon =? MK_TRUE) then LISTEN_SERVER else listen_mode).

(** ** Facts *)

Lemma W_bind_run {A B} (m : W A) (k : A -> W B) o a o1 : m o = Some (a, o1) -> (m ≫= k) o = k a o1.
Proof. intros H. unfold mbind, W_bind. by rewrite H. Qed.

Lemma as_format_id text : 37 ∉ text -> as_format text = Some text.
Proof.
  induction text as [|c text IH]; [done|]. rewrite not_elem_of_cons. intros [Hc Ht]. cbn [as_format].
  rewrite (IH Ht). destruct c as [|p|p]; try done. repeat (destruct p as [p|p|]; try done).
Qed.

Lemma mk_cheetah_write_run v text o : 37 ∉ text -> Z.of_nat (length text) < 1024 -> mk_cheetah_write v text o = Some (tt, o ++ [text]).
Proof.
  intros H37 Hlen. unfold mk_cheetah_write. replace (1024 <=? _) with false by zb. rewrite as_format_id by done. by case_if.
Qed.

(** The parts of the time the server has been running add up to it, and are what
    a clock shows. *)
Lemma uptime_parts_spec uptime d h m s : 0 <= uptime < 2 ^ 31 -> uptime_parts uptime = (d, h, m, s) ->
  uptime = d * 86400 + h * 3600 + m * 60 + s /\ 0 <= d <= 24855 /\ 0 <= h < 24 /\ 0 <= m < 60 /\ 0 <= s < 60.
Proof.
  intros Hu. unfold uptime_parts, MK_CHEETAH_ONEDAY, MK_CHEETAH_ONEHOUR, MK_CHEETAH_ONEMINUTE.
  rewrite (Z.quot_div_nonneg uptime) by lia. assert (Hd : 0 <= uptime / 86400 <= 24855) by (pose proof (Z.div_pos uptime 86400); pose proof (Z.div_lt_upper_bound uptime 86400 24856); lia).
  rewrite (i32_small (uptime / 86400)) by lia. pose proof (Z.div_mod uptime 86400 ltac:(lia)) as E1. pose proof (Z.mod_pos_bound uptime 86400 ltac:(lia)) as B1.
  set (q1 := uptime / 86400) in *. set (r1 := uptime mod 86400) in *. rewrite (i32_small (q1 * 86400)) by lia.
  replace (uptime - q1 * 86400) with r1 by lia. clearbody q1 r1.
  rewrite (Z.quot_div_nonneg r1) by lia. pose proof (Z.div_mod r1 3600 ltac:(lia)) as E2. pose proof (Z.mod_pos_bound r1 3600 ltac:(lia)) as B2.
  set (q2 := r1 / 3600) in *. set (r2 := r1 mod 3600) in *. clearbody q2 r2. rewrite (i32_small q2), (i32_small (q2 * 3600)) by lia.
  replace (r1 - q2 * 3600) with r2 by lia.
  rewrite (Z.quot_div_nonneg r2) by lia. pose proof (Z.div_mod r2 60 ltac:(lia)) as E3. pose proof (Z.mod_pos_bound r2 60 ltac:(lia)) as B3.
  set (q3 := r2 / 60) in *. set (r3 := r2 mod 60) in *. clearbody q3 r3. rewrite (i32_small q3), (i32_small (q3 * 60)) by lia.
  replace (r2 - q3 * 60) with r3 by lia. rewrite (i32_small r3) by lia. intros [= <- <- <- <-]. lia.
Qed.

Section Session.
Variable v : shell_view.

(** Commands one after the other, with a prompt after each, to the one that closes. *)
Fixpoint run_commands (cmds : list bytes) : W unit :=
  match cmds with
  | [] => mret tt
  | c :: cmds =>
    ret ← mk_cheetah_cmd v c;
    match ret with Next => prompt v;; run_commands cmds | _ => mret tt end
  end.

(** The packets that carry a line: none is empty, and together they are the line
    with its end. *)
Definition carries (group : list bytes) (line : bytes) : Prop :=
  Forall (fun p => p <> []) group /\ concat group = line ++ [10] /\ 10 ∉ line /\ 0 ∉ line /\ (length line < 1024)%nat.

(** The rest of a line: it runs its command. *)
Lemma session_line line : 10 ∉ line -> 0 ∉ line -> (length line < 1024)%nat -> forall group buf rest fuel o,
  Forall (fun p => p <> []) group -> group <> [] -> buf ++ concat group = line ++ [10] ->
  server_session v (length group + fuel) (group ++ rest) buf o =
    (ret ← mk_cheetah_cmd v line; match ret with Next => prompt v;; server_session v fuel rest [] | _ => mret tt end) o.
Proof.
  intros H10 H0 Hlen. induction group as [|p group IH]; intros buf rest fuel o Hne Hg Heq; [done|].
  apply Forall_cons in Hne as [Hp Hne]. cbn [length app server_session Nat.add].
  assert (Hl : (length buf + (length p + length (concat group)) = S (length line))%nat).
  { apply (f_equal (@length Z)) in Heq. rewrite !length_app in Heq. cbn in Heq. rewrite length_app in Heq. lia. }
  rewrite take_ge, drop_ge by lia. destruct p as [|c p]; [done|]. set (q := c :: p) in *. cbv iota.
  destruct group as [|q' group].
  - cbn [concat] in Heq. rewrite app_nil_r in Heq. rewrite Heq. rewrite bool_decide_true by apply last_snoc.
    unfold text_of. rewrite length_app, take_app_le by (cbn; lia). cbn [length]. rewrite take_ge by lia.
    unfold liftW at 1, mbind at 1, W_bind at 1. rewrite (cstr_cstr (line ++ [0]) line) by (split; [by exists []|done]). reflexivity.
  - assert (Hnn : last (buf ++ q) <> Some 10).
    { apply Forall_cons in Hne as [Hq' _]. destruct q' as [|c' q']; [done|].
      intros Hlast. apply last_Some in Hlast as [l Hl'].
      cbn [concat] in Heq. rewrite app_assoc, Hl' in Heq.
      apply (f_equal (fun x => x !! length l)) in Heq. rewrite <- app_assoc, lookup_app_r, Nat.sub_diag in Heq by lia. cbn in Heq.
      assert (Hll : (length l < length line)%nat).
      { apply (f_equal (@length Z)) in Hl'. rewrite !length_app in Hl'. cbn in Hl, Hl'. rewrite !length_app in Hl. cbn in Hl. lia. }
      rewrite lookup_app_l in Heq by done. symmetry in Heq. apply list_elem_of_lookup_2 in Heq. done. }
    rewrite bool_decide_false by done. apply (IH (buf ++ q) rest fuel o Hne); [done|]. rewrite <- app_assoc. exact Heq.
Qed.

(** C40: a connection to the shell runs the commands of its lines in order, up
    to the one that quits, wherever a line is cut into packets, as long as each
    read gets a part of one line only and a line has no NUL and is shorter than
    1024 bytes. Two lines in one read run as a single, invalid command. *)
Theorem cheetah_session_lines groups lines o :
  Forall2 carries groups lines ->
  server_connection v (concat groups) o = (mk_cheetah_welcome_msg v;; prompt v;; run_commands lines) o.
Proof.
  intros HF. unfold server_connection.
  assert (H : forall fuel o, (length (concat groups) < fuel)%nat -> server_session v fuel (concat groups) [] o = run_commands lines o).
  { induction HF as [|g l groups lines (Hne & Heq & H10 & H0 & Hlen) HF IH]; intros fuel o' Hf.
    - destruct fuel; [lia|]. reflexivity.
    - cbn [concat] in *. rewrite length_app in Hf. replace fuel with (length g + (fuel - length g))%nat by lia.
      rewrite (session_line l H10 H0 Hlen g [] (concat groups) (fuel - length g) o' Hne); [|intros ->; by destruct l|exact Heq].
      cbn [run_commands]. unfold mbind, W_bind. destruct (mk_cheetah_cmd v l o') as [[[| |] o1]|]; try done.
      destruct (prompt v o1) as [[u o2]|]; [|done]. apply IH. lia. }
  unfold mbind at 1 2 3 4, W_bind. destruct (mk_cheetah_welcome_msg v o) as [[u o1]|]; [|done]. destruct (prompt v o1) as [[u2 o2]|]; [|done].
  apply H. lia.
Qed.
End Session.

(** ** Examples *)

Definition example_shell : shell_view :=
  {| sv_mode := LISTEN_SERVER; sv_config := mk_config_set_init_values zero_config; sv_hosts := []; sv_plugins := []; sv_sched := [];
     sv_uptime := 93784; sv_user := lit "www"; sv_pid := 7; sv_version := lit "1.2.0" |}.

Lemma cheetah_session_witness :
  server_connection example_shell (concat [[lit "upt"; lit "ime" ++ [10]]; [lit "\q" ++ [10]]]) [] =
    (mk_cheetah_welcome_msg example_shell;; prompt example_shell;; run_commands example_shell [lit "uptime"; lit "\q"]) [].
Proof.
  apply (cheetah_session_lines example_shell [[lit "upt"; lit "ime" ++ [10]]; [lit "\q" ++ [10]]] [lit "uptime"; lit "\q"] []).
  apply Forall2_cons_2; [|apply Forall2_cons_2; [|apply Forall2_nil_2]];
    (split; [repeat (apply Forall_cons_2; [discriminate|]); apply Forall_nil_2|split; [reflexivity|split; [decide_closed|split; [decide_closed|cbn; lia]]]]).
Defined.

Example uptime_text :
  option_map snd (mk_cheetah_cmd example_shell (lit "\u") []) =
    Some [lit "Server has been running: 1 day, 2 hours, 3 minutes and 4 seconds" ++ [10; 10]].
Proof. vm_compute. reflexivity. Qed.

(** Two lines that arrive together are one command, which there is not. *)
Example two_lines :
  option_map (fun r => nth 3 (snd r) []) (server_connection example_shell [lit "clear" ++ [10] ++ lit "quit" ++ [10]] []) =
    Some (lit "Invalid command, type 'help' for a list of available commands" ++ [10]).
Proof. vm_compute. reflexivity. Qed.

(** Without index files the command config dereferences NULL. *)
Example config_no_index : mk_cheetah_cmd example_shell (lit "config") [] = None.
Proof. vm_compute. reflexivity. Qed.

(** At the end of the standard input the shell goes on to write its prompt. *)
Example stdin_end n o : stdin_lines example_shell (replicate n None) o = Some (tt, o ++ replicate n (ANSI_BOLD ++ ANSI_GREEN ++ lit "cheetah>" ++ ANSI_RESET ++ lit " ")).
Proof.
  revert o. induction n as [|n IH]; intros o; cbn [replicate stdin_lines]; [by rewrite app_nil_r|].
  unfold prompt. erewrite W_bind_run by (apply mk_cheetah_write_run; [decide_closed|vm_compute; reflexivity]).
  rewrite IH, <- app_assoc. reflexivity.
Qed.

(** On the standard output a value with a percent sign is a format. *)
Example percent_value : mk_cheetah_write (example_shell) (lit "%s") [] = Some (tt, [lit "%s"]) /\ as_format (lit "100%") = None.
Proof. split; vm_compute; reflexivity. Qed.
