(* ===== verification/MkProcess.v ===== *)
(** * The process (monkey.c, mk_signals.c, mk_user.c, mk_utils.c)

    The options of the command line, the steps from there to the server loop, the
    file with the process id, the change of the user, the signals and the
    messages. *)
From stdpp Require Import sets.
From S2P Require Import Prelude CString MkString MkMemory MkUtils MkTypes MkPlugin MkScheduler MkConfig MkResponse MkEpoll MkNetIO MkStart MkLoad MkLib.
Local Open Scope Z_scope.

(** ** What the process asks the system *)

(** Real, effective and saved ids. *)
Record creds := { ruid : Z; euid : Z; suid : Z; rgid : Z; egid : Z; sgid : Z }.

Inductive pcall :=
  | PStat (path : bytes) (found : bool)
  | PUnlink (path : bytes) (r : Z)
  | POpen (path : bytes) (fd : Z)
  | PLock (fd r : Z)
  | PWrite (fd : Z) (data : bytes) (r : Z)
  | PClose (fd : Z)
  | PFork (pid : Z)
  | PSetsid
  | PChdir (r : Z)
  | PKill (pid signo : Z)
  | PIgnore (signo : Z)
  | PUmask (mask : Z)
  | PFclose (stream : Z)
  | PSigaction (signo : Z)
  | PRlimit (r : Z)
  | PSetRlimit (r : Z)
  | PInitgroups (r : Z)
  | PSetgid (g r : Z)
  | PSetuid (u r : Z)
  | PSetegid (g r : Z)
  | PSeteuid (u r : Z)
  | PThread (r : Z)
  | PPrint (type : Z) (text : bytes)
  | PPrintf (text : bytes).

(** The answers depend on the calls made before; those about ids on the ids too. *)
Class ProcSys := {
  sys_exists : list pcall -> bytes -> bool;
  sys_unlink : list pcall -> bytes -> Z;
  sys_open_pid : list pcall -> bytes -> Z;
  sys_setlk : list pcall -> Z -> Z;
  sys_write : list pcall -> Z -> bytes -> Z;
  sys_fork : list pcall -> Z;
  sys_getpid : list pcall -> Z;
  sys_getrlimit : list pcall -> Z;
  sys_setrlimit : list pcall -> Z;
  sys_initgroups : list pcall -> Z;
  (** [sys_siglist] *)
  sys_siglist : Z -> bytes;
  sys_chdir : list pcall -> bytes -> Z;
  sys_pthread_create : list pcall -> Z;
  (** user and group of a name *)
  sys_getpw : bytes -> option (Z * Z);
  sys_setgid : list pcall -> creds -> Z -> Z * creds;
  sys_setuid : list pcall -> creds -> Z -> Z * creds;
  sys_setegid : list pcall -> creds -> Z -> Z * creds;
  sys_seteuid : list pcall -> creds -> Z -> Z * creds
}.

(** setuid(2), setgid(2), seteuid(2), setegid(2): a call that succeeds sets all the
    ids of root, one that fails changes nothing; a process that is not root cannot
    take an effective id that it does not have. *)
Class CredLaws (sys : ProcSys) := {
  setgid_root : forall t c g, euid c = 0 ->
    sys_setgid t c g = (0, {| ruid := ruid c; euid := euid c; suid := suid c; rgid := g; egid := g; sgid := g |}) \/ sys_setgid t c g = (-1, c);
  setuid_root : forall t c u, euid c = 0 ->
    sys_setuid t c u = (0, {| ruid := u; euid := u; suid := u; rgid := rgid c; egid := egid c; sgid := sgid c |}) \/ sys_setuid t c u = (-1, c);
  seteuid_refused : forall t c u, euid c <> 0 -> u <> ruid c -> u <> euid c -> u <> suid c -> sys_seteuid t c u = (-1, c);
  setegid_refused : forall t c g, euid c <> 0 -> g <> rgid c -> g <> egid c -> g <> sgid c -> sys_setegid t c g = (-1, c);
}.

(** ** The state of the process

    A computation ends with a value or with the status of an exit; [None] is
    undefined behaviour, and the exits of the functions of other files. *)
Record proc := {
  pr_creds : creds;
  pr_EUID : Z;
  pr_EGID : Z;
  pr_config : start_config;
  pr_world : world;
  pr_calls : list pcall;
}.
#[export] Instance eta_proc : Eta proc := fun r =>
  {| pr_creds := pr_creds r; pr_EUID := pr_EUID r; pr_EGID := pr_EGID r; pr_config := pr_config r;
     pr_world := pr_world r; pr_calls := pr_calls r |}.

Definition X (A : Type) : Type := proc -> option ((A + Z) * proc).
#[export] Instance X_ret : MRet X := fun A x p => Some (inl x, p).
#[export] Instance X_bind : MBind X := fun A B f m p =>
  match m p with Some (inl a, p) => f a p | Some (inr code, p) => Some (inr code, p) | None => None end.

Definition exit {A} (code : Z) : X A := fun p => Some (inr code, p).
Definition ubX {A} : X A := fun _ => None.
Definition getX {A} (f : proc -> A) : X A := fun p => Some (inl (f p), p).
Definition modX (f : proc -> proc) : X unit := fun p => Some (inl tt, f p).
Definition record_call (c : pcall) : X unit := modX (fun p => p <| pr_calls := pr_calls p ++ [c] |>).
Definition liftX {A} (x : option A) : X A := fun p => a ← x; Some (inl a, p).
Definition worldX {A} (m : M A) : X A := fun p =>
  match m (pr_world p) with Some (a, w) => Some (inl a, p <| pr_world := w |>) | None => None end.

Definition MK_INFO : Z := 0x1000.
Definition MK_ERR : Z := 0x1001.
Definition MK_WARN : Z := 0x1002.
Definition MK_BUG : Z := 0x1003.
Definition EXIT_SUCCESS : Z := 0.
Definition EXIT_FAILURE : Z := 1.

Definition mk_err (text : bytes) : X unit := record_call (PPrint MK_ERR text).
Definition mk_warn (text : bytes) : X unit := record_call (PPrint MK_WARN text).
Definition mk_info (text : bytes) : X unit := record_call (PPrint MK_INFO text).

(** ** Messages (mk_print) *)

Definition BOLD : bytes := 27 :: lit "[1m".
Definition RESET : bytes := 27 :: lit "[0m".
Definition WHITE : bytes := 27 :: lit "[37m".
(** [%02i], [%7s] *)
Definition two_digits (n : Z) : bytes := if (0 <=? n) && (n <? 10) then 48 :: dec n else dec n.
Definition right (n : nat) (s : bytes) : bytes := replicate (n - length s) 32 ++ s.

(** Title and colour of a type; another one has neither, and NULL is printed. *)
Definition message_title (type : Z) : bytes * bytes :=
  if type =? MK_INFO then (lit "Info", 27 :: lit "[32m")
  else if type =? MK_ERR then (lit "Error", 27 :: lit "[31m")
  else if type =? MK_WARN then (lit "Warning", 27 :: lit "[33m")
  else if type =? MK_BUG then (lit " BUG !", BOLD ++ 27 :: lit "[31m")
  else (lit "(null)", lit "(null)").

(** What is printed on a terminal ([tty]) or elsewhere, at the local time [t]. *)
Definition mk_print (tty : bool) (t : tm) (type : Z) (text : bytes) : bytes :=
  let c (x : bytes) : bytes := if tty then x else [] in
  let '(title, color) := message_title type in
  c BOLD ++ lit "[" ++ c RESET ++ dec (tm_year t + 1900) ++ lit "/" ++ two_digits (tm_mon t + 1) ++ lit "/" ++ two_digits (tm_mday t) ++ lit " " ++
  two_digits (tm_hour t) ++ lit ":" ++ two_digits (tm_min t) ++ lit ":" ++ two_digits (tm_sec t) ++ c BOLD ++ lit "]" ++ c RESET ++ lit " " ++
  c BOLD ++ lit "[" ++ c color ++ right 7 title ++ c WHITE ++ lit "]" ++ c RESET ++ lit " " ++ text ++ c RESET ++ [10].

Section Process.
Context `{sys : ProcSys}.

(** A call whose answer is recorded. *)
Definition ask {A} (f : list pcall -> A) (c : A -> pcall) : X A := t ← getX pr_calls; record_call (c (f t));; mret (f t).

Definition getpid : X Z := t ← getX pr_calls; mret (sys_getpid t).

(** ** The user of the process (mk_user.c) *)

Definition set_creds (f : list pcall -> creds -> Z * creds) (call : Z -> pcall) : X Z :=
  t ← getX pr_calls; c ← getX pr_creds;
  modX (fun p => p <| pr_creds := snd (f t c) |>);; record_call (call (fst (f t c)));; mret (fst (f t c)).

(** A message when the test of a result holds. *)
Definition warn_if (b : bool) (text : bytes) : X unit := if b then mk_warn text else mret tt.
Definition err_if (b : bool) (text : bytes) : X unit := if b then mk_err text else mret tt.

Definition change_ids (pw_uid pw_gid : Z) : X unit :=
  r ← set_creds (fun t c => sys_setgid t c pw_gid) (PSetgid pw_gid);
  err_if (r =? -1) (lit "I cannot change the GID to " ++ dec pw_gid);;
  r ← set_creds (fun t c => sys_setuid t c pw_uid) (PSetuid pw_uid);
  err_if (r =? -1) (lit "I cannot change the UID to " ++ dec pw_uid).

(** The limit on descriptors and the supplementary groups are no part of the
    state. *)
Definition become_user (user : bytes) : X unit :=
  r ← ask sys_getrlimit PRlimit;
  warn_if (negb (r =? 0)) (lit "cannot get resource limits");;
  r ← ask sys_setrlimit PSetRlimit;
  warn_if (negb (r =? 0)) (lit "cannot set resource limits");;
  name ← liftX (cstr user);
  match sys_getpw name with
  | None => mk_err (lit "Invalid user '" ++ name ++ lit "'")
  | Some (pw_uid, pw_gid) =>
    r ← ask sys_initgroups PInitgroups;
    err_if (negb (r =? 0)) (lit "Initgroups() failed");;
    change_ids pw_uid pw_gid;;
    modX (fun p => p <| pr_config := pr_config p <| k_is_seteuid := MK_TRUE |> |>)
  end.

Definition mk_user_set_uidgid : X Z :=
  c ← getX pr_creds; k ← getX pr_config;
  match k_user k with
  | Some user => if euid c =? 0 then become_user user else mret tt
  | None => mret tt
  end;;
  modX (fun p => p <| pr_EUID := euid (pr_creds p) |> <| pr_EGID := egid (pr_creds p) |>);;
  mret 0.

Definition restore_ids : X unit :=
  r ← set_creds (fun t c => sys_setegid t c 0) (PSetegid 0);
  err_if (r <? 0) (lit "Can't restore effective GID");;
  r ← set_creds (fun t c => sys_seteuid t c 0) (PSeteuid 0);
  err_if (r <? 0) (lit "Can't restore effective UID").

Definition mk_user_undo_uidgid : X Z :=
  k ← getX pr_config;
  (if k_is_seteuid k =? MK_TRUE then restore_ids else mret tt);;
  mret 0.

(** ** The file with the process id (mk_utils.c) *)

(** A path that is not configured is NULL, which is printed. *)
Definition pid_path (k : start_config) : option bytes :=
  dir ← match k_pid_file_path k with Some p => cstr p | None => Some (lit "(null)") end;
  '(path, _) ← mk_string_build (dir ++ lit "." ++ dec (i32 (k_serverport k)));
  Some path.

Definition set_pid_status (b : Z) : X unit := modX (fun p => p <| pr_config := pr_config p <| k_pid_status := b |> |>).

Definition mk_utils_register_pid : X Z :=
  k ← getX pr_config;
  if k_pid_status k =? MK_TRUE then mret (-1)
  else
    filepath ← liftX (pid_path k);
    found ← ask (fun t => sys_exists t filepath) (PStat filepath);
    _ ← (if (found : bool) then ask (fun t => sys_unlink t filepath) (PUnlink filepath) else mret 0);
    fd ← ask (fun t => sys_open_pid t filepath) (POpen filepath);
    if fd <? 0 then mk_err (lit "Error: I can't log pid of monkey");; exit EXIT_FAILURE
    else
      r ← ask (fun t => sys_setlk t fd) (PLock fd);
      if r <? 0 then record_call (PClose fd);; mk_err (lit "Error: I cannot set the lock for the pid of monkey");; exit EXIT_FAILURE
      else
        pid ← getpid;
        let pidstr := dec pid in
        n ← ask (fun t => sys_write t fd pidstr) (PWrite fd pidstr);
        if negb (n =? Z.of_nat (length pidstr)) then
          record_call (PClose fd);; mk_err (lit "Error: I cannot write the lock for the pid of monkey");; exit EXIT_FAILURE
        else set_pid_status MK_TRUE;; mret 0.

Definition mk_utils_remove_pid : X Z :=
  k ← getX pr_config;
  filepath ← liftX (pid_path k);
  _ ← mk_user_undo_uidgid;
  r ← ask (fun t => sys_unlink t filepath) (PUnlink filepath);
  warn_if (negb (r =? 0)) (lit "cannot delete pidfile" ++ [10]);;
  set_pid_status MK_FALSE;;
  mret 0.

(** The parent ends; the child goes on. *)
Definition mk_utils_set_daemon : X Z :=
  pid ← ask sys_fork PFork;
  if pid <? 0 then mk_err (lit "Error: Failed creating to switch to daemon mode(fork failed)");; exit EXIT_FAILURE
  else if 0 <? pid then exit EXIT_SUCCESS
  else
    record_call (PUmask 0);; record_call PSetsid;;
    r ← ask (fun t => sys_chdir t (lit "/")) PChdir;
    if r <? 0 then mk_err (lit "Error: Unable to unmount the inherited filesystem in the daemon process");; exit EXIT_FAILURE
    else mk_info (lit "Background mode ON");; record_call (PFclose 2);; record_call (PFclose 1);; mret 0.

(** The result of [pthread_create] is 0 or the number of an error: it is never
    negative. *)
Definition mk_utils_worker_spawn : X unit :=
  r ← ask sys_pthread_create PThread;
  if r <? 0 then exit EXIT_FAILURE else mret tt.

(** ** Signals (mk_signals.c) *)

Definition SIGHUP : Z := 1.
Definition SIGINT : Z := 2.
Definition SIGBUS : Z := 7.
Definition SIGSEGV : Z := 11.
Definition SIGTERM : Z := 15.

(** The plugins are left as well: [ld] after the call. *)
Definition mk_signal_exit (ld : loader) : X loader :=
  record_call (PIgnore SIGTERM);; record_call (PIgnore SIGINT);; record_call (PIgnore SIGHUP);;
  _ ← mk_utils_remove_pid;
  let ld := mk_plugin_exit_all ld in
  mk_info (lit "Exiting... >:(");;
  exit EXIT_SUCCESS.

(** [false] in the result: the thread ends. [si_code] and [si_addr] are those of
    the signal, the address as it is printed. *)
Definition mk_signal_handler (signo si_code : Z) (si_addr : bytes) (ld : loader) : X bool :=
  if (signo =? SIGTERM) || (signo =? SIGINT) || (signo =? SIGHUP) then _ ← mk_signal_exit ld; mret true
  else if (signo =? SIGBUS) || (signo =? SIGSEGV) then
    mk_err (sys_siglist signo ++ lit " (" ++ dec signo ++ lit "), code=" ++ dec si_code ++ lit ", addr=" ++ si_addr);; mret false
  else pid ← getpid; record_call (PKill pid signo);; mret true.

Definition mk_signal_init : X unit :=
  record_call (PSigaction SIGSEGV);; record_call (PSigaction SIGBUS);; record_call (PSigaction SIGHUP);;
  record_call (PSigaction SIGINT);; record_call (PSigaction SIGTERM).
End Process.

(** ** Facts *)

Lemma X_bind_inv {A B} (m : X A) (k : A -> X B) p b p' :
  (m ≫= k) p = Some (inl b, p') -> exists a p1, m p = Some (inl a, p1) /\ k a p1 = Some (inl b, p').
Proof. unfold mbind, X_bind. destruct (m p) as [[[a|e] p1]|]; try discriminate. intros H. by exists a, p1. Qed.
Lemma X_bind_run {A B} (m : X A) (k : A -> X B) p a p1 : m p = Some (inl a, p1) -> (m ≫= k) p = k a p1.
Proof. intros H. unfold mbind, X_bind. by rewrite H. Qed.

Definition with_calls (l : list pcall) (p : proc) : proc := p <| pr_calls := l |>.
Definition with_config (k : start_config) (p : proc) : proc := p <| pr_config := k |>.
Definition with_creds (c : creds) (p : proc) : proc := p <| pr_creds := c |>.

Section Facts.
Context `{sys : ProcSys}.

Lemma with_calls_id p : with_calls (pr_calls p) p = p.
Proof. by destruct p. Qed.
Lemma with_creds_id c p : pr_creds p = c -> with_creds c p = p.
Proof. intros <-. by destruct p. Qed.

(** A run that only adds to the calls, up to the ids [c]. *)
Definition adds (p : proc) (c : creds) (l : list pcall) : proc := with_calls (pr_calls p ++ l) (with_creds c p).

Lemma adds_none p : adds p (pr_creds p) [] = p.
Proof. unfold adds. by rewrite app_nil_r, with_creds_id, with_calls_id by done. Qed.
Lemma adds_adds p c l c' l' : adds (adds p c l) c' l' = adds p c' (l ++ l').
Proof. unfold adds. cbn. by rewrite app_assoc. Qed.
Lemma adds_creds p c l : pr_creds (adds p c l) = c.
Proof. reflexivity. Qed.
Lemma adds_calls p c l : pr_calls (adds p c l) = pr_calls p ++ l.
Proof. reflexivity. Qed.
Lemma adds_config p c l : pr_config (adds p c l) = pr_config p.
Proof. reflexivity. Qed.

Lemma ask_bind {A B} (f : list pcall -> A) call (k : A -> X B) p :
  (ask f call ≫= k) p = k (f (pr_calls p)) (adds p (pr_creds p) [call (f (pr_calls p))]).
Proof. unfold adds. by rewrite with_creds_id. Qed.
Lemma set_creds_bind {B} f call (k : Z -> X B) p :
  (set_creds f call ≫= k) p = k (fst (f (pr_calls p) (pr_creds p))) (adds p (snd (f (pr_calls p) (pr_creds p))) [call (fst (f (pr_calls p) (pr_creds p)))]).
Proof. reflexivity. Qed.
Lemma mk_err_run t p : mk_err t p = Some (inl tt, adds p (pr_creds p) [PPrint MK_ERR t]).
Proof. unfold adds. by rewrite with_creds_id. Qed.
Lemma err_if_run b t p : err_if b t p = Some (inl tt, adds p (pr_creds p) (if b : bool then [PPrint MK_ERR t] else [])).
Proof. destruct b; [apply mk_err_run|]. by rewrite adds_none. Qed.
Lemma warn_if_run b t p : warn_if b t p = Some (inl tt, adds p (pr_creds p) (if b : bool then [PPrint MK_WARN t] else [])).
Proof. destruct b; [unfold adds; by rewrite with_creds_id|]. by rewrite adds_none. Qed.

(** The steps that ask the system or print. *)
Ltac call_step :=
  first [ rewrite ask_bind | rewrite set_creds_bind | erewrite X_bind_run by apply warn_if_run | erewrite X_bind_run by apply err_if_run ];
  cbv beta; rewrite ?adds_adds, ?adds_creds, ?adds_calls.

(** The ids of a user. *)
Definition user_ids (uid gid : Z) : creds := {| ruid := uid; euid := uid; suid := uid; rgid := gid; egid := gid; sgid := gid |}.

Definition gid_message (gid : Z) : pcall := PPrint MK_ERR (lit "I cannot change the GID to " ++ dec gid).
Definition uid_message (uid : Z) : pcall := PPrint MK_ERR (lit "I cannot change the UID to " ++ dec uid).

(** The ids [c'] that the change from [c] gives, with what was called: each of the
    two calls succeeds and sets its ids, or fails and is reported. *)
Definition changed (uid gid : Z) (c c' : creds) (l : list pcall) : Prop :=
  exists g u : bool,
    c' = {| ruid := if u then uid else ruid c; euid := if u then uid else euid c; suid := if u then uid else suid c;
            rgid := if g then gid else rgid c; egid := if g then gid else egid c; sgid := if g then gid else sgid c |} /\
    PSetgid gid (if g then 0 else -1) ∈ l /\ PSetuid uid (if u then 0 else -1) ∈ l /\
    (g = false -> gid_message gid ∈ l) /\ (u = false -> uid_message uid ∈ l).

Lemma change_ids_run `{!CredLaws sys} uid gid p :
  euid (pr_creds p) = 0 -> exists c l, changed uid gid (pr_creds p) c l /\ change_ids uid gid p = Some (inl tt, adds p c l).
Proof.
  intros H0. unfold change_ids. call_step.
  destruct (setgid_root (pr_calls p) (pr_creds p) gid H0) as [Hg|Hg]; rewrite Hg; cbn [fst snd]; do 2 call_step.
  - destruct (setuid_root (pr_calls p ++ [PSetgid gid 0] ++ []) {| ruid := ruid (pr_creds p); euid := euid (pr_creds p);
      suid := suid (pr_creds p); rgid := gid; egid := gid; sgid := gid |} uid H0) as [Hs|Hs]; cbn [app Z.eqb] in *; rewrite Hs; cbn [fst snd];
      rewrite err_if_run, adds_adds, adds_creds; eexists _, _; (split; [|reflexivity]).
    + exists true, true. split_and!; [done|set_solver|set_solver|done|done].
    + exists true, false. split_and!; [done|set_solver|set_solver|done|]. intros _. unfold uid_message. set_solver.
  - match goal with |- context [sys_setuid ?t ?c uid] => destruct (setuid_root t c uid H0) as [Hs|Hs]; rewrite Hs end; cbn [fst snd];
      rewrite err_if_run, adds_adds, adds_creds; eexists _, _; (split; [|reflexivity]).
    + exists false, true. split_and!; [done|set_solver|set_solver| |done]. intros _. unfold gid_message. set_solver.
    + exists false, false. split_and!; [by destruct (pr_creds p)|set_solver|set_solver| |]; intros _; unfold gid_message, uid_message; set_solver.
Qed.

Lemma changed_more uid gid c c' l l' : changed uid gid c c' l -> changed uid gid c c' (l' ++ l).
Proof. intros (g & u & H & H1 & H2 & H3 & H4). exists g, u. split_and!; [done|..]; try intros E; apply elem_of_app; right; auto. Qed.

Lemma changed_less uid gid c c' l l' : changed uid gid c c' l -> changed uid gid c c' (l ++ l').
Proof. intros (g & u & H & H1 & H2 & H3 & H4). exists g, u. split_and!; [done|..]; try intros E; apply elem_of_app; left; auto. Qed.

Lemma become_user_run `{!CredLaws sys} user name uid gid p :
  euid (pr_creds p) = 0 -> cstr user = Some name -> sys_getpw name = Some (uid, gid) ->
  exists c l, changed uid gid (pr_creds p) c l /\
    become_user user p = Some (inl tt, adds p c l <| pr_config := pr_config p <| k_is_seteuid := MK_TRUE |> |>).
Proof.
  intros H0 Hn Hu. unfold become_user. do 4 call_step.
  rewrite Hn. erewrite X_bind_run by reflexivity. rewrite Hu. do 2 call_step.
  match goal with |- context [adds p (pr_creds p) ?l] => set (pre := l); clearbody pre end.
  destruct (change_ids_run uid gid (adds p (pr_creds p) pre) H0) as (c & l & Hl & Hr). erewrite X_bind_run by exact Hr.
  exists c, (pre ++ l). split; [by apply changed_more|]. by rewrite adds_adds.
Qed.

(** A user that is not root cannot go back to be root. *)
Lemma mk_user_undo_refused `{!CredLaws sys} uid gid p :
  pr_creds p = user_ids uid gid -> uid <> 0 -> gid <> 0 ->
  exists l, mk_user_undo_uidgid p = Some (inl 0, adds p (pr_creds p) l).
Proof.
  intros Hc Hu Hg. unfold mk_user_undo_uidgid. erewrite X_bind_run by reflexivity.
  case_if; [|exists []; by rewrite adds_none].
  assert (Hr : exists l, restore_ids p = Some (inl tt, adds p (pr_creds p) l)).
  { unfold restore_ids. rewrite Hc. call_step. rewrite Hc, setegid_refused by (cbn; congruence). cbn [fst snd]. call_step. call_step.
    rewrite seteuid_refused by (cbn; congruence). cbn [fst snd].
    rewrite err_if_run, adds_adds, adds_creds. eexists. reflexivity. }
  destruct Hr as (l & Hr). exists l. by erewrite X_bind_run by exact Hr.
Qed.

(** The account of the configured user. *)
Definition account (k : start_config) : option (Z * Z) := user ← k_user k; name ← cstr user; sys_getpw name.

(** What the change of user of a process of root leads to. *)
Definition dropped (p p' : proc) : Prop :=
  match account (pr_config p) with
  | Some (uid, gid) =>
    exists l, pr_calls p' = pr_calls p ++ l /\ changed uid gid (pr_creds p) (pr_creds p') l /\ pr_config p' = pr_config p <| k_is_seteuid := MK_TRUE |>
  | None => pr_creds p' = pr_creds p /\ pr_config p' = pr_config p
  end.

Lemma set_uidgid_run `{!CredLaws sys} p :
  euid (pr_creds p) = 0 -> match k_user (pr_config p) with Some user => is_Some (cstr user) | None => True end ->
  exists p', mk_user_set_uidgid p = Some (inl 0, p') /\ dropped p p' /\ pr_EUID p' = euid (pr_creds p') /\ pr_EGID p' = egid (pr_creds p').
Proof.
  intros H0 Hu. unfold mk_user_set_uidgid, dropped, account. do 2 (erewrite X_bind_run by reflexivity).
  destruct (k_user (pr_config p)) as [user|]; [|eexists; split; [reflexivity|done]].
  destruct Hu as (name & Hn). rewrite H0. cbn [Z.eqb mbind option_bind]. rewrite Hn. cbn [mbind option_bind].
  destruct (sys_getpw name) as [[uid gid]|] eqn:E.
  - destruct (become_user_run user name uid gid p H0 Hn E) as (c & l & Hl & Hr). erewrite X_bind_run by exact Hr.
    eexists. split; [reflexivity|]. split; [|done]. exists l. done.
  - assert (Hr : exists l, become_user user p = Some (inl tt, adds p (pr_creds p) l)).
    { unfold become_user. do 4 call_step. rewrite Hn. erewrite X_bind_run by reflexivity. rewrite E.
      rewrite mk_err_run, adds_adds, adds_creds. eexists. reflexivity. }
    destruct Hr as (l & Hr). erewrite X_bind_run by exact Hr. eexists. split; [reflexivity|done].
Qed.

(** C6: what becomes of a server that root starts. With a known user each
    of setgid and setuid either succeeds and sets the three ids of its kind, or fails,
    changes nothing and is only reported; in both cases the server goes on. Where both
    succeeded, to ids other than 0, it cannot be root again: the attempt to take
    the ids back when it ends changes nothing. With an unknown user, or none, it
    goes on as root. *)
Theorem privileges_dropped `{!CredLaws sys} p :
  euid (pr_creds p) = 0 -> match k_user (pr_config p) with Some user => is_Some (cstr user) | None => True end ->
  exists p', mk_user_set_uidgid p = Some (inl 0, p') /\
    pr_EUID p' = euid (pr_creds p') /\ pr_EGID p' = egid (pr_creds p') /\
    match account (pr_config p) with
    | Some (uid, gid) =>
      (exists l, pr_calls p' = pr_calls p ++ l /\ changed uid gid (pr_creds p) (pr_creds p') l) /\
      (pr_creds p' = user_ids uid gid -> uid <> 0 -> gid <> 0 -> forall q, pr_creds q = pr_creds p' ->
       exists q', mk_user_undo_uidgid q = Some (inl 0, q') /\ pr_creds q' = pr_creds q)
    | None => pr_creds p' = pr_creds p
    end.
Proof.
  intros H0 Hu. destruct (set_uidgid_run p H0 Hu) as (p' & Hr & Ha & He & Hg). exists p'. split; [exact Hr|]. do 2 (split; [assumption|]).
  unfold dropped in Ha. destruct (account (pr_config p)) as [[uid gid]|]; [|by destruct Ha].
  destruct Ha as (l & Hl & Hc & _). split; [by exists l|]. intros Hids Hu0 Hg0 q Hq.
  destruct (mk_user_undo_refused uid gid q) as (l' & Hundo); [congruence|done|done|]. by exists (adds q (pr_creds q) l').
Qed.

(** A call to the system that has an answer. *)
Lemma ask_inv {A} (f : list pcall -> A) c p a p1 : ask f c p = Some (inl a, p1) -> a = f (pr_calls p) /\ p1 = with_calls (pr_calls p ++ [c a]) p.
Proof. unfold ask, mbind, X_bind, getX, record_call, modX, mret, X_ret. intros H. by injection H as <- <-. Qed.

Lemma set_pid_status_inv b p u p1 : set_pid_status b p = Some (inl u, p1) -> p1 = with_config (pr_config p <| k_pid_status := b |>) p.
Proof. unfold set_pid_status, modX. intros H. injection H as _ <-. reflexivity. Qed.
Lemma calls_calls l l' p : with_calls l (with_calls l' p) = with_calls l p.
Proof. reflexivity. Qed.
Lemma creds_calls l p : pr_creds (with_calls l p) = pr_creds p.
Proof. reflexivity. Qed.
Lemma config_calls l p : pr_config (with_calls l p) = pr_config p.
Proof. reflexivity. Qed.

(** A process that has registered locked the file of its port and wrote its id
    to it. *)
Lemma register_pid_inv p r p' :
  mk_utils_register_pid p = Some (inl r, p') -> k_pid_status (pr_config p) <> MK_TRUE ->
  r = 0 /\ exists path l fd r0 pid,
    let l := l ++ [POpen path fd; PLock fd r0] in
    pid_path (pr_config p) = Some path /\ 0 <= fd /\ 0 <= r0 /\ pid = sys_getpid l /\
    p' = with_config (pr_config p <| k_pid_status := MK_TRUE |>) (with_calls (l ++ [PWrite fd (dec pid) (Z.of_nat (length (dec pid)))]) p).
Proof.
  intros H Hs. unfold mk_utils_register_pid in H. apply X_bind_inv in H as (k & p1 & Hk & H). injection Hk as <- <-.
  destruct (Z.eqb_spec (k_pid_status (pr_config p)) MK_TRUE) as [?|_]; [done|].
  apply X_bind_inv in H as (path & p1 & Hp & H). unfold liftX in Hp. destruct (pid_path _) as [path0|] eqn:Ep; [|discriminate].
  cbn [mbind option_bind] in Hp. injection Hp as <- <-.
  apply X_bind_inv in H as (b & p1 & Hb & H). apply ask_inv in Hb as [_ ->].
  apply X_bind_inv in H as (b1 & p1 & Hb & H).
  assert (Hq : exists l, p1 = with_calls l p).
  { destruct b; [apply ask_inv in Hb as [_ ->]; eexists; reflexivity|]. injection Hb as _ <-. eexists; reflexivity. }
  destruct Hq as (l & ->). clear Hb b b1.
  apply X_bind_inv in H as (fd & p1 & Hb & H). apply ask_inv in Hb as [_ ->].
  destruct (fd <? 0) eqn:Ef; [discriminate H|].
  apply X_bind_inv in H as (r0 & p1 & Hb & H). apply ask_inv in Hb as [_ ->].
  destruct (r0 <? 0) eqn:Er; [discriminate H|].
  apply X_bind_inv in H as (pid & p1 & Hb & H). injection Hb as <- <-.
  apply X_bind_inv in H as (n & p1 & Hb & H). apply ask_inv in Hb as [_ ->].
  destruct (n =? _) eqn:En; [|discriminate H]. cbn [negb] in H.
  apply X_bind_inv in H as (u & p1 & Hb & H). apply set_pid_status_inv in Hb as ->. injection H as <- <-. zbool.
  split; [done|]. exists path0, l, fd, r0, (sys_getpid (l ++ [POpen path0 fd; PLock fd r0])). cbn zeta.
  change (pr_calls (with_calls ?l _)) with l. rewrite !calls_calls, En, <- !app_assoc. done.
Qed.
End Facts.

(** ** Examples *)

(** The calls of Linux on ids: a process that is not root may take the ids it
    has. [refuse] fails before that, as for a limit that is reached. *)
Definition linux_set (root other : creds -> Z -> creds) (own : creds -> Z -> bool) (refuse : bool) (t : list pcall) (c : creds) (i : Z) : Z * creds :=
  if refuse then (-1, c) else if euid c =? 0 then (0, root c i) else if own c i then (0, other c i) else (-1, c).
Definition set_egid (c : creds) (g : Z) : creds :=
  {| ruid := ruid c; euid := euid c; suid := suid c; rgid := rgid c; egid := g; sgid := sgid c |}.
Definition set_euid (c : creds) (u : Z) : creds :=
  {| ruid := ruid c; euid := u; suid := suid c; rgid := rgid c; egid := egid c; sgid := sgid c |}.
Definition own_group (c : creds) (g : Z) : bool := (g =? rgid c) || (g =? egid c) || (g =? sgid c).
Definition own_user (c : creds) (u : Z) : bool := (u =? ruid c) || (u =? euid c) || (u =? suid c).

Definition linux_proc (refuse : bool) : ProcSys :=
  {| sys_exists := fun _ _ => false; sys_unlink := fun _ _ => 0; sys_open_pid := fun _ _ => 9; sys_setlk := fun _ _ => 0;
     sys_write := fun _ _ data => Z.of_nat (length data); sys_fork := fun _ => 0; sys_getpid := fun _ => 100;
     sys_getrlimit := fun _ => 0; sys_setrlimit := fun _ => 0; sys_initgroups := fun _ => 0; sys_siglist := fun _ => [];
     sys_chdir := fun _ _ => 0; sys_pthread_create := fun _ => 0;
     sys_getpw := fun name => if bool_decide (name = lit "www") then Some (33, 33) else None;
     sys_setgid := linux_set (fun c g => {| ruid := ruid c; euid := euid c; suid := suid c; rgid := g; egid := g; sgid := g |}) set_egid own_group refuse;
     sys_setuid := linux_set (fun c u => {| ruid := u; euid := u; suid := u; rgid := rgid c; egid := egid c; sgid := sgid c |}) set_euid own_user refuse;
     sys_setegid := linux_set set_egid set_egid own_group refuse; sys_seteuid := linux_set set_euid set_euid own_user refuse |}.
Definition example_proc : ProcSys := linux_proc false.

#[export] Instance linux_laws refuse : CredLaws (linux_proc refuse).
Proof.
  split; intros t c i H; cbn; unfold linux_set.
  - destruct refuse; [by right|]. rewrite H. by left.
  - destruct refuse; [by right|]. rewrite H. by left.
  - intros. destruct refuse; [done|]. replace (euid c =? 0) with false by zb. unfold own_user.
    by replace ((i =? ruid c) || (i =? euid c) || (i =? suid c)) with false by zb.
  - intros. destruct refuse; [done|]. replace (euid c =? 0) with false by zb. unfold own_group.
    by replace ((i =? rgid c) || (i =? egid c) || (i =? sgid c)) with false by zb.
Qed.

Definition www_process : proc :=
  {| pr_creds := user_ids 0 0; pr_EUID := 0; pr_EGID := 0; pr_config := zero_config <| k_user := Some (clit "www") |>;
     pr_world := example_world; pr_calls := [] |}.

Lemma privileges_dropped_witness :
  let _ := example_proc in
  exists p', mk_user_set_uidgid www_process = Some (inl 0, p') /\ pr_EUID p' = euid (pr_creds p') /\ pr_EGID p' = egid (pr_creds p') /\
    (exists l, pr_calls p' = [] ++ l /\ changed 33 33 (user_ids 0 0) (pr_creds p') l) /\
    (pr_creds p' = user_ids 33 33 -> 33 <> 0 -> 33 <> 0 -> forall q, pr_creds q = pr_creds p' ->
     exists q', mk_user_undo_uidgid q = Some (inl 0, q') /\ pr_creds q' = pr_creds q).
Proof.
  apply (@privileges_dropped example_proc (linux_laws false) www_process); [reflexivity|]. eexists. vm_compute. reflexivity.
Defined.

(** Both calls are refused: the server stays root, and says that it changed. *)
Example refused_user :
  match @mk_user_set_uidgid (linux_proc true) www_process with
  | Some (inl r, p') => Some (r, pr_creds p', k_is_seteuid (pr_config p'))
  | _ => None
  end = Some (0, user_ids 0 0, MK_TRUE).
Proof. vm_compute. reflexivity. Qed.

(** A user without an account: the server stays root. *)
Example unknown_user :
  match @mk_user_set_uidgid example_proc (www_process <| pr_config := zero_config <| k_user := Some (clit "web") |> |>) with
  | Some (inl r, p') => Some (r, euid (pr_creds p'), k_is_seteuid (pr_config p'))
  | _ => None
  end = Some (0, 0, 0).
Proof. vm_compute. reflexivity. Qed.
