(* ===== verification/MkMain.v ===== *)
(** * The server program (monkey.c)

    The options of the command line and the steps from there to the server loop. *)
From S2P Require Import Prelude CString MkString MkMemory MkUtils MkTypes MkPlugin MkScheduler MkConfig MkFile MkResponse MkEpoll MkClock MkNetIO Liana MkStart MkLoad MkLib MkProcess.
Local Open Scope Z_scope.

(** Versions and texts of the build: [__MONKEY__] and the like, the date, the
    compiler, the directory of the configuration. *)
Class Build := {
  monkey_version : Z * Z * Z;
  MONKEY_BUILT : bytes;
  CC : bytes;
  gnuc_version : Z * Z * Z;
  build_path_conf : bytes
}.

Definition setX (k : start_config) : X unit := modX (with_config k).
Definition printfX (text : bytes) : X unit := record_call (PPrintf text).

Section Main.
Context `{env : Env} `{start : StartSys} `{sys : ProcSys} `{sock : SockSys} `{loc : LocalTime} `{build : Build}.
Variable dlopen : bytes -> option library.

(** [%i.%i.%i] *)
Definition version_text (v : Z * Z * Z) : bytes := let '(a, b, c) := v in dec a ++ lit "." ++ dec b ++ lit "." ++ dec c.

Definition mk_version : X unit :=
  printfX (lit "Monkey HTTP Daemon " ++ version_text monkey_version ++ [10]);;
  printfX (lit "Built : " ++ MONKEY_BUILT ++ lit " (" ++ CC ++ lit " " ++ version_text gnuc_version ++ lit ")" ++ [10]);;
  printfX (lit "Home  : http://monkey-project.com" ++ [10]).

Definition mk_help {A} (rc : Z) : X A :=
  printfX (lit "Usage : monkey [-c directory] [-D] [-v] [-h]" ++ [10; 10]);;
  printfX (BOLD ++ lit "Available options" ++ RESET ++ [10]);;
  printfX (lit "  -c, --confdir=DIR" ++ [9] ++ lit "specify configuration files directory" ++ [10]);;
  printfX (lit "  -D, --daemon" ++ [9; 9] ++ lit "run Monkey as daemon (background mode)" ++ [10]);;
  printfX (lit "  -v, --version" ++ [9; 9] ++ lit "show version number" ++ [10]);;
  printfX (lit "  -h, --help" ++ [9; 9] ++ lit "print this help" ++ [10; 10]);;
  printfX (BOLD ++ lit "Documentation" ++ RESET ++ [10]);;
  printfX (lit "  http://www.monkey-project.com/documentation" ++ [10; 10]);;
  exit rc.

Definition mk_details (ld : loader) : X unit :=
  pid ← getpid; k ← getX pr_config;
  printfX (lit "* Process ID is " ++ dec pid);;
  printfX ([10] ++ lit "* Server socket listening on Port " ++ dec (k_serverport k));;
  printfX ([10] ++ lit "* " ++ dec (k_workers k) ++ lit " threads, " ++ dec (i32 (k_worker_capacity k)) ++
           lit " client connections per thread, total " ++ dec (i32 (k_workers k * k_worker_capacity k)) ++ [10]);;
  p ← liftX (i ← reg_netio (ld_reg ld); ld_plugins ld !! i);
  name ← liftX (cstr (pl_shortname (lp_plugin p))); transport ← liftX (cstr (k_transport k));
  printfX (lit "* Transport layer by " ++ name ++ lit " in " ++ transport ++ lit " mode" ++ [10]).

(** What [getopt_long] returns, with [optarg]. *)
Fixpoint read_args (args : list (Z * bytes)) (run_daemon : bool) (file_config : option bytes) : X (bool * option bytes) :=
  match args with
  | [] => mret (run_daemon, file_config)
  | (opt, optarg) :: args =>
    if opt =? 118 then mk_version;; exit EXIT_SUCCESS
    else if opt =? 104 then mk_help EXIT_SUCCESS
    else if opt =? 68 then read_args args true file_config
    else if opt =? 99 then read_args args run_daemon (Some optarg)
    else if opt =? 63 then printfX (lit "Monkey: Invalid option or option needs an argument." ++ [10]);; mk_help EXIT_FAILURE
    else read_args args run_daemon file_config
  end.

(** The socket of the transport plugin; a failure ends the process. *)
Definition server_socket (ld : loader) (k : start_config) : X Z :=
  p ← liftX (i ← reg_netio (ld_reg ld); ld_plugins ld !! i);
  server ← liftX (np_server (lp_net_io p));
  socket_fd ← worldX (server (k_serverport k) (k_listen_addr k));
  if socket_fd <? 0 then exit EXIT_FAILURE else mret socket_fd.

(** The workers, and the wait until each has registered its node: [threads] are
    the epoll descriptors of the threads that could be made. With one missing
    the wait never ends. *)
Definition mk_server_launch_workers (threads : list (option Z)) (k : start_config) : option (list sched_list_node) :=
  l ← mapM id (take (Z.to_nat (k_workers k)) threads);
  if negb (Z.of_nat (length l) =? k_workers k) then None
  else Some (imap (fun i efd => mk_sched_register_thread (Z.to_nat (k_worker_capacity k)) (Z.of_nat i) efd <| sl_initialized := 1 |>) l).

(** From the options to the file with the process id. *)
Definition main_register (args : list (Z * bytes)) : X loader :=
  '(run_daemon, file_config) ← read_args args false None;
  setX (zero_config <| k_file_config := default build_path_conf file_config |>
                    <| k_is_daemon := if (run_daemon : bool) then MK_TRUE else MK_FALSE |>);;
  mk_version;;
  mk_signal_init;;
  k ← getX pr_config; '(k, _) ← liftX (mk_config_start_configure k); setX k;;
  _ ← liftX (mk_sched_init (k_workers k));
  ld ← liftX (mk_plugin_read_config dlopen k mk_plugin_init);
  fd ← server_socket ld k; setX (k <| k_server_fd := fd |>);;
  _ ← (if k_is_daemon k =? MK_TRUE then mk_utils_set_daemon else mret 0);
  _ ← mk_utils_register_pid;
  mret ld.

(** From there to the workers: what the loop is given. [now] are the two
    readings of the clock. *)
Definition main_start (args : list (Z * bytes)) (now : Z * Z) (threads : list (option Z)) : X (loader * (Z * clock) * list sched_list_node) :=
  ld ← main_register args;
  clk ← liftX (mk_clock_sequential_init (fst now) (snd now));
  mk_utils_worker_spawn;;
  _ ← mk_user_set_uidgid;
  k ← getX pr_config; k ← worldX (mk_config_sanity_check k); setX k;;
  mk_details ld;;
  let ld := mk_plugin_core_process ld in
  nodes ← liftX (mk_server_launch_workers threads k);
  mret (ld, clk, nodes).

(** [rounds] rounds of the server loop, which does not end. *)
Definition main (plg_netiomap : plugin_network_io M) (args : list (Z * bytes)) (now : Z * Z) (threads : list (option Z)) (rounds : nat) :
    X (list sched_list_node) :=
  '(_, _, nodes) ← main_start args now threads;
  k ← getX pr_config;
  worldX (mk_server_loop plg_netiomap rounds (k_server_fd k) nodes).
End Main.

(** ** What the steps leave as it is *)

(** A computation that only adds to the calls, and one that also keeps the
    configuration. *)
Definition logs {A} (m : X A) : Prop := forall p a p', m p = Some (inl a, p') -> pr_calls p `prefix_of` pr_calls p'.
Definition quiet {A} (m : X A) : Prop := forall p a p', m p = Some (inl a, p') -> exists l, p' = with_calls (pr_calls p ++ l) p.

Create HintDb frame.

Lemma logs_bind {A B} (m : X A) (k : A -> X B) : logs m -> (forall a, logs (k a)) -> logs (m ≫= k).
Proof. intros Hm Hk p b p' H. apply X_bind_inv in H as (a & p1 & H1 & H2). etrans; [exact (Hm _ _ _ H1)|exact (Hk _ _ _ _ H2)]. Qed.
Lemma logs_mod f : (forall p, pr_calls (f p) = pr_calls p) -> logs (modX f).
Proof. intros Hf p a p' H. injection H as _ <-. by rewrite Hf. Qed.
Lemma logs_quiet {A} (m : X A) : quiet m -> logs m.
Proof. intros Hm p a p' H. destruct (Hm _ _ _ H) as (l & ->). by exists l. Qed.

Lemma quiet_bind {A B} (m : X A) (k : A -> X B) : quiet m -> (forall a, quiet (k a)) -> quiet (m ≫= k).
Proof.
  intros Hm Hk p b p' H. apply X_bind_inv in H as (a & p1 & H1 & H2). apply Hm in H1 as (l1 & ->). apply Hk in H2 as (l2 & ->).
  exists (l1 ++ l2). cbn. by rewrite app_assoc.
Qed.
Lemma quiet_id {A} (m : X A) : (forall p a p', m p = Some (inl a, p') -> p' = p) -> quiet m.
Proof. intros Hm p a p' H. apply Hm in H as ->. exists []. by rewrite app_nil_r, with_calls_id. Qed.
Lemma quiet_ret {A} (a : A) : quiet (mret a).
Proof. apply quiet_id. intros p b p' H. by injection H as _ <-. Qed.
Lemma quiet_exit {A} c : quiet (exit (A := A) c).
Proof. by intros p a p' H. Qed.
Lemma quiet_get {A} (f : proc -> A) : quiet (getX f).
Proof. apply quiet_id. intros p b p' H. by injection H as _ <-. Qed.
Lemma quiet_call c : quiet (record_call c).
Proof. intros p a p' H. injection H as _ <-. by exists [c]. Qed.
Lemma quiet_lift {A} (o : option A) : quiet (liftX o).
Proof. apply quiet_id. intros p b p' H. unfold liftX in H. destruct o; [|discriminate]. by injection H as _ <-. Qed.
#[export] Hint Resolve quiet_bind quiet_ret quiet_exit quiet_get quiet_call quiet_lift logs_bind logs_quiet : frame.
#[export] Hint Extern 2 (quiet (if ?b then _ else _)) => destruct b : frame.
#[export] Hint Extern 2 (logs (if ?b then _ else _)) => destruct b : frame.
#[export] Hint Extern 1 (logs (modX _)) => apply logs_mod; intros ?; reflexivity : frame.

Section Facts.
Context `{env : Env} `{start : StartSys} `{sys : ProcSys} `{sock : SockSys} `{loc : LocalTime} `{build : Build}.
Variable dlopen : bytes -> option library.

Lemma quiet_ask {A} (f : list pcall -> A) c : quiet (ask f c).
Proof. unfold ask. auto with frame. Qed.
#[local] Hint Resolve quiet_ask : frame.
Ltac quiet := repeat (apply quiet_bind; [auto with frame|intros]); auto with frame.

Lemma quiet_version : quiet mk_version.
Proof. unfold mk_version, printfX. quiet. Qed.
Lemma quiet_details ld : quiet (mk_details ld).
Proof. unfold mk_details, printfX, getpid. quiet. Qed.
Lemma quiet_signal_init : quiet mk_signal_init.
Proof. unfold mk_signal_init. quiet. Qed.
Lemma quiet_daemon : quiet mk_utils_set_daemon.
Proof. unfold mk_utils_set_daemon, mk_err, mk_info. quiet. repeat case_if; quiet. Qed.
Lemma quiet_spawn : quiet mk_utils_worker_spawn.
Proof. unfold mk_utils_worker_spawn. quiet. Qed.
Lemma quiet_args args : forall d f, quiet (read_args args d f).
Proof.
  induction args as [|[opt optarg] args IH]; intros d f; cbn [read_args]; [auto with frame|].
  pose proof quiet_version. repeat case_if; unfold mk_help, printfX; auto; quiet.
Qed.
#[local] Hint Resolve quiet_version quiet_details quiet_signal_init quiet_daemon quiet_spawn quiet_args : frame.

Lemma logs_set_creds f call : logs (set_creds f call).
Proof. intros p a p' H. unfold set_creds, mbind, X_bind, getX, record_call, modX, mret, X_ret in H. injection H as _ <-. by apply prefix_app_r. Qed.
#[local] Hint Resolve logs_set_creds : frame.
Ltac logs := repeat (apply logs_bind; [auto with frame|intros]); auto with frame.

Lemma logs_set_uidgid : logs mk_user_set_uidgid.
Proof.
  unfold mk_user_set_uidgid. apply logs_bind; [auto with frame|intros c]. apply logs_bind; [auto with frame|intros k].
  apply logs_bind; [|intros _; logs].
  destruct (k_user k) as [user|]; [|auto with frame]. case_if; [|auto with frame].
  unfold become_user, change_ids, warn_if, err_if, mk_err, mk_warn. logs.
  destruct (sys_getpw _) as [[u g]|]; logs.
Qed.

(** A user's name that cannot be read ends the change of user. *)
Lemma set_uidgid_inv p r p' : mk_user_set_uidgid p = Some (inl r, p') -> euid (pr_creds p) = 0 ->
  match k_user (pr_config p) with Some user => is_Some (cstr user) | None => True end.
Proof.
  intros H H0. unfold mk_user_set_uidgid in H. apply X_bind_inv in H as (c & p1 & Hc & H). injection Hc as <- <-.
  apply X_bind_inv in H as (k & p1 & Hc & H). injection Hc as <- <-. apply X_bind_inv in H as (u & p1 & Hu & _).
  destruct (k_user (pr_config p)) as [user|]; [|done]. rewrite H0 in Hu. cbn [Z.eqb] in Hu.
  unfold become_user in Hu. do 4 (apply X_bind_inv in Hu as (? & ? & _ & Hu)).
  apply X_bind_inv in Hu as (name & ? & Hn & _). unfold liftX in Hn. destruct (cstr user); [by eexists|discriminate].
Qed.

Lemma start_configure_rest k k' mimes : mk_config_start_configure k = Some (k', mimes) ->
  config_valid k' /\ k_pid_status k' = k_pid_status k.
Proof.
  intros H. destruct (start_configure_inv _ _ _ H) as (s & sw & Hs & _ & ->).
  split; [by apply config_valid_software, (read_settings_valid k)|].
  destruct (read_settings_facts _ _ Hs) as (st & hosts & _ & _ & ->). generalize (k_serverconf s). reflexivity.
Qed.

Lemma launch_workers_nodes threads k nodes : mk_server_launch_workers threads k = Some nodes ->
  Z.of_nat (length nodes) = k_workers k /\
  Forall (fun s => sl_initialized s = 1 /\ load s = 0 /\ conns_ok (Z.to_nat (k_worker_capacity k)) s) nodes.
Proof.
  unfold mk_server_launch_workers. destruct (mapM id _) as [l|]; [|discriminate]. cbn [mbind option_bind].
  destruct (Z.eqb_spec (Z.of_nat (length l)) (k_workers k)) as [Hl|]; [|discriminate]. cbn [negb]. intros H. injection H as <-.
  split; [by rewrite length_imap|]. apply Forall_lookup. intros i s Hs. rewrite list_lookup_imap in Hs.
  destruct (l !! i) as [efd|]; [|discriminate]. cbn in Hs. injection Hs as <-. split; [done|]. split; [done|].
  pose proof (mk_sched_register_thread_ok (Z.to_nat (k_worker_capacity k)) (Z.of_nat i) efd) as [H1 H2 H3]. by split.
Qed.

Ltac step H x q E := apply X_bind_inv in H as (x & q & E & H).
(** The ids [c'] from those at the start, [c]: of root and a known user, each call
    succeeded or was reported; the same otherwise. *)
Definition root_user (c c' : creds) (user : option (Z * Z)) (calls : list pcall) : Prop :=
  match user with
  | Some (uid, gid) => if euid c =? 0 then changed uid gid c c' calls else c' = c
  | None => c' = c
  end.

Lemma root_user_less c c' user calls l : root_user c c' user calls -> root_user c c' user (calls ++ l).
Proof. unfold root_user. destruct user as [[u g]|]; [|done]. case_if; [apply changed_less|done]. Qed.

(** What the server loop is given. *)
Record started (p p' : proc) (nodes : list sched_list_node) : Prop := {
  st_config : config_valid (pr_config p' <| k_open_flags := Z.lor O_RDONLY O_NONBLOCK |>);
  st_socket : 0 <= k_server_fd (pr_config p');
  st_pid : k_pid_status (pr_config p') = MK_TRUE /\
    exists path l fd r pid rest, pid_path (pr_config p') = Some path /\ 0 <= fd /\ 0 <= r /\ pid = sys_getpid (l ++ [POpen path fd; PLock fd r]) /\
      pr_calls p' = l ++ [POpen path fd; PLock fd r] ++ [PWrite fd (dec pid) (Z.of_nat (length (dec pid)))] ++ rest;
  st_user : root_user (pr_creds p) (pr_creds p') (account (pr_config p')) (pr_calls p');
  st_workers : Z.of_nat (length nodes) = k_workers (pr_config p');
  st_nodes : Forall (fun s => sl_initialized s = 1 /\ load s = 0 /\ conns_ok (Z.to_nat (k_worker_capacity (pr_config p'))) s) nodes;
}.

(** The state once the process is registered. *)
Record registered (p q : proc) : Prop := {
  rg_config : config_valid (pr_config q);
  rg_socket : 0 <= k_server_fd (pr_config q);
  rg_pid : k_pid_status (pr_config q) = MK_TRUE;
  rg_file : exists path l fd r pid, pid_path (pr_config q) = Some path /\ 0 <= fd /\ 0 <= r /\ pid = sys_getpid (l ++ [POpen path fd; PLock fd r]) /\
      pr_calls q = l ++ [POpen path fd; PLock fd r] ++ [PWrite fd (dec pid) (Z.of_nat (length (dec pid)))];
  rg_creds : pr_creds q = pr_creds p;
}.

Lemma liftX_inv {A} (o : option A) p a p' : liftX o p = Some (inl a, p') -> o = Some a /\ p' = p.
Proof. unfold liftX. destruct o; [|discriminate]. intros H. by injection H as <- <-. Qed.
Lemma setX_inv k p u p' : setX k p = Some (inl u, p') -> p' = with_config k p.
Proof. unfold setX, modX. intros H. by injection H as _ <-. Qed.
Lemma getX_inv {A} (f : proc -> A) p a p' : getX f p = Some (inl a, p') -> a = f p /\ p' = p.
Proof. unfold getX. intros H. by injection H as <- <-. Qed.
Lemma worldX_inv {A} (m : M A) p a p' : worldX m p = Some (inl a, p') ->
  exists w, m (pr_world p) = Some (a, w) /\ p' = p <| pr_world := w |>.
Proof. unfold worldX. destruct (m (pr_world p)) as [[b w]|]; [|discriminate]. intros H. injection H as <- <-. by exists w. Qed.

Lemma server_socket_inv ld k p fd p' : server_socket ld k p = Some (inl fd, p') -> 0 <= fd /\ exists w, p' = p <| pr_world := w |>.
Proof.
  intros H. unfold server_socket in H. step H pl q E. apply liftX_inv in E as [_ ->]. step H sv q E. apply liftX_inv in E as [_ ->].
  step H f q E. apply worldX_inv in E as (w & _ & ->). destruct (f <? 0) eqn:Ef; [discriminate H|]. injection H as <- <-. zbool.
  split; [done|]. by exists w.
Qed.

Lemma main_registers args p ld q : main_register dlopen args p = Some (inl ld, q) -> registered p q.
Proof.
  intros H. unfold main_register in H.
  step H r1 p1 E. apply quiet_args in E as (l & ->). destruct r1 as [run_daemon file_config].
  step H u p1 E. apply setX_inv in E as ->. step H u1 p1 E. apply quiet_version in E as (l1 & ->).
  step H u2 p1 E. apply quiet_signal_init in E as (l2 & ->).
  step H k p1 E. apply getX_inv in E as [-> ->]. step H km p1 E. apply liftX_inv in E as [Ec ->]. destruct km as [k mimes].
  apply start_configure_rest in Ec as [Hv Hs]. cbn in Hs.
  step H u3 p1 E. apply setX_inv in E as ->. step H sched p1 E. apply liftX_inv in E as [_ ->].
  step H ld1 p1 E. apply liftX_inv in E as [_ ->].
  step H fd p1 E. apply server_socket_inv in E as (Hfd & w & ->). step H u4 p1 E. apply setX_inv in E as ->.
  step H z p1 E. assert (Hq : quiet (if k_is_daemon k =? MK_TRUE then mk_utils_set_daemon else mret 0)) by auto with frame.
  apply Hq in E as (l3 & ->). clear Hq.
  step H z1 p1 E. apply register_pid_inv in E; [|cbn; rewrite Hs; discriminate].
  destruct E as (_ & path & l4 & fd1 & r & pid & Hp & H1 & H2 & H3 & ->). injection H as _ <-.
  split; cbn.
  - destruct Hv. by split.
  - done.
  - done.
  - exists path, l4, fd1, r, pid. split; [exact Hp|]. do 3 (split; [done|]). by rewrite <- app_assoc.
  - done.
Qed.

Lemma set_uidgid_other p : euid (pr_creds p) <> 0 ->
  mk_user_set_uidgid p = Some (inl 0, p <| pr_EUID := euid (pr_creds p) |> <| pr_EGID := egid (pr_creds p) |>).
Proof.
  intros H. unfold mk_user_set_uidgid. do 2 (erewrite X_bind_run by reflexivity). replace (euid (pr_creds p) =? 0) with false by zb.
  by destruct (k_user (pr_config p)).
Qed.

(** The configuration after the change of user, up to the flag of that change. *)
Lemma set_uidgid_frame `{!CredLaws sys} p r p' : mk_user_set_uidgid p = Some (inl r, p') ->
  (exists b, pr_config p' = pr_config p <| k_is_seteuid := b |>) /\ pr_calls p `prefix_of` pr_calls p' /\
  root_user (pr_creds p) (pr_creds p') (account (pr_config p)) (pr_calls p').
Proof.
  intros H. assert (Hpre := logs_set_uidgid _ _ _ H). destruct (Z.eqb_spec (euid (pr_creds p)) 0) as [H0|H0].
  - destruct (set_uidgid_run p H0 (set_uidgid_inv p r p' H H0)) as (p1 & Hr & Ha & _). rewrite Hr in H. injection H as _ <-.
    unfold dropped, root_user in *. destruct (account (pr_config p)) as [[u g]|].
    + destruct Ha as (l & Hl & Hch & Hc). split; [by eexists|]. split; [done|]. rewrite H0. cbn [Z.eqb]. rewrite Hl. by apply changed_more.
    + destruct Ha as [Hc Hk]. split; [|done]. exists (k_is_seteuid (pr_config p)). rewrite Hk. by destruct (pr_config p).
  - rewrite set_uidgid_other in H by done. injection H as _ <-. split; [|split; [done|]].
    + exists (k_is_seteuid (pr_config p)). cbn. by destruct (pr_config p).
    + unfold root_user. destruct (account _) as [[u g]|]; [|done]. by replace (euid (pr_creds p) =? 0) with false by zb.
Qed.

Lemma sanity_check_inv k w k' w' : mk_config_sanity_check k w = Some (k', w') -> exists f, k' = k <| k_open_flags := f |>.
Proof.
  unfold mk_config_sanity_check. intros H. apply bind_inv in H as (t & w1 & _ & H). apply bind_inv in H as (u & w2 & _ & H).
  destruct (-1 <? _).
  - apply bind_inv in H as (u1 & w3 & _ & H). injection H as <- _. by eexists.
  - injection H as <- _. exists (k_open_flags k). by destruct k.
Qed.

Lemma main_starts `{!CredLaws sys} args now threads p ld clk nodes q :
  main_start dlopen args now threads p = Some (inl (ld, clk, nodes), q) -> started p q nodes.
Proof.
  intros H. unfold main_start in H. step H ld1 p1 E. apply main_registers in E. rename E into R, p1 into p0.
  step H c p1 E. apply liftX_inv in E as [_ ->]. step H u p1 E. apply quiet_spawn in E as (l & ->).
  step H z p1 E. apply set_uidgid_frame in E as ((b & Hc) & (l1 & Hl1) & Hcr). rewrite config_calls, creds_calls in *.
  step H k p2 E. apply getX_inv in E as [-> ->]. step H k p2 E. apply worldX_inv in E as (w & E & ->). apply sanity_check_inv in E as (f & ->).
  step H u1 p2 E. apply setX_inv in E as ->. step H u2 p2 E. apply quiet_details in E as (l2 & ->).
  step H nd p2 E. apply liftX_inv in E as [E ->]. apply launch_workers_nodes in E. injection H as _ _ <- <-.
  destruct E as [Hn Hf]. destruct R as [H1 H2 H3 H4 H5]. set (k0 := pr_config p0) in *. clearbody k0. cbn [pr_config with_config with_calls set_field] in *.
  split; cbn; rewrite ?Hc.
  - destruct H1. by split.
  - exact H2.
  - split; [exact H3|]. destruct H4 as (path & l3 & fd & r & pid & Hp & ? & ? & Hpid & Ht).
    exists path, l3, fd, r, pid, (l ++ l1 ++ l2). split; [exact Hp|]. do 3 (split; [assumption|]).
    rewrite Hl1. change (pr_calls (with_calls ?a _)) with a. rewrite Ht, <- !app_assoc. reflexivity.
  - rewrite H5 in Hcr. exact (root_user_less _ _ _ _ l2 Hcr).
  - rewrite Hn. cbn. by rewrite Hc.
  - cbn in Hf. by rewrite Hc in Hf.
Qed.

(** C5: a server that reaches its loop runs with a configuration that is
    valid, a listening socket, the file of its port locked and holding its process
    id, and one idle node for each worker. If it was root and the configured user is
    known, setgid and setuid of that user were called, and each set its ids or
    failed and was reported; in every other case the ids are those it had. *)
Theorem main_serves `{!CredLaws sys} plg_netiomap args now threads rounds p nodes' p' :
  main dlopen plg_netiomap args now threads rounds p = Some (inl nodes', p') ->
  exists nodes q w, started p q nodes /\ p' = q <| pr_world := w |> /\
    mk_server_loop plg_netiomap rounds (k_server_fd (pr_config q)) nodes (pr_world q) = Some (nodes', w).
Proof.
  intros H. unfold main in H. step H r q E. destruct r as [[ld clk] nodes]. apply main_starts in E.
  step H k q1 E1. apply getX_inv in E1 as [-> ->]. apply worldX_inv in H as (w & Hw & ->). by exists nodes, q, w.
Qed.
End Facts.

(** ** Examples

    Root starts the server with -D and -c; the user www has id 33. *)
Definition main_files : config_text :=
  [ (lit "SERVER", [ (lit "Port", lit "80"); (lit "Workers", lit "2"); (lit "Timeout", lit "15"); (lit "KeepAlive", lit "on");
                     (lit "MaxKeepAliveRequest", lit "50"); (lit "KeepAliveTimeout", lit "5"); (lit "HideVersion", lit "on");
                     (lit "Resume", lit "on"); (lit "MaxRequestSize", lit "32"); (lit "SymLink", lit "off"); (lit "User", lit "www");
                     (lit "PidFile", lit "/run/monkey.pid"); (lit "TransportLayer", lit "liana") ]) ].
Definition main_plugins : config_text := [ (lit "PLUGINS", [ (lit "Load", lit "/lib/monkey-liana.so") ]) ].
Definition main_text (path : bytes) : option bytes :=
  if bool_decide (path = clit "/etc/monkey/monkey.conf") then Some (render (lit "    ") main_files)
  else if bool_decide (path = clit "/etc/monkey/plugins.load") then Some (render (lit "    ") main_plugins)
  else file_text path.
Definition main_system : StartSys :=
  {| fopen_read := main_text; stat_exists := fun _ => true; sys_readdir := fun _ => Some [clit "."; clit ".."; clit "default"];
     nprocs := 4; rlim_cur := 1024; VERSION := lit "1.2.0"; OS := lit "Linux" |}.
Definition main_build : Build :=
  {| monkey_version := (1, 2, 0); MONKEY_BUILT := lit "Unknown"; CC := lit "gcc"; gnuc_version := (4, 7, 2); build_path_conf := clit "/etc" |}.
Definition main_args : list (Z * bytes) := [(68, []); (99, clit "/etc/monkey")].
Definition root_process : proc :=
  {| pr_creds := user_ids 0 0; pr_EUID := 0; pr_EGID := 0; pr_config := zero_config; pr_world := example_world; pr_calls := [] |}.

#[local] Abbreviation example_main :=
  (@main example_env main_system example_proc example_sys example_local main_build lib_dlopen (@liana example_env example_sys)
     main_args (1325372400, 1325372400) [Some 4; Some 5] 3 root_process).

Lemma main_serves_witness :
  match example_main with
  | Some (inl nodes', p') =>
      exists nodes q w, started (sys := example_proc) root_process q nodes /\ p' = q <| pr_world := w |> /\
        @mk_server_loop example_env example_sys (@liana example_env example_sys) 3 (k_server_fd (pr_config q)) nodes (pr_world q) = Some (nodes', w)
  | _ => False
  end.
Proof.
  assert (Hs : match example_main with Some (inl _, _) => true | _ => false end = true) by (vm_compute; reflexivity).
  destruct example_main as [[[nodes'|c] p']|] eqn:E; try discriminate Hs.
  exact (@main_serves example_env main_system example_proc example_sys example_local main_build lib_dlopen (linux_laws false)
    (@liana example_env example_sys) main_args (1325372400, 1325372400) [Some 4; Some 5] 3 root_process nodes' p' E).
Defined.

(** Its ids at the end, and the loads of the workers. *)
Example main_user :
  match example_main with Some (inl nodes', p') => Some (map load nodes', pr_creds p', k_pid_status (pr_config p')) | _ => None end =
    Some ([2; 1], user_ids 33 33, MK_TRUE).
Proof. vm_compute. reflexivity. Qed.
