(* ===== verification/PluginState.v ===== *)
(** * A plugin with a state of its own

    Functions of a plugin run on the data the plugin keeps, for the thread or
    for all, and on the world of the worker; a plugin that ends a request may be
    called back for the socket that is closed. *)
From S2P Require Import Prelude CString MkMemory MkTypes MkEpoll MkPlugin MkScheduler MkConnection.
Local Open Scope Z_scope.

Definition P (S A : Type) : Type := S -> M (A * S).

#[export] Instance P_ret {S} : MRet (P S) := fun A x s w => Some (x, s, w).
#[export] Instance P_bind {S} : MBind (P S) := fun A B f m s w =>
  match m s w with Some (a, s, w) => f a s w | None => None end.

(** A call of the server, a partial function, and the state. *)
Definition call {S A} (m : M A) : P S A := fun s w => match m w with Some (a, w) => Some (a, s, w) | None => None end.
Definition liftP {S A} (o : option A) : P S A := fun s w => a ← o; Some (a, s, w).
Definition getP {S} : P S S := fun s w => Some (s, s, w).
Definition modP {S} (f : S -> S) : P S unit := fun s w => Some (tt, f s, w).

Lemma P_bind_run {S A B} (m : P S A) (k : A -> P S B) s w a s1 w1 :
  m s w = Some (a, s1, w1) -> (m ≫= k) s w = k a s1 w1.
Proof. intros H. unfold mbind, P_bind. now rewrite H. Qed.
Lemma call_run {S A B} (m : M A) (k : A -> P S B) s w a w1 : m w = Some (a, w1) -> (call m ≫= k) s w = k a s w1.
Proof. intros H. unfold mbind, P_bind, call. now rewrite H. Qed.
Lemma liftP_run {S A B} (o : option A) (k : A -> P S B) s w a : o = Some a -> (liftP o ≫= k) s w = k a s w.
Proof. now intros ->. Qed.

Lemma P_bind_ext {S A B} (m m' : P S A) (k : A -> P S B) s w : m s w = m' s w -> (m ≫= k) s w = (m' ≫= k) s w.
Proof. intros H. unfold mbind, P_bind. now rewrite H. Qed.
Lemma call_cases {S A B} (m : M A) (k : A -> P S B) s w :
  ((call m ≫= k) s w = None /\ m w = None) \/ exists a w1, m w = Some (a, w1) /\ (call m ≫= k) s w = k a s w1.
Proof. unfold mbind, P_bind, call. destruct (m w) as [[a w1]|]; [right; eauto|by left]. Qed.

Lemma liftP_inv {S A} (o : option A) (s : S) w a s1 w1 : liftP o s w = Some (a, s1, w1) -> s1 = s /\ w1 = w /\ o = Some a.
Proof. unfold liftP. destruct o; [|done]. now intros [= <- <- <-]. Qed.

(** A list of requests without one of them. *)
Lemma remove_NoDup (l : list nat) i : NoDup l -> NoDup (List.remove Nat.eq_dec i l) /\ forall j, j ∈ List.remove Nat.eq_dec i l <-> j ∈ l /\ j <> i.
Proof.
  intros Hl. induction Hl as [|x l Hx Hl [IH1 IH2]]; cbn.
  - split; [constructor|]. intros j. rewrite elem_of_nil. tauto.
  - destruct (Nat.eq_dec i x) as [->|Hne].
    + split; [done|]. intros j. rewrite IH2, elem_of_cons. split; [tauto|]. by intros [[-> | ?] ?].
    + split; [constructor; [rewrite IH2; tauto|done]|]. intros j. rewrite !elem_of_cons, IH2. split; [intros [-> | ?]; split; try tauto; congruence|tauto].
Qed.

(** ** Triples

    Whenever a run that starts in a state with [Pre] has a result, it ends in one
    with [Post]. *)
Definition triple {S A} (Pre : S -> Prop) (m : P S A) (Post : A -> S -> Prop) : Prop :=
  forall s w a s' w', Pre s -> m s w = Some (a, s', w') -> Post a s'.

Section Triples.
Context {S : Type}.
Implicit Types Pre : S -> Prop.

Lemma triple_ret {A} (a : A) (Post : A -> S -> Prop) : triple (Post a) (mret a) Post.
Proof. intros s w x s' w' H [= <- <- <-]. done. Qed.

Lemma triple_bind {A B} Pre (m : P S A) (k : A -> P S B) Mid Post :
  triple Pre m Mid -> (forall a, triple (Mid a) (k a) Post) -> triple Pre (m ≫= k) Post.
Proof.
  intros Hm Hk s w b s' w' H. unfold mbind, P_bind. destruct (m s w) as [[[a s1] w1]|] eqn:E; [|done].
  apply Hk. now apply (Hm s w a s1 w1).
Qed.

Lemma triple_call {A} Pre (m : M A) : triple Pre (call m) (fun _ => Pre).
Proof. intros s w a s' w' H. unfold call. destruct (m w) as [[x w1]|]; [|done]. now intros [= <- <- <-]. Qed.

(** With what the call did. *)
Lemma triple_call_run {A} Pre (m : M A) : triple Pre (call m) (fun a s => Pre s /\ exists w w', m w = Some (a, w')).
Proof. intros s w a s' w' H. unfold call. destruct (m w) as [[x w1]|] eqn:E; [|done]. intros [= <- <- <-]. eauto. Qed.

Lemma triple_lift {A} Pre (o : option A) : triple Pre (liftP o) (fun a s => Pre s /\ o = Some a).
Proof. intros s w a s' w' H. unfold liftP. destruct o; [|done]. now intros [= <- <- <-]. Qed.

Lemma triple_get Pre : triple Pre getP (fun a s => Pre s /\ a = s).
Proof. intros s w a s' w' H [= <- <- <-]. done. Qed.

Lemma triple_mod Pre f (Post : S -> Prop) : (forall s, Pre s -> Post (f s)) -> triple Pre (modP f) (fun _ => Post).
Proof. intros Hf s w a s' w' H [= <- <- <-]. now apply Hf. Qed.

Lemma triple_pre {A} Pre Pre' (m : P S A) Post : (forall s, Pre s -> Pre' s) -> triple Pre' m Post -> triple Pre m Post.
Proof. intros Hp Hm s w a s' w' H. apply Hm. now apply Hp. Qed.
Lemma triple_post {A} Pre (m : P S A) (Post Post' : A -> S -> Prop) :
  triple Pre m Post -> (forall a s, Post a s -> Post' a s) -> triple Pre m Post'.
Proof. intros Hm Hp s w a s' w' H E. apply Hp. now apply (Hm s w a s' w'). Qed.
(** A run that cannot have a result has none. *)
Lemma triple_false {A} Pre (m : P S A) s w : triple Pre m (fun _ _ => False) -> Pre s -> m s w = None.
Proof. intros Hm Hs. destruct (m s w) as [[[a s'] w']|] eqn:E; [|done]. by destruct (Hm s w a s' w' Hs E). Qed.

(** A fact of the precondition that does not depend on the state. *)
Lemma triple_fact {A} (F : Prop) Pre (m : P S A) Post : (F -> triple Pre m Post) -> triple (fun s => Pre s /\ F) m Post.
Proof. intros Hm s w a s' w' [H HF]. now apply Hm. Qed.
Lemma triple_ex {A X} (Pre : X -> S -> Prop) (m : P S A) Post : (forall x, triple (Pre x) m Post) -> triple (fun s => exists x, Pre x s) m Post.
Proof. intros Hm s w a s' w' [x H]. now apply (Hm x). Qed.
End Triples.

(** Steps of a triple whose first computation does not change the state. *)
Ltac tcall := eapply triple_bind; [apply triple_call|]; intros ?.
Ltac tlift := eapply triple_bind; [apply triple_lift|]; intros ?; apply triple_fact; intros ?.

Section WithEnv.
Context `{env : Env} {S : Type}.
(** The handler of the plugin for the end of a connection. *)
Variable hangup : Z -> P S Z.

(** mk_connection.c: [mk_conn_close], with this plugin asked before the others. *)
Definition plugin_conn_close (socket : Z) : P S Z :=
  ret ← hangup socket;
  if ret =? MK_PLUGIN_RET_EVENT_NEXT then call (mk_conn_close socket)
  else if ret =? MK_PLUGIN_RET_EVENT_OWNED then mret MK_PLUGIN_RET_CONTINUE
  else if ret =? MK_PLUGIN_RET_EVENT_CLOSE then mret (-1)
  else _ ← call (mk_sched_remove_client socket); mret 0.

(** mk_plugin.c *)
Definition plugin_http_request_end (socket : Z) : P S Z :=
  ret ← call (mk_http_request_end socket);
  if ret <? 0 then plugin_conn_close socket else mret 0.

(** What the handler preserves is preserved. *)
Lemma plugin_http_request_end_triple (Pre : S -> Prop) socket :
  (forall k, triple Pre (hangup k) (fun _ => Pre)) -> triple Pre (plugin_http_request_end socket) (fun _ => Pre).
Proof.
  intros H. unfold plugin_http_request_end, plugin_conn_close. tcall. case_if; [|apply (triple_ret _ (fun _ => Pre))].
  eapply triple_bind; [apply H|]. intros ret. case_if; [apply triple_call|].
  case_if; [apply (triple_ret _ (fun _ => Pre))|]. case_if; [apply (triple_ret _ (fun _ => Pre))|].
  tcall. apply (triple_ret _ (fun _ => Pre)).
Qed.
End WithEnv.
