(* ===== verification/LianaSsl.v ===== *)
(** * plugins/liana_ssl: the transport over MatrixSSL

    A connection is a session of the TLS library on a socket. What the library
    decrypts is kept until it is read; what it encrypts is written when the
    socket takes it. The library and the system are parameters: a call of the
    library gives its result and the session after it. *)
From stdpp Require Import gmap.
From S2P Require Import Prelude CString MkString MkMemory MkTypes MkEpoll MkPlugin MkConfig MkFile MkResponse PluginState MkNetIO.
Local Open Scope Z_scope.

(** ** The TLS library (matrixsslApi.h, version.h) *)

Class MatrixSSL := {
  ssl_t : Type;
  PS_SUCCESS : Z; PS_FAILURE : Z; PS_ARG_FAIL : Z; PS_MEM_FAIL : Z; PS_PROTOCOL_FAIL : Z; MATRIXSSL_ERROR : Z;
  MATRIXSSL_SUCCESS : Z; MATRIXSSL_REQUEST_SEND : Z; MATRIXSSL_REQUEST_RECV : Z; MATRIXSSL_REQUEST_CLOSE : Z;
  MATRIXSSL_APP_DATA : Z; MATRIXSSL_HANDSHAKE_COMPLETE : Z; MATRIXSSL_RECEIVED_ALERT : Z;
  SSL_ALERT_LEVEL_WARNING : Z; SSL_ALERT_LEVEL_FATAL : Z; SSL_ALERT_CLOSE_NOTIFY : Z; SSL_MAX_PLAINTEXT_LEN : Z;
  MATRIXSSL_VERSION : Z * Z * Z;
  matrixSslOpen : Z;
  matrixSslNewKeys : Z;
  (** of the certificate and the key file *)
  matrixSslLoadRsaKeys : bytes -> bytes -> Z;
  (** the result and the session stored, if any *)
  matrixSslNewServerSession : list event -> Z * option ssl_t;
  (** the result and the buffer stored, if any *)
  matrixSslGetReadbuf : ssl_t -> Z * option bytes * ssl_t;
  (** with the bytes the buffer for reading got; the result, and the pointer and
      the length stored, if any *)
  matrixSslReceivedData : ssl_t -> bytes -> Z * option (option bytes * Z) * ssl_t;
  matrixSslProcessedData : ssl_t -> Z * option (option bytes * Z) * ssl_t;
  (** the result and the data to send *)
  matrixSslGetOutdata : ssl_t -> Z * bytes;
  matrixSslSentData : ssl_t -> Z -> Z * ssl_t;
  (** the room of the buffer for plain data *)
  matrixSslGetWritebuf : ssl_t -> Z -> Z * ssl_t;
  (** with the plain data in that buffer *)
  matrixSslEncodeWritebuf : ssl_t -> bytes -> Z * ssl_t;
  matrixSslEncodeClosureAlert : ssl_t -> Z * ssl_t;
  (** [ssl->flags & SSL_FLAGS_FALSE_START] *)
  false_start : ssl_t -> bool
}.

(** What else the plugin asks the system: whether [errno] is EAGAIN, and what
    [pread(2)] reads of a file. *)
Class SslSys := {
  errno_again : list event -> bool;
  sys_pread : list event -> Z -> Z -> Z -> option bytes
}.

(** ** Data *)

(** [struct mk_liana_ssl] *)
Record mk_liana_ssl `{MatrixSSL} := {
  ssl : option ssl_t;
  buf_ssl : option bytes;
  buf_len : Z;
  buf_used : Z;
  handshake_complete : bool;
  need_read : bool;
  need_write : bool;
  try_false_start : bool;
  socket_fd : Z;
}.
#[export] Instance eta_mk_liana_ssl `{MatrixSSL} : Eta mk_liana_ssl := fun r =>
  {| ssl := ssl r; buf_ssl := buf_ssl r; buf_len := buf_len r; buf_used := buf_used r; handshake_complete := handshake_complete r;
     need_read := need_read r; need_write := need_write r; try_false_start := try_false_start r; socket_fd := socket_fd r |}.

(** The connections in memory and the list of the thread. *)
Record ssl_state `{MatrixSSL} := {
  sl_heap : gmap nat mk_liana_ssl;
  sl_next : nat;
  sl_list : list nat;
}.
#[export] Instance eta_ssl_state `{MatrixSSL} : Eta ssl_state := fun s =>
  {| sl_heap := sl_heap s; sl_next := sl_next s; sl_list := sl_list s |}.

(** liana_ssl.h *)
Definition MK_MATRIX_REQUIRE_MAJOR : Z := 3.
Definition MK_MATRIX_REQUIRE_MINOR : Z := 2.
Definition MK_MATRIX_REQUIRE_PATCH : Z := 0.

Abbreviation L := (P ssl_state).

Section WithEnv.
Context `{env : Env} `{sys : SockSys} `{lib : MatrixSSL} `{ssys : SslSys}.

Definition MK_LIANA_SSL_BUFFER_PLAIN : Z := SSL_MAX_PLAINTEXT_LEN.

(** ** The connections *)

Definition get_conn (i : nat) : L mk_liana_ssl := s ← getP; liftP (sl_heap s !! i).
Definition put_conn (i : nat) (c : mk_liana_ssl) : L unit := modP (fun s => s <| sl_heap := <[i := c]> (sl_heap s) |>).
Definition mod_conn (i : nat) (f : mk_liana_ssl -> mk_liana_ssl) : L unit := c ← get_conn i; put_conn i (f c).

Fixpoint find_conn (fd : Z) (l : list nat) : L (option nat) :=
  match l with
  | [] => mret None
  | i :: l => conn ← get_conn i; if fd =? socket_fd conn then mret (Some i) else find_conn fd l
  end.
Definition liana_ssl_get_connection (fd : Z) : L (option nat) := s ← getP; find_conn fd (sl_list s).

(** The session of a connection; using one that was not stored is undefined. *)
Definition session (i : nat) : L ssl_t := c ← get_conn i; liftP (ssl c).
Definition set_session (i : nat) (s : ssl_t) : L unit := mod_conn i (fun c => c <| ssl := Some s |>).

(** The pointer and the length that a call stored. *)
Definition store_out (i : nat) (out : option (option bytes * Z)) : L unit :=
  match out with
  | Some (p, n) => mod_conn i (fun c => c <| buf_ssl := p |> <| buf_len := u32 n |>)
  | None => mret tt
  end.

Definition write (fd : Z) (d : bytes) : M Z :=
  t ← gets w_trace;
  let n := sock_write t fd d in
  emit (EvWrite fd (take (Z.to_nat n) d));;
  mret n.

Definition liana_ssl_close (i : nat) : L Z :=
  s ← session i;
  let '(ret, s) := matrixSslEncodeClosureAlert s in
  set_session i s;;
  if (ret =? MATRIXSSL_ERROR) || (ret =? PS_ARG_FAIL) || (ret =? PS_MEM_FAIL) then mret (-1)
  else
    let '(len, buf_close) := matrixSslGetOutdata s in
    conn ← get_conn i;
    d ← liftP (memread buf_close (u64 len));
    ret ← call (write (socket_fd conn) d);
    if negb (i32 ret =? len) then mret (-1) else mret 0.

Definition _mkp_network_io_close (fd : Z) : L Z :=
  conn ← liana_ssl_get_connection fd;
  match conn with
  | None => mret (-1)
  | Some i => c ← get_conn i; call (emit (EvClose (socket_fd c)));; mret 0
  end.

(** ** Writing *)

(** The loop of [_mkp_event_write]: it goes on until the library has no more
    data, the socket fails, or the library is done. The result is returned at
    once, or it is whether to close. *)
Fixpoint write_loop (fuel : nat) (i : nat) (fd : Z) (should_close : bool) : L (Z + bool) :=
  match fuel with
  | O => fun _ _ => None
  | S fuel =>
    s ← session i;
    let '(ret, buf_ssl) := matrixSslGetOutdata s in
    if ret =? 0 then mod_conn i (fun c => c <| need_write := false |>);; mret (inr should_close)
    else if ret =? PS_ARG_FAIL then mret (inr true)
    else
      conn ← get_conn i;
      call (mk_socket_set_cork_flag (socket_fd conn) MK_TRUE);;
      d ← liftP (memread buf_ssl (u32 ret));
      bytes_sent ← call (write (socket_fd conn) d);
      call (mk_socket_set_cork_flag (socket_fd conn) MK_FALSE);;
      if bytes_sent =? -1 then
        t ← call (gets w_trace);
        if errno_again t then mret (inl MK_PLUGIN_RET_EVENT_CONTINUE) else mret (inr true)
      else
        let '(ret, s) := matrixSslSentData s (u32 bytes_sent) in
        set_session i s;;
        if ret =? MATRIXSSL_REQUEST_CLOSE then
          mod_conn i (fun c => c <| need_write := false |>);; write_loop fuel i fd true
        else if ret =? MATRIXSSL_REQUEST_SEND then write_loop fuel i fd should_close
        else if ret =? MATRIXSSL_HANDSHAKE_COMPLETE then
          mod_conn i (fun c => c <| handshake_complete := true |>);;
          _ ← call (mk_plugin_event_socket_change_mode (socket_fd conn) MK_EPOLL_READ MK_EPOLL_LEVEL_TRIGGERED);
          mret (inr should_close)
        else if ret =? MATRIXSSL_SUCCESS then
          mod_conn i (fun c => c <| need_write := false |>);;
          (if negb (handshake_complete conn)
           then _ ← call (mk_plugin_event_socket_change_mode fd MK_EPOLL_READ MK_EPOLL_LEVEL_TRIGGERED); mret tt else mret tt);;
          mret (inr should_close)
        else write_loop fuel i fd should_close
  end.

Definition _mkp_event_write (fuel : nat) (fd : Z) : L Z :=
  conn ← liana_ssl_get_connection fd;
  match conn with
  | None => mret MK_PLUGIN_RET_EVENT_NEXT
  | Some i =>
    c ← get_conn i;
    if negb (need_write c) then mret MK_PLUGIN_RET_EVENT_NEXT
    else
      r ← write_loop fuel i fd false;
      match r with
      | inl ret => mret ret
      | inr should_close =>
        c ← get_conn i;
        if should_close : bool then mret MK_PLUGIN_RET_EVENT_CLOSE
        else if negb (handshake_complete c) then mret MK_PLUGIN_RET_EVENT_OWNED
        else if try_false_start c then mret MK_PLUGIN_RET_EVENT_OWNED
        else mret MK_PLUGIN_RET_EVENT_NEXT
      end
  end.

(** ** Reading *)

Definition liana_ssl_handle_alert (i : nat) : L Z :=
  c ← get_conn i;
  buf ← liftP (buf_ssl c);
  alert_b0 ← liftP (buf !! 0%nat);
  _ ← liftP (buf !! 1%nat);
  let alert_b0 := i8 alert_b0 in
  mod_conn i (fun c => c <| buf_used := u32 (buf_used c + 2) |>);;
  if alert_b0 =? SSL_ALERT_LEVEL_WARNING then mret 0
  else if alert_b0 =? SSL_ALERT_LEVEL_FATAL then _ ← _mkp_network_io_close (socket_fd c); mret (-1)
  else if alert_b0 =? SSL_ALERT_CLOSE_NOTIFY then _ ← _mkp_network_io_close (socket_fd c); mret (-1)
  else mret 0.

(** The bytes copied to the buffer of the caller. *)
Definition liana_ssl_handle_remain (i : nat) (count : Z) : L bytes :=
  c ← get_conn i;
  let remain := u32 (buf_len c - buf_used c) in
  let remain := if count <? remain then count else remain in
  if (count =? 0) || (buf_len c <=? buf_used c) || (remain =? 0) then mret []
  else
    buf ← liftP (buf_ssl c);
    buf ← liftP (padd buf (buf_used c));
    d ← liftP (memread buf remain);
    mod_conn i (fun c => c <| buf_used := u32 (buf_used c + remain) |>);;
    mret d.

(** Data that does not fit the buffer it is read into is undefined. *)
Definition liana_ssl_handle_socket_read (i : nat) : L Z :=
  conn ← get_conn i;
  (if try_false_start conn then
     s ← session i;
     let '(ret, out, s) := matrixSslReceivedData s [] in
     set_session i s;; store_out i out;;
     (if ret <? 0 then mret tt
      else if ret =? PS_SUCCESS then mod_conn i (fun c => c <| need_read := true |>)
      else mod_conn i (fun c => c <| need_read := false |>));;
     mod_conn i (fun c => c <| try_false_start := false |>)
   else mret tt);;
  conn ← get_conn i;
  s ← session i;
  if need_read conn then
    let '(ret, buf, s) := matrixSslGetReadbuf s in
    set_session i s;;
    match buf with Some b => mod_conn i (fun c => c <| buf_ssl := Some b |>) | None => mret tt end;;
    if ret =? PS_ARG_FAIL then mret ret
    else if ret =? 0 then mret PS_MEM_FAIL
    else
      mod_conn i (fun c => c <| buf_len := u32 ret |> <| buf_used := u32 ret |>);;
      t ← call (gets w_trace);
      let r := sock_read t (socket_fd conn) (u32 ret) in
      call (emit (EvRead (socket_fd conn) (match r with inl b => b | inr _ => [] end)));;
      match r with
      | inr _ => mret (-1)
      | inl [] => mret (-1)
      | inl d =>
        c ← get_conn i;
        buf ← liftP (buf_ssl c);
        _ ← liftP (bwrite buf 0 d);
        let '(ret, out, s) := matrixSslReceivedData s d in
        set_session i s;; store_out i out;;
        (if false_start s && negb (handshake_complete c) then mod_conn i (fun c => c <| try_false_start := true |>) else mret tt);;
        mod_conn i (fun c => c <| buf_used := 0 |> <| need_read := false |>);;
        mret ret
      end
  else
    let '(ret, out, s) := matrixSslProcessedData s in
    set_session i s;; store_out i out;;
    mod_conn i (fun c => c <| buf_used := 0 |>);;
    mret ret.

(** The loop of [liana_ssl_handle_read]: [used] is what the caller's buffer holds
    so far, [buf] whether there is one. The bytes read, or [None] for -1. *)
Fixpoint read_loop (wfuel fuel : nat) (i : nat) (buf : bool) (count : Z) (used : bytes) : L (option bytes) :=
  match fuel with
  | O => fun _ _ => None
  | S fuel =>
    let n := Z.of_nat (length used) in
    let again used := if (Z.of_nat (length used) <? count) || negb buf then read_loop wfuel fuel i buf count used else mret (Some used) in
    ret ← liana_ssl_handle_socket_read i;
    t ← call (gets w_trace);
    if ret =? -1 then mret (if errno_again t && (0 <? n) then Some used else None)
    else if (ret =? PS_MEM_FAIL) || (ret =? PS_ARG_FAIL) then mret None
    else if ret =? PS_PROTOCOL_FAIL then
      c ← get_conn i; _ ← _mkp_network_io_close (socket_fd c); mret None
    else if ret =? PS_SUCCESS then
      mod_conn i (fun c => c <| need_read := true |> <| buf_used := buf_len c |>);; mret (Some used)
    else if ret =? MATRIXSSL_REQUEST_RECV then
      mod_conn i (fun c => c <| need_read := true |>);; again used
    else if ret =? MATRIXSSL_REQUEST_SEND then
      mod_conn i (fun c => c <| need_write := true |>);;
      c ← get_conn i; _ ← _mkp_event_write wfuel (socket_fd c); again used
    else if ret =? MATRIXSSL_HANDSHAKE_COMPLETE then
      mod_conn i (fun c => c <| handshake_complete := true |>);; again used
    else if ret =? MATRIXSSL_RECEIVED_ALERT then
      ret ← liana_ssl_handle_alert i;
      if ret =? -1 then mret None else again used
    else if ret =? MATRIXSSL_APP_DATA then
      mod_conn i (fun c => c <| handshake_complete := true |>);;
      if negb buf then mret (Some used)
      else
        c ← get_conn i;
        let remain := if count - n <? buf_len c then count - n else buf_len c in
        d ← liftP (if remain =? 0 then Some [] else p ← buf_ssl c; memread p remain);
        mod_conn i (fun c => c <| buf_used := u32 (buf_used c + remain) |>);;
        again (used ++ d)
    else mret None
  end.

(** The bytes read into the buffer, of [count] bytes or none at all. *)
Definition liana_ssl_handle_read (wfuel fuel : nat) (i : nat) (buf : bool) (count : Z) : L (option bytes) :=
  used ← liana_ssl_handle_remain i count;
  read_loop wfuel fuel i buf count used.

Definition _mkp_network_io_read (wfuel fuel : nat) (fd count : Z) : L (option bytes) :=
  conn ← liana_ssl_get_connection fd;
  match conn with
  | None => mret None
  | Some i => liana_ssl_handle_read wfuel fuel i true (u32 count)
  end.

(** ** Sending *)

Definition _mkp_network_io_write (wfuel : nat) (fd : Z) (buf : option bytes) (count : Z) : L Z :=
  match buf with
  | None => mret 0
  | Some buf =>
    conn ← liana_ssl_get_connection fd;
    match conn with
    | None => mret (-1)
    | Some i =>
      s ← session i;
      let '(ret, s) := matrixSslGetWritebuf s (u32 count) in
      set_session i s;;
      if (ret =? PS_MEM_FAIL) || (ret =? PS_ARG_FAIL) || (ret =? PS_FAILURE) then mret (-1)
      else
        let len := u64 ret in
        let bytes_sent := if len <? count then len else count in
        _ ← liftP (if (ret <? 0) && (0 <? bytes_sent) then None else Some tt);
        d ← liftP (memread buf bytes_sent);
        let '(ret, s) := matrixSslEncodeWritebuf s d in
        set_session i s;;
        if (ret =? PS_ARG_FAIL) || (ret =? PS_PROTOCOL_FAIL) || (ret =? PS_FAILURE) then mret (-1)
        else
          mod_conn i (fun c => c <| need_write := true |>);;
          _ ← _mkp_event_write wfuel fd;
          mret (i32 bytes_sent)
    end
  end.

(** All the vector is copied into the buffer, whatever its room; more than its
    room is undefined. *)
Definition _mkp_network_io_writev (fd : Z) (mk_io : Iov.mk_iov) : L Z :=
  conn ← liana_ssl_get_connection fd;
  match conn with
  | None => mret (-1)
  | Some i =>
    d ← liftP (Iov.mk_iov_data mk_io);
    let size := Z.of_nat (length d) in
    if size =? 0 then mret 0
    else
      s ← session i;
      let '(ret, s) := matrixSslGetWritebuf s (u32 size) in
      set_session i s;;
      if (ret =? PS_MEM_FAIL) || (ret =? PS_ARG_FAIL) || (ret =? PS_FAILURE) then mret (-1)
      else if ret <? size then liftP None
      else
        let '(ret, s) := matrixSslEncodeWritebuf s d in
        set_session i s;;
        if (ret =? PS_MEM_FAIL) || (ret =? PS_ARG_FAIL) || (ret =? PS_FAILURE) then mret (-1)
        else mret (i32 size)
  end.

(** [file_count] is not used. The result and the new offset. *)
Definition _mkp_network_io_send_file (wfuel : nat) (fd file_fd file_offset file_count : Z) : L (Z * Z) :=
  t ← call (gets w_trace);
  match sys_pread t file_fd MK_LIANA_SSL_BUFFER_PLAIN file_offset with
  | None => mret (-1, file_offset)
  | Some d =>
    bytes_written ← _mkp_network_io_write wfuel fd (Some d) (Z.of_nat (length d));
    mret (bytes_written, if negb (bytes_written =? -1) then file_offset + bytes_written else file_offset)
  end.

(** ** Sockets *)

Definition _mkp_network_io_accept (server_fd : Z) : M Z :=
  t ← gets w_trace;
  let remote_fd := sys_accept t server_fd in
  emit (EvAccept server_fd remote_fd);;
  if accept_generic then _ ← mk_socket_set_nonblocking remote_fd; mret remote_fd else mret remote_fd.

Definition _mkp_network_io_create_socket (domain type protocol : Z) : M Z := socket domain type protocol.

(** Only the first address is tried. *)
Definition _mkp_network_io_connect (host : bytes) (port : Z) : M Z :=
  host ← lift (cstr host);
  match sys_getaddrinfo host (dec (i32 port)) 0 with
  | inr _ => mret (-1)
  | inl [] => mret 0
  | inl (rp :: _) =>
    fd ← _mkp_network_io_create_socket (ai_family rp) (ai_socktype rp) (ai_protocol rp);
    if fd =? -1 then mret (-1)
    else
      ret ← connect fd (ai_addr rp);
      if ret =? -1 then emit (EvClose fd);; mret (-1) else mret fd
  end.

Definition _mkp_network_io_bind (fd : Z) (addr : bytes) (backlog : Z) : M Z :=
  ret ← bind fd addr;
  if ret =? -1 then mret ret
  else
    ret ← listen fd backlog;
    if ret =? -1 then mret (-1) else mret ret.

Definition _mkp_network_io_server (port : Z) (listen_addr : bytes) : M Z :=
  listen_addr ← lift (cstr listen_addr);
  match sys_getaddrinfo listen_addr (dec (i32 port)) AI_PASSIVE with
  | inr _ => mret (-1)
  | inl [] => mret 0
  | inl (rp :: _) =>
    fd ← _mkp_network_io_create_socket (ai_family rp) (ai_socktype rp) (ai_protocol rp);
    if fd =? -1 then mret (-1)
    else
      _ ← mk_socket_set_tcp_nodelay fd;
      _ ← mk_socket_reset fd;
      ret ← _mkp_network_io_bind fd (ai_addr rp) MK_SOMAXCONN;
      if ret =? -1 then mret (-1) else mret fd
  end.

(** ** Events *)

(** [None] is NULL, of a session that could not be made. *)
Definition liana_ssl_new_connection (fd : Z) : L (option nat) :=
  t ← call (gets w_trace);
  let '(ret, s) := matrixSslNewServerSession t in
  if negb (ret =? PS_SUCCESS) && ((ret =? PS_ARG_FAIL) || (ret =? PS_FAILURE)) then mret None
  else
    st ← getP;
    let i := sl_next st in
    put_conn i {| ssl := s; buf_ssl := None; buf_len := 0; buf_used := 0; handshake_complete := false; need_read := true;
                  need_write := false; try_false_start := false; socket_fd := fd |};;
    modP (fun st => st <| sl_next := S i |>);;
    mret (Some i).

(** A NULL connection is linked into the list, which is undefined. *)
Definition _mkp_event_read (wfuel fuel : nat) (fd : Z) : L Z :=
  conn ← liana_ssl_get_connection fd;
  match conn with
  | None =>
    conn ← liana_ssl_new_connection fd;
    i ← liftP conn;
    modP (fun st => st <| sl_list := sl_list st ++ [i] |>);;
    mret MK_PLUGIN_RET_EVENT_NEXT
  | Some i =>
    c ← get_conn i;
    if negb (handshake_complete c) then
      ret ← liana_ssl_handle_read wfuel fuel i false 0;
      t ← call (gets w_trace);
      if bool_decide (ret = None) && negb (errno_again t) then mret MK_PLUGIN_RET_EVENT_CLOSE
      else
        c ← get_conn i;
        if need_write c then
          _ ← _mkp_event_write wfuel fd;
          c ← get_conn i;
          (if need_write c then
             _ ← call (mk_plugin_event_socket_change_mode (socket_fd c) MK_EPOLL_RW MK_EPOLL_LEVEL_TRIGGERED); mret tt
           else mret tt);;
          if handshake_complete c then mret MK_PLUGIN_RET_EVENT_NEXT else mret MK_PLUGIN_RET_EVENT_OWNED
        else mret MK_PLUGIN_RET_EVENT_OWNED
    else
      (if need_write c then
         _ ← call (mk_plugin_event_socket_change_mode (socket_fd c) MK_EPOLL_RW MK_EPOLL_LEVEL_TRIGGERED); mret tt
       else mret tt);;
      mret MK_PLUGIN_RET_EVENT_NEXT
  end.

(** The session ends with the connection. *)
Definition hangup (fd : Z) : L Z :=
  conn ← liana_ssl_get_connection fd;
  match conn with
  | None => mret MK_PLUGIN_RET_EVENT_NEXT
  | Some i =>
    _ ← liana_ssl_close i;
    _ ← session i;
    modP (fun st => st <| sl_list := List.remove Nat.eq_dec i (sl_list st) |> <| sl_heap := delete i (sl_heap st) |>);;
    mret MK_PLUGIN_RET_EVENT_NEXT
  end.

Definition _mkp_event_close (fd : Z) : L Z := hangup fd.
Definition _mkp_event_timeout (fd : Z) : L Z := hangup fd.
Definition _mkp_event_error (fd : Z) : L Z := hangup fd.

(** [_mkp_core_thctx] *)
Definition core_thctx : ssl_state := {| sl_heap := ∅; sl_next := 0; sl_list := [] |}.

(** ** Start *)

(** [cert_file] and [key_file]: the last of each section named LIANA_SSL. *)
Fixpoint liana_sections (sections : mk_config) (certs : option bytes * option bytes) : option (option bytes * option bytes) :=
  match sections with
  | [] => Some certs
  | section :: sections =>
    c ← strcasecmp (cs_name section) (clit "LIANA_SSL");
    if negb (c =? 0) then liana_sections sections certs
    else
      cert_file ← get_str section "CertFile";
      key_file ← get_str section "KeyFile";
      liana_sections sections (cert_file, key_file)
  end.

Definition liana_conf (fopen_read : bytes -> option bytes) (confdir : bytes) : option (option bytes * option bytes) :=
  s ← cstr confdir;
  '(conf_path, _) ← mk_string_build (s ++ lit "/liana_ssl.conf");
  conf ← mk_config_create (fopen_read conf_path);
  conf ← conf;
  match conf with
  | CfgExit _ _ => None
  | CfgOk conf => liana_sections conf (None, None)
  end.

(** [_mkp_init] with the transport layer of the configuration. *)
Definition _mkp_init (transport_layer : bytes) : option Z :=
  c ← strcmp transport_layer (clit "liana_ssl");
  Some (if negb (c =? 0) then -1
        else let '(major, minor, patch) := MATRIXSSL_VERSION in
             if major <? MK_MATRIX_REQUIRE_MAJOR then -1
             else if minor <? MK_MATRIX_REQUIRE_MINOR then -1
             else if patch <? MK_MATRIX_REQUIRE_PATCH then -1
             else 0).

(** mk_config.h *)
Definition MK_TRANSPORT_HTTPS : bytes := clit "https".

(** The transport of the configuration, and the certificate and the key that the
    library loaded; the exits are undefined. A key file that is not given is
    looked up as NULL, which does not exist. *)
Definition _mkp_core_prctx (fopen_read : bytes -> option bytes) (confdir : bytes) (ssl_file_info : file_info) : M (bytes * (bytes * bytes)) :=
  '(cert_file, key_file) ← lift (liana_conf fopen_read confdir);
  if matrixSslOpen <? 0 then ub
  else if matrixSslNewKeys <? 0 then ub
  else
    cert_file ← lift cert_file;
    '(ret, ssl_file_info) ← mk_file_get_info cert_file ssl_file_info;
    if ret =? -1 then ub
    else
      key_file ← lift key_file;
      '(ret, _) ← mk_file_get_info key_file ssl_file_info;
      if ret =? -1 then ub
      else if matrixSslLoadRsaKeys cert_file key_file <? 0 then ub
      else mret (MK_TRANSPORT_HTTPS, (cert_file, key_file)).
End WithEnv.
