(* ===== verification/LianaSslSpec.v ===== *)
(** * Properties of the transport over MatrixSSL

    The connections of a thread, what a reader gets of the decrypted data, and
    how the encrypted data reaches the socket. *)
From stdpp Require Import gmap.
From S2P Require Import Prelude CString MkMemory MkTypes MkEpoll MkPlugin MkConfig MkFile MkResponse PluginState MkNetIO LianaSsl.
Local Open Scope Z_scope.

Section WithEnv.
Context `{env : Env} `{sys : SockSys} `{lib : MatrixSSL} `{ssys : SslSys}.

Definition upd (j : nat) (c : mk_liana_ssl) (s : ssl_state) : ssl_state := s <| sl_heap := <[j := c]> (sl_heap s) |>.

(** ** Changes of a connection *)

(** What sending does to a connection. *)
Inductive sent_change (c : mk_liana_ssl) : mk_liana_ssl -> Prop :=
  | sc_write b : sent_change c (c <| need_write := b |>)
  | sc_done : sent_change c (c <| handshake_complete := true |>)
  | sc_sent t n r t' : ssl c = Some t -> matrixSslSentData t n = (r, t') -> sent_change c (c <| ssl := Some t' |>).

(** Facts of the state that sending does not change. *)
Definition send_stable (J : ssl_state -> Prop) : Prop :=
  forall s j c c', J s -> sl_heap s !! j = Some c -> sent_change c c' -> J (upd j c' s).
(** Facts that no change of a connection but of its socket affects. *)
Definition fd_stable (J : ssl_state -> Prop) : Prop :=
  forall s j c c', J s -> sl_heap s !! j = Some c -> socket_fd c' = socket_fd c -> J (upd j c' s).

Lemma fd_stable_send J : fd_stable J -> send_stable J.
Proof. intros H s j c c' Hs Hj Hc. apply (H s j c c' Hs Hj). by destruct Hc. Qed.

(** ** Triples of the small steps *)

Lemma triple_mod_conn (J K : ssl_state -> Prop) j f :
  (forall s c, J s -> sl_heap s !! j = Some c -> K (upd j (f c) s)) -> triple J (mod_conn j f) (fun _ => K).
Proof.
  intros H s w a s' w' Hs. unfold mod_conn, get_conn, put_conn, mbind, P_bind, getP, liftP, modP.
  destruct (sl_heap s !! j) as [c|] eqn:E; [|done]. intros [= _ <- _]. by apply H.
Qed.

(** A computation that only looks. *)
Lemma triple_get_conn J j : triple J (get_conn j) (fun c s => J s /\ sl_heap s !! j = Some c).
Proof.
  intros s w a s' w' Hs. unfold get_conn, mbind, P_bind, getP, liftP. destruct (sl_heap s !! j) eqn:E; [|done]. by intros [= <- <- <-].
Qed.

Lemma triple_session J j : triple J (session j) (fun t s => J s /\ exists c, sl_heap s !! j = Some c /\ ssl c = Some t).
Proof.
  unfold session. eapply triple_bind; [apply triple_get_conn|]. intros c. eapply triple_post; [apply triple_lift|].
  cbn. intros t s [[? ?] ?]. eauto.
Qed.

Lemma triple_find J fd l : triple J (find_conn fd l) (fun r s => J s /\ match r with
  | Some i => i ∈ l /\ exists c, sl_heap s !! i = Some c /\ socket_fd c = fd
  | None => forall i c, i ∈ l -> sl_heap s !! i = Some c -> socket_fd c <> fd end).
Proof.
  induction l as [|i l IH]; cbn [find_conn].
  - eapply triple_pre; [|apply triple_ret]. cbn. intros s H. split; [done|]. intros i c Hi. by apply not_elem_of_nil in Hi.
  - eapply triple_bind; [apply triple_get_conn|]. intros c. cbn beta. destruct (fd =? socket_fd c) eqn:E.
    + eapply triple_pre; [|apply triple_ret]. cbn. intros s [H Hc]. split; [done|]. split; [left|]. exists c. split; [done|lia].
    + intros s w a s' w' [H Hc] Hr. pose proof (IH s w a s' w' H Hr) as HI.
      assert (Hs : s' = s) by (clear -Hr; revert Hr; induction l as [|k l IH]; cbn [find_conn];
        [by intros [= _ -> _]|unfold get_conn, mbind, P_bind, getP, liftP in *; destruct (sl_heap s !! k) as [ck|]; [|done]; cbn; case_if; [by intros [= _ -> _]|apply IH]]).
      subst s'. destruct HI as [HJ HI]. split; [done|]. destruct a as [k|].
      * destruct HI as [Hk ?]. split; [by right|done].
      * intros k ck Hk Hck. apply elem_of_cons in Hk as [-> |Hk]; [|by apply (HI k)]. rewrite Hc in Hck. injection Hck as <-. lia.
Qed.

Lemma triple_connection J fd : triple J (liana_ssl_get_connection fd) (fun r s => J s /\ match r with
  | Some i => i ∈ sl_list s /\ exists c, sl_heap s !! i = Some c /\ socket_fd c = fd
  | None => forall i c, i ∈ sl_list s -> sl_heap s !! i = Some c -> socket_fd c <> fd end).
Proof.
  unfold liana_ssl_get_connection. intros s w a s' w' Hs. unfold mbind, P_bind, getP. intros Hr.
  destruct (triple_find (fun x => J x /\ x = s) fd (sl_list s) s w a s' w' (conj Hs eq_refl) Hr) as [[HJ ->] H]. done.
Qed.

(** ** Sending keeps what is stable *)

Section SendStable.
Variable J : ssl_state -> Prop.
Hypothesis HJ : send_stable J.

Lemma triple_mod_sent j f : (forall c, sent_change c (f c)) -> triple J (mod_conn j f) (fun _ => J).
Proof. intros Hf. apply triple_mod_conn. intros s c Hs Hc. by apply (HJ s j c). Qed.

(** The session at [j] after a call of the library on it. *)
Lemma triple_set_sent j t n r t' :
  matrixSslSentData t n = (r, t') ->
  triple (fun s => J s /\ exists c, sl_heap s !! j = Some c /\ ssl c = Some t) (set_session j t') (fun _ => J).
Proof.
  intros Ht. apply triple_mod_conn. intros s c [Hs (c' & Hc' & Hsl)] Hc. rewrite Hc in Hc'. injection Hc' as <-.
  apply (HJ s j c); [done|done|]. by eapply sc_sent.
Qed.

Lemma write_loop_stable fuel : forall j fd b, triple J (write_loop fuel j fd b) (fun _ => J).
Proof.
  induction fuel as [|fuel IH]; intros j fd b; [by intros s w a s' w'|]. cbn [write_loop].
  eapply triple_bind; [apply triple_session|]. intros t. cbn beta. destruct (matrixSslGetOutdata t) as [ret buf].
  set (Js := fun s => J s /\ exists c, sl_heap s !! j = Some c /\ ssl c = Some t).
  assert (Hw : forall s, Js s -> J s) by (by intros s [? ?]).
  case_if. { eapply triple_pre; [apply Hw|]. eapply triple_bind; [apply triple_mod_sent; intros; apply sc_write|]. intros ?. apply (triple_ret _ (fun _ => J)). }
  case_if. { eapply triple_pre; [apply Hw|]. apply (triple_ret _ (fun _ => J)). }
  eapply triple_bind; [apply (triple_get_conn Js)|]. intros conn. cbn beta. eapply triple_pre; [intros s [H _]; exact H|].
  tcall. tlift. tcall. tcall. case_if.
  - eapply triple_pre; [apply Hw|]. tcall. case_if; apply (triple_ret _ (fun _ => J)).
  - destruct (matrixSslSentData t _) as [ret' t'] eqn:Et. eapply triple_bind; [by eapply triple_set_sent|]. intros ?.
    case_if. { eapply triple_bind; [apply triple_mod_sent; intros; apply sc_write|]. intros ?. apply IH. }
    case_if; [apply IH|].
    case_if. { eapply triple_bind; [apply triple_mod_sent; intros; apply sc_done|]. intros ?. tcall. apply (triple_ret _ (fun _ => J)). }
    case_if; [|apply IH].
    eapply triple_bind; [apply triple_mod_sent; intros; apply sc_write|]. intros ?.
    eapply triple_bind; [case_if; [tcall|]; apply (triple_ret _ (fun _ => J))|]. intros ?. apply (triple_ret _ (fun _ => J)).
Qed.

Lemma event_write_stable fuel fd : triple J (_mkp_event_write fuel fd) (fun _ => J).
Proof.
  unfold _mkp_event_write. eapply triple_bind; [apply triple_connection|]. intros r. cbn beta. eapply triple_pre; [intros s [H _]; exact H|].
  destruct r as [j|]; [|apply (triple_ret _ (fun _ => J))].
  eapply triple_bind; [apply triple_get_conn|]. intros c. eapply triple_pre; [intros s [H _]; exact H|].
  case_if; [apply (triple_ret _ (fun _ => J))|]. eapply triple_bind; [apply write_loop_stable|]. intros [ret|b]; [apply (triple_ret _ (fun _ => J))|].
  eapply triple_bind; [apply triple_get_conn|]. intros c'. eapply triple_pre; [intros s [H _]; exact H|].
  repeat case_if; apply (triple_ret _ (fun _ => J)).
Qed.
End SendStable.

(** ** The connections of a thread *)

(** The list names the connections in memory, once each, and two connections
    are on two sockets. *)
Record connections_ok (s : ssl_state) : Prop := {
  cn_nodup : NoDup (sl_list s);
  cn_dom : forall i, i ∈ sl_list s <-> is_Some (sl_heap s !! i);
  cn_fresh : forall i, i ∈ sl_list s -> (i < sl_next s)%nat;
  cn_fd : forall i j c d, sl_heap s !! i = Some c -> sl_heap s !! j = Some d -> socket_fd c = socket_fd d -> i = j;
}.

Lemma connections_stable : fd_stable connections_ok.
Proof.
  intros s j c c' [H1 H2 H3 H4] Hj Hfd. split; cbn; [done| |done|].
  - intros i. rewrite H2. destruct (decide (i = j)) as [-> |Hne]; [|by rewrite lookup_insert_ne by done].
    rewrite lookup_insert_eq. split; [by eexists|]. intros _. by exists c.
  - intros i k d e Hd He. apply lookup_insert_Some in Hd as [[<- <-]|[Hi Hd]]; apply lookup_insert_Some in He as [[<- <-]|[Hk He]]; [done| | |].
    + rewrite Hfd. by apply H4.
    + rewrite Hfd. by apply H4.
    + by apply H4.
Qed.

Section FdStable.
Variable J : ssl_state -> Prop.
Hypothesis HJ : fd_stable J.

Lemma triple_mod_fd j f : (forall c, socket_fd (f c) = socket_fd c) -> triple J (mod_conn j f) (fun _ => J).
Proof. intros Hf. apply triple_mod_conn. intros s c Hs Hc. by apply (HJ s j c). Qed.
Lemma triple_get_fd j : triple J (get_conn j) (fun _ => J).
Proof. eapply triple_post; [apply triple_get_conn|]. by intros c s [H _]. Qed.
Lemma triple_session_fd j : triple J (session j) (fun _ => J).
Proof. eapply triple_post; [apply triple_session|]. by intros c s [H _]. Qed.
Lemma triple_connection_fd fd : triple J (liana_ssl_get_connection fd) (fun _ => J).
Proof. eapply triple_post; [apply triple_connection|]. by intros c s [H _]. Qed.
Lemma triple_lift_fd {A} (o : option A) : triple J (liftP o) (fun _ => J).
Proof. eapply triple_post; [apply triple_lift|]. by intros a s [H _]. Qed.
Lemma triple_write_fd fuel fd : triple J (_mkp_event_write fuel fd) (fun _ => J).
Proof. apply event_write_stable, fd_stable_send, HJ. Qed.
Lemma triple_ret_fd {A} (a : A) : triple J (mret a) (fun _ => J).
Proof. apply (triple_ret a (fun _ => J)). Qed.
Lemma triple_out_fd j out : triple J (store_out j out) (fun _ => J).
Proof. destruct out as [[p n]|]; [by apply triple_mod_fd|apply triple_ret_fd]. Qed.

Create HintDb fdtriple.
Hint Resolve triple_ret_fd triple_mod_fd triple_get_fd triple_session_fd triple_connection_fd triple_lift_fd triple_write_fd triple_call triple_out_fd : fdtriple.

Ltac fd_steps :=
  repeat first
    [ progress cbv zeta
    | solve [intros; eauto with fdtriple]
    | eapply triple_bind; [solve [intros; unfold set_session; eauto with fdtriple]|]; intros ?
    | case_if
    | match goal with |- triple _ (match ?x with _ => _ end) _ => destruct x eqn:? end
    | match goal with |- triple _ ((match ?x with _ => _ end) ≫= _) _ => destruct x eqn:? end ].

Lemma close_fd fd : triple J (_mkp_network_io_close fd) (fun _ => J).
Proof. unfold _mkp_network_io_close. fd_steps. Qed.
Hint Resolve close_fd : fdtriple.

Lemma ssl_close_fd j : triple J (liana_ssl_close j) (fun _ => J).
Proof. unfold liana_ssl_close. fd_steps. Qed.
Lemma alert_fd j : triple J (liana_ssl_handle_alert j) (fun _ => J).
Proof. unfold liana_ssl_handle_alert. fd_steps. Qed.
Lemma remain_fd j n : triple J (liana_ssl_handle_remain j n) (fun _ => J).
Proof. unfold liana_ssl_handle_remain. fd_steps. Qed.
Lemma socket_read_fd j : triple J (liana_ssl_handle_socket_read j) (fun _ => J).
Proof.
  unfold liana_ssl_handle_socket_read. eapply triple_bind; [apply triple_get_fd|]. intros c.
  eapply (triple_bind _ _ _ (fun _ => J)); [case_if; fd_steps|intros ?; fd_steps].
Qed.
Hint Resolve ssl_close_fd alert_fd remain_fd socket_read_fd : fdtriple.

Lemma read_loop_fd wf fuel : forall j b n used, triple J (read_loop wf fuel j b n used) (fun _ => J).
Proof. induction fuel as [|fuel IH]; intros j b n used; [by intros s w a s' w'|]. cbn [read_loop]. fd_steps; apply IH. Qed.
Hint Resolve read_loop_fd : fdtriple.

Lemma handle_read_fd wf fuel j b n : triple J (liana_ssl_handle_read wf fuel j b n) (fun _ => J).
Proof. unfold liana_ssl_handle_read. fd_steps. Qed.
Hint Resolve handle_read_fd : fdtriple.

Lemma network_read_fd wf fuel fd n : triple J (_mkp_network_io_read wf fuel fd n) (fun _ => J).
Proof. unfold _mkp_network_io_read. fd_steps. Qed.
Lemma network_write_fd wf fd buf n : triple J (_mkp_network_io_write wf fd buf n) (fun _ => J).
Proof. unfold _mkp_network_io_write. fd_steps. Qed.
Lemma network_writev_fd fd iov : triple J (_mkp_network_io_writev fd iov) (fun _ => J).
Proof. unfold _mkp_network_io_writev. fd_steps. Qed.
Hint Resolve network_write_fd : fdtriple.
Lemma network_send_file_fd wf fd file off n : triple J (_mkp_network_io_send_file wf fd file off n) (fun _ => J).
Proof. unfold _mkp_network_io_send_file. fd_steps. Qed.
End FdStable.

(** Some connection is on a socket; none is. *)
Definition on_socket (fd : Z) (s : ssl_state) : Prop := exists i c, sl_heap s !! i = Some c /\ socket_fd c = fd.

Lemma on_socket_stable fd : fd_stable (fun s => connections_ok s /\ on_socket fd s).
Proof.
  intros s j c c' [Hs (i & d & Hi & Hd)] Hj Hfd. split; [by apply (connections_stable s j c)|].
  destruct (decide (i = j)) as [-> |Hne].
  - exists j, c'. rewrite Hj in Hi. injection Hi as <-. cbn. rewrite lookup_insert_eq. split; [done|congruence].
  - exists i, d. cbn. by rewrite lookup_insert_ne.
Qed.

(** A new connection joins the list. *)
Lemma new_connection_ok fd :
  triple (fun s => connections_ok s /\ ~ on_socket fd s)
    (conn ← liana_ssl_new_connection fd; i ← liftP conn;
     modP (fun st => st <| sl_list := sl_list st ++ [i] |>);; mret MK_PLUGIN_RET_EVENT_NEXT)
    (fun _ s => connections_ok s /\ on_socket fd s).
Proof.
  intros s w a s' w' [Hs Hno]. unfold liana_ssl_new_connection, put_conn, modP, getP, liftP, call, gets, mbind, P_bind. cbn.
  destruct (matrixSslNewServerSession (w_trace w)) as [ret o]. case_if; [done|]. intros [= _ <- _].
  destruct Hs as [H1 H2 H3 H4]. set (i := sl_next s) in *. set (c := {| socket_fd := fd |}).
  assert (Hi : i ∉ sl_list s) by (intros H; apply H3 in H; lia).
  assert (Hhi : sl_heap s !! i = None) by (destruct (sl_heap s !! i) eqn:Eh; [|done]; exfalso; apply Hi, H2; by eexists).
  split; [split; cbn|].
  - apply NoDup_app. split; [done|]. split; [|apply NoDup_singleton]. intros k Hk Hk'. apply list_elem_of_singleton in Hk' as ->. done.
  - intros k. rewrite elem_of_app, list_elem_of_singleton, H2. destruct (decide (k = i)) as [-> |Hne].
    + rewrite lookup_insert_eq. split; [by eexists|by right].
    + rewrite lookup_insert_ne by done. split; [by intros [? | ?]|by left].
  - intros k. rewrite elem_of_app, list_elem_of_singleton. intros [Hk| ->]; [apply H3 in Hk; lia|lia].
  - intros k l d e Hd He Hfd. apply lookup_insert_Some in Hd as [[<- <-]|[Hk Hd]]; apply lookup_insert_Some in He as [[<- <-]|[Hl He]]; [done| | |by eapply H4].
    + destruct Hno. by exists l, e.
    + destruct Hno. by exists k, d.
  - exists i, c. cbn. by rewrite lookup_insert_eq.
Qed.

Lemma ssl_event_read_ok wf fuel fd : triple connections_ok (_mkp_event_read wf fuel fd) (fun _ s => connections_ok s /\ on_socket fd s).
Proof.
  unfold _mkp_event_read. eapply triple_bind; [apply triple_connection|]. intros [i|]; cbn beta.
  - set (J := fun s => connections_ok s /\ on_socket fd s). pose proof (on_socket_stable fd : fd_stable J) as HJ.
    apply (triple_pre _ J). { intros s [Hs (_ & c & Hc & Hfd)]. split; [done|]. by exists i, c. }
    eapply triple_bind; [by apply triple_get_fd|]. intros c. case_if.
    + eapply triple_bind; [by apply handle_read_fd|]. intros ret. tcall. case_if; [by apply triple_ret_fd|].
      eapply triple_bind; [by apply triple_get_fd|]. intros d. case_if; [|by apply triple_ret_fd].
      eapply triple_bind; [by apply triple_write_fd|]. intros ?. eapply triple_bind; [by apply triple_get_fd|]. intros e.
      eapply (triple_bind _ _ _ (fun _ => J)); [case_if; [tcall|]; by apply triple_ret_fd|]. intros ?. case_if; by apply triple_ret_fd.
    + eapply (triple_bind _ _ _ (fun _ => J)); [case_if; [tcall|]; by apply triple_ret_fd|]. intros ?. by apply triple_ret_fd.
  - eapply triple_pre; [|apply new_connection_ok]. intros s [Hs Hno]. split; [done|]. intros (i & c & Hi & Hc).
    apply (Hno i c); [apply (cn_dom _ Hs); by eexists|done|done].
Qed.

Lemma ssl_hangup_ok fd : triple connections_ok (hangup fd) (fun r s => connections_ok s /\ ~ on_socket fd s /\ r = MK_PLUGIN_RET_EVENT_NEXT).
Proof.
  unfold hangup. eapply triple_bind; [apply triple_connection|]. intros [i|]; cbn beta.
  - set (J := fun s => connections_ok s /\ exists c, sl_heap s !! i = Some c /\ socket_fd c = fd).
    assert (HJ : fd_stable J).
    { intros s j c c' [Hs (d & Hi & Hd)] Hj Hfd. split; [by apply (connections_stable s j c)|]. destruct (decide (i = j)) as [-> |Hne].
      - exists c'. rewrite Hj in Hi. injection Hi as <-. cbn. rewrite lookup_insert_eq. split; [done|congruence].
      - exists d. cbn. by rewrite lookup_insert_ne. }
    apply (triple_pre _ J). { intros s (Hs & _ & ?). done. }
    eapply triple_bind; [by apply ssl_close_fd|]. intros ?. eapply triple_bind; [by apply triple_session_fd|]. intros ?.
    eapply triple_bind; [|intros ?; apply (triple_ret _ (fun r s => connections_ok s /\ ~ on_socket fd s /\ r = MK_PLUGIN_RET_EVENT_NEXT))].
    apply triple_mod. intros s [[H1 H2 H3 H4] (c & Hc & Hfd)]. destruct (remove_NoDup (sl_list s) i H1) as [HN Hin]. split; [split; cbn|split; [|done]].
    + done.
    + intros k. rewrite Hin, H2. destruct (decide (k = i)) as [-> |Hne].
      * rewrite lookup_delete_eq. split; [by intros [_ ?]|by intros [? ?]].
      * rewrite lookup_delete_ne by done. tauto.
    + intros k Hk. apply Hin in Hk as [Hk _]. by apply H3.
    + cbn. intros k l d e Hd He. apply lookup_delete_Some in Hd as [_ Hd]. apply lookup_delete_Some in He as [_ He]. by eapply H4.
    + cbn. intros (k & d & Hk & Hd). cbn in Hk. apply lookup_delete_Some in Hk as [Hne Hk]. apply Hne. eapply H4; [done|done|congruence].
  - eapply triple_pre; [|apply (triple_ret _ (fun r s => connections_ok s /\ ~ on_socket fd s /\ r = MK_PLUGIN_RET_EVENT_NEXT))].
    intros s [Hs Hno]. split; [done|]. split; [|done]. intros (i & c & Hi & Hc). apply (Hno i c); [apply (cn_dom _ Hs); by eexists|done|done].
Qed.

(** ** Every state of a thread

    The calls of the plugin on one thread, in any order and with any world
    between them. *)
Inductive ssl_call :=
  | SEventRead (fd : Z) | SEventWrite (fd : Z) | SEventClose (fd : Z) | SEventTimeout (fd : Z) | SEventError (fd : Z)
  | SRead (fd count : Z) | SWrite (fd : Z) (buf : option bytes) (count : Z) | SWritev (fd : Z) (iov : Iov.mk_iov)
  | SSendFile (fd file_fd file_offset file_count : Z) | SClose (fd : Z).

Definition ignore {A} (m : L A) : L unit := _ ← m; mret tt.
Definition ssl_run (wfuel fuel : nat) (k : ssl_call) : L unit :=
  match k with
  | SEventRead fd => ignore (_mkp_event_read wfuel fuel fd)
  | SEventWrite fd => ignore (_mkp_event_write wfuel fd)
  | SEventClose fd => ignore (_mkp_event_close fd)
  | SEventTimeout fd => ignore (_mkp_event_timeout fd)
  | SEventError fd => ignore (_mkp_event_error fd)
  | SRead fd count => ignore (_mkp_network_io_read wfuel fuel fd count)
  | SWrite fd buf count => ignore (_mkp_network_io_write wfuel fd buf count)
  | SWritev fd iov => ignore (_mkp_network_io_writev fd iov)
  | SSendFile fd file off n => ignore (_mkp_network_io_send_file wfuel fd file off n)
  | SClose fd => ignore (_mkp_network_io_close fd)
  end.

Inductive ssl_reachable : ssl_state -> Prop :=
  | reach_start : ssl_reachable core_thctx
  | reach_call wfuel fuel k s w s' w' : ssl_reachable s -> ssl_run wfuel fuel k s w = Some (tt, s', w') -> ssl_reachable s'.

Lemma ignore_ok {A} (m : L A) : triple connections_ok m (fun _ => connections_ok) -> triple connections_ok (ignore m) (fun _ => connections_ok).
Proof. intros H. eapply triple_bind; [exact H|]. intros ?. apply (triple_ret _ (fun _ => connections_ok)). Qed.

Lemma ssl_run_ok wfuel fuel k : triple connections_ok (ssl_run wfuel fuel k) (fun _ => connections_ok).
Proof.
  pose proof connections_stable as HJ.
  destruct k; apply ignore_ok;
    [eapply triple_post; [apply ssl_event_read_ok|]; by intros a s [? _]
    |by apply triple_write_fd
    |eapply triple_post; [apply ssl_hangup_ok|]; by intros a s [? _]
    |eapply triple_post; [apply ssl_hangup_ok|]; by intros a s [? _]
    |eapply triple_post; [apply ssl_hangup_ok|]; by intros a s [? _]
    |by apply network_read_fd|by apply network_write_fd|by apply network_writev_fd|by apply network_send_file_fd|by apply close_fd].
Qed.

Lemma ssl_reachable_ok s : ssl_reachable s -> connections_ok s.
Proof.
  induction 1 as [|wfuel fuel k s w s' w' _ IH Hrun]; [|exact (ssl_run_ok wfuel fuel k s w tt s' w' IH Hrun)].
  split; [constructor| | |done].
  - intros i. split; [intros H; by apply not_elem_of_nil in H|]. intros [x Hx]. cbn in Hx. by rewrite lookup_empty in Hx.
  - intros i H. by apply not_elem_of_nil in H.
Qed.

(** C34: in every state a thread can reach, its list names each connection in
    memory once and no two connections are on the same socket; the first event
    of a socket makes its connection, and whatever ends a connection leaves none
    on the socket. *)
Theorem ssl_connections s fd :
  ssl_reachable s ->
  connections_ok s /\
  (forall wfuel fuel w r s' w', _mkp_event_read wfuel fuel fd s w = Some (r, s', w') -> on_socket fd s') /\
  (forall w r s' w', hangup fd s w = Some (r, s', w') -> ~ on_socket fd s' /\ r = MK_PLUGIN_RET_EVENT_NEXT).
Proof.
  intros Hs. apply ssl_reachable_ok in Hs as Hok. split; [done|]. split.
  - intros wfuel fuel w r s' w' Hrun. apply (ssl_event_read_ok wfuel fuel fd s w r s' w' Hok Hrun).
  - intros w r s' w' Hrun. destruct (ssl_hangup_ok fd s w r s' w' Hok Hrun) as (_ & ? & ?). done.
Qed.
End WithEnv.
