(* ===== verification/LianaSslData.v ===== *)
(** * The data of the transport over MatrixSSL

    What a reader gets is what the library decrypts, in order; what the library
    encrypts is written to the socket, in order. The laws the library is relied
    on for are named. *)
From stdpp Require Import gmap.
From S2P Require Import Prelude CString MkMemory MkTypes MkEpoll MkPlugin MkConfig MkFile MkResponse MkConnection PluginState MkNetIO LianaSsl LianaSslSpec.
Local Open Scope Z_scope.

Section WithEnv.
Context `{env : Env} `{sys : SockSys} `{lib : MatrixSSL} `{ssys : SslSys}.

(** ** Steps on a known connection *)

Lemma upd_lookup i c s : sl_heap (upd i c s) !! i = Some c.
Proof. cbn. by rewrite lookup_insert_eq. Qed.
Lemma ssl_upd_upd i c d s : upd i c (upd i d s) = upd i c s.
Proof. unfold upd. cbn. by rewrite insert_insert_eq. Qed.

Section Runs.
Context {B : Type}.
Variables (i : nat) (c : mk_liana_ssl) (s : ssl_state) (w : world).
Hypothesis Hc : sl_heap s !! i = Some c.

Lemma get_conn_run (k : mk_liana_ssl -> L B) : (get_conn i ≫= k) s w = k c s w.
Proof. unfold get_conn, getP, liftP, mbind, P_bind. by rewrite Hc. Qed.
Lemma mod_conn_run f (k : unit -> L B) : (mod_conn i f ≫= k) s w = k tt (upd i (f c) s) w.
Proof. unfold mod_conn, get_conn, put_conn, modP, getP, liftP, mbind, P_bind. by rewrite Hc. Qed.
Lemma session_run t (k : ssl_t -> L B) : ssl c = Some t -> (session i ≫= k) s w = k t s w.
Proof. intros Ht. unfold session, get_conn, getP, liftP, mbind, P_bind. rewrite Hc. cbn. by rewrite Ht. Qed.
Lemma set_session_run t (k : unit -> L B) : (set_session i t ≫= k) s w = k tt (upd i (c <| ssl := Some t |>) s) w.
Proof. apply mod_conn_run. Qed.
Lemma store_out_run p n (k : unit -> L B) :
  (store_out i (Some (p, n)) ≫= k) s w = k tt (upd i (c <| buf_ssl := p |> <| buf_len := u32 n |>) s) w.
Proof. apply mod_conn_run. Qed.
End Runs.

(** ** What the library decrypts *)

(** The application data a call gave. *)
Definition record (ret : Z) (out : option (option bytes * Z)) : bytes :=
  if ret =? MATRIXSSL_APP_DATA then match out with Some (Some b, n) => take (Z.to_nat n) b | _ => [] end else [].

(** A call that receives, with what it decrypted. *)
Inductive lib_call : ssl_t -> bytes -> ssl_t -> Prop :=
  | call_received t d ret out t' : matrixSslReceivedData t d = (ret, out, t') -> lib_call t (record ret out) t'
  | call_processed t ret out t' : matrixSslProcessedData t = (ret, out, t') -> lib_call t (record ret out) t'
  | call_readbuf t ret buf t' : matrixSslGetReadbuf t = (ret, buf, t') -> lib_call t [] t'
  | call_sent t n ret t' : matrixSslSentData t n = (ret, t') -> lib_call t [] t'.

Inductive delivers : ssl_t -> bytes -> ssl_t -> Prop :=
  | dl_refl t : delivers t [] t
  | dl_step t bs t1 b t2 : delivers t bs t1 -> lib_call t1 b t2 -> delivers t (bs ++ b) t2.

Lemma dl_silent t bs t1 t2 : delivers t bs t1 -> lib_call t1 [] t2 -> delivers t bs t2.
Proof. intros H Hc. pose proof (dl_step t bs t1 [] t2 H Hc) as Hd. by rewrite app_nil_r in Hd. Qed.

(** The pointer and length that a call stores: the data of a record, the two
    bytes of an alert, or nothing; a failed call may store nothing. *)
Definition out_ok (ret : Z) (out : option (option bytes * Z)) : Prop :=
  match out with
  | Some (p, n) =>
    0 <= n < 2 ^ 32 /\
    (if ret =? MATRIXSSL_APP_DATA then exists b, p = Some b /\ n <= Z.of_nat (length b)
     else if ret =? MATRIXSSL_RECEIVED_ALERT then n = 2 else n = 0)
  | None => ret = PS_MEM_FAIL \/ ret = PS_ARG_FAIL \/ ret = PS_PROTOCOL_FAIL
  end.

(** The documented behaviour of the calls that receive. *)
Class ReceiveLaws := {
  codes_distinct : NoDup [PS_SUCCESS; MATRIXSSL_REQUEST_RECV; MATRIXSSL_REQUEST_SEND; MATRIXSSL_HANDSHAKE_COMPLETE;
    MATRIXSSL_RECEIVED_ALERT; MATRIXSSL_APP_DATA];
  fail_codes : PS_MEM_FAIL <> -1 /\ PS_ARG_FAIL <> -1 /\ PS_PROTOCOL_FAIL <> -1;
  received_ok : forall t d ret out t', matrixSslReceivedData t d = (ret, out, t') -> out_ok ret out /\ ret <> -1;
  processed_ok : forall t ret out t', matrixSslProcessedData t = (ret, out, t') -> out_ok ret out /\ ret <> -1
}.

Lemma codes_differ `{ReceiveLaws} :
  let others := [PS_SUCCESS; MATRIXSSL_REQUEST_RECV; MATRIXSSL_REQUEST_SEND; MATRIXSSL_HANDSHAKE_COMPLETE] in
  (forall ret, ret ∈ others -> ret <> MATRIXSSL_APP_DATA) /\ (forall ret, ret ∈ others -> ret <> MATRIXSSL_RECEIVED_ALERT) /\
  MATRIXSSL_RECEIVED_ALERT <> MATRIXSSL_APP_DATA.
Proof.
  pose proof codes_distinct as Hc. change (NoDup ([PS_SUCCESS; MATRIXSSL_REQUEST_RECV; MATRIXSSL_REQUEST_SEND; MATRIXSSL_HANDSHAKE_COMPLETE] ++
    [MATRIXSSL_RECEIVED_ALERT; MATRIXSSL_APP_DATA])) in Hc. apply NoDup_app in Hc as (_ & Hd & Hn).
  cbv zeta. split; [|split].
  - intros ret Hin ->. eapply Hd; [exact Hin|]. right. left.
  - intros ret Hin ->. eapply Hd; [exact Hin|]. left.
  - apply NoDup_cons in Hn as [Hn _]. intros He. apply Hn. rewrite He. left.
Qed.

(** ** A connection that is read *)

(** The buffer of a connection, and what of it was not read yet. *)
Definition view (c : mk_liana_ssl) : option bytes * Z * Z := (buf_ssl c, buf_len c, buf_used c).
Definition pending (v : option bytes * Z * Z) : bytes :=
  let '(p, n, used) := v in
  if used <? n then match p with Some b => take (Z.to_nat (n - used)) (drop (Z.to_nat used) b) | None => [] end else [].
Definition unread (c : mk_liana_ssl) : bytes := pending (view c).
(** The pointer has the bytes of the buffer that are not read. *)
Definition buffer_ok (v : option bytes * Z * Z) : Prop :=
  let '(p, n, used) := v in 0 <= n < 2 ^ 32 /\ 0 <= used /\ (used < n -> exists b, p = Some b /\ n <= Z.of_nat (length b)).
Definition drained (v : option bytes * Z * Z) : Prop := buffer_ok v /\ pending v = [].

Lemma drained_all p n : 0 <= n < 2 ^ 32 -> drained (p, n, n).
Proof. intros Hn. split; [|cbn; by rewrite Z.ltb_irrefl]. split; [done|]. split; [apply Hn|]. intros H. by apply Z.lt_irrefl in H. Qed.
(** The connection at [i] after the handshake, whose session decrypted [bs] since
    it was [t0]. *)
Definition reading (i : nat) (t0 : ssl_t) (Q : bytes -> option bytes * Z * Z -> Prop) (s : ssl_state) : Prop :=
  exists c t bs, sl_heap s !! i = Some c /\ ssl c = Some t /\ handshake_complete c = true /\ try_false_start c = false /\
    delivers t0 bs t /\ Q bs (view c).

Lemma reading_stable i t0 Q : send_stable (reading i t0 Q).
Proof.
  intros s j c c' (d & t & bs & Hd & Ht & Hh & Hf & Hl & HQ) Hj Hch. unfold reading. cbn. destruct (decide (i = j)) as [-> |Hne].
  - rewrite Hd in Hj. injection Hj as <-. rewrite lookup_insert_eq. destruct Hch as [b| |t1 n r t' Ht1 Hs].
    + by eexists _, t, bs.
    + by eexists _, t, bs.
    + rewrite Ht1 in Ht. injection Ht as ->. eexists _, t', bs. repeat (split; [done|]). split; [|done]. eapply dl_silent; [done|]. by eapply call_sent.
  - rewrite lookup_insert_ne by done. by exists d, t, bs.
Qed.

Lemma reading_weaken i t0 (Q Q' : bytes -> option bytes * Z * Z -> Prop) s : (forall bs v, Q bs v -> Q' bs v) -> reading i t0 Q s -> reading i t0 Q' s.
Proof. intros H (c & t & bs & ? & ? & ? & ? & ? & ?). exists c, t, bs. repeat (split; [done|]). by apply H. Qed.

Context `{laws : ReceiveLaws}.

(** What a call left in the buffer that nothing was read of yet. *)
Definition fresh (B : bytes) (ret : Z) (bs : bytes) (v : option bytes * Z * Z) : Prop :=
  (ret = -1 /\ bs = B /\ drained v) \/ ret = PS_ARG_FAIL \/ ret = PS_MEM_FAIL \/ ret = PS_PROTOCOL_FAIL \/
  (ret <> -1 /\ exists p n, v = (p, n, 0) /\ bs = B ++ record ret (Some (p, n)) /\ out_ok ret (Some (p, n))).

(** The end of a call that receives. *)
Lemma fresh_stored i t0 B c t1 s ret out t2 f k w a s' w' :
  sl_heap s !! i = Some c -> handshake_complete c = true -> try_false_start c = false -> delivers t0 B t1 ->
  lib_call t1 (record ret out) t2 -> out_ok ret out -> ret <> -1 ->
  (forall d, view (f d) = (buf_ssl d, buf_len d, 0) /\ ssl (f d) = ssl d /\ handshake_complete (f d) = handshake_complete d /\
     try_false_start (f d) = try_false_start d) ->
  (set_session i t2;; store_out i out;; k) s w = Some (a, s', w') ->
  (forall s1, k s1 w = (mod_conn i f;; mret ret) s1 w) ->
  reading i t0 (fresh B ret) s' /\ a = ret /\ w' = w.
Proof.
  intros Hc Hh Hf Hdel Hcall Hout Hret Hshape Hrun Hk. unfold set_session in Hrun. rewrite (mod_conn_run i c s w Hc) in Hrun.
  set (c1 := c <| ssl := Some t2 |>) in *. pose proof (upd_lookup i c1 s) as H1.
  assert (Hd2 : delivers t0 (B ++ record ret out) t2) by (by eapply dl_step). destruct out as [[p n]|].
  - rewrite (store_out_run i c1 (upd i c1 s) w H1), Hk in Hrun. set (c2 := c1 <| buf_ssl := p |> <| buf_len := u32 n |>) in *.
    rewrite ssl_upd_upd in Hrun. rewrite (mod_conn_run i c2 _ w (upd_lookup i c2 s)), ssl_upd_upd in Hrun. injection Hrun as <- <- <-.
    split; [|done]. destruct (Hshape c2) as (Hv & Hsl & Hh2 & Hf2). eexists (f c2), t2, _. rewrite upd_lookup, Hsl, Hh2, Hf2.
    repeat (split; [done|]). right. right. right. right. split; [done|]. exists p, n. rewrite Hv. cbn. rewrite u32_small by apply Hout. done.
  - cbn [store_out] in Hrun. unfold mbind at 1, P_bind at 1, mret at 1, P_ret at 1 in Hrun. rewrite Hk in Hrun.
    rewrite (mod_conn_run i c1 _ w H1), ssl_upd_upd in Hrun. injection Hrun as <- <- <-.
    split; [|done]. destruct (Hshape c1) as (Hv & Hsl & Hh2 & Hf2). eexists (f c1), t2, _. rewrite upd_lookup, Hsl, Hh2, Hf2.
    repeat (split; [done|]). destruct Hout as [-> |[-> | ->]]; unfold fresh; tauto.
Qed.

Lemma socket_read_fresh i t0 B s w ret s' w' :
  reading i t0 (fun bs _ => bs = B) s -> liana_ssl_handle_socket_read i s w = Some (ret, s', w') -> reading i t0 (fresh B ret) s'.
Proof.
  intros (c & t & bs & Hc & Ht & Hh & Hf & Hdel & ->) Hrun. unfold liana_ssl_handle_socket_read in Hrun.
  rewrite (get_conn_run i c s w Hc), Hf in Hrun. unfold mbind at 1, P_bind at 1, mret at 1, P_ret at 1 in Hrun.
  rewrite (get_conn_run i c s w Hc), (session_run i c s w Hc t) in Hrun by done. destruct (need_read c).
  - destruct (matrixSslGetReadbuf t) as [[n buf] t1] eqn:Hbuf.
    assert (Hd1 : delivers t0 B t1) by (eapply dl_silent; [done|by eapply call_readbuf]).
    rewrite (set_session_run i c s w Hc) in Hrun.
    set (c1 := match buf with Some b => c <| ssl := Some t1 |> <| buf_ssl := Some b |> | None => c <| ssl := Some t1 |> end).
    assert (Hc1 : ssl c1 = Some t1 /\ handshake_complete c1 = true /\ try_false_start c1 = false /\ socket_fd c1 = socket_fd c) by (by destruct buf).
    destruct Hc1 as (Hs1 & Hh1 & Hf1 & Hfd1).
    assert (Hstep : forall (k : unit -> L Z), (match buf with Some b => mod_conn i (fun c => c <| buf_ssl := Some b |>) | None => mret tt end ≫= k)
        (upd i (c <| ssl := Some t1 |>) s) w = k tt (upd i c1 s) w).
    { intros k. unfold c1. destruct buf; [by rewrite (mod_conn_run i (c <| ssl := Some t1 |>) _ w (upd_lookup _ _ _)), ssl_upd_upd|reflexivity]. }
    rewrite Hstep in Hrun. clear Hstep.
    destruct (n =? PS_ARG_FAIL) eqn:E1. { injection Hrun as <- <- <-. exists c1, t1, B. rewrite upd_lookup. repeat (split; [done|]). right. left. lia. }
    destruct (n =? 0) eqn:E2. { injection Hrun as <- <- <-. exists c1, t1, B. rewrite upd_lookup. repeat (split; [done|]). right. right. by left. }
    rewrite (mod_conn_run i c1 _ w (upd_lookup _ _ _)), ssl_upd_upd in Hrun.
    set (c2 := c1 <| buf_len := u32 n |> <| buf_used := u32 n |>) in *.
    assert (Hend : reading i t0 (fresh B (-1)) (upd i c2 s)).
    { exists c2, t1, B. rewrite upd_lookup. repeat (split; [done|]). left. split; [done|]. split; [done|]. apply drained_all, u32_range. }
    erewrite call_run in Hrun by reflexivity. cbv beta zeta in Hrun. erewrite call_run in Hrun by apply emit_run. cbv beta in Hrun.
    destruct (sock_read _ _ _) as [[|b d]|[r g]]; [by injection Hrun as <- <- <-| |by injection Hrun as <- <- <-].
    rewrite (get_conn_run i c2 _ _ (upd_lookup _ _ _)) in Hrun. unfold mbind at 1, P_bind at 1, liftP at 1 in Hrun.
    destruct (buf_ssl c2) as [rb|]; [|done]. cbn [mbind option_bind] in Hrun.
    unfold mbind at 1, P_bind at 1, liftP at 1 in Hrun. destruct (bwrite rb 0 _) as [rb'|]; [|done]. cbn [mbind option_bind] in Hrun.
    destruct (matrixSslReceivedData t1 (b :: d)) as [[ret' out] t2] eqn:Hrec. destruct (received_ok _ _ _ _ _ Hrec) as [Hout Hret].
    eapply (fresh_stored i t0 B c2 t1 _ ret' out t2 (fun c => c <| buf_used := 0 |> <| need_read := false |>)) in Hrun as (Hr & -> & ->);
      [done|apply upd_lookup|done|done|done|by eapply call_received|done|done|done|].
    intros s1. change (handshake_complete c2) with (handshake_complete c1). rewrite Hh1, andb_false_r. reflexivity.
  - destruct (matrixSslProcessedData t) as [[ret' out] t2] eqn:Hpro. destruct (processed_ok _ _ _ _ Hpro) as [Hout Hret].
    eapply (fresh_stored i t0 B c t s ret' out t2 (fun c => c <| buf_used := 0 |>)) in Hrun as (Hr & -> & ->);
      [done|done|done|done|done|by eapply call_processed|done|done|done|]. reflexivity.
Qed.

(** ** Reading conserves the data *)

(** A change of a connection that is read which only moves in its buffer. *)
Lemma reading_mod {A} i t0 (Q Q' : bytes -> option bytes * Z * Z -> Prop) f s w (k : unit -> L A) :
  reading i t0 Q s ->
  (forall c, ssl (f c) = ssl c /\ (handshake_complete c = true -> handshake_complete (f c) = true) /\ try_false_start (f c) = try_false_start c) ->
  (forall bs c, Q bs (view c) -> Q' bs (view (f c))) ->
  exists s2, (mod_conn i f ≫= k) s w = k tt s2 w /\ reading i t0 Q' s2.
Proof.
  intros (c & t & bs & Hc & Ht & Hh & Hf & Hdel & HQ) Hshape HV. exists (upd i (f c) s). split; [by apply mod_conn_run|].
  destruct (Hshape c) as (E1 & E2 & E3). exists (f c), t, bs. rewrite upd_lookup, E1, E3. repeat (split; [by auto|]). by apply HV.
Qed.

Lemma pending_empty p n : pending (p, n, n) = [].
Proof. cbn. by rewrite Z.ltb_irrefl. Qed.

(** A piece of a record is taken. *)
Lemma pending_split b n k :
  0 <= k <= n -> n < 2 ^ 32 -> n <= Z.of_nat (length b) -> take (Z.to_nat n) b = take (Z.to_nat k) b ++ pending (Some b, n, u32 (0 + k)).
Proof.
  intros Hk Hn Hb. rewrite u32_small by lia. rewrite Z.add_0_l. cbn [pending]. destruct (k <? n) eqn:E.
  - rewrite <- (take_drop (Z.to_nat k) (take (Z.to_nat n) b)) at 1. rewrite take_take, skipn_firstn_comm.
    f_equal; f_equal; lia.
  - rewrite app_nil_r. f_equal. lia.
Qed.

(** Nothing was decrypted and nothing is in the buffer. *)
Lemma fresh_quiet B ret bs v :
  fresh B ret bs v -> ret <> PS_ARG_FAIL -> ret <> PS_MEM_FAIL -> ret <> PS_PROTOCOL_FAIL ->
  ret <> MATRIXSSL_APP_DATA -> ret <> MATRIXSSL_RECEIVED_ALERT -> bs = B /\ drained v.
Proof.
  intros [(-> & -> & Hp)|[?|[?|[?|(_ & p & n & -> & -> & Hout)]]]] ? ? ? Happ Hal; try done. unfold record. destruct Hout as [_ Hout].
  apply Z.eqb_neq in Happ, Hal. rewrite Happ in *. rewrite Hal in Hout. subst n. split; [apply app_nil_r|]. by apply drained_all.
Qed.

(** The two bytes of an alert are passed over. *)
Definition alerted (B : bytes) (bs : bytes) (v : option bytes * Z * Z) : Prop := bs = B /\ exists p, v = (p, 2, 0).

Lemma fresh_alert B ret bs v :
  fresh B ret bs v -> ret <> -1 -> ret <> PS_ARG_FAIL -> ret <> PS_MEM_FAIL -> ret <> PS_PROTOCOL_FAIL ->
  ret = MATRIXSSL_RECEIVED_ALERT -> ret <> MATRIXSSL_APP_DATA -> alerted B bs v.
Proof.
  intros [(? & _)|[?|[?|[?|(_ & p & n & -> & -> & Hout)]]]] ? ? ? ? Hal Happ; try done. unfold record. destruct Hout as [_ Hout].
  apply Z.eqb_neq in Happ. apply Z.eqb_eq in Hal. rewrite Happ in *. rewrite Hal in Hout. subst n. split; [apply app_nil_r|by exists p].
Qed.

Lemma connection_close_reading i t0 Q fd : triple (reading i t0 Q) (_mkp_network_io_close fd) (fun _ => reading i t0 Q).
Proof.
  unfold _mkp_network_io_close. eapply triple_bind; [apply triple_connection|]. intros r. eapply triple_pre; [intros s [H _]; exact H|].
  destruct r; [|apply (triple_ret _ (fun _ => reading i t0 Q))]. eapply triple_bind; [apply triple_get_conn|]. intros c.
  eapply triple_pre; [intros s [H _]; exact H|]. tcall. apply (triple_ret _ (fun _ => reading i t0 Q)).
Qed.

Lemma alert_reading i t0 B s w x s' w' :
  reading i t0 (alerted B) s -> liana_ssl_handle_alert i s w = Some (x, s', w') -> reading i t0 (fun bs v => bs = B /\ drained v) s'.
Proof.
  intros Hs Hrun. unfold liana_ssl_handle_alert in Hrun. pose proof Hs as (c & _ & _ & Hc & _). rewrite (get_conn_run i c s w Hc) in Hrun.
  unfold mbind at 1, P_bind at 1, liftP at 1 in Hrun. destruct (buf_ssl c) as [buf|]; [|done]. cbn [mbind option_bind] in Hrun.
  unfold mbind at 1, P_bind at 1, liftP at 1 in Hrun. destruct (buf !! 0%nat) as [b0|]; [|done]. cbn [mbind option_bind] in Hrun.
  unfold mbind at 1, P_bind at 1, liftP at 1 in Hrun. destruct (buf !! 1%nat) as [b1|]; [|done]. cbn [mbind option_bind] in Hrun. cbv zeta in Hrun.
  match type of Hrun with (mod_conn i ?f ≫= ?k) _ _ = _ =>
    destruct (reading_mod i t0 _ (fun bs v => bs = B /\ drained v) f s w k Hs) as (s2 & Hk & H2) end.
  - done.
  - intros bs d [-> (p & Hv)]. split; [done|]. unfold view in *. injection Hv as _ Hn Hu. cbn. rewrite Hn, Hu. by apply drained_all.
  - rewrite Hk in Hrun. clear Hk. revert Hrun. set (m := reading i t0 (fun bs v => bs = B /\ drained v)) in *.
    assert (Hend : forall b, triple m (_ ← _mkp_network_io_close (socket_fd c); mret b : L Z) (fun _ => m)).
    { intros b. eapply triple_bind; [apply connection_close_reading|]. intros ?. apply (triple_ret _ (fun _ => m)). }
    repeat case_if; intros Hrun; first [exact (Hend _ s2 w x s' w' H2 Hrun)|by injection Hrun as <- <- <-].
Qed.

(** A record is in the buffer. *)
Definition stored (B : bytes) (bs : bytes) (v : option bytes * Z * Z) : Prop :=
  exists b n, v = (Some b, n, 0) /\ bs = B ++ take (Z.to_nat n) b /\ 0 <= n < 2 ^ 32 /\ n <= Z.of_nat (length b).

Lemma fresh_stored_record B ret bs v :
  fresh B ret bs v -> ret <> -1 -> ret <> PS_ARG_FAIL -> ret <> PS_MEM_FAIL -> ret <> PS_PROTOCOL_FAIL ->
  ret = MATRIXSSL_APP_DATA -> stored B bs v.
Proof.
  intros [(? & _)|[?|[?|[?|(_ & p & n & -> & -> & Hout)]]]] ? ? ? ? Happ; try done. unfold record. destruct Hout as [Hn Hout].
  apply Z.eqb_eq in Happ. rewrite Happ in *. destruct Hout as (b & -> & Hb). exists b, n. repeat (split; [done|]). done.
Qed.

(** The data so far, with the rest of the last record behind a full buffer. *)
Definition filled (u0 : bytes) (count : Z) (used bs : bytes) (v : option bytes * Z * Z) : Prop :=
  u0 ++ bs = used ++ pending v /\ buffer_ok v /\ (Z.of_nat (length used) < count -> pending v = []).

(** What is left after a read. *)
Definition rest (u0 d bs : bytes) (v : option bytes * Z * Z) : Prop := u0 ++ bs = d ++ pending v /\ buffer_ok v.

Lemma filled_empty u0 count used B bs v : u0 ++ B = used -> bs = B /\ drained v -> filled u0 count used bs v.
Proof. intros HB [-> [Hv Hp]]. split; [by rewrite Hp, app_nil_r|done]. Qed.

Lemma read_loop_conserves wf fuel i t0 u0 count : forall used s w d s' w',
  Z.of_nat (length used) <= count -> count < 2 ^ 32 ->
  reading i t0 (fun bs _ => u0 ++ bs = used) s -> read_loop wf fuel i true count used s w = Some (Some d, s', w') ->
  reading i t0 (rest u0 d) s' /\ Z.of_nat (length d) <= count.
Proof.
  induction fuel as [|fuel IH]; intros used s w d s' w' Hlen Hcount Hs Hrun; [done|]. cbn [read_loop] in Hrun. cbv zeta in Hrun.
  assert (Hagain : forall used' s2 w2, Z.of_nat (length used') <= count -> reading i t0 (filled u0 count used') s2 ->
      (if (Z.of_nat (length used') <? count) || negb true then read_loop wf fuel i true count used' else mret (Some used')) s2 w2 = Some (Some d, s', w') ->
      reading i t0 (rest u0 d) s' /\ Z.of_nat (length d) <= count).
  { intros used' s2 w2 Hl H2. case_if; cbn in E.
    - apply IH; [done|done|]. eapply reading_weaken; [|exact H2]. intros bs v (HQ & _ & Hp). rewrite HQ, Hp by lia. apply app_nil_r.
    - intros [= <- <- <-]. split; [|done]. eapply reading_weaken; [|exact H2]. by intros bs v (? & ? & _). }
  destruct (liana_ssl_handle_socket_read i s w) as [[[ret s1] w1]|] eqn:Hread; [|unfold mbind, P_bind in Hrun; by rewrite Hread in Hrun].
  rewrite (P_bind_run _ _ _ _ _ _ _ Hread) in Hrun. cbv beta in Hrun.
  assert (Hfresh : exists B, u0 ++ B = used /\ reading i t0 (fresh B ret) s1).
  { destruct Hs as (c & t & bs & Hc & Ht & Hh & Hf & Hdel & HQ). exists bs. split; [done|]. eapply socket_read_fresh; [|done]. by exists c, t, bs. }
  destruct Hfresh as (B & HB & H1). erewrite call_run in Hrun by reflexivity. cbv beta in Hrun.
  pose proof codes_differ as (Ha & Hb & Hab). destruct fail_codes as (Hmem & Harg & Hprot).
  destruct (ret =? -1) eqn:E1.
  { case_if_in Hrun; injection Hrun as Hd <- <-; [subst d|done]. split; [|done]. eapply reading_weaken; [|exact H1]. cbv beta.
    intros bs v [(_ & -> & [Hv Hp])|[?|[?|[?|[? _]]]]]; [split; [by rewrite Hp, app_nil_r|done]|lia..]. }
  apply Z.eqb_neq in E1.
  destruct ((ret =? PS_MEM_FAIL) || (ret =? PS_ARG_FAIL)) eqn:E2; [done|]. apply orb_false_iff in E2 as [E2 E3]. apply Z.eqb_neq in E2, E3.
  destruct (ret =? PS_PROTOCOL_FAIL) eqn:E4.
  { exfalso. clear -Hrun. unfold mbind, P_bind in Hrun. destruct (get_conn i s1 w1) as [[[c s2] w2]|]; [|done].
    destruct (_mkp_network_io_close _ s2 w2) as [[[x s3] w3]|]; [|done]. done. }
  apply Z.eqb_neq in E4.
  assert (Hquiet : ret <> MATRIXSSL_APP_DATA -> ret <> MATRIXSSL_RECEIVED_ALERT -> reading i t0 (fun bs v => bs = B /\ drained v) s1).
  { intros Hx Hy. eapply reading_weaken; [|exact H1]. intros bs v Hv. by eapply fresh_quiet. }
  assert (Hshape : forall Q f k, (forall c, ssl (f c) = ssl c /\ (handshake_complete c = true -> handshake_complete (f c) = true) /\
      try_false_start (f c) = try_false_start c /\ view (f c) = view c) -> reading i t0 Q s1 ->
      exists s2, (mod_conn i f ≫= k : L (option bytes)) s1 w1 = k tt s2 w1 /\ reading i t0 Q s2).
  { intros Q f k Hf HQ. eapply reading_mod; [exact HQ| |]; intros; destruct (Hf c) as (? & ? & ? & Hv); [done|]. by rewrite Hv. }
  destruct (ret =? PS_SUCCESS) eqn:E5.
  { assert (Hr : ret <> MATRIXSSL_APP_DATA /\ ret <> MATRIXSSL_RECEIVED_ALERT) by (split; [apply Ha|apply Hb]; apply Z.eqb_eq in E5 as ->; left). destruct Hr as [Hr1 Hr2].
    match type of Hrun with (mod_conn i ?f ≫= ?k) _ _ = _ =>
      destruct (reading_mod i t0 _ (rest u0 used) f s1 w1 k (Hquiet Hr1 Hr2)) as (s2 & Hk & H2) end.
    - done.
    - intros bs c [-> [Hv _]]. destruct (drained_all (buf_ssl c) (buf_len c)) as [Hd Hp]; [apply Hv|]. split; [|exact Hd].
      change (view _) with (buf_ssl c, buf_len c, buf_len c). by rewrite Hp, app_nil_r.
    - rewrite Hk in Hrun. injection Hrun as <- <- <-. done. }
  apply Z.eqb_neq in E5.
  destruct (ret =? MATRIXSSL_REQUEST_RECV) eqn:E6.
  { edestruct Hshape as (s2 & Hk & H2); [| |rewrite Hk in Hrun; eapply Hagain; [exact Hlen| |exact Hrun]]; [done|apply Hquiet; [apply Ha|apply Hb]; apply Z.eqb_eq in E6 as ->; right; left|].
    eapply reading_weaken; [|exact H2]. intros bs v Hv. by eapply filled_empty. }
  apply Z.eqb_neq in E6.
  destruct (ret =? MATRIXSSL_REQUEST_SEND) eqn:E7.
  { edestruct Hshape as (s2 & Hk & H2); [| |rewrite Hk in Hrun]; [done|apply Hquiet; [apply Ha|apply Hb]; apply Z.eqb_eq in E7 as ->; do 2 right; left|]. cbv beta in Hrun.
    unfold mbind at 1, P_bind at 1 in Hrun. destruct (get_conn i s2 w1) as [[[c s3] w3]|] eqn:Eg; [|done].
    destruct (triple_get_conn _ i s2 w1 c s3 w3 H2 Eg) as [H3 _].
    unfold mbind at 1, P_bind at 1 in Hrun. destruct (_mkp_event_write wf (socket_fd c) s3 w3) as [[[x s4] w4]|] eqn:Ew; [|done].
    pose proof (event_write_stable _ (reading_stable i t0 _) wf (socket_fd c) s3 w3 x s4 w4 H3 Ew) as H4. cbv beta in H4.
    eapply Hagain; [exact Hlen| |exact Hrun]. eapply reading_weaken; [|exact H4]. intros bs v Hv. by eapply filled_empty. }
  apply Z.eqb_neq in E7.
  destruct (ret =? MATRIXSSL_HANDSHAKE_COMPLETE) eqn:E8.
  { edestruct Hshape as (s2 & Hk & H2); [| |rewrite Hk in Hrun; eapply Hagain; [exact Hlen| |exact Hrun]]; [done|apply Hquiet; [apply Ha|apply Hb]; apply Z.eqb_eq in E8 as ->; do 3 right; left|].
    eapply reading_weaken; [|exact H2]. intros bs v Hv. by eapply filled_empty. }
  apply Z.eqb_neq in E8.
  destruct (ret =? MATRIXSSL_RECEIVED_ALERT) eqn:E9.
  { unfold mbind at 1, P_bind at 1 in Hrun. destruct (liana_ssl_handle_alert i s1 w1) as [[[x s2] w2]|] eqn:Eal; [|done].
    assert (H2 : reading i t0 (fun bs v => bs = B /\ drained v) s2).
    { eapply alert_reading; [|exact Eal]. eapply reading_weaken; [|exact H1]. intros bs v Hv. apply Z.eqb_eq in E9. eapply fresh_alert; [exact Hv|done..|congruence]. }
    case_if_in Hrun; [done|]. eapply Hagain; [exact Hlen| |exact Hrun]. eapply reading_weaken; [|exact H2]. intros bs v Hv. by eapply filled_empty. }
  apply Z.eqb_neq in E9.
  destruct (ret =? MATRIXSSL_APP_DATA) eqn:E10; [|done]. apply Z.eqb_eq in E10.
  edestruct Hshape as (s2 & Hk & H2); [| |rewrite Hk in Hrun; clear Hk]; [done| |].
  { eapply (reading_weaken i t0 _ (stored B)); [|exact H1]. intros bs v Hv. by eapply fresh_stored_record. }
  destruct H2 as (c & t & bs & Hc & Ht & Hh & Hf & Hdel & b & n & Hv & -> & Hn & Hb'). cbn [negb] in Hrun. rewrite (get_conn_run i c s2 w1 Hc) in Hrun.
  injection Hv as Hv1 Hv2 Hv3. rewrite Hv1, Hv2 in Hrun. cbv zeta in Hrun.
  set (k := if count - Z.of_nat (length used) <? n then count - Z.of_nat (length used) else n) in *.
  assert (Hk : 0 <= k <= n /\ k <= count - Z.of_nat (length used) /\ (k < count - Z.of_nat (length used) -> k = n)) by (unfold k; case_if; lia).
  destruct Hk as (Hk & Hkc & Hkn). clearbody k. clear Ha Hb IH Hshape Hquiet.
  assert (Hread' : (if k =? 0 then Some [] else p ← Some b; memread p k) = Some (take (Z.to_nat k) b)).
  { destruct (k =? 0) eqn:Ek; [apply Z.eqb_eq in Ek; by rewrite Ek|]. cbn [mbind option_bind]. apply memread_take. clear -Hk Hb'. lia. }
  rewrite Hread' in Hrun. rewrite (liftP_run _ _ _ _ _ eq_refl) in Hrun. rewrite (mod_conn_run i c s2 w1 Hc) in Hrun.
  assert (Hlk : length (take (Z.to_nat k) b) = Z.to_nat k) by (clear -Hk Hb'; rewrite length_take; lia).
  eapply Hagain; [| |exact Hrun]; [rewrite length_app, Hlk; clear -Hk Hkc; lia|].
  eexists _, t, _. rewrite upd_lookup. repeat (split; [done|]).
  change (view _) with (buf_ssl c, buf_len c, u32 (buf_used c + k)). rewrite Hv1, Hv2, Hv3. split; [|split].
  - rewrite app_assoc, HB, <- app_assoc. f_equal. apply pending_split; clear -Hk Hn Hb'; lia.
  - rewrite u32_small by (clear -Hk Hn; lia). split; [exact Hn|]. split; [apply Hk|]. intros _. by exists b.
  - rewrite length_app, Hlk. intros Hlt. rewrite Hkn by (clear -Hlt Hk Hkc; lia). rewrite u32_small by (clear -Hn; lia). apply pending_empty.
Qed.

(** What was kept from the last read is given first. *)
Lemma remain_conserves i t0 v0 count s w d s' w' :
  reading i t0 (fun bs v => bs = [] /\ v = v0) s -> buffer_ok v0 -> Z.of_nat (length (pending v0)) <= count ->
  liana_ssl_handle_remain i count s w = Some (d, s', w') -> reading i t0 (fun bs _ => bs = []) s' /\ d = pending v0.
Proof.
  intros (c & t & bs & Hc & Ht & Hh & Hf & Hdel & -> & Hv) Hok Hlen Hrun. unfold liana_ssl_handle_remain in Hrun.
  rewrite (get_conn_run i c s w Hc) in Hrun. subst v0. cbn in Hok, Hlen. cbv zeta in Hrun. destruct Hok as (Hn & Hu & Hb).
  assert (Hsame : reading i t0 (fun bs _ => bs = []) s) by (by exists c, t, []).
  destruct (buf_used c <? buf_len c) eqn:Elt.
  - destruct Hb as (b & Hb & Hnb); [lia|]. cbn [view pending]. rewrite Elt, Hb in *.
    rewrite length_take, length_drop in Hlen. rewrite (u32_small (buf_len c - buf_used c)) in Hrun by (clear -Hn Hu Elt; lia).
    replace (count <? buf_len c - buf_used c) with false in Hrun by (clear -Hlen Hnb Elt Hu; zb).
    replace ((count =? 0) || (buf_len c <=? buf_used c) || (buf_len c - buf_used c =? 0)) with false in Hrun by (clear -Hlen Hnb Elt Hu; zb).
    rewrite (liftP_run _ _ _ _ _ eq_refl) in Hrun.
    assert (Hpadd : padd b (buf_used c) = Some (drop (Z.to_nat (buf_used c)) b)).
    { unfold padd. by replace (_ && _) with true by (clear -Hu Elt Hnb; zb). }
    rewrite (liftP_run _ _ _ _ _ Hpadd) in Hrun.
    assert (Hmem : memread (drop (Z.to_nat (buf_used c)) b) (buf_len c - buf_used c) = Some (take (Z.to_nat (buf_len c - buf_used c)) (drop (Z.to_nat (buf_used c)) b))).
    { apply memread_take. rewrite length_drop. clear -Hu Elt Hnb. lia. }
    rewrite (liftP_run _ _ _ _ _ Hmem) in Hrun.
    match type of Hrun with (mod_conn i ?f ≫= ?k) _ _ = _ => destruct (reading_mod i t0 _ (fun bs _ => bs = []) f s w k Hsame) as (s2 & Hk & H2) end.
    + done.
    + done.
    + rewrite Hk in Hrun. injection Hrun as <- <- <-. done.
  - cbn [view pending]. rewrite Elt. replace ((count =? 0) || (buf_len c <=? buf_used c) || _) with true in Hrun by (clear -Elt; zb).
    by injection Hrun as <- <- <-.
Qed.


(** ** What the library encrypts is written

    The documented behaviour of the calls that send, and of [write(2)]. *)
Definition outdata (t : ssl_t) : bytes := snd (matrixSslGetOutdata t).

Class SendLaws := {
  outdata_length : forall t, fst (matrixSslGetOutdata t) = Z.of_nat (length (outdata t)) /\ Z.of_nat (length (outdata t)) < 2 ^ 31;
  fail_negative : PS_ARG_FAIL < 0;
  sent_ok : forall t n r t', 0 < n <= Z.of_nat (length (outdata t)) -> matrixSslSentData t n = (r, t') ->
    outdata t' = drop (Z.to_nat n) (outdata t) /\
    (r = MATRIXSSL_REQUEST_CLOSE \/ r = MATRIXSSL_REQUEST_SEND \/ outdata t' = []);
  send_codes : NoDup [MATRIXSSL_REQUEST_CLOSE; MATRIXSSL_REQUEST_SEND; MATRIXSSL_HANDSHAKE_COMPLETE; MATRIXSSL_SUCCESS];
  write_takes : forall t fd d, d <> [] -> sock_write t fd d = -1 \/ 0 < sock_write t fd d <= Z.of_nat (length d)
}.

(** A run of the loop: the connection after it, and what was written. *)
Record flushed (i : nat) (c : mk_liana_ssl) (t : ssl_t) (s : ssl_state) (w : world) (r : Z + bool) (s' : ssl_state) (w' : world) : Prop := {
  fl_conn : exists c' t', s' = upd i c' s /\ ssl c' = Some t' /\
    exists tr, w_trace w' = w_trace w ++ tr /\ written (socket_fd c) tr ++ outdata t' = outdata t /\
      (r = inr false -> outdata t' = []);
  fl_again : forall x, r = inl x -> x = MK_PLUGIN_RET_EVENT_CONTINUE;
}.

Lemma ssl_written_cork fd k x t : written fd (EvCork k x :: t) = written fd t.
Proof. reflexivity. Qed.
Lemma written_epoll fd op e k ev t : written fd (EvEpollCtl op e k ev :: t) = written fd t.
Proof. reflexivity. Qed.

Lemma mode_call_run {B} k mode (f : Z -> L B) s w :
  mode <> MK_EPOLL_WAKEUP -> 0 <= mode < 256 ->
  exists r w' ev, w_trace w' = w_trace w ++ [EvEpollCtl EPOLL_CTL_MOD (sl_epoll_fd (w_sched w)) k ev] /\
    (call (mk_plugin_event_socket_change_mode k mode MK_EPOLL_LEVEL_TRIGGERED) ≫= f) s w = f r s w'.
Proof.
  intros H1 H2. unfold mk_plugin_event_socket_change_mode.
  destruct (change_mode_run w (sl_epoll_fd (w_sched w)) k mode MK_EPOLL_LEVEL_TRIGGERED H1 H2) as (r & ev & Hrun).
  eexists r, _, ev. split; [|erewrite call_run; [reflexivity|erewrite bind_run by reflexivity; exact Hrun]]. reflexivity.
Qed.

Context `{slaws : SendLaws}.

(** One round: what the library has is given to the socket between two corks. *)
Definition round_events (fd : Z) (d : bytes) (n : Z) : list event :=
  [EvCork fd MK_TRUE; EvWrite fd (take (Z.to_nat n) d); EvCork fd MK_FALSE].

Lemma write_run fd d w : write fd d w = Some (sock_write (w_trace w) fd d, logged w [EvWrite fd (take (Z.to_nat (sock_write (w_trace w) fd d)) d)]).
Proof. reflexivity. Qed.

Lemma round_writes fd d n : written fd (round_events fd d n) = take (Z.to_nat n) d.
Proof. cbn. by rewrite Z.eqb_refl, app_nil_r. Qed.

Lemma flushed_end i c t c1 t1 s w w1 tr r :
  ssl c1 = Some t1 -> w_trace w1 = w_trace w ++ tr -> written (socket_fd c) tr ++ outdata t1 = outdata t ->
  (r = inr false -> outdata t1 = []) -> (forall x, r = inl x -> x = MK_PLUGIN_RET_EVENT_CONTINUE) ->
  flushed i c t s w r (upd i c1 s) w1.
Proof. intros H1 H2 H3 H4 H5. split; [|done]. exists c1, t1. repeat (split; [done|]). by exists tr. Qed.

Lemma flushed_step i c t c1 t1 s w w1 tr r s' w' :
  socket_fd c1 = socket_fd c -> w_trace w1 = w_trace w ++ tr -> written (socket_fd c) tr ++ outdata t1 = outdata t ->
  flushed i c1 t1 (upd i c1 s) w1 r s' w' -> flushed i c t s w r s' w'.
Proof.
  intros Hfd Htr Hw [(c' & t' & -> & Hsl & tr' & Htr' & Hw' & Hr) Ha]. split; [|done]. exists c', t'. rewrite ssl_upd_upd. split; [done|]. split; [done|].
  exists (tr ++ tr'). rewrite app_assoc, <- Htr. split; [done|]. rewrite Hfd in Hw'. by rewrite written_app, <- app_assoc, Hw'.
Qed.

Lemma write_loop_flushed i fd fuel : forall b s w c t,
  sl_heap s !! i = Some c -> ssl c = Some t -> (length (outdata t) < fuel)%nat ->
  exists r s' w', write_loop fuel i fd b s w = Some (r, s', w') /\ flushed i c t s w r s' w'.
Proof.
  induction fuel as [|fuel IH]; intros b s w c t Hc Ht Hfuel; [lia|]. cbn [write_loop].
  rewrite (session_run i c s w Hc t) by done. destruct (outdata_length t) as [Hlen Hsmall]. unfold outdata in Hlen, Hsmall, Hfuel.
  destruct (matrixSslGetOutdata t) as [ret buf] eqn:Hout. cbn [fst snd] in *. assert (Ho : outdata t = buf) by (unfold outdata; by rewrite Hout).
  destruct (ret =? 0) eqn:E0.
  { assert (Hnil : buf = []) by (destruct buf; [done|cbn in Hlen; lia]).
    rewrite (mod_conn_run i c s w Hc). eexists (inr b), _, w. split; [reflexivity|].
    eapply (flushed_end _ _ _ _ t _ _ _ []); [done|by rewrite app_nil_r|done|by rewrite Ho|done]. }
  destruct (ret =? PS_ARG_FAIL) eqn:E1. { exfalso. pose proof fail_negative. lia. }
  rewrite (get_conn_run i c s w Hc). set (k := socket_fd c). erewrite call_run by reflexivity. cbv beta.
  rewrite (u32_small ret) by lia. rewrite (liftP_run _ _ _ _ buf) by (rewrite Hlen; rewrite memread_take by lia; by rewrite Nat2Z.id, take_ge).
  erewrite call_run by apply write_run. cbv beta. set (n := sock_write _ k buf). erewrite call_run by reflexivity. cbv beta.
  match goal with |- context [if n =? -1 then _ else ?x] => set (go := x) end.
  set (w3 := logged w (round_events k buf n)).
  match goal with |- context [(if _ then _ else go) s ?w0] => replace w0 with w3 by (unfold w3, round_events, logged, emit; cbn; by rewrite <- !app_assoc) end.
  assert (Hbuf : buf <> []) by (intros ->; cbn in Hlen; lia).
  destruct (n =? -1) eqn:En.
  { erewrite call_run by reflexivity. cbv beta. assert (Hs : s = upd i c s) by (unfold upd; cbn; rewrite insert_id by done; by destruct s).
    apply Z.eqb_eq in En.
    assert (Hend : forall r, (r = inr false -> outdata t = []) -> (forall x, r = inl x -> x = MK_PLUGIN_RET_EVENT_CONTINUE) -> flushed i c t s w r s w3).
    { intros r H1 H2. rewrite Hs at 2. eapply (flushed_end _ _ _ _ t _ _ _ (round_events k buf n)); [done|reflexivity| |done|done].
      fold k. by rewrite round_writes, En. }
    destruct (errno_again (w_trace w3)); eexists _, s, w3; (split; [reflexivity|]); apply Hend; try done. by intros x [= ->]. }
  destruct (write_takes (w_trace (logged w [EvCork k MK_TRUE])) k buf Hbuf) as [Hn|Hn]; [apply Z.eqb_neq in En; by destruct En|].
  change (sock_write _ k buf) with n in Hn. subst go. rewrite (u32_small n) by lia.
  destruct (matrixSslSentData t n) as [r1 t1] eqn:Hsent. destruct (sent_ok t n r1 t1) as [Ho1 Hr1]; [rewrite Ho; exact Hn|exact Hsent|].
  rewrite (set_session_run i c s w3 Hc). set (c1 := c <| ssl := Some t1 |>).
  assert (Hwr : written k (round_events k buf n) ++ outdata t1 = outdata t).
  { by rewrite round_writes, Ho1, Ho, take_drop. }
  assert (Hloop : forall c2 b', ssl c2 = Some t1 -> socket_fd c2 = k ->
    exists r s' w', write_loop fuel i fd b' (upd i c2 s) w3 = Some (r, s', w') /\ flushed i c t s w r s' w').
  { intros c2 b' Hs2 Hk2. destruct (IH b' (upd i c2 s) w3 c2 t1) as (r & s' & w' & Hrun & Hfl); [apply upd_lookup|done|rewrite Ho1, length_drop, Ho; lia|].
    exists r, s', w'. split; [done|]. by eapply (flushed_step i c t c2 t1 s w w3 (round_events k buf n)). }
  destruct (r1 =? MATRIXSSL_REQUEST_CLOSE) eqn:E2.
  { rewrite (mod_conn_run i c1 _ _ (upd_lookup _ _ _)), ssl_upd_upd. by apply Hloop. }
  destruct (r1 =? MATRIXSSL_REQUEST_SEND) eqn:E3. { by apply Hloop. }
  assert (Hall : outdata t1 = []) by (destruct Hr1 as [?|[?|?]]; [lia|lia|done]).
  destruct (r1 =? MATRIXSSL_HANDSHAKE_COMPLETE) eqn:E4.
  { rewrite (mod_conn_run i c1 _ _ (upd_lookup _ _ _)), ssl_upd_upd. cbv beta. destruct (@mode_call_run (Z + bool) k MK_EPOLL_READ (fun _ => mret (inr b)) (upd i (c1 <| handshake_complete := true |>) s) w3)
      as (x & w4 & ev & Htr & Hcall); [done|done|].
    rewrite Hcall. eexists _, _, w4. split; [reflexivity|].
    eapply (flushed_end _ _ _ _ t1 _ _ _ (round_events k buf n ++ [EvEpollCtl EPOLL_CTL_MOD _ k ev])); [done|by rewrite Htr, app_assoc| |done|done].
    rewrite written_app. cbn [written map concat]. by rewrite app_nil_r. }
  destruct (r1 =? MATRIXSSL_SUCCESS) eqn:E5; [|by apply Hloop].
  rewrite (mod_conn_run i c1 _ _ (upd_lookup _ _ _)), ssl_upd_upd. cbv beta. destruct (negb (handshake_complete c)).
  - match goal with |- context [((_ ← call _; _) ≫= ?f) ?s1 w3] => destruct (@mode_call_run unit fd MK_EPOLL_READ (fun _ => mret tt) s1 w3) as (x & w4 & ev & Htr & Hcall) end; [done|done|].
    rewrite (P_bind_run _ _ _ _ _ _ _ Hcall). eexists _, _, w4. split; [reflexivity|].
    eapply (flushed_end _ _ _ _ t1 _ _ _ (round_events k buf n ++ [EvEpollCtl EPOLL_CTL_MOD _ fd ev])); [done|by rewrite Htr, app_assoc| |done|done].
    rewrite written_app. cbn [written map concat]. by rewrite app_nil_r.
  - eexists _, _, w3. split; [reflexivity|]. by eapply (flushed_end _ _ _ _ t1 _ _ _ (round_events k buf n)).
Qed.

Lemma event_write_flushed fuel fd i c t s w :
  liana_ssl_get_connection fd s w = Some (Some i, s, w) -> sl_heap s !! i = Some c -> ssl c = Some t -> need_write c = true ->
  (length (outdata t) < fuel)%nat ->
  exists r s' w' c' t' tr, _mkp_event_write fuel fd s w = Some (r, s', w') /\ s' = upd i c' s /\ ssl c' = Some t' /\
    w_trace w' = w_trace w ++ tr /\ written (socket_fd c) tr ++ outdata t' = outdata t /\
    (r <> MK_PLUGIN_RET_EVENT_CONTINUE -> r <> MK_PLUGIN_RET_EVENT_CLOSE -> outdata t' = []).
Proof.
  intros Hget Hc Ht Hnw Hfuel. unfold _mkp_event_write. rewrite (P_bind_run _ _ _ _ _ _ _ Hget). cbv beta iota.
  rewrite (get_conn_run i c s w Hc), Hnw. cbn [negb].
  destruct (write_loop_flushed i fd fuel false s w c t Hc Ht Hfuel) as (r & s' & w' & Hrun & (c' & t' & -> & Hsl & tr & Htr & Hw & Hr) & Ha).
  rewrite (P_bind_run _ _ _ _ _ _ _ Hrun). cbv beta. destruct r as [x|b].
  - eexists x, _, w', c', t', tr. split; [reflexivity|]. rewrite (Ha x eq_refl). by repeat (split; [done|]).
  - rewrite (get_conn_run i c' _ _ (upd_lookup _ _ _)). destruct b.
    + eexists _, _, w', c', t', tr. split; [reflexivity|]. by repeat (split; [done|]).
    + destruct (negb (handshake_complete c')); [|destruct (try_false_start c')];
        eexists _, _, w', c', t', tr; (split; [reflexivity|]); repeat (split; [done|]); intros _ _; by apply Hr.
Qed.

(** The lookup of a connection does not see a change that keeps its socket. *)
Lemma find_conn_upd i c c' s w fd l r :
  sl_heap s !! i = Some c -> socket_fd c' = socket_fd c -> find_conn fd l s w = Some (r, s, w) ->
  find_conn fd l (upd i c' s) w = Some (r, upd i c' s, w).
Proof.
  intros Hc Hfd. induction l as [|k l IH]; cbn [find_conn]; [by intros [= <-]|].
  unfold get_conn, getP, liftP, mbind, P_bind. cbn. destruct (decide (i = k)) as [-> |Hne].
  - rewrite lookup_insert_eq, Hc. cbn. rewrite Hfd. case_if; [by intros [= <-]|exact IH].
  - rewrite lookup_insert_ne by done. destruct (sl_heap s !! k) as [ck|]; [|done]. cbn. case_if; [by intros [= <-]|exact IH].
Qed.
Lemma connection_upd i c c' s w fd r :
  sl_heap s !! i = Some c -> socket_fd c' = socket_fd c -> liana_ssl_get_connection fd s w = Some (r, s, w) ->
  liana_ssl_get_connection fd (upd i c' s) w = Some (r, upd i c' s, w).
Proof. intros Hc Hfd. apply (find_conn_upd i c c' s w fd (sl_list s) r Hc Hfd). Qed.

(** C33: sending on a connection gives the library the longest prefix of the
    data that it has room for and says how much that was; then, in a number of
    rounds bounded by the data the library holds, what it encrypted is written to
    the socket: what was written and what the library still holds are its data, in
    order. The event of a socket that can be written does the same; nothing is
    left unless the event is to come again or the connection is to be closed. *)
Theorem ssl_write_sends fuel fd i c t buf n room t1 ret t2 s w :
  liana_ssl_get_connection fd s w = Some (Some i, s, w) -> sl_heap s !! i = Some c -> ssl c = Some t ->
  0 <= n <= Z.of_nat (length buf) -> n < 2 ^ 31 -> 0 < room < 2 ^ 31 ->
  matrixSslGetWritebuf t n = (room, t1) ->
  matrixSslEncodeWritebuf t1 (take (Z.to_nat (Z.min room n)) buf) = (ret, t2) ->
  PS_MEM_FAIL < 0 -> PS_FAILURE < 0 -> ret <> PS_ARG_FAIL -> ret <> PS_PROTOCOL_FAIL -> ret <> PS_FAILURE ->
  (length (outdata t2) < fuel)%nat ->
  (exists s' w' c' t' tr, _mkp_network_io_write fuel fd (Some buf) n s w = Some (Z.min room n, s', w') /\
     sl_heap s' !! i = Some c' /\ ssl c' = Some t' /\
     w_trace w' = w_trace w ++ tr /\ written (socket_fd c) tr ++ outdata t' = outdata t2) /\
  (need_write c = true -> (length (outdata t) < fuel)%nat ->
   exists r s' w' c' t' tr, _mkp_event_write fuel fd s w = Some (r, s', w') /\ s' = upd i c' s /\ ssl c' = Some t' /\
     w_trace w' = w_trace w ++ tr /\ written (socket_fd c) tr ++ outdata t' = outdata t /\
     (r <> MK_PLUGIN_RET_EVENT_CONTINUE -> r <> MK_PLUGIN_RET_EVENT_CLOSE -> outdata t' = [])).
Proof.
  intros Hget Hc Ht Hn Hn31 Hroom Hbuf Henc Hmem Hfail Hr1 Hr2 Hr3 Hfuel. split; [|intros Hnw Hf; by apply event_write_flushed].
  unfold _mkp_network_io_write. rewrite (P_bind_run _ _ _ _ _ _ _ Hget). cbv beta iota.
  rewrite (session_run i c s w Hc t) by done. rewrite (u32_small n) by lia. rewrite Hbuf. rewrite (set_session_run i c s w Hc).
  pose proof fail_negative as Harg. replace ((room =? PS_MEM_FAIL) || (room =? PS_ARG_FAIL) || (room =? PS_FAILURE)) with false by zb.
  cbv zeta. assert (Hu : u64 room = room) by (unfold u64; apply Z.mod_small; lia). rewrite Hu.
  replace (if room <? n then room else n) with (Z.min room n) by (destruct (Z.ltb_spec room n); lia).
  replace (room <? 0) with false by zb. rewrite (liftP_run _ _ _ _ tt eq_refl).
  rewrite (liftP_run _ _ _ _ (take (Z.to_nat (Z.min room n)) buf)) by (apply memread_take; lia). rewrite Henc.
  set (c1 := c <| ssl := Some t1 |>). rewrite (set_session_run i c1 _ w (upd_lookup _ _ _)), ssl_upd_upd.
  replace ((ret =? PS_ARG_FAIL) || (ret =? PS_PROTOCOL_FAIL) || (ret =? PS_FAILURE)) with false by zb.
  rewrite (mod_conn_run i (c1 <| ssl := Some t2 |>) _ w (upd_lookup _ _ _)), ssl_upd_upd.
  set (c2 := c1 <| ssl := Some t2 |> <| need_write := true |>).
  destruct (event_write_flushed fuel fd i c2 t2 (upd i c2 s) w) as (r & s' & w' & c' & t' & tr & Hrun & -> & Hsl & Htr & Hw & _).
  - by apply (connection_upd i c).
  - apply upd_lookup.
  - done.
  - done.
  - done.
  - rewrite (P_bind_run _ _ _ _ _ _ _ Hrun). eexists _, w', c', t', tr. split; [|by rewrite upd_lookup].
    replace (i32 (Z.min room n)) with (Z.min room n) by (unfold i32; rewrite Z.mod_small; lia). reflexivity.
Qed.


Lemma upd_same i c s : sl_heap s !! i = Some c -> upd i c s = s.
Proof. intros H. unfold upd. cbn. rewrite insert_id by done. by destruct s. Qed.

(** What was kept is given up to the room of the reader. *)
Lemma remain_takes i c n s w :
  sl_heap s !! i = Some c -> buffer_ok (view c) -> 0 <= n < 2 ^ 31 ->
  exists c1, liana_ssl_handle_remain i n s w = Some (take (Z.to_nat n) (unread c), upd i c1 s, w) /\
    ssl c1 = ssl c /\ try_false_start c1 = try_false_start c /\ need_read c1 = need_read c.
Proof.
  intros Hc (Hn & Hu & Hb) Hr. unfold liana_ssl_handle_remain. rewrite (get_conn_run i c s w Hc). cbv zeta. unfold unread, view, pending.
  destruct (buf_used c <? buf_len c) eqn:Elt.
  - destruct Hb as (b & Hb & Hnb); [lia|]. rewrite Hb. rewrite (u32_small (buf_len c - buf_used c)) by (clear -Hn Hu Elt; lia).
    set (m := if n <? buf_len c - buf_used c then n else buf_len c - buf_used c).
    assert (Hm : 0 <= m <= buf_len c - buf_used c /\ m <= n /\ m = Z.min n (buf_len c - buf_used c)) by (unfold m; clear -Hr Elt; case_if; lia).
    destruct Hm as (Hm1 & Hm2 & Hm3). clearbody m.
    assert (Ht : take (Z.to_nat n) (take (Z.to_nat (buf_len c - buf_used c)) (drop (Z.to_nat (buf_used c)) b)) = take (Z.to_nat m) (drop (Z.to_nat (buf_used c)) b)).
    { rewrite take_take. f_equal. clear -Hm3 Hr Elt. lia. }
    rewrite Ht. destruct ((n =? 0) || (buf_len c <=? buf_used c) || (m =? 0)) eqn:E0.
    + exists c. rewrite (upd_same i c s Hc). replace (Z.to_nat m) with 0%nat by (clear -E0 Elt Hm2 Hm1 Hr; lia). done.
    + rewrite (liftP_run _ _ _ _ _ eq_refl).
      assert (Hpadd : padd b (buf_used c) = Some (drop (Z.to_nat (buf_used c)) b)).
      { unfold padd. by replace (_ && _) with true by (clear -Hu Elt Hnb; zb). }
      rewrite (liftP_run _ _ _ _ _ Hpadd).
      assert (Hmem : memread (drop (Z.to_nat (buf_used c)) b) m = Some (take (Z.to_nat m) (drop (Z.to_nat (buf_used c)) b))).
      { apply memread_take. rewrite length_drop. clear -Hu Elt Hnb Hm1. lia. }
      rewrite (liftP_run _ _ _ _ _ Hmem), (mod_conn_run i c s w Hc). eexists (c <| buf_used := _ |>). by split; [reflexivity|].
  - exists c. rewrite (upd_same i c s Hc), take_nil. replace ((n =? 0) || (buf_len c <=? buf_used c) || _) with true by (clear -Elt; zb). done.
Qed.

(** C35: outside of a false start, when the connection is not marked to read
    from its socket first and the library has nothing more: a read into a buffer
    smaller than what the last record left gives the beginning of it and drops
    the rest, and a read when nothing is left gives nothing at all, which the
    server takes for the end of the connection. That mark is missing when the
    read before filled its buffer exactly. *)
Theorem ssl_short_read_loses wfuel fuel fd i c t n t1 s w :
  liana_ssl_get_connection fd s w = Some (Some i, s, w) -> sl_heap s !! i = Some c -> ssl c = Some t ->
  try_false_start c = false -> need_read c = false -> buffer_ok (view c) -> 0 <= n < 2 ^ 31 ->
  matrixSslProcessedData t = (PS_SUCCESS, Some (None, 0), t1) ->
  PS_SUCCESS ∉ [-1; PS_MEM_FAIL; PS_ARG_FAIL; PS_PROTOCOL_FAIL] ->
  exists s' w' c', _mkp_network_io_read wfuel (S fuel) fd n s w = Some (Some (take (Z.to_nat n) (unread c)), s', w') /\
    sl_heap s' !! i = Some c' /\ unread c' = [].
Proof.
  intros Hget Hc Ht Hf Hnr Hok Hn Hpro Hcodes. unfold _mkp_network_io_read. rewrite (P_bind_run _ _ _ _ _ _ _ Hget). cbv beta iota.
  assert (H : PS_SUCCESS <> -1 /\ PS_SUCCESS <> PS_MEM_FAIL /\ PS_SUCCESS <> PS_ARG_FAIL /\ PS_SUCCESS <> PS_PROTOCOL_FAIL).
  { repeat split; intros E; apply Hcodes; rewrite E; [left|right; left|do 2 right; left|do 3 right; left]. }
  destruct H as (H1 & H2 & H3 & H4). apply Z.eqb_neq in H1, H2, H3, H4.
  rewrite (u32_small n) by lia. unfold liana_ssl_handle_read.
  destruct (remain_takes i c n s w Hc Hok Hn) as (c1 & Hrem & E1 & E2 & E3). rewrite (P_bind_run _ _ _ _ _ _ _ Hrem). cbv beta.
  cbn [read_loop]. cbv zeta. set (used := take _ _).
  assert (Hread : exists c2, liana_ssl_handle_socket_read i (upd i c1 s) w = Some (PS_SUCCESS, upd i c2 s, w)).
  { unfold liana_ssl_handle_socket_read. rewrite (get_conn_run i c1 _ w (upd_lookup _ _ _)), E2, Hf.
    unfold mbind at 1, P_bind at 1, mret at 1, P_ret at 1. rewrite (get_conn_run i c1 _ w (upd_lookup _ _ _)).
    rewrite (session_run i c1 _ w (upd_lookup _ _ _) t) by congruence. rewrite E3, Hnr, Hpro.
    rewrite (set_session_run i c1 _ w (upd_lookup _ _ _)), ssl_upd_upd. rewrite (store_out_run i _ _ w (upd_lookup _ _ _)), ssl_upd_upd.
    rewrite (mod_conn_run i _ _ w (upd_lookup _ _ _)), ssl_upd_upd. by eexists. }
  destruct Hread as (c2 & Hread). rewrite (P_bind_run _ _ _ _ _ _ _ Hread). cbv beta. erewrite call_run by reflexivity. cbv beta.
  rewrite H1, H2, H3, H4, Z.eqb_refl. cbn [orb]. rewrite (mod_conn_run i c2 _ w (upd_lookup _ _ _)), ssl_upd_upd.
  eexists _, w, _. split; [reflexivity|]. rewrite upd_lookup. split; [reflexivity|]. unfold unread, view. cbn. by rewrite Z.ltb_irrefl.
Qed.
End WithEnv.

(** ** Examples

    A library that encrypts nothing: a session is the number of bytes it has
    sent of a message. *)
Definition message : bytes := lit "hello".
Definition plain_ssl : MatrixSSL :=
  {| ssl_t := nat; PS_SUCCESS := 0; PS_FAILURE := -1; PS_ARG_FAIL := -6; PS_MEM_FAIL := -8; PS_PROTOCOL_FAIL := -12;
     MATRIXSSL_ERROR := -12; MATRIXSSL_SUCCESS := 0; MATRIXSSL_REQUEST_SEND := 1; MATRIXSSL_REQUEST_RECV := 2;
     MATRIXSSL_REQUEST_CLOSE := 3; MATRIXSSL_APP_DATA := 4; MATRIXSSL_HANDSHAKE_COMPLETE := 5; MATRIXSSL_RECEIVED_ALERT := 6;
     SSL_ALERT_LEVEL_WARNING := 1; SSL_ALERT_LEVEL_FATAL := 2; SSL_ALERT_CLOSE_NOTIFY := 0; SSL_MAX_PLAINTEXT_LEN := 16384;
     MATRIXSSL_VERSION := (3, 2, 0); matrixSslOpen := 0; matrixSslNewKeys := 0; matrixSslLoadRsaKeys := fun _ _ => 0;
     matrixSslNewServerSession := fun _ => (0, Some 5%nat);
     matrixSslGetReadbuf := fun t => (16, Some (repeat 0 16), t);
     matrixSslReceivedData := fun t d => (4, Some (Some d, Z.of_nat (length (take 100 d))), t);
     matrixSslProcessedData := fun t => (0, Some (None, 0), t);
     matrixSslGetOutdata := fun t => (Z.of_nat (length (drop t message)), drop t message);
     matrixSslSentData := fun t n => (if (t + Z.to_nat n <? 5)%nat then 1 else 0, (t + Z.to_nat n)%nat);
     matrixSslGetWritebuf := fun t _ => (3, t); matrixSslEncodeWritebuf := fun _ _ => (5, 0%nat);
     matrixSslEncodeClosureAlert := fun t => (0, t); false_start := fun _ => false |}.

Definition plain_sys : SslSys := {| errno_again := fun _ => true; sys_pread := fun _ _ _ _ => None |}.
(** A socket that takes two bytes at a time. *)
Definition slow_sys : SockSys :=
  {| sys_getaddrinfo := fun _ _ _ => inr (-2); sys_socket := fun _ _ _ _ => -1; sys_connect := fun _ _ _ => -1; sys_bind := fun _ _ _ => -1;
     sys_listen := fun _ _ _ => -1; sys_setsockopt := fun _ _ _ _ _ => 0; sys_accept := fun _ _ => 7; accept_generic := false;
     sock_read := fun _ _ _ => inl (lit "GET /"); sock_write := fun _ _ d => Z.of_nat (length (take 2 d));
     sock_writev := fun _ _ d => Z.of_nat (length d); sock_sendfile := fun _ _ _ _ n => n |}.

Lemma plain_receives : @ReceiveLaws plain_ssl.
Proof.
  split.
  - decide_closed.
  - cbn. lia.
  - intros t d ret out t' [= <- <- _]. split; [|done]. cbn. split; [rewrite length_take; lia|]. exists d. split; [done|]. rewrite length_take. lia.
  - intros t ret out t' [= <- <- _]. split; [|done]. cbn. split; [lia|reflexivity].
Defined.

Lemma plain_sends : @SendLaws slow_sys plain_ssl.
Proof.
  split.
  - intros t. unfold outdata. cbn [matrixSslGetOutdata plain_ssl fst snd]. split; [done|]. rewrite length_drop. change (length message) with 5%nat. lia.
  - done.
  - unfold outdata. cbn [matrixSslGetOutdata plain_ssl fst snd matrixSslSentData]. intros t n r t' Hn [= <- <-]. rewrite drop_drop. split; [done|].
    right. destruct (Nat.ltb_spec (t + Z.to_nat n) 5); [left; done|]. right. apply drop_ge. change (length message) with 5%nat. lia.
  - unfold MATRIXSSL_REQUEST_CLOSE. decide_closed.
  - intros t fd d Hd. right. cbn [sock_write slow_sys]. rewrite length_take. destruct d; [done|]. cbn [length]. lia.
Defined.

(** A connection on socket 7 with a record of five bytes that was not read. *)
Definition plain_conn : @mk_liana_ssl plain_ssl :=
  {| ssl := Some 5%nat : option (@ssl_t plain_ssl); buf_ssl := Some message; buf_len := 5; buf_used := 0; handshake_complete := true;
     need_read := false; need_write := true; try_false_start := false; socket_fd := 7 |}.
Definition plain_state : @ssl_state plain_ssl := {| sl_heap := {[0%nat := plain_conn]}; sl_next := 1; sl_list := [0%nat] |}.

Section Witnesses.
#[local] Existing Instances plain_ssl plain_sys slow_sys plain_receives plain_sends example_env.

Definition read_run := _mkp_network_io_read 1 1 7 5 plain_state example_world.


Lemma ssl_short_read_witness :
  exists s' w' c', _mkp_network_io_read 1 1 7 2 plain_state example_world = Some (Some (take (Z.to_nat 2) (unread plain_conn)), s', w') /\
    sl_heap s' !! 0%nat = Some c' /\ unread c' = [].
Proof.
  apply (ssl_short_read_loses 1 0 7 0 plain_conn 5%nat 2 5%nat plain_state example_world); try reflexivity.
  - cbn. split; [lia|]. split; [lia|]. intros _. exists message. split; [done|]. vm_compute. congruence.
  - lia.
  - decide_closed.
Defined.

Lemma ssl_write_sends_witness :
  (exists s' w' c' t' tr, _mkp_network_io_write 6 7 (Some message) 5 plain_state example_world = Some (3, s', w') /\
     sl_heap s' !! 0%nat = Some c' /\ ssl c' = Some t' /\
     w_trace w' = w_trace example_world ++ tr /\ written 7 tr ++ outdata t' = message) /\
  (need_write plain_conn = true -> (0 < 6)%nat ->
   exists r s' w' c' t' tr, _mkp_event_write 6 7 plain_state example_world = Some (r, s', w') /\ s' = upd 0 c' plain_state /\ ssl c' = Some t' /\
     w_trace w' = w_trace example_world ++ tr /\ written 7 tr ++ outdata t' = [] /\
     (r <> MK_PLUGIN_RET_EVENT_CONTINUE -> r <> MK_PLUGIN_RET_EVENT_CLOSE -> outdata t' = [])).
Proof.
  apply (ssl_write_sends 6 7 0 plain_conn 5%nat message 5 3 5%nat 5 0%nat plain_state example_world);
    [reflexivity|reflexivity|reflexivity|vm_compute; split; congruence|reflexivity|vm_compute; split; reflexivity|reflexivity|reflexivity
    |reflexivity|reflexivity|discriminate|discriminate|discriminate|].
  unfold outdata. cbn [matrixSslGetOutdata plain_ssl snd]. rewrite length_drop. change (length message) with 5%nat. lia.
Defined.

Lemma ssl_connections_witness :
  connections_ok core_thctx /\
  (forall wfuel fuel w r s' w', _mkp_event_read wfuel fuel 7 core_thctx w = Some (r, s', w') -> on_socket 7 s') /\
  (forall w r s' w', hangup 7 core_thctx w = Some (r, s', w') -> ~ on_socket 7 s' /\ r = MK_PLUGIN_RET_EVENT_NEXT).
Proof. apply (ssl_connections core_thctx 7). constructor. Defined.

(** The end of the record is never read: the next read gives the next record. *)
Example short_read_lost :
  (r ← _mkp_network_io_read 1 1 7 2; r' ← _mkp_network_io_read 1 3 7 10; mret (r, r')) plain_state example_world
  ≫= (fun '(a, _, _) => Some a) = Some (Some (lit "he"), Some (lit "GET /")).
Proof. vm_compute. reflexivity. Qed.
End Witnesses.
