(* ===== verification/FcgiProtocol.v ===== *)
(** * plugins/fastcgi/protocol.c: the FastCGI wire format

    Records and parameters are written into, and read from, byte buffers; a
    [uint8_t *] that is written through is a buffer and an offset. *)
From S2P Require Import Prelude CString MkString MkMemory.
Local Open Scope Z_scope.

(** ** Records *)

Definition FCGI_VERSION_1 : Z := 1.
Definition FCGI_HEADER_LEN : Z := 8.
Definition FCGI_BEGIN_BODY_LEN : Z := 8.
Definition FCGI_END_BODY_LEN : Z := 8.

Definition FCGI_BEGIN_REQUEST : Z := 1.
Definition FCGI_ABORT_REQUEST : Z := 2.
Definition FCGI_END_REQUEST : Z := 3.
Definition FCGI_PARAMS : Z := 4.
Definition FCGI_STDIN : Z := 5.
Definition FCGI_STDOUT : Z := 6.
Definition FCGI_STDERR : Z := 7.

Definition FCGI_RESPONDER : Z := 1.
Definition FCGI_KEEP_CONN : Z := 1.

(** The reserved bytes are neither read nor written. *)
Record fcgi_header := { h_version : Z; h_type : Z; h_req_id : Z; h_body_len : Z; h_body_pad : Z }.
Record fcgi_begin_req_body := { b_role : Z; b_flags : Z }.
Record fcgi_end_req_body := { e_app_status : Z; e_protocol_status : Z }.

#[export] Instance eta_fcgi_header : Eta fcgi_header := fun h =>
  {| h_version := h_version h; h_type := h_type h; h_req_id := h_req_id h;
     h_body_len := h_body_len h; h_body_pad := h_body_pad h |}.

(** Big-endian 16-bit numbers. *)
Definition be16 (hi lo : Z) : Z := u16 (Z.shiftl hi 8 + lo).
Definition hi16 (n : Z) : Z := Z.land (Z.shiftr n 8) 255.
Definition lo16 (n : Z) : Z := Z.land n 255.

Definition fcgi_read_header (p : bytes) : option (fcgi_header * Z) :=
  match p with
  | p0 :: p1 :: p2 :: p3 :: p4 :: p5 :: p6 :: _ =>
    Some ({| h_version := p0; h_type := p1; h_req_id := be16 p2 p3; h_body_len := be16 p4 p5; h_body_pad := p6 |},
          FCGI_HEADER_LEN)
  | _ => None
  end.

Definition fcgi_write_header (buf : bytes) (p : Z) (h : fcgi_header) : option (bytes * Z) :=
  buf ← bwrite buf p [h_version h; h_type h; hi16 (h_req_id h); lo16 (h_req_id h);
                      hi16 (h_body_len h); lo16 (h_body_len h); h_body_pad h];
  Some (buf, FCGI_HEADER_LEN).

(** The shift into the sign bit wraps around, as the compilers define it. *)
Definition fcgi_read_end_req_body (p : bytes) : option (fcgi_end_req_body * Z) :=
  match p with
  | p0 :: p1 :: p2 :: p3 :: p4 :: _ =>
    Some ({| e_app_status := u32 (u32 (Z.shiftl p0 24 + Z.shiftl p1 16) + (Z.shiftl p2 8 + p3));
             e_protocol_status := p4 |}, FCGI_END_BODY_LEN)
  | _ => None
  end.

Definition fcgi_write_begin_req_body (buf : bytes) (p : Z) (b : fcgi_begin_req_body) : option (bytes * Z) :=
  buf ← bwrite buf p [hi16 (b_role b); lo16 (b_role b); b_flags b];
  Some (buf, FCGI_BEGIN_BODY_LEN).

(** ** Parameters: pairs of counted strings *)

Definition fcgi_param_read_length (p : bytes) : option Z :=
  p0 ← p !! 0%nat;
  if Z.shiftr p0 7 =? 1 then
    p1 ← p !! 1%nat; p2 ← p !! 2%nat; p3 ← p !! 3%nat;
    Some (u32 (Z.shiftl (Z.land p0 127) 24 + Z.shiftl p1 16 + Z.shiftl p2 8 + p3))
  else Some p0.

Definition write_length (buf : bytes) (p len : Z) : option (bytes * Z) :=
  if 127 <? len then
    buf ← bwrite buf p [u8 (Z.shiftl 1 7 + Z.land (Z.shiftr len 24) 127); Z.land (Z.shiftr len 16) 255;
                        Z.land (Z.shiftr len 8) 255; Z.land len 255];
    Some (buf, 4)
  else buf ← bwrite buf p [Z.land len 127]; Some (buf, 1).

(** The bytes [memcpy] is given; none at all may come from NULL. *)
Definition param_bytes (p : mk_pointer) : option bytes := if len p =? 0 then Some [] else view p.

(** Without a buffer only the size is computed. *)
Definition fcgi_param_write (buf : option bytes) (p : Z) (key value : mk_pointer) : option (option bytes * Z) :=
  match buf with
  | None => Some (None, u64 ((if 127 <? len key then 4 else 1) + (if 127 <? len value then 4 else 1) +
                             (len key + len value)))
  | Some buf =>
    let cnt := 0 in
    '(buf, ret) ← write_length buf (p + cnt) (len key); let cnt := cnt + ret in
    '(buf, ret) ← write_length buf (p + cnt) (len value); let cnt := cnt + ret in
    k ← param_bytes key; buf ← bwrite buf (p + cnt) k; let cnt := cnt + len key in
    v ← param_bytes value; buf ← bwrite buf (p + cnt) v; let cnt := cnt + len value in
    Some (Some buf, cnt)
  end.

(** An entry is a position in a buffer of parameters. *)
Record fcgi_param_entry := { e_key_len : Z; e_value_len : Z; e_position : Z; e_base_len : Z; e_base : bytes }.

#[export] Instance eta_fcgi_param_entry : Eta fcgi_param_entry := fun e =>
  {| e_key_len := e_key_len e; e_value_len := e_value_len e; e_position := e_position e;
     e_base_len := e_base_len e; e_base := e_base e |}.

Definition fcgi_param_entry_next (e : fcgi_param_entry) : option (Z * fcgi_param_entry) :=
  let e := e <| e_position := u64 (e_position e + u32 (e_key_len e + e_value_len e)) |> in
  if e_position e <? e_base_len e then
    p ← padd (e_base e) (e_position e); n ← fcgi_param_read_length p;
    let e := e <| e_key_len := n |> in
    let e := e <| e_position := e_position e + (if 127 <? e_key_len e then 4 else 1) |> in
    p ← padd (e_base e) (e_position e); n ← fcgi_param_read_length p;
    let e := e <| e_value_len := n |> in
    let e := e <| e_position := e_position e + (if 127 <? e_value_len e then 4 else 1) |> in
    Some (0, e)
  else Some (-1, e).

Definition fcgi_param_entry_init (p : bytes) (p_len : Z) : option fcgi_param_entry :=
  snd <$> fcgi_param_entry_next {| e_key_len := 0; e_value_len := 0; e_position := 0; e_base_len := p_len; e_base := p |}.

Definition fcgi_param_entry_reset (e : fcgi_param_entry) : option fcgi_param_entry :=
  snd <$> fcgi_param_entry_next (e <| e_key_len := 0 |> <| e_value_len := 0 |> <| e_position := 0 |>).

Definition fcgi_param_entry_key (e : fcgi_param_entry) : option mk_pointer :=
  p ← padd (e_base e) (e_position e); Some {| data := Some p; len := e_key_len e |}.

Definition fcgi_param_entry_value (e : fcgi_param_entry) : option mk_pointer :=
  p ← padd (e_base e) (e_position e + e_key_len e); Some {| data := Some p; len := e_value_len e |}.

(** [bcmp] of the two keys, of the same length. *)
Definition same_bytes (a b : mk_pointer) : option bool :=
  s ← view a; t ← view b; Some (bool_decide (s = t)).

Fixpoint search_entries (fuel : nat) (e : fcgi_param_entry) (key : mk_pointer) : option (Z * fcgi_param_entry) :=
  match fuel with
  | O => None
  | S fuel =>
    e_key ← fcgi_param_entry_key e;
    found ← (if len e_key =? len key then same_bytes e_key key else Some false);
    if found : bool then Some (0, e) else
    '(ret, e) ← fcgi_param_entry_next e;
    if ret =? -1 then Some (-1, e) else search_entries fuel e key
  end.

(** Each step passes at least two bytes of the buffer. *)
Definition fcgi_param_entry_search (e : fcgi_param_entry) (key : mk_pointer) : option (Z * fcgi_param_entry) :=
  search_entries (S (Z.to_nat (e_base_len e))) e key.

(** ** Headers are read back *)

Record header_ok (h : fcgi_header) : Prop := {
  ho_version : 0 <= h_version h < 256; ho_type : 0 <= h_type h < 256; ho_pad : 0 <= h_body_pad h < 256;
  ho_id : 0 <= h_req_id h < 65536; ho_len : 0 <= h_body_len h < 65536
}.

Definition header_bytes (h : fcgi_header) : bytes :=
  [h_version h; h_type h; hi16 (h_req_id h); lo16 (h_req_id h); hi16 (h_body_len h); lo16 (h_body_len h); h_body_pad h].

Lemma be16_split n : 0 <= n < 65536 -> be16 (hi16 n) (lo16 n) = n.
Proof. intros H. unfold be16, hi16, lo16. unbits. rewrite u16_small; Z.to_euclidean_division_equations; lia. Qed.

Lemma fcgi_read_header_bytes h r : header_ok h -> fcgi_read_header (header_bytes h ++ r) = Some (h, FCGI_HEADER_LEN).
Proof. intros [_ _ _ H1 H2]. cbn. rewrite !be16_split by done. now destruct h. Qed.

Lemma fcgi_write_header_run a b c h off :
  off = Z.of_nat (length a) -> length b = 7%nat ->
  fcgi_write_header (a ++ b ++ c) off h = Some (a ++ header_bytes h ++ c, FCGI_HEADER_LEN).
Proof. intros -> Hb. unfold fcgi_write_header. now rewrite (bwrite_app a b c (header_bytes h)). Qed.

(** ** Parameters are read back *)

Definition length_bytes (n : Z) : bytes :=
  if 127 <? n then [u8 (Z.shiftl 1 7 + Z.land (Z.shiftr n 24) 127); Z.land (Z.shiftr n 16) 255;
                    Z.land (Z.shiftr n 8) 255; Z.land n 255]
  else [Z.land n 127].

Definition param_text (kv : bytes * bytes) : bytes :=
  length_bytes (Z.of_nat (length (fst kv))) ++ length_bytes (Z.of_nat (length (snd kv))) ++ fst kv ++ snd kv.

Definition params_text (kvs : list (bytes * bytes)) : bytes := concat (map param_text kvs).

Definition param_ok (kv : bytes * bytes) : Prop := Z.of_nat (length (fst kv) + length (snd kv)) < 2 ^ 31.

Definition pointer_of (s : bytes) : mk_pointer := {| data := Some s; len := Z.of_nat (length s) |}.

Lemma view_pointer_of s : view (pointer_of s) = Some s.
Proof. unfold view. cbn. rewrite memread_take by lia. now rewrite Nat2Z.id, take_ge. Qed.

Lemma length_length_bytes n : Z.of_nat (length (length_bytes n)) = if 127 <? n then 4 else 1.
Proof. unfold length_bytes. now destruct (127 <? n). Qed.

Lemma read_length_bytes n r : 0 <= n < 2 ^ 31 -> fcgi_param_read_length (length_bytes n ++ r) = Some n.
Proof.
  intros H. unfold fcgi_param_read_length, length_bytes. destruct (127 <? n) eqn:E; zbool.
  - cbn [app lookup list_lookup mbind option_bind]. unbits. unfold u8.
    replace (_ / 2 ^ 7 =? 1) with true by (Z.to_euclidean_division_equations; lia). f_equal.
    rewrite u32_small; Z.to_euclidean_division_equations; lia.
  - cbn [app lookup list_lookup mbind option_bind]. unbits.
    replace (_ / 2 ^ 7 =? 1) with false by (Z.to_euclidean_division_equations; lia). f_equal.
    Z.to_euclidean_division_equations; lia.
Qed.

Lemma write_length_run a b c n off :
  off = Z.of_nat (length a) -> length b = length (length_bytes n) ->
  write_length (a ++ b ++ c) off n = Some (a ++ length_bytes n ++ c, Z.of_nat (length (length_bytes n))).
Proof.
  intros -> Hb. rewrite length_length_bytes. unfold write_length, length_bytes in *.
  destruct (127 <? n); rewrite (bwrite_app a b c) by done; done.
Qed.

(** A list in two parts of given lengths. *)
Lemma split_length (b : bytes) n m :
  length b = (n + m)%nat -> exists b1 b2, b = b1 ++ b2 /\ length b1 = n /\ length b2 = m.
Proof.
  intros H. exists (take n b), (drop n b). rewrite take_drop, length_take, length_drop. split; [done|]. lia.
Qed.

(** The pointer designates the text. *)
Definition points_to (p : mk_pointer) (s : bytes) : Prop := param_bytes p = Some s /\ len p = Z.of_nat (length s).

Lemma points_to_pointer_of s : points_to (pointer_of s) s.
Proof.
  split; [|done]. unfold param_bytes. rewrite view_pointer_of. cbn. case_if; [|done]. zbool. now destruct s.
Qed.

Lemma fcgi_param_write_at a b c key value kv off :
  points_to key (fst kv) -> points_to value (snd kv) ->
  off = Z.of_nat (length a) -> length b = length (param_text kv) ->
  fcgi_param_write (Some (a ++ b ++ c)) off key value =
  Some (Some (a ++ param_text kv ++ c), Z.of_nat (length (param_text kv))).
Proof.
  intros [Hk Hkl] [Hv Hvl] -> Hb. destruct kv as [k v]. unfold param_text in *. cbn [fst snd] in *. rewrite !length_app in Hb.
  apply split_length in Hb as (b1 & b' & -> & H1 & Hb). apply split_length in Hb as (b2 & b'' & -> & H2 & Hb).
  apply split_length in Hb as (b3 & b4 & -> & H3 & H4). unfold fcgi_param_write. rewrite Hk, Hv, Hkl, Hvl. set (lk := length_bytes (Z.of_nat (length k))) in *. set (lv := length_bytes (Z.of_nat (length v))) in *.
  rewrite <- !app_assoc. rewrite (write_length_run a b1) by (rewrite ?Z.add_0_r; done). mstep. fold lk.
  rewrite (app_assoc a lk). rewrite (write_length_run (a ++ lk) b2) by (rewrite ?length_app; lia || done). mstep. fold lv.
  rewrite (app_assoc (a ++ lk)), (bwrite_app _ b3 (b4 ++ c) k) by (rewrite ?length_app; lia). mstep.
  rewrite (app_assoc ((a ++ lk) ++ lv)), (bwrite_app _ b4 c v) by (rewrite ?length_app; lia). mstep.
  rewrite !length_app. do 3 f_equal; [now rewrite <- !app_assoc|lia].
Qed.

Lemma fcgi_param_write_run a b c kv off :
  off = Z.of_nat (length a) -> length b = length (param_text kv) ->
  fcgi_param_write (Some (a ++ b ++ c)) off (pointer_of (fst kv)) (pointer_of (snd kv)) =
  Some (Some (a ++ param_text kv ++ c), Z.of_nat (length (param_text kv))).
Proof. apply fcgi_param_write_at; apply points_to_pointer_of. Qed.

(** Writing parameters one after the other. *)
Fixpoint write_params (buf : bytes) (p : Z) (kvs : list (bytes * bytes)) : option (bytes * Z) :=
  match kvs with
  | [] => Some (buf, p)
  | kv :: kvs =>
    '(buf, n) ← fcgi_param_write (Some buf) p (pointer_of (fst kv)) (pointer_of (snd kv));
    buf ← buf; write_params buf (p + n) kvs
  end.

Lemma write_params_run kvs a b c off :
  off = Z.of_nat (length a) -> length b = length (params_text kvs) ->
  write_params (a ++ b ++ c) off kvs =
  Some (a ++ params_text kvs ++ c, off + Z.of_nat (length (params_text kvs))).
Proof.
  revert a b off; induction kvs as [|kv kvs IH]; intros a b off -> Hb.
  - cbn in Hb. destruct b; [|done]. cbn. do 2 f_equal. lia.
  - cbn [params_text map concat] in *. fold (params_text kvs) in *. rewrite length_app in Hb.
    apply split_length in Hb as (b1 & b2 & -> & H1 & H2). cbn [write_params]. rewrite <- app_assoc.
    rewrite fcgi_param_write_run by done. mstep. rewrite app_assoc, IH by (rewrite ?length_app; lia).
    rewrite <- !app_assoc, length_app. do 2 f_equal. lia.
Qed.

(** The entry stands at [kv] and [rest] follows. *)
Record at_param (e : fcgi_param_entry) (kv : bytes * bytes) (rest : list (bytes * bytes)) : Prop := {
  ap_split : exists pre post, e_base e = pre ++ fst kv ++ snd kv ++ params_text rest ++ post /\
    e_position e = Z.of_nat (length pre) /\
    e_base_len e = Z.of_nat (length (pre ++ fst kv ++ snd kv ++ params_text rest));
  ap_key : e_key_len e = Z.of_nat (length (fst kv));
  ap_value : e_value_len e = Z.of_nat (length (snd kv));
  ap_size : Z.of_nat (length (e_base e)) < 2 ^ 32
}.

Lemma padd_behind a b off : off = Z.of_nat (length a) -> padd (a ++ b) off = Some b.
Proof. intros ->. rewrite padd_drop by (rewrite length_app; lia). now rewrite Nat2Z.id, drop_app_length. Qed.

Lemma at_param_key e kv rest : at_param e kv rest ->
  exists p, fcgi_param_entry_key e = Some p /\ view p = Some (fst kv) /\ len p = Z.of_nat (length (fst kv)).
Proof.
  intros [(pre & post & Hb & Hp & _) Hk _ _]. unfold fcgi_param_entry_key. rewrite Hb, padd_behind by done. mstep.
  eexists. split; [done|]. split; [|done]. unfold view. cbn. rewrite Hk.
  rewrite memread_take by (rewrite !length_app; lia). now rewrite Nat2Z.id, take_app_length.
Qed.

Lemma at_param_value e kv rest : at_param e kv rest ->
  exists p, fcgi_param_entry_value e = Some p /\ view p = Some (snd kv).
Proof.
  intros [(pre & post & Hb & Hp & _) Hk Hv _]. unfold fcgi_param_entry_value. rewrite Hb, app_assoc.
  rewrite padd_behind by (rewrite length_app; lia). mstep. eexists. split; [done|]. unfold view. cbn. rewrite Hv.
  rewrite memread_take by (rewrite !length_app; lia). now rewrite Nat2Z.id, take_app_length.
Qed.

(** Moving to an entry whose text is at the next position. *)
Lemma next_param e pre kv rest post :
  e_base e = pre ++ params_text (kv :: rest) ++ post -> param_ok kv ->
  e_position e + (e_key_len e + e_value_len e) = Z.of_nat (length pre) -> 0 <= e_key_len e + e_value_len e < 2 ^ 32 ->
  e_base_len e = Z.of_nat (length (pre ++ params_text (kv :: rest))) -> Z.of_nat (length (e_base e)) < 2 ^ 32 ->
  exists e', fcgi_param_entry_next e = Some (0, e') /\ at_param e' kv rest /\
    e_base e' = e_base e /\ e_base_len e' = e_base_len e.
Proof.
  intros Hb Hkv Hpos Hu Hl Hsz. destruct kv as [k v]. unfold param_ok in Hkv. cbn [fst snd] in Hkv.
  cbn [params_text map concat] in *. fold (params_text rest) in *. unfold param_text in *. cbn [fst snd] in *.
  set (lk := length_bytes (Z.of_nat (length k))) in *. set (lv := length_bytes (Z.of_nat (length v))) in *.
  assert (Hlk : Z.of_nat (length lk) = if 127 <? Z.of_nat (length k) then 4 else 1) by apply length_length_bytes.
  assert (Hlv : Z.of_nat (length lv) = if 127 <? Z.of_nat (length v) then 4 else 1) by apply length_length_bytes.
  assert (Hlen := f_equal length Hb). rewrite !length_app in Hl, Hlen.
  unfold fcgi_param_entry_next. cbn [e_position e_key_len e_value_len e_base e_base_len set_field].
  rewrite u32_small by lia. rewrite Hpos, u64_small by lia.
  replace (_ <? e_base_len e) with true by (destruct (127 <? Z.of_nat (length k)); zb).
  rewrite <- !app_assoc in Hb. rewrite Hb, padd_behind by done. mstep.
  rewrite (read_length_bytes (Z.of_nat (length k)) _ ltac:(lia)). mstep. cbn [e_position e_key_len e_value_len e_base e_base_len set_field].
  rewrite <- Hlk. rewrite (app_assoc pre lk), padd_behind by (rewrite length_app; lia). mstep.
  rewrite (read_length_bytes (Z.of_nat (length v)) _ ltac:(lia)). mstep. cbn [e_position e_key_len e_value_len e_base e_base_len set_field].
  eexists. split; [reflexivity|]. split; [|now cbn]. split; cbn; [|done|done|rewrite !length_app in *; lia].
  exists ((pre ++ lk) ++ lv), post. cbn [fst snd]. rewrite <- !app_assoc. split; [done|].
  rewrite !length_app. lia.
Qed.

Lemma at_param_next e kv rest :
  at_param e kv rest -> param_ok kv -> Forall param_ok rest ->
  match rest with
  | [] => exists e', fcgi_param_entry_next e = Some (-1, e')
  | kv' :: rest => exists e', fcgi_param_entry_next e = Some (0, e') /\ at_param e' kv' rest /\
      e_base_len e' = e_base_len e
  end.
Proof.
  intros [(pre & post & Hb & Hp & Hl) Hk Hv Hs] Hok Hrest. destruct kv as [k v]. unfold param_ok in Hok. cbn [fst snd] in *.
  assert (Hlen := f_equal length Hb). rewrite !length_app in Hlen, Hl. destruct rest as [|kv' rest].
  - unfold fcgi_param_entry_next. cbn [e_position e_key_len e_value_len e_base e_base_len set_field].
    rewrite u32_small, u64_small by (rewrite ?u32_small; lia). cbn in Hl.
    replace (_ <? e_base_len e) with false by zb. eauto.
  - inversion Hrest as [|? ? Hkv' _]; subst.
    destruct (next_param e (pre ++ k ++ v) kv' rest post) as (e' & H1 & H2 & _ & H3); try done.
    + now rewrite Hb, <- !app_assoc.
    + rewrite !length_app. lia.
    + lia.
    + rewrite !length_app. lia.
    + eauto.
Qed.

(** All the entries, from the current one on. *)
Fixpoint read_params (fuel : nat) (e : fcgi_param_entry) : option (list (bytes * bytes)) :=
  match fuel with
  | O => None
  | S fuel =>
    k ← fcgi_param_entry_key e; k ← view k; v ← fcgi_param_entry_value e; v ← view v;
    '(ret, e) ← fcgi_param_entry_next e;
    if ret =? -1 then Some [(k, v)] else rest ← read_params fuel e; Some ((k, v) :: rest)
  end.

Lemma read_params_at rest e kv fuel :
  at_param e kv rest -> Forall param_ok (kv :: rest) -> (length rest < fuel)%nat ->
  read_params fuel e = Some (kv :: rest).
Proof.
  revert e kv fuel; induction rest as [|kv' rest IH]; intros e kv [|fuel] He Hok Hf; try (cbn in Hf; lia);
    cbn [read_params]; destruct (at_param_key _ _ _ He) as (p & -> & Hp & _); mstep; rewrite Hp; mstep;
    destruct (at_param_value _ _ _ He) as (q & -> & Hq); mstep; rewrite Hq; mstep;
    apply Forall_cons in Hok as [Hkv Hrest]; pose proof (at_param_next _ _ _ He Hkv Hrest) as Hn.
  - destruct Hn as (e' & ->). mstep. now destruct kv.
  - destruct Hn as (e' & -> & He' & _). mstep. change (0 =? -1) with false. cbv iota.
    rewrite (IH e' kv' fuel He' Hrest) by (cbn in Hf; lia). mstep. now destruct kv.
Qed.

(** The first parameter of that name. *)
Definition param_named (k : bytes) (kv : bytes * bytes) : bool := bool_decide (fst kv = k).

Lemma search_entries_at rest e kv fuel key k :
  at_param e kv rest -> Forall param_ok (kv :: rest) -> (length rest < fuel)%nat ->
  view key = Some k -> len key = Z.of_nat (length k) ->
  exists r e', search_entries fuel e key = Some (r, e') /\
    match List.find (param_named k) (kv :: rest) with
    | Some kv => r = 0 /\ exists p, fcgi_param_entry_value e' = Some p /\ view p = Some (snd kv)
    | None => r = -1
    end.
Proof.
  intros He Hok Hf Hk Hl. revert e kv fuel He Hok Hf; induction rest as [|kv' rest IH];
    intros e kv [|fuel] He Hok Hf; try (cbn in Hf; lia); cbn [search_entries];
    destruct (at_param_key _ _ _ He) as (p & -> & Hp & Hlp); mstep;
    apply Forall_cons in Hok as [Hkv Hrest]; pose proof (at_param_next _ _ _ He Hkv Hrest) as Hn;
    cbn [List.find]; unfold same_bytes, param_named at 1; rewrite Hp, Hk, Hlp, Hl; mstep;
    (destruct (decide (fst kv = k)) as [Heq|Hne];
     [rewrite bool_decide_true by done; rewrite Heq, Z.eqb_refl; mstep; exists 0, e; split; [reflexivity|];
      split; [done|]; eauto using at_param_value
     |rewrite bool_decide_false by done; replace (if _ =? _ then Some false else Some false) with (Some false) by (now destruct (_ =? _));
      mstep]).
  - destruct Hn as (e' & ->). mstep. cbn. eauto.
  - destruct Hn as (e' & -> & He' & _). mstep. change (0 =? -1) with false. cbv iota.
    apply (IH e' kv' fuel He' Hrest). cbn in Hf. lia.
Qed.

Lemma length_params_text kvs : (2 * length kvs <= length (params_text kvs))%nat.
Proof.
  induction kvs as [|kv kvs IH]; [done|]. cbn [params_text map concat length]. fold (params_text kvs).
  unfold param_text. rewrite !length_app.
  pose proof (length_length_bytes (Z.of_nat (length (fst kv)))). pose proof (length_length_bytes (Z.of_nat (length (snd kv)))).
  repeat case_if_in H; repeat case_if_in H0; lia.
Qed.

(** Parameters written one after the other anywhere in a buffer are read
    back: from the first, [fcgi_param_entry_next] goes through exactly the
    pairs written, in order, and ends; a search stops at the first pair with
    the key asked for, its value being the one written, and fails exactly when
    there is none. *)
Theorem fcgi_params_roundtrip buf p kvs key k :
  kvs <> [] -> Forall param_ok kvs -> 0 <= p ->
  p + Z.of_nat (length (params_text kvs)) <= Z.of_nat (length buf) < 2 ^ 32 ->
  view key = Some k -> len key = Z.of_nat (length k) ->
  exists buf' n e, write_params buf p kvs = Some (buf', p + n) /\ length buf' = length buf /\
    fcgi_param_entry_init (drop (Z.to_nat p) buf') n = Some e /\
    read_params (S (Z.to_nat n)) e = Some kvs /\
    exists r e', fcgi_param_entry_search e key = Some (r, e') /\
      match List.find (param_named k) kvs with
      | Some kv => r = 0 /\ exists v, fcgi_param_entry_value e' = Some v /\ view v = Some (snd kv)
      | None => r = -1
      end.
Proof.
  intros Hne Hok Hp Hbuf Hk Hl. destruct (buffer_split buf p (length (params_text kvs))) as (a & b & c & -> & -> & Hb); [lia|lia|].
  eexists _, _. rewrite (write_params_run kvs a b c) by done. rewrite Nat2Z.id, drop_app_length.
  destruct kvs as [|kv rest]; [done|]. set (t := params_text (kv :: rest)) in *. rewrite !length_app in Hbuf.
  destruct (next_param {| e_key_len := 0; e_value_len := 0; e_position := 0;
      e_base_len := Z.of_nat (length t); e_base := t ++ c |} [] kv rest c) as (e & Hn & He & _ & Hbl);
    [done|now inversion Hok|done|done|done|cbn [e_base]; rewrite length_app; lia|].
  exists e. split; [reflexivity|]. split; [rewrite !length_app; unfold t in *; lia|]. unfold fcgi_param_entry_init. fold t. rewrite Hn.
  split; [reflexivity|]. pose proof (length_params_text (kv :: rest)) as Hlen. fold t in Hlen. cbn [length] in Hlen.
  split; [apply read_params_at; try done; lia|]. unfold fcgi_param_entry_search. rewrite Hbl.
  apply search_entries_at; try done. cbn [e_base_len]. lia.
Qed.

(** A header written into a buffer is read back, and its reserved byte and
    what is around it are left alone. *)
Lemma fcgi_header_roundtrip h buf p :
  header_ok h -> 0 <= p -> p + FCGI_HEADER_LEN <= Z.of_nat (length buf) ->
  exists buf', fcgi_write_header buf p h = Some (buf', FCGI_HEADER_LEN) /\ length buf' = length buf /\
    fcgi_read_header (drop (Z.to_nat p) buf') = Some (h, FCGI_HEADER_LEN) /\
    take (Z.to_nat p) buf' = take (Z.to_nat p) buf /\ drop (Z.to_nat p + 7) buf' = drop (Z.to_nat p + 7) buf.
Proof.
  intros Hh Hp Hl. unfold FCGI_HEADER_LEN in Hl.
  destruct (buffer_split buf p 7) as (a & b & c & -> & -> & Hb); [lia|lia|].
  rewrite (fcgi_write_header_run a b c) by done. eexists. split; [done|]. rewrite Nat2Z.id, drop_app_length, !take_app_length.
  split; [rewrite !length_app, Hb; done|]. split; [now apply fcgi_read_header_bytes|]. split; [done|].
  rewrite !app_assoc, !drop_app_length'; [done|rewrite length_app; cbn; lia..].
Qed.

(** A length below 128 in four bytes, which the format allows, is taken for a
    length of one byte: the name then starts three bytes early. *)
Example noncanonical_length :
  let e := fcgi_param_entry_init [128; 0; 0; 1; 1; 65; 66] 7 in
  (e ← e; Some (e_key_len e, e_position e)) = Some (1, 2) /\
  (e ← fcgi_param_entry_init [1; 1; 65; 66] 4; Some (e_key_len e, e_position e)) = Some (1, 2).
Proof. split; reflexivity. Qed.

Lemma fcgi_params_witness :
  exists buf' n e, write_params (replicate 40 0) 3 [(lit "A", lit "xy"); (lit "KEY", [])] = Some (buf', 3 + n) /\
    length buf' = 40%nat /\ fcgi_param_entry_init (drop 3 buf') n = Some e /\
    read_params (S (Z.to_nat n)) e = Some [(lit "A", lit "xy"); (lit "KEY", [])] /\
    exists r e', fcgi_param_entry_search e (pointer_of (lit "KEY")) = Some (r, e') /\
      r = 0 /\ exists v, fcgi_param_entry_value e' = Some v /\ view v = Some [].
Proof.
  apply (fcgi_params_roundtrip (replicate 40 0) 3 [(lit "A", lit "xy"); (lit "KEY", [])] (pointer_of (lit "KEY")) (lit "KEY"));
    [done | repeat constructor | lia | vm_compute; split; congruence | reflexivity | reflexivity].
Defined.
