(* ===== verification/FcgiChunk.v ===== *)
(** * plugins/fastcgi/chunk.c: reference counted buffers and vectors of them

    Chunks live in a store that says which ones are allocated and in which
    order the list of a context links them; touching a freed one is undefined
    behaviour, [None]. A pointer into a chunk is the chunk and an offset. *)
From stdpp Require Import gmap.
From S2P Require Import Prelude CString.
Local Open Scope Z_scope.

(** ** The store *)

Record chunk := { ck_read : Z; ck_write : Z; ck_size : Z; ck_refs : Z; ck_data : bytes }.

#[export] Instance eta_chunk : Eta chunk := fun c =>
  {| ck_read := ck_read c; ck_write := ck_write c; ck_size := ck_size c; ck_refs := ck_refs c; ck_data := ck_data c |}.

(** [st_list] is the [chunk_list] of the context, [st_mem] the other buffers
    that were allocated, [st_next] a name never used. *)
Record store := { st_chunks : gmap nat chunk; st_list : list nat; st_mem : gmap nat bytes; st_next : nat }.

#[export] Instance eta_store : Eta store := fun s =>
  {| st_chunks := st_chunks s; st_list := st_list s; st_mem := st_mem s; st_next := st_next s |}.

(** [offsetof(struct chunk, data)] *)
Definition CHUNK_HEADER : Z := 44.
Definition CHUNK_SIZE (size : Z) : Z := size - CHUNK_HEADER.
Definition SIZE_CHUNK (size : Z) : Z := size + CHUNK_HEADER.

(** The allocated bytes are not initialised: [junk] of that length. *)
Definition chunk_new (junk : nat -> bytes) (size : Z) (s : store) : nat * store :=
  let c := {| ck_read := 0; ck_write := 0; ck_size := CHUNK_SIZE size; ck_refs := 0;
              ck_data := junk (Z.to_nat (CHUNK_SIZE size)) |} in
  (st_next s, s <| st_chunks := <[st_next s := c]> (st_chunks s) |> <| st_next := S (st_next s) |>).

Record chunk_ptr := { cp_parent : nat; cp_len : Z; cp_data : Z }.

#[export] Instance eta_chunk_ptr : Eta chunk_ptr := fun p =>
  {| cp_parent := cp_parent p; cp_len := cp_len p; cp_data := cp_data p |}.

Definition chunk_read_ptr (id : nat) (s : store) : option chunk_ptr :=
  c ← st_chunks s !! id;
  Some {| cp_parent := id; cp_len := u64 (ck_write c - ck_read c); cp_data := ck_read c |}.

Definition chunk_write_ptr (id : nat) (s : store) : option chunk_ptr :=
  c ← st_chunks s !! id;
  Some {| cp_parent := id; cp_len := u64 (ck_size c - ck_write c); cp_data := ck_write c |}.

Definition upd_chunk (id : nat) (f : chunk -> chunk) (s : store) : option store :=
  c ← st_chunks s !! id; Some (s <| st_chunks := <[id := f c]> (st_chunks s) |>).

Definition chunk_set_read_ptr (id : nat) (read : chunk_ptr) (s : store) : option (Z * store) :=
  c ← st_chunks s !! id;
  if negb (Nat.eqb (cp_parent read) id) then Some (-1, s)
  else if negb ((0 <=? cp_data read) && (cp_data read <=? ck_size c)) then Some (-1, s)
  else s ← upd_chunk id (fun c => c <| ck_read := cp_data read |>) s; Some (0, s).

Definition chunk_set_write_ptr (id : nat) (write : chunk_ptr) (s : store) : option (Z * store) :=
  c ← st_chunks s !! id;
  if negb (Nat.eqb (cp_parent write) id) then Some (-1, s)
  else if negb ((0 <=? cp_data write) && (cp_data write <=? ck_size c)) then Some (-1, s)
  else s ← upd_chunk id (fun c => c <| ck_write := cp_data write |>) s; Some (0, s).

(** Unlinked from the list it is in, and freed. *)
Definition chunk_free (id : nat) (s : store) : option store :=
  _ ← st_chunks s !! id;
  Some (s <| st_chunks := delete id (st_chunks s) |> <| st_list := List.filter (fun i => negb (Nat.eqb i id)) (st_list s) |>).

Definition chunk_retain (id : nat) (s : store) : option store :=
  upd_chunk id (fun c => c <| ck_refs := i32 (ck_refs c + 1) |>) s.

Definition chunk_release (id : nat) (s : store) : option (Z * store) :=
  s ← upd_chunk id (fun c => c <| ck_refs := i32 (ck_refs c - 1) |>) s;
  c ← st_chunks s !! id;
  if 0 <? ck_refs c then Some (0, s) else s ← chunk_free id s; Some (1, s).

(** ** The list of a context *)

Definition chunk_list_current (s : store) : option nat := last (st_list s).
Definition chunk_list_add (a : nat) (s : store) : store := s <| st_list := st_list s ++ [a] |>.

(** [mk_list_is_empty] is 0 for an empty list. *)
Fixpoint free_all (l : list nat) (s : store) : option store :=
  match l with [] => Some s | id :: l => s ← chunk_free id s; free_all l s end.
Definition chunk_list_free_chunks (s : store) : option store :=
  match st_list s with [] => Some s | l => free_all l s end.

(** ** Vectors *)

Inductive io_base := BNull | BChunk (id : nat) (off : Z) | BMem (id : nat) (off : Z) | BExt (p : bytes).
Record iovec := { iov_base : io_base; iov_len : Z }.

Inductive chunk_ref := CHUNK_REF_NULL | CHUNK_REF_CHUNK (id : nat) | CHUNK_REF_UINT8 (id : nat).

(** The two arrays have [ci_size] cells, of which [ci_index] are used. *)
Record chunk_iov := { ci_index : Z; ci_size : Z; ci_refs : list chunk_ref; ci_io : list iovec }.

#[export] Instance eta_chunk_iov : Eta chunk_iov := fun v =>
  {| ci_index := ci_index v; ci_size := ci_size v; ci_refs := ci_refs v; ci_io := ci_io v |}.

Definition UIO_MAXIOV : Z := 1024.

(** What a cell that was never written holds. *)
Definition no_ref : chunk_ref := CHUNK_REF_NULL.
Definition no_io : iovec := {| iov_base := BNull; iov_len := 0 |}.

Definition chunk_iov_init (size : Z) : option chunk_iov :=
  if size <=? UIO_MAXIOV then
    Some {| ci_index := 0; ci_size := size; ci_refs := replicate (Z.to_nat size) no_ref; ci_io := replicate (Z.to_nat size) no_io |}
  else None.

Definition chunk_iov_resize (iov : chunk_iov) (size : Z) : Z * chunk_iov :=
  if size <=? UIO_MAXIOV then
    (0, iov <| ci_io := take (Z.to_nat size) (ci_io iov ++ replicate (Z.to_nat size) no_io) |>
            <| ci_refs := take (Z.to_nat size) (ci_refs iov ++ replicate (Z.to_nat size) no_ref) |>
            <| ci_size := size |>)
  else (-1, iov).

Fixpoint sum_lens (l : list iovec) : Z := match l with [] => 0 | io :: l => iov_len io + sum_lens l end.

Definition chunk_iov_length (iov : chunk_iov) : Z := u64 (sum_lens (take (Z.to_nat (ci_index iov)) (ci_io iov))).

(** [p + n] *)
Definition base_add (b : io_base) (n : Z) : option io_base :=
  match b with
  | BNull => None
  | BChunk id off => Some (BChunk id (off + n))
  | BMem id off => Some (BMem id (off + n))
  | BExt p => p ← padd p n; Some (BExt p)
  end.

(** The loop over the cells, from the first on. *)
Fixpoint drop_bytes (l : list iovec) (n : Z) : option (list iovec) :=
  match l with
  | [] => Some []
  | io :: l' =>
    if 0 <? n then
      if iov_len io <? n then
        l' ← drop_bytes l' (n - iov_len io); Some ({| iov_base := BNull; iov_len := 0 |} :: l')
      else
        b ← base_add (iov_base io) n; Some ({| iov_base := b; iov_len := iov_len io - n |} :: l')
    else Some l
  end.

Definition chunk_iov_drop (iov : chunk_iov) (n : Z) : option (Z * chunk_iov) :=
  let length := chunk_iov_length iov in
  if negb (0 <? n) then Some (-1, iov)
  else if negb (n <=? length) then Some (-1, iov)
  else io ← drop_bytes (ci_io iov) n; Some (0, iov <| ci_io := io |>).

(** A new entry in the next cell. *)
Definition set_cell (iov : chunk_iov) (r : chunk_ref) (io : iovec) : chunk_iov :=
  iov <| ci_refs := <[Z.to_nat (ci_index iov) := r]> (ci_refs iov) |>
      <| ci_io := <[Z.to_nat (ci_index iov) := io]> (ci_io iov) |> <| ci_index := ci_index iov + 1 |>.

Definition chunk_iov_add (iov : chunk_iov) (cp : chunk_ptr) (s : store) : option (Z * chunk_iov * store) :=
  if negb (ci_index iov <? ci_size iov) then Some (-1, iov, s)
  else if negb (0 <? cp_len cp) then Some (-1, iov, s)
  else
    s ← chunk_retain (cp_parent cp) s;
    Some (0, set_cell iov (CHUNK_REF_CHUNK (cp_parent cp))
               {| iov_base := BChunk (cp_parent cp) (cp_data cp); iov_len := cp_len cp |}, s).

(** [do_free] gives the name of the allocated buffer. *)
Definition chunk_iov_add_ptr (iov : chunk_iov) (ptr : io_base) (len : Z) (do_free : option nat) : Z * chunk_iov :=
  if negb (ci_index iov <? ci_size iov) then (-1, iov)
  else if negb (0 <? len) then (-1, iov)
  else (0, set_cell iov (match do_free with Some m => CHUNK_REF_UINT8 m | None => CHUNK_REF_NULL end)
             {| iov_base := ptr; iov_len := len |}).

Definition mem_free (m : nat) (s : store) : option store :=
  _ ← st_mem s !! m; Some (s <| st_mem := delete m (st_mem s) |>).

Fixpoint free_refs (l : list chunk_ref) (s : store) : option store :=
  match l with
  | [] => Some s
  | CHUNK_REF_CHUNK id :: l => '(_, s) ← chunk_release id s; free_refs l s
  | CHUNK_REF_UINT8 m :: l => s ← mem_free m s; free_refs l s
  | CHUNK_REF_NULL :: l => free_refs l s
  end.

(** The references given up are cleared. *)
Definition chunk_iov_free_refs (iov : chunk_iov) (s : store) : option (chunk_iov * store) :=
  let n := Z.to_nat (ci_index iov) in
  s ← free_refs (take n (ci_refs iov)) s;
  Some (iov <| ci_refs := replicate n CHUNK_REF_NULL ++ drop n (ci_refs iov) |>, s).

Definition chunk_iov_reset (iov : chunk_iov) (s : store) : option (chunk_iov * store) :=
  '(iov, s) ← chunk_iov_free_refs iov s; Some (iov <| ci_index := 0 |>, s).

Definition chunk_iov_free (iov : chunk_iov) (s : store) : option (chunk_iov * store) :=
  '(_, s) ← chunk_iov_free_refs iov s; Some ({| ci_index := 0; ci_size := 0; ci_refs := []; ci_io := [] |}, s).

(** The bytes of a cell, and what [writev] is given. *)
Definition io_bytes (s : store) (io : iovec) : option bytes :=
  match iov_base io with
  | BNull => if iov_len io =? 0 then Some [] else None
  | BChunk id off => c ← st_chunks s !! id; p ← padd (ck_data c) off; memread p (iov_len io)
  | BMem id off => m ← st_mem s !! id; p ← padd m off; memread p (iov_len io)
  | BExt p => memread p (iov_len io)
  end.

Fixpoint all_bytes (s : store) (l : list iovec) : option bytes :=
  match l with
  | [] => Some []
  | io :: l => b ← io_bytes s io; r ← all_bytes s l; Some (b ++ r)
  end.

Definition iov_bytes (iov : chunk_iov) (s : store) : option bytes :=
  all_bytes s (take (Z.to_nat (ci_index iov)) (ci_io iov)).

(** [writev] is [net]: the data offered, and how much was taken or -1. *)
Definition chunk_iov_sendv (net : bytes -> Z) (iov : chunk_iov) (s : store) : option (Z * bytes) :=
  if negb (0 <? ci_index iov) then Some (0, []) else d ← iov_bytes iov s; Some (net d, d).

(** ** A vector is a queue of bytes *)

Lemma io_bytes_len s io b : io_bytes s io = Some b -> iov_len io = Z.of_nat (length b).
Proof.
  unfold io_bytes. destruct (iov_base io) as [|id off|m off|p].
  - case_if; [|done]. zbool. intros [= <-]. done.
  - destruct (st_chunks s !! id) as [c|]; [|done]. mstep. destruct (padd _ off); [|done]. mstep.
    intros H. now apply memread_inv in H as (_ & H & _).
  - destruct (st_mem s !! m) as [c|]; [|done]. mstep. destruct (padd _ off); [|done]. mstep.
    intros H. now apply memread_inv in H as (_ & H & _).
  - intros H. now apply memread_inv in H as (_ & H & _).
Qed.

Lemma all_bytes_cons s io l b :
  all_bytes s (io :: l) = Some b <-> exists a r, io_bytes s io = Some a /\ all_bytes s l = Some r /\ b = a ++ r.
Proof.
  cbn. destruct (io_bytes s io) as [a|]; [|split; [done|naive_solver]]. mstep.
  destruct (all_bytes s l) as [r|]; [|split; [done|naive_solver]]. mstep. naive_solver.
Qed.

Lemma all_bytes_app s l l' a b :
  all_bytes s l = Some a -> all_bytes s l' = Some b -> all_bytes s (l ++ l') = Some (a ++ b).
Proof.
  revert a; induction l as [|io l IH]; intros a Ha Hb; [cbn in Ha; now injection Ha as <-|].
  apply all_bytes_cons in Ha as (x & r & H1 & H2 & ->). cbn [app]. apply all_bytes_cons.
  exists x, (r ++ b). rewrite <- app_assoc. auto.
Qed.

Lemma all_bytes_len s l b : all_bytes s l = Some b -> sum_lens l = Z.of_nat (length b).
Proof.
  revert b; induction l as [|io l IH]; intros b Hb; [cbn in Hb; now injection Hb as <-|].
  apply all_bytes_cons in Hb as (x & r & H1 & H2 & ->). cbn. apply io_bytes_len in H1. rewrite (IH _ H2), length_app. lia.
Qed.

(** Only the data of chunks and buffers matters. *)
Definition same_data (s s' : store) : Prop :=
  (forall id, ck_data <$> st_chunks s' !! id = ck_data <$> st_chunks s !! id) /\ st_mem s' = st_mem s.

Lemma io_bytes_same s s' io : same_data s s' -> io_bytes s' io = io_bytes s io.
Proof.
  intros [Hc Hm]. unfold io_bytes. destruct (iov_base io) as [|id off|m off|p]; [done| |now rewrite Hm|done].
  specialize (Hc id). destruct (st_chunks s' !! id), (st_chunks s !! id); cbn in Hc; simplify_eq; mstep; congruence.
Qed.

Lemma all_bytes_same s s' l : same_data s s' -> all_bytes s' l = all_bytes s l.
Proof. intros H. induction l as [|io l IH]; [done|]. cbn. now rewrite (io_bytes_same _ _ _ H), IH. Qed.

Lemma upd_chunk_same id f s s' :
  (forall c, ck_data (f c) = ck_data c) -> upd_chunk id f s = Some s' -> same_data s s'.
Proof.
  intros Hf. unfold upd_chunk. destruct (st_chunks s !! id) as [c|] eqn:E; [|done]. mstep. intros [= <-].
  split; [|done]. intros id'. cbn. destruct (decide (id = id')) as [->|Hne].
  - rewrite lookup_insert_eq, E. cbn. now rewrite Hf.
  - now rewrite lookup_insert_ne.
Qed.

Lemma padd_memread_drop p off len n b :
  (q ← padd p off; memread q len) = Some b -> 0 <= n <= len ->
  (q ← padd p (off + n); memread q (len - n)) = Some (drop (Z.to_nat n) b).
Proof.
  destruct (padd p off) as [q|] eqn:E; [|done]. mstep. apply padd_Some in E as [H1 ->]. intros H Hn.
  apply memread_inv in H as (-> & H2 & H3). rewrite length_drop in H3. rewrite padd_drop by lia. mstep.
  rewrite memread_take by (rewrite length_drop; lia). f_equal.
  rewrite skipn_firstn_comm, drop_drop. f_equal; [lia|f_equal; lia].
Qed.

Lemma io_bytes_drop s io b n :
  io_bytes s io = Some b -> 0 < n <= iov_len io ->
  exists base, base_add (iov_base io) n = Some base /\
    io_bytes s {| iov_base := base; iov_len := iov_len io - n |} = Some (drop (Z.to_nat n) b).
Proof.
  destruct io as [base len]. unfold io_bytes. cbn [iov_base iov_len]. intros Hb Hn.
  destruct base as [|id off|m off|p]; cbn [base_add].
  - destruct (len =? 0) eqn:E; [zbool; lia|done].
  - eexists. split; [done|]. cbn [iov_base]. destruct (st_chunks s !! id) as [c|]; [|done].
    apply (padd_memread_drop _ _ _ n _ Hb). lia.
  - eexists. split; [done|]. cbn [iov_base]. destruct (st_mem s !! m) as [c|]; [|done].
    apply (padd_memread_drop _ _ _ n _ Hb). lia.
  - assert (H0 : (q ← padd p 0; memread q len) = Some b) by (rewrite padd_drop by lia; exact Hb).
    apply (padd_memread_drop _ _ _ n) in H0; [|lia]. rewrite Z.add_0_l in H0.
    destruct (padd p n) as [q|]; [|done]. cbn [mbind option_bind] in *. eexists. split; [done|]. exact H0.
Qed.

Lemma drop_bytes_spec s l r b n :
  all_bytes s l = Some b -> 0 <= n <= Z.of_nat (length b) ->
  exists l', drop_bytes (l ++ r) n = Some (l' ++ r) /\ length l' = length l /\
    all_bytes s l' = Some (drop (Z.to_nat n) b).
Proof.
  revert b n; induction l as [|io l IH]; intros b n Hb Hn.
  - cbn in Hb. injection Hb as <-. cbn in Hn. exists []. split; [|split; [done|now rewrite drop_nil]].
    destruct r as [|io r]; [done|]. cbn. now replace (0 <? n) with false by zb.
  - pose proof Hb as Hb0. apply all_bytes_cons in Hb as (a & t & Ha & Ht & ->). rewrite length_app in Hn.
    pose proof (io_bytes_len _ _ _ Ha) as Hl. cbn [app drop_bytes]. destruct (0 <? n) eqn:E0; zbool.
    + destruct (iov_len io <? n) eqn:E; zbool.
      * destruct (IH t (n - iov_len io) Ht) as (l' & -> & Hll & Hl'); [lia|]. mstep. eexists (_ :: l').
        split; [reflexivity|]. split; [cbn; lia|]. apply all_bytes_cons. exists [], (drop (Z.to_nat (n - iov_len io)) t).
        split; [done|]. split; [done|]. rewrite drop_app_ge by lia. cbn. f_equal. lia.
      * destruct (io_bytes_drop s io a n Ha) as (base & -> & Hbase); [lia|]. mstep. eexists (_ :: l).
        split; [reflexivity|]. split; [done|]. apply all_bytes_cons. exists (drop (Z.to_nat n) a), t.
        split; [done|]. split; [done|]. now rewrite drop_app_le by lia.
    + replace n with 0 by lia. exists (io :: l). rewrite Z2Nat.inj_0, drop_0. done.
Qed.

(** The vector is well formed and its entries are the bytes [b]. *)
Record iov_ok (s : store) (iov : chunk_iov) (b : bytes) : Prop := {
  io_index : 0 <= ci_index iov <= ci_size iov;
  io_cells : Z.of_nat (length (ci_io iov)) = ci_size iov;
  io_refs : Z.of_nat (length (ci_refs iov)) = ci_size iov;
  io_data : iov_bytes iov s = Some b;
  io_max : Z.of_nat (length b) < 2 ^ 63
}.

(** The bytes a pointer into a chunk designates. *)
Definition ptr_bytes (s : store) (cp : chunk_ptr) : option bytes :=
  io_bytes s {| iov_base := BChunk (cp_parent cp) (cp_data cp); iov_len := cp_len cp |}.

Lemma iov_ok_same s s' iov b : same_data s s' -> iov_ok s iov b -> iov_ok s' iov b.
Proof. intros H [H1 H2 H3 H4 H5]. split; try done. unfold iov_bytes in *. now rewrite (all_bytes_same _ _ _ H). Qed.

Lemma chunk_iov_length_ok s iov b : iov_ok s iov b -> chunk_iov_length iov = Z.of_nat (length b).
Proof. intros [_ _ _ H1 H2]. unfold chunk_iov_length. rewrite (all_bytes_len _ _ _ H1), u64_small; lia. Qed.

Lemma chunk_iov_drop_ok s iov b n :
  iov_ok s iov b -> 0 < n <= Z.of_nat (length b) ->
  exists iov', chunk_iov_drop iov n = Some (0, iov') /\ iov_ok s iov' (drop (Z.to_nat n) b) /\
    ci_index iov' = ci_index iov /\ ci_size iov' = ci_size iov /\ ci_refs iov' = ci_refs iov.
Proof.
  intros Hok Hn. unfold chunk_iov_drop. rewrite (chunk_iov_length_ok _ _ _ Hok).
  replace (0 <? n) with true by zb. replace (n <=? _) with true by zb. cbn [negb].
  destruct Hok as [H1 H2 H3 H4 H5]. unfold iov_bytes in H4.
  destruct (drop_bytes_spec s _ (drop (Z.to_nat (ci_index iov)) (ci_io iov)) b n H4) as (l' & Hd & Hl & Hb); [lia|].
  rewrite take_drop in Hd. rewrite Hd. mstep. eexists. split; [reflexivity|]. rewrite length_take in Hl. split; [|done].
  split; cbn; try done.
  - rewrite length_app, length_drop. lia.
  - unfold iov_bytes. cbn. now rewrite take_app_length' by lia.
  - rewrite length_drop. lia.
Qed.

(** A new entry of known bytes in the next cell. *)
Lemma set_cell_ok s iov b r io t :
  iov_ok s iov b -> ci_index iov < ci_size iov -> io_bytes s io = Some t -> Z.of_nat (length (b ++ t)) < 2 ^ 63 ->
  iov_ok s (set_cell iov r io) (b ++ t).
Proof.
  intros [H1 H2 H3 H4 H5] Hi Hio Hm. split; cbn; rewrite ?length_insert; try lia.
  unfold iov_bytes in *. cbn. replace (Z.to_nat (ci_index iov + 1)) with (S (Z.to_nat (ci_index iov))) by lia.
  rewrite (take_S_r _ _ io) by (apply list_lookup_insert_eq; lia). rewrite take_insert_ge by lia.
  apply all_bytes_app; [done|]. apply all_bytes_cons. exists t, []. rewrite app_nil_r. done.
Qed.

Lemma chunk_retain_run id s c :
  st_chunks s !! id = Some c ->
  chunk_retain id s = Some (s <| st_chunks := <[id := c <| ck_refs := i32 (ck_refs c + 1) |>]> (st_chunks s) |>) /\
  forall s', chunk_retain id s = Some s' -> same_data s s'.
Proof.
  intros Hc. unfold chunk_retain. split; [unfold upd_chunk; now rewrite Hc|]. intros s' H.
  by eapply upd_chunk_same; [|exact H].
Qed.

(** C18: a vector of chunk pointers is a queue of bytes. Its length is the
    number of bytes; dropping takes them from the front, whatever entries they
    are spread over, and refuses to take none or more than there are; adding
    puts the bytes of the pointer at the end, and refuses when the vector is
    full or there are none; [writev] is offered exactly the bytes. *)
Theorem chunk_iov_queue s iov b :
  iov_ok s iov b ->
  chunk_iov_length iov = Z.of_nat (length b) /\
  (forall n, if (0 <? n) && (n <=? Z.of_nat (length b))
    then exists iov', chunk_iov_drop iov n = Some (0, iov') /\ iov_ok s iov' (drop (Z.to_nat n) b)
    else chunk_iov_drop iov n = Some (-1, iov)) /\
  (forall cp t, ptr_bytes s cp = Some t -> Z.of_nat (length (b ++ t)) < 2 ^ 63 ->
    if (ci_index iov <? ci_size iov) && (0 <? Z.of_nat (length t))
    then exists iov' s', chunk_iov_add iov cp s = Some (0, iov', s') /\ iov_ok s' iov' (b ++ t)
    else chunk_iov_add iov cp s = Some (-1, iov, s)) /\
  (forall net, chunk_iov_sendv net iov s = Some (if 0 <? ci_index iov then (net b, b) else (0, []))).
Proof.
  intros Hok. split; [now apply chunk_iov_length_ok with s|]. split; [|split].
  - intros n. destruct (_ && _) eqn:E; zbool.
    + destruct (chunk_iov_drop_ok s iov b n Hok) as (iov' & H1 & H2 & _); [done|]. eauto.
    + unfold chunk_iov_drop. rewrite (chunk_iov_length_ok _ _ _ Hok). destruct (0 <? n); [|done]. cbn in *. now rewrite E.
  - intros cp t Ht Hm. pose proof (io_bytes_len _ _ _ Ht) as Hl. cbn in Hl. unfold chunk_iov_add. rewrite Hl.
    destruct (ci_index iov <? ci_size iov) eqn:Ei; [|done]. destruct (0 <? Z.of_nat (length t)); [|done]. zbool. cbn [negb andb].
    assert (exists c, st_chunks s !! cp_parent cp = Some c) as [c Hc].
    { unfold ptr_bytes, io_bytes in Ht. cbn in Ht. destruct (st_chunks s !! _); [eauto|done]. }
    destruct (chunk_retain_run _ _ _ Hc) as [Hr Hs]. specialize (Hs _ Hr). rewrite Hr. mstep. rewrite <- Hl.
    eexists _, _. split; [reflexivity|]. apply set_cell_ok; [now apply iov_ok_same with s|done| |done].
    now rewrite (io_bytes_same _ _ _ Hs).
  - intros net. unfold chunk_iov_sendv. destruct (0 <? ci_index iov); [|done]. cbn [negb]. now rewrite (io_data _ _ _ Hok).
Qed.

(** ** References *)

(** How many references to a chunk a list holds. *)
Fixpoint held (id : nat) (l : list chunk_ref) : Z :=
  match l with
  | CHUNK_REF_CHUNK i :: l => (if Nat.eqb i id then 1 else 0) + held id l
  | _ :: l => held id l
  | [] => 0
  end.

(** Every chunk counts its references; nothing refers to a freed one. *)
Definition refs_ok (s : store) (holds : nat -> Z) : Prop :=
  forall id, match st_chunks s !! id with Some c => ck_refs c = holds id | None => holds id = 0 end.

(** The allocated buffers a list owns, each once. *)
Fixpoint owned (l : list chunk_ref) : list nat :=
  match l with CHUNK_REF_UINT8 m :: l => m :: owned l | _ :: l => owned l | [] => [] end.

(** What giving up [n] references leaves of a chunk others refer to [o] times. *)
Definition after_release (n o : Z) (c : chunk) : option chunk :=
  if n =? 0 then Some c else if o =? 0 then None else Some (c <| ck_refs := o |>).

Lemma held_nonneg id l : 0 <= held id l.
Proof. induction l as [|[] l IH]; cbn; try lia. case_if; lia. Qed.

Lemma chunk_release_run id s c :
  st_chunks s !! id = Some c -> - 2 ^ 31 < ck_refs c < 2 ^ 31 ->
  exists r s', chunk_release id s = Some (r, s') /\ st_mem s' = st_mem s /\
    st_chunks s' = if 0 <? ck_refs c - 1 then <[id := c <| ck_refs := ck_refs c - 1 |>]> (st_chunks s)
                   else delete id (st_chunks s).
Proof.
  intros Hc Hr. unfold chunk_release, upd_chunk. rewrite Hc. mstep. cbn [st_chunks set_field]. rewrite lookup_insert_eq. mstep.
  cbn [ck_refs set_field]. rewrite i32_small by lia. destruct (0 <? ck_refs c - 1); [eexists _, _; done|].
  unfold chunk_free. cbn [st_chunks set_field]. rewrite lookup_insert_eq. mstep. eexists _, _. split; [reflexivity|].
  split; [done|]. cbn. now rewrite delete_insert_eq.
Qed.

Lemma mem_free_run m s b : st_mem s !! m = Some b -> mem_free m s = Some (s <| st_mem := delete m (st_mem s) |>).
Proof. intros H. unfold mem_free. now rewrite H. Qed.

Lemma free_refs_spec l s others :
  (forall id, 0 <= others id /\ others id + held id l < 2 ^ 31) ->
  refs_ok s (fun id => others id + held id l) -> NoDup (owned l) -> Forall (fun m => is_Some (st_mem s !! m)) (owned l) ->
  exists s', free_refs l s = Some s' /\ refs_ok s' others /\
    (forall id, st_chunks s' !! id = c ← st_chunks s !! id; after_release (held id l) (others id) c) /\
    (forall m, st_mem s' !! m = if decide (m ∈ owned l) then None else st_mem s !! m).
Proof.
  revert s; induction l as [|r l IH]; intros s Hb Hr Hnd Hm.
  { exists s. split; [done|]. split; [|split; [|done]].
    - intros id. specialize (Hr id). cbn in Hr. now rewrite Z.add_0_r in Hr.
    - intros id. cbn. destruct (st_chunks s !! id); done. }
  destruct r as [|i|m]; cbn [free_refs held owned] in *.
  - exact (IH s Hb Hr Hnd Hm).
  - assert (Hh : forall id, 0 <= held id l) by (intros; apply held_nonneg).
    pose proof (Hr i) as Hi. cbn in Hi. rewrite Nat.eqb_refl in Hi. pose proof (Hb i) as Hbi. rewrite Nat.eqb_refl in Hbi.
    destruct (st_chunks s !! i) as [c|] eqn:Ec; [|specialize (Hh i); lia]. specialize (Hh i) as Hhi.
    destruct (chunk_release_run i s c Ec) as (rr & s1 & -> & Hmem & Hch); [lia|]. mstep.
    destruct (IH s1) as (s' & -> & H1 & H2 & H3).
    + intros id. specialize (Hb id). destruct (Nat.eqb i id); lia.
    + intros id. specialize (Hr id). cbn beta in Hr. destruct (Nat.eqb_spec i id) as [Heq|Hne]; [subst id|]; rewrite Hch.
      * case_if; [rewrite lookup_insert_eq; cbn; lia|rewrite lookup_delete_eq; zbool; lia].
      * case_if; [rewrite lookup_insert_ne by done|rewrite lookup_delete_ne by done]; exact Hr.
    + done.
    + now rewrite Hmem.
    + exists s'. split; [done|]. split; [done|]. split; [|intros m; rewrite H3; now rewrite Hmem].
      intros id. rewrite H2, Hch. unfold after_release. destruct (Nat.eqb_spec i id) as [<-|Hne].
      * rewrite Ec. mstep. replace (1 + held i l =? 0) with false by zb.
        destruct (0 <? ck_refs c - 1) eqn:E; zbool.
        -- rewrite lookup_insert_eq. mstep. destruct (held i l =? 0) eqn:E0; zbool.
           ++ replace (others i =? 0) with false by zb. do 2 f_equal. lia.
           ++ destruct (others i =? 0); done.
        -- rewrite lookup_delete_eq. mstep. now replace (others i =? 0) with true by zb.
      * destruct (0 <? ck_refs c - 1); [rewrite lookup_insert_ne by done|rewrite lookup_delete_ne by done]; done.
  - apply NoDup_cons in Hnd as [Hn Hnd]. apply Forall_cons in Hm as [[b Hmb] Hm]. rewrite (mem_free_run _ _ _ Hmb). mstep.
    destruct (IH (s <| st_mem := delete m (st_mem s) |>)) as (s' & -> & H1 & H2 & H3); [done|exact Hr|done| |].
    + apply Forall_forall. intros x Hx. cbn. rewrite Forall_forall in Hm. rewrite lookup_delete_ne by (intros ->; done). now apply Hm.
    + exists s'. split; [done|]. split; [done|]. split; [exact H2|]. intros x. rewrite H3. cbn.
      destruct (decide (x = m)) as [->|Hne].
      * rewrite lookup_delete_eq. rewrite (decide_True (P := m ∈ m :: owned l)) by (constructor). now case_decide.
      * rewrite lookup_delete_ne by done. assert (x ∈ m :: owned l <-> x ∈ owned l) by (rewrite elem_of_cons; naive_solver).
        repeat case_decide; naive_solver.
Qed.

(** The references of the used cells. *)
Definition held_by (iov : chunk_iov) (id : nat) : Z := held id (take (Z.to_nat (ci_index iov)) (ci_refs iov)).
Definition owned_by (iov : chunk_iov) : list nat := owned (take (Z.to_nat (ci_index iov)) (ci_refs iov)).

Lemma held_app id l l' : held id (l ++ l') = held id l + held id l'.
Proof. induction l as [|[] l IH]; cbn; lia. Qed.

Lemma chunk_iov_add_refs s iov cp others r iov' s' :
  0 <= ci_index iov -> ci_size iov <= Z.of_nat (length (ci_refs iov)) ->
  refs_ok s (fun id => others id + held_by iov id) ->
  (forall id, 0 <= others id + held_by iov id < 2 ^ 31 - 1) ->
  chunk_iov_add iov cp s = Some (r, iov', s') -> refs_ok s' (fun id => others id + held_by iov' id).
Proof.
  intros Hi Hsz Hr Hb. unfold chunk_iov_add. destruct (ci_index iov <? ci_size iov) eqn:E1; cbn [negb]; [|now intros [= _ <- <-]].
  destruct (0 <? cp_len cp); cbn [negb]; [|now intros [= _ <- <-]]. zbool. unfold chunk_retain, upd_chunk.
  destruct (st_chunks s !! cp_parent cp) as [c|] eqn:Ec; [|done]. mstep. intros [= _ <- <-] id. unfold held_by. cbn.
  replace (Z.to_nat (ci_index iov + 1)) with (S (Z.to_nat (ci_index iov))) by lia.
  rewrite (take_S_r _ _ (CHUNK_REF_CHUNK (cp_parent cp))) by (apply list_lookup_insert_eq; lia).
  rewrite take_insert_ge by lia. rewrite held_app. fold (held_by iov id). cbn [held].
  specialize (Hr id). specialize (Hb id). cbn beta in Hr. destruct (Nat.eqb_spec (cp_parent cp) id) as [Heq|Hne].
  - subst id. rewrite lookup_insert_eq. rewrite Ec in Hr. cbn. rewrite i32_small; lia.
  - rewrite lookup_insert_ne by done. destruct (st_chunks s !! id); lia.
Qed.

(** References are conserved. With every chunk counting the references of
    this vector and of all others, adding a pointer keeps the counts right, and
    clearing the vector never touches a freed chunk or frees a buffer twice: a
    chunk it referred to is freed exactly when nobody else does, and otherwise
    counts the others and keeps its data; the others stay; its own buffers,
    and only these, are freed. *)
Theorem chunk_iov_refs s iov others :
  0 <= ci_index iov -> ci_size iov <= Z.of_nat (length (ci_refs iov)) ->
  refs_ok s (fun id => others id + held_by iov id) ->
  (forall id, 0 <= others id /\ others id + held_by iov id < 2 ^ 31 - 1) ->
  NoDup (owned_by iov) -> Forall (fun m => is_Some (st_mem s !! m)) (owned_by iov) ->
  (forall cp r iov' s', chunk_iov_add iov cp s = Some (r, iov', s') -> refs_ok s' (fun id => others id + held_by iov' id)) /\
  exists iov' s', chunk_iov_reset iov s = Some (iov', s') /\ ci_index iov' = 0 /\ refs_ok s' others /\
    (forall id, st_chunks s' !! id = c ← st_chunks s !! id; after_release (held_by iov id) (others id) c) /\
    (forall m, st_mem s' !! m = if decide (m ∈ owned_by iov) then None else st_mem s !! m).
Proof.
  intros Hi Hsz Hr Hb Hnd Hm. split.
  { intros cp r iov' s' H. eapply chunk_iov_add_refs; [exact Hi|exact Hsz|exact Hr| |exact H].
    intros id. specialize (Hb id). assert (0 <= held_by iov id) by apply held_nonneg. lia. }
  destruct (free_refs_spec (take (Z.to_nat (ci_index iov)) (ci_refs iov)) s others) as (s' & Hf & H1 & H2 & H3); [|done..|].
  { intros id. specialize (Hb id). unfold held_by in Hb. lia. }
  unfold chunk_iov_reset, chunk_iov_free_refs. rewrite Hf. mstep. eexists _, s'. split; [reflexivity|]. done.
Qed.

(** A store with the chunk 7, holding "abcdef", and a vector of two of its parts. *)
Definition chunk_example : store :=
  {| st_chunks := {[ 7%nat := {| ck_read := 0; ck_write := 6; ck_size := 8; ck_refs := 2;
                                ck_data := lit "abcdef" ++ [0; 0] |} ]};
     st_list := [7%nat]; st_mem := ∅; st_next := 8 |}.
Definition iov_example : chunk_iov :=
  {| ci_index := 2; ci_size := 4; ci_refs := [CHUNK_REF_CHUNK 7; CHUNK_REF_CHUNK 7; CHUNK_REF_NULL; CHUNK_REF_NULL];
     ci_io := [ {| iov_base := BChunk 7 0; iov_len := 2 |}; {| iov_base := BChunk 7 3; iov_len := 3 |}; no_io; no_io] |}.

Lemma iov_example_ok : iov_ok chunk_example iov_example (lit "abdef").
Proof. split; vm_compute; (done || split; congruence). Qed.

Lemma chunk_iov_queue_witness :
  exists iov', chunk_iov_drop iov_example 3 = Some (0, iov') /\ iov_ok chunk_example iov' (lit "ef").
Proof. destruct (chunk_iov_queue _ _ _ iov_example_ok) as (_ & H & _). exact (H 3). Defined.

Lemma held_example id : held_by iov_example id = if Nat.eqb 7 id then 2 else 0.
Proof.
  unfold held_by. change (take _ _) with [CHUNK_REF_CHUNK 7; CHUNK_REF_CHUNK 7]. unfold held.
  destruct (Nat.eqb 7 id); lia.
Qed.

Lemma chunk_iov_refs_witness :
  exists iov' s', chunk_iov_reset iov_example chunk_example = Some (iov', s') /\ ci_index iov' = 0 /\
    refs_ok s' (fun _ => 0) /\ st_chunks s' !! 7%nat = None.
Proof.
  destruct (chunk_iov_refs chunk_example iov_example (fun _ => 0)) as (_ & iov' & s' & H1 & H2 & H3 & H4 & _).
  - done.
  - done.
  - intros id. cbn beta. rewrite held_example. destruct (Nat.eqb_spec 7 id) as [<-|Hne]; [reflexivity|].
    unfold chunk_example. cbn [st_chunks]. now rewrite lookup_singleton_ne by done.
  - intros id. rewrite held_example. destruct (Nat.eqb 7 id); lia.
  - constructor.
  - constructor.
  - exists iov', s'. split; [exact H1|]. split; [exact H2|]. split; [exact H3|]. now rewrite H4.
Defined.
