(* ===== verification/FcgiRequest.v ===== *)
(** * plugins/fastcgi/request.c: the requests a worker has with FastCGI servers

    A request is known by its position in the array of its list; [cs] and [sr]
    are the handles of the client session and its request. *)
From S2P Require Import Prelude CString FcgiProtocol FcgiChunk.
Local Open Scope Z_scope.

(** ** Powers of two *)

Definition next_power_of_2 (v : Z) : Z :=
  let v := u16 (v - 1) in
  let v := Z.lor v (Z.shiftr v 1) in
  let v := Z.lor v (Z.shiftr v 2) in
  let v := Z.lor v (Z.shiftr v 4) in
  let v := Z.lor v (Z.shiftr v 8) in
  u16 (v + 1).

Definition is_power_of_2 (v : Z) : bool := negb (v =? 0) && (Z.land v (v - 1) =? 0).

(** ** A request *)

Inductive request_state := REQ_AVAILABLE | REQ_ASSIGNED | REQ_SENT | REQ_STREAM_CLOSED | REQ_ENDED | REQ_FINISHED | REQ_FAILED.

#[export] Instance request_state_dec : EqDecision request_state.
Proof. solve_decision. Defined.

Definition REQ_SLEEPING : Z := 1.
Definition REQ_HEADERS_SENT : Z := 2.

Record request := {
  rq_state : request_state; rq_flags : Z; rq_fd : Z; rq_fcgi_fd : Z; rq_clock_id : Z;
  rq_cs : option nat; rq_sr : option nat; rq_iov : chunk_iov
}.

#[export] Instance eta_request : Eta request := fun r =>
  {| rq_state := rq_state r; rq_flags := rq_flags r; rq_fd := rq_fd r; rq_fcgi_fd := rq_fcgi_fd r;
     rq_clock_id := rq_clock_id r; rq_cs := rq_cs r; rq_sr := rq_sr r; rq_iov := rq_iov r |}.

(** [None] is the failure of [chunk_iov_init]. *)
Definition request_init (iov_n : Z) : option request :=
  iov ← chunk_iov_init iov_n;
  Some {| rq_state := REQ_AVAILABLE; rq_flags := 0; rq_fd := -1; rq_fcgi_fd := -1; rq_clock_id := 0;
          rq_cs := None; rq_sr := None; rq_iov := iov |}.

Definition request_reset (req : request) (s : store) : option (request * store) :=
  '(iov, s) ← chunk_iov_reset (rq_iov req) s;
  Some (req <| rq_state := REQ_AVAILABLE |> <| rq_flags := 0 |> <| rq_fd := -1 |> <| rq_fcgi_fd := -1 |>
            <| rq_clock_id := 0 |> <| rq_iov := iov |>, s).

(** The states from which a state may be entered. *)
Definition may_enter (from to : request_state) : bool :=
  match to with
  | REQ_AVAILABLE => bool_decide (from = REQ_FINISHED)
  | REQ_ASSIGNED => bool_decide (from = REQ_AVAILABLE) || bool_decide (from = REQ_FINISHED)
  | REQ_SENT => bool_decide (from = REQ_ASSIGNED)
  | REQ_STREAM_CLOSED => bool_decide (from = REQ_SENT)
  | REQ_ENDED => bool_decide (from = REQ_STREAM_CLOSED) || bool_decide (from = REQ_FAILED) || bool_decide (from = REQ_SENT)
  | REQ_FINISHED => bool_decide (from = REQ_ENDED)
  | REQ_FAILED => true
  end.

Definition request_set_state (req : request) (state : request_state) (s : store) : option (Z * request * store) :=
  if may_enter (rq_state req) state then
    match state with
    | REQ_AVAILABLE => '(req, s) ← request_reset req s; Some (0, req, s)
    | _ => Some (0, req <| rq_state := state |>, s)
    end
  else Some (-1, req, s).

Definition request_set_flag (req : request) (flag : Z) : Z * request :=
  if Z.land (rq_flags req) flag =? 0 then (0, req <| rq_flags := Z.lor (rq_flags req) flag |>) else (-1, req).

Definition request_unset_flag (req : request) (flag : Z) : Z * request :=
  if Z.land (rq_flags req) flag =? 0 then (-1, req) else (0, req <| rq_flags := Z.ldiff (rq_flags req) flag |>).

Definition request_get_flag (req : request) (flag : Z) : bool := negb (Z.land (rq_flags req) flag =? 0).

Definition request_assign (req : request) (fd clock_id : Z) (cs sr : option nat) (s : store) : option (Z * request * store) :=
  '(ret, req, s) ← request_set_state req REQ_ASSIGNED s;
  if negb (ret =? 0) then Some (-1, req, s)
  else Some (0, req <| rq_fd := fd |> <| rq_clock_id := clock_id |> <| rq_cs := cs |> <| rq_sr := sr |>, s).

Definition request_set_fcgi_fd (req : request) (fcgi_fd : Z) : request := req <| rq_fcgi_fd := fcgi_fd |>.

(** The warning about a running request never comes: the states are no bits. *)
Definition request_recycle (req : request) (s : store) : option (request * store) := request_reset req s.

Definition request_add_pkg (req : request) (h : fcgi_header) (cp : chunk_ptr) (s : store) : option (Z * request * store) :=
  let pkg_length := FCGI_HEADER_LEN + h_body_len h + h_body_pad h in
  if negb (pkg_length <=? cp_len cp) then Some (-1, req, s)
  else if negb (bool_decide (rq_state req = REQ_SENT)) then Some (-1, req, s)
  else
    let cp := cp <| cp_data := cp_data cp + FCGI_HEADER_LEN |> <| cp_len := h_body_len h |> in
    '(ret, iov, s) ← chunk_iov_add (rq_iov req) cp s;
    let req := req <| rq_iov := iov |> in
    if ret =? 0 then Some (pkg_length, req, s) else
    let '(ret, iov) := chunk_iov_resize (rq_iov req) (ci_size (rq_iov req) + 2) in
    let req := req <| rq_iov := iov |> in
    if negb (ret =? 0) then Some (-1, req, s) else
    '(ret, iov, s) ← chunk_iov_add (rq_iov req) cp s;
    let req := req <| rq_iov := iov |> in
    if negb (ret =? 0) then Some (-1, req, s) else Some (pkg_length, req, s).

Definition request_free (req : request) (s : store) : option (request * store) :=
  '(req, s) ← request_reset req s; '(iov, s) ← chunk_iov_free (rq_iov req) s; Some (req <| rq_iov := iov |>, s).

(** ** The loops around a ring

    [do { i = (i + 1) & mask; body } while (i != clock)]; the body ends the
    loop with [inr]. *)
Fixpoint ring_loop {S A : Type} (fuel : nat) (body : Z -> S -> option (S + A)) (i mask clock : Z) (s : S)
    : option (S + A) :=
  match fuel with
  | O => None
  | Datatypes.S fuel =>
    let i := Z.land (i + 1) mask in
    r ← body i s;
    match r with
    | inr a => Some (inr a)
    | inl s => if i =? clock then Some (inl s) else ring_loop fuel body i mask clock s
    end
  end.

(** ** The cache of requests *)

Record req_cache_entry := { ce_req : option nat; ce_fd : Z; ce_fcgi_fd : Z; ce_counter : Z }.

#[export] Instance eta_req_cache_entry : Eta req_cache_entry := fun e =>
  {| ce_req := ce_req e; ce_fd := ce_fd e; ce_fcgi_fd := ce_fcgi_fd e; ce_counter := ce_counter e |}.

Definition REQ_CACHE_SIZE : Z := 32.

Record request_cache := { rc_entries : list req_cache_entry; rc_clock_hand : Z; rc_mask : Z }.

#[export] Instance eta_request_cache : Eta request_cache := fun c =>
  {| rc_entries := rc_entries c; rc_clock_hand := rc_clock_hand c; rc_mask := rc_mask c |}.

(** [fcgi_fd] is not set: it is what the memory held. *)
Definition request_cache_init (junk : nat -> Z) : request_cache :=
  {| rc_entries := imap (fun i _ => {| ce_req := None; ce_fd := -1; ce_fcgi_fd := junk i; ce_counter := 0 |})
                     (replicate (Z.to_nat REQ_CACHE_SIZE) tt);
     rc_clock_hand := 0; rc_mask := REQ_CACHE_SIZE - 1 |}.

Definition upd_entry (i : Z) (f : req_cache_entry -> req_cache_entry) (c : request_cache) : request_cache :=
  c <| rc_entries := alter f (Z.to_nat i) (rc_entries c) |>.

Definition cache_ring {A} (body : Z -> request_cache -> option (request_cache + A)) (c : request_cache)
    : option (request_cache + A) :=
  ring_loop (S (Z.to_nat (rc_mask c))) body (rc_clock_hand c) (rc_mask c) (rc_clock_hand c) c.

(** The entry looked at is always the one at position 1. *)
Definition request_cache_add (c : request_cache) (id : nat) (req : request) : option request_cache :=
  r ← cache_ring (fun i c =>
        e ← rc_entries c !! 1%nat;
        if 0 <? ce_counter e then Some (inl (upd_entry 1 (fun e => e <| ce_counter := ce_counter e - 1 |>) c))
        else Some (inr (upd_entry 1 (fun e => e <| ce_req := Some id |> <| ce_fd := rq_fd req |>
                                                <| ce_fcgi_fd := rq_fcgi_fd req |> <| ce_counter := 1 |>) c
                        <| rc_clock_hand := i |>))) c;
  Some (match r with inl c => c | inr c => c end).

Definition request_cache_hit (c : request_cache) (id : nat) (req : request) : option request_cache :=
  r ← cache_ring (fun i c =>
        e ← rc_entries c !! Z.to_nat i;
        if bool_decide (ce_req e = Some id) then
          Some (inr (upd_entry i (fun e => e <| ce_fd := rq_fd req |> <| ce_fcgi_fd := rq_fcgi_fd req |>
                                             <| ce_counter := ce_counter e + 1 |>) c))
        else Some (inl c)) c;
  match r with inr c => Some c | inl c => request_cache_add c id req end.

(** The request found, when there is one; an entry without a request that has
    the descriptor is a NULL dereference. *)
Definition request_cache_search (rs : list request) (c : request_cache) (fd : Z) : option (option nat * request_cache) :=
  r ← cache_ring (fun i c =>
        e ← rc_entries c !! Z.to_nat i;
        if ce_fd e =? fd then
          id ← ce_req e; req ← rs !! id;
          if rq_fd req =? fd then Some (inr (Some id, upd_entry i (fun e => e <| ce_counter := ce_counter e + 1 |>) c))
          else Some (inr (None, upd_entry i (fun e => e <| ce_counter := 0 |> <| ce_fd := -1 |>) c))
        else Some (inl c)) c;
  match r with inr r => Some r | inl c => Some (None, c) end.

Definition request_cache_search_fcgi_fd (rs : list request) (c : request_cache) (fd : Z)
    : option (option nat * request_cache) :=
  r ← cache_ring (fun i c =>
        e ← rc_entries c !! Z.to_nat i;
        if ce_fcgi_fd e =? fd then
          id ← ce_req e; req ← rs !! id;
          if rq_fcgi_fd req =? fd then Some (inr (Some id, upd_entry i (fun e => e <| ce_counter := ce_counter e + 1 |>) c))
          else Some (inr (None, upd_entry i (fun e => e <| ce_counter := 0 |> <| ce_fcgi_fd := -1 |>) c))
        else Some (inl c)) c;
  match r with inr r => Some r | inl c => Some (None, c) end.

(** ** The list of requests *)

Record request_list := {
  rl_cache : request_cache; rl_size : Z; rl_id_offset : Z; rl_clock_count : Z; rl_clock_hands : list Z; rl_rs : list request
}.

#[export] Instance eta_request_list : Eta request_list := fun l =>
  {| rl_cache := rl_cache l; rl_size := rl_size l; rl_id_offset := rl_id_offset l;
     rl_clock_count := rl_clock_count l; rl_clock_hands := rl_clock_hands l; rl_rs := rl_rs l |}.

(** [None] is the error -1. *)
Definition request_list_init (junk : nat -> Z) (clock_count id_offset size : Z) : option request_list :=
  if negb (is_power_of_2 size) then None else
  req ← request_init 4;
  Some {| rl_cache := request_cache_init junk; rl_size := size; rl_id_offset := id_offset; rl_clock_count := clock_count;
          rl_clock_hands := replicate (Z.to_nat clock_count) 0; rl_rs := replicate (Z.to_nat size) req |}.

Definition get_clock_hand (rl : request_list) (clock_id : Z) : option Z :=
  if clock_id <? rl_clock_count rl then rl_clock_hands rl !! Z.to_nat clock_id else Some 0.

Definition set_clock_hand (rl : request_list) (clock_id clock_hand : Z) : request_list :=
  if clock_id <? rl_clock_count rl then rl <| rl_clock_hands := <[Z.to_nat clock_id := clock_hand]> (rl_clock_hands rl) |> else rl.

(** The first request from the hand on that satisfies the test. *)
Definition list_ring (rl : request_list) (clock : Z) (p : request -> bool) : option (option nat) :=
  r ← ring_loop (Z.to_nat (rl_size rl)) (fun i _ =>
        r ← rl_rs rl !! Z.to_nat i; Some (if p r then inr (Z.to_nat i) else inl tt)) clock (rl_size rl - 1) clock tt;
  Some (match r with inr i => Some i | inl _ => None end).

Definition request_list_next_available (rl : request_list) (clock_id : Z) : option (option nat) :=
  clock ← get_clock_hand rl clock_id;
  list_ring rl clock (fun r => bool_decide (rq_state r = REQ_AVAILABLE)).

Definition request_list_next_assigned (rl : request_list) (clock_id : Z) : option (option nat * request_list) :=
  clock ← get_clock_hand rl clock_id;
  r ← list_ring rl clock (fun r => bool_decide (rq_state r = REQ_ASSIGNED) && (rq_clock_id r =? clock_id));
  match r with
  | None => Some (None, rl)
  | Some i =>
    req ← rl_rs rl !! i;
    c ← request_cache_hit (rl_cache rl) i req;
    Some (Some i, set_clock_hand (rl <| rl_cache := c |>) clock_id (Z.of_nat i))
  end.

Definition request_list_get_by_fd (rl : request_list) (fd : Z) : option (option nat * request_list) :=
  clock ← get_clock_hand rl 0;
  '(r, c) ← request_cache_search (rl_rs rl) (rl_cache rl) fd;
  let rl := rl <| rl_cache := c |> in
  match r with
  | Some i => Some (Some i, rl)
  | None =>
    r ← list_ring rl clock (fun r => rq_fd r =? fd);
    match r with
    | None => Some (None, rl)
    | Some i => req ← rl_rs rl !! i; c ← request_cache_add (rl_cache rl) i req; Some (Some i, rl <| rl_cache := c |>)
    end
  end.

(** The loop of [request_list_get_by_fcgi_fd] looks at the hand first. *)
Fixpoint fcgi_fd_loop (fuel : nat) (rs : list request) (fd i mask clock : Z) : option (option nat) :=
  match fuel with
  | O => None
  | S fuel =>
    r ← rs !! Z.to_nat i;
    if rq_fcgi_fd r =? fd then Some (Some (Z.to_nat i)) else
    let i := Z.land (i + 1) mask in
    if i =? clock then Some None else fcgi_fd_loop fuel rs fd i mask clock
  end.

Definition request_list_get_by_fcgi_fd (rl : request_list) (fd : Z) : option (option nat * request_list) :=
  clock ← get_clock_hand rl 0;
  '(r, c) ← request_cache_search_fcgi_fd (rl_rs rl) (rl_cache rl) fd;
  let rl := rl <| rl_cache := c |> in
  match r with
  | Some i => Some (Some i, rl)
  | None =>
    r ← fcgi_fd_loop (Z.to_nat (rl_size rl)) (rl_rs rl) fd clock (rl_size rl - 1) clock;
    match r with
    | None => Some (None, rl)
    | Some i => req ← rl_rs rl !! i; c ← request_cache_add (rl_cache rl) i req; Some (Some i, rl <| rl_cache := c |>)
    end
  end.

Definition request_list_get (rl : request_list) (req_id : Z) : option (option nat * request_list) :=
  let real_req_index := u16 (req_id - rl_id_offset rl) in
  if negb (rl_id_offset rl <=? req_id) then Some (None, rl)
  else if negb (real_req_index <? rl_size rl) then Some (None, rl)
  else
    req ← rl_rs rl !! Z.to_nat real_req_index;
    c ← request_cache_hit (rl_cache rl) (Z.to_nat real_req_index) req;
    Some (Some (Z.to_nat real_req_index), rl <| rl_cache := c |>).

(** The position just past the array is accepted. *)
Definition request_list_index_of (rl : request_list) (r : nat) : Z :=
  if Z.of_nat r <=? rl_size rl then u16 (rl_id_offset rl + Z.of_nat r) else 0.

Fixpoint free_requests (rs : list request) (s : store) : option store :=
  match rs with [] => Some s | r :: rs => '(_, s) ← request_free r s; free_requests rs s end.

Definition request_list_free (rl : request_list) (s : store) : option (request_list * store) :=
  s ← free_requests (rl_rs rl) s; Some (rl <| rl_size := 0 |> <| rl_rs := [] |>, s).

(** ** What the loops visit *)

(** The positions of a ring of [n], from the one after [clock] to [clock]. *)
Definition ring_pos (n clock : Z) (j : nat) : Z := (clock + 1 + Z.of_nat j) mod n.
Definition ring (n clock : Z) : list Z := map (ring_pos n clock) (seq 0 (Z.to_nat n)).

(** The loop over a list of positions. *)
Fixpoint loop_list {S A : Type} (body : Z -> S -> option (S + A)) (l : list Z) (s : S) : option (S + A) :=
  match l with
  | [] => Some (inl s)
  | i :: l => r ← body i s; match r with inr a => Some (inr a) | inl s => loop_list body l s end
  end.

Definition power_of_2 (n : Z) : Prop := exists k, 0 <= k /\ n = 2 ^ k.

Lemma land_mask n x : power_of_2 n -> Z.land x (n - 1) = x mod n.
Proof. intros (k & Hk & ->). rewrite <- Z.land_ones by done. f_equal. rewrite Z.ones_equiv. lia. Qed.

Lemma power_of_2_pos n : power_of_2 n -> 0 < n.
Proof. intros (k & Hk & ->). apply Z.pow_pos_nonneg; lia. Qed.

Lemma ring_loop_list {S A} (body : Z -> S -> option (S + A)) n clock s :
  power_of_2 n -> 0 <= clock < n ->
  ring_loop (Z.to_nat n) body clock (n - 1) clock s = loop_list body (ring n clock) s.
Proof.
  intros Hn Hc. pose proof (power_of_2_pos n Hn). unfold ring.
  enough (Hgen : forall m j s, (j + m)%nat = Z.to_nat n -> (0 < m)%nat ->
    ring_loop m body ((clock + Z.of_nat j) mod n) (n - 1) clock s = loop_list body (map (ring_pos n clock) (seq j m)) s).
  { specialize (Hgen (Z.to_nat n) 0%nat s). rewrite Z.add_0_r, Z.mod_small in Hgen by lia. apply Hgen; lia. }
  induction m as [|m IH]; intros j s' Hj Hm; [lia|]. cbn [ring_loop seq map loop_list].
  rewrite land_mask, Zplus_mod_idemp_l by done. replace (clock + Z.of_nat j + 1) with (clock + 1 + Z.of_nat j) by lia.
  fold (ring_pos n clock j). destruct (body (ring_pos n clock j) s') as [[s1|a]|]; [|done|done]. mstep. destruct m as [|m].
  - cbn. unfold ring_pos. replace ((clock + 1 + Z.of_nat j) mod n =? clock) with true; [done|]. symmetry. apply Z.eqb_eq.
    replace (clock + 1 + Z.of_nat j) with (clock + 1 * n) by lia. rewrite Z_mod_plus_full, Z.mod_small; lia.
  - replace (ring_pos n clock j =? clock) with false.
    + rewrite <- IH by lia. f_equal. unfold ring_pos. f_equal. lia.
    + unfold ring_pos. symmetry. apply Z.eqb_neq. rewrite Z.mod_eq by lia.
      generalize ((clock + 1 + Z.of_nat j) / n). intros q. assert (0 < q \/ q <= 0) as [?|?] by lia; nia.
Qed.

Lemma ring_range n clock i : 0 < n -> i ∈ ring n clock -> 0 <= i < n.
Proof.
  intros Hn Hi. apply list_elem_of_In, in_map_iff in Hi as (j & <- & _). now apply Z.mod_pos_bound.
Qed.

Lemma ring_all n clock i : 0 <= i < n -> 0 <= clock < n -> i ∈ ring n clock.
Proof.
  intros Hi Hc. apply list_elem_of_In, in_map_iff. exists (Z.to_nat ((i - clock - 1) mod n)).
  pose proof (Z.mod_pos_bound (i - clock - 1) n). split; [|apply in_seq; lia]. unfold ring_pos. rewrite Z2Nat.id by lia.
  rewrite Zplus_mod_idemp_r. replace (clock + 1 + (i - clock - 1)) with i by lia. apply Z.mod_small. lia.
Qed.

(** An invariant of the body is one of the loop. *)
Lemma loop_list_inv {S A} (body : Z -> S -> option (S + A)) (P : S -> Prop) (Q : A -> Prop) l s :
  (forall i s, i ∈ l -> P s -> exists r, body i s = Some r /\ match r with inl s => P s | inr a => Q a end) ->
  P s -> exists r, loop_list body l s = Some r /\ match r with inl s => P s | inr a => Q a end.
Proof.
  revert s; induction l as [|i l IH]; intros s Hb Hs; [by exists (inl s)|]. cbn.
  destruct (Hb i s) as ([s1|a] & -> & H1); [left|done|..]; mstep.
  - apply IH; [|done]. intros j sj Hj. apply Hb. now right.
  - by exists (inr a).
Qed.

(** A loop that only looks is a search. *)
Lemma loop_list_find {A} (f : Z -> bool) (g : Z -> A) l :
  loop_list (fun i (_ : unit) => Some (if f i then inr (g i) else inl tt)) l tt =
  Some (match List.find f l with Some i => inr (g i) | None => inl tt end).
Proof. induction l as [|i l IH]; [done|]. cbn. destruct (f i); [done|exact IH]. Qed.

(** ** The list of requests is searched correctly whatever its cache holds *)

Record cache_ok (rs : list request) (c : request_cache) : Prop := {
  ca_len : length (rc_entries c) = Z.to_nat REQ_CACHE_SIZE;
  ca_mask : rc_mask c = REQ_CACHE_SIZE - 1;
  ca_hand : 0 <= rc_clock_hand c < REQ_CACHE_SIZE;
  ca_entries : Forall (fun e => match ce_req e with Some id => (id < length rs)%nat | None => ce_fd e = -1 end) (rc_entries c)
}.

Record list_ok (rl : request_list) : Prop := {
  lo_size : power_of_2 (rl_size rl);
  lo_rs : Z.of_nat (length (rl_rs rl)) = rl_size rl;
  lo_cache : cache_ok (rl_rs rl) (rl_cache rl);
  lo_clocks : Z.of_nat (length (rl_clock_hands rl)) = rl_clock_count rl;
  lo_hands : Forall (fun h => 0 <= h < rl_size rl) (rl_clock_hands rl)
}.

Lemma cache_size_power : power_of_2 REQ_CACHE_SIZE.
Proof. by exists 5. Qed.

Lemma cache_ring_list {A} rs (body : Z -> request_cache -> option (request_cache + A)) c :
  cache_ok rs c -> cache_ring body c = loop_list body (ring REQ_CACHE_SIZE (rc_clock_hand c)) c.
Proof.
  intros [_ Hm Hh _]. unfold cache_ring. rewrite Hm. change (S (Z.to_nat (REQ_CACHE_SIZE - 1))) with (Z.to_nat REQ_CACHE_SIZE).
  now apply ring_loop_list; [apply cache_size_power|].
Qed.

Lemma upd_entry_ok rs c i f :
  cache_ok rs c ->
  (forall e, match ce_req e with Some id => (id < length rs)%nat | None => ce_fd e = -1 end ->
             match ce_req (f e) with Some id => (id < length rs)%nat | None => ce_fd (f e) = -1 end) ->
  cache_ok rs (upd_entry i f c).
Proof.
  intros [H1 H2 H3 H4] Hf. split; cbn; rewrite ?length_alter; try done. now apply Forall_alter; [|intros; apply Hf].
Qed.

Lemma cache_entry rs c i : cache_ok rs c -> 0 <= i < REQ_CACHE_SIZE -> exists e, rc_entries c !! Z.to_nat i = Some e /\
  match ce_req e with Some id => (id < length rs)%nat | None => ce_fd e = -1 end.
Proof.
  intros [H1 _ _ H4] Hi. destruct (lookup_lt_is_Some_2 (rc_entries c) (Z.to_nat i)) as [e He]; [rewrite H1; lia|].
  exists e. split; [done|]. exact (Forall_lookup_1 _ _ _ _ H4 He).
Qed.

(** Runs a loop of the cache under the invariant of the cache. *)
Lemma cache_ring_inv {A} rs (body : Z -> request_cache -> option (request_cache + A)) (Q : A -> Prop) c :
  cache_ok rs c ->
  (forall i c, 0 <= i < REQ_CACHE_SIZE -> cache_ok rs c ->
    exists r, body i c = Some r /\ match r with inl c => cache_ok rs c | inr a => Q a end) ->
  exists r, cache_ring body c = Some r /\ match r with inl c => cache_ok rs c | inr a => Q a end.
Proof.
  intros Hc Hb. rewrite (cache_ring_list rs) by done. apply loop_list_inv; [|done].
  intros i c' Hi. apply Hb. now apply ring_range with (rc_clock_hand c).
Qed.

Ltac run_cache_ring Hc Q :=
  lazymatch type of Hc with
  | cache_ok ?rs ?c =>
    lazymatch goal with
    | |- context [cache_ring ?b c] =>
      let r := fresh "r" in let Hr := fresh "Hr" in let Hok := fresh "Hok" in
      destruct (cache_ring_inv rs b Q c Hc) as (r & Hr & Hok); [|rewrite Hr; mstep]
    end
  end.

Lemma request_cache_add_ok rs c id req :
  cache_ok rs c -> (id < length rs)%nat -> exists c', request_cache_add c id req = Some c' /\ cache_ok rs c'.
Proof.
  intros Hc Hid. unfold request_cache_add.
  run_cache_ring Hc (cache_ok rs); [|eexists; split; [reflexivity|]; now destruct r].
  intros i c' Hi Hc'. destruct (cache_entry rs c' 1 Hc') as (e & He & Hoe); [done|]. change (Z.to_nat 1) with 1%nat in He.
  rewrite He. mstep. case_if; eexists; (split; [reflexivity|]).
  - now apply upd_entry_ok.
  - destruct (upd_entry_ok rs c' 1 (fun e => e <| ce_req := Some id |> <| ce_fd := rq_fd req |>
      <| ce_fcgi_fd := rq_fcgi_fd req |> <| ce_counter := 1 |>) Hc') as [H1 H2 H3 H4]; [done|]. now split.
Qed.

Lemma request_cache_hit_ok rs c id req :
  cache_ok rs c -> (id < length rs)%nat -> exists c', request_cache_hit c id req = Some c' /\ cache_ok rs c'.
Proof.
  intros Hc Hid. unfold request_cache_hit.
  run_cache_ring Hc (cache_ok rs); [|destruct r; [now apply request_cache_add_ok|eauto]].
  intros i c' Hi Hc'. destruct (cache_entry rs c' i Hc' Hi) as (e & He & Hoe). rewrite He. mstep.
  destruct (bool_decide _) eqn:E; eexists; (split; [reflexivity|]); [|done].
  assert (Hin : Forall (fun e => match ce_req e with Some id => (id < length rs)%nat | None => ce_fd e = -1 end) (rc_entries c'))
    by apply Hc'. destruct Hc' as [H1 H2 H3 H4]. split; cbn; rewrite ?length_alter; try done. apply bool_decide_eq_true in E.
  apply Forall_lookup. intros j e' Hj. rewrite list_lookup_alter in Hj. case_decide; [|exact (Forall_lookup_1 _ _ _ _ H4 Hj)].
  subst j. rewrite He in Hj. cbn in Hj. injection Hj as <-. cbn. rewrite E. exact Hid.
Qed.

(** The cache answers with a request of that descriptor, or not at all. *)
Lemma request_cache_search_ok rs c fd :
  cache_ok rs c -> fd <> -1 ->
  exists r c', request_cache_search rs c fd = Some (r, c') /\ cache_ok rs c' /\
    match r with Some id => exists req, rs !! id = Some req /\ rq_fd req = fd | None => True end.
Proof.
  intros Hc Hfd. unfold request_cache_search.
  run_cache_ring Hc (fun rc : option nat * request_cache => cache_ok rs (snd rc) /\
      match fst rc with Some id => exists req, rs !! id = Some req /\ rq_fd req = fd | None => True end);
    [|destruct r as [c'|[r c']]; [by exists None, c'|]; exists r, c'; exact (conj eq_refl Hok)].
  intros i c' Hi Hc'. destruct (cache_entry rs c' i Hc' Hi) as (e & He & Hoe). rewrite He. mstep.
  destruct (ce_fd e =? fd) eqn:E; zbool; [|by eexists].
  destruct (ce_req e) as [id|]; [|congruence]. mstep. destruct (lookup_lt_is_Some_2 rs id Hoe) as [req Hreq].
  rewrite Hreq. mstep. case_if; zbool; eexists; (split; [reflexivity|]); cbn.
  - split; [now apply upd_entry_ok|]. eauto.
  - split; [|done]. apply upd_entry_ok; [done|]. intros e' He'. cbn. now destruct (ce_req e').
Qed.

(** The first position of the ring whose request passes the test. *)
Definition first_request (rs : list request) (p : request -> bool) (l : list Z) : option nat :=
  Z.to_nat <$> List.find (fun i => match rs !! Z.to_nat i with Some r => p r | None => false end) l.

Lemma list_ring_first rl clock p :
  list_ok rl -> 0 <= clock < rl_size rl ->
  list_ring rl clock p = Some (first_request (rl_rs rl) p (ring (rl_size rl) clock)).
Proof.
  intros Hl Hc. unfold list_ring. rewrite ring_loop_list by (apply Hl || done). pose proof (power_of_2_pos _ (lo_size _ Hl)).
  set (f := fun i => match rl_rs rl !! Z.to_nat i with Some r => p r | None => false end).
  enough (Hgen : forall l, (forall i, i ∈ l -> 0 <= i < rl_size rl) ->
    loop_list (fun i (_ : unit) => r ← rl_rs rl !! Z.to_nat i; Some (if p r then inr (Z.to_nat i) else inl tt)) l tt =
    Some (match List.find f l with Some i => inr (Z.to_nat i) | None => inl tt end)).
  { rewrite Hgen by (intros i; now apply ring_range). mstep. unfold first_request. fold f. now destruct (List.find f _). }
  induction l as [|i l IH]; intros Hr; [done|]. cbn. unfold f at 1.
  destruct (lookup_lt_is_Some_2 (rl_rs rl) (Z.to_nat i)) as [r Hri].
  { pose proof (lo_rs _ Hl). specialize (Hr i ltac:(now left)). lia. }
  rewrite Hri. mstep. destruct (p r); [done|]. apply IH. intros j Hj. apply Hr. now right.
Qed.

Lemma first_request_Some rs p l i :
  first_request rs p l = Some i -> exists r, rs !! i = Some r /\ p r = true.
Proof.
  unfold first_request. intros H. apply fmap_Some in H as (z & H & ->). apply List.find_some in H as [_ H].
  destruct (rs !! Z.to_nat z) as [r|]; [eauto|done].
Qed.

Lemma first_request_None rs p n clock :
  Z.of_nat (length rs) = n -> 0 <= clock < n -> first_request rs p (ring n clock) = None -> Forall (fun r => p r = false) rs.
Proof.
  unfold first_request. intros Hn Hc H. apply fmap_None in H. apply Forall_lookup. intros i r Hi.
  apply lookup_lt_Some in Hi as Hlt. pose proof (ring_all n clock (Z.of_nat i) ltac:(lia) Hc) as Hin.
  apply list_elem_of_In in Hin. pose proof (List.find_none _ _ H _ Hin) as Hf. cbn in Hf. rewrite Nat2Z.id, Hi in Hf. done.
Qed.

Lemma clock_hand_ok rl c : list_ok rl -> 0 <= c -> exists h, get_clock_hand rl c = Some h /\ 0 <= h < rl_size rl.
Proof.
  intros Hl Hc. unfold get_clock_hand. case_if; zbool.
  - destruct (lookup_lt_is_Some_2 (rl_clock_hands rl) (Z.to_nat c)) as [h Hh]; [pose proof (lo_clocks _ Hl); lia|].
    exists h. split; [done|]. exact (Forall_lookup_1 _ _ _ _ (lo_hands _ Hl) Hh).
  - exists 0. split; [done|]. pose proof (power_of_2_pos _ (lo_size _ Hl)). lia.
Qed.

Lemma request_list_get_by_fd_run rl fd :
  list_ok rl -> fd <> -1 ->
  exists r rl', request_list_get_by_fd rl fd = Some (r, rl') /\ list_ok rl' /\
    rl_rs rl' = rl_rs rl /\ rl_clock_hands rl' = rl_clock_hands rl /\ rl_id_offset rl' = rl_id_offset rl /\
    match r with
    | Some i => exists req, rl_rs rl !! i = Some req /\ rq_fd req = fd
    | None => Forall (fun req => rq_fd req <> fd) (rl_rs rl)
    end.
Proof.
  intros Hl Hfd. unfold request_list_get_by_fd. destruct (clock_hand_ok rl 0 Hl) as (h & -> & Hh); [done|]. mstep.
  destruct (request_cache_search_ok (rl_rs rl) (rl_cache rl) fd (lo_cache _ Hl) Hfd) as (r & c & -> & Hc & Hr). mstep.
  assert (Hl1 : list_ok (rl <| rl_cache := c |>)) by (destruct Hl; now split).
  destruct r as [i|]; [eexists _, _; split; [reflexivity|]; by split_and!|].
  rewrite list_ring_first by done. cbn [rl_rs rl_size set_field]. mstep.
  destruct (first_request _ _ _) as [i|] eqn:E.
  - apply first_request_Some in E as (req & Hi & Hp). zbool. rewrite Hi. mstep. cbn [rl_cache set_field].
    destruct (request_cache_add_ok (rl_rs rl) c i req Hc) as (c' & -> & Hc'); [now apply lookup_lt_Some in Hi|]. mstep.
    eexists _, _. split; [reflexivity|]. split; [destruct Hl; now split|]. split_and!; eauto.
  - eexists _, _. split; [reflexivity|]. split; [done|]. split; [done|]. split; [done|]. split; [done|].
    eapply first_request_None in E; [|apply Hl|done]. eapply Forall_impl; [exact E|]. cbn. intros req Hq. zbool. done.
Qed.

(** Whatever the cache holds, stale entries included, looking a request up
    by its client socket gives a request with that socket, and none exactly
    when no request of the list has it; only the cache changes, and stays well
    formed. *)
Theorem request_list_get_by_fd_spec rl fd :
  list_ok rl -> fd <> -1 ->
  exists r rl', request_list_get_by_fd rl fd = Some (r, rl') /\ list_ok rl' /\
    rl_rs rl' = rl_rs rl /\ rl_clock_hands rl' = rl_clock_hands rl /\ rl_id_offset rl' = rl_id_offset rl /\
    match r with
    | Some i => exists req, rl_rs rl !! i = Some req /\ rq_fd req = fd
    | None => Forall (fun req => rq_fd req <> fd) (rl_rs rl)
    end.
Proof. apply request_list_get_by_fd_run. Qed.

(** ** Requests wait their turn *)

(** How many positions the ring visits before [j]. *)
Definition dist (n hand j : Z) : Z := (j - hand - 1) mod n.

Lemma ring_pos_dist n clock y : 0 <= y < n -> ring_pos n clock (Z.to_nat (dist n clock y)) = y.
Proof.
  intros Hy. unfold ring_pos, dist. rewrite Z2Nat.id by (apply Z.mod_pos_bound; lia). rewrite Zplus_mod_idemp_r.
  replace (clock + 1 + (y - clock - 1)) with y by lia. now apply Z.mod_small.
Qed.

Lemma dist_ring_pos n clock d : Z.of_nat d < n -> dist n clock (ring_pos n clock d) = Z.of_nat d.
Proof.
  intros Hd. unfold ring_pos, dist. replace (_ - clock - 1) with ((clock + 1 + Z.of_nat d) mod n - (clock + 1)) by lia.
  rewrite Zminus_mod_idemp_l. replace (clock + 1 + Z.of_nat d - (clock + 1)) with (Z.of_nat d) by lia. apply Z.mod_small. lia.
Qed.

Lemma find_map_seq f g a m (z : Z) :
  List.find f (map g (seq a m)) = Some z ->
  f z = true /\ exists d, (a <= d < a + m)%nat /\ z = g d /\ forall d', (a <= d' < d)%nat -> f (g d') = false.
Proof.
  revert a; induction m as [|m IH]; intros a; cbn; [done|]. destruct (f (g a)) eqn:E.
  - intros [= <-]. split; [done|]. exists a. split; [lia|]. split; [done|]. lia.
  - intros H. apply IH in H as (Hz & d & Hd & -> & Hmin). split; [done|]. exists d. split; [lia|]. split; [done|].
    intros d' Hd'. destruct (decide (d' = a)) as [->|]; [done|]. apply Hmin. lia.
Qed.

(** The request found is the first one in the order of the ring. *)
Lemma first_request_min rs p n clock i :
  first_request rs p (ring n clock) = Some i -> 0 < n ->
  Z.of_nat i < n /\ (exists r, rs !! i = Some r /\ p r = true) /\
  forall j r, rs !! j = Some r -> p r = true -> Z.of_nat j < n -> dist n clock (Z.of_nat i) <= dist n clock (Z.of_nat j).
Proof.
  intros H Hn. pose proof (first_request_Some _ _ _ _ H) as Hr. unfold first_request in H.
  apply fmap_Some in H as (z & H & ->). apply find_map_seq in H as (Hz & d & Hd & Hzd & Hmin).
  assert (Hzr : 0 <= z < n) by (rewrite Hzd; now apply Z.mod_pos_bound). split; [lia|]. split; [done|].
  intros j r Hj Hp Hjn. rewrite Z2Nat.id by lia. rewrite Hzd, dist_ring_pos by lia.
  destruct (decide (Z.of_nat d <= dist n clock (Z.of_nat j))) as [|Hlt]; [done|]. exfalso.
  pose proof (Z.mod_pos_bound (Z.of_nat j - clock - 1) n Hn) as Hb. fold (dist n clock (Z.of_nat j)) in Hb.
  specialize (Hmin (Z.to_nat (dist n clock (Z.of_nat j))) ltac:(lia)). rewrite ring_pos_dist in Hmin by lia.
  rewrite Nat2Z.id, Hj in Hmin. congruence.
Qed.

(** The request [j] waits for a connection to the location [c]. *)
Definition waiting (rl : request_list) (c : Z) (j : nat) : Prop :=
  exists req, rl_rs rl !! j = Some req /\ rq_state req = REQ_ASSIGNED /\ rq_clock_id req = c.

Lemma dist_step n hand i j :
  0 <= i < n -> 0 <= j < n -> i <> j -> dist n hand i <= dist n hand j -> 0 <= dist n i j < dist n hand j.
Proof.
  intros Hi Hj Hne Hle. assert (Hn : 0 < n) by lia. pose proof (Z.mod_pos_bound (j - i - 1) n Hn).
  split; [unfold dist; lia|]. unfold dist in *. set (a := (i - hand - 1) mod n) in *. set (b := (j - hand - 1) mod n) in *.
  assert (Hab : (j - i - 1) mod n = (b - a - 1) mod n).
  { pose proof (Z.div_mod (i - hand - 1) n ltac:(lia)) as Da. pose proof (Z.div_mod (j - hand - 1) n ltac:(lia)) as Db.
    fold a in Da. fold b in Db.
    replace (j - i - 1) with (b - a - 1 + ((j - hand - 1) / n - (i - hand - 1) / n) * n) by nia. apply Z_mod_plus_full. }
  pose proof (Z.mod_pos_bound (i - hand - 1) n Hn) as Ha. fold a in Ha. pose proof (Z.mod_pos_bound (j - hand - 1) n Hn) as Hb. fold b in Hb.
  assert (a <> b).
  { intros Heq. apply Hne. rewrite <- (Z.mod_small i n), <- (Z.mod_small j n) by lia.
    replace i with (i - hand - 1 + (hand + 1)) by lia. replace j with (j - hand - 1 + (hand + 1)) by lia.
    rewrite <- Zplus_mod_idemp_l, <- (Zplus_mod_idemp_l (j - hand - 1)). fold a b. now rewrite Heq. }
  rewrite Hab, Z.mod_small by lia. lia.
Qed.

(** A call with a waiting request gives one, and moves the hand to it. *)
Lemma request_list_next_assigned_run rl c j h :
  list_ok rl -> 0 <= c < rl_clock_count rl -> waiting rl c j -> get_clock_hand rl c = Some h ->
  exists i rl', request_list_next_assigned rl c = Some (Some i, rl') /\ list_ok rl' /\ waiting rl c i /\
    get_clock_hand rl' c = Some (Z.of_nat i) /\ rl_size rl' = rl_size rl /\ rl_rs rl' = rl_rs rl /\
    (i = j \/ dist (rl_size rl) (Z.of_nat i) (Z.of_nat j) < dist (rl_size rl) h (Z.of_nat j)).
Proof.
  intros Hl Hc (req & Hj & Hs & Hcl) Hh. pose proof (power_of_2_pos _ (lo_size _ Hl)) as Hn.
  unfold request_list_next_assigned. rewrite Hh. mstep. destruct (clock_hand_ok rl c Hl) as (h' & Hh' & Hr); [lia|].
  rewrite Hh in Hh'. injection Hh' as <-. rewrite list_ring_first by done. mstep.
  set (p := fun r => bool_decide (rq_state r = REQ_ASSIGNED) && (rq_clock_id r =? c)).
  assert (Hp : p req = true) by (unfold p; rewrite Hs, Hcl, bool_decide_true, Z.eqb_refl by done; done).
  assert (Hjn : Z.of_nat j < rl_size rl) by (apply lookup_lt_Some in Hj; pose proof (lo_rs _ Hl); lia).
  destruct (first_request _ _ _) as [i|] eqn:E.
  2:{ eapply first_request_None in E; [|apply Hl|done]. pose proof (Forall_lookup_1 _ _ _ _ E Hj). cbn in *. congruence. }
  apply first_request_min in E as (Hi & (r & Hri & Hpr) & Hmin); [|done]. rewrite Hri. mstep.
  destruct (request_cache_hit_ok (rl_rs rl) (rl_cache rl) i r (lo_cache _ Hl)) as (c' & -> & Hc'); [now apply lookup_lt_Some in Hri|].
  mstep. eexists i, _. split; [reflexivity|]. unfold set_clock_hand, get_clock_hand. cbn [rl_clock_count set_field].
  replace (c <? rl_clock_count rl) with true by zb. pose proof (lo_clocks _ Hl) as Hcl'. pose proof (lo_hands _ Hl) as Hhs.
  split.
  { destruct Hl as [? ? ? ? ?]. split; cbn [rl_size rl_rs rl_cache rl_clock_hands rl_clock_count set_field];
      rewrite ?length_insert; try done. apply Forall_insert; [done|lia]. }
  split; [exists r; split; [done|]; apply andb_true_iff in Hpr as [H1 H2]; apply bool_decide_eq_true in H1; zbool; done|].
  cbn [rl_clock_hands rl_clock_count rl_size rl_rs set_field]. replace (c <? rl_clock_count rl) with true by zb.
  rewrite list_lookup_insert_eq by lia. split; [done|]. split; [done|]. split; [done|].
  destruct (decide (i = j)) as [|Hne]; [now left|]. right. apply dist_step; try lia. exact (Hmin j req Hj Hp Hjn).
Qed.

(** Calls for one location while [j] waits; in between, other requests come
    and go, and the hand of the location stays. *)
Inductive serving (c : Z) (j : nat) : request_list -> list nat -> Prop :=
| serving_nil rl : serving c j rl []
| serving_call rl i rl1 rl2 l :
    request_list_next_assigned rl c = Some (Some i, rl1) -> get_clock_hand rl2 c = get_clock_hand rl1 c ->
    list_ok rl2 -> rl_size rl2 = rl_size rl1 -> rl_clock_count rl2 = rl_clock_count rl -> waiting rl2 c j -> serving c j rl2 l ->
    serving c j rl (i :: l).

(** No request waits for ever. As long as one waits, each free connection
    of its location is given a waiting request, and its own turn comes at the
    latest when as many connections came free as the list has places. *)
Theorem request_list_next_assigned_fair rl c j l :
  list_ok rl -> 0 <= c < rl_clock_count rl -> waiting rl c j -> serving c j rl l ->
  (exists i rl', request_list_next_assigned rl c = Some (Some i, rl') /\ waiting rl c i) /\
  (j ∉ l -> Z.of_nat (length l) < rl_size rl).
Proof.
  intros Hl Hc Hw Hs. destruct (clock_hand_ok rl c Hl) as (h & Hh & Hhr); [lia|]. split.
  { destruct (request_list_next_assigned_run rl c j h Hl Hc Hw Hh) as (i & rl' & H1 & _ & H2 & _). eauto. }
  intros Hj. assert (Hn : 0 < rl_size rl) by lia. pose proof (Z.mod_pos_bound (Z.of_nat j - h - 1) _ Hn) as Hb.
  enough (Z.of_nat (length l) <= dist (rl_size rl) h (Z.of_nat j)) by (unfold dist in *; lia).
  clear Hb Hhr. revert h Hh. induction Hs as [rl|rl i rl1 rl2 l Hcall Hhand Hok Hsz Hcnt Hw2 Hs IH]; intros h Hh.
  { cbn. apply Z.mod_pos_bound. lia. }
  destruct (request_list_next_assigned_run rl c j h Hl Hc Hw Hh) as (i' & rl' & H1 & _ & _ & H3 & H4 & _ & H5).
  rewrite H1 in Hcall. injection Hcall as <- <-. apply not_elem_of_cons in Hj as [Hji Hj].
  destruct H5 as [->|H5]; [done|]. rewrite H3 in Hhand. rewrite <- Hsz in H4.
  specialize (IH Hok ltac:(lia) Hw2 Hj ltac:(lia) (Z.of_nat i') Hhand). rewrite H4 in IH. cbn [length]. lia.
Qed.

(** ** Examples *)

(** Two requests wait for the location 0, one is sent, one is free. *)
Definition request_at (state : request_state) (fd clock : Z) : request :=
  {| rq_state := state; rq_flags := 0; rq_fd := fd; rq_fcgi_fd := -1; rq_clock_id := clock; rq_cs := None; rq_sr := None;
     rq_iov := {| ci_index := 0; ci_size := 0; ci_refs := []; ci_io := [] |} |}.

Definition list_example : request_list :=
  {| rl_cache := request_cache_init (fun _ => 0); rl_size := 4; rl_id_offset := 1; rl_clock_count := 1; rl_clock_hands := [1];
     rl_rs := [request_at REQ_ASSIGNED 10 0; request_at REQ_SENT 11 0; request_at REQ_AVAILABLE (-1) 0; request_at REQ_ASSIGNED 12 0] |}.

Lemma list_example_ok : list_ok list_example.
Proof.
  split; [by exists 2|done| |done|repeat constructor; done]. split; try done. vm_compute. repeat constructor.
Qed.

Lemma request_list_get_by_fd_witness :
  exists r rl', request_list_get_by_fd list_example 12 = Some (r, rl') /\ list_ok rl' /\ r = Some 3%nat.
Proof.
  destruct (request_list_get_by_fd_spec list_example 12) as (r & rl' & H1 & H2 & _); [exact list_example_ok|done|].
  exists r, rl'. split; [exact H1|]. split; [exact H2|]. vm_compute in H1. congruence.
Defined.

(** After the request 3, which comes first, the request 0 still waits. *)
Lemma request_list_next_assigned_witness :
  (exists i rl', request_list_next_assigned list_example 0 = Some (Some i, rl') /\ waiting list_example 0 i) /\
  Z.of_nat (length [3%nat]) < 4.
Proof.
  destruct (request_list_next_assigned_fair list_example 0 0 [3%nat]) as [H1 H2];
    [exact list_example_ok|done|by eexists| |split; [exact H1|apply H2; decide_closed]].
  destruct (request_list_next_assigned list_example 0) as [[r rl1]|] eqn:E; [|vm_compute in E; congruence].
  vm_compute in E. injection E as <- <-. eapply serving_call; [vm_compute; reflexivity|reflexivity| |reflexivity|reflexivity|by eexists|constructor].
  split; [by exists 2|done| |done|repeat constructor; done]. split; try done. vm_compute. repeat constructor.
Defined.

(** A second request takes the cache entry of the first: only one of the 32
    entries is ever used. *)
Example one_cache_entry :
  (c ← request_cache_add (rl_cache list_example) 0 (request_at REQ_SENT 10 0);
   c ← request_cache_add c 1 (request_at REQ_SENT 11 0);
   Some (map ce_req (take 3 (rc_entries c)))) = Some [None; Some 1%nat; None].
Proof. reflexivity. Qed.

(** Ids sent to a server lead back to their request. *)
Lemma request_id_roundtrip rl i :
  list_ok rl -> (i < length (rl_rs rl))%nat -> 0 <= rl_id_offset rl -> rl_id_offset rl + rl_size rl <= 65536 ->
  exists rl', request_list_get rl (request_list_index_of rl i) = Some (Some i, rl') /\ list_ok rl'.
Proof.
  intros Hl Hi Ho Hs. pose proof (lo_rs _ Hl) as Hn. unfold request_list_index_of. replace (_ <=? rl_size rl) with true by zb.
  rewrite u16_small by lia. unfold request_list_get. replace (rl_id_offset rl + _ - rl_id_offset rl) with (Z.of_nat i) by lia.
  rewrite u16_small by lia. replace (rl_id_offset rl <=? _) with true by zb. replace (Z.of_nat i <? rl_size rl) with true by zb.
  cbn [negb]. rewrite Nat2Z.id. destruct (lookup_lt_is_Some_2 _ _ Hi) as [req Hreq]. rewrite Hreq. mstep.
  destruct (request_cache_hit_ok (rl_rs rl) (rl_cache rl) i req (lo_cache _ Hl) Hi) as (c & -> & Hc). mstep.
  eexists. split; [reflexivity|]. destruct Hl. now split.
Qed.
