(* ===== verification/FcgiConfig.v ===== *)
(** * plugins/fastcgi/fcgi_config.c: servers and locations

    The configuration of the plugin, read from the sections of fastcgi.conf.
    Functions that fail with -1 give [Some None]; [None] is undefined
    behaviour. Regular expressions are those of the C library. *)
From S2P Require Import Prelude CString MkString MkMemory MkUtils MkTypes MkConfig.
Local Open Scope Z_scope.

Record fcgi_server := {
  sv_name : bytes; sv_path : option bytes; sv_addr : option bytes; sv_port : Z;
  sv_mpx_connection : Z; sv_max_connections : Z; sv_max_requests : Z
}.

#[export] Instance eta_fcgi_server : Eta fcgi_server := fun s =>
  {| sv_name := sv_name s; sv_path := sv_path s; sv_addr := sv_addr s; sv_port := sv_port s;
     sv_mpx_connection := sv_mpx_connection s; sv_max_connections := sv_max_connections s;
     sv_max_requests := sv_max_requests s |}.

(** The expression is its source text; [lc_server_ids] has [server_count]
    elements. *)
Record fcgi_location := { lc_name : bytes; lc_match : bytes; lc_keep_alive : Z; lc_server_ids : list nat }.

Record fcgi_config := { fc_servers : list fcgi_server; fc_locations : list fcgi_location }.

(** ** Validation *)

Definition UINT16_MAX : Z := 65535.

(** [used_servers] counts in 8 bits. *)
Fixpoint count_servers (ids : list nat) (used : list Z) : option (list Z) :=
  match ids with
  | [] => Some used
  | srv_i :: ids =>
    match used !! srv_i with
    | None => None
    | Some n => count_servers ids (<[srv_i := u8 (n + 1)]> used)
    end
  end.

Fixpoint count_locations (locs : list fcgi_location) (used : list Z) : option (list Z) :=
  match locs with
  | [] => Some used
  | locp :: locs =>
    match lc_server_ids locp with
    | [] => None
    | ids => used ← count_servers ids used; count_locations locs used
    end
  end.

Definition server_valid (srvp : fcgi_server) (used : Z) : bool :=
  (used <? 2) &&
  ((match sv_addr srvp with Some _ => negb (sv_port srvp =? 0) | None => false end) ||
   match sv_path srvp with Some _ => true | None => false end) &&
  (negb (0 <? sv_port srvp) || (sv_port srvp <? 65535)).

(** Whether the checks pass (0) or not (-1). *)
Definition fcgi_validate_conf (config : fcgi_config) : Z :=
  if negb (0 <? Z.of_nat (length (fc_servers config))) then -1
  else if negb (0 <? Z.of_nat (length (fc_locations config))) then -1
  else if negb (Z.of_nat (length (fc_locations config)) <? UINT16_MAX) then -1
  else
    match count_locations (fc_locations config) (map (fun _ => 0) (fc_servers config)) with
    | None => -1
    | Some used =>
      if forallb (fun su => server_valid (fst su) (snd su)) (combine (fc_servers config) used) then 0 else -1
    end.

(** ** Reading *)

(** [sscanf(s, "%d", ...)]: the number, when there is one. *)
Definition scan_int (p : bytes) : option (option Z) :=
  p ← skip_spaces p;
  c ← head p;
  let digits := if (c =? 45) || (c =? 43) then tail p else p in
  d ← head digits;
  if isdigit d then v ← strtol_digits digits 0; int ← (if v <? 2 ^ 31 then Some v else None);
    Some (Some (if c =? 45 then - int else int))
  else Some None.

(** "addr:port" in two; the text of the address is cut at the colon. *)
Definition split_port (addr : bytes) : option (option (bytes * Z)) :=
  pos ← index addr 58;
  match pos with
  | None => Some None
  | Some pos =>
    tmp ← padd addr (pos + 1);
    port ← scan_int tmp;
    Some (port ← port; Some (<[Z.to_nat pos := 0]> addr, port))
  end.

(** A boolean that is on, or not one, is a number taken for an address. *)
Definition read_multiplexing (v : cfg_val) : option Z :=
  match v with VNull | VNum 0 => Some MK_FALSE | _ => None end.

Definition fcgi_config_read_server (section : mk_config_section) : option (option fcgi_server) :=
  name ← get_str section "ServerName";
  match name with
  | None => Some None
  | Some name =>
    path ← get_str section "ServerPath";
    addr ← get_str section "ServerAddr";
    sock ← (match addr with
            | None => Some (Some (None, 0))
            | Some a => r ← split_port a; Some ('(a, port) ← r; Some (Some a, port))
            end);
    match sock with
    | None => Some None
    | Some (addr, port) =>
      tmp ← mk_config_section_getval section (clit "Multiplexing") MK_CONFIG_VAL_BOOL;
      mpx ← read_multiplexing tmp;
      max_connections ← get_num section "MaxConnections" MK_CONFIG_VAL_NUM;
      max_requests ← get_num section "MaxRequests" MK_CONFIG_VAL_NUM;
      Some (match addr, path with
            | None, None => None
            | _, _ => Some {| sv_name := name; sv_path := path; sv_addr := addr; sv_port := port; sv_mpx_connection := mpx;
                              sv_max_connections := u32 max_connections; sv_max_requests := u32 max_requests |}
            end)
    end
  end.

(** The tokens of [strtok] with the delimiters ", ". *)
Fixpoint tokens (s cur : bytes) : list bytes :=
  match s with
  | [] => match cur with [] => [] | _ => [cur] end
  | c :: s => if (c =? 44) || (c =? 32) then match cur with [] => tokens s [] | _ => cur :: tokens s [] end
              else tokens s (cur ++ [c])
  end.

(** The servers of that name, all of them. *)
Fixpoint servers_named (tok : bytes) (i : nat) (servers : list fcgi_server) : option (list nat) :=
  match servers with
  | [] => Some []
  | s :: servers =>
    c ← strcmp (sv_name s) (tok ++ [0]);
    ids ← servers_named tok (S i) servers;
    Some (if c =? 0 then i :: ids else ids)
  end.

Fixpoint location_servers (toks : list bytes) (servers : list fcgi_server) : option (list nat) :=
  match toks with
  | [] => Some []
  | tok :: toks => a ← servers_named tok 0 servers; b ← location_servers toks servers; Some (a ++ b)
  end.

Section Regex.
(** [regcomp]: does the expression compile? *)
Variable regcomp : bytes -> bool.

(** The array of ids has one place more than [ServerNames] has spaces; one
    more id is written out of it. *)
Definition fcgi_config_read_location (servers : list fcgi_server) (section : mk_config_section)
    : option (option fcgi_location) :=
  name ← get_str section "LocationName";
  regex ← get_str section "Match";
  keep_alive ← get_str section "KeepAlive";
  server_names ← get_str section "ServerNames";
  match name, regex with
  | Some name, Some regex =>
    re ← cstr regex;
    let re := map (fun c => if c =? 32 then 124 else c) re in
    if negb (regcomp re) then Some None else
    ka ← (match keep_alive with
          | Some k => c ← strcasecmp k (clit "on"); Some (if c =? 0 then MK_TRUE else MK_FALSE)
          | None => Some MK_FALSE
          end);
    match server_names with
    | None => Some None
    | Some names =>
      names ← cstr names;
      let loc_server_n := S (length (List.filter (fun c => c =? 32) names)) in
      ids ← location_servers (tokens names []) servers;
      if (loc_server_n <? length ids)%nat then None
      else match ids with
           | [] => Some None
           | _ => Some (Some {| lc_name := name; lc_match := re; lc_keep_alive := ka; lc_server_ids := ids |})
           end
    end
  | _, _ => Some None
  end.

(** The sections of a name, read one after the other until one fails. *)
Fixpoint read_sections {A} (read : mk_config_section -> option (option A)) (name : string) (conf : mk_config)
    : option (option (list A)) :=
  match conf with
  | [] => Some (Some [])
  | section :: conf =>
    c ← strcasecmp (cs_name section) (clit name);
    if c =? 0 then
      a ← read section;
      match a with
      | None => Some None
      | Some a => rest ← read_sections read name conf; Some (option_map (cons a) rest)
      end
    else read_sections read name conf
  end.

Fixpoint count_sections (name : string) (conf : mk_config) : option Z :=
  match conf with
  | [] => Some 0
  | section :: conf =>
    c ← strcasecmp (cs_name section) (clit name); n ← count_sections name conf; Some (if c =? 0 then n + 1 else n)
  end.

(** A file that cannot be opened is dereferenced. *)
Definition fcgi_config_read (config : option mk_config) : option (option fcgi_config) :=
  config ← config;
  global_count ← count_sections "FASTCGI" config;
  location_count ← count_sections "FASTCGI_LOCATION" config;
  server_count ← count_sections "FASTCGI_SERVER" config;
  if negb (global_count <=? 1) || negb (0 <? server_count) || negb (0 <? location_count) then Some None else
  servers ← read_sections fcgi_config_read_server "FASTCGI_SERVER" config;
  match servers with
  | None => Some None
  | Some servers =>
    locations ← read_sections (fcgi_config_read_location servers) "FASTCGI_LOCATION" config;
    match locations with
    | None => Some None
    | Some locations =>
      let fconf := {| fc_servers := servers; fc_locations := locations |} in
      Some (if fcgi_validate_conf fconf =? 0 then Some fconf else None)
    end
  end.

End Regex.

Definition fcgi_config_get_location (config : fcgi_config) (location_id : Z) : option fcgi_location :=
  if (0 <=? location_id) && (location_id <? Z.of_nat (length (fc_locations config)))
  then fc_locations config !! Z.to_nat location_id else None.

Definition fcgi_config_get_server (config : fcgi_config) (server_id : Z) : option fcgi_server :=
  if (0 <=? server_id) && (server_id <? Z.of_nat (length (fc_servers config)))
  then fc_servers config !! Z.to_nat server_id else None.

(** ** What validation gives *)

(** How often a server is listed. *)
Definition listed (i : nat) (locs : list fcgi_location) : nat := count_occ Nat.eq_dec (concat (map lc_server_ids locs)) i.

Lemma count_servers_spec ids used used' :
  count_servers ids used = Some used' ->
  length used' = length used /\ Forall (fun i => (i < length used)%nat) ids /\
  forall i n, used !! i = Some n -> 0 <= n < 256 ->
    used' !! i = Some (u8 (n + Z.of_nat (count_occ Nat.eq_dec ids i))).
Proof.
  revert used; induction ids as [|j ids IH]; intros used; cbn [count_servers].
  - intros [= <-]. split; [done|]. split; [constructor|]. intros i n Hi Hn. cbn. rewrite u8_small by lia. now rewrite Z.add_0_r.
  - destruct (used !! j) as [m|] eqn:Ej; [|done]. intros H. apply IH in H as (H1 & H2 & H3). rewrite length_insert in *.
    split; [done|]. split; [constructor; [now apply lookup_lt_Some in Ej|done]|]. intros i n Hi Hn. cbn [count_occ].
    destruct (Nat.eq_dec j i) as [->|Hne].
    + rewrite Ej in Hi. injection Hi as ->. rewrite (H3 i (u8 (n + 1))).
      * f_equal. unfold u8. rewrite Zplus_mod_idemp_l. f_equal. lia.
      * apply list_lookup_insert_eq. now apply lookup_lt_Some in Ej.
      * apply u8_range.
    + apply H3; [now rewrite list_lookup_insert_ne|done].
Qed.

Lemma count_locations_spec locs used used' :
  count_locations locs used = Some used' ->
  length used' = length used /\
  Forall (fun l => lc_server_ids l <> [] /\ Forall (fun i => (i < length used)%nat) (lc_server_ids l)) locs /\
  forall i n, used !! i = Some n -> 0 <= n < 256 -> used' !! i = Some (u8 (n + Z.of_nat (listed i locs))).
Proof.
  revert used; induction locs as [|l locs IH]; intros used; cbn [count_locations].
  - intros [= <-]. split; [done|]. split; [constructor|]. intros i n Hi Hn. cbn. rewrite u8_small by lia. now rewrite Z.add_0_r.
  - intros H. assert (Hne : lc_server_ids l <> []) by (intros E; rewrite E in H; done).
    assert (exists u, count_servers (lc_server_ids l) used = Some u /\ count_locations locs u = Some used') as (u & Hu & H').
    { destruct (lc_server_ids l) as [|j ids]; [done|]. destruct (count_servers _ used) as [u|]; [|done]. eauto. }
    clear H. apply count_servers_spec in Hu as (L1 & F1 & C1). apply IH in H' as (L2 & F2 & C2). rewrite L1 in *.
    split; [congruence|]. split; [now constructor|]. intros i n Hi Hn. rewrite (C2 i _ (C1 i n Hi Hn)) by apply u8_range.
    f_equal. unfold u8, listed. cbn [map concat]. rewrite count_occ_app, Zplus_mod_idemp_l. f_equal. lia.
Qed.
