(* ===== verification/FcgiFd.v ===== *)
(** * plugins/fastcgi/fcgi_fd.c: the sockets of a worker and their distribution

    The states of a socket to a FastCGI server and the chunk it reads into;
    the matrix that says how many connections to which server every worker
    thread may open. [None] is undefined behaviour. *)
From stdpp Require Import gmap.
From S2P Require Import Prelude CString MkUtils MkTypes FcgiChunk FcgiConfig.
Local Open Scope Z_scope.

(** ** The state of a socket *)

Inductive fcgi_fd_type := FCGI_FD_UNIX | FCGI_FD_INET.

Definition FCGI_FD_AVAILABLE : Z := 1.
Definition FCGI_FD_READY : Z := 2.
Definition FCGI_FD_SENDING : Z := 4.
Definition FCGI_FD_RECEIVING : Z := 8.
Definition FCGI_FD_CLOSING : Z := 16.
Definition FCGI_FD_SLEEPING : Z := 32.

(** [fd_begin_req] names the request whose vector is sent, [fd_chunk] the
    attached chunk. *)
Record fcgi_fd := {
  fd_type : fcgi_fd_type; fd_state : Z; fd_fd : Z; fd_server_id : Z; fd_location_id : Z;
  fd_begin_req_remain : Z; fd_begin_req : option nat; fd_chunk : option nat
}.

#[export] Instance eta_fcgi_fd : Eta fcgi_fd := fun f =>
  {| fd_type := fd_type f; fd_state := fd_state f; fd_fd := fd_fd f; fd_server_id := fd_server_id f;
     fd_location_id := fd_location_id f; fd_begin_req_remain := fd_begin_req_remain f;
     fd_begin_req := fd_begin_req f; fd_chunk := fd_chunk f |}.

Definition fcgi_fd_init (type : fcgi_fd_type) (server_id location_id : Z) : fcgi_fd :=
  {| fd_type := type; fd_state := FCGI_FD_AVAILABLE; fd_fd := -1; fd_server_id := server_id;
     fd_location_id := location_id; fd_begin_req_remain := 0; fd_begin_req := None; fd_chunk := None |}.

(** The states a socket may come from; [None] for a value that is no state. *)
Definition fd_sources (state : Z) : option Z :=
  if state =? FCGI_FD_AVAILABLE then Some (Z.lor FCGI_FD_CLOSING FCGI_FD_SLEEPING)
  else if state =? FCGI_FD_READY then Some (Z.lor (Z.lor FCGI_FD_AVAILABLE FCGI_FD_RECEIVING) FCGI_FD_SLEEPING)
  else if state =? FCGI_FD_SENDING then Some FCGI_FD_READY
  else if state =? FCGI_FD_RECEIVING then Some FCGI_FD_SENDING
  else if state =? FCGI_FD_CLOSING then Some (Z.lor FCGI_FD_READY FCGI_FD_RECEIVING)
  else if state =? FCGI_FD_SLEEPING then Some FCGI_FD_READY
  else None.

Definition fcgi_fd_set_state (fd : fcgi_fd) (state : Z) : Z * fcgi_fd :=
  match fd_sources state with
  | None => (0, fd)
  | Some from => if negb (Z.land (fd_state fd) from =? 0) then (0, fd <| fd_state := state |>) else (-1, fd)
  end.

Definition fcgi_fd_set_begin_req_iov (fd : fcgi_fd) (req : nat) (iov : chunk_iov) : Z * fcgi_fd :=
  if fd_state fd =? FCGI_FD_READY
  then (0, fd <| fd_begin_req_remain := chunk_iov_length iov |> <| fd_begin_req := Some req |>)
  else (-1, fd).

(** [memcpy] from the written end of [b] to the write position of [a], and the
    new write position. *)
Definition inherit_bytes (a b : nat) (inherit : Z) (s : store) : option (Z * store) :=
  ca ← st_chunks s !! a;
  cb ← st_chunks s !! b;
  if negb (inherit <=? ck_write cb) then Some (-1, s)
  else if negb (inherit <? u64 (ck_size ca - ck_write ca)) then Some (-1, s)
  else
    let a_pos := ck_write ca in
    let b_pos := ck_write cb - inherit in
    data ← bwrite (ck_data ca) a_pos (take (Z.to_nat inherit) (drop (Z.to_nat b_pos) (ck_data cb)));
    s ← upd_chunk a (fun c => c <| ck_data := data |>) s;
    chunk_set_write_ptr a {| cp_parent := a; cp_len := u64 (ck_size ca - (a_pos + inherit)); cp_data := a_pos + inherit |} s.

(** A failure takes the new chunk out of its list and leaves it retained. *)
Definition set_chunk_error (a : nat) (fd : fcgi_fd) (s : store) : Z * fcgi_fd * store :=
  (-1, fd, s <| st_list := List.filter (fun i => negb (Nat.eqb i a)) (st_list s) |>).

Definition fcgi_fd_set_chunk (fd : fcgi_fd) (a : nat) (inherit : Z) (s : store) : option (Z * fcgi_fd * store) :=
  s ← chunk_retain a s;
  match fd_chunk fd with
  | Some b =>
    if 0 <? inherit then
      '(ret, s) ← inherit_bytes a b inherit s;
      if negb (ret =? 0) then Some (set_chunk_error a fd s) else
      '(_, s) ← chunk_release b s; Some (0, fd <| fd_chunk := Some a |>, s)
    else '(_, s) ← chunk_release b s; Some (0, fd <| fd_chunk := Some a |>, s)
  | None =>
    if negb (inherit =? 0) then Some (set_chunk_error a fd s) else Some (0, fd <| fd_chunk := Some a |>, s)
  end.

Definition fcgi_fd_get_chunk (fd : fcgi_fd) : option nat := fd_chunk fd.

(** ** The distribution of connections on threads *)

(** The rows are those of the threads; the size of the array is computed in
    32 bits. *)
Record fcgi_fd_matrix := { fm_server_count : Z; fm_thread_count : Z; fm_cells : list Z }.

Definition matrix_index (fdm : fcgi_fd_matrix) (thread_id server_id : Z) : nat :=
  Z.to_nat (u32 (thread_id * fm_server_count fdm + server_id)).

Definition set_matrix (fdm : fcgi_fd_matrix) (thread_id server_id : Z) (f : Z -> Z) : option fcgi_fd_matrix :=
  let i := matrix_index fdm thread_id server_id in
  n ← fm_cells fdm !! i;
  Some {| fm_server_count := fm_server_count fdm; fm_thread_count := fm_thread_count fdm;
          fm_cells := <[i := f n]> (fm_cells fdm) |}.

(** The connections of one server, from the thread [j] on; gives the thread
    after the last one too. *)
Fixpoint distribute_server (fdm : fcgi_fd_matrix) (srv_id j : Z) (fd_count : nat) : option (fcgi_fd_matrix * Z) :=
  match fd_count with
  | O => Some (fdm, j)
  | S fd_count =>
    fdm ← set_matrix fdm j srv_id (fun n => u32 (n + 1));
    distribute_server fdm srv_id (u32 (j + 1) mod fm_thread_count fdm) fd_count
  end.

Fixpoint distribute_servers (fdm : fcgi_fd_matrix) (config : fcgi_config) (ids : list nat) (t_clock : Z)
    : option fcgi_fd_matrix :=
  match ids with
  | [] => Some fdm
  | srv_id :: ids =>
    srv ← fcgi_config_get_server config (Z.of_nat srv_id);
    '(fdm, t_clock) ← distribute_server fdm (Z.of_nat srv_id) t_clock (Z.to_nat (sv_max_connections srv));
    distribute_servers fdm config ids t_clock
  end.

Definition distribute_conns_normal (fdm : fcgi_fd_matrix) (loc : fcgi_location) (config : fcgi_config)
    : option fcgi_fd_matrix :=
  if negb (0 <? fm_thread_count fdm) then Some fdm else distribute_servers fdm config (lc_server_ids loc) 0.

(** One connection for each of the [n] threads from [t_id] on; [i] runs round
    the servers of the location. *)
Fixpoint fallback_loop (fdm : fcgi_fd_matrix) (loc : fcgi_location) (t_id : Z) (i : nat) (n : nat) : option fcgi_fd_matrix :=
  match n with
  | O => Some fdm
  | S n =>
    s_id ← lc_server_ids loc !! i;
    fdm ← set_matrix fdm t_id (Z.of_nat s_id) (fun _ => 1);
    fallback_loop fdm loc (t_id + 1) (S i mod length (lc_server_ids loc)) n
  end.

Definition distribute_conns_fallback (fdm : fcgi_fd_matrix) (loc : fcgi_location) : option fcgi_fd_matrix :=
  match lc_server_ids loc with
  | [] => Some fdm
  | _ => fallback_loop fdm loc 0 0 (Z.to_nat (fm_thread_count fdm))
  end.

(** A server without MaxConnections counts as one connection. *)
Fixpoint loc_fd_count (config : fcgi_config) (ids : list nat) (count : Z) : option Z :=
  match ids with
  | [] => Some count
  | id :: ids =>
    srv ← fcgi_config_get_server config (Z.of_nat id);
    loc_fd_count config ids (u32 (count + (if 0 <? sv_max_connections srv then sv_max_connections srv else 1)))
  end.

Fixpoint distribute_locations (fdm : fcgi_fd_matrix) (config : fcgi_config) (locs : list fcgi_location)
    : option fcgi_fd_matrix :=
  match locs with
  | [] => Some fdm
  | loc :: locs =>
    count ← loc_fd_count config (lc_server_ids loc) 0;
    fdm ← (if count <? fm_thread_count fdm then distribute_conns_fallback fdm loc else distribute_conns_normal fdm loc config);
    distribute_locations fdm config locs
  end.

Definition fcgi_fd_matrix_create (config : fcgi_config) (worker_count : Z) : option fcgi_fd_matrix :=
  let server_count := u32 (Z.of_nat (length (fc_servers config))) in
  distribute_locations
    {| fm_server_count := server_count; fm_thread_count := worker_count;
       fm_cells := replicate (Z.to_nat (u32 (server_count * worker_count))) 0 |}
    config (fc_locations config).

Fixpoint sum_cells (fdm : fcgi_fd_matrix) (thread_id : Z) (server_id : Z) (n : nat) (fd_count : Z) : option Z :=
  match n with
  | O => Some fd_count
  | S n =>
    c ← fm_cells fdm !! matrix_index fdm thread_id server_id;
    sum_cells fdm thread_id (server_id + 1) n (u32 (fd_count + c))
  end.

Definition fcgi_fd_matrix_thread_sum (fdm : fcgi_fd_matrix) (thread_id : Z) : option Z :=
  sum_cells fdm thread_id 0 (Z.to_nat (fm_server_count fdm)) 0.

Definition fcgi_fd_matrix_get (fdm : fcgi_fd_matrix) (thread_id server_id : Z) : option Z :=
  fm_cells fdm !! matrix_index fdm thread_id server_id.

(** ** The sockets of a thread *)

(** The location of every server: [server_location_id], filled by the two
    loops over locations and their servers. *)
Fixpoint locate_servers (i : Z) (ids : list nat) (locations : list Z) : option (list Z) :=
  match ids with
  | [] => Some locations
  | id :: ids => _ ← locations !! id; locate_servers i ids (<[id := i]> locations)
  end.

Fixpoint locate_all (i : Z) (locs : list fcgi_location) (locations : list Z) : option (list Z) :=
  match locs with
  | [] => Some locations
  | loc :: locs => locations ← locate_servers i (lc_server_ids loc) locations; locate_all (i + 1) locs locations
  end.

Fixpoint init_fds (fdm : fcgi_fd_matrix) (thread_id : Z) (config : fcgi_config) (locations : list Z) (i : Z) (n : nat)
    : option (option (list fcgi_fd)) :=
  match n with
  | O => Some (Some [])
  | S n =>
    server_fd_count ← fcgi_fd_matrix_get fdm thread_id i;
    match fcgi_config_get_server config i with
    | None => Some None
    | Some srv =>
      let type := match sv_path srv with Some _ => FCGI_FD_UNIX | None => FCGI_FD_INET end in
      location ← locations !! Z.to_nat i;
      if (0 <? server_fd_count) && (location =? -1) then Some None else
      rest ← init_fds fdm thread_id config locations (i + 1) n;
      Some (option_map (app (replicate (Z.to_nat server_fd_count) (fcgi_fd_init type i location))) rest)
    end
  end.

(** More sockets than [fd_count] would be written out of the array. *)
Definition fcgi_fd_list_init (fdm : fcgi_fd_matrix) (thread_id : Z) (config : fcgi_config) : option (option (list fcgi_fd)) :=
  fd_count ← fcgi_fd_matrix_thread_sum fdm thread_id;
  locations ← locate_all 0 (fc_locations config) (map (fun _ => -1) (fc_servers config));
  fds ← init_fds fdm thread_id config locations 0 (Z.to_nat (fm_server_count fdm));
  match fds with
  | None => Some None
  | Some fds =>
    if fd_count <? Z.of_nat (length fds) then None
    else Some (if Z.of_nat (length fds) =? fd_count then Some fds else None)
  end.

Fixpoint find_fd (p : fcgi_fd -> bool) (l : list fcgi_fd) : option nat :=
  match l with [] => None | fd :: l => if p fd then Some O else option_map S (find_fd p l) end.

Definition fcgi_fd_list_get (fdl : list fcgi_fd) (state location_id : Z) : option nat :=
  find_fd (fun fd => negb (Z.land (fd_state fd) state =? 0) && (fd_location_id fd =? location_id)) fdl.

Definition fcgi_fd_list_get_by_fd (fdl : list fcgi_fd) (fd : Z) : option nat := find_fd (fun f => fd_fd f =? fd) fdl.

(** ** Sums *)

Fixpoint zsum {A} (f : A -> Z) (l : list A) : Z := match l with [] => 0 | x :: l => f x + zsum f l end.

Section Sums.
Context {A : Type}.
Implicit Types (f g : A -> Z) (l : list A).

Lemma zsum_ext f g l : (forall x, x ∈ l -> f x = g x) -> zsum f l = zsum g l.
Proof.
  intros H. induction l as [|x l IH]; [done|]. cbn [zsum]. rewrite H by constructor.
  rewrite IH; [done|]. intros y Hy. apply H. now constructor.
Qed.

Lemma zsum_zero f l : (forall x, x ∈ l -> f x = 0) -> zsum f l = 0.
Proof. intros H. rewrite (zsum_ext f (fun _ => 0) l H). induction l; cbn [zsum]; [done|]. rewrite IHl; [done|]. intros; apply H; now constructor. Qed.

Lemma zsum_app f l l' : zsum f (l ++ l') = zsum f l + zsum f l'.
Proof. induction l; cbn [zsum app]; lia. Qed.

Lemma zsum_add f g l : zsum (fun x => f x + g x) l = zsum f l + zsum g l.
Proof. induction l; cbn [zsum]; lia. Qed.

Lemma zsum_le f g l : (forall x, x ∈ l -> f x <= g x) -> zsum f l <= zsum g l.
Proof.
  induction l as [|x l IH]; cbn [zsum]; intros H; [lia|].
  specialize (H x ltac:(constructor)) as Hx. assert (zsum f l <= zsum g l) by (apply IH; intros; apply H; now constructor). lia.
Qed.

Lemma zsum_nonneg f l : (forall x, x ∈ l -> 0 <= f x) -> 0 <= zsum f l.
Proof. intros H. rewrite <- (zsum_zero (fun _ => 0) l) by done. now apply zsum_le. Qed.

(** A function that is changed at one element of the list. *)
Lemma zsum_upd f g l x :
  NoDup l -> x ∈ l -> (forall y, y ∈ l -> y <> x -> g y = f y) -> zsum g l = zsum f l + (g x - f x).
Proof.
  intros Hn Hx H. induction l as [|y l IH]; [now apply elem_of_nil in Hx|].
  apply NoDup_cons in Hn as [Hy Hn]. cbn [zsum]. apply elem_of_cons in Hx as [<-|Hx].
  - rewrite (zsum_ext g f l); [lia|]. intros z Hz. apply H; [now constructor|congruence].
  - rewrite IH; [|done|done|intros z Hz Hne; apply H; [now constructor|done]]. rewrite H; [lia|constructor|congruence].
Qed.
End Sums.

(** ** Cells *)

Record matrix_ok (ns nt : Z) (fdm : fcgi_fd_matrix) : Prop := {
  mx_servers : fm_server_count fdm = ns;
  mx_threads : fm_thread_count fdm = nt;
  mx_cells : Z.of_nat (length (fm_cells fdm)) = nt * ns
}.

Definition cell (fdm : fcgi_fd_matrix) (t s : Z) : Z := default 0 (fm_cells fdm !! matrix_index fdm t s).

Section Cells.
Variables ns nt : Z.
Hypothesis (Hbound : nt * ns < 2 ^ 32).

Lemma index_range t s : 0 <= t < nt -> 0 <= s < ns -> 0 <= t * ns + s < nt * ns.
Proof. intros; nia. Qed.

Lemma matrix_get fdm t s :
  matrix_ok ns nt fdm -> 0 <= t < nt -> 0 <= s < ns -> fm_cells fdm !! matrix_index fdm t s = Some (cell fdm t s).
Proof.
  intros [H1 H2 H3] Ht Hs. unfold cell, matrix_index. rewrite H1. pose proof (index_range t s Ht Hs).
  rewrite u32_small by lia. destruct (_ !! _) eqn:E; [done|]. apply lookup_ge_None in E. lia.
Qed.

Lemma set_matrix_spec fdm t s f :
  matrix_ok ns nt fdm -> 0 <= t < nt -> 0 <= s < ns ->
  exists fdm', set_matrix fdm t s f = Some fdm' /\ matrix_ok ns nt fdm' /\ cell fdm' t s = f (cell fdm t s) /\
    forall t' s', 0 <= t' < nt -> 0 <= s' < ns -> (t', s') <> (t, s) -> cell fdm' t' s' = cell fdm t' s'.
Proof.
  intros Hok Ht Hs. pose proof (matrix_get fdm t s Hok Ht Hs) as Hg. unfold set_matrix. rewrite Hg. mstep.
  destruct Hok as [H1 H2 H3]. eexists. split; [done|]. split; [split; cbn; rewrite ?length_insert; done|].
  unfold cell, matrix_index in *. cbn [fm_cells fm_server_count]. rewrite H1 in *. split.
  - rewrite list_lookup_insert_eq; [done|]. now apply lookup_lt_Some in Hg.
  - intros t' s' Ht' Hs' Hne. pose proof (index_range t s Ht Hs). pose proof (index_range t' s' Ht' Hs').
    rewrite list_lookup_insert_ne; [done|]. rewrite !u32_small by lia. intros E%Z2Nat.inj; try lia. apply Hne.
    assert (t = t') by nia. subst t'. f_equal. lia.
Qed.
End Cells.

(** ** Dealing out in turn *)

(** How many of [n] connections dealt out in turn from thread [j] on thread
    [t] gets, of [T]. *)
Fixpoint hits (T j : Z) (n : nat) (t : Z) : Z :=
  match n with O => 0 | S n => (if j =? t then 1 else 0) + hits T ((j + 1) mod T) n t end.

Lemma next_mod T j n : 0 < T -> ((j + 1) mod T + n) mod T = (j + (1 + n)) mod T.
Proof. intros H. rewrite Zplus_mod_idemp_l. f_equal. lia. Qed.

Lemma hits_app T j n m t : 0 < T -> 0 <= j < T -> hits T j (n + m) t = hits T j n t + hits T ((j + Z.of_nat n) mod T) m t.
Proof.
  intros HT. revert j; induction n as [|n IH]; intros j Hj.
  - cbn [hits plus]. now rewrite Z.add_0_r, Z.mod_small by lia.
  - cbn [hits Nat.add]. rewrite IH by (apply Z.mod_pos_bound; lia). rewrite next_mod by lia.
    replace (j + Z.of_nat (S n)) with (j + (1 + Z.of_nat n)) by lia. lia.
Qed.

Lemma hits_value T j n t : 0 <= j < T -> 0 <= t < T -> hits T j n t = (Z.of_nat n + (T - 1) - (t - j) mod T) / T.
Proof.
  revert j; induction n as [|n IH]; intros j Hj Ht.
  - cbn [hits]. rewrite Z.div_small; [done|]. pose proof (Z.mod_pos_bound (t - j) T). lia.
  - cbn [hits]. rewrite IH by (try lia; apply Z.mod_pos_bound; lia).
    assert (Hd : (t - (j + 1) mod T) mod T = (t - j - 1) mod T) by (rewrite Zminus_mod_idemp_r; f_equal; lia).
    rewrite Hd. case_if; zbool.
    + subst t. replace (j - j - 1) with (-1) by lia. replace (j - j) with 0 by lia. rewrite Z.mod_0_l by lia.
      replace (-1 mod T) with (T - 1) by (rewrite <- (Z.mod_add (-1) 1 T) by lia; rewrite Z.mod_small; lia).
      replace (Z.of_nat (S n) + (T - 1) - 0) with (1 * T + (Z.of_nat n + (T - 1) - (T - 1))) by lia.
      rewrite Z.div_add_l by lia. lia.
    + rewrite Z.add_0_l. f_equal. assert (Hne : (t - j) mod T <> 0).
      { intros Hz. destruct (Z.lt_ge_cases t j).
        - rewrite <- (Z.mod_add (t - j) 1 T), Z.mod_small in Hz by lia. lia.
        - rewrite Z.mod_small in Hz by lia. lia. }
      pose proof (Z.mod_pos_bound (t - j) T ltac:(lia)).
      replace ((t - j - 1) mod T) with ((t - j) mod T - 1); [lia|].
      rewrite <- (Z.mod_small ((t - j) mod T - 1) T) by lia. apply Zminus_mod_idemp_l.
Qed.

Lemma hits_bounds T n t : 0 <= t < T -> Z.of_nat n / T <= hits T 0 n t <= Z.of_nat n / T + 1.
Proof.
  intros Ht. rewrite hits_value, Z.sub_0_r, (Z.mod_small t) by lia. split.
  - apply Z.div_le_mono; lia.
  - rewrite <- (Z.div_add (Z.of_nat n) 1 T) by lia. apply Z.div_le_mono; lia.
Qed.

Lemma hits_range T j n t : 0 <= hits T j n t <= Z.of_nat n.
Proof. revert j; induction n as [|n IH]; intros j; cbn [hits]; [lia|]. specialize (IH ((j + 1) mod T)). case_if; lia. Qed.

Lemma hits_sum T j n : 0 <= j < T -> zsum (hits T j n) (seqZ 0 T) = Z.of_nat n.
Proof.
  revert j; induction n as [|n IH]; intros j Hj; [now apply zsum_zero|].
  rewrite (zsum_ext _ (fun t => (if j =? t then 1 else 0) + hits T ((j + 1) mod T) n t)) by done.
  rewrite zsum_add, IH by (apply Z.mod_pos_bound; lia).
  rewrite (zsum_upd (fun _ => 0) _ _ j).
  - rewrite zsum_zero, Z.eqb_refl by done. lia.
  - apply NoDup_seqZ.
  - apply elem_of_seqZ. lia.
  - intros y _ Hy. replace (j =? y) with false by zb. done.
Qed.

(** ** One location *)

Section Distribution.
Variables ns nt : Z.
Hypothesis (Hbound : nt * ns < 2 ^ 32) (Hthreads : 0 < nt).

(** The cells of [fdm'] are those of [fdm] but for the servers [ids]. *)
Definition same_but (ids : list nat) (fdm fdm' : fcgi_fd_matrix) : Prop :=
  forall t s, 0 <= t < nt -> 0 <= Z.of_nat s < ns -> s ∉ ids -> cell fdm' t (Z.of_nat s) = cell fdm t (Z.of_nat s).

Definition row (fdm : fcgi_fd_matrix) (t : Z) (ids : list nat) : Z := zsum (fun s => cell fdm t (Z.of_nat s)) ids.
Definition column (fdm : fcgi_fd_matrix) (s : nat) : Z := zsum (fun t => cell fdm t (Z.of_nat s)) (seqZ 0 nt).

Lemma row_same ids fdm fdm' t l :
  same_but ids fdm fdm' -> 0 <= t < nt -> (forall s, s ∈ l -> s ∉ ids /\ Z.of_nat s < ns) -> row fdm' t l = row fdm t l.
Proof. intros H Ht Hl. apply zsum_ext. intros s Hs. apply Hl in Hs as [H1 H2]. apply H; [done|lia|done]. Qed.

Lemma column_same ids fdm fdm' s : same_but ids fdm fdm' -> Z.of_nat s < ns -> s ∉ ids -> column fdm' s = column fdm s.
Proof. intros H H1 H2. apply zsum_ext. intros t Ht%elem_of_seqZ. apply H; [lia|lia|done]. Qed.

Lemma distribute_server_spec n fdm s j :
  matrix_ok ns nt fdm -> 0 <= j < nt -> Z.of_nat s < ns ->
  (forall t, 0 <= t < nt -> 0 <= cell fdm t (Z.of_nat s) < 2 ^ 32 - Z.of_nat n) ->
  exists fdm', distribute_server fdm (Z.of_nat s) j n = Some (fdm', (j + Z.of_nat n) mod nt) /\ matrix_ok ns nt fdm' /\
    same_but [s] fdm fdm' /\
    forall t, 0 <= t < nt -> cell fdm' t (Z.of_nat s) = cell fdm t (Z.of_nat s) + hits nt j n t.
Proof.
  revert fdm j; induction n as [|n IH]; intros fdm j Hok Hj Hs Hc; cbn [distribute_server hits].
  - exists fdm. rewrite Z.add_0_r, Z.mod_small by lia. split_and!; [done|done|now intros t s'|intros; lia].
  - destruct (set_matrix_spec ns nt Hbound fdm j (Z.of_nat s) (fun n => u32 (n + 1)) Hok) as (f1 & E1 & Hok1 & Hx & Ho); [lia..|].
    rewrite E1. mstep. rewrite (mx_threads _ _ _ Hok1).
    assert (Hx' : cell f1 j (Z.of_nat s) = cell fdm j (Z.of_nat s) + 1) by (rewrite Hx; apply u32_small; specialize (Hc j Hj); lia).
    assert (Hns : nt <= nt * ns) by nia. rewrite (u32_small (j + 1)) by lia.
    destruct (IH f1 ((j + 1) mod nt) Hok1) as (f2 & E2 & Hok2 & Hsame & Hcell).
    { apply Z.mod_pos_bound; lia. } { done. }
    { intros t Ht. destruct (decide (t = j)) as [->|Hne]; [specialize (Hc j Hj); lia|]. rewrite Ho by (try lia; congruence). specialize (Hc t Ht). lia. }
    exists f2. rewrite E2, next_mod by lia. split; [repeat f_equal; lia|]. split; [done|]. split.
    + intros t s' Ht Hs' Hne. rewrite Hsame by done. apply Ho; [done|done|]. intros [= _ E]. apply Hne. apply list_elem_of_singleton. lia.
    + intros t Ht. rewrite Hcell by done. case_if; zbool.
      * subst t. lia.
      * rewrite Ho by (try lia; congruence). lia.
Qed.

(** Round robin over the servers: every thread gets one connection. *)
Lemma fallback_loop_spec n loc fdm t0 i :
  matrix_ok ns nt fdm -> 0 <= t0 -> t0 + Z.of_nat n <= nt -> (i < length (lc_server_ids loc))%nat ->
  (forall s, s ∈ lc_server_ids loc -> Z.of_nat s < ns) ->
  exists fdm', fallback_loop fdm loc t0 i n = Some fdm' /\ matrix_ok ns nt fdm' /\ same_but (lc_server_ids loc) fdm fdm' /\
    (forall t s, 0 <= t < t0 -> Z.of_nat s < ns -> cell fdm' t (Z.of_nat s) = cell fdm t (Z.of_nat s)) /\
    forall t, t0 <= t < t0 + Z.of_nat n -> exists s, s ∈ lc_server_ids loc /\ cell fdm' t (Z.of_nat s) = 1 /\
      forall s', Z.of_nat s' < ns -> s' <> s -> cell fdm' t (Z.of_nat s') = cell fdm t (Z.of_nat s').
Proof.
  revert fdm t0 i; induction n as [|n IH]; intros fdm t0 i Hok Ht0 Hn Hi Hs; cbn [fallback_loop].
  - exists fdm. split_and!; [done|done|now intros t s|done|lia].
  - destruct (lookup_lt_is_Some_2 _ _ Hi) as [s Es]. rewrite Es. mstep. apply list_elem_of_lookup_2 in Es as Hin.
    destruct (set_matrix_spec ns nt Hbound fdm t0 (Z.of_nat s) (fun _ => 1) Hok) as (f1 & E1 & Hok1 & Hx & Ho);
      [lia|specialize (Hs s Hin); lia|]. rewrite E1. mstep.
    destruct (IH f1 (t0 + 1) (S i mod length (lc_server_ids loc))%nat Hok1) as (f2 & E2 & Hok2 & Hsame & Hbefore & Hafter).
    { lia. } { lia. } { apply Nat.mod_upper_bound. lia. } { done. }
    exists f2. rewrite E2. split_and!; [done|done|..].
    + intros t s' Ht Hs' Hni. rewrite Hsame by done. apply Ho; [done|done|]. intros [= _ <-%Nat2Z.inj]. done.
    + intros t s' Ht Hs'. rewrite Hbefore by (done || lia). apply Ho; [lia|lia|]. intros [= ? _]. lia.
    + intros t Ht. destruct (decide (t = t0)) as [->|Hne].
      * exists s. split; [done|]. rewrite Hbefore by (lia || auto). split; [done|]. intros s' Hs' Hne.
        rewrite Hbefore by (lia || auto). apply Ho; [lia|lia|]. intros [= ?%Nat2Z.inj]. done.
      * destruct (Hafter t ltac:(lia)) as (s1 & H1 & H2 & H3). exists s1. split; [done|]. split; [done|].
        intros s' Hs' Hne'. rewrite H3 by done. apply Ho; [lia|lia|]. intros [= ? _]. done.
Qed.
Variable config : fcgi_config.
Hypothesis (Hns : ns = Z.of_nat (length (fc_servers config))).

(** The connections a server is configured for. *)
Definition conn (s : nat) : Z := match fc_servers config !! s with Some srv => sv_max_connections srv | None => 0 end.
Definition counted (s : nat) : Z := if 0 <? conn s then conn s else 1.

Hypothesis (Hconn : forall s, 0 <= conn s).

Lemma get_server s :
  Z.of_nat s < ns -> exists srv, fcgi_config_get_server config (Z.of_nat s) = Some srv /\ sv_max_connections srv = conn s.
Proof.
  intros Hs. unfold fcgi_config_get_server, conn. replace (_ && _) with true by zb. rewrite Nat2Z.id.
  destruct (fc_servers config !! s) as [srv|] eqn:E; [eauto|]. apply lookup_ge_None in E. lia.
Qed.

Lemma distribute_servers_spec ids fdm j :
  matrix_ok ns nt fdm -> 0 <= j < nt -> NoDup ids -> (forall s, s ∈ ids -> Z.of_nat s < ns /\ conn s < 2 ^ 32) ->
  (forall t s, 0 <= t < nt -> s ∈ ids -> cell fdm t (Z.of_nat s) = 0) ->
  exists fdm', distribute_servers fdm config ids j = Some fdm' /\ matrix_ok ns nt fdm' /\ same_but ids fdm fdm' /\
    (forall s, s ∈ ids -> column fdm' s = conn s) /\
    (forall t s, 0 <= t < nt -> s ∈ ids -> 0 <= cell fdm' t (Z.of_nat s) <= conn s) /\
    forall t, 0 <= t < nt -> row fdm' t ids = hits nt j (Z.to_nat (zsum conn ids)) t.
Proof.
  revert fdm j; induction ids as [|s ids IH]; intros fdm j Hok Hj Hn Hs H0; cbn [distribute_servers zsum].
  - exists fdm. split_and!; [done|done|now intros t s|now intros s Hs'%elem_of_nil|now intros t s _ Hs'%elem_of_nil|done].
  - apply NoDup_cons in Hn as [Hn1 Hn]. destruct (Hs s ltac:(constructor)) as [Hs1 Hs2].
    destruct (get_server s Hs1) as (srv & E & Em). rewrite E. mstep. rewrite Em.
    specialize (Hconn s) as Hc0.
    destruct (distribute_server_spec (Z.to_nat (conn s)) fdm s j Hok Hj Hs1) as (f1 & E1 & Hok1 & Hsame1 & Hcell1).
    { intros t Ht. rewrite H0 by (done || constructor). lia. }
    rewrite E1. mstep.
    destruct (IH f1 ((j + Z.of_nat (Z.to_nat (conn s))) mod nt) Hok1) as (f2 & E2 & Hok2 & Hsame2 & Hcol & Hrng & Hrow).
    { apply Z.mod_pos_bound; lia. } { done. } { intros; apply Hs; now constructor. }
    { intros t s' Ht Hs'. rewrite Hsame1; [apply H0; [done|now constructor]|done|destruct (Hs s'); [now constructor|lia]|].
      intros ->%list_elem_of_singleton. done. }
    assert (Hcell : forall t, 0 <= t < nt -> cell f2 t (Z.of_nat s) = hits nt j (Z.to_nat (conn s)) t).
    { intros t Ht. rewrite Hsame2 by (done || lia). rewrite Hcell1, H0 by (done || constructor). lia. }
    exists f2. split; [done|]. split; [done|]. split_and!.
    + intros t s' Ht Hs' [Hne Hni]%not_elem_of_cons. rewrite Hsame2 by done. apply Hsame1; [done|done|]. now intros ->%list_elem_of_singleton.
    + intros s' [->|Hs']%elem_of_cons; [|now apply Hcol]. unfold column.
      rewrite (zsum_ext _ (hits nt j (Z.to_nat (conn s)))) by (intros t Ht%elem_of_seqZ; apply Hcell; lia).
      rewrite hits_sum by done. lia.
    + intros t s' Ht [->|Hs']%elem_of_cons; [|now apply Hrng]. rewrite Hcell by done.
      pose proof (hits_range nt j (Z.to_nat (conn s)) t). lia.
    + intros t Ht. unfold row. cbn [zsum]. fold (row f2 t ids). rewrite Hrow, Hcell by done.
      rewrite Z2Nat.inj_add by (try apply zsum_nonneg; auto). rewrite hits_app by lia. lia.
Qed.

End Distribution.

(** ** The matrix of a configuration *)

Section Matrix.
Variables (config : fcgi_config) (ns nt : Z).
Hypothesis (Hns : ns = Z.of_nat (length (fc_servers config))) (Hbound : nt * ns < 2 ^ 32) (Hthreads : 0 < nt).
Hypothesis (Hconn : forall s, 0 <= conn config s < 2 ^ 32).

Definition loc_ok (loc : fcgi_location) : Prop :=
  NoDup (lc_server_ids loc) /\ lc_server_ids loc <> [] /\ (forall s, s ∈ lc_server_ids loc -> Z.of_nat s < ns) /\
  zsum (counted config) (lc_server_ids loc) < 2 ^ 32.

(** When the servers of a location allow fewer connections than there are
    threads, every thread gets one; otherwise every server is used up to its
    limit and the threads share the connections evenly. *)
Definition served (fdm : fcgi_fd_matrix) (loc : fcgi_location) : Prop :=
  let ids := lc_server_ids loc in
  if zsum (counted config) ids <? nt then forall t, 0 <= t < nt -> row fdm t ids = 1
  else (forall s, s ∈ ids -> column nt fdm s = conn config s) /\
       forall t, 0 <= t < nt -> zsum (conn config) ids / nt <= row fdm t ids <= zsum (conn config) ids / nt + 1.

Definition in_limits (fdm : fcgi_fd_matrix) (ids : list nat) : Prop :=
  forall t s, 0 <= t < nt -> s ∈ ids -> 0 <= cell fdm t (Z.of_nat s) <= counted config s.

Lemma counted_pos s : 1 <= counted config s /\ conn config s <= counted config s.
Proof. unfold counted. case_if; zbool; lia. Qed.

Lemma loc_fd_count_spec ids c :
  (forall s, s ∈ ids -> Z.of_nat s < ns) -> 0 <= c -> c + zsum (counted config) ids < 2 ^ 32 ->
  loc_fd_count config ids c = Some (c + zsum (counted config) ids).
Proof.
  revert c; induction ids as [|s ids IH]; intros c Hs Hc Hb; cbn [loc_fd_count zsum] in *; [f_equal; lia|].
  destruct (get_server ns config Hns s) as (srv & E & Em); [apply Hs; constructor|]. rewrite E. mstep. rewrite Em.
  fold (counted config s). pose proof (counted_pos s).
  assert (0 <= zsum (counted config) ids) by (apply zsum_nonneg; intros x _; pose proof (counted_pos x); lia).
  rewrite u32_small by lia. rewrite IH; [f_equal; lia| |lia|lia]. intros; apply Hs. now constructor.
Qed.

Lemma normal_spec fdm loc :
  matrix_ok ns nt fdm -> loc_ok loc -> nt <= zsum (counted config) (lc_server_ids loc) ->
  (forall t s, 0 <= t < nt -> s ∈ lc_server_ids loc -> cell fdm t (Z.of_nat s) = 0) ->
  exists fdm', distribute_conns_normal fdm loc config = Some fdm' /\ matrix_ok ns nt fdm' /\
    same_but ns nt (lc_server_ids loc) fdm fdm' /\ served fdm' loc /\ in_limits fdm' (lc_server_ids loc).
Proof.
  intros Hok (Hn & _ & Hs & _) Hge H0. unfold distribute_conns_normal. rewrite (mx_threads _ _ _ Hok). replace (negb _) with false by zb.
  edestruct (distribute_servers_spec ns nt Hbound Hthreads config Hns) as (fdm' & E & Hok' & Hsame & Hcol & Hrng & Hrow);
    [intros s; apply Hconn|exact Hok|split; [|exact Hthreads]; reflexivity|exact Hn| |exact H0|].
  { intros s Hin. split; [now apply Hs|apply Hconn]. }
  exists fdm'. split; [done|]. split; [done|]. split; [done|]. split.
  - unfold served. replace (_ <? _) with false by zb. split; [done|]. intros t Ht. rewrite Hrow by done.
    assert (Hz : 0 <= zsum (conn config) (lc_server_ids loc)) by (apply zsum_nonneg; intros; apply Hconn).
    pose proof (hits_bounds nt (Z.to_nat (zsum (conn config) (lc_server_ids loc))) t Ht) as Hh. rewrite Z2Nat.id in Hh by done. done.
  - intros t s Ht Hin. specialize (Hrng t s Ht Hin). pose proof (counted_pos s). lia.
Qed.

Lemma fallback_spec fdm loc :
  matrix_ok ns nt fdm -> loc_ok loc -> zsum (counted config) (lc_server_ids loc) < nt ->
  (forall t s, 0 <= t < nt -> s ∈ lc_server_ids loc -> cell fdm t (Z.of_nat s) = 0) ->
  exists fdm', distribute_conns_fallback fdm loc = Some fdm' /\ matrix_ok ns nt fdm' /\
    same_but ns nt (lc_server_ids loc) fdm fdm' /\ served fdm' loc /\ in_limits fdm' (lc_server_ids loc).
Proof.
  intros Hok (Hn & Hne & Hs & _) Hlt H0.
  edestruct (fallback_loop_spec ns nt Hbound (Z.to_nat nt) loc fdm 0 0%nat) as (fdm' & E & Hok' & Hsame & _ & Hone); [done|lia|lia| |done|].
  { destruct (lc_server_ids loc); [done|cbn; lia]. }
  exists fdm'. split. { unfold distribute_conns_fallback. rewrite (mx_threads _ _ _ Hok). now destruct (lc_server_ids loc). }
  split; [done|]. split; [done|]. split.
  - unfold served. replace (_ <? _) with true by zb. intros t Ht. destruct (Hone t ltac:(lia)) as (s & Hin & H1 & Hother).
    unfold row. rewrite (zsum_upd (fun _ => 0) _ _ s Hn Hin); [rewrite zsum_zero by done; lia|].
    intros y Hy Hy'. rewrite Hother by auto. now apply H0.
  - intros t s Ht Hin. destruct (Hone t ltac:(lia)) as (s1 & Hin1 & H1 & Hother). pose proof (counted_pos s).
    destruct (decide (s = s1)) as [->|]; [lia|]. rewrite Hother by auto. rewrite H0 by done. lia.
Qed.

Lemma served_same ids fdm fdm' loc :
  same_but ns nt ids fdm fdm' -> loc_ok loc -> (forall s, s ∈ lc_server_ids loc -> s ∉ ids) ->
  (served fdm loc -> served fdm' loc) /\ (in_limits fdm (lc_server_ids loc) -> in_limits fdm' (lc_server_ids loc)).
Proof.
  intros Hsame (_ & _ & Hs & _) Hd. split.
  - unfold served. case_if; intros H.
    + intros t Ht. rewrite (row_same ns nt ids fdm) by (done || intros; split; auto). now apply H.
    + destruct H as [H1 H2]. split.
      * intros s Hin. rewrite (column_same ns nt ids fdm) by auto. now apply H1.
      * intros t Ht. rewrite (row_same ns nt ids fdm) by (done || intros; split; auto). now apply H2.
  - intros H t s Ht Hin. rewrite Hsame by (auto; specialize (Hs s Hin); lia). now apply H.
Qed.

Lemma distribute_locations_spec locs fdm :
  matrix_ok ns nt fdm -> Forall loc_ok locs -> NoDup (concat (map lc_server_ids locs)) ->
  (forall t s, 0 <= t < nt -> s ∈ concat (map lc_server_ids locs) -> cell fdm t (Z.of_nat s) = 0) ->
  exists fdm', distribute_locations fdm config locs = Some fdm' /\ matrix_ok ns nt fdm' /\
    same_but ns nt (concat (map lc_server_ids locs)) fdm fdm' /\
    forall loc, loc ∈ locs -> served fdm' loc /\ in_limits fdm' (lc_server_ids loc).
Proof.
  revert fdm; induction locs as [|loc locs IH]; intros fdm Hok Hl Hn H0; cbn [distribute_locations map concat] in *.
  - exists fdm. split_and!; [done|done|now intros t s|now intros l Hl'%elem_of_nil].
  - apply Forall_cons in Hl as [Hloc Hl]. apply NoDup_app in Hn as (Hn1 & Hd & Hn2).
    assert (H0' : forall t s, 0 <= t < nt -> s ∈ lc_server_ids loc -> cell fdm t (Z.of_nat s) = 0)
      by (intros; apply H0; [done|apply elem_of_app; now left]).
    assert (exists f1, (if zsum (counted config) (lc_server_ids loc) <? nt then distribute_conns_fallback fdm loc
                        else distribute_conns_normal fdm loc config) = Some f1 /\ matrix_ok ns nt f1 /\
              same_but ns nt (lc_server_ids loc) fdm f1 /\ served f1 loc /\ in_limits f1 (lc_server_ids loc)) as
      (f1 & E1 & Hok1 & Hsame1 & Hs1 & Hr1).
    { case_if; zbool; [now apply fallback_spec|now apply normal_spec]. }
    pose proof Hloc as (_ & _ & Hs & Hb). rewrite loc_fd_count_spec by (done || lia). mstep. rewrite Z.add_0_l, (mx_threads _ _ _ Hok), E1. mstep.
    destruct (IH f1 Hok1 Hl Hn2) as (f2 & E2 & Hok2 & Hsame2 & Hall).
    { intros t s Ht Hin. assert (Hin' : s ∉ lc_server_ids loc) by (intros Hi; now apply (Hd s)).
      rewrite Hsame1; [apply H0; [done|apply elem_of_app; now right]|done| |done].
      apply list_elem_of_In, in_concat in Hin as (ids & Hids & Hin). apply in_map_iff in Hids as (l & <- & Hl').
      rewrite Forall_forall in Hl. destruct (Hl l) as (_ & _ & Hlt & _); [now apply list_elem_of_In|].
      apply list_elem_of_In in Hin. specialize (Hlt s Hin). lia. }
    exists f2. split; [done|]. split; [done|]. split.
    + intros t s Ht Hs' [Hni1 Hni2]%not_elem_of_app. rewrite Hsame2 by done. now apply Hsame1.
    + intros l [->|Hin]%elem_of_cons; [|now apply Hall].
      destruct (served_same _ _ _ loc Hsame2 Hloc ltac:(intros s H1 H2; now apply (Hd s))); auto.
Qed.

Lemma matrix_create_spec :
  0 < ns < 2 ^ 32 -> Forall loc_ok (fc_locations config) -> NoDup (concat (map lc_server_ids (fc_locations config))) ->
  exists fdm, fcgi_fd_matrix_create config nt = Some fdm /\ matrix_ok ns nt fdm /\
    (forall loc, loc ∈ fc_locations config -> served fdm loc /\ in_limits fdm (lc_server_ids loc)) /\
    forall t s, 0 <= t < nt -> Z.of_nat s < ns -> s ∉ concat (map lc_server_ids (fc_locations config)) -> cell fdm t (Z.of_nat s) = 0.
Proof.
  intros Hpos Hl Hn. unfold fcgi_fd_matrix_create. rewrite (u32_small (Z.of_nat _)), <- Hns, u32_small by lia.
  assert (Hz : forall t s, cell {| fm_server_count := ns; fm_thread_count := nt; fm_cells := replicate (Z.to_nat (ns * nt)) 0 |} t s = 0).
  { intros t s. unfold cell. cbn [fm_cells]. destruct (_ !! _) as [z|] eqn:E; [|done]. now apply lookup_replicate in E as [-> _]. }
  destruct (distribute_locations_spec (fc_locations config)
    {| fm_server_count := ns; fm_thread_count := nt; fm_cells := replicate (Z.to_nat (ns * nt)) 0 |}) as (fdm & E & Hok & Hsame & Hall);
    [split; [done|done|cbn; rewrite length_replicate; lia]|done|done|intros; apply Hz|].
  exists fdm. split_and!; [done|done|done|]. intros t s Ht Hs Hni. rewrite Hsame by (done || lia). apply Hz.
Qed.
End Matrix.

(** ** Validated configurations *)

Lemma in_combine_lookup {A B} (l : list A) (k : list B) i x y : l !! i = Some x -> k !! i = Some y -> List.In (x, y) (combine l k).
Proof.
  revert k i; induction l as [|a l IH]; intros [|b k] [|i] Hx Hy; try done; cbn in *; [left; congruence|right; eauto].
Qed.

Lemma fcgi_validate_conf_spec config :
  fcgi_validate_conf config = 0 -> (length (concat (map lc_server_ids (fc_locations config))) < 256)%nat ->
  (0 < length (fc_servers config))%nat /\ (0 < length (fc_locations config))%nat /\
  Forall (fun l => lc_server_ids l <> [] /\ Forall (fun i => (i < length (fc_servers config))%nat) (lc_server_ids l)) (fc_locations config) /\
  NoDup (concat (map lc_server_ids (fc_locations config))).
Proof.
  unfold fcgi_validate_conf. intros H Hlen. do 3 (case_if_in H; [done|]). zbool.
  destruct (count_locations _ _) as [used|] eqn:Ec; [|done]. case_if_in H; [|done].
  apply count_locations_spec in Ec as (L & F & C). rewrite length_map in *. split; [lia|]. split; [lia|]. split; [done|].
  apply NoDup_ListNoDup, (NoDup_count_occ Nat.eq_dec). intros i. fold (listed i (fc_locations config)).
  assert (Hle : (listed i (fc_locations config) < 256)%nat) by (unfold listed; pose proof (count_occ_bound Nat.eq_dec i (concat (map lc_server_ids (fc_locations config)))); lia).
  destruct (decide (i < length (fc_servers config))%nat) as [Hi|Hi].
  - destruct (lookup_lt_is_Some_2 (fc_servers config) i Hi) as [srv Es].
    assert (Eu : used !! i = Some (Z.of_nat (listed i (fc_locations config)))).
    { rewrite (C i 0); [now rewrite u8_small by lia| |lia]. rewrite list_lookup_fmap, Es. done. }
    rewrite forallb_forall in E2. assert (Hin : List.In (srv, Z.of_nat (listed i (fc_locations config))) (combine (fc_servers config) used)).
    { now apply (in_combine_lookup _ _ i). }
    apply E2 in Hin. unfold server_valid in Hin. cbn [fst snd] in Hin. zbool. lia.
  - enough (listed i (fc_locations config) = 0%nat) by lia. apply count_occ_not_In. intros Hin.
    apply in_concat in Hin as (ids & Hids & Hin). apply in_map_iff in Hids as (l & <- & Hl).
    rewrite Forall_forall in F. destruct (F l) as [_ F']; [now apply list_elem_of_In|].
    rewrite Forall_forall in F'. apply Hi, F'. now apply list_elem_of_In.
Qed.

(** ** The sockets of a thread *)

Lemma locate_servers_spec i ids locations :
  (forall s, s ∈ ids -> (s < length locations)%nat) ->
  exists ls, locate_servers i ids locations = Some ls /\ length ls = length locations /\
    (forall s, s ∈ ids -> ls !! s = Some i) /\ forall s, s ∉ ids -> ls !! s = locations !! s.
Proof.
  revert locations; induction ids as [|id ids IH]; intros ls Hs; cbn [locate_servers].
  - exists ls. split_and!; [done|done|now intros s Hs'%elem_of_nil|done].
  - destruct (lookup_lt_is_Some_2 ls id ltac:(apply Hs; constructor)) as [z Ez]. rewrite Ez. mstep.
    destruct (IH (<[id := i]> ls)) as (ls' & E & Hlen & Hin & Hout). { intros s Hs'. rewrite length_insert. apply Hs. now constructor. }
    rewrite length_insert in Hlen. exists ls'. split_and!; [done|done|..].
    + intros s Hs'. destruct (decide (s ∈ ids)) as [|Hni]; [now apply Hin|]. apply elem_of_cons in Hs' as [->|]; [|done].
      rewrite Hout by done. apply list_lookup_insert_eq. now apply lookup_lt_Some in Ez.
    + intros s [Hne Hni]%not_elem_of_cons. rewrite Hout by done. now apply list_lookup_insert_ne.
Qed.

Lemma locate_all_spec i locs locations :
  NoDup (concat (map lc_server_ids locs)) -> (forall s, s ∈ concat (map lc_server_ids locs) -> (s < length locations)%nat) ->
  exists ls, locate_all i locs locations = Some ls /\ length ls = length locations /\
    (forall k l s, locs !! k = Some l -> s ∈ lc_server_ids l -> ls !! s = Some (i + Z.of_nat k)) /\
    forall s, s ∉ concat (map lc_server_ids locs) -> ls !! s = locations !! s.
Proof.
  revert i locations; induction locs as [|loc locs IH]; intros i ls Hn Hs; cbn [locate_all map concat] in *.
  - exists ls. split_and!; done.
  - apply NoDup_app in Hn as (_ & Hd & Hn).
    destruct (locate_servers_spec i (lc_server_ids loc) ls) as (l1 & E1 & Hl1 & Hin1 & Hout1).
    { intros s Hin. apply Hs, elem_of_app. now left. } rewrite E1. mstep.
    destruct (IH (i + 1) l1 Hn) as (l2 & E2 & Hl2 & Hin2 & Hout2).
    { intros s Hin. rewrite Hl1. apply Hs, elem_of_app. now right. }
    exists l2. split_and!; [done|congruence|..].
    + intros [|k] l s Hk Hin; cbn in Hk.
      * injection Hk as <-. rewrite Hout2 by (intros Hi; now apply (Hd s)). rewrite Hin1 by done. f_equal. lia.
      * rewrite (Hin2 k l s Hk Hin). f_equal. lia.
    + intros s [H1 H2]%not_elem_of_app. rewrite Hout2 by done. now apply Hout1.
Qed.
Section Threads.
Variables (ns nt : Z).
Hypothesis (Hbound : nt * ns < 2 ^ 32).

Lemma sum_cells_spec fdm t n s acc :
  matrix_ok ns nt fdm -> 0 <= t < nt -> Z.of_nat (s + n) <= ns ->
  (forall s, Z.of_nat s < ns -> 0 <= cell fdm t (Z.of_nat s)) -> 0 <= acc -> acc + row fdm t (seq s n) < 2 ^ 32 ->
  sum_cells fdm t (Z.of_nat s) n acc = Some (acc + row fdm t (seq s n)).
Proof.
  intros Hok Ht. revert s acc; induction n as [|n IH]; intros s acc Hs Hc Ha Hb; unfold row in *; cbn [sum_cells seq zsum] in *; [f_equal; lia|].
  rewrite (matrix_get ns nt Hbound fdm t (Z.of_nat s) Hok) by lia. mstep.
  replace (Z.of_nat s + 1) with (Z.of_nat (S s)) by lia. specialize (Hc s ltac:(lia)) as Hcs.
  assert (0 <= zsum (fun s => cell fdm t (Z.of_nat s)) (seq (S s) n)).
  { apply zsum_nonneg. intros x Hx. apply elem_of_seq in Hx. apply Hc. lia. }
  rewrite u32_small by lia. rewrite IH; [f_equal; lia|lia|done|lia|lia].
Qed.

Variable config : fcgi_config.
Hypothesis (Hns : ns = Z.of_nat (length (fc_servers config))).

Definition server_type (s : nat) : fcgi_fd_type :=
  match fc_servers config !! s with Some {| sv_path := Some _ |} => FCGI_FD_UNIX | _ => FCGI_FD_INET end.

(** The sockets of the servers in order, each as often as the matrix says. *)
Definition thread_fds (fdm : fcgi_fd_matrix) (t : Z) (locations : list Z) (l : list nat) : list fcgi_fd :=
  concat (map (fun s => replicate (Z.to_nat (cell fdm t (Z.of_nat s)))
                          (fcgi_fd_init (server_type s) (Z.of_nat s) (default (-1) (locations !! s)))) l).

Lemma length_thread_fds fdm t locations l :
  (forall s, s ∈ l -> 0 <= cell fdm t (Z.of_nat s)) -> Z.of_nat (length (thread_fds fdm t locations l)) = row fdm t l.
Proof.
  unfold thread_fds, row. induction l as [|s l IH]; intros H; [done|]. cbn [map concat zsum]. rewrite length_app, length_replicate.
  rewrite Nat2Z.inj_add, IH by (intros; apply H; now constructor). rewrite Z2Nat.id by (apply H; constructor). lia.
Qed.

Lemma init_fds_spec fdm t locations n s :
  matrix_ok ns nt fdm -> 0 <= t < nt -> Z.of_nat (s + n) <= ns -> length locations = length (fc_servers config) ->
  (forall s, Z.of_nat s < ns -> locations !! s = Some (-1) -> cell fdm t (Z.of_nat s) = 0) ->
  init_fds fdm t config locations (Z.of_nat s) n = Some (Some (thread_fds fdm t locations (seq s n))).
Proof.
  intros Hok Ht Hs Hl Hun. revert s Hs; induction n as [|n IH]; intros s Hs; cbn [init_fds seq]; [done|].
  unfold fcgi_fd_matrix_get. rewrite (matrix_get ns nt Hbound fdm t (Z.of_nat s) Hok) by lia. mstep.
  unfold fcgi_config_get_server. replace (_ && _) with true by zb. rewrite Nat2Z.id.
  destruct (lookup_lt_is_Some_2 (fc_servers config) s ltac:(lia)) as [srv Es]. rewrite Es.
  destruct (lookup_lt_is_Some_2 locations s ltac:(lia)) as [loc El]. rewrite El. mstep.
  replace (_ && _) with false.
  2:{ symmetry. apply andb_false_iff. destruct (decide (loc = -1)) as [->|]; [left|right; zb]. rewrite (Hun s) by (done || lia). done. }
  replace (Z.of_nat s + 1) with (Z.of_nat (S s)) by lia. rewrite IH by lia. mstep. do 2 f_equal.
  unfold thread_fds. cbn [map concat]. f_equal. rewrite El. cbn. do 2 f_equal. unfold server_type. rewrite Es. now destruct srv as [? [] ? ? ? ? ?].
Qed.

End Threads.

Lemma thread_fds_elem config fdm t ls l fd :
  fd ∈ thread_fds config fdm t ls l <->
  exists s, s ∈ l /\ 1 <= cell fdm t (Z.of_nat s) /\
    fd = fcgi_fd_init (server_type config s) (Z.of_nat s) (default (-1) (ls !! s)).
Proof.
  unfold thread_fds. induction l as [|s l IH]; cbn [map concat].
  - split; [now intros ?%elem_of_nil|]. now intros (s & ?%elem_of_nil & _).
  - rewrite elem_of_app, IH. split.
    + intros [[-> Hn]%elem_of_replicate|(s' & H1 & H2 & H3)].
      * exists s. split_and!; [constructor|lia|done].
      * exists s'. split_and!; [now constructor|done|done].
    + intros (s' & [->|Hs]%elem_of_cons & H2 & H3); [left|right; eauto]. apply elem_of_replicate. split; [done|lia].
Qed.

Lemma find_fd_some p l : (exists fd, fd ∈ l /\ p fd = true) -> exists k fd, find_fd p l = Some k /\ l !! k = Some fd /\ p fd = true.
Proof.
  intros (fd & Hin & Hp). induction l as [|f l IH]; [now apply elem_of_nil in Hin|]. cbn [find_fd]. destruct (p f) eqn:E.
  - now exists O, f.
  - apply elem_of_cons in Hin as [->|Hin]; [congruence|]. destruct (IH Hin) as (k & fd' & Hk & H1 & H2).
    exists (S k), fd'. now rewrite Hk.
Qed.

(** ** Theorems *)

(** The hypotheses on the numbers of a configuration: the array of the matrix
    and the sum of all connections fit in 32 bits. *)
Record conf_ok (config : fcgi_config) (nt : Z) : Prop := {
  co_valid : fcgi_validate_conf config = 0;
  co_refs : (length (concat (map lc_server_ids (fc_locations config))) < 256)%nat;
  co_threads : 0 < nt;
  co_cells : nt * Z.of_nat (length (fc_servers config)) < 2 ^ 32;
  co_conn : forall s, 0 <= conn config s;
  co_total : zsum (counted config) (seq 0 (length (fc_servers config))) < 2 ^ 32
}.

Lemma zsum_sub {A} (f : A -> Z) l l' : (forall x, 0 <= f x) -> NoDup l -> (forall x, x ∈ l -> x ∈ l') -> zsum f l <= zsum f l'.
Proof.
  intros Hf. revert l'; induction l as [|x l IH]; intros l' Hn Hs; [now apply zsum_nonneg|].
  apply NoDup_cons in Hn as [Hx Hn]. destruct (list_elem_of_split l' x (Hs x ltac:(constructor))) as (a & b & ->).
  cbn [zsum]. assert (H : zsum f l <= zsum f (a ++ b)).
  { apply IH; [done|]. intros y Hy. specialize (Hs y ltac:(now constructor)).
    rewrite elem_of_app, elem_of_cons in Hs. rewrite elem_of_app. destruct Hs as [?|[->|?]]; tauto. }
  rewrite !zsum_app in *. cbn [zsum]. lia.
Qed.

Lemma elem_of_locations config loc s :
  loc ∈ fc_locations config -> s ∈ lc_server_ids loc -> s ∈ concat (map lc_server_ids (fc_locations config)).
Proof.
  intros H1 H2. apply list_elem_of_In, in_concat. exists (lc_server_ids loc). split; [|now apply list_elem_of_In].
  apply in_map. now apply list_elem_of_In.
Qed.

Lemma elem_of_some_location config s :
  s ∈ concat (map lc_server_ids (fc_locations config)) ->
  exists k loc, fc_locations config !! k = Some loc /\ s ∈ lc_server_ids loc.
Proof.
  intros Hi%list_elem_of_In. apply in_concat in Hi as (ids & Hids & Hi). apply in_map_iff in Hids as (l & <- & Hl).
  apply list_elem_of_In, list_elem_of_lookup in Hl as [k Hk]. apply list_elem_of_In in Hi. eauto.
Qed.

Lemma NoDup_location config loc :
  NoDup (concat (map lc_server_ids (fc_locations config))) -> loc ∈ fc_locations config -> NoDup (lc_server_ids loc).
Proof.
  intros H Hl. induction (fc_locations config) as [|l locs IH]; [now apply elem_of_nil in Hl|]. cbn [map concat] in H.
  apply NoDup_app in H as (H1 & _ & H2). apply elem_of_cons in Hl as [->|Hl]; auto.
Qed.

Section Conf.
Variables (config : fcgi_config) (nt : Z).
Hypothesis (Hok : conf_ok config nt).
Notation ns := (Z.of_nat (length (fc_servers config))).

Lemma counted_bound ids : NoDup ids -> (forall s, s ∈ ids -> Z.of_nat s < ns) -> zsum (counted config) ids < 2 ^ 32.
Proof.
  intros Hn Hs. eapply Z.le_lt_trans; [|exact (co_total _ _ Hok)]. apply zsum_sub; [|done|].
  - intros x. unfold counted. case_if; zbool; lia.
  - intros x Hx. apply elem_of_seq. specialize (Hs x Hx). lia.
Qed.

Lemma conn_range s : 0 <= conn config s < 2 ^ 32.
Proof.
  split; [apply (co_conn _ _ Hok)|]. destruct (decide (Z.of_nat s < ns)) as [Hs|Hs].
  - pose proof (counted_bound [s] ltac:(apply NoDup_singleton) ltac:(now intros x ->%list_elem_of_singleton)) as H.
    cbn [zsum] in H. unfold counted in H. case_if_in H; zbool; lia.
  - unfold conn. rewrite lookup_ge_None_2 by lia. lia.
Qed.

Lemma conf_locations :
  0 < ns < 2 ^ 32 /\ Forall (loc_ok config ns) (fc_locations config) /\ NoDup (concat (map lc_server_ids (fc_locations config))).
Proof.
  destruct (fcgi_validate_conf_spec config (co_valid _ _ Hok) (co_refs _ _ Hok)) as (H1 & H2 & H3 & H4).
  split; [pose proof (co_cells _ _ Hok); pose proof (co_threads _ _ Hok); nia|]. split; [|done].
  apply Forall_forall. intros loc Hin. rewrite Forall_forall in H3. destruct (H3 loc Hin) as [Hne Hs]. rewrite Forall_forall in Hs.
  assert (Hn := NoDup_location config loc H4 Hin). assert (Hs' : forall s, s ∈ lc_server_ids loc -> Z.of_nat s < ns) by (intros s Hi; specialize (Hs s Hi); lia).
  split_and!; [done|done|done|now apply counted_bound].
Qed.

Lemma matrix_of_conf :
  exists fdm, fcgi_fd_matrix_create config nt = Some fdm /\ matrix_ok ns nt fdm /\
    (forall loc, loc ∈ fc_locations config -> served config nt fdm loc /\ in_limits config nt fdm (lc_server_ids loc)) /\
    forall t s, 0 <= t < nt -> Z.of_nat s < ns -> s ∉ concat (map lc_server_ids (fc_locations config)) -> cell fdm t (Z.of_nat s) = 0.
Proof.
  destruct conf_locations as (H1 & H2 & H3).
  apply matrix_create_spec; [done|exact (co_cells _ _ Hok)|exact (co_threads _ _ Hok)|exact conn_range|done|done|done].
Qed.

Lemma cells_counted fdm t s :
  (forall loc, loc ∈ fc_locations config -> in_limits config nt fdm (lc_server_ids loc)) ->
  (forall t s, 0 <= t < nt -> Z.of_nat s < ns -> s ∉ concat (map lc_server_ids (fc_locations config)) -> cell fdm t (Z.of_nat s) = 0) ->
  0 <= t < nt -> Z.of_nat s < ns -> 0 <= cell fdm t (Z.of_nat s) <= counted config s.
Proof.
  intros Hlim Hzero Ht Hs. destruct (decide (s ∈ concat (map lc_server_ids (fc_locations config)))) as [Hin|Hni].
  - apply elem_of_some_location in Hin as (k & l & Hk%list_elem_of_lookup_2 & Hin). now apply (Hlim l).
  - rewrite Hzero by done. unfold counted. case_if; zbool; lia.
Qed.

Lemma list_of_conf fdm t :
  matrix_ok ns nt fdm -> 0 <= t < nt ->
  (forall loc, loc ∈ fc_locations config -> in_limits config nt fdm (lc_server_ids loc)) ->
  (forall t s, 0 <= t < nt -> Z.of_nat s < ns -> s ∉ concat (map lc_server_ids (fc_locations config)) -> cell fdm t (Z.of_nat s) = 0) ->
  exists ls, fcgi_fd_list_init fdm t config = Some (Some (thread_fds config fdm t ls (seq 0 (length (fc_servers config))))) /\
    (forall k l s, fc_locations config !! k = Some l -> s ∈ lc_server_ids l -> ls !! s = Some (Z.of_nat k)) /\
    forall s z, ls !! s = Some z -> z <> -1 -> exists k l, fc_locations config !! k = Some l /\ s ∈ lc_server_ids l /\ z = Z.of_nat k.
Proof.
  intros Hm Ht Hlim Hzero. destruct conf_locations as (H1 & H2 & H3). pose proof (cells_counted fdm) as Hc.
  assert (Hpos : forall s, Z.of_nat s < ns -> 0 <= cell fdm t (Z.of_nat s)) by (intros s Hs; now apply (Hc t s)).
  assert (Hrow : row fdm t (seq 0 (length (fc_servers config))) < 2 ^ 32).
  { eapply Z.le_lt_trans; [|exact (co_total _ _ Hok)]. apply zsum_le. intros s Hs%elem_of_seq. apply Hc; auto; lia. }
  destruct (locate_all_spec 0 (fc_locations config) (map (fun _ => -1) (fc_servers config)) H3) as (ls & E & Hlen & Hin & Hout).
  { intros s Hs. rewrite length_map. apply elem_of_some_location in Hs as (k & l & Hk & Hs). apply list_elem_of_lookup_2 in Hk.
    rewrite Forall_forall in H2. destruct (H2 l Hk) as (_ & _ & Hlt & _). specialize (Hlt s Hs). lia. }
  rewrite length_map in Hlen. exists ls. split; [|split; [now intros k l s Hk Hs; rewrite (Hin k l s Hk Hs)|]].
  2:{ intros s z Hz Hne. destruct (decide (s ∈ concat (map lc_server_ids (fc_locations config)))) as [Hi|Hi].
      - apply elem_of_some_location in Hi as (k & l & Hk & Hi). exists k, l. rewrite (Hin k l s Hk Hi) in Hz. injection Hz as <-. auto.
      - rewrite Hout, list_lookup_fmap in Hz by done. destruct (fc_servers config !! s); [|done]. injection Hz as <-. done. }
  unfold fcgi_fd_list_init, fcgi_fd_matrix_thread_sum. rewrite (mx_servers _ _ _ Hm), Nat2Z.id.
  rewrite (sum_cells_spec ns nt (co_cells _ _ Hok) fdm t _ 0 0 Hm Ht) by (try done; cbn; lia). mstep. rewrite E. mstep.
  assert (Hun : forall s, Z.of_nat s < ns -> ls !! s = Some (-1) -> cell fdm t (Z.of_nat s) = 0).
  { intros s Hs Hm1. apply Hzero; [done|done|]. intros Hi. apply elem_of_some_location in Hi as (k & l & Hk & Hi). rewrite (Hin k l s Hk Hi) in Hm1. injection Hm1. lia. }
  pose proof (init_fds_spec ns nt (co_cells _ _ Hok) config eq_refl fdm t ls (length (fc_servers config)) 0 Hm Ht ltac:(lia) Hlen Hun) as Ei.
  change (Z.of_nat 0) with 0 in Ei. rewrite Ei.
  mstep. rewrite length_thread_fds by (intros s Hs%elem_of_seq; apply Hpos; lia). rewrite Z.add_0_l, Z.ltb_irrefl, Z.eqb_refl. done.
Qed.

Lemma served_row fdm loc t :
  (forall s, Z.of_nat s < ns -> 1 <= conn config s) -> loc ∈ fc_locations config -> served config nt fdm loc -> 0 <= t < nt ->
  1 <= row fdm t (lc_server_ids loc).
Proof.
  intros Hpos Hl Hs Ht. unfold served in Hs. case_if_in Hs; zbool; [now rewrite Hs|]. destruct Hs as [_ Hs]. specialize (Hs t Ht).
  destruct conf_locations as (_ & H2 & _). rewrite Forall_forall in H2. destruct (H2 loc Hl) as (_ & _ & Hlt & _).
  assert (Heq : zsum (conn config) (lc_server_ids loc) = zsum (counted config) (lc_server_ids loc)).
  { apply zsum_ext. intros s Hi. unfold counted. specialize (Hpos s (Hlt s Hi)). now replace (0 <? _) with true by zb. }
  assert (1 <= zsum (conn config) (lc_server_ids loc) / nt); [|lia].
  apply Z.div_le_lower_bound; lia.
Qed.

Lemma row_positive fdm t ids : 1 <= row fdm t ids -> exists s, s ∈ ids /\ 1 <= cell fdm t (Z.of_nat s).
Proof.
  unfold row. induction ids as [|s ids IH]; cbn [zsum]; [lia|]. intros H. destruct (decide (1 <= cell fdm t (Z.of_nat s))) as [|Hlt].
  - exists s. split; [constructor|done].
  - destruct IH as (s' & H1 & H2); [lia|]. exists s'. split; [now constructor|done].
Qed.
End Conf.

(** For a validated configuration the matrix of connections serves every
    location on every thread: when the servers of a location allow fewer
    connections than there are threads, each thread gets exactly one;
    otherwise every server is used up to exactly its limit and the threads
    share the connections with a difference of at most one. *)
Theorem fcgi_fd_matrix_create_spec config nt :
  conf_ok config nt ->
  exists fdm, fcgi_fd_matrix_create config nt = Some fdm /\
    forall loc, loc ∈ fc_locations config -> served config nt fdm loc.
Proof.
  intros Hok. destruct (matrix_of_conf config nt Hok) as (fdm & E & _ & H & _). exists fdm. split; [done|]. intros loc Hl. now apply H.
Qed.

(** With MaxConnections set for every server, the sockets of every
    worker thread are set up without error, and a thread that looks for an
    available socket of any location finds one, of a server of that
    location. *)
Theorem fcgi_thread_has_connection config nt :
  conf_ok config nt -> (forall s, Z.of_nat s < Z.of_nat (length (fc_servers config)) -> 1 <= conn config s) ->
  exists fdm, fcgi_fd_matrix_create config nt = Some fdm /\
    forall t, 0 <= t < nt -> exists fdl, fcgi_fd_list_init fdm t config = Some (Some fdl) /\
      forall l loc, fc_locations config !! l = Some loc -> exists k fd s,
        fcgi_fd_list_get fdl FCGI_FD_AVAILABLE (Z.of_nat l) = Some k /\ fdl !! k = Some fd /\
        fd_location_id fd = Z.of_nat l /\ fd_state fd = FCGI_FD_AVAILABLE /\ fd_server_id fd = Z.of_nat s /\ s ∈ lc_server_ids loc.
Proof.
  intros Hok Hpos. destruct (matrix_of_conf config nt Hok) as (fdm & E & Hm & Hall & Hzero). exists fdm. split; [done|]. intros t Ht.
  destruct (list_of_conf config nt Hok fdm t Hm Ht) as (ls & El & Hloc & Hback); [intros loc Hl; now apply Hall|done|].
  eexists. split; [exact El|]. intros l loc Hk. apply list_elem_of_lookup_2 in Hk as Hin.
  destruct (row_positive fdm t (lc_server_ids loc)) as (s & Hs & Hc); [apply (served_row config nt Hok); auto; now apply Hall|].
  set (fdl := thread_fds _ _ _ _ _).
  destruct (find_fd_some (fun fd => negb (Z.land (fd_state fd) FCGI_FD_AVAILABLE =? 0) && (fd_location_id fd =? Z.of_nat l)) fdl)
    as (k & fd & Hk1 & Hk2 & Hp).
  { exists (fcgi_fd_init (server_type config s) (Z.of_nat s) (Z.of_nat l)). split.
    - apply thread_fds_elem. exists s. rewrite (Hloc l loc s Hk Hs). split; [|split; [done|reflexivity]].
      + apply elem_of_seq. destruct (conf_locations config nt Hok) as (_ & H2 & _). rewrite Forall_forall in H2.
        destruct (H2 loc Hin) as (_ & _ & Hlt & _). specialize (Hlt s Hs). lia.
    - cbn. apply Z.eqb_refl. }
  exists k, fd. apply list_elem_of_lookup_2 in Hk2 as Hfd. apply thread_fds_elem in Hfd as (s' & Hs' & Hc' & ->).
  cbn [fd_location_id fd_state fd_server_id fcgi_fd_init] in *. zbool.
  destruct (ls !! s') as [z|] eqn:Ez; cbn [default from_option] in *; [|unfold default, id, from_option in *; lia].
  exists s'. unfold id in *. split_and!; try done.
  destruct (Hback s' z Ez ltac:(lia)) as (k' & l' & H1 & H2 & ->). assert (k' = l) as -> by lia. congruence.
Qed.

(** ** Examples and witnesses *)

Lemma conn_lower config m : m <= 0 -> Forall (fun srv => m <= sv_max_connections srv) (fc_servers config) -> forall s, m <= conn config s.
Proof.
  intros Hm H s. unfold conn. destruct (_ !! s) as [srv|] eqn:E; [|done]. now apply (Forall_lookup_1 _ _ _ _ H E).
Qed.

Definition server_example (max : Z) : fcgi_server :=
  {| sv_name := clit "php"; sv_path := Some (clit "/run/php.sock"); sv_addr := None; sv_port := 0;
     sv_mpx_connection := 0; sv_max_connections := max; sv_max_requests := 0 |}.
Definition location_example (ids : list nat) : fcgi_location :=
  {| lc_name := clit "php"; lc_match := lit ".php"; lc_keep_alive := MK_TRUE; lc_server_ids := ids |}.
Definition conf_example : fcgi_config :=
  {| fc_servers := [server_example 5; server_example 2; server_example 1];
     fc_locations := [location_example [1%nat; 0%nat]; location_example [2%nat]] |}.

(** Two servers shared evenly by four threads, and one connection each to a
    server that was configured for a single one. *)
Example matrix_example :
  option_map fm_cells (fcgi_fd_matrix_create conf_example 4) = Some [1; 1; 1; 1; 1; 1; 2; 0; 1; 1; 0; 1].
Proof. reflexivity. Qed.

(** A server without MaxConnections, the default, is counted as one
    connection and gets none: nothing is ever sent to it. *)
Example unlimited_server_unused :
  option_map fm_cells (fcgi_fd_matrix_create
    {| fc_servers := [server_example 0]; fc_locations := [location_example [0%nat]] |} 1) = Some [0].
Proof. reflexivity. Qed.

Lemma conf_example_ok : conf_ok conf_example 4.
Proof.
  split; [reflexivity|vm_compute; lia|lia|reflexivity| |reflexivity].
  apply (conn_lower conf_example 0); [lia|decide_closed].
Qed.

Lemma fcgi_fd_matrix_create_witness :
  exists fdm, fcgi_fd_matrix_create conf_example 4 = Some fdm /\
    forall loc, loc ∈ fc_locations conf_example -> served conf_example 4 fdm loc.
Proof. exact (fcgi_fd_matrix_create_spec conf_example 4 conf_example_ok). Defined.

Lemma fcgi_thread_has_connection_witness :
  exists fdm, fcgi_fd_matrix_create conf_example 4 = Some fdm /\
    forall t, 0 <= t < 4 -> exists fdl, fcgi_fd_list_init fdm t conf_example = Some (Some fdl) /\
      forall l loc, fc_locations conf_example !! l = Some loc -> exists k fd s,
        fcgi_fd_list_get fdl FCGI_FD_AVAILABLE (Z.of_nat l) = Some k /\ fdl !! k = Some fd /\
        fd_location_id fd = Z.of_nat l /\ fd_state fd = FCGI_FD_AVAILABLE /\ fd_server_id fd = Z.of_nat s /\ s ∈ lc_server_ids loc.
Proof.
  apply (fcgi_thread_has_connection conf_example 4 conf_example_ok).
  intros [|[|[|s]]] Hs; [done| done | done |cbn in Hs; lia].
Defined.
