(* ===== verification/FcgiContext.v ===== *)
(** * plugins/fastcgi/fcgi_context.c: the context of every worker thread

    Each worker has its requests, its sockets and its chunks. A worker draws
    the number of its context from a counter that all of them share; the
    threads are modelled by their program counters and any interleaving of
    their steps. *)
From stdpp Require Import gmap.
From S2P Require Import Prelude CString FcgiChunk FcgiRequest FcgiConfig FcgiFd.
Local Open Scope Z_scope.

(** ** Contexts *)

(** [cx_store] holds the chunk list. *)
Record fcgi_context := { cx_store : store; cx_rl : request_list; cx_fdl : list fcgi_fd }.

Definition empty_store : store := {| st_chunks := ∅; st_list := []; st_mem := ∅; st_next := 0 |}.

(** The offset and the sizes are passed as 16-bit integers. On an error the
    context is freed with a chunk list that was never initialised: undefined. *)
Definition fcgi_context_init (junk : nat -> Z) (fdm : fcgi_fd_matrix) (thread_id request_capacity : Z) (config : fcgi_config)
    : option fcgi_context :=
  let request_offset := u32 (1 + request_capacity * thread_id) in
  rl ← request_list_init junk (u16 (Z.of_nat (length (fc_locations config)))) (u16 request_offset) (u16 request_capacity);
  fdl ← fcgi_fd_list_init fdm thread_id config;
  fdl ← fdl;
  Some {| cx_store := empty_store; cx_rl := rl; cx_fdl := fdl |}.

Fixpoint init_contexts (junk : nat -> Z) (fdm : fcgi_fd_matrix) (capacity : Z) (config : fcgi_config) (i : Z) (n : nat)
    : option (list fcgi_context) :=
  match n with
  | O => Some []
  | S n =>
    tdata ← fcgi_context_init junk fdm i capacity config;
    rest ← init_contexts junk fdm capacity config (i + 1) n;
    Some (tdata :: rest)
  end.

Record fcgi_context_list := { tl_counter : Z; tl_n : Z; tl_tds : list fcgi_context }.

Definition fcgi_context_list_init (junk : nat -> Z) (config : fcgi_config) (workers worker_capacity : Z)
    : option (option fcgi_context_list) :=
  fdm ← fcgi_fd_matrix_create config workers;
  let capacity := next_power_of_2 (u16 worker_capacity) in
  if negb (0 <? capacity) then Some None
  else if negb (capacity <? UINT16_MAX) then Some None
  else
    tds ← init_contexts junk fdm capacity config 0 (Z.to_nat workers);
    Some (Some {| tl_counter := 0; tl_n := workers; tl_tds := tds |}).

Definition fcgi_context_list_get (tdlist : fcgi_context_list) (thread_id : Z) : option fcgi_context :=
  if (0 <=? thread_id) && (thread_id <? tl_n tdlist) then tl_tds tdlist !! Z.to_nat thread_id else None.

(** ** The numbers of the threads *)

(** Where a thread is in [fcgi_context_list_assign_thread_id]: before the
    check of the counter, before the lock, before the copy of the counter,
    before it is read and written back by [+= 1], before the unlock, and
    after the return. *)
Inductive pc := Check | Lock | Copy | Load (id : Z) | Store (id c : Z) | Unlock (id : Z) | Return (id : Z).

Record threads := { th_counter : Z; th_mutex : option nat; th_pcs : list pc }.

#[export] Instance eta_threads : Eta threads := fun s =>
  {| th_counter := th_counter s; th_mutex := th_mutex s; th_pcs := th_pcs s |}.

(** One step of thread [i]; [None] when it cannot move. *)
Definition fcgi_context_list_assign_thread_id (n : Z) (s : threads) (i : nat) : option threads :=
  p ← th_pcs s !! i;
  let goto p := <[i := p]> (th_pcs s) in
  match p with
  | Check => Some (s <| th_pcs := goto (if th_counter s <? n then Lock else Return (-1)) |>)
  | Lock => match th_mutex s with
            | None => Some (s <| th_mutex := Some i |> <| th_pcs := goto Copy |>)
            | Some _ => None
            end
  | Copy => Some (s <| th_pcs := goto (Load (th_counter s)) |>)
  | Load id => Some (s <| th_pcs := goto (Store id (th_counter s)) |>)
  | Store id c => Some (s <| th_counter := i32 (c + 1) |> <| th_pcs := goto (Unlock id) |>)
  | Unlock id => Some (s <| th_mutex := None |> <| th_pcs := goto (Return id) |>)
  | Return _ => None
  end.

Definition all_at_check (m : nat) : threads := {| th_counter := 0; th_mutex := None; th_pcs := replicate m Check |}.

(** The states that a schedule of [m] threads leads to, with its length. *)
Inductive reachable (n : Z) (m : nat) : nat -> threads -> Prop :=
| reach_start : reachable n m 0 (all_at_check m)
| reach_step k s i s' :
    reachable n m k s -> fcgi_context_list_assign_thread_id n s i = Some s' -> reachable n m (S k) s'.

Fixpoint run (n : Z) (s : threads) (schedule : list nat) : option threads :=
  match schedule with
  | [] => Some s
  | i :: schedule => s ← fcgi_context_list_assign_thread_id n s i; run n s schedule
  end.

Lemma run_reachable n m k s schedule s' :
  reachable n m k s -> run n s schedule = Some s' -> reachable n m (k + length schedule) s'.
Proof.
  revert k s; induction schedule as [|i l IH]; intros k s Hs; cbn [run length].
  - intros [= <-]. now rewrite Nat.add_0_r.
  - destruct (fcgi_context_list_assign_thread_id n s i) as [s1|] eqn:E; [|done]. mstep. intros H.
    replace (k + S (length l))%nat with (S k + length l)%nat by lia. apply (IH (S k) s1); [now apply (reach_step n m k s i)|done].
Qed.

(** ** Every thread draws a number of its own *)

Definition in_section (p : pc) : bool := match p with Copy | Load _ | Store _ _ | Unlock _ => true | _ => false end.

(** The number a thread has taken, once the counter is past it. *)
Definition taken (p : pc) : option Z := match p with Unlock id | Return id => Some id | _ => None end.
Definition is_taken (p : pc) : Z := match taken p with Some _ => 1 | None => 0 end.

Record threads_ok (m : nat) (s : threads) : Prop := {
  to_len : length (th_pcs s) = m;
  to_mutex : forall i p, th_pcs s !! i = Some p -> in_section p = true <-> th_mutex s = Some i;
  to_owner : forall i, th_mutex s = Some i -> (i < m)%nat;
  to_count : th_counter s = zsum is_taken (th_pcs s);
  to_load : forall i id, th_pcs s !! i = Some (Load id) -> id = th_counter s;
  to_store : forall i id c, th_pcs s !! i = Some (Store id c) -> id = th_counter s /\ c = th_counter s;
  to_taken : forall i p id, th_pcs s !! i = Some p -> taken p = Some id -> 0 <= id < th_counter s;
  to_distinct : forall i j p q id, th_pcs s !! i = Some p -> th_pcs s !! j = Some q -> taken p = Some id -> taken q = Some id -> i = j
}.

Lemma zsum_insert {A} (f : A -> Z) (l : list A) i x y : l !! i = Some x -> zsum f (<[i := y]> l) = zsum f l - f x + f y.
Proof.
  revert i; induction l as [|a l IH]; intros [|i] H; [done|done|..]; cbn in *.
  - injection H as ->. lia.
  - rewrite IH by done. lia.
Qed.

Lemma taken_bound l : 0 <= zsum is_taken l <= Z.of_nat (length l).
Proof. induction l as [|p l IH]; [done|]. cbn [zsum length]. unfold is_taken at 1 3. destruct (taken p); lia. Qed.

(** A thread that has not drawn its number leaves the counter below their
    number. *)
Lemma not_taken_bound l i p : l !! i = Some p -> taken p = None -> zsum is_taken l < Z.of_nat (length l).
Proof.
  intros H Hp. assert (E := zsum_insert is_taken l i p (Return 0) H). unfold is_taken at 3 4 in E. rewrite Hp in E. cbn in E.
  pose proof (taken_bound (<[i := Return 0]> l)) as B. rewrite length_insert in B. lia.
Qed.

(** Splits the lookup in an updated list of program counters. *)
Ltac split_pc H :=
  apply list_lookup_insert_Some in H; destruct H as [(<- & Hpc & _)|(? & H)]; [subst|].

Lemma start_ok m : threads_ok m (all_at_check m).
Proof.
  assert (H : forall i p, replicate m Check !! i = Some p -> p = Check) by (intros i p [? _]%lookup_replicate; done).
  split; cbn [th_pcs th_mutex th_counter all_at_check].
  - apply length_replicate.
  - intros i p ->%H. split; discriminate.
  - discriminate.
  - induction m; [done|]. cbn [replicate zsum]. rewrite <- IHm; [done|]. intros i p [-> _]%lookup_replicate. done.
  - intros i id Hi. apply H in Hi. discriminate.
  - intros i id c Hi. apply H in Hi. discriminate.
  - intros i p id ->%H. discriminate.
  - intros i j p q id ->%H. discriminate.
Qed.

(** The steps a thread has left. *)
Definition left (p : pc) : Z :=
  match p with Check => 6 | Lock => 5 | Copy => 4 | Load _ => 3 | Store _ _ => 2 | Unlock _ => 1 | Return _ => 0 end.

Lemma left_nonneg l : 0 <= zsum left l.
Proof. apply zsum_nonneg. intros [] _; cbn; lia. Qed.

Section Steps.
Variables (n : Z) (m : nat).
Hypothesis (Hn : Z.of_nat m <= n) (Hm : Z.of_nat m < 2 ^ 31).

(** A step that leaves the counter alone: the thread does not draw a number,
    and enters or leaves the section with the mutex. *)
Lemma move_ok s i p q mutex :
  threads_ok m s -> th_pcs s !! i = Some p -> taken q = taken p ->
  (th_mutex s = mutex \/ in_section p = false /\ th_mutex s = None /\ mutex = Some i \/ in_section p = true /\ mutex = None) ->
  (in_section q = true <-> mutex = Some i) ->
  match q with Load id => id = th_counter s | Store id c => id = th_counter s /\ c = th_counter s | _ => True end ->
  threads_ok m {| th_counter := th_counter s; th_mutex := mutex; th_pcs := <[i := q]> (th_pcs s) |}.
Proof.
  intros [H1 H2 H3 H4 H5 H6 H7 H8] Hi Ht Hmu Hq Hv. specialize (H2 i p Hi) as Hp.
  assert (Hib : (i < m)%nat) by (rewrite <- H1; now apply lookup_lt_Some in Hi).
  split; cbn [th_pcs th_mutex th_counter].
  - now rewrite length_insert.
  - intros j r Hj. split_pc Hj; [done|]. specialize (H2 j r Hj).
    destruct Hmu as [<-|[(E1 & E2 & ->)|[E1 ->]]]; [done|..].
    + rewrite H2, E2. split; [discriminate|congruence].
    + rewrite H2. apply Hp in E1. rewrite E1. split; [congruence|discriminate].
  - intros j Hj. destruct Hmu as [<-|[(E1 & E2 & ->)|[E1 ->]]]; [auto|congruence|discriminate].
  - rewrite (zsum_insert _ _ _ _ _ Hi), H4. unfold is_taken. rewrite Ht. destruct (taken p); lia.
  - intros j id Hj. split_pc Hj; [done|eauto].
  - intros j id c Hj. split_pc Hj; [done|eauto].
  - intros j r id Hj Hr. split_pc Hj; [rewrite Ht in Hr|]; eauto.
  - intros j k r r' id Hj Hk Hr Hr'. split_pc Hj; split_pc Hk; rewrite ?Ht in *; eauto.
Qed.

(** The step that writes the counter back draws the number it had. *)
Lemma store_ok s i id c :
  threads_ok m s -> th_pcs s !! i = Some (Store id c) ->
  threads_ok m {| th_counter := i32 (c + 1); th_mutex := th_mutex s; th_pcs := <[i := Unlock id]> (th_pcs s) |}.
Proof.
  intros [H1 H2 H3 H4 H5 H6 H7 H8] Hi. destruct (H6 i id c Hi) as [-> ->]. pose proof (proj1 (H2 i _ Hi) eq_refl) as Hmu.
  assert (Hlt : th_counter s < Z.of_nat m) by (rewrite H4, <- H1; now apply (not_taken_bound _ i _ Hi)).
  pose proof (taken_bound (th_pcs s)) as Hpos. rewrite <- H4 in Hpos. rewrite i32_small by lia.
  assert (Hothers : forall j p, th_pcs s !! j = Some p -> i <> j -> in_section p = false).
  { intros j p Hj Hne. destruct (in_section p) eqn:E; [|done]. apply (H2 j p Hj) in E. congruence. }
  split; cbn [th_pcs th_mutex th_counter].
  - now rewrite length_insert.
  - intros j r Hj. split_pc Hj; [done|eauto].
  - done.
  - rewrite (zsum_insert _ _ _ _ _ Hi), H4. cbn. lia.
  - intros j id Hj. split_pc Hj; [done|]. specialize (Hothers _ _ Hj ltac:(done)). discriminate.
  - intros j id c Hj. split_pc Hj; [done|]. specialize (Hothers _ _ Hj ltac:(done)). discriminate.
  - intros j r id Hj Hr. split_pc Hj; [injection Hr as <-; lia|]. specialize (H7 j r id Hj Hr). lia.
  - intros j k r r' id Hj Hk Hr Hr'. split_pc Hj; split_pc Hk; [done|..|eauto].
    + injection Hr as <-. specialize (H7 k r' _ Hk Hr'). lia.
    + injection Hr' as <-. specialize (H7 j r _ Hj Hr). lia.
Qed.

Lemma thread_step_ok s i s' : threads_ok m s -> fcgi_context_list_assign_thread_id n s i = Some s' -> threads_ok m s'.
Proof.
  intros Hok. unfold fcgi_context_list_assign_thread_id. destruct (th_pcs s !! i) as [p|] eqn:Hi; [|done]. mstep.
  pose proof (to_mutex _ _ Hok i p Hi) as Hmu. destruct p; intros E; try (injection E as <-).
  - replace (th_counter s <? n) with true.
    + apply (move_ok s i Check Lock (th_mutex s)); auto.
    + symmetry. apply Z.ltb_lt. rewrite (to_count _ _ Hok). pose proof (not_taken_bound _ _ _ Hi eq_refl).
      rewrite (to_len _ _ Hok) in *. lia.
  - destruct (th_mutex s) eqn:Em; [done|]. injection E as <-. apply (move_ok s i Lock Copy (Some i)); auto. now split.
  - apply (move_ok s i Copy _ (th_mutex s)); auto.
  - apply (move_ok s i (Load id) _ (th_mutex s)); auto. split; [eapply to_load; eauto|done].
  - now apply (store_ok s i id c).
  - apply (move_ok s i (Unlock id) (Return id) None); auto. now split.
  - done.
Qed.

Lemma reachable_ok k s : reachable n m k s -> threads_ok m s.
Proof. induction 1 as [|k s i s' _ IH Hs]; [apply start_ok|now apply (thread_step_ok s i)]. Qed.

Lemma step_left s i s' :
  fcgi_context_list_assign_thread_id n s i = Some s' -> zsum left (th_pcs s') < zsum left (th_pcs s).
Proof.
  unfold fcgi_context_list_assign_thread_id. destruct (th_pcs s !! i) as [p|] eqn:Hi; [|done]. mstep.
  destruct p; intros E; repeat case_if_in E; try done; try (destruct (th_mutex s); [done|]);
    injection E as <-; cbn [th_pcs set_field]; rewrite (zsum_insert _ _ _ _ _ Hi); cbn; lia.
Qed.

Lemma reachable_left k s : reachable n m k s -> Z.of_nat k + zsum left (th_pcs s) <= 6 * Z.of_nat m.
Proof.
  induction 1 as [|k s i s' _ IH Hs%step_left]; [|lia]. cbn [th_pcs all_at_check]. clear.
  induction m as [|x IH]; cbn [replicate zsum left]; lia.
Qed.



(** While a thread has not returned, some thread can move. *)
Lemma some_thread_moves s :
  threads_ok m s -> (exists i p, th_pcs s !! i = Some p /\ forall id, p <> Return id) ->
  exists i s', fcgi_context_list_assign_thread_id n s i = Some s'.
Proof.
  intros Hok (i & p & Hi & Hp). unfold fcgi_context_list_assign_thread_id. destruct (th_mutex s) as [o|] eqn:Em.
  - assert (Ho := to_owner _ _ Hok o Em). rewrite <- (to_len _ _ Hok) in Ho. apply lookup_lt_is_Some in Ho as [q Hq].
    assert (Hs := proj2 (to_mutex _ _ Hok o q Hq) Em). exists o. rewrite Hq. mstep. destruct q; try discriminate; eauto.
  - exists i. rewrite Hi. mstep. destruct p; eauto. now destruct (Hp id).
Qed.
End Steps.

(** However the calls of the worker threads interleave, at most as many
    threads as there are contexts: no more than six steps per thread are ever
    made, a thread can move as long as one has not returned, and the numbers
    returned are those of contexts, each given to one thread only. *)
Theorem assign_thread_id_unique n m k s :
  Z.of_nat m <= n -> Z.of_nat m < 2 ^ 31 -> reachable n m k s ->
  Z.of_nat k <= 6 * Z.of_nat m /\
  ((exists i p, th_pcs s !! i = Some p /\ forall id, p <> Return id) ->
   exists i s', fcgi_context_list_assign_thread_id n s i = Some s') /\
  (forall i a, th_pcs s !! i = Some (Return a) -> 0 <= a < n /\
   forall j b, th_pcs s !! j = Some (Return b) -> a = b -> i = j).
Proof.
  intros Hn Hm Hr. pose proof (reachable_ok n m Hn Hm k s Hr) as Hok. split; [|split].
  - pose proof (reachable_left n m k s Hr). pose proof (left_nonneg (th_pcs s)). lia.
  - now apply (some_thread_moves n m).
  - intros i a Hi. pose proof (to_taken _ _ Hok i _ a Hi eq_refl). pose proof (taken_bound (th_pcs s)) as B.
    rewrite (to_len _ _ Hok), <- (to_count _ _ Hok) in B. split; [lia|].
    intros j b Hj <-. exact (to_distinct _ _ Hok i j _ _ a Hi Hj eq_refl eq_refl).
Qed.

(** Two threads, the second interrupted between the check and the lock. *)
Definition interleaved : list nat := [0; 1; 0; 0; 0; 0; 0; 1; 1; 1; 1; 1]%nat.
Definition all_returned : threads := {| th_counter := 2; th_mutex := None; th_pcs := [Return 0; Return 1] |}.

Lemma interleaved_run : run 2 (all_at_check 2) interleaved = Some all_returned.
Proof. vm_compute. reflexivity. Qed.

Lemma assign_thread_id_unique_witness :
  Z.of_nat 12 <= 6 * Z.of_nat 2 /\
  ((exists i p, th_pcs all_returned !! i = Some p /\ forall id, p <> Return id) ->
   exists i s', fcgi_context_list_assign_thread_id 2 all_returned i = Some s') /\
  (forall i a, th_pcs all_returned !! i = Some (Return a) -> 0 <= a < 2 /\
   forall j b, th_pcs all_returned !! j = Some (Return b) -> a = b -> i = j).
Proof.
  apply (assign_thread_id_unique 2 2 12); [lia|lia|].
  exact (run_reachable 2 2 0 (all_at_check 2) interleaved all_returned (reach_start 2 2) interleaved_run).
Defined.

(** The check is made outside of the lock: with one context and two threads
    both pass it, and the second gets the number of no context. *)
Example check_races :
  option_map th_pcs (run 1 (all_at_check 2) [0; 1; 0; 0; 0; 0; 0; 1; 1; 1; 1; 1]%nat) = Some [Return 0; Return 1].
Proof. reflexivity. Qed.

(** ** The contexts of a configuration *)

(** The capacity is rounded up to the least power of two. *)
Lemma next_power_of_2_least v :
  1 <= v <= 32768 ->
  next_power_of_2 v = 2 ^ Z.log2_up v /\ is_power_of_2 (next_power_of_2 v) = true /\ v <= next_power_of_2 v <= 32768.
Proof.
  intros Hv. set (f := fun v => (v =? 0) || ((next_power_of_2 v =? 2 ^ Z.log2_up v) && is_power_of_2 (next_power_of_2 v)
                       && (v <=? next_power_of_2 v) && (next_power_of_2 v <=? 32768))).
  assert (H : f v = true) by (apply (all_below_spec f 32769); [vm_compute; reflexivity|lia]).
  unfold f in H. replace (v =? 0) with false in H by zb. cbn [orb] in H. zbool. now split_and!.
Qed.

Lemma request_list_init_ok junk clocks offset size :
  is_power_of_2 size = true -> power_of_2 size -> 0 <= clocks -> exists rl, request_list_init junk clocks offset size = Some rl /\
    list_ok rl /\ rl_size rl = size /\ rl_id_offset rl = offset /\ rl_clock_count rl = clocks.
Proof.
  intros Hb Hp Hc. pose proof (power_of_2_pos size Hp). unfold request_list_init. rewrite Hb. cbn [negb request_init chunk_iov_init]. mstep.
  eexists. split; [reflexivity|]. split; [|done].
  split; cbn [rl_size rl_rs rl_cache rl_clock_hands rl_clock_count]; rewrite ?length_replicate; try done; try lia.
  - split; cbn; [done|done|unfold REQ_CACHE_SIZE; lia|]. repeat constructor.
  - apply Forall_replicate. lia.
Qed.

Section Contexts.
Variables (junk : nat -> Z) (config : fcgi_config) (nt c : Z).
Hypothesis (Hok : conf_ok config nt) (Hb : is_power_of_2 c = true) (Hp : power_of_2 c) (Hcap : 1 + c * nt <= 65536) (Hc : c < 65536).

Definition context_ok (t : Z) (cx : fcgi_context) : Prop :=
  list_ok (cx_rl cx) /\ rl_size (cx_rl cx) = c /\ rl_id_offset (cx_rl cx) = 1 + c * t.

Lemma init_contexts_spec fdm n i :
  0 <= i -> i + Z.of_nat n <= nt ->
  (forall t, 0 <= t < nt -> exists fdl, fcgi_fd_list_init fdm t config = Some (Some fdl)) ->
  exists tds, init_contexts junk fdm c config i n = Some tds /\ length tds = n /\
    forall k cx, tds !! k = Some cx ->
      context_ok (i + Z.of_nat k) cx /\ fcgi_fd_list_init fdm (i + Z.of_nat k) config = Some (Some (cx_fdl cx)).
Proof.
  intros Hi Hn Hl. pose proof (power_of_2_pos c Hp). revert i Hi Hn; induction n as [|n IH]; intros i Hi Hn; cbn [init_contexts].
  - exists []. split_and!; done.
  - destruct (Hl i) as [fdl Efdl]; [lia|]. unfold fcgi_context_init. rewrite (u32_small (1 + c * i)) by nia.
    rewrite (u16_small (1 + c * i)), (u16_small c) by nia.
    destruct (request_list_init_ok junk (u16 (Z.of_nat (length (fc_locations config)))) (1 + c * i) c Hb Hp) as (rl & E & H1 & H2 & H3 & _);
      [apply u16_range|]. rewrite E, Efdl. mstep.
    destruct (IH (i + 1)) as (tds & E' & Hlen & Hall); [lia|lia|]. rewrite E'. mstep.
    eexists. split; [reflexivity|]. split; [cbn; congruence|]. intros [|k] cx Hk; cbn in Hk.
    + injection Hk as <-. rewrite Z.add_0_r. done.
    + replace (i + Z.of_nat (S k)) with (i + 1 + Z.of_nat k) by lia. now apply Hall.
Qed.

Lemma context_ids t t' cx cx' r r' :
  context_ok t cx -> context_ok t' cx' -> 0 <= t < nt -> 0 <= t' < nt -> Z.of_nat r < c -> Z.of_nat r' < c ->
  request_list_index_of (cx_rl cx) r = request_list_index_of (cx_rl cx') r' -> t = t' /\ r = r'.
Proof.
  intros (_ & S1 & O1) (_ & S2 & O2) Ht Ht' Hr Hr'. unfold request_list_index_of. rewrite S1, S2, O1, O2.
  replace (Z.of_nat r <=? c) with true by zb. replace (Z.of_nat r' <=? c) with true by zb.
  rewrite !u16_small by nia. intros E. assert (t = t') by nia. subst t'. split; [done|lia].
Qed.
End Contexts.

(** For a validated configuration every worker gets a context with as
    many requests as the next power of two of the capacity and the sockets
    the matrix gives it; and no two requests, of the same worker or of
    different ones, have the same FastCGI request id. *)
Theorem fcgi_context_list_init_spec junk config nt capacity :
  conf_ok config nt -> 1 <= capacity <= 32768 -> 1 + 2 ^ Z.log2_up capacity * nt <= 65536 ->
  exists tl, fcgi_context_list_init junk config nt capacity = Some (Some tl) /\
    (forall t, 0 <= t < nt -> exists cx, fcgi_context_list_get tl t = Some cx /\ capacity <= rl_size (cx_rl cx) < 2 * capacity) /\
    forall t t' cx cx' r r',
      fcgi_context_list_get tl t = Some cx -> fcgi_context_list_get tl t' = Some cx' ->
      Z.of_nat r < rl_size (cx_rl cx) -> Z.of_nat r' < rl_size (cx_rl cx') ->
      request_list_index_of (cx_rl cx) r = request_list_index_of (cx_rl cx') r' -> t = t' /\ r = r'.
Proof.
  intros Hok Hcap Hids. destruct (next_power_of_2_least capacity Hcap) as (Hn & Hb & Hle).
  assert (Hp : power_of_2 (next_power_of_2 capacity)) by (exists (Z.log2_up capacity); split; [apply Z.log2_up_nonneg|done]).
  assert (Hlt : next_power_of_2 capacity < 2 * capacity).
  { rewrite Hn. destruct (Z.eq_dec capacity 1) as [->|]; [done|]. pose proof (Z.log2_up_spec capacity ltac:(lia)) as [H _].
    pose proof (Z.log2_up_pos capacity ltac:(lia)).
    replace (Z.log2_up capacity) with (Z.succ (Z.pred (Z.log2_up capacity))) by lia. rewrite Z.pow_succ_r by lia. lia. }
  rewrite <- Hn in Hids. destruct (matrix_of_conf config nt Hok) as (fdm & Em & Hm & Hall & Hzero).
  unfold fcgi_context_list_init. rewrite Em, u16_small by lia. mstep. replace (0 <? _) with true by zb. replace (_ <? UINT16_MAX) with true by (unfold UINT16_MAX; zb).
  cbn [negb]. pose proof (co_threads _ _ Hok) as Hnt.
  destruct (init_contexts_spec junk config nt (next_power_of_2 capacity) Hb Hp Hids ltac:(lia) fdm (Z.to_nat nt) 0) as (tds & E & Hlen & Hcx); [lia|lia| |].
  { intros t Ht. destruct (list_of_conf config nt Hok fdm t Hm Ht) as (ls & El & _); [intros loc Hl; now apply Hall|done|eauto]. }
  rewrite E. mstep. eexists. split; [reflexivity|].
  assert (Hget : forall t cx, fcgi_context_list_get {| tl_counter := 0; tl_n := nt; tl_tds := tds |} t = Some cx ->
            0 <= t < nt /\ context_ok (next_power_of_2 capacity) t cx).
  { intros t cx H. unfold fcgi_context_list_get in H. cbn [tl_n tl_tds] in H. case_if_in H; [|done]. zbool. split; [lia|].
    destruct (Hcx _ _ H) as [Hctx _]. now rewrite Z.add_0_l, Z2Nat.id in Hctx by lia. }
  split.
  - intros t Ht. destruct (lookup_lt_is_Some_2 tds (Z.to_nat t) ltac:(lia)) as [cx Ecx]. exists cx.
    destruct (Hcx _ _ Ecx) as [(_ & -> & _) _]. split; [|lia]. unfold fcgi_context_list_get. cbn. now replace (_ && _) with true by zb.
  - intros t t' cx cx' r r' [Ht H]%Hget [Ht' H']%Hget Hr Hr'. pose proof H as (_ & S1 & _). pose proof H' as (_ & S2 & _).
    rewrite S1 in Hr. rewrite S2 in Hr'. exact (context_ids nt _ Hids ltac:(lia) t t' cx cx' r r' H H' Ht Ht' Hr Hr').
Qed.

Lemma fcgi_context_list_init_witness :
  exists tl, fcgi_context_list_init (fun _ => 0) conf_example 4 100 = Some (Some tl) /\
    (forall t, 0 <= t < 4 -> exists cx, fcgi_context_list_get tl t = Some cx /\ 100 <= rl_size (cx_rl cx) < 2 * 100) /\
    forall t t' cx cx' r r',
      fcgi_context_list_get tl t = Some cx -> fcgi_context_list_get tl t' = Some cx' ->
      Z.of_nat r < rl_size (cx_rl cx) -> Z.of_nat r' < rl_size (cx_rl cx') ->
      request_list_index_of (cx_rl cx) r = request_list_index_of (cx_rl cx') r' -> t = t' /\ r = r'.
Proof. apply fcgi_context_list_init_spec; [exact conf_example_ok|lia|reflexivity || (vm_compute; discriminate)]. Defined.

(** The id of the first request of a thread, [id_offset], wraps at 16 bits:
    with a capacity of 1024 the worker 64 starts where worker 0 does. *)
Example id_offset_wraps : u16 (u32 (1 + 1024 * 64)) = u16 (u32 (1 + 1024 * 0)).
Proof. reflexivity. Qed.
