(* ===== verification/FcgiEnv.v ===== *)
(** * plugins/fastcgi/fcgi_env.c: the CGI environment of a request

    The parameters of a request written one after the other into a buffer,
    until one does not fit. The addresses of sockets and their text are
    parameters. *)
From S2P Require Import Prelude CString MkString MkMemory MkTypes MkToc MkSession MkResponse FcgiProtocol.
Local Open Scope Z_scope.

Definition ENV_BUFFER : Z := 128.

(** [__write_param]: the buffer, the position behind what was written, and
    whether there was no room, which ends the function. *)
Definition write_param (size : Z) (st : bytes * Z) (kv : mk_pointer * mk_pointer) : option (bytes * Z * bool) :=
  let '(env, pos) := st in
  let '(key, value) := kv in
  if u64 (8 + len key + len value) <? u64 (size - pos) then
    '(env, n) ← fcgi_param_write (Some env) pos key value;
    env ← env;
    Some (env, u64 (pos + n), false)
  else Some (env, pos, true).

Fixpoint write_all (size : Z) (st : bytes * Z) (kvs : list (mk_pointer * mk_pointer)) : option (bytes * Z * bool) :=
  match kvs with
  | [] => Some (st, false)
  | kv :: kvs => '(st, full) ← write_param size st kv; if full : bool then Some (st, true) else write_all size st kvs
  end.

(** The steps of the function: the parameters a step makes, [None] where making
    them is undefined, which counts only when the step is reached. *)
Fixpoint write_steps (size : Z) (st : bytes * Z) (steps : list (option (list (mk_pointer * mk_pointer)))) : option (bytes * Z) :=
  match steps with
  | [] => Some st
  | step :: steps =>
    kvs ← step;
    '(st, full) ← write_all size st kvs;
    if full : bool then Some st else write_steps size st steps
  end.

(** [pointer_set] of a name and of a text. *)
Definition name (s : string) : mk_pointer := mk_pointer_init s.
Definition param (key : string) (value : option mk_pointer) : option (list (mk_pointer * mk_pointer)) :=
  v ← value; Some [(name key, v)].

(** What ["%.*s"] prints: up to [n] characters, or up to the NUL. *)
Fixpoint prec_text (n : nat) (p : bytes) : option bytes :=
  match n with
  | O => Some []
  | S n => match p with
           | [] => None
           | c :: p => if c =? 0 then Some [] else s ← prec_text n p; Some (c :: s)
           end
  end.

(** The name of a header line, in capitals, behind "HTTP_" in [buffer]; the
    position of the colon or the length of the line. *)
Fixpoint header_key (hinit : bytes) (hlen : nat) (j : Z) (buffer : bytes) : option (Z * bytes) :=
  match hlen with
  | O => Some (j, buffer)
  | S hlen =>
    match hinit with
    | [] => None
    | c :: hinit =>
      if c =? 58 then Some (j, buffer)
      else buffer ← bwrite buffer (5 + j) [if c =? 45 then 95 else toupper c]; header_key hinit hlen (j + 1) buffer
    end
  end.

(** Without a colon the length of the value wraps around. *)
Definition header_param (buffer : bytes) (row : header_toc_row) : option (mk_pointer * mk_pointer * bytes) :=
  let hlen := pdiff (row_end row) (row_init row) in
  '(j, buffer) ← header_key (row_init row) (Z.to_nat hlen) 0 buffer;
  Some ({| data := Some buffer; len := 5 + j |},
        {| data := padd (row_init row) (j + 2); len := u64 (hlen - j - 2) |}, buffer).

Section Env.
Context `{env : Env}.
(** The address and the port of the ends of a socket, and the text of an
    address. *)
Variables (getsockname getpeername : Z -> option (Z * Z)) (inet_ntop : Z -> option bytes).

Definition uninit : bytes := map sys_junk (seq 0 (Z.to_nat ENV_BUFFER)).
Definition port_text (port : Z) : bytes := dec port ++ [0].

(** The parameters of the own end and what it leaves in [buffer]. *)
Definition server_params (socket : Z) : option (list (mk_pointer * mk_pointer)) * bytes :=
  match getsockname socket with
  | None => (Some [], uninit)
  | Some (addr, port) =>
    let text := match inet_ntop addr with Some t => t | None => [0] end in
    (a ← mk_pointer_set text; p ← mk_pointer_set (port_text port); Some [(name "SERVER_ADDR", a); (name "SERVER_PORT", p)],
     port_text port)
  end.

Definition remote_params (socket : Z) (buffer : bytes) : option (list (mk_pointer * mk_pointer)) :=
  match getpeername socket with
  | None => Some []
  | Some (addr, port) =>
    a ← mk_pointer_set (match inet_ntop addr with Some t => t | None => buffer end);
    p ← mk_pointer_set (port_text port);
    Some [(name "REMOTE_ADDR", a); (name "REMOTE_PORT", p)]
  end.

(** The length of the pointer takes the NUL in. *)
Definition request_uri (sr : session_request) : option mk_pointer :=
  if 0 <? len (sr_query_string sr) then
    let n := len (sr_uri sr) + len (sr_query_string sr) + 2 in
    u ← data (sr_uri sr); q ← data (sr_query_string sr);
    uri ← prec_text (Z.to_nat (len (sr_uri sr))) u;
    query ← prec_text (Z.to_nat (len (sr_query_string sr))) q;
    let text := uri ++ [63] ++ query ++ [0] in
    Some {| data := Some (text ++ map sys_junk (seq 0 (Z.to_nat n - length text))); len := n |}
  else Some (sr_uri sr).

(** One step for each row. *)
Fixpoint header_steps (buffer : bytes) (toc : headers_toc) : list (option (list (mk_pointer * mk_pointer))) :=
  match toc with
  | [] => []
  | row :: toc =>
    match header_param buffer row with
    | None => [None]
    | Some (key, value, buffer) => Some [(key, value)] :: header_steps buffer toc
    end
  end.

Definition env_steps (cs : client_session) (sr : session_request) : list (option (list (mk_pointer * mk_pointer))) :=
  let host := request_vhost sr in
  let '(server, buffer) := server_params (cs_socket cs) in
  [ param "PATH_INFO" (mk_pointer_set (clit ""));
    param "GATEWAY_INTERFACE" (mk_pointer_set (clit "CGI/1.1"));
    param "REDIRECT_STATUS" (mk_pointer_set (clit "200"));
    param "SERVER_SOFTWARE" (h ← host; mk_pointer_set (h_host_signature h));
    param "DOCUMENT_ROOT" (h ← host; Some (h_documentroot h));
    param "SERVER_PROTOCOL" (Some (sr_protocol_p sr));
    param "SERVER_NAME" (a ← sr_host_alias sr; Some {| data := Some (ha_name a); len := ha_len a |});
    server;
    param "SCRIPT_FILENAME" (Some (sr_real_path sr));
    param "SCRIPT_NAME" (Some (sr_uri_processed sr));
    param "REQUEST_METHOD" (Some (sr_method_p sr));
    remote_params (cs_socket cs) buffer;
    param "REQUEST_URI" (request_uri sr);
    param "QUERY_STRING" (Some (sr_query_string sr));
    param "CONTENT_TYPE" (Some (sr_content_type sr));
    param "CONTENT_LENGTH" (mk_pointer_set (dec (sr_content_length sr) ++ [0])) ] ++
  header_steps (lit "HTTP_" ++ drop 5 uninit) (sr_headers_toc sr).

(** [ptr] as a buffer and the offset of its first byte; [size] bytes may be
    written from there. *)
Definition fcgi_env_write (buf : bytes) (ptr size : Z) (cs : client_session) (sr : session_request) : option (bytes * Z) :=
  b ← padd buf ptr;
  '(b, pos) ← write_steps size (b, 0) (env_steps cs sr);
  Some (take (Z.to_nat ptr) buf ++ b, pos).
End Env.

(** ** The parameters that fit are written, and nothing else *)

(** The longest prefix of the parameters that is written into [room] bytes:
    there have to be more than eight bytes beside the two texts. *)
Fixpoint fitting (room : Z) (kvs : list (bytes * bytes)) : list (bytes * bytes) :=
  match kvs with
  | [] => []
  | kv :: kvs =>
    if 8 + Z.of_nat (length kv.1) + Z.of_nat (length kv.2) <? room
    then kv :: fitting (room - Z.of_nat (length (param_text kv))) kvs else []
  end.

Lemma length_bytes_short n : (1 <= length (length_bytes n) <= 4)%nat.
Proof. unfold length_bytes. case_if; cbn; lia. Qed.

Lemma param_text_length kv :
  2 <= Z.of_nat (length (param_text kv)) - Z.of_nat (length kv.1) - Z.of_nat (length kv.2) <= 8.
Proof.
  unfold param_text. rewrite !length_app.
  pose proof (length_bytes_short (Z.of_nat (length (fst kv)))). pose proof (length_bytes_short (Z.of_nat (length (snd kv)))). lia.
Qed.

Lemma fitting_prefix kvs : forall room,
  exists k, fitting room kvs = take k kvs /\
    (Z.of_nat (length (params_text kvs)) + 6 < room -> take k kvs = kvs) /\
    (forall kv rest, drop k kvs = kv :: rest ->
       room - Z.of_nat (length (params_text (take k kvs))) <= 8 + Z.of_nat (length kv.1) + Z.of_nat (length kv.2)).
Proof.
  induction kvs as [|kv kvs IH]; intros room; [exists 0%nat; done|].
  pose proof (param_text_length kv) as Hl. unfold params_text in *. cbn [fitting map concat]. case_if; zbool.
  - destruct (IH (room - Z.of_nat (length (param_text kv)))) as (k & -> & Hall & Hnext). exists (S k).
    cbn [take drop map concat]. split; [done|]. rewrite length_app. split.
    + intros Hr. rewrite Hall; [done|lia].
    + intros kv' rest Hd. specialize (Hnext kv' rest Hd). rewrite length_app. lia.
  - exists 0%nat. cbn [take drop map concat length]. split; [done|]. rewrite length_app. split; [lia|].
    intros kv' rest [= <- <-]. lia.
Qed.

Definition points_to_pair (p : mk_pointer * mk_pointer) (kv : bytes * bytes) : Prop :=
  points_to p.1 kv.1 /\ points_to p.2 kv.2 /\ param_ok kv.

Lemma write_all_run size ptrs kvs : Forall2 points_to_pair ptrs kvs ->
  forall a b, Z.of_nat (length (a ++ b)) = size -> size < 2 ^ 32 ->
  exists b' full, write_all size (a ++ b, Z.of_nat (length a)) ptrs =
      Some (a ++ params_text (fitting (Z.of_nat (length b)) kvs) ++ b',
            Z.of_nat (length (a ++ params_text (fitting (Z.of_nat (length b)) kvs))), full) /\
    length b = (length (params_text (fitting (Z.of_nat (length b)) kvs)) + length b')%nat.
Proof.
  induction 1 as [|[key value] kv ptrs kvs (Hk & Hv & Hok) HF IH]; intros a b Hs Hb.
  { exists b, false. cbn. rewrite app_nil_r. done. }
  cbn [write_all write_param fst snd fitting] in *. pose proof Hk as [_ Hkl]. pose proof Hv as [_ Hvl]. unfold param_ok in Hok.
  rewrite length_app in Hs. rewrite Hkl, Hvl, !u64_small by lia.
  replace (size - Z.of_nat (length a)) with (Z.of_nat (length b)) by lia.
  pose proof (param_text_length kv) as Hpl. cbn [fst snd] in Hpl. case_if; zbool; mstep; [|exists b, true; cbn; rewrite app_nil_r; done].
  destruct (split_length b (length (param_text kv)) (length b - length (param_text kv))) as (b1 & b2 & -> & H1 & H2); [lia|].
  rewrite (fcgi_param_write_at a b1 b2 key value kv) by done. mstep.
  replace (u64 _) with (Z.of_nat (length (a ++ param_text kv))) by (rewrite length_app in *; rewrite u64_small; lia).
  rewrite app_assoc. rewrite !length_app in *. rewrite H1 in *.
  destruct (IH (a ++ param_text kv) b2) as (b' & full & Hrun & Hl); [rewrite !length_app; lia|done|].
  replace (Z.of_nat (length (param_text kv) + length b2) - Z.of_nat (length (param_text kv))) with (Z.of_nat (length b2)) by lia.
  exists b', full. unfold params_text in *. cbn [map concat]. rewrite length_app in Hrun. rewrite Hrun. rewrite <- !app_assoc, !length_app in *.
  split; [do 3 f_equal; lia|lia].
Qed.

Lemma write_all_app size ps : forall qs st,
  write_all size st (ps ++ qs) =
  ('(st, full) ← write_all size st ps; if full : bool then Some (st, true) else write_all size st qs).
Proof.
  induction ps as [|p ps IH]; intros qs st; cbn [app write_all]; [done|].
  destruct (write_param size st p) as [[st1 full]|]; mstep; [|done]. destruct full; [done|]. apply IH.
Qed.

Lemma write_steps_run size pss : forall st,
  write_steps size st (map Some pss) = ('(st, _) ← write_all size st (concat pss); Some st).
Proof.
  induction pss as [|ps pss IH]; intros st; [done|]. cbn [map write_steps concat]. mstep. rewrite write_all_app.
  destruct (write_all size st ps) as [[st1 full]|]; mstep; [|done]. destruct full; [done|]. apply IH.
Qed.

(** ** Names of headers *)

Definition env_char (c : Z) : Z := if c =? 45 then 95 else toupper c.
Definition env_name (s : bytes) : bytes := lit "HTTP_" ++ map env_char s.

Lemma header_key_run s : forall m j rest pre mid post,
  58 ∉ s -> Z.of_nat (length pre) = 5 + j -> length mid = length s ->
  header_key (s ++ 58 :: rest) (length s + S m) j (pre ++ mid ++ post) =
  Some (j + Z.of_nat (length s), pre ++ map env_char s ++ post).
Proof.
  induction s as [|c s IH]; intros m j rest pre mid post H58 Hp Hm.
  - destruct mid; [|done]. cbn. rewrite Z.add_0_r. done.
  - apply not_elem_of_cons in H58 as [Hc H58]. destruct mid as [|d mid]; [done|]. cbn [length] in Hm.
    cbn [app length Nat.add header_key]. replace (c =? 58) with false by zb. fold (env_char c).
    change (pre ++ d :: mid ++ post) with (pre ++ [d] ++ mid ++ post).
    rewrite (bwrite_app pre [d] (mid ++ post) [env_char c]) by (done || lia). mstep. rewrite app_assoc.
    rewrite (IH m (j + 1) rest (pre ++ [env_char c]) mid post); [|done|rewrite length_app; cbn; lia|lia].
    rewrite <- app_assoc. cbn [map app]. do 2 f_equal. lia.
Qed.

(** A header line "Name: value", the row of it. *)
Definition header_row (row : header_toc_row) (kv : bytes * bytes) : Prop :=
  row_init row = kv.1 ++ lit ": " ++ kv.2 ++ row_end row /\ 58 ∉ kv.1 /\
  (length kv.1 <= 123)%nat /\ Z.of_nat (length kv.2) < 2 ^ 30.

Lemma header_param_run buffer row kv rest :
  header_row row kv -> buffer = lit "HTTP_" ++ rest -> length rest = 123%nat ->
  exists key value rest', header_param buffer row = Some (key, value, lit "HTTP_" ++ rest') /\ length rest' = 123%nat /\
    points_to_pair (key, value) (env_name kv.1, kv.2).
Proof.
  intros (Hi & H58 & Hk & Hv) -> Hr. destruct kv as [k v]. cbn [fst snd] in *. unfold header_param, pdiff. rewrite Hi.
  destruct (split_length rest (length k) (123 - length k)) as (mid & post & -> & Hmid & Hpost); [lia|].
  assert (Hlen : Z.of_nat (length (k ++ lit ": " ++ v ++ row_end row)) - Z.of_nat (length (row_end row)) =
    Z.of_nat (length k) + 2 + Z.of_nat (length v)) by (rewrite !length_app; cbn; lia).
  rewrite Hlen. replace (Z.to_nat _) with (length k + S (1 + length v))%nat by lia.
  change (lit ": " ++ v ++ row_end row) with (58 :: 32 :: v ++ row_end row).
  rewrite (header_key_run k (1 + length v) 0) by done. mstep. rewrite Z.add_0_l.
  eexists _, _, _. split; [reflexivity|]. split; [rewrite length_app, length_map; lia|].
  replace (_ - _ - 2) with (Z.of_nat (length v)) by lia. rewrite u64_small by lia.
  split; [|split]; unfold points_to, param_bytes, view, param_ok; cbn [fst snd data len].
  - split; [|unfold env_name; rewrite length_app, length_map; cbn; lia]. replace (_ =? 0) with false by zb. mstep.
    unfold env_name. rewrite memread_take by (rewrite !length_app, length_map; cbn; lia). f_equal.
    rewrite app_assoc. rewrite take_app_length' by (rewrite length_app, length_map; cbn; lia). done.
  - split; [|done]. case_if; zbool; [now destruct v|].
    change (58 :: 32 :: v ++ row_end row) with ([58; 32] ++ v ++ row_end row). rewrite app_assoc.
    rewrite padd_behind by (rewrite length_app; cbn; lia). mstep.
    rewrite memread_take by (rewrite !length_app; lia). now rewrite Nat2Z.id, take_app_length.
  - unfold env_name. rewrite length_app, length_map. cbn. lia.
Qed.

Lemma header_steps_run toc lines : Forall2 header_row toc lines ->
  forall rest, length rest = 123%nat ->
  exists pss, header_steps (lit "HTTP_" ++ rest) toc = map Some pss /\
    Forall2 points_to_pair (concat pss) (map (fun kv => (env_name kv.1, kv.2)) lines).
Proof.
  induction 1 as [|row kv toc lines Hrow HF IH]; intros rest Hr; [exists []; split; [done|constructor]|].
  destruct (header_param_run _ row kv rest Hrow eq_refl Hr) as (key & value & rest' & Hp & Hr' & Hkv).
  destruct (IH rest' Hr') as (pss & Hpss & HF'). exists ([(key, value)] :: pss). cbn [header_steps]. rewrite Hp, Hpss.
  split; [done|]. cbn [map concat app]. now constructor.
Qed.

(** ** The environment of a request *)

(** The texts a request is made of; [et_server] and [et_remote] are those of
    the addresses, with their ports. *)
Record env_texts := {
  et_signature : bytes; et_root : bytes; et_protocol : bytes; et_host : bytes; et_server : option (bytes * Z);
  et_path : bytes; et_script : bytes; et_method : bytes; et_remote : option (bytes * Z); et_uri : bytes; et_query : bytes;
  et_type : bytes; et_length : Z; et_headers : list (bytes * bytes)
}.

Definition addr_params (addr_name port_name : string) (a : option (bytes * Z)) : list (bytes * bytes) :=
  match a with Some (text, port) => [(lit addr_name, text); (lit port_name, dec port)] | None => [] end.

(** The URI with its query, and the NUL behind it. *)
Definition uri_text (uri query : bytes) : bytes := match query with [] => uri | _ => uri ++ [63] ++ query ++ [0] end.

Definition env_text (t : env_texts) : list (bytes * bytes) :=
  [ (lit "PATH_INFO", []); (lit "GATEWAY_INTERFACE", lit "CGI/1.1"); (lit "REDIRECT_STATUS", lit "200");
    (lit "SERVER_SOFTWARE", et_signature t); (lit "DOCUMENT_ROOT", et_root t); (lit "SERVER_PROTOCOL", et_protocol t);
    (lit "SERVER_NAME", et_host t) ] ++ addr_params "SERVER_ADDR" "SERVER_PORT" (et_server t) ++
  [ (lit "SCRIPT_FILENAME", et_path t); (lit "SCRIPT_NAME", et_script t); (lit "REQUEST_METHOD", et_method t) ] ++
  addr_params "REMOTE_ADDR" "REMOTE_PORT" (et_remote t) ++
  [ (lit "REQUEST_URI", uri_text (et_uri t) (et_query t));
    (lit "QUERY_STRING", et_query t); (lit "CONTENT_TYPE", et_type t); (lit "CONTENT_LENGTH", dec (et_length t)) ] ++
  map (fun kv => (env_name kv.1, kv.2)) (et_headers t).

Section Spec.
Context `{env : Env}.
Variables (getsockname getpeername : Z -> option (Z * Z)) (inet_ntop : Z -> option bytes).

(** The address of an end of the socket has the text. *)
Definition addr_is (a : option (Z * Z)) (t : option (bytes * Z)) : Prop :=
  match a, t with
  | Some (addr, port), Some (text, port') =>
    port = port' /\ exists p, inet_ntop addr = Some p /\ is_cstr p text /\ (length text < 128)%nat
  | None, None => True
  | _, _ => False
  end.

Definition short_text (p : mk_pointer) (s : bytes) : Prop := points_to p s /\ Z.of_nat (length s) < 2 ^ 28.

Record env_ready (cs : client_session) (sr : session_request) (t : env_texts) : Prop := {
  er_vhost : exists h, request_vhost sr = Some h /\ is_cstr (h_host_signature h) (et_signature t) /\
    Z.of_nat (length (et_signature t)) < 2 ^ 28 /\ short_text (h_documentroot h) (et_root t);
  er_protocol : short_text (sr_protocol_p sr) (et_protocol t);
  er_alias : exists a, sr_host_alias sr = Some a /\ short_text {| data := Some (ha_name a); len := ha_len a |} (et_host t);
  er_server : addr_is (getsockname (cs_socket cs)) (et_server t);
  er_path : short_text (sr_real_path sr) (et_path t);
  er_script : short_text (sr_uri_processed sr) (et_script t);
  er_method : short_text (sr_method_p sr) (et_method t);
  er_remote : addr_is (getpeername (cs_socket cs)) (et_remote t);
  er_uri : short_text (sr_uri sr) (et_uri t) /\ 0 ∉ et_uri t /\ data (sr_uri sr) <> None;
  er_query : short_text (sr_query_string sr) (et_query t) /\ 0 ∉ et_query t;
  er_type : short_text (sr_content_type sr) (et_type t);
  er_content_length : sr_content_length sr = et_length t;
  er_headers : Forall2 header_row (sr_headers_toc sr) (et_headers t)
}.

Lemma param_bytes_prec p s rest : points_to p s -> 0 ∉ s -> data p = Some rest -> prec_text (Z.to_nat (len p)) rest = Some s.
Proof.
  intros [Hp Hl] H0 Hd. unfold param_bytes, view in Hp. rewrite Hd in Hp.
  assert (Hs : take (length s) rest = s /\ (length s <= length rest)%nat).
  { destruct (len p =? 0) eqn:E; zbool; [injection Hp as <-; cbn; split; [now rewrite take_0|lia]|].
    cbn in Hp. apply memread_inv in Hp as (Hs & _ & Hr). rewrite Hl, Nat2Z.id in Hs. split; [now rewrite <- Hs|lia]. }
  rewrite Hl, Nat2Z.id. clear p Hp Hl Hd. destruct Hs as [Hs Hr]. revert rest Hs Hr.
  induction s as [|c s IH]; intros [|d rest] Hs Hr; cbn in *; try done; try lia.
  injection Hs as -> Hs. apply not_elem_of_cons in H0 as [Hc H0]. replace (c =? 0) with false by zb.
  rewrite (IH H0 rest) by (done || lia). done.
Qed.

Lemma name_text s : points_to (name s) (lit s).
Proof.
  unfold name. rewrite mk_pointer_init_lit. unfold points_to, param_bytes, view. cbn [data len lit_pointer]. split; [|done].
  case_if; zbool; [now destruct (lit s)|]. mstep. rewrite memread_take by (rewrite length_app; lia).
  now rewrite Nat2Z.id, take_app_length.
Qed.

Lemma set_text p s : is_cstr p s -> exists v, mk_pointer_set p = Some v /\ points_to v s.
Proof.
  intros Hp. unfold mk_pointer_set. rewrite (strlen_cstr _ _ Hp). mstep. eexists. split; [done|].
  unfold points_to, param_bytes, view. cbn [data len]. split; [|done]. destruct Hp as [[r ->] _].
  case_if; zbool; [now destruct s|]. mstep. rewrite memread_take by (rewrite length_app; lia).
  now rewrite Nat2Z.id, take_app_length.
Qed.

Lemma dec_cstr z : is_cstr (dec z ++ [0]) (dec z).
Proof. split; [now exists []|apply dec_ascii]. Qed.

(** A step that makes one parameter. *)
Lemma param_step key value v s :
  value = Some v -> points_to v s -> Z.of_nat (length s) < 2 ^ 30 -> (length (lit key) <= 123)%nat ->
  exists kvs, param key value = Some kvs /\ Forall2 points_to_pair kvs [(lit key, s)].
Proof.
  intros -> Hv Hl Hk. eexists. split; [reflexivity|]. constructor; [|constructor]. split; [apply name_text|split; [done|]].
  unfold param_ok. cbn [fst snd]. lia.
Qed.

Lemma addr_step key pkey a t : addr_is a t -> (length (lit key) <= 123)%nat -> (length (lit pkey) <= 123)%nat ->
  forall buffer,
  exists kvs, match a with
              | None => Some []
              | Some (addr, port) =>
                a ← mk_pointer_set (match inet_ntop addr with Some t => t | None => buffer end);
                p ← mk_pointer_set (port_text port); Some [(name key, a); (name pkey, p)]
              end = Some kvs /\ Forall2 points_to_pair kvs (addr_params key pkey t).
Proof.
  intros Ha Hk1 Hk2 buffer. unfold addr_is in Ha. destruct a as [[addr port]|], t as [[text port']|]; try done.
  2:{ exists []. split; [done|constructor]. }
  destruct Ha as (<- & p & -> & Hp & Hl). destruct (set_text p text Hp) as (v & -> & Hv). mstep.
  destruct (set_text _ _ (dec_cstr port)) as (q & Hq & Hqv). unfold port_text. rewrite Hq. mstep.
  eexists. split; [reflexivity|]. pose proof (dec_length port).
  constructor; [|constructor; [|constructor]]; (split; [apply name_text|split; [done|unfold param_ok; cbn [fst snd]; lia]]).
Qed.

(** Appends a step to the list of those that are known. *)
Lemma steps_cons step steps kvs l ls :
  step = Some kvs -> Forall2 points_to_pair kvs l ->
  (exists pss, steps = map Some pss /\ Forall2 points_to_pair (concat pss) ls) ->
  exists pss, step :: steps = map Some pss /\ Forall2 points_to_pair (concat pss) (l ++ ls).
Proof.
  intros -> Hl (pss & -> & Hls). exists (kvs :: pss). split; [done|]. cbn [concat]. now apply Forall2_app.
Qed.

Lemma steps_param steps key value v s ls :
  value = Some v -> points_to v s -> Z.of_nat (length s) < 2 ^ 30 -> (length (lit key) <= 123)%nat ->
  (exists pss, steps = map Some pss /\ Forall2 points_to_pair (concat pss) ls) ->
  exists pss, param key value :: steps = map Some pss /\ Forall2 points_to_pair (concat pss) ((lit key, s) :: ls).
Proof.
  intros Hv Hs Hl Hk H. destruct (param_step key value v s Hv Hs Hl Hk) as (kvs & Hp & HF).
  exact (steps_cons _ _ kvs [(lit key, s)] ls Hp HF H).
Qed.

Lemma steps_set steps key p s ls :
  is_cstr p s -> Z.of_nat (length s) < 2 ^ 30 -> (length (lit key) <= 123)%nat ->
  (exists pss, steps = map Some pss /\ Forall2 points_to_pair (concat pss) ls) ->
  exists pss, param key (mk_pointer_set p) :: steps = map Some pss /\ Forall2 points_to_pair (concat pss) ((lit key, s) :: ls).
Proof. intros Hp. destruct (set_text p s Hp) as (v & Hv & Hs). now apply steps_param with v. Qed.

Lemma request_uri_run sr u q :
  short_text (sr_uri sr) u -> 0 ∉ u -> data (sr_uri sr) <> None -> short_text (sr_query_string sr) q -> 0 ∉ q ->
  exists v, request_uri sr = Some v /\ points_to v (uri_text u q).
Proof.
  intros [Hu _] Hu0 Hun [Hq _] Hq0. unfold request_uri, uri_text. pose proof Hq as [Hqb Hql]. pose proof Hu as [_ Hul]. rewrite Hql, Hul.
  destruct q as [|c q]; [eexists; split; [reflexivity|done]|]. replace (0 <? _) with true by (cbn; zb).
  destruct (data (sr_uri sr)) as [pu|] eqn:Eu; [|done]. mstep.
  destruct (data (sr_query_string sr)) as [pq|] eqn:Eq.
  2:{ unfold param_bytes, view in Hqb. rewrite Eq, Hql in Hqb. done. }
  mstep. rewrite <- Hul, (param_bytes_prec _ u pu Hu Hu0 Eu). mstep. rewrite <- Hql, (param_bytes_prec _ _ pq Hq Hq0 Eq). mstep.
  eexists. split; [reflexivity|]. rewrite Hul, Hql. set (text := u ++ [63] ++ (c :: q) ++ [0]).
  assert (Hl : Z.of_nat (length u) + Z.of_nat (length (c :: q)) + 2 = Z.of_nat (length text))
    by (unfold text; rewrite !length_app; cbn; lia).
  change (u ++ 63 :: c :: q ++ [0]) with text. rewrite Hl. split; [|done]. unfold param_bytes, view. cbn [data len].
  case_if; zbool; [destruct text; [done|cbn in *; lia]|]. mstep.
  rewrite memread_take by (rewrite length_app; lia). now rewrite Nat2Z.id, take_app_length.
Qed.

Ltac env_step := first [apply steps_set; [solve [apply is_cstr_clit; decide_closed | done | apply dec_cstr]| | |]
                       |eapply steps_param; [reflexivity|eassumption| | |]]; [first [done|cbn; lia]|cbn; lia|].

Lemma env_steps_run cs sr t : env_ready cs sr t ->
  exists pss, env_steps getsockname getpeername inet_ntop cs sr = map Some pss /\ Forall2 points_to_pair (concat pss) (env_text t).
Proof.
  intros [(h & Hh & Hsig & Hsigl & Hroot & Hrootl) [Hpr Hprl] (a & Ha & Hho & Hhol) Hserver [Hpath Hpathl] [Hscr Hscrl] [Hme Hmel]
    Hremote (Huri & Hu0 & Hun) (Hq & Hq0) [Hty Htyl] Hcl Hhd].
  unfold env_steps. destruct (server_params _ _ _) as [server buffer] eqn:Eserver.
  assert (Hs : exists kvs, server = Some kvs /\ Forall2 points_to_pair kvs (addr_params "SERVER_ADDR" "SERVER_PORT" (et_server t))).
  { destruct (addr_step "SERVER_ADDR" "SERVER_PORT" _ _ Hserver ltac:(cbn; lia) ltac:(cbn; lia) [0]) as (kvs & Hk & HF).
    exists kvs. split; [|done]. rewrite <- Hk. unfold server_params in Eserver.
    destruct (getsockname (cs_socket cs)) as [[addr port]|]; now injection Eserver as <- _. }
  destruct Hs as (kvs & -> & HF). rewrite Hh, Ha. mstep.
  destruct (addr_step "REMOTE_ADDR" "REMOTE_PORT" _ _ Hremote ltac:(cbn; lia) ltac:(cbn; lia) buffer) as (rkvs & Hrk & Hrem).
  destruct (request_uri_run sr _ _ Huri Hu0 Hun Hq Hq0) as (uri & Huv & Hut).
  destruct Huri as [Huri Huril], Hq as [Hq Hql]. rewrite Huv, Hcl. unfold env_text. cbn [app].
  do 7 env_step. apply (steps_cons _ _ kvs); [done|done|]. do 3 env_step.
  apply (steps_cons _ _ rkvs); [exact Hrk|done|].
  eapply steps_param; [reflexivity|exact Hut| |cbn; lia|].
  { unfold uri_text. destruct (et_query t); [lia|]. rewrite !length_app. cbn [length] in *. lia. }
  do 2 env_step. apply steps_set; [apply dec_cstr|pose proof (dec_length (et_length t)); lia|cbn; lia|].
  apply header_steps_run; [done|]. unfold uninit. rewrite length_drop, length_map, length_seq. done.
Qed.

Lemma fcgi_env_write_run pre b cs sr t :
  env_ready cs sr t -> Z.of_nat (length b) < 2 ^ 32 ->
  exists b' k, let written := params_text (take k (env_text t)) in
    fcgi_env_write getsockname getpeername inet_ntop (pre ++ b) (Z.of_nat (length pre)) (Z.of_nat (length b)) cs sr =
      Some (pre ++ written ++ b', Z.of_nat (length written)) /\
    length b = (length written + length b')%nat /\
    (Z.of_nat (length (params_text (env_text t))) + 6 < Z.of_nat (length b) -> take k (env_text t) = env_text t) /\
    (forall kv rest, drop k (env_text t) = kv :: rest ->
       Z.of_nat (length b') <= 8 + Z.of_nat (length kv.1) + Z.of_nat (length kv.2)).
Proof.
  intros Hready Hb. destruct (env_steps_run cs sr t Hready) as (pss & Hsteps & HF).
  destruct (write_all_run _ _ _ HF [] b eq_refl) as (b' & full & Hrun & Hl); [done|].
  destruct (fitting_prefix (env_text t) (Z.of_nat (length b))) as (k & Hk & Hall & Hnext). rewrite Hk in *.
  exists b', k. intros written. split; [|split; [exact Hl|split; [exact Hall|]]].
  - unfold fcgi_env_write. rewrite padd_app, drop_all by lia. mstep. cbn [app length] in *.
    rewrite Hsteps, write_steps_run. change (Z.of_nat 0) with 0 in Hrun. rewrite Hrun. mstep.
    rewrite Nat2Z.id, take_app_length. reflexivity.
  - intros kv rest Hd. specialize (Hnext kv rest Hd). rewrite Hl in Hnext. unfold written in Hnext. lia.
Qed.
(** C29: for a request whose header lines are all of the form "Name: value" with
    a name of at most 123 characters (others make the code read or write out of
    bounds), and with texts shorter than 2^28 bytes, the environment is written
    into the room given, and not beyond it, as the parameters of the request in
    their order: the CGI variables and one "HTTP_" variable for each header
    line. Without room for all, those after the first one that does not fit are
    left out. *)
Theorem fcgi_env_write_spec pre b cs sr t :
  env_ready cs sr t -> Z.of_nat (length b) < 2 ^ 32 ->
  exists b' k, let written := params_text (take k (env_text t)) in
    fcgi_env_write getsockname getpeername inet_ntop (pre ++ b) (Z.of_nat (length pre)) (Z.of_nat (length b)) cs sr =
      Some (pre ++ written ++ b', Z.of_nat (length written)) /\
    length b = (length written + length b')%nat /\
    (Z.of_nat (length (params_text (env_text t))) + 6 < Z.of_nat (length b) -> take k (env_text t) = env_text t) /\
    (forall kv rest, drop k (env_text t) = kv :: rest ->
       Z.of_nat (length b') <= 8 + Z.of_nat (length kv.1) + Z.of_nat (length kv.2)).
Proof. apply fcgi_env_write_run. Qed.
End Spec.

(** ** Example: "GET /a.php?x=1" with a header *)

Definition env_request : session_request :=
  get_request "/a.php" <| sr_protocol_p := mk_pointer_init "HTTP/1.1" |> <| sr_method_p := mk_pointer_init "GET" |>
    <| sr_real_path := mk_pointer_init "/srv/a.php" |> <| sr_query_string := mk_pointer_init "x=1" |>
    <| sr_host_alias := Some {| ha_name := clit "x"; ha_len := 1 |} |>
    <| sr_headers_toc := [ {| row_init := lit "User-Agent: m" ++ [13; 10; 0]; row_end := [13; 10; 0]; row_status := 0 |} ] |>.

Definition env_example : env_texts :=
  {| et_signature := lit "Monkey"; et_root := lit "/srv"; et_protocol := lit "HTTP/1.1"; et_host := lit "x";
     et_server := Some (lit "127.0.0.1", 2001); et_path := lit "/srv/a.php"; et_script := lit "/a.php"; et_method := lit "GET";
     et_remote := None; et_uri := lit "/a.php"; et_query := lit "x=1"; et_type := []; et_length := 0;
     et_headers := [(lit "User-Agent", lit "m")] |}.

Lemma short_text_init s : Z.of_nat (length (lit s)) < 2 ^ 28 -> short_text (mk_pointer_init s) (lit s).
Proof. intros H. split; [apply name_text|done]. Qed.

Lemma env_example_ready :
  @env_ready example_env (fun _ => Some (1, 2001)) (fun _ => None) (fun _ => Some (clit "127.0.0.1"))
    (request_session env_request) env_request env_example.
Proof.
  split; try (apply short_text_init; now vm_compute).
  - eexists. split; [reflexivity|]. split; [apply is_cstr_clit; decide_closed|]. split; [now vm_compute|].
    apply short_text_init. now vm_compute.
  - eexists. split; [reflexivity|]. split; [split; reflexivity|now vm_compute].
  - split; [done|]. eexists. split; [reflexivity|]. split; [apply is_cstr_clit; decide_closed|cbn; lia].
  - exact I.
  - split; [apply short_text_init; now vm_compute|]. split; [decide_closed|discriminate].
  - split; [apply short_text_init; now vm_compute|decide_closed].
  - split; [split; reflexivity|now vm_compute].
  - reflexivity.
  - constructor; [|constructor]. split; [reflexivity|]. split; [decide_closed|]. split; [cbn; lia|now vm_compute].
Qed.

Lemma fcgi_env_write_witness :
  exists b' k, let written := params_text (take k (env_text env_example)) in
    @fcgi_env_write example_env (fun _ => Some (1, 2001)) (fun _ => None) (fun _ => Some (clit "127.0.0.1"))
      ([7] ++ replicate 1000 0) 1 1000 (request_session env_request) env_request =
      Some ([7] ++ written ++ b', Z.of_nat (length written)) /\
    1000%nat = (length written + length b')%nat /\
    (Z.of_nat (length (params_text (env_text env_example))) + 6 < 1000 -> take k (env_text env_example) = env_text env_example) /\
    (forall kv rest, drop k (env_text env_example) = kv :: rest ->
       Z.of_nat (length b') <= 8 + Z.of_nat (length kv.1) + Z.of_nat (length kv.2)).
Proof.
  apply (@fcgi_env_write_spec example_env (fun _ => Some (1, 2001)) (fun _ => None) (fun _ => Some (clit "127.0.0.1"))
    [7] (replicate 1000 0) (request_session env_request) env_request env_example env_example_ready).
  now vm_compute.
Defined.

(** A header line without a colon gives a length that wraps around: the value
    is copied from far outside of the request. *)
Example env_no_colon :
  @write_steps 1000 (replicate 1000 0, 0)
    (header_steps (lit "HTTP_" ++ replicate 123 0)
       [ {| row_init := lit "foo" ++ [13; 10; 0]; row_end := [13; 10; 0]; row_status := 0 |} ]) = None.
Proof. vm_compute. reflexivity. Qed.

(** REQUEST_URI ends in a NUL when there is a query. *)
Example env_uri_nul : uri_text (lit "/a") (lit "x") = lit "/a?x" ++ [0].
Proof. reflexivity. Qed.
