(* ===== verification/FcgiCore.v ===== *)
(** * plugins/fastcgi/fastcgi.c: requests to the servers and answers to the clients

    The functions run on the context of their thread and the world of the
    worker. This plugin is the first one asked about an event; the [plugins] of
    the environment are the others. *)
From stdpp Require Import gmap.
From S2P Require Import Prelude CString MkString MkMemory MkTypes MkToc MkSession MkEpoll MkPlugin MkScheduler MkResponse MkConnection.
From S2P Require Import FcgiProtocol FcgiChunk FcgiRequest FcgiConfig FcgiFd FcgiContext FcgiEnv.
Local Open Scope Z_scope.

(** ** The monad: a context and a world *)

Definition F (A : Type) : Type := fcgi_context -> M (A * fcgi_context).

#[export] Instance F_ret : MRet F := fun A x cx w => Some (x, cx, w).
#[export] Instance F_bind : MBind F := fun A B f m cx w =>
  match m cx w with Some (a, cx, w) => f a cx w | None => None end.

#[export] Instance eta_fcgi_context : Eta fcgi_context := fun c =>
  {| cx_store := cx_store c; cx_rl := cx_rl c; cx_fdl := cx_fdl c |}.

Definition core {A} (m : M A) : F A := fun cx w => match m w with Some (a, w) => Some (a, cx, w) | None => None end.
Definition liftF {A} (o : option A) : F A := fun cx w => a ← o; Some (a, cx, w).
Definition get_cx : F fcgi_context := fun cx w => Some (cx, cx, w).
Definition put_cx (cx : fcgi_context) : F unit := fun _ w => Some (tt, cx, w).
Definition mod_cx (f : fcgi_context -> fcgi_context) : F unit := fun cx w => Some (tt, f cx, w).

(** A function on the store. *)
Definition on_store {A} (f : store -> option (A * store)) : F A :=
  cx ← get_cx;
  '(a, s) ← liftF (f (cx_store cx));
  put_cx (cx <| cx_store := s |>);;
  mret a.

Definition get_req (i : nat) : F request := cx ← get_cx; liftF (rl_rs (cx_rl cx) !! i).
Definition put_req (i : nat) (r : request) : F unit :=
  mod_cx (fun cx => cx <| cx_rl := cx_rl cx <| rl_rs := <[i := r]> (rl_rs (cx_rl cx)) |> |>).
Definition get_fd (i : nat) : F fcgi_fd := cx ← get_cx; liftF (cx_fdl cx !! i).
Definition put_fd (i : nat) (f : fcgi_fd) : F unit := mod_cx (fun cx => cx <| cx_fdl := <[i := f]> (cx_fdl cx) |>).

(** A function on a request and the store. *)
Definition on_req {A} (i : nat) (f : request -> store -> option (A * request * store)) : F A :=
  r ← get_req i;
  cx ← get_cx;
  '(a, r, s) ← liftF (f r (cx_store cx));
  put_cx (cx <| cx_store := s |>);;
  put_req i r;;
  mret a.

(** A function on the list of requests. *)
Definition on_list {A} (f : request_list -> option (A * request_list)) : F A :=
  cx ← get_cx;
  '(a, rl) ← liftF (f (cx_rl cx));
  put_cx (cx <| cx_rl := rl |>);;
  mret a.

Definition set_req_state (i : nat) (state : request_state) : F Z := on_req i (fun r s => request_set_state r state s).
Definition recycle (i : nat) : F unit :=
  on_req i (fun r s => '(r, s) ← request_recycle r s; Some (tt, r, s)).
Definition set_req_flag (i : nat) (flag : Z) : F Z := r ← get_req i; let '(ret, r) := request_set_flag r flag in put_req i r;; mret ret.
Definition unset_req_flag (i : nat) (flag : Z) : F Z :=
  r ← get_req i; let '(ret, r) := request_unset_flag r flag in put_req i r;; mret ret.
Definition set_fd_state (i : nat) (state : Z) : F Z := f ← get_fd i; let '(ret, f) := fcgi_fd_set_state f state in put_fd i f;; mret ret.

(** ** What the plugin is given *)

Class FcgiGlobals := {
  fcgi_global_config : fcgi_config;
  fcgi_global_plugin : option nat;
  (** does the expression match the text? *)
  regexec : bytes -> bytes -> bool;
  getsockname : Z -> option (Z * Z);
  getpeername : Z -> option (Z * Z);
  inet_ntop : Z -> option bytes;
  (** [socket(AF_UNIX, ...)], [connect] to a path, [socket_connect] to an
      address and a port; -1 for a failure *)
  unix_socket : list event -> Z;
  unix_connect : list event -> Z -> bytes -> Z;
  socket_connect : list event -> bytes -> Z -> Z;
  (** is [errno] EAGAIN after a [writev] that failed? *)
  writev_again : list event -> Z -> bool
}.

Section WithEnv.
Context `{env : Env} `{globals : FcgiGlobals}.

Definition sr_of (req : request) : F (nat * nat) := cs ← liftF (rq_cs req); sr ← liftF (rq_sr req); mret (cs, sr).

(** ** The header the program answers *)

Definition fcgi_iov_none : mk_pointer := {| data := Some [0]; len := 0 |}.

Definition fcgi_handle_cgi_header (sr : session_request) (entry : bytes) (len : Z) : option (Z * session_request) :=
  c ← strncasecmp entry (clit "Content-type: ") 14;
  if c =? 0 then
    value ← padd entry 14;
    Some (0, set_headers (fun sh => sh <| sh_content_type := {| data := Some value; len := u64 (len - 14) |} |>) sr)
  else
  c ← strncasecmp entry (clit "Location: ") 10;
  if c =? 0 then
    value ← padd entry 10;
    last ← entry !! Z.to_nat (len - 2);
    text ← prec_text (Z.to_nat (u64 (len - 10 - (if last =? 13 then 2 else 1)))) value;
    Some (0, set_headers (fun sh => sh <| sh_location := Some (text ++ [0]) |>) sr)
  else
  c ← strncasecmp entry (clit "Status: ") 8;
  if c =? 0 then
    value ← padd entry 8;
    status ← scan_int value;
    match status with
    | Some status => Some (0, set_headers (fun sh => sh <| sh_status := status |>) sr)
    | None => Some (-1, sr)
    end
  else
    rows ← (match sh_extra_rows (sr_headers sr) with
            | None => Iov.mk_iov_create (MK_PLUGIN_HEADER_EXTRA_ROWS * 2) 0
            | Some rows => Some rows
            end);
    '(rows, _) ← Iov.mk_iov_add_entry rows (Some entry) len fcgi_iov_none 0;
    Some (0, set_headers (fun sh => sh <| sh_extra_rows := Some rows |>) sr).

(** [p] is what is left of the first entry, [len] its whole length: [memchr] is
    given that length wherever [p] stands. *)
Fixpoint cgi_headers_loop (fuel : nat) (sr : session_request) (p : bytes) (len cnt : Z) : option (Z * session_request) :=
  match fuel with
  | O => None
  | S fuel =>
    if negb (cnt <? len) then Some (cnt, sr) else
    q ← memchr p 10 len;
    match q with
    | None => Some (cnt, sr)
    | Some q =>
      let cnt := cnt + q + 1 in
      if q <=? 2 then Some (cnt, sr) else
      '(_, sr) ← fcgi_handle_cgi_header sr p (q + 1);
      p ← padd p (q + 1);
      cgi_headers_loop fuel sr p len cnt
    end
  end.

(** The memory a base points to. *)
Definition base_bytes (s : store) (b : io_base) : option bytes :=
  match b with
  | BNull => Some []
  | BChunk id off => c ← st_chunks s !! id; padd (ck_data c) off
  | BMem id off => m ← st_mem s !! id; padd m off
  | BExt p => Some p
  end.

Definition fcgi_parse_cgi_headers (sr : session_request) (iov : chunk_iov) (s : store) : option (Z * session_request) :=
  io ← ci_io iov !! 0%nat;
  p ← base_bytes s (iov_base io);
  cgi_headers_loop (S (Z.to_nat (iov_len io))) sr p (iov_len io) 0.

(** ** Connections to the servers *)

(** [sizeof(addr.sun_path)] *)
Definition SUN_PATH : Z := 108.

Definition fcgi_server_connect (server : fcgi_server) : M Z :=
  match sv_path server with
  | Some path =>
    t ← gets w_trace;
    let sock_fd := unix_socket t in
    if sock_fd =? -1 then mret (-1) else
    n ← lift (strlen path);
    text ← lift (cstr path);
    if negb (n + 1 <? SUN_PATH) || (unix_connect t sock_fd text =? -1)
    then emit (EvClose sock_fd);; mret (-1)
    else mret sock_fd
  | None =>
    match sv_addr server with
    | Some addr => t ← gets w_trace; a ← lift (cstr addr); mret (socket_connect t a (sv_port server))
    | None => mret (-1)
    end
  end.

Definition fcgi_wake_connection (location_id : Z) : F Z :=
  cx ← get_cx;
  match fcgi_fd_list_get (cx_fdl cx) (Z.lor FCGI_FD_SLEEPING FCGI_FD_READY) location_id with
  | None => mret (-1)
  | Some i =>
    fd ← get_fd i;
    (if fd_state fd =? FCGI_FD_SLEEPING then
       _ ← core (mk_plugin_event_socket_change_mode (fd_fd fd) MK_EPOLL_WAKEUP MK_EPOLL_LEVEL_TRIGGERED);
       _ ← set_fd_state i FCGI_FD_READY; mret tt
     else mret tt);;
    mret 0
  end.

(** No free socket is no error: 0. *)
Definition fcgi_new_connection (location_id : Z) : F Z :=
  cx ← get_cx;
  match fcgi_fd_list_get (cx_fdl cx) FCGI_FD_AVAILABLE location_id with
  | None => mret 0
  | Some i =>
    fd ← get_fd i;
    match fcgi_config_get_server fcgi_global_config (fd_server_id fd) with
    | None => mret (-1)
    | Some server =>
      sock_fd ← core (fcgi_server_connect server);
      put_fd i (fd <| fd_fd := sock_fd |>);;
      if sock_fd =? -1 then mret (-1) else
      _ ← core (mk_socket_set_nonblocking sock_fd);
      _ ← core (mk_plugin_event_add sock_fd MK_EPOLL_RW fcgi_global_plugin MK_EPOLL_LEVEL_TRIGGERED);
      _ ← set_fd_state i FCGI_FD_READY;
      mret 0
    end
  end.

(** ** The request sent to a server *)

Definition PREPARE_LEN : Z := 4096.
(** [len - pos > sizeof(h)] *)
Definition has_room (pos : Z) : bool := FCGI_HEADER_LEN <? u64 (PREPARE_LEN - pos).
Definition padding_of (n : Z) : Z := Z.land (Z.lnot (n - 1)) 7.

Definition record_header (type req_id body_len body_pad : Z) : fcgi_header :=
  {| h_version := FCGI_VERSION_1; h_type := type; h_req_id := req_id; h_body_len := body_len; h_body_pad := body_pad |}.

(** Begin record, parameters, end of parameters, up to the standard input: the
    buffer and the position behind it, [Some None] when there is no room. *)
Definition prepare_params (buffer : bytes) (req_id keep_alive : Z) (cs : client_session) (sr : session_request)
    : option (option (bytes * Z)) :=
  let pos := 0 in
  if negb (has_room pos) then Some None else
  '(buffer, ret) ← fcgi_write_header buffer pos (record_header FCGI_BEGIN_REQUEST req_id FCGI_BEGIN_BODY_LEN 0);
  let pos := pos + ret in
  if negb (has_room pos) then Some None else
  '(buffer, ret) ← fcgi_write_begin_req_body buffer pos
     {| b_role := FCGI_RESPONDER; b_flags := if keep_alive =? 0 then 0 else FCGI_KEEP_CONN |};
  let pos := pos + ret in
  let tmp := pos in
  let pos := pos + FCGI_HEADER_LEN in
  '(buffer, ret) ← fcgi_env_write getsockname getpeername inet_ntop buffer pos (PREPARE_LEN - pos) cs sr;
  let body_len := u16 ret in
  let body_pad := padding_of ret in
  '(buffer, _) ← fcgi_write_header buffer tmp (record_header FCGI_PARAMS req_id body_len body_pad);
  let pos := pos + body_len + body_pad in
  if negb (has_room pos) then Some None else
  '(buffer, ret) ← fcgi_write_header buffer pos (record_header FCGI_PARAMS req_id 0 0);
  Some (Some (buffer, pos + ret)).

(** The standard input and its end; [m] names the buffer. The last entry is
    given the position as its length. *)
Definition prepare_stdin (m : nat) (buffer : bytes) (pos req_id : Z) (sr : session_request) (iov : chunk_iov)
    : option (Z * chunk_iov * bytes) :=
  let n := len (sr_data sr) in
  if 0 <? n then
    if negb (has_room pos) then Some (-1, iov, buffer) else
    '(buffer, ret) ← fcgi_write_header buffer pos (record_header FCGI_STDIN req_id (u16 n) (padding_of n));
    let pos := pos + ret in
    let '(r, iov) := chunk_iov_add_ptr iov (BMem m 0) pos (Some m) in
    if negb (r =? 0) then Some (-1, iov, buffer) else
    body ← data (sr_data sr);
    let '(r, iov) := chunk_iov_add_ptr iov (BExt body) n None in
    if negb (r =? 0) then Some (-1, iov, buffer) else
    let tmp := pos in
    let pos := pos + u16 n + padding_of n in
    if negb (has_room pos) then Some (-1, iov, buffer) else
    '(buffer, ret) ← fcgi_write_header buffer pos (record_header FCGI_STDIN req_id 0 0);
    let pos := pos + ret in
    let '(r, iov) := chunk_iov_add_ptr iov (BMem m tmp) pos None in
    Some (if r =? 0 then 0 else -1, iov, buffer)
  else
    if negb (has_room pos) then Some (-1, iov, buffer) else
    '(buffer, ret) ← fcgi_write_header buffer pos (record_header FCGI_STDIN req_id 0 0);
    let pos := pos + ret in
    let '(r, iov) := chunk_iov_add_ptr iov (BMem m 0) pos (Some m) in
    Some (if r =? 0 then 0 else -1, iov, buffer).

Definition mem_alloc (n : Z) (s : store) : option (nat * store) :=
  Some (st_next s, s <| st_mem := <[st_next s := map sys_junk (seq 0 (Z.to_nat n))]> (st_mem s) |> <| st_next := S (st_next s) |>).

Definition reset_req_iov (i : nat) : F unit :=
  on_req i (fun r s => '(iov, s) ← chunk_iov_reset (rq_iov r) s; Some (tt, r <| rq_iov := iov |>, s)).

Definition fcgi_prepare_request (i : nat) : F Z :=
  cx ← get_cx;
  req ← get_req i;
  m ← on_store (mem_alloc PREPARE_LEN);
  let req_id := request_list_index_of (cx_rl cx) i in
  match (if 0 <? req_id then fcgi_config_get_location fcgi_global_config (rq_clock_id req) else None) with
  | None => reset_req_iov i;; mret (-1)
  | Some location =>
    '(cs, sr) ← sr_of req;
    c ← core (get_cs cs);
    r ← core (get_sr cs sr);
    cx ← get_cx;
    buffer ← liftF (st_mem (cx_store cx) !! m);
    params ← liftF (prepare_params buffer req_id (lc_keep_alive location) c r);
    match params with
    | None => reset_req_iov i;; mret (-1)
    | Some (buffer, pos) =>
      '(ret, iov, buffer) ← liftF (prepare_stdin m buffer pos req_id r (rq_iov req));
      put_cx (cx <| cx_store := cx_store cx <| st_mem := <[m := buffer]> (st_mem (cx_store cx)) |> |>);;
      put_req i (req <| rq_iov := iov |>);;
      if ret =? 0 then mret 0 else reset_req_iov i;; mret (-1)
    end
  end.

Definition fcgi_send_abort_request (i : nat) (fd : fcgi_fd) : F Z :=
  cx ← get_cx;
  let req_id := request_list_index_of (cx_rl cx) i in
  if negb (0 <? req_id) then mret (-1) else
  '(buf, _) ← liftF (fcgi_write_header (map sys_junk (seq 0 8)) 0 (record_header FCGI_ABORT_REQUEST req_id 0 0));
  ret ← core (mk_socket_send (fd_fd fd) buf FCGI_HEADER_LEN);
  mret (if ret =? -1 then -1 else 0).

(** ** The response to the client *)

Definition fcgi_send_response_headers (i : nat) : F Z :=
  req ← get_req i;
  if request_get_flag req REQ_HEADERS_SENT then mret 0 else
  '(cs, sr) ← sr_of req;
  core (mk_header_set_http_status cs sr MK_HTTP_OK);;
  core (mod_sr cs sr (set_headers (fun sh => sh <| sh_cgi := SH_NOCGI |>)));;
  r ← core (get_sr cs sr);
  cx ← get_cx;
  '(headers_offset, r) ← liftF (fcgi_parse_cgi_headers r (rq_iov req) (cx_store cx));
  core (put_sr cs sr r);;
  '(ret, iov) ← liftF (chunk_iov_drop (rq_iov req) headers_offset);
  put_req i (req <| rq_iov := iov |>);;
  if negb (ret =? 0) then mret (-1) else
  core (mod_sr cs sr (set_headers (fun sh => sh <| sh_content_length := i64 (chunk_iov_length iov) |>)));;
  _ ← core (mk_header_send (rq_fd req) cs sr);
  core (mod_sr cs sr (set_headers (fun sh => sh <| sh_location := None |>)));;
  _ ← set_req_flag i REQ_HEADERS_SENT;
  mret 0.

(** [writev] to the socket, and whether a failure was EAGAIN. *)
Definition send_iov (fd : Z) (iov : chunk_iov) : F (Z * bool) :=
  cx ← get_cx;
  t ← core (gets w_trace);
  '(n, d) ← liftF (chunk_iov_sendv (net_writev t fd) iov (cx_store cx));
  core (if 0 <? ci_index iov then emit (EvWrite fd (take (Z.to_nat n) d)) else mret tt);;
  mret (n, writev_again t fd).
End WithEnv.
