(* ===== verification/FcgiRecv.v ===== *)
(** * plugins/fastcgi/fastcgi.c: receiving from a server

    The loop that reads a socket into chunks and hands the records to a
    function, and the function that handles a record. *)
From stdpp Require Import gmap.
From S2P Require Import Prelude CString MkString MkMemory MkTypes MkToc MkSession MkEpoll MkPlugin MkScheduler MkResponse.
From S2P Require Import FcgiProtocol FcgiChunk FcgiRequest FcgiConfig FcgiFd FcgiContext FcgiEnv FcgiCore.
Local Open Scope Z_scope.

Section WithEnv.
Context `{env : Env} `{globals : FcgiGlobals}.

(** ** A record *)

(** The memory [read] points to. *)
Definition chunk_bytes (cp : chunk_ptr) (s : store) : option bytes :=
  c ← st_chunks s !! cp_parent cp; padd (ck_data c) (cp_data cp).

(** Wakes the client of a request that sleeps. *)
Definition wake_client (i : nat) : F unit :=
  req ← get_req i;
  if request_get_flag req REQ_SLEEPING then
    _ ← core (mk_plugin_event_socket_change_mode (rq_fd req) MK_EPOLL_WAKEUP MK_EPOLL_LEVEL_TRIGGERED);
    _ ← unset_req_flag i REQ_SLEEPING; mret tt
  else mret tt.

(** [error:] of the handlers. *)
Definition fail_request (req : option nat) : F unit :=
  match req with
  | Some i => _ ← set_req_state i REQ_FAILED; wake_client i
  | None => mret tt
  end.

Definition handle_stdout (i : nat) (h : fcgi_header) (read : chunk_ptr) : F Z :=
  req ← get_req i;
  if bool_decide (rq_state req = REQ_FAILED) then mret 0
  else if h_body_len h =? 0 then set_req_state i REQ_STREAM_CLOSED
  else ret ← on_req i (fun r s => request_add_pkg r h read s); mret (if 0 <? ret then 0 else -1).

Definition handle_end_request (fd i : nat) (read : chunk_ptr) : F Z :=
  cx ← get_cx;
  p ← liftF (chunk_bytes read (cx_store cx));
  p ← liftF (padd p FCGI_HEADER_LEN);
  _ ← liftF (fcgi_read_end_req_body p);
  req ← get_req i;
  put_req i (request_set_fcgi_fd req (-1));;
  ret ← set_fd_state fd FCGI_FD_READY;
  if negb (ret =? 0) then mret (-1) else
  req ← get_req i;
  if rq_fd req =? -1 then recycle i;; mret 0
  else if bool_decide (rq_state req = REQ_FAILED) then mret 0
  else
    ret ← set_req_state i REQ_ENDED;
    if negb (ret =? 0) then mret (-1) else wake_client i;; mret 0.

Definition fcgi_handle_pkg (fd : nat) (req : option nat) (h : fcgi_header) (read : chunk_ptr) : F Z :=
  match req with
  | None => mret (-1)
  | Some i =>
    ret ← (if h_type h =? FCGI_STDERR then mret 0
           else if h_type h =? FCGI_STDOUT then handle_stdout i h read
           else if h_type h =? FCGI_END_REQUEST then handle_end_request fd i read
           else if h_type h =? 0 then mret (-1)
           else mret 0);
    if ret =? 0 then mret 0 else fail_request (Some i);; mret (-1)
  end.

(** ** The loop *)

(** [c], [write], [read], [inherit] and [pkg_size] of the function, and the
    last header. *)
Record recv_state := { rv_c : option nat; rv_write : chunk_ptr; rv_read : chunk_ptr; rv_inherit : Z; rv_pkg_size : Z; rv_h : fcgi_header }.

Definition no_header : fcgi_header := {| h_version := 0; h_type := 0; h_req_id := 0; h_body_len := 0; h_body_pad := 0 |}.

Section Recv.
Variable handle_pkg : nat -> option nat -> fcgi_header -> chunk_ptr -> F Z.

(** [while (read.len > 0)]: the pointer behind the records, the number of bytes
    that are not a whole record, the size of the last one, the header; [None]
    for the jump to [error]. *)
Fixpoint handle_records (fuel : nat) (fd : nat) (read : chunk_ptr) (inherit pkg_size : Z) (h : fcgi_header)
    : F (option (chunk_ptr * Z * Z * fcgi_header)) :=
  match fuel with
  | O => liftF None
  | S fuel =>
    if negb (0 <? cp_len read) then mret (Some (read, inherit, pkg_size, h)) else
    cx ← get_cx;
    '(pkg_size, h) ← (if cp_len read <? FCGI_HEADER_LEN then mret (FCGI_HEADER_LEN, h)
                      else
                        p ← liftF (chunk_bytes read (cx_store cx));
                        '(h, _) ← liftF (fcgi_read_header p);
                        mret (FCGI_HEADER_LEN + h_body_len h + h_body_pad h, h));
    let advance ret := read <| cp_data := cp_data read + ret |> <| cp_len := cp_len read - ret |> in
    if cp_len read <? pkg_size then
      handle_records fuel fd (advance (cp_len read)) (cp_len read) pkg_size h
    else
      req ← on_list (fun rl => request_list_get rl (h_req_id h));
      ret ← handle_pkg fd req h read;
      if negb (ret =? 0) then mret None
      else handle_records fuel fd (advance pkg_size) inherit pkg_size h
  end.

(** A new chunk, which takes over the [inherit] bytes left; [None] for the
    jump to [error]. *)
Definition recv_chunk (fd : nat) (st : recv_state) : F (option recv_state) :=
  if (0 <? rv_inherit st) || (cp_len (rv_write st) <? FCGI_HEADER_LEN) then
    let size := if CHUNK_SIZE 8192 <? rv_pkg_size st then SIZE_CHUNK (rv_pkg_size st) else 8192 in
    c ← on_store (fun s => Some (chunk_new (fun n => map sys_junk (seq 0 n)) size s));
    on_store (fun s => Some (tt, chunk_list_add c s));;
    f ← get_fd fd;
    '(ret, f) ← on_store (fun s => '(ret, f, s) ← fcgi_fd_set_chunk f c (rv_inherit st) s; Some ((ret, f), s));
    put_fd fd f;;
    if negb (ret =? 0) then mret None else
    cx ← get_cx;
    write ← liftF (chunk_write_ptr c (cx_store cx));
    mret (Some {| rv_c := Some c; rv_write := write; rv_read := rv_read st; rv_inherit := 0; rv_pkg_size := rv_pkg_size st; rv_h := rv_h st |})
  else mret (Some st).

(** The read into the chunk; with it, whether the loop is done. *)
Definition recv_read (fd : nat) (st : recv_state) : F (option (recv_state * bool)) :=
  f ← get_fd fd;
  let write := rv_write st in
  r ← core (mk_socket_read (fd_fd f) (cp_len write));
  c ← liftF (rv_c st);
  match r with
  | inl [] | inr (0, _) =>
    ret ← set_fd_state fd FCGI_FD_CLOSING;
    mret (if ret =? 0 then Some (st, true) else None)
  | inr (_, eagain) => mret (if eagain : bool then Some (st, true) else None)
  | inl d =>
    let ret := Z.of_nat (length d) in
    on_store (fun s => ck ← st_chunks s !! c; buf ← bwrite (ck_data ck) (cp_data write) d;
                       s ← upd_chunk c (fun ck => ck <| ck_data := buf |>) s; Some (tt, s));;
    let write := write <| cp_data := cp_data write + ret |> <| cp_len := cp_len write - ret |> in
    ret ← on_store (chunk_set_write_ptr c write);
    if negb (ret =? 0) then mret None else
    cx ← get_cx;
    read ← liftF (chunk_read_ptr c (cx_store cx));
    mret (Some ({| rv_c := Some c; rv_write := write; rv_read := read; rv_inherit := rv_inherit st;
                   rv_pkg_size := rv_pkg_size st; rv_h := rv_h st |}, false))
  end.

(** The read position is kept when [read] points into the chunk in use. *)
Definition keep_read (c : nat) (read : chunk_ptr) : F Z :=
  if Nat.eqb (cp_parent read) c then on_store (chunk_set_read_ptr c read) else mret 0.

Fixpoint recv_loop (fuel : nat) (fd : nat) (st : recv_state) : F Z :=
  match fuel with
  | O => liftF None
  | S fuel =>
    st ← recv_chunk fd st;
    match st with None => mret (-1) | Some st =>
    st ← recv_read fd st;
    match st with None => mret (-1) | Some (st, done) =>
    r ← handle_records (S (Z.to_nat (cp_len (rv_read st)))) fd (rv_read st) (rv_inherit st) (rv_pkg_size st) (rv_h st);
    match r with None => mret (-1) | Some (read, inherit, pkg_size, h) =>
    c ← liftF (rv_c st);
    ret ← keep_read c read;
    if negb (ret =? 0) then mret (-1)
    else if done : bool then mret 0
    else recv_loop fuel fd {| rv_c := Some c; rv_write := rv_write st; rv_read := read; rv_inherit := inherit;
                              rv_pkg_size := pkg_size; rv_h := h |}
    end end end
  end.

(** The null pointers the function starts with. [fuel] bounds the reads. *)
Definition null_ptr : chunk_ptr := {| cp_parent := 0; cp_len := 0; cp_data := 0 |}.

Definition fcgi_recv_response (fuel : nat) (fd : nat) : F Z :=
  f ← get_fd fd;
  cx ← get_cx;
  '(write, read) ← liftF (match fcgi_fd_get_chunk f with
                          | Some c => w ← chunk_write_ptr c (cx_store cx); r ← chunk_read_ptr c (cx_store cx); Some (w, r)
                          | None => Some (null_ptr, null_ptr)
                          end);
  ret ← recv_loop fuel fd {| rv_c := fcgi_fd_get_chunk f; rv_write := write; rv_read := read; rv_inherit := 0;
                             rv_pkg_size := 0; rv_h := no_header |};
  if ret =? 0 then mret 0 else _ ← set_fd_state fd FCGI_FD_CLOSING; mret (-1).
End Recv.
End WithEnv.
