(* ===== verification/FcgiEvents.v ===== *)
(** * plugins/fastcgi/fastcgi.c: the hooks of the plugin

    The stage of the request, the events of the sockets of clients and servers,
    and what they call. A hook that fails or ends early returns as in the
    source; [None] is undefined behaviour. *)
From stdpp Require Import gmap.
From S2P Require Import Prelude CString MkString MkMemory MkTypes MkToc MkSession MkEpoll MkPlugin MkScheduler MkResponse MkConnection.
From S2P Require Import FcgiProtocol FcgiChunk FcgiRequest FcgiConfig FcgiFd FcgiContext FcgiEnv FcgiCore FcgiRecv.
Local Open Scope Z_scope.

Section WithEnv.
Context `{env : Env} `{globals : FcgiGlobals}.

Definition fd_by_socket (socket : Z) : F (option nat) := cx ← get_cx; mret (fcgi_fd_list_get_by_fd (cx_fdl cx) socket).
Definition req_by_socket (socket : Z) : F (option nat) := on_list (fun rl => request_list_get_by_fd rl socket).
(** [fd = ...; req = fd ? NULL : ...] *)
Definition by_socket (socket : Z) : F (option nat * option nat) :=
  fd ← fd_by_socket socket;
  match fd with
  | Some fd => mret (Some fd, None)
  | None => req ← req_by_socket socket; mret (None, req)
  end.

(** ** A socket hangs up *)

Definition hangup (socket : Z) : F Z :=
  found ← by_socket socket;
  match found with
  | (Some i, _) =>
    fd ← get_fd i;
    _ ← core (mk_plugin_event_del (fd_fd fd));
    core (emit (EvClose (fd_fd fd)));;
    let state := fd_state fd in
    put_fd i (fd <| fd_fd := -1 |> <| fd_state := FCGI_FD_AVAILABLE |>);;
    (if negb (Z.land state FCGI_FD_CLOSING =? 0) then _ ← fcgi_new_connection (fd_location_id fd); mret tt else mret tt);;
    mret MK_PLUGIN_RET_EVENT_OWNED
  | (None, Some i) =>
    req ← get_req i;
    (if bool_decide (rq_state req = REQ_FAILED) then mret tt else _ ← set_req_state i REQ_FAILED; mret tt);;
    req ← get_req i;
    (if rq_fcgi_fd req =? -1 then recycle i
     else put_req i (req <| rq_fd := -1 |> <| rq_cs := None |> <| rq_sr := None |>));;
    mret MK_PLUGIN_RET_EVENT_CONTINUE
  | (None, None) => mret MK_PLUGIN_RET_EVENT_NEXT
  end.

Definition _mkp_event_close (socket : Z) : F Z := hangup socket.
Definition _mkp_event_error (socket : Z) : F Z := hangup socket.

(** mk_connection.c: [mk_conn_close] of a client, with this plugin asked before
    the others. *)
Definition conn_close (socket : Z) : F Z :=
  ret ← hangup socket;
  if ret =? MK_PLUGIN_RET_EVENT_NEXT then core (mk_conn_close socket)
  else if ret =? MK_PLUGIN_RET_EVENT_OWNED then mret MK_PLUGIN_RET_CONTINUE
  else if ret =? MK_PLUGIN_RET_EVENT_CLOSE then mret (-1)
  else _ ← core (mk_sched_remove_client socket); mret 0.

(** mk_plugin.c *)
Definition mk_plugin_http_request_end (socket : Z) : F Z :=
  ret ← core (mk_http_request_end socket);
  if ret <? 0 then conn_close socket else mret 0.

(** ** Answering the client *)

Definition fcgi_send_response (i : nat) : F Z :=
  req ← get_req i;
  let fd := rq_fd req in
  if negb (request_get_flag req REQ_HEADERS_SENT) then mret (-1) else
  '(ret, _) ← send_iov fd (rq_iov req);
  if ret =? -1 then mret (-1) else
  if ret =? chunk_iov_length (rq_iov req) then
    r ← set_req_state i REQ_FINISHED;
    if negb (r =? 0) then mret (-1) else
    recycle i;;
    core (mk_socket_set_cork_flag fd TCP_CORK_OFF);;
    _ ← mk_plugin_http_request_end fd;
    mret 0
  else
    '(r, iov) ← liftF (chunk_iov_drop (rq_iov req) ret);
    put_req i (req <| rq_iov := iov |>);;
    mret (if r =? 0 then 0 else -1).

(** ** A request comes in *)

Fixpoint match_from (i : Z) (locations : list fcgi_location) (uri : bytes) : Z :=
  match locations with
  | [] => -1
  | l :: locations => if regexec (lc_match l) uri then i else match_from (i + 1) locations uri
  end.
Definition regex_match_location (config : fcgi_config) (uri : bytes) : Z := match_from 0 (fc_locations config) uri.

Definition sleep_client (i : nat) : F unit :=
  _ ← set_req_flag i REQ_SLEEPING;
  req ← get_req i;
  _ ← core (mk_plugin_event_socket_change_mode (rq_fd req) MK_EPOLL_SLEEP MK_EPOLL_LEVEL_TRIGGERED);
  mret tt.

(** A connection for the request: one that waits, or a new one. *)
Definition find_connection (location_id : Z) : F Z :=
  woken ← fcgi_wake_connection location_id;
  if negb (woken =? 0) then fcgi_new_connection location_id else mret 0.

Definition _mkp_stage_30 (cs sr : nat) : F Z :=
  c ← core (get_cs cs);
  req ← req_by_socket (cs_socket c);
  match req with
  | Some _ => mret MK_PLUGIN_RET_CONTINUE
  | None =>
    r ← core (get_sr cs sr);
    path ← liftF (view (sr_real_path r));
    uri ← liftF (cstr (path ++ [0]));
    let location_id := regex_match_location fcgi_global_config uri in
    if location_id =? -1 then mret MK_PLUGIN_RET_NOT_ME else
    cx ← get_cx;
    req ← liftF (request_list_next_available (cx_rl cx) location_id);
    match req with
    | None => mret MK_PLUGIN_RET_CONTINUE
    | Some i =>
      ret ← on_req i (fun r s => request_assign r (cs_socket c) location_id (Some cs) (Some sr) s);
      if negb (ret =? 0) then fail_request (Some i);; mret MK_PLUGIN_RET_CONTINUE else
      ret ← fcgi_prepare_request i;
      if negb (ret =? 0) then fail_request (Some i);; mret MK_PLUGIN_RET_CONTINUE else
      ret ← find_connection location_id;
      if negb (ret =? 0) then fail_request (Some i);; mret MK_PLUGIN_RET_CONTINUE else
      sleep_client i;;
      mret MK_PLUGIN_RET_CONTINUE
    end
  end.

(** ** A socket can be written to *)

Definition fail_write (req : option nat) : F Z := fail_request req;; mret MK_PLUGIN_RET_EVENT_CLOSE.

(** The client of a request that ended, and of one that failed. *)
Definition answer_client (i : nat) : F Z :=
  ret ← fcgi_send_response_headers i;
  if negb (ret =? 0) then fail_write (Some i) else
  ret ← fcgi_send_response i;
  if negb (ret =? 0) then fail_write (Some i) else mret MK_PLUGIN_RET_EVENT_OWNED.

Definition refuse_client (i : nat) (socket : Z) : F Z :=
  req ← get_req i;
  '(cs, sr) ← sr_of req;
  _ ← core (mk_request_error MK_SERVER_INTERNAL_ERROR cs sr);
  req ← get_req i;
  (if rq_fcgi_fd req =? -1 then recycle i else mret tt);;
  _ ← mk_plugin_http_request_end socket;
  mret MK_PLUGIN_RET_EVENT_OWNED.

(** A server that waits for work, of which there is none. *)
Definition rest_server (k : nat) (fd : fcgi_fd) : F Z :=
  match fcgi_config_get_location fcgi_global_config (fd_location_id fd) with
  | None => fail_write None
  | Some locp =>
    if lc_keep_alive locp =? 0 then fail_write None else
    _ ← core (mk_plugin_event_socket_change_mode (fd_fd fd) MK_EPOLL_SLEEP MK_EPOLL_LEVEL_TRIGGERED);
    ret ← set_fd_state k FCGI_FD_SLEEPING;
    if negb (ret =? 0) then fail_write None else mret MK_PLUGIN_RET_EVENT_OWNED
  end.

(** The request [i] is given to the server; whether that worked. *)
Definition begin_request (k i : nat) : F bool :=
  fd ← get_fd k;
  req ← get_req i;
  put_req i (request_set_fcgi_fd req (fd_fd fd));;
  ret ← set_req_state i REQ_SENT;
  if negb (ret =? 0) then mret false else
  req ← get_req i;
  let '(ret, fd) := fcgi_fd_set_begin_req_iov fd i (rq_iov req) in
  put_fd k fd;;
  if negb (ret =? 0) then mret false else
  ret ← set_fd_state k FCGI_FD_SENDING;
  if negb (ret =? 0) then mret false else
  (match fd_type fd with FCGI_FD_INET => core (mk_socket_set_cork_flag (fd_fd fd) TCP_CORK_ON) | FCGI_FD_UNIX => mret tt end);;
  mret true.

(** Sends what is left of the request. *)
Definition send_request (k : nat) : F Z :=
  fd ← get_fd k;
  match fd_begin_req fd with
  | None => fail_write None
  | Some i =>
    req ← get_req i;
    '(ret, again) ← send_iov (fd_fd fd) (rq_iov req);
    if ret =? -1 then if again : bool then mret MK_PLUGIN_RET_EVENT_OWNED else fail_write None else
    let remain := u64 (fd_begin_req_remain fd - ret) in
    put_fd k (fd <| fd_begin_req_remain := remain |>);;
    (if remain =? 0 then
       (match fd_type fd with FCGI_FD_INET => core (mk_socket_set_cork_flag (fd_fd fd) TCP_CORK_OFF) | FCGI_FD_UNIX => mret tt end);;
       _ ← set_fd_state k FCGI_FD_RECEIVING;
       reset_req_iov i;;
       fd ← get_fd k;
       put_fd k (fd <| fd_begin_req := None |>)
     else
       '(_, iov) ← liftF (chunk_iov_drop (rq_iov req) ret);
       put_req i (req <| rq_iov := iov |>));;
    mret MK_PLUGIN_RET_EVENT_OWNED
  end.

(** [fuel] bounds the calls to itself: a socket that was given a request is no
    more ready. *)
Fixpoint event_write (fuel : nat) (socket : Z) : F Z :=
  match fuel with
  | O => liftF None
  | S fuel =>
    found ← by_socket socket;
    match found with
    | (None, None) => mret MK_PLUGIN_RET_EVENT_NEXT
    | (None, Some i) =>
      req ← get_req i;
      if bool_decide (rq_state req = REQ_ENDED) then answer_client i
      else if bool_decide (rq_state req = REQ_FAILED) then refuse_client i socket
      else mret MK_PLUGIN_RET_EVENT_CONTINUE
    | (Some k, _) =>
      fd ← get_fd k;
      if fd_state fd =? FCGI_FD_READY then
        req ← on_list (fun rl => request_list_next_assigned rl (fd_location_id fd));
        match req with
        | Some i =>
          ok ← begin_request k i;
          if ok : bool then fd ← get_fd k; event_write fuel (fd_fd fd) else fail_write (Some i)
        | None => rest_server k fd
        end
      else if fd_state fd =? FCGI_FD_SENDING then send_request k
      else mret MK_PLUGIN_RET_EVENT_CONTINUE
    end
  end.

Definition _mkp_event_write (socket : Z) : F Z := event_write 2 socket.

(** ** A socket can be read from *)

(** [reads] bounds the reads of the call. *)
Definition _mkp_event_read (reads : nat) (socket : Z) : F Z :=
  fd ← fd_by_socket socket;
  match fd with
  | None => mret MK_PLUGIN_RET_EVENT_NEXT
  | Some k =>
    ret ← fcgi_recv_response fcgi_handle_pkg reads k;
    if negb (ret =? 0) then mret MK_PLUGIN_RET_EVENT_CLOSE else
    fd ← get_fd k;
    if fd_state fd =? FCGI_FD_CLOSING then mret MK_PLUGIN_RET_EVENT_CLOSE else mret MK_PLUGIN_RET_EVENT_OWNED
  end.
End WithEnv.
