(* ===== verification/FcgiRecords.v ===== *)
(** * Receiving from a server: the records are put together again

    However the network cuts the stream of a server into reads, the bytes of
    the records reach the vectors of their requests in order, no chunk that is
    still referred to is freed, and what is not yet a whole record is kept for
    the next call. *)
From stdpp Require Import gmap.
From S2P Require Import Prelude CString MkString MkMemory MkTypes MkToc MkSession MkEpoll MkPlugin MkScheduler MkResponse.
From S2P Require Import FcgiProtocol FcgiChunk FcgiRequest FcgiConfig FcgiFd FcgiContext FcgiEnv FcgiCore FcgiRecv.
Local Open Scope Z_scope.

(** ** Vectors over a store that grows *)

Record chunk_ok (ck : chunk) : Prop := {
  ck_len : Z.of_nat (length (ck_data ck)) = ck_size ck;
  ck_order : 0 <= ck_read ck <= ck_write ck /\ ck_write ck <= ck_size ck < 2 ^ 32
}.

(** A used cell that points into a chunk owns a reference to it, and stays
    within what was written. *)
Definition cell_ok (s : store) (r : chunk_ref) (io : iovec) : Prop :=
  match iov_base io with
  | BChunk id off => r = CHUNK_REF_CHUNK id /\
      exists ck, st_chunks s !! id = Some ck /\ 0 <= off /\ 0 <= iov_len io /\ off + iov_len io <= ck_write ck /\
        ck_write ck <= Z.of_nat (length (ck_data ck))
  | _ => True
  end.

Definition used {A} (iov : chunk_iov) (l : list A) : list A := take (Z.to_nat (ci_index iov)) l.

Record vec_ok (s : store) (iov : chunk_iov) (b : bytes) : Prop := {
  ve_iov : iov_ok s iov b;
  ve_cells : Forall2 (cell_ok s) (used iov (ci_refs iov)) (used iov (ci_io iov))
}.

(** What was written of a chunk stays. *)
Definition kept (s s' : store) (id : nat) : Prop :=
  forall ck, st_chunks s !! id = Some ck -> exists ck', st_chunks s' !! id = Some ck' /\ ck_write ck <= ck_write ck' /\
    ck_write ck' <= Z.of_nat (length (ck_data ck')) /\
    take (Z.to_nat (ck_write ck)) (ck_data ck') = take (Z.to_nat (ck_write ck)) (ck_data ck).

Lemma read_prefix (d d' : bytes) w off n :
  take w d' = take w d -> (w <= length d)%nat -> (w <= length d')%nat -> 0 <= off -> 0 <= n -> off + n <= Z.of_nat w ->
  (q ← padd d' off; memread q n) = (q ← padd d off; memread q n).
Proof.
  intros Ht Hd Hd' Ho Hn Hw. rewrite !padd_drop by lia. mstep. rewrite !memread_take by (rewrite length_drop; lia). f_equal.
  rewrite !take_drop_commute. f_equal. set (k := (_ + _)%nat). assert (Hk : (k <= w)%nat) by (unfold k; lia).
  replace k with (k `min` w)%nat by lia. now rewrite <- !take_take, Ht.
Qed.

Lemma cell_kept s s' r io :
  cell_ok s r io -> st_mem s' = st_mem s -> (forall id, r = CHUNK_REF_CHUNK id -> kept s s' id) ->
  cell_ok s' r io /\ io_bytes s' io = io_bytes s io.
Proof.
  unfold cell_ok, io_bytes. intros H Hm Hk. destruct (iov_base io) as [|id off|m off|p]; try (rewrite ?Hm; done).
  destruct H as (-> & ck & Hck & Ho & Hn & Hw & Hl). destruct (Hk id eq_refl ck Hck) as (ck' & Hck' & Hww & Hl' & Ht).
  split; [split; [done|]; exists ck'; split; [done|lia]|]. rewrite Hck, Hck'. mstep.
  apply (read_prefix _ _ (Z.to_nat (ck_write ck))); [exact Ht|lia..].
Qed.

Lemma held_elem id l : CHUNK_REF_CHUNK id ∈ l -> 0 < held id l.
Proof.
  induction l as [|r l IH]; intros H; [now apply elem_of_nil in H|]. pose proof (held_nonneg id l). apply elem_of_cons in H as [<-|H].
  - cbn. rewrite Nat.eqb_refl. lia.
  - specialize (IH H). destruct r; cbn; try lia. case_if; lia.
Qed.

Lemma vec_kept s s' iov b :
  vec_ok s iov b -> st_mem s' = st_mem s -> (forall id, 0 < held_by iov id -> kept s s' id) -> vec_ok s' iov b.
Proof.
  intros [Hi Hc] Hm Hk.
  assert (H : Forall2 (fun r io => cell_ok s' r io /\ io_bytes s' io = io_bytes s io) (used iov (ci_refs iov)) (used iov (ci_io iov))).
  { apply Forall2_same_length_lookup_2; [now apply Forall2_length in Hc|]. intros n r io Hr Hio.
    apply cell_kept; [exact (Forall2_lookup_lr _ _ _ _ _ _ Hc Hr Hio)|done|].
    intros id ->. apply Hk, held_elem. now apply list_elem_of_lookup_2 in Hr. }
  split; [|eapply Forall2_impl; [exact H|now intros r io []]]. destruct Hi as [H1 H2 H3 H4 H5]. split; try done.
  rewrite <- H4. unfold iov_bytes. fold (used iov (ci_io iov)). clear -H. induction H as [|r io rs ios [_ Hio] _ IH]; [done|].
  cbn [all_bytes]. now rewrite Hio, IH.
Qed.

(** ** A record of output is added to its request *)

Definition with_ref (id : nat) (ck : chunk) (s : store) : store :=
  s <| st_chunks := <[id := ck <| ck_refs := i32 (ck_refs ck + 1) |>]> (st_chunks s) |>.

Lemma with_ref_kept id ck s x : st_chunks s !! id = Some ck -> ck_write ck <= Z.of_nat (length (ck_data ck)) ->
  (forall ck, st_chunks s !! x = Some ck -> ck_write ck <= Z.of_nat (length (ck_data ck))) -> kept s (with_ref id ck s) x.
Proof.
  intros Hc Hl Hx ck' Hck'. cbn. destruct (decide (id = x)) as [<-|Hne].
  - rewrite lookup_insert_eq. eexists. split; [reflexivity|]. rewrite Hc in Hck'. injection Hck' as <-. cbn. split; [lia|done].
  - rewrite lookup_insert_ne by done. exists ck'. split; [done|]. split; [lia|]. split; [now apply Hx|done].
Qed.

Lemma used_resize {A} (iov : chunk_iov) (l : list A) n x :
  0 <= ci_index iov -> (Z.to_nat (ci_index iov) <= length l)%nat -> ci_index iov <= n ->
  take (Z.to_nat (ci_index iov)) (take (Z.to_nat n) (l ++ replicate (Z.to_nat n) x)) = used iov l.
Proof. intros H0 Hl Hn. unfold used. rewrite take_take. replace (_ `min` _)%nat with (Z.to_nat (ci_index iov)) by lia. now rewrite take_app_le by lia. Qed.

Lemma chunk_iov_resize_ok s iov b n :
  vec_ok s iov b -> ci_size iov <= n <= UIO_MAXIOV ->
  exists iov', chunk_iov_resize iov n = (0, iov') /\ vec_ok s iov' b /\ ci_index iov' = ci_index iov /\ ci_size iov' = n /\
    (forall id, held_by iov' id = held_by iov id).
Proof.
  intros [[H1 H2 H3 H4 H5] Hc] Hn. unfold chunk_iov_resize. replace (n <=? UIO_MAXIOV) with true by zb.
  eexists. split; [reflexivity|]. split; [|split; [done|split; [done|]]].
  - split.
    + split; cbn; try lia; rewrite ?length_take, ?length_app, ?length_replicate; try lia.
      unfold iov_bytes in *. cbn. rewrite used_resize by lia. exact H4.
    + unfold used in *. cbn. rewrite !used_resize by lia. exact Hc.
  - intros id. unfold held_by. cbn. now rewrite used_resize by lia.
Qed.

Lemma vec_index s iov b : vec_ok s iov b -> 0 <= ci_index iov <= ci_size iov.
Proof. now intros [[] _]. Qed.

Lemma chunk_iov_add_full iov cp s : ci_size iov <= ci_index iov -> chunk_iov_add iov cp s = Some (-1, iov, s).
Proof. intros H. unfold chunk_iov_add. now replace (ci_index iov <? ci_size iov) with false by zb. Qed.

Lemma chunk_iov_add_ok s iov b cp ck :
  vec_ok s iov b -> ci_index iov < ci_size iov -> st_chunks s !! cp_parent cp = Some ck ->
  0 <= cp_data cp -> 0 < cp_len cp -> cp_data cp + cp_len cp <= ck_write ck -> ck_write ck <= Z.of_nat (length (ck_data ck)) ->
  (forall id ck, 0 < held_by iov id -> st_chunks s !! id = Some ck -> ck_write ck <= Z.of_nat (length (ck_data ck))) ->
  let t := take (Z.to_nat (cp_len cp)) (drop (Z.to_nat (cp_data cp)) (ck_data ck)) in
  Z.of_nat (length b) + cp_len cp < 2 ^ 63 ->
  exists iov', chunk_iov_add iov cp s = Some (0, iov', with_ref (cp_parent cp) ck s) /\
    vec_ok (with_ref (cp_parent cp) ck s) iov' (b ++ t) /\ ci_index iov' = ci_index iov + 1 /\ ci_size iov' = ci_size iov /\
    (forall id, held_by iov' id = held_by iov id + (if Nat.eqb (cp_parent cp) id then 1 else 0)).
Proof.
  intros Hv Hi Hck Ho Hn Hw Hl Hall t Hb. unfold chunk_iov_add.
  replace (ci_index iov <? ci_size iov) with true by zb. replace (0 <? cp_len cp) with true by zb. cbn [negb].
  unfold chunk_retain, upd_chunk. rewrite Hck. mstep. eexists. split; [reflexivity|].
  assert (Hv' : vec_ok (with_ref (cp_parent cp) ck s) iov b).
  { apply (vec_kept s); [done|done|]. intros id Hh. apply with_ref_kept; [done|done|]. intros ck'. now apply Hall. }
  assert (Ht : length t = Z.to_nat (cp_len cp)) by (unfold t; rewrite length_take, length_drop; lia).
  destruct Hv' as [Hiov Hcells]. pose proof (io_cells _ _ _ Hiov). pose proof (io_refs _ _ _ Hiov). pose proof (io_index _ _ _ Hiov).
  split; [|split; [done|split; [done|]]].
  - split.
    + apply set_cell_ok; [done|done| |rewrite length_app; lia]. unfold io_bytes. cbn. rewrite lookup_insert_eq. mstep. cbn.
      rewrite padd_drop by lia. mstep. rewrite memread_take by (rewrite length_drop; lia). reflexivity.
    + unfold used in *. cbn. replace (Z.to_nat (ci_index iov + 1)) with (S (Z.to_nat (ci_index iov))) by lia.
      erewrite !take_S_r by (apply list_lookup_insert_eq; lia). rewrite !take_insert_ge by lia.
      apply Forall2_app; [exact Hcells|]. constructor; [|constructor]. split; [done|]. cbn. rewrite lookup_insert_eq.
      eexists. split; [reflexivity|]. cbn. lia.
  - intros id. unfold held_by. cbn. replace (Z.to_nat (ci_index iov + 1)) with (S (Z.to_nat (ci_index iov))) by lia.
    erewrite take_S_r by (apply list_lookup_insert_eq; lia). rewrite take_insert_ge by lia. rewrite held_app. cbn. lia.
Qed.

(** ** The records of a stream *)

Definition octets (b : bytes) : Prop := Forall (fun x => 0 <= x < 256) b.

(** The header of the whole record [b] starts with, and its size. *)
Definition whole (b : bytes) : option (fcgi_header * nat) :=
  if Z.of_nat (length b) <? FCGI_HEADER_LEN then None else
  '(h, _) ← fcgi_read_header b;
  let n := FCGI_HEADER_LEN + h_body_len h + h_body_pad h in
  if Z.of_nat (length b) <? n then None else Some (h, Z.to_nat n).

Definition body_of (h : fcgi_header) (b : bytes) : bytes := take (Z.to_nat (h_body_len h)) (drop 8 b).

(** The headers and bodies of the records, and the bytes behind them. *)
Fixpoint split_records (fuel : nat) (b : bytes) : list (fcgi_header * bytes) * bytes :=
  match fuel with
  | O => ([], b)
  | S fuel =>
    match whole b with
    | Some (h, n) => let '(rs, l) := split_records fuel (drop n b) in ((h, body_of h b) :: rs, l)
    | None => ([], b)
    end
  end.
Definition records (b : bytes) : list (fcgi_header * bytes) * bytes := split_records (length b) b.

Inductive recs : bytes -> list (fcgi_header * bytes) -> bytes -> Prop :=
| recs_end b : whole b = None -> recs b [] b
| recs_cons b h n rs l : whole b = Some (h, n) -> recs (drop n b) rs l -> recs b ((h, body_of h b) :: rs) l.

Lemma octets_header b h x : octets b -> fcgi_read_header b = Some (h, x) -> header_ok h /\ x = FCGI_HEADER_LEN.
Proof.
  unfold octets. intros Hb H. destruct b as [|p0 [|p1 [|p2 [|p3 [|p4 [|p5 [|p6 b]]]]]]]; try done. injection H as <- <-.
  rewrite !Forall_cons in Hb. destruct Hb as (H0 & H1 & H2 & H3 & H4 & H5 & H6 & _). split; [|done].
  split; cbn; try lia; unfold be16; apply u16_range.
Qed.

Lemma whole_Some b h n : octets b -> whole b = Some (h, n) ->
  header_ok h /\ fcgi_read_header b = Some (h, FCGI_HEADER_LEN) /\ (8 <= n <= length b)%nat /\
  Z.of_nat n = FCGI_HEADER_LEN + h_body_len h + h_body_pad h.
Proof.
  unfold whole, FCGI_HEADER_LEN. intros Hb H. case_if_in H; [done|]. destruct (fcgi_read_header b) as [[h' x]|] eqn:Eh; [|done].
  destruct (octets_header _ _ _ Hb Eh) as [Hh ->]. cbn [mbind option_bind] in H. case_if_in H; [done|]. injection H as <- <-. zbool.
  pose proof (ho_len _ Hh). pose proof (ho_pad _ Hh). split; [done|]. split; [done|]. lia.
Qed.

Lemma header_take b n : (7 <= n)%nat -> (7 <= length b)%nat -> fcgi_read_header (take n b) = fcgi_read_header b.
Proof.
  intros Hn Hb. do 7 (destruct b as [|? b]; [cbn in Hb; lia|]). do 7 (destruct n as [|n]; [lia|]). reflexivity.
Qed.

Lemma header_some b : (7 <= length b)%nat -> exists h, fcgi_read_header b = Some (h, FCGI_HEADER_LEN).
Proof. intros Hb. do 7 (destruct b as [|? b]; [cbn in Hb; lia|]). by eexists. Qed.

Lemma whole_app a b h n : octets a -> whole a = Some (h, n) -> whole (a ++ b) = Some (h, n).
Proof.
  intros Ha Hw. destruct (whole_Some _ _ _ Ha Hw) as (Hh & Hr & Hn & Hz). unfold whole. rewrite length_app.
  replace (_ <? FCGI_HEADER_LEN) with false by (unfold FCGI_HEADER_LEN in *; zb).
  rewrite <- (header_take (a ++ b) (length a)) by (rewrite ?length_app; lia). rewrite take_app_length, Hr. mstep.
  rewrite <- Hz, Nat2Z.id. replace (_ <? Z.of_nat n) with false by zb. done.
Qed.

Lemma octets_drop n b : octets b -> octets (drop n b).
Proof. apply Forall_drop. Qed.

Lemma split_records_recs fuel b : octets b -> (length b <= fuel)%nat ->
  recs b (fst (split_records fuel b)) (snd (split_records fuel b)).
Proof.
  revert b; induction fuel as [|fuel IH]; intros b Hb Hl; cbn [split_records].
  - apply recs_end. destruct b; [done|cbn in Hl; lia].
  - destruct (whole b) as [[h n]|] eqn:Ew; [|now apply recs_end].
    destruct (whole_Some _ _ _ Hb Ew) as (_ & _ & Hn & _).
    specialize (IH (drop n b) (octets_drop _ _ Hb)). rewrite length_drop in IH. specialize (IH ltac:(lia)).
    destruct (split_records fuel (drop n b)) as [rs l]. now apply (recs_cons b h n).
Qed.

Lemma records_recs b : octets b -> recs b (fst (records b)) (snd (records b)).
Proof. intros Hb. now apply split_records_recs. Qed.

Lemma recs_fun b rs l rs' l' : recs b rs l -> recs b rs' l' -> rs = rs' /\ l = l'.
Proof.
  intros H. revert rs' l'; induction H as [b Hw|b h n rs l Hw H IH]; intros rs' l' H'; inversion H'; subst; try congruence; [done|].
  rewrite Hw in *. simplify_eq. match goal with H1 : recs (drop _ _) _ _ |- _ => destruct (IH _ _ H1) as [-> ->] end. done.
Qed.

(** What a part of the stream leaves is the beginning of the rest. *)
Lemma recs_app a b rs l : octets a -> recs (a ++ b) rs l ->
  exists rs1 l1 rs2, recs a rs1 l1 /\ recs (l1 ++ b) rs2 l /\ rs = rs1 ++ rs2.
Proof.
  intros Ha H. pose proof (records_recs a Ha) as Hr. destruct (records a) as [rs1 l1]. cbn in Hr.
  exists rs1, l1. revert rs H. induction Hr as [a Hw|a h n rs1 l1 Hw Hr IH]; intros rs H.
  { exists rs. split; [now apply recs_end|done]. }
  destruct (whole_Some _ _ _ Ha Hw) as (_ & Hh & Hn & Hz). pose proof (whole_app a b _ _ Ha Hw) as Hwb.
  inversion H as [? Hw' |? h' n' rs' l' Hw' Hrest]; subst; [congruence|]. rewrite Hwb in Hw'. injection Hw' as <- <-.
  rewrite drop_app_le in Hrest by lia. destruct (IH (octets_drop _ _ Ha) _ Hrest) as (rs2 & H1 & H2 & ->).
  exists rs2. split; [now apply (recs_cons a h n)|]. split; [done|]. cbn. f_equal. f_equal. unfold body_of.
  rewrite drop_app_le by lia. apply whole_Some in Hw as (Hok & _ & _ & _); [|done]. pose proof (ho_len _ Hok). pose proof (ho_pad _ Hok).
  unfold FCGI_HEADER_LEN in Hz. rewrite take_app_le; [done|]. rewrite length_drop. lia.
Qed.

(** ** The context *)

(** A request with what it received; [n] more records and [m] more bytes fit. *)
Record slot (n m : Z) (s : store) (r : request) (b : bytes) : Prop := {
  sl_vec : vec_ok s (rq_iov r) b;
  sl_room : ci_index (rq_iov r) + n < UIO_MAXIOV /\ ci_size (rq_iov r) <= UIO_MAXIOV;
  sl_max : Z.of_nat (length b) + m < 2 ^ 63
}.

Definition attached (id : nat) (f : fcgi_fd) : Z := if bool_decide (fd_chunk f = Some id) then 1 else 0.

(** The references to a chunk: those of the vectors and of the sockets. *)
Definition holds (cx : fcgi_context) (id : nat) : Z :=
  zsum (fun r => held_by (rq_iov r) id) (rl_rs (cx_rl cx)) + zsum (attached id) (cx_fdl cx).

Record ctx_ok (n m : Z) (cx : fcgi_context) (outs : list bytes) : Prop := {
  cxo_list : list_ok (cx_rl cx);
  cxo_slots : Forall2 (slot n m (cx_store cx)) (rl_rs (cx_rl cx)) outs;
  cxo_refs : refs_ok (cx_store cx) (holds cx);
  cxo_chunks : forall id ck, st_chunks (cx_store cx) !! id = Some ck -> chunk_ok ck /\ (id < st_next (cx_store cx))%nat;
  cxo_size : rl_size (cx_rl cx) <= 65536 /\ 0 <= rl_id_offset (cx_rl cx) /\ Z.of_nat (length (cx_fdl cx)) < 2 ^ 30
}.

Lemma held_le id l : held id l <= Z.of_nat (length l).
Proof. induction l as [|[] l IH]; cbn [held length]; try lia. case_if; lia. Qed.

Lemma attached_range id f : 0 <= attached id f <= 1.
Proof. unfold attached. case_if; lia. Qed.

Lemma slot_held n m s r b id : slot n m s r b -> 0 <= held_by (rq_iov r) id <= 1024.
Proof.
  intros [[[] _] [] _]. unfold UIO_MAXIOV in *. unfold held_by. pose proof (held_nonneg id (take (Z.to_nat (ci_index (rq_iov r))) (ci_refs (rq_iov r)))).
  pose proof (held_le id (take (Z.to_nat (ci_index (rq_iov r))) (ci_refs (rq_iov r)))) as Hl. rewrite length_take in Hl. lia.
Qed.

Lemma zsum_bound {A} (f : A -> Z) c l : (forall x, x ∈ l -> 0 <= f x <= c) -> 0 <= zsum f l <= c * Z.of_nat (length l).
Proof.
  induction l as [|x l IH]; intros H; cbn [zsum length]; [lia|].
  specialize (IH ltac:(intros; apply H; now right)). specialize (H x ltac:(left)). lia.
Qed.

Lemma holds_bound n m cx outs id : ctx_ok n m cx outs -> 0 <= holds cx id < 2 ^ 31 - 2.
Proof.
  intros [Hl Hs _ _ (H1 & _ & H2)]. unfold holds.
  pose proof (zsum_bound (fun r => held_by (rq_iov r) id) 1024 (rl_rs (cx_rl cx))) as B1.
  pose proof (zsum_bound (attached id) 1 (cx_fdl cx) ltac:(intros; apply attached_range)) as B2.
  pose proof (lo_rs _ Hl). lapply B1; [lia|]. intros r Hr. apply list_elem_of_lookup in Hr as [i Hi].
  destruct (Forall2_lookup_l _ _ _ _ _ Hs Hi) as (b & _ & Hb). now apply (slot_held n m (cx_store cx) r b).
Qed.

Lemma zsum_elem {A} (f : A -> Z) l i x : (forall x, x ∈ l -> 0 <= f x) -> l !! i = Some x -> f x <= zsum f l.
Proof.
  revert i; induction l as [|y l IH]; intros i Hf Hi; [done|]. cbn [zsum].
  pose proof (Hf y ltac:(left)). pose proof (zsum_nonneg f l ltac:(intros; apply Hf; now right)).
  destruct i as [|i]; [injection Hi as <-; lia|]. specialize (IH i ltac:(intros; apply Hf; now right) Hi). lia.
Qed.

Lemma held_holds n m cx outs i r id : ctx_ok n m cx outs -> rl_rs (cx_rl cx) !! i = Some r -> held_by (rq_iov r) id <= holds cx id.
Proof.
  intros [_ Hs _ _ _] Hi. unfold holds.
  pose proof (zsum_nonneg (attached id) (cx_fdl cx) ltac:(intros; apply attached_range)).
  pose proof (zsum_elem (fun r => held_by (rq_iov r) id) _ _ _ ltac:(intros; apply held_nonneg) Hi). cbn beta in *. lia.
Qed.

Lemma fd_holds cx k f id : cx_fdl cx !! k = Some f -> fd_chunk f = Some id -> 1 <= holds cx id.
Proof.
  intros Hk Hf. unfold holds. pose proof (zsum_nonneg (fun r => held_by (rq_iov r) id) (rl_rs (cx_rl cx)) ltac:(intros; apply held_nonneg)).
  pose proof (zsum_elem (attached id) _ _ _ ltac:(intros; apply attached_range) Hk) as H1. unfold attached in H1 at 1.
  rewrite bool_decide_true in H1 by done. lia.
Qed.

Lemma held_chunk n m cx outs id : ctx_ok n m cx outs -> 0 < holds cx id -> exists ck, st_chunks (cx_store cx) !! id = Some ck /\ ck_refs ck = holds cx id.
Proof. intros [_ _ Hr _ _] Hh. specialize (Hr id). destruct (st_chunks _ !! id) as [ck|]; [eauto|lia]. Qed.

Lemma slot_kept n m s s' r b :
  slot n m s r b -> st_mem s' = st_mem s -> (forall id, 0 < held_by (rq_iov r) id -> kept s s' id) -> slot n m s' r b.
Proof. intros [Hv Hr Hm] H1 H2. split; [now apply (vec_kept s)|done|done]. Qed.

(** The same requests over another store. *)
Lemma ctx_ok_store n m cx cx' outs :
  ctx_ok n m cx outs -> cx_rl cx' = cx_rl cx -> length (cx_fdl cx') = length (cx_fdl cx) ->
  st_mem (cx_store cx') = st_mem (cx_store cx) ->
  (forall i r id, rl_rs (cx_rl cx) !! i = Some r -> 0 < held_by (rq_iov r) id -> kept (cx_store cx) (cx_store cx') id) ->
  refs_ok (cx_store cx') (holds cx') ->
  (forall id ck, st_chunks (cx_store cx') !! id = Some ck -> chunk_ok ck /\ (id < st_next (cx_store cx'))%nat) ->
  ctx_ok n m cx' outs.
Proof.
  intros [H1 H2 H3 H4 H5] Hrl Hf Hm Hk Hr Hc. split; rewrite ?Hrl, ?Hf; try done.
  apply Forall2_same_length_lookup_2; [now apply Forall2_length in H2|]. intros i r b Hi Hb.
  apply (slot_kept n m (cx_store cx)); [exact (Forall2_lookup_lr _ _ _ _ _ _ H2 Hi Hb)|done|]. intros id. now apply (Hk i r).
Qed.

(** ** A record of output reaches its request *)

(** The chunks but for the counts of references. *)
Definition unref (ck : chunk) : chunk := ck <| ck_refs := 0 |>.
Definition same_layout (s s' : store) : Prop :=
  (forall id, unref <$> st_chunks s' !! id = unref <$> st_chunks s !! id) /\ st_mem s' = st_mem s /\ st_next s' = st_next s.

Lemma same_layout_refl s : same_layout s s.
Proof. done. Qed.
Lemma same_layout_trans s1 s2 s3 : same_layout s1 s2 -> same_layout s2 s3 -> same_layout s1 s3.
Proof. intros (H1 & H2 & H3) (H4 & H5 & H6). split; [|split; congruence]. intros id. now rewrite H4. Qed.

Lemma same_layout_chunk s s' id ck : same_layout s s' -> st_chunks s !! id = Some ck ->
  exists ck', st_chunks s' !! id = Some ck' /\ ck_read ck' = ck_read ck /\ ck_write ck' = ck_write ck /\
    ck_size ck' = ck_size ck /\ ck_data ck' = ck_data ck.
Proof.
  intros (H & _ & _) Hc. specialize (H id). rewrite Hc in H. destruct (st_chunks s' !! id) as [ck'|]; [|done].
  injection H as H1 H2 H3 H4. eauto 10.
Qed.

Lemma with_ref_layout id ck s : st_chunks s !! id = Some ck -> same_layout s (with_ref id ck s).
Proof.
  intros Hc. split; [|done]. intros x. cbn. destruct (decide (id = x)) as [<-|Hne].
  - now rewrite lookup_insert_eq, Hc.
  - now rewrite lookup_insert_ne.
Qed.

Definition stdout_of (ck : chunk) (h : fcgi_header) (cp : chunk_ptr) : bytes :=
  take (Z.to_nat (h_body_len h)) (drop (Z.to_nat (cp_data cp + FCGI_HEADER_LEN)) (ck_data ck)).

Lemma request_add_pkg_ok n m s r b h cp ck :
  slot n m s r b -> 1 <= n -> rq_state r = REQ_SENT -> st_chunks s !! cp_parent cp = Some ck ->
  (forall id ck, st_chunks s !! id = Some ck -> chunk_ok ck) ->
  0 <= cp_data cp -> cp_data cp + cp_len cp <= ck_write ck -> FCGI_HEADER_LEN + h_body_len h + h_body_pad h <= cp_len cp ->
  0 < h_body_len h <= m -> 0 <= h_body_pad h ->
  exists iov', request_add_pkg r h cp s =
      Some (FCGI_HEADER_LEN + h_body_len h + h_body_pad h, r <| rq_iov := iov' |>, with_ref (cp_parent cp) ck s) /\
    slot (n - 1) (m - h_body_len h) (with_ref (cp_parent cp) ck s) (r <| rq_iov := iov' |>) (b ++ stdout_of ck h cp) /\
    (forall id, held_by iov' id = held_by (rq_iov r) id + (if Nat.eqb (cp_parent cp) id then 1 else 0)).
Proof.
  intros [Hv [Hi Hsz] Hm] Hn Hst Hck Hall Hd Hw Hp Hb Hpad. unfold request_add_pkg.
  replace (_ <=? cp_len cp) with true by zb. rewrite bool_decide_true by done. cbn [negb].
  set (cp' := cp <| cp_data := _ |> <| cp_len := _ |>).
  assert (Hchunk : ck_write ck <= Z.of_nat (length (ck_data ck))) by (destruct (Hall _ _ Hck); lia).
  assert (Hadd : forall iov, vec_ok s iov b -> ci_index iov = ci_index (rq_iov r) -> ci_index iov < ci_size iov -> ci_size iov <= UIO_MAXIOV ->
     (forall id, held_by iov id = held_by (rq_iov r) id) ->
     exists iov', chunk_iov_add iov cp' s = Some (0, iov', with_ref (cp_parent cp) ck s) /\
     slot (n - 1) (m - h_body_len h) (with_ref (cp_parent cp) ck s) (r <| rq_iov := iov' |>) (b ++ stdout_of ck h cp) /\
     (forall id, held_by iov' id = held_by (rq_iov r) id + (if Nat.eqb (cp_parent cp) id then 1 else 0))).
  { intros iov Hviov Hidx Hlt Hmax Hheld.
    destruct (chunk_iov_add_ok s iov b cp' ck Hviov Hlt Hck) as (iov' & E & Hv' & E1 & E2 & E3); cbn;
      [unfold FCGI_HEADER_LEN in *; lia..|intros id ck' _ Hck'; destruct (Hall _ _ Hck'); lia|lia|].
    exists iov'. split; [exact E|]. split; [|intros id; now rewrite E3, Hheld]. split; cbn; [exact Hv'|lia|].
    rewrite length_app. unfold stdout_of. rewrite length_take. lia. }
  destruct (Z_lt_dec (ci_index (rq_iov r)) (ci_size (rq_iov r))) as [Hlt|Hge].
  { destruct (Hadd _ Hv eq_refl Hlt Hsz ltac:(done)) as (iov' & -> & Hs & Hh). mstep. cbn beta iota zeta. rewrite Z.eqb_refl. eauto. }
  pose proof (vec_index _ _ _ Hv) as Hidx. rewrite chunk_iov_add_full by lia. mstep.
  change (-1 =? 0) with false. cbn iota. cbn [rq_iov set_field].
  destruct (chunk_iov_resize_ok s (rq_iov r) b (ci_size (rq_iov r) + 2) Hv) as (iov1 & -> & Hv1 & E1 & E2 & E3); [lia|].
  cbn [Z.eqb negb rq_iov set_field].
  destruct (Hadd _ Hv1 E1) as (iov' & E & Hs & Hh); [lia|lia|done|]. rewrite E. mstep. cbn [Z.eqb negb]. exists iov'. done.
Qed.

Section Receive.
Context `{env : Env} `{globals : FcgiGlobals}.

Definition states_of (cx : fcgi_context) : list request_state := map rq_state (rl_rs (cx_rl cx)).

(** What the reception of output keeps. *)
Record frame (cx cx' : fcgi_context) : Prop := {
  fr_layout : same_layout (cx_store cx) (cx_store cx');
  fr_fdl : cx_fdl cx' = cx_fdl cx;
  fr_states : states_of cx' = states_of cx;
  fr_off : rl_id_offset (cx_rl cx') = rl_id_offset (cx_rl cx)
}.

Lemma frame_refl cx : frame cx cx.
Proof. done. Qed.
Lemma frame_trans cx1 cx2 cx3 : frame cx1 cx2 -> frame cx2 cx3 -> frame cx1 cx3.
Proof. intros [] []. split; try congruence. now apply same_layout_trans with (cx_store cx2). Qed.

(** A record the server sends while it works on a request: output, or a type
    the plugin takes no notice of. *)
Record good (off : Z) (states : list request_state) (h : fcgi_header) : Prop := {
  gd_id : off <= h_req_id h < off + Z.of_nat (length states);
  gd_type : h_type h <> FCGI_END_REQUEST /\ h_type h <> 0;
  gd_out : h_type h = FCGI_STDOUT -> 0 < h_body_len h /\ states !! Z.to_nat (h_req_id h - off) = Some REQ_SENT
}.

Definition deliver1 (off : Z) (outs : list bytes) (r : fcgi_header * bytes) : list bytes :=
  if h_type (fst r) =? FCGI_STDOUT then alter (fun out => out ++ snd r) (Z.to_nat (h_req_id (fst r) - off)) outs else outs.
Definition deliver (off : Z) (rs : list (fcgi_header * bytes)) (outs : list bytes) : list bytes := fold_left (deliver1 off) rs outs.

Lemma bindF_run {A B} (m : F A) (k : A -> F B) cx w a cx' w' : m cx w = Some (a, cx', w') -> (m ≫= k) cx w = k a cx' w'.
Proof. intros H. unfold mbind, F_bind. now rewrite H. Qed.

Lemma on_store_run {A} (f : store -> option (A * store)) cx w a s :
  f (cx_store cx) = Some (a, s) -> on_store f cx w = Some (a, cx <| cx_store := s |>, w).
Proof. intros H. unfold on_store, mbind, F_bind, get_cx, liftF, put_cx, mret, F_ret. mstep. now rewrite H. Qed.

Lemma get_fd_run k f cx w : cx_fdl cx !! k = Some f -> get_fd k cx w = Some (f, cx, w).
Proof. intros H. unfold get_fd, mbind, F_bind, get_cx, liftF. now rewrite H. Qed.

Lemma get_req_run i r cx w : rl_rs (cx_rl cx) !! i = Some r -> get_req i cx w = Some (r, cx, w).
Proof. intros H. unfold get_req, mbind, F_bind, get_cx, liftF. now rewrite H. Qed.

Definition with_req (i : nat) (r : request) (s : store) (cx : fcgi_context) : fcgi_context :=
  cx <| cx_store := s |> <| cx_rl := cx_rl cx <| rl_rs := <[i := r]> (rl_rs (cx_rl cx)) |> |>.

Lemma on_req_run {A} i r (f : request -> store -> option (A * request * store)) cx w a r' s :
  rl_rs (cx_rl cx) !! i = Some r -> f r (cx_store cx) = Some (a, r', s) -> on_req i f cx w = Some (a, with_req i r' s cx, w).
Proof.
  intros Hi H. unfold on_req. rewrite (bindF_run _ _ _ _ _ _ _ (get_req_run i r cx w Hi)).
  unfold mbind, F_bind, get_cx, liftF, put_cx, put_req, mod_cx, mret, F_ret. mstep. now rewrite H.
Qed.

Lemma with_req_list_ok i r s cx : list_ok (cx_rl cx) -> list_ok (cx_rl (with_req i r s cx)).
Proof.
  intros [? ? [Hc1 Hc2 Hc3 Hc4] ? ?]. split; cbn; rewrite ?length_insert; try done. split; try done. now rewrite length_insert.
Qed.

(** The counts of references with one vector changed. *)
Lemma holds_with_req i r r' s cx id : rl_rs (cx_rl cx) !! i = Some r ->
  holds (with_req i r' s cx) id = holds cx id - held_by (rq_iov r) id + held_by (rq_iov r') id.
Proof. intros Hi. unfold holds. cbn. rewrite (FcgiContext.zsum_insert _ _ _ r) by done. lia. Qed.

Lemma refs_with_ref s id ck h h' :
  st_chunks s !! id = Some ck -> refs_ok s h -> 0 <= h id < 2 ^ 31 - 1 -> (forall x, h' x = h x + (if Nat.eqb id x then 1 else 0)) ->
  refs_ok (with_ref id ck s) h'.
Proof.
  intros Hc Hr Hb Hh x. cbn. specialize (Hr x). rewrite Hh. destruct (Nat.eqb_spec id x) as [<-|Hne].
  - rewrite lookup_insert_eq. rewrite Hc in Hr. cbn. rewrite i32_small; lia.
  - rewrite lookup_insert_ne by done. destruct (st_chunks s !! x); lia.
Qed.

Lemma slot_weaken n m n' m' s r b : slot n m s r b -> n' <= n -> m' <= m -> slot n' m' s r b.
Proof. intros [H1 H2 H3] Hn Hm. split; [done|lia|lia]. Qed.

Lemma ctx_ok_weaken n m n' m' cx outs : ctx_ok n m cx outs -> n' <= n -> m' <= m -> ctx_ok n' m' cx outs.
Proof.
  intros [H1 H2 H3 H4 H5] Hn Hm. split; try done. eapply Forall2_impl; [exact H2|]. intros r b H. now apply (slot_weaken n m).
Qed.

Lemma handle_stdout_run n m cx outs i r b h read ck w :
  ctx_ok n m cx outs -> 1 <= n -> rl_rs (cx_rl cx) !! i = Some r -> outs !! i = Some b -> rq_state r = REQ_SENT ->
  st_chunks (cx_store cx) !! cp_parent read = Some ck ->
  0 <= cp_data read -> cp_data read + cp_len read <= ck_write ck -> FCGI_HEADER_LEN + h_body_len h + h_body_pad h <= cp_len read ->
  0 < h_body_len h <= m -> 0 <= h_body_pad h ->
  exists cx', handle_stdout i h read cx w = Some (0, cx', w) /\
    ctx_ok (n - 1) (m - h_body_len h) cx' (<[i := b ++ stdout_of ck h read]> outs) /\ frame cx cx'.
Proof.
  intros Hok Hn Hi Hb Hst Hck H1 H2 H3 H4 H5. pose proof Hok as [Hl Hs Hr Hc Hz].
  pose proof (Forall2_lookup_lr _ _ _ _ _ _ Hs Hi Hb) as Hslot.
  destruct (request_add_pkg_ok n m (cx_store cx) r b h read ck) as (iov' & Ea & Hslot' & Hheld); try done; [intros id ck' Hk; exact (proj1 (Hc id ck' Hk))|].
  unfold handle_stdout. rewrite (bindF_run _ _ _ _ _ _ _ (get_req_run i r cx w Hi)). rewrite bool_decide_false by congruence.
  replace (h_body_len h =? 0) with false by zb. erewrite bindF_run; [|now apply (on_req_run _ r); [|exact Ea]].
  replace (0 <? _) with true by (unfold FCGI_HEADER_LEN in *; zb). eexists. split; [reflexivity|].
  set (s' := with_ref (cp_parent read) ck (cx_store cx)) in *. set (r' := r <| rq_iov := iov' |>) in *.
  assert (Hlay : same_layout (cx_store cx) s') by now apply with_ref_layout.
  assert (Hchunk : forall id ck, st_chunks (cx_store cx) !! id = Some ck -> ck_write ck <= Z.of_nat (length (ck_data ck)))
    by (intros id ck' Hck'; destruct (Hc _ _ Hck') as [[] _]; lia).
  split; [split|].
  - now apply with_req_list_ok.
  - cbn [with_req cx_rl cx_store rl_rs set_field]. apply Forall2_insert; [|exact Hslot'].
    eapply Forall2_impl; [exact Hs|]. intros q o Hq. apply (slot_weaken n m); [|lia|lia]. apply (slot_kept n m (cx_store cx)); [done|done|].
    intros id _. apply with_ref_kept; [done|exact (Hchunk _ _ Hck)|intros ck0; exact (Hchunk id ck0)].
  - apply (refs_with_ref _ _ _ (holds cx)); [done|done| |].
    + pose proof (holds_bound n m cx outs (cp_parent read) Hok). lia.
    + intros x. rewrite (holds_with_req _ r) by done. unfold r'. cbn [rq_iov set_field]. rewrite Hheld. lia.
  - intros id ck' Hck'. destruct (same_layout_chunk s' (cx_store cx) id ck') as (ck0 & Hck0 & G1 & G2 & G3 & G4); [|done|].
    { destruct Hlay as (L1 & L2 & L3). split; [|done]. intros x. now rewrite L1. }
    destruct (Hc _ _ Hck0) as [[C1 C2] C3]. rewrite G1, G2, G3, G4 in *. split; [now split|exact C3].
  - exact Hz.
  - split; [exact Hlay|done| |done]. unfold states_of. cbn. rewrite list_fmap_insert. apply list_insert_id. now rewrite list_lookup_fmap, Hi.
Qed.

Lemma request_list_get_run n m cx outs req_id :
  ctx_ok n m cx outs -> rl_id_offset (cx_rl cx) <= req_id < rl_id_offset (cx_rl cx) + Z.of_nat (length (states_of cx)) ->
  exists rl, request_list_get (cx_rl cx) req_id = Some (Some (Z.to_nat (req_id - rl_id_offset (cx_rl cx))), rl) /\
    ctx_ok n m (cx <| cx_rl := rl |>) outs /\ frame cx (cx <| cx_rl := rl |>) /\ rl_rs rl = rl_rs (cx_rl cx).
Proof.
  intros [Hl Hs Hr Hc (Hz & Hz2 & Hz3)] Hid. unfold states_of in Hid. rewrite length_map in Hid. pose proof (lo_rs _ Hl) as Hn.
  unfold request_list_get. rewrite u16_small by lia. replace (rl_id_offset _ <=? req_id) with true by zb.
  replace (_ <? rl_size (cx_rl cx)) with true by zb. cbn [negb]. set (i := Z.to_nat _).
  destruct (lookup_lt_is_Some_2 (rl_rs (cx_rl cx)) i) as [req Hreq]; [lia|]. rewrite Hreq. mstep.
  destruct (request_cache_hit_ok (rl_rs (cx_rl cx)) (rl_cache (cx_rl cx)) i req (lo_cache _ Hl)) as (c & -> & Hcc); [lia|]. mstep.
  eexists. split; [reflexivity|]. split; [|split; [|done]]; split; try done. destruct Hl. now split.
Qed.

Lemma alter_insert {A} (f : A -> A) (i : nat) (l : list A) x : l !! i = Some x -> alter f i l = <[i := f x]> l.
Proof. intros H. rewrite list_insert_alter. apply list_alter_ext; [|done]. intros y Hy. congruence. Qed.

(** What a record changes of what the requests received. *)
Lemma fcgi_handle_pkg_run n m cx outs fd i h read ck w :
  ctx_ok n m cx outs -> 1 <= n -> i = Z.to_nat (h_req_id h - rl_id_offset (cx_rl cx)) ->
  good (rl_id_offset (cx_rl cx)) (states_of cx) h ->
  st_chunks (cx_store cx) !! cp_parent read = Some ck ->
  0 <= cp_data read -> cp_data read + cp_len read <= ck_write ck -> FCGI_HEADER_LEN + h_body_len h + h_body_pad h <= cp_len read ->
  0 <= h_body_len h <= m -> 0 <= h_body_pad h ->
  exists cx', fcgi_handle_pkg fd (Some i) h read cx w = Some (0, cx', w) /\
    ctx_ok (n - 1) (m - h_body_len h) cx' (deliver1 (rl_id_offset (cx_rl cx)) outs (h, stdout_of ck h read)) /\ frame cx cx'.
Proof.
  intros Hok Hn -> [Hid [Ht1 Ht2] Hout] Hck H1 H2 H3 H4 H5. unfold fcgi_handle_pkg, deliver1. cbn [fst snd].
  replace (h_type h =? FCGI_END_REQUEST) with false by zb. replace (h_type h =? 0) with false by zb.
  pose proof (ctx_ok_weaken n m (n - 1) (m - h_body_len h) cx outs Hok ltac:(lia) ltac:(lia)) as Hok'.
  destruct (h_type h =? FCGI_STDOUT) eqn:Et; zbool.
  - replace (h_type h =? FCGI_STDERR) with false by (rewrite Et; reflexivity).
    destruct (Hout Et) as [Hb Hst]. unfold states_of in *. rewrite list_lookup_fmap in Hst.
    destruct (rl_rs (cx_rl cx) !! _) as [r|] eqn:Hi; [|done]. cbn in Hst. injection Hst as Hst.
    destruct (Forall2_lookup_l _ _ _ _ _ (cxo_slots _ _ _ _ Hok) Hi) as (b & Hbi & _).
    destruct (handle_stdout_run n m cx outs _ r b h read ck w Hok Hn Hi Hbi Hst Hck) as (cx' & E & Hok1 & Hfr); try done; [lia|].
    exists cx'. rewrite (bindF_run _ _ _ _ _ _ _ E). split; [reflexivity|]. split; [|done].
    now rewrite (alter_insert _ _ _ b) by done.
  - exists cx. split; [destruct (h_type h =? FCGI_STDERR); reflexivity|]. split; [done|apply frame_refl].
Qed.

(** ** The records of a chunk *)

Definition total (rs : list (fcgi_header * bytes)) : Z := zsum (fun r => Z.of_nat (length (snd r))) rs.

Definition behind (c : nat) (read : chunk_ptr) (pos : Z) : Prop := cp_parent read = c /\ cp_data read = pos /\ cp_len read = 0.

(** A position the loop stops at. *)
Lemma handle_records_end fuel fd read inherit pkg h cx w :
  cp_len read = 0 -> handle_records fcgi_handle_pkg (S fuel) fd read inherit pkg h cx w = Some (Some (read, inherit, pkg, h), cx, w).
Proof. intros H. cbn [handle_records]. now rewrite H. Qed.

(** What [read] points to, seen from the chunk. *)
Lemma chunk_bytes_run cp s ck : st_chunks s !! cp_parent cp = Some ck -> 0 <= cp_data cp <= Z.of_nat (length (ck_data ck)) ->
  chunk_bytes cp s = Some (drop (Z.to_nat (cp_data cp)) (ck_data ck)).
Proof. intros Hc Hd. unfold chunk_bytes. rewrite Hc. mstep. now rewrite padd_drop. Qed.

Definition seen (ck : chunk) (read : chunk_ptr) : bytes := take (Z.to_nat (cp_len read)) (drop (Z.to_nat (cp_data read)) (ck_data ck)).

Record reading (s : store) (ck : chunk) (read : chunk_ptr) : Prop := {
  rg_chunk : st_chunks s !! cp_parent read = Some ck;
  rg_pos : 0 <= cp_data read /\ 0 <= cp_len read /\ cp_data read + cp_len read <= ck_write ck;
  rg_data : ck_write ck <= Z.of_nat (length (ck_data ck))
}.

Lemma length_seen s ck read : reading s ck read -> Z.of_nat (length (seen ck read)) = cp_len read.
Proof. intros [_ H1 H2]. unfold seen. rewrite length_take, length_drop. lia. Qed.

Definition advance (read : chunk_ptr) (n : Z) : chunk_ptr := read <| cp_data := cp_data read + n |> <| cp_len := cp_len read - n |>.

Lemma reading_advance s ck read n : reading s ck read -> 0 <= n <= cp_len read ->
  reading s ck (advance read n) /\ seen ck (advance read n) = drop (Z.to_nat n) (seen ck read).
Proof.
  intros [H1 H2 H3] Hn. split; [split; cbn; [done|lia|done]|]. unfold seen. cbn.
  rewrite skipn_firstn_comm, drop_drop. f_equal; [lia|]. f_equal. lia.
Qed.

Lemma reading_frame s s' ck read : reading s ck read -> same_layout s s' -> exists ck', reading s' ck' read /\ seen ck' read = seen ck read.
Proof.
  intros [H1 H2 H3] Hs. destruct (same_layout_chunk _ _ _ _ Hs H1) as (ck' & G1 & G2 & G3 & G4 & G5). exists ck'.
  split; [split; rewrite ?G3, ?G5; done|]. unfold seen. now rewrite G5.
Qed.

(** The size of the largest record. *)
Definition PKG_MAX : Z := 65798.

(** A record that is not whole: the rest of the chunk, passed over. *)
Lemma handle_records_partial fuel fd read pkg h cx w ck :
  reading (cx_store cx) ck read -> octets (seen ck read) -> whole (seen ck read) = None -> (Z.to_nat (cp_len read) < fuel)%nat -> 0 <= pkg <= PKG_MAX ->
  exists pkg' h', handle_records fcgi_handle_pkg fuel fd read 0 pkg h cx w =
    Some (Some (advance read (cp_len read), cp_len read, pkg', h'), cx, w) /\
    (0 < cp_len read -> cp_len read < pkg') /\ 0 <= pkg' <= PKG_MAX.
Proof.
  intros Hr Ho Hw Hf Hpkg. pose proof Hr as [Hc Hp Hd]. pose proof (length_seen _ _ _ Hr) as Hlen.
  destruct (Z_lt_dec 0 (cp_len read)) as [Hlt|].
  2:{ destruct fuel as [|fuel]; [lia|]. rewrite handle_records_end by lia. exists pkg, h. unfold advance.
      replace (cp_len read) with 0 by lia. destruct read; cbn in *. replace cp_len with 0 by lia. rewrite !Z.add_0_r. split; [done|]. split; [lia|done]. }
  destruct fuel as [|[|fuel]]; [lia|lia|].
  remember (S fuel) as fuel1. cbn [handle_records]. replace (0 <? cp_len read) with true by zb. cbn [negb].
  unfold mbind at 1, F_bind at 1, get_cx at 1. unfold whole in Hw. rewrite Hlen in Hw.
  destruct (cp_len read <? FCGI_HEADER_LEN) eqn:E1; zbool.
  - erewrite bindF_run; [|reflexivity]. cbn beta iota zeta. replace (_ <? FCGI_HEADER_LEN) with true by zb. subst fuel1.
    fold (advance read (cp_len read)). rewrite handle_records_end by (cbn; lia). eexists _, _. split; [reflexivity|]. split; [lia|done].
  - destruct (header_some (seen ck read)) as [h' Hh]; [unfold FCGI_HEADER_LEN in *; lia|].
    destruct (octets_header _ _ _ Ho Hh) as [[] _]. rewrite Hh in Hw. mstep. cbn [mbind option_bind] in Hw.
    case_if_in Hw; [|done]. zbool. unfold seen in Hh. rewrite header_take in Hh by (rewrite ?length_drop; unfold FCGI_HEADER_LEN in *; lia).
    erewrite bindF_run.
    2:{ erewrite bindF_run; [|unfold liftF; rewrite (chunk_bytes_run _ _ _ Hc) by lia; reflexivity].
        erewrite bindF_run; [|unfold liftF; rewrite Hh; reflexivity]. reflexivity. }
    cbn beta iota zeta. replace (cp_len read <? _) with true by zb. subst fuel1.
    fold (advance read (cp_len read)). rewrite handle_records_end by (cbn; lia). eexists _, _. split; [reflexivity|]. unfold PKG_MAX, FCGI_HEADER_LEN in *. lia.
Qed.

Lemma stdout_seen ck read h n : reading n ck read -> FCGI_HEADER_LEN + h_body_len h <= cp_len read -> 0 <= h_body_len h ->
  stdout_of ck h read = body_of h (seen ck read).
Proof.
  unfold FCGI_HEADER_LEN. intros [_ H1 H2] Hl Hb. unfold stdout_of, body_of, seen, FCGI_HEADER_LEN.
  rewrite skipn_firstn_comm, drop_drop, take_take. f_equal; [lia|]. f_equal. lia.
Qed.

Lemma length_body h b : header_ok h -> FCGI_HEADER_LEN + h_body_len h <= Z.of_nat (length b) -> Z.of_nat (length (body_of h b)) = h_body_len h.
Proof. intros [_ _ _ _ H] Hl. unfold FCGI_HEADER_LEN in Hl. unfold body_of. rewrite length_take, length_drop. lia. Qed.

Lemma handle_records_run fd b rs left : recs b rs left -> forall fuel n m cx outs read pkg h w ck,
  ctx_ok n m cx outs -> reading (cx_store cx) ck read -> seen ck read = b -> octets b ->
  Forall (fun r => good (rl_id_offset (cx_rl cx)) (states_of cx) (fst r)) rs ->
  Z.of_nat (length rs) <= n -> total rs <= m -> (Z.to_nat (cp_len read) < fuel)%nat -> 0 <= pkg <= PKG_MAX ->
  exists cx' read' pkg' h', handle_records fcgi_handle_pkg fuel fd read 0 pkg h cx w =
      Some (Some (read', Z.of_nat (length left), pkg', h'), cx', w) /\
    ctx_ok (n - Z.of_nat (length rs)) (m - total rs) cx' (deliver (rl_id_offset (cx_rl cx)) rs outs) /\ frame cx cx' /\
    behind (cp_parent read) read' (cp_data read + cp_len read) /\ (left <> [] -> Z.of_nat (length left) < pkg') /\ 0 <= pkg' <= PKG_MAX.
Proof.
  induction 1 as [b Hw|b h0 k rs left Hw Hrec IH]; intros fuel n m cx outs read pkg h w ck Hok Hr <- Ho Hg Hn Hm Hf Hpkg.
  - destruct (handle_records_partial fuel fd read pkg h cx w ck Hr Ho Hw Hf Hpkg) as (pkg' & h' & E & Hp & Hpkg').
    rewrite (length_seen _ _ _ Hr). eexists cx, _, pkg', h'. split; [exact E|]. cbn [length Z.of_nat total zsum deliver fold_left].
    rewrite !Z.sub_0_r. split; [done|]. split; [apply frame_refl|]. split; [split; [done|]; cbn; lia|]. split; [|done]. intros Hne. apply Hp.
    rewrite <- (length_seen _ _ _ Hr). destruct (seen ck read); [done|cbn; lia].
  - destruct (whole_Some _ _ _ Ho Hw) as (Hh & Hrd & Hk & Hz). pose proof Hr as [Hc Hp Hd]. pose proof (length_seen _ _ _ Hr) as Hlen.
    pose proof (ho_len _ Hh). pose proof (ho_pad _ Hh). unfold FCGI_HEADER_LEN in Hz.
    unfold seen in Hrd. rewrite header_take in Hrd by (rewrite ?length_drop; lia).
    apply Forall_cons in Hg as [Hg1 Hg]. cbn [fst] in Hg1. cbn [length] in Hn. unfold total in Hm. cbn [zsum snd] in Hm. fold (total rs) in Hm.
    rewrite length_body in Hm by (done || unfold FCGI_HEADER_LEN; lia).
    destruct (request_list_get_run n m cx outs (h_req_id h0) Hok (gd_id _ _ _ Hg1)) as (rl & Eg & Hok1 & Hfr1 & Hrs).
    set (cx1 := cx <| cx_rl := rl |>) in *.
    pose proof (zsum_nonneg (fun r : fcgi_header * bytes => Z.of_nat (length (snd r))) rs ltac:(intros; cbn; lia)) as Htot. fold (total rs) in Htot.
    destruct (fcgi_handle_pkg_run n m cx1 outs fd _ h0 read ck w Hok1 ltac:(lia) eq_refl) as (cx2 & Eh & Hok2 & Hfr2); try done;
      [now rewrite (fr_off _ _ Hfr1), (fr_states _ _ Hfr1)|try (unfold FCGI_HEADER_LEN; lia)..|].
    destruct fuel as [|fuel]; [lia|]. cbn [handle_records]. replace (0 <? cp_len read) with true by zb. cbn [negb].
    unfold mbind at 1, F_bind at 1, get_cx at 1. replace (cp_len read <? FCGI_HEADER_LEN) with false by (unfold FCGI_HEADER_LEN; zb).
    erewrite bindF_run.
    2:{ erewrite bindF_run; [|unfold liftF; rewrite (chunk_bytes_run _ _ _ Hc) by lia; reflexivity].
        erewrite bindF_run; [|unfold liftF; rewrite Hrd; reflexivity]. reflexivity. }
    cbn beta iota zeta. replace (cp_len read <? _) with false by (unfold FCGI_HEADER_LEN; zb).
    erewrite bindF_run.
    2:{ unfold on_list, mbind, F_bind, get_cx, liftF, put_cx, mret, F_ret. rewrite Eg. mstep. reflexivity. }
    fold cx1. rewrite (fr_off _ _ Hfr1) in Eh. rewrite (bindF_run _ _ _ _ _ _ _ Eh). cbn [Z.eqb negb].
    pose proof (frame_trans _ _ _ Hfr1 Hfr2) as Hfr. fold (advance read (FCGI_HEADER_LEN + h_body_len h0 + h_body_pad h0)).
    replace (FCGI_HEADER_LEN + h_body_len h0 + h_body_pad h0) with (Z.of_nat k) by (unfold FCGI_HEADER_LEN; lia).
    destruct (reading_advance _ _ _ (Z.of_nat k) Hr ltac:(lia)) as [Hr1 Es1]. rewrite Nat2Z.id in Es1.
    destruct (reading_frame _ _ _ _ Hr1 (fr_layout _ _ Hfr)) as (ck2 & Hr2 & Es2).
    destruct (IH fuel (n - 1) (m - h_body_len h0) cx2 _ (advance read (Z.of_nat k)) (Z.of_nat k) h0 w ck2 Hok2 Hr2) as
      (cx3 & read' & pkg' & h' & E & Hok3 & Hfr3 & Hb & Hp'); [congruence|now apply octets_drop| |lia|lia|cbn; lia|unfold PKG_MAX; lia|].
    { now rewrite (fr_off _ _ Hfr), (fr_states _ _ Hfr). }
    exists cx3, read', pkg', h'. split; [exact E|]. rewrite (fr_off _ _ Hfr) in Hok3. split; [|split; [|split; [|exact Hp']]].
    + rewrite (fr_off _ _ Hfr1), (stdout_seen _ _ _ (cx_store cx)) in Hok3 by (done || unfold FCGI_HEADER_LEN; lia).
      unfold total. cbn [length zsum snd]. fold (total rs). rewrite length_body by (done || unfold FCGI_HEADER_LEN; lia).
      eapply ctx_ok_weaken; [exact Hok3|lia|lia].
    + now apply frame_trans with cx2.
    + destruct Hb as (B1 & B2 & B3). split; [exact B1|]. cbn in B2. split; [lia|done].
Qed.
End Receive.
