(* ===== verification/FcgiRecvSpec.v ===== *)
(** * Receiving from a server: the stream is put together again

    However the network cuts the stream of a server into reads, the bytes of
    the records reach the vectors of their requests in order, no chunk that is
    still referred to is freed, and what is not yet a whole record is kept for
    the next call. *)
From stdpp Require Import gmap.
From S2P Require Import Prelude CString MkString MkMemory MkTypes MkToc MkSession MkEpoll MkPlugin MkScheduler MkResponse.
From S2P Require Import FcgiProtocol FcgiChunk FcgiRequest FcgiConfig FcgiFd FcgiContext FcgiEnv FcgiCore FcgiRecv FcgiRecords.
Local Open Scope Z_scope.

Section Receive.
Context `{env : Env} `{globals : FcgiGlobals}.

(** ** A chunk of the context changes *)

Definition set_ck (c : nat) (ck : chunk) (s : store) : store := s <| st_chunks := <[c := ck]> (st_chunks s) |>.
Definition with_ck (c : nat) (ck : chunk) (cx : fcgi_context) : fcgi_context := cx <| cx_store := set_ck c ck (cx_store cx) |>.

Lemma ctx_ok_with_ck n m cx outs c ck ck' :
  ctx_ok n m cx outs -> st_chunks (cx_store cx) !! c = Some ck -> chunk_ok ck' -> ck_refs ck' = ck_refs ck ->
  ck_write ck <= ck_write ck' -> take (Z.to_nat (ck_write ck)) (ck_data ck') = take (Z.to_nat (ck_write ck)) (ck_data ck) ->
  ctx_ok n m (with_ck c ck' cx) outs.
Proof.
  intros Hok Hc Hck' Hrefs Hw Ht. pose proof Hok as [_ _ Hr Hch _]. apply (ctx_ok_store n m cx); try done.
  - intros i r id _ _ ck0 Hck0. cbn. destruct (decide (c = id)) as [<-|Hne].
    + rewrite lookup_insert_eq. exists ck'. rewrite Hc in Hck0. injection Hck0 as <-. split; [done|]. split; [done|].
      split; [destruct Hck'; lia|done].
    + rewrite lookup_insert_ne by done. exists ck0. split; [done|]. destruct (Hch _ _ Hck0) as [[] _]. split; [lia|]. split; [lia|done].
  - intros id. specialize (Hr id). cbn. change (holds (with_ck c ck' cx) id) with (holds cx id). destruct (decide (c = id)) as [<-|Hne].
    + rewrite lookup_insert_eq, Hrefs. now rewrite Hc in Hr.
    + now rewrite lookup_insert_ne.
  - intros id ck0. cbn. destruct (decide (c = id)) as [<-|Hne].
    + rewrite lookup_insert_eq. intros [= <-]. split; [done|]. now apply (Hch c ck).
    + rewrite lookup_insert_ne by done. apply Hch.
Qed.

(** ** What was received and not yet taken *)

Definition unread (ck : chunk) : bytes := take (Z.to_nat (ck_write ck - ck_read ck)) (drop (Z.to_nat (ck_read ck)) (ck_data ck)).

Lemma length_unread ck : chunk_ok ck -> Z.of_nat (length (unread ck)) = ck_write ck - ck_read ck.
Proof. intros [H1 H2]. unfold unread. rewrite length_take, length_drop. lia. Qed.

(** The chunk with [d] written behind what it holds. *)
Definition appended (ck : chunk) (d : bytes) : chunk :=
  ck <| ck_data := take (Z.to_nat (ck_write ck)) (ck_data ck) ++ d ++ drop (Z.to_nat (ck_write ck) + length d) (ck_data ck) |>
     <| ck_write := ck_write ck + Z.of_nat (length d) |>.

Lemma appended_ok ck d : chunk_ok ck -> Z.of_nat (length d) <= ck_size ck - ck_write ck ->
  chunk_ok (appended ck d) /\ unread (appended ck d) = unread ck ++ d /\
  take (Z.to_nat (ck_write ck)) (ck_data (appended ck d)) = take (Z.to_nat (ck_write ck)) (ck_data ck) /\
  bwrite (ck_data ck) (ck_write ck) d = Some (ck_data (appended ck d)).
Proof.
  intros [H1 H2] Hd. assert (Hl : length (take (Z.to_nat (ck_write ck)) (ck_data ck)) = Z.to_nat (ck_write ck)) by (rewrite length_take; lia).
  split; [|split; [|split]].
  - split; cbn; [|lia]. rewrite !length_app, length_drop, Hl. lia.
  - unfold unread. cbn. rewrite drop_app_le by (rewrite Hl; lia). rewrite app_assoc, take_app_le.
    2:{ rewrite length_app, length_drop, Hl. lia. }
    rewrite take_ge by (rewrite length_app, length_drop, Hl; lia). f_equal. rewrite skipn_firstn_comm. f_equal. lia.
  - cbn. now rewrite take_app_length' by lia.
  - unfold bwrite. now replace (_ && _) with true by zb.
Qed.

(** ** A read *)

(** The socket [k] is attached to the chunk [c], in which [left] is unread. *)
Record attached_to (cx : fcgi_context) (k : nat) (f : fcgi_fd) (c : nat) (ck : chunk) : Prop := {
  at_fd : cx_fdl cx !! k = Some f;
  at_chunk : fd_chunk f = Some c;
  at_store : st_chunks (cx_store cx) !! c = Some ck
}.

(** [input] is what the server still sends: reads give it in pieces, then EAGAIN. *)
Definition stream (t : list event) (fd : Z) (input : bytes) : Prop :=
  forall ds n, 0 < n ->
    match drop (length (concat ds)) input with
    | [] => net_read (t ++ map (EvRead fd) ds) fd n = inr (-1, true)
    | rest => exists d, net_read (t ++ map (EvRead fd) ds) fd n = inl d /\ d <> [] /\ Z.of_nat (length d) <= n /\ d `prefix_of` rest
    end.

Lemma stream_step t fd d input : stream t fd (d ++ input) -> stream (t ++ [EvRead fd d]) fd input.
Proof.
  intros H ds n Hn. specialize (H (d :: ds) n Hn). cbn [concat map] in H.
  rewrite length_app, <- drop_drop, drop_app_length in H. now rewrite <- app_assoc.
Qed.

(** ** A new chunk *)

Definition fresh_chunk (size : Z) (d : bytes) : chunk := {| ck_read := 0; ck_write := 0; ck_size := size; ck_refs := 1; ck_data := d |}.

(** What the release of the old chunk leaves of it. *)
Definition dropped (ck : chunk) : option chunk := if 0 <? ck_refs ck - 1 then Some (ck <| ck_refs := ck_refs ck - 1 |>) else None.

(** The last bytes of the attached chunk. *)
Definition tail_is (s : store) (o : option nat) (left : bytes) : Prop :=
  left <> [] -> exists b ck, o = Some b /\ st_chunks s !! b = Some ck /\ chunk_ok ck /\ Z.of_nat (length left) <= ck_write ck /\
    take (length left) (drop (Z.to_nat (ck_write ck - Z.of_nat (length left))) (ck_data ck)) = left.

Lemma release_run s b ck : st_chunks s !! b = Some ck -> - 2 ^ 31 < ck_refs ck < 2 ^ 31 ->
  exists r s', chunk_release b s = Some (r, s') /\ st_mem s' = st_mem s /\ st_next s' = st_next s /\
    forall x, st_chunks s' !! x = if Nat.eqb b x then dropped ck else st_chunks s !! x.
Proof.
  intros Hc Hr. unfold chunk_release, upd_chunk, dropped. rewrite Hc. mstep. cbn [st_chunks set_field]. rewrite lookup_insert_eq. mstep.
  cbn [ck_refs set_field]. rewrite i32_small by lia. destruct (0 <? ck_refs ck - 1).
  - eexists _, _. split; [reflexivity|]. split; [done|]. split; [done|]. intros x. cbn.
    destruct (Nat.eqb_spec b x) as [<-|Hne]; [now rewrite lookup_insert_eq|now rewrite lookup_insert_ne].
  - unfold chunk_free. cbn [st_chunks set_field]. rewrite lookup_insert_eq. mstep. eexists _, _. split; [reflexivity|].
    split; [done|]. split; [done|]. intros x. cbn. rewrite delete_insert_eq.
    destruct (Nat.eqb_spec b x) as [<-|Hne]; [now rewrite lookup_delete_eq|now rewrite lookup_delete_ne].
Qed.

Lemma inherit_bytes_run s c b size d ckb left :
  st_chunks s !! c = Some (fresh_chunk size d) -> c <> b -> Z.of_nat (length d) = size -> size < 2 ^ 32 ->
  st_chunks s !! b = Some ckb -> Z.of_nat (length left) <= ck_write ckb -> Z.of_nat (length left) < size ->
  take (length left) (drop (Z.to_nat (ck_write ckb - Z.of_nat (length left))) (ck_data ckb)) = left ->
  inherit_bytes c b (Z.of_nat (length left)) s = Some (0, set_ck c (appended (fresh_chunk size d) left) s).
Proof.
  intros Hc Hne Hd Hsz Hb Hw Hl Ht. unfold inherit_bytes. rewrite Hc, Hb. mstep. cbn [fresh_chunk ck_size ck_write ck_data].
  replace (_ <=? ck_write ckb) with true by zb. rewrite Z.sub_0_r, u64_small by lia. replace (_ <? size) with true by zb. cbn [negb].
  rewrite Nat2Z.id, Ht. destruct (appended_ok (fresh_chunk size d) left) as (_ & _ & _ & Hbw); [split; cbn; lia|cbn; lia|].
  cbn [fresh_chunk ck_data ck_write] in Hbw. rewrite Hbw. mstep.
  unfold upd_chunk at 1. rewrite Hc. mstep. unfold chunk_set_write_ptr, upd_chunk. cbn [st_chunks set_field cp_parent cp_data].
  rewrite lookup_insert_eq. mstep. rewrite Nat.eqb_refl. cbn [negb ck_size fresh_chunk set_field].
  replace (_ && _) with true by zb. cbn [negb]. mstep. unfold set_ck. cbn. now rewrite insert_insert_eq.
Qed.

Lemma fcgi_fd_set_chunk_run s f c size d left :
  st_chunks s !! c = Some (fresh_chunk size d <| ck_refs := 0 |>) -> Z.of_nat (length d) = size -> size < 2 ^ 32 ->
  Z.of_nat (length left) < size -> fd_chunk f <> Some c -> tail_is s (fd_chunk f) left ->
  (forall b, fd_chunk f = Some b -> exists ck, st_chunks s !! b = Some ck /\ - 2 ^ 31 < ck_refs ck < 2 ^ 31) ->
  exists s', fcgi_fd_set_chunk f c (Z.of_nat (length left)) s = Some (0, f <| fd_chunk := Some c |>, s') /\
    st_mem s' = st_mem s /\ st_next s' = st_next s /\
    forall x, st_chunks s' !! x = if Nat.eqb c x then Some (appended (fresh_chunk size d) left)
                                  else if bool_decide (fd_chunk f = Some x) then ck ← st_chunks s !! x; dropped ck else st_chunks s !! x.
Proof.
  intros Hc Hd Hsz Hl Hf Ht Hb. unfold fcgi_fd_set_chunk. set (s1 := set_ck c (fresh_chunk size d) s).
  replace (chunk_retain c s) with (Some s1) by (unfold chunk_retain, upd_chunk; now rewrite Hc). mstep.
  assert (Hc1 : st_chunks s1 !! c = Some (fresh_chunk size d)) by apply lookup_insert_eq.
  assert (Hn1 : forall x, x <> c -> st_chunks s1 !! x = st_chunks s !! x) by (intros; now apply lookup_insert_ne).
  assert (Hnil : appended (fresh_chunk size d) [] = fresh_chunk size d) by reflexivity.
  destruct (fd_chunk f) as [b|] eqn:Ef.
  - assert (Hcb : c <> b) by congruence. destruct (Hb b eq_refl) as (ckb & Hckb & Hrefs).
    assert (Hrel : forall s2, st_mem s2 = st_mem s -> st_next s2 = st_next s -> st_chunks s2 = <[c := appended (fresh_chunk size d) left]> (st_chunks s) ->
      exists s', ('(_, s3) ← chunk_release b s2; Some (0, f <| fd_chunk := Some c |>, s3)) = Some (0, f <| fd_chunk := Some c |>, s') /\
      st_mem s' = st_mem s /\ st_next s' = st_next s /\
      forall x, st_chunks s' !! x = if Nat.eqb c x then Some (appended (fresh_chunk size d) left)
                                  else if bool_decide (Some b = Some x) then ck ← st_chunks s !! x; dropped ck else st_chunks s !! x).
    { intros s2 Hm2 Hn2 Hc2. destruct (release_run s2 b ckb) as (r & s' & -> & H1 & H2 & H3); [now rewrite Hc2, lookup_insert_ne|done|].
      mstep. exists s'. split; [done|]. split; [congruence|]. split; [congruence|]. intros x. rewrite H3, Hc2.
      destruct (Nat.eqb_spec b x) as [<-|Hbx].
      - destruct (Nat.eqb_spec c b); [done|]. rewrite bool_decide_true by done. now rewrite Hckb.
      - rewrite (bool_decide_false (Some b = Some x)) by congruence.
        destruct (Nat.eqb_spec c x) as [<-|]; [now rewrite lookup_insert_eq|now rewrite lookup_insert_ne]. }
    destruct left as [|x0 left0] eqn:El; [now apply Hrel|]. rewrite <- El in *.
    replace (0 <? Z.of_nat (length left)) with true by (rewrite El; cbn [length]; zb).
    destruct Ht as (b' & ck' & [= <-] & Hck' & Hok & Hw & Ht); [now rewrite El|]. rewrite Hckb in Hck'. injection Hck' as <-.
    rewrite (inherit_bytes_run s1 c b size d ckb left) by (done || rewrite ?Hn1; congruence). mstep. cbn [Z.eqb negb].
    apply Hrel; [done|done|]. unfold set_ck, s1. cbn. unfold set_ck. cbn. now rewrite insert_insert_eq.
  - destruct left as [|x0 left0] eqn:El.
    + cbn [length Z.of_nat Z.eqb negb]. exists s1. split; [done|]. split; [done|]. split; [done|]. intros x.
      destruct (Nat.eqb_spec c x) as [<-|]; [now rewrite Hc1, Hnil|]. now rewrite bool_decide_false, Hn1.
    + destruct Ht as (b & ? & ? & _); done.
Qed.

Lemma zsum_attached k f f' l id : l !! k = Some f -> zsum (attached id) (<[k := f']> l) = zsum (attached id) l - attached id f + attached id f'.
Proof. apply FcgiContext.zsum_insert. Qed.

Definition with_chunk (c : nat) (f : fcgi_fd) : fcgi_fd := f <| fd_chunk := Some c |>.

(** The socket changes from its chunk to a new one. *)
Definition moved (k : nat) (f : fcgi_fd) (c : nat) (s : store) (cx : fcgi_context) : fcgi_context :=
  cx <| cx_store := s |> <| cx_fdl := <[k := with_chunk c f]> (cx_fdl cx) |>.

Lemma holds_moved k f c s cx id : cx_fdl cx !! k = Some f ->
  holds (moved k f c s cx) id = holds cx id - attached id f + (if Nat.eqb c id then 1 else 0).
Proof.
  intros Hk. unfold holds. cbn. rewrite zsum_attached with (f := f) by done.
  replace (attached id (with_chunk c f)) with (if Nat.eqb c id then 1 else 0); [lia|].
  unfold attached. cbn. destruct (Nat.eqb_spec c id) as [<-|Hne]; [now rewrite bool_decide_true|now rewrite bool_decide_false by congruence].
Qed.

Lemma held_attached n m cx outs i r k f id : ctx_ok n m cx outs -> rl_rs (cx_rl cx) !! i = Some r -> cx_fdl cx !! k = Some f ->
  held_by (rq_iov r) id + attached id f <= holds cx id.
Proof.
  intros Hok Hi Hk. unfold holds.
  pose proof (zsum_elem (fun r => held_by (rq_iov r) id) _ _ _ ltac:(intros; apply held_nonneg) Hi).
  pose proof (zsum_elem (attached id) _ _ _ ltac:(intros; apply attached_range) Hk). cbn beta in *. lia.
Qed.

Lemma dropped_cases ck : (1 < ck_refs ck /\ dropped ck = Some (ck <| ck_refs := ck_refs ck - 1 |>)) \/ (ck_refs ck <= 1 /\ dropped ck = None).
Proof. unfold dropped. case_if; zbool; [left|right]; (split; [lia|done]). Qed.

Lemma fd_attached n m cx outs k f b : ctx_ok n m cx outs -> cx_fdl cx !! k = Some f -> fd_chunk f = Some b ->
  exists ck, st_chunks (cx_store cx) !! b = Some ck /\ ck_refs ck = holds cx b /\ 1 <= holds cx b < 2 ^ 31 - 2.
Proof.
  intros Hok Hk Hf. pose proof (fd_holds _ _ _ _ Hk Hf) as H1. destruct (held_chunk _ _ _ _ b Hok) as (ck & Hck & Hr); [lia|].
  exists ck. split; [done|]. split; [done|]. pose proof (holds_bound _ _ _ _ b Hok). lia.
Qed.

Lemma ctx_ok_moved n m cx outs k f c nc s' :
  ctx_ok n m cx outs -> cx_fdl cx !! k = Some f -> c = st_next (cx_store cx) -> chunk_ok nc -> ck_refs nc = 1 ->
  st_mem s' = st_mem (cx_store cx) -> st_next s' = S c ->
  (forall x, st_chunks s' !! x = if Nat.eqb c x then Some nc
                                 else if bool_decide (fd_chunk f = Some x) then ck ← st_chunks (cx_store cx) !! x; dropped ck
                                 else st_chunks (cx_store cx) !! x) ->
  ctx_ok n m (moved k f c s' cx) outs.
Proof.
  intros Hok Hk Hc Hnc Hn1 Hm Hn Hs. pose proof Hok as [_ _ Hr Hch _].
  assert (Hfresh : st_chunks (cx_store cx) !! c = None).
  { destruct (st_chunks (cx_store cx) !! c) as [ck|] eqn:E; [|done]. apply Hch in E as [_ E]. lia. }
  assert (Hne : forall b, fd_chunk f = Some b -> c <> b).
  { intros b Hb ->. destruct (fd_attached _ _ _ _ _ _ _ Hok Hk Hb) as (ck & Hck & _). congruence. }
  apply (ctx_ok_store n m cx); try done.
  - cbn. now rewrite length_insert.
  - intros i r id Hi Hh ck Hck. cbn. rewrite Hs. destruct (Nat.eqb_spec c id) as [<-|Hne']; [congruence|].
    destruct (Hch _ _ Hck) as [[] _]. pose proof (held_attached _ _ _ _ _ _ _ _ id Hok Hi Hk) as Ha. unfold attached in Ha.
    destruct (bool_decide (fd_chunk f = Some id)); [|exists ck; repeat split; (done || lia)].
    rewrite Hck. mstep. specialize (Hr id). rewrite Hck in Hr. destruct (dropped_cases ck) as [[_ ->]|[? _]]; [|lia].
    eexists. split; [reflexivity|]. cbn. repeat split; (done || lia).
  - intros id. rewrite holds_moved by done. cbn. rewrite Hs. specialize (Hr id). destruct (Nat.eqb_spec c id) as [<-|Hne'].
    + rewrite Hfresh in Hr. unfold attached. rewrite bool_decide_false by (intros E; now apply (Hne c)). lia.
    + unfold attached. destruct (bool_decide (fd_chunk f = Some id)) eqn:E.
      * apply bool_decide_eq_true in E. destruct (fd_attached _ _ _ _ _ _ _ Hok Hk E) as (ck & Hck & H1 & H2). rewrite Hck. mstep.
        destruct (dropped_cases ck) as [[? ->]|[? ->]]; cbn; lia.
      * destruct (st_chunks (cx_store cx) !! id); lia.
  - intros id ck. cbn. rewrite Hs, Hn. destruct (Nat.eqb_spec c id) as [<-|Hne']; [intros [= <-]; split; [done|lia]|].
    destruct (bool_decide (fd_chunk f = Some id)); [|intros H; apply Hch in H as [? ?]; split; [done|lia]].
    destruct (st_chunks (cx_store cx) !! id) as [ck0|] eqn:E; [|done]. mstep. apply Hch in E as [Hok0 ?].
    destruct (dropped_cases ck0) as [[_ ->]|[_ ->]]; [|done]. intros [= <-]. split; [destruct Hok0; now split|lia].
Qed.

(** ** The turns of the loop *)

Definition write_end (c : nat) (ck : chunk) : chunk_ptr :=
  {| cp_parent := c; cp_len := ck_size ck - ck_write ck; cp_data := ck_write ck |}.
Definition read_end (c : nat) (ck : chunk) : chunk_ptr :=
  {| cp_parent := c; cp_len := ck_write ck - ck_read ck; cp_data := ck_read ck |}.

Lemma chunk_write_ptr_run s c ck : st_chunks s !! c = Some ck -> chunk_ok ck -> chunk_write_ptr c s = Some (write_end c ck).
Proof. intros Hc []. unfold chunk_write_ptr. rewrite Hc. mstep. now rewrite u64_small by lia. Qed.

Lemma chunk_read_ptr_run s c ck : st_chunks s !! c = Some ck -> chunk_ok ck -> chunk_read_ptr c s = Some (read_end c ck).
Proof. intros Hc []. unfold chunk_read_ptr. rewrite Hc. mstep. now rewrite u64_small by lia. Qed.

(** Between [recv_chunk] and the read: there is room, and [left] is unread. *)
Record mid (cx : fcgi_context) (k : nat) (f : fcgi_fd) (st : recv_state) (c : nat) (ck : chunk) (left input : bytes) : Prop := {
  mi_at : attached_to cx k f c ck;
  mi_c : rv_c st = Some c;
  mi_write : rv_write st = write_end c ck;
  mi_room : ck_write ck < ck_size ck;
  mi_inherit : rv_inherit st = 0;
  mi_pkg : 0 <= rv_pkg_size st <= PKG_MAX;
  mi_left : unread ck = left;
  mi_read : input = [] -> cp_len (rv_read st) = 0 /\ (cp_parent (rv_read st) = c -> cp_data (rv_read st) = ck_read ck)
}.

(** The part of the context the reception of one socket leaves alone. *)
Record same_work (cx cx' : fcgi_context) (f f' : fcgi_fd) : Prop := {
  sw_states : states_of cx' = states_of cx;
  sw_off : rl_id_offset (cx_rl cx') = rl_id_offset (cx_rl cx);
  sw_fd : fd_fd f' = fd_fd f /\ fd_state f' = fd_state f
}.

Definition chunk_size_for (pkg : Z) : Z := Z.max 8148 pkg.

Lemma chunk_new_run pkg s : 0 <= pkg ->
  chunk_new (fun n => map sys_junk (seq 0 n)) (if CHUNK_SIZE 8192 <? pkg then SIZE_CHUNK pkg else 8192) s =
  (st_next s, s <| st_chunks := <[st_next s := fresh_chunk (chunk_size_for pkg) (map sys_junk (seq 0 (Z.to_nat (chunk_size_for pkg)))) <| ck_refs := 0 |>]> (st_chunks s) |>
                <| st_next := S (st_next s) |>).
Proof.
  intros Hp. unfold chunk_new, chunk_size_for, CHUNK_SIZE, SIZE_CHUNK, CHUNK_HEADER. change (8192 - 44) with 8148.
  destruct (8148 <? pkg) eqn:E; zbool; [replace (Z.max 8148 pkg) with pkg by lia|replace (Z.max 8148 pkg) with 8148 by lia].
  - now replace (pkg + 44 - 44) with pkg by lia.
  - reflexivity.
Qed.

(** A chunk is needed: the new one starts with the bytes left. *)
Lemma recv_chunk_new n m cx outs k f st left input w :
  ctx_ok n m cx outs -> cx_fdl cx !! k = Some f -> rv_inherit st = Z.of_nat (length left) ->
  tail_is (cx_store cx) (fd_chunk f) left -> (left <> [] -> Z.of_nat (length left) < rv_pkg_size st) -> 0 <= rv_pkg_size st <= PKG_MAX ->
  cp_len (rv_read st) = 0 \/ input <> [] -> (cp_parent (rv_read st) < st_next (cx_store cx))%nat \/ cp_data (rv_read st) = 0 ->
  (0 <? rv_inherit st) || (cp_len (rv_write st) <? FCGI_HEADER_LEN) = true ->
  exists st' cx' f' c ck, recv_chunk k st cx w = Some (Some st', cx', w) /\ ctx_ok n m cx' outs /\
    mid cx' k f' st' c ck left input /\ same_work cx cx' f f'.
Proof.
  intros Hok Hk Hi Ht Hpkg Hmax Hrd Hpar Hneed. unfold recv_chunk. rewrite Hneed.
  set (s := cx_store cx) in *. set (size := chunk_size_for (rv_pkg_size st)). set (c := st_next s).
  set (junk := map sys_junk (seq 0 (Z.to_nat size))).
  assert (Hsize : 8148 <= size <= 2 ^ 20 /\ Z.of_nat (length junk) = size /\ Z.of_nat (length left) < size).
  { unfold junk, size, chunk_size_for, PKG_MAX in *. rewrite length_map, length_seq.
    destruct left as [|x l]; [cbn [length]; lia|]. specialize (Hpkg ltac:(done)). lia. }
  destruct Hsize as (Hsz & Hjunk & Hleft).
  erewrite bindF_run; [|apply on_store_run; rewrite chunk_new_run by lia; reflexivity]. fold s size junk c. clearbody junk size.
  erewrite bindF_run; [|apply on_store_run; reflexivity]. cbn [cx_store set_field].
  erewrite bindF_run; [|apply get_fd_run; exact Hk]. set (s1 := chunk_list_add c _).
  pose proof Hok as [_ _ _ Hch _]. assert (Hc1 : st_chunks s1 !! c = Some (fresh_chunk size junk <| ck_refs := 0 |>)) by apply lookup_insert_eq.
  assert (Hold : forall x, x <> c -> st_chunks s1 !! x = st_chunks s !! x) by (intros; now apply lookup_insert_ne).
  assert (Hnc : forall b ck, st_chunks s !! b = Some ck -> b <> c) by (intros b ck E; apply Hch in E as [_ E]; unfold c, s in *; lia).
  destruct (fcgi_fd_set_chunk_run s1 f c size junk left) as (s2 & E & Hm & Hn & Hx); try done; try lia.
  { intros Hf. destruct (fd_attached _ _ _ _ _ _ _ Hok Hk Hf) as (ck & Hck & _). now apply (Hnc c ck). }
  { intros Hl. destruct (Ht Hl) as (b & ck & Hb & Hck & Hrest). exists b, ck. split; [done|]. rewrite Hold; [done|]. now apply (Hnc b ck). }
  { intros b Hb. destruct (fd_attached _ _ _ _ _ _ _ Hok Hk Hb) as (ck & Hck & Hr & Hh). exists ck. rewrite Hold; [|now apply (Hnc b ck)].
    split; [done|lia]. }
  rewrite Hi. erewrite bindF_run; [|apply on_store_run; cbn [cx_store set_field]; rewrite E; reflexivity]. cbn beta iota.
  erewrite bindF_run; [|reflexivity]. cbn [Z.eqb negb]. fold (with_chunk c f). set (nc := appended (fresh_chunk size junk) left) in *.
  destruct (appended_ok (fresh_chunk size junk) left) as (Hnok & Hun & _ & _); [split; cbn; lia|cbn; lia|]. fold nc in Hnok, Hun.
  assert (Hok' : ctx_ok n m (moved k f c s2 cx) outs).
  { apply (ctx_ok_moved n m cx outs k f c nc s2); try done. intros x. rewrite Hx. destruct (Nat.eqb_spec c x); [done|].
    destruct (bool_decide _); now rewrite Hold. }
  assert (Hc2 : st_chunks s2 !! c = Some nc) by now rewrite Hx, Nat.eqb_refl.
  unfold mbind at 1, F_bind at 1, get_cx at 1. cbn [cx_store set_field mod_cx cx_fdl].
  erewrite bindF_run; [|unfold liftF; rewrite (chunk_write_ptr_run _ _ nc) by done; reflexivity].
  eexists _, (moved k f c s2 cx), (with_chunk c f), c, nc. split; [reflexivity|]. split; [exact Hok'|]. split; [|done].
  split; cbn; try done; try lia.
  - split; [|done|done]. cbn. apply list_lookup_insert_eq. now apply lookup_lt_Some in Hk.
  - intros ->. split; [now destruct Hrd|]. intros Hp. destruct Hpar as [Hpar|Hpar]; [|done]. unfold c in Hp. lia.
Qed.

(** No chunk is needed. *)
Lemma recv_chunk_keep k st cx w :
  (0 <? rv_inherit st) || (cp_len (rv_write st) <? FCGI_HEADER_LEN) = false -> recv_chunk k st cx w = Some (Some st, cx, w).
Proof. intros H. unfold recv_chunk. now rewrite H. Qed.

Lemma set_write_run s c ck write : st_chunks s !! c = Some ck -> cp_parent write = c -> 0 <= cp_data write <= ck_size ck ->
  chunk_set_write_ptr c write s = Some (0, set_ck c (ck <| ck_write := cp_data write |>) s).
Proof.
  intros Hc <- Hp. unfold chunk_set_write_ptr, upd_chunk. rewrite Hc. mstep. rewrite Nat.eqb_refl.
  replace (_ && _) with true by zb. reflexivity.
Qed.

Lemma set_read_run s c ck read : st_chunks s !! c = Some ck -> cp_parent read = c -> 0 <= cp_data read <= ck_size ck ->
  chunk_set_read_ptr c read s = Some (0, set_ck c (ck <| ck_read := cp_data read |>) s).
Proof.
  intros Hc <- Hp. unfold chunk_set_read_ptr, upd_chunk. rewrite Hc. mstep. rewrite Nat.eqb_refl.
  replace (_ && _) with true by zb. reflexivity.
Qed.

(** The read: EAGAIN, or bytes that join the unread ones. *)
Lemma mk_socket_read_run fd n w : mk_socket_read fd n w =
  Some (net_read (w_trace w) fd n, logged w [EvRead fd (match net_read (w_trace w) fd n with inl b => b | inr _ => [] end)]).
Proof. reflexivity. Qed.

Lemma recv_read_again cx k f st c ck left input w :
  mid cx k f st c ck left input -> net_read (w_trace w) (fd_fd f) (ck_size ck - ck_write ck) = inr (-1, true) ->
  recv_read k st cx w = Some (Some (st, true), cx, logged w [EvRead (fd_fd f) []]).
Proof.
  intros [[Hk _ _] Hc Hw _ _ _ _ _] Hn. unfold recv_read. erewrite bindF_run; [|apply get_fd_run; exact Hk]. cbv zeta.
  rewrite Hw. cbn [write_end cp_len]. unfold core at 1. unfold mbind at 1, F_bind at 1. rewrite mk_socket_read_run, Hn, Hc. reflexivity.
Qed.

Lemma recv_read_data cx k f st c ck left input w d :
  mid cx k f st c ck left input -> chunk_ok ck -> net_read (w_trace w) (fd_fd f) (ck_size ck - ck_write ck) = inl d ->
  d <> [] -> Z.of_nat (length d) <= ck_size ck - ck_write ck ->
  recv_read k st cx w =
    Some (Some ({| rv_c := Some c; rv_write := write_end c (appended ck d); rv_read := read_end c (appended ck d); rv_inherit := 0;
                   rv_pkg_size := rv_pkg_size st; rv_h := rv_h st |}, false),
          with_ck c (appended ck d) cx, logged w [EvRead (fd_fd f) d]).
Proof.
  intros [[Hk Hf Hck] Hc Hw _ Hi _ _ _] Hok Hn Hd Hl. destruct (appended_ok ck d Hok Hl) as (Haok & _ & _ & Hbw).
  unfold recv_read. erewrite bindF_run; [|apply get_fd_run; exact Hk]. cbv zeta.
  rewrite Hw. cbn [write_end cp_len]. unfold core at 1. unfold mbind at 1, F_bind at 1. rewrite mk_socket_read_run, Hn, Hc.
  destruct d as [|x d']; [done|]. set (d := x :: d') in *. erewrite bindF_run; [|reflexivity]. clearbody d.
  assert (Ew : write_end c ck <| cp_data := cp_data (write_end c ck) + Z.of_nat (length d) |>
    <| cp_len := ck_size ck - ck_write ck - Z.of_nat (length d) |> = write_end c (appended ck d)) by (unfold write_end; cbn; f_equal; lia).
  rewrite Ew. clear Ew. erewrite bindF_run.
  2:{ apply on_store_run. rewrite Hck. mstep. cbn [write_end cp_data]. rewrite Hbw. mstep. unfold upd_chunk. rewrite Hck. mstep. reflexivity. }
  erewrite bindF_run.
  2:{ apply on_store_run. apply (set_write_run _ c (ck <| ck_data := ck_data (appended ck d) |>)); [apply lookup_insert_eq|done|].
      destruct Hok. cbn. lia. }
  cbn [Z.eqb negb]. unfold mbind at 1, F_bind at 1, get_cx at 1. erewrite bindF_run.
  2:{ unfold liftF. cbn [cx_store set_field]. rewrite (chunk_read_ptr_run _ c (appended ck d)); [reflexivity|apply lookup_insert_eq|done]. }
  rewrite Hi. unfold with_ck, set_ck. cbn. now rewrite insert_insert_eq.
Qed.

(** Behind the records: everything is read, [left] are the last bytes. *)
Record top (cx : fcgi_context) (k : nat) (f : fcgi_fd) (st : recv_state) (c : nat) (ck : chunk) (left : bytes) : Prop := {
  tp_at : attached_to cx k f c ck;
  tp_c : rv_c st = Some c;
  tp_write : rv_write st = write_end c ck;
  tp_inherit : rv_inherit st = Z.of_nat (length left);
  tp_pkg : (left <> [] -> Z.of_nat (length left) < rv_pkg_size st) /\ 0 <= rv_pkg_size st <= PKG_MAX;
  tp_left : tail_is (cx_store cx) (Some c) left;
  tp_read : ck_read ck = ck_write ck /\ behind c (rv_read st) (ck_write ck)
}.

Definition ready (n m : Z) (k : nat) (st : recv_state) (cx : fcgi_context) (w : world) (f : fcgi_fd) (outs : list bytes) (left input : bytes) : Prop :=
  exists st' cx' f' c ck, recv_chunk k st cx w = Some (Some st', cx', w) /\ ctx_ok n m cx' outs /\
    mid cx' k f' st' c ck left input /\ same_work cx cx' f f'.

Lemma top_ready n m cx outs k f st c ck left input w :
  ctx_ok n m cx outs -> top cx k f st c ck left -> ready n m k st cx w f outs left input.
Proof.
  intros Hok [[Hk Hf Hck] Hc Hw Hi [Hp1 Hp2] Ht (Hr & Hb1 & Hb2 & Hb3)].
  destruct ((0 <? rv_inherit st) || (cp_len (rv_write st) <? FCGI_HEADER_LEN)) eqn:E.
  - apply (recv_chunk_new n m cx outs k f st left input w); try done; [now rewrite Hf|now left|].
    left. rewrite Hb1. now apply (cxo_chunks _ _ _ _ Hok c ck).
  - exists st, cx, f, c, ck. split; [now apply recv_chunk_keep|]. split; [done|]. split; [|done]. zbool. rewrite Hw in *. cbn in *.
    destruct left as [|x l]; [|cbn in Hi; lia]. unfold FCGI_HEADER_LEN in *. split; try done; [lia| |intros _; split; [done|congruence]].
    unfold unread. rewrite Hr. now rewrite Z.sub_diag.
Qed.

(** The handling of the records of what is unread, to the end of the turn. *)
Lemma records_and_keep n m cx outs k f c ck pkg h w rs left (K : chunk_ptr -> Z -> Z -> fcgi_header -> F Z) :
  ctx_ok n m cx outs -> attached_to cx k f c ck -> octets (unread ck) -> recs (unread ck) rs left ->
  Forall (fun r => good (rl_id_offset (cx_rl cx)) (states_of cx) (fst r)) rs ->
  Z.of_nat (length rs) <= n -> total rs <= m -> 0 <= pkg <= PKG_MAX ->
  exists cx' ck' read' pkg' h',
    (r ← handle_records fcgi_handle_pkg (S (Z.to_nat (cp_len (read_end c ck)))) k (read_end c ck) 0 pkg h;
     match r with None => mret (-1) | Some (read, inherit, pkg_size, h) =>
       ret ← keep_read c read; if negb (ret =? 0) then mret (-1) else K read inherit pkg_size h end) cx w =
      K read' (Z.of_nat (length left)) pkg' h' cx' w /\
    ctx_ok (n - Z.of_nat (length rs)) (m - total rs) cx' (deliver (rl_id_offset (cx_rl cx)) rs outs) /\
    attached_to cx' k f c ck' /\ same_work cx cx' f f /\ behind c read' (ck_write ck) /\
    (ck_read ck' = ck_write ck /\ ck_write ck' = ck_write ck /\ ck_size ck' = ck_size ck /\ ck_data ck' = ck_data ck) /\
    (left <> [] -> Z.of_nat (length left) < pkg') /\ 0 <= pkg' <= PKG_MAX.
Proof.
  intros Hok [Hk Hf Hc] Ho Hr Hg Hn Hm Hpkg. destruct (cxo_chunks _ _ _ _ Hok c ck Hc) as [Hck _]. pose proof Hck as [Hck1 Hck2].
  assert (Hrd : reading (cx_store cx) ck (read_end c ck)) by (split; cbn; [done|lia|lia]).
  destruct (handle_records_run k _ rs left Hr (S (Z.to_nat (cp_len (read_end c ck)))) n m cx outs (read_end c ck) pkg h w ck) as
    (cx1 & read' & pkg' & h' & E & Hok1 & Hfr & (B1 & B2 & B3) & Hp1 & Hp2); try done; [lia|]. cbn in B1, B2.
  rewrite (bindF_run _ _ _ _ _ _ _ E). cbn beta iota.
  destruct (same_layout_chunk _ _ _ _ (fr_layout _ _ Hfr) Hc) as (ck1 & Hc1 & G1 & G2 & G3 & G4).
  set (ck' := ck1 <| ck_read := cp_data read' |>).
  assert (Ek : keep_read c read' cx1 w = Some (0, with_ck c ck' cx1, w)).
  { unfold keep_read. rewrite B1, Nat.eqb_refl. apply on_store_run. apply set_read_run; [done|done|]. rewrite G3. lia. }
  rewrite (bindF_run _ _ _ _ _ _ _ Ek). cbn [Z.eqb negb]. exists (with_ck c ck' cx1), ck', read', pkg', h'.
  split; [reflexivity|]. split.
  { apply (ctx_ok_with_ck _ _ cx1 _ c ck1 ck'); try done. split; cbn; [congruence|]. rewrite G2, G3. lia. }
  split; [|split; [|split; [|split; [|done]]]].
  - split; [cbn; now rewrite (fr_fdl _ _ Hfr)|done|apply lookup_insert_eq].
  - split; [exact (fr_states _ _ Hfr)|exact (fr_off _ _ Hfr)|done].
  - split; [done|]. split; [lia|done].
  - cbn. repeat split; (done || lia).
Qed.

Lemma recs_left b rs l : recs b rs l -> whole l = None.
Proof. induction 1; done. Qed.

Lemma recs_partial b rs l : whole b = None -> recs b rs l -> rs = [] /\ l = b.
Proof. intros Hb H. inversion H; subst; [done|congruence]. Qed.

Lemma octets_recs b rs l : recs b rs l -> octets b -> octets l.
Proof. induction 1; [done|]. intros Hb. now apply IHrecs, octets_drop. Qed.

Lemma recs_suffix b rs l : recs b rs l -> exists p, b = p ++ l.
Proof.
  induction 1 as [b|b h n rs l _ _ [p Hp]]; [by exists []|]. exists (take n b ++ p). now rewrite <- app_assoc, <- Hp, take_drop.
Qed.

Lemma tail_of_unread ck p l : chunk_ok ck -> unread ck = p ++ l -> Z.of_nat (length l) <= ck_write ck /\
  take (length l) (drop (Z.to_nat (ck_write ck - Z.of_nat (length l))) (ck_data ck)) = l.
Proof.
  intros Hok Hu. pose proof (length_unread _ Hok) as Hlen. rewrite Hu, length_app in Hlen. destruct Hok as [H1 H2]. split; [lia|].
  apply (f_equal (drop (length p))) in Hu. rewrite drop_app_length in Hu. rewrite <- Hu at 3. unfold unread.
  rewrite skipn_firstn_comm, drop_drop. f_equal; [lia|]. f_equal. lia.
Qed.

Lemma total_app rs rs' : total (rs ++ rs') = total rs + total rs'.
Proof. apply zsum_app. Qed.

Lemma same_work_trans cx1 cx2 cx3 f1 f2 f3 : same_work cx1 cx2 f1 f2 -> same_work cx2 cx3 f2 f3 -> same_work cx1 cx3 f1 f3.
Proof. intros [? ? []] [? ? []]. split; [congruence..|split; congruence]. Qed.

(** EAGAIN ends the loop; the position of the chunk stays. *)
Lemma recv_last fuel n m k st cx w f outs left l :
  ready n m k st cx w f outs left [] -> stream (w_trace w) (fd_fd f) [] -> l = left ->
  exists cx' w' f' c ck, recv_loop fcgi_handle_pkg (S fuel) k st cx w = Some (0, cx', w') /\
    ctx_ok n m cx' outs /\ attached_to cx' k f' c ck /\ unread ck = l /\ same_work cx cx' f f'.
Proof.
  intros (st' & cx1 & f' & c & ck & E & Hok & Hmid & Hsw) Hst ->. pose proof Hmid as [[Hk Hf Hc] Hrc Hw Hroom Hi Hp Hl Hr].
  destruct (Hr eq_refl) as [Hr1 Hr2]. destruct (cxo_chunks _ _ _ _ Hok c ck Hc) as [Hck _]. pose proof Hck as [_ Hck2].
  pose proof (Hst [] (ck_size ck - ck_write ck) ltac:(lia)) as Hn. cbn in Hn. rewrite app_nil_r in Hn.
  rewrite <- (proj1 (sw_fd _ _ _ _ Hsw)) in Hn.
  assert (Ek : exists cx2, keep_read c (rv_read st') cx1 (logged w [EvRead (fd_fd f') []]) = Some (0, cx2, logged w [EvRead (fd_fd f') []]) /\
    ctx_ok n m cx2 outs /\ attached_to cx2 k f' c ck /\ same_work cx1 cx2 f' f').
  { unfold keep_read. destruct (Nat.eqb_spec (cp_parent (rv_read st')) c) as [Hpar|]; [|exists cx1; done].
    specialize (Hr2 Hpar). exists (with_ck c ck cx1). split; [|split; [|split; [|done]]].
    - erewrite on_store_run; [|apply set_read_run; [exact Hc|done|lia]]. rewrite Hr2. now destruct ck.
    - now apply (ctx_ok_with_ck _ _ cx1 _ c ck ck).
    - split; [done|done|apply lookup_insert_eq]. }
  destruct Ek as (cx2 & Ek & Hok2 & Hat2 & Hsw2). exists cx2, (logged w [EvRead (fd_fd f') []]), f', c, ck.
  split; [|split; [done|]; split; [done|]; split; [done|]; now apply same_work_trans with cx1 f'].
  cbn [recv_loop]. rewrite (bindF_run _ _ _ _ _ _ _ E). cbn beta iota.
  rewrite (bindF_run _ _ _ _ _ _ _ (recv_read_again cx1 k f' st' c ck _ _ w Hmid Hn)). cbn beta iota.
  erewrite bindF_run; [|now apply handle_records_end]. cbn beta iota. rewrite Hrc. erewrite bindF_run; [|reflexivity].
  rewrite (bindF_run _ _ _ _ _ _ _ Ek). reflexivity.
Qed.

(** One turn with data. *)
Lemma recv_turn fuel n m k st cx w f outs left input rs l :
  ready n m k st cx w f outs left input -> stream (w_trace w) (fd_fd f) input -> input <> [] ->
  octets (left ++ input) -> recs (left ++ input) rs l ->
  Forall (fun r => good (rl_id_offset (cx_rl cx)) (states_of cx) (fst r)) rs -> Z.of_nat (length rs) <= n -> total rs <= m ->
  exists d input' rs1 l1 rs2 st' cx' f' w', recv_loop fcgi_handle_pkg (S fuel) k st cx w = recv_loop fcgi_handle_pkg fuel k st' cx' w' /\
    input = d ++ input' /\ d <> [] /\ rs = rs1 ++ rs2 /\ whole l1 = None /\ recs (l1 ++ input') rs2 l /\ octets l1 /\ stream (w_trace w') (fd_fd f') input' /\
    ready (n - Z.of_nat (length rs1)) (m - total rs1) k st' cx' w' f' (deliver (rl_id_offset (cx_rl cx)) rs1 outs) l1 input' /\
    same_work cx cx' f f'.
Proof.
  intros (st0 & cx1 & f' & c & ck & E & Hok & Hmid & Hsw) Hst Hne Ho Hrec Hg Hn Hm. pose proof Hmid as [[Hk Hf Hc] Hrc Hw Hroom Hi Hp Hl Hr].
  destruct (cxo_chunks _ _ _ _ Hok c ck Hc) as [Hck _].
  pose proof (Hst [] (ck_size ck - ck_write ck) ltac:(lia)) as Hnet. cbn in Hnet. rewrite app_nil_r in Hnet.
  rewrite drop_0 in Hnet. destruct input as [|x0 input0] eqn:Ein; [done|]. rewrite <- Ein in *. clear Ein.
  destruct Hnet as (d & Hnet & Hd & Hdl & input' & ->). rewrite <- (proj1 (sw_fd _ _ _ _ Hsw)) in Hnet.
  rewrite app_assoc in Hrec, Ho. apply Forall_app in Ho as [Ho1 Ho2].
  destruct (recs_app _ _ _ _ Ho1 Hrec) as (rs1 & l1 & rs2 & Hrec1 & Hrec2 & ->).
  apply Forall_app in Hg as [Hg1 Hg2]. rewrite length_app in Hn. rewrite total_app in Hm.
  pose proof (zsum_nonneg (fun r : fcgi_header * bytes => Z.of_nat (length (snd r))) rs2 ltac:(intros; cbn; lia)) as Ht2. fold (total rs2) in Ht2.
  destruct (appended_ok ck d Hck Hdl) as (Hak & Hun & Htk & _). rewrite Hl in Hun.
  pose proof (ctx_ok_with_ck n m cx1 outs c ck (appended ck d) Hok Hc Hak eq_refl ltac:(cbn; lia) Htk) as Hok1.
  set (cx2 := with_ck c (appended ck d) cx1) in *. set (w1 := logged w [EvRead (fd_fd f') d]).
  destruct (records_and_keep n m cx2 outs k f' c (appended ck d) (rv_pkg_size st0) (rv_h st0) w1 rs1 l1
    (fun read inherit pkg h => recv_loop fcgi_handle_pkg fuel k {| rv_c := Some c; rv_write := write_end c (appended ck d); rv_read := read;
       rv_inherit := inherit; rv_pkg_size := pkg; rv_h := h |})) as
    (cx3 & ck3 & read3 & pkg3 & h3 & Erun & Hok3 & Hat3 & Hsw3 & Hb3 & (G1 & G2 & G3 & G4) & Hp3); try done;
    [split; [done|done|apply lookup_insert_eq]|now rewrite Hun|now rewrite Hun| |lia|lia|].
  { change (rl_id_offset (cx_rl cx2)) with (rl_id_offset (cx_rl cx1)). change (states_of cx2) with (states_of cx1).
    now rewrite (sw_off _ _ _ _ Hsw), (sw_states _ _ _ _ Hsw). }
  pose proof (recs_left _ _ _ Hrec1) as Hw1.
  eexists d, input', rs1, l1, rs2, _, cx3, f', w1. split; [|split; [done|split; [done|split; [done|split; [done|split; [done|split; [|split; [|split]]]]]]]].
  - cbn [recv_loop]. rewrite (bindF_run _ _ _ _ _ _ _ E). cbn beta iota.
    rewrite (bindF_run _ _ _ _ _ _ _ (recv_read_data cx1 k f' st0 c ck _ _ w d Hmid Hck Hnet Hd Hdl)). exact Erun.
  - now apply (octets_recs _ _ _ Hrec1).
  - unfold w1. rewrite (proj1 (sw_fd _ _ _ _ Hsw)). now apply stream_step.
  - replace (rl_id_offset (cx_rl cx)) with (rl_id_offset (cx_rl cx2)) by exact (sw_off _ _ _ _ Hsw).
    apply (top_ready _ _ cx3 _ k f' _ c ck3); [done|]. split; try done.
    + unfold write_end. cbn [rv_write]. now rewrite G2, G3.
    + intros Hne1. exists c, ck3. split; [done|]. split; [apply Hat3|].
      split; [apply (cxo_chunks _ _ _ _ Hok3 c ck3), Hat3|]. rewrite G2, G4.
      destruct (recs_suffix _ _ _ Hrec1) as [p Hpl]. now apply (tail_of_unread _ p); [|rewrite Hun].
    + split; [congruence|]. now rewrite G2.
  - apply same_work_trans with cx1 f'; [done|]. now destruct Hsw3.
Qed.

Lemma recv_loop_run fuel : forall n m k st cx w f outs left input rs l,
  ready n m k st cx w f outs left input -> stream (w_trace w) (fd_fd f) input -> whole left = None ->
  octets (left ++ input) -> recs (left ++ input) rs l ->
  Forall (fun r => good (rl_id_offset (cx_rl cx)) (states_of cx) (fst r)) rs -> Z.of_nat (length rs) <= n -> total rs <= m ->
  (length input < fuel)%nat ->
  exists cx' w' f' c ck, recv_loop fcgi_handle_pkg fuel k st cx w = Some (0, cx', w') /\
    ctx_ok (n - Z.of_nat (length rs)) (m - total rs) cx' (deliver (rl_id_offset (cx_rl cx)) rs outs) /\
    attached_to cx' k f' c ck /\ unread ck = l /\ same_work cx cx' f f'.
Proof.
  induction fuel as [|fuel IH]; intros n m k st cx w f outs left input rs l Hrdy Hst Hw Ho Hrec Hg Hn Hm Hf; [lia|].
  destruct (decide (input = [])) as [->|Hne].
  - rewrite app_nil_r in Hrec. apply recs_partial in Hrec as [-> Hl]; [|done]. cbn [length Z.of_nat total zsum deliver fold_left].
    rewrite !Z.sub_0_r. now apply (recv_last fuel n m k st cx w f outs left l).
  - destruct (recv_turn fuel n m k st cx w f outs left input rs l Hrdy Hst Hne Ho Hrec Hg Hn Hm) as
      (d & input' & rs1 & l1 & rs2 & st' & cx' & f' & w' & -> & -> & Hd & -> & Hw1 & Hrec2 & Ho1 & Hst' & Hrdy' & Hsw).
    apply Forall_app in Hg as [_ Hg]. rewrite !app_assoc in Ho. apply Forall_app in Ho as [_ Ho2].
    rewrite length_app in Hn, Hf. rewrite total_app in Hm. assert (0 < length d)%nat by (destruct d; [done|cbn; lia]).
    destruct (IH _ _ _ _ _ _ _ _ _ _ _ _ Hrdy' Hst' Hw1 ltac:(now apply Forall_app) Hrec2) as (cx2 & w2 & f2 & c & ck & E & Hok & Hat & Hu & Hsw2);
      [now rewrite (sw_off _ _ _ _ Hsw), (sw_states _ _ _ _ Hsw)|lia|lia|lia|].
    exists cx2, w2, f2, c, ck. split; [exact E|]. rewrite (sw_off _ _ _ _ Hsw) in Hok. rewrite length_app, total_app.
    unfold deliver in *. rewrite fold_left_app. split; [eapply ctx_ok_weaken; [exact Hok|lia|lia]|].
    split; [done|]. split; [done|]. now apply same_work_trans with cx' f'.
Qed.

(** ** A call *)

(** What was received from a server and is no whole record yet, and the room
    behind it. *)
Definition pending (cx : fcgi_context) (f : fcgi_fd) : bytes :=
  match c ← fd_chunk f; st_chunks (cx_store cx) !! c with Some ck => unread ck | None => [] end.
Definition room (cx : fcgi_context) (f : fcgi_fd) : Z :=
  match c ← fd_chunk f; st_chunks (cx_store cx) !! c with Some ck => ck_size ck - ck_write ck | None => 0 end.

Lemma start_ready n m cx outs k f left input w :
  ctx_ok n m cx outs -> cx_fdl cx !! k = Some f -> left = pending cx f -> (left <> [] -> input <> [] /\ FCGI_HEADER_LEN <= room cx f) ->
  exists write read,
    match fcgi_fd_get_chunk f with
    | Some c => w ← chunk_write_ptr c (cx_store cx); r ← chunk_read_ptr c (cx_store cx); Some (w, r)
    | None => Some (null_ptr, null_ptr)
    end = Some (write, read) /\
    ready n m k {| rv_c := fcgi_fd_get_chunk f; rv_write := write; rv_read := read; rv_inherit := 0; rv_pkg_size := 0; rv_h := no_header |}
      cx w f outs left input.
Proof.
  intros Hok Hk Hl Hroom. unfold pending, room, fcgi_fd_get_chunk in *. destruct (fd_chunk f) as [c|] eqn:Ef; mstep.
  - destruct (fd_attached _ _ _ _ _ _ _ Hok Hk Ef) as (ck & Hc & _). cbn [mbind option_bind] in *. rewrite Hc in *.
    destruct (cxo_chunks _ _ _ _ Hok c ck Hc) as [Hck Hnext]. pose proof (length_unread _ Hck) as Hun. pose proof Hck as [Hck1 Hck2].
    rewrite (chunk_write_ptr_run _ _ ck), (chunk_read_ptr_run _ _ ck) by done. mstep. eexists _, _. split; [reflexivity|].
    set (st := {| rv_c := _ |}). destruct ((0 <? rv_inherit st) || (cp_len (rv_write st) <? FCGI_HEADER_LEN)) eqn:E.
    + assert (Hnil : left = []).
      { destruct left as [|x0 l0]; [done|]. destruct Hroom as [_ Hr]; [done|]. unfold st in E. cbn in E. unfold FCGI_HEADER_LEN in *. zbool. lia. }
      rewrite Hnil in *. apply (recv_chunk_new n m cx outs k f st [] input w); try done.
      * intros Hnn. done.
      * left. unfold st. cbn. rewrite <- Hl in Hun. cbn in Hun. lia.
      * left. exact Hnext.
    + exists st, cx, f, c, ck. split; [now apply recv_chunk_keep|]. split; [done|]. split; [|done]. unfold st in *. cbn in E. zbool.
      unfold FCGI_HEADER_LEN in *. split; try done; [lia|]. intros ->. destruct left as [|x0 l0]; [|now destruct Hroom].
      rewrite <- Hl in Hun. cbn in *. split; [lia|done].
  - cbn [mbind option_bind] in *. subst left. eexists _, _. split; [reflexivity|].
    apply (recv_chunk_new n m cx outs k f _ [] input w); try done; [now intros Hnn|now left|now right].
Qed.

End Receive.

(** ** Example: two records and the beginning of a third, five bytes at a time *)

Definition read_from (fd : Z) (t : list event) : bytes :=
  concat (map (fun e => match e with EvRead s d => if s =? fd then d else [] | _ => [] end) t).

Definition server_env (input : bytes) : Env :=
  example_net (fun t fd n => match drop (length (read_from fd t)) input with
                             | [] => inr (-1, true) | rest => inl (take (Z.to_nat (Z.min 5 n)) rest) end)
              (@net_writev example_env).

Lemma server_stream input fd : @stream (server_env input) [] fd input.
Proof.
  intros ds n Hn. cbn [net_read server_env example_net app]. replace (read_from fd (map (EvRead fd) ds)) with (concat ds).
  2:{ unfold read_from. rewrite map_map. cbn beta iota. rewrite Z.eqb_refl, map_id. done. }
  destruct (drop (length (concat ds)) input) as [|x rest]; [done|]. eexists. split; [reflexivity|].
  split; [intros E; apply (f_equal length) in E; rewrite length_take in E; cbn in E; lia|].
  split; [rewrite length_take; lia|]. exists (drop (Z.to_nat (Z.min 5 n)) (x :: rest)). now rewrite take_drop.
Qed.

Definition record_text (type : Z) (body : bytes) : bytes :=
  header_bytes {| h_version := 1; h_type := type; h_req_id := 1; h_body_len := Z.of_nat (length body); h_body_pad := 0 |} ++ [0] ++ body.
Definition recv_input : bytes :=
  record_text FCGI_STDOUT (lit "ab") ++ record_text FCGI_STDERR (lit "!") ++ record_text FCGI_STDOUT (lit "cd") ++ [1; 6; 0].

Definition recv_request : request := request_at REQ_SENT 10 0 <| rq_iov := {| ci_index := 0; ci_size := 1; ci_refs := [no_ref]; ci_io := [no_io] |} |>.
Definition recv_fd : fcgi_fd := fcgi_fd_init FCGI_FD_UNIX 0 0 <| fd_fd := 20 |> <| fd_state := FCGI_FD_RECEIVING |>.
Definition recv_context : fcgi_context :=
  {| cx_store := {| st_chunks := ∅; st_list := []; st_mem := ∅; st_next := 0 |};
     cx_rl := {| rl_cache := request_cache_init (fun _ => 0); rl_size := 1; rl_id_offset := 1; rl_clock_count := 1; rl_clock_hands := [0];
                 rl_rs := [recv_request] |};
     cx_fdl := [recv_fd] |}.

Lemma recv_context_ok : ctx_ok 3 5 recv_context [[]].
Proof.
  split.
  - split; [by exists 0|done| |done|repeat constructor; done]. split; try done. vm_compute. repeat constructor.
  - constructor; [|constructor]. split; [split; [by split|constructor]|done|done].
  - intros id. reflexivity.
  - intros id ck H. cbn in H. now rewrite lookup_empty in H.
  - done.
Qed.

