(* ===== verification/FcgiSendSpec.v ===== *)
(** * Sending a request to a server

    The request the plugin prepares is a sequence of whole records that carry
    the environment of the request, and the events of the socket write exactly
    its bytes, however little the network takes at a time. *)
From stdpp Require Import gmap.
From S2P Require Import Prelude CString MkString MkMemory MkTypes MkToc MkSession MkEpoll MkPlugin MkScheduler MkResponse.
From S2P Require Import FcgiProtocol FcgiChunk FcgiRequest FcgiConfig FcgiFd FcgiContext FcgiEnv FcgiCore FcgiRecv FcgiEvents FcgiRecords.
Local Open Scope Z_scope.

(** ** Records as text *)

Lemma whole_record h j body pad rest :
  header_ok h -> Z.of_nat (length body) = h_body_len h -> Z.of_nat (length pad) = h_body_pad h ->
  whole (header_bytes h ++ j :: body ++ pad ++ rest) = Some (h, (8 + length body + length pad)%nat).
Proof.
  intros Hh Hb Hp. unfold whole, FCGI_HEADER_LEN. rewrite fcgi_read_header_bytes by done. mstep.
  rewrite !length_app. cbn [length header_bytes]. rewrite !length_app. rewrite <- Hb, <- Hp.
  replace (_ <? 8) with false by zb. replace (Z.of_nat _ <? _) with false by zb. do 2 f_equal. lia.
Qed.

Lemma recs_record h j body pad rest rs l :
  header_ok h -> Z.of_nat (length body) = h_body_len h -> Z.of_nat (length pad) = h_body_pad h -> recs rest rs l ->
  recs (header_bytes h ++ j :: body ++ pad ++ rest) ((h, body) :: rs) l.
Proof.
  intros Hh Hb Hp Hr. pose proof (whole_record h j body pad rest Hh Hb Hp) as Hw.
  assert (E : body_of h (header_bytes h ++ j :: body ++ pad ++ rest) = body).
  { unfold body_of. rewrite <- Hb, Nat2Z.id. change (header_bytes h ++ j :: body ++ pad ++ rest) with ((header_bytes h ++ [j]) ++ body ++ pad ++ rest).
    rewrite drop_app_length' by done. now rewrite take_app_length. }
  rewrite <- E at 2. eapply recs_cons; [exact Hw|].
  replace (drop _ _) with rest; [done|].
  change (header_bytes h ++ j :: body ++ pad ++ rest) with ((header_bytes h ++ [j]) ++ body ++ pad ++ rest).
  rewrite !app_assoc, drop_app_length'; [done|]. rewrite !length_app. cbn. lia.
Qed.

Lemma padding_range n : 0 <= padding_of n < 8.
Proof. unfold padding_of. rewrite (Z.land_ones _ 3) by lia. apply Z.mod_pos_bound. lia. Qed.

(** A buffer as what is at its beginning and the rest. *)
Lemma cut_at (n : nat) (b : bytes) : (n <= length b)%nat -> exists x y, b = x ++ y /\ length x = n /\ length y = (length b - n)%nat.
Proof. intros H. exists (take n b), (drop n b). rewrite take_drop, length_take, length_drop. split; [done|lia]. Qed.

Lemma cut_header (b : bytes) : (8 <= length b)%nat -> exists x j y, b = x ++ j :: y /\ length x = 7%nat /\ length y = (length b - 8)%nat.
Proof.
  intros H. destruct (cut_at 7 b) as (x & y & -> & Hx & Hy); [lia|]. rewrite length_app in *.
  destruct y as [|j y]; [cbn in *; lia|]. exists x, j, y. cbn in *. split; [done|]. lia.
Qed.

(** A header is written over seven bytes. *)
Lemma put_header (a x c : bytes) j h off :
  off = Z.of_nat (length a) -> length x = 7%nat ->
  fcgi_write_header (a ++ x ++ j :: c) off h = Some (a ++ header_bytes h ++ j :: c, FCGI_HEADER_LEN).
Proof. intros. now apply fcgi_write_header_run. Qed.

Lemma has_room_true pos : 0 <= pos < PREPARE_LEN - 8 -> has_room pos = true.
Proof. unfold has_room, PREPARE_LEN, FCGI_HEADER_LEN. intros H. rewrite u64_small by lia. zb. Qed.

Section Prepare.
Context `{env : Env} `{globals : FcgiGlobals}.

Definition begin_body (keep_alive : Z) : bytes := [0; 1; if keep_alive =? 0 then 0 else FCGI_KEEP_CONN].

(** Lengths of what was put together. *)
Ltac lens :=
  unfold begin_body, FCGI_HEADER_LEN, FCGI_BEGIN_BODY_LEN in *;
  rewrite ?length_app in *; cbn [length header_bytes app] in *; rewrite ?length_app in *; cbn [length] in *; lia.

Definition no_stdin (req_id : Z) : fcgi_header := record_header FCGI_STDIN req_id 0 0.

(** What the parameters leave in the buffer, with [text] the environment; [j]s
    are bytes that nothing was written to. *)
Definition params_layout (req_id keep_alive : Z) (text pad junk : bytes) (j1 j2 j3 : Z) : bytes :=
  header_bytes (record_header FCGI_BEGIN_REQUEST req_id FCGI_BEGIN_BODY_LEN 0) ++ j1 :: (begin_body keep_alive ++ junk) ++ [] ++
  header_bytes (record_header FCGI_PARAMS req_id (Z.of_nat (length text)) (Z.of_nat (length pad))) ++ j2 :: text ++ pad ++
  header_bytes (record_header FCGI_PARAMS req_id 0 0) ++ [j3].

Lemma length_params_layout req_id keep_alive text pad junk j1 j2 j3 : length junk = 5%nat ->
  length (params_layout req_id keep_alive text pad junk j1 j2 j3) = (32 + length text + length pad)%nat.
Proof.
  intros Hj. unfold params_layout, begin_body.
  repeat (rewrite ?length_app; cbn [length header_bytes app]). lia.
Qed.

(** The environment is written from the position 24 on. *)
Lemma env_room pre x4 cs sr t : env_ready getsockname getpeername inet_ntop cs sr t ->
  length pre = 24%nat -> length x4 = 4072%nat -> Z.of_nat (length (params_text (env_text t))) <= 4000 ->
  exists b', fcgi_env_write getsockname getpeername inet_ntop (pre ++ x4) 24 (PREPARE_LEN - 24) cs sr =
      Some (pre ++ params_text (env_text t) ++ b', Z.of_nat (length (params_text (env_text t)))) /\
    length b' = (4072 - length (params_text (env_text t)))%nat.
Proof.
  intros Hready Hpre Hx4 Hfit.
  destruct (fcgi_env_write_run getsockname getpeername inet_ntop pre x4 cs sr t Hready) as (b' & k & Hrun & Hl & Hall & _); [lia|].
  cbv zeta in Hrun. rewrite Hall in Hrun, Hl by lia. rewrite Hpre, Hx4 in Hrun. exists b'. split; [exact Hrun|lia].
Qed.

Lemma prepare_params_run (b : bytes) req_id keep_alive cs sr t :
  length b = 4096%nat -> env_ready getsockname getpeername inet_ntop cs sr t -> Z.of_nat (length (params_text (env_text t))) <= 4000 ->
  exists pad junk j1 j2 j3 rest,
    prepare_params b req_id keep_alive cs sr =
      Some (Some (params_layout req_id keep_alive (params_text (env_text t)) pad junk j1 j2 j3 ++ rest,
                  Z.of_nat (length (params_layout req_id keep_alive (params_text (env_text t)) pad junk j1 j2 j3)))) /\
    Z.of_nat (length pad) = padding_of (Z.of_nat (length (params_text (env_text t)))) /\ length junk = 5%nat /\
    (length (params_layout req_id keep_alive (params_text (env_text t)) pad junk j1 j2 j3) + length rest = 4096)%nat.
Proof.
  intros Hb Hready Hfit. set (text := params_text (env_text t)) in *. pose proof (padding_range (Z.of_nat (length text))) as Hpad.
  destruct (cut_header b) as (x1 & j1 & b1 & -> & Hx1 & Hb1); [lia|].
  destruct (cut_at 3 b1) as (x2 & b2 & -> & Hx2 & Hb2); [lens|].
  destruct (cut_at 5 b2) as (junk & b3 & -> & Hjunk & Hb3); [lens|].
  destruct (cut_header b3) as (x3 & j2 & b4 & -> & Hx3 & Hb4); [lens|].
  set (h1 := record_header FCGI_BEGIN_REQUEST req_id FCGI_BEGIN_BODY_LEN 0).
  destruct (env_room (header_bytes h1 ++ [j1] ++ begin_body keep_alive ++ junk ++ x3 ++ [j2]) b4 cs sr t Hready) as (b' & Henv & Hb');
    [lens|lens|done|]. fold text in Henv, Hb'.
  destruct (cut_at (Z.to_nat (padding_of (Z.of_nat (length text)))) b') as (pad & b5 & -> & Hp & Hb5); [lia|].
  destruct (cut_header b5) as (x5 & j3 & rest & -> & Hx5 & Hrest); [lens|].
  exists pad, junk, j1, j2, j3, rest. rewrite length_params_layout by done.
  split; [|split; [lia|split; [done|lens]]]. unfold prepare_params. cbv zeta.
  rewrite has_room_true by (unfold PREPARE_LEN; lia). cbn [negb].
  pose proof (put_header [] x1 (x2 ++ junk ++ x3 ++ j2 :: b4) j1 h1 0 eq_refl Hx1) as E1. cbn [app] in E1. fold h1. rewrite E1. mstep. rewrite has_room_true by (unfold PREPARE_LEN, FCGI_HEADER_LEN; lia). cbn [negb].
  fold h1. replace (fcgi_write_begin_req_body _ _ _) with
    (Some ((header_bytes h1 ++ [j1]) ++ begin_body keep_alive ++ junk ++ x3 ++ j2 :: b4, FCGI_BEGIN_BODY_LEN)).
  2:{ unfold fcgi_write_begin_req_body. symmetry. cbn [app].
      change (header_bytes h1 ++ j1 :: x2 ++ junk ++ x3 ++ j2 :: b4) with ((header_bytes h1 ++ [j1]) ++ x2 ++ junk ++ x3 ++ j2 :: b4).
      rewrite (bwrite_app (header_bytes h1 ++ [j1]) x2) by done. reflexivity. }
  mstep. change (0 + FCGI_HEADER_LEN + FCGI_BEGIN_BODY_LEN + FCGI_HEADER_LEN) with 24.
  replace ((header_bytes h1 ++ [j1]) ++ begin_body keep_alive ++ junk ++ x3 ++ j2 :: b4)
    with ((header_bytes h1 ++ [j1] ++ begin_body keep_alive ++ junk ++ x3 ++ [j2]) ++ b4) by (rewrite <- !app_assoc; reflexivity).
  rewrite Henv. mstep.
  replace ((header_bytes h1 ++ [j1] ++ begin_body keep_alive ++ junk ++ x3 ++ [j2]) ++ text ++ pad ++ x5 ++ j3 :: rest)
    with ((header_bytes h1 ++ [j1] ++ begin_body keep_alive ++ junk) ++ x3 ++ j2 :: text ++ pad ++ x5 ++ j3 :: rest)
    by (rewrite <- !app_assoc; reflexivity).
  rewrite put_header by (lens || done). mstep.
  rewrite u16_small by lia. rewrite has_room_true by (unfold PREPARE_LEN; lia). cbn [negb].
  set (h2 := record_header FCGI_PARAMS req_id _ _).
  replace ((header_bytes h1 ++ [j1] ++ begin_body keep_alive ++ junk) ++ header_bytes h2 ++ j2 :: text ++ pad ++ x5 ++ j3 :: rest)
    with ((header_bytes h1 ++ [j1] ++ begin_body keep_alive ++ junk ++ header_bytes h2 ++ [j2] ++ text ++ pad) ++ x5 ++ j3 :: rest)
    by (rewrite <- !app_assoc; reflexivity).
  rewrite put_header by (lens || done). mstep.
  do 2 f_equal. f_equal; [|unfold FCGI_HEADER_LEN; lia].
  unfold params_layout. fold h1. replace (Z.of_nat (length pad)) with (padding_of (Z.of_nat (length text))) by lia. fold h2.
  do 3 (rewrite <- ?app_assoc; cbn [app]). reflexivity.
Qed.

(** ** The whole request *)

Definition request_layout (req_id keep_alive : Z) (text pad junk : bytes) (j1 j2 j3 j4 : Z) : bytes :=
  params_layout req_id keep_alive text pad junk j1 j2 j3 ++ header_bytes (no_stdin req_id) ++ [j4].

(** The records a server is sent for a request without a body. *)
Definition request_records (req_id keep_alive : Z) (text junk : bytes) : list (fcgi_header * bytes) :=
  [ (record_header FCGI_BEGIN_REQUEST req_id FCGI_BEGIN_BODY_LEN 0, begin_body keep_alive ++ junk);
    (record_header FCGI_PARAMS req_id (Z.of_nat (length text)) (padding_of (Z.of_nat (length text))), text);
    (record_header FCGI_PARAMS req_id 0 0, []);
    (no_stdin req_id, []) ].

Lemma record_header_ok type req_id n pad : 0 <= type < 256 -> 0 <= req_id < 65536 -> 0 <= n < 65536 -> 0 <= pad < 256 ->
  header_ok (record_header type req_id n pad).
Proof. intros. now split. Qed.

Lemma request_layout_recs req_id keep_alive text pad junk j1 j2 j3 j4 :
  0 <= req_id < 65536 -> (length text <= 4000)%nat -> length junk = 5%nat -> Z.of_nat (length pad) = padding_of (Z.of_nat (length text)) ->
  recs (request_layout req_id keep_alive text pad junk j1 j2 j3 j4) (request_records req_id keep_alive text junk) [].
Proof.
  intros Hid Ht Hj Hp. pose proof (padding_range (Z.of_nat (length text))). unfold request_layout, params_layout, request_records, no_stdin.
  replace (Z.of_nat (length pad)) with (padding_of (Z.of_nat (length text))) by lia.
  do 5 (rewrite <- ?app_assoc; cbn [app]).
  change (begin_body keep_alive ++ junk ++ ?x) with (begin_body keep_alive ++ junk ++ [] ++ x).
  rewrite (app_assoc (begin_body keep_alive)).
  apply recs_record; [apply record_header_ok; done || lia|cbn; lens|done|].
  apply recs_record; [apply record_header_ok; done || lia|done|cbn; lia|].
  change [j4] with (j4 :: [] ++ [] ++ []). change (j3 :: ?x) with (j3 :: [] ++ [] ++ x).
  apply recs_record; [apply record_header_ok; done || lia|done|done|].
  apply recs_record; [apply record_header_ok; done || lia|done|done|]. now apply recs_end.
Qed.

Lemma prepare_stdin_run m lay rest req_id q iov :
  len (sr_data q) <= 0 -> (8 <= length rest)%nat -> (0 < length lay /\ length lay + length rest = 4096)%nat -> ci_index iov < ci_size iov ->
  (length lay < 4088)%nat ->
  exists j4 rest', prepare_stdin m (lay ++ rest) (Z.of_nat (length lay)) req_id q iov =
    Some (0, set_cell iov (CHUNK_REF_UINT8 m) {| iov_base := BMem m 0; iov_len := Z.of_nat (length (lay ++ header_bytes (no_stdin req_id) ++ [j4])) |},
          (lay ++ header_bytes (no_stdin req_id) ++ [j4]) ++ rest').
Proof.
  intros Hq Hr Hl Hi Hroom. destruct (cut_header rest) as (x & j4 & rest' & -> & Hx & Hrest); [done|]. exists j4, rest'.
  unfold prepare_stdin. cbv zeta. replace (0 <? len (sr_data q)) with false by zb. rewrite has_room_true by (unfold PREPARE_LEN; lia). cbn [negb].
  rewrite put_header by done. mstep. unfold chunk_iov_add_ptr. replace (ci_index iov <? ci_size iov) with true by zb. cbn [negb].
  replace (0 <? _) with true by (unfold FCGI_HEADER_LEN; zb). cbn [negb Z.eqb].
  replace (Z.of_nat (length (lay ++ header_bytes (no_stdin req_id) ++ [j4]))) with (Z.of_nat (length lay) + FCGI_HEADER_LEN)
    by (rewrite !length_app; cbn; unfold FCGI_HEADER_LEN; lia).
  do 2 (rewrite <- ?app_assoc; cbn [app]). reflexivity.
Qed.

(** The run, once the buffer and the vector are known. *)
Lemma fcgi_prepare_request_run cx w i r cs sr c q location req_id buf pos iov buf' :
  let m := st_next (cx_store cx) in let b := map sys_junk (seq 0 (Z.to_nat PREPARE_LEN)) in
  rl_rs (cx_rl cx) !! i = Some r -> request_list_index_of (cx_rl cx) i = req_id -> 0 < req_id ->
  fcgi_config_get_location fcgi_global_config (rq_clock_id r) = Some location ->
  rq_cs r = Some cs -> rq_sr r = Some sr -> at_sr w cs sr c q ->
  prepare_params b req_id (lc_keep_alive location) c q = Some (Some (buf, pos)) ->
  prepare_stdin m buf pos req_id q (rq_iov r) = Some (0, iov, buf') ->
  exists cx', fcgi_prepare_request i cx w = Some (0, cx', w) /\ rl_rs (cx_rl cx') = <[i := r <| rq_iov := iov |>]> (rl_rs (cx_rl cx)) /\
    st_mem (cx_store cx') !! m = Some buf'.
Proof.
  intros m b Hi Hid Hpos Hloc Hcs Hsr [Hc Hq] Ep Es.
  unfold fcgi_prepare_request. unfold mbind at 1, F_bind at 1, get_cx at 1.
  erewrite bindF_run; [|apply get_req_run; exact Hi]. erewrite bindF_run; [|apply on_store_run; reflexivity]. cbv zeta. fold m.
  rewrite Hid. replace (0 <? _) with true by zb. rewrite Hloc.
  erewrite bindF_run; [|unfold sr_of; rewrite Hcs, Hsr; reflexivity]. cbn beta iota.
  erewrite bindF_run; [|unfold core; rewrite (get_cs_run _ _ _ Hc); reflexivity].
  erewrite bindF_run; [|unfold core; rewrite (get_sr_run _ _ _ _ _ Hc Hq); reflexivity].
  unfold mbind at 1, F_bind at 1, get_cx at 1.
  erewrite bindF_run; [|unfold liftF; cbn [cx_store st_mem set_field]; rewrite lookup_insert_eq; reflexivity].
  erewrite bindF_run; [|unfold liftF; fold b; rewrite Ep; reflexivity]. cbn beta iota.
  erewrite bindF_run; [|unfold liftF; rewrite Es; reflexivity]. cbn beta iota.
  erewrite bindF_run; [|reflexivity]. erewrite bindF_run; [|reflexivity]. cbn [Z.eqb].
  eexists. split; [reflexivity|]. split; [done|]. cbn. apply lookup_insert_eq.
Qed.

(** C27: the request prepared for a server is whole: for a request without a
    body whose environment fits, the vector of the request holds exactly the
    records that begin it, carry its environment and end its parameters and
    its input, and they are read back by the plugin's own record reader. *)
Theorem fcgi_prepare_request_records cx w i r cs sr c q t location :
  list_ok (cx_rl cx) -> rl_rs (cx_rl cx) !! i = Some r -> 1 <= rl_id_offset (cx_rl cx) -> rl_id_offset (cx_rl cx) + rl_size (cx_rl cx) <= 65536 ->
  fcgi_config_get_location fcgi_global_config (rq_clock_id r) = Some location ->
  rq_cs r = Some cs -> rq_sr r = Some sr -> at_sr w cs sr c q -> len (sr_data q) <= 0 ->
  env_ready getsockname getpeername inet_ntop c q t -> Z.of_nat (length (params_text (env_text t))) <= 4000 ->
  iov_ok (cx_store cx) (rq_iov r) [] -> ci_index (rq_iov r) = 0 -> 0 < ci_size (rq_iov r) ->
  exists cx' r' text junk, fcgi_prepare_request i cx w = Some (0, cx', w) /\ rl_rs (cx_rl cx') !! i = Some r' /\
    rq_state r' = rq_state r /\ iov_ok (cx_store cx') (rq_iov r') text /\
    recs text (request_records (rl_id_offset (cx_rl cx) + Z.of_nat i) (lc_keep_alive location) (params_text (env_text t)) junk) [].
Proof.
  intros Hl Hi Ho1 Ho2 Hloc Hcs Hsr [Hc Hq] Hdata Hready Hfit [V1 V2 V3 V4 V5] Hidx Hsz. pose proof (lo_rs _ Hl) as Hn.
  pose proof (lookup_lt_Some _ _ _ Hi) as Hlt. set (m := st_next (cx_store cx)). set (b := map sys_junk (seq 0 4096)).
  assert (Hid : request_list_index_of (cx_rl cx) i = rl_id_offset (cx_rl cx) + Z.of_nat i).
  { unfold request_list_index_of. replace (_ <=? _) with true by zb. rewrite u16_small; lia. }
  destruct (prepare_params_run b (rl_id_offset (cx_rl cx) + Z.of_nat i) (lc_keep_alive location) c q t) as
    (pad & junk & j1 & j2 & j3 & rest & Ep & Hpad & Hjunk & Hlen); [unfold b; now rewrite length_map, length_seq|done|done|].
  set (text := params_text (env_text t)) in *. set (lay := params_layout _ _ _ _ _ _ _ _) in *.
  pose proof (padding_range (Z.of_nat (length text))) as Hp8.
  assert (Hlay : length lay = (32 + length text + length pad)%nat) by now apply length_params_layout.
  destruct (prepare_stdin_run m lay rest (rl_id_offset (cx_rl cx) + Z.of_nat i) q (rq_iov r)) as (j4 & rest' & Es); [done|lia|lia|lia|lia|].
  set (out := lay ++ header_bytes (no_stdin (rl_id_offset (cx_rl cx) + Z.of_nat i)) ++ [j4]) in *.
  assert (Hout : Z.of_nat (length out) < 5000 /\ recs out (request_records (rl_id_offset (cx_rl cx) + Z.of_nat i) (lc_keep_alive location) text junk) []).
  { split; [unfold out; lens|]. apply request_layout_recs; [lia|lia|done|done]. }
  destruct Hout as [Hout Hrecs]. clearbody out.
  destruct (fcgi_prepare_request_run cx w i r cs sr c q location _ _ _ _ _ Hi Hid ltac:(lia) Hloc Hcs Hsr ltac:(now split) Ep Es)
    as (cx' & Erun & Hrs & Hmem).
  eexists cx', _, out, junk. split; [exact Erun|]. split; [rewrite Hrs; now apply list_lookup_insert_eq|]. split; [done|]. split; [|exact Hrecs].
  refine (set_cell_ok _ (rq_iov r) [] _ _ out _ _ _ _).
  - split; try done. unfold iov_bytes in *. rewrite Hidx in *. done.
  - lia.
  - unfold io_bytes. cbn [iov_base iov_len]. fold m in Hmem. rewrite Hmem. mstep.
    rewrite padd_drop by lia. mstep. rewrite drop_0, memread_take by (rewrite length_app; lia). now rewrite Nat2Z.id, take_app_length.
  - cbn [app]. lia.
Qed.
End Prepare.

(** ** The request is sent *)

Section Send.
Context `{env : Env} `{globals : FcgiGlobals}.

(** A vector that holds a request to be sent: its own buffers, no chunks. *)
Record sendable (s : store) (iov : chunk_iov) (b : bytes) : Prop := {
  sd_vec : iov_ok s iov b;
  sd_some : b <> [];
  sd_used : 0 < ci_index iov;
  sd_no_chunks : forall id, CHUNK_REF_CHUNK id ∉ take (Z.to_nat (ci_index iov)) (ci_refs iov);
  sd_own : NoDup (owned_by iov) /\ Forall (fun m => is_Some (st_mem s !! m)) (owned_by iov)
}.

Lemma free_own l s : (forall id, CHUNK_REF_CHUNK id ∉ l) -> NoDup (owned l) -> Forall (fun m => is_Some (st_mem s !! m)) (owned l) ->
  exists s', free_refs l s = Some s' /\ st_chunks s' = st_chunks s.
Proof.
  revert s; induction l as [|[|id|m] l IH]; intros s Hc Hn Hm; cbn [free_refs owned] in *.
  - by exists s.
  - apply IH; try done. intros id Hid. apply (Hc id). now right.
  - destruct (Hc id). now left.
  - apply NoDup_cons in Hn as [Hn Hnd]. apply Forall_cons in Hm as [[d Hd] Hm]. rewrite (mem_free_run _ _ _ Hd). mstep.
    destruct (IH (s <| st_mem := delete m (st_mem s) |>)) as (s' & E & Hs'); try done.
    + intros id Hid. apply (Hc id). now right.
    + apply Forall_forall. intros x Hx. cbn. rewrite Forall_forall in Hm. rewrite lookup_delete_ne by (intros ->; done). now apply Hm.
    + by exists s'.
Qed.

Lemma reset_own s iov b : sendable s iov b -> exists iov' s', chunk_iov_reset iov s = Some (iov', s') /\ ci_index iov' = 0 /\ st_chunks s' = st_chunks s.
Proof.
  intros [_ _ _ Hc [Hn Hm]]. unfold chunk_iov_reset, chunk_iov_free_refs. destruct (free_own _ s Hc Hn Hm) as (s' & -> & Hs). mstep.
  by eexists _, s'.
Qed.

(** The rest of it is still such a vector. *)
Lemma sendable_drop s iov b n : sendable s iov b -> 0 < n < Z.of_nat (length b) ->
  exists iov', chunk_iov_drop iov n = Some (0, iov') /\ sendable s iov' (drop (Z.to_nat n) b).
Proof.
  intros [Hv Hs Hu Hc Ho] Hn. destruct (chunk_iov_drop_ok s iov b n Hv) as (iov' & E & Hv' & E1 & E2 & E3); [lia|].
  exists iov'. split; [exact E|]. split; [exact Hv'| |lia| |].
  - intros Hnil. apply (f_equal length) in Hnil. rewrite length_drop in Hnil. cbn in Hnil. lia.
  - now rewrite E1, E3.
  - unfold owned_by in *. now rewrite E1, E3.
Qed.

(** The socket [k] sends [b], the rest of the request [i]. *)
Record sending (cx : fcgi_context) (k : nat) (f : fcgi_fd) (i : nat) (r : request) (b : bytes) : Prop := {
  sg_fd : cx_fdl cx !! k = Some f;
  sg_first : fcgi_fd_list_get_by_fd (cx_fdl cx) (fd_fd f) = Some k;
  sg_state : fd_state f = FCGI_FD_SENDING;
  sg_begin : fd_begin_req f = Some i;
  sg_remain : fd_begin_req_remain f = Z.of_nat (length b);
  sg_req : rl_rs (cx_rl cx) !! i = Some r;
  sg_vec : sendable (cx_store cx) (rq_iov r) b
}.

Record sent (cx : fcgi_context) (k : nat) (f : fcgi_fd) (i : nat) (r : request) : Prop := {
  se_fd : cx_fdl cx !! k = Some f;
  se_state : fd_state f = FCGI_FD_RECEIVING /\ fd_begin_req f = None;
  se_req : rl_rs (cx_rl cx) !! i = Some r;
  se_vec : ci_index (rq_iov r) = 0
}.

Definition same_request (r r' : request) : Prop :=
  rq_state r' = rq_state r /\ rq_fcgi_fd r' = rq_fcgi_fd r /\ rq_fd r' = rq_fd r /\ rq_cs r' = rq_cs r /\ rq_sr r' = rq_sr r.

Lemma find_fd_insert p l k f f' : l !! k = Some f -> p f' = p f -> find_fd p (<[k := f']> l) = find_fd p l.
Proof.
  revert k; induction l as [|x l IH]; intros [|k] Hk Hp; [done|done|cbn in *; injection Hk as ->; now rewrite Hp|].
  cbn in *. now rewrite IH.
Qed.

Lemma by_fd_insert l k f f' fd : l !! k = Some f -> fd_fd f' = fd_fd f ->
  fcgi_fd_list_get_by_fd (<[k := f']> l) fd = fcgi_fd_list_get_by_fd l fd.
Proof. intros Hk Hf. unfold fcgi_fd_list_get_by_fd. apply (find_fd_insert _ _ k f); [done|]. now rewrite Hf. Qed.

Lemma by_socket_server cx w fd k : fcgi_fd_list_get_by_fd (cx_fdl cx) fd = Some k -> by_socket fd cx w = Some ((Some k, None), cx, w).
Proof. intros H. unfold by_socket, fd_by_socket, mbind, F_bind, get_cx, mret, F_ret. now rewrite H. Qed.

Lemma send_iov_run fd iov b cx w : iov_ok (cx_store cx) iov b -> 0 < ci_index iov ->
  send_iov fd iov cx w = Some ((net_writev (w_trace w) fd b, writev_again (w_trace w) fd), cx,
    logged w [EvWrite fd (take (Z.to_nat (net_writev (w_trace w) fd b)) b)]).
Proof.
  intros [_ _ _ Hb _] Hi. unfold send_iov, mbind, F_bind, get_cx, core, gets, liftF, chunk_iov_sendv.
  replace (0 <? ci_index iov) with true by zb. cbn [negb]. rewrite Hb. reflexivity.
Qed.

Definition corked (f : fcgi_fd) (state : Z) : list event :=
  match fd_type f with FCGI_FD_INET => [EvCork (fd_fd f) state] | FCGI_FD_UNIX => [] end.

Lemma fd_cork_run t fd state cx w :
  (match t with FCGI_FD_INET => core (mk_socket_set_cork_flag fd state) | FCGI_FD_UNIX => mret tt end : F unit) cx w =
  Some (tt, cx, logged w (match t with FCGI_FD_INET => [EvCork fd state] | FCGI_FD_UNIX => [] end)).
Proof. destruct t; [now rewrite logged_nil|reflexivity]. Qed.

Lemma written_cork f state fd t : written fd (t ++ corked f state) = written fd t.
Proof. rewrite written_app. unfold corked. destruct (fd_type f); cbn; now rewrite app_nil_r. Qed.

(** One event of the socket. *)
Lemma send_request_step cx k f i r b w :
  sending cx k f i r b -> let n := net_writev (w_trace w) (fd_fd f) b in 1 <= n <= Z.of_nat (length b) ->
  exists cx' f' r' w', send_request k cx w = Some (MK_PLUGIN_RET_EVENT_OWNED, cx', w') /\
    written (fd_fd f) (w_trace w') = written (fd_fd f) (w_trace w) ++ take (Z.to_nat n) b /\ fd_fd f' = fd_fd f /\ same_request r r' /\
    (if n =? Z.of_nat (length b) then sent cx' k f' i r' else sending cx' k f' i r' (drop (Z.to_nat n) b)).
Proof.
  intros [Hk Hfirst Hst Hbeg Hrem Hr Hv] n Hn. unfold send_request. erewrite bindF_run; [|apply get_fd_run; exact Hk].
  rewrite Hbeg. erewrite bindF_run; [|apply get_req_run; exact Hr]. pose proof (io_max _ _ _ (sd_vec _ _ _ Hv)) as Hmax.
  erewrite bindF_run; [|apply send_iov_run; [exact (sd_vec _ _ _ Hv)|exact (sd_used _ _ _ Hv)]]. cbn beta iota. fold n.
  set (w1 := logged w _). replace (n =? -1) with false by zb. cbv zeta. rewrite Hrem, u64_small by lia.
  erewrite bindF_run; [|reflexivity]. destruct (n =? Z.of_nat (length b)) eqn:E; zbool.
  - replace (_ - n =? 0) with true by zb. destruct (reset_own _ _ _ Hv) as (iov' & s' & Ereset & Hidx & _).
    set (f1 := f <| fd_begin_req_remain := Z.of_nat (length b) - n |>).
    assert (Hk1 : <[k := f1]> (cx_fdl cx) !! k = Some f1) by (apply list_lookup_insert_eq; now apply lookup_lt_Some in Hk).
    eexists _, (f <| fd_begin_req_remain := Z.of_nat (length b) - n |> <| fd_state := FCGI_FD_RECEIVING |> <| fd_begin_req := None |>),
      (r <| rq_iov := iov' |>), (logged w1 (corked f TCP_CORK_OFF)). split; [|split; [|split; [|split; [done|]]]].
    + erewrite bindF_run.
      2:{ erewrite bindF_run; [|apply fd_cork_run].
          erewrite bindF_run.
          2:{ unfold set_fd_state. erewrite bindF_run; [|apply get_fd_run; exact Hk1]. unfold fcgi_fd_set_state, f1. cbn [fd_state set_field].
              rewrite Hst. reflexivity. }
          erewrite bindF_run.
          2:{ unfold reset_req_iov. apply (on_req_run _ r); [exact Hr|]. cbn [cx_store set_field]. rewrite Ereset. reflexivity. }
          erewrite bindF_run.
          2:{ apply get_fd_run. cbn. apply list_lookup_insert_eq. rewrite length_insert. now apply lookup_lt_Some in Hk. }
          reflexivity. }
      reflexivity.
    + unfold w1, logged. cbn [w_trace set_field]. rewrite written_cork. now rewrite written_one.
    + done.
    + split; cbn; [|by split| |exact Hidx].
      * apply list_lookup_insert_eq. rewrite !length_insert. now apply lookup_lt_Some in Hk.
      * apply list_lookup_insert_eq. now apply lookup_lt_Some in Hr.
  - replace (_ - n =? 0) with false by zb. destruct (sendable_drop _ _ _ n Hv) as (iov' & Edrop & Hv'); [lia|].
    eexists _, (f <| fd_begin_req_remain := Z.of_nat (length b) - n |>), (r <| rq_iov := iov' |>), w1. split; [|split; [|split; [|split; [done|]]]].
    + erewrite bindF_run; [|erewrite bindF_run; [|unfold liftF; rewrite Edrop; reflexivity]; reflexivity]. reflexivity.
    + unfold w1, logged. cbn [w_trace set_field]. apply written_one.
    + done.
    + split; cbn; try done.
      * apply list_lookup_insert_eq. now apply lookup_lt_Some in Hk.
      * refine (eq_trans (by_fd_insert _ k f _ (fd_fd f) Hk _) Hfirst). reflexivity.
      * rewrite length_drop. lia.
      * apply list_lookup_insert_eq. now apply lookup_lt_Some in Hr.
Qed.

(** Events of a socket, as long as the plugin owns them. *)
Fixpoint write_events (n : nat) (socket : Z) : F unit :=
  match n with
  | O => mret tt
  | S n => ret ← _mkp_event_write socket; if ret =? MK_PLUGIN_RET_EVENT_OWNED then write_events n socket else liftF None
  end.

Lemma event_write_sending fuel cx k f i r b w : sending cx k f i r b ->
  event_write (S fuel) (fd_fd f) cx w = send_request k cx w.
Proof.
  intros [Hk Hfirst Hst _ _ _ _]. cbn [event_write]. rewrite (bindF_run _ _ _ _ _ _ _ (by_socket_server _ _ _ _ Hfirst)). cbn beta iota.
  erewrite bindF_run; [|apply get_fd_run; exact Hk]. now rewrite Hst.
Qed.

Lemma same_request_trans r1 r2 r3 : same_request r1 r2 -> same_request r2 r3 -> same_request r1 r3.
Proof. intros (?&?&?&?&?) (?&?&?&?&?). unfold same_request. repeat split; congruence. Qed.

(** A network that takes at least a byte of what it is offered. *)
Definition takes (fd : Z) : Prop := forall t d, d <> [] -> 1 <= net_writev t fd d <= Z.of_nat (length d).

Lemma sends_all m : forall cx k f i r b w, sending cx k f i r b -> takes (fd_fd f) -> (length b <= m)%nat ->
  exists n cx' f' r' w', write_events n (fd_fd f) cx w = Some (tt, cx', w') /\ (n <= m)%nat /\ sent cx' k f' i r' /\
    written (fd_fd f) (w_trace w') = written (fd_fd f) (w_trace w) ++ b /\ same_request r r'.
Proof.
  induction m as [|m IH]; intros cx k f i r b w Hs Ht Hm; pose proof (sd_some _ _ _ (sg_vec _ _ _ _ _ _ Hs)) as Hb;
    [destruct b; [done|cbn in Hm; lia]|].
  pose proof (Ht (w_trace w) b Hb) as Hn. destruct (send_request_step cx k f i r b w Hs Hn) as (cx1 & f1 & r1 & w1 & E & Hw & Hf & Hr & Hnext).
  set (n := net_writev (w_trace w) (fd_fd f) b) in *.
  assert (E1 : _mkp_event_write (fd_fd f) cx w = Some (MK_PLUGIN_RET_EVENT_OWNED, cx1, w1))
    by (unfold _mkp_event_write; now rewrite (event_write_sending _ _ _ _ _ _ _ _ Hs)).
  destruct (n =? Z.of_nat (length b)) eqn:En; zbool.
  - exists 1%nat, cx1, f1, r1, w1. split; [|split; [lia|split; [done|split; [|done]]]].
    + cbn [write_events]. now rewrite (bindF_run _ _ _ _ _ _ _ E1).
    + now rewrite Hw, En, Nat2Z.id, firstn_all.
  - destruct (IH cx1 k f1 i r1 (drop (Z.to_nat n) b) w1 Hnext) as (n' & cx2 & f2 & r2 & w2 & E2 & Hn2 & Hs2 & Hw2 & Hr2);
      [now rewrite Hf|rewrite length_drop; lia|]. rewrite Hf in *.
    exists (S n'), cx2, f2, r2, w2. split; [|split; [lia|split; [done|split]]].
    + cbn [write_events]. now rewrite (bindF_run _ _ _ _ _ _ _ E1).
    + now rewrite Hw2, Hw, <- app_assoc, take_drop.
    + now apply same_request_trans with r1.
Qed.

Lemma ready_sending f : fd_state f = FCGI_FD_READY -> fcgi_fd_set_state f FCGI_FD_SENDING = (0, f <| fd_state := FCGI_FD_SENDING |>).
Proof. intros H. unfold fcgi_fd_set_state. now rewrite H. Qed.

Lemma set_begin_req f i iov : fd_state f = FCGI_FD_READY ->
  fcgi_fd_set_begin_req_iov f i iov = (0, f <| fd_begin_req_remain := chunk_iov_length iov |> <| fd_begin_req := Some i |>).
Proof. intros H. unfold fcgi_fd_set_begin_req_iov. now rewrite H. Qed.

(** A server that waits for work is given a request. *)
Lemma begin_request_run cx k f i r b w :
  cx_fdl cx !! k = Some f -> fcgi_fd_list_get_by_fd (cx_fdl cx) (fd_fd f) = Some k -> fd_state f = FCGI_FD_READY ->
  rl_rs (cx_rl cx) !! i = Some r -> rq_state r = REQ_ASSIGNED -> sendable (cx_store cx) (rq_iov r) b ->
  exists cx' f' r', begin_request k i cx w = Some (true, cx', logged w (corked f TCP_CORK_ON)) /\ sending cx' k f' i r' b /\ fd_fd f' = fd_fd f /\
    rq_state r' = REQ_SENT /\ rq_fcgi_fd r' = fd_fd f /\ rq_fd r' = rq_fd r /\ rq_cs r' = rq_cs r /\ rq_sr r' = rq_sr r.
Proof.
  intros Hk Hfirst Hst Hr Hrs Hv. pose proof (lookup_lt_Some _ _ _ Hk) as Hkl. pose proof (lookup_lt_Some _ _ _ Hr) as Hrl.
  pose proof (chunk_iov_length_ok _ _ _ (sd_vec _ _ _ Hv)) as Hlen.
  set (r1 := request_set_fcgi_fd r (fd_fd f)). set (r2 := r1 <| rq_state := REQ_SENT |>).
  exists (cx <| cx_rl := cx_rl cx <| rl_rs := <[i := r2]> (<[i := r1]> (rl_rs (cx_rl cx))) |> |>
            <| cx_fdl := <[k := f <| fd_begin_req_remain := Z.of_nat (length b) |> <| fd_begin_req := Some i |> <| fd_state := FCGI_FD_SENDING |>]>
                 (<[k := f <| fd_begin_req_remain := Z.of_nat (length b) |> <| fd_begin_req := Some i |>]> (cx_fdl cx)) |>),
    (f <| fd_begin_req_remain := Z.of_nat (length b) |> <| fd_begin_req := Some i |> <| fd_state := FCGI_FD_SENDING |>), r2.
  split; [|split; [|done]].
  - unfold begin_request. erewrite bindF_run; [|apply get_fd_run; exact Hk]. erewrite bindF_run; [|apply get_req_run; exact Hr].
    erewrite bindF_run; [|reflexivity].
    erewrite bindF_run.
    2:{ unfold set_req_state. apply (on_req_run _ r1); [cbn; now apply list_lookup_insert_eq|].
        unfold request_set_state. change (rq_state r1) with (rq_state r). rewrite Hrs. reflexivity. }
    cbn [Z.eqb negb]. erewrite bindF_run; [|apply (get_req_run _ r2); cbn; apply list_lookup_insert_eq; now rewrite length_insert].
    change (rq_iov r2) with (rq_iov r). rewrite set_begin_req, Hlen by done. cbn [Z.eqb negb].
    erewrite bindF_run; [|reflexivity].
    erewrite bindF_run.
    2:{ unfold set_fd_state. erewrite bindF_run; [|apply get_fd_run; cbn; now apply list_lookup_insert_eq].
        rewrite ready_sending by exact Hst. reflexivity. }
    cbn [Z.eqb negb fd_type fd_fd set_field]. erewrite bindF_run; [|apply fd_cork_run].
    reflexivity.
  - split; try done; cbn.
    + apply list_lookup_insert_eq. now rewrite length_insert.
    + rewrite list_insert_insert_eq. refine (eq_trans (by_fd_insert _ k f _ (fd_fd f) Hk _) Hfirst). reflexivity.
    + apply list_lookup_insert_eq. now rewrite length_insert.
Qed.

Lemma written_corked_log f state w fd : written fd (w_trace (logged w (corked f state))) = written fd (w_trace w).
Proof. apply written_cork. Qed.

(** The first event of a server that waits for work. *)
Lemma event_write_ready cx k f j w :
  list_ok (cx_rl cx) -> cx_fdl cx !! k = Some f -> fcgi_fd_list_get_by_fd (cx_fdl cx) (fd_fd f) = Some k -> fd_state f = FCGI_FD_READY ->
  0 <= fd_location_id f < rl_clock_count (cx_rl cx) -> waiting (cx_rl cx) (fd_location_id f) j ->
  (forall i r, waiting (cx_rl cx) (fd_location_id f) i -> rl_rs (cx_rl cx) !! i = Some r -> exists b, sendable (cx_store cx) (rq_iov r) b) ->
  exists i r b cx' f' r', waiting (cx_rl cx) (fd_location_id f) i /\ rl_rs (cx_rl cx) !! i = Some r /\ sendable (cx_store cx) (rq_iov r) b /\
    _mkp_event_write (fd_fd f) cx w = send_request k cx' (logged w (corked f TCP_CORK_ON)) /\ sending cx' k f' i r' b /\ fd_fd f' = fd_fd f /\
    rq_state r' = REQ_SENT /\ rq_fcgi_fd r' = fd_fd f /\ rq_fd r' = rq_fd r /\ rq_cs r' = rq_cs r /\ rq_sr r' = rq_sr r.
Proof.
  intros Hl Hk Hfirst Hst Hloc Hw Hsend. destruct (clock_hand_ok (cx_rl cx) (fd_location_id f) Hl) as (h & Hh & _); [lia|].
  destruct (request_list_next_assigned_run _ _ _ _ Hl Hloc Hw Hh) as (i & rl' & En & _ & Hwi & _ & _ & Hrs & _).
  pose proof Hwi as (r & Hr & Hrst & _).
  destruct (Hsend i r Hwi Hr) as [b Hb]. set (cx1 := cx <| cx_rl := rl' |>).
  destruct (begin_request_run cx1 k f i r b w Hk Hfirst Hst) as (cx2 & f2 & r2 & Eb & Hs & Hf & Hrest); [cbn; now rewrite Hrs|done|done|].
  exists i, r, b, cx2, f2, r2. split; [done|]. split; [done|]. split; [done|]. split; [|done].
  unfold _mkp_event_write. cbn [event_write]. rewrite (bindF_run _ _ _ _ _ _ _ (by_socket_server _ _ _ _ Hfirst)). cbn beta iota.
  erewrite bindF_run; [|apply get_fd_run; exact Hk]. rewrite Hst.
  change (FCGI_FD_READY =? FCGI_FD_READY) with true. cbn iota.
  erewrite bindF_run.
  2:{ unfold on_list, mbind, F_bind, get_cx, liftF, put_cx, mret, F_ret. rewrite En. mstep. reflexivity. }
  fold cx1. cbn beta iota. rewrite (bindF_run _ _ _ _ _ _ _ Eb). erewrite bindF_run; [|apply get_fd_run; exact (sg_fd _ _ _ _ _ _ Hs)].
  exact (event_write_sending 0 _ _ _ _ _ _ _ Hs).
Qed.

(** C11: a server that is ready is given a request that waits for its
    location, and gets exactly the bytes prepared for it, however little the
    network takes at a time, after at most as many events as there are bytes;
    then the socket receives, the request is marked as sent and bound to the
    socket, its vector is free for the answer and its client stays the same. *)
Theorem fcgi_request_sent cx k f j w :
  list_ok (cx_rl cx) -> cx_fdl cx !! k = Some f -> fcgi_fd_list_get_by_fd (cx_fdl cx) (fd_fd f) = Some k -> fd_state f = FCGI_FD_READY ->
  0 <= fd_location_id f < rl_clock_count (cx_rl cx) -> waiting (cx_rl cx) (fd_location_id f) j ->
  (forall i r, waiting (cx_rl cx) (fd_location_id f) i -> rl_rs (cx_rl cx) !! i = Some r -> exists b, sendable (cx_store cx) (rq_iov r) b) ->
  takes (fd_fd f) ->
  exists i r b n cx' f' r' w', waiting (cx_rl cx) (fd_location_id f) i /\ rl_rs (cx_rl cx) !! i = Some r /\ sendable (cx_store cx) (rq_iov r) b /\
    write_events n (fd_fd f) cx w = Some (tt, cx', w') /\ (n <= length b)%nat /\
    written (fd_fd f) (w_trace w') = written (fd_fd f) (w_trace w) ++ b /\ sent cx' k f' i r' /\
    rq_state r' = REQ_SENT /\ rq_fcgi_fd r' = fd_fd f /\ rq_fd r' = rq_fd r /\ rq_cs r' = rq_cs r /\ rq_sr r' = rq_sr r.
Proof.
  intros Hl Hk Hfirst Hst Hloc Hw Hsend Ht.
  destruct (event_write_ready cx k f j w Hl Hk Hfirst Hst Hloc Hw Hsend) as
    (i & r & b & cx1 & f1 & r1 & Hwi & Hr & Hb & E & Hs & Hf & G1 & G2 & G3 & G4 & G5).
  rewrite <- Hf in Ht. destruct (sends_all (length b) cx1 k f1 i r1 b (logged w (corked f TCP_CORK_ON)) Hs Ht (le_n _)) as
    (n & cx2 & f2 & r2 & w2 & E2 & Hn & Hsent & Hwr & (S1 & S2 & S3 & S4 & S5)).
  exists i, r, b, n, cx2, f2, r2, w2. rewrite Hf, written_corked_log in *. split_and!; try done; try congruence.
  destruct n as [|n]; [|cbn [write_events] in *].
  { cbn in E2. injection E2 as <- <-. rewrite written_corked_log in Hwr. rewrite <- (app_nil_r (written _ _)) in Hwr at 1.
    apply app_inv_head in Hwr. now destruct (sd_some _ _ _ Hb). }
  unfold mbind, F_bind in *. rewrite E. unfold _mkp_event_write in E2. rewrite <- Hf in E2 at 1. now rewrite (event_write_sending _ _ _ _ _ _ _ _ Hs) in E2.
Qed.
End Send.

(** ** Examples *)

Definition send_globals : FcgiGlobals :=
  {| fcgi_global_config := {| fc_servers := []; fc_locations := [ {| lc_name := lit "php"; lc_match := lit ".php"; lc_keep_alive := 1; lc_server_ids := [0%nat] |} ] |};
     fcgi_global_plugin := None; regexec := fun _ _ => true; getsockname := fun _ => Some (1, 2001); getpeername := fun _ => None;
     inet_ntop := fun _ => Some (clit "127.0.0.1"); unix_socket := fun _ => -1; unix_connect := fun _ _ _ => -1;
     socket_connect := fun _ _ _ => -1; writev_again := fun _ _ => false |}.

Definition context_with (iov : chunk_iov) : fcgi_context :=
  {| cx_store := empty_store;
     cx_rl := {| rl_cache := request_cache_init (fun _ => 0); rl_size := 1; rl_id_offset := 1; rl_clock_count := 1; rl_clock_hands := [0];
                 rl_rs := [request_at REQ_ASSIGNED 5 0 <| rq_cs := Some 1%nat |> <| rq_sr := Some 0%nat |> <| rq_iov := iov |>] |};
     cx_fdl := [fcgi_fd_init FCGI_FD_INET 0 0 <| fd_fd := 20 |> <| fd_state := FCGI_FD_READY |>] |}.

Lemma context_with_list_ok iov : list_ok (cx_rl (context_with iov)).
Proof. split; [by exists 0|done| |done|repeat constructor; done]. split; try done. vm_compute. repeat constructor. Qed.

Definition two_cells (r : chunk_ref) (io : iovec) (n : Z) : chunk_iov :=
  {| ci_index := n; ci_size := 2; ci_refs := [r; no_ref]; ci_io := [io; no_io] |}.

(** "GET /a.php?x=1" is prepared. *)
Lemma fcgi_prepare_request_witness :
  exists cx' r' text junk,
    @fcgi_prepare_request example_env send_globals 0 (context_with (two_cells no_ref no_io 0)) (request_world env_request) = Some (0, cx', request_world env_request) /\
    rl_rs (cx_rl cx') !! 0%nat = Some r' /\ rq_state r' = REQ_ASSIGNED /\ iov_ok (cx_store cx') (rq_iov r') text /\
    recs text (request_records 1 1 (params_text (env_text env_example)) junk) [].
Proof.
  destruct (@fcgi_prepare_request_records example_env send_globals (context_with (two_cells no_ref no_io 0)) (request_world env_request) 0
    (request_at REQ_ASSIGNED 5 0 <| rq_cs := Some 1%nat |> <| rq_sr := Some 0%nat |> <| rq_iov := two_cells no_ref no_io 0 |>) 1 0
    (request_session env_request) env_request env_example
    {| lc_name := lit "php"; lc_match := lit ".php"; lc_keep_alive := 1; lc_server_ids := [0%nat] |}) as
    (cx' & r' & text & junk & H1 & H2 & H3 & H4 & H5).
  - apply context_with_list_ok.
  - reflexivity.
  - done.
  - done.
  - reflexivity.
  - reflexivity.
  - reflexivity.
  - apply request_world_at.
  - done.
  - apply env_example_ready.
  - now vm_compute.
  - by split.
  - reflexivity.
  - done.
  - exists cx', r', text, junk. split; [exact H1|]. split; [exact H2|]. split; [exact H3|]. split; [exact H4|exact H5].
Defined.

(** Four bytes, of which the network takes at most three at a time. *)
Definition slow_server_env : Env := example_net (fun _ _ _ => inr (-1, true)) (fun _ _ d => Z.min 3 (Z.of_nat (length d))).
Definition four_bytes : chunk_iov := two_cells no_ref {| iov_base := BExt (lit "data!"); iov_len := 4 |} 1.

Lemma four_bytes_sendable : sendable empty_store four_bytes (lit "data").
Proof.
  split; [split; try done; cbn; lia|done|done| |].
  - intros id H. apply list_elem_of_singleton in H. done.
  - split; constructor.
Qed.

Lemma fcgi_request_sent_witness :
  exists n cx' f' r' w', @write_events slow_server_env send_globals n 20 (context_with four_bytes) example_world = Some (tt, cx', w') /\
    written 20 (w_trace w') = lit "data" /\ sent cx' 0 f' 0 r' /\ rq_state r' = REQ_SENT.
Proof.
  destruct (@fcgi_request_sent slow_server_env send_globals (context_with four_bytes) 0
    (fcgi_fd_init FCGI_FD_INET 0 0 <| fd_fd := 20 |> <| fd_state := FCGI_FD_READY |>) 0 example_world) as
    (i & r & b & n & cx' & f' & r' & w' & Hw & Hr & Hb & Hrun & _ & Hwr & Hsent & Hst & _).
  - apply context_with_list_ok.
  - reflexivity.
  - reflexivity.
  - reflexivity.
  - done.
  - by eexists.
  - intros [|i] r _ Hr; [|done]. injection Hr as <-. exists (lit "data"). apply four_bytes_sendable.
  - intros t d Hd. cbn. destruct d; [done|cbn [length]; lia].
  - destruct i as [|i]; [|done]. injection Hr as <-.
    assert (b = lit "data") as -> by (pose proof (io_data _ _ _ (sd_vec _ _ _ Hb)) as E; cbn in E; now injection E as <-).
    exists n, cx', f', r', w'. split; [exact Hrun|]. split; [exact Hwr|]. split; [exact Hsent|exact Hst].
Defined.

(** With a body of three bytes the entry behind it is given the position as its
    length: 124 bytes instead of the 5 of the padding and the 8 of the last
    record follow the body. *)
Definition post_request : session_request := env_request <| sr_data := mk_pointer_init "a=b" |>.

Example post_body_entries :
  option_map (fun x => map iov_len (ci_io (snd (fst x))))
    (prepare_stdin 0 (replicate (Z.to_nat 4096) 0) 100 1 post_request
      {| ci_index := 0; ci_size := 3; ci_refs := [no_ref; no_ref; no_ref]; ci_io := [no_io; no_io; no_io] |}) = Some [108; 3; 124].
Proof. vm_compute. reflexivity. Qed.
