(* ===== verification/FcgiHangup.v ===== *)
(** * A client hangs up

    Whatever the state of its request, no request refers to the client any
    more, and no chunk that somebody still refers to is freed. *)
From stdpp Require Import gmap.
From S2P Require Import Prelude CString MkString MkMemory MkTypes MkToc MkSession MkEpoll MkPlugin MkScheduler MkResponse.
From S2P Require Import FcgiProtocol FcgiChunk FcgiRequest FcgiConfig FcgiFd FcgiContext FcgiEnv FcgiCore FcgiRecv FcgiEvents FcgiRecords FcgiRecvSpec FcgiSendSpec.
Local Open Scope Z_scope.

Section Hangup.
Context `{env : Env} `{globals : FcgiGlobals}.

(** The buffers a vector owns are allocated, each once. *)
Definition own_ok (s : store) (iov : chunk_iov) : Prop := NoDup (owned_by iov) /\ Forall (fun m => is_Some (st_mem s !! m)) (owned_by iov).

(** The references of all but one request. *)
Definition others (cx : fcgi_context) (r : request) (id : nat) : Z := holds cx id - held_by (rq_iov r) id.

Lemma others_nonneg n m cx outs i r id : ctx_ok n m cx outs -> rl_rs (cx_rl cx) !! i = Some r -> 0 <= others cx r id.
Proof. intros Hok Hi. unfold others. pose proof (held_holds _ _ _ _ _ _ id Hok Hi). lia. Qed.

Lemma recycle_run n m cx outs i r w : ctx_ok n m cx outs -> rl_rs (cx_rl cx) !! i = Some r -> own_ok (cx_store cx) (rq_iov r) ->
  exists r' s', recycle i cx w = Some (tt, with_req i r' s' cx, w) /\ rq_state r' = REQ_AVAILABLE /\ rq_fd r' = -1 /\ ci_index (rq_iov r') = 0 /\
    refs_ok s' (others cx r).
Proof.
  intros Hok Hi [Hn Hm]. pose proof (cxo_refs _ _ _ _ Hok) as Hr.
  destruct (free_refs_spec (take (Z.to_nat (ci_index (rq_iov r))) (ci_refs (rq_iov r))) (cx_store cx) (others cx r)) as (s' & E & Hr' & _); try done.
  - intros id. pose proof (others_nonneg _ _ _ _ _ _ id Hok Hi). pose proof (holds_bound _ _ _ _ id Hok). unfold others, held_by in *. lia.
  - intros id. specialize (Hr id). unfold others, held_by. destruct (st_chunks (cx_store cx) !! id); lia.
  - eexists _, s'. split.
    + unfold recycle. apply (on_req_run _ r); [exact Hi|]. unfold request_recycle, request_reset, chunk_iov_reset, chunk_iov_free_refs.
      rewrite E. mstep. reflexivity.
    + done.
Qed.

(** A request changes, its vector does not. *)
Lemma ctx_ok_with_req n m cx outs i r r' : ctx_ok n m cx outs -> rl_rs (cx_rl cx) !! i = Some r -> rq_iov r' = rq_iov r ->
  ctx_ok n m (with_req i r' (cx_store cx) cx) outs.
Proof.
  intros [K1 K2 K3 K4 K5] Hi Hv. destruct (Forall2_lookup_l _ _ _ _ _ K2 Hi) as (b & Hb & [V1 V2 V3]).
  split; [now apply with_req_list_ok| |intros id; rewrite (holds_with_req i r) by done; rewrite Hv; specialize (K3 id); cbn|done|done].
  - cbn. rewrite <- (list_insert_id outs i b Hb). apply Forall2_insert; [done|]. split; now rewrite ?Hv.
  - destruct (st_chunks (cx_store cx) !! id); lia.
Qed.

Lemma ctx_ok_rl n m cx outs rl : ctx_ok n m cx outs -> list_ok rl -> rl_rs rl = rl_rs (cx_rl cx) -> rl_id_offset rl = rl_id_offset (cx_rl cx) ->
  ctx_ok n m (cx <| cx_rl := rl |>) outs.
Proof.
  intros [K1 K2 K3 K4 K5] Hl Hrs Hoff. split; cbn; try done; [now rewrite Hrs|intros id; unfold holds; cbn; rewrite Hrs; apply K3|].
  pose proof (lo_rs _ K1) as H1. pose proof (lo_rs _ Hl) as H2. rewrite Hrs in H2. rewrite Hoff. lia.
Qed.

(** The references once the vector of the request is empty. *)
Lemma holds_recycled i r r' s cx id : rl_rs (cx_rl cx) !! i = Some r -> ci_index (rq_iov r') = 0 -> holds (with_req i r' s cx) id = others cx r id.
Proof.
  intros Hi H0. rewrite (holds_with_req i r) by done. unfold others.
  replace (held_by (rq_iov r') id) with 0 by (unfold held_by; now rewrite H0). lia.
Qed.

Lemma by_socket_client cx fd i rl w : fcgi_fd_list_get_by_fd (cx_fdl cx) fd = None -> request_list_get_by_fd (cx_rl cx) fd = Some (Some i, rl) ->
  by_socket fd cx w = Some ((None, Some i), cx <| cx_rl := rl |>, w).
Proof.
  intros H1 H2. unfold by_socket, fd_by_socket, req_by_socket, on_list, mbind, F_bind, get_cx, liftF, put_cx, mret, F_ret. rewrite H1, H2. reflexivity.
Qed.

(** The request fails, if it did not before. *)
Lemma fail_run cx i r w : rl_rs (cx_rl cx) !! i = Some r ->
  exists cx', (if bool_decide (rq_state r = REQ_FAILED) then mret tt else _ ← set_req_state i REQ_FAILED; mret tt) cx w = Some (tt, cx', w) /\
    cx' = with_req i (r <| rq_state := REQ_FAILED |>) (cx_store cx) cx.
Proof.
  intros Hi. case_bool_decide as E.
  - exists cx. split; [done|]. unfold with_req. rewrite list_insert_id; [by destruct cx as [? [] ?]|]. rewrite Hi. f_equal. now rewrite <- E; destruct r.
  - eexists. split; [|done]. erewrite bindF_run; [|apply (on_req_run _ r); [exact Hi|reflexivity]]. reflexivity.
Qed.

(** C14: when a client hangs up, the plugin lets the connection be closed and
    forgets it: no request has its socket any more. A request that no server
    works on is free again, with an empty vector; one a server still answers
    has failed and has lost its pointers to the session, which is about to be
    freed. The other requests and the sockets of the servers stay as they
    are, and every chunk counts the references that are left. *)
Theorem hangup_forgets_client n m cx outs socket i r w :
  ctx_ok n m cx outs -> socket <> -1 -> fcgi_fd_list_get_by_fd (cx_fdl cx) socket = None ->
  rl_rs (cx_rl cx) !! i = Some r -> rq_fd r = socket -> own_ok (cx_store cx) (rq_iov r) ->
  (forall j q, rl_rs (cx_rl cx) !! j = Some q -> rq_fd q = socket -> j = i) ->
  exists cx' r', hangup socket cx w = Some (MK_PLUGIN_RET_EVENT_CONTINUE, cx', w) /\
    rl_rs (cx_rl cx') = <[i := r']> (rl_rs (cx_rl cx)) /\ cx_fdl cx' = cx_fdl cx /\
    Forall (fun q => rq_fd q <> socket) (rl_rs (cx_rl cx')) /\ refs_ok (cx_store cx') (holds cx') /\
    (if rq_fcgi_fd r =? -1 then rq_state r' = REQ_AVAILABLE /\ ci_index (rq_iov r') = 0
     else rq_state r' = REQ_FAILED /\ rq_cs r' = None /\ rq_sr r' = None /\ rq_iov r' = rq_iov r).
Proof.
  intros Hok Hsock Hnone Hi Hfd Hown Huniq.
  destruct (request_list_get_by_fd_run (cx_rl cx) socket (cxo_list _ _ _ _ Hok) Hsock) as (o & rl & E & Hl & Hrs & _ & Hoff & Ho).
  assert (Hoi : o = Some i).
  { destruct o as [j|]; [destruct Ho as (q & Hq & Hqf); now rewrite (Huniq j q Hq Hqf)|].
    rewrite Forall_lookup in Ho. now destruct (Ho i r Hi). }
  subst o. set (cx1 := cx <| cx_rl := rl |>). rewrite <- Hrs in Hi, Huniq |- *.
  pose proof (ctx_ok_rl _ _ _ _ rl Hok Hl Hrs Hoff) as Hok1. fold cx1 in Hok1.
  destruct (fail_run cx1 i r w Hi) as (cx2 & Ef & ->). set (rf := r <| rq_state := REQ_FAILED |>) in *.
  set (cx2 := with_req i rf (cx_store cx1) cx1) in *.
  assert (Hi2 : rl_rs (cx_rl cx2) !! i = Some rf) by (apply list_lookup_insert_eq; now apply lookup_lt_Some in Hi).
  assert (Hgone : forall r', rq_fd r' <> socket -> Forall (fun q => rq_fd q <> socket) (<[i := r']> (rl_rs rl))).
  { intros r' Hr'. apply Forall_lookup. intros j q Hq. destruct (decide (j = i)) as [->|Hne].
    - rewrite list_lookup_insert_eq in Hq by (now apply lookup_lt_Some in Hi). now injection Hq as <-.
    - rewrite list_lookup_insert_ne in Hq by done. intros Hs. apply Hne. now apply (Huniq j q). }
  unfold hangup. rewrite (bindF_run _ _ _ _ _ _ _ (by_socket_client _ _ _ _ w Hnone E)). fold cx1. cbn beta iota.
  erewrite bindF_run; [|apply get_req_run; exact Hi]. rewrite (bindF_run _ _ _ _ _ _ _ Ef).
  erewrite bindF_run; [|apply get_req_run; exact Hi2]. change (rq_fcgi_fd rf) with (rq_fcgi_fd r).
  pose proof (ctx_ok_with_req _ _ _ _ i r rf Hok1 Hi eq_refl) as Hok2. fold cx2 in Hok2.
  destruct (rq_fcgi_fd r =? -1).
  - destruct (recycle_run n m cx2 outs i rf w Hok2 Hi2 Hown) as (r' & s' & Er & R1 & R2 & R3 & R4).
    exists (with_req i r' s' cx2), r'. rewrite (bindF_run _ _ _ _ _ _ _ Er). split; [reflexivity|].
    cbn [with_req cx_rl cx_fdl cx_store rl_rs set_field cx2]. rewrite list_insert_insert_eq. split; [done|]. split; [done|].
    split; [apply Hgone; congruence|]. split; [|done]. intros id. rewrite (holds_recycled i rf) by done. exact (R4 id).
  - set (rg := rf <| rq_fd := -1 |> <| rq_cs := None |> <| rq_sr := None |>).
    pose proof (ctx_ok_with_req n m cx2 outs i rf rg Hok2 Hi2 eq_refl) as Hok3.
    exists (with_req i rg (cx_store cx2) cx2), rg. split; [reflexivity|]. split; [|split; [done|split; [|split; [exact (cxo_refs _ _ _ _ Hok3)|done]]]].
    + cbn. now rewrite list_insert_insert_eq.
    + cbn. rewrite list_insert_insert_eq. apply Hgone. cbn. congruence.
Qed.
End Hangup.

Lemma hangup_forgets_client_witness :
  exists cx' r', @hangup example_env send_globals 10 recv_context example_world = Some (MK_PLUGIN_RET_EVENT_CONTINUE, cx', example_world) /\
    rl_rs (cx_rl cx') = [r'] /\ Forall (fun q => rq_fd q <> 10) (rl_rs (cx_rl cx')) /\ rq_state r' = REQ_AVAILABLE.
Proof.
  destruct (@hangup_forgets_client example_env send_globals 3 5 recv_context [[]] 10 0 recv_request example_world recv_context_ok) as
    (cx' & r' & H1 & H2 & _ & H3 & _ & H4 & _).
  - done.
  - reflexivity.
  - reflexivity.
  - reflexivity.
  - split; constructor.
  - intros [|j] q Hq; [done|done].
  - exists cx', r'. split; [exact H1|]. split; [exact H2|]. split; [exact H3|exact H4].
Defined.
