(* ===== verification/AuthSha1.v ===== *)
(** * plugins/auth/sha1.c: the hash of passwords

    The incremental computation of the plugin, with its circular array of 16
    words and its registers that change roles, and the hash as FIPS 180 defines
    it, over the padded message. *)
From S2P Require Import Prelude CString.
Local Open Scope Z_scope.

(** ** Words *)

(** The rotation of the portable macros, and of the instruction otherwise. *)
Definition SHA_ROL (x n : Z) : Z := u32 (Z.lor (Z.shiftl x n) (Z.shiftr x (32 - n))).
Definition SHA_ROR (x n : Z) : Z := SHA_ROL x (32 - n).

Definition get_be32 (p : bytes) : option Z :=
  match p with
  | b0 :: b1 :: b2 :: b3 :: _ => Some (Z.shiftl b0 24 + Z.shiftl b1 16 + Z.shiftl b2 8 + b3)
  | _ => None
  end.

Definition put_be32 (v : Z) : bytes :=
  [u8 (Z.shiftr v 24); u8 (Z.shiftr v 16); u8 (Z.shiftr v 8); u8 v].

(** ** The computation *)

(** [cx_W] is the memory of the 16 words. *)
Record blk_SHA_CTX := { cx_size : Z; cx_H : list Z; cx_W : bytes }.

(** The circular array of a block. *)
Definition W (array : list Z) (x : nat) : Z := array !!! (x mod 16)%nat.

Definition SHA_MIX (array : list Z) (t : nat) : Z :=
  SHA_ROL (Z.lxor (Z.lxor (Z.lxor (W array (t + 13)) (W array (t + 8))) (W array (t + 2))) (W array t)) 1.

(** The function and the constant of round [t]. *)
Definition round_fn (t : nat) (B C D : Z) : Z :=
  if (t <? 20)%nat then Z.lxor (Z.land (Z.lxor C D) B) D
  else if (t <? 40)%nat then Z.lxor (Z.lxor B C) D
  else if (t <? 60)%nat then u32 (Z.land B C + Z.land D (Z.lxor B C))
  else Z.lxor (Z.lxor B C) D.

Definition round_constant (t : nat) : Z :=
  if (t <? 20)%nat then 1518500249 else if (t <? 40)%nat then 1859775393
  else if (t <? 60)%nat then 2400959708 else 3395469782.

(** The registers A to E are passed to round [t] rotated by [t mod 5] places:
    this is the register that has the role [j] in it. *)
Definition role (t j : nat) : nat := ((j + 5 - t mod 5) mod 5)%nat.

(** The registers and the array. *)
Definition SHA_ROUND (data : bytes) (t : nat) (st : list Z * list Z) : option (list Z * list Z) :=
  let '(regs, array) := st in
  TEMP ← (if (t <? 16)%nat then get_be32 (drop (4 * t) data) else Some (SHA_MIX array t));
  let array := <[(t mod 16)%nat := TEMP]> array in
  let reg j := regs !!! role t j in
  let E := u32 (reg 4%nat + (TEMP + SHA_ROL (reg 0%nat) 5 + round_fn t (reg 1%nat) (reg 2%nat) (reg 3%nat) + round_constant t)) in
  let B := SHA_ROR (reg 1%nat) 2 in
  Some (<[role t 1 := B]> (<[role t 4 := E]> regs), array).

Fixpoint rounds (data : bytes) (t n : nat) (st : list Z * list Z) : option (list Z * list Z) :=
  match n with O => Some st | S n => st ← SHA_ROUND data t st; rounds data (S t) n st end.

(** The 16 words of the array are not initialised: [junk]. *)
Definition blk_SHA1_Block (junk : list Z) (ctx : blk_SHA_CTX) (data : bytes) : option blk_SHA_CTX :=
  '(regs, _) ← rounds data 0 80 (cx_H ctx, take 16 (junk ++ replicate 16 0));
  Some {| cx_size := cx_size ctx; cx_H := zip_with (fun h r => u32 (h + r)) (cx_H ctx) regs; cx_W := cx_W ctx |}.

Definition blk_SHA1_Init (w : bytes) : blk_SHA_CTX :=
  {| cx_size := 0; cx_H := [1732584193; 4023233417; 2562383102; 271733878; 3285377520]; cx_W := w |}.

Section Update.
Variable junk : list Z.

(** The loop over whole blocks, [n] of them at most. *)
Fixpoint update_blocks (n : nat) (ctx : blk_SHA_CTX) (data : bytes) (len : Z) : option (blk_SHA_CTX * bytes * Z) :=
  if 64 <=? len then
    match n with
    | O => None
    | S n => ctx ← blk_SHA1_Block junk ctx data; data ← padd data 64; update_blocks n ctx data (len - 64)
    end
  else Some (ctx, data, len).

Definition update_rest (ctx : blk_SHA_CTX) (data : bytes) (len : Z) : option blk_SHA_CTX :=
  '(ctx, data, len) ← update_blocks (Z.to_nat (len / 64)) ctx data len;
  if len =? 0 then Some ctx else
  d ← memread data len;
  w ← bwrite (cx_W ctx) 0 d;
  Some {| cx_size := cx_size ctx; cx_H := cx_H ctx; cx_W := w |}.

Definition blk_SHA1_Update (ctx : blk_SHA_CTX) (data : bytes) (len : Z) : option blk_SHA_CTX :=
  let lenW := Z.land (cx_size ctx) 63 in
  let ctx := {| cx_size := u64 (cx_size ctx + len); cx_H := cx_H ctx; cx_W := cx_W ctx |} in
  if lenW =? 0 then update_rest ctx data len else
  let left := if len <? 64 - lenW then len else 64 - lenW in
  d ← memread data left;
  w ← bwrite (cx_W ctx) lenW d;
  let ctx := {| cx_size := cx_size ctx; cx_H := cx_H ctx; cx_W := w |} in
  let lenW := Z.land (lenW + left) 63 in
  data ← padd data left;
  if negb (lenW =? 0) then Some ctx else
  ctx ← blk_SHA1_Block junk ctx (cx_W ctx);
  update_rest ctx data (len - left).

Definition pad : bytes := 128 :: replicate 63 0.

Definition blk_SHA1_Final (ctx : blk_SHA_CTX) : option (bytes * blk_SHA_CTX) :=
  let padlen := put_be32 (u32 (Z.shiftr (cx_size ctx) 29)) ++ put_be32 (u32 (Z.shiftl (cx_size ctx) 3)) in
  let i := Z.land (cx_size ctx) 63 in
  ctx ← blk_SHA1_Update ctx pad (1 + Z.land 63 (55 - i));
  ctx ← blk_SHA1_Update ctx padlen 8;
  Some (concat (map put_be32 (cx_H ctx)), ctx).
End Update.

(** ** SHA-1 as FIPS 180-4 defines it *)

Module Spec.

Definition Ch (x y z : Z) : Z := Z.lxor (Z.land x y) (Z.land (Z.lnot x) z).
Definition Parity (x y z : Z) : Z := Z.lxor (Z.lxor x y) z.
Definition Maj (x y z : Z) : Z := Z.lxor (Z.lxor (Z.land x y) (Z.land x z)) (Z.land y z).

Definition f (t : nat) : Z -> Z -> Z -> Z :=
  if (t <? 20)%nat then Ch else if (t <? 40)%nat then Parity else if (t <? 60)%nat then Maj else Parity.

(** The schedule: the words of the block, then mixtures of earlier ones. *)
Definition word (block : bytes) (t : nat) : Z := default 0 (get_be32 (drop (4 * t) block)).
Fixpoint schedule (block : bytes) (n : nat) : list Z :=
  match n with
  | O => []
  | S t =>
    let w := schedule block t in
    w ++ [if (t <? 16)%nat then word block t
          else SHA_ROL (Z.lxor (Z.lxor (Z.lxor (w !!! (t - 3)%nat) (w !!! (t - 8)%nat)) (w !!! (t - 14)%nat)) (w !!! (t - 16)%nat)) 1]
  end.

Definition step (w : list Z) (t : nat) (s : Z * Z * Z * Z * Z) : Z * Z * Z * Z * Z :=
  let '(a, b, c, d, e) := s in
  (u32 (SHA_ROL a 5 + f t b c d + e + round_constant t + w !!! t), a, SHA_ROL b 30, c, d).

Fixpoint steps (w : list Z) (n : nat) (s : Z * Z * Z * Z * Z) : Z * Z * Z * Z * Z :=
  match n with O => s | S t => step w t (steps w t s) end.

Definition state := (Z * Z * Z * Z * Z)%type.

Definition compress (h : state) (block : bytes) : state :=
  let '(h0, h1, h2, h3, h4) := h in
  let '(a, b, c, d, e) := steps (schedule block 80) 80 h in
  (u32 (h0 + a), u32 (h1 + b), u32 (h2 + c), u32 (h3 + d), u32 (h4 + e)).

(** The first [n] blocks of a message. *)
Fixpoint compress_blocks (n : nat) (h : state) (m : bytes) : state :=
  match n with O => h | S n => compress_blocks n (compress h (take 64 m)) (drop 64 m) end.

Definition H0 : state := (1732584193, 4023233417, 2562383102, 271733878, 3285377520).

Definition be64 (z : Z) : bytes := put_be32 (z / 2 ^ 32) ++ put_be32 (z mod 2 ^ 32).

Definition padding (m : bytes) : bytes :=
  128 :: replicate (Z.to_nat ((55 - Z.of_nat (length m)) mod 64)) 0 ++ be64 (8 * Z.of_nat (length m)).

Definition words (h : state) : list Z := let '(a, b, c, d, e) := h in [a; b; c; d; e].

Definition sha1 (m : bytes) : bytes :=
  let p := m ++ padding m in
  concat (map put_be32 (words (compress_blocks (length p / 64) H0 p))).

End Spec.

(** The digest of "abc", the first example of the standard. *)
Example sha1_abc : Spec.sha1 (lit "abc") =
  [169; 153; 62; 54; 71; 6; 129; 106; 186; 62; 37; 113; 120; 80; 194; 108; 156; 208; 216; 157].
Proof. vm_compute. reflexivity. Qed.

Example update_abc :
  (ctx ← blk_SHA1_Update [] (blk_SHA1_Init (replicate 64 0)) (lit "abc") 3; option_map fst (blk_SHA1_Final [] ctx)) = Some (Spec.sha1 (lit "abc")).
Proof. vm_compute. reflexivity. Qed.

(** ** A block *)

Lemma SHA_ROL_range x n : 0 <= SHA_ROL x n < 2 ^ 32.
Proof. apply u32_range. Qed.

(** Proves an equation of bit operations bit by bit. *)
Ltac bitwise :=
  apply Z.bits_inj'; intros ? ?;
  repeat first [rewrite Z.lxor_spec | rewrite Z.land_spec | rewrite Z.lnot_spec by lia]; rewrite ?Z.bits_0;
  repeat match goal with |- context [Z.testbit ?x ?n] => is_var x; destruct (Z.testbit x n) end; reflexivity.

Lemma fn_Ch b c d : Z.lxor (Z.land (Z.lxor c d) b) d = Spec.Ch b c d.
Proof. unfold Spec.Ch. bitwise. Qed.

(** In range, the sum of disjoint words is their combination. *)
Lemma fn_Maj b c d :
  0 <= b < 2 ^ 32 -> 0 <= c < 2 ^ 32 -> 0 <= d < 2 ^ 32 ->
  u32 (Z.land b c + Z.land d (Z.lxor b c)) = Spec.Maj b c d.
Proof.
  intros Hb Hc Hd. rewrite Z.add_nocarry_lxor by bitwise. unfold u32. rewrite <- Z.land_ones by lia.
  assert (H : forall x, 0 <= x < 2 ^ 32 -> Z.land x (Z.ones 32) = x) by (intros; rewrite Z.land_ones by lia; now apply Z.mod_small).
  rewrite <- (H b Hb), <- (H c Hc), <- (H d Hd). unfold Spec.Maj. generalize (Z.ones 32). intros o. bitwise.
Qed.

Definition state_ok (s : Spec.state) : Prop :=
  let '(a, b, c, d, e) := s in
  0 <= a < 2 ^ 32 /\ 0 <= b < 2 ^ 32 /\ 0 <= c < 2 ^ 32 /\ 0 <= d < 2 ^ 32 /\ 0 <= e < 2 ^ 32.

Lemma round_fn_spec t b c d :
  0 <= b < 2 ^ 32 -> 0 <= c < 2 ^ 32 -> 0 <= d < 2 ^ 32 -> round_fn t b c d = Spec.f t b c d.
Proof.
  intros Hb Hc Hd. unfold round_fn, Spec.f. repeat case_if; [apply fn_Ch|done|now apply fn_Maj|done].
Qed.

Lemma step_ok w t s : state_ok s -> state_ok (Spec.step w t s).
Proof.
  destruct s as [[[[a b] c] d] e]. intros (H1 & H2 & H3 & H4 & H5). unfold Spec.step, state_ok.
  split; [apply u32_range|]. split; [done|]. split; [apply SHA_ROL_range|]. now split.
Qed.

Lemma steps_ok w n s : state_ok s -> state_ok (Spec.steps w n s).
Proof. intros H. induction n; [done|]. now apply step_ok. Qed.

(** The word of round [i]. *)
Definition sw (block : bytes) (i : nat) : Z := Spec.schedule block (S i) !!! i.

Lemma length_schedule block n : length (Spec.schedule block n) = n.
Proof. induction n; [done|]. cbn. rewrite length_app, IHn. cbn. lia. Qed.

Lemma schedule_lookup block n i : (i < n)%nat -> Spec.schedule block n !!! i = sw block i.
Proof.
  induction n as [|n IH]; intros Hi; [lia|]. destruct (decide (i = n)) as [->|Hne]; [done|].
  cbn [Spec.schedule]. rewrite lookup_total_app_l by (rewrite length_schedule; lia). apply IH. lia.
Qed.

Lemma sw_spec block t :
  sw block t = if (t <? 16)%nat then Spec.word block t
    else SHA_ROL (Z.lxor (Z.lxor (Z.lxor (sw block (t - 3)) (sw block (t - 8))) (sw block (t - 14))) (sw block (t - 16))) 1.
Proof.
  unfold sw at 1. cbn [Spec.schedule]. rewrite lookup_total_app_r by (rewrite length_schedule; lia).
  rewrite length_schedule, Nat.sub_diag. cbn [lookup_total list_lookup_total]. destruct (Nat.ltb_spec t 16) as [|Ht]; [done|].
  now rewrite !schedule_lookup by lia.
Qed.

(** The registers hold the state of the standard, rotated. *)
Definition rotated (t : nat) (s : Spec.state) : list Z :=
  let '(a, b, c, d, e) := s in
  match (t mod 5)%nat with 0 => [a; b; c; d; e] | 1 => [b; c; d; e; a] | 2 => [c; d; e; a; b] | 3 => [d; e; a; b; c] | _ => [e; a; b; c; d] end%nat.

(** The array holds the last 16 words. *)
Definition array_ok (block : bytes) (t : nat) (array : list Z) : Prop :=
  length array = 16%nat /\ forall i, (i < t)%nat -> (t <= i + 16)%nat -> array !!! (i mod 16)%nat = sw block i.

Lemma rotated_step t s B E :
  let '(a, b, c, d, e) := s in
  <[role t 1 := B]> (<[role t 4 := E]> (rotated t s)) = rotated (S t) (E, a, B, c, d).
Proof.
  destruct s as [[[[a b] c] d] e]. unfold rotated, role.
  assert (H : (t mod 5 < 5)%nat) by (apply Nat.mod_upper_bound; lia).
  assert (HS : (S t mod 5 = (t mod 5 + 1) mod 5)%nat) by (rewrite Nat.Div0.add_mod_idemp_l; f_equal; lia).
  rewrite HS. destruct (t mod 5)%nat as [|[|[|[|[|k]]]]]; [reflexivity..|lia].
Qed.

Lemma rotated_role t s :
  let '(a, b, c, d, e) := s in
  rotated t s !!! role t 0 = a /\ rotated t s !!! role t 1 = b /\ rotated t s !!! role t 2 = c /\
  rotated t s !!! role t 3 = d /\ rotated t s !!! role t 4 = e.
Proof.
  destruct s as [[[[a b] c] d] e]. unfold rotated, role. assert (H : (t mod 5 < 5)%nat) by (apply Nat.mod_upper_bound; lia).
  destruct (t mod 5)%nat as [|[|[|[|[|k]]]]]; [split_and!; reflexivity..|lia].
Qed.

Lemma mod16_sub t k : (k <= 16)%nat -> (k <= t)%nat -> ((t + (16 - k)) mod 16 = (t - k) mod 16)%nat.
Proof.
  intros. replace (t + (16 - k))%nat with (t - k + 1 * 16)%nat by lia. now rewrite Nat.Div0.mod_add.
Qed.

Lemma mod16_inj i t : (i < t)%nat -> (t < i + 16)%nat -> (i mod 16 <> t mod 16)%nat.
Proof.
  intros H1 H2 E. pose proof (Nat.div_mod_eq i 16). pose proof (Nat.div_mod_eq t 16). assert (i / 16 = t / 16 \/ t / 16 <= i / 16 - 1 \/ i / 16 + 1 <= t / 16)%nat as [|[]] by lia; lia.
Qed.

(** A message of at least one block begins with the block [take 64]. *)
Lemma word_data data t :
  (64 <= length data)%nat -> (t < 16)%nat -> get_be32 (drop (4 * t) data) = Some (Spec.word (take 64 data) t).
Proof.
  intros Hl Ht. unfold Spec.word. assert (H : drop (4 * t) (take 64 data) = take (64 - 4 * t) (drop (4 * t) data)) by apply skipn_firstn_comm.
  rewrite H. assert (Hd : (64 - 4 * t <= length (drop (4 * t) data))%nat) by (rewrite length_drop; lia).
  destruct (drop (4 * t) data) as [|b0 [|b1 [|b2 [|b3 r]]]]; try (cbn in Hd; lia).
  destruct (64 - 4 * t)%nat as [|[|[|[|k]]]] eqn:E; try lia. reflexivity.
Qed.

Lemma round_step data t s array :
  (64 <= length data)%nat -> state_ok s -> array_ok (take 64 data) t array -> (t < 80)%nat ->
  exists array', SHA_ROUND data t (rotated t s, array) =
    Some (rotated (S t) (Spec.step (Spec.schedule (take 64 data) 80) t s), array') /\ array_ok (take 64 data) (S t) array'.
Proof.
  intros Hl Hs [Ha Hw] Ht. unfold SHA_ROUND.
  assert (HT : (if (t <? 16)%nat then get_be32 (drop (4 * t) data) else Some (SHA_MIX array t)) = Some (sw (take 64 data) t)).
  { rewrite sw_spec. destruct (Nat.ltb_spec t 16) as [Hlt|Hge]; [now apply word_data|]. f_equal. unfold SHA_MIX, W.
    pose proof (mod16_sub t 3 ltac:(lia) ltac:(lia)) as E3. pose proof (mod16_sub t 8 ltac:(lia) ltac:(lia)) as E8.
    pose proof (mod16_sub t 14 ltac:(lia) ltac:(lia)) as E14. pose proof (mod16_sub t 16 ltac:(lia) ltac:(lia)) as E16.
    cbn [Nat.sub] in E3, E8, E14, E16. rewrite Nat.add_0_r in E16. rewrite E3, E8, E14, E16. rewrite !Hw by lia. reflexivity. }
  rewrite HT. mstep. pose proof (rotated_role t s) as Hr. pose proof (rotated_step t s) as Hst.
  destruct s as [[[[a b] c] d] e]. destruct Hs as (_ & Hb & Hc & Hd & _). destruct Hr as (-> & -> & -> & -> & ->).
  eexists. split.
  - f_equal. f_equal. rewrite (Hst (SHA_ROR b 2)). unfold Spec.step. rewrite (round_fn_spec t b c d), schedule_lookup by done.
    f_equal. do 4 f_equal. f_equal. lia.
  - split; [now rewrite length_insert|]. intros i Hi1 Hi2. destruct (decide (i = t)) as [->|Hne].
    + apply list_lookup_total_insert_eq. rewrite Ha. apply Nat.mod_upper_bound. lia.
    + rewrite list_lookup_total_insert_ne by (intros E; apply (mod16_inj i t); [lia|lia|congruence]). apply Hw; lia.
Qed.

Lemma rounds_spec data n t s array :
  (64 <= length data)%nat -> (t + n <= 80)%nat -> state_ok s -> array_ok (take 64 data) t array ->
  exists array', rounds data t n (rotated t (Spec.steps (Spec.schedule (take 64 data) 80) t s), array) =
    Some (rotated (t + n) (Spec.steps (Spec.schedule (take 64 data) 80) (t + n) s), array').
Proof.
  intros Hl. revert t array; induction n as [|n IH]; intros t array Hn Hs Ha; cbn [rounds].
  - rewrite Nat.add_0_r. eauto.
  - destruct (round_step data t (Spec.steps (Spec.schedule (take 64 data) 80) t s) array Hl (steps_ok _ _ _ Hs) Ha ltac:(lia)) as (array' & E & Ha').
    rewrite E. mstep. destruct (IH (S t) array' ltac:(lia) Hs Ha') as (array2 & E2). cbn [Spec.steps] in E2. rewrite E2.
    replace (S t + n)%nat with (t + S n)%nat by lia. eauto.
Qed.

Lemma blk_SHA1_Block_spec junk ctx data h :
  (64 <= length data)%nat -> cx_H ctx = Spec.words h -> state_ok h ->
  blk_SHA1_Block junk ctx data =
    Some {| cx_size := cx_size ctx; cx_H := Spec.words (Spec.compress h (take 64 data)); cx_W := cx_W ctx |}.
Proof.
  intros Hl Hh Hs. unfold blk_SHA1_Block.
  destruct (rounds_spec data 80 0 h (take 16 (junk ++ replicate 16 0)) Hl ltac:(lia) Hs) as (array & E).
  { split; [|intros; lia]. rewrite length_take, length_app, length_replicate. lia. }
  replace (cx_H ctx) with (rotated 0 h) by (rewrite Hh; now destruct h as [[[[] ?] ?] ?]).
  cbn [Spec.steps] in E. rewrite E. mstep. f_equal. f_equal. unfold Spec.compress.
  destruct h as [[[[h0 h1] h2] h3] h4]. change (0 + 80)%nat with 80%nat.
  destruct (Spec.steps _ 80 _) as [[[[a b] c] d] e]. reflexivity.
Qed.

Lemma compress_ok h block : state_ok (Spec.compress h block).
Proof.
  unfold Spec.compress. destruct h as [[[[h0 h1] h2] h3] h4]. destruct (Spec.steps _ _ _) as [[[[a b] c] d] e].
  unfold state_ok. split; [apply u32_range|]. split; [apply u32_range|]. split; [apply u32_range|]. split; apply u32_range.
Qed.

(** ** Updates *)

Lemma compress_blocks_ok n h m : state_ok h -> state_ok (Spec.compress_blocks n h m).
Proof. revert h m; induction n as [|n IH]; intros h m H; [done|]. apply IH, compress_ok. Qed.

Lemma compress_blocks_snoc k h p b :
  length p = (64 * k)%nat -> length b = 64%nat ->
  Spec.compress_blocks (k + 1) h (p ++ b) = Spec.compress (Spec.compress_blocks k h p) b.
Proof.
  revert h p; induction k as [|k IH]; intros h p Hp Hb.
  - destruct p; [|discriminate]. cbn. rewrite <- Hb, firstn_all. done.
  - cbn [Nat.add Spec.compress_blocks]. rewrite take_app_le, drop_app_le by lia. apply IH; [|done]. rewrite length_drop. lia.
Qed.

(** The context represents a message: its whole blocks [p] are compressed, the
    rest [t] of it is kept. *)
Record ctx_ok (ctx : blk_SHA_CTX) (m : bytes) : Prop := {
  co_split : exists k p t, m = p ++ t /\ length p = (64 * k)%nat /\ (length t < 64)%nat /\
    cx_H ctx = Spec.words (Spec.compress_blocks k Spec.H0 p) /\ take (length t) (cx_W ctx) = t;
  co_size : cx_size ctx = Z.of_nat (length m);
  co_W : length (cx_W ctx) = 64%nat
}.

Lemma H0_ok : state_ok Spec.H0.
Proof. unfold state_ok, Spec.H0. lia. Qed.

Lemma block_snoc junk ctx k p data :
  length p = (64 * k)%nat -> (64 <= length data)%nat -> cx_H ctx = Spec.words (Spec.compress_blocks k Spec.H0 p) ->
  blk_SHA1_Block junk ctx data =
    Some {| cx_size := cx_size ctx; cx_H := Spec.words (Spec.compress_blocks (k + 1) Spec.H0 (p ++ take 64 data)); cx_W := cx_W ctx |}.
Proof.
  intros Hp Hd Hh. rewrite (blk_SHA1_Block_spec junk ctx data _ Hd Hh) by apply compress_blocks_ok, H0_ok.
  now rewrite compress_blocks_snoc by (rewrite ?length_take; lia).
Qed.

Lemma memread_app (d x : bytes) n : (n <= length d)%nat -> memread (d ++ x) (Z.of_nat n) = Some (take n d).
Proof. intros H. unfold memread. rewrite length_app. replace (_ && _) with true by zb. now rewrite Nat2Z.id, take_app_le. Qed.

Section UpdateSpec.
Variable junk : list Z.

Lemma update_blocks_spec n ctx k p d x :
  length p = (64 * k)%nat -> cx_H ctx = Spec.words (Spec.compress_blocks k Spec.H0 p) -> (length d / 64 <= n)%nat ->
  exists k' p' t h, update_blocks junk n ctx (d ++ x) (Z.of_nat (length d)) =
      Some ({| cx_size := cx_size ctx; cx_H := h; cx_W := cx_W ctx |}, t ++ x, Z.of_nat (length t)) /\
    p ++ d = p' ++ t /\ length p' = (64 * k')%nat /\ (length t < 64)%nat /\ h = Spec.words (Spec.compress_blocks k' Spec.H0 p').
Proof.
  revert ctx k p d; induction n as [|n IH]; intros ctx k p d Hp Hh Hn; cbn [update_blocks].
  - assert (length d < 64)%nat by (apply Nat.div_small_iff; lia). replace (64 <=? _) with false by zb.
    exists k, p, d, (cx_H ctx). destruct ctx. done.
  - destruct (Z.leb_spec 64 (Z.of_nat (length d))) as [Hge|Hlt].
    + rewrite (block_snoc junk ctx k p) by (rewrite ?length_app; done || lia). mstep.
      rewrite (padd_app d x 64 ltac:(lia) : padd _ 64 = _). mstep. rewrite take_app_le by lia.
      replace (Z.of_nat (length d) - 64) with (Z.of_nat (length (drop 64 d))) by (rewrite length_drop; lia).
      set (ctx' := {| cx_size := cx_size ctx; cx_H := _; cx_W := cx_W ctx |}).
      destruct (IH ctx' (k + 1)%nat (p ++ take 64 d) (drop 64 d)) as (k' & p' & t & h & E & H1 & H2 & H3 & H4).
      { rewrite length_app, length_take. lia. } { done. }
      { rewrite length_drop. pose proof (Nat.div_add_l 1 64 (length d - 64) ltac:(lia)) as Hd.
        replace (1 * 64 + (length d - 64))%nat with (length d) in Hd by lia. lia. }
      exists k', p', t, h. split; [exact E|]. split; [|done]. rewrite <- H1, <- app_assoc, take_drop. done.
    + exists k, p, d, (cx_H ctx). split; [now destruct ctx|]. split; [done|]. split; [done|]. split; [lia|done].
Qed.

Lemma update_rest_spec ctx k p d x :
  length p = (64 * k)%nat -> cx_H ctx = Spec.words (Spec.compress_blocks k Spec.H0 p) ->
  length (cx_W ctx) = 64%nat -> cx_size ctx = Z.of_nat (length (p ++ d)) ->
  exists ctx', update_rest junk ctx (d ++ x) (Z.of_nat (length d)) = Some ctx' /\ ctx_ok ctx' (p ++ d).
Proof.
  intros Hp Hh Hw Hsz. unfold update_rest.
  destruct (update_blocks_spec (Z.to_nat (Z.of_nat (length d) / 64)) ctx k p d x Hp Hh) as (k' & p' & t & h & E & H1 & H2 & H3 & H4).
  { rewrite Z2Nat.inj_div, Nat2Z.id by lia. done. }
  rewrite E. mstep. rewrite H1. destruct (Z.eqb_spec (Z.of_nat (length t)) 0) as [Hz|Hz].
  - eexists. split; [reflexivity|]. split; cbn [cx_size cx_H cx_W]; [|congruence|done].
    destruct t; [|cbn in Hz; lia]. exists k', p', []. done.
  - rewrite memread_app, firstn_all by lia. mstep. cbn [cx_size cx_H cx_W].
    destruct (bwrite_ok (cx_W ctx) 0 t) as (w & Ew & Hlw & Hw'); [lia|lia|]. rewrite Ew. mstep.
    eexists. split; [reflexivity|]. split; cbn [cx_size cx_H cx_W]; [|congruence|congruence].
    exists k', p', t. split_and!; try done. destruct Hw' as [Hpre _]. now apply (Hpre []).
Qed.

Lemma blk_SHA1_Update_spec ctx m d x :
  ctx_ok ctx m -> Z.of_nat (length (m ++ d)) < 2 ^ 61 ->
  exists ctx', blk_SHA1_Update junk ctx (d ++ x) (Z.of_nat (length d)) = Some ctx' /\ ctx_ok ctx' (m ++ d).
Proof.
  intros [(k & p & t & -> & Hp & Ht & Hh & Htw) Hsz Hw] Hb. unfold blk_SHA1_Update.
  assert (Hlen : Z.land (cx_size ctx) 63 = Z.of_nat (length t)).
  { rewrite Hsz. rewrite (Z.land_ones _ 6) by lia. rewrite length_app, Hp, Nat2Z.inj_add.
    replace (Z.of_nat (64 * k)) with (Z.of_nat k * 2 ^ 6) by lia. rewrite Z.add_comm, Z_mod_plus_full. apply Z.mod_small. lia. }
  rewrite Hlen, Hsz. rewrite !length_app in Hb. rewrite u64_small by (rewrite length_app; lia).
  destruct (Z.eqb_spec (Z.of_nat (length t)) 0) as [Hz|Hz].
  { destruct t; [|cbn in Hz; lia]. rewrite app_nil_r in *. apply (update_rest_spec _ k p d x Hp); cbn; try done. rewrite length_app. lia. }
  destruct (Z.ltb_spec (Z.of_nat (length d)) (64 - Z.of_nat (length t))) as [Hlt|Hge].
  - rewrite memread_app, padd_app, firstn_all, drop_all by lia. mstep. cbn [cx_W].
    destruct (bwrite_ok (cx_W ctx) (Z.of_nat (length t)) d) as (w & Ew & Hlw & Hpre & _); [lia|lia|]. rewrite Ew. mstep. cbn [cx_size cx_H cx_W].
    rewrite (Z.land_ones _ 6), Z.mod_small by lia. replace (negb _) with true by (symmetry; apply negb_true_iff; zb).
    eexists. split; [reflexivity|]. split; cbn [cx_size cx_H cx_W]; [|rewrite !length_app; lia|congruence].
    exists k, p, (t ++ d). rewrite length_app, app_assoc. split_and!; try done; [lia|]. rewrite <- length_app. now apply Hpre.
  - set (n := (64 - length t)%nat). assert (Hn : 64 - Z.of_nat (length t) = Z.of_nat n) by lia. rewrite Hn.
    rewrite memread_app, padd_app by lia. mstep. cbn [cx_W].
    destruct (bwrite_ok (cx_W ctx) (Z.of_nat (length t)) (take n d)) as (w & Ew & Hlw & Hpre & _); [lia|rewrite length_take; lia|].
    rewrite Ew. mstep. cbn [cx_size cx_H cx_W].
    replace (Z.land (Z.of_nat (length t) + Z.of_nat n) 63) with 0 by (replace (Z.of_nat (length t) + Z.of_nat n) with 64 by lia; reflexivity).
    cbn [Z.eqb negb]. assert (Hw64 : take 64 w = t ++ take n d).
    { rewrite <- (Hpre t Htw eq_refl), length_app, length_take. f_equal. lia. }
    rewrite (block_snoc junk _ k p) by (cbn; done || lia). mstep. cbn [cx_size cx_H cx_W]. rewrite Hw64.
    replace (Z.of_nat (length d) - Z.of_nat n) with (Z.of_nat (length (drop n d))) by (rewrite length_drop; lia).
    replace ((p ++ t) ++ d) with ((p ++ t ++ take n d) ++ drop n d) by (rewrite <- !app_assoc, take_drop; done).
    apply (update_rest_spec _ (k + 1) (p ++ t ++ take n d) (drop n d) x); cbn; try done.
    + rewrite !length_app, length_take. lia.
    + congruence.
    + rewrite !length_app, length_take, length_drop. lia.
Qed.
End UpdateSpec.

Lemma init_ok w : length w = 64%nat -> ctx_ok (blk_SHA1_Init w) [].
Proof. intros Hw. split; [|done|done]. exists 0%nat, [], []. cbn. split_and!; done || lia. Qed.

(** A message of whole blocks is compressed entirely. *)
Lemma ctx_blocks ctx m n :
  ctx_ok ctx m -> length m = (64 * n)%nat -> cx_H ctx = Spec.words (Spec.compress_blocks n Spec.H0 m).
Proof.
  intros [(k & p & t & -> & Hp & Ht & -> & _) _ _] Hm. rewrite length_app in Hm. assert (k = n) as -> by lia.
  destruct t; [now rewrite app_nil_r|cbn in *; lia].
Qed.

Lemma length_put_be32 v : length (put_be32 v) = 4%nat.
Proof. done. Qed.

Lemma pad_take n : (n < 64)%nat -> take (S n) pad = 128 :: replicate n 0.
Proof. intros H. unfold pad. cbn [take]. rewrite take_replicate. do 2 f_equal. lia. Qed.

Lemma blk_SHA1_Final_spec junk ctx m :
  ctx_ok ctx m -> Z.of_nat (length m) < 2 ^ 60 ->
  exists ctx', blk_SHA1_Final junk ctx = Some (Spec.sha1 m, ctx').
Proof.
  intros Hok Hb. unfold blk_SHA1_Final. set (padlen := put_be32 _ ++ put_be32 _). rewrite (co_size _ _ Hok).
  pose proof (Z.mod_pos_bound (55 - Z.of_nat (length m)) 64 ltac:(lia)) as Hr.
  set (n := Z.to_nat ((55 - Z.of_nat (length m)) mod 64)).
  assert (Hi : Z.land 63 (55 - Z.land (Z.of_nat (length m)) 63) = Z.of_nat n).
  { rewrite Z.land_comm, !(Z.land_ones _ 6) by lia. change (2 ^ 6) with 64. rewrite Zminus_mod_idemp_r. unfold n. lia. }
  rewrite Hi. destruct (blk_SHA1_Update_spec junk ctx m (take (S n) pad) (drop (S n) pad) Hok) as (c1 & E1 & H1).
  { rewrite length_app, length_take. unfold pad. cbn [length]. rewrite length_replicate. lia. }
  rewrite take_drop in E1. assert (Hl1 : length (take (S n) pad) = S n) by (rewrite pad_take by lia; cbn; now rewrite length_replicate).
  rewrite Hl1 in E1. replace (1 + Z.of_nat n) with (Z.of_nat (S n)) by lia. rewrite E1. mstep.
  destruct (blk_SHA1_Update_spec junk c1 (m ++ take (S n) pad) padlen [] H1) as (c2 & E2 & H2).
  { rewrite !length_app, Hl1. cbn. lia. }
  rewrite app_nil_r in E2. change (Z.of_nat (length padlen)) with 8 in E2. rewrite E2. mstep. eexists. do 2 f_equal.
  assert (Hp : m ++ Spec.padding m = (m ++ take (S n) pad) ++ padlen).
  { unfold Spec.padding, Spec.be64, padlen. fold n. rewrite pad_take by lia. rewrite (co_size _ _ Hok), <- app_assoc. cbn [app]. do 4 f_equal.
    - rewrite Z.shiftr_div_pow2 by lia. f_equal. rewrite u32_small by (Z.to_euclidean_division_equations; lia).
      Z.to_euclidean_division_equations; lia.
    - f_equal. unfold u32. rewrite Z.shiftl_mul_pow2 by lia. f_equal. lia. }
  unfold Spec.sha1. rewrite Hp.
  assert (Hlen : length ((m ++ take (S n) pad) ++ padlen) = (64 * ((length m + n + 9) / 64))%nat).
  { rewrite !length_app, Hl1. change (length padlen) with 8%nat.
    assert (Hm : ((length m + n + 9) mod 64 = 0)%nat).
    { apply Nat2Z.inj. rewrite Nat2Z.inj_mod, !Nat2Z.inj_add. unfold n. rewrite Z2Nat.id by lia.
      rewrite <- Z.add_assoc, (Z.add_comm ((55 - _) mod 64)), Z.add_assoc, Zplus_mod_idemp_r.
      replace (Z.of_nat (length m) + Z.of_nat 9 + (55 - Z.of_nat (length m))) with 64 by lia. done. }
    pose proof (Nat.div_mod_eq (length m + n + 9) 64). lia. }
  rewrite (ctx_blocks c2 _ _ H2 Hlen). rewrite Hlen, Nat.mul_comm, Nat.div_mul by lia. done.
Qed.

(** The updates with the parts of a message, one after the other. *)
Fixpoint update_all (junk : list Z) (ctx : blk_SHA_CTX) (parts : list bytes) : option blk_SHA_CTX :=
  match parts with
  | [] => Some ctx
  | d :: parts => ctx ← blk_SHA1_Update junk ctx d (Z.of_nat (length d)); update_all junk ctx parts
  end.

Lemma update_all_spec junk parts ctx m :
  ctx_ok ctx m -> Z.of_nat (length (m ++ concat parts)) < 2 ^ 60 ->
  exists ctx', update_all junk ctx parts = Some ctx' /\ ctx_ok ctx' (m ++ concat parts).
Proof.
  revert ctx m; induction parts as [|d parts IH]; intros ctx m Hok Hb; cbn [update_all concat] in *.
  - rewrite app_nil_r. eauto.
  - rewrite !length_app in Hb. destruct (blk_SHA1_Update_spec junk ctx m d [] Hok) as (c & E & Hc); [rewrite length_app; lia|].
    rewrite app_nil_r in E. rewrite E. mstep. rewrite app_assoc. apply IH; [done|]. rewrite !length_app. lia.
Qed.

(** C26: The hash is SHA-1. In whatever parts a message is given to the
    incremental computation, and whatever the memory of the context and of the
    blocks held before, the digest is that of the standard for the whole
    message. *)
Theorem sha1_incremental junk w parts :
  length w = 64%nat -> Z.of_nat (length (concat parts)) < 2 ^ 60 ->
  exists ctx ctx', update_all junk (blk_SHA1_Init w) parts = Some ctx /\
    blk_SHA1_Final junk ctx = Some (Spec.sha1 (concat parts), ctx').
Proof.
  intros Hw Hb. destruct (update_all_spec junk parts (blk_SHA1_Init w) [] (init_ok w Hw) Hb) as (ctx & E & Hc).
  destruct (blk_SHA1_Final_spec junk ctx _ Hc Hb) as (ctx' & Ef). exists ctx, ctx'. done.
Qed.

(** The second example of the standard, in three parts. *)
Lemma sha1_incremental_witness :
  exists ctx ctx', update_all [7; 7] (blk_SHA1_Init (replicate 64 3))
      [lit "abcdbcdecdefdefgefghfghigh"; []; lit "ijhijkijkljklmklmnlmnomnopnopq"] = Some ctx /\
    blk_SHA1_Final [7; 7] ctx =
      Some (Spec.sha1 (concat [lit "abcdbcdecdefdefgefghfghigh"; []; lit "ijhijkijkljklmklmnlmnomnopnopq"]), ctx').
Proof. apply sha1_incremental; [reflexivity|]. vm_compute. reflexivity. Defined.
