(* ===== verification/AuthBase64.v ===== *)
(** * plugins/auth/base64.c: Base64 text

    Bytes are appended to the output buffer, so that the writes stay inside of
    it exactly when the final text fits; a text that does not is undefined
    behaviour, [None]. *)
From S2P Require Import Prelude CString.
Local Open Scope Z_scope.

Definition base64_table : bytes := lit "ABCDEFGHIJKLMNOPQRSTUVWXYZabcdefghijklmnopqrstuvwxyz0123456789+/".

Definition enc (i : Z) : Z := base64_table !!! Z.to_nat i.

(** ** Encoding *)

(** Line feeds after 72 characters and at the end of the last line. *)
Fixpoint encode_loop (src : bytes) (line_len : Z) : bytes :=
  match src with
  | a :: b :: c :: src =>
    enc (Z.shiftr a 2) :: enc (Z.lor (Z.shiftl (Z.land a 3) 4) (Z.shiftr b 4)) ::
    enc (Z.lor (Z.shiftl (Z.land b 15) 2) (Z.shiftr c 6)) :: enc (Z.land c 63) ::
    (if 72 <=? line_len + 4 then 10 :: encode_loop src 0 else encode_loop src (line_len + 4))
  | [a; b] =>
    [enc (Z.shiftr a 2); enc (Z.lor (Z.shiftl (Z.land a 3) 4) (Z.shiftr b 4)); enc (Z.shiftl (Z.land b 15) 2); 61; 10]
  | [a] => [enc (Z.shiftr a 2); enc (Z.shiftl (Z.land a 3) 4); 61; 61; 10]
  | [] => if line_len =? 0 then [] else [10]
  end.

(** The text, [Some None] for NULL. *)
Definition base64_encode (src : bytes) (len : Z) : option (option bytes) :=
  let olen := u64 (u64 (len * 4) / 3 + 4) in
  let olen := u64 (olen + olen / 72) in
  let olen := u64 (olen + 1) in
  if olen <? len then Some None else
  s ← memread src len;
  let out := encode_loop s 0 in
  if olen <? Z.of_nat (length out) + 1 then None else Some (Some out).

(** ** Decoding *)

Fixpoint table_index (c : Z) (t : bytes) (i : Z) : Z :=
  match t with [] => 128 | d :: t => if c =? d then i else table_index c t (i + 1) end.

Definition dtable (c : Z) : Z := if c =? 61 then 0 else table_index c base64_table 0.

Definition valid (c : Z) : bool := negb (dtable c =? 128).

Definition count_valid (src : bytes) : Z := Z.of_nat (length (List.filter valid src)).

(** The three bytes of four characters. *)
Definition decode_block (b0 b1 b2 b3 : Z) : bytes :=
  [u8 (Z.lor (Z.shiftl b0 2) (Z.shiftr b1 4)); u8 (Z.lor (Z.shiftl b1 4) (Z.shiftr b2 2)); u8 (Z.lor (Z.shiftl b2 6) b3)].

(** The second loop, with the characters of the current block and the bytes
    written; [Some None] for the padding that is refused. *)
Fixpoint decode_loop (olen : Z) (src block : bytes) (pad : Z) (out : bytes) : option (option bytes) :=
  match src with
  | [] => Some (Some out)
  | c :: src =>
    let tmp := dtable c in
    if tmp =? 128 then decode_loop olen src block pad out else
    let pad := if c =? 61 then pad + 1 else pad in
    match block ++ [tmp] with
    | [b0; b1; b2; b3] =>
      if olen <? Z.of_nat (length out) + 3 then None else
      let out := out ++ decode_block b0 b1 b2 b3 in
      if pad =? 0 then decode_loop olen src [] pad out
      else if pad =? 1 then Some (Some (take (length out - 1) out))
      else if pad =? 2 then Some (Some (take (length out - 2) out))
      else Some None
    | block => decode_loop olen src block pad out
    end
  end.

(** The size of the allocated buffer and the bytes decoded into it. *)
Definition base64_decode (src : bytes) (len : Z) : option (option (Z * bytes)) :=
  s ← memread src len;
  let count := count_valid s in
  if (count =? 0) || negb (count mod 4 =? 0) then Some None else
  let olen := count / 4 * 3 in
  out ← decode_loop olen s [] 0 [];
  Some (out ← out; Some (olen, out)).

Example encode_example : base64_encode (lit "light work.") 11 = Some (Some (lit "bGlnaHQgd29yay4=" ++ [10])).
Proof. reflexivity. Qed.

(** ** Decoding never writes out of its buffer *)

Lemma decode_loop_total olen src block pad out :
  (length block < 4)%nat -> 0 <= pad -> Z.of_nat (length out) + (Z.of_nat (length block) + count_valid src) / 4 * 3 <= olen ->
  exists r, decode_loop olen src block pad out = Some r.
Proof.
  revert block pad out; induction src as [|c src IH]; intros block pad out Hb Hp Ho; cbn [decode_loop]; [eauto|].
  unfold count_valid in Ho. cbn [List.filter] in Ho. unfold valid at 1 in Ho.
  destruct (Z.eqb_spec (dtable c) 128); cbn [negb] in Ho; [now apply IH|]. cbn [length] in Ho. fold (count_valid src) in Ho.
  assert (Hc : 0 <= count_valid src) by (unfold count_valid; lia).
  assert (Hpad : 0 <= (if c =? 61 then pad + 1 else pad)) by (case_if; lia). set (pad' := if c =? 61 then _ else _) in *.
  destruct block as [|b0 [|b1 [|b2 [|b3 r]]]]; cbn [app length] in *; try lia;
    try (apply IH; [cbn; lia|done|]; cbn [length]; unfold count_valid in *; replace (Z.of_nat (S (length (List.filter valid src)))) with (1 + Z.of_nat (length (List.filter valid src))) in Ho by lia; rewrite Z.add_assoc in Ho; exact Ho).
  unfold count_valid in *.
  replace (Z.of_nat 3 + Z.of_nat (S (length (List.filter valid src)))) with (1 * 4 + Z.of_nat (length (List.filter valid src))) in Ho by lia.
  rewrite Z.div_add_l in Ho by lia. assert (0 <= Z.of_nat (length (List.filter valid src)) / 4) by (apply Z.div_pos; lia).
  replace (olen <? _) with false by zb. repeat (case_if; eauto).
  apply IH; [cbn; lia|done|]. rewrite length_app. cbn [length decode_block]. change (Z.of_nat 0) with 0. rewrite Z.add_0_l. lia.
Qed.

Lemma base64_decode_total src len : 0 <= len <= Z.of_nat (length src) -> exists r, base64_decode src len = Some r.
Proof.
  intros Hl. unfold base64_decode, memread. replace (_ && _) with true by zb. mstep. case_if; [eauto|]. zbool.
  destruct (decode_loop_total (count_valid (take (Z.to_nat len) src) / 4 * 3) (take (Z.to_nat len) src) [] 0 []) as [r E];
    [cbn; lia|lia|cbn [length]; change (Z.of_nat 0) with 0; rewrite !Z.add_0_l; lia|]. rewrite E. mstep. eauto.
Qed.

(** ** Decoding what was encoded *)

Definition is_byte (z : Z) : Prop := 0 <= z < 256.

(** The table is inverted, and its characters are neither padding nor line
    feed. *)
Lemma enc_dec i : 0 <= i < 64 -> dtable (enc i) = i /\ enc i <> 61 /\ valid (enc i) = true.
Proof.
  intros Hi. set (ok i := (dtable (enc i) =? i) && negb (enc i =? 61)).
  assert (H : ok i = true) by (apply (all_below_spec ok 64); [reflexivity|done]). unfold ok in H. zbool.
  unfold valid. rewrite H. split; [done|]. split; [done|]. now replace (i =? 128) with false by zb.
Qed.

Lemma lor_shift a b k : 0 <= k -> 0 <= b < 2 ^ k -> Z.lor (Z.shiftl a k) b = a * 2 ^ k + b.
Proof.
  intros Hk Hb. assert (H : Z.land (Z.shiftl a k) b = 0).
  { apply Z.bits_inj'. intros n Hn. rewrite Z.land_spec, Z.bits_0. destruct (Z.ltb_spec n k) as [Hlt|Hge].
    - now rewrite Z.shiftl_spec_low.
    - rewrite <- (Z.mod_small b (2 ^ k)), Z.mod_pow2_bits_high by lia. apply andb_false_r. }
  rewrite <- Z.lxor_lor, <- Z.add_nocarry_lxor, Z.shiftl_mul_pow2 by done. done.
Qed.

Lemma land_15 z : Z.land z 15 = z mod 16.
Proof. exact (Z.land_ones z 4 ltac:(lia)). Qed.
Lemma land_3 z : Z.land z 3 = z mod 4.
Proof. exact (Z.land_ones z 2 ltac:(lia)). Qed.
Lemma land_63 z : Z.land z 63 = z mod 64.
Proof. exact (Z.land_ones z 6 ltac:(lia)). Qed.

(** The four indices of three bytes. *)
Lemma indices a b c :
  is_byte a -> is_byte b -> is_byte c ->
  Z.shiftr a 2 = a / 4 /\ Z.lor (Z.shiftl (Z.land a 3) 4) (Z.shiftr b 4) = a mod 4 * 16 + b / 16 /\
  Z.lor (Z.shiftl (Z.land b 15) 2) (Z.shiftr c 6) = b mod 16 * 4 + c / 64 /\ Z.land c 63 = c mod 64 /\
  Z.shiftl (Z.land a 3) 4 = a mod 4 * 16 /\ Z.shiftl (Z.land b 15) 2 = b mod 16 * 4.
Proof.
  intros Ha Hb Hc. unfold is_byte in *.
  rewrite !lor_shift by (try lia; rewrite shiftr_div by lia; Z.to_euclidean_division_equations; lia).
  rewrite land_15, land_3, land_63, !shiftr_div, !shiftl_mul by lia. done.
Qed.

Lemma decode_block_bytes a b c :
  is_byte a -> is_byte b -> is_byte c ->
  decode_block (a / 4) (a mod 4 * 16 + b / 16) (b mod 16 * 4 + c / 64) (c mod 64) = [a; b; c].
Proof.
  intros Ha Hb Hc. unfold is_byte, decode_block in *.
  rewrite !lor_shift by (try lia; rewrite ?shiftr_div by lia; Z.to_euclidean_division_equations; lia).
  rewrite !shiftr_div by lia. unfold u8. repeat f_equal; Z.to_euclidean_division_equations; lia.
Qed.

(** Three bytes more than are left: the induction of the loops. *)
Lemma triples_ind (P : bytes -> Prop) :
  P [] -> (forall a, P [a]) -> (forall a b, P [a; b]) -> (forall a b c l, P l -> P (a :: b :: c :: l)) -> forall l, P l.
Proof.
  intros H0 H1 H2 H3. fix IH 1. intros [|a [|b [|c l]]]; [done|apply H1|apply H2|]. apply H3, IH.
Qed.

Lemma count_valid_app a b : count_valid (a ++ b) = count_valid a + count_valid b.
Proof. unfold count_valid. rewrite List.filter_app, length_app. lia. Qed.

Lemma count_valid_cons c l : count_valid (c :: l) = (if valid c then 1 else 0) + count_valid l.
Proof. unfold count_valid. cbn [List.filter]. destruct (valid c); cbn [length]; lia. Qed.

Lemma valid_lf : valid 10 = false.
Proof. reflexivity. Qed.
Lemma valid_pad : valid 61 = true.
Proof. reflexivity. Qed.

Lemma enc_valid i : 0 <= i < 64 -> valid (enc i) = true.
Proof. intros Hi. now destruct (enc_dec i Hi) as (_ & _ & H). Qed.

Lemma decode_char olen i src block out :
  0 <= i < 64 ->
  decode_loop olen (enc i :: src) block 0 out =
  match block ++ [i] with
  | [b0; b1; b2; b3] =>
    if olen <? Z.of_nat (length out) + 3 then None else decode_loop olen src [] 0 (out ++ decode_block b0 b1 b2 b3)
  | block => decode_loop olen src block 0 out
  end.
Proof.
  intros Hi. destruct (enc_dec i Hi) as (Hd & Hp & _). cbn [decode_loop]. rewrite Hd.
  replace (i =? 128) with false by zb. replace (enc i =? 61) with false by zb. now rewrite Z.eqb_refl.
Qed.

(** The characters of three bytes. *)
Lemma decode_quad olen i0 i1 i2 i3 src out :
  0 <= i0 < 64 -> 0 <= i1 < 64 -> 0 <= i2 < 64 -> 0 <= i3 < 64 -> Z.of_nat (length out) + 3 <= olen ->
  decode_loop olen (enc i0 :: enc i1 :: enc i2 :: enc i3 :: src) [] 0 out =
  decode_loop olen src [] 0 (out ++ decode_block i0 i1 i2 i3).
Proof.
  intros H0 H1 H2 H3 Ho. rewrite decode_char by done. cbn [app]. rewrite decode_char by done. cbn [app].
  rewrite decode_char by done. cbn [app]. rewrite decode_char by done. cbn [app]. now replace (olen <? _) with false by zb.
Qed.

(** The last character of a block, padding. *)
Lemma decode_last olen i0 i1 b2 src pad out n :
  Z.of_nat (length out) + 3 <= olen -> pad + 1 = Z.of_nat n -> (1 <= n <= 2)%nat ->
  decode_loop olen (61 :: src) [i0; i1; b2] pad out = Some (Some (out ++ take (3 - n) (decode_block i0 i1 b2 0))).
Proof.
  intros Ho Hp Hn. cbn [decode_loop]. change (dtable 61) with 0. change (0 =? 128) with false. change (61 =? 61) with true. cbn [app].
  replace (olen <? _) with false by zb. rewrite Hp. replace (Z.of_nat n =? 0) with false by zb.
  assert (Hcut : take (length (out ++ decode_block i0 i1 b2 0) - n) (out ++ decode_block i0 i1 b2 0) = out ++ take (3 - n) (decode_block i0 i1 b2 0)).
  { rewrite length_app. replace (length out + _ - n)%nat with (length out + (3 - n))%nat by (cbn; lia). now rewrite take_app_add. }
  destruct n as [|[|[|n]]]; try lia; cbn [Z.eqb]; now rewrite <- Hcut.
Qed.

(** The padding that ends a text. *)
Lemma decode_padded olen i0 i1 b2 src out :
  0 <= i0 < 64 -> 0 <= i1 < 64 -> Z.of_nat (length out) + 3 <= olen ->
  (b2 = 61 \/ exists i2, 0 <= i2 < 64 /\ b2 = enc i2) ->
  decode_loop olen (enc i0 :: enc i1 :: b2 :: 61 :: src) [] 0 out =
  Some (Some (out ++ take (if b2 =? 61 then 1 else 2) (decode_block i0 i1 (dtable b2) 0))).
Proof.
  intros H0 H1 Ho H2. rewrite decode_char by done. cbn [app]. rewrite decode_char by done. cbn [app].
  destruct H2 as [->|(i2 & Hi2 & ->)].
  - change (decode_loop olen (61 :: 61 :: src) [i0; i1] 0 out) with (decode_loop olen (61 :: src) [i0; i1; 0] (0 + 1) out).
    now rewrite (decode_last olen i0 i1 0 src (0 + 1) out 2) by lia.
  - rewrite decode_char by done. cbn [app]. destruct (enc_dec i2 Hi2) as (-> & Hne & _). replace (enc i2 =? 61) with false by zb.
    now rewrite (decode_last olen i0 i1 i2 src 0 out 1) by lia.
Qed.

Lemma decode_encode_loop src : forall ll out olen,
  Forall is_byte src -> Z.of_nat (length out) + (Z.of_nat (length src) + 2) / 3 * 3 <= olen ->
  decode_loop olen (encode_loop src ll) [] 0 out = Some (Some (out ++ src)).
Proof.
  induction src as [|a|a b|a b c src IH] using triples_ind; intros ll out olen HF Ho; cbn [encode_loop].
  - case_if; cbn [decode_loop]; now rewrite app_nil_r.
  - apply Forall_cons in HF as [Ha _]. destruct (indices a 0 0 Ha ltac:(done) ltac:(done)) as (-> & _ & _ & _ & -> & _). unfold is_byte in Ha.
    cbn in Ho. change (3 / 3) with 1 in Ho. rewrite decode_padded by (try lia; try (now left); Z.to_euclidean_division_equations; lia).
    do 3 f_equal. pose proof (decode_block_bytes a 0 0 Ha ltac:(done) ltac:(done)) as H. cbn in H. rewrite Z.add_0_r in H.
    cbn. injection H as -> _. done.
  - apply Forall_cons in HF as [Ha HF]. apply Forall_cons in HF as [Hb _].
    destruct (indices a b 0 Ha Hb ltac:(done)) as (-> & -> & _ & _ & _ & ->). unfold is_byte in Ha, Hb.
    cbn in Ho. change (4 / 3) with 1 in Ho.
    assert (Hi : 0 <= b mod 16 * 4 < 64) by (Z.to_euclidean_division_equations; lia). destruct (enc_dec _ Hi) as (Hd & Hne & _).
    rewrite decode_padded by (try lia; try (right; eauto); Z.to_euclidean_division_equations; lia). rewrite Hd.
    replace (_ =? 61) with false by zb. do 3 f_equal. pose proof (decode_block_bytes a b 0 Ha Hb ltac:(done)) as H. cbn in H. rewrite Z.add_0_r in H.
    cbn. injection H as H1 H2 _. now rewrite H1, H2.
  - apply Forall_cons in HF as [Ha HF]. apply Forall_cons in HF as [Hb HF]. apply Forall_cons in HF as [Hc HF].
    destruct (indices a b c Ha Hb Hc) as (-> & -> & -> & -> & _). pose proof (decode_block_bytes a b c Ha Hb Hc) as Hdec. unfold is_byte in Ha, Hb, Hc.
    cbn [length] in Ho. assert (H3 : (Z.of_nat (S (S (S (length src)))) + 2) / 3 = 1 + (Z.of_nat (length src) + 2) / 3).
    { rewrite <- Z.div_add_l by lia. f_equal. lia. }
    rewrite H3 in Ho. assert (Hnn : 0 <= (Z.of_nat (length src) + 2) / 3) by (apply Z.div_pos; lia).
    rewrite decode_quad by (try lia; Z.to_euclidean_division_equations; lia). rewrite Hdec.
    assert (Hnext : forall ll, decode_loop olen (encode_loop src ll) [] 0 (out ++ [a; b; c]) = Some (Some (out ++ a :: b :: c :: src))).
    { intros ll'. rewrite IH by (try done; rewrite length_app; cbn [length]; lia). now rewrite <- app_assoc. }
    case_if; [cbn [decode_loop]; apply Hnext|apply Hnext].
Qed.

Lemma count_encode_loop src : forall ll,
  Forall is_byte src -> count_valid (encode_loop src ll) = (Z.of_nat (length src) + 2) / 3 * 4.
Proof.
  induction src as [|a|a b|a b c src IH] using triples_ind; intros ll HF; cbn [encode_loop].
  - case_if; reflexivity.
  - apply Forall_cons in HF as [Ha _]. destruct (indices a 0 0 Ha ltac:(done) ltac:(done)) as (-> & _ & _ & _ & -> & _). unfold is_byte in Ha.
    rewrite !count_valid_cons, !enc_valid by (Z.to_euclidean_division_equations; lia). reflexivity.
  - apply Forall_cons in HF as [Ha HF]. apply Forall_cons in HF as [Hb _].
    destruct (indices a b 0 Ha Hb ltac:(done)) as (-> & -> & _ & _ & _ & ->). unfold is_byte in Ha, Hb.
    rewrite !count_valid_cons, !enc_valid by (Z.to_euclidean_division_equations; lia). reflexivity.
  - apply Forall_cons in HF as [Ha HF]. apply Forall_cons in HF as [Hb HF]. apply Forall_cons in HF as [Hc HF].
    destruct (indices a b c Ha Hb Hc) as (-> & -> & -> & -> & _). unfold is_byte in Ha, Hb, Hc.
    rewrite !count_valid_cons, !enc_valid by (Z.to_euclidean_division_equations; lia). cbn [length].
    replace (Z.of_nat (S (S (S (length src)))) + 2) with (1 * 3 + (Z.of_nat (length src) + 2)) by lia. rewrite Z.div_add_l by lia.
    case_if; rewrite ?count_valid_cons, ?valid_lf, IH by done; lia.
Qed.

(** Four characters for three bytes, a line feed for 18 of these, and one at
    the end. *)
Lemma length_encode_loop src : forall q,
  0 <= q < 18 ->
  Z.of_nat (length (encode_loop src (4 * q))) <= (Z.of_nat (length src) + 2) / 3 * 4 + (q + Z.of_nat (length src) / 3) / 18 + 1.
Proof.
  induction src as [|a|a b|a b c src IH] using triples_ind; intros q Hq; cbn [encode_loop].
  - case_if; cbn; Z.to_euclidean_division_equations; lia.
  - cbn. Z.to_euclidean_division_equations; lia.
  - cbn. Z.to_euclidean_division_equations; lia.
  - cbn [length]. replace (Z.of_nat (S (S (S (length src)))) + 2) with (1 * 3 + (Z.of_nat (length src) + 2)) by lia.
    replace (Z.of_nat (S (S (S (length src))))) with (1 * 3 + Z.of_nat (length src)) by lia. rewrite !Z.div_add_l by lia.
    case_if; zbool.
    + assert (q = 17) as -> by lia. specialize (IH 0 ltac:(lia)). change (4 * 0) with 0 in IH. cbn [length].
      replace (17 + (1 + Z.of_nat (length src) / 3)) with (1 * 18 + (0 + Z.of_nat (length src) / 3)) by lia. rewrite Z.div_add_l by lia. lia.
    + specialize (IH (q + 1) ltac:(lia)). replace (4 * (q + 1)) with (4 * q + 4) in IH by lia.
      replace (q + (1 + Z.of_nat (length src) / 3)) with (q + 1 + Z.of_nat (length src) / 3) by lia. lia.
Qed.

(** The size allocated for [n] bytes. *)
Lemma encode_room n :
  0 <= n < 2 ^ 60 ->
  n <= n * 4 / 3 + 4 < 2 ^ 62 /\
  (n + 2) / 3 * 4 + (0 + n / 3) / 18 + 1 + 1 <= n * 4 / 3 + 4 + (n * 4 / 3 + 4) / 72 + 1 < 2 ^ 63.
Proof.
  intros Hn. assert (H : n / 3 / 18 <= (n * 4 / 3 + 4) / 72).
  { rewrite Z.div_div by lia. apply Z.div_le_lower_bound; [lia|]. Z.to_euclidean_division_equations; lia. }
  assert ((n * 4 / 3 + 4) / 72 <= n * 4 / 3 + 4) by (apply Z.div_le_upper_bound; Z.to_euclidean_division_equations; lia).
  rewrite Z.add_0_l. generalize dependent ((n * 4 / 3 + 4) / 72). generalize (n / 3 / 18). intros. Z.to_euclidean_division_equations; lia.
Qed.

(** Only the text itself is read. *)
Lemma base64_decode_readable s rest :
  base64_decode (s ++ rest) (Z.of_nat (length s)) = base64_decode s (Z.of_nat (length s)).
Proof.
  unfold base64_decode. rewrite !memread_take by (rewrite ?length_app; lia). now rewrite Nat2Z.id, take_app_length, take_ge.
Qed.

(** C37: for one byte or more, and fewer than 2^60: the Base64 text, with its
    line feeds after every 72 characters and at the end and its padding, fits
    with its NUL into the buffer that is allocated for it, and decoding that
    text, in a buffer of the next multiple of three, gives the bytes back. *)
Theorem base64_roundtrip src :
  src <> [] -> Forall is_byte src -> Z.of_nat (length src) < 2 ^ 60 ->
  exists text, base64_encode src (Z.of_nat (length src)) = Some (Some text) /\
    base64_decode text (Z.of_nat (length text)) = Some (Some ((Z.of_nat (length src) + 2) / 3 * 3, src)).
Proof.
  intros Hne HF Hb. assert (Hl : 0 < Z.of_nat (length src)) by (destruct src; [done|cbn; lia]).
  set (n := Z.of_nat (length src)) in *. pose proof (length_encode_loop src 0 ltac:(lia)) as Hlen. change (4 * 0) with 0 in Hlen. fold n in Hlen.
  exists (encode_loop src 0). split.
  - destruct (encode_room n ltac:(lia)) as [H1 H2]. unfold base64_encode. fold n. rewrite (u64_small (n * 4)) by lia.
    set (x := n * 4 / 3 + 4) in *. assert (0 <= x / 72) by (apply Z.div_pos; lia). rewrite (u64_small x), (u64_small (x + x / 72)), u64_small by lia.
    replace (_ <? n) with false by zb. unfold memread, n. replace (_ && _) with true by zb. mstep. rewrite Nat2Z.id, firstn_all. fold n.
    replace (_ <? _) with false by zb. done.
  - unfold base64_decode, memread. replace (_ && _) with true by zb. mstep. rewrite Nat2Z.id, firstn_all.
    rewrite count_encode_loop by done. fold n. rewrite Z.mod_mul, Z.div_mul by lia.
    replace (_ || _) with false by (symmetry; apply orb_false_iff; split; [apply Z.eqb_neq; Z.to_euclidean_division_equations; lia|done]).
    rewrite decode_encode_loop by (try done; cbn; lia). done.
Qed.

Lemma base64_roundtrip_witness :
  exists text, base64_encode (lit "Aladdin:open sesame") 19 = Some (Some text) /\
    base64_decode text (Z.of_nat (length text)) = Some (Some (21, lit "Aladdin:open sesame")).
Proof.
  apply (base64_roundtrip (lit "Aladdin:open sesame")); [done| |reflexivity].
  apply (bool_decide_unpack _). vm_compute. exact I.
Defined.
