(* ===== verification/Auth.v ===== *)
(** * plugins/auth: auth.c and conf.c, basic authentication

    Users files and restricted locations of the virtual hosts; the check of the
    credentials of a request and the handler of stage 30. The contents of the
    users files are a parameter. *)
From S2P Require Import Prelude CString MkString MkMemory MkUtils MkTypes MkToc MkSession MkEpoll MkPlugin MkConfig MkFile MkResponse AuthSha1 AuthBase64.
Local Open Scope Z_scope.

Definition MK_AUTH_HEADER_REQUEST : bytes := clit "Authorization:".
Definition MK_AUTH_HEADER_BASIC : bytes := clit "Basic ".
Definition SHA1_DIGEST_LEN : Z := 20.
(** mk_http_status.h *)
Definition MK_CLIENT_UNAUTH : Z := 401.

Definition auth_header_request : mk_pointer := {| data := Some MK_AUTH_HEADER_REQUEST; len := 14 |}.
Definition auth_header_basic : mk_pointer := {| data := Some MK_AUTH_HEADER_BASIC; len := 6 |}.

(** [us_user] and [us_passwd_raw] are the arrays of 128 and 256 bytes,
    [us_passwd_decoded] the buffer the hash was decoded into. *)
Record user := { us_user : bytes; us_passwd_raw : bytes; us_passwd_decoded : bytes }.
Record users_file := { uf_last_updated : Z; uf_path : bytes; uf_users : list user }.
Record location := { lo_path : mk_pointer; lo_title : mk_pointer; lo_auth_http_header : mk_pointer; lo_users : users_file }.
(** [vh_host] is the index of the virtual host. *)
Record vhost := { vh_host : nat; vh_locations : list location }.

Section WithEnv.
Context `{env : Env}.

Definition junk_words : list Z := map sys_junk (seq 0 16).
Definition junk_bytes (n : nat) : bytes := map sys_junk (seq 0 n).

(** ** Credentials *)

(** The users in order: the first one whose name matches decides. *)
Fixpoint match_user (users : list user) (decoded : bytes) (sep : Z) (digest : bytes) : option Z :=
  match users with
  | [] => Some (-1)
  | entry :: users =>
    c ← strncmp (us_user entry) decoded sep;
    if negb (c =? 0) then match_user users decoded sep digest else
    p ← memread (us_passwd_decoded entry) SHA1_DIGEST_LEN;
    Some (if decide (p = digest) then 0 else -1)
  end.

Definition sha1_digest (p : bytes) (len : Z) : option bytes :=
  ctx ← blk_SHA1_Update junk_words (blk_SHA1_Init (junk_bytes 64)) p len;
  option_map fst (blk_SHA1_Final junk_words ctx).

(** Text that does not decode is a NULL pointer that is written to, and the NUL
    is written behind the buffer when the decoded text fills it. *)
Definition mk_auth_validate_user (users : users_file) (credentials : bytes) (n : Z) : option Z :=
  if n <=? len auth_header_basic + 1 then Some (-1) else
  c ← strncmp credentials MK_AUTH_HEADER_BASIC (len auth_header_basic);
  if negb (c =? 0) then Some (-1) else
  src ← padd credentials (len auth_header_basic);
  r ← base64_decode src (n - len auth_header_basic);
  '(olen, text) ← r;
  let auth_len := Z.of_nat (length text) in
  decoded ← bwrite (text ++ junk_bytes (Z.to_nat olen - length text)) auth_len [0];
  if auth_len <=? 3 then Some (-1) else
  sep ← mk_string_search_n decoded (clit ":") MK_STR_INSENSITIVE auth_len;
  if (sep =? -1) || (sep =? 0) || (sep =? auth_len - 1) then Some (-1) else
  pass ← padd decoded (sep + 1);
  digest ← sha1_digest pass (auth_len - (sep + 1));
  match_user (uf_users users) decoded sep digest.

(** ** The handler *)

Fixpoint find_vhost (vhosts : list vhost) (host : option nat) : option vhost :=
  match vhosts with
  | [] => None
  | [vh] => Some vh
  | vh :: vhosts => if decide (Some (vh_host vh) = host) then Some vh else find_vhost vhosts host
  end.

Fixpoint find_location (locs : list location) (uri : mk_pointer) : option (option location) :=
  match locs with
  | [] => Some None
  | loc :: locs =>
    if len uri <? len (lo_path loc) then find_location locs uri else
    u ← data uri;
    p ← data (lo_path loc);
    c ← strncmp u p (len (lo_path loc));
    if c =? 0 then Some (Some loc) else find_location locs uri
  end.

Definition authorize (users : users_file) (res : mk_pointer) : option Z :=
  match data res with
  | Some d => if 0 <? len res then mk_auth_validate_user users d (len res) else Some (-1)
  | None => Some (-1)
  end.

Definition deny (cs sr : nat) (loc : location) : M Z :=
  mod_sr cs sr (set_headers (fun sh => sh <| sh_content_length := 0 |>));;
  mk_header_set_http_status cs sr MK_CLIENT_UNAUTH;;
  r ← get_sr cs sr;
  row ← lift (data (lo_auth_http_header loc));
  r ← lift (mk_plugin_header_add r row (len (lo_auth_http_header loc)));
  put_sr cs sr r;;
  c ← get_cs cs;
  _ ← mk_header_send (cs_socket c) cs sr;
  mret MK_PLUGIN_RET_END.

(** Without a matching host the loop ends on the last one. *)
Definition _mkp_stage_30 (vhosts_list : list vhost) (cs sr : nat) : M Z :=
  r ← get_sr cs sr;
  vh ← lift (find_vhost vhosts_list (sr_host_conf r));
  loc ← lift (find_location (vh_locations vh) (sr_uri_processed r));
  match loc with
  | None => mret MK_PLUGIN_RET_NOT_ME
  | Some loc =>
    '(res, toc) ← lift (header_get (sr_headers_toc r) auth_header_request);
    put_sr cs sr (r <| sr_headers_toc := toc |>);;
    val ← lift (authorize (lo_users loc) res);
    if val =? 0 then mret MK_PLUGIN_RET_NOT_ME else deny cs sr loc
  end.
End WithEnv.

(** ** The check of credentials *)

(** A user of a file: the name is a string, the decoded password holds a
    digest. *)
Definition user_ok (u : user) : Prop :=
  exists name, is_cstr (us_user u) name /\ SHA1_DIGEST_LEN <= Z.of_nat (length (us_passwd_decoded u)).

Definition user_name (u : user) : bytes := default [] (cstr (us_user u)).

(** The first user whose name begins with the one given. *)
Definition named (name : bytes) (u : user) : bool := bool_decide (take (length name) (user_name u) = name).

Lemma user_name_cstr u name : is_cstr (us_user u) name -> user_name u = name.
Proof. intros H. unfold user_name. now rewrite (cstr_cstr _ _ H). Qed.

Lemma match_user_spec users name rest digest :
  Forall user_ok users -> 0 ∉ name ->
  match_user users (name ++ rest) (Z.of_nat (length name)) digest =
  Some (match List.find (named name) users with
        | Some u => if decide (take 20 (us_passwd_decoded u) = digest) then 0 else -1
        | None => -1
        end).
Proof.
  intros HF H0. induction HF as [|u users (un & Hu & Hp) HF IH]; cbn [match_user List.find]; [done|].
  destruct (strncmp_spec (us_user u) un name rest Hu H0) as (c & -> & Hc). mstep. unfold named at 1. rewrite (user_name_cstr u un Hu).
  destruct (Z.eqb_spec c 0) as [E|E]; cbn [negb].
  - rewrite bool_decide_true by now apply Hc. unfold memread. replace (_ && _) with true by (unfold SHA1_DIGEST_LEN in *; zb). mstep. done.
  - rewrite bool_decide_false by (intros H; now apply E, Hc). exact IH.
Qed.

(** The search for the separator. *)
Lemma eq_ci_colon c : 58 <> c -> eq_ci c 58 = false.
Proof.
  intros Hc. unfold eq_ci, toupper. change ((97 <=? 58) && (58 <=? 122)) with false. cbn match. case_if; zbool; zb.
Qed.

Lemma search_colon name rest n i :
  0 ∉ name -> 58 ∉ name -> i + Z.of_nat (length name) < n ->
  search_loop MK_STR_INSENSITIVE (clit ":") (name ++ 58 :: rest) i n = Some (i + Z.of_nat (length name)).
Proof.
  change (clit ":") with [58; 0]. revert i; induction name as [|c name IH]; intros i H0 H58 Hn.
  - cbn. f_equal. lia.
  - apply not_elem_of_cons in H0 as [Hc0 H0]. apply not_elem_of_cons in H58 as [Hc58 H58]. cbn [length] in Hn.
    pose proof (eq_ci_colon c Hc58) as Hci.
    cbn [search_loop app]. change (search_match MK_STR_INSENSITIVE [58; 0] (c :: name ++ 58 :: rest)) with
      (if eq_ci c 58 then starts_by eq_ci (name ++ 58 :: rest) [0] else Some false). rewrite Hci. mstep.
    replace (n <=? i + 1) with false by zb. replace (c =? 0) with false by zb. rewrite IH by (try done; lia). f_equal. cbn [length]. lia.
Qed.

Section Credentials.
Context `{env : Env}.

Lemma sha1_digest_spec pass rest :
  Z.of_nat (length pass) < 2 ^ 60 -> sha1_digest (pass ++ rest) (Z.of_nat (length pass)) = Some (Spec.sha1 pass).
Proof.
  intros Hb. unfold sha1_digest.
  destruct (blk_SHA1_Update_spec junk_words (blk_SHA1_Init (junk_bytes 64)) [] pass rest) as (ctx & -> & Hc);
    [apply init_ok; unfold junk_bytes; now rewrite length_map, length_seq|cbn; lia|]. mstep.
  destruct (blk_SHA1_Final_spec junk_words ctx ([] ++ pass) Hc) as (ctx' & ->); [cbn; lia|]. done.
Qed.

Lemma basic_credentials rest : strncmp (lit "Basic " ++ rest) MK_AUTH_HEADER_BASIC 6 = Some 0.
Proof. now destruct rest. Qed.

(** Credentials "name:password" in Base64 are accepted exactly when the
    first user of the file whose name begins with the given one has the SHA-1
    digest of the password. The text has to end in padding: otherwise the
    decoded text is ended with a NUL behind its buffer. *)
Theorem mk_auth_validate_user_spec users text rest n olen name pass :
  Forall user_ok (uf_users users) -> 0 ∉ name -> 58 ∉ name -> name <> [] -> pass <> [] ->
  2 < Z.of_nat (length name) + Z.of_nat (length pass) < 2 ^ 60 ->
  n = 6 + Z.of_nat (length text) -> 1 < Z.of_nat (length text) ->
  base64_decode (text ++ rest) (Z.of_nat (length text)) = Some (Some (olen, name ++ 58 :: pass)) ->
  Z.of_nat (length (name ++ 58 :: pass)) < olen ->
  mk_auth_validate_user users (lit "Basic " ++ text ++ rest) n =
  Some (match List.find (named name) (uf_users users) with
        | Some u => if decide (take 20 (us_passwd_decoded u) = Spec.sha1 pass) then 0 else -1
        | None => -1
        end).
Proof.
  intros HF H0 H58 Hn Hp Hb -> Ht Hd Hroom. unfold mk_auth_validate_user. change (len auth_header_basic) with 6.
  replace (_ <=? _) with false by zb. rewrite basic_credentials. mstep.
  change (padd (lit "Basic " ++ text ++ rest) 6) with (padd (lit "Basic " ++ text ++ rest) (Z.of_nat 6)).
  cbn [Z.eqb negb]. rewrite (padd_app (lit "Basic ") (text ++ rest) 6) by (cbn; lia). mstep. cbn [drop].
  replace (6 + Z.of_nat (length text) - 6) with (Z.of_nat (length text)) by lia. change (drop 6 (lit "Basic ") ++ text ++ rest) with (text ++ rest). rewrite Hd. mstep.
  assert (Hlen : Z.of_nat (length (name ++ 58 :: pass)) = Z.of_nat (length name) + 1 + Z.of_nat (length pass)) by (rewrite length_app; cbn [length]; lia).
  destruct (junk_bytes (Z.to_nat olen - length (name ++ 58 :: pass))) as [|j js] eqn:Ej.
  { apply (f_equal length) in Ej. unfold junk_bytes in Ej. rewrite length_map, length_seq in Ej. cbn in Ej. lia. }
  rewrite (bwrite_app (name ++ 58 :: pass) [j] js [0]) by done. mstep. rewrite Hlen. replace (_ <=? 3) with false by zb.
  assert (Hname : 0 < Z.of_nat (length name)) by (destruct name; [done|cbn; lia]).
  assert (Hpass : 0 < Z.of_nat (length pass)) by (destruct pass; [done|cbn; lia]).
  rewrite <- app_assoc. cbn [app]. unfold mk_string_search_n, _mk_string_search. replace (_ <=? 0) with false by zb.
  rewrite search_colon by (try done; lia). mstep. rewrite Z.add_0_l. replace (_ || _) with false.
  2:{ symmetry. rewrite !orb_false_iff. split; [split|]; zb. }
  replace (Z.of_nat (length name) + 1) with (Z.of_nat (S (length name))) by lia.
  replace (name ++ 58 :: pass ++ 0 :: js) with ((name ++ [58]) ++ pass ++ 0 :: js) at 1 by now rewrite <- app_assoc.
  rewrite padd_app by (rewrite length_app; cbn; lia). mstep.
  replace (drop (S (length name)) (name ++ [58]) ++ pass ++ 0 :: js) with (pass ++ 0 :: js)
    by (rewrite drop_ge by (rewrite length_app; cbn; lia); done).
  replace (_ - Z.of_nat (S (length name))) with (Z.of_nat (length pass)) by lia.
  rewrite sha1_digest_spec by lia. mstep. now rewrite match_user_spec.
Qed.

(** *** What the value of a header grants *)

(** The value is Basic credentials of [name] and [pass]: the Base64 text of
    "name:pass", in a buffer with room for the NUL that is added. *)
Definition gives (v name pass : bytes) : Prop :=
  exists text olen, v = lit "Basic " ++ text /\
    base64_decode text (Z.of_nat (length text)) = Some (Some (olen, name ++ 58 :: pass)) /\ Z.of_nat (length (name ++ 58 :: pass)) < olen /\
    0 ∉ name /\ 58 ∉ name /\ name <> [] /\ pass <> [] /\ 3 < Z.of_nat (length (name ++ 58 :: pass)).

(** The first user whose name begins with the given one has the SHA-1 digest of
    the password. *)
Definition grants (users : users_file) (v : bytes) : Prop :=
  exists name pass u, gives v name pass /\ List.find (named name) (uf_users users) = Some u /\ take 20 (us_passwd_decoded u) = Spec.sha1 pass.

(** The text does not decode, and NULL is written to, or fills its buffer, and
    the NUL is written behind it. *)
Definition overruns (v : bytes) : Prop :=
  exists text, v = lit "Basic " ++ text /\ (1 < length text)%nat /\
    match base64_decode text (Z.of_nat (length text)) with Some (Some (olen, out)) => olen <= Z.of_nat (length out) | _ => True end.

(** The text around the first colon. *)
Fixpoint split_colon (s : bytes) : option (bytes * bytes) :=
  match s with
  | [] => None
  | c :: s => if c =? 58 then Some ([], s) else if c =? 0 then None else '(name, pass) ← split_colon s; Some (c :: name, pass)
  end.

Lemma split_colon_spec s name pass : split_colon s = Some (name, pass) <-> s = name ++ 58 :: pass /\ 0 ∉ name /\ 58 ∉ name.
Proof.
  revert name; induction s as [|c s IH]; intros name; cbn [split_colon].
  - split; [done|]. by intros [H _]; destruct name.
  - destruct (Z.eqb_spec c 58) as [-> |Hc].
    + split; [intros [= <- <-]; split_and!; [done|apply not_elem_of_nil..]|]. intros (E & _ & H). destruct name as [|x name]; [by injection E as ->|].
      injection E as <- _. destruct H. by left.
    + destruct (Z.eqb_spec c 0) as [-> |Hc0].
      * split; [done|]. intros (E & H & _). destruct name as [|x name]; [done|]. injection E as <- _. destruct H. by left.
      * destruct name as [|x name].
        -- split; [|intros (E & _); injection E as E _; congruence]. destruct (split_colon s) as [[? ?]|]; by intros [=].
        -- specialize (IH name). rewrite !not_elem_of_cons. destruct (split_colon s) as [[n p]|]; mstep; split.
           ++ intros [= <- <- <-]. destruct (proj1 IH eq_refl) as (-> & ? & ?). by split_and!.
           ++ intros (E & [_ H0] & [_ H58]). injection E as <- E. by injection (proj2 IH (conj E (conj H0 H58))) as -> ->.
           ++ done.
           ++ intros (E & [_ H0] & [_ H58]). injection E as <- E. by specialize (proj2 IH (conj E (conj H0 H58))).
Qed.

Lemma search_colon_split out rest i :
  out <> [] -> search_loop MK_STR_INSENSITIVE (clit ":") (out ++ rest) i (i + Z.of_nat (length out)) =
  Some (match split_colon out with Some (name, _) => i + Z.of_nat (length name) | None => -1 end).
Proof.
  change (clit ":") with [58; 0]. revert i; induction out as [|c out IH]; intros i Hne; [done|]. cbn [search_loop app split_colon].
  change (search_match MK_STR_INSENSITIVE [58; 0] (c :: out ++ rest)) with (if eq_ci c 58 then starts_by eq_ci (out ++ rest) [0] else Some false).
  destruct (Z.eqb_spec c 58) as [-> |Hc].
  { change (eq_ci 58 58) with true. cbn. f_equal. lia. }
  rewrite eq_ci_colon by done. mstep. cbn [length]. destruct out as [|c' out].
  { cbn [length]. replace (_ <=? _) with true by zb. case_if; reflexivity. }
  replace (_ <=? i + 1) with false by (cbn [length]; zb). destruct (c =? 0); [done|].
  replace (i + Z.of_nat (S (length (c' :: out)))) with (i + 1 + Z.of_nat (length (c' :: out))) by lia. rewrite IH by done.
  destruct (split_colon (c' :: out)) as [[n p]|]; mstep; [|done]. f_equal. cbn [length]. lia.
Qed.

Lemma decode_length text olen out :
  base64_decode text (Z.of_nat (length text)) = Some (Some (olen, out)) -> olen <= Z.of_nat (length text) /\ (1 < length text)%nat.
Proof.
  unfold base64_decode. rewrite memread_take by lia. rewrite Nat2Z.id, take_ge by done. mstep.
  assert (Hc : 0 <= count_valid text <= Z.of_nat (length text)).
  { unfold count_valid. split; [lia|]. apply Nat2Z.inj_le. apply List.filter_length_le. }
  destruct (_ || _) eqn:E; [done|]. apply orb_false_iff in E as [E1 E2]. apply Z.eqb_neq in E1. apply negb_false_iff in E2. apply Z.eqb_eq in E2.
  destruct (decode_loop _ _ _ _ _) as [[o|]|]; [|done..]. intros [= <- <-]. Z.to_euclidean_division_equations; lia.
Qed.

Lemma strncmp_read p k : (length k <= length p)%nat -> exists c, strncmp p (k ++ [0]) (Z.of_nat (length k)) = Some c /\ (0 ∉ k -> c = 0 <-> take (length k) p = k).
Proof.
  unfold strncmp. revert p; induction k as [|d k IH]; intros p Hl; [exists 0; by destruct p|].
  destruct p as [|x p]; [cbn in Hl; lia|]. cbn [length] in *. cbn [app strncmp_by take]. replace (_ <=? 0) with false by zb.
  destruct (Z.eqb_spec x d) as [-> |Hx]; cbn [negb].
  - destruct (Z.eqb_spec d 0) as [-> |Hd]; [exists 0; split; [done|]; intros H; destruct H; by left|].
    destruct (IH p) as (c & Hc & Hiff); [lia|]. exists c. replace (Z.of_nat (S (length k)) - 1) with (Z.of_nat (length k)) by lia. split; [done|].
    intros [_ H0]%not_elem_of_cons. rewrite (Hiff H0). split; [by intros ->|congruence].
  - exists (x - d). split; [done|]. intros _. split; [lia|congruence].
Qed.

(** The three outcomes of the check. *)
Lemma validate_verdict users v rest :
  Forall user_ok (uf_users users) -> Z.of_nat (length v) < 2 ^ 32 ->
  let res := mk_auth_validate_user users (v ++ rest) (Z.of_nat (length v)) in
  overruns v /\ res = None \/ ~ overruns v /\ grants users v /\ res = Some 0 \/ ~ overruns v /\ ~ grants users v /\ res = Some (-1).
Proof.
  intros HF Hlv res. assert (Horig : res = mk_auth_validate_user users (v ++ rest) (Z.of_nat (length v))) by done.
  assert (Hres : res = mk_auth_validate_user users (v ++ rest) (Z.of_nat (length v))) by done. clearbody res.
  assert (Hno : (forall text, v = lit "Basic " ++ text -> (1 < length text)%nat -> False) -> ~ overruns v /\ ~ grants users v).
  { intros H. split; [intros (text & Hv & Hl & _); by apply (H text)|].
    intros (name & pass & u & (text & olen & Hv & Hd & _) & _). apply (H text Hv). by eapply decode_length. }
  assert (Hsmall : Z.of_nat (length v) <= 7 \/ take 6 v <> lit "Basic " -> ~ overruns v /\ ~ grants users v).
  { intros H. apply Hno. intros text -> Hl. destruct H as [H|H]; [|by destruct H]. rewrite length_app in H. change (length (lit "Basic ")) with 6%nat in H. lia. }
  unfold mk_auth_validate_user in Hres. change (len auth_header_basic) with 6 in Hres. destruct (Z.of_nat (length v) <=? 6 + 1) eqn:E; zbool.
  { right. right. destruct Hsmall; [by left|]. done. }
  destruct (strncmp_read (v ++ rest) (lit "Basic ")) as (c & Hc & Hiff); [rewrite length_app; change (length (lit "Basic ")) with 6%nat; lia|].
  change (strncmp (v ++ rest) MK_AUTH_HEADER_BASIC 6 = Some c) in Hc. specialize (Hiff ltac:(decide_closed)). rewrite Hc in Hres. cbn [mbind option_bind] in Hres.
  destruct (Z.eqb_spec c 0) as [Ec|Ec]; cbn [negb] in Hres.
  2: { right. right. destruct Hsmall as [? ?]; [|done]. right. intros H. apply Ec, Hiff. change (length (lit "Basic ")) with 6%nat. rewrite take_app_le by lia. done. }
  apply Hiff in Ec. change (length (lit "Basic ")) with 6%nat in Ec. rewrite take_app_le in Ec by lia.
  set (text := drop 6 v). assert (Hv : v = lit "Basic " ++ text) by (unfold text; rewrite <- Ec; by rewrite take_drop).
  assert (Hl : Z.of_nat (length v) = 6 + Z.of_nat (length text)) by (rewrite Hv, length_app; change (length (lit "Basic ")) with 6%nat; lia).
  clearbody text. clear Hno Hsmall Hiff Hc Ec. rewrite Hl in *. subst v.
  assert (Hp : padd ((lit "Basic " ++ text) ++ rest) 6 = Some (text ++ rest)).
  { rewrite <- app_assoc. change 6 with (Z.of_nat 6) at 1. rewrite (padd_app (lit "Basic ") (text ++ rest) 6) by (cbn; lia). done. }
  rewrite Hp in Hres. cbn [mbind option_bind] in Hres. replace (6 + Z.of_nat (length text) - 6) with (Z.of_nat (length text)) in Hres by lia. rewrite base64_decode_readable in Hres.
  destruct (base64_decode_total text (Z.of_nat (length text))) as [r Hr]; [lia|]. rewrite Hr in Hres. cbn [mbind option_bind] in Hres.
  assert (Hov : match r with Some (olen, out) => olen <= Z.of_nat (length out) | None => True end -> overruns (lit "Basic " ++ text)).
  { intros H. exists text. split; [done|]. split; [lia|]. rewrite Hr. by destruct r as [[? ?]|]. }
  destruct r as [[olen out]|]; [|left; by split; [apply Hov|]]. cbn [mbind option_bind] in Hres.
  destruct (Z.leb_spec olen (Z.of_nat (length out))) as [Ho|Ho].
  { left. split; [by apply Hov|]. replace (Z.to_nat olen - length out)%nat with 0%nat in Hres by lia. change (junk_bytes 0) with (@nil Z) in Hres. rewrite app_nil_r in Hres.
    rewrite bwrite_out in Hres by (cbn [length]; lia). done. }
  assert (Hnov : ~ overruns (lit "Basic " ++ text)).
  { intros (text' & Ht & _ & Hm). apply app_inv_head in Ht as <-. rewrite Hr in Hm. lia. }
  right. destruct (decode_length _ _ _ Hr) as [Holen Htl]. destruct (junk_bytes (Z.to_nat olen - length out)) as [|j js] eqn:Ej.
  { apply (f_equal length) in Ej. unfold junk_bytes in Ej. rewrite length_map, length_seq in Ej. cbn in Ej. lia. }
  assert (Hgives : forall name pass, gives (lit "Basic " ++ text) name pass <->
    split_colon out = Some (name, pass) /\ name <> [] /\ pass <> [] /\ 3 < Z.of_nat (length out)).
  { intros name pass. rewrite split_colon_spec. split.
    - intros (text' & olen' & Ht & Hd & H1 & H2 & H3 & H4 & H5 & H6). apply app_inv_head in Ht as <-. rewrite Hr in Hd. injection Hd as -> ->. done.
    - intros ((-> & H2 & H3) & H4 & H5 & H6). by exists text, olen. }
  assert (Hgr : (forall name pass, split_colon out = Some (name, pass) -> name <> [] -> pass <> [] -> 3 < Z.of_nat (length out) -> False) ->
    ~ grants users (lit "Basic " ++ text)).
  { intros H (name & pass & u & Hg & _). apply Hgives in Hg as (? & ? & ? & ?). eauto. }
  rewrite (bwrite_app out [j] js [0]) in Hres by done. cbn [mbind option_bind] in Hres. destruct (Z.leb_spec (Z.of_nat (length out)) 3) as [H3|H3].
  { right. split; [done|]. split; [|done]. apply Hgr. intros. lia. }
  unfold mk_string_search_n, _mk_string_search in Hres. replace (_ <=? 0) with false in Hres by zb.
  pose proof (search_colon_split out ([0] ++ js) 0) as Hsearch. rewrite Z.add_0_l in Hsearch. rewrite Hsearch in Hres by (intros ->; cbn in H3; lia). cbn [mbind option_bind] in Hres.
  destruct (split_colon out) as [[name pass]|] eqn:Es.
  2: { right. split; [done|]. split; [|done]. by apply Hgr. }
  pose proof (proj1 (split_colon_spec _ _ _) Es) as (-> & N0 & N58). rewrite Z.add_0_l in Hres.
  assert (Hlo : Z.of_nat (length (name ++ 58 :: pass)) = Z.of_nat (length name) + 1 + Z.of_nat (length pass)) by (rewrite length_app; cbn [length]; lia).
  destruct (decide (name = [] \/ pass = [])) as [Hemp|Hemp].
  { replace (_ || _) with true in Hres.
    2: { symmetry. rewrite !orb_true_iff. destruct Hemp as [-> | ->]; [left; right; done|]. right. rewrite length_app. cbn [length]. zb. }
    right. split; [done|]. split; [|done]. apply Hgr. intros n p [= -> ->]. tauto. }
  apply Decidable.not_or in Hemp as [Hn Hpa]. clear Hres Hgr Hsearch.
  rewrite <- app_assoc, (mk_auth_validate_user_spec users text rest _ olen name pass) in Horig by
    first [assumption|lia|by rewrite base64_decode_readable].
  assert (Hg : gives (lit "Basic " ++ text) name pass) by by apply Hgives.
  assert (Hiff : grants users (lit "Basic " ++ text) <->
    exists u, List.find (named name) (uf_users users) = Some u /\ take 20 (us_passwd_decoded u) = Spec.sha1 pass).
  { split; [|intros (u & ? & ?); by exists name, pass, u]. intros (n & q & u & H & Hu). apply Hgives in H as ([= <- <-] & _). by exists u. }
  destruct (List.find (named name) (uf_users users)) as [u|].
  - case_decide as Hd; [left|right]; (split; [done|]; split; [|done]); rewrite Hiff; [by exists u|]. by intros (? & [= <-] & ?).
  - right. split; [done|]. split; [|done]. rewrite Hiff. by intros (? & ? & _).
Qed.
End Credentials.

(** ** The guard of the locations *)

Section Guard.
Context `{env : Env}.

(** The request that is refused, but for the row of the plugin. *)
Definition denied (toc : headers_toc) (r : session_request) : session_request :=
  set_headers (fun sh => sh <| sh_status := MK_CLIENT_UNAUTH |>)
    (set_headers (fun sh => sh <| sh_content_length := 0 |>) (r <| sr_headers_toc := toc |>)).

Lemma header_row_added (r : session_request) row n text :
  sh_extra_rows (sr_headers r) = None -> Iov.reads (Some row) n text ->
  exists iov, mk_plugin_header_add r row n =
      Some (set_headers (fun sh => sh <| sh_extra_rows := Some iov |>) r) /\
    Iov.iov_at iov (text ++ crlf) 2 /\ Iov.size iov = 36.
Proof.
  intros Hr Hl. unfold mk_plugin_header_add. rewrite Hr.
  destruct (Iov.mk_iov_create_ok (MK_PLUGIN_HEADER_EXTRA_ROWS * 2)) as (m & Hm & [Hat _] & Hs); [done|].
  pose proof (f_equal (option_map Iov.iov_idx) Hm) as Hk. cbn in Hk. injection Hk as Hk. rewrite Hm. mstep.
  destruct (Iov.add_entry_at m [] 0 (Some row) n Iov.mk_iov_crlf Iov.MK_IOV_NOT_FREE_BUF text crlf)
    as (m' & -> & A & B & _).
  - now rewrite <- Hk in Hat.
  - change (Iov.entry_cells _) with 2. rewrite Hs. done.
  - exact Hl.
  - apply reads_crlf.
  - done.
  - mstep. eexists. split; [reflexivity|]. split; [exact A|]. rewrite B, Hs. done.
Qed.

(** The rows of plugins do not show in the sections. *)
Lemma rest_text_rows w cs sr c r :
  at_sr w cs sr c r -> forall a iov, rest_text (c <| cs_request_list := <[sr := a]> (cs_request_list c) |>) a =
  rest_text (c <| cs_request_list := <[sr := set_headers (fun sh => sh <| sh_extra_rows := Some iov |>) a]> (cs_request_list c) |>)
    (set_headers (fun sh => sh <| sh_extra_rows := Some iov |>) a).
Proof.
  intros [_ Hr] a iov. apply lookup_lt_Some in Hr. unfold rest_text. f_equal. unfold connection_text.
  match goal with |- (if _ then if ?x =? 0 then _ else _ else _) = (if _ then if ?y =? 0 then _ else _ else _) =>
    assert (He : x = y); [|now rewrite He] end.
  unfold mk_http_keepalive_check. cbn [cs_request_list set_field]. rewrite !last_lookup, !length_insert.
  destruct (decide (sr = pred (length (cs_request_list c)))) as [->|Hne].
  - now rewrite !list_lookup_insert_eq.
  - now rewrite !list_lookup_insert_ne.
Qed.

(** What the plugin answers to a request of a restricted location. *)
Definition refused (w : world) (cs sr : nat) (c : client_session) (row : bytes) (r' : session_request)
    (status signature now : bytes) (res : option (Z * world)) : Prop :=
  exists w' c' r'', res = Some (MK_PLUGIN_RET_END, w') /\ at_sr w' cs sr c' r'' /\
    w_trace w' = w_trace w ++ rows_events (w_trace w) (cs_socket c)
        (sections_text status signature now (c <| cs_request_list := <[sr := r']> (cs_request_list c) |>) r')
        (row ++ crlf ++ crlf) /\
    w_sched w' = w_sched w /\ header_world w' now.

Lemma deny_run cs sr w c r toc loc row status signature now :
  at_sr w cs sr c r -> sh_extra_rows (sr_headers r) = None -> sh_cgi (sr_headers r) = SH_NOCGI ->
  Iov.reads (data (lo_auth_http_header loc)) (len (lo_auth_http_header loc)) row -> data (lo_auth_http_header loc) <> None -> c_safe_event_write config = MK_FALSE ->
  sections_ready w c (denied toc r) status signature now ->
  refused w cs sr c row (denied toc r) status signature now (deny cs sr loc (upd_sr w cs sr c (r <| sr_headers_toc := toc |>))).
Proof.
  set (r' := denied toc r). intros Hat Hrows Hcgi Hl Hd Hsafe Hready. unfold deny, mk_header_set_http_status.
  rewrite (bind_run _ _ _ _ _ (mod_upd_sr _ _ _ _ _ _ _ Hat)), (bind_run _ _ _ _ _ (mod_upd_sr _ _ _ _ _ _ _ Hat)).
  change (set_headers _ (set_headers _ _)) with r'. rewrite (bind_run _ _ _ _ _ (get_upd_sr _ _ _ _ _ _ Hat)).
  destruct (data (lo_auth_http_header loc)) as [p|] eqn:Ep; [|done]. rewrite (lift_run (Some p) _ _ p eq_refl).
  destruct (header_row_added r' p _ row Hrows Hl) as (iov & Hadd & Hiov & Hsize).
  rewrite (lift_run _ _ _ _ Hadd). set (r2 := set_headers _ r').
  rewrite (bind_run _ _ _ _ _ (put_upd_sr _ _ _ _ _ _ r2 Hat)).
  pose proof (upd_sr_at _ _ _ _ _ r2 Hat) as Hat2. rewrite (bind_run _ _ _ _ _ (get_at_cs _ _ _ _ _ Hat2)).
  set (c2 := c <| cs_request_list := _ |>) in *.
  assert (Hready2 : sections_ready (upd_sr w cs sr c r2) c2 r2 status signature now).
  { destruct Hready as [Hw Hk Hs Hho Hdt]. split; [now destruct Hw|now destruct Hk|exact Hs|exact Hho|exact Hdt]. }
  destruct (mk_header_send_rows (cs_socket c2) cs sr _ c2 r2 status signature now iov _ 2 Hat2 Hready2 Hsafe eq_refl Hiov)
    as (w3 & c3 & r3 & H3 & Hat3 & Ht & Hsch & Hw3); [rewrite Hsize; done|exact Hcgi|].
  rewrite (bind_run _ _ _ _ _ H3). exists w3, c3, r3.
  split; [done|]. split; [done|]. split; [|now split]. rewrite Ht. rewrite (app_assoc row).
  change (w_trace (upd_sr w cs sr c r2)) with (w_trace w). do 2 f_equal. unfold sections_text. do 5 f_equal.   symmetry. apply (f_equal2 (@app Z)); [done|]. exact (rest_text_rows _ _ _ _ _ Hat r' iov).
Qed.


(** *** Which location is meant *)

(** The text of the path of a location. *)
Definition location_text (loc : location) : bytes := default [] (d ← data (lo_path loc); cstr d).
Definition location_ok (loc : location) : Prop :=
  exists d, data (lo_path loc) = Some d /\ is_cstr d (location_text loc) /\ len (lo_path loc) = Z.of_nat (length (location_text loc)).

(** The pointer designates the URI in a string. *)
Definition designates (p : mk_pointer) (uri : bytes) : Prop :=
  exists d s, data p = Some d /\ is_cstr d s /\ uri `prefix_of` s /\ len p = Z.of_nat (length uri).

(** The first location whose path the URI begins with. *)
Definition first_location (locs : list location) (uri : bytes) : option location :=
  List.find (fun loc => bool_decide (location_text loc `prefix_of` uri)) locs.

(** The entry of the host, or the last one. *)
Definition host_entry (vhosts : list vhost) (host : option nat) : option vhost :=
  match List.find (fun vh => bool_decide (Some (vh_host vh) = host)) vhosts with Some vh => Some vh | None => last vhosts end.

Lemma find_vhost_spec vhosts host : find_vhost vhosts host = host_entry vhosts host.
Proof.
  unfold host_entry. induction vhosts as [|vh [|vh' vhosts] IH]; [done|cbn; by case_bool_decide|].
  change (find_vhost (vh :: vh' :: vhosts) host) with (if decide (Some (vh_host vh) = host) then Some vh else find_vhost (vh' :: vhosts) host).
  rewrite IH. cbn [List.find last].
  case_decide as Hd; [by rewrite (bool_decide_true (Some (vh_host vh) = host))|by rewrite (bool_decide_false (Some (vh_host vh) = host))].
Qed.

Lemma find_location_spec locs p uri : Forall location_ok locs -> designates p uri -> find_location locs p = Some (first_location locs uri).
Proof.
  intros HF (d & s & Hd & Hs & [t Ht] & Hl). induction HF as [|loc locs (q & Hq & Hc & Hn) HF IH]; [done|].
  unfold first_location. cbn [find_location List.find]. fold (first_location locs uri). rewrite Hl, Hn.
  destruct (Z.ltb_spec (Z.of_nat (length uri)) (Z.of_nat (length (location_text loc)))) as [Hlt|Hle].
  - rewrite bool_decide_false by (intros Hp%prefix_length; lia). exact IH.
  - rewrite Hd, Hq. mstep. destruct Hc as [[r ->] H0].
    destruct (strncmp_spec d s (location_text loc) (0 :: r) Hs H0) as (c & Hcmp & Hiff). rewrite Hcmp. mstep.
    rewrite Ht, take_app_le in Hiff by lia. destruct (Z.eqb_spec c 0) as [E|E].
    + rewrite bool_decide_true; [done|]. apply Hiff in E. rewrite <- E. apply prefix_take.
    + rewrite bool_decide_false; [exact IH|]. intros [x ->]. apply E, Hiff. apply take_app_length.
Qed.

(** *** What the header says *)

Definition auth_key : bytes := lit "Authorization:".

(** The value of the first line of the request with the key that was not given
    out yet: what follows the key and one more character. *)
Definition auth_value (toc : headers_toc) (lines : list bytes) : option bytes :=
  '(_, _, line) ← find_row auth_key toc lines; Some (drop 15 line).
(** The table with its row marked. *)
Definition auth_read (toc : headers_toc) (lines : list bytes) : headers_toc :=
  match find_row auth_key toc lines with
  | Some (i, r, _) => <[i := {| row_init := row_init r; row_end := row_end r; row_status := 1 |}]> toc
  | None => toc
  end.

(** The lines of the header: one with the key has something behind its colon. *)
Definition auth_lines (toc : headers_toc) (lines : list bytes) : Prop :=
  Forall2 row_ok toc lines /\ Forall (fun l => Z.of_nat (length l) < 2 ^ 32 /\ (line_matches auth_key l -> (14 < length l)%nat)) lines.

Lemma authorize_verdict users toc lines :
  Forall user_ok (uf_users users) -> auth_lines toc lines ->
  exists res, header_get toc auth_header_request = Some (res, auth_read toc lines) /\
    match auth_value toc lines with
    | Some v => overruns v /\ authorize users res = None \/ ~ overruns v /\ grants users v /\ authorize users res = Some 0 \/
        ~ overruns v /\ ~ grants users v /\ authorize users res = Some (-1)
    | None => authorize users res = Some (-1)
    end.
Proof.
  intros HF [Hrows Hlines].
  destruct (mk_request_header_get_spec auth_key toc lines Hrows) as (res & Hget & Hres); [decide_closed|decide_closed| |].
  { eapply Forall_impl; [exact Hlines|]. intros l [H1 H2]. split; [lia|exact H2]. }
  exists res. split; [exact Hget|]. unfold auth_value. destruct (find_row auth_key toc lines) as [[[i r] line]|] eqn:Ef; mstep; [|by rewrite Hres].
  change (S (length auth_key)) with 15%nat in Hres. set (v := drop 15 line) in *. unfold view in Hres. unfold authorize.
  destruct (data res) as [d|]; [|done]. cbn [mbind option_bind] in Hres. apply memread_Some in Hres as Hm. destruct Hm as [Hm1 Hm2].
  assert (Hl : len res = Z.of_nat (length v)) by (rewrite Hm2, length_take; lia).
  assert (Hd : d = v ++ drop (Z.to_nat (len res)) d) by (rewrite Hm2 at 1; by rewrite take_drop).
  destruct (Z.ltb_spec 0 (len res)) as [Hpos|Hpos].
  - rewrite Hd, Hl. apply validate_verdict; [done|]. unfold v. rewrite length_drop.
    assert (Hin : line ∈ lines).
    { clear -Ef. revert i r lines Ef; induction toc as [|row toc IH]; intros i r [|l lines] Ef; [done..|]. cbn [find_row] in Ef. case_bool_decide.
      - injection Ef as _ _ ->. left.
      - destruct (find_row auth_key toc lines) as [[[j r'] l']|] eqn:E; [|done]. injection Ef as _ _ <-. right. by eapply IH. }
    rewrite Forall_forall in Hlines. destruct (Hlines line Hin). lia.
  - assert (Hv : v = []) by (destruct v; [done|cbn in Hl; lia]). rewrite Hv. right. right.
    assert (Hnil : forall t, [] <> lit "Basic " ++ t) by (intros t H; discriminate H).
    split; [intros (t & Ht & _); by apply Hnil in Ht|]. split; [|done]. intros (n & q & u & (t & o & Ht & _) & _). by apply Hnil in Ht.
Qed.

(** C22: the guard of the locations. The entry of the virtual host of a request,
    or the last one if its host has none, is searched for the first location
    whose path its URI begins with. A request outside every location is left
    alone. In a location it is let through, its Authorization header being
    marked as read, exactly when that header is there and grants access: "Basic
    " and the Base64 text of "name:password", where the first user of the file
    whose name begins with the given one has the SHA-1 digest of the password.
    Otherwise, without the header as well, it is answered with the 401 header
    and the authenticate row, if no plugin added rows before and SafeEventWrite
    is off, and ended: no handler after this one sees it. Credentials that do
    not decode, or fill the buffer they are decoded into, are undefined
    behaviour. *)
Theorem _mkp_stage_30_guards vhosts cs sr w c r vh uri lines status signature now :
  at_sr w cs sr c r -> host_entry vhosts (sr_host_conf r) = Some vh -> Forall location_ok (vh_locations vh) ->
  designates (sr_uri_processed r) uri ->
  match first_location (vh_locations vh) uri with
  | None => _mkp_stage_30 vhosts cs sr w = Some (MK_PLUGIN_RET_NOT_ME, w)
  | Some loc => forall row,
    Forall user_ok (uf_users (lo_users loc)) -> auth_lines (sr_headers_toc r) lines -> c_safe_event_write config = MK_FALSE ->
    sh_extra_rows (sr_headers r) = None -> sh_cgi (sr_headers r) = SH_NOCGI ->
    Iov.reads (data (lo_auth_http_header loc)) (len (lo_auth_http_header loc)) row -> data (lo_auth_http_header loc) <> None ->
    let toc := auth_read (sr_headers_toc r) lines in
    sections_ready w c (denied toc r) status signature now ->
    match auth_value (sr_headers_toc r) lines with
    | Some v =>
      (overruns v -> _mkp_stage_30 vhosts cs sr w = None) /\
      (~ overruns v -> grants (lo_users loc) v ->
        _mkp_stage_30 vhosts cs sr w = Some (MK_PLUGIN_RET_NOT_ME, upd_sr w cs sr c (r <| sr_headers_toc := toc |>))) /\
      (~ overruns v -> ~ grants (lo_users loc) v -> refused w cs sr c row (denied toc r) status signature now (_mkp_stage_30 vhosts cs sr w))
    | None => refused w cs sr c row (denied toc r) status signature now (_mkp_stage_30 vhosts cs sr w)
    end
  end.
Proof.
  intros Hat Hv Hok Huri. rewrite <- find_vhost_spec in Hv. pose proof (find_location_spec _ _ _ Hok Huri) as Hl.
  assert (Hrun : forall k, (r ← get_sr cs sr; vh ← lift (find_vhost vhosts (sr_host_conf r));
      loc ← lift (find_location (vh_locations vh) (sr_uri_processed r)); k r loc) w = (k r (first_location (vh_locations vh) uri) : M Z) w).
  { intros k. rewrite (bind_run _ _ _ _ _ (get_at_sr _ _ _ _ _ Hat)), (lift_run _ _ _ _ Hv). apply lift_run, Hl. }
  unfold _mkp_stage_30. rewrite Hrun. destruct (first_location _ uri) as [loc|]; [|done].
  intros row Hus Hlines Hsafe Hrows Hcgi Hrow Hd Hready. set (toc := auth_read _ lines) in *. destruct (authorize_verdict (lo_users loc) _ lines Hus Hlines) as (res & Hget & Hverdict).
  rewrite (lift_run _ _ _ _ Hget), (bind_run _ _ _ _ _ (put_at_sr _ _ _ _ _ _ Hat)).
  assert (Hdeny : forall m, authorize (lo_users loc) res = Some (-1) ->
    m = (val ← lift (authorize (lo_users loc) res); if val =? 0 then mret MK_PLUGIN_RET_NOT_ME else deny cs sr loc) (upd_sr w cs sr c (r <| sr_headers_toc := toc |>)) ->
    refused w cs sr c row (denied toc r) status signature now m).
  { intros m Ha ->. rewrite (lift_run _ _ _ _ Ha). by apply deny_run. }
  destruct (auth_value _ lines) as [v|]; [|by apply Hdeny].
  destruct Hverdict as [[Ho Ha]|[(Ho & Hg & Ha)|(Ho & Hg & Ha)]]; (split; [|split]); try done.
  - intros _. unfold lift, mbind, M_bind. by rewrite Ha.
  - intros _ _. by rewrite (lift_run _ _ _ _ Ha).
  - intros _ _. by apply Hdeny.
Qed.
End Guard.

(** ** Examples *)

(** "Aladdin:open sesame" *)
Definition example_user : user := {| us_user := clit "Aladdin"; us_passwd_raw := []; us_passwd_decoded := Spec.sha1 (lit "open sesame") |}.
Definition example_users : users_file := {| uf_last_updated := 0; uf_path := clit "users"; uf_users := [example_user] |}.
Definition example_text : bytes := lit "QWxhZGRpbjpvcGVuIHNlc2FtZQ==".

Lemma example_user_ok : user_ok example_user.
Proof. exists (lit "Aladdin"). split; [|now vm_compute]. apply is_cstr_clit. decide_closed. Qed.

Lemma mk_auth_validate_user_witness :
  @mk_auth_validate_user example_env example_users (lit "Basic " ++ example_text ++ [13]) 34 =
  Some (match List.find (named (lit "Aladdin")) (uf_users example_users) with
        | Some u => if decide (take 20 (us_passwd_decoded u) = Spec.sha1 (lit "open sesame")) then 0 else -1
        | None => -1
        end).
Proof.
  apply (@mk_auth_validate_user_spec example_env example_users example_text [13] 34 21 (lit "Aladdin") (lit "open sesame")).
  - constructor; [apply example_user_ok|constructor].
  - decide_closed.
  - decide_closed.
  - discriminate.
  - discriminate.
  - now vm_compute.
  - reflexivity.
  - now vm_compute.
  - now vm_compute.
  - now vm_compute.
Defined.

Example validate_user_accepts :
  @mk_auth_validate_user example_env example_users (lit "Basic " ++ example_text ++ [13]) 34 = Some 0.
Proof. vm_compute. reflexivity. Qed.

Definition example_location : location :=
  {| lo_path := mk_pointer_init "/private"; lo_title := mk_pointer_init "Members";
     lo_auth_http_header := mk_pointer_init "WWW-Authenticate: Basic realm=Members"; lo_users := example_users |}.
Definition example_vhosts : list vhost := [ {| vh_host := 0; vh_locations := [example_location] |} ].
Definition private_with (toc : headers_toc) : session_request := get_request "/private/a.html" <| sr_headers_toc := toc |>.

Lemma private_ready toc toc' :
  @sections_ready example_env (request_world (private_with toc)) (request_session (private_with toc))
    (denied toc' (private_with toc)) (lit "HTTP/1.1 401 Unauthorized" ++ [13; 10]) (lit "Server: Monkey") (lit "now").
Proof.
  split; [apply header_world_example | | | | cbn; lia].
  - split; [split; cbn; [lia|lia] | split; cbn; lia | done | cbn; lia | cbn; lia].
  - eexists. split; [reflexivity|]. now apply reads_lit.
  - eexists. split; [reflexivity|]. apply (reads_lit (lit "Server: Monkey")). cbn. lia.
Qed.

Lemma private_location_ok : Forall location_ok [example_location].
Proof.
  apply Forall_cons_2; [|apply Forall_nil_2]. exists (clit "/private"). split; [reflexivity|]. split; [|reflexivity].
  change (location_text example_location) with (lit "/private"). apply is_cstr_clit. decide_closed.
Qed.
Lemma private_designates toc : designates (sr_uri_processed (private_with toc)) (lit "/private/a.html").
Proof.
  exists (clit "/private/a.html"), (lit "/private/a.html"). split; [reflexivity|]. split; [apply is_cstr_clit; decide_closed|]. by split.
Qed.

(** The header of Aladdin. *)
Definition aladdin_line : bytes := lit "Authorization: Basic " ++ example_text.
Definition aladdin_toc : headers_toc := default [] (mk_request_header_toc_parse (aladdin_line ++ crlf ++ crlf ++ [0]) 49).
Lemma aladdin_lines : auth_lines aladdin_toc [aladdin_line].
Proof.
  split.
  - destruct (mk_request_header_toc_parse_spec (aladdin_line ++ crlf ++ crlf ++ [0]) (aladdin_line ++ crlf ++ crlf) 49) as (rows & Hr & HF & _).
    + split; [exists []; by rewrite <- !app_assoc|decide_closed].
    + unfold aladdin_toc. replace (mk_request_header_toc_parse _ 49) with (Some rows) by (rewrite <- Hr; vm_compute; reflexivity). exact HF.
  - apply Forall_cons_2; [|apply Forall_nil_2]. split; [vm_compute; reflexivity|]. intros _. apply Nat.ltb_lt. reflexivity.
Qed.
Lemma aladdin_gives : gives (lit "Basic " ++ example_text) (lit "Aladdin") (lit "open sesame").
Proof.
  exists example_text, 21. split; [done|]. split; [vm_compute; reflexivity|]. split; [vm_compute; reflexivity|].
  split; [decide_closed|]. split; [decide_closed|]. split; [discriminate|]. split; [discriminate|]. vm_compute. reflexivity.
Qed.
Lemma aladdin_fits : ~ overruns (lit "Basic " ++ example_text).
Proof.
  intros (text & Ht & _ & Hm). apply app_inv_head in Ht as <-.
  assert (E : base64_decode example_text (Z.of_nat (length example_text)) = Some (Some (21, lit "Aladdin:open sesame"))) by (vm_compute; reflexivity).
  rewrite E in Hm. cbn in Hm. lia.
Qed.

(** Without the header the answer is 401; with the one of Aladdin the request
    goes on. *)
Lemma _mkp_stage_30_witness :
  @refused example_env (request_world (private_with [])) 1 0 (request_session (private_with []))
    (lit "WWW-Authenticate: Basic realm=Members") (denied [] (private_with []))
    (lit "HTTP/1.1 401 Unauthorized" ++ [13; 10]) (lit "Server: Monkey") (lit "now")
    (@_mkp_stage_30 example_env example_vhosts 1 0 (request_world (private_with []))) /\
  @_mkp_stage_30 example_env example_vhosts 1 0 (request_world (private_with aladdin_toc)) =
    Some (MK_PLUGIN_RET_NOT_ME, upd_sr (request_world (private_with aladdin_toc)) 1 0 (request_session (private_with aladdin_toc))
      (private_with aladdin_toc <| sr_headers_toc := auth_read aladdin_toc [aladdin_line] |>)).
Proof.
  assert (Hu : Forall user_ok [example_user]) by (apply Forall_cons_2; [apply example_user_ok|apply Forall_nil_2]).
  assert (Hrow : @Iov.reads (data (lo_auth_http_header example_location)) (len (lo_auth_http_header example_location)) (lit "WWW-Authenticate: Basic realm=Members"))
    by (apply (reads_lit (lit "WWW-Authenticate: Basic realm=Members")); now vm_compute).
  split.
  - exact (@_mkp_stage_30_guards example_env example_vhosts 1 0 (request_world (private_with [])) (request_session (private_with [])) (private_with [])
      {| vh_host := 0; vh_locations := [example_location] |} (lit "/private/a.html") [] (lit "HTTP/1.1 401 Unauthorized" ++ [13; 10]) (lit "Server: Monkey") (lit "now")
      (request_world_at _) eq_refl private_location_ok (private_designates []) (lit "WWW-Authenticate: Basic realm=Members")
      Hu (conj (Forall2_nil_2 _ _ _) (Forall_nil_2 _)) eq_refl eq_refl eq_refl Hrow ltac:(discriminate) (private_ready [] _)).
  - destruct (@_mkp_stage_30_guards example_env example_vhosts 1 0 (request_world (private_with aladdin_toc)) (request_session (private_with aladdin_toc))
      (private_with aladdin_toc) {| vh_host := 0; vh_locations := [example_location] |} (lit "/private/a.html") [aladdin_line]
      (lit "HTTP/1.1 401 Unauthorized" ++ [13; 10]) (lit "Server: Monkey") (lit "now")
      (request_world_at _) eq_refl private_location_ok (private_designates _) (lit "WWW-Authenticate: Basic realm=Members")
      Hu aladdin_lines eq_refl eq_refl eq_refl Hrow ltac:(discriminate) (private_ready _ _)) as (_ & H & _).
    apply H; [apply aladdin_fits|]. exists (lit "Aladdin"), (lit "open sesame"), example_user. split; [apply aladdin_gives|]. split; vm_compute; reflexivity.
Defined.
