(* ===== verification/AuthConf.v ===== *)
(** * plugins/auth/conf.c: the users files

    Reading of the users files and of the [AUTH] sections of the virtual hosts.
    The contents of files are a parameter. Files have less than 2^31 bytes. *)
From S2P Require Import Prelude CString MkString MkMemory MkUtils MkTypes MkSession MkEpoll MkConfig MkFile AuthBase64 Auth.
Local Open Scope Z_scope.

Definition USER_SIZE : Z := 128.
Definition PASSWD_RAW_SIZE : Z := 256.

Section WithEnv.
Context `{env : Env}.
Variable fopen_read : bytes -> option bytes.

(** [strncpy] of [n] bytes to the start of an array of [size] bytes and a NUL
    at [e]. A negative [n] is a huge size. *)
Definition copy_field (size n e : Z) (p : bytes) : option bytes :=
  if (n <? 0) || (size <? n) then None else
  text ← strncpy p (Z.to_nat n);
  bwrite (text ++ junk_bytes (Z.to_nat (size - n))) e [0].

(** The line from [offset] that ends at [i]; with the offset behind it, the
    user, unless the password does not decode. *)
Definition read_user (buf : bytes) (offset i : Z) : option (option user) :=
  p ← padd buf offset;
  sep ← mk_string_search p (clit ":") MK_STR_INSENSITIVE;
  name ← copy_field USER_SIZE (offset + sep) sep p;
  let offset := offset + (sep + 1 + 5) in
  p ← padd buf offset;
  raw ← copy_field PASSWD_RAW_SIZE (i - offset) (i - offset) p;
  n ← strlen raw;
  r ← base64_decode raw n;
  Some ('(olen, text) ← r;
        Some {| us_user := name; us_passwd_raw := raw;
                us_passwd_decoded := text ++ junk_bytes (Z.to_nat olen - length text) |}).

(** [l] is what follows the first [i] of the [len] bytes of [buf]. *)
Fixpoint users_loop (buf l : bytes) (len i offset : Z) (users : list user) : option (list user) :=
  match l with
  | [] => Some users
  | c :: l =>
    if (c =? 10) || (i =? len - 1) then
      u ← read_user buf offset i;
      users_loop buf l len (i + 1) (i + 1) (match u with Some u => users ++ [u] | None => users end)
    else users_loop buf l len (i + 1) offset users
  end.

Fixpoint find_users_file (l : list users_file) (path : bytes) : option (option users_file) :=
  match l with
  | [] => Some None
  | entry :: l => c ← strcmp (uf_path entry) path; if c =? 0 then Some (Some entry) else find_users_file l path
  end.

(** The list of users files with the entry of the path, if it can be read. *)
Definition mk_auth_conf_add_users (l : list users_file) (users_path : option bytes)
  : M (list users_file * option users_file) :=
  match users_path with
  | None => match l with [] => mret (l, None) | _ => lift None end
  | Some path =>
    found ← lift (find_users_file l path);
    match found with
    | Some entry => mret (l, Some entry)
    | None =>
      '(r, finfo) ← mk_file_get_info path file_info_init;
      if negb (r =? 0) || (fi_is_directory finfo =? MK_TRUE) || (fi_read_access finfo =? MK_FALSE) then mret (l, None) else
      buf ← mk_file_to_buffer fopen_read path;
      match buf with
      | None => mret (l, None)
      | Some buf =>
        text ← lift (cstr buf);
        users ← lift (users_loop buf text (Z.of_nat (length text)) 0 0 []);
        let entry := {| uf_last_updated := fi_last_modification finfo; uf_path := path; uf_users := users |} in
        mret (l ++ [entry], Some entry)
      end
    end
  end.

Definition auth_location (loc title : bytes) (uf : users_file) : option location :=
  p ← mk_pointer_set loc;
  t ← mk_pointer_set title;
  s ← cstr title;
  '(h, n) ← mk_string_build (lit "WWW-Authenticate: Basic realm=" ++ 34 :: s ++ [34]);
  Some {| lo_path := p; lo_title := t; lo_auth_http_header := {| data := Some h; len := n |}; lo_users := uf |}.

Fixpoint auth_sections (sections : list mk_config_section) (files : list users_file) : M (list users_file * list location) :=
  match sections with
  | [] => mret (files, [])
  | section :: sections =>
    c ← lift (strcasecmp (cs_name section) (clit "AUTH"));
    if negb (c =? 0) then auth_sections sections files else
    location ← lift (get_str section "Location");
    title ← lift (get_str section "Title");
    users_path ← lift (get_str section "Users");
    '(files, uf) ← mk_auth_conf_add_users files users_path;
    match uf with
    | None => auth_sections sections files
    | Some uf =>
      location ← lift location;
      title ← lift title;
      loc ← lift (auth_location location title uf);
      '(files, locs) ← auth_sections sections files;
      mret (files, loc :: locs)
    end
  end.

(** [hosts]: the configurations of the virtual hosts, in order, [i] the index
    of the first one. *)
Fixpoint mk_auth_conf_init_users_list (i : nat) (hosts : list mk_config) (files : list users_file) : M (list users_file * list vhost) :=
  match hosts with
  | [] => mret (files, [])
  | conf :: hosts =>
    '(files, locs) ← auth_sections conf files;
    '(files, vhosts) ← mk_auth_conf_init_users_list (S i) hosts files;
    mret (files, {| vh_host := i; vh_locations := locs |} :: vhosts)
  end.
End WithEnv.

(** ** A file of lines "name:{SHA}hash" *)

(** A user of the text: the name and the encoded hash. *)
Definition line_of (e : bytes * bytes) : bytes := e.1 ++ lit ":{SHA}" ++ e.2 ++ [10].
Definition file_of (es : list (bytes * bytes)) : bytes := concat (map line_of es).

Record entry_text (e : bytes * bytes) : Prop := {
  et_name : 0 ∉ e.1 /\ 58 ∉ e.1 /\ 10 ∉ e.1;
  et_hash : 0 ∉ e.2 /\ 10 ∉ e.2;
  et_short : Z.of_nat (length e.1) < 128 /\ Z.of_nat (length e.2) < 256;
}.

(** The name of every user has to end within the first 128 bytes of the text:
    its copy is given the offset of the line as a part of its size. *)
Fixpoint within (off : Z) (es : list (bytes * bytes)) : Prop :=
  match es with
  | [] => True
  | e :: es => off + Z.of_nat (length e.1) <= 128 /\ within (off + Z.of_nat (length (line_of e))) es
  end.

(** What is loaded of an entry, if its hash can be decoded. *)
Definition decoded (e : bytes * bytes) : option (bytes * bytes) :=
  r ← base64_decode e.2 (Z.of_nat (length e.2)); '(_, hash) ← r; Some (e.1, hash).

Definition user_is (u : user) (e : bytes * bytes) : Prop :=
  is_cstr (us_user u) e.1 /\ length (us_user u) = 128%nat /\ take (length e.2) (us_passwd_decoded u) = e.2.

Section Load.
Context `{env : Env}.

Lemma strstr_colon name rest : 0 ∉ name -> 58 ∉ name ->
  strstr_by eq_ci (name ++ 58 :: rest) (clit ":") = Some (Some (Z.of_nat (length name))).
Proof.
  change (clit ":") with [58; 0]. induction name as [|c name IH]; intros H0 H58; [reflexivity|].
  apply not_elem_of_cons in H0 as [Hc0 H0]. apply not_elem_of_cons in H58 as [Hc58 H58].
  cbn [app strstr_by starts_by]. change (58 =? 0) with false. cbn match. rewrite (eq_ci_colon c Hc58). mstep.
  replace (c =? 0) with false by zb. rewrite IH by done. mstep. unfold osucc. cbn [length fmap option_fmap option_map]. do 2 f_equal. lia.
Qed.

Lemma strncpy_text s n r : 0 ∉ s -> strncpy (s ++ 0 :: r) n = Some (take n (s ++ replicate n 0)).
Proof.
  revert s. induction n as [|n IH]; intros s H0; [now rewrite take_0|]. destruct s as [|c s].
  - cbn [app strncpy]. change (0 =? 0) with true. cbn match. now rewrite take_ge by (rewrite length_replicate; lia).
  - apply not_elem_of_cons in H0 as [Hc H0]. cbn [app strncpy take]. replace (c =? 0) with false by zb.
    rewrite IH by done. mstep. do 2 f_equal. destruct (decide (n <= length s)%nat).
    + now rewrite !take_app_le by lia.
    + rewrite !take_app_ge, !take_replicate by lia. do 2 f_equal. lia.
Qed.

(** A copy of at least the [e] bytes wanted. *)
Lemma copy_field_text size n e s r :
  0 ∉ s -> 0 <= e <= Z.of_nat (length s) -> e <= n <= size -> e < size ->
  exists b, copy_field size n e (s ++ 0 :: r) = Some b /\ is_cstr b (take (Z.to_nat e) s) /\ Z.of_nat (length b) = size.
Proof.
  intros H0 He Hn Hs. unfold copy_field. replace ((n <? 0) || (size <? n)) with false by zb.
  rewrite strncpy_text by done. mstep. unfold bwrite.
  set (b := take (Z.to_nat n) _ ++ junk_bytes (Z.to_nat (size - n))).
  assert (Hb : Z.of_nat (length b) = size).
  { unfold b, junk_bytes. rewrite length_app, length_map, length_seq, length_take, length_app, length_replicate. lia. }
  rewrite Hb. replace (_ && _) with true by (cbn; zb). eexists. split; [reflexivity|].
  assert (Hte : take (Z.to_nat e) b = take (Z.to_nat e) s).
  { unfold b. rewrite take_app_le by (rewrite length_take, length_app, length_replicate; lia).
    rewrite take_take, take_app_le by lia. f_equal. lia. }
  split.
  - split; [rewrite Hte; eexists; reflexivity|].
    intros Hin. apply elem_of_take in Hin as (i & Hin & _). now apply list_elem_of_lookup_2 in Hin.
  - rewrite !length_app, length_take, length_drop. cbn [length]. lia.
Qed.

(** What a line is taken for. *)
Definition loaded (e : bytes * bytes) (u : option user) : Prop :=
  match decoded e, u with
  | Some d, Some u => user_is u d
  | None, None => True
  | _, _ => False
  end.

Lemma read_user_line pre e rest :
  entry_text e -> 0 ∉ rest -> Z.of_nat (length pre) + Z.of_nat (length e.1) <= 128 ->
  exists u, read_user (pre ++ line_of e ++ rest ++ [0]) (Z.of_nat (length pre))
      (Z.of_nat (length pre) + Z.of_nat (length (line_of e)) - 1) = Some u /\ loaded e u.
Proof.
  intros [(Hn0 & Hn58 & Hn10) (Hh0 & Hh10) (Hn & Hh)] Hrest Hin. destruct e as [name hash]; cbn [fst snd] in *.
  set (tail := hash ++ 10 :: rest).
  assert (Hline : line_of (name, hash) ++ rest ++ [0] = (name ++ lit ":{SHA}" ++ tail) ++ [0]).
  { unfold tail, line_of. cbn [fst snd]. rewrite <- !app_assoc. reflexivity. }
  assert (Ht0 : 0 ∉ tail) by (unfold tail; rewrite not_elem_of_app, not_elem_of_cons; done).
  assert (H0 : 0 ∉ name ++ lit ":{SHA}" ++ tail) by (rewrite !not_elem_of_app; split_and!; [done|decide_closed|done]).
  unfold read_user. rewrite Hline, padd_app, drop_all by lia. mstep. cbn [app].
  change (mk_string_search ?p ?q MK_STR_INSENSITIVE) with (r ← strstr_by eq_ci p q; Some (pos_or_minus1 r)).
  rewrite <- (app_assoc name). change (lit ":{SHA}" ++ tail) with (58 :: lit "{SHA}" ++ tail) in *. rewrite <- app_comm_cons.
  rewrite strstr_colon by done. mstep. cbn [pos_or_minus1]. rewrite app_comm_cons, (app_assoc name).
  destruct (copy_field_text USER_SIZE (Z.of_nat (length pre) + Z.of_nat (length name)) (Z.of_nat (length name)) _ [] H0)
    as (b & -> & Hb & Hbl); [rewrite length_app; lia|unfold USER_SIZE; lia|unfold USER_SIZE; lia|]. mstep.
  rewrite Nat2Z.id, take_app_length in Hb.
  set (pre2 := pre ++ name ++ lit ":{SHA}").
  assert (Hpre2 : Z.of_nat (length pre2) = Z.of_nat (length pre) + (Z.of_nat (length name) + 1 + 5)).
  { unfold pre2. rewrite !length_app. cbn. lia. }
  replace (pre ++ (name ++ 58 :: lit "{SHA}" ++ tail) ++ [0]) with (pre2 ++ tail ++ [0])
    by (unfold pre2; rewrite <- !app_assoc; reflexivity).
  rewrite <- Hpre2, padd_app, drop_all by lia. mstep. cbn [app].
  replace (_ - 1 - _) with (Z.of_nat (length hash)) by (unfold line_of; cbn [fst snd]; rewrite !length_app; cbn; lia).
  destruct (copy_field_text PASSWD_RAW_SIZE (Z.of_nat (length hash)) (Z.of_nat (length hash)) tail [] Ht0)
    as (raw & -> & Hraw & Hrl); [unfold tail; rewrite length_app; lia|unfold PASSWD_RAW_SIZE; lia..|]. mstep.
  rewrite Nat2Z.id in Hraw. unfold tail in Hraw. rewrite take_app_length in Hraw. rewrite (strlen_cstr _ _ Hraw). mstep.
  destruct Hraw as [[junk ->] _]. rewrite base64_decode_readable.
  destruct (base64_decode_total hash (Z.of_nat (length hash))) as [r Hr]; [lia|]. rewrite Hr. mstep.
  eexists. split; [reflexivity|]. unfold loaded, decoded. cbn [fst snd]. rewrite Hr. mstep. destruct r as [[olen text]|]; [|done].
  split; [exact Hb|split; cbn [us_user us_passwd_decoded fst snd]; [unfold USER_SIZE in Hbl; lia|now rewrite take_app_length]].
Qed.

Lemma users_loop_skip buf s l len i off users :
  10 ∉ s -> i + Z.of_nat (length s) < len ->
  users_loop buf (s ++ l) len i off users = users_loop buf l len (i + Z.of_nat (length s)) off users.
Proof.
  revert i. induction s as [|c s IH]; intros i H10 Hl; [now rewrite Z.add_0_r|].
  apply not_elem_of_cons in H10 as [Hc H10]. cbn [length] in *. cbn [app users_loop].
  replace ((c =? 10) || _) with false by (symmetry; apply orb_false_iff; split; zb). rewrite IH by (done || lia). f_equal. lia.
Qed.

(** The users that are loaded, in order. *)
Inductive loads : list (bytes * bytes) -> list user -> Prop :=
  | loads_nil : loads [] []
  | loads_user e d u es us : decoded e = Some d -> user_is u d -> loads es us -> loads (e :: es) (u :: us)
  | loads_skip e es us : decoded e = None -> loads es us -> loads (e :: es) us.

Lemma users_loop_file es : forall pre users,
  Forall entry_text es -> within (Z.of_nat (length pre)) es -> 0 ∉ file_of es ->
  exists us, users_loop (pre ++ file_of es ++ [0]) (file_of es) (Z.of_nat (length (pre ++ file_of es)))
    (Z.of_nat (length pre)) (Z.of_nat (length pre)) users = Some (users ++ us) /\ loads es us.
Proof.
  induction es as [|e es IH]; intros pre users HF Hin H0; [exists []; split; [cbn; now rewrite app_nil_r|constructor]|].
  apply Forall_cons_1 in HF as [He HF]. destruct Hin as [Hin1 Hin]. change (file_of (e :: es)) with (line_of e ++ file_of es) in *.
  apply not_elem_of_app in H0 as [H0e H0].
  destruct (read_user_line pre e (file_of es) He H0 Hin1) as (u & Hu & Hload).
  set (body := e.1 ++ lit ":{SHA}" ++ e.2).
  assert (Hline : line_of e = body ++ [10]) by (unfold line_of, body; now rewrite <- !app_assoc).
  assert (Hb10 : 10 ∉ body).
  { destruct He as [(_ & _ & H1) (_ & H2) _]. unfold body. rewrite !not_elem_of_app. split_and!; [done|decide_closed|done]. }
  rewrite Hline in *. rewrite <- (app_assoc body) in *. rewrite users_loop_skip by (try done; rewrite !length_app; cbn; lia).
  cbn [app users_loop]. change (10 =? 10) with true. cbn [orb].
  replace (Z.of_nat (length pre) + Z.of_nat (length (body ++ [10])) - 1) with (Z.of_nat (length pre) + Z.of_nat (length body))
    in Hu by (rewrite length_app; cbn; lia).
  rewrite <- app_assoc. cbn [app] in Hu |- *. rewrite Hu. mstep.
  destruct (IH (pre ++ body ++ [10]) (match u with Some u => users ++ [u] | None => users end) HF) as (us & Hrun & Hus);
    [rewrite !length_app in *; rewrite Nat2Z.inj_add; exact Hin|done|].
  replace (Z.of_nat (length (pre ++ body ++ [10]))) with (Z.of_nat (length pre) + Z.of_nat (length body) + 1) in Hrun
    by (rewrite !length_app; cbn; lia).
  rewrite <- !app_assoc in Hrun. cbn [app] in Hrun. rewrite Hrun. unfold loaded in Hload.
  destruct (decoded e) as [d|] eqn:Ed, u as [u|]; try done.
  - exists (u :: us). rewrite <- app_assoc. split; [done|]. now apply loads_user with d.
  - exists us. split; [done|]. now apply loads_skip.
Qed.
Lemma find_users_file_app l path entry :
  find_users_file l path = Some None -> find_users_file (l ++ [entry]) path = find_users_file [entry] path.
Proof.
  induction l as [|e l IH]; [done|]. cbn [find_users_file app]. destruct (strcmp (uf_path e) path); mstep; [|done].
  case_if; [done|exact IH].
Qed.

(** Loading a users file of lines "name:{SHA}hash", in which every name
    ends within the first 128 bytes of the file, gives the users whose hash
    decodes, in order, each with its whole name and its decoded hash, and adds
    them to the list under the path of the file; a second location with the same
    file is given the same users without reading it again. *)
Theorem mk_auth_conf_add_users_spec fopen_read l path p es finfo w :
  is_cstr path p -> find_users_file l path = Some None -> mk_file_get_info path file_info_init w = Some ((0, finfo), w) ->
  fi_is_directory finfo <> MK_TRUE -> fi_read_access finfo <> MK_FALSE ->
  fi_size finfo = Z.of_nat (length (file_of es)) -> fopen_read path = Some (file_of es) ->
  es <> [] -> Forall entry_text es -> within 0 es ->
  exists us, loads es us /\
    let entry := {| uf_last_updated := fi_last_modification finfo; uf_path := path; uf_users := us |} in
    mk_auth_conf_add_users fopen_read l (Some path) w = Some ((l ++ [entry], Some entry), w) /\
    mk_auth_conf_add_users fopen_read (l ++ [entry]) (Some path) w = Some ((l ++ [entry], Some entry), w).
Proof.
  intros Hp Hfind Hinfo Hdir Hread Hsize Hopen Hne HF Hin.
  assert (H0 : 0 ∉ file_of es).
  { clear -HF. induction HF as [|e es [(H1 & _) (H2 & _) _] HF IH]; [apply not_elem_of_nil|].
    change (file_of (e :: es)) with (line_of e ++ file_of es). unfold line_of. rewrite !not_elem_of_app.
    split_and!; [done|decide_closed|done|decide_closed|done]. }
  assert (Hlen : 0 < Z.of_nat (length (file_of es))).
  { destruct es as [|e es]; [done|]. change (file_of (e :: es)) with (line_of e ++ file_of es). unfold line_of.
    rewrite !length_app. cbn [length]. lia. }
  destruct (users_loop_file es [] [] HF Hin H0) as (us & Hrun & Hus). exists us. split; [done|]. intros entry. split.
  - unfold mk_auth_conf_add_users. rewrite (lift_run _ _ _ _ Hfind), (bind_run _ _ _ _ _ Hinfo).
    replace (negb (0 =? 0) || _ || _) with false by (symmetry; rewrite !orb_false_iff; split; [split|]; zb).
    assert (Hbuf : mk_file_to_buffer fopen_read path w = Some (Some (file_of es ++ [0]), w)).
    { unfold mk_file_to_buffer. rewrite (bind_run _ _ _ _ _ Hinfo). cbn [Z.eqb negb]. rewrite Hopen, Hsize.
      replace (_ || _) with false by (symmetry; rewrite orb_false_iff; split; zb). now rewrite Nat2Z.id, take_ge. }
    rewrite (bind_run _ _ _ _ _ Hbuf), (lift_run _ _ _ (file_of es)) by (apply cstr_cstr; split; [now eexists|done]).
    cbn [app length] in Hrun. change (Z.of_nat 0) with 0 in Hrun. rewrite (lift_run _ _ _ _ Hrun). reflexivity.
  - unfold mk_auth_conf_add_users. rewrite (lift_run _ _ _ (Some entry)); [done|].
    rewrite find_users_file_app by done. cbn [find_users_file]. change (uf_path entry) with path.
    destruct (strcmp_cstr path p path p Hp Hp) as (c & -> & Hc). mstep. now replace c with 0 by (symmetry; now apply Hc).
Qed.
End Load.

(** ** Example: two users, the second one with a hash that is not Base64 *)

Definition example_lines : list (bytes * bytes) :=
  [(lit "ann", lit "W6ph5Mm5Pz8GgiULbPgzG37mj9g="); (lit "bob", lit "W6p")].
Definition users_env : Env :=
  {| config := example_config; EUID := 1000; EGID := 1000;
     sys_lstat := fun _ _ => inr {| st_mode := 33188; st_uid := 1000; st_gid := 1000; st_size := Z.of_nat (length (file_of example_lines)); st_mtime := 1000 |}; sys_stat := fun _ _ => None;
     sys_open := fun _ _ _ => 7; sys_access := fun _ _ => -1; sys_readlink := fun _ _ => -1;
     sys_getpwnam := fun _ => None; sys_strptime := fun _ => None; sys_mktime := fun _ => 0;
     sys_epoll_ctl := fun _ _ _ _ _ => (0, false); net_read := fun _ _ _ => inr (0, false);
     net_write := fun _ _ d => Z.of_nat (length d); net_writev := fun _ _ d => Z.of_nat (length d);
     net_send_file := fun _ _ _ _ n => n; sys_getfd := fun _ _ => 0; sys_realloc := fun _ _ => true; sys_junk := fun _ => 0;
     mimecommon := []; mimearr := []; mimetype_default := example_mime "default" "text/plain"; plugins := [] |}.
Definition example_info : file_info := match @mk_file_get_info users_env (clit "users") file_info_init example_world with
                                       | Some ((_, f), _) => f | None => file_info_init end.

Lemma mk_auth_conf_add_users_witness :
  exists us, loads example_lines us /\
    let entry := {| uf_last_updated := fi_last_modification example_info; uf_path := clit "users"; uf_users := us |} in
    @mk_auth_conf_add_users users_env (fun _ => Some (file_of example_lines)) [] (Some (clit "users")) example_world =
      Some (([] ++ [entry], Some entry), example_world) /\
    @mk_auth_conf_add_users users_env (fun _ => Some (file_of example_lines)) ([] ++ [entry]) (Some (clit "users")) example_world =
      Some (([] ++ [entry], Some entry), example_world).
Proof.
  apply (@mk_auth_conf_add_users_spec users_env (fun _ => Some (file_of example_lines)) [] (clit "users") (lit "users")
    example_lines example_info example_world).
  - apply is_cstr_clit. decide_closed.
  - reflexivity.
  - reflexivity.
  - vm_compute. discriminate.
  - vm_compute. discriminate.
  - reflexivity.
  - reflexivity.
  - discriminate.
  - repeat constructor; decide_closed.
  - cbn. lia.
Defined.
