(* ===== verification/Mandril.v ===== *)
(** * plugins/mandril: the security plugin

    Rules that deny addresses, subnets and URLs; their reading from
    mandril.conf and the handlers of the stages 10 and 20. [inet_aton],
    [getpeername] and the contents of files are parameters. An [in_addr_t] is the
    number a little-endian machine reads in its four octets. *)
From S2P Require Import Prelude CString MkString MkMemory MkUtils MkTypes MkToc MkSession MkEpoll MkPlugin MkConfig MkResponse.
Local Open Scope Z_scope.

(** ** Subnets (mk_macros.h) *)

Definition octet (addr pos : Z) : Z := Z.land (Z.shiftr addr (8 * pos)) 255.
Definition htonl (z : Z) : Z :=
  Z.lor (Z.lor (Z.shiftl (octet z 0) 24) (Z.shiftl (octet z 1) 16)) (Z.lor (Z.shiftl (octet z 2) 8) (octet z 3)).

Definition MK_NET_NETMASK (net : Z) : Z := htonl (u32 (Z.shiftl 4294967295 (32 - net))).
Definition MK_NET_BROADCAST (addr net : Z) : Z := Z.lor addr (u32 (Z.lnot (MK_NET_NETMASK net))).
Definition MK_NET_NETWORK (addr net : Z) : Z := Z.land addr (MK_NET_NETMASK net).
Definition MK_NET_HOSTMIN (addr net : Z) : Z :=
  if net =? 31 then MK_NET_NETWORK addr net else u32 (MK_NET_NETWORK addr net + 16777216).
Definition MK_NET_HOSTMAX (addr net : Z) : Z :=
  if net =? 31 then MK_NET_BROADCAST addr net else u32 (MK_NET_BROADCAST addr net - 16777216).

(** ** Rules *)

(** [si_ip] is [ip.s_addr]. *)
Record mk_secure_ip_t := {
  si_ip : Z; si_is_subnet : Z; si_network : Z; si_netmask : Z; si_hostmin : Z; si_hostmax : Z
}.
Record mk_secure_url_t := { criteria : bytes }.
(** The two global lists. *)
Record mandril := { mk_secure_ip : list mk_secure_ip_t; mk_secure_url : list mk_secure_url_t }.

(** The entry of a subnet. *)
Definition subnet_entry (addr net : Z) : mk_secure_ip_t :=
  {| si_ip := addr; si_is_subnet := MK_TRUE; si_network := i32 (MK_NET_NETWORK addr net); si_netmask := net;
     si_hostmin := MK_NET_HOSTMIN addr net; si_hostmax := MK_NET_HOSTMAX addr net |}.

Section WithEnv.
Context `{env : Env}.
(** The address of a text, if it has one. *)
Variable inet_aton : bytes -> option Z.
Variable fopen_read : bytes -> option bytes.
(** The bytes of the [struct sockaddr] of the peer. *)
Variable getpeername : world -> Z -> option bytes.

(** The entry of a host; the other fields are not set. *)
Definition host_entry (addr : Z) : mk_secure_ip_t :=
  {| si_ip := addr; si_is_subnet := MK_FALSE; si_network := i32 (sys_junk 0); si_netmask := i32 (sys_junk 1);
     si_hostmin := u32 (sys_junk 2); si_hostmax := u32 (sys_junk 3) |}.

(** A value of Deny_IP. *)
Definition deny_ip (val : bytes) (l : list mk_secure_ip_t) : option (list mk_secure_ip_t) :=
  n ← mk_string_search val (clit "/") MK_STR_INSENSITIVE;
  if 0 <? n then
    _net ← mk_string_copy_substr val 0 n;
    size ← strlen val;
    _mask ← mk_string_copy_substr val (n + 1) size;
    match _net, _mask with
    | Some _net, Some _mask =>
      s ← cstr _net;
      match inet_aton s with
      | None => Some l
      | Some addr =>
        '(mask, _) ← strtol _mask;
        let netmask := i32 mask in
        if (netmask <=? 0) || (32 <=? netmask) then Some l else Some (l ++ [subnet_entry addr netmask])
      end
    | _, _ => Some l
    end
  else
    s ← cstr val;
    match inet_aton s with None => Some l | Some addr => Some (l ++ [host_entry addr]) end.

Fixpoint rules_loop (entries : list mk_config_entry) (m : mandril) : option mandril :=
  match entries with
  | [] => Some m
  | entry :: entries =>
    c ← strcasecmp (ce_key entry) (clit "Deny_IP");
    if c =? 0 then
      l ← deny_ip (ce_val entry) (mk_secure_ip m);
      rules_loop entries {| mk_secure_ip := l; mk_secure_url := mk_secure_url m |}
    else
      c ← strcasecmp (ce_key entry) (clit "Deny_URL");
      if c =? 0 then
        rules_loop entries {| mk_secure_ip := mk_secure_ip m;
                              mk_secure_url := mk_secure_url m ++ [ {| criteria := ce_val entry |} ] |}
      else rules_loop entries m
  end.

(** Neither a file that cannot be read nor one without the section is looked
    for: both are NULL pointers. A [CfgExit] ends the server. *)
Definition mk_security_conf (confdir : bytes) (m : mandril) : option (cfg_result mandril) :=
  s ← cstr confdir;
  '(conf_path, _) ← mk_string_build (s ++ lit "/mandril.conf");
  conf ← mk_config_create (fopen_read conf_path);
  conf ← conf;
  match conf with
  | CfgExit n e => Some (CfgExit n e)
  | CfgOk conf =>
    section ← mk_config_section_get conf (clit "RULES");
    section ← section;
    m ← rules_loop (cs_entries section) m;
    Some (CfgOk m)
  end.

Definition _mkp_init (confdir : bytes) : option (cfg_result mandril) :=
  mk_security_conf confdir {| mk_secure_ip := []; mk_secure_url := [] |}.

(** ** Checks *)

(** The loop over the rules; [addr] is [addr->s_addr]. *)
Fixpoint check_ip_loop (l : list mk_secure_ip_t) (addr : Z) : Z :=
  match l with
  | [] => 0
  | entry :: l =>
    if si_is_subnet entry =? MK_TRUE then
      let network := i32 (MK_NET_NETWORK addr (si_netmask entry)) in
      if negb (network =? si_network entry) then check_ip_loop l addr
      else if (addr <=? si_hostmax entry) && (si_hostmin entry <=? addr) then -1
      else check_ip_loop l addr
    else if addr =? si_ip entry then -1
    else check_ip_loop l addr
  end.

(** A number as a little-endian machine reads it. *)
Definition le_value (l : bytes) : Z := foldr (fun b acc => b + 256 * acc) 0 l.
Definition addr_t_junk : bytes := map sys_junk (seq 0 4).

(** The 4 bytes of [addr_t] are written from the [sizeof(addr)] = 8 first ones
    of the address of the peer, then read as [s_addr]. *)
Definition mk_security_check_ip (m : mandril) (socket : Z) : M Z :=
  peer ← gets (fun w => getpeername w socket);
  match peer with
  | None => mret (-1)
  | Some sa =>
    addr_t ← lift (bwrite addr_t_junk 0 (take 8 sa));
    mret (check_ip_loop (mk_secure_ip m) (le_value addr_t))
  end.

Fixpoint check_url_loop (l : list mk_secure_url_t) (url : bytes) (len : Z) : option Z :=
  match l with
  | [] => Some 0
  | entry :: l =>
    n ← mk_string_search_n url (criteria entry) MK_STR_INSENSITIVE len;
    if 0 <=? n then Some (-1) else check_url_loop l url len
  end.

Definition mk_security_check_url (m : mandril) (url : mk_pointer) : option Z :=
  match mk_secure_url m with [] => Some 0 | l => p ← data url; check_url_loop l p (len url) end.

Definition _mkp_stage_10 (m : mandril) (socket : Z) (conx : nat) : M Z :=
  r ← mk_security_check_ip m socket;
  mret (if negb (r =? 0) then MK_PLUGIN_RET_CLOSE_CONX else MK_PLUGIN_RET_CONTINUE).

Definition _mkp_stage_20 (m : mandril) (cs sr : nat) : M Z :=
  r ← get_sr cs sr;
  ret ← lift (mk_security_check_url m (sr_uri r));
  if ret <? 0 then
    mk_header_set_http_status cs sr MK_CLIENT_FORBIDDEN;;
    mret MK_PLUGIN_RET_CLOSE_CONX
  else mret MK_PLUGIN_RET_CONTINUE.
End WithEnv.

(** ** Which addresses a subnet denies *)

(** Where the bit [i] of an address, counted from the first bit of its first
    octet, is in its [in_addr_t]. *)
Definition bit_pos (i : Z) : Z := 8 * (i / 8) + (7 - i mod 8).
Definition addr_bit (addr i : Z) : bool := Z.testbit addr (bit_pos i).
Definition in_subnet (addr net x : Z) : Prop := forall i, 0 <= i < net -> addr_bit x i = addr_bit addr i.

Lemma bit_pos_range i : 0 <= i < 32 -> 0 <= bit_pos i < 32.
Proof. unfold bit_pos. intros H. Z.div_mod_to_equations. lia. Qed.
Lemma bit_pos_inv i : 0 <= i -> bit_pos (bit_pos i) = i.
Proof. unfold bit_pos. intros H. Z.div_mod_to_equations. lia. Qed.

(** A property of the masks, by looking at all of them. *)
Lemma all_masks (f : Z -> bool) : forallb f (seqZ 1 31) = true -> forall net, 0 < net < 32 -> f net = true.
Proof. intros H net Hn. rewrite forallb_forall in H. apply H, list_elem_of_In, elem_of_seqZ. lia. Qed.

Lemma netmask_bit net j : 0 < net < 32 -> 0 <= j < 32 -> Z.testbit (MK_NET_NETMASK net) j = (bit_pos j <? net).
Proof.
  intros Hn Hj.
  pose proof (all_masks (fun n => forallb (fun j => eqb (Z.testbit (MK_NET_NETMASK n) j) (bit_pos j <? n)) (seqZ 0 32))
    ltac:(vm_compute; reflexivity) net Hn) as H. cbn beta in H.
  rewrite forallb_forall in H. apply eqb_prop, H, list_elem_of_In, elem_of_seqZ. lia.
Qed.

Lemma netmask_range net : 0 < net < 32 -> 0 <= MK_NET_NETMASK net < 2 ^ 32.
Proof.
  intros Hn. pose proof (all_masks (fun n => (0 <=? MK_NET_NETMASK n) && (MK_NET_NETMASK n <? 2 ^ 32))
    ltac:(vm_compute; reflexivity) net Hn) as H. cbn beta in H. zbool. lia.
Qed.

Lemma netmask_high_bit net j : 0 < net < 32 -> 32 <= j -> Z.testbit (MK_NET_NETMASK net) j = false.
Proof.
  intros Hn Hj. pose proof (netmask_range net Hn) as Hr.
  rewrite <- (Z.mod_small (MK_NET_NETMASK net) (2 ^ 32)) by lia. apply Z.mod_pow2_bits_high. lia.
Qed.

Lemma network_eq addr net x :
  0 < net < 32 -> MK_NET_NETWORK x net = MK_NET_NETWORK addr net <-> in_subnet addr net x.
Proof.
  intros Hn. unfold MK_NET_NETWORK. split.
  - intros H i Hi. apply (f_equal (fun z => Z.testbit z (bit_pos i))) in H. rewrite !Z.land_spec in H.
    pose proof (bit_pos_range i ltac:(lia)) as Hp.
    rewrite (netmask_bit net (bit_pos i) Hn Hp), bit_pos_inv in H by lia.
    replace (i <? net) with true in H by zb. now rewrite !andb_true_r in H.
  - intros H. apply Z.bits_inj'. intros j Hj. rewrite !Z.land_spec. destruct (decide (j < 32)) as [Hlt|Hge].
    + rewrite (netmask_bit net j) by lia. destruct (bit_pos j <? net) eqn:E; [|now rewrite !andb_false_r].
      zbool. specialize (H (bit_pos j) ltac:(pose proof (bit_pos_range j); lia)). unfold addr_bit in H.
      rewrite bit_pos_inv in H by lia. now rewrite H.
    + rewrite netmask_high_bit by lia. now rewrite !andb_false_r.
Qed.

(** What masking does to the last octet and to the three before it. *)
Lemma land_le_l x m : 0 <= x -> Z.land x m <= x.
Proof.
  intros Hx. apply Z.ldiff_le; [done|]. apply Z.bits_inj'. intros j _.
  rewrite Z.ldiff_spec, Z.land_spec, Z.bits_0. now destruct (Z.testbit x j), (Z.testbit m j).
Qed.
Lemma lor_ge_l x m : 0 <= x -> 0 <= m -> x <= Z.lor x m.
Proof.
  intros Hx Hm. apply Z.ldiff_le; [apply Z.lor_nonneg; lia|]. apply Z.bits_inj'. intros j _.
  rewrite Z.ldiff_spec, Z.lor_spec, Z.bits_0. now destruct (Z.testbit x j), (Z.testbit m j).
Qed.

Lemma lor_lt x m n : 0 <= n -> 0 <= x < 2 ^ n -> 0 <= m < 2 ^ n -> Z.lor x m < 2 ^ n.
Proof.
  intros Hn Hx Hm. replace (Z.lor x m) with (Z.lor x m mod 2 ^ n); [apply Z.mod_pos_bound; lia|].
  rewrite <- Z.land_ones, Z.land_lor_distr_l, !Z.land_ones by done. now rewrite !Z.mod_small.
Qed.

Lemma land_parts x m : 0 <= x -> 0 <= m ->
  Z.land x m / 2 ^ 24 = Z.land (x / 2 ^ 24) (m / 2 ^ 24) /\ Z.land x m mod 2 ^ 24 <= x mod 2 ^ 24.
Proof.
  intros Hx Hm. rewrite <- !Z.shiftr_div_pow2, <- !Z.land_ones by lia. split; [apply Z.shiftr_land|].
  rewrite <- Z.land_assoc, (Z.land_comm m), Z.land_assoc. apply land_le_l, Z.land_nonneg. lia.
Qed.
Lemma lor_parts x m : 0 <= x -> 0 <= m ->
  Z.lor x m / 2 ^ 24 = Z.lor (x / 2 ^ 24) (m / 2 ^ 24) /\ x mod 2 ^ 24 <= Z.lor x m mod 2 ^ 24.
Proof.
  intros Hx Hm. rewrite <- !Z.shiftr_div_pow2, <- !Z.land_ones by lia. split; [apply Z.shiftr_lor|].
  rewrite Z.land_lor_distr_l. apply lor_ge_l; apply Z.land_nonneg; lia.
Qed.

(** The last octet of an address. *)
Definition last_octet (addr : Z) : Z := addr / 2 ^ 24.

Lemma hostmask_range net :
  0 < net < 31 -> last_octet (MK_NET_NETMASK net) <= 254 /\ 0 <= u32 (Z.lnot (MK_NET_NETMASK net)) < 2 ^ 32 /\
                  1 <= last_octet (u32 (Z.lnot (MK_NET_NETMASK net))).
Proof.
  intros Hn. pose proof (all_masks (fun n => (n =? 31) || ((last_octet (MK_NET_NETMASK n) <=? 254)
    && (1 <=? last_octet (u32 (Z.lnot (MK_NET_NETMASK n)))))) ltac:(vm_compute; reflexivity) net ltac:(lia)) as H.
  cbn beta in H. pose proof (Z.mod_pos_bound (Z.lnot (MK_NET_NETMASK net)) (2 ^ 32)). zbool. unfold u32 in *. lia.
Qed.

(** The comparison with the first and the last host is one of the last octets. *)
Lemma host_range net x :
  0 < net < 31 -> 0 <= x < 2 ^ 32 ->
  (x <= MK_NET_HOSTMAX x net /\ MK_NET_HOSTMIN x net <= x) <->
  (last_octet x <> last_octet (MK_NET_NETWORK x net) /\ last_octet x <> last_octet (MK_NET_BROADCAST x net)).
Proof.
  intros Hn Hx. unfold MK_NET_HOSTMAX, MK_NET_HOSTMIN. replace (net =? 31) with false by zb.
  destruct (hostmask_range net Hn) as (Hm & Hw & Hb). pose proof (netmask_range net ltac:(lia)) as Hr.
  unfold MK_NET_NETWORK, MK_NET_BROADCAST, last_octet in *.
  set (m := MK_NET_NETMASK net) in *. set (b := u32 (Z.lnot m)) in *.
  destruct (land_parts x m ltac:(lia) ltac:(lia)) as [Hn1 Hn2].
  destruct (lor_parts x b ltac:(lia) ltac:(lia)) as [Hb1 Hb2].
  assert (N1 : Z.land x m / 2 ^ 24 <= m / 2 ^ 24) by (rewrite Hn1, Z.land_comm; apply land_le_l, Z.div_pos; lia).
  assert (B1 : b / 2 ^ 24 <= Z.lor x b / 2 ^ 24) by (rewrite Hb1, Z.lor_comm; apply lor_ge_l; apply Z.div_pos; lia).
  pose proof (land_le_l x m ltac:(lia)) as N2. pose proof (lor_ge_l x b ltac:(lia) ltac:(lia)) as B2.
  assert (N0 : 0 <= Z.land x m) by (apply Z.land_nonneg; lia).
  assert (B3 : Z.lor x b < 2 ^ 32).
  { apply lor_lt; lia. }
  clear Hn1 Hb1. set (N := Z.land x m) in *. set (B := Z.lor x b) in *. clearbody N B m b.
  change (2 ^ 24) with 16777216 in *. change (2 ^ 32) with 4294967296 in *.
  unfold u32. change (2 ^ 32) with 4294967296.
  rewrite (Z.mod_small (N + _)), (Z.mod_small (B - _)) by (Z.div_mod_to_equations; lia).
  Z.div_mod_to_equations. lia.
Qed.

(** The same subnet has the same broadcast address. *)
Lemma broadcast_eq addr net x :
  0 < net < 32 -> in_subnet addr net x -> 0 <= addr < 2 ^ 32 -> 0 <= x < 2 ^ 32 ->
  MK_NET_BROADCAST x net = MK_NET_BROADCAST addr net.
Proof.
  intros Hn Hin Ha Hx. apply network_eq in Hin; [|done]. unfold MK_NET_NETWORK, MK_NET_BROADCAST in *.
  apply Z.bits_inj'. intros j Hj. apply (f_equal (fun z => Z.testbit z j)) in Hin.
  rewrite !Z.land_spec in Hin. rewrite !Z.lor_spec. unfold u32. destruct (decide (j < 32)) as [Hlt|Hge].
  - rewrite Z.mod_pow2_bits_low, Z.lnot_spec by done.
    destruct (Z.testbit x j), (Z.testbit addr j), (Z.testbit (MK_NET_NETMASK net) j); done.
  - rewrite <- (Z.mod_small x (2 ^ 32)), <- (Z.mod_small addr (2 ^ 32)) by done.
    rewrite !(Z.mod_pow2_bits_high _ 32 j) by lia. done.
Qed.

(** Refused by a subnet rule: an address of the subnet, unless its last octet
    is the one of the network or of the broadcast address. *)
Definition subnet_denies (addr net x : Z) : Prop :=
  in_subnet addr net x /\
  (net = 31 \/ last_octet x <> last_octet (MK_NET_NETWORK addr net) /\
               last_octet x <> last_octet (MK_NET_BROADCAST addr net)).

Lemma i32_inj a b : 0 <= a < 2 ^ 32 -> 0 <= b < 2 ^ 32 -> i32 a = i32 b <-> a = b.
Proof.
  intros Ha Hb. split; [|now intros ->]. unfold i32. change (2 ^ 31) with 2147483648. change (2 ^ 32) with 4294967296 in *.
  intros H. Z.div_mod_to_equations. lia.
Qed.

Lemma network_range addr net : 0 <= addr < 2 ^ 32 -> 0 <= MK_NET_NETWORK addr net < 2 ^ 32.
Proof.
  intros Ha. unfold MK_NET_NETWORK. pose proof (land_le_l addr (MK_NET_NETMASK net)).
  pose proof (proj2 (Z.land_nonneg addr (MK_NET_NETMASK net))). lia.
Qed.

Lemma subnet_entry_spec addr net x :
  0 < net < 32 -> 0 <= addr < 2 ^ 32 -> 0 <= x < 2 ^ 32 ->
  let e := subnet_entry addr net in
  (i32 (MK_NET_NETWORK x net) = si_network e /\ x <= si_hostmax e /\ si_hostmin e <= x) <-> subnet_denies addr net x.
Proof.
  intros Hn Ha Hx e. cbn [si_network si_hostmax si_hostmin e subnet_entry].
  rewrite i32_inj, network_eq by (try apply network_range; done). unfold subnet_denies.
  enough (in_subnet addr net x -> x <= MK_NET_HOSTMAX addr net /\ MK_NET_HOSTMIN addr net <= x <->
    (net = 31 \/ last_octet x <> last_octet (MK_NET_NETWORK addr net) /\ last_octet x <> last_octet (MK_NET_BROADCAST addr net)))
    by tauto.
  intros Hin.
  pose proof (broadcast_eq addr net x Hn Hin Ha Hx) as Hb. pose proof (proj2 (network_eq addr net x Hn) Hin) as Hw.
  destruct (decide (net = 31)) as [->|H31].
  - unfold MK_NET_HOSTMAX, MK_NET_HOSTMIN. rewrite Z.eqb_refl, <- Hb, <- Hw. split; [now left|]. intros _.
    split; [apply lor_ge_l; [lia|]; apply Z.mod_pos_bound; done | apply land_le_l; lia].
  - rewrite <- Hb, <- Hw, <- host_range by lia. unfold MK_NET_HOSTMAX, MK_NET_HOSTMIN. rewrite Hb, Hw.
    split; [now right|]. intros [?|?]; done.
Qed.

(** ** The rules of a configuration *)

Inductive rule :=
  | DenyHost (addr : bytes)
  | DenySubnet (addr mask : bytes)
  | DenyUrl (text : bytes).

#[export] Instance mk_secure_url_t_eq_dec : EqDecision mk_secure_url_t.
Proof. solve_decision. Defined.

(** The entry that states the rule. *)
Definition rule_entry (r : rule) : bytes * bytes :=
  match r with
  | DenyHost s => (lit "Deny_IP", s)
  | DenySubnet s m => (lit "Deny_IP", s ++ 47 :: m)
  | DenyUrl s => (lit "Deny_URL", s)
  end.

Definition rule_ok (r : rule) : Prop :=
  match r with
  | DenyHost s => 0 ∉ s /\ 47 ∉ s
  | DenySubnet s m => s <> [] /\ 0 ∉ s /\ 47 ∉ s /\ 0 ∉ m
  | DenyUrl s => 0 ∉ s
  end.

(** Does the rule deny the address? *)
Definition rule_denies (inet_aton : bytes -> option Z) (x : Z) (r : rule) : Prop :=
  match r with
  | DenyHost s => inet_aton s = Some x
  | DenySubnet s m => exists addr net, inet_aton s = Some addr /\ atoi (m ++ [0]) = Some net /\
                      0 < net < 32 /\ subnet_denies addr net x
  | DenyUrl _ => False
  end.

Definition rule_urls (r : rule) : list mk_secure_url_t :=
  match r with DenyUrl s => [ {| criteria := s ++ [0] |} ] | _ => [] end.

Lemma occurs_slash s k : occurs_at eq_ci s [47] k <-> s !! k = Some 47.
Proof.
  unfold occurs_at. split.
  - intros (u & v & Hd & H). destruct u as [|c u]; [by apply Forall2_nil_cons_inv in H|].
    apply Forall2_cons in H as [Hc H]. apply Forall2_nil_inv_r in H as ->. cbn in Hd.
    rewrite <- (Nat.add_0_r k), <- lookup_drop, Hd. cbn. f_equal. unfold eq_ci, toupper in Hc.
    repeat case_if_in Hc; zbool; lia.
  - intros H. exists [47], (drop (S k) s). split; [now apply drop_S|]. by repeat constructor.
Qed.

Lemma search_slash s t :
  0 ∉ s -> 0 ∉ t -> 47 ∉ s ->
  mk_string_search (s ++ 47 :: t ++ [0]) (clit "/") MK_STR_INSENSITIVE = Some (Z.of_nat (length s)).
Proof.
  intros Hs Ht Hn. assert (Hp : is_cstr (s ++ 47 :: t ++ [0]) (s ++ 47 :: t)).
  { split; [exists []; now rewrite <- app_assoc|]. rewrite elem_of_app, elem_of_cons. naive_solver. }
  destruct (mk_string_search_n_leftmost MK_STR_INSENSITIVE eq_ci _ _ (clit "/") [47] (-1) eq_refl Hp)
    as (r & Hr & Hl); [split; [by exists []|decide_closed]|].
  unfold mk_string_search. unfold mk_string_search_n in Hr. rewrite Hr. f_equal.
  assert (H47 : (s ++ 47 :: t) !! length s = Some 47) by (rewrite lookup_app_r, Nat.sub_diag by done; done).
  destruct Hl as [(k & -> & _ & Hk & Hmin)|[_ Hno]].
  - f_equal. apply occurs_slash in Hk. destruct (Nat.lt_trichotomy k (length s)) as [Hlt|[->|Hgt]]; [|done|].
    + rewrite lookup_app_l in Hk by done. apply list_elem_of_lookup_2 in Hk. done.
    + exfalso. apply (Hmin (length s) Hgt). now apply occurs_slash.
  - exfalso. apply (Hno (length s)); [|now apply occurs_slash]. split; [rewrite length_app; lia|lia].
Qed.

Lemma search_no_slash s :
  0 ∉ s -> 47 ∉ s -> mk_string_search (s ++ [0]) (clit "/") MK_STR_INSENSITIVE = Some (-1).
Proof.
  intros Hs Hn. assert (Hp : is_cstr (s ++ [0]) s) by (split; [by exists []|done]).
  destruct (mk_string_search_n_leftmost MK_STR_INSENSITIVE eq_ci _ _ (clit "/") [47] (-1) eq_refl Hp)
    as (r & Hr & Hl); [split; [by exists []|decide_closed]|].
  unfold mk_string_search. unfold mk_string_search_n in Hr. rewrite Hr. f_equal.
  destruct Hl as [(k & _ & _ & Hk & _)|[-> _]]; [|done]. apply occurs_slash, list_elem_of_lookup_2 in Hk. done.
Qed.

Lemma strtol_digits_total s acc : exists v, strtol_digits (s ++ [0]) acc = Some v.
Proof. revert acc; induction s as [|c s IH]; intros acc; cbn; [eauto|]. case_if; eauto. Qed.

Lemma strtol_total s : exists v e, strtol (s ++ [0]) = Some (v, e).
Proof.
  assert (Hsp : exists t, skip_spaces (s ++ [0]) = Some (t ++ [0])).
  { induction s as [|c s [t IH]]; [by exists []|]. cbn. case_if; [by exists t|by exists (c :: s)]. }
  destruct Hsp as [t Ht]. unfold strtol. rewrite Ht. mstep.
  assert (Hh : exists c, head (t ++ [0]) = Some c) by (destruct t; cbn; eauto). destruct Hh as [c Hc]. rewrite Hc. mstep.
  destruct (strtol_digits_total t 0) as [v Hv].
  assert (Htl : c <> 0 -> exists v, strtol_digits (tail (t ++ [0])) 0 = Some v).
  { destruct t as [|d t]; cbn in Hc; [congruence|]. intros _. apply strtol_digits_total. }
  destruct (c =? 45) eqn:E; [|destruct (c =? 43) eqn:E']; zbool.
  - destruct Htl as [v' ->]; [lia|]. mstep. eauto.
  - destruct Htl as [v' ->]; [lia|]. mstep. eauto.
  - rewrite Hv. mstep. eauto.
Qed.

Lemma check_ip_loop_cases l x : check_ip_loop l x = 0 \/ check_ip_loop l x = -1.
Proof. induction l as [|e l IH]; cbn; [now left|]. repeat case_if; auto. Qed.

Lemma check_ip_loop_app l l' x :
  check_ip_loop (l ++ l') x = -1 <-> check_ip_loop l x = -1 \/ check_ip_loop l' x = -1.
Proof.
  induction l as [|e l IH]; cbn; [naive_solver lia|]. repeat case_if; rewrite ?IH; naive_solver.
Qed.

Section Rules.
Context `{env : Env}.
Variable inet_aton : bytes -> option Z.
Hypothesis inet_aton_range : forall s addr, inet_aton s = Some addr -> 0 <= addr < 2 ^ 32.

Lemma check_subnet addr net x :
  0 < net < 32 -> 0 <= addr < 2 ^ 32 -> 0 <= x < 2 ^ 32 ->
  check_ip_loop [subnet_entry addr net] x = -1 <-> subnet_denies addr net x.
Proof.
  intros Hn Ha Hx. rewrite <- subnet_entry_spec by done. cbn [check_ip_loop].
  replace (si_is_subnet (subnet_entry addr net) =? MK_TRUE) with true by done.
  replace (si_netmask (subnet_entry addr net)) with net by done. set (e := subnet_entry addr net).
  destruct (i32 (MK_NET_NETWORK x net) =? si_network e) eqn:E1; cbn [negb]; [|zbool; lia].
  destruct ((x <=? si_hostmax e) && (si_hostmin e <=? x)) eqn:E2; [zbool; lia|].
  split; [done|]. intros (_ & H1 & H2). apply andb_false_iff in E2 as []; zbool; lia.
Qed.

(** What an entry of Deny_IP adds to the list. *)
Definition adds_rule (l l' : list mk_secure_ip_t) (r : rule) : Prop :=
  exists new, l' = l ++ new /\
    forall x, 0 <= x < 2 ^ 32 -> check_ip_loop new x = -1 <-> rule_denies inet_aton x r.

Lemma deny_ip_host s l :
  rule_ok (DenyHost s) -> exists l', deny_ip inet_aton (s ++ [0]) l = Some l' /\ adds_rule l l' (DenyHost s).
Proof.
  intros [H0 H47]. unfold deny_ip. rewrite search_no_slash by done. mstep.
  rewrite (cstr_cstr _ s) by (split; [by exists []|done]). mstep.
  destruct (inet_aton s) as [addr|] eqn:E; eexists; (split; [reflexivity|]).
  - exists [host_entry addr]. split; [done|]. intros x _. cbn. rewrite E.
    case_if; zbool; [naive_solver|]. split; [done|]. intros [= ->]. done.
  - exists []. split; [by rewrite app_nil_r|]. intros x _. cbn. rewrite E. split; done.
Qed.

Lemma deny_ip_subnet s m l :
  rule_ok (DenySubnet s m) ->
  exists l', deny_ip inet_aton ((s ++ 47 :: m) ++ [0]) l = Some l' /\ adds_rule l l' (DenySubnet s m).
Proof.
  intros (Hne & Hs & H47 & Hm). rewrite <- app_assoc. cbn [app]. unfold deny_ip.
  rewrite search_slash by done. mstep.
  assert (0 < length s)%nat by (destruct s; [done|cbn; lia]).
  replace (0 <? Z.of_nat (length s)) with true by zb.
  pose proof (copy_substr_at [] s (47 :: m ++ [0]) 0 _ eq_refl eq_refl) as Hc. cbn [app length Nat.add] in Hc.
  rewrite Hc. mstep.
  rewrite (strlen_cstr _ (s ++ 47 :: m)); [|split; [by exists []; rewrite <- app_assoc|]; rewrite elem_of_app, elem_of_cons; naive_solver].
  mstep. replace (s ++ 47 :: m ++ [0]) with ((s ++ [47]) ++ m ++ [0]) by now rewrite <- app_assoc.
  rewrite copy_substr_at by (rewrite ?length_app; cbn; lia). mstep.
  rewrite (cstr_cstr _ s) by (split; [by exists []|done]). mstep.
  destruct (strtol_total m) as (v & e & Hv).
  assert (Hatoi : atoi (m ++ [0]) = Some (i32 v)) by (unfold atoi; now rewrite Hv).
  destruct (inet_aton s) as [addr|] eqn:E.
  - rewrite Hv. mstep. destruct ((i32 v <=? 0) || (32 <=? i32 v)) eqn:En; eexists; (split; [reflexivity|]).
    + exists []. split; [by rewrite app_nil_r|]. intros x _. split; [done|].
      intros (a & n & _ & Hn & ? & _). simplify_eq. apply orb_true_iff in En as []; zbool; lia.
    + apply orb_false_iff in En as [? ?]. zbool. eexists. split; [done|]. intros x Hx.
      rewrite check_subnet by (try lia; eauto). split.
      * intros Hd. exists addr, (i32 v). split_and!; [done|done|lia|lia|done].
      * intros (a & n & Ha & Hn & _ & Hd). simplify_eq. done.
  - eexists. split; [reflexivity|]. exists []. split; [by rewrite app_nil_r|]. intros x _. split; [done|].
    intros (a & n & Ha & _). simplify_eq.
Qed.

(** A rule that denies addresses. *)
Lemma deny_ip_rule r l :
  rule_ok r -> rule_urls r = [] ->
  exists val l', rule_entry r = (lit "Deny_IP", val) /\
    deny_ip inet_aton (val ++ [0]) l = Some l' /\ adds_rule l l' r.
Proof.
  intros Hok Hu. destruct r as [s|s mask|s]; [| |done].
  - destruct (deny_ip_host s l Hok) as (l' & ? & ?). eauto.
  - destruct (deny_ip_subnet s mask l Hok) as (l' & ? & ?). eauto.
Qed.

Lemma rules_loop_run rules m :
  Forall rule_ok rules ->
  exists l, rules_loop inet_aton (map (stored_entry ∘ rule_entry) rules) m =
      Some {| mk_secure_ip := mk_secure_ip m ++ l;
              mk_secure_url := mk_secure_url m ++ concat (map rule_urls rules) |} /\
    forall x, 0 <= x < 2 ^ 32 -> check_ip_loop l x = -1 <-> Exists (rule_denies inet_aton x) rules.
Proof.
  revert m; induction rules as [|r rules IH]; intros m Hok; cbn [map concat rules_loop].
  { exists []. rewrite !app_nil_r. split; [by destruct m|]. intros x _. rewrite Exists_nil. done. }
  apply Forall_cons in Hok as [Hr Hok]. destruct (decide (rule_urls r = [])) as [Hu|Hu].
  - destruct (deny_ip_rule r (mk_secure_ip m) Hr Hu) as (val & l' & He & Hl & new & -> & Hnew).
    destruct (IH {| mk_secure_ip := mk_secure_ip m ++ new; mk_secure_url := mk_secure_url m |} Hok) as (l & Hrun & Hx).
    exists (new ++ l). cbn [compose]. rewrite He, Hu. cbn [stored_entry ce_key ce_val fst snd app].
    change (strcasecmp _ (clit "Deny_IP")) with (Some 0). mstep. cbn -[deny_ip]. rewrite Hl. mstep. rewrite Hrun, app_assoc.
    split; [done|]. intros x Hrange. rewrite check_ip_loop_app, Exists_cons, Hnew, Hx by done. done.
  - destruct r as [|?|s]; [done|done|].
    destruct (IH {| mk_secure_ip := mk_secure_ip m; mk_secure_url := mk_secure_url m ++ [ {| criteria := s ++ [0] |} ] |} Hok)
      as (l & Hrun & Hx).
    exists l. cbn [compose rule_entry stored_entry ce_key ce_val fst snd rule_urls].
    change (strcasecmp _ (clit "Deny_IP")) with (Some 12). mstep. cbn -[strcasecmp rules_loop].
    change (strcasecmp _ _) with (Some 0). mstep. cbn -[rules_loop].
    rewrite Hrun. cbn [mk_secure_ip mk_secure_url]. rewrite <- app_assoc. split; [done|].
    intros x Hrange. rewrite Exists_cons, Hx by done. cbn. tauto.
Qed.
End Rules.

(** ** Theorems *)

(** What the rules of the configuration deny. When mandril.conf has a
    section RULES with the entries of some rules, they are loaded; an address is
    refused by the check of the loaded rules exactly when one of the rules denies
    it: it is the address of a Deny_IP rule without mask, or it belongs to the
    subnet of one with a mask between 1 and 31 and, unless the mask is 31, its last
    octet is neither the one of the network nor the one of the broadcast address.
    Addresses that cannot be read and other masks deny nothing. The criteria of
    the URLs are the ones of the Deny_URL rules, in order. *)
Theorem mk_security_conf_denies `{env : Env} (inet_aton : bytes -> option Z) (fopen_read : bytes -> option bytes)
    confdir dir file conf section rules :
  (forall s addr, inet_aton s = Some addr -> 0 <= addr < 2 ^ 32) ->
  is_cstr confdir dir -> Z.of_nat (length dir) < 2 ^ 31 -> fopen_read (dir ++ lit "/mandril.conf" ++ [0]) = Some file ->
  mk_config_create (Some file) = Some (Some (CfgOk conf)) ->
  mk_config_section_get conf (clit "RULES") = Some (Some section) ->
  cs_entries section = map (stored_entry ∘ rule_entry) rules -> Forall rule_ok rules ->
  exists m, _mkp_init inet_aton fopen_read confdir = Some (CfgOk m) /\
    (forall x, 0 <= x < 2 ^ 32 ->
       check_ip_loop (mk_secure_ip m) x = -1 <-> Exists (rule_denies inet_aton x) rules) /\
    mk_secure_url m = concat (map rule_urls rules).
Proof.
  intros Hrange Hdir Hlen Hopen Hconf Hsec Hentries Hok. unfold _mkp_init, mk_security_conf.
  rewrite (cstr_cstr _ _ Hdir). mstep. rewrite mk_string_build_run;
    [|apply not_elem_of_app; split; [apply Hdir|decide_closed]|rewrite length_app; cbn; lia]. mstep.
  rewrite <- app_assoc, Hopen, Hconf. mstep.
  rewrite Hsec. mstep. rewrite Hentries.
  destruct (rules_loop_run inet_aton Hrange rules {| mk_secure_ip := []; mk_secure_url := [] |} Hok) as (l & Hl & Hx).
  rewrite Hl. mstep. eexists. split; [reflexivity|]. split; [exact Hx|done].
Qed.

(** A URL the criteria deny: one of them occurs, in any case of letters, from a
    position of the URL on; the text goes on behind the URL. *)
Definition url_denied (criteria : list bytes) (s : bytes) (n : Z) : Prop :=
  Exists (fun t => exists k, Z.of_nat k < n /\ occurs_at eq_ci s t k) criteria.

Lemma check_url_loop_spec p s n texts :
  is_cstr p s -> 0 < n <= Z.of_nat (length s) -> Forall (fun t => 0 ∉ t) texts ->
  exists r, check_url_loop (map (fun t => {| criteria := t ++ [0] |}) texts) p n = Some r /\
    (r = 0 /\ ~ url_denied texts s n \/ r = -1 /\ url_denied texts s n).
Proof.
  intros Hp Hn. induction texts as [|t texts IH]; intros Ht; cbn [map check_url_loop].
  { exists 0. split; [done|]. left. split; [done|]. unfold url_denied. now rewrite Exists_nil. }
  apply Forall_cons in Ht as [Ht Hts]. cbn [criteria].
  destruct (mk_string_search_n_leftmost MK_STR_INSENSITIVE eq_ci p s (t ++ [0]) t n eq_refl Hp)
    as (r & -> & Hl); [split; [by exists []|done]|]. mstep. unfold url_denied in *.
  destruct Hl as [(k & -> & [_ Hk] & Hocc & _)|[-> Hno]].
  - replace (0 <=? Z.of_nat k) with true by zb. exists (-1). split; [done|]. right. split; [done|].
    apply Exists_cons_hd. exists k. split; [lia|done].
  - cbn [Z.leb Z.compare]. destruct (IH Hts) as (r & -> & Hr). exists r. split; [done|].
    rewrite Exists_cons. destruct Hr as [[-> Hr]|[-> Hr]]; [left|right; auto].
    split; [done|]. intros [(k & Hk & Hocc)|H]; [|done]. apply (Hno k); [split; lia|done].
Qed.

(** C23: stage 20 refuses exactly the requests in whose buffer a criterion
    occurs, in any case of letters, from a position of the URL on; the
    occurrence may go on behind the URL, into the query and the version of HTTP.
    To refuse is to set the status to 403 and to ask for the connection to be
    closed; nothing else of the request changes, nothing is sent, and the caller
    (mk_request.c) closes without an answer, so that the client never sees the
    status. Every other request goes on unchanged. *)
Theorem mandril_stage_20_spec m texts w cs sr c r p s n :
  mk_secure_url m = map (fun t => {| criteria := t ++ [0] |}) texts -> Forall (fun t => 0 ∉ t) texts ->
  at_sr w cs sr c r -> sr_uri r = {| data := Some p; len := n |} -> is_cstr p s -> 0 < n <= Z.of_nat (length s) ->
  (url_denied texts s n ->
     exists w' c', _mkp_stage_20 m cs sr w = Some (MK_PLUGIN_RET_CLOSE_CONX, w') /\
       at_sr w' cs sr c' (set_headers (fun sh => sh <| sh_status := MK_CLIENT_FORBIDDEN |>) r) /\
       w_trace w' = w_trace w) /\
  (~ url_denied texts s n -> _mkp_stage_20 m cs sr w = Some (MK_PLUGIN_RET_CONTINUE, w)).
Proof.
  intros Hm Ht Hat Huri Hp Hn. unfold _mkp_stage_20. erewrite bind_run by (eapply get_sr_run; apply Hat).
  destruct (check_url_loop_spec p s n texts Hp Hn Ht) as (v & Hv & Hcase).
  assert (Hck : mk_security_check_url m (sr_uri r) = Some v).
  { unfold mk_security_check_url. rewrite Hm, Huri. destruct texts as [|t texts]; [exact Hv|]. cbn [map data len].
    mstep. exact Hv. }
  erewrite bind_run by (unfold lift; rewrite Hck; reflexivity).
  destruct Hcase as [[-> Hno]|[-> Hyes]]; (split; [intros Hd|intros Hd]); try done.
  destruct (mod_sr_run cs sr (set_headers (fun sh => sh <| sh_status := MK_CLIENT_FORBIDDEN |>)) w c r Hat) as [Hrun Hat'].
  cbn [Z.ltb Z.compare]. unfold mk_header_set_http_status. erewrite bind_run by exact Hrun. eexists _, _.
  split; [reflexivity|]. split; [exact Hat'|done].
Qed.

(** Stage 10 never reaches its rules on an IPv4 connection. A peer whose
    address cannot be read is refused; the 16 bytes of a [struct sockaddr_in] are
    written, as far as [sizeof(addr)] = 8 allows, to the 4 bytes of [addr_t]. *)
Theorem mandril_stage_10_overruns `{env : Env} (getpeername : world -> Z -> option bytes) m w socket conx :
  match getpeername w socket with
  | None => _mkp_stage_10 getpeername m socket conx w = Some (MK_PLUGIN_RET_CLOSE_CONX, w)
  | Some sa => length sa = 16%nat -> _mkp_stage_10 getpeername m socket conx w = None
  end.
Proof.
  unfold _mkp_stage_10, mk_security_check_ip. destruct (getpeername w socket) as [sa|] eqn:E.
  - intros Hl. unfold mbind, M_bind, gets. rewrite E. unfold lift.
    rewrite bwrite_out; [done|]. rewrite length_take, Hl. unfold addr_t_junk. rewrite length_map, length_seq. lia.
  - unfold mbind, M_bind, gets. rewrite E. reflexivity.
Qed.

(** ** Examples *)

Definition example_rules : list rule :=
  [ DenyHost (lit "192.168.3.150"); DenySubnet (lit "10.20.0.0") (lit "16"); DenySubnet (lit "10.20.0.0") (lit "32");
    DenyUrl (lit "/imgs"); DenyHost (lit "nobody") ].
Definition example_aton (s : bytes) : option Z :=
  if decide (s = lit "192.168.3.150") then Some (192 + 168 * 2 ^ 8 + 3 * 2 ^ 16 + 150 * 2 ^ 24)
  else if decide (s = lit "10.20.0.0") then Some (10 + 20 * 2 ^ 8) else None.
Definition mandril_text : bytes := render (lit "    ") [(lit "RULES", map rule_entry example_rules)].

Lemma example_aton_range s addr : example_aton s = Some addr -> 0 <= addr < 2 ^ 32.
Proof. unfold example_aton. intros H. repeat case_decide; simplify_eq; lia. Qed.

Lemma mk_security_conf_witness :
  exists m, @_mkp_init example_env example_aton (fun _ => Some mandril_text) (clit "/etc") = Some (CfgOk m) /\
    (forall x, 0 <= x < 2 ^ 32 ->
       check_ip_loop (mk_secure_ip m) x = -1 <-> Exists (rule_denies example_aton x) example_rules) /\
    mk_secure_url m = concat (map rule_urls example_rules).
Proof.
  eapply (@mk_security_conf_denies example_env example_aton (fun _ => Some mandril_text) (clit "/etc") (lit "/etc")
    mandril_text _ _ example_rules example_aton_range);
    [apply is_cstr_clit; decide_closed|cbn; lia|reflexivity|vm_compute; reflexivity|reflexivity|reflexivity|].
  repeat (apply Forall_cons_2; [repeat split; try discriminate; decide_closed|]). apply Forall_nil_2.
Defined.

(** 10.20.30.40 is denied, 10.20.30.0 and 10.20.30.255 are not although they
    are addresses of hosts of 10.20.0.0/16. *)
Example subnet_example :
  map (fun d => check_ip_loop [subnet_entry (10 + 20 * 2 ^ 8) 16] (10 + 20 * 2 ^ 8 + 30 * 2 ^ 16 + d * 2 ^ 24))
    [40; 0; 255] = [-1; 0; 0].
Proof. reflexivity. Qed.

Definition image_request : session_request :=
  get_request "/a" <| sr_uri := {| data := Some (lit "/x/IMGS HTTP/1.1" ++ [13; 10; 0]); len := 7 |} |>.

Lemma mandril_stage_20_witness :
  exists w' c', _mkp_stage_20 {| mk_secure_ip := []; mk_secure_url := [ {| criteria := clit "/imgs" |} ] |}
      1 0 (request_world image_request) = Some (MK_PLUGIN_RET_CLOSE_CONX, w') /\
    at_sr w' 1 0 c' (set_headers (fun sh => sh <| sh_status := MK_CLIENT_FORBIDDEN |>) image_request) /\
    w_trace w' = w_trace (request_world image_request).
Proof.
  apply (mandril_stage_20_spec {| mk_secure_ip := []; mk_secure_url := [ {| criteria := clit "/imgs" |} ] |}
    [lit "/imgs"] (request_world image_request) 1 0 _ _ (lit "/x/IMGS HTTP/1.1" ++ [13; 10; 0])
    (lit "/x/IMGS HTTP/1.1" ++ [13; 10]) 7 eq_refl ltac:(repeat constructor; decide_closed) (request_world_at _) eq_refl).
  - split; [exists []; reflexivity|decide_closed].
  - cbn. lia.
  - apply Exists_cons_hd. exists 2%nat. split; [lia|]. exists (lit "/IMGS"), (lit " HTTP/1.1" ++ [13; 10]).
    split; [reflexivity|]. repeat constructor.
Defined.

Lemma mandril_stage_10_witness :
  @_mkp_stage_10 example_env (fun _ _ => Some (replicate 16 2)) {| mk_secure_ip := []; mk_secure_url := [] |} 5 0
    (request_world image_request) = None.
Proof.
  exact (@mandril_stage_10_overruns example_env (fun _ _ => Some (replicate 16 2))
    {| mk_secure_ip := []; mk_secure_url := [] |} (request_world image_request) 5 0 eq_refl).
Defined.
