(* ===== verification/Chunked.v ===== *)
(** * The coding of a body in chunks

    What the plugins send to a client of HTTP/1.1 whose answer has no known
    length, and how the client reads it. *)
From S2P Require Import Prelude MkMemory MkUtils CString.
Local Open Scope Z_scope.

(** The digits printed by [%lx]. *)
Fixpoint hex_digits (fuel : nat) (z : Z) : bytes :=
  match fuel with
  | O => []
  | S fuel => (if z <? 16 then [] else hex_digits fuel (z / 16)) ++ [hex_char (z mod 16)]
  end.
Definition hex (z : Z) : bytes := hex_digits 16 z.

Lemma hex_no_zero fuel z : 0 ∉ hex_digits fuel z.
Proof.
  revert z; induction fuel as [|fuel IH]; intros z; cbn; [apply not_elem_of_nil|].
  rewrite not_elem_of_app, list_elem_of_singleton. split; [case_if; [apply not_elem_of_nil|apply IH]|].
  pose proof (Z.mod_pos_bound z 16 ltac:(lia)). unfold hex_char. case_if; lia.
Qed.
Lemma hex_length fuel z : (length (hex_digits fuel z) <= fuel)%nat.
Proof. revert z; induction fuel as [|fuel IH]; intros z; cbn; [lia|]. rewrite length_app. cbn. case_if; [cbn; lia|]. specialize (IH (z / 16)). lia. Qed.

Lemma hex_short fuel k z : 0 <= z < 16 ^ Z.of_nat k -> (0 < k)%nat -> (length (hex_digits fuel z) <= k)%nat.
Proof.
  revert k z; induction fuel as [|fuel IH]; intros k z Hz Hk; cbn; [lia|]. rewrite length_app. cbn [length].
  destruct (z <? 16) eqn:E; zbool; [cbn; lia|]. destruct k as [|[|k]]; [lia|cbn in Hz; lia|].
  enough (length (hex_digits fuel (z / 16)) <= S k)%nat by lia. apply IH; [|lia].
  rewrite (Nat2Z.inj_succ (S k)), Z.pow_succ_r in Hz by lia. split; [apply Z.div_pos; lia|apply Z.div_lt_upper_bound; lia].
Qed.

Definition chunk (s : bytes) : bytes := hex (Z.of_nat (length s)) ++ [13; 10] ++ s ++ [13; 10].
Definition last_chunk : bytes := lit "0" ++ [13; 10; 13; 10].

(** How a client of HTTP/1.1 reads a body in chunks: a number in hexadecimal
    digits. *)
Fixpoint read_hex (l : bytes) (acc : Z) : Z * bytes :=
  match l with
  | [] => (acc, [])
  | c :: l' => match hex_digit c with Some d => read_hex l' (16 * acc + d) | None => (acc, l) end
  end.
Definition skip_crlf (l : bytes) : option bytes :=
  match l with c :: d :: l => if (c =? 13) && (d =? 10) then Some l else None | _ => None end.
(** The data, and what follows the last chunk. *)
Fixpoint dechunk (fuel : nat) (l : bytes) : option (bytes * bytes) :=
  match fuel with
  | O => None
  | S fuel =>
    let '(n, l) := read_hex l 0 in
    l ← skip_crlf l;
    if n =? 0 then l ← skip_crlf l; Some ([], l)
    else
      s ← memread l n;
      l ← skip_crlf (drop (Z.to_nat n) l);
      '(data, rest) ← dechunk fuel l;
      Some (s ++ data, rest)
  end.

Lemma read_hex_app fuel z l acc :
  0 <= z < 16 ^ Z.of_nat fuel -> (0 < fuel)%nat ->
  read_hex (hex_digits fuel z ++ l) acc = read_hex l (acc * 16 ^ Z.of_nat (length (hex_digits fuel z)) + z).
Proof.
  revert z l acc; induction fuel as [|fuel IH]; intros z l acc Hz Hf; [lia|].
  assert (Hdig : forall d l acc, 0 <= d < 16 -> read_hex ([hex_char d] ++ l) acc = read_hex l (16 * acc + d))
    by (intros d l' a Hd; cbn; now rewrite hex_digit_char).
  cbn [hex_digits]. destruct (z <? 16) eqn:E; zbool.
  - cbn [app length]. rewrite Z.mod_small by lia. pose proof (Hdig z l acc ltac:(lia)) as Hd.
    cbn [app] in Hd. rewrite Hd. f_equal. change (16 ^ Z.of_nat 1) with 16. lia.
  - rewrite Nat2Z.inj_succ, Z.pow_succ_r in Hz by lia.
    assert (Hf' : (0 < fuel)%nat) by (destruct fuel; [change (16 ^ Z.of_nat 0) with 1 in Hz; lia|lia]).
    assert (Hq : 0 <= z / 16 < 16 ^ Z.of_nat fuel) by (split; [apply Z.div_pos; lia|apply Z.div_lt_upper_bound; lia]).
    rewrite <- app_assoc, (IH _ _ _ Hq Hf'), Hdig by (apply Z.mod_pos_bound; lia). f_equal.
    rewrite length_app. cbn [length]. rewrite Nat2Z.inj_add, Z.pow_add_r by lia. change (16 ^ Z.of_nat 1) with 16.
    pose proof (Z.div_mod z 16). lia.
Qed.

Lemma read_hex_hex z l c :
  0 <= z < 2 ^ 64 -> hex_digit c = None -> read_hex (hex z ++ c :: l) 0 = (z, c :: l).
Proof. intros Hz Hc. unfold hex. rewrite read_hex_app by (cbn; lia). rewrite Z.mul_0_l, Z.add_0_l. cbn. now rewrite Hc. Qed.

(** What is sent in chunks is read back: a client that takes chunks until the
    empty one gets the data of the pieces, one after the other, if none of them
    is empty, and is left with what follows. *)
Lemma dechunk_chunks parts rest :
  Forall (fun s => s <> [] /\ Z.of_nat (length s) < 2 ^ 64) parts ->
  dechunk (S (length parts)) (concat (map chunk parts) ++ last_chunk ++ rest) = Some (concat parts, rest).
Proof.
  induction parts as [|s parts IH]; intros H; [reflexivity|].
  apply Forall_cons in H as [[Hne Hl] H]. specialize (IH H). cbn [length map concat].
  remember (S (length parts)) as fuel. cbn [dechunk]. unfold chunk at 1. cbn [app]. rewrite <- !app_assoc. cbn [app].
  rewrite read_hex_hex by (done || lia). cbn [skip_crlf]. cbn [Z.eqb Pos.eqb andb]. mstep.
  assert (0 < length s)%nat by (destruct s; [done|cbn; lia]).
  replace (Z.of_nat (length s) =? 0) with false by zb.
  rewrite <- !app_assoc, memread_take by (rewrite length_app; lia). mstep. rewrite Nat2Z.id, take_app_length, drop_app_length. cbn [app skip_crlf Z.eqb Pos.eqb andb]. mstep.
  rewrite IH. done.
Qed.

(** A piece on its way to the client. *)
Definition wire (chunked : bool) (s : bytes) : bytes := if chunked then chunk s else s.
