(* ===== verification/DirListing.v ===== *)
(** * plugins/dirlisting: listings of directories

    The themes are files of text with tags; a listing is the text of three
    templates, header, entries and footer, with the tags replaced, sent in chunks
    to clients of HTTP/1.1. The directory stream, the contents of the theme files,
    the local time and [qsort] are parameters. *)
From S2P Require Import Prelude CString MkString MkMemory MkUtils MkTypes MkToc MkSession MkEpoll MkPlugin MkConfig MkFile MkResponse Chunked.
Import Iov.
Local Open Scope Z_scope.

Definition SH_CGI : Z := 1.
Definition DT_UNKNOWN : Z := 0.
Definition DT_DIR : Z := 4.
Definition DT_REG : Z := 8.
Definition DT_LNK : Z := 10.
Definition MK_DIRHTML_FMOD_LEN : Z := 24.
Definition MK_DIRHTML_TAG_INIT : bytes := clit "%_".
Definition MK_DIRHTML_SIZE_DIR : bytes := clit "-".
Definition mk_dirhtml_default_mime : mk_pointer := lit_pointer (line "text/html").

(** ** Tags and templates *)

(** [_tags_global] and [_tags_entry]; templates and values compare the
    addresses of the two arrays. *)
Inductive tag_table := _tags_global | _tags_entry.
#[export] Instance tag_table_eq_dec : EqDecision tag_table.
Proof. solve_decision. Defined.

Definition tag_texts (tags : tag_table) : list bytes :=
  match tags with
  | _tags_global => [lit "%_html_title_%"; lit "%_theme_path_%"]
  | _tags_entry => [lit "%_target_title_%"; lit "%_target_url_%"; lit "%_target_name_%"; lit "%_target_time_%";
                    lit "%_target_size_%"]
  end.

(** [tp_tags] may be NULL; so is [tp_buf] for a tag. *)
Record dirhtml_template := { tp_buf : option bytes; tp_tag_id : Z; tp_len : Z; tp_tags : option tag_table }.
Record dirhtml_value := { va_tag_id : Z; va_sep : mk_pointer; va_len : Z; va_value : option bytes; va_tags : tag_table }.

(** The index, from [i] on, of the first tag found among as many positions of
    the content as it has characters. *)
Fixpoint match_tag_loop (texts : list bytes) (i : Z) (content : bytes) : option Z :=
  match texts with
  | [] => Some (-1)
  | t :: texts =>
    len ← strlen (t ++ [0]);
    m ← mk_string_search_n content (t ++ [0]) MK_STR_INSENSITIVE len;
    if 0 <=? m then Some i else match_tag_loop texts (i + 1) content
  end.
Definition mk_dirhtml_theme_match_tag (content : bytes) (tags : tag_table) : option Z :=
  match_tag_loop (tag_texts tags) 0 content.

Definition mk_dirhtml_template_list_add (l : list dirhtml_template) (buf : option bytes) (len : Z) (tpl : option tag_table) (tag_id : Z)
  : list dirhtml_template :=
  l ++ [ {| tp_buf := buf; tp_tag_id := tag_id; tp_len := len; tp_tags := tpl |} ].

(** The tag looked for at the start of a "%_", global ones first. *)
Definition find_tag (q : bytes) : option (tag_table * Z) :=
  idx ← mk_dirhtml_theme_match_tag q _tags_global;
  if idx <? 0 then idx ← mk_dirhtml_theme_match_tag q _tags_entry; Some (_tags_entry, idx)
  else Some (_tags_global, idx).

(** The [while (i < cont_len)] loop: the new [i], [_tpl], the list, [n_tags]. *)
Fixpoint create_loop (fuel : nat) (content : bytes) (cont_len i : Z) (tpl : option tag_table) (st : list dirhtml_template) (n_tags : Z)
  : option (Z * option tag_table * list dirhtml_template * Z) :=
  match fuel with
  | O => None
  | S fuel =>
    if cont_len <=? i then Some (i, tpl, st, n_tags) else
    p ← padd content i;
    pos ← mk_string_search p MK_DIRHTML_TAG_INIT MK_STR_INSENSITIVE;
    if pos <? 0 then Some (i, tpl, st, n_tags) else
    q ← padd p pos;
    '(tags, idx) ← find_tag q;
    if 0 <=? idx then
      buf ← mk_string_copy_substr content i (i + pos); buf ← buf;
      len ← strlen buf;
      t ← tag_texts tags !! Z.to_nat idx;
      let st := mk_dirhtml_template_list_add st (Some buf) len (Some tags) (-1) in
      let st := mk_dirhtml_template_list_add st None (-1) (Some tags) idx in
      create_loop fuel content cont_len (i + (pos + Z.of_nat (length t))) (Some tags) st (n_tags + 1)
    else create_loop fuel content cont_len (i + 1) (Some tags) st n_tags
  end.

(** The empty list is NULL. The rest of the content is always added: [last] is
    never set. *)
Definition mk_dirhtml_template_create (content : bytes) : option (list dirhtml_template) :=
  cont_len ← strlen content;
  if cont_len <=? 0 then Some [] else
  '(i, tpl, st, n_tags) ← create_loop (S (Z.to_nat cont_len)) content cont_len 0 None [] 0;
  buf ← mk_string_copy_substr content i cont_len; buf ← buf;
  len ← strlen buf;
  Some (mk_dirhtml_template_list_add (if n_tags <=? 0 then [] else st) (Some buf) len tpl (-1)).

Definition mk_dirhtml_template_len (l : list dirhtml_template) : Z := Z.of_nat (length l).

(** ** Values and vectors *)

Definition mk_dirhtml_tag_assign (values : list dirhtml_value) (tag_id : Z) (sep : mk_pointer) (value : bytes) (tags : tag_table)
  : option (list dirhtml_value) :=
  len ← strlen value;
  Some (values ++ [ {| va_tag_id := tag_id; va_sep := sep; va_len := len; va_value := Some value; va_tags := tags |} ]).

(** The value of a tag. *)
Fixpoint find_value (values : list dirhtml_value) (tags : option tag_table) (tag_id : Z) : option dirhtml_value :=
  match values with
  | [] => None
  | v :: values =>
    if decide (Some (va_tags v) = tags /\ va_tag_id v = tag_id) then Some v else find_value values tags tag_id
  end.

Definition compose_entry (values : list dirhtml_value) (tpl : dirhtml_template) (iov : mk_iov) : option mk_iov :=
  match tp_buf tpl with
  | None =>
    if 0 <=? tp_tag_id tpl then
      match find_value values (tp_tags tpl) (tp_tag_id tpl) with
      | Some v => '(iov, _) ← mk_iov_add_entry iov (va_value v) (va_len v) (va_sep v) MK_IOV_NOT_FREE_BUF; Some iov
      | None => Some iov
      end
    else '(iov, _) ← mk_iov_add_entry iov None (tp_len tpl) mk_iov_none MK_IOV_NOT_FREE_BUF; Some iov
  | Some buf => '(iov, _) ← mk_iov_add_entry iov (Some buf) (tp_len tpl) mk_iov_none MK_IOV_NOT_FREE_BUF; Some iov
  end.

Fixpoint compose_loop (values : list dirhtml_value) (template : list dirhtml_template) (iov : mk_iov) : option mk_iov :=
  match template with
  | [] => Some iov
  | tpl :: template => iov ← compose_entry values tpl iov; compose_loop values template iov
  end.

Definition mk_dirhtml_theme_compose (template : list dirhtml_template) (values : list dirhtml_value) (is_chunked : bool) : option mk_iov :=
  iov ← mk_iov_create (1 + mk_dirhtml_template_len template * 2) 1;
  iov ← compose_loop values template iov;
  if is_chunked then '(iov, _) ← mk_iov_add_entry iov (Some [13; 10; 0]) 2 mk_iov_none MK_IOV_NOT_FREE_BUF; Some iov
  else Some iov.

(** ** Sizes of files *)

Definition units : list bytes :=
  [lit "b"; lit "K"; lit "M"; lit "G"; lit "T"; lit "P"; lit "E"; lit "Z"; lit "Y"].

(** The loop over the units; the wrapped [u] may be 0. *)
Fixpoint unit_loop (l : list bytes) (size u : Z) (i : nat) : option (Z * nat) :=
  match l with
  | [] => Some (u, i)
  | _ :: l =>
    if u =? 0 then None
    else if size / u =? 0 then Some (u, i) else unit_loop l size (u64 (u * 1024)) (S i)
  end.

(** [n / d] to the nearest integer, ties to even. *)
Definition round_even (n d : Z) : Z :=
  let q := n / d in let r := n mod d in
  if (d <? 2 * r) || ((d =? 2 * r) && Z.odd q) then q + 1 else q.
(** An integer in a binary format of [p] bits of precision. *)
Definition round_bits (p n : Z) : Z :=
  let e := Z.log2 n + 1 - p in if e <=? 0 then n else round_even n (2 ^ e) * 2 ^ e.

(** [(double) size / (u / 1024)] is an exact division by a power of 2; "%.1f"
    prints tenths. *)
Definition mk_dirhtml_human_readable_size (size : Z) : option bytes :=
  '(u, i) ← unit_loop units (u64 size) 1024 0;
  name ← units !! i;
  '(buf, _) ←
    (match i with
     | O => mk_string_build (dec (u64 size) ++ name)
     | S _ =>
       let tenths := round_even (10 * round_bits 24 (round_bits 53 size)) (u / 1024) in
       mk_string_build (dec (tenths / 10) ++ [46] ++ dec (tenths mod 10) ++ name)
     end);
  Some buf.

(** ** Directories *)

(** [mk_f_list]; [fl_name calls] is what the address of the name holds after so
    many calls of [readdir]: the entries of a stream share its buffer. *)
Record mk_f_list := {
  fl_ft_modif : bytes; fl_info : file_info; fl_name : nat -> bytes; fl_size : bytes; fl_type : Z
}.
Record dirent := { d_type : Z; d_name : nat -> bytes }.

(** The themes loaded by [_mkp_init]. *)
Record dirhtml := {
  dh_theme_path : bytes;
  tpl_header : list dirhtml_template;
  tpl_entry : list dirhtml_template;
  tpl_footer : list dirhtml_template;
}.

(** Is it a hidden file? The parent directory is not. *)
Definition hidden (name : bytes) : option bool :=
  c ← deref name;
  if c =? 46 then d ← strcmp name (clit ".."); Some (negb (d =? 0)) else Some false.

Definition listed_type (t : Z) : bool := (t =? DT_REG) || (t =? DT_DIR) || (t =? DT_LNK) || (t =? DT_UNKNOWN).

Section WithEnv.
Context `{env : Env}.
(** The entries [readdir] will give of a directory. *)
Variable opendir : list event -> bytes -> option (list dirent).
Variable fopen_read : bytes -> option bytes.
(** "%d-%b-%G %H:%M" of the local time, if there is one. *)
Variable local_time_text : Z -> option bytes.
Variable qsort : (mk_f_list -> mk_f_list -> Z) -> list mk_f_list -> list mk_f_list.

(** [strftime] gives 0 when the text and its NUL do not fit. The memory of the
    entry is zeroed. *)
Definition mk_dirhtml_create_element (file : nat -> bytes) (type : Z) (full_path : bytes) : M (option mk_f_list) :=
  '(r, info) ← mk_file_get_info full_path file_info_init;
  if negb (r =? 0) then mret None else
  text ← lift (local_time_text (fi_last_modification info));
  let n := Z.of_nat (length text) in
  if (MK_DIRHTML_FMOD_LEN <=? n) || (n =? 0) then mret None else
  size ← (if negb (type =? DT_DIR) then lift (mk_dirhtml_human_readable_size (fi_size info)) else mret MK_DIRHTML_SIZE_DIR);
  mret (Some {| fl_ft_modif := text ++ replicate (Z.to_nat (MK_DIRHTML_FMOD_LEN - n)) 0; fl_info := info;
                fl_name := file; fl_size := size; fl_type := type |}).

(** [calls]: how often [readdir] was called before. *)
Fixpoint mk_dirhtml_create_list (dir : list dirent) (calls : nat) (path : bytes) : M (list mk_f_list) :=
  match dir with
  | [] => mret []
  | ent :: dir =>
    let calls := S calls in
    h ← lift (hidden (d_name ent calls));
    if h : bool then mk_dirhtml_create_list dir calls path else
    if negb (listed_type (d_type ent)) then mk_dirhtml_create_list dir calls path else
    name ← lift (cstr (d_name ent calls));
    '(full_path, _) ← lift (mk_string_build (path ++ name));
    full_path ← lift (cstr full_path);
    entry ← mk_dirhtml_create_element (d_name ent) (d_type ent) full_path;
    rest ← mk_dirhtml_create_list dir calls path;
    mret (match entry with None => rest | Some entry => entry :: rest end)
  end.

(** *** Configuration and themes *)

(** The path of the theme, with 0 if there is one; [None] ends the process. *)
Definition mk_dirhtml_read_config (path : bytes) : M (option (Z * bytes)) :=
  s ← lift (cstr path);
  '(default_file, _) ← lift (mk_string_build (s ++ lit "dirhtml.conf"));
  conf ← lift (mk_config_create (fopen_read default_file));
  conf ← lift conf;
  match conf with
  | CfgExit _ _ => mret None
  | CfgOk conf =>
    section ← lift (mk_config_section_get conf (clit "DIRLISTING"));
    match section with
    | None => mret None
    | Some section =>
      theme ← lift (get_str section "Theme");
      theme ← lift theme;
      theme ← lift (cstr theme);
      '(theme_path, _) ← lift (mk_string_build (s ++ lit "themes/" ++ theme ++ lit "/"));
      p ← lift (cstr theme_path);
      '(r, _) ← mk_file_get_info p file_info_init;
      mret (Some (if negb (r =? 0) then -1 else 0, theme_path))
    end
  end.

Definition mk_dirhtml_load_file (theme_path : bytes) (filename : string) : M (option bytes) :=
  s ← lift (cstr theme_path);
  '(tmp, _) ← lift (mk_string_build (s ++ lit filename));
  tmp ← lift (cstr tmp);
  mk_file_to_buffer fopen_read tmp.

Definition mk_dirhtml_theme_load (theme_path : bytes) : M (option dirhtml) :=
  header ← mk_dirhtml_load_file theme_path "header.theme";
  entry ← mk_dirhtml_load_file theme_path "entry.theme";
  footer ← mk_dirhtml_load_file theme_path "footer.theme";
  match header, entry, footer with
  | Some header, Some entry, Some footer =>
    h ← lift (mk_dirhtml_template_create header);
    e ← lift (mk_dirhtml_template_create entry);
    f ← lift (mk_dirhtml_template_create footer);
    mret (Some {| dh_theme_path := theme_path; tpl_header := h; tpl_entry := e; tpl_footer := f |})
  | _, _, _ => mret None
  end.

(** -1 is [None]; the outer one ends the process. *)
Definition mk_dirhtml_conf (confdir : bytes) : M (option (option dirhtml)) :=
  s ← lift (cstr confdir);
  '(conf_file, _) ← lift (mk_string_build s);
  r ← mk_dirhtml_read_config conf_file;
  match r with
  | None => mret None
  | Some (ret, theme_path) =>
    if ret <? 0 then mret (Some None) else g ← mk_dirhtml_theme_load theme_path; mret (Some g)
  end.

Definition _mkp_init (confdir : bytes) : M (option (option dirhtml)) := mk_dirhtml_conf confdir.

(** *** Sending *)

Definition mk_dirhtml_entry_cmp (calls : nat) (a b : mk_f_list) : Z :=
  default 0 (strcasecmp (fl_name a calls) (fl_name b calls)).

Definition mk_dirhtml_send (fd : Z) (cs sr : nat) (iov : mk_iov) : M Z :=
  r ← get_sr cs sr;
  iov ← (if HTTP_PROTOCOL_11 <=? sr_protocol r then
           '(buf, len) ← lift (mk_string_build (hex (u64 (total_len iov - 2)) ++ [13; 10]));
           lift (mk_iov_set_entry iov buf len MK_IOV_FREE_BUF 0)
         else mret iov);
  mk_socket_sendv fd iov.

Definition mk_dirhtml_send_chunked_end (fd : Z) : M Z := mk_socket_send fd (lit "0" ++ [13; 10; 13; 10; 0]) 5.

Definition entry_values (calls : nat) (e : mk_f_list) : option (list dirhtml_value) :=
  let sep := if fl_type e =? DT_DIR then mk_iov_slash else mk_iov_none in
  v ← mk_dirhtml_tag_assign [] 0 sep (fl_name e calls) _tags_entry;
  v ← mk_dirhtml_tag_assign v 1 sep (fl_name e calls) _tags_entry;
  v ← mk_dirhtml_tag_assign v 2 sep (fl_name e calls) _tags_entry;
  v ← mk_dirhtml_tag_assign v 3 mk_iov_none (fl_ft_modif e) _tags_entry;
  mk_dirhtml_tag_assign v 4 mk_iov_none (fl_size e) _tags_entry.

(** The loop over the sorted table of contents; [i] is the next index. *)
Fixpoint send_toc (tpl : list dirhtml_template) (fd : Z) (cs sr : nat) (chunked : bool) (calls : nat) (toc : list mk_f_list) (i : Z)
  : M unit :=
  match toc with
  | [] => mret tt
  | e :: toc =>
    values ← lift (entry_values calls e);
    iov ← lift (mk_dirhtml_theme_compose tpl values chunked);
    n ← mk_dirhtml_send fd cs sr iov;
    (if i mod 20 =? 0 then mk_socket_set_cork_flag fd TCP_CORK_OFF;; mk_socket_set_cork_flag fd TCP_CORK_ON else mret tt);;
    if n <? 0 then mret tt else send_toc tpl fd cs sr chunked calls toc (i + 1)
  end.

(** The headers of a listing. *)
Definition listing_headers (chunked : bool) (r : session_request) : session_request :=
  set_headers (fun sh =>
    let sh := sh <| sh_status := MK_HTTP_OK |> <| sh_cgi := SH_CGI |> <| sh_breakline := MK_HEADER_BREAKLINE |>
                 <| sh_content_type := mk_dirhtml_default_mime |> <| sh_content_length := -1 |> in
    if chunked then sh <| sh_transfer_encoding := MK_HEADER_TE_TYPE_CHUNKED |> else sh) r.

(** The name of every entry is read by the comparisons. *)
Definition mk_dirhtml_init (g : dirhtml) (cs sr : nat) : M Z :=
  c ← get_cs cs;
  r ← get_sr cs sr;
  path ← lift (data (sr_real_path r));
  path ← lift (cstr path);
  t ← gets w_trace;
  match opendir t path with
  | None => mret (-1)
  | Some dir =>
    file_list ← mk_dirhtml_create_list dir 0 path;
    let calls := S (length dir) in
    let chunked := HTTP_PROTOCOL_11 <=? sr_protocol r in
    mod_sr cs sr (listing_headers chunked);;
    title ← lift (mk_pointer_to_buf (sr_uri_processed r));
    values_global ← lift (mk_dirhtml_tag_assign [] 0 mk_iov_none title _tags_global);
    values_global ← lift (mk_dirhtml_tag_assign values_global 1 mk_iov_none (dh_theme_path g) _tags_global);
    iov_header ← lift (mk_dirhtml_theme_compose (tpl_header g) values_global chunked);
    iov_footer ← lift (mk_dirhtml_theme_compose (tpl_footer g) values_global chunked);
    _ ← lift (mapM (fun e => cstr (fl_name e calls)) file_list);
    let toc := qsort (mk_dirhtml_entry_cmp calls) file_list in
    n ← mk_header_send (cs_socket c) cs sr;
    if n <? 0 then mret 0 else
    n ← mk_dirhtml_send (cs_socket c) cs sr iov_header;
    if n <? 0 then mret 0 else
    send_toc (tpl_entry g) (cs_socket c) cs sr chunked calls toc 0;;
    n ← mk_dirhtml_send (cs_socket c) cs sr iov_footer;
    mk_socket_set_cork_flag (cs_socket c) TCP_CORK_OFF;;
    (if chunked && (0 <=? n) then _ ← mk_dirhtml_send_chunked_end (cs_socket c); mret tt else mret tt);;
    mret 0
  end.

(** The socket is made blocking for the listing. *)
Definition _mkp_stage_30 (g : dirhtml) (cs sr : nat) : M Z :=
  c ← get_cs cs;
  r ← get_sr cs sr;
  if fi_size (sr_file_info r) <? 0 then mret MK_PLUGIN_RET_NOT_ME
  else if fi_is_directory (sr_file_info r) =? MK_FALSE then mret MK_PLUGIN_RET_NOT_ME
  else
    t ← gets w_trace;
    emit (EvSetFl (cs_socket c) (Z.land (sys_getfd t (cs_socket c)) (Z.lnot O_NONBLOCK)));;
    _ ← mk_dirhtml_init g cs sr;
    _ ← mk_socket_set_nonblocking (cs_socket c);
    mret MK_PLUGIN_RET_END.
End WithEnv.

(** ** Templates: what is parsed *)

(** Lists as [mk_dirhtml_template_create] makes them: text, then tags each
    followed by text. *)
Definition static_node (n : dirhtml_template) : Prop :=
  exists s, tp_buf n = Some (s ++ [0]) /\ 0 ∉ s /\ tp_len n = Z.of_nat (length s).
Definition tag_node (n : dirhtml_template) : Prop := tp_buf n = None /\ 0 <= tp_tag_id n.

Inductive pairs_ok : list dirhtml_template -> Prop :=
  | pairs_nil : pairs_ok []
  | pairs_snoc l s t : pairs_ok l -> static_node s -> tag_node t -> pairs_ok (l ++ [s; t]).

Definition template_ok (l : list dirhtml_template) : Prop :=
  l = [] \/ exists l' s, l = l' ++ [s] /\ pairs_ok l' /\ static_node s.

Lemma occurs_char s needle k j c :
  occurs_at eq_ci s needle k -> needle !! j = Some c -> exists d, s !! (k + j)%nat = Some d /\ eq_ci d c = true.
Proof.
  intros (u & v & Hd & Hf) Hj. destruct (Forall2_lookup_r _ _ _ _ _ Hf Hj) as (d & Hu & He).
  exists d. split; [|done]. rewrite <- lookup_drop, Hd. now apply lookup_app_l_Some.
Qed.

(** A character that is no letter occurs as it is. *)
Lemma eq_ci_other d c : eq_ci d c = true -> toupper c = c -> ~ (65 <= c <= 90) -> d = c.
Proof. unfold eq_ci, toupper. intros H Hc Hn. repeat case_if_in H; repeat case_if_in Hc; zbool; lia. Qed.

Lemma occurs_fits s needle k : needle <> [] -> occurs_at eq_ci s needle k -> (k + length needle <= length s)%nat.
Proof.
  intros Hne (u & v & Hd & Hf). apply (f_equal length) in Hd. rewrite length_drop, length_app in Hd.
  apply Forall2_length in Hf. destruct needle; [done|cbn in *; lia].
Qed.

(** Searching a text for a text. *)
Lemma search_ci p s q needle len :
  is_cstr p s -> is_cstr q needle ->
  exists r, mk_string_search_n p q MK_STR_INSENSITIVE len = Some r /\ leftmost eq_ci s needle len r.
Proof. now apply mk_string_search_n_leftmost. Qed.

Lemma match_tag_loop_total texts i p s :
  is_cstr p s -> Forall (fun t => t <> [] /\ 0 ∉ t) texts -> 0 <= i ->
  exists r, match_tag_loop texts i p = Some r /\
    (r = -1 \/ exists t, i <= r /\ texts !! Z.to_nat (r - i) = Some t /\ (length t <= length s)%nat).
Proof.
  intros Hp. revert i; induction texts as [|t texts IH]; intros i Ht Hi; cbn [match_tag_loop]; [eauto|].
  apply Forall_cons in Ht as [[Hne H0] Ht]. assert (Htc : is_cstr (t ++ [0]) t) by (split; [by exists []|done]).
  rewrite (strlen_cstr _ _ Htc). mstep.
  destruct (search_ci p s (t ++ [0]) t (Z.of_nat (length t)) Hp Htc) as (r & -> & Hl). mstep.
  destruct Hl as [(k & -> & _ & Hk & _)|[-> _]].
  - replace (0 <=? Z.of_nat k) with true by zb. exists i. split; [done|]. right. exists t.
    rewrite Z.sub_diag. split_and!; [lia|done|]. apply occurs_fits in Hk; [lia|done].
  - cbn [Z.leb Z.compare]. destruct (IH (i + 1) Ht ltac:(lia)) as (r & -> & Hr). exists r. split; [done|].
    destruct Hr as [->|(t' & Hle & Hlk & Hlen)]; [now left|right]. exists t'. split; [lia|]. split; [|done].
    replace (Z.to_nat (r - i)) with (S (Z.to_nat (r - (i + 1)))) by lia. done.
Qed.

Lemma tag_texts_ok tags : Forall (fun t => t <> [] /\ 0 ∉ t) (tag_texts tags).
Proof. destruct tags; repeat (apply Forall_cons_2; [split; [done|decide_closed]|]); apply Forall_nil_2. Qed.

Lemma find_tag_total p s :
  is_cstr p s -> exists tags r, find_tag p = Some (tags, r) /\
    (r = -1 \/ exists t, 0 <= r /\ tag_texts tags !! Z.to_nat r = Some t /\ (0 < length t <= length s)%nat).
Proof.
  intros Hp. unfold find_tag, mk_dirhtml_theme_match_tag.
  assert (Hpos : forall tags r t, tag_texts tags !! r = Some t -> (0 < length t)%nat).
  { intros tags r t H. destruct (Forall_lookup_1 _ _ _ _ (tag_texts_ok tags) H) as [Hne _]. destruct t; [done|cbn; lia]. }
  destruct (match_tag_loop_total (tag_texts _tags_global) 0 p s Hp (tag_texts_ok _) ltac:(lia)) as (r & -> & Hr). mstep.
  destruct Hr as [->|(t & H1 & H2 & H3)].
  - cbn [Z.ltb Z.compare].
    destruct (match_tag_loop_total (tag_texts _tags_entry) 0 p s Hp (tag_texts_ok _) ltac:(lia)) as (r & -> & Hr). mstep.
    exists _tags_entry, r. split; [done|]. destruct Hr as [->|(t & H1 & H2 & H3)]; [now left|right].
    exists t. rewrite Z.sub_0_r in H2. eauto.
  - replace (r <? 0) with false by zb. exists _tags_global, r. split; [done|]. right. exists t. rewrite Z.sub_0_r in H2. eauto.
Qed.

(** A substring, as text. *)
Lemma substr_text content s i j :
  is_cstr content s -> 0 <= i <= j -> j <= Z.of_nat (length s) ->
  let t := take (Z.to_nat (j - i)) (drop (Z.to_nat i) s) in
  mk_string_copy_substr content i j = Some (Some (t ++ [0])) /\ 0 ∉ t /\ Z.of_nat (length t) = j - i.
Proof.
  intros [[r ->] H0] Hi Hj t. rewrite copy_substr_take by (rewrite ?length_app; cbn; lia).
  rewrite drop_app_le, take_app_le by (rewrite ?length_drop; lia). split_and!; [done| |].
  - intros Hin. apply H0. apply (subseteq_take (Z.to_nat (j - i)) (drop (Z.to_nat i) s)) in Hin. by apply (subseteq_drop (Z.to_nat i) s) in Hin.
  - unfold t. rewrite length_take, length_drop. lia.
Qed.

Lemma tag_init_search p s :
  is_cstr p s -> exists r, mk_string_search p MK_DIRHTML_TAG_INIT MK_STR_INSENSITIVE = Some r /\
    (r = -1 \/ 0 <= r <= Z.of_nat (length s)).
Proof.
  intros Hp. destruct (search_ci p s MK_DIRHTML_TAG_INIT (lit "%_") (-1) Hp) as (r & Hr & Hl);
    [split; [by exists []|decide_closed]|].
  exists r. split; [exact Hr|]. destruct Hl as [(k & -> & [Hk _] & _)|[-> _]]; [right; lia|now left].
Qed.

Lemma create_loop_total fuel content s i tpl st n_tags :
  is_cstr content s -> 0 <= i <= Z.of_nat (length s) -> (Z.to_nat (Z.of_nat (length s) - i) < fuel)%nat -> pairs_ok st ->
  exists i' tpl' st' n', create_loop fuel content (Z.of_nat (length s)) i tpl st n_tags = Some (i', tpl', st', n') /\
    0 <= i' <= Z.of_nat (length s) /\ pairs_ok st'.
Proof.
  intros Hc. revert i tpl st n_tags; induction fuel as [|fuel IH]; intros i tpl st n_tags Hi Hf Hst; [lia|].
  cbn [create_loop]. destruct (Z.of_nat (length s) <=? i) eqn:E; zbool; [by eexists _, _, _, _|].
  assert (Hl : Z.of_nat (length s) < Z.of_nat (length content)) by (destruct Hc as [[r ->] _]; rewrite length_app; cbn; lia).
  rewrite padd_drop by lia. mstep. pose proof (is_cstr_drop content s (Z.to_nat i) Hc ltac:(lia)) as Hp.
  destruct (tag_init_search _ _ Hp) as (pos & -> & Hpos). mstep. rewrite length_drop in Hpos.
  destruct Hpos as [->|Hpos]; [cbn [Z.ltb Z.compare]; by eexists _, _, _, _|].
  replace (pos <? 0) with false by zb. rewrite padd_drop by (rewrite length_drop; lia). mstep. rewrite drop_drop.
  pose proof (is_cstr_drop content s (Z.to_nat i + Z.to_nat pos) Hc ltac:(lia)) as Hq.
  destruct (find_tag_total _ _ Hq) as (tags & r & -> & Hr). mstep. rewrite length_drop in Hr.
  destruct Hr as [->|(t & Hr0 & Ht & Hlen)]; [cbn [Z.leb Z.compare]; apply IH; [lia|lia|done]|].
  replace (0 <=? r) with true by zb.
  destruct (substr_text content s i (i + pos) Hc ltac:(lia) ltac:(lia)) as (-> & H0 & Hn). mstep.
  set (u := take _ _) in *. rewrite (strlen_cstr _ u) by (split; [by exists []|done]). mstep. rewrite Ht. mstep.
  apply IH; [lia|lia|]. unfold mk_dirhtml_template_list_add. rewrite <- app_assoc. apply pairs_snoc; [done| |done].
  by exists u.
Qed.

(** The parser of the themes is total: for every text it ends, reads and
    writes inside of its strings and gives a list that begins and ends with text,
    every tag being between two texts, however tags, broken tags and percent
    signs follow one another. *)
Theorem mk_dirhtml_template_create_total content s :
  is_cstr content s ->
  exists l, mk_dirhtml_template_create content = Some l /\ template_ok l /\ (l = [] <-> s = []).
Proof.
  intros Hc. unfold mk_dirhtml_template_create. rewrite (strlen_cstr _ _ Hc). mstep.
  destruct (Z.of_nat (length s) <=? 0) eqn:E; zbool.
  { exists []. split; [done|]. split; [now left|]. destruct s; [done|cbn in *; lia]. }
  rewrite Nat2Z.id.
  destruct (create_loop_total (S (length s)) content s 0 None [] 0 Hc ltac:(lia) ltac:(lia) pairs_nil)
    as (i & tpl & st & n & -> & Hi & Hst). mstep.
  destruct (substr_text content s i (Z.of_nat (length s)) Hc ltac:(lia) ltac:(lia)) as (-> & H0 & Hn). mstep.
  set (u := take _ _) in *. rewrite (strlen_cstr _ u) by (split; [by exists []|done]). mstep.
  eexists. split; [reflexivity|]. unfold mk_dirhtml_template_list_add. split.
  - right. eexists _, _. split; [reflexivity|]. split; [case_if; [apply pairs_nil|done]|]. by exists u.
  - split; [intros Hl; by apply app_eq_nil in Hl as [_ ?]|]. intros ->. cbn in *. lia.
Qed.

(** *** A theme printed and parsed *)

(** A tag, and the text that follows it. *)
Definition tag_item : Type := tag_table * nat * bytes.
Definition tag_text (t : tag_table) (i : nat) : bytes := nth i (tag_texts t) [].
Definition theme_item (e : tag_item) : bytes := tag_text e.1.1 e.1.2 ++ e.2.
Definition theme_text (s : bytes) (l : list tag_item) : bytes := s ++ concat (map theme_item l).

(** No "%_" begins in the text. *)
Definition plain (s : bytes) : Prop := forall k, s !! k = Some 37 -> s !! S k <> Some 95.

(** Texts that keep the tags apart: the parser takes an underscore after a tag
    for the start of one, and looks for the tags at the first 16 positions. *)
Record item_ok (e : tag_item) (last : bool) : Prop := {
  it_tag : (e.1.2 < length (tag_texts e.1.1))%nat;
  it_text : 0 ∉ e.2 /\ plain e.2;
  it_apart : head e.2 <> Some 95 /\ (last = false -> (2 <= length e.2)%nat);
}.
Fixpoint items_ok (l : list tag_item) : Prop :=
  match l with [] => True | e :: l => item_ok e (match l with [] => true | _ => false end) /\ items_ok l end.

Definition text_node (s : bytes) (tpl : option tag_table) : dirhtml_template :=
  {| tp_buf := Some (s ++ [0]); tp_tag_id := -1; tp_len := Z.of_nat (length s); tp_tags := tpl |}.
Definition value_node (t : tag_table) (i : nat) : dirhtml_template :=
  {| tp_buf := None; tp_tag_id := Z.of_nat i; tp_len := -1; tp_tags := Some t |}.
Fixpoint theme_nodes (s : bytes) (l : list tag_item) : list dirhtml_template :=
  match l with
  | [] => []
  | (t, i, u) :: l => text_node s (Some t) :: value_node t i :: theme_nodes u l
  end.
Fixpoint last_text (s : bytes) (l : list tag_item) : bytes :=
  match l with [] => s | (_, _, u) :: l => last_text u l end.

(** What follows a text: nothing, or a tag. *)
Definition tag_or_end (tl : bytes) : Prop := tl = [] \/ exists tl', tl = 37 :: 95 :: tl'.

Lemma init_occurs s k : occurs_at eq_ci s (lit "%_") k <-> s !! k = Some 37 /\ s !! S k = Some 95.
Proof.
  split.
  - intros H. destruct (occurs_char _ _ _ 0%nat 37 H eq_refl) as (d & H1 & E1).
    destruct (occurs_char _ _ _ 1%nat 95 H eq_refl) as (d' & H2 & E2).
    apply eq_ci_other in E1 as ->; [|done|lia]. apply eq_ci_other in E2 as ->; [|done|lia].
    rewrite Nat.add_0_r in H1. rewrite Nat.add_1_r in H2. done.
  - intros [H1 H2]. exists [37; 95], (drop (S (S k)) s). split; [|by repeat constructor].
    rewrite (drop_S _ _ _ H1), (drop_S _ _ _ H2). done.
Qed.

(** The first "%_" of a plain text and what follows is behind the text. *)
Lemma plain_prefix s tl k :
  plain s -> tag_or_end tl -> (k < length s)%nat -> ~ occurs_at eq_ci (s ++ tl) (lit "%_") k.
Proof.
  intros Hs Htl Hk [H1 H2]%init_occurs. rewrite lookup_app_l in H1 by done.
  destruct (decide (S k < length s)%nat) as [Hlt|Hge].
  - rewrite lookup_app_l in H2 by done. now apply (Hs k).
  - replace (S k) with (length s) in H2 by lia. rewrite lookup_app_r, Nat.sub_diag in H2 by done.
    destruct Htl as [->|[tl' ->]]; done.
Qed.

Lemma init_search p s tl :
  is_cstr p (s ++ tl) -> plain s -> tag_or_end tl ->
  mk_string_search p MK_DIRHTML_TAG_INIT MK_STR_INSENSITIVE =
  Some (match tl with [] => -1 | _ => Z.of_nat (length s) end).
Proof.
  intros Hp Hs Htl. destruct (search_ci p (s ++ tl) MK_DIRHTML_TAG_INIT (lit "%_") (-1) Hp) as (r & Hr & Hl);
    [split; [by exists []|decide_closed]|].
  unfold mk_string_search. unfold mk_string_search_n in Hr. rewrite Hr. f_equal.
  destruct Htl as [->|[tl' ->]].
  - destruct Hl as [(k & -> & [Hk _] & Ho & _)|[-> _]]; [exfalso|done].
    destruct (decide (k < length s)%nat) as [Hlt|Hge].
    + apply (plain_prefix s [] k Hs ltac:(now left) Hlt Ho).
    + apply init_occurs in Ho as [Ho _]. apply lookup_lt_Some in Ho. rewrite app_nil_r in Ho. lia.
  - assert (Hat : occurs_at eq_ci (s ++ 37 :: 95 :: tl') (lit "%_") (length s)).
    { apply init_occurs. rewrite !lookup_app_r, Nat.sub_diag by lia. replace (S (length s) - length s)%nat with 1%nat by lia. done. }
    destruct Hl as [(k & -> & _ & Ho & Hmin)|[-> Hno]].
    + f_equal. destruct (Nat.lt_trichotomy k (length s)) as [Hlt|[->|Hgt]]; [exfalso|done|exfalso].
      * apply (plain_prefix s (37 :: 95 :: tl') k); [done|right; eauto|done|done].
      * by apply (Hmin (length s)).
    + exfalso. apply (Hno (length s)); [|done]. split; [rewrite length_app; lia|lia].
Qed.

Definition all_tags : list bytes := tag_texts _tags_global ++ tag_texts _tags_entry.
Definition tags_differ (a b : bytes) : bool := existsb (fun '(x, y) => negb (eq_ci x y)) (zip a b).
(** The form of a tag: it begins with "%_", and that is nowhere else in it. *)
Definition tag_form (a : bytes) : bool :=
  (14 <=? length a)%nat && (length a <=? 16)%nat && bool_decide (take 2 a = lit "%_") &&
  forallb (fun k => negb (bool_decide (a !! k = Some 37) && bool_decide (a !! S k = Some 95))) (seq 1 15).

Lemma all_tags_form : Forall (fun a => tag_form a = true) all_tags.
Proof. repeat (apply Forall_cons_2; [vm_compute; reflexivity|]). apply Forall_nil_2. Qed.

Lemma all_tags_differ i j a b : i <> j -> all_tags !! i = Some a -> all_tags !! j = Some b -> tags_differ a b = true.
Proof.
  intros Hne Ha Hb. pose proof (lookup_lt_Some _ _ _ Ha) as Hi. pose proof (lookup_lt_Some _ _ _ Hb) as Hj.
  assert (H : forallb (fun i => forallb (fun j => (i =? j)%nat || tags_differ (nth i all_tags []) (nth j all_tags [])) (seq 0 7)) (seq 0 7) = true)
    by (vm_compute; reflexivity).
  rewrite forallb_forall in H. specialize (H i ltac:(apply in_seq; cbn in *; lia)). rewrite forallb_forall in H.
  specialize (H j ltac:(apply in_seq; cbn in *; lia)). replace (i =? j)%nat with false in H by (symmetry; now apply Nat.eqb_neq).
  now rewrite (nth_lookup_Some _ _ _ _ Ha), (nth_lookup_Some _ _ _ _ Hb) in H.
Qed.

Lemma tag_form_facts a :
  tag_form a = true -> (14 <= length a <= 16)%nat /\ a !! 0%nat = Some 37 /\ a !! 1%nat = Some 95 /\
  forall k, (0 < k)%nat -> a !! k = Some 37 -> a !! S k = Some 95 -> False.
Proof.
  unfold tag_form. rewrite !andb_true_iff, !Nat.leb_le, bool_decide_eq_true. intros [[[H1 H2] H3] H4].
  split; [lia|]. split; [|split].
  - rewrite <- (lookup_take_lt a 2) by lia. now rewrite H3.
  - rewrite <- (lookup_take_lt a 2) by lia. now rewrite H3.
  - intros k Hk Ha Hb. pose proof (lookup_lt_Some _ _ _ Ha). rewrite forallb_forall in H4.
    specialize (H4 k ltac:(apply in_seq; lia)). rewrite !bool_decide_true in H4 by done. done.
Qed.

(** What follows a tag in a theme whose tags are kept apart. *)
Record after_tag (u tl : bytes) : Prop := {
  af_plain : plain u;
  af_head : head u <> Some 95;
  af_tail : tag_or_end tl;
  af_room : tl <> [] -> (2 <= length u)%nat;
}.

Lemma no_other_tag a b u tl k :
  tag_form a = true -> tag_form b = true -> tags_differ a b = true -> after_tag u tl -> (k < length b)%nat ->
  ~ occurs_at eq_ci (a ++ u ++ tl) b k.
Proof.
  intros Ha Hb Hd [Hp Hh Htl Hroom] Hk Ho. apply tag_form_facts in Ha as (La & _ & _ & Ha).
  apply tag_form_facts in Hb as (Lb & B0 & B1 & _).
  destruct (occurs_char _ _ _ 0%nat 37 Ho B0) as (d & H1 & E1). destruct (occurs_char _ _ _ 1%nat 95 Ho B1) as (d' & H2 & E2).
  apply eq_ci_other in E1 as ->; [|done|lia]. apply eq_ci_other in E2 as ->; [|done|lia].
  rewrite Nat.add_0_r in H1. rewrite Nat.add_1_r in H2.
  destruct (decide (k = 0%nat)) as [->|Hk0]; [|destruct (decide (S k < length a)%nat) as [Hlt|Hge]].
  - unfold tags_differ in Hd. apply existsb_exists in Hd as ([x y] & Hin & Hne).
    apply list_elem_of_In, list_elem_of_lookup_1 in Hin as [j Hj]. apply lookup_zip_Some in Hj as [Hx Hy].
    destruct (occurs_char _ _ _ j y Ho Hy) as (d & Hd & He). cbn in Hd.
    rewrite (lookup_app_l_Some _ _ _ _ Hx) in Hd. injection Hd as ->. by rewrite He in Hne.
  - rewrite lookup_app_l in H1, H2 by lia. apply (Ha k); [lia|done|done].
  - destruct (decide (S k = length a)) as [Heq|Hne].
    + rewrite Heq, lookup_app_r, Nat.sub_diag in H2 by done. destruct u as [|c u]; [|by injection H2 as ->].
      destruct tl; [done|]. specialize (Hroom ltac:(done)). cbn in Hroom. lia.
    + rewrite lookup_app_r in H1, H2 by lia. replace (S k - length a)%nat with (S (k - length a)) in H2 by lia.
      destruct (decide (k - length a < length u)%nat) as [Hu|Hu].
      * apply (plain_prefix u tl (k - length a) Hp Htl Hu). now apply init_occurs.
      * destruct tl as [|c tl]; [rewrite app_nil_r in H1; apply lookup_lt_Some in H1; lia|].
        specialize (Hroom ltac:(done)). lia.
Qed.

(** Texts that are not found are passed over; one that is there is found. *)
Lemma match_tag_loop_skip texts i p s rest :
  is_cstr p s ->
  Forall (fun b => (b <> [] /\ 0 ∉ b) /\ forall k, (k < length b)%nat -> ~ occurs_at eq_ci s b k) texts ->
  match_tag_loop (texts ++ rest) i p = match_tag_loop rest (i + Z.of_nat (length texts)) p.
Proof.
  intros Hp H. revert i; induction texts as [|b texts IH]; intros i; cbn [app length]; [now rewrite Z.add_0_r|].
  apply Forall_cons in H as [[[Hne H0] Hno] H]. cbn [match_tag_loop].
  assert (Htc : is_cstr (b ++ [0]) b) by (split; [by exists []|done]). rewrite (strlen_cstr _ _ Htc). mstep.
  destruct (search_ci p s (b ++ [0]) b (Z.of_nat (length b)) Hp Htc) as (r & -> & Hl). mstep.
  assert (0 < length b)%nat by (destruct b; [done|cbn; lia]).
  destruct Hl as [(k & -> & [_ Hk] & Ho & _)|[-> _]]; [exfalso; apply (Hno k); [lia|done]|].
  cbn [Z.leb Z.compare]. rewrite IH by done. f_equal. lia.
Qed.

Lemma match_tag_loop_hit a rest i p s :
  is_cstr p s -> 0 ∉ a -> a <> [] -> occurs_at eq_ci s a 0 -> match_tag_loop (a :: rest) i p = Some i.
Proof.
  intros Hp H0 Hne Ho. cbn [match_tag_loop].
  assert (Htc : is_cstr (a ++ [0]) a) by (split; [by exists []|done]). rewrite (strlen_cstr _ _ Htc). mstep.
  destruct (search_ci p s (a ++ [0]) a (Z.of_nat (length a)) Hp Htc) as (r & -> & Hl). mstep.
  destruct Hl as [(k & -> & _)|[-> Hno]]; [now replace (0 <=? Z.of_nat k) with true by zb|].
  exfalso. apply (Hno 0%nat); [split; [lia|destruct a; [done|cbn; lia]]|done].
Qed.

Lemma occurs_prefix a tl : occurs_at eq_ci (a ++ tl) a 0.
Proof.
  exists a, tl. split; [done|]. induction a; constructor; [|done]. unfold eq_ci. apply Z.eqb_refl.
Qed.

Lemma tag_at t i : (i < length (tag_texts t))%nat ->
  tag_texts t !! i = Some (tag_text t i) /\
  all_tags !! (match t with _tags_global => i | _tags_entry => (2 + i)%nat end) = Some (tag_text t i).
Proof.
  intros Hi. unfold tag_text. destruct (lookup_lt_is_Some_2 _ _ Hi) as [x Hx].
  rewrite (nth_lookup_Some _ _ _ _ Hx). split; [done|]. unfold all_tags. destruct t; [now apply lookup_app_l_Some|].
  exact Hx.
Qed.

Lemma others_absent t i u tl js :
  (i < length (tag_texts t))%nat -> after_tag u tl ->
  (match t with _tags_global => i | _tags_entry => (2 + i)%nat end) ∉ js ->
  forall texts, Forall2 (fun j b => all_tags !! j = Some b) js texts ->
  Forall (fun b => (b <> [] /\ 0 ∉ b) /\ forall k, (k < length b)%nat -> ~ occurs_at eq_ci (tag_text t i ++ u ++ tl) b k) texts.
Proof.
  intros Hi Haf Hn texts H. destruct (tag_at t i Hi) as [_ Ha]. set (ia := match t with _tags_global => _ | _ => _ end) in *.
  induction H as [|j b js texts Hj H IH]; constructor.
  - apply not_elem_of_cons in Hn as [Hne _]. split.
    + assert (Hall : Forall (fun t => t <> [] /\ 0 ∉ t) all_tags) by (apply Forall_app_2; apply tag_texts_ok).
      apply (Forall_lookup_1 _ _ _ _ Hall Hj).
    + intros k Hk. apply no_other_tag; try done.
      * apply (Forall_lookup_1 _ _ _ _ all_tags_form Ha).
      * apply (Forall_lookup_1 _ _ _ _ all_tags_form Hj).
      * now apply (all_tags_differ ia j).
  - apply IH. now apply not_elem_of_cons in Hn as [_ ?].
Qed.

Lemma find_tag_spec p t i u tl :
  (i < length (tag_texts t))%nat -> after_tag u tl -> is_cstr p (tag_text t i ++ u ++ tl) ->
  find_tag p = Some (t, Z.of_nat i).
Proof.
  intros Hi Haf Hp. destruct (tag_at t i Hi) as [Hat _].
  destruct (Forall_lookup_1 _ _ _ _ (tag_texts_ok t) Hat) as [Hne H0].
  assert (Hown : forall i0, match_tag_loop (tag_texts t) i0 p = Some (i0 + Z.of_nat i)).
  { intros i0. rewrite <- (take_drop_middle _ _ _ Hat). rewrite (match_tag_loop_skip _ _ _ _ _ Hp).
    - rewrite (match_tag_loop_hit _ _ _ _ _ Hp H0 Hne (occurs_prefix _ _)), length_take. f_equal. lia.
    - apply (others_absent t i u tl (match t with _tags_global => seq 0 i | _tags_entry => seq 2 i end) Hi Haf).
      + rewrite list_elem_of_In. destruct t; rewrite in_seq; lia.
      + apply Forall2_same_length_lookup_2; [destruct t; rewrite length_seq, length_take; lia|].
        intros j x y Hx Hy. apply lookup_take_Some in Hy as [Hy Hj].
        destruct t; apply lookup_seq in Hx as [-> _]; unfold all_tags; [now apply lookup_app_l_Some|].
        rewrite lookup_app_r by (cbn; lia). rewrite <- Hy. f_equal. cbn. lia. }
  unfold find_tag, mk_dirhtml_theme_match_tag. destruct t.
  - rewrite Hown. mstep. rewrite Z.add_0_l. now replace (Z.of_nat i <? 0) with false by zb.
  - pose proof (match_tag_loop_skip (tag_texts _tags_global) 0 p _ [] Hp) as Hg. rewrite app_nil_r in Hg. rewrite Hg.
    + cbn [match_tag_loop]. mstep. cbn [Z.ltb Z.compare]. rewrite Hown. mstep. done.
    + apply (others_absent _tags_entry i u tl (seq 0 2) Hi Haf); [rewrite list_elem_of_In, in_seq; lia|].
      repeat constructor.
Qed.

Lemma tag_text_form t i : (i < length (tag_texts t))%nat -> exists r, tag_text t i = 37 :: 95 :: r.
Proof.
  intros Hi. destruct (tag_at t i Hi) as [_ Ha]. pose proof (Forall_lookup_1 _ _ _ _ all_tags_form Ha) as Hf.
  apply tag_form_facts in Hf as (_ & H0 & H1 & _). destruct (tag_text t i) as [|a [|b r]]; [done|done|].
  cbn in H0, H1. simplify_eq. eauto.
Qed.

Lemma items_tail l : items_ok l -> tag_or_end (concat (map theme_item l)).
Proof.
  destruct l as [|[[t i] u] l]; [now left|]. intros [[Hi _ _] _]. destruct (tag_text_form t i Hi) as [r Hr].
  right. cbn. unfold theme_item. cbn [fst snd]. rewrite Hr. eauto.
Qed.

Lemma item_after t i u l : items_ok ((t, i, u) :: l) -> after_tag u (concat (map theme_item l)).
Proof.
  intros [[_ [_ Hp] [Hh Hr]] Hl]. split; [done|done|now apply items_tail|]. intros Hne. destruct l; [done|]. now apply Hr.
Qed.

(** The table of the last tag. *)
Fixpoint last_table (tpl : option tag_table) (l : list tag_item) : option tag_table :=
  match l with [] => tpl | (t, _, _) :: l => last_table (Some t) l end.

(** One round of the loop takes a text and its tag. *)
Lemma create_loop_item fuel done s t i u tl tpl st n :
  let tag := tag_text t i in
  let text := done ++ s ++ tag ++ u ++ tl in
  0 ∉ text -> plain s -> (i < length (tag_texts t))%nat -> after_tag u tl ->
  create_loop (S fuel) (text ++ [0]) (Z.of_nat (length text)) (Z.of_nat (length done)) tpl st n =
  create_loop fuel (text ++ [0]) (Z.of_nat (length text)) (Z.of_nat (length (done ++ s ++ tag))) (Some t)
    (st ++ [text_node s (Some t); value_node t i]) (n + 1).
Proof.
  intros tag text H0 Hs Hi Haf. destruct (tag_text_form t i Hi) as [r Hr]. fold tag in Hr.
  assert (Hl : length text = (length done + (length s + (length tag + (length u + length tl))))%nat)
    by (unfold text; now rewrite !length_app).
  assert (2 <= length tag)%nat by (rewrite Hr; cbn; lia).
  assert (Hsub : forall a b, text = a ++ b -> is_cstr (b ++ [0]) b).
  { intros a b ->. split; [by exists []|]. intros Hin. apply H0. rewrite elem_of_app. now right. }
  cbn [create_loop]. replace (_ <=? _) with false by zb.
  rewrite padd_drop by (rewrite !length_app; cbn; lia). mstep. rewrite Nat2Z.id.
  replace (drop (length done) (text ++ [0])) with ((s ++ tag ++ u ++ tl) ++ [0])
    by (unfold text; now rewrite <- (app_assoc done), drop_app_length).
  rewrite (init_search _ s (tag ++ u ++ tl) (Hsub done _ eq_refl) Hs) by (right; rewrite Hr; eauto). mstep.
  replace (match tag ++ u ++ tl with [] => -1 | _ => Z.of_nat (length s) end) with (Z.of_nat (length s)) by (rewrite Hr; done).
  replace (Z.of_nat (length s) <? 0) with false by zb. rewrite padd_drop by (rewrite !length_app; cbn; lia). mstep.
  rewrite Nat2Z.id. replace (drop (length s) ((s ++ tag ++ u ++ tl) ++ [0])) with ((tag ++ u ++ tl) ++ [0])
    by now rewrite <- (app_assoc s), drop_app_length.
  rewrite (find_tag_spec _ t i u tl Hi Haf) by (apply (Hsub (done ++ s)); unfold text; now rewrite <- app_assoc). mstep.
  replace (0 <=? Z.of_nat i) with true by zb.
  replace (text ++ [0]) with (done ++ s ++ ((tag ++ u ++ tl) ++ [0])) at 1 by (unfold text; now rewrite <- !app_assoc).
  rewrite copy_substr_at by lia. mstep.
  rewrite (strlen_cstr _ s) by (split; [by exists []|]; intros Hin; apply H0; unfold text; rewrite !elem_of_app; tauto).
  mstep. rewrite Nat2Z.id, (proj1 (tag_at t i Hi)). mstep. fold tag. unfold mk_dirhtml_template_list_add.
  rewrite <- app_assoc, !length_app. f_equal. lia.
Qed.

Lemma create_loop_theme fuel done s l tpl st n :
  let text := done ++ theme_text s l in
  0 ∉ text -> plain s -> items_ok l -> (length (theme_text s l) < fuel)%nat ->
  create_loop fuel (text ++ [0]) (Z.of_nat (length text)) (Z.of_nat (length done)) tpl st n =
  Some (Z.of_nat (length text) - Z.of_nat (length (last_text s l)), last_table tpl l, st ++ theme_nodes s l, n + Z.of_nat (length l)).
Proof.
  revert fuel done s tpl st n. induction l as [|[[t i] u] l IH]; intros fuel done s tpl st n text H0 Hs Hl Hf;
    (destruct fuel as [|fuel]; [lia|]).
  - assert (Ht : text = done ++ s) by (unfold text, theme_text; cbn; now rewrite app_nil_r). clearbody text. subst text.
    cbn [last_text last_table theme_nodes length create_loop]. rewrite app_nil_r, Z.add_0_r, length_app.
    replace (Z.of_nat (length done + length s) - Z.of_nat (length s)) with (Z.of_nat (length done)) by lia.
    case_if; zbool; [done|]. rewrite padd_drop by (rewrite !length_app; cbn; lia). mstep.
    rewrite Nat2Z.id, <- app_assoc, drop_app_length.
    rewrite (init_search _ s []); [done| |done|now left]. rewrite app_nil_r. split; [by exists []|].
    intros Hin. apply H0. rewrite elem_of_app. now right.
  - pose proof Hl as [[Hi [Hu0 Hu] _] Hl']. set (tl := concat (map theme_item l)).
    assert (Ht : theme_text s (((t, i, u) : tag_item) :: l) = s ++ tag_text t i ++ u ++ tl)
      by (unfold theme_text; cbn; unfold theme_item; cbn; now rewrite <- app_assoc).
    assert (Hx : text = done ++ s ++ tag_text t i ++ u ++ tl) by (unfold text; now rewrite Ht).
    clearbody text. subst text. rewrite Ht in Hf. rewrite create_loop_item;
      [|done|done|done|exact (item_after _ _ _ _ Hl)].
    specialize (IH fuel (done ++ s ++ tag_text t i) u (Some t) (st ++ [text_node s (Some t); value_node t i]) (n + 1)).
    unfold theme_text in IH. fold tl in IH.
    replace ((done ++ s ++ tag_text t i) ++ u ++ tl) with (done ++ s ++ tag_text t i ++ u ++ tl) in IH
      by now rewrite <- !app_assoc.
    rewrite IH; [|done|done|done|].
    + cbn [last_text last_table theme_nodes length]. do 2 f_equal; [|lia]. f_equal. now rewrite <- !app_assoc.
    + destruct (tag_text_form t i Hi) as [r Hr]. rewrite Hr in Hf. rewrite !length_app in *. cbn in Hf. lia.
Qed.

Lemma theme_split s l : exists a, theme_text s l = a ++ last_text s l.
Proof.
  revert s; induction l as [|[[t i] u] l IH]; intros s; [exists []; unfold theme_text; cbn; now rewrite app_nil_r|].
  destruct (IH u) as [a Ha]. exists (s ++ tag_text t i ++ a). unfold theme_text in *. cbn. unfold theme_item at 1. cbn [fst snd].
  now rewrite <- !app_assoc, Ha.
Qed.

(** A theme made of text and tags is parsed back into its pieces, in order:
    every text between the tags and every tag, under the table it belongs to. The
    tags have to be kept apart: two characters of text after each one that another
    one follows, no underscore right behind a tag, no other "%_". *)
Theorem mk_dirhtml_template_create_theme s l :
  theme_text s l <> [] -> 0 ∉ theme_text s l -> plain s -> items_ok l ->
  mk_dirhtml_template_create (theme_text s l ++ [0]) =
  Some (theme_nodes s l ++ [text_node (last_text s l) (last_table None l)]).
Proof.
  intros Hne H0 Hs Hl. unfold mk_dirhtml_template_create. set (text := theme_text s l) in *.
  assert (Hc : is_cstr (text ++ [0]) text) by (split; [by exists []|done]).
  rewrite (strlen_cstr _ _ Hc). mstep. assert (0 < length text)%nat by (destruct text; [done|cbn; lia]).
  replace (Z.of_nat (length text) <=? 0) with false by zb. rewrite Nat2Z.id.
  pose proof (create_loop_theme (S (length text)) [] s l None [] 0) as Hrun.
  cbn [app] in Hrun. change (Z.of_nat (length [])) with 0 in Hrun. fold text in Hrun.
  rewrite Hrun by (done || lia). mstep. destruct (theme_split s l) as [a Ha]. fold text in Ha.
  assert (0 ∉ last_text s l) by (intros Hin; apply H0; rewrite Ha, elem_of_app; now right).
  rewrite Ha at 1. rewrite <- app_assoc. rewrite copy_substr_at by (rewrite Ha, length_app; lia). mstep.
  rewrite (strlen_cstr _ (last_text s l)) by (split; [by exists []|done]). mstep.
  unfold mk_dirhtml_template_list_add. f_equal. f_equal. case_if; [|done]. zbool. destruct l; [done|cbn in *; lia].
Qed.

Lemma mk_dirhtml_template_create_total_witness :
  exists l, mk_dirhtml_template_create (clit "%_%_html_title_%%_x") = Some l /\ template_ok l /\
    (l = [] <-> lit "%_%_html_title_%%_x" = []).
Proof.
  apply (mk_dirhtml_template_create_total (clit "%_%_html_title_%%_x") (lit "%_%_html_title_%%_x")).
  apply is_cstr_clit. decide_closed.
Defined.

(** The entry of the theme "guineo", without its indentation. *)
Definition entry_theme_items : list tag_item :=
  [(_tags_entry, 0%nat, lit "' href='"); (_tags_entry, 1%nat, lit "'>" ++ [10]); (_tags_entry, 2%nat, [10] ++ lit "</A></TD><TD>");
   (_tags_entry, 3%nat, lit "</TD><TD>"); (_tags_entry, 4%nat, [10; 9]); (_tags_global, 1%nat, [10] ++ lit "</TD></TR>")].

(** Decides [plain]. *)
Fixpoint plainb (s : bytes) : bool :=
  match s with
  | c :: ((d :: _) as s') => negb ((c =? 37) && (d =? 95)) && plainb s'
  | _ => true
  end.
Lemma plainb_plain s : plainb s = true -> plain s.
Proof.
  induction s as [|c s IH]; intros H k H1 H2; [done|]. destruct s as [|d s]; [by destruct k|].
  cbn [plainb] in H. apply andb_true_iff in H as [Hc H]. destruct k as [|k]; [|by apply (IH H k)].
  by cbn in H1, H2; simplify_eq.
Qed.

Lemma mk_dirhtml_template_create_theme_witness :
  mk_dirhtml_template_create (theme_text (lit "<A title='") entry_theme_items ++ [0]) =
  Some (theme_nodes (lit "<A title='") entry_theme_items ++
        [text_node (last_text (lit "<A title='") entry_theme_items) (last_table None entry_theme_items)]).
Proof.
  apply (mk_dirhtml_template_create_theme (lit "<A title='") entry_theme_items).
  - discriminate.
  - decide_closed.
  - apply plainb_plain. reflexivity.
  - repeat (split; [split; [cbn; lia|split; [decide_closed|apply plainb_plain; reflexivity]|split; [discriminate|cbn; lia]]|]). exact I.
Defined.

(** An unknown tag takes the text before it away, a tag right behind another may
    be taken for it. *)
Example unknown_tag_drops_text :
  mk_dirhtml_template_create (clit "abc%_x") = Some [text_node (lit "_x") (Some _tags_entry)].
Proof. reflexivity. Qed.
Example adjacent_tags_mixed :
  mk_dirhtml_template_create (clit "%_target_url_%%_target_title_%") =
  Some [text_node [] (Some _tags_entry); value_node _tags_entry 0; text_node (lit "target_title_%") (Some _tags_entry)].
Proof. reflexivity. Qed.
