(* ===== verification/DirListingSpec.v ===== *)
(** * plugins/dirlisting: what a client is sent

    The vectors composed from the templates, the entries listed, the chunks and
    the whole answer. *)
From S2P Require Import Prelude CString MkString MkMemory MkUtils MkTypes MkToc MkSession MkEpoll MkPlugin MkConfig MkFile MkResponse Chunked DirListing.
Import Iov.
Local Open Scope Z_scope.

(** ** Vectors *)

(** The text of a value with its separator. *)
Definition value_text (v : dirhtml_value) : bytes :=
  default [] (b ← va_value v; memread b (va_len v)) ++ default [] (view (va_sep v)).
Definition value_ok (v : dirhtml_value) : Prop :=
  (exists s, reads (va_value v) (va_len v) s) /\ (exists t, reads (data (va_sep v)) (len (va_sep v)) t).

(** What a node of a template becomes. *)
Definition node_text (values : list dirhtml_value) (n : dirhtml_template) : bytes :=
  match tp_buf n with
  | Some b => default [] (memread b (tp_len n))
  | None => match find_value values (tp_tags n) (tp_tag_id n) with Some v => value_text v | None => [] end
  end.

(** A vector whose first cell waits for the header of a chunk. *)
Record first_free (m : mk_iov) : Prop := {
  ff_first : io m !! 0%nat = Some (Some empty_iovec);
  ff_idx : 1 <= iov_idx m;
  ff_buf : buf_idx m = 0;
}.
Record reserved (m : mk_iov) (d : bytes) : Prop := { rs_ok : iov_ok m d; rs_first : first_free m }.

Lemma reads_view base n s : reads base n s -> default [] (b ← base; memread b n) = s.
Proof.
  intros (Hl & _ & [->|(b & -> & Hb)]).
  - destruct base as [b|]; [|done]. mstep. cbn in Hl. subst n. now destruct b.
  - mstep. now rewrite Hb.
Qed.

Lemma push_first m base n m' : first_free m -> push m base n = Some m' -> first_free m'.
Proof.
  intros [Hf Hi Hb] H. unfold push, store in H. case_if_in H; [|done]. cbn in H. injection H as <-.
  split; cbn; [|lia|done]. rewrite list_lookup_insert_ne by lia. done.
Qed.

Lemma add_first m base n sep r m' :
  first_free m -> mk_iov_add_entry m base n sep MK_IOV_NOT_FREE_BUF = Some (m', r) -> first_free m'.
Proof.
  intros Hf H. unfold mk_iov_add_entry in H. destruct (push m base n) as [m1|] eqn:E1; [|done].
  apply (push_first _ _ _ _ Hf) in E1. cbn [mbind option_bind] in H.
  destruct (if 0 <? len sep then push m1 (data sep) (len sep) else Some m1) as [m2|] eqn:E2; [|done].
  assert (Hf2 : first_free m2) by (case_if_in E2; [eapply push_first; [exact E1|exact E2]|now injection E2 as <-]).
  cbn in H. case_if_in H; [done|]. now injection H as <- _.
Qed.

Lemma add_reserved m d buf n sep s t :
  reserved m d -> iov_idx m + entry_cells sep <= size m -> reads buf n s -> reads (data sep) (len sep) t ->
  Z.of_nat (length d) + n + len sep < 2 ^ 64 ->
  exists m' r, mk_iov_add_entry m buf n sep MK_IOV_NOT_FREE_BUF = Some (m', r) /\
    reserved m' (d ++ s ++ t) /\ size m' = size m /\ iov_idx m' = iov_idx m + entry_cells sep.
Proof.
  intros [Hok Hf] Hroom Hs Ht Hlen.
  destruct (add_entry_at m d (iov_idx m) buf n sep MK_IOV_NOT_FREE_BUF s t (ok_at _ _ Hok) Hroom Hs Ht ltac:(done))
    as (m' & Hm & Hat & Hsz & Htot).
  exists m', (iov_idx m + entry_cells sep). split; [exact Hm|]. rewrite (at_idx _ _ _ Hat). split; [|done].
  split; [|now apply (add_first _ _ _ _ _ _ Hf Hm)]. split; [now rewrite (at_idx _ _ _ Hat)|].
  destruct Hs as (Hs & _). destruct Ht as (Ht & _).
  rewrite Htot, (ok_total _ _ Hok), u64_small by lia. rewrite !length_app. lia.
Qed.

(** The cells a node takes at most. *)
Definition node_cells (n : dirhtml_template) : Z := match tp_buf n with Some _ => 1 | None => 2 end.
Definition cells (l : list dirhtml_template) : Z := foldr (fun n z => node_cells n + z) 0 l.
Definition node_ok (n : dirhtml_template) : Prop := static_node n \/ tag_node n.

Lemma cells_cons n l : cells (n :: l) = node_cells n + cells l.
Proof. reflexivity. Qed.

Lemma cells_app l l' : cells (l ++ l') = cells l + cells l'.
Proof. induction l as [|n l IH]; [done|]. cbn [app]. rewrite !cells_cons, IH. lia. Qed.

Lemma template_cells l : template_ok l -> l <> [] -> Forall node_ok l /\ cells l + 1 <= 2 * Z.of_nat (length l).
Proof.
  intros [Hl|(l' & s & -> & Hp & Hs)] Hne; [done|]. clear Hne.
  assert (H : Forall node_ok l' /\ cells l' <= 2 * Z.of_nat (length l')).
  { induction Hp as [|l a t Hp [IH1 IH2] Ha Ht]; [split; [done|cbn; lia]|].
    split; [apply Forall_app_2; [done|]; apply Forall_cons_2; [now left|]; apply Forall_cons_2; [now right|done]|].
    rewrite cells_app, length_app. change (cells [a; t]) with (node_cells a + (node_cells t + 0)).
    destruct Ha as (x & Ha & _), Ht as [Ht _]. unfold node_cells. rewrite Ha, Ht. cbn [length]. lia. }
  destruct H as [H1 H2]. split; [apply Forall_app_2; [done|]; apply Forall_cons_2; [now left|done]|].
  rewrite cells_app, length_app. change (cells [s]) with (node_cells s + 0).
  destruct Hs as (x & Hs & _). unfold node_cells. rewrite Hs. cbn [length]. lia.
Qed.

Lemma find_value_ok values t i v : Forall value_ok values -> find_value values t i = Some v -> value_ok v.
Proof.
  induction values as [|x values IH]; intros H; cbn; [done|]. apply Forall_cons in H as [Hx H].
  case_decide; [intros [= <-]; done|now apply IH].
Qed.

(** A node is appended as its text. *)
Lemma compose_entry_run values n m d :
  node_ok n -> Forall value_ok values -> reserved m d -> iov_idx m + node_cells n <= size m ->
  Z.of_nat (length (d ++ node_text values n)) < 2 ^ 64 ->
  exists m', compose_entry values n m = Some m' /\ reserved m' (d ++ node_text values n) /\ size m' = size m /\
    iov_idx m' <= iov_idx m + node_cells n.
Proof.
  intros Hn Hv Hr Hroom Hlen. unfold compose_entry, node_text, node_cells in *. rewrite length_app in Hlen.
  destruct Hn as [(s & Hb & H0 & Hl)|[Hb Hid]]; rewrite Hb in *.
  - assert (Hs : reads (Some (s ++ [0])) (tp_len n) s).
    { apply reads_text; [done|]. rewrite Hl in Hlen. rewrite memread_take in Hlen by (rewrite length_app; lia).
      rewrite Nat2Z.id, take_app_length in Hlen. cbn in Hlen. lia. }
    pose proof (reads_view _ _ _ Hs) as Hw. cbn [mbind option_bind] in Hw. rewrite Hw in *.
    destruct Hs as (Hs1 & Hs2 & Hs3).
    destruct (add_reserved m d (Some (s ++ [0])) (tp_len n) mk_iov_none s [] Hr) as (m' & r & -> & Hr' & Hsz & Hi);
      [exact Hroom|done|apply reads_none|cbn; lia|].
    mstep. exists m'. rewrite app_nil_r in Hr'. split_and!; [done|done|done|]. rewrite Hi. cbn. lia.
  - replace (0 <=? tp_tag_id n) with true by zb. destruct (find_value values (tp_tags n) (tp_tag_id n)) as [v|] eqn:Ev.
    + destruct (find_value_ok _ _ _ _ Hv Ev) as [[s Hs] [t Ht]]. unfold value_text in *.
      rewrite (reads_view _ _ _ Hs) in *. unfold view in *. rewrite (reads_view _ _ _ Ht) in *. rewrite length_app in Hlen.
      assert (Hc : entry_cells (va_sep v) <= 2) by (unfold entry_cells; case_if; lia).
      destruct (add_reserved m d (va_value v) (va_len v) (va_sep v) s t Hr) as (m' & r & -> & Hr' & Hsz & Hi);
        [lia|done|done|destruct Hs as (Hs & _), Ht as (Ht & _); lia|].
      mstep. exists m'. split_and!; [done|done|done|lia].
    + exists m. rewrite app_nil_r. split_and!; [done|done|done|lia].
Qed.

Lemma compose_loop_run values l m d :
  Forall node_ok l -> Forall value_ok values -> reserved m d -> iov_idx m + cells l <= size m ->
  Z.of_nat (length (d ++ concat (map (node_text values) l))) < 2 ^ 64 ->
  exists m', compose_loop values l m = Some m' /\ reserved m' (d ++ concat (map (node_text values) l)) /\ size m' = size m /\
    iov_idx m' <= iov_idx m + cells l.
Proof.
  intros Hl Hv. revert m d; induction l as [|n l IH]; intros m d Hr Hroom Hlen; cbn [compose_loop map concat] in *.
  - exists m. rewrite app_nil_r. change (cells []) with 0 in *. split_and!; [done|done|done|lia].
  - apply Forall_cons in Hl as [Hn Hl]. rewrite cells_cons in *. rewrite !length_app in Hlen.
    assert (0 <= cells l) by (clear; induction l as [|x l IH]; [done|rewrite cells_cons; unfold node_cells; destruct (tp_buf x); lia]).
    destruct (compose_entry_run values n m d Hn Hv Hr) as (m1 & -> & Hr1 & Hs1 & Hi1); [lia|rewrite length_app; lia|]. mstep.
    destruct (IH Hl m1 _ Hr1) as (m2 & -> & Hr2 & Hs2 & Hi2); [lia|rewrite !length_app; lia|].
    exists m2. rewrite <- app_assoc in Hr2. split_and!; [done|done|lia|lia].
Qed.

Lemma create_reserved n : 1 <= n -> exists m, mk_iov_create n 1 = Some m /\ reserved m [] /\ size m = n /\ iov_idx m = 1.
Proof.
  intros Hn. unfold mk_iov_create. change (0 <? 1) with true. change (Z.to_nat 1) with 1%nat. cbn [zero_entries].
  rewrite store_Some by (rewrite length_replicate; lia). mstep. eexists. split; [reflexivity|].
  assert (Hi : <[Z.to_nat 0 := Some empty_iovec]> (replicate (Z.to_nat n) (@None iovec)) !! 0%nat = Some (Some empty_iovec))
    by (apply list_lookup_insert_eq; rewrite length_replicate; lia).
  split; [|done]. split; split; cbn; try done; try lia.
  split; cbn; rewrite ?length_insert, ?length_replicate; try lia; try done.
  unfold mk_iov_data. cbn. destruct (Z.to_nat n) eqn:E; [lia|]. reflexivity.
Qed.

Lemma theme_compose_run template values chunked :
  template_ok template -> template <> [] -> Forall value_ok values ->
  let page := concat (map (node_text values) template) in
  Z.of_nat (length page) + 2 < 2 ^ 64 ->
  exists m, mk_dirhtml_theme_compose template values chunked = Some m /\
    reserved m (page ++ if chunked then [13; 10] else []).
Proof.
  intros Ht Hne Hv page Hlen. destruct (template_cells _ Ht Hne) as [Hn Hc].
  unfold mk_dirhtml_theme_compose, mk_dirhtml_template_len.
  destruct (create_reserved (1 + Z.of_nat (length template) * 2)) as (m & -> & Hr & Hs & Hi); [lia|]. mstep.
  destruct (compose_loop_run values template m [] Hn Hv Hr) as (m1 & -> & Hr1 & Hs1 & Hi1); [lia|cbn [app]; fold page; lia|]. mstep.
  cbn [app] in Hr1. fold page in Hr1. destruct chunked; [|exists m1; now rewrite app_nil_r].
  destruct (add_reserved m1 page (Some [13; 10; 0]) 2 mk_iov_none [13; 10] [] Hr1) as (m2 & r & -> & Hr2 & _);
    [cbn; lia|apply (reads_text [13; 10] [0]); cbn; lia|apply reads_none|cbn; lia|].
  mstep. exists m2. now rewrite app_nil_r in Hr2.
Qed.

(** A page is composed within its vector, whatever the theme: its cells are
    enough for the texts, the values with their separators, the end of a chunk
    and the cell kept for the header of the chunk, and the data is the template
    with every tag replaced by its value, tags without a value by nothing. *)
Theorem mk_dirhtml_theme_compose_spec template values chunked :
  template_ok template -> template <> [] -> Forall value_ok values ->
  let page := concat (map (node_text values) template) in
  Z.of_nat (length page) + 2 < 2 ^ 64 ->
  exists m, mk_dirhtml_theme_compose template values chunked = Some m /\
    reserved m (page ++ if chunked then [13; 10] else []).
Proof. apply theme_compose_run. Qed.

(** The empty template leaves no room for the end of a chunk. *)
Example compose_empty_chunked values : mk_dirhtml_theme_compose [] values true = None.
Proof. reflexivity. Qed.

(** ** Sizes *)

Lemma round_even_error n d : 0 < d -> 2 * Z.abs (round_even n d * d - n) <= d.
Proof.
  intros Hd. unfold round_even. pose proof (Z.div_mod n d ltac:(lia)) as Hn. pose proof (Z.mod_pos_bound n d Hd) as Hr.
  set (q := n / d) in *. set (r := n mod d) in *. clearbody q r. subst n.
  destruct ((d <? 2 * r) || _) eqn:E.
  - apply orb_true_iff in E as [E|E]; [|apply andb_true_iff in E as [E _]]; zbool; lia.
  - apply orb_false_iff in E as [E _]. zbool. lia.
Qed.

(** A number of [p] bits is nearer than a part in [2 ^ p]. *)
Lemma round_bits_error p n : 0 < n -> 0 < p -> 2 ^ p * Z.abs (round_bits p n - n) <= n.
Proof.
  intros Hn Hp. unfold round_bits. set (e := Z.log2 n + 1 - p). destruct (e <=? 0) eqn:E; zbool.
  { rewrite Z.sub_diag. change (Z.abs 0) with 0. lia. }
  pose proof (round_even_error n (2 ^ e) ltac:(apply Z.pow_pos_nonneg; lia)) as He.
  pose proof (Z.log2_spec n Hn) as [Hlog _].
  assert (H : 2 ^ p * 2 ^ e = 2 * 2 ^ Z.log2 n).
  { rewrite <- Z.pow_add_r by lia. replace (p + e) with (Z.succ (Z.log2 n)) by (unfold e; lia). rewrite Z.pow_succ_r; [done|apply Z.log2_nonneg]. }
  assert (0 < 2 ^ p) by (apply Z.pow_pos_nonneg; lia). nia.
Qed.

(** The figure printed for a size of [i] times 10 bits. *)
Definition tenths (size i : Z) : Z := round_even (10 * round_bits 24 (round_bits 53 size)) (1024 ^ i).

Lemma tenths_near size i :
  1 <= i -> 1024 ^ i <= size < 1024 ^ (i + 1) -> Z.abs (tenths size i * 1024 ^ i - 10 * size) <= 1024 ^ i.
Proof.
  intros Hi [Hlo Hhi]. rewrite Z.pow_add_r in Hhi by lia. change (1024 ^ 1) with 1024 in Hhi.
  assert (H0 : 0 < 1024 ^ i) by (apply Z.pow_pos_nonneg; lia). unfold tenths.
  pose proof (round_bits_error 53 size ltac:(lia) ltac:(lia)) as H53. set (a := round_bits 53 size) in *.
  assert (Ha : 0 < a) by lia. pose proof (round_bits_error 24 a Ha ltac:(lia)) as H24. set (b := round_bits 24 a) in *.
  pose proof (round_even_error (10 * b) (1024 ^ i) H0) as Hr. set (t := round_even _ _) in *. clearbody t a b.
  change (2 ^ 53) with 9007199254740992 in *. change (2 ^ 24) with 16777216 in *. set (u := 1024 ^ i) in *. clearbody u. nia.
Qed.

Lemma dec_text_ok z : (length (dec z) <= 21)%nat /\ 0 ∉ dec z.
Proof. split; [apply dec_length|apply dec_ascii]. Qed.

Lemma unit_loop_stop x l size k i :
  0 <= size < 1024 ^ k -> 0 <= k -> unit_loop (x :: l) size (1024 ^ k) i = Some (1024 ^ k, i).
Proof.
  intros Hs Hk. cbn [unit_loop]. replace (1024 ^ k =? 0) with false by zb. rewrite Z.div_small by done. done.
Qed.
Lemma unit_loop_skip x l size k i :
  1024 ^ k <= size -> 0 <= k <= 5 -> unit_loop (x :: l) size (1024 ^ k) i = unit_loop l size (1024 ^ (k + 1)) (S i).
Proof.
  intros Hs Hk. assert (H0 : 0 < 1024 ^ k) by (apply Z.pow_pos_nonneg; lia). cbn [unit_loop]. replace (1024 ^ k =? 0) with false by zb.
  pose proof (Z.div_le_lower_bound size (1024 ^ k) 1 H0 ltac:(lia)). replace (size / 1024 ^ k =? 0) with false by zb.
  f_equal. rewrite Z.pow_add_r by lia. change (1024 ^ 1) with 1024. apply u64_small.
  pose proof (Z.pow_le_mono_r 1024 k 5 ltac:(lia) ltac:(lia)) as H5. change (1024 ^ 5) with 1125899906842624 in H5. lia.
Qed.

(** The unit of a size, with the power of the next one. *)
Lemma unit_loop_units size i :
  0 <= i <= 5 -> 0 <= size < 1024 ^ (i + 1) -> (1 <= i -> 1024 ^ i <= size) ->
  unit_loop units size 1024 0 = Some (1024 ^ (i + 1), Z.to_nat i).
Proof.
  intros Hi Hs Hlo. change 1024 with (1024 ^ 1) at 1. unfold units.
  assert (Hge : forall k, 1 <= k <= i -> 1024 ^ k <= size).
  { intros k Hk. pose proof (Z.pow_le_mono_r 1024 k i ltac:(lia) ltac:(lia)). specialize (Hlo ltac:(lia)). lia. }
  assert (Hc : i = 0 \/ i = 1 \/ i = 2 \/ i = 3 \/ i = 4 \/ i = 5) by lia.
  repeat destruct Hc as [->|Hc]; try subst i; repeat (rewrite unit_loop_skip by (try apply Hge; lia));
    now rewrite unit_loop_stop by lia.
Qed.

Lemma unit_loop_traps size : 2 ^ 60 <= size -> unit_loop units size 1024 0 = None.
Proof.
  intros Hs. change 1024 with (1024 ^ 1). unfold units.
  assert (Hge : forall k, 1 <= k <= 6 -> 1024 ^ k <= size).
  { intros k Hk. pose proof (Z.pow_le_mono_r 1024 k 6 ltac:(lia) ltac:(lia)) as H. change (1024 ^ 6) with (2 ^ 60) in H. lia. }
  do 5 (rewrite unit_loop_skip by (try apply Hge; lia)). change (1 + 1 + 1 + 1 + 1 + 1) with 6.
  cbn [unit_loop]. change (1024 ^ 6 =? 0) with false. cbv iota.
  pose proof (Z.div_le_lower_bound size (1024 ^ 6) 1 ltac:(done) ltac:(specialize (Hge 6); lia)).
  replace (size / 1024 ^ 6 =? 0) with false by zb. reflexivity.
Qed.

Lemma size_bytes size : 0 <= size < 1024 -> mk_dirhtml_human_readable_size size = Some (dec size ++ lit "b" ++ [0]).
Proof.
  intros Hs. unfold mk_dirhtml_human_readable_size. rewrite u64_small, (unit_loop_units size 0) by lia. mstep.
  change (units !! Z.to_nat 0) with (Some (lit "b")). change (Z.to_nat 0) with 0%nat. mstep.
  destruct (dec_text_ok size) as [Hl H0]. rewrite mk_string_build_run.
  - mstep. now rewrite <- app_assoc.
  - rewrite not_elem_of_app. split; [done|decide_closed].
  - rewrite length_app. cbn [length lit]. cbn. lia.
Qed.

Lemma unit_name i name : units !! i = Some name -> 0 ∉ name /\ (length name <= 1)%nat.
Proof.
  intros H%list_elem_of_lookup_2. revert name H. apply Forall_forall.
  repeat (apply Forall_cons_2; [split; [decide_closed|cbn; lia]|]). apply Forall_nil_2.
Qed.

Lemma size_unit size i name :
  1 <= i <= 5 -> units !! Z.to_nat i = Some name -> 1024 ^ i <= size < 1024 ^ (i + 1) ->
  exists t, mk_dirhtml_human_readable_size size = Some (dec (t / 10) ++ [46] ++ dec (t mod 10) ++ name ++ [0]) /\
    Z.abs (t * 1024 ^ i - 10 * size) <= 1024 ^ i.
Proof.
  intros Hi Hname Hs. unfold mk_dirhtml_human_readable_size.
  assert (Hpow : 1024 ^ (i + 1) <= 1024 ^ 6) by (apply Z.pow_le_mono_r; lia).
  change (1024 ^ 6) with (2 ^ 60) in Hpow. assert (0 < 1024 ^ i) by (apply Z.pow_pos_nonneg; lia).
  rewrite u64_small, (unit_loop_units size i) by lia. mstep. rewrite Hname. mstep.
  destruct (unit_name _ _ Hname) as [N1 N2].
  destruct (Z.to_nat i) as [|i'] eqn:Ei; [lia|]. rewrite Z.pow_add_r by lia. change (1024 ^ 1) with 1024.
  rewrite Z.div_mul by lia. fold (tenths size i). pose proof (tenths_near size i ltac:(lia) Hs) as Hnear.
  exists (tenths size i). split; [|exact Hnear]. clear Hnear. generalize (tenths size i). intros t.
  destruct (dec_text_ok (t / 10)) as [A1 A2], (dec_text_ok (t mod 10)) as [B1 B2].
  generalize dependent (dec (t / 10)). generalize dependent (dec (t mod 10)). intros b B1 B2 a A1 A2.
  rewrite mk_string_build_run.
  - mstep. rewrite <- !app_assoc. reflexivity.
  - rewrite !not_elem_of_app. split_and!; [exact A2|decide_closed|exact B2|exact N1].
  - rewrite !length_app. cbn [length]. lia.
Qed.

(** The size of a file is printed in bytes below 1024, else with one decimal
    in the largest unit it reaches, at most a tenth away from the exact value; from
    one exabyte on the unit wraps around to 0 and the division traps. *)
Theorem mk_dirhtml_human_readable_size_spec size :
  (0 <= size < 1024 -> mk_dirhtml_human_readable_size size = Some (dec size ++ lit "b" ++ [0])) /\
  (forall i name, 1 <= i <= 5 -> units !! Z.to_nat i = Some name -> 1024 ^ i <= size < 1024 ^ (i + 1) ->
     exists t, mk_dirhtml_human_readable_size size = Some (dec (t / 10) ++ [46] ++ dec (t mod 10) ++ name ++ [0]) /\
       Z.abs (t * 1024 ^ i - 10 * size) <= 1024 ^ i) /\
  (2 ^ 60 <= size < 2 ^ 63 -> mk_dirhtml_human_readable_size size = None).
Proof.
  split; [apply size_bytes|]. split.
  - intros i name Hi Hname Hs. exact (size_unit size i name Hi Hname Hs).
  - intros Hs. unfold mk_dirhtml_human_readable_size. rewrite u64_small, unit_loop_traps by lia. done.
Qed.

Lemma human_readable_total size :
  0 <= size < 2 ^ 60 -> exists s, mk_dirhtml_human_readable_size size = Some (s ++ [0]) /\ 0 ∉ s /\ (length s <= 44)%nat.
Proof.
  intros Hs. destruct (decide (size < 1024)) as [Hb|Hb].
  { rewrite size_bytes by lia. exists (dec size ++ lit "b"). rewrite <- app_assoc. split; [done|].
    destruct (dec_text_ok size). rewrite not_elem_of_app, length_app. split; [split; [done|decide_closed]|]. cbn [length lit]. cbn. lia. }
  assert (Hi : exists i, 1 <= i <= 5 /\ 1024 ^ i <= size < 1024 ^ (i + 1)).
  { change (2 ^ 60) with (1024 ^ 6) in Hs. destruct (decide (size < 1024 ^ 2)); [exists 1; change (1024 ^ 1) with 1024; lia|].
    destruct (decide (size < 1024 ^ 3)); [exists 2; lia|]. destruct (decide (size < 1024 ^ 4)); [exists 3; lia|].
    destruct (decide (size < 1024 ^ 5)); [exists 4; lia|exists 5; lia]. }
  destruct Hi as (i & Hi & Hrange). destruct (lookup_lt_is_Some_2 units (Z.to_nat i)) as [name Hname]; [cbn; lia|].
  destruct (size_unit size i name Hi Hname Hrange) as (t & -> & _). destruct (unit_name _ _ Hname) as [N1 N2].
  exists (dec (t / 10) ++ [46] ++ dec (t mod 10) ++ name). split; [now rewrite <- !app_assoc|].
  destruct (dec_text_ok (t / 10)), (dec_text_ok (t mod 10)). rewrite !not_elem_of_app, !length_app. cbn [length].
  split; [split_and!; [assumption|decide_closed|assumption|assumption]|lia].
Qed.

Lemma human_readable_witness :
  exists t, mk_dirhtml_human_readable_size 1536 = Some (dec (t / 10) ++ [46] ++ dec (t mod 10) ++ lit "K" ++ [0]) /\
    Z.abs (t * 1024 ^ 1 - 10 * 1536) <= 1024 ^ 1.
Proof. apply (mk_dirhtml_human_readable_size_spec 1536); [lia|reflexivity|lia]. Defined.

Example human_readable_example :
  map mk_dirhtml_human_readable_size [512; 1536; 1048575; 5368709120] =
  [Some (lit "512b" ++ [0]); Some (lit "1.5K" ++ [0]); Some (lit "1024.0K" ++ [0]); Some (lit "5.0G" ++ [0])].
Proof. vm_compute. reflexivity. Qed.

(** ** Sending a piece *)

(** The cell kept free is filled. *)
Lemma set_entry_first m d s r :
  reserved m d -> Z.of_nat (length s) < 2 ^ 64 ->
  exists m' k, mk_iov_set_entry m (s ++ r) (Z.of_nat (length s)) MK_IOV_FREE_BUF 0 = Some m' /\ iov_at m' (s ++ d) k.
Proof.
  intros [[[Hio Hfr Hidx Hbuf Hsz Hdat] Htot] [Hf Hi Hb]] Hs. unfold mk_iov_set_entry.
  rewrite store_Some by lia. mstep. change (MK_IOV_FREE_BUF =? MK_IOV_FREE_BUF) with true. cbv iota.
  set (m1 := {| io := _ |}).
  assert (Hat : iov_at m1 (s ++ d) (iov_idx m)).
  { split; cbn; try done; [now rewrite length_insert|]. unfold mk_iov_data in *. cbn.
    change (Z.to_nat 0) with 0%nat. destruct (io m) as [|c l] eqn:El; [done|]. injection Hf as ->.
    replace (Z.to_nat (iov_idx m)) with (S (Z.to_nat (iov_idx m - 1))) in * by lia. cbn [take insert list_insert gather] in *.
    rewrite (cell_bytes_reads _ _ s) by (rewrite u64_small by lia; now apply reads_text).
    cbn in Hdat |- *. destruct (gather (take _ l)) as [g|]; [|done]. cbn in *. now injection Hdat as ->. }
  destruct (set_free_at m1 (s ++ d) (iov_idx m) (s ++ r) Hat) as (m2 & -> & Hat2 & _); [cbn; lia|]. eauto.
Qed.

Section Listing.
Context `{env : Env}.
(** No event is waited for after a write, and the network takes what it is
    given: the socket is blocking. *)
Hypothesis no_safe_event : c_safe_event_write config = MK_FALSE.
Hypothesis takes_vectors : forall t fd d, net_writev t fd d = Z.of_nat (length d).
Hypothesis takes_buffers : forall t fd d, net_write t fd d = Z.of_nat (length d).

Lemma sendv_all fd iov d k w :
  iov_at iov d k -> Z.of_nat (length d) < 2 ^ 31 ->
  mk_socket_sendv fd iov w = Some (Z.of_nat (length d), logged w [EvWrite fd d]).
Proof.
  intros H Hd. unfold mk_socket_sendv, mk_socket_safe_event_write. mrun.
  rewrite (at_data _ _ _ H), no_safe_event, takes_vectors. change (MK_FALSE =? MK_TRUE) with false. unfold mod_w, logged.
  rewrite Nat2Z.id, take_ge by lia. do 2 f_equal. unfold i32. rewrite Z.mod_small; lia.
Qed.

Lemma send_all fd buf n d w :
  memread buf n = Some d -> exists r, mk_socket_send fd buf n w = Some (r, logged w [EvWrite fd d]).
Proof.
  intros H. unfold mk_socket_send, mk_socket_safe_event_write. mrun. rewrite H, no_safe_event, takes_buffers.
  change (MK_FALSE =? MK_TRUE) with false. unfold mod_w, logged. rewrite Nat2Z.id, take_ge by lia. eauto.
Qed.

Lemma piece_sent fd cs sr c r m page w :
  at_sr w cs sr c r -> let chunked := HTTP_PROTOCOL_11 <=? sr_protocol r in
  reserved m (page ++ if chunked then [13; 10] else []) -> Z.of_nat (length page) + 64 < 2 ^ 31 ->
  exists n, mk_dirhtml_send fd cs sr m w = Some (n, logged w [EvWrite fd (wire chunked page)]) /\ 0 <= n.
Proof.
  intros [Hc Hr] chunked Hm Hlen. unfold mk_dirhtml_send. erewrite bind_run by (eapply get_sr_run; eassumption).
  fold chunked. destruct chunked; cbn [wire].
  - assert (Ht : u64 (total_len m - 2) = Z.of_nat (length page)).
    { rewrite (ok_total _ _ (rs_ok _ _ Hm)), length_app. cbn [length]. rewrite u64_small; lia. }
    rewrite Ht. pose proof (hex_length 16 (Z.of_nat (length page))) as Hhl. fold (hex (Z.of_nat (length page))) in Hhl.
    rewrite mk_string_build_run; cycle 1.
    { rewrite not_elem_of_app. split; [apply hex_no_zero|decide_closed]. }
    { rewrite length_app. cbn [length]. lia. }
    set (h := hex _ ++ [13; 10]). assert (Hh : (length h <= 18)%nat) by (unfold h; rewrite length_app; cbn [length]; lia).
    destruct (set_entry_first m _ h [0] Hm) as (m' & k & Hset & Hat); [lia|].
    unfold lift. mrun. rewrite Hset. assert (Hw : h ++ page ++ [13; 10] = chunk page) by (unfold h, chunk; now rewrite <- app_assoc).
    rewrite Hw in Hat. erewrite sendv_all; [|exact Hat|].
    + eexists. split; [reflexivity|lia].
    + rewrite <- Hw, !length_app. cbn [length]. lia.
  - rewrite app_nil_r in Hm. destruct Hm as [[Hat _] _]. unfold mret at 1, M_ret. mrun.
    erewrite sendv_all; [|exact Hat|lia]. eexists. split; [reflexivity|lia].
Qed.

(** *** The entries *)

(** The texts of an entry: its name, the time and the size. *)
Definition text_of (p : bytes) : bytes := default [] (cstr p).
Record entry_texts (calls : nat) (e : mk_f_list) : Prop := {
  en_name : is_cstr (fl_name e calls) (text_of (fl_name e calls));
  en_time : is_cstr (fl_ft_modif e) (text_of (fl_ft_modif e));
  en_size : is_cstr (fl_size e) (text_of (fl_size e));
  en_short : Z.of_nat (length (text_of (fl_name e calls)) + length (text_of (fl_ft_modif e)) + length (text_of (fl_size e))) < 2 ^ 32;
}.

Definition slash (e : mk_f_list) : bytes := if fl_type e =? DT_DIR then [47] else [].
(** What the tags of an entry become. *)
Definition entry_value (calls : nat) (e : mk_f_list) (t : tag_table) (i : nat) : bytes :=
  let name := text_of (fl_name e calls) ++ slash e in
  match t with
  | _tags_global => []
  | _tags_entry => nth i [name; name; name; text_of (fl_ft_modif e); text_of (fl_size e)] []
  end.

(** A theme with its tags replaced. *)
Definition render_theme (f : tag_table -> nat -> bytes) (s : bytes) (l : list tag_item) : bytes :=
  s ++ concat (map (fun e => f e.1.1 e.1.2 ++ e.2) l).
(** The template of a theme, as it is parsed. *)
Definition theme_template (s : bytes) (l : list tag_item) : list dirhtml_template :=
  theme_nodes s l ++ [text_node (last_text s l) (last_table None l)].

Definition tag_value (values : list dirhtml_value) (t : tag_table) (i : nat) : bytes :=
  match find_value values (Some t) (Z.of_nat i) with Some v => value_text v | None => [] end.

Lemma text_node_text values s tpl : node_text values (text_node s tpl) = s.
Proof.
  unfold node_text, text_node. cbn [tp_buf tp_len]. rewrite memread_take by (rewrite length_app; lia).
  now rewrite Nat2Z.id, take_app_length.
Qed.

Lemma theme_template_text values s l :
  concat (map (node_text values) (theme_template s l)) = render_theme (tag_value values) s l.
Proof.
  unfold theme_template. generalize (last_table None l). intros tpl. revert s; induction l as [|[[t i] u] l IH]; intros s.
  - cbn [theme_nodes last_text app map concat render_theme]. rewrite text_node_text. done.
  - cbn [theme_nodes last_text app map concat]. rewrite text_node_text. unfold render_theme in *. cbn [map concat fst snd].
    rewrite IH. unfold node_text, value_node. cbn [tp_buf tp_tags tp_tag_id]. fold (tag_value values t i).
    now rewrite <- !app_assoc.
Qed.

Lemma theme_template_ok s l : 0 ∉ theme_text s l -> template_ok (theme_template s l) /\ theme_template s l <> [].
Proof.
  intros H0. split; [|unfold theme_template; by destruct (theme_nodes s l)]. right. unfold theme_template. eexists _, _. split; [done|].
  assert (Hst : forall s tpl, 0 ∉ s -> static_node (text_node s tpl)) by (intros x tpl Hx; by exists x).
  assert (Hlast : 0 ∉ last_text s l) by (destruct (theme_split s l) as [a Ha]; intros Hin; apply H0; rewrite Ha, elem_of_app; now right).
  split; [|now apply Hst]. clear Hlast.
  assert (Hgen : forall acc, pairs_ok acc -> pairs_ok (acc ++ theme_nodes s l)); [|apply (Hgen []), pairs_nil].
  revert s H0; induction l as [|[[t i] u] l IH]; intros s H0 acc Hacc; cbn [theme_nodes]; [now rewrite app_nil_r|].
  unfold theme_text in H0. cbn [map concat] in H0. unfold theme_item at 1 in H0. cbn [fst snd] in H0. rewrite !not_elem_of_app in H0.
  replace (acc ++ _) with ((acc ++ [text_node s (Some t); value_node t i]) ++ theme_nodes u l) by now rewrite <- app_assoc.
  apply IH; [unfold theme_text; rewrite not_elem_of_app; tauto|]. apply pairs_snoc; [done|apply Hst; tauto|split; [done|cbn; lia]].
Qed.

Lemma render_theme_ext f g s l : (forall t i, f t i = g t i) -> render_theme f s l = render_theme g s l.
Proof. intros H. unfold render_theme. f_equal. f_equal. apply map_ext. intros [[t i] u]. cbn. now rewrite H. Qed.

(** A value made of a string is readable. *)
Lemma tag_assign_run values id sep p s tags :
  is_cstr p s -> mk_dirhtml_tag_assign values id sep p tags =
  Some (values ++ [ {| va_tag_id := id; va_sep := sep; va_len := Z.of_nat (length s); va_value := Some p; va_tags := tags |} ]).
Proof. intros H. unfold mk_dirhtml_tag_assign. now rewrite (strlen_cstr _ _ H). Qed.

Lemma cstr_reads p s : is_cstr p s -> Z.of_nat (length s) < 2 ^ 64 -> reads (Some p) (Z.of_nat (length s)) s.
Proof. intros [[r ->] _] H. now apply reads_text. Qed.

Lemma string_value id sep p s tags t :
  is_cstr p s -> Z.of_nat (length s) < 2 ^ 64 -> reads (data sep) (len sep) t ->
  let v := {| va_tag_id := id; va_sep := sep; va_len := Z.of_nat (length s); va_value := Some p; va_tags := tags |} in
  value_ok v /\ value_text v = s ++ t.
Proof.
  intros Hp Hl Ht v. pose proof (cstr_reads _ _ Hp Hl) as Hs. split; [split; eauto|].
  unfold value_text, view. cbn [va_value va_len va_sep v]. now rewrite (reads_view _ _ _ Hs), (reads_view _ _ _ Ht).
Qed.

Lemma reads_slash : reads (data mk_iov_slash) (len mk_iov_slash) [47].
Proof. unfold mk_iov_slash. rewrite mk_pointer_init_lit. now apply reads_lit. Qed.

Lemma entry_values_run calls e :
  entry_texts calls e ->
  exists values, entry_values calls e = Some values /\ Forall value_ok values /\
    forall t i, tag_value values t i = entry_value calls e t i.
Proof.
  intros [Hn Ht Hs Hl]. unfold entry_values, entry_value, slash.
  set (sep := if fl_type e =? DT_DIR then mk_iov_slash else mk_iov_none).
  set (sl := if fl_type e =? DT_DIR then [47] else []).
  assert (Hsep : reads (data sep) (len sep) sl) by (unfold sep, sl; case_if; [apply reads_slash|apply reads_none]).
  rewrite !(tag_assign_run _ _ _ _ _ _ Hn). mstep. rewrite !(tag_assign_run _ _ _ _ _ _ Hn). mstep.
  rewrite !(tag_assign_run _ _ _ _ _ _ Hn). mstep. rewrite (tag_assign_run _ _ _ _ _ _ Ht). mstep.
  rewrite (tag_assign_run _ _ _ _ _ _ Hs). eexists. split; [reflexivity|]. cbn [app].
  destruct (string_value 0 sep _ _ _tags_entry sl Hn ltac:(lia) Hsep) as [V0 T0].
  destruct (string_value 1 sep _ _ _tags_entry sl Hn ltac:(lia) Hsep) as [V1 T1].
  destruct (string_value 2 sep _ _ _tags_entry sl Hn ltac:(lia) Hsep) as [V2 T2].
  destruct (string_value 3 mk_iov_none _ _ _tags_entry [] Ht ltac:(lia) reads_none) as [V3 T3].
  destruct (string_value 4 mk_iov_none _ _ _tags_entry [] Hs ltac:(lia) reads_none) as [V4 T4].
  rewrite app_nil_r in T3, T4. split; [by repeat (apply Forall_cons_2; [done|])|].
  intros t i. unfold tag_value. destruct t; [now destruct i|].
  destruct i as [|[|[|[|[|i]]]]]; cbn [find_value va_tags va_tag_id nth];
    repeat first [rewrite decide_True by (split; [done|cbn; lia]) | rewrite decide_False by (intros [_ ?]; lia)]; try done.
  by destruct i.
Qed.

(** *** The table of contents *)

Variables (es : bytes) (el : list tag_item).
Hypothesis entry_theme : 0 ∉ theme_text es el.

(** The text of an entry in the page. *)
Definition entry_page (calls : nat) (e : mk_f_list) : bytes := render_theme (entry_value calls e) es el.

Lemma entry_composed calls e chunked :
  entry_texts calls e -> Z.of_nat (length (entry_page calls e)) + 64 < 2 ^ 31 ->
  exists values m, entry_values calls e = Some values /\
    mk_dirhtml_theme_compose (theme_template es el) values chunked = Some m /\
    reserved m (entry_page calls e ++ if chunked then [13; 10] else []).
Proof.
  intros He Hl. destruct (entry_values_run calls e He) as (values & Hv & Hok & Hval).
  destruct (theme_template_ok es el entry_theme) as [Ht Hne].
  pose proof (theme_template_text values es el) as Htext. rewrite (render_theme_ext _ _ _ _ Hval) in Htext.
  fold (entry_page calls e) in Htext.
  destruct (theme_compose_run _ values chunked Ht Hne Hok) as (m & Hm & Hr); [rewrite Htext; lia|].
  rewrite Htext in Hr. eauto.
Qed.


Lemma written_write fd d : written fd [EvWrite fd d] = d.
Proof. unfold written. cbn. now rewrite Z.eqb_refl, app_nil_r. Qed.

Lemma send_toc_run fd cs sr c r calls toc i w :
  at_sr w cs sr c r -> let chunked := HTTP_PROTOCOL_11 <=? sr_protocol r in
  Forall (fun e => entry_texts calls e /\ Z.of_nat (length (entry_page calls e)) + 64 < 2 ^ 31) toc ->
  exists t, send_toc (theme_template es el) fd cs sr chunked calls toc i w = Some (tt, logged w t) /\
    written fd t = concat (map (fun e => wire chunked (entry_page calls e)) toc).
Proof.
  intros Hat chunked. revert i w Hat; induction toc as [|e toc IH]; intros i w Hat H; cbn [send_toc].
  { exists []. rewrite logged_nil. done. }
  apply Forall_cons in H as [[He Hl] H].
  destruct (entry_composed calls e chunked He Hl) as (values & m & Hv & Hm & Hr).
  erewrite lift_run by exact Hv. erewrite lift_run by exact Hm.
  destruct (piece_sent fd cs sr c r m (entry_page calls e) w Hat Hr Hl) as (n & Hs & Hn). fold chunked in Hs.
  erewrite bind_run by exact Hs.
  assert (Hcork : exists t, (if i mod 20 =? 0 then mk_socket_set_cork_flag fd TCP_CORK_OFF;; mk_socket_set_cork_flag fd TCP_CORK_ON else mret tt)
    (logged w [EvWrite fd (wire chunked (entry_page calls e))]) =
    Some (tt, logged w ([EvWrite fd (wire chunked (entry_page calls e))] ++ t)) /\ written fd t = []).
  { case_if; [exists [EvCork fd TCP_CORK_OFF; EvCork fd TCP_CORK_ON]|exists []; by rewrite app_nil_r].
    split; [|reflexivity]. unfold mk_socket_set_cork_flag. erewrite bind_run by apply emit_run.
    rewrite emit_run, !logged_app. reflexivity. }
  destruct Hcork as (t & Hc & Hw). erewrite bind_run by exact Hc. replace (n <? 0) with false by zb.
  destruct (IH (i + 1) (logged w ([EvWrite fd (wire chunked (entry_page calls e))] ++ t))) as (t' & Hrun & Hw');
    [now apply logged_at|done|].
  eexists. split; [rewrite Hrun, logged_app; reflexivity|].
  rewrite !written_app, Hw, Hw', written_write. cbn. now rewrite app_nil_r.
Qed.
End Listing.

(** ** The entries listed *)

Section Entries.
Context `{env : Env}.
Variable local_time_text : Z -> option bytes.
(** Every time has a text, and no file has an exabyte. *)
Hypothesis times : forall t, exists text, local_time_text t = Some text /\ 0 ∉ text.
Hypothesis lstat_sizes : forall t p f, sys_lstat t p = inr f -> 0 <= st_size f < 2 ^ 60.
Hypothesis stat_sizes : forall t p f, sys_stat t p = Some f -> 0 <= st_size f < 2 ^ 60.

Lemma file_get_info_pure path w :
  exists r info, mk_file_get_info path file_info_init w = Some ((r, info), w) /\ (r = 0 -> 0 <= fi_size info < 2 ^ 60).
Proof.
  unfold mk_file_get_info. mrun. destruct (sys_lstat (w_trace w) path) as [errno|f] eqn:El.
  { eexists _, _. split; [reflexivity|done]. }
  destruct (if S_ISLNK (st_mode f) then sys_stat (w_trace w) path else Some f) as [target|] eqn:Et.
  - eexists _, _. split; [reflexivity|]. intros _. assert (Ht : 0 <= st_size target < 2 ^ 60).
    { case_if_in Et; [by apply stat_sizes in Et|]. injection Et as <-. by apply lstat_sizes in El. }
    repeat case_if; exact Ht.
  - eexists _, _. split; [reflexivity|done].
Qed.

Lemma create_element_pure name type path w :
  exists e, mk_dirhtml_create_element local_time_text name type path w = Some (e, w).
Proof.
  unfold mk_dirhtml_create_element. destruct (file_get_info_pure path w) as (r & info & Hi & Hsize).
  erewrite bind_run by exact Hi. cbv beta iota. destruct (r =? 0) eqn:E; cbn [negb]; [|eexists; reflexivity]. zbool.
  destruct (times (fi_last_modification info)) as (text & Ht & _). erewrite lift_run by exact Ht.
  case_if; [eexists; reflexivity|]. destruct (type =? DT_DIR); cbn [negb]; [eexists; reflexivity|].
  destruct (human_readable_total (fi_size info) (Hsize E)) as (s & Hs & _).
  erewrite bind_run by (unfold lift; rewrite Hs; reflexivity). eexists; reflexivity.
Qed.

Lemma created_texts name type path w e calls :
  mk_dirhtml_create_element local_time_text name type path w = Some (Some e, w) ->
  is_cstr (name calls) (text_of (name calls)) -> Z.of_nat (length (text_of (name calls))) < 2 ^ 31 ->
  fl_name e = name /\ entry_texts calls e.
Proof.
  unfold mk_dirhtml_create_element. destruct (file_get_info_pure path w) as (r & info & Hi & Hsize).
  erewrite bind_run by exact Hi. cbv beta iota. destruct (r =? 0) eqn:E; cbn [negb]; [|done]. zbool.
  destruct (times (fi_last_modification info)) as (text & Ht & H0). erewrite lift_run by exact Ht.
  case_if; [done|]. apply orb_false_iff in E0 as [Hlen _]. zbool. unfold MK_DIRHTML_FMOD_LEN in *.
  assert (Hm : exists z, text ++ replicate (Z.to_nat (24 - Z.of_nat (length text))) 0 = text ++ 0 :: z).
  { destruct (Z.to_nat (24 - Z.of_nat (length text))) eqn:En; [lia|]. eexists. reflexivity. }
  destruct Hm as [z Hm]. rewrite Hm. assert (Htime : is_cstr (text ++ 0 :: z) text) by (split; [by exists z|done]).
  assert (Hsz : exists s, (if negb (type =? DT_DIR) then lift (mk_dirhtml_human_readable_size (fi_size info))
      else mret MK_DIRHTML_SIZE_DIR) w = Some (s ++ [0], w) /\ 0 ∉ s /\ (length s <= 44)%nat).
  { destruct (type =? DT_DIR); cbn [negb].
    - exists (lit "-"). split; [done|]. split; [decide_closed|cbn; lia].
    - destruct (human_readable_total (fi_size info) (Hsize E)) as (s & Hs & ? & ?). exists s. unfold lift. now rewrite Hs. }
  destruct Hsz as (s & Hs & Hs0 & Hsl). erewrite bind_run by exact Hs. intros [= <-] Hname Hl. split; [done|].
  assert (Hsc : is_cstr (s ++ [0]) s) by (split; [by exists []|done]).
  split; cbn [fl_name fl_ft_modif fl_size]; unfold text_of in *; rewrite ?(cstr_cstr _ _ Htime), ?(cstr_cstr _ _ Hsc); cbn [default]; try done.
  change (id text) with text. change (id s) with s. lia.
Qed.

Definition is_hidden (name : bytes) : Prop := head name = Some 46 /\ name <> lit "..".

Lemma hidden_spec p s : is_cstr p s -> exists b, hidden p = Some b /\ (b = true <-> is_hidden s).
Proof.
  intros Hp. unfold hidden, is_hidden. destruct s as [|c s].
  - apply is_cstr_nil in Hp as [r ->]. exists false. split; [done|]. split; [done|intros [? _]; done].
  - pose proof Hp as Hp'. apply is_cstr_cons in Hp as (p' & -> & Hc & _). cbn [deref head]. mstep.
    destruct (c =? 46) eqn:E; zbool; [|exists false; split; [done|]; split; [done|intros [[=] _]; done]]. subst c.
    destruct (strcmp_cstr _ _ (clit "..") (lit "..") Hp') as (d & -> & Hd); [split; [by exists []|decide_closed]|]. mstep.
    exists (negb (d =? 0)). split; [done|]. destruct (d =? 0) eqn:E; cbn [negb]; zbool.
    + split; [done|]. intros [_ Hne]. exfalso. apply Hne. now apply Hd.
    + split; [|done]. intros _. split; [done|]. intros Heq. apply E. now apply Hd.
Qed.

(** The names of the entries of a directory, when they are read and at the end. *)
Definition names_ok (dir : list dirent) (n : nat) (path : bytes) : Prop :=
  0 ∉ path /\ forall k ent calls, dir !! k = Some ent -> calls = S (n + k) \/ calls = S (n + length dir) ->
    is_cstr (d_name ent calls) (text_of (d_name ent calls)) /\
    Z.of_nat (length path + length (text_of (d_name ent calls))) < 2 ^ 31.

(** The entry made of what [readdir] gives. *)
Definition makes (w : world) (path : bytes) (calls : nat) (ent : dirent) (e : mk_f_list) : Prop :=
  let name := text_of (d_name ent calls) in
  ~ is_hidden name /\ listed_type (d_type ent) = true /\
  mk_dirhtml_create_element local_time_text (d_name ent) (d_type ent) (path ++ name) w = Some (Some e, w).

Lemma create_list_run dir n path w :
  names_ok dir n path ->
  exists l, mk_dirhtml_create_list local_time_text dir n path w = Some (l, w) /\
    forall e, e ∈ l <-> exists k ent, dir !! k = Some ent /\ makes w path (S (n + k)) ent e.
Proof.
  revert n; induction dir as [|ent dir IH]; intros n [H0 Hn]; cbn [mk_dirhtml_create_list].
  { exists []. split; [done|]. intros e. rewrite elem_of_nil. split; [done|intros (k & ent & ? & _); done]. }
  destruct (IH (S n)) as (l & Hl & Hspec).
  { split; [done|]. intros k ent' calls Hk Hc. apply (Hn (S k) ent' calls Hk). cbn [length]. lia. }
  destruct (Hn 0%nat ent (S n) eq_refl ltac:(lia)) as [Hname Hlen]. clear Hn IH.
  assert (Hstep : forall l' : list mk_f_list, (forall e, e ∈ l' <-> makes w path (S n) ent e \/ e ∈ l) ->
    forall e, e ∈ l' <-> exists k x, (ent :: dir) !! k = Some x /\ makes w path (S (n + k)) x e).
  { intros l' Hl' e. rewrite Hl', Hspec. split.
    - intros [H|(k & x & Hk & H)]; [exists 0%nat, ent; rewrite Nat.add_0_r; done|exists (S k), x].
      replace (n + S k)%nat with (S n + k)%nat by lia. done.
    - intros ([|k] & x & Hk & H); [left; cbn in Hk; rewrite Nat.add_0_r in H; congruence|right; exists k, x].
      replace (n + S k)%nat with (S n + k)%nat in H by lia. done. }
  destruct (hidden_spec _ _ Hname) as (b & Hb & Hiff). erewrite lift_run by exact Hb. destruct b.
  { exists l. split; [exact Hl|]. apply Hstep. intros e. unfold makes. split; [tauto|]. intros [[Hh _]|?]; [|done]. tauto. }
  destruct (listed_type (d_type ent)) eqn:Et; cbn [negb].
  2: { exists l. split; [exact Hl|]. apply Hstep. intros e. unfold makes. rewrite Et. split; [tauto|]. intros [(_ & ? & _)|?]; done. }
  erewrite lift_run by (apply cstr_cstr; exact Hname).
  assert (Hpn : 0 ∉ path ++ text_of (d_name ent (S n))) by (rewrite not_elem_of_app; split; [done|apply Hname]).
  erewrite lift_run by (apply mk_string_build_run; [exact Hpn|rewrite length_app; lia]). cbv beta iota.
  erewrite lift_run by (apply cstr_cstr; split; [exists []; reflexivity|exact Hpn]).
  destruct (create_element_pure (d_name ent) (d_type ent) (path ++ text_of (d_name ent (S n))) w) as [o Ho].
  erewrite bind_run by exact Ho. erewrite bind_run by exact Hl.
  eexists. split; [reflexivity|]. apply Hstep. intros e. unfold makes. rewrite Et, Ho. destruct o as [x|].
  - rewrite elem_of_cons. split; [intros [->|?]; [left|tauto]|intros [(_ & _ & [= ->])|?]; tauto].
    split_and!; [|done|done]. intros Hh. now apply Hiff in Hh.
  - split; [tauto|]. intros [(_ & _ & [=])|?]; done.
Qed.
End Entries.

Lemma theme_compose_witness :
  exists m, mk_dirhtml_theme_compose (theme_template (lit "<b>") [(_tags_global, 0%nat, lit "</b>")])
      [ {| va_tag_id := 0; va_sep := mk_iov_none; va_len := 3; va_value := Some (clit "/d/"); va_tags := _tags_global |} ] true = Some m /\
    reserved m (lit "<b>/d/</b>" ++ [13; 10]).
Proof.
  apply (mk_dirhtml_theme_compose_spec (theme_template (lit "<b>") [(_tags_global, 0%nat, lit "</b>")])
    [ {| va_tag_id := 0; va_sep := mk_iov_none; va_len := 3; va_value := Some (clit "/d/"); va_tags := _tags_global |} ] true).
  - apply theme_template_ok. decide_closed.
  - discriminate.
  - apply Forall_cons_2; [|apply Forall_nil_2]. split; [exists (lit "/d/")|exists []].
    + apply (reads_text (lit "/d/") [0]); reflexivity.
    + apply reads_none.
  - vm_compute. reflexivity.
Defined.
