(* ===== verification/DirListingPage.v ===== *)
(** * plugins/dirlisting: the whole answer

    The entries listed and the page a client reads. *)
From stdpp Require Import sorting.
From S2P Require Import Prelude CString MkString MkMemory MkUtils MkTypes MkToc MkSession MkEpoll MkPlugin MkConfig MkFile MkResponse Chunked DirListing DirListingSpec.
Import Iov.
Local Open Scope Z_scope.

(** Exactly the entries that are not hidden, of a listed type and whose
    information can be read are listed; ".." is not hidden. Each keeps the address
    of its name in the buffer of the stream. *)
Theorem mk_dirhtml_create_list_spec `{env : Env} local_time_text dir path w :
  (forall t, exists text, local_time_text t = Some text /\ 0 ∉ text) ->
  (forall t p f, sys_lstat t p = inr f -> 0 <= st_size f < 2 ^ 60) ->
  (forall t p f, sys_stat t p = Some f -> 0 <= st_size f < 2 ^ 60) ->
  names_ok dir 0 path ->
  exists l, mk_dirhtml_create_list local_time_text dir 0 path w = Some (l, w) /\
    forall e, e ∈ l <-> exists k ent, dir !! k = Some ent /\ makes local_time_text w path (S k) ent e.
Proof. intros Ht Hl Hs Hn. exact (create_list_run local_time_text Ht Hl Hs dir 0 path w Hn). Qed.

Section Page.
Context `{env : Env}.
Hypothesis no_safe_event : c_safe_event_write config = MK_FALSE.
Hypothesis takes_vectors : forall t fd d, net_writev t fd d = Z.of_nat (length d).
Hypothesis takes_buffers : forall t fd d, net_write t fd d = Z.of_nat (length d).

Variable opendir : list event -> bytes -> option (list dirent).
Variable local_time_text : Z -> option bytes.
Variable qsort : (mk_f_list -> mk_f_list -> Z) -> list mk_f_list -> list mk_f_list.
Hypothesis times : forall t, exists text, local_time_text t = Some text /\ 0 ∉ text.
Hypothesis lstat_sizes : forall t p f, sys_lstat t p = inr f -> 0 <= st_size f < 2 ^ 60.
Hypothesis stat_sizes : forall t p f, sys_stat t p = Some f -> 0 <= st_size f < 2 ^ 60.
Hypothesis sorts : forall calls l, qsort (mk_dirhtml_entry_cmp calls) l ≡ₚ l /\
  Sorted (fun a b => mk_dirhtml_entry_cmp calls a b <= 0) (qsort (mk_dirhtml_entry_cmp calls) l).

(** The three themes and the path of the theme. *)
Variables (hs es fs : bytes) (hl el fl : list tag_item) (theme_path : bytes).
Hypothesis themes : 0 ∉ theme_text hs hl /\ 0 ∉ theme_text es el /\ 0 ∉ theme_text fs fl.
Hypothesis begin_with_text : hs <> [] /\ es <> [] /\ fs <> [].
Hypothesis path_text : 0 ∉ theme_path.

Definition loaded : dirhtml :=
  {| dh_theme_path := theme_path ++ [0]; tpl_header := theme_template hs hl; tpl_entry := theme_template es el;
     tpl_footer := theme_template fs fl |}.

(** What the tags of the header and the footer become. *)
Definition global_value (title : bytes) (t : tag_table) (i : nat) : bytes :=
  match t with _tags_global => nth i [title; theme_path] [] | _tags_entry => [] end.

Lemma global_values_run title :
  0 ∉ title -> Z.of_nat (length title) < 2 ^ 31 -> Z.of_nat (length theme_path) < 2 ^ 31 ->
  exists v0 values, mk_dirhtml_tag_assign [] 0 mk_iov_none (title ++ [0]) _tags_global = Some v0 /\
    mk_dirhtml_tag_assign v0 1 mk_iov_none (theme_path ++ [0]) _tags_global = Some values /\
    Forall value_ok values /\ forall t i, tag_value values t i = global_value title t i.
Proof.
  intros H0 Hl1 Hl2. assert (Ht : is_cstr (title ++ [0]) title) by (split; [by exists []|done]).
  assert (Hp : is_cstr (theme_path ++ [0]) theme_path) by (split; [by exists []|done]).
  eexists _, _. split; [apply (tag_assign_run _ _ _ _ _ _ Ht)|]. split; [apply (tag_assign_run _ _ _ _ _ _ Hp)|]. cbn [app].
  destruct (string_value 0 mk_iov_none _ _ _tags_global [] Ht ltac:(lia) reads_none) as [V0 T0].
  destruct (string_value 1 mk_iov_none _ _ _tags_global [] Hp ltac:(lia) reads_none) as [V1 T1].
  rewrite app_nil_r in T0, T1. split; [by repeat (apply Forall_cons_2; [done|])|].
  intros t i. unfold tag_value, global_value. destruct t; [|by destruct i].
  destruct i as [|[|i]]; cbn [find_value va_tags va_tag_id nth];
    repeat first [rewrite decide_True by (split; [done|cbn; lia]) | rewrite decide_False by (intros [_ ?]; lia)]; try done.
  by destruct i.
Qed.

(** A page of the global tags, composed. *)
Lemma global_composed values title s l chunked :
  0 ∉ theme_text s l -> Forall value_ok values -> (forall t i, tag_value values t i = global_value title t i) ->
  Z.of_nat (length (render_theme (global_value title) s l)) + 64 < 2 ^ 31 ->
  exists m, mk_dirhtml_theme_compose (theme_template s l) values chunked = Some m /\
    reserved m (render_theme (global_value title) s l ++ if chunked then [13; 10] else []).
Proof.
  intros H0 Hok Hv Hl. destruct (theme_template_ok s l H0) as [Ht Hne].
  pose proof (theme_template_text values s l) as Htext. rewrite (render_theme_ext _ _ _ _ Hv) in Htext.
  destruct (theme_compose_run _ values chunked Ht Hne Hok) as (m & Hm & Hr); [rewrite Htext; lia|].
  rewrite Htext in Hr. eauto.
Qed.

Lemma header_world_sessions w l now : header_world w now -> header_world (w <| w_sessions := l |>) now.
Proof. intros []. now split. Qed.

Lemma written_header fd t text : written fd (header_events t fd text) = text.
Proof.
  unfold header_events. rewrite takes_vectors, Nat2Z.id, take_ge by lia.
  change [EvCork fd TCP_CORK_ON; EvWrite fd text] with ([EvCork fd TCP_CORK_ON] ++ [EvWrite fd text]).
  rewrite written_app, written_write. reflexivity.
Qed.

(** The pieces of a page: header, entries in the order of the table, footer. *)
Definition pieces (calls : nat) (title : bytes) (toc : list mk_f_list) : list bytes :=
  render_theme (global_value title) hs hl :: map (entry_page es el calls) toc ++ [render_theme (global_value title) fs fl].

Lemma pieces_nonempty calls title toc :
  Forall (fun s => Z.of_nat (length s) + 64 < 2 ^ 31) (pieces calls title toc) ->
  Forall (fun s => s <> [] /\ Z.of_nat (length s) < 2 ^ 64) (pieces calls title toc).
Proof.
  destruct begin_with_text as (H1 & H2 & H3). assert (Hr : forall f s l, s <> [] -> render_theme f s l <> []).
  { intros f s l Hs. unfold render_theme. by destruct s. }
  intros H. apply Forall_forall. intros s Hin. split; [|rewrite Forall_forall in H; specialize (H s Hin); lia].
  unfold pieces in Hin. apply elem_of_cons in Hin as [->|Hin]; [by apply Hr|].
  apply elem_of_app in Hin as [Hin| ->%list_elem_of_singleton]; [|by apply Hr].
  apply list_elem_of_fmap_1 in Hin as (e & -> & _). by apply Hr.
Qed.

(** The end of the answer: footer and last chunk. *)
Lemma listing_end cs sr c r m page w :
  at_sr w cs sr c r -> let chunked := HTTP_PROTOCOL_11 <=? sr_protocol r in
  reserved m (page ++ if chunked then [13; 10] else []) -> Z.of_nat (length page) + 64 < 2 ^ 31 ->
  let fd := cs_socket c in
  exists t, (n ← mk_dirhtml_send fd cs sr m;
    mk_socket_set_cork_flag fd TCP_CORK_OFF;;
    (if chunked && (0 <=? n) then _ ← mk_dirhtml_send_chunked_end fd; mret tt else mret tt);; mret 0) w =
    Some (0, logged w t) /\ written fd t = wire chunked page ++ (if chunked then last_chunk else []).
Proof.
  intros Hat chunked Hm Hl fd.
  destruct (piece_sent no_safe_event takes_vectors fd cs sr c r m page w Hat Hm Hl) as (n & Hs & Hn).
  erewrite bind_run by exact Hs. fold chunked. unfold mk_socket_set_cork_flag. erewrite bind_run by apply emit_run.
  rewrite logged_app. destruct chunked; cbn [andb].
  - replace (0 <=? n) with true by zb. unfold mk_dirhtml_send_chunked_end.
    destruct (send_all no_safe_event takes_buffers fd (lit "0" ++ [13; 10; 13; 10; 0]) 5 last_chunk
      (logged w ([EvWrite fd (wire true page)] ++ [EvCork fd TCP_CORK_OFF])) eq_refl) as (r' & Hend).
    erewrite bind_run; [|erewrite bind_run by exact Hend; reflexivity]. rewrite logged_app. eexists. split; [reflexivity|].
    rewrite !written_app, !written_write. change (written fd [EvCork fd TCP_CORK_OFF]) with (@nil Z). now rewrite app_nil_r.
  - eexists. split; [reflexivity|]. rewrite written_app, written_write. done.
Qed.

(** The names can be read when the table is sorted. *)
Lemma names_read calls l : Forall (entry_texts calls) l -> exists x, mapM (fun e => cstr (fl_name e calls)) l = Some x.
Proof.
  intros H. apply mapM_is_Some. apply (Forall_impl _ _ _ H). intros e [Hn _ _ _]. exists (text_of (fl_name e calls)).
  now apply cstr_cstr.
Qed.

Lemma listed_texts dir path w l :
  names_ok dir 0 path -> mk_dirhtml_create_list local_time_text dir 0 path w = Some (l, w) ->
  Forall (entry_texts (S (length dir))) l.
Proof.
  intros Hn Hl. destruct (create_list_run local_time_text times lstat_sizes stat_sizes dir 0 path w Hn) as (l' & Hl' & Hspec).
  rewrite Hl in Hl'. injection Hl' as <-. apply Forall_forall. intros e (k & ent & Hk & _ & _ & He)%Hspec.
  destruct Hn as [_ Hn]. destruct (Hn k ent (S (length dir)) Hk ltac:(right; lia)) as [H1 H2].
  eapply created_texts; [done..|exact He|done|lia].
Qed.

Lemma pieces_perm calls title toc l : toc ≡ₚ l ->
  Forall (fun s => Z.of_nat (length s) + 64 < 2 ^ 31) (pieces calls title l) ->
  Forall (fun s => Z.of_nat (length s) + 64 < 2 ^ 31) (pieces calls title toc).
Proof. intros Hp H. unfold pieces in *. now rewrite Hp. Qed.

(** The body, as it is read. *)
Lemma body_read calls title toc :
  Forall (fun s => Z.of_nat (length s) + 64 < 2 ^ 31) (pieces calls title toc) ->
  forall chunked : bool,
  let body := concat (map (wire chunked) (pieces calls title toc)) ++ (if chunked then last_chunk else []) in
  if chunked then dechunk (S (length (pieces calls title toc))) body = Some (concat (pieces calls title toc), [])
  else body = concat (pieces calls title toc).
Proof.
  intros H chunked. destruct chunked; cbn [wire].
  - pose proof (dechunk_chunks (pieces calls title toc) [] (pieces_nonempty _ _ _ H)) as Hd. rewrite app_nil_r in Hd. exact Hd.
  - unfold wire. now rewrite map_id, app_nil_r.
Qed.

Definition listing_session (c : client_session) (sr : nat) (r' : session_request) : client_session :=
  c <| cs_request_list := <[sr := r']> (cs_request_list c) |>.

(** C15: the answer to the request of a directory, on a network that takes what it
    is given. The response header is followed by the listing: the header theme,
    the entries in the order of [qsort] by name, the footer theme, with the tags
    replaced. A client of HTTP/1.1 that reads the chunks gets exactly this page
    and nothing is left; an older one is sent the page itself. *)
Theorem mk_dirhtml_init_page cs sr w c r p path dir title status signature now :
  let chunked := HTTP_PROTOCOL_11 <=? sr_protocol r in
  let r' := listing_headers chunked r in
  let calls := S (length dir) in
  at_sr w cs sr c r -> data (sr_real_path r) = Some p -> is_cstr p path -> opendir (w_trace w) path = Some dir ->
  names_ok dir 0 path -> mk_pointer_to_buf (sr_uri_processed r) = Some (title ++ [0]) -> 0 ∉ title ->
  Z.of_nat (length title) < 2 ^ 31 -> Z.of_nat (length theme_path) < 2 ^ 31 ->
  response_ready w (listing_session c sr r') r' status signature now ->
  (forall l, mk_dirhtml_create_list local_time_text dir 0 path w = Some (l, w) ->
     Forall (fun s => Z.of_nat (length s) + 64 < 2 ^ 31) (pieces calls title l)) ->
  exists w' t l toc body,
    mk_dirhtml_init opendir local_time_text qsort loaded cs sr w = Some (0, w') /\ w_trace w' = w_trace w ++ t /\
    mk_dirhtml_create_list local_time_text dir 0 path w = Some (l, w) /\
    toc ≡ₚ l /\ Sorted (fun a b => mk_dirhtml_entry_cmp calls a b <= 0) toc /\
    written (cs_socket c) t = header_text status signature now (listing_session c sr r') r' ++ body /\
    let page := concat (pieces calls title toc) in
    if chunked then dechunk (S (length (pieces calls title toc))) body = Some (page, []) else body = page.
Proof.
  intros chunked r' calls Hat Hp Hpath Hdir Hnames Htitle H0 Hl1 Hl2 Hready Hsizes.
  destruct (create_list_run local_time_text times lstat_sizes stat_sizes dir 0 path w Hnames) as (l & Hl & _).
  pose proof (listed_texts _ _ _ _ Hnames Hl) as Htexts. specialize (Hsizes l Hl).
  destruct (sorts calls l) as [Hperm Hsorted]. set (toc := qsort (mk_dirhtml_entry_cmp calls) l) in *.
  apply (pieces_perm calls title toc l Hperm) in Hsizes.
  pose proof (body_read calls title toc Hsizes chunked) as Hbody. unfold pieces in Hsizes.
  apply Forall_cons in Hsizes as [Hsh Hsizes]. apply Forall_app in Hsizes as [Hse [Hsf _]%Forall_cons]. rewrite Forall_map in Hse.
  destruct themes as (Th & Te & Tf). destruct (global_values_run title H0 Hl1 Hl2) as (v0 & values & Hv0 & Hv & Hok & Hval).
  destruct (global_composed values title hs hl chunked Th Hok Hval Hsh) as (mh & Hmh & Hrh).
  destruct (global_composed values title fs fl chunked Tf Hok Hval Hsf) as (mf & Hmf & Hrf).
  destruct (mod_sr_run cs sr (listing_headers chunked) w c r Hat) as [Hmod Hat1].
  fold r' in Hmod, Hat1. fold (listing_session c sr r') in Hmod, Hat1.
  set (w1 := w <| w_sessions := _ |>) in *.
  assert (Hready1 : response_ready w1 (listing_session c sr r') r' status signature now)
    by (destruct Hready; split; try done; now apply header_world_sessions).
  destruct (mk_header_send_run (cs_socket c) cs sr w1 _ r' status signature now Hat1 Hready1 no_safe_event) as (w2 & Hhead & Htr & Hcore & _).
  pose proof (core_at_sr _ _ _ _ _ _ Hcore Hat1) as Hat2.
  assert (Hproto : sr_protocol r' = sr_protocol r) by (unfold r', listing_headers, set_headers; destruct chunked; done).
  assert (Hch : (HTTP_PROTOCOL_11 <=? sr_protocol r') = chunked) by (unfold chunked; now rewrite Hproto).
  destruct (piece_sent no_safe_event takes_vectors (cs_socket c) cs sr _ r' mh _ w2 Hat2 ltac:(rewrite Hch; exact Hrh) Hsh)
    as (n1 & Hs1 & Hn1). rewrite Hch in Hs1.
  set (w3 := logged w2 _) in *. assert (Hat3 : at_sr w3 cs sr (listing_session c sr r') r') by (apply logged_at; exact Hat2).
  destruct (send_toc_run no_safe_event takes_vectors es el Te (cs_socket c) cs sr _ r' calls toc 0 w3 Hat3) as (t4 & Hs4 & Hw4).
  { apply Forall_forall. intros e He. rewrite Forall_forall in Htexts, Hse. split; [apply Htexts; now rewrite <- Hperm|now apply Hse]. }
  rewrite Hch in Hs4. set (w4 := logged w3 t4) in *.
  assert (Hat4 : at_sr w4 cs sr (listing_session c sr r') r') by (apply logged_at; exact Hat3).
  destruct (listing_end cs sr _ r' mf _ w4 Hat4 ltac:(rewrite Hch; exact Hrf) Hsf) as (t5 & Hs5 & Hw5).
  rewrite Hch in Hs5, Hw5. change (cs_socket (listing_session c sr r')) with (cs_socket c) in Hs5, Hw5.
  destruct (names_read calls l Htexts) as [names Hread].
  exists (logged w4 t5). eexists _, l, toc, _. cbv zeta. split.
  { unfold mk_dirhtml_init. erewrite bind_run by (eapply get_cs_run; apply Hat). erewrite bind_run by (eapply get_sr_run; apply Hat).
    erewrite lift_run by exact Hp. erewrite lift_run by (apply cstr_cstr; exact Hpath).
    erewrite bind_run by reflexivity. rewrite Hdir. erewrite bind_run by exact Hl. fold chunked calls.
    erewrite bind_run by exact Hmod. erewrite lift_run by exact Htitle. erewrite lift_run by exact Hv0.
    erewrite lift_run by exact Hv. erewrite lift_run by exact Hmh. erewrite lift_run by exact Hmf.
    erewrite lift_run by exact Hread. fold toc. erewrite bind_run by exact Hhead. cbn [Z.ltb Z.compare].
    erewrite bind_run by exact Hs1. replace (n1 <? 0) with false by zb. erewrite bind_run by exact Hs4. exact Hs5. }
  split; [unfold w4, w3, logged; cbn [w_trace set_field]; rewrite Htr, <- !app_assoc; reflexivity|].
  split; [exact Hl|]. split; [exact Hperm|]. split; [exact Hsorted|]. split.
  { rewrite !written_app, written_header, written_write, Hw4, Hw5. reflexivity. }
  cbv zeta. unfold pieces in Hbody |- *. cbn [map concat] in Hbody. rewrite map_app, concat_app in Hbody. cbn [map concat] in Hbody.
  rewrite map_map, app_nil_r, <- !app_assoc in Hbody. exact Hbody.
Qed.
End Page.

(** ** Examples *)

Lemma strcasecmp_opp p q : strcasecmp q p = Z.opp <$> strcasecmp p q.
Proof.
  unfold strcasecmp. revert q; induction p as [|c p IH]; intros [|d q]; cbn [strcmp_by]; try done.
  rewrite (Z.eqb_sym (tolower d)). destruct (tolower c =? tolower d) eqn:E; cbn [negb]; zbool; [|cbn; f_equal; lia].
  assert (H : (d =? 0) = (c =? 0)) by (pose proof (tolower_0 c); pose proof (tolower_0 d); destruct (c =? 0) eqn:Ec; zbool; zb).
  rewrite H. case_if; [done|apply IH].
Qed.

Definition example_qsort (cmp : mk_f_list -> mk_f_list -> Z) (l : list mk_f_list) : list mk_f_list :=
  @merge_sort _ (fun a b => cmp a b <= 0) (fun a b => Z_le_dec (cmp a b) 0) l.

Lemma example_sorts calls l :
  example_qsort (mk_dirhtml_entry_cmp calls) l ≡ₚ l /\
  Sorted (fun a b => mk_dirhtml_entry_cmp calls a b <= 0) (example_qsort (mk_dirhtml_entry_cmp calls) l).
Proof.
  split; [apply merge_sort_Permutation|]. apply Sorted_merge_sort. intros a b. unfold mk_dirhtml_entry_cmp.
  rewrite (strcasecmp_opp (fl_name a calls)). destruct (strcasecmp (fl_name a calls) (fl_name b calls)); cbn; lia.
Qed.

(** An entry whose name stays where it is. *)
Definition kept_entry (type : Z) (name : string) : dirent := {| d_type := type; d_name := fun _ => clit name |}.
Definition example_dir : list dirent :=
  [kept_entry DT_DIR "."; kept_entry DT_DIR ".."; kept_entry DT_REG "b.txt"; kept_entry DT_REG ".secret"; kept_entry DT_REG "A.txt"].

Lemma kept_names_ok path l :
  0 ∉ path -> Z.of_nat (length path) < 2 ^ 30 ->
  Forall (fun n => 0 ∉ lit n.2 /\ Z.of_nat (length (lit n.2)) < 2 ^ 30) l ->
  names_ok ((fun n => kept_entry n.1 n.2) <$> l) 0 path.
Proof.
  intros H0 Hp Hl. split; [done|]. intros k ent calls Hk _.
  apply list_lookup_fmap_Some in Hk as (n & -> & Hk).
  destruct (Forall_lookup_1 _ _ _ _ Hl Hk) as [Hn Hlen]. cbn [kept_entry d_name]. unfold text_of.
  rewrite (cstr_cstr _ _ (is_cstr_clit _ Hn)). cbn. split; [now apply is_cstr_clit|lia].
Qed.

Definition example_time (t : Z) : option bytes := Some (lit "01-Jan-1970 00:16").
Lemma example_times t : exists text, example_time t = Some text /\ 0 ∉ text.
Proof. exists (lit "01-Jan-1970 00:16"). split; [done|decide_closed]. Qed.
Lemma example_lstat t p f : @sys_lstat example_env t p = inr f -> 0 <= st_size f < 2 ^ 60.
Proof. intros [= <-]. cbn. lia. Qed.
Lemma example_stats t p f : @sys_stat example_env t p = Some f -> 0 <= st_size f < 2 ^ 60.
Proof. intros [= <-]. cbn. lia. Qed.

Definition directory_request : session_request :=
  get_request "/d/" <| sr_real_path := mk_pointer_init "/srv/d/" |> <| sr_uri_processed := mk_pointer_init "/d/" |>
    <| sr_protocol := HTTP_PROTOCOL_11 |>.

Lemma create_list_witness :
  exists l, @mk_dirhtml_create_list example_env example_time example_dir 0 (lit "/srv/d/") (request_world directory_request) =
      Some (l, request_world directory_request) /\
    forall e, e ∈ l <-> exists k ent, example_dir !! k = Some ent /\
      @makes example_env example_time (request_world directory_request) (lit "/srv/d/") (S k) ent e.
Proof.
  apply (@mk_dirhtml_create_list_spec example_env example_time example_dir (lit "/srv/d/") (request_world directory_request)).
  - apply example_times.
  - apply example_lstat.
  - apply example_stats.
  - apply (kept_names_ok (lit "/srv/d/") [(DT_DIR, "."); (DT_DIR, ".."); (DT_REG, "b.txt"); (DT_REG, ".secret"); (DT_REG, "A.txt")]%string);
      [decide_closed|cbn; lia|]. repeat (apply Forall_cons_2; [split; [decide_closed|cbn; lia]|]). apply Forall_nil_2.
Defined.

Lemma directory_ready :
  @response_ready example_env (request_world directory_request) (listing_session (request_session directory_request) 0
      (listing_headers true directory_request)) (listing_headers true directory_request)
    (lit "HTTP/1.1 200 OK" ++ [13; 10]) (lit "Server: Monkey") (lit "now").
Proof.
  split; [apply header_world_example | | | | intros H; vm_compute in H; discriminate | done | done].
  - split; [split; cbn; [lia|intros _; eexists; reflexivity] | split; cbn; lia | done | cbn; lia | cbn; lia].
  - eexists. split; [reflexivity|]. now apply reads_lit.
  - eexists. split; [reflexivity|]. apply (reads_lit (lit "Server: Monkey")). cbn. lia.
Qed.

(** The themes of the example: "Index of %_html_title_%:", an entry, an end. *)
Definition header_items : list tag_item := [(_tags_global, 0%nat, lit ": ")].
Definition entry_items : list tag_item := [(_tags_entry, 1%nat, lit ">"  ++ [32]); (_tags_entry, 4%nat, lit ";")].

Lemma mk_dirhtml_init_witness :
  exists w' t l toc body,
    @mk_dirhtml_init example_env (fun _ _ => Some example_dir) example_time example_qsort
      (loaded (lit "Index of ") (lit "<") (lit "end") header_items entry_items [] (lit "/theme/")) 1 0
      (request_world directory_request) = Some (0, w') /\ w_trace w' = [] ++ t /\
    @mk_dirhtml_create_list example_env example_time example_dir 0 (lit "/srv/d/") (request_world directory_request) =
      Some (l, request_world directory_request) /\
    toc ≡ₚ l /\ Sorted (fun a b => mk_dirhtml_entry_cmp 6 a b <= 0) toc /\
    written 5 t = @header_text example_env (lit "HTTP/1.1 200 OK" ++ [13; 10]) (lit "Server: Monkey") (lit "now")
      (listing_session (request_session directory_request) 0 (listing_headers true directory_request))
      (listing_headers true directory_request) ++ body /\
    let ps := pieces (lit "Index of ") (lit "<") (lit "end") header_items entry_items [] (lit "/theme/") 6 (lit "/d/") toc in
    dechunk (S (length ps)) body = Some (concat ps, []).
Proof.
  apply (@mk_dirhtml_init_page example_env eq_refl (fun _ _ _ => eq_refl) (fun _ _ _ => eq_refl)
    (fun _ _ => Some example_dir) example_time example_qsort
    example_times example_lstat example_stats example_sorts
    (lit "Index of ") (lit "<") (lit "end") header_items entry_items [] (lit "/theme/")
    ltac:(split; [decide_closed|split; decide_closed]) ltac:(split_and!; discriminate) ltac:(decide_closed)
    1 0 (request_world directory_request) (request_session directory_request) directory_request
    (clit "/srv/d/") (lit "/srv/d/") example_dir (lit "/d/")).
  - apply request_world_at.
  - reflexivity.
  - apply is_cstr_clit. decide_closed.
  - reflexivity.
  - apply (kept_names_ok (lit "/srv/d/") [(DT_DIR, "."); (DT_DIR, ".."); (DT_REG, "b.txt"); (DT_REG, ".secret"); (DT_REG, "A.txt")]%string);
      [decide_closed|cbn; lia|]. repeat (apply Forall_cons_2; [split; [decide_closed|cbn; lia]|]). apply Forall_nil_2.
  - reflexivity.
  - decide_closed.
  - cbn. lia.
  - cbn. lia.
  - apply directory_ready.
  - intros l Hl. vm_compute in Hl. injection Hl as <-.
    repeat (apply Forall_cons_2; [vm_compute; reflexivity|]). apply Forall_nil_2.
Defined.

(** A directory that cannot be opened: the request is over and nothing is sent. *)
Example unreadable_directory :
  let r := directory_request <| sr_file_info := file_info_init <| fi_size := 4096 |> <| fi_is_directory := MK_TRUE |> |> in
  option_map (fun x => (x.1, w_trace x.2))
    (@_mkp_stage_30 example_env (fun _ _ => None) example_time example_qsort
       (loaded (lit "Index of ") (lit "<") (lit "end") header_items entry_items [] (lit "/theme/")) 1 0 (request_world r)) =
  Some (MK_PLUGIN_RET_END, [EvSetFl 5 0; EvSetFl 5 O_NONBLOCK]).
Proof. reflexivity. Qed.
