(* ===== verification/PluginOutput.v ===== *)
(** * What a plugin hands on to its client

    The output of a program or of another server is read in pieces and reaches
    the client behind the header of the server: the bytes read and written
    between two worlds, pieces on the wire, and the header with the status of the
    program. *)
From S2P Require Import Prelude CString MkString MkMemory MkUtils MkTypes MkToc MkSession MkEpoll MkPlugin MkScheduler MkConfig MkResponse MkConnection.
From S2P Require Import PluginState FcgiEnv Chunked.
Local Open Scope Z_scope.

(** ** What was done *)

(** What was read from a descriptor. *)
Definition given (fd : Z) (t : list event) : bytes :=
  concat (map (fun e => match e with EvRead f d => if f =? fd then d else [] | _ => [] end) t).

Lemma given_app fd t t' : given fd (t ++ t') = given fd t ++ given fd t'.
Proof. unfold given. now rewrite map_app, concat_app. Qed.

(** No write to the socket failed. *)
Definition unfailing (socket : Z) (t : list event) : Prop := EvWrite socket [] ∉ t.
Lemma unfailing_app socket t t' : unfailing socket (t ++ t') <-> unfailing socket t /\ unfailing socket t'.
Proof. unfold unfailing. now rewrite not_elem_of_app. Qed.

(** Between two worlds [inp] was read from the program and [out] written to the
    socket, [always] or if no write failed. *)
Record passed (always : bool) (socket fd : Z) (w w' : world) (out inp : bytes) : Prop := {
  pa_trace : exists t, w_trace w' = w_trace w ++ t /\ (always = true \/ unfailing socket t -> written socket t = out) /\ given fd t = inp;
}.

Section Passed.
Variable always : bool.
Variables socket fd : Z.
Abbreviation passed := (passed always socket fd).

Lemma passed_refl w : passed w w [] [].
Proof. split. exists []. now rewrite app_nil_r. Qed.

Lemma passed_trans w w1 w2 o1 i1 o2 i2 : passed w w1 o1 i1 -> passed w1 w2 o2 i2 -> passed w w2 (o1 ++ o2) (i1 ++ i2).
Proof.
  intros [(t1 & T1 & O1 & I1)] [(t2 & T2 & O2 & I2)]. split. exists (t1 ++ t2).
  rewrite T2, T1, <- app_assoc, written_app, given_app, unfailing_app. split; [done|]. split; [|congruence].
  intros [Ha|[Ha1 Ha2]]; [rewrite O1, O2 by now left|rewrite O1, O2 by now right]; done.
Qed.

(** Steps that neither write nor read. *)
Lemma passed_silent w w1 w2 o i : passed w w1 o i -> passed w1 w2 [] [] -> passed w w2 o i.
Proof. intros H1 H2. pose proof (passed_trans _ _ _ _ _ _ _ H1 H2) as H. now rewrite !app_nil_r in H. Qed.

Lemma passed_logged w t : passed w (logged w t) (written socket t) (given fd t).
Proof. split. by exists t. Qed.
Lemma passed_sure w t out : (unfailing socket t -> written socket t = out) -> always = false -> passed w (logged w t) out (given fd t).
Proof. intros H Ha. split. exists t. split; [done|]. split; [|done]. intros [?|?]; [congruence|auto]. Qed.
End Passed.

Lemma memread_all d rest : memread (d ++ rest) (Z.of_nat (length d)) = Some d.
Proof. rewrite memread_take by (rewrite length_app; lia). now rewrite Nat2Z.id, take_app_length. Qed.

Lemma dec_no_newline z : 0 <= z -> 10 ∉ dec z.
Proof.
  intros Hz Hin. unfold dec in Hin. replace (z <? 0) with false in Hin by zb. cbn [app] in Hin. rewrite elem_of_rev in Hin.
  pose proof (itop_digits_ascii 20 (Z.abs z) ltac:(lia)) as H. rewrite Forall_forall in H. apply H in Hin. lia.
Qed.

(** ** Pieces *)

(** The piece of the body that an event sends. *)
Definition piece (d : bytes) : list bytes := match d with [] => [] | _ => [d] end.
Definition wires (chunked : bool) (ps : list bytes) : bytes := concat (map (wire chunked) ps).

Lemma piece_concat d : concat (piece d) = d.
Proof. destruct d; [done|]. cbn. now rewrite app_nil_r. Qed.
Lemma wires_app b ps qs : wires b (ps ++ qs) = wires b ps ++ wires b qs.
Proof. unfold wires. now rewrite map_app, concat_app. Qed.

Definition small (s : bytes) : Prop := s <> [] /\ Z.of_nat (length s) < 2 ^ 64.
Lemma piece_small d : Z.of_nat (length d) < 2 ^ 64 -> Forall small (piece d).
Proof. intros H. destruct d; [apply Forall_nil_2|]. by apply Forall_cons_2; [|apply Forall_nil_2]. Qed.

(** A client that reads chunks gets the pieces of the body. *)
Lemma dechunk_wires ps : Forall small ps -> dechunk (S (length ps)) (wires true ps ++ last_chunk) = Some (concat ps, []).
Proof. intros H. pose proof (dechunk_chunks ps [] H) as E. now rewrite app_nil_r in E. Qed.
Lemma wires_raw ps : wires false ps = concat ps.
Proof. unfold wires. now rewrite (map_ext (wire false) id), map_id. Qed.

(** ** Headers *)

Definition empty_line : bytes := [13; 10; 13; 10].

(** The empty line that ends the headers is the first one. *)
Definition ends_headers (hdrs : bytes) : Prop :=
  strstr (hdrs ++ empty_line ++ [0]) (empty_line ++ [0]) = Some (Some (Z.of_nat (length hdrs))).

Lemma starts_by_app eqc n x y z : (length n <= length x)%nat -> starts_by eqc (x ++ y) (n ++ [0]) = starts_by eqc (x ++ z) (n ++ [0]).
Proof.
  revert x; induction n as [|d n IH]; intros x Hl; [reflexivity|]. destruct x as [|c x]; [cbn in Hl; lia|]. cbn [app starts_by].
  destruct (d =? 0); [done|]. destruct (eqc c d); [|done]. apply IH. cbn in Hl. lia.
Qed.

Lemma ends_headers_rest hdrs rest :
  ends_headers hdrs -> strstr (hdrs ++ empty_line ++ rest) (empty_line ++ [0]) = Some (Some (Z.of_nat (length hdrs))).
Proof.
  unfold ends_headers, strstr. set (n := empty_line ++ [0]). induction hdrs as [|c hdrs IH].
  - intros _. reflexivity.
  - cbn [app strstr_by].
    assert (Hs : starts_by eq_cs (c :: hdrs ++ empty_line ++ rest) n = starts_by eq_cs (c :: hdrs ++ n) n).
    { pose proof (starts_by_app eq_cs empty_line (c :: hdrs ++ empty_line) rest [0]) as H. cbn [app] in H. rewrite <- !app_assoc in H.
      apply H. cbn [length]. rewrite length_app. cbn [length empty_line]. lia. }
    rewrite Hs. destruct (starts_by _ (c :: hdrs ++ n) n) as [b|]; [|done]. mstep. destruct b; [done|]. case_if; [done|].
    destruct (strstr_by _ (hdrs ++ n) n) as [r|] eqn:Er; [|done]. mstep. unfold osucc. intros H.
    destruct r as [k|]; [|done]. cbn [fmap option_fmap option_map] in H. injection H as H.
    rewrite IH by (repeat f_equal; lia). mstep. cbn [fmap option_fmap option_map length]. do 2 f_equal. lia.
Qed.

Section WithEnv.
Context `{env : Env}.

Lemma cork_passed always socket fd state w : exists w', mk_socket_set_cork_flag socket state w = Some (tt, w') /\ passed always socket fd w w' [] [].
Proof. eexists. split; [reflexivity|]. apply (passed_logged always socket fd w [EvCork socket state]). Qed.

Lemma event_del_passed always k w socket fd : exists r w', mk_plugin_event_del k w = Some (r, w') /\ passed always socket fd w w' [] [].
Proof.
  unfold mk_plugin_event_del. case_if; [exists (-1), w; split; [done|apply passed_refl]|].
  erewrite bind_run by reflexivity. destruct (List.find _ _) as [e|].
  - unfold mk_epoll_del, epoll_ctl. mrun.
    match goal with |- context [sys_epoll_ctl ?a ?o ?c ?d ?e] => destruct (sys_epoll_ctl a o c d e) as [r x] end.
    eexists _, _. split; [reflexivity|]. split. by exists [EvEpollCtl EPOLL_CTL_DEL (sl_epoll_fd (w_sched w)) k 0].
  - exists (-1), w. split; [done|apply passed_refl].
Qed.

Lemma epoll_add_run efd k mode b w :
  exists r w' ev, mk_epoll_add true efd k mode b w = Some (r, w') /\ w_sessions w' = w_sessions w /\
    w_trace w' = w_trace w ++ [EvEpollCtl EPOLL_CTL_ADD efd k ev].
Proof.
  unfold mk_epoll_add. set (ev := mode_events _ _). destruct (sys_epoll_ctl (w_trace w) EPOLL_CTL_ADD efd k ev) as [r x] eqn:E.
  assert (Hc : epoll_ctl EPOLL_CTL_ADD efd k ev w = Some (r, x, logged w [EvEpollCtl EPOLL_CTL_ADD efd k ev])).
  { unfold epoll_ctl. erewrite bind_run by reflexivity. erewrite bind_run by reflexivity. rewrite E. reflexivity. }
  erewrite bind_run by exact Hc. cbv beta iota. destruct ((r <? 0) && negb x); eexists _, _, ev; split; reflexivity || done.
Qed.

Lemma event_add_run k mode handler w :
  exists r w', mk_plugin_event_add k mode (Some handler) MK_EPOLL_LEVEL_TRIGGERED w = Some (r, w') /\
    w_sessions w' = w_sessions w /\ exists efd ev, w_trace w' = w_trace w ++ [EvEpollCtl EPOLL_CTL_ADD efd k ev].
Proof.
  unfold mk_plugin_event_add. erewrite bind_run by reflexivity. erewrite bind_run by reflexivity.
  match goal with |- context [(mk_epoll_add true ?efd _ _ _ ≫= _) ?w1] =>
    destruct (epoll_add_run efd k mode MK_EPOLL_LEVEL_TRIGGERED w1) as (r & w' & ev & H1 & H2 & H3) end.
  erewrite bind_run by exact H1. eexists 0, w'. split; [done|]. split; [exact H2|]. do 2 eexists. exact H3.
Qed.

(** ** The header of the server *)

Definition with_status (st : option (Z * bytes)) (q : session_request) : session_request :=
  match st with Some (status, _) => set_headers (fun sh => sh <| sh_status := status |>) q | None => q end.

(** The header is written by one call. *)
Hypothesis no_safe_event : c_safe_event_write config = MK_FALSE.

(** What the network takes of a header whose turn is in [w]. *)
Definition header_taken (w : world) (socket : Z) (text : bytes) : bytes :=
  take (Z.to_nat (net_writev (w_trace w ++ [EvCork socket TCP_CORK_ON]) socket text)) text.

(** A request whose program is to end the header. *)
Definition cgi_headers (q : session_request) : Prop :=
  sh_extra_rows (sr_headers q) = None /\
  (sh_cgi (sr_headers q) =? SH_NOCGI) || (sh_breakline (sr_headers q) =? MK_HEADER_BREAKLINE) = false.

Lemma header_passed_core always socket fd cs sr w c q status signature now :
  at_sr w cs sr c q -> sections_ready w c q status signature now -> cgi_headers q ->
  exists w', mk_header_send socket cs sr w = Some (0, w') /\
    passed always socket fd w w' (header_taken w socket (sections_text status signature now c q)) [] /\ core w' = core w.
Proof.
  intros Hat Hready [Hrows Hcgi]. destruct (mk_header_send_open socket cs sr w c q status signature now Hat Hready no_safe_event Hrows Hcgi)
    as (w' & Hrun & Htrace & Hcore & _). exists w'. split; [done|]. split; [|done]. split. eexists. split; [exact Htrace|]. unfold header_events.
  split; [|done]. intros _. cbn. now rewrite Z.eqb_refl, app_nil_r.
Qed.

Lemma header_passed always socket fd cs sr w c q status signature now :
  at_sr w cs sr c q -> sections_ready w c q status signature now -> cgi_headers q ->
  exists w', mk_header_send socket cs sr w = Some (0, w') /\ passed always socket fd w w' (header_taken w socket (sections_text status signature now c q)) [].
Proof.
  intros Hat Hready Hq. destruct (header_passed_core always socket fd cs sr w c q status signature now Hat Hready Hq) as (w' & H1 & H2 & _). eauto.
Qed.

(** The session with the status of the program. *)
Definition told (c : client_session) (sr : nat) (q : session_request) : client_session :=
  c <| cs_request_list := <[sr := q]> (cs_request_list c) |>.

Lemma told_id c sr q : cs_request_list c !! sr = Some q -> told c sr q = c.
Proof. intros H. unfold told. cbn. rewrite list_insert_id by done. by destruct c. Qed.

Lemma sections_ready_world w w' c q status signature now :
  sections_ready w c q status signature now -> w_iov w' = w_iov w -> w_header_time w' = w_header_time w -> w_gmt w' = w_gmt w ->
  sections_ready w' c q status signature now.
Proof. intros [[H1 H2 H3 H4] ? ? ? ?] E1 E2 E3. split; try done. split; congruence. Qed.
End WithEnv.
