(* ===== verification/Logger.v ===== *)
(** * plugins/logger: the log files

    A worker composes the line of a request that has ended and writes it to a
    pipe of the virtual host; a thread of the plugin moves what the pipes hold to
    the files. The names of the peers, the time as text and the system calls are
    parameters. *)
From stdpp Require Import gmap.
From S2P Require Import Prelude CString MkString MkMemory MkUtils MkTypes MkToc MkSession MkConfig MkFile MkResponse.
From S2P Require Import MkClock MkSocket PluginState.
Import Iov.
Local Open Scope Z_scope.

(** ** Data (logger.h, pointers.c) *)

Definition MK_LOGGER_TIMEOUT_DEFAULT : Z := 3.

(** The memory of a target is not cleared: the fields of a log the configuration
    does not name have no value. A path may be NULL. *)
Record log_target := {
  fd_access : option (Z * Z);
  fd_error : option (Z * Z);
  file_access : option (option bytes);
  file_error : option (option bytes);
  lt_host : nat
}.

(** What a worker keeps: the vector and the buffers of numbers and addresses. *)
Record logger := { lg_iov : mk_iov; cache_content_length : mk_pointer; cache_status : mk_pointer; cache_ip_str : mk_pointer }.
#[export] Instance eta_logger : Eta logger := fun r =>
  {| lg_iov := lg_iov r; cache_content_length := cache_content_length r; cache_status := cache_status r; cache_ip_str := cache_ip_str r |}.

Class LoggerGlobals := {
  (** the [log_current_time] of the clock *)
  log_time : list event -> mk_pointer;
  log_pipe : list event -> option (Z * Z);
  (** [writev(2)] to a pipe *)
  log_writev : list event -> Z -> bytes -> Z
}.

Definition mk_logger_iov_dash : mk_pointer := mk_pointer_init " - ".
Definition mk_logger_iov_space : mk_pointer := mk_pointer_init " ".
Definition mk_logger_iov_lf : mk_pointer := lit_pointer [10].
Definition mk_logger_iov_empty : mk_pointer := mk_pointer_init "-".

Definition error_msg_400 : mk_pointer := mk_pointer_init "[error 400] Bad Request".
Definition error_msg_403 : mk_pointer := mk_pointer_init "[error 403] Forbidden".
Definition error_msg_404 : mk_pointer := mk_pointer_init "[error 404] Not Found".
Definition error_msg_405 : mk_pointer := mk_pointer_init "[error 405] Method Not Allowed".
Definition error_msg_408 : mk_pointer := mk_pointer_init "[error 408] Request Timeout".
Definition error_msg_411 : mk_pointer := mk_pointer_init "[error 411] Length Required".
Definition error_msg_413 : mk_pointer := mk_pointer_init "[error 413] Request Entity Too Large".
Definition error_msg_500 : mk_pointer := mk_pointer_init "[error 500] Internal Server Error".
Definition error_msg_501 : mk_pointer := mk_pointer_init "[error 501] Not Implemented".
Definition error_msg_505 : mk_pointer := mk_pointer_init "[error 505] HTTP Version Not Supported".

Definition response_codes : list (Z * bytes) :=
  [ (200, clit "200"); (404, clit "404"); (100, clit "100"); (101, clit "101"); (201, clit "201"); (202, clit "202"); (203, clit "203");
    (204, clit "204"); (205, clit "205"); (206, clit "206"); (300, clit "300"); (301, clit "301"); (302, clit "302"); (303, clit "303");
    (304, clit "304"); (305, clit "305"); (400, clit "400"); (401, clit "401"); (402, clit "402"); (403, clit "403"); (405, clit "405");
    (406, clit "406"); (407, clit "407"); (408, clit "408"); (409, clit "409"); (410, clit "410"); (411, clit "411"); (412, clit "412");
    (413, clit "413"); (414, clit "414"); (415, clit "415"); (500, clit "500"); (501, clit "501"); (502, clit "502"); (503, clit "503");
    (504, clit "504"); (505, clit "505") ].

(** ** Targets *)

Fixpoint mk_logger_match_by_host (targets : list log_target) (host : option nat) : option log_target :=
  match targets with
  | [] => None
  | t :: targets => if decide (host = Some (lt_host t)) then Some t else mk_logger_match_by_host targets host
  end.

(** The file of a read end; a target that was not given both logs is compared
    with memory that has no value. *)
Fixpoint mk_logger_match_by_fd (targets : list log_target) (fd : Z) : option (option bytes) :=
  match targets with
  | [] => Some None
  | t :: targets =>
    a ← fd_access t;
    if fst a =? fd then file_access t else
    e ← fd_error t;
    if fst e =? fd then file_error t else mk_logger_match_by_fd targets fd
  end.

(** ** The line of a request *)

Abbreviation L := (P logger).

(** [_mkp_core_thctx] *)
Definition logger_init : option logger :=
  iov ← mk_iov_create 15 0;
  let buffer n := {| data := Some (replicate n 0); len := u64 (-1) |} in
  Some {| lg_iov := iov; cache_content_length := buffer MK_UTILS_INT2MKP_BUFFER_LEN; cache_status := buffer MK_UTILS_INT2MKP_BUFFER_LEN;
          cache_ip_str := buffer (Z.to_nat INET6_ADDRSTRLEN + 1)%nat |}.

Definition log_entry (p sep : mk_pointer) : L unit :=
  s ← getP;
  iov ← liftP (add_entry (lg_iov s) p sep MK_IOV_NOT_FREE_BUF);
  modP (fun s => s <| lg_iov := iov |>).

Definition reset_iov : L unit :=
  modP (fun s => let iov := lg_iov s in
    s <| lg_iov := {| io := io iov; buf_to_free := buf_to_free iov; iov_idx := 0; buf_idx := 0; size := size iov; total_len := 0 |} |>).

(** The text of a status; one that is not in the table is printed to a pointer
    that was never assigned. *)
Definition status_pointer (http_status : Z) : option mk_pointer :=
  p ← List.find (fun c => fst c =? http_status) response_codes;
  Some {| data := Some (snd p); len := 3 |}.

Section WithEnv.
Context `{env : Env} `{peers : PeerNames} `{globals : LoggerGlobals}.

Definition log_send (fds : option (Z * Z)) : L unit :=
  fd ← liftP fds;
  s ← getP;
  d ← liftP (mk_iov_data (lg_iov s));
  t ← call (gets w_trace);
  call (emit (EvWrite (snd fd) (take (Z.to_nat (log_writev t (snd fd) d)) d))).

Definition log_content_length (r : session_request) : L unit :=
  if negb (sr_method r =? HTTP_METHOD_HEAD) then
    s ← getP;
    let tmp := i32 (sh_content_length (sr_headers r)) in
    let tmp := if tmp <? 0 then 0 else tmp in
    buf ← liftP (data (cache_content_length s));
    '(buf, n) ← liftP (mk_string_itop tmp buf);
    modP (fun s => s <| cache_content_length := {| data := Some buf; len := n |} |>);;
    log_entry {| data := Some buf; len := n - 2 |} mk_logger_iov_lf
  else log_entry mk_logger_iov_empty mk_logger_iov_lf.

Definition log_access (target : log_target) (r : session_request) : L Z :=
  file ← liftP (file_access target);
  match file with
  | None => mret 0
  | Some _ =>
    log_entry (sr_method_p r) mk_logger_iov_space;;
    log_entry (sr_uri r) mk_logger_iov_space;;
    log_entry (sr_protocol_p r) mk_logger_iov_space;;
    status ← liftP (status_pointer (sh_status (sr_headers r)));
    log_entry status mk_logger_iov_space;;
    log_content_length r;;
    log_send (fd_access target);;
    mret 0
  end.

Definition error_entries (http_status : Z) (r : session_request) : L unit :=
  let with_detail msg p := log_entry msg mk_logger_iov_space;; log_entry p mk_logger_iov_lf in
  if http_status =? MK_CLIENT_BAD_REQUEST then log_entry error_msg_400 mk_logger_iov_lf
  else if http_status =? MK_CLIENT_FORBIDDEN then with_detail error_msg_403 (sr_uri r)
  else if http_status =? MK_CLIENT_NOT_FOUND then with_detail error_msg_404 (sr_uri r)
  else if http_status =? MK_CLIENT_METHOD_NOT_ALLOWED then with_detail error_msg_405 (sr_method_p r)
  else if http_status =? MK_CLIENT_REQUEST_TIMEOUT then log_entry error_msg_408 mk_logger_iov_lf
  else if http_status =? MK_CLIENT_LENGTH_REQUIRED then log_entry error_msg_411 mk_logger_iov_lf
  else if http_status =? MK_CLIENT_REQUEST_ENTITY_TOO_LARGE then log_entry error_msg_413 mk_logger_iov_lf
  else if http_status =? MK_SERVER_NOT_IMPLEMENTED then with_detail error_msg_501 (sr_method_p r)
  else if http_status =? MK_SERVER_INTERNAL_ERROR then log_entry error_msg_500 mk_logger_iov_space
  else if http_status =? MK_SERVER_HTTP_VERSION_UNSUP then log_entry error_msg_505 mk_logger_iov_lf
  else mret tt.

Definition log_error (target : log_target) (r : session_request) : L Z :=
  file ← liftP (file_error target);
  match file with
  | None => mret 0
  | Some _ => error_entries (sh_status (sr_headers r)) r;; log_send (fd_error target);; mret 0
  end.

(** The text of the peer, kept in the buffer of the worker; a socket that is
    gone has none. *)
Definition log_ip (socket : Z) : L (option mk_pointer) :=
  s ← getP;
  buf ← liftP (data (cache_ip_str s));
  ip ← call (mk_socket_ip_str socket buf (INET6_ADDRSTRLEN + 1));
  match ip with
  | None => mret None
  | Some (buf, n) =>
    let p := {| data := Some buf; len := n |} in
    modP (fun s => s <| cache_ip_str := p |>);; mret (Some p)
  end.

Definition _mkp_stage_40 (targets : list log_target) (cs sr : nat) : L Z :=
  r ← call (get_sr cs sr);
  match mk_logger_match_by_host targets (sr_host_conf r) with
  | None => mret 0
  | Some target =>
    reset_iov;;
    c ← call (get_cs cs);
    ip_str ← log_ip (cs_socket c);
    match ip_str with
    | None => mret 0
    | Some ip_str =>
      log_entry ip_str mk_logger_iov_dash;;
      t ← call (gets w_trace);
      log_entry (log_time t) mk_logger_iov_space;;
      if sh_status (sr_headers r) <? 400 then log_access target r else log_error target r
    end
  end.

(** ** Configuration *)

(** [mk_logger_timeout] and [mk_logger_master_path]. The exits are undefined. *)
Definition mk_logger_read_config (fopen_read : bytes -> option bytes) (path : bytes) : option (Z * option bytes) :=
  s ← cstr path;
  '(default_file, _) ← mk_string_build (s ++ lit "logger.conf");
  conf ← mk_config_create (fopen_read default_file);
  conf ← conf;
  match conf with
  | CfgExit _ _ => None
  | CfgOk conf =>
    section ← mk_config_section_get conf (clit "LOGGER");
    match section with
    | None => Some (MK_LOGGER_TIMEOUT_DEFAULT, None)
    | Some section =>
      n ← get_num section "FlushTimeout" MK_CONFIG_VAL_NUM;
      let timeout := i32 (u64 n) in
      if timeout <=? 0 then None else
      logfilename ← get_str section "MasterLog";
      name ← logfilename;
      Some (timeout, Some name)
    end
  end.

(** A log of a target, with its pipe whose write end does not block. *)
Definition log_file (entry : option bytes) : M (option (Z * Z) * option (option bytes)) :=
  match entry with
  | None => mret (None, None)
  | Some path =>
    t ← gets w_trace;
    fds ← lift (log_pipe t);
    emit (EvPipe (fst fds) (snd fds));;
    emit (EvSetFl (snd fds) O_NONBLOCK);;
    mret (Some fds, Some (Some path))
  end.

(** [_mkp_core_prctx]: the targets of the virtual hosts from number [i] on. *)
Fixpoint logger_targets (i : nat) (hosts : list mk_config) : M (list log_target) :=
  match hosts with
  | [] => mret []
  | conf :: hosts =>
    section ← lift (mk_config_section_get conf (clit "LOGGER"));
    match section with
    | None => logger_targets (S i) hosts
    | Some section =>
      access_entry ← lift (get_str section "AccessLog");
      error_entry ← lift (get_str section "ErrorLog");
      if bool_decide (access_entry = None /\ error_entry = None) then logger_targets (S i) hosts else
      '(fda, fa) ← log_file access_entry;
      '(fde, fe) ← log_file error_entry;
      rest ← logger_targets (S i) hosts;
      mret ({| fd_access := fda; fd_error := fde; file_access := fa; file_error := fe; lt_host := i |} :: rest)
    end
  end.
End WithEnv.

(** ** The thread that writes the files *)

(** The bytes in the pipes, by read end; the files; the time of the next flush
    and the last answer of [FIONREAD], both variables of the loop. *)
Record log_writer := { lw_pipes : gmap Z bytes; lw_files : gmap bytes bytes; lw_timeout : Z; lw_bytes : option Z }.
#[export] Instance eta_log_writer : Eta log_writer := fun r =>
  {| lw_pipes := lw_pipes r; lw_files := lw_files r; lw_timeout := lw_timeout r; lw_bytes := lw_bytes r |}.

(** What the system answers for one event: does [ioctl] work, is the file
    opened, and the result of [splice]. *)
Record log_answer := { an_ioctl : bool; an_open : bool; an_splice : Z }.

Section Writer.
(** [mk_logger_timeout] and three quarters of a pipe. *)
Variables (mk_logger_timeout buffer_limit : Z).
Variable targets : list log_target.

(** The descriptors that are waited for. *)
Fixpoint logger_watched (l : list log_target) : option (list Z) :=
  match l with
  | [] => Some []
  | t :: l =>
    a ← fd_access t;
    e ← fd_error t;
    rest ← logger_watched l;
    Some ((if 0 <? fst a then [fst a] else []) ++ (if 0 <? fst e then [fst e] else []) ++ rest)
  end.

(** Reads that throw the data away, at most 255 bytes each, as many as
    [fuel]; an empty pipe would be waited for. *)
Fixpoint consume (fuel : nat) (consumed bytes_ : Z) (content : bytes) : option bytes :=
  match fuel with
  | O => None
  | S fuel =>
    match content with
    | [] => None
    | _ =>
      let n := Nat.min 255 (length content) in
      let consumed := consumed + Z.of_nat n in
      if consumed <? bytes_ then consume fuel consumed bytes_ (drop n content) else Some (drop n content)
    end
  end.

Definition log_flush (fd : Z) (target content : bytes) (bytes_ : Z) (an : log_answer) (w : log_writer) : option log_writer :=
  if an_open an then
    let n := Z.to_nat (Z.min (an_splice an) bytes_) in
    let old := default [] (lw_files w !! target) in
    Some (w <| lw_pipes := <[fd := drop n content]> (lw_pipes w) |> <| lw_files := <[target := old ++ take n content]> (lw_files w) |>)
  else
    rest ← consume (S (length content)) 0 bytes_ content;
    Some (w <| lw_pipes := <[fd := rest]> (lw_pipes w) |>).

(** One event of the round at the time [clk]. *)
Definition log_event (clk : Z) (ev : Z * log_answer) (w : log_writer) : option log_writer :=
  let '(fd, an) := ev in
  target ← mk_logger_match_by_fd targets fd;
  match target with
  | None => Some w
  | Some target =>
    content ← lw_pipes w !! fd;
    bytes_ ← (if an_ioctl an then Some (i32 (Z.of_nat (length content))) else lw_bytes w);
    let w := w <| lw_bytes := Some bytes_ |> in
    if (bytes_ <? buffer_limit) && (clk <=? lw_timeout w) then Some w
    else log_flush fd target content bytes_ an (w <| lw_timeout := i32 (clk + mk_logger_timeout) |>)
  end.

Fixpoint log_round (clk : Z) (events : list (Z * log_answer)) (w : log_writer) : option log_writer :=
  match events with [] => Some w | ev :: events => w ← log_event clk ev w; log_round clk events w end.

(** [mk_logger_worker_init] up to the loop, at the time [now]. *)
Definition log_writer_init (now : Z) (pipes : gmap Z bytes) (files : gmap bytes bytes) : log_writer :=
  {| lw_pipes := pipes; lw_files := files; lw_timeout := i32 (now + mk_logger_timeout); lw_bytes := None |}.

(** The life of the thread: lines that workers write, and rounds. *)
Inductive log_act := Logged (fd : Z) (d : bytes) | Round (clk : Z) (events : list (Z * log_answer)).
Definition log_step (a : log_act) (w : log_writer) : option log_writer :=
  match a with
  | Logged fd d => content ← lw_pipes w !! fd; Some (w <| lw_pipes := <[fd := content ++ d]> (lw_pipes w) |>)
  | Round clk events => log_round clk events w
  end.
Fixpoint log_run (acts : list log_act) (w : log_writer) : option log_writer :=
  match acts with [] => Some w | a :: acts => w ← log_step a w; log_run acts w end.
End Writer.
