(* ===== verification/LoggerSpec.v ===== *)
(** * plugins/logger: the lines, and their way to the files

    What a request that has ended adds to its log, and what the thread that
    writes the files keeps and delays. *)
From stdpp Require Import gmap.
From S2P Require Import Prelude CString MkString MkMemory MkUtils MkTypes MkToc MkSession MkConfig MkFile MkResponse.
From S2P Require Import MkSocket PluginState Logger.
Import Iov.
Local Open Scope Z_scope.

(** ** Composing a line *)

(** The vector has room for 15 cells, [k] of which hold [d]; the buffers of the
    worker have their sizes. *)
Record logger_at (s : logger) (d : bytes) (k : Z) : Prop := {
  lg_at : iov_at (lg_iov s) d k;
  lg_size : size (lg_iov s) = 15;
  lg_length : exists b, data (cache_content_length s) = Some b /\ length b = 16%nat;
  lg_ip : exists b, data (cache_ip_str s) = Some b /\ length b = 47%nat;
}.

Lemma logger_init_at : exists s, logger_init = Some s /\ logger_at s [] 0.
Proof. eexists. split; [reflexivity|]. split; [by split|done|by eexists|by eexists]. Qed.

(** [m] adds [t] to the line, in at most [n] cells, and changes nothing else. *)
Definition composes (n : Z) (m : L unit) (t : bytes) : Prop :=
  forall s w d k, logger_at s d k -> k + n <= 15 ->
  exists s' k', m s w = Some (tt, s', w) /\ logger_at s' (d ++ t) k' /\ k <= k' <= k + n.

Lemma composes_nil : composes 0 (mret tt) [].
Proof. intros s w d k H Hk. exists s, k. rewrite app_nil_r. split; [done|]. split; [done|lia]. Qed.

Lemma composes_bind n1 n2 n m1 m2 t1 t2 :
  composes n1 m1 t1 -> composes n2 m2 t2 -> n = n1 + n2 -> 0 <= n2 -> composes n (m1;; m2) (t1 ++ t2).
Proof.
  intros H1 H2 -> Hn s w d k H Hk. destruct (H1 s w d k H ltac:(lia)) as (s1 & k1 & R1 & A1 & B1).
  destruct (H2 s1 w (d ++ t1) k1 A1 ltac:(lia)) as (s2 & k2 & R2 & A2 & B2). exists s2, k2. rewrite app_assoc.
  split; [erewrite P_bind_run by exact R1; exact R2|]. split; [done|lia].
Qed.

Lemma composes_more n m k t : composes n k t -> n <= m -> composes m k t.
Proof.
  intros H Hn s w d j Hs Hj. destruct (H s w d j Hs ltac:(lia)) as (s' & k' & R & A & B). exists s', k'. split; [done|]. split; [done|lia].
Qed.

Lemma set_iov_at s iov d k : logger_at s [] 0 \/ (exists d' k', logger_at s d' k') -> iov_at iov d k -> size iov = 15 -> logger_at (s <| lg_iov := iov |>) d k.
Proof. intros [[]|(d' & k' & [])] Hi Hz; by split. Qed.

(** Texts and their pointers. *)
Lemma composes_entry p sep a b :
  reads (data p) (len p) a -> reads (data sep) (len sep) b -> composes 2 (log_entry p sep) (a ++ b).
Proof.
  intros Ha Hb s w d k H Hk. destruct (appends_entry p sep MK_IOV_NOT_FREE_BUF a b Ha Hb ltac:(done) (lg_iov s) d k) as (iov & k' & R & A & B & C).
  { apply H. } { rewrite (lg_size _ _ _ H). unfold entry_cells. case_if; lia. }
  exists (s <| lg_iov := iov |>), k'. split; [unfold log_entry; erewrite P_bind_run by reflexivity; erewrite liftP_run by exact R; reflexivity|].
  split; [apply set_iov_at; [right; eauto|done|rewrite C; apply H]|]. unfold entry_cells in B. case_if_in B; lia.
Qed.

Lemma reads_msg s : reads (data (mk_pointer_init s)) (len (mk_pointer_init s)) (lit s) \/ 2 ^ 64 <= Z.of_nat (length (lit s)).
Proof. rewrite mk_pointer_init_lit. destruct (Z.lt_ge_cases (Z.of_nat (length (lit s))) (2 ^ 64)); [left; by apply reads_lit|by right]. Qed.
Ltac reads_msg := match goal with |- reads (data (mk_pointer_init ?s)) _ _ => destruct (reads_msg s) as [?|Hbig]; [done|exfalso; revert Hbig; apply Z.lt_nge; vm_compute; reflexivity] end.

Lemma reads_dash : reads (data mk_logger_iov_dash) (len mk_logger_iov_dash) (lit " - ").
Proof. unfold mk_logger_iov_dash. reads_msg. Qed.
Lemma reads_space : reads (data mk_logger_iov_space) (len mk_logger_iov_space) [32].
Proof. change [32] with (lit " "). unfold mk_logger_iov_space. reads_msg. Qed.
Lemma reads_lf : reads (data mk_logger_iov_lf) (len mk_logger_iov_lf) [10].
Proof. by apply reads_lit. Qed.
#[export] Hint Resolve reads_dash reads_space reads_lf : mk.

(** ** The text of a line *)

(** What of a request is logged. *)
Record log_info := { li_ip : bytes; li_date : bytes; li_method : bytes; li_uri : bytes; li_protocol : bytes }.

Record logs (r : session_request) (v : log_info) : Prop := {
  lo_method : reads (data (sr_method_p r)) (len (sr_method_p r)) (li_method v);
  lo_uri : reads (data (sr_uri r)) (len (sr_uri r)) (li_uri v);
  lo_protocol : reads (data (sr_protocol_p r)) (len (sr_protocol_p r)) (li_protocol v);
}.

Definition access_part (r : session_request) (v : log_info) : bytes :=
  li_method v ++ [32] ++ li_uri v ++ [32] ++ li_protocol v ++ [32] ++ dec (sh_status (sr_headers r)) ++ [32] ++
  (if sr_method r =? HTTP_METHOD_HEAD then lit "-" else dec (Z.max 0 (sh_content_length (sr_headers r)))) ++ [10].

Inductive detail := Plain | Uri | Method | Unfinished.
Definition error_table : list (Z * (string * detail)) :=
  [ (400, ("[error 400] Bad Request", Plain)); (403, ("[error 403] Forbidden", Uri)); (404, ("[error 404] Not Found", Uri));
    (405, ("[error 405] Method Not Allowed", Method)); (408, ("[error 408] Request Timeout", Plain));
    (411, ("[error 411] Length Required", Plain)); (413, ("[error 413] Request Entity Too Large", Plain));
    (500, ("[error 500] Internal Server Error", Unfinished)); (501, ("[error 501] Not Implemented", Method));
    (505, ("[error 505] HTTP Version Not Supported", Plain)) ]%string.

Definition error_part (r : session_request) (v : log_info) : bytes :=
  match List.find (fun e => fst e =? sh_status (sr_headers r)) error_table with
  | Some (_, (msg, d)) =>
    lit msg ++ match d with Plain => [10] | Uri => [32] ++ li_uri v ++ [10] | Method => [32] ++ li_method v ++ [10] | Unfinished => [32] end
  | None => []
  end.

Definition is_access (r : session_request) : bool := sh_status (sr_headers r) <? 400.
Definition log_line (r : session_request) (v : log_info) : bytes :=
  li_ip v ++ lit " - " ++ li_date v ++ [32] ++ (if is_access r then access_part r v else error_part r v).
Definition log_fds (target : log_target) (r : session_request) : option (Z * Z) := if is_access r then fd_access target else fd_error target.
Definition log_path (target : log_target) (r : session_request) : option (option bytes) := if is_access r then file_access target else file_error target.

(** ** The entries of a line *)

Lemma status_text status p :
  status_pointer status = Some p -> reads (data p) (len p) (dec status).
Proof.
  unfold status_pointer. destruct (List.find _ _) as [[n t]|] eqn:E; [|done]. intros [= <-].
  apply find_some in E as [Hin Hn]. cbn [fst] in Hn. apply Z.eqb_eq in Hn as ->.
  assert (H : Forall (fun c => snd c = dec (fst c) ++ [0] /\ Z.of_nat (length (dec (fst c))) = 3) response_codes) by (repeat constructor).
  rewrite List.Forall_forall in H. destruct (H _ Hin) as [Ht Hl]. cbn [fst snd] in *. rewrite Ht.
  apply reads_text; [done|done].
Qed.

Lemma composes_content_length r :
  - 2 ^ 31 <= sh_content_length (sr_headers r) < 2 ^ 31 ->
  composes 2 (log_content_length r)
    ((if sr_method r =? HTTP_METHOD_HEAD then lit "-" else dec (Z.max 0 (sh_content_length (sr_headers r)))) ++ [10]).
Proof.
  intros Hn. unfold log_content_length. destruct (sr_method r =? HTTP_METHOD_HEAD); cbn [negb].
  { apply composes_entry; [unfold mk_logger_iov_empty; reads_msg|apply reads_lf]. }
  intros s w d k H Hk. destruct (lg_length _ _ _ H) as (b & Hb & Hl).
  rewrite i32_small by lia. set (n := sh_content_length _) in *.
  assert (Hmax : (if n <? 0 then 0 else n) = Z.max 0 n) by (case_if; zbool; lia).
  destruct (mk_string_itop_text (Z.max 0 n) b ltac:(lia) ltac:(lia)) as (rest & Hi & Hrest).
  rewrite dec_itop in Hi, Hrest by lia. set (p := {| data := Some (dec (Z.max 0 n) ++ 13 :: 10 :: 0 :: rest); len := Z.of_nat (length (dec (Z.max 0 n))) + 2 |}).
  destruct (composes_entry {| data := data p; len := len p - 2 |} mk_logger_iov_lf (dec (Z.max 0 n)) [10]) with
    (s := s <| cache_content_length := p |>) (w := w) (d := d) (k := k) as (s' & k' & R & A & B).
  { pose proof (dec_length (Z.max 0 n)). apply reads_text; cbn [len p]; lia. }
  { apply reads_lf. } { destruct H. split; [done|done| |done]. eexists. split; [reflexivity|]. rewrite length_app. cbn [length]. lia. } { done. }
  exists s', k'. split; [|done]. erewrite P_bind_run by reflexivity. erewrite liftP_run by exact Hb. rewrite Hmax.
  erewrite liftP_run by exact Hi. cbv beta iota. erewrite P_bind_run by reflexivity. exact R.
Qed.

Lemma composes_error r v : logs r v -> composes 4 (error_entries (sh_status (sr_headers r)) r) (error_part r v).
Proof.
  intros [Hm Hu Hp]. unfold error_entries, error_part, MK_CLIENT_BAD_REQUEST, MK_CLIENT_FORBIDDEN, MK_CLIENT_NOT_FOUND, MK_CLIENT_METHOD_NOT_ALLOWED,
    MK_CLIENT_REQUEST_TIMEOUT, MK_CLIENT_LENGTH_REQUIRED, MK_CLIENT_REQUEST_ENTITY_TOO_LARGE, MK_SERVER_NOT_IMPLEMENTED, MK_SERVER_INTERNAL_ERROR,
    MK_SERVER_HTTP_VERSION_UNSUP, error_msg_400, error_msg_403, error_msg_404, error_msg_405, error_msg_408, error_msg_411, error_msg_413,
    error_msg_501, error_msg_500, error_msg_505.
  assert (Hplain : forall msg, reads (data (mk_pointer_init msg)) (len (mk_pointer_init msg)) (lit msg) ->
    composes 4 (log_entry (mk_pointer_init msg) mk_logger_iov_lf) (lit msg ++ [10])).
  { intros msg Hr. eapply composes_more; [apply composes_entry; [exact Hr|apply reads_lf]|lia]. }
  assert (Hdetail : forall msg p x, reads (data (mk_pointer_init msg)) (len (mk_pointer_init msg)) (lit msg) -> reads (data p) (len p) x ->
    composes 4 (log_entry (mk_pointer_init msg) mk_logger_iov_space;; log_entry p mk_logger_iov_lf) (lit msg ++ [32] ++ x ++ [10])).
  { intros msg p x Hr Hx. rewrite app_assoc. eapply composes_bind; [apply composes_entry; [exact Hr|apply reads_space]|apply composes_entry; [exact Hx|apply reads_lf]|lia|lia]. }
  cbn [List.find error_table fst]. rewrite !(Z.eqb_sym _ (sh_status _)).
  set (st := sh_status (sr_headers r)).
  destruct (st =? 400); [apply Hplain; reads_msg|].
  destruct (st =? 403); [apply Hdetail; [reads_msg|exact Hu]|].
  destruct (st =? 404); [apply Hdetail; [reads_msg|exact Hu]|].
  destruct (st =? 405); [apply Hdetail; [reads_msg|exact Hm]|].
  destruct (st =? 408); [apply Hplain; reads_msg|].
  destruct (st =? 411); [apply Hplain; reads_msg|].
  destruct (st =? 413); [apply Hplain; reads_msg|].
  destruct (st =? 500) eqn:E500; zbool.
  { replace (st =? 501) with false by zb. eapply composes_more; [apply composes_entry; [reads_msg|apply reads_space]|lia]. }
  destruct (st =? 501); [apply Hdetail; [reads_msg|exact Hm]|].
  destruct (st =? 505); [apply Hplain; reads_msg|]. eapply composes_more; [apply composes_nil|lia].
Qed.

Section WithEnv.
Context `{peers : PeerNames} `{globals : LoggerGlobals}.

Lemma reset_iov_run s w d k : logger_at s d k -> exists s', reset_iov s w = Some (tt, s', w) /\ logger_at s' [] 0.
Proof.
  intros [[H1 H2 H3 H4 H5 H6] Hz Hl Hi]. eexists. split; [reflexivity|]. split; [|done..].
  split; cbn; [done|done|done|lia|lia|reflexivity].
Qed.

Lemma log_send_run s w d k rd wr :
  logger_at s d k -> log_send (Some (rd, wr)) s w = Some (tt, s, logged w [EvWrite wr (take (Z.to_nat (log_writev (w_trace w) wr d)) d)]).
Proof.
  intros H. unfold log_send. erewrite liftP_run by reflexivity. erewrite P_bind_run by reflexivity.
  erewrite liftP_run by (eapply at_data; apply H). erewrite call_run by reflexivity. reflexivity.
Qed.

Lemma log_ip_run s w d k socket ip :
  logger_at s d k -> peer_text w socket ip ->
  exists s' p, log_ip socket s w = Some (Some p, s', w) /\ logger_at s' d k /\ reads (data p) (len p) ip.
Proof.
  intros H Hpeer. destruct (lg_ip _ _ _ H) as (b & Hb & Hlb). assert (Hl : (length ip < 47)%nat) by (by destruct Hpeer as (? & _ & _ & _ & _ & ?)).
  exists (s <| cache_ip_str := {| data := Some (peer_buffer ip b); len := Z.of_nat (length ip) |} |>), {| data := Some (peer_buffer ip b); len := Z.of_nat (length ip) |}.
  split; [|split].
  - unfold log_ip. erewrite P_bind_run by reflexivity. erewrite liftP_run by exact Hb.
    erewrite call_run by (by apply mk_socket_ip_str_run). cbv beta iota. erewrite P_bind_run by reflexivity. reflexivity.
  - destruct H. split; [done..|]. eexists. split; [reflexivity|]. by apply peer_buffer_length.
  - apply reads_text; [done|]. cbn [len]. lia.
Qed.

(** The entries behind the date. *)
Lemma access_run s w d k target r v p rd wr path :
  logger_at s d k -> k <= 4 -> logs r v -> - 2 ^ 31 <= sh_content_length (sr_headers r) < 2 ^ 31 ->
  status_pointer (sh_status (sr_headers r)) = Some p -> file_access target = Some (Some path) -> fd_access target = Some (rd, wr) ->
  exists s' k', logger_at s' (d ++ access_part r v) k' /\
    log_access target r s w = Some (0, s', logged w [EvWrite wr (take (Z.to_nat (log_writev (w_trace w) wr (d ++ access_part r v))) (d ++ access_part r v))]).
Proof.
  intros H Hk [Hm Hu Hp] Hn Hst Hf Hfd. unfold log_access, access_part. erewrite liftP_run by exact Hf. cbv iota.
  destruct (composes_entry _ _ _ _ Hm reads_space s w d k H ltac:(lia)) as (s1 & k1 & R1 & A1 & B1). erewrite P_bind_run by exact R1.
  destruct (composes_entry _ _ _ _ Hu reads_space s1 w _ k1 A1 ltac:(lia)) as (s2 & k2 & R2 & A2 & B2). erewrite P_bind_run by exact R2.
  destruct (composes_entry _ _ _ _ Hp reads_space s2 w _ k2 A2 ltac:(lia)) as (s3 & k3 & R3 & A3 & B3). erewrite P_bind_run by exact R3.
  erewrite liftP_run by exact Hst.
  destruct (composes_entry _ _ _ _ (status_text _ _ Hst) reads_space s3 w _ k3 A3 ltac:(lia)) as (s4 & k4 & R4 & A4 & B4). erewrite P_bind_run by exact R4.
  destruct (composes_content_length r Hn s4 w _ k4 A4 ltac:(lia)) as (s5 & k5 & R5 & A5 & B5). erewrite P_bind_run by exact R5.
  exists s5, k5. rewrite <- !app_assoc in A5. split; [exact A5|]. rewrite Hfd. erewrite P_bind_run by (eapply log_send_run; exact A5). reflexivity.
Qed.

Lemma error_run s w d k target r v rd wr path :
  logger_at s d k -> k <= 4 -> logs r v -> file_error target = Some (Some path) -> fd_error target = Some (rd, wr) ->
  exists s' k', logger_at s' (d ++ error_part r v) k' /\
    log_error target r s w = Some (0, s', logged w [EvWrite wr (take (Z.to_nat (log_writev (w_trace w) wr (d ++ error_part r v))) (d ++ error_part r v))]).
Proof.
  intros H Hk Hv Hf Hfd. unfold log_error. erewrite liftP_run by exact Hf. cbv iota.
  destruct (composes_error r v Hv s w d k H ltac:(lia)) as (s1 & k1 & R1 & A1 & B1). erewrite P_bind_run by exact R1.
  exists s1, k1. split; [exact A1|]. rewrite Hfd. erewrite P_bind_run by (eapply log_send_run; exact A1). reflexivity.
Qed.

(** C24: what a request that has ended, of a virtual host with a log file, whose
    peer has an address, writes to the log: one write to one pipe of its virtual
    host, of the address, the date and then, below status 400, to the access log
    the method, the URI, the protocol, the status, which has to be in the table,
    and the length that was announced, below 2^31 ("-" for HEAD), and else to
    the error log the message of the status, without an end for 500 and without
    a message for a status that is not in the table of errors, as 401; only as
    much of that text is written as the pipe takes. Without a target for the
    host, or an address of the peer, nothing is written. *)
Theorem logger_stage_40_line targets cs sr s w c r d0 k0 :
  at_sr w cs sr c r -> logger_at s d0 k0 ->
  (mk_logger_match_by_host targets (sr_host_conf r) = None \/ peer_name (w_trace w) (cs_socket c) = None ->
    exists s', Logger._mkp_stage_40 targets cs sr s w = Some (0, s', w)) /\
  (forall target rd wr path v date,
    mk_logger_match_by_host targets (sr_host_conf r) = Some target -> log_fds target r = Some (rd, wr) -> log_path target r = Some (Some path) ->
    peer_text w (cs_socket c) (li_ip v) -> date = log_time (w_trace w) -> reads (data date) (len date) (li_date v) -> logs r v ->
    - 2 ^ 31 <= sh_content_length (sr_headers r) < 2 ^ 31 -> (is_access r = true -> status_pointer (sh_status (sr_headers r)) <> None) ->
    exists s' k', logger_at s' (log_line r v) k' /\
      Logger._mkp_stage_40 targets cs sr s w =
      Some (0, s', logged w [EvWrite wr (take (Z.to_nat (log_writev (w_trace w) wr (log_line r v))) (log_line r v))])).
Proof.
  intros Hat Hs. destruct (reset_iov_run s w d0 k0 Hs) as (s1 & R1 & A1). split.
  - intros Hnone. unfold Logger._mkp_stage_40. erewrite call_run by (eapply get_at_sr; exact Hat).
    destruct (mk_logger_match_by_host targets (sr_host_conf r)) as [target|]; [|by eexists].
    destruct Hnone as [?|Hpeer]; [done|]. erewrite P_bind_run by exact R1. erewrite call_run by (eapply get_at_cs; exact Hat).
    destruct (lg_ip _ _ _ A1) as (b & Hb & _). unfold log_ip at 1. exists s1.
    assert (Hrun : log_ip (cs_socket c) s1 w = Some (None, s1, w)).
    { unfold log_ip. erewrite P_bind_run by reflexivity. erewrite liftP_run by exact Hb. unfold mk_socket_ip_str.
      erewrite call_run by (erewrite bind_run by reflexivity; cbv beta; rewrite Hpeer; reflexivity). reflexivity. }
    erewrite P_bind_run by exact Hrun. reflexivity.
  - intros target rd wr path v date Htarget Hfd Hpath Hpeer -> Hdate Hv Hn Hst. unfold Logger._mkp_stage_40.
    erewrite call_run by (eapply get_at_sr; exact Hat). rewrite Htarget. erewrite P_bind_run by exact R1.
    erewrite call_run by (eapply get_at_cs; exact Hat).
    destruct (log_ip_run s1 w [] 0 (cs_socket c) (li_ip v) A1 Hpeer) as (s2 & p & R2 & A2 & Hp). erewrite P_bind_run by exact R2. cbv iota.
    destruct (composes_entry _ _ _ _ Hp reads_dash s2 w _ 0 A2 ltac:(lia)) as (s3 & k3 & R3 & A3 & B3). erewrite P_bind_run by exact R3.
    erewrite call_run by reflexivity.
    destruct (composes_entry _ _ _ _ Hdate reads_space s3 w _ k3 A3 ltac:(lia)) as (s4 & k4 & R4 & A4 & B4). erewrite P_bind_run by exact R4.
    fold (is_access r). unfold log_line, log_fds, log_path in *. destruct (is_access r).
    + destruct (status_pointer (sh_status (sr_headers r))) as [q|] eqn:Eq; [|by destruct (Hst eq_refl)].
      destruct (access_run s4 w _ k4 target r v q rd wr path A4 ltac:(lia) Hv Hn Eq Hpath Hfd) as (s5 & k5 & A5 & R5).
      rewrite <- !app_assoc in A5, R5. exists s5, k5. split; [exact A5|exact R5].
    + destruct (error_run s4 w _ k4 target r v rd wr path A4 ltac:(lia) Hv Hpath Hfd) as (s5 & k5 & A5 & R5).
      rewrite <- !app_assoc in A5, R5. exists s5, k5. split; [exact A5|exact R5].
Qed.
End WithEnv.

(** ** The files *)

(** What the workers wrote to the pipe of [fd]. *)
Fixpoint logged_to (fd : Z) (acts : list log_act) : bytes :=
  match acts with
  | [] => []
  | Logged fd' d :: acts => (if fd' =? fd then d else []) ++ logged_to fd acts
  | _ :: acts => logged_to fd acts
  end.
Definition opens (a : log_act) : Prop := match a with Round _ evs => Forall (fun ev => an_open (snd ev) = true) evs | Logged _ _ => True end.

Section Writer.
Context (T limit : Z) (targets : list log_target).

(** The file of the log with the read end [fd], followed by its pipe. *)
Definition log_text (path : bytes) (fd : Z) (w : log_writer) : option bytes :=
  content ← lw_pipes w !! fd; Some (default [] (lw_files w !! path) ++ content).

(** [fd] is the pipe of the file [path], and no other is. *)
Definition own_file (fd : Z) (path : bytes) : Prop :=
  forall fd', mk_logger_match_by_fd targets fd' = Some (Some path) <-> fd' = fd.

Lemma log_event_text clk fd' an fd path w w' t :
  own_file fd path -> an_open an = true -> log_text path fd w = Some t -> log_event T limit targets clk (fd', an) w = Some w' ->
  log_text path fd w' = Some t.
Proof.
  intros Hown Hopen Ht Hr. unfold log_event in Hr. destruct (mk_logger_match_by_fd targets fd') as [[target|]|] eqn:Em; [|by injection Hr as <-|done].
  cbn [mbind option_bind] in Hr. destruct (lw_pipes w !! fd') as [content|] eqn:Ec; [|done]. cbn [mbind option_bind] in Hr.
  destruct (if an_ioctl an then _ else _) as [n|]; [|done]. cbn [mbind option_bind] in Hr.
  case_if_in Hr; [by injection Hr as <-|]. unfold log_flush in Hr. rewrite Hopen in Hr. injection Hr as <-. unfold log_text in *. cbn.
  destruct (decide (fd' = fd)) as [->|Hne].
  - assert (target = path) as -> by (pose proof (proj2 (Hown fd) eq_refl); congruence).
    rewrite lookup_insert_eq, lookup_insert_eq. rewrite Ec in Ht. cbn in *. rewrite <- app_assoc, take_drop. exact Ht.
  - assert (target <> path) by (intros ->; by apply Hown in Em). rewrite !lookup_insert_ne by done. exact Ht.
Qed.

Lemma log_round_text clk evs fd path : forall w w' t,
  own_file fd path -> Forall (fun ev => an_open (snd ev) = true) evs -> log_text path fd w = Some t -> log_round T limit targets clk evs w = Some w' ->
  log_text path fd w' = Some t.
Proof.
  induction evs as [|[fd' an] evs IH]; intros w w' t Hown Ho Ht Hr; [by injection Hr as <-|]. apply Forall_cons in Ho as [Ho1 Ho].
  cbn [log_round] in Hr. destruct (log_event _ _ _ clk _ w) as [w1|] eqn:E; [|done]. cbn [mbind option_bind] in Hr.
  eapply IH; [done|done| |exact Hr]. by eapply log_event_text.
Qed.

(** C25: whatever the workers write and the thread does, in any order, as long
    as the log files can be opened: the file of a log followed by what is left in
    its pipe is the file as it was, the old content of the pipe and the lines
    written since, none lost, doubled or out of order. *)
Theorem logger_keeps_lines acts w w' fd path t :
  own_file fd path -> Forall opens acts -> log_text path fd w = Some t -> log_run T limit targets acts w = Some w' ->
  log_text path fd w' = Some (t ++ logged_to fd acts).
Proof.
  revert w t. induction acts as [|a acts IH]; intros w t Hown Ho Ht Hr; [injection Hr as <-; by rewrite app_nil_r|].
  apply Forall_cons in Ho as [Ho1 Ho]. cbn [log_run] in Hr. destruct (log_step _ _ _ a w) as [w1|] eqn:E; [|done]. cbn [mbind option_bind] in Hr.
  destruct a as [fd' d|clk evs]; cbn [logged_to].
  - cbn [log_step] in E. destruct (lw_pipes w !! fd') as [content|] eqn:Ec; [|done]. injection E as <-.
    rewrite app_assoc. eapply IH; [done|done| |exact Hr]. unfold log_text in *. cbn. destruct (Z.eqb_spec fd' fd) as [->|Hne].
    + rewrite lookup_insert_eq. rewrite Ec in Ht. injection Ht as <-. cbn. by rewrite app_assoc.
    + rewrite lookup_insert_ne by done. by rewrite app_nil_r.
  - eapply IH; [done|done| |exact Hr]. eapply log_round_text; [done|exact Ho1|exact Ht|exact E].
Qed.

(** ** When a pipe is flushed *)

(** Pipes with so many bytes, in the order of the events; [due]: the timeout has
    passed. *)
Fixpoint flushes (due : bool) (sizes : list Z) : list bool :=
  match sizes with [] => [] | n :: sizes => let f := due || (limit <=? n) in f :: flushes (due && negb f) sizes end.

(** The events of a round where the system does all that is asked. *)
Record event_good (w : log_writer) (ev : Z * log_answer) (content : bytes) : Prop := {
  eg_pipe : lw_pipes w !! fst ev = Some content;
  eg_short : Z.of_nat (length content) < 2 ^ 31;
  eg_target : exists path, mk_logger_match_by_fd targets (fst ev) = Some (Some path);
  eg_ioctl : an_ioctl (snd ev) = true;
  eg_open : an_open (snd ev) = true;
  eg_splice : Z.of_nat (length content) <= an_splice (snd ev);
}.

(** The state of a pipe after the round. *)
Definition after_round (f : bool) (content : bytes) : bytes := if f then [] else content.

Lemma log_event_good clk ev w content :
  event_good w ev content -> 0 < T -> 0 <= clk -> clk + T < 2 ^ 31 ->
  let f := (lw_timeout w <? clk) || (limit <=? Z.of_nat (length content)) in
  exists w', log_event T limit targets clk ev w = Some w' /\ lw_pipes w' = <[fst ev := after_round f content]> (lw_pipes w) /\
    lw_timeout w' = (if f then clk + T else lw_timeout w).
Proof.
  intros [Hp Hs (path & Hm) Hi Ho Hsp] HT Hc0 Hc f. destruct ev as [fd an]. cbn [fst snd] in *. unfold log_event. rewrite Hm. mstep. rewrite Hp. mstep. rewrite Hi. mstep.
  rewrite i32_small by lia. cbn [lw_timeout].
  assert (Hf : (Z.of_nat (length content) <? limit) && (clk <=? lw_timeout w) = negb f) by (unfold f; lia). cbn. rewrite Hf.
  destruct f; cbn [negb].
  - unfold log_flush. rewrite Ho. eexists. split; [reflexivity|]. cbn. rewrite i32_small by lia. split; [|done]. f_equal.
    rewrite Z.min_r, Nat2Z.id by lia. by rewrite drop_all.
  - eexists. split; [reflexivity|]. cbn. split; [|done]. by rewrite insert_id.
Qed.

Lemma events_good_other w w1 fd x evs contents :
  lw_pipes w1 = <[fd := x]> (lw_pipes w) -> fd ∉ map fst evs -> Forall2 (event_good w) evs contents -> Forall2 (event_good w1) evs contents.
Proof.
  intros Hw Hni H. induction H as [|ev c evs cs [] H IH]; [constructor|]. cbn [map] in Hni. apply not_elem_of_cons in Hni as [Hne Hni].
  constructor; [|by apply IH]. split; [|done..]. by rewrite Hw, lookup_insert_ne.
Qed.

(** In a round at the time [clk], the pipes that hold at least the limit
    are emptied into their files, and of the others only the first one whose
    event is handled, if the timeout has passed: the first flush moves the
    timeout of all. *)
Theorem logger_round_flushes clk evs w contents :
  NoDup (map fst evs) -> Forall2 (event_good w) evs contents -> 0 < T -> 0 <= clk -> clk + T < 2 ^ 31 ->
  exists w', log_round T limit targets clk evs w = Some w' /\
    Forall2 (fun ev x => lw_pipes w' !! fst ev = Some x) evs
      (zip_with after_round (flushes (lw_timeout w <? clk) (map (fun c => Z.of_nat (length c)) contents)) contents) /\
    (forall fd, fd ∉ map fst evs -> lw_pipes w' !! fd = lw_pipes w !! fd).
Proof.
  revert w contents. induction evs as [|ev evs IH]; intros w contents Hnd Hgood HT Hc0 Hc.
  { apply Forall2_nil_inv_l in Hgood as ->. exists w. split; [done|]. split; [constructor|done]. }
  apply Forall2_cons_inv_l in Hgood as (content & contents' & H1 & Hgood & ->). cbn [map] in Hnd. apply NoDup_cons in Hnd as [Hni Hnd].
  destruct (log_event_good clk ev w content H1 HT Hc0 Hc) as (w1 & R1 & P1 & T1).
  destruct (IH w1 contents' Hnd) as (w' & R2 & P2 & Hother); [by eapply events_good_other|done..|].
  exists w'. split; [cbn [log_round]; rewrite R1; exact R2|]. split.
  - cbn [map flushes zip_with]. constructor; [rewrite Hother, P1 by done; apply lookup_insert_eq|].
    rewrite T1 in P2. set (f := (lw_timeout w <? clk) || _) in *.
    replace ((lw_timeout w <? clk) && negb f) with ((if f then clk + T else lw_timeout w) <? clk); [exact P2|].
    destruct f; cbn [negb]; [rewrite andb_false_r; zb|by rewrite andb_true_r].
  - intros fd Hfd. cbn [map] in Hfd. apply not_elem_of_cons in Hfd as [Hne Hfd]. rewrite Hother, P1 by done. by apply lookup_insert_ne.
Qed.
End Writer.

(** ** Examples *)

(** One virtual host with both logs, whose pipes are 10, 11 and 12, 13. *)
Definition log_target_example : log_target :=
  {| fd_access := Some (10, 11); fd_error := Some (12, 13); file_access := Some (Some (lit "access.log")); file_error := Some (Some (lit "error.log")); lt_host := 0 |}.
Definition logger_example : LoggerGlobals :=
  {| log_time := fun _ => mk_pointer_init "[02/Jan/2012 00:00:00 +0100]"; log_pipe := fun _ => None; log_writev := fun _ _ d => Z.of_nat (length d) |}.
Definition logger_start : logger := default {| lg_iov := iov_example; cache_content_length := mk_iov_none; cache_status := mk_iov_none; cache_ip_str := mk_iov_none |} logger_init.
Definition example_info : log_info :=
  {| li_ip := lit "127.0.0.1"; li_date := lit "[02/Jan/2012 00:00:00 +0100]"; li_method := lit "GET"; li_uri := lit "/a.html"; li_protocol := lit "HTTP/1.1" |}.
Definition logged_request (status : Z) : session_request :=
  set_headers (fun sh => sh <| sh_status := status |> <| sh_content_length := 5 |>) (get_request "/a.html") <| sr_method_p := mk_pointer_init "GET" |>
    <| sr_protocol_p := mk_pointer_init "HTTP/1.1" |>.

Example access_line : log_line (logged_request 200) example_info = lit "127.0.0.1 - [02/Jan/2012 00:00:00 +0100] GET /a.html HTTP/1.1 200 5" ++ [10].
Proof. vm_compute. reflexivity. Qed.
Example error_line : log_line (logged_request 404) example_info = lit "127.0.0.1 - [02/Jan/2012 00:00:00 +0100] [error 404] Not Found /a.html" ++ [10].
Proof. vm_compute. reflexivity. Qed.
(** The line of an internal error does not end, and that of a status without a
    message has nothing behind its date. *)
Example unfinished_lines :
  log_line (logged_request 500) example_info = lit "127.0.0.1 - [02/Jan/2012 00:00:00 +0100] [error 500] Internal Server Error " /\
  log_line (logged_request 401) example_info = lit "127.0.0.1 - [02/Jan/2012 00:00:00 +0100] ".
Proof. vm_compute. done. Qed.

Lemma logger_start_at : logger_at logger_start [] 0.
Proof. destruct logger_init_at as (s & Hs & H). unfold logger_start. by rewrite Hs. Qed.

Lemma logger_stage_40_witness :
  exists s' k', logger_at s' (log_line (logged_request 200) example_info) k' /\
    @Logger._mkp_stage_40 local_peer logger_example [log_target_example] 1 0 logger_start (request_world (logged_request 200)) =
    Some (0, s', logged (request_world (logged_request 200))
                   [EvWrite 11 (lit "127.0.0.1 - [02/Jan/2012 00:00:00 +0100] GET /a.html HTTP/1.1 200 5" ++ [10])]).
Proof.
  destruct (@logger_stage_40_line local_peer logger_example [log_target_example] 1 0 logger_start (request_world (logged_request 200))
    (request_session (logged_request 200)) (logged_request 200) [] 0 (request_world_at _) logger_start_at) as [_ H].
  assert (Hr : forall s, Z.of_nat (length (lit s)) < 2 ^ 64 -> reads (data (mk_pointer_init s)) (len (mk_pointer_init s)) (lit s))
    by (intros s Hs; rewrite mk_pointer_init_lit; by apply reads_lit).
  apply (H log_target_example 10 11 (lit "access.log") example_info (mk_pointer_init "[02/Jan/2012 00:00:00 +0100]")); try reflexivity.
  - exists (AF_INET 1). split; [reflexivity|]. split; [done|]. split; [reflexivity|]. split; [decide_closed|cbn; lia].
  - by apply Hr.
  - split; by apply Hr.
  - cbn. lia.
  - done.
Defined.

(** Two pipes; the thread was started at the time 0 with a timeout of 3. *)
Definition log_pipes (access error : bytes) : gmap Z bytes := <[10 := access]> (<[12 := error]> ∅).
Definition log_writer_example (access error : bytes) : log_writer := log_writer_init 3 0 (log_pipes access error) ∅.
Definition all_done : log_answer := {| an_ioctl := true; an_open := true; an_splice := 65536 |}.

Lemma example_own : own_file [log_target_example] 12 (lit "error.log").
Proof.
  intros fd. unfold mk_logger_match_by_fd, log_target_example. cbn [fd_access fd_error file_access file_error mbind option_bind fst]. split.
  - destruct (10 =? fd) eqn:E1; [intros H; vm_compute in H; discriminate|]. destruct (12 =? fd) eqn:E2; [|done]. intros _. lia.
  - intros ->. reflexivity.
Qed.

Definition log_acts_example : list log_act :=
  [ Logged 12 (lit "one"); Round 5 [(12, all_done)]; Logged 10 (lit "access"); Logged 12 (lit "two"); Round 6 [(10, all_done); (12, all_done)] ].

Lemma logger_keeps_lines_witness :
  exists w', log_run 3 49152 [log_target_example] log_acts_example (log_writer_example [] []) = Some w' /\
    log_text (lit "error.log") 12 w' = Some (lit "one" ++ lit "two").
Proof.
  eexists. split; [reflexivity|].
  apply (logger_keeps_lines 3 49152 [log_target_example] log_acts_example (log_writer_example [] []) _ 12 (lit "error.log") []).
  - apply example_own.
  - repeat constructor.
  - reflexivity.
  - reflexivity.
Defined.

(** Only the access log is written when its event comes first. *)
Lemma logger_round_flushes_witness :
  exists w', log_round 3 49152 [log_target_example] 5 [(10, all_done); (12, all_done)] (log_writer_example (lit "a") (lit "e")) = Some w' /\
    Forall2 (fun ev x => lw_pipes w' !! fst ev = Some x) [(10, all_done); (12, all_done)] [[]; lit "e"] /\
    (forall fd, fd ∉ [10; 12] -> lw_pipes w' !! fd = lw_pipes (log_writer_example (lit "a") (lit "e")) !! fd).
Proof.
  apply (logger_round_flushes 3 49152 [log_target_example] 5 [(10, all_done); (12, all_done)] (log_writer_example (lit "a") (lit "e")) [lit "a"; lit "e"]).
  - apply (bool_decide_unpack _). vm_compute. exact I.
  - repeat constructor; try reflexivity; try (eexists; reflexivity); cbn; lia.
  - lia.
  - lia.
  - lia.
Defined.

(** A busy access log keeps the error log waiting, however late it is. *)
Fixpoint busy (n : nat) (clk : Z) : list log_act :=
  match n with O => [] | S n => Logged 10 (lit "a") :: Round clk [(10, all_done); (12, all_done)] :: busy n (clk + 4) end.
Example error_log_waits :
  (w ← log_run 3 49152 [log_target_example] (busy 100 5) (log_writer_example [] (lit "e")); Some (lw_pipes w !! 12, lw_files w !! lit "error.log")) =
  Some (Some (lit "e"), None).
Proof. vm_compute. reflexivity. Qed.
