(* ===== verification/Cgi.v ===== *)
(** * plugins/cgi: requests answered by programs

    A program is started for a request of a file that is to be executed; what it
    writes is kept in a buffer of the request and handed on to the client. The
    expressions, the system calls and the memory of [vmatch] before it is
    assigned are parameters. *)
From stdpp Require Import gmap.
From S2P Require Import Prelude CString MkString MkMemory MkUtils MkTypes MkToc MkSession MkEpoll MkPlugin MkScheduler MkConfig MkResponse MkConnection.
From S2P Require Import MkSocket PluginState FcgiEnv Chunked.
Local Open Scope Z_scope.

(** ** Data *)

Definition PATHLEN : Z := 1024.
Definition SHORTLEN : Z := 36.

(** [struct cgi_request]: the session and its request are named by their
    numbers. *)
Record cgi_request := {
  in_buf : bytes;
  cr_sr : nat;
  cr_cs : nat;
  in_len : Z;
  cr_fd : Z;
  cr_socket : Z;
  status_done : bool;
  all_headers_done : bool;
  chunked : bool;
}.
#[export] Instance eta_cgi_request : Eta cgi_request := fun r =>
  {| in_buf := in_buf r; cr_sr := cr_sr r; cr_cs := cr_cs r; in_len := in_len r; cr_fd := cr_fd r; cr_socket := cr_socket r;
     status_done := status_done r; all_headers_done := all_headers_done r; chunked := chunked r |}.

(** What the workers share: the requests in memory and the table of the sockets.
    [cg_list] is the list of the worker whose handler runs, behind [_mkp_data],
    and [cg_others] are the lists of the other workers. *)
Record cgi_state := {
  cg_heap : gmap nat cgi_request;
  cg_next : nat;
  cg_list : list nat;
  cg_others : list (list nat);
  requests_by_socket : list (option nat);
}.
#[export] Instance eta_cgi_state : Eta cgi_state := fun s =>
  {| cg_heap := cg_heap s; cg_next := cg_next s; cg_list := cg_list s; cg_others := cg_others s; requests_by_socket := requests_by_socket s |}.

(** A handler of another worker runs: [pthread_getspecific] gives its list. *)
Definition resume (k : nat) (s : cgi_state) : cgi_state :=
  match cg_others s !! k with
  | Some l => s <| cg_list := l |> <| cg_others := <[k := cg_list s]> (cg_others s) |>
  | None => s
  end.

(** A rule of a virtual host. The memory is not cleared: a field the
    configuration does not give has no value. The value of [vm_bin] may be NULL. *)
Record cgi_vhost_match_t := { vm_match : option bytes; vm_bin : option (option bytes); vm_content_type : option mk_pointer }.
(** [vh_matches] is [None] while its head was not initialised. *)
Record cgi_vhost_t := { vh_host : nat; vh_matches : option (list cgi_vhost_match_t) }.
(** [match_regex] and [cgi_vhosts]. *)
Record cgi_config := { match_regex : option bytes; cgi_vhosts : option (list cgi_vhost_t) }.

Record post_t := { po_fd : Z; po_buf : bytes; po_len : Z }.

Class CgiGlobals := {
  (** this plugin, in the list of the plugins *)
  cgi_plugin : nat;
  cgi_regcomp : bytes -> bool;
  cgi_regexec : bytes -> bytes -> bool;
  (** [pipe(2)], [vfork(2)]; [dup2(2)] and [chdir(2)] of the child; [write(2)],
      [read(2)] *)
  sys_pipe : list event -> option (Z * Z);
  sys_vfork : list event -> bool;
  sys_dup2 : list event -> Z -> Z -> bool;
  sys_chdir : list event -> bytes -> bool;
  sys_write : list event -> Z -> bytes -> Z;
  sys_read : list event -> Z -> Z -> bytes + Z
}.

(** ** libgen.h *)

Fixpoint drop_slashes (l : bytes) : bytes := match l with c :: l' => if c =? 47 then drop_slashes l' else l | [] => [] end.
(** A text without the slashes at its end. *)
Definition strip_slashes (s : bytes) : bytes := rev (drop_slashes (rev s)).

Definition basename (s : bytes) : bytes :=
  match s with
  | [] => lit "."
  | _ =>
    let t := strip_slashes s in
    match t with
    | [] => lit "/"
    | _ => match last_index t 47 with Some i => drop (Z.to_nat (i + 1)) t | None => t end
    end
  end.
Definition dirname (s : bytes) : bytes :=
  match s with
  | [] => lit "."
  | _ =>
    let t := strip_slashes s in
    match t with
    | [] => lit "/"
    | _ =>
      match last_index t 47 with
      | Some i => match strip_slashes (take (Z.to_nat i) t) with [] => lit "/" | d => d end
      | None => lit "."
      end
    end
  end.

(** What "%.*s" prints of a pointer; glibc prints nothing for NULL. *)
Definition pointer_prec (p : mk_pointer) : option bytes :=
  match data p with
  | None => Some []
  | Some d => if i32 (len p) <? 0 then cstr d else prec_text (Z.to_nat (i32 (len p))) d
  end.

(** [memcmp(p, text, n) == 0] *)
Definition starts (p : bytes) (text : bytes) : option bool :=
  b ← memread p (Z.of_nat (length text)); Some (bool_decide (b = text)).

(** ** The table of requests (request.c, cgi.h) *)

Abbreviation C := (P cgi_state).

Definition get_cr (i : nat) : C cgi_request := s ← getP; liftP (cg_heap s !! i).
Definition put_cr (i : nat) (r : cgi_request) : C unit := modP (fun s => s <| cg_heap := <[i := r]> (cg_heap s) |>).
Definition mod_cr (i : nat) (f : cgi_request -> cgi_request) : C unit := r ← get_cr i; put_cr i (f r).

Definition cgi_req_create (fd socket : Z) (cs sr : nat) : C nat :=
  s ← getP;
  let i := cg_next s in
  put_cr i {| in_buf := replicate (Z.to_nat PATHLEN) 0; cr_sr := sr; cr_cs := cs; in_len := 0; cr_fd := fd; cr_socket := socket;
              status_done := false; all_headers_done := false; chunked := false |};;
  modP (fun s => s <| cg_next := S i |>);;
  mret i.

Definition cgi_req_add (r : nat) : C unit := modP (fun s => s <| cg_list := cg_list s ++ [r] |>).

(** The request leaves the list that it is in. *)
Definition cgi_req_del (r : option nat) : C Z :=
  match r with
  | None => mret 1
  | Some r =>
    modP (fun s => s <| cg_list := List.remove Nat.eq_dec r (cg_list s) |> <| cg_others := map (List.remove Nat.eq_dec r) (cg_others s) |>
      <| cg_heap := delete r (cg_heap s) |>);;
    mret 0
  end.

Definition cgi_req_get (socket : Z) : C (option nat) :=
  s ← getP;
  liftP (if socket <? 0 then None else requests_by_socket s !! Z.to_nat socket).

Definition set_by_socket (socket : Z) (r : option nat) : C unit :=
  _ ← cgi_req_get socket;
  modP (fun s => s <| requests_by_socket := <[Z.to_nat socket := r]> (requests_by_socket s) |>).

Fixpoint by_fd_loop (l : list nat) (fd : Z) : C (option nat) :=
  match l with
  | [] => mret None
  | i :: l => r ← get_cr i; if cr_fd r =? fd then mret (Some i) else by_fd_loop l fd
  end.
Definition cgi_req_get_by_fd (fd : Z) : C (option nat) := s ← getP; by_fd_loop (cg_list s) fd.

Section WithEnv.
Context `{env : Env} `{peers : PeerNames} `{globals : CgiGlobals}.

(** ** Writing *)

(** A call that takes nothing at all is made again; [fuel] counts calls that
    take a byte each. After an error [buf] is one byte before the data, which
    nobody uses. *)
Fixpoint swrite_loop (fuel : nat) (fd : Z) (buf : bytes) (pos ret : Z) : M Z :=
  match fuel with
  | O => ub
  | S fuel =>
    if (0 <? pos) && (0 <=? ret) then
      d ← lift (memread buf pos);
      t ← gets w_trace;
      let ret := sys_write t fd d in
      emit (EvWrite fd (take (Z.to_nat ret) d));;
      buf ← lift (if ret <? 0 then Some buf else padd buf ret);
      swrite_loop fuel fd buf (pos - ret) ret
    else mret (if ret <? 0 then 0 else 1)
  end.
Definition swrite (fd : Z) (buf : bytes) (count : Z) : M Z := swrite_loop (S (length buf)) fd buf (i64 count) 0.

(** The thread started for the body of a request. *)
Definition cgi_write_post (in_ : post_t) : M unit :=
  _ ← swrite (po_fd in_) (po_buf in_) (po_len in_);
  emit (EvClose (po_fd in_)).

(** ** Starting a program *)

Definition var (size : Z) (name : string) (text : bytes) : bytes := snprintf size (lit name ++ text).

Definition cgi_query (sr : session_request) : option (option bytes) :=
  if len (sr_query_string sr) =? 0 then Some None
  else q ← view (sr_query_string sr); q ← cstr (q ++ [0]); Some (Some q).

(** The environment of the program, in order; [addr] is the text of the peer. *)
Definition cgi_env (file url addr : bytes) (sr : session_request) : option (list bytes) :=
  method ← (p ← data (sr_method_p sr); cstr p);
  h ← request_vhost sr;
  signature ← cstr (h_host_signature h);
  http_host ← pointer_prec (sr_host sr);
  let protocol := if sr_protocol sr =? HTTP_PROTOCOL_11 then lit "HTTP/1.1" else lit "HTTP/1.0" in
  query ← cgi_query sr;
  content_type ← (if len (sr_content_type sr) =? 0 then Some None
                  else p ← data (sr_content_type sr); t ← cstr p; Some (Some t));
  Some (
    [ lit "PATH_INFO="; lit "GATEWAY_INTERFACE=CGI/1.1"; lit "REDIRECT_STATUS=200" ] ++
    [ var SHORTLEN "REQUEST_METHOD=" method;
      var SHORTLEN "SERVER_SOFTWARE=" signature;
      var SHORTLEN "HTTP_HOST=" http_host;
      var SHORTLEN "SERVER_PROTOCOL=" protocol;
      var PATHLEN "REQUEST_URI=" (match query with Some q => url ++ lit "?" ++ q | None => url end);
      var PATHLEN "SCRIPT_FILENAME=" file;
      var PATHLEN "SCRIPT_NAME=" url ] ++
    (match query with Some q => [var PATHLEN "QUERY_STRING=" q] | None => [] end) ++
    [ var (INET6_ADDRSTRLEN + SHORTLEN) "REMOTE_ADDR=" addr;
      var SHORTLEN "REMOTE_PORT=" (dec (sr_port sr)) ] ++
    (if len (sr_data sr) =? 0 then [] else [var SHORTLEN "CONTENT_LENGTH=" (dec (len (sr_data sr)))]) ++
    (match content_type with Some t => [var SHORTLEN "CONTENT_TYPE=" t] | None => [] end)).

(** The address of the peer; an unknown one is empty. *)
Definition cgi_addr (socket : Z) : M bytes :=
  ip ← mk_socket_ip_str socket (map sys_junk (seq 0 (Z.to_nat INET6_ADDRSTRLEN))) INET6_ADDRSTRLEN;
  match ip with Some (buf, _) => lift (cstr buf) | None => mret [] end.

(** The child, which shares the memory of its parent; what it does to its own
    descriptors changes nothing of the parent. A program that could not be
    started writes nothing. *)
Definition cgi_child (read_end write_end : Z) (file : bytes) (match_ : option cgi_vhost_match_t) (env : list bytes) : M unit :=
  t ← gets w_trace;
  if negb (sys_dup2 t read_end 0) then mret tt else
  if negb (sys_dup2 t write_end 1) then mret tt else
  let dir := dirname file in
  if negb (sys_chdir t dir) then mret tt else
  m ← lift match_;
  bin ← lift (vm_bin m);
  match bin with
  | None => emit (EvExec dir file [basename file] env)
  | Some bin => bin ← lift (cstr bin); emit (EvExec dir bin [basename bin; file] env)
  end.

(** The parent's side, once the child runs. *)
Definition cgi_parent (read_end write_end : Z) (cs sr : nat) (c : client_session) (r : session_request) : C Z :=
  (if len (sr_data r) =? 0 then call (emit (EvClose write_end))
   else call (d ← lift (view (sr_data r)); emit (EvSpawn write_end d)));;
  i ← cgi_req_create read_end (cs_socket c) cs sr;
  (if (HTTP_PROTOCOL_11 <=? sr_protocol r) &&
      ((sh_status (sr_headers r) <? MK_REDIR_MULTIPLE) || (MK_REDIR_USE_PROXY <? sh_status (sr_headers r))) then
     call (mod_sr cs sr (set_headers (fun sh => sh <| sh_transfer_encoding := MK_HEADER_TE_TYPE_CHUNKED |>)));;
     mod_cr i (fun r => r <| chunked := true |>)
   else mret tt);;
  cgi_req_add i;;
  _ ← call (mk_plugin_event_add read_end MK_EPOLL_READ (Some cgi_plugin) MK_EPOLL_LEVEL_TRIGGERED);
  set_by_socket (cs_socket c) (Some i);;
  _ ← call (mk_plugin_event_socket_change_mode (cs_socket c) MK_EPOLL_SLEEP MK_EPOLL_LEVEL_TRIGGERED);
  mret 200.

Definition do_pipe : M (option (Z * Z)) :=
  t ← gets w_trace;
  match sys_pipe t with
  | Some (r, w) => emit (EvPipe r w);; mret (Some (r, w))
  | None => mret None
  end.

(** [c] is the session [cs]. *)
Definition do_cgi (file url : bytes) (sr cs : nat) (c : client_session) (match_ : option cgi_vhost_match_t) : C Z :=
  r ← call (get_sr cs sr);
  addr ← call (cgi_addr (cs_socket c));
  env ← liftP (cgi_env file url addr r);
  writepipe ← call do_pipe;
  match writepipe with
  | None => mret 403
  | Some (write_r, write_w) =>
    readpipe ← call do_pipe;
    match readpipe with
    | None => mret 403
    | Some (read_r, read_w) =>
      t ← call (gets w_trace);
      if negb (sys_vfork t) then mret 403 else
      call (cgi_child write_r read_w file match_ env);;
      call (emit (EvClose write_r));;
      call (emit (EvClose read_w));;
      cgi_parent read_r write_w cs sr c r
    end
  end.

(** ** The handler of stage 30 *)

Fixpoint find_cgi_vhost (l : list cgi_vhost_t) (host : option nat) : option cgi_vhost_t :=
  match l with
  | [] => None
  | v :: l => if decide (host = Some (vh_host v)) then Some v else find_cgi_vhost l host
  end.

(** [regexec] of an expression that was never compiled is undefined. *)
Definition matches (re : option bytes) (url : bytes) : option bool := r ← re; Some (cgi_regexec r url).

(** Which rule applies: [None] means that the file is not for this plugin, and
    an inner [None] that [vmatch] was not assigned. The loop over the rules
    looks at the first one only. *)
Definition cgi_match (conf : cgi_config) (url : bytes) (host : option nat) : option (option (option cgi_vhost_match_t)) :=
  global ← matches (match_regex conf) url;
  match cgi_vhosts conf with
  | Some vhosts =>
    if global : bool then Some (Some None) else
    match find_cgi_vhost vhosts host with
    | None => Some None
    | Some v =>
      l ← vh_matches v;
      match l with
      | [] => Some (Some None)
      | vmatch :: _ =>
        ok ← matches (vm_match vmatch) url;
        Some (if ok : bool then Some (Some vmatch) else None)
      end
    end
  | None => Some (Some None)
  end.

Definition _mkp_stage_30 (conf : cgi_config) (cs sr : nat) : C Z :=
  r ← call (get_sr cs sr);
  if PATHLEN <? u64 (len (sr_uri r) + 1) then mret MK_PLUGIN_RET_NOT_ME else
  uri ← liftP (view (sr_uri r));
  url ← liftP (cstr (uri ++ [0]));
  if fi_is_file (sr_file_info r) =? 0 then mret MK_PLUGIN_RET_NOT_ME else
  rule ← liftP (cgi_match conf url (sr_host_conf r));
  match rule with
  | None => mret MK_PLUGIN_RET_NOT_ME
  | Some vmatch =>
    c ← call (get_cs cs);
    running ← cgi_req_get (cs_socket c);
    match running with
    | Some _ => mret MK_PLUGIN_RET_CONTINUE
    | None =>
      file ← liftP (p ← data (sr_real_path r); cstr p);
      status ← do_cgi file url sr cs c vmatch;
      call (mk_header_set_http_status cs sr status);;
      if negb (status =? 200) then mret MK_PLUGIN_RET_END else
      call (mod_sr cs sr (set_headers (fun sh => sh <| sh_cgi := 1 |>)));;
      mret MK_PLUGIN_RET_CONTINUE
    end
  end.

(** ** Events (event.c) *)

(** The status line of a program: the status, and the length of the line if its
    end was read. *)
Definition status_line (buf : bytes) (len : Z) : option (option (Z * option Z)) :=
  let line (skip : Z) : option (option (Z * option Z)) :=
    digits ← padd buf skip;
    status ← atoi digits;
    rest ← padd buf 8;
    endl ← memchr rest 10 (len - 8);
    Some (Some (status, option_map (fun k => k + 9) endl)) in
  b ← starts buf (lit "Status: ");
  if b : bool then line 8 else
  b ← starts buf (lit "HTTP");
  if b : bool then line 9 else Some None.

(** The end of the headers: the position behind the empty line. [strstr] looks
    for it up to the next NUL, wherever the data ends. *)
Definition headers_end (outptr : bytes) : option (option Z) :=
  e ← strstr outptr [13; 10; 13; 10; 0];
  match e with
  | Some k => Some (Some (k + 4))
  | None =>
    e ← strstr outptr [10; 10; 10; 10; 0];
    match e with
    | Some k => Some (Some (k + 4))
    | None => e ← strstr outptr [10; 10; 0]; Some (option_map (fun k => k + 2) e)
    end
  end.

Definition change_mode (socket mode : Z) : C unit :=
  _ ← call (mk_plugin_event_socket_change_mode socket mode MK_EPOLL_LEVEL_TRIGGERED); mret tt.

(** The response header; what is left of the data, [None] while the status line
    has no end. *)
Definition send_status (socket : Z) (i : nat) : C (option bytes) :=
  r ← get_cr i;
  let buf := in_buf r in
  if negb (status_done r) && (8 <=? in_len r) then
    line ← liftP (status_line buf (in_len r));
    match line with
    | Some (status, None) => call (mk_header_set_http_status (cr_cs r) (cr_sr r) status);; mret None
    | Some (status, Some n) =>
      call (mk_header_set_http_status (cr_cs r) (cr_sr r) status);;
      outptr ← liftP (padd buf n);
      put_cr i (r <| in_len := u32 (in_len r - n) |>);;
      _ ← call (mk_header_send socket (cr_cs r) (cr_sr r));
      mod_cr i (fun r => r <| status_done := true |>);;
      mret (Some outptr)
    | None =>
      _ ← call (mk_header_send socket (cr_cs r) (cr_sr r));
      mod_cr i (fun r => r <| status_done := true |>);;
      mret (Some buf)
    end
  else mret (Some buf).

(** The headers of the program, which are not put in chunks; what is left of
    the data, [None] if nothing. *)
Definition send_headers (socket : Z) (i : nat) (outptr : bytes) : C (option bytes) :=
  r ← get_cr i;
  if all_headers_done r then mret (Some outptr) else
  e ← liftP (headers_end outptr);
  match e with
  | None =>
    _ ← call (swrite socket outptr (in_len r));
    put_cr i (r <| in_len := 0 |>);;
    change_mode socket MK_EPOLL_SLEEP;;
    mret None
  | Some len =>
    _ ← call (swrite socket outptr len);
    outptr ← liftP (padd outptr len);
    let r := r <| in_len := u32 (in_len r - len) |> <| all_headers_done := true |> in
    put_cr i r;;
    if in_len r =? 0 then change_mode socket MK_EPOLL_SLEEP;; mret None else mret (Some outptr)
  end.

Definition send_body (socket : Z) (i : nat) (outptr : bytes) : C unit :=
  r ← get_cr i;
  (if chunked r then
     let tmp := snprintf 16 (hex (in_len r) ++ [13; 10]) in
     _ ← call (swrite socket (tmp ++ [0]) (Z.of_nat (length (hex (in_len r))) + 2)); mret tt
   else mret tt);;
  _ ← call (swrite socket outptr (in_len r));
  put_cr i (r <| in_len := 0 |>);;
  change_mode socket MK_EPOLL_SLEEP;;
  change_mode (cr_fd r) MK_EPOLL_READ;;
  (if chunked r then _ ← call (swrite socket [13; 10; 0] 2); mret tt else mret tt);;
  call (mk_socket_set_cork_flag socket TCP_CORK_OFF).

Definition _mkp_event_write (socket : Z) : C Z :=
  r ← cgi_req_get socket;
  match r with
  | None => mret MK_PLUGIN_RET_EVENT_CONTINUE
  | Some i =>
    r ← get_cr i;
    if negb (0 <? in_len r) then mret MK_PLUGIN_RET_EVENT_OWNED else
    call (mk_socket_set_cork_flag socket TCP_CORK_ON);;
    outptr ← send_status socket i;
    match outptr with
    | None => mret MK_PLUGIN_RET_EVENT_OWNED
    | Some outptr =>
      outptr ← send_headers socket i outptr;
      match outptr with
      | None => mret MK_PLUGIN_RET_EVENT_OWNED
      | Some outptr => send_body socket i outptr;; mret MK_PLUGIN_RET_EVENT_OWNED
      end
    end
  end.

Definition _mkp_event_read (fd : Z) : C Z :=
  r ← cgi_req_get_by_fd fd;
  match r with
  | None => mret MK_PLUGIN_RET_EVENT_NEXT
  | Some i =>
    r ← get_cr i;
    let count := u32 (PATHLEN - in_len r) in
    if count <? 1 then
      change_mode (cr_fd r) MK_EPOLL_SLEEP;;
      change_mode (cr_socket r) MK_EPOLL_WRITE;;
      mret MK_PLUGIN_RET_EVENT_OWNED
    else
      t ← call (gets w_trace);
      match sys_read t (cr_fd r) count with
      | inr _ => mret MK_PLUGIN_RET_EVENT_CLOSE
      | inl d =>
        call (emit (EvRead (cr_fd r) d));;
        buf ← liftP (bwrite (in_buf r) (in_len r) d);
        if Z.of_nat (length d) <=? 0 then mret MK_PLUGIN_RET_EVENT_CLOSE else
        put_cr i (r <| in_buf := buf |> <| in_len := u32 (in_len r + Z.of_nat (length d)) |>);;
        change_mode (cr_socket r) MK_EPOLL_WRITE;;
        mret MK_PLUGIN_RET_EVENT_OWNED
      end
  end.

(** What is left of the output, and its end. *)
Definition end_output (i : nat) : C unit :=
  r ← get_cr i;
  _ ← _mkp_event_write (cr_socket r);
  _ ← call (mk_plugin_event_del (cr_fd r));
  if chunked r then _ ← call (swrite (cr_socket r) (lit "0" ++ [13; 10; 13; 10; 0]) 5); mret tt else mret tt.

(** [fuel] bounds the calls to itself: the end of the request of a client may
    close its connection, and no program writes to the socket of a client. *)
Fixpoint hangup (fuel : nat) (socket : Z) : C Z :=
  match fuel with
  | O => liftP None
  | S fuel =>
    r ← cgi_req_get_by_fd socket;
    match r with
    | None => mret MK_PLUGIN_RET_EVENT_CONTINUE
    | Some i =>
      end_output i;;
      r ← get_cr i;
      _ ← plugin_http_request_end (hangup fuel) (cr_socket r);
      r ← get_cr i;
      call (emit (EvClose (cr_fd r)));;
      set_by_socket (cr_socket r) None;;
      _ ← cgi_req_del (Some i);
      mret MK_PLUGIN_RET_EVENT_OWNED
    end
  end.
Definition _mkp_event_close (socket : Z) : C Z := hangup 2 socket.
Definition _mkp_event_error (socket : Z) : C Z := hangup 2 socket.

(** ** Configuration *)

(** Spaces separate alternatives. An expression that does not compile leaves
    the result undefined. *)
Definition str_to_regex (str : bytes) : option (option bytes) :=
  s ← cstr str;
  let re := map (fun c => if c =? 32 then 124 else c) s in
  Some (if cgi_regcomp re then Some re else None).

(** A line "Match expression interpreter type". A line without words is
    added as a NULL rule. *)
Definition cgi_rule (line : list mk_string_line) : option cgi_vhost_match_t :=
  match line with
  | [] => None
  | re :: line =>
    re ← sl_val re;
    re ← str_to_regex re;
    bin ← (match line with [] => Some None | w :: _ => v ← sl_val w; v ← cstr v; Some (Some (Some (v ++ [0]))) end);
    ct ← (match line with
          | _ :: w :: _ => v ← sl_val w; v ← cstr v; Some (Some {| data := Some (v ++ [0]); len := sl_len w |})
          | _ => Some None
          end);
    Some {| vm_match := re; vm_bin := bin; vm_content_type := ct |}
  end.

(** Every line initialises the list of the host again: the last one stays. It
    is added a second time behind itself, so that it is its own successor; the
    handler does not go beyond the first rule. *)
Fixpoint cgi_rules (entries : list mk_config_entry) (acc : option (list cgi_vhost_match_t)) : option (option (list cgi_vhost_match_t)) :=
  match entries with
  | [] => Some acc
  | e :: entries =>
    key ← cstr (ce_key e);
    c ← strncasecmp (ce_key e) (clit "Match") (Z.of_nat (length key));
    if c =? 0 then
      line ← mk_string_split_line (Some (ce_val e));
      match line with
      | None => cgi_rules entries acc
      | Some line => rule ← cgi_rule line; cgi_rules entries (Some [rule])
      end
    else cgi_rules entries acc
  end.

Fixpoint cgi_read_vhosts (i : nat) (hosts : list mk_config) : option (list cgi_vhost_t) :=
  match hosts with
  | [] => Some []
  | conf :: hosts =>
    section ← mk_config_section_get conf (clit "CGI");
    match section with
    | None => cgi_read_vhosts (S i) hosts
    | Some section =>
      rules ← cgi_rules (cs_entries section) None;
      rest ← cgi_read_vhosts (S i) hosts;
      Some ({| vh_host := i; vh_matches := rules |} :: rest)
    end
  end.

(** [hosts]: the configurations of the virtual hosts. A file that cannot be
    read is a NULL configuration. *)
Definition cgi_read_config (fopen_read : bytes -> option bytes) (path : bytes) (hosts : list mk_config) : option (cfg_result cgi_config) :=
  s ← cstr path;
  '(file, _) ← mk_string_build (s ++ lit "cgi.conf");
  conf ← mk_config_create (fopen_read file);
  conf ← conf;
  match conf with
  | CfgExit n e => Some (CfgExit n e)
  | CfgOk conf =>
    section ← mk_config_section_get conf (clit "CGI");
    re ← (match section with
          | None => Some None
          | Some section =>
            m ← get_str section "Match";
            match m with Some m => str_to_regex m | None => Some None end
          end);
    vhosts ← cgi_read_vhosts 0 hosts;
    Some (CfgOk {| match_regex := re; cgi_vhosts := match vhosts with [] => None | _ => Some vhosts end |})
  end.

(** A worker starts with an empty list. *)
Definition _mkp_core_thctx : list nat := [].
(** The state once the workers run, one and [others], for [limit] descriptors. *)
Definition cgi_init (limit others : nat) : cgi_state :=
  {| cg_heap := ∅; cg_next := 0; cg_list := _mkp_core_thctx; cg_others := replicate others _mkp_core_thctx; requests_by_socket := replicate limit None |}.
End WithEnv.
