(* ===== verification/CgiState.v ===== *)
(** * plugins/cgi: the requests in memory

    The lists of the workers and the table of the sockets that they share hold
    the same requests, whose buffers are never overrun, whatever the programs,
    the clients and the system do, when the handlers of the workers run one
    after the other, in any order. *)
From stdpp Require Import gmap.
From S2P Require Import Prelude CString MkString MkMemory MkUtils MkTypes MkToc MkSession MkEpoll MkPlugin MkScheduler MkConfig MkResponse MkConnection.
From S2P Require Import MkSocket PluginState FcgiEnv Chunked Cgi.
Local Open Scope Z_scope.

(** ** The invariant *)

Record request_ok (r : cgi_request) : Prop := {
  ro_buf : length (in_buf r) = 1024%nat;
  ro_len : 0 <= in_len r <= 1024;
}.

(** The request is in the table under its socket. *)
Definition by_socket (s : cgi_state) (k : Z) : option (option nat) :=
  if k <? 0 then None else requests_by_socket s !! Z.to_nat k.

(** The requests in the lists of all workers. *)
Definition cg_lists (s : cgi_state) : list nat := cg_list s ++ concat (cg_others s).
#[local] Arguments cg_lists : simpl never.

Record state_ok (s : cgi_state) : Prop := {
  so_requests i r : cg_heap s !! i = Some r -> request_ok r;
  so_fresh i r : cg_heap s !! i = Some r -> (i < cg_next s)%nat;
  so_nodup : NoDup (cg_lists s);
  so_list i : i ∈ cg_lists s <-> is_Some (cg_heap s !! i);
  so_table k i : by_socket s k = Some (Some i) <-> exists r, cg_heap s !! i = Some r /\ cr_socket r = k;
}.

Lemma no_lists n : concat (replicate n (@nil nat)) = [].
Proof. induction n as [|n IH]; [done|exact IH]. Qed.

Lemma cgi_init_ok limit others : state_ok (cgi_init limit others).
Proof.
  assert (Hl : cg_lists (cgi_init limit others) = []) by apply no_lists. split; rewrite ?Hl; cbn.
  - intros i r. rewrite lookup_empty. done.
  - intros i r. rewrite lookup_empty. done.
  - constructor.
  - intros i. rewrite lookup_empty, elem_of_nil. split; [done|by intros [? ?]].
  - intros k i. unfold by_socket. cbn. split.
    + case_if; [done|]. intros H. apply lookup_replicate in H as [[=] _].
    + intros (r & H & _). by rewrite lookup_empty in H.
Qed.

(** The request [i] gets other contents, but the same socket. *)
Definition upd (s : cgi_state) (i : nat) (r : cgi_request) : cgi_state := s <| cg_heap := <[i := r]> (cg_heap s) |>.

Lemma upd_ok s i r r' :
  state_ok s -> cg_heap s !! i = Some r -> request_ok r' -> cr_socket r' = cr_socket r -> state_ok (upd s i r').
Proof.
  intros [H1 H2 H3 H4 H5] Hi Hok Hs.
  assert (Hl : forall j, is_Some (<[i := r']> (cg_heap s) !! j) <-> is_Some (cg_heap s !! j)).
  { intros j. destruct (decide (i = j)) as [<-|Hne]; [rewrite lookup_insert_eq, Hi; split; eauto|now rewrite lookup_insert_ne]. }
  split; change (cg_lists (upd s i r')) with (cg_lists s); cbn.
  - intros j x. destruct (decide (i = j)) as [<-|Hne]; [rewrite lookup_insert_eq; now intros [= <-]|rewrite lookup_insert_ne by done; apply H1].
  - intros j x. destruct (decide (i = j)) as [<-|Hne]; [intros _; now apply H2 in Hi|rewrite lookup_insert_ne by done; apply H2].
  - done.
  - intros j. now rewrite H4, Hl.
  - intros k j. change (by_socket (upd s i r') k) with (by_socket s k). rewrite H5. destruct (decide (i = j)) as [<-|Hne].
    + rewrite lookup_insert_eq. split; intros (x & Hx & Hk); [exists r'|exists r]; split; try done; congruence.
    + now rewrite lookup_insert_ne.
Qed.

(** A request that is in nobody's way is added. *)
Definition enter (s : cgi_state) (r : cgi_request) : cgi_state :=
  {| cg_heap := <[cg_next s := r]> (cg_heap s); cg_next := S (cg_next s); cg_list := cg_list s ++ [cg_next s]; cg_others := cg_others s;
     requests_by_socket := <[Z.to_nat (cr_socket r) := Some (cg_next s)]> (requests_by_socket s) |}.

Lemma by_socket_set s k v x h n l o : by_socket s k = Some v ->
  by_socket {| cg_heap := h; cg_next := n; cg_list := l; cg_others := o; requests_by_socket := <[Z.to_nat k := x]> (requests_by_socket s) |} k = Some x /\
  forall j, j <> k -> by_socket {| cg_heap := h; cg_next := n; cg_list := l; cg_others := o; requests_by_socket := <[Z.to_nat k := x]> (requests_by_socket s) |} j = by_socket s j.
Proof.
  unfold by_socket. cbn. case_if; [done|]. zbool. intros H. apply lookup_lt_Some in H as Hl. split.
  - now rewrite list_lookup_insert_eq.
  - intros j Hj. destruct (j <? 0) eqn:E2; [done|]. zbool. rewrite list_lookup_insert_ne; [done|lia].
Qed.

Lemma enter_lists s r : cg_lists (enter s r) ≡ₚ cg_lists s ++ [cg_next s].
Proof. unfold cg_lists. cbn. rewrite <- !app_assoc. f_equiv. apply Permutation_app_comm. Qed.

Lemma enter_ok s r : state_ok s -> request_ok r -> by_socket s (cr_socket r) = Some None -> state_ok (enter s r).
Proof.
  intros [H1 H2 H3 H4 H5] Hr Hfree. set (n := cg_next s).
  assert (Hn : cg_heap s !! n = None) by (destruct (cg_heap s !! n) as [x|] eqn:E; [apply H2 in E; unfold n in E; lia|done]).
  assert (Htable : by_socket (enter s r) (cr_socket r) = Some (Some n) /\ forall j, j <> cr_socket r -> by_socket (enter s r) j = by_socket s j)
    by apply (by_socket_set s _ _ (Some n) _ _ _ _ Hfree).
  destruct Htable as [Ht Hother].
  pose proof (enter_lists s r) as Hp. fold n in Hp. split; cbn; fold n.
  - intros j x. destruct (decide (n = j)) as [<-|Hne]; [rewrite lookup_insert_eq; now intros [= <-]|rewrite lookup_insert_ne by done; apply H1].
  - intros j x. destruct (decide (n = j)) as [<-|Hne]; [lia|rewrite lookup_insert_ne by done]. intros H. apply H2 in H. unfold n. lia.
  - rewrite Hp. apply NoDup_app. split; [done|]. split; [|apply NoDup_singleton]. intros j Hj Hj2. apply list_elem_of_singleton in Hj2 as ->.
    apply H4 in Hj as [x Hx]. congruence.
  - intros j. rewrite Hp, elem_of_app, list_elem_of_singleton, H4. destruct (decide (n = j)) as [<-|Hne].
    + rewrite lookup_insert_eq. split; [eauto|now right].
    + rewrite lookup_insert_ne by done. split; [by intros [? | ->]|now left].
  - intros k j. change (by_socket (enter s r) k = Some (Some j) <-> exists x, <[n := r]> (cg_heap s) !! j = Some x /\ cr_socket x = k).
    destruct (decide (k = cr_socket r)) as [->|Hk].
    + rewrite Ht. split.
      * intros [= <-]. exists r. now rewrite lookup_insert_eq.
      * intros (x & Hx & Hs). destruct (decide (n = j)) as [<-|Hne]; [done|]. rewrite lookup_insert_ne in Hx by done.
        assert (by_socket s (cr_socket r) = Some (Some j)) as Hj by (apply H5; eauto). congruence.
    + rewrite Hother, H5 by done. destruct (decide (n = j)) as [<-|Hne].
      * rewrite lookup_insert_eq, Hn. split; [by intros (x & ? & _)|intros (x & [= <-] & Hs); congruence].
      * now rewrite lookup_insert_ne.
Qed.

(** A request leaves the table, the list and the memory. *)
Definition leave (s : cgi_state) (i : nat) (socket : Z) : cgi_state :=
  {| cg_heap := delete i (cg_heap s); cg_next := cg_next s; cg_list := List.remove Nat.eq_dec i (cg_list s);
     cg_others := map (List.remove Nat.eq_dec i) (cg_others s);
     requests_by_socket := <[Z.to_nat socket := None]> (requests_by_socket s) |}.

Lemma remove_concat i (ls : list (list nat)) : concat (map (List.remove Nat.eq_dec i) ls) = List.remove Nat.eq_dec i (concat ls).
Proof. induction ls as [|l ls IH]; [done|]. cbn. now rewrite remove_app, IH. Qed.
Lemma leave_lists s i k : cg_lists (leave s i k) = List.remove Nat.eq_dec i (cg_lists s).
Proof. unfold cg_lists. cbn. now rewrite remove_concat, remove_app. Qed.

(** Whose turn it is makes no difference. *)
Lemma resume_ok s k : state_ok s -> state_ok (resume k s).
Proof.
  intros [H1 H2 H3 H4 H5]. unfold resume. destruct (cg_others s !! k) as [l|] eqn:E; [|by split].
  assert (Hp : cg_lists (s <| cg_list := l |> <| cg_others := <[k := cg_list s]> (cg_others s) |>) ≡ₚ cg_lists s).
  { unfold cg_lists. cbn. pose proof (take_drop_middle _ _ _ E) as Hm. set (l1 := take k (cg_others s)) in *. set (l2 := drop (S k) (cg_others s)) in *.
    assert (Hk : length l1 = k) by (unfold l1; rewrite length_take; apply lookup_lt_Some in E; lia).
    rewrite <- Hm. clearbody l1 l2. rewrite <- (Nat.add_0_r k), <- Hk, insert_app_r, !concat_app. cbn [concat list_insert insert]. solve_Permutation. }
  split; [done|done|by rewrite Hp| |done]. intros i. rewrite Hp. apply H4.
Qed.

Lemma leave_ok s i r : state_ok s -> cg_heap s !! i = Some r -> state_ok (leave s i (cr_socket r)).
Proof.
  intros [H1 H2 H3 H4 H5] Hi. assert (Hb : by_socket s (cr_socket r) = Some (Some i)) by (apply H5; eauto).
  assert (Htable : by_socket (leave s i (cr_socket r)) (cr_socket r) = Some None /\
    forall j, j <> cr_socket r -> by_socket (leave s i (cr_socket r)) j = by_socket s j) by apply (by_socket_set s _ _ None _ _ _ _ Hb).
  destruct Htable as [Ht Hother]. destruct (remove_NoDup (cg_lists s) i H3) as [R1 R2].
  rewrite <- (leave_lists s i (cr_socket r)) in R1, R2. split; cbn.
  - intros j x [_ H]%lookup_delete_Some. now apply (H1 j).
  - intros j x [_ H]%lookup_delete_Some. now apply (H2 j x).
  - done.
  - intros j. rewrite R2, H4. destruct (decide (i = j)) as [<-|Hne].
    + rewrite lookup_delete_eq. split; [tauto|by intros [? ?]].
    + rewrite lookup_delete_ne by done. split; [tauto|]. intros; split; [done|congruence].
  - intros k j. change (by_socket (leave s i (cr_socket r)) k = Some (Some j) <-> exists x, delete i (cg_heap s) !! j = Some x /\ cr_socket x = k).
    destruct (decide (k = cr_socket r)) as [->|Hk].
    + rewrite Ht. split; [done|]. intros (x & [Hne Hx]%lookup_delete_Some & Hs).
      assert (by_socket s (cr_socket r) = Some (Some j)) as Hj by (apply H5; eauto). congruence.
    + rewrite Hother, H5 by done. split; intros (x & Hx & Hs).
      * exists x. split; [|done]. apply lookup_delete_Some. split; [|done]. intros <-. congruence.
      * apply lookup_delete_Some in Hx as [_ Hx]. eauto.
Qed.

(** ** What the handlers do to it *)

(** The state is [s] but for the contents of the request [i]. *)
Definition at_ (s : cgi_state) (i : nat) (phi : cgi_request -> Prop) (st : cgi_state) : Prop := exists r, st = upd s i r /\ phi r.

(** What sending never changes. *)
Definition same (r r' : cgi_request) : Prop :=
  in_buf r' = in_buf r /\ cr_socket r' = cr_socket r /\ cr_fd r' = cr_fd r /\ chunked r' = chunked r /\ cr_cs r' = cr_cs r /\ cr_sr r' = cr_sr r.

Lemma upd_upd s i r r' : upd (upd s i r) i r' = upd s i r'.
Proof. unfold upd. cbn. f_equal. apply insert_insert_eq. Qed.
Lemma upd_id s i r : cg_heap s !! i = Some r -> upd s i r = s.
Proof. intros H. unfold upd. cbn. rewrite insert_id by done. by destruct s. Qed.
Lemma upd_at s i r : cg_heap (upd s i r) !! i = Some r.
Proof. unfold upd. cbn. apply lookup_insert_eq. Qed.

Lemma get_cr_at s i phi : triple (at_ s i phi) (get_cr i) (fun a st => at_ s i (eq a) st /\ phi a).
Proof.
  intros st w a s' w' (r & -> & Hr). unfold get_cr, mbind, P_bind, getP, liftP. rewrite upd_at. intros [= <- <- <-].
  split; [by exists r|done].
Qed.
Lemma put_cr_at s i phi r : triple (at_ s i phi) (put_cr i r) (fun _ => at_ s i (eq r)).
Proof. apply triple_mod. intros st (r' & -> & _). exists r. split; [apply upd_upd|done]. Qed.
Lemma mod_cr_at s i phi f : triple (at_ s i phi) (mod_cr i f) (fun _ => at_ s i (fun r' => exists r, phi r /\ r' = f r)).
Proof.
  eapply triple_bind; [apply get_cr_at|]. intros r. apply triple_fact. intros Hr.
  eapply triple_post; [apply put_cr_at|]. intros _ st (r' & -> & <-). eexists. split; [reflexivity|eauto].
Qed.
Lemma at_weaken s i (phi psi : cgi_request -> Prop) st : (forall r, phi r -> psi r) -> at_ s i phi st -> at_ s i psi st.
Proof. intros H (r & -> & Hr). exists r. auto. Qed.

(** A run that ends in a value keeps what is known of the request. *)
Lemma ret_at {A} s i phi (psi : A -> cgi_request -> Prop) (a : A) :
  (forall r, phi r -> psi a r) -> triple (at_ s i phi) (mret a) (fun b => at_ s i (psi b)).
Proof.
  intros H. eapply triple_pre; [|apply (triple_ret a (fun b => at_ s i (psi b)))]. intros st. now apply at_weaken.
Qed.

Section WithEnv.
Context `{env : Env} `{peers : PeerNames} `{globals : CgiGlobals}.

Lemma change_mode_triple Pre socket mode : triple Pre (change_mode socket mode) (fun _ => Pre).
Proof. unfold change_mode. tcall. apply (triple_ret _ (fun _ => Pre)). Qed.

Lemma send_status_at s i r0 socket :
  triple (at_ s i (eq r0)) (send_status socket i) (fun o => at_ s i (fun r => same r0 r /\ (in_len r = in_len r0 \/ o <> None))).
Proof.
  assert (H0 : same r0 r0) by by split_and!.
  unfold send_status. eapply triple_bind; [apply get_cr_at|]. intros r. apply triple_fact. intros <-.
  case_if; [|apply ret_at; intros ? <-; auto]. tlift. destruct a as [[status [n|]]|].
  - tcall. tlift. eapply triple_bind; [apply put_cr_at|]. intros ?. tcall.
    eapply triple_bind; [apply mod_cr_at|]. intros ?. apply ret_at. intros r' (x & <- & ->). split; [by split_and!|by right].
  - tcall. apply ret_at. intros ? <-. auto.
  - tcall. eapply triple_bind; [apply mod_cr_at|]. intros ?. apply ret_at. intros r' (x & <- & ->). split; [by split_and!|by right].
Qed.

Lemma send_headers_at s i r0 socket outptr :
  triple (at_ s i (same r0)) (send_headers socket i outptr) (fun o => at_ s i (fun r => same r0 r /\ (o = None -> in_len r = 0))).
Proof.
  unfold send_headers. eapply triple_bind; [apply get_cr_at|]. intros r. apply triple_fact. intros Hr.
  case_if; [apply ret_at; intros ? <-; done|]. tlift. destruct a as [n|].
  - tcall. tlift. eapply triple_bind; [apply put_cr_at|]. intros ?. destruct (in_len _ =? 0) eqn:El; zbool.
    + eapply triple_bind; [apply change_mode_triple|]. intros ?. apply ret_at. intros ? <-. split; [exact Hr|done].
    + apply ret_at. intros ? <-. split; [exact Hr|done].
  - tcall. eapply triple_bind; [apply put_cr_at|]. intros ?. eapply triple_bind; [apply change_mode_triple|]. intros ?.
    apply ret_at. intros ? <-. split; [exact Hr|done].
Qed.

Lemma send_body_at s i r0 socket outptr :
  triple (at_ s i (same r0)) (send_body socket i outptr) (fun _ => at_ s i (fun r => same r0 r /\ in_len r = 0)).
Proof.
  unfold send_body. eapply triple_bind; [apply get_cr_at|]. intros r. apply triple_fact. intros Hr.
  assert (Hopt : forall (b : bool) (m : M Z) Pre, triple Pre (if b then _ ← call m; mret tt else mret tt) (fun _ : unit => Pre : cgi_state -> Prop)).
  { intros b m Pre. destruct b; [tcall|]; apply (triple_ret _ (fun _ => Pre)). }
  eapply triple_bind; [apply Hopt|]. intros ?. tcall. eapply triple_bind; [apply put_cr_at|]. intros ?.
  do 2 (eapply triple_bind; [apply change_mode_triple|]; intros ?). eapply triple_bind; [apply Hopt|]. intros ?.
  eapply triple_post; [apply triple_call|]. intros ? st. apply at_weaken. intros ? <-. split; [exact Hr|done].
Qed.

(** A writable socket: its request is the only one touched, and its data is
    kept or gone. *)
Lemma send_at s i r0 socket :
  triple (at_ s i (eq r0))
    (outptr ← send_status socket i;
     match outptr with
     | None => mret MK_PLUGIN_RET_EVENT_OWNED
     | Some outptr =>
       outptr ← send_headers socket i outptr;
       match outptr with
       | None => mret MK_PLUGIN_RET_EVENT_OWNED
       | Some outptr => send_body socket i outptr;; mret MK_PLUGIN_RET_EVENT_OWNED
       end
     end) (fun _ => at_ s i (fun r => same r0 r /\ (in_len r = in_len r0 \/ in_len r = 0))).
Proof.
  eapply triple_bind; [apply send_status_at|]. intros [outptr|].
  2: { apply ret_at. intros r [Hr [Hl|Hl]]; [auto|done]. }
  eapply triple_bind; [eapply triple_pre; [intros st; apply at_weaken; by intros r [Hr _]|apply send_headers_at]|].
  intros [outptr'|].
  2: { apply ret_at. intros r [Hr Hl]. specialize (Hl eq_refl). auto. }
  eapply triple_bind; [eapply triple_pre; [intros st; apply at_weaken; by intros r [Hr _]|apply send_body_at]|].
  intros ?. apply ret_at. intros r [Hr Hl]. auto.
Qed.

Lemma at_ok s i r0 st : state_ok s -> cg_heap s !! i = Some r0 ->
  at_ s i (fun r => same r0 r /\ (in_len r = in_len r0 \/ in_len r = 0)) st -> state_ok st.
Proof.
  intros Hs Hi (r & -> & (H1 & H2 & _) & Hl). destruct (so_requests _ Hs _ _ Hi) as [O1 O2].
  apply (upd_ok s i r0); [done|done| |done]. split; [congruence|]. destruct Hl as [->| ->]; [done|lia].
Qed.

Lemma found_at s i r : cg_heap s !! i = Some r -> at_ s i (eq r) s.
Proof. intros H. exists r. now rewrite upd_id. Qed.

(** Reading the table and the list. *)
Lemma cgi_req_get_triple Pre socket : triple Pre (cgi_req_get socket) (fun o s => Pre s /\ by_socket s socket = Some o).
Proof.
  unfold cgi_req_get. eapply triple_bind; [apply triple_get|]. intros s0.
  intros s w a s' w' [H ->] E. apply liftP_inv in E as (-> & -> & E). done.
Qed.
Lemma get_cr_triple Pre i : triple Pre (get_cr i) (fun r s => Pre s /\ cg_heap s !! i = Some r).
Proof.
  unfold get_cr. eapply triple_bind; [apply triple_get|]. intros s0.
  intros s w a s' w' [H ->] E. apply liftP_inv in E as (-> & -> & E). done.
Qed.
Lemma by_fd_loop_triple Pre l fd : triple Pre (by_fd_loop l fd) (fun _ => Pre).
Proof.
  induction l as [|i l IH]; cbn [by_fd_loop]; [apply (triple_ret _ (fun _ => Pre))|].
  eapply triple_bind; [apply get_cr_triple|]. intros r. case_if; [|eapply triple_pre; [|exact IH]; tauto].
  eapply triple_pre; [|apply (triple_ret _ (fun _ => Pre))]. tauto.
Qed.
Lemma by_fd_triple Pre fd : triple Pre (cgi_req_get_by_fd fd) (fun _ => Pre).
Proof.
  unfold cgi_req_get_by_fd. eapply triple_bind; [apply triple_get|]. intros s0.
  eapply triple_pre; [|apply by_fd_loop_triple]. tauto.
Qed.

Lemma event_write_ok socket : triple state_ok (_mkp_event_write socket) (fun _ => state_ok).
Proof.
  unfold _mkp_event_write. eapply triple_bind; [apply cgi_req_get_triple|]. intros [i|].
  2: { eapply triple_pre; [|apply (triple_ret _ (fun _ => state_ok))]. tauto. }
  eapply triple_bind; [apply get_cr_triple|]. intros r.
  case_if; [eapply triple_pre; [|apply (triple_ret _ (fun _ => state_ok))]; tauto|].
  tcall. intros s w x s' w' [[Hs _] Hi] Hrun. eapply (at_ok s i r); [done|done|].
  eapply (send_at s i r); [now apply found_at|exact Hrun].
Qed.

(** The system gives no more than it was asked for. *)
Hypothesis reads_fit : forall t fd n d, sys_read t fd n = inl d -> Z.of_nat (length d) <= n.

Lemma event_read_ok fd : triple state_ok (_mkp_event_read fd) (fun _ => state_ok).
Proof.
  unfold _mkp_event_read. eapply triple_bind; [apply by_fd_triple|]. intros [i|]; [|apply (triple_ret _ (fun _ => state_ok))].
  eapply triple_bind; [apply get_cr_triple|]. intros r.
  apply (triple_pre _ (fun s => state_ok s /\ cg_heap s !! i = Some r)); [done|].
  destruct (u32 (PATHLEN - in_len r) <? 1) eqn:Ec; zbool.
  { do 2 (eapply triple_bind; [apply change_mode_triple|]; intros ?).
    eapply triple_pre; [|apply (triple_ret _ (fun _ => state_ok))]. tauto. }
  tcall. destruct (sys_read _ _ _) as [d|e] eqn:Ed; [|eapply triple_pre; [|apply (triple_ret _ (fun _ => state_ok))]; tauto].
  tcall. tlift. case_if; [eapply triple_pre; [|apply (triple_ret _ (fun _ => state_ok))]; tauto|]. zbool. apply reads_fit in Ed.
  eapply (triple_bind _ _ _ (fun _ => state_ok)).
  - apply triple_mod. intros s [Hs Hi]. destruct (so_requests _ Hs _ _ Hi) as [O1 O2].
    assert (Hc : u32 (PATHLEN - in_len r) = 1024 - in_len r) by (unfold PATHLEN; rewrite u32_small; lia). rewrite Hc in *.
    apply (upd_ok s i r); [done|done| |done].
    match goal with H : bwrite _ _ _ = Some _ |- _ => apply bwrite_length in H as Hb end.
    split; cbn; [congruence|rewrite u32_small; lia].
  - intros ?. eapply triple_bind; [apply change_mode_triple|]. intros ?. apply (triple_ret _ (fun _ => state_ok)).
Qed.

Lemma set_by_socket_triple Pre k v :
  triple Pre (set_by_socket k v) (fun _ s => exists s0 o, Pre s0 /\ by_socket s0 k = Some o /\
    s = s0 <| requests_by_socket := <[Z.to_nat k := v]> (requests_by_socket s0) |>).
Proof.
  unfold set_by_socket. eapply triple_bind; [apply cgi_req_get_triple|]. intros o. apply triple_mod.
  intros s [H Hk]. by exists s, o.
Qed.

Lemma end_output_ok i : triple state_ok (end_output i) (fun _ => state_ok).
Proof.
  unfold end_output. eapply triple_bind; [apply get_cr_triple|]. intros r.
  eapply triple_bind; [eapply triple_pre; [|apply event_write_ok]; tauto|]. intros ?. tcall.
  case_if; [tcall|]; apply (triple_ret _ (fun _ => state_ok)).
Qed.

Lemma hangup_ok fuel socket : triple state_ok (hangup fuel socket) (fun _ => state_ok).
Proof.
  revert socket; induction fuel as [|fuel IH]; intros socket; cbn [hangup].
  { intros s w a s' w' Hs E. by apply liftP_inv in E as (-> & -> & E). }
  eapply triple_bind; [apply by_fd_triple|]. intros [i|]; [|apply (triple_ret _ (fun _ => state_ok))].
  eapply triple_bind; [apply end_output_ok|]. intros ?.
  eapply triple_bind; [apply get_cr_triple|]. intros r0.
  eapply triple_bind; [eapply triple_pre; [|apply plugin_http_request_end_triple; exact IH]; tauto|]. intros ?.
  eapply triple_bind; [apply get_cr_triple|]. intros r. tcall.
  eapply triple_bind; [apply set_by_socket_triple|]. intros ?.
  eapply (triple_bind _ _ _ (fun _ => state_ok)); [|intros ?; apply (triple_ret _ (fun _ => state_ok))].
  eapply (triple_bind _ _ _ (fun _ => state_ok)); [|intros ?; apply (triple_ret _ (fun _ => state_ok))].
  apply triple_mod. intros s (s0 & o & [Hs Hi] & _ & ->). exact (leave_ok s0 i r Hs Hi).
Qed.

Lemma create_triple Pre fd socket cs sr :
  triple Pre (cgi_req_create fd socket cs sr) (fun i s => exists s0 r, Pre s0 /\ i = cg_next s0 /\ request_ok r /\ cr_socket r = socket /\
    s = s0 <| cg_heap := <[i := r]> (cg_heap s0) |> <| cg_next := S i |>).
Proof.
  intros s w i s' w' H. unfold cgi_req_create. intros [= <- <- <-]. eexists s, _. split; [exact H|]. split; [done|].
  split; [|split; [|reflexivity]]; [|done]. split; cbn; [done|lia].
Qed.

(** The parent enters the request in the table, where there was none. *)
Lemma cgi_parent_ok read_end write_end cs sr c r :
  triple (fun s => state_ok s /\ by_socket s (cs_socket c) = Some None) (cgi_parent read_end write_end cs sr c r) (fun _ => state_ok).
Proof.
  set (Pre := fun s => state_ok s /\ by_socket s (cs_socket c) = Some None).
  set (Mid := fun i s => exists s0 r0, Pre s0 /\ i = cg_next s0 /\ request_ok r0 /\ cr_socket r0 = cs_socket c /\
    s = s0 <| cg_heap := <[i := r0]> (cg_heap s0) |> <| cg_next := S i |>).
  unfold cgi_parent. apply (triple_bind _ _ _ (fun _ => Pre)); [case_if; apply triple_call|]. intros ?.
  apply (triple_bind _ _ _ Mid); [apply create_triple|]. intros i.
  apply (triple_bind _ _ _ (fun _ => Mid i)).
  { case_if; [|apply (triple_ret _ (fun _ => Mid i))]. tcall. unfold mod_cr. eapply triple_bind; [apply get_cr_triple|]. intros r1.
    apply triple_mod. intros s [(s0 & r0 & H1 & H2 & H3 & H4 & ->) Hi]. cbn in Hi. rewrite lookup_insert_eq in Hi. injection Hi as <-.
    exists s0, (r0 <| chunked := true |>). split_and!; [done|done|by destruct H3|done|]. cbn. f_equal. apply insert_insert_eq. }
  intros ?. unfold cgi_req_add. eapply (triple_bind _ _ _ (fun _ s => exists s0 r0, Pre s0 /\ i = cg_next s0 /\ request_ok r0 /\ cr_socket r0 = cs_socket c /\
    s = s0 <| cg_heap := <[i := r0]> (cg_heap s0) |> <| cg_next := S i |> <| cg_list := cg_list s0 ++ [i] |>)).
  { apply triple_mod. intros s (s0 & r0 & H1 & H2 & H3 & H4 & ->). exists s0, r0. done. }
  intros ?. tcall. eapply triple_bind; [apply set_by_socket_triple|]. intros ?. tcall.
  eapply triple_pre; [|apply (triple_ret _ (fun _ => state_ok))].
  intros s (s1 & o & (s0 & r0 & [H1 Hf] & -> & H3 & H4 & ->) & _ & ->). rewrite <- H4 in *.
  exact (enter_ok s0 r0 H1 H3 Hf).
Qed.

Lemma do_cgi_ok file url sr cs c vmatch :
  triple (fun s => state_ok s /\ by_socket s (cs_socket c) = Some None) (do_cgi file url sr cs c vmatch) (fun _ => state_ok).
Proof.
  set (Pre := fun s => state_ok s /\ by_socket s (cs_socket c) = Some None).
  assert (Hret : forall z : Z, triple Pre (mret z) (fun _ => state_ok)).
  { intros z. eapply triple_pre; [|apply (triple_ret _ (fun _ => state_ok))]. by intros s [H _]. }
  unfold do_cgi. tcall. tcall. tlift. tcall. case_match; [|apply Hret]. case_match. tcall. case_match; [|apply Hret]. case_match.
  tcall. case_if; [apply Hret|]. tcall. tcall. tcall. apply cgi_parent_ok.
Qed.

Lemma stage_30_ok conf cs sr : triple state_ok (Cgi._mkp_stage_30 conf cs sr) (fun _ => state_ok).
Proof.
  unfold Cgi._mkp_stage_30. tcall. case_if; [apply (triple_ret _ (fun _ => state_ok))|]. tlift. tlift.
  case_if; [apply (triple_ret _ (fun _ => state_ok))|]. tlift. case_match; [|apply (triple_ret _ (fun _ => state_ok))].
  tcall. eapply triple_bind; [apply cgi_req_get_triple|]. intros [i|].
  { eapply triple_pre; [|apply (triple_ret _ (fun _ => state_ok))]. tauto. }
  tlift. eapply triple_bind; [apply do_cgi_ok|]. intros status. tcall. case_if; [apply (triple_ret _ (fun _ => state_ok))|].
  tcall. apply (triple_ret _ (fun _ => state_ok)).
Qed.

(** ** What the workers can reach *)

(** The states of the plugin, whatever the server does to the worlds of the
    workers between the calls of the handlers. A handler of another worker may
    run after each. *)
Inductive cgi_reaches (conf : cgi_config) (limit others : nat) : cgi_state -> Prop :=
  | reaches_init : cgi_reaches conf limit others (cgi_init limit others)
  | reaches_resume s k : cgi_reaches conf limit others s -> cgi_reaches conf limit others (resume k s)
  | reaches_stage_30 s w cs sr ret s' w' :
      cgi_reaches conf limit others s -> Cgi._mkp_stage_30 conf cs sr s w = Some (ret, s', w') -> cgi_reaches conf limit others s'
  | reaches_read s w fd ret s' w' :
      cgi_reaches conf limit others s -> Cgi._mkp_event_read fd s w = Some (ret, s', w') -> cgi_reaches conf limit others s'
  | reaches_write s w socket ret s' w' :
      cgi_reaches conf limit others s -> Cgi._mkp_event_write socket s w = Some (ret, s', w') -> cgi_reaches conf limit others s'
  | reaches_close s w socket ret s' w' :
      cgi_reaches conf limit others s -> Cgi._mkp_event_close socket s w = Some (ret, s', w') -> cgi_reaches conf limit others s'
  | reaches_error s w socket ret s' w' :
      cgi_reaches conf limit others s -> Cgi._mkp_event_error socket s w = Some (ret, s', w') -> cgi_reaches conf limit others s'.

Lemma reaches_ok conf limit others s : cgi_reaches conf limit others s -> state_ok s.
Proof.
  induction 1 as [|s k _ IH|s w cs sr ret s' w' _ IH E|s w fd ret s' w' _ IH E|s w k ret s' w' _ IH E|s w k ret s' w' _ IH E|s w k ret s' w' _ IH E].
  - apply cgi_init_ok.
  - by apply resume_ok.
  - exact (stage_30_ok conf cs sr s w ret s' w' IH E).
  - exact (event_read_ok fd s w ret s' w' IH E).
  - exact (event_write_ok k s w ret s' w' IH E).
  - exact (hangup_ok 2 k s w ret s' w' IH E).
  - exact (hangup_ok 2 k s w ret s' w' IH E).
Qed.

(** *** Reading never leaves the buffer *)

Lemma change_mode_total (s : cgi_state) w socket mode :
  mode <> MK_EPOLL_WAKEUP -> 0 <= mode < 256 -> exists w', change_mode socket mode s w = Some (tt, s, w').
Proof.
  intros H1 H2. unfold change_mode, mk_plugin_event_socket_change_mode.
  destruct (change_mode_run w (sl_epoll_fd (w_sched w)) socket mode MK_EPOLL_LEVEL_TRIGGERED H1 H2) as (r & ev & Hrun).
  eexists. erewrite call_run; [reflexivity|]. erewrite bind_run by reflexivity. exact Hrun.
Qed.

Lemma by_fd_loop_total s w l fd :
  (forall i, i ∈ l -> is_Some (cg_heap s !! i)) ->
  exists o, by_fd_loop l fd s w = Some (o, s, w) /\ forall i, o = Some i -> exists r, cg_heap s !! i = Some r /\ cr_fd r = fd.
Proof.
  induction l as [|i l IH]; intros Hl; cbn [by_fd_loop]; [by exists None|].
  destruct (Hl i) as [r Hr]; [left|]. assert (Hg : get_cr i s w = Some (r, s, w)).
  { unfold get_cr, mbind, P_bind, getP, liftP. now rewrite Hr. }
  erewrite P_bind_run by exact Hg. destruct (cr_fd r =? fd) eqn:E; zbool.
  - exists (Some i). split; [done|]. intros j [= <-]. eauto.
  - apply IH. intros j Hj. apply Hl. now right.
Qed.

Lemma event_read_total s fd w : state_ok s -> exists ret s' w', Cgi._mkp_event_read fd s w = Some (ret, s', w').
Proof.
  intros Hs. unfold Cgi._mkp_event_read.
  destruct (by_fd_loop_total s w (cg_list s) fd) as (o & Ho & Hfd); [intros i Hi; apply Hs, elem_of_app; by left|].
  erewrite P_bind_run by (unfold cgi_req_get_by_fd; erewrite P_bind_run by reflexivity; exact Ho).
  destruct o as [i|]; [|eauto]. destruct (Hfd i eq_refl) as (r & Hr & _).
  assert (Hg : get_cr i s w = Some (r, s, w)) by (unfold get_cr, mbind, P_bind, getP, liftP; now rewrite Hr).
  erewrite P_bind_run by exact Hg. cbv zeta. destruct (so_requests _ Hs _ _ Hr) as [O1 O2].
  assert (Hc : u32 (PATHLEN - in_len r) = 1024 - in_len r) by (unfold PATHLEN; rewrite u32_small; lia). rewrite Hc.
  destruct (1024 - in_len r <? 1) eqn:E1.
  { destruct (change_mode_total s w (cr_fd r) MK_EPOLL_SLEEP) as [w1 H1]; [done|done|]. erewrite P_bind_run by exact H1.
    destruct (change_mode_total s w1 (cr_socket r) MK_EPOLL_WRITE) as [w2 H2]; [done|done|]. erewrite P_bind_run by exact H2. repeat eexists. }
  erewrite call_run by reflexivity. destruct (sys_read _ _ _) as [d|e] eqn:Ed; [|repeat eexists]. apply reads_fit in Ed.
  erewrite call_run by reflexivity. destruct (bwrite_ok (in_buf r) (in_len r) d) as (buf & Hb & _); [lia|lia|].
  erewrite liftP_run by exact Hb. case_if; [repeat eexists|]. erewrite P_bind_run by reflexivity.
  match goal with |- context [(change_mode _ _;; _) ?st ?w1] =>
    destruct (change_mode_total st w1 (cr_socket r) MK_EPOLL_WRITE) as [w2 H2]; [done|done|]; erewrite P_bind_run by exact H2 end.
  repeat eexists.
Qed.

(** C16: whatever requests come, programs write and clients do, and in whatever
    order the handlers of the workers run, each to its end before the next
    begins (the code takes no lock), the requests of the plugin stay well formed:
    the lists of the workers together, and the table of the sockets that they
    share, hold exactly the requests in memory, each once and under its own
    socket, and the length of every buffer is within its 1024 bytes. A read
    event of any worker then always returns: what is read fits. *)
Theorem cgi_reachable_ok conf limit others s :
  cgi_reaches conf limit others s ->
  state_ok s /\ forall fd w, exists ret s' w', Cgi._mkp_event_read fd s w = Some (ret, s', w') /\ state_ok s'.
Proof.
  intros H. apply reaches_ok in H as Hs. split; [done|]. intros fd w.
  destruct (event_read_total s fd w Hs) as (ret & s' & w' & E). exists ret, s', w'. split; [done|].
  exact (event_read_ok fd s w ret s' w' Hs E).
Qed.
End WithEnv.
