(* ===== verification/CgiOutput.v ===== *)
(** * plugins/cgi: the output of a program reaches its client

    The client of a program gets the header of the server, the headers of the
    program and its body, in chunks or as it is, however reading from the program
    and writing to the client interleave, as long as no write fails. *)
From stdpp Require Import gmap.
From S2P Require Import Prelude CString MkString MkMemory MkUtils MkTypes MkToc MkSession MkEpoll MkPlugin MkScheduler MkConfig MkResponse MkConnection.
From S2P Require Import MkSocket PluginState PluginOutput FcgiEnv Chunked Cgi CgiState.
Local Open Scope Z_scope.

Section WithEnv.
Context `{env : Env} `{peers : PeerNames} `{globals : CgiGlobals}.

(** read(2) gives no more than it was asked for; write(2) takes a byte at least,
    or fails, as on the socket of a client that reads slowly. *)
Hypothesis reads_fit : forall t fd n d, sys_read t fd n = inl d -> Z.of_nat (length d) <= n.
Hypothesis writes_fit : forall t fd d, d <> [] -> sys_write t fd d = -1 \/ 1 <= sys_write t fd d <= Z.of_nat (length d).

(** What passes if no write to the client fails. *)
Abbreviation passed := (passed false).

(** ** Writing *)

Lemma swrite_loop_run fuel fd d rest ret w :
  0 <= ret -> (length d < fuel)%nat ->
  exists r t, swrite_loop fuel fd (d ++ rest) (Z.of_nat (length d)) ret w = Some (r, logged w t) /\
    (unfailing fd t -> written fd t = d) /\ forall f, given f t = [].
Proof.
  revert d ret w; induction fuel as [|fuel IH]; intros d ret w Hret Hf; [lia|]. cbn [swrite_loop].
  replace (0 <=? ret) with true by zb. rewrite andb_true_r. destruct (0 <? Z.of_nat (length d)) eqn:E; zbool.
  2: { destruct d; [|cbn in E; lia]. exists 1, []. rewrite logged_nil. replace (ret <? 0) with false by zb. done. }
  assert (Hne : d <> []) by (intros ->; cbn in E; lia).
  erewrite lift_run by apply memread_all. erewrite bind_run by reflexivity. cbv zeta.
  pose proof (writes_fit (w_trace w) fd d Hne) as Hp. set (n := sys_write (w_trace w) fd d) in *. clearbody n.
  erewrite bind_run by reflexivity. destruct Hp as [-> |Hp].
  { change (-1 <? 0) with true. erewrite lift_run by reflexivity. destruct fuel as [|fuel]; [lia|]. cbn [swrite_loop].
    change (0 <=? -1) with false. rewrite andb_false_r. exists 0, [EvWrite fd []]. split; [reflexivity|]. split; [|done].
    intros H. destruct H. by left. }
  replace (n <? 0) with false by zb.
  assert (Hd : d = take (Z.to_nat n) d ++ drop (Z.to_nat n) d) by now rewrite take_drop.
  assert (Hpadd : padd (d ++ rest) n = Some (drop (Z.to_nat n) d ++ rest)).
  { rewrite padd_drop by (rewrite length_app; lia). rewrite drop_app_le by lia. done. }
  erewrite lift_run by exact Hpadd.
  replace (Z.of_nat (length d) - n) with (Z.of_nat (length (drop (Z.to_nat n) d))) by (rewrite length_drop; lia).
  match goal with |- context [swrite_loop _ _ _ _ _ ?w1] =>
    destruct (IH (drop (Z.to_nat n) d) n w1) as (r & t & Hrun & Hw & Hg); [lia|rewrite length_drop; lia|] end.
  exists r, (EvWrite fd (take (Z.to_nat n) d) :: t). rewrite Hrun. split; [|split].
  - f_equal. f_equal. unfold logged. cbn. now rewrite <- app_assoc.
  - change (EvWrite fd (take (Z.to_nat n) d) :: t) with ([EvWrite fd (take (Z.to_nat n) d)] ++ t).
    rewrite unfailing_app, written_app. intros [_ Hu]. rewrite (Hw Hu). cbn. rewrite Z.eqb_refl, app_nil_r. now rewrite take_drop.
  - intros f. apply Hg.
Qed.

(** Everything is written, unless a write fails. *)
Lemma swrite_run fd d rest w program :
  Z.of_nat (length d) < 2 ^ 63 ->
  exists r w', swrite fd (d ++ rest) (Z.of_nat (length d)) w = Some (r, w') /\ passed fd program w w' d [].
Proof.
  intros Hl. unfold swrite. rewrite i64_small by lia.
  destruct (swrite_loop_run (S (length (d ++ rest))) fd d rest 0 w) as (r & t & Hrun & Hw & Hg); [lia|rewrite length_app; lia|].
  rewrite Hrun. eexists _, _. split; [reflexivity|]. rewrite <- (Hg program). by apply passed_sure.
Qed.

Lemma change_mode_passed (s : cgi_state) w k mode socket fd :
  mode <> MK_EPOLL_WAKEUP -> 0 <= mode < 256 -> exists w', change_mode k mode s w = Some (tt, s, w') /\ passed socket fd w w' [] [].
Proof.
  intros H1 H2. unfold change_mode, mk_plugin_event_socket_change_mode.
  destruct (change_mode_run w (sl_epoll_fd (w_sched w)) k mode MK_EPOLL_LEVEL_TRIGGERED H1 H2) as (r & ev & Hrun).
  eexists. erewrite call_run; [split; [reflexivity|]|erewrite bind_run by reflexivity; exact Hrun].
  split. by exists [EvEpollCtl EPOLL_CTL_MOD (sl_epoll_fd (w_sched w)) k ev].
Qed.

(** ** A request that is served *)

(** The request [i] is found under its socket and under the descriptor of its
    program. *)
Record serves (s : cgi_state) (i : nat) (r : cgi_request) : Prop := {
  sv_heap : cg_heap s !! i = Some r;
  sv_table : by_socket s (cr_socket r) = Some (Some i);
  sv_list : exists l1 l2, cg_list s = l1 ++ i :: l2 /\
    forall j, j ∈ l1 -> j <> i /\ exists x, cg_heap s !! j = Some x /\ cr_fd x <> cr_fd r;
  sv_ok : request_ok r;
}.

Lemma serves_upd s i r r' :
  serves s i r -> cr_socket r' = cr_socket r -> cr_fd r' = cr_fd r -> request_ok r' -> serves (upd s i r') i r'.
Proof.
  intros [H1 H2 (l1 & l2 & Hl & Hj) H4] Hs Hf Hok. split.
  - apply upd_at.
  - rewrite Hs. exact H2.
  - exists l1, l2. split; [exact Hl|]. intros j Hin. destruct (Hj j Hin) as (Hne & x & Hx & Hfd). split; [done|].
    exists x. rewrite Hf. split; [|done]. cbn. now rewrite lookup_insert_ne.
  - done.
Qed.

Lemma get_cr_run s i r w : cg_heap s !! i = Some r -> get_cr i s w = Some (r, s, w).
Proof. intros H. unfold get_cr, mbind, P_bind, getP, liftP. now rewrite H. Qed.
Lemma serves_get s i r w : serves s i r -> get_cr i s w = Some (r, s, w).
Proof. intros []. now apply get_cr_run. Qed.
Lemma serves_by_socket s i r w : serves s i r -> cgi_req_get (cr_socket r) s w = Some (Some i, s, w).
Proof.
  intros [_ H _ _]. unfold cgi_req_get. erewrite P_bind_run by reflexivity. fold (by_socket s (cr_socket r)).
  unfold liftP. now rewrite H.
Qed.
Lemma serves_by_fd s i r w : serves s i r -> cgi_req_get_by_fd (cr_fd r) s w = Some (Some i, s, w).
Proof.
  intros [Hi _ (l1 & l2 & Hl & Hj) _]. unfold cgi_req_get_by_fd. erewrite P_bind_run by reflexivity. rewrite Hl. clear Hl.
  induction l1 as [|j l1 IH]; cbn [app by_fd_loop].
  - erewrite P_bind_run by (apply get_cr_run; exact Hi). now rewrite Z.eqb_refl.
  - destruct (Hj j) as (_ & x & Hx & Hne); [left|]. erewrite P_bind_run by (apply get_cr_run; exact Hx).
    replace (cr_fd x =? cr_fd r) with false by zb. apply IH. intros k Hk. apply Hj. now right.
Qed.

(** What was read and not sent. *)
Definition pending (r : cgi_request) : bytes := take (Z.to_nat (in_len r)) (in_buf r).
Lemma pending_buf r : request_ok r -> in_buf r = pending r ++ drop (Z.to_nat (in_len r)) (in_buf r) /\ Z.of_nat (length (pending r)) = in_len r.
Proof. intros [H1 H2]. unfold pending. rewrite take_drop, length_take. split; [done|lia]. Qed.

(** *** Sending a piece of the body *)

Lemma put_cr_run i r s w : put_cr i r s w = Some (tt, upd s i r, w).
Proof. reflexivity. Qed.

Lemma send_body_run s i r d rest w :
  serves s i r -> in_len r = Z.of_nat (length d) -> Z.of_nat (length d) <= 1024 ->
  exists w', send_body (cr_socket r) i (d ++ rest) s w = Some (tt, upd s i (r <| in_len := 0 |>), w') /\
    passed (cr_socket r) (cr_fd r) w w' (wire (chunked r) d) [].
Proof.
  intros Hs Hd Hl. unfold send_body. erewrite P_bind_run by (eapply serves_get; exact Hs).
  set (so := cr_socket r). set (fd := cr_fd r). rewrite Hd.
  assert (Hpre : exists w1, (if chunked r then
     let tmp := snprintf 16 (hex (Z.of_nat (length d)) ++ [13; 10]) in
     _ ← call (swrite so (tmp ++ [0]) (Z.of_nat (length (hex (Z.of_nat (length d)))) + 2)); mret tt
   else mret tt) s w = Some (tt, s, w1) /\
   passed so fd w w1 (if chunked r then hex (Z.of_nat (length d)) ++ [13; 10] else []) []).
  { destruct (chunked r); [|exists w; split; [done|apply passed_refl]].
    pose proof (hex_short 16 3 (Z.of_nat (length d)) ltac:(cbn; lia) ltac:(lia)) as Hh. fold (hex (Z.of_nat (length d))) in Hh.
    set (h := hex _) in *. clearbody h. cbv zeta. unfold snprintf. change (Z.to_nat (16 - 1)) with 15%nat.
    rewrite take_ge by (rewrite length_app; cbn [length]; lia).
    destruct (swrite_run so (h ++ [13; 10]) [0] w fd) as (? & w1 & Hrun & Hp); [rewrite length_app; cbn; lia|].
    exists w1. split; [|exact Hp]. rewrite length_app, Nat2Z.inj_add in Hrun. change (Z.of_nat (length [13; 10])) with 2 in Hrun.
    erewrite call_run by exact Hrun. reflexivity. }
  destruct Hpre as (w1 & H1 & P1). erewrite P_bind_run by exact H1.
  destruct (swrite_run so d rest w1 fd) as (? & w2 & H2 & P2); [lia|]. erewrite call_run by exact H2.
  erewrite P_bind_run by apply put_cr_run. set (s' := upd s i _).
  destruct (change_mode_passed s' w2 so MK_EPOLL_SLEEP so fd) as (w3 & H3 & P3); [done|done|]. erewrite P_bind_run by exact H3.
  destruct (change_mode_passed s' w3 fd MK_EPOLL_READ so fd) as (w4 & H4 & P4); [done|done|]. erewrite P_bind_run by exact H4.
  assert (Hpost : exists w5, (if chunked r then _ ← call (swrite so [13; 10; 0] 2); mret tt else mret tt) s' w4 = Some (tt, s', w5) /\
   passed so fd w4 w5 (if chunked r then [13; 10] else []) []).
  { destruct (chunked r); [|exists w4; split; [done|apply passed_refl]].
    destruct (swrite_run so [13; 10] [0] w4 fd) as (? & w5 & Hrun & Hp); [cbn; lia|].
    exists w5. split; [|exact Hp]. erewrite call_run by exact Hrun. reflexivity. }
  destruct Hpost as (w5 & H5 & P5). erewrite P_bind_run by exact H5.
  destruct (cork_passed false so fd TCP_CORK_OFF w5) as (w6 & H6 & P6). unfold call. rewrite H6. eexists. split; [reflexivity|].
  pose proof (passed_trans _ _ _ _ _ _ _ _ _ _ P1 P2) as P. apply (passed_silent _ _ _ _ _ _ _ _ P) in P3.
  apply (passed_silent _ _ _ _ _ _ _ _ P3) in P4. apply (passed_trans _ _ _ _ _ _ _ _ _ _ P4) in P5.
  apply (passed_silent _ _ _ _ _ _ _ _ P5) in P6. rewrite <- !app_assoc in P6. unfold wire, chunk.
  destruct (chunked r); cbn [app] in P6; [now rewrite <- app_assoc in P6|]. now rewrite app_nil_r in P6.
Qed.

(** *** Events *)

(** The headers were sent: the body is on its way. *)
Definition streaming (r : cgi_request) : Prop := status_done r = true /\ all_headers_done r = true.
(** Reading and sending leave the rest of a request alone. *)
Definition kin (r r' : cgi_request) : Prop :=
  cr_socket r' = cr_socket r /\ cr_fd r' = cr_fd r /\ chunked r' = chunked r /\
  status_done r' = status_done r /\ all_headers_done r' = all_headers_done r.

Lemma kin_streaming r r' : kin r r' -> streaming r -> streaming r'.
Proof. intros (_ & _ & _ & H1 & H2) [H3 H4]. split; congruence. Qed.

Lemma send_status_done s i r w k : serves s i r -> status_done r = true -> send_status k i s w = Some (Some (in_buf r), s, w).
Proof. intros Hs Hd. unfold send_status. erewrite P_bind_run by (eapply serves_get; exact Hs). cbv zeta. now rewrite Hd. Qed.
Lemma send_headers_done s i r w k p : serves s i r -> all_headers_done r = true -> send_headers k i p s w = Some (Some p, s, w).
Proof. intros Hs Hd. unfold send_headers. erewrite P_bind_run by (eapply serves_get; exact Hs). now rewrite Hd. Qed.

Lemma event_write_run s i r w :
  serves s i r -> streaming r ->
  exists ret r' w', _mkp_event_write (cr_socket r) s w = Some (ret, upd s i r', w') /\ serves (upd s i r') i r' /\ kin r r' /\
    passed (cr_socket r) (cr_fd r) w w' (wires (chunked r) (piece (pending r))) [] /\ pending r' = [].
Proof.
  intros Hs [Hst Hh]. unfold _mkp_event_write. erewrite P_bind_run by (eapply serves_by_socket; exact Hs). cbv iota.
  erewrite P_bind_run by (eapply serves_get; exact Hs). destruct (pending_buf r (sv_ok _ _ _ Hs)) as [Hb Hl].
  destruct (sv_ok _ _ _ Hs) as [O1 O2].
  destruct (0 <? in_len r) eqn:E; cbn [negb]; zbool.
  2: { assert (in_len r = 0) as H0 by lia. assert (pending r = []) as Hp by (unfold pending; now rewrite H0).
       rewrite Hp. exists MK_PLUGIN_RET_EVENT_OWNED, r, w. rewrite upd_id by apply Hs.
       split_and!; [done|done|done|apply passed_refl|done]. }
  destruct (cork_passed false (cr_socket r) (cr_fd r) TCP_CORK_ON w) as (w1 & H1 & P1). erewrite call_run by exact H1.
  erewrite P_bind_run by (eapply send_status_done; eassumption). cbv iota.
  erewrite P_bind_run by (eapply send_headers_done; eassumption). cbv iota.
  rewrite Hb. destruct (send_body_run s i r (pending r) (drop (Z.to_nat (in_len r)) (in_buf r)) w1 Hs) as (w2 & H2 & P2); [lia|lia|].
  erewrite P_bind_run by exact H2. eexists _, _, w2. split; [reflexivity|]. split; [|split; [|split; [|done]]].
  - apply (serves_upd s i r); [done|done|done|]. split; cbn; [done|lia].
  - by split_and!.
  - replace (wires (chunked r) (piece (pending r))) with (wire (chunked r) (pending r)).
    + exact (passed_trans _ _ _ _ _ _ _ _ _ _ P1 P2).
    + destruct (pending r) eqn:Ep; [cbn in Hl; lia|]. unfold wires, piece. cbn [map concat]. now rewrite app_nil_r.
Qed.

Lemma event_read_run s i r w :
  serves s i r ->
  exists ret r' w' d, _mkp_event_read (cr_fd r) s w = Some (ret, upd s i r', w') /\ serves (upd s i r') i r' /\ kin r r' /\
    passed (cr_socket r) (cr_fd r) w w' [] d /\ pending r' = pending r ++ d.
Proof.
  intros Hs. unfold _mkp_event_read. erewrite P_bind_run by (eapply serves_by_fd; exact Hs). cbv iota.
  erewrite P_bind_run by (eapply serves_get; exact Hs). cbv zeta. destruct (sv_ok _ _ _ Hs) as [O1 O2].
  assert (Hc : u32 (PATHLEN - in_len r) = 1024 - in_len r) by (unfold PATHLEN; rewrite u32_small; lia). rewrite Hc.
  assert (Hsame : forall w' ret, passed (cr_socket r) (cr_fd r) w w' [] [] -> exists ret' r' w'' d, Some (ret, s, w') = Some (ret' : Z, upd s i r', w'') /\
    serves (upd s i r') i r' /\ kin r r' /\ passed (cr_socket r) (cr_fd r) w w'' [] d /\ pending r' = pending r ++ d).
  { intros w' ret Hp. exists ret, r, w', []. rewrite upd_id, app_nil_r by apply Hs. by split_and!. }
  destruct (1024 - in_len r <? 1) eqn:E.
  { destruct (change_mode_passed s w (cr_fd r) MK_EPOLL_SLEEP (cr_socket r) (cr_fd r)) as (w1 & H1 & P1); [done|done|].
    erewrite P_bind_run by exact H1.
    destruct (change_mode_passed s w1 (cr_socket r) MK_EPOLL_WRITE (cr_socket r) (cr_fd r)) as (w2 & H2 & P2); [done|done|].
    erewrite P_bind_run by exact H2. apply Hsame. exact (passed_silent _ _ _ _ _ _ _ _ P1 P2). }
  zbool. erewrite call_run by reflexivity. destruct (sys_read _ _ _) as [d|e] eqn:Ed; [|apply Hsame, passed_refl]. apply reads_fit in Ed.
  erewrite call_run by reflexivity.
  destruct (bwrite_ok (in_buf r) (in_len r) d) as (buf & Hb & Hbl & Hbt & _); [lia|lia|]. erewrite liftP_run by exact Hb.
  set (w1 := w <| w_trace := w_trace w ++ [EvRead (cr_fd r) d] |>).
  assert (P1 : passed (cr_socket r) (cr_fd r) w w1 [] d).
  { pose proof (passed_logged false (cr_socket r) (cr_fd r) w [EvRead (cr_fd r) d]) as P. cbn in P. rewrite Z.eqb_refl, app_nil_r in P. exact P. }
  destruct (Z.of_nat (length d) <=? 0) eqn:E2; zbool.
  { assert (d = []) as -> by (destruct d; [done|cbn in E2; lia]). eapply Hsame. exact P1. }
  erewrite P_bind_run by apply put_cr_run. set (r' := r <| in_buf := buf |> <| in_len := _ |>).
  destruct (change_mode_passed (upd s i r') w1 (cr_socket r) MK_EPOLL_WRITE (cr_socket r) (cr_fd r)) as (w2 & H2 & P2); [done|done|].
  erewrite P_bind_run by exact H2. exists MK_PLUGIN_RET_EVENT_OWNED, r', w2, d. split; [reflexivity|]. split; [|split; [|split]].
  - apply (serves_upd s i r); [done|done|done|]. split; cbn; [lia|rewrite u32_small; lia].
  - by split_and!.
  - exact (passed_silent _ _ _ _ _ _ _ _ P1 P2).
  - unfold pending. cbn. rewrite u32_small by lia.
    specialize (Hbt (take (Z.to_nat (in_len r)) (in_buf r))). rewrite length_app, length_take in Hbt.
    replace (Z.to_nat (in_len r + Z.of_nat (length d))) with (Z.to_nat (in_len r) `min` length (in_buf r) + length d)%nat by lia.
    apply Hbt; [|lia]. f_equal. lia.
Qed.

(** What happens on the two descriptors of a request, in any order. *)
Inductive cgi_event := ProgramReadable | ClientWritable.

Definition run_event (fd socket : Z) (e : cgi_event) : C Z :=
  match e with ProgramReadable => _mkp_event_read fd | ClientWritable => _mkp_event_write socket end.
Fixpoint run_events (fd socket : Z) (es : list cgi_event) : C unit :=
  match es with [] => mret tt | e :: es => _ ← run_event fd socket e; run_events fd socket es end.

Lemma kin_trans r r1 r2 : kin r r1 -> kin r1 r2 -> kin r r2.
Proof. unfold kin. intuition congruence. Qed.

(** The body is sent in pieces that make up what was read. *)
Lemma run_events_run es s i r w :
  serves s i r -> streaming r ->
  exists r' w' ps d, run_events (cr_fd r) (cr_socket r) es s w = Some (tt, upd s i r', w') /\ serves (upd s i r') i r' /\ kin r r' /\
    passed (cr_socket r) (cr_fd r) w w' (wires (chunked r) ps) d /\ Forall small ps /\ pending r ++ d = concat ps ++ pending r'.
Proof.
  revert s r w; induction es as [|e es IH]; intros s r w Hs Hst; cbn [run_events].
  { exists r, w, [], []. rewrite upd_id, app_nil_r by apply Hs. split_and!; [done|done|by split_and!|apply passed_refl|apply Forall_nil_2|done]. }
  assert (Hev : exists ret r1 w1 ps d, run_event (cr_fd r) (cr_socket r) e s w = Some (ret, upd s i r1, w1) /\ serves (upd s i r1) i r1 /\ kin r r1 /\
    passed (cr_socket r) (cr_fd r) w w1 (wires (chunked r) ps) d /\ Forall small ps /\ pending r ++ d = concat ps ++ pending r1).
  { destruct e; cbn [run_event].
    - destruct (event_read_run s i r w Hs) as (ret & r1 & w1 & d & H1 & H2 & H3 & H4 & H5). exists ret, r1, w1, [], d.
      split_and!; [done|done|done|exact H4|apply Forall_nil_2|now rewrite H5].
    - destruct (event_write_run s i r w Hs Hst) as (ret & r1 & w1 & H1 & H2 & H3 & H4 & H5). exists ret, r1, w1, (piece (pending r)), [].
      rewrite piece_concat, H5. split_and!; [done|done|done|exact H4| |done].
      apply piece_small. destruct (pending_buf r (sv_ok _ _ _ Hs)), (sv_ok _ _ _ Hs). lia. }
  destruct Hev as (ret & r1 & w1 & ps & d & H1 & H2 & H3 & H4 & H5 & H6). erewrite P_bind_run by exact H1.
  pose proof H3 as (K1 & K2 & K3 & _). destruct (IH (upd s i r1) r1 w1 H2 (kin_streaming _ _ H3 Hst)) as (r2 & w2 & qs & d2 & E1 & E2 & E3 & E4 & E5 & E6).
  rewrite K1, K2, K3 in *. rewrite upd_upd in E1. exists r2, w2, (ps ++ qs), (d ++ d2). split_and!.
  - exact E1.
  - rewrite upd_upd in E2. exact E2.
  - exact (kin_trans _ _ _ H3 E3).
  - rewrite wires_app. exact (passed_trans _ _ _ _ _ _ _ _ _ _ H4 E4).
  - apply Forall_app. done.
  - rewrite app_assoc, H6, concat_app, <- !app_assoc. f_equal. exact E6.
Qed.

(** The end of a program: the rest of the body, and the last chunk. *)
Lemma end_output_run s i r w :
  serves s i r -> streaming r ->
  exists s' w', end_output i s w = Some (tt, s', w') /\
    passed (cr_socket r) (cr_fd r) w w' (wires (chunked r) (piece (pending r)) ++ if chunked r then last_chunk else []) [].
Proof.
  intros Hs Hst. unfold end_output. erewrite P_bind_run by (eapply serves_get; exact Hs).
  destruct (event_write_run s i r w Hs Hst) as (ret & r1 & w1 & H1 & _ & _ & P1 & _). erewrite P_bind_run by exact H1.
  destruct (event_del_passed false (cr_fd r) w1 (cr_socket r) (cr_fd r)) as (x & w2 & H2 & P2). erewrite call_run by exact H2.
  apply (passed_silent _ _ _ _ _ _ _ _ P1) in P2. destruct (chunked r).
  - destruct (swrite_run (cr_socket r) last_chunk [0] w2 (cr_fd r)) as (? & w3 & H3 & P3); [cbn; lia|].
    erewrite call_run by exact H3. eexists _, _. split; [reflexivity|]. exact (passed_trans _ _ _ _ _ _ _ _ _ _ P2 P3).
  - eexists _, _. split; [reflexivity|]. now rewrite app_nil_r.
Qed.

(** ** The headers of the program *)

Lemma headers_end_run hdrs rest :
  ends_headers hdrs -> headers_end (hdrs ++ empty_line ++ rest) = Some (Some (Z.of_nat (length hdrs) + 4)).
Proof. intros H. unfold headers_end. change [13; 10; 13; 10; 0] with (empty_line ++ [0]). now rewrite (ends_headers_rest hdrs rest H). Qed.

(** The first lines of the output of a program: a status line or none. *)
Definition status_text (st : option (Z * bytes)) : bytes :=
  match st with Some (status, tail) => lit "Status: " ++ dec status ++ tail ++ [10] | None => [] end.
Definition status_ok (st : option (Z * bytes)) (out : bytes) : Prop :=
  match st with
  | Some (status, tail) => 0 <= status < 2 ^ 31 /\ 10 ∉ tail /\ match tail with c :: _ => isdigit c = false | [] => True end
  | None => take 8 out <> lit "Status: " /\ take 4 out <> lit "HTTP"
  end.
Lemma starts_take p text : (length text <= length p)%nat -> starts p text = Some (bool_decide (take (length text) p = text)).
Proof. intros H. unfold starts. rewrite memread_take by lia. now rewrite Nat2Z.id. Qed.

Lemma status_line_some status tail rest n :
  0 <= status < 2 ^ 31 -> 10 ∉ tail -> match tail with c :: _ => isdigit c = false | [] => True end ->
  let line := status_text (Some (status, tail)) in
  Z.of_nat (length line) <= n <= Z.of_nat (length (line ++ rest)) ->
  status_line (line ++ rest) n = Some (Some (status, Some (Z.of_nat (length line)))).
Proof.
  intros Hst Ht Hd line Hn. set (text := dec status ++ tail).
  assert (Hline : line ++ rest = lit "Status: " ++ text ++ 10 :: rest) by (unfold line, text; cbn [status_text]; now rewrite <- !app_assoc).
  assert (Hlen : Z.of_nat (length line) = 8 + Z.of_nat (length text) + 1).
  { unfold line, text. cbn [status_text]. rewrite !length_app. change (length (lit "Status: ")) with 8%nat. cbn [length]. lia. }
  unfold status_line. rewrite Hline in *. rewrite length_app in Hn. change (length (lit "Status: ")) with 8%nat in Hn.
  rewrite (starts_take _ (lit "Status: ")) by (rewrite length_app; apply (Nat.le_add_r (length (lit "Status: ")))). mstep. rewrite (take_app_length (lit "Status: ")), bool_decide_eq_true_2 by reflexivity. cbv iota.
  assert (Hp : padd (lit "Status: " ++ text ++ 10 :: rest) 8 = Some (text ++ 10 :: rest)) by (apply padd_drop; rewrite length_app; change (length (lit "Status: ")) with 8%nat; lia).
  rewrite Hp. mstep.
  assert (Ha : atoi (text ++ 10 :: rest) = Some status).
  { unfold text. rewrite <- app_assoc, <- dec_itop by lia. destruct tail as [|c tail]; cbn [app].
    - apply itop_text_atoi; [lia|done].
    - apply itop_text_atoi; [lia|exact Hd]. }
  rewrite Ha. mstep. rewrite memchr_take by (cbn in Hn |- *; lia).
  assert (H10 : 10 ∉ text) by (unfold text; rewrite not_elem_of_app; split; [apply dec_no_newline; lia|done]).
  rewrite take_app_ge by lia. destruct (Z.to_nat (n - 8) - length text)%nat as [|k] eqn:Ek; [lia|]. cbn [take].
  rewrite first_index_at by done. mstep. cbn [option_map]. do 4 f_equal. lia.
Qed.

Lemma status_line_none out n :
  (8 <= length out)%nat -> status_ok None out -> status_line out n = Some None.
Proof.
  intros Hl [H1 H2]. unfold status_line. rewrite (starts_take _ (lit "Status: ")) by exact Hl. mstep.
  rewrite (bool_decide_eq_false_2 (_ = lit "Status: ")) by exact H1. cbv iota.
  rewrite (starts_take _ (lit "HTTP")) by (change (length (lit "HTTP")) with 4%nat; lia). mstep.
  rewrite bool_decide_eq_false_2 by exact H2. done.
Qed.

(** ** The first event of the client *)

(** The header is written by one call. *)
Hypothesis no_safe_event : c_safe_event_write config = MK_FALSE.

Lemma send_status_run s i r w st rest n c q status signature now :
  serves s i r -> status_done r = false -> status_ok st (in_buf r) -> in_buf r = status_text st ++ rest ->
  in_len r = Z.of_nat (length (status_text st)) + n -> 0 <= n -> 8 <= in_len r ->
  at_sr w (cr_cs r) (cr_sr r) c q -> cgi_headers (with_status st q) ->
  sections_ready w (told c (cr_sr r) (with_status st q)) (with_status st q) status signature now ->
  exists w', send_status (cr_socket r) i s w = Some (Some rest, upd s i (r <| in_len := n |> <| status_done := true |>), w') /\
    passed (cr_socket r) (cr_fd r) w w'
      (header_taken w (cr_socket r) (sections_text status signature now (told c (cr_sr r) (with_status st q)) (with_status st q))) [].
Proof.
  intros Hs Hd Hst Hbuf Hlen Hn H8 Hat Hcgi Hready. destruct (sv_ok _ _ _ Hs) as [O1 O2].
  unfold send_status. erewrite P_bind_run by (eapply serves_get; exact Hs). cbv zeta. rewrite Hd.
  replace (8 <=? in_len r) with true by zb. cbn [negb andb].
  destruct st as [[code tail]|]; cbn [with_status] in *.
  - destruct Hst as (S1 & S2 & S3). rewrite Hbuf.
    pose proof (status_line_some code tail rest (in_len r) S1 S2 S3) as Hline. cbv zeta in Hline.
    rewrite Hline by (rewrite <- Hbuf, O1; lia). erewrite liftP_run by reflexivity. cbv iota beta.
    destruct (mod_sr_run (cr_cs r) (cr_sr r) (set_headers (fun sh => sh <| sh_status := code |>)) w c q Hat) as [Hm Hat1].
    set (q1 := set_headers _ q) in *. erewrite call_run by exact Hm. fold (told c (cr_sr r) q1) in *. set (w1 := w <| w_sessions := _ |>) in *.
    assert (Hp : padd (status_text (Some (code, tail)) ++ rest) (Z.of_nat (length (status_text (Some (code, tail))))) = Some rest).
    { rewrite padd_drop by (rewrite length_app; lia). now rewrite Nat2Z.id, drop_app_length. }
    erewrite liftP_run by exact Hp. erewrite P_bind_run by apply put_cr_run.
    replace (u32 (in_len r - _)) with n by (rewrite u32_small; lia).
    destruct (header_passed no_safe_event false (cr_socket r) (cr_fd r) (cr_cs r) (cr_sr r) w1 _ q1 status signature now Hat1) as (w2 & H2 & P2).
    { now apply (sections_ready_world w). } { done. }
    erewrite call_run by exact H2. unfold mod_cr.
    erewrite P_bind_run by (erewrite P_bind_run by (apply get_cr_run, upd_at); apply put_cr_run). rewrite upd_upd.
    exists w2. split; [reflexivity|]. destruct P2 as [P2]. split. exact P2.
  - cbn [status_text app length] in *. rewrite (status_line_none (in_buf r) (in_len r)) by (done || lia).
    erewrite liftP_run by reflexivity. cbv iota beta. rewrite told_id in * by apply Hat.
    destruct (header_passed no_safe_event false (cr_socket r) (cr_fd r) (cr_cs r) (cr_sr r) w c q status signature now Hat Hready Hcgi) as (w2 & H2 & P2).
    erewrite call_run by exact H2. unfold mod_cr.
    erewrite P_bind_run by (erewrite P_bind_run by (eapply serves_get; exact Hs); apply put_cr_run).
    exists w2. rewrite Hbuf. split; [|exact P2]. replace (r <| in_len := n |>) with r; [reflexivity|].
    destruct r; cbn in *. f_equal. lia.
Qed.

Lemma first_write_run s i r w st hdrs body c q status signature now :
  serves s i r -> status_done r = false -> all_headers_done r = false ->
  pending r = status_text st ++ hdrs ++ empty_line ++ body -> status_ok st (pending r) -> 8 <= in_len r -> ends_headers hdrs ->
  at_sr w (cr_cs r) (cr_sr r) c q -> cgi_headers (with_status st q) ->
  sections_ready w (told c (cr_sr r) (with_status st q)) (with_status st q) status signature now ->
  exists ret w', let r' := r <| in_len := 0 |> <| status_done := true |> <| all_headers_done := true |> in
    _mkp_event_write (cr_socket r) s w = Some (ret, upd s i r', w') /\ serves (upd s i r') i r' /\
    passed (cr_socket r) (cr_fd r) w w'
      (header_taken (logged w [EvCork (cr_socket r) TCP_CORK_ON]) (cr_socket r)
         (sections_text status signature now (told c (cr_sr r) (with_status st q)) (with_status st q)) ++
       hdrs ++ empty_line ++ wires (chunked r) (piece body)) [].
Proof.
  intros Hs Hsd Hhd Hp Hst H8 Hends Hat Hcgi Hready. destruct (sv_ok _ _ _ Hs) as [O1 O2].
  destruct (pending_buf r (sv_ok _ _ _ Hs)) as [Hb Hl]. set (junk := drop _ _) in Hb.
  set (r' := r <| in_len := 0 |> <| status_done := true |> <| all_headers_done := true |>).
  assert (Hs' : serves (upd s i r') i r') by (apply (serves_upd s i r); [done|done|done|]; split; cbn; [done|lia]).
  unfold _mkp_event_write. erewrite P_bind_run by (eapply serves_by_socket; exact Hs). cbv iota.
  erewrite P_bind_run by (eapply serves_get; exact Hs). replace (0 <? in_len r) with true by zb. cbn [negb].
  destruct (cork_passed false (cr_socket r) (cr_fd r) TCP_CORK_ON w) as (w1 & H1 & P1). erewrite call_run by exact H1.
  rewrite Hp in Hb. rewrite <- !app_assoc in Hb. injection H1 as <-.
  assert (Hlens : in_len r = Z.of_nat (length (status_text st)) + (Z.of_nat (length hdrs) + 4 + Z.of_nat (length body))).
  { rewrite <- Hl, Hp, !length_app. cbn [length empty_line]. lia. }
  assert (Hst' : status_ok st (in_buf r)).
  { destruct st as [[code tail]|]; [exact Hst|]. destruct Hst as [A B]. unfold pending in A, B. rewrite !take_take in A, B.
    rewrite !Nat.min_l in A, B by lia. done. }
  match goal with |- context [(send_status _ _ ≫= _) s ?w0] =>
    destruct (send_status_run s i r w0 st (hdrs ++ empty_line ++ body ++ junk) (Z.of_nat (length hdrs) + 4 + Z.of_nat (length body)) c q status signature now
      Hs Hsd Hst' Hb Hlens ltac:(lia) H8) as (w2 & H2 & P2) end.
  { destruct Hat. by split. } { done. } { now apply (sections_ready_world w). }
  erewrite P_bind_run by exact H2. cbv iota. set (r1 := r <| in_len := Z.of_nat (length hdrs) + 4 + Z.of_nat (length body) |> <| status_done := true |>) in *.
  assert (Hs1 : serves (upd s i r1) i r1) by (apply (serves_upd s i r); [done|done|done|]; split; cbn; [done|lia]).
  pose proof (passed_trans _ _ _ _ _ _ _ _ _ _ P1 P2) as P.
  assert (Hh : exists w3, send_headers (cr_socket r) i (hdrs ++ empty_line ++ body ++ junk) (upd s i r1) w2 =
      Some (match body with [] => None | _ => Some (body ++ junk) end, upd s i (r1 <| in_len := Z.of_nat (length body) |> <| all_headers_done := true |>), w3) /\
      passed (cr_socket r) (cr_fd r) w2 w3 (hdrs ++ empty_line) []).
  { unfold send_headers. erewrite P_bind_run by (eapply serves_get; exact Hs1).
    change (all_headers_done r1) with (all_headers_done r). rewrite Hhd. erewrite liftP_run by (apply headers_end_run; exact Hends). cbv iota.
    replace (Z.of_nat (length hdrs) + 4) with (Z.of_nat (length (hdrs ++ empty_line))) by (rewrite length_app; cbn [length empty_line]; lia).
    rewrite (app_assoc hdrs). destruct (swrite_run (cr_socket r) (hdrs ++ empty_line) (body ++ junk) w2 (cr_fd r)) as (? & w3 & H3 & P3);
      [rewrite length_app; cbn [length empty_line]; lia|].
    erewrite call_run by exact H3.
    assert (Hpad : padd ((hdrs ++ empty_line) ++ body ++ junk) (Z.of_nat (length (hdrs ++ empty_line))) = Some (body ++ junk)).
    { rewrite padd_drop by (rewrite !length_app; lia). now rewrite Nat2Z.id, drop_app_length. }
    erewrite liftP_run by exact Hpad.
    replace (u32 (in_len r1 - _)) with (Z.of_nat (length body)).
    2: { change (in_len r1) with (Z.of_nat (length hdrs) + 4 + Z.of_nat (length body)). rewrite length_app.
         change (length empty_line) with 4%nat. rewrite u32_small; lia. }
    erewrite P_bind_run by apply put_cr_run. rewrite upd_upd. cbn [in_len set_field]. destruct body as [|b body].
    - cbn [length]. change (Z.of_nat 0 =? 0) with true. cbv iota.
      destruct (change_mode_passed (upd s i (r1 <| in_len := Z.of_nat 0 |> <| all_headers_done := true |>)) w3 (cr_socket r) MK_EPOLL_SLEEP (cr_socket r) (cr_fd r)) as (w4 & H4 & P4); [done|done|].
      erewrite P_bind_run by exact H4. exists w4. split; [reflexivity|]. exact (passed_silent _ _ _ _ _ _ _ _ P3 P4).
    - replace (Z.of_nat (length (b :: body)) =? 0) with false by (cbn [length]; zb). exists w3. split; [reflexivity|exact P3]. }
  destruct Hh as (w3 & H3 & P3). erewrite P_bind_run by exact H3. apply (passed_trans _ _ _ _ _ _ _ _ _ _ P) in P3. cbn [app] in P3.
  destruct body as [|b body].
  - cbv iota. eexists _, w3. split; [reflexivity|]. split; [exact Hs'|]. cbn [wires piece map concat]. now rewrite app_nil_r.
  - cbv iota. set (r2 := r1 <| in_len := _ |> <| all_headers_done := true |>) in *.
    assert (Hs2 : serves (upd s i r2) i r2) by (apply (serves_upd s i r); [done|done|done|]; split; cbn [in_buf in_len set_field r2 r1]; [done|cbn [length] in *; lia]).
    destruct (send_body_run (upd s i r2) i r2 (b :: body) junk w3 Hs2) as (w4 & H4 & P4); [reflexivity|cbn [length] in *; lia|].
    change (cr_socket r2) with (cr_socket r) in *. change (cr_fd r2) with (cr_fd r) in *. change (chunked r2) with (chunked r) in *.
    erewrite P_bind_run by exact H4. rewrite upd_upd. eexists _, w4. split; [reflexivity|]. split; [exact Hs'|].
    apply (passed_trans _ _ _ _ _ _ _ _ _ _ P3) in P4. rewrite <- !app_assoc in P4. cbn [wires piece map concat]. rewrite app_nil_r. exact P4.
Qed.

End WithEnv.

(** ** Examples *)

(** The network takes three bytes at a time; the program wrote what it is given
    for the number of reads made before. *)
Definition cgi_globals_of (output : list bytes) : CgiGlobals :=
  {| cgi_plugin := 0; cgi_regcomp := fun _ => true; cgi_regexec := fun re url => list_infixb re url;
     sys_pipe := fun t => Some (20 + 2 * Z.of_nat (length t), 21 + 2 * Z.of_nat (length t)); sys_vfork := fun _ => true; sys_dup2 := fun _ _ _ => true;
     sys_chdir := fun _ _ => true;
     sys_write := fun _ _ d => Z.min 3 (Z.of_nat (length d));
     sys_read := fun t _ n =>
       let k := length (List.filter (fun e => match e with EvRead _ _ => true | _ => false end) t) in
       if n <? 0 then inr (-1) else inl (take (Z.to_nat n) (nth k output [])) |}.

Lemma globals_read output t fd n d : @sys_read (cgi_globals_of output) t fd n = inl d -> Z.of_nat (length d) <= n.
Proof. cbn. case_if; [done|]. zbool. intros [= <-]. rewrite length_take. lia. Qed.
Lemma globals_write output t fd d : d <> [] ->
  @sys_write (cgi_globals_of output) t fd d = -1 \/ 1 <= @sys_write (cgi_globals_of output) t fd d <= Z.of_nat (length d).
Proof. intros H. right. destruct d; [done|]. cbn [sys_write cgi_globals_of length]. lia. Qed.

Definition program_text : bytes :=
  lit "Status: 404 Not Found" ++ crlf ++ lit "Content-type: text/plain" ++ crlf ++ crlf ++ lit "hello".

Definition cgi_request_of (out : bytes) : cgi_request :=
  {| in_buf := out ++ replicate (1024 - length out) 0; cr_sr := 0; cr_cs := 1; in_len := Z.of_nat (length out); cr_fd := 20; cr_socket := 5;
     status_done := false; all_headers_done := false; chunked := true |}.
Definition cgi_state_of (r : cgi_request) : cgi_state :=
  {| cg_heap := {[0%nat := r]}; cg_next := 1; cg_list := [0%nat]; cg_others := []; requests_by_socket := [None; None; None; None; None; Some 0%nat] |}.

Lemma serves_example out : (length out <= 1024)%nat -> serves (cgi_state_of (cgi_request_of out)) 0 (cgi_request_of out).
Proof.
  intros H. split; [apply lookup_singleton_eq|done| |].
  - exists [], []. split; [done|]. intros j Hj. by apply elem_of_nil in Hj.
  - split; cbn; [rewrite length_app, length_replicate; lia|lia].
Qed.

(** A request whose program is running. *)
Definition running_request : session_request :=
  set_headers (fun sh => sh <| sh_status := 200 |> <| sh_cgi := 1 |> <| sh_transfer_encoding := MK_HEADER_TE_TYPE_CHUNKED |>) (get_request "/a.cgi").

Lemma running_ready st :
  with_status st running_request = with_status (Some (404, [])) running_request ->
  @sections_ready example_env (request_world running_request) (told (request_session running_request) 0 (with_status st running_request))
    (with_status st running_request) (lit "HTTP/1.1 404 Not Found" ++ [13; 10]) (lit "Server: Monkey") (lit "now").
Proof.
  intros ->. split; [apply header_world_example | | | | intros H; vm_compute in H; discriminate].
  - split; [split; cbn; lia | split; cbn; lia | done | cbn; lia | cbn; lia].
  - eexists. split; [reflexivity|]. now apply (reads_lit (lit "HTTP/1.1 404 Not Found" ++ [13; 10])).
  - eexists. split; [reflexivity|]. apply (reads_lit (lit "Server: Monkey")). cbn. lia.
Qed.


(** What is sent to the client of a program that writes the pieces. *)
Definition sent_by (g : CgiGlobals) (es : list cgi_event) : option bytes :=
  match (@run_events example_env g 20 5 es;; @end_output example_env g 0) (cgi_state_of (cgi_request_of [])) (request_world running_request) with
  | Some (_, _, w) => Some (written 5 (w_trace w))
  | None => None
  end.
Definition sent_of (pieces : list bytes) : list cgi_event -> option bytes := sent_by (cgi_globals_of pieces).
Definition header_200 : bytes :=
  lit "HTTP/1.1 200 OK" ++ crlf ++ lit "Server: Monkey" ++ crlf ++ lit "Date: nowConnection: Close" ++ crlf ++
  lit "Transfer-Encoding: Chunked" ++ crlf.
Definition twice : list cgi_event := [ProgramReadable; ClientWritable; ProgramReadable; ClientWritable].

(** All of it is sent three bytes at a time. *)
Example output_whole :
  sent_of [lit "Content-type: text/plain" ++ empty_line ++ lit "hello"; lit " world"] twice =
  Some (header_200 ++ lit "Content-type: text/plain" ++ empty_line ++ chunk (lit "hello") ++ chunk (lit " world") ++ last_chunk).
Proof. vm_compute. reflexivity. Qed.

(** The socket of a client that reads slowly: after [room] bytes write(2) fails,
    until the client has read again after [later] calls. *)
Definition slow_globals (room later : nat) (output : list bytes) : CgiGlobals :=
  {| cgi_plugin := 0; cgi_regcomp := fun _ => true; cgi_regexec := fun re url => list_infixb re url;
     sys_pipe := fun _ => None; sys_vfork := fun _ => true; sys_dup2 := fun _ _ _ => true; sys_chdir := fun _ _ => true;
     sys_write := fun t fd d =>
       if (length (List.filter (fun e => match e with EvWrite _ _ => true | _ => false end) t) <? later)%nat
       then (let n := Z.of_nat room - Z.of_nat (length (written fd t)) in if n <=? 0 then -1 else Z.min n (Z.of_nat (length d)))
       else Z.of_nat (length d);
     sys_read := @sys_read (cgi_globals_of output) |}.

(** The rest of a piece is lost, and the framing with it. *)
Example slow_client :
  sent_by (slow_globals (length header_200 + 33) 6 [lit "Content-type: text/plain" ++ empty_line ++ lit "hello"; lit " world"]) twice =
  Some (header_200 ++ lit "Content-type: text/plain" ++ empty_line ++ lit "5" ++ crlf ++ lit "he" ++ chunk (lit " world") ++ last_chunk).
Proof. vm_compute. reflexivity. Qed.

(** When the empty line is cut by two reads, the body is sent without chunks. *)
Example headers_cut :
  sent_of [lit "Content-type: text/plain" ++ [10]; [10] ++ lit "body"] twice =
  Some (header_200 ++ lit "Content-type: text/plain" ++ [10; 10] ++ lit "body" ++ last_chunk).
Proof. vm_compute. reflexivity. Qed.

(** Less than eight bytes are sent before the header of the server. *)
Example header_late :
  sent_of [lit "A: b" ++ [10]; lit "C: d" ++ [10; 10] ++ lit "body"] twice =
  Some (lit "A: b" ++ [10] ++ header_200 ++ lit "C: d" ++ [10; 10] ++ chunk (lit "body") ++ last_chunk).
Proof. vm_compute. reflexivity. Qed.

(** The search for the empty line goes on in what is left of an earlier read:
    more is taken off than there is, and the buffer is overrun. *)
Example stale_empty_line : sent_of [lit "Content-type: text/plain" ++ [10; 65]; lit "X-Header: 1234567890abc" ++ [10]] twice = None.
Proof. vm_compute. reflexivity. Qed.

(** The request of a client that closes its connection stays: its program will
    write to whoever gets the socket next. *)
Lemma client_close_keeps_request `{env : Env} `{globals : CgiGlobals} s w socket :
  (forall i, i ∈ cg_list s -> exists r, cg_heap s !! i = Some r /\ cr_fd r <> socket) ->
  _mkp_event_close socket s w = Some (MK_PLUGIN_RET_EVENT_CONTINUE, s, w).
Proof.
  intros H. unfold _mkp_event_close. cbn [hangup].
  assert (Hf : cgi_req_get_by_fd socket s w = Some (None, s, w)).
  { unfold cgi_req_get_by_fd. erewrite P_bind_run by reflexivity. revert H. generalize (cg_list s). intros l.
    induction l as [|i l IH]; intros H; cbn [by_fd_loop]; [done|]. destruct (H i) as (r & Hr & Hne); [left|].
    erewrite P_bind_run by (apply get_cr_run; exact Hr). replace (cr_fd r =? socket) with false by zb.
    apply IH. intros j Hj. apply H. now right. }
  erewrite P_bind_run by exact Hf. done.
Qed.
