(* ===== verification/CgiStart.v ===== *)
(** * plugins/cgi: which requests are given to a program, and how it is started *)
From stdpp Require Import gmap.
From S2P Require Import Prelude CString MkString MkMemory MkUtils MkTypes MkToc MkSession MkEpoll MkPlugin MkScheduler MkConfig MkResponse MkConnection.
From S2P Require Import MkSocket PluginState PluginOutput FcgiEnv Chunked Cgi CgiState CgiOutput.
Local Open Scope Z_scope.

(** ** The environment of the program *)

(** What a request tells its program. [ev_type] is the text from the type on to
    the end of the buffer of the session. *)
Record cgi_vars := {
  ev_method : bytes; ev_server : bytes; ev_host : bytes; ev_protocol : bytes; ev_url : bytes; ev_query : option bytes;
  ev_file : bytes; ev_addr : bytes; ev_port : Z; ev_length : Z; ev_type : option bytes;
}.

(** A variable, cut to what its buffer holds. *)
Definition cut (size : nat) (name : string) (text : bytes) : bytes := take (size - 1) (lit name ++ text).

Definition vars_text (v : cgi_vars) : list bytes :=
  [ lit "PATH_INFO="; lit "GATEWAY_INTERFACE=CGI/1.1"; lit "REDIRECT_STATUS=200";
    cut 36 "REQUEST_METHOD=" (ev_method v); cut 36 "SERVER_SOFTWARE=" (ev_server v); cut 36 "HTTP_HOST=" (ev_host v);
    cut 36 "SERVER_PROTOCOL=" (ev_protocol v);
    cut 1024 "REQUEST_URI=" (match ev_query v with Some q => ev_url v ++ lit "?" ++ q | None => ev_url v end);
    cut 1024 "SCRIPT_FILENAME=" (ev_file v); cut 1024 "SCRIPT_NAME=" (ev_url v) ] ++
  match ev_query v with Some q => [cut 1024 "QUERY_STRING=" q] | None => [] end ++
  [ cut 82 "REMOTE_ADDR=" (ev_addr v); cut 36 "REMOTE_PORT=" (dec (ev_port v)) ] ++
  (if ev_length v =? 0 then [] else [cut 36 "CONTENT_LENGTH=" (dec (ev_length v))]) ++
  match ev_type v with Some t => [cut 36 "CONTENT_TYPE=" t] | None => [] end.

(** A pointer designates the text. *)
Definition spans (p : mk_pointer) (s : bytes) : Prop :=
  exists d, data p = Some d /\ len p = Z.of_nat (length s) /\ take (length s) d = s /\ 0 ∉ s.

Section WithEnv.
Context `{env : Env} `{peers : PeerNames} `{globals : CgiGlobals}.

(** The request says what the variables say. *)
Record says (q : session_request) (v : cgi_vars) : Prop := {
  say_method : exists p, data (sr_method_p q) = Some p /\ is_cstr p (ev_method v);
  say_server : exists h, request_vhost q = Some h /\ is_cstr (h_host_signature h) (ev_server v);
  say_host : (spans (sr_host q) (ev_host v) /\ Z.of_nat (length (ev_host v)) < 2 ^ 31) \/ (data (sr_host q) = None /\ ev_host v = []);
  say_protocol : ev_protocol v = if sr_protocol q =? HTTP_PROTOCOL_11 then lit "HTTP/1.1" else lit "HTTP/1.0";
  say_query : match ev_query v with Some t => t <> [] /\ spans (sr_query_string q) t | None => len (sr_query_string q) = 0 end;
  say_port : ev_port v = sr_port q;
  say_length : ev_length v = len (sr_data q);
  say_type : match ev_type v with
             | Some t => len (sr_content_type q) <> 0 /\ exists p, data (sr_content_type q) = Some p /\ is_cstr p t
             | None => len (sr_content_type q) = 0 end;
}.

Lemma spans_view p s : spans p s -> view p = Some s.
Proof.
  intros (d & Hd & Hl & Ht & _). unfold view. rewrite Hd, Hl. mstep. apply memread_Some. rewrite Nat2Z.id.
  split; [|done]. apply (f_equal length) in Ht. rewrite length_take in Ht. lia.
Qed.

Lemma prec_text_take n p s : take n p = s -> (length s = n)%nat -> 0 ∉ s -> prec_text n p = Some s.
Proof.
  revert p s; induction n as [|n IH]; intros p s Ht Hl H0; cbn [prec_text]; [by destruct s|].
  destruct p as [|c p]; [cbn in Ht; subst s; done|]. cbn [take] in Ht. subst s. apply not_elem_of_cons in H0 as [Hc H0].
  replace (c =? 0) with false by zb. rewrite (IH p (take n p)); [done|done|cbn in Hl; lia|done].
Qed.

Lemma spans_prec p s : spans p s -> Z.of_nat (length s) < 2 ^ 31 -> pointer_prec p = Some s.
Proof.
  intros (d & Hd & Hl & Ht & H0) Hs. unfold pointer_prec. rewrite Hd, Hl, i32_small by lia.
  replace (Z.of_nat (length s) <? 0) with false by zb. rewrite Nat2Z.id. now apply prec_text_take.
Qed.

Lemma cgi_env_run q v : says q v -> cgi_env (ev_file v) (ev_url v) (ev_addr v) q = Some (vars_text v).
Proof.
  intros [(pm & Hm & Cm) (h & Hh & Ch) Hhost Hproto Hquery Hport Hlen Htype]. unfold cgi_env, vars_text.
  rewrite Hm. mstep. rewrite (cstr_cstr _ _ Cm). mstep. rewrite Hh. mstep. rewrite (cstr_cstr _ _ Ch). mstep.
  assert (Hprec : pointer_prec (sr_host q) = Some (ev_host v)).
  { destruct Hhost as [[Hs Hl]|[Hd He]]; [by apply spans_prec|]. unfold pointer_prec. now rewrite Hd, He. }
  rewrite Hprec. mstep.
  assert (Hq : cgi_query q = Some (ev_query v)).
  { unfold cgi_query. destruct (ev_query v) as [t|]; [|now rewrite Hquery].
    destruct Hquery as [Hne Hsp]. pose proof (spans_view _ _ Hsp) as Hv. destruct Hsp as (d & Hd & Hl & Ht & H0).
    rewrite Hl. assert (length t <> 0)%nat by (by destruct t). replace (Z.of_nat (length t) =? 0) with false by zb.
    rewrite Hv. mstep. rewrite (cstr_cstr _ t) by (split; [by exists []|done]). done. }
  rewrite Hq. mstep.
  assert (Ht : (if len (sr_content_type q) =? 0 then Some None else p ← data (sr_content_type q); t ← cstr p; Some (Some t)) = Some (ev_type v)).
  { destruct (ev_type v) as [t|]; [|now rewrite Htype]. destruct Htype as (Hne & p & Hp & Cp).
    replace (len (sr_content_type q) =? 0) with false by zb. rewrite Hp. mstep. now rewrite (cstr_cstr _ _ Cp). }
  rewrite Ht. mstep. rewrite Hproto, Hport, Hlen. reflexivity.
Qed.

(** *** The child and the parent *)

Lemma cgi_child_run r wr file rule bin text vars w :
  (forall t a b, sys_dup2 t a b = true) -> (forall t d, sys_chdir t d = true) -> vm_bin rule = Some (Some bin) -> is_cstr bin text ->
  cgi_child r wr file (Some rule) vars w = Some (tt, logged w [EvExec (dirname file) text [basename text; file] vars]).
Proof.
  intros Hd Hc Hb Ht. unfold cgi_child. erewrite bind_run by reflexivity. rewrite !Hd. cbn [negb]. cbv zeta. rewrite Hc. cbn [negb].
  erewrite lift_run by reflexivity. erewrite lift_run by exact Hb. cbv beta iota. erewrite lift_run by (apply cstr_cstr; exact Ht). reflexivity.
Qed.

(** A request that was just started. *)
Definition new_request (fd socket : Z) (cs sr : nat) (chunked : bool) : cgi_request :=
  {| in_buf := replicate 1024 0; cr_sr := sr; cr_cs := cs; in_len := 0; cr_fd := fd; cr_socket := socket;
     status_done := false; all_headers_done := false; chunked := chunked |}.

(** Is the answer sent in chunks? *)
Definition promised (q : session_request) : bool :=
  (HTTP_PROTOCOL_11 <=? sr_protocol q) && ((sh_status (sr_headers q) <? MK_REDIR_MULTIPLE) || (MK_REDIR_USE_PROXY <? sh_status (sr_headers q))).
Definition promise (q : session_request) : session_request :=
  if promised q then set_headers (fun sh => sh <| sh_transfer_encoding := MK_HEADER_TE_TYPE_CHUNKED |>) q else q.

(** The body of the request goes to the program, or nothing. *)
Definition post_event (q : session_request) (write_end : Z) : event :=
  if len (sr_data q) =? 0 then EvClose write_end else EvSpawn write_end (default [] (view (sr_data q))).

Lemma create_run fd socket cs sr s w :
  cgi_req_create fd socket cs sr s w = Some (cg_next s, {| cg_heap := <[cg_next s := new_request fd socket cs sr false]> (cg_heap s);
    cg_next := S (cg_next s); cg_list := cg_list s; cg_others := cg_others s; requests_by_socket := requests_by_socket s |}, w).
Proof. reflexivity. Qed.

Lemma set_by_socket_run k v s w o :
  by_socket s k = Some o ->
  set_by_socket k v s w = Some (tt, s <| requests_by_socket := <[Z.to_nat k := v]> (requests_by_socket s) |>, w).
Proof.
  intros H. unfold set_by_socket, cgi_req_get. erewrite P_bind_run; [reflexivity|]. erewrite P_bind_run by reflexivity.
  fold (by_socket s k). unfold liftP. now rewrite H.
Qed.

Lemma cgi_parent_run read_end write_end cs sr c q s w :
  state_ok s -> by_socket s (cs_socket c) = Some None -> at_sr w cs sr c q -> (len (sr_data q) <> 0 -> exists d, view (sr_data q) = Some d) ->
  exists w' c', cgi_parent read_end write_end cs sr c q s w = Some (200, enter s (new_request read_end (cs_socket c) cs sr (promised q)), w') /\
    at_sr w' cs sr c' (promise q) /\ cs_socket c' = cs_socket c /\
    exists f1 f2 e1 e2, w_trace w' = w_trace w ++ [post_event q write_end;
      EvEpollCtl EPOLL_CTL_ADD f1 read_end e1; EvEpollCtl EPOLL_CTL_MOD f2 (cs_socket c) e2].
Proof.
  intros Hs Hfree Hat Hdata. set (i := cg_next s). unfold cgi_parent.
  assert (Hpost : (if len (sr_data q) =? 0 then call (emit (EvClose write_end))
    else call (d ← lift (view (sr_data q)); emit (EvSpawn write_end d))) s w = Some (tt, s, logged w [post_event q write_end])).
  { unfold post_event. case_if; zbool; [done|]. destruct (Hdata E) as [d Hd]. unfold call. rewrite Hd. erewrite lift_run by reflexivity. done. }
  erewrite P_bind_run by exact Hpost. erewrite P_bind_run by apply create_run. fold i.
  set (w1 := logged w _). assert (Hat1 : at_sr w1 cs sr c q) by now apply logged_at.
  set (st := fun b => {| cg_heap := <[i := new_request read_end (cs_socket c) cs sr b]> (cg_heap s);
    cg_next := S i; cg_list := cg_list s; cg_others := cg_others s; requests_by_socket := requests_by_socket s |}). change ({| cg_heap := _ |}) with (st false).
  assert (Hchunk : exists w2 c2, (if (HTTP_PROTOCOL_11 <=? sr_protocol q) &&
        ((sh_status (sr_headers q) <? MK_REDIR_MULTIPLE) || (MK_REDIR_USE_PROXY <? sh_status (sr_headers q))) then
      call (mod_sr cs sr (set_headers (fun sh => sh <| sh_transfer_encoding := MK_HEADER_TE_TYPE_CHUNKED |>)));;
      mod_cr i (fun r => r <| chunked := true |>) else mret tt) (st false) w1 = Some (tt, st (promised q), w2) /\
      at_sr w2 cs sr c2 (promise q) /\ cs_socket c2 = cs_socket c /\ w_trace w2 = w_trace w1).
  { unfold promise. fold (promised q). destruct (promised q); [|exists w1, c; done].
    destruct (mod_sr_run cs sr (set_headers (fun sh => sh <| sh_transfer_encoding := MK_HEADER_TE_TYPE_CHUNKED |>)) w1 c q Hat1) as [Hm Hat2].
    erewrite call_run by exact Hm. unfold mod_cr. erewrite P_bind_run by (apply get_cr_run; apply lookup_insert_eq).
    eexists _, _. split; [|split; [exact Hat2|done]]. rewrite put_cr_run. unfold upd, st. cbn. do 2 f_equal. f_equal. f_equal. apply insert_insert_eq. }
  destruct Hchunk as (w2 & c2 & H2 & Hat2 & Hso & Ht2). erewrite P_bind_run by exact H2. erewrite P_bind_run by reflexivity.
  destruct (event_add_run read_end MK_EPOLL_READ cgi_plugin w2) as (r3 & w3 & H3 & Hses & f1 & e1 & Ht3). erewrite call_run by exact H3.
  erewrite P_bind_run by (eapply set_by_socket_run; exact Hfree).
  destruct (change_mode_run w3 (sl_epoll_fd (w_sched w3)) (cs_socket c) MK_EPOLL_SLEEP MK_EPOLL_LEVEL_TRIGGERED) as (r4 & e2 & H4); [done|done|].
  unfold mk_plugin_event_socket_change_mode. erewrite call_run by (erewrite bind_run by reflexivity; exact H4).
  eexists _, c2. split; [reflexivity|]. split; [destruct Hat2; split; cbn; congruence|]. split; [done|].
  exists f1, (sl_epoll_fd (w_sched w3)), e1, e2. cbn. rewrite Ht3, Ht2. unfold w1, logged. cbn. now rewrite <- !app_assoc.
Qed.

(** ** Which requests are taken *)

(** The rule of a virtual host that counts, and its expression: the first. *)
Definition rule_of (conf : cgi_config) (host : option nat) (rule : option (cgi_vhost_match_t * bytes)) : Prop :=
  exists vhosts, cgi_vhosts conf = Some vhosts /\
    match find_cgi_vhost vhosts host, rule with
    | Some v, Some (m, re) => exists l, vh_matches v = Some (m :: l) /\ vm_match m = Some re
    | None, None => True
    | _, _ => False
    end.

(** The plugin takes the URL; with the rule that was found, if one was. *)
Inductive takes (conf : cgi_config) (re url : bytes) (host : option nat) : option cgi_vhost_match_t -> Prop :=
  | takes_all : cgi_vhosts conf = None -> takes conf re url host None
  | takes_global vhosts : cgi_vhosts conf = Some vhosts -> cgi_regexec re url = true -> takes conf re url host None
  | takes_rule m re' : cgi_regexec re url = false -> rule_of conf host (Some (m, re')) -> cgi_regexec re' url = true ->
      takes conf re url host (Some m).
(** It leaves the URL to others. *)
Inductive leaves (conf : cgi_config) (re url : bytes) (host : option nat) : Prop :=
  | leaves_host : cgi_regexec re url = false -> rule_of conf host None -> leaves conf re url host
  | leaves_rule m re' : cgi_regexec re url = false -> rule_of conf host (Some (m, re')) -> cgi_regexec re' url = false ->
      leaves conf re url host.

Lemma takes_run conf re url host rule :
  match_regex conf = Some re -> takes conf re url host rule -> cgi_match conf url host = Some (Some rule).
Proof.
  intros Hre H. unfold cgi_match, matches. rewrite Hre. mstep. inversion H as [Hv|vh Hv Hg|m re' Hg (vh & Hv & Hr) Hm]; subst; rewrite Hv.
  - done.
  - now rewrite Hg.
  - rewrite Hg. destruct (find_cgi_vhost vh host) as [v|]; [|done]. destruct Hr as (l & Hl & Hc). rewrite Hl. mstep. rewrite Hc. mstep. now rewrite Hm.
Qed.
Lemma leaves_run conf re url host :
  match_regex conf = Some re -> leaves conf re url host -> cgi_match conf url host = Some None.
Proof.
  intros Hre H. unfold cgi_match, matches. rewrite Hre. mstep. inversion H as [Hg (vh & Hv & Hr)|m re' Hg (vh & Hv & Hr) Hm]; subst; rewrite Hv, Hg.
  - by destruct (find_cgi_vhost vh host).
  - destruct (find_cgi_vhost vh host) as [v|]; [|done]. destruct Hr as (l & Hl & Hc). rewrite Hl. mstep. rewrite Hc. mstep. now rewrite Hm.
Qed.

(** The request of a file with the URL [url]. *)
Record asks (w : world) (cs sr : nat) (c : client_session) (q : session_request) (url : bytes) : Prop := {
  ask_at : at_sr w cs sr c q;
  ask_uri : view (sr_uri q) = Some url;
  ask_text : 0 ∉ url;
}.

Lemma view_len p s : view p = Some s -> len p = Z.of_nat (length s).
Proof. unfold view. destruct (data p); [|done]. mstep. intros H. apply memread_inv in H. lia. Qed.

(** The part of the handler before it looks for a program that runs. *)
Lemma stage_30_run conf cs sr s w c q url rule :
  asks w cs sr c q url -> Z.of_nat (length url) < 1024 -> fi_is_file (sr_file_info q) <> 0 ->
  cgi_match conf url (sr_host_conf q) = Some (Some rule) ->
  Cgi._mkp_stage_30 conf cs sr s w =
  (running ← cgi_req_get (cs_socket c);
   match running with
   | Some _ => mret MK_PLUGIN_RET_CONTINUE
   | None =>
     file ← liftP (p ← data (sr_real_path q); cstr p);
     status ← do_cgi file url sr cs c rule;
     call (mk_header_set_http_status cs sr status);;
     if negb (status =? 200) then mret MK_PLUGIN_RET_END else
     call (mod_sr cs sr (set_headers (fun sh => sh <| sh_cgi := 1 |>)));;
     mret MK_PLUGIN_RET_CONTINUE
   end) s w.
Proof.
  intros [Hat Huri H0] Hl Hf Hm. unfold Cgi._mkp_stage_30. erewrite call_run by (eapply get_at_sr; exact Hat).
  rewrite (view_len _ _ Huri), u64_small by lia. replace (PATHLEN <? Z.of_nat (length url) + 1) with false by (unfold PATHLEN; zb).
  erewrite liftP_run by exact Huri. erewrite liftP_run by (apply (cstr_cstr _ url); split; [by exists []|done]).
  replace (fi_is_file (sr_file_info q) =? 0) with false by zb. erewrite liftP_run by exact Hm. cbv iota.
  erewrite call_run by (eapply get_at_cs; exact Hat). reflexivity.
Qed.

Lemma do_cgi_undefined file url sr cs c s w :
  (forall t, sys_pipe t <> None) -> (forall t, sys_vfork t = true) -> (forall t a b, sys_dup2 t a b = true) ->
  (forall t d, sys_chdir t d = true) ->
  do_cgi file url sr cs c None s w = None.
Proof.
  intros Hpipe Hfork Hdup Hdir. apply (triple_false (fun _ => True)); [|done]. unfold do_cgi.
  assert (Hp : forall (k : option (Z * Z) -> C Z), (forall p, triple (fun _ => True) (k (Some p)) (fun _ _ => False)) ->
    triple (fun _ => True) (call do_pipe ≫= k) (fun _ _ => False)).
  { intros k Hk. eapply triple_bind; [apply triple_call_run|]. intros o. apply triple_fact. intros (v & v' & Hrun).
    destruct o as [p|]; [apply Hk|]. unfold do_pipe, gets, emit, mod_w, mret, M_ret, mbind, M_bind in Hrun. destruct (sys_pipe (w_trace v)) as [[x y]|] eqn:E; [discriminate|].
    by apply Hpipe in E. }
  tcall. tcall. tlift. apply Hp. intros [r1 w1]. apply Hp. intros [r2 w2]. tcall. rewrite Hfork. cbn [negb].
  eapply triple_bind; [apply triple_call_run|]. intros ?. apply triple_fact. intros (v & v' & Hrun). exfalso.
  unfold cgi_child, mbind, M_bind, gets, lift in Hrun. rewrite !Hdup in Hrun. cbn [negb] in Hrun. rewrite Hdir in Hrun. discriminate.
Qed.

(** A request is not for the plugin, and nothing changes, when its URL does
    not fit 1024 bytes, it is not for a regular file, or the URL matches neither
    the expression of the server nor the first rule of its virtual host. A
    socket whose program is still running goes on unchanged. A URL that is
    taken without a rule of the virtual host, by the expression of the server or
    because no virtual host has rules, has no interpreter: starting it is
    undefined. *)
Theorem cgi_stage_30_routes conf re cs sr s w c q url :
  asks w cs sr c q url -> match_regex conf = Some re -> Z.of_nat (length url) < 2 ^ 63 ->
  (1024 <= Z.of_nat (length url) \/ fi_is_file (sr_file_info q) = 0 \/ leaves conf re url (sr_host_conf q) ->
    Cgi._mkp_stage_30 conf cs sr s w = Some (MK_PLUGIN_RET_NOT_ME, s, w)) /\
  (forall rule, Z.of_nat (length url) < 1024 -> fi_is_file (sr_file_info q) <> 0 -> takes conf re url (sr_host_conf q) rule ->
    (forall i, by_socket s (cs_socket c) = Some (Some i) -> Cgi._mkp_stage_30 conf cs sr s w = Some (MK_PLUGIN_RET_CONTINUE, s, w)) /\
    (rule = None -> by_socket s (cs_socket c) = Some None -> (forall t, sys_pipe t <> None) -> (forall t, sys_vfork t = true) ->
     (forall t a b, sys_dup2 t a b = true) -> (forall t d, sys_chdir t d = true) -> Cgi._mkp_stage_30 conf cs sr s w = None)).
Proof.
  intros Hask Hre Hl. pose proof Hask as [Hat Huri H0]. split.
  - intros Hcase. unfold Cgi._mkp_stage_30. erewrite call_run by (eapply get_at_sr; exact Hat).
    rewrite (view_len _ _ Huri), u64_small by lia. destruct (PATHLEN <? Z.of_nat (length url) + 1) eqn:E; unfold PATHLEN in E; zbool; [done|].
    erewrite liftP_run by exact Huri. erewrite liftP_run by (apply (cstr_cstr _ url); split; [by exists []|done]).
    destruct (fi_is_file (sr_file_info q) =? 0) eqn:E2; zbool; [done|]. destruct Hcase as [?|[?|Hleave]]; [lia|done|].
    erewrite liftP_run by (eapply leaves_run; eassumption). done.
  - intros rule Hl2 Hf Htake. pose proof (takes_run _ _ _ _ _ Hre Htake) as Hm.
    rewrite (stage_30_run conf cs sr s w c q url rule Hask Hl2 Hf Hm).
    assert (Hget : forall o, by_socket s (cs_socket c) = Some o -> cgi_req_get (cs_socket c) s w = Some (o, s, w)).
    { intros o Ho. unfold cgi_req_get. erewrite P_bind_run by reflexivity. fold (by_socket s (cs_socket c)). unfold liftP. now rewrite Ho. }
    split.
    + intros i Hi. erewrite P_bind_run by (apply Hget; exact Hi). done.
    + intros -> Hfree Hpipe Hfork Hdup Hdir. erewrite P_bind_run by (apply Hget; exact Hfree). cbv iota.
      unfold liftP at 1, mbind at 1, P_bind at 1. destruct (_ ≫= cstr) as [file|]; [|done]. cbn [mbind option_bind].
      unfold mbind, P_bind. now rewrite do_cgi_undefined.
Qed.

(** ** Starting the program *)

(** The events of a start: the pipes, the program, the ends the server does not
    need, the body of the request, the descriptors that are waited for. *)
Definition start_events (q : session_request) (v : cgi_vars) (bin : bytes) (read_r read_w write_r write_w socket f1 f2 e1 e2 : Z) : list event :=
  [ EvPipe write_r write_w; EvPipe read_r read_w;
    EvExec (dirname (ev_file v)) bin [basename bin; ev_file v] (vars_text v);
    EvClose write_r; EvClose read_w; post_event q write_w;
    EvEpollCtl EPOLL_CTL_ADD f1 read_r e1; EvEpollCtl EPOLL_CTL_MOD f2 socket e2 ].

Lemma do_pipe_run w r wr : sys_pipe (w_trace w) = Some (r, wr) -> do_pipe w = Some (Some (r, wr), logged w [EvPipe r wr]).
Proof. intros H. unfold do_pipe. erewrite bind_run by reflexivity. cbv beta. rewrite H. reflexivity. Qed.

(** The system can start programs: two pipes, a process, the directory. *)
Record startable (w : world) (write_r write_w read_r read_w : Z) : Prop := {
  st_pipe1 : sys_pipe (w_trace w) = Some (write_r, write_w);
  st_pipe2 : sys_pipe (w_trace w ++ [EvPipe write_r write_w]) = Some (read_r, read_w);
  st_fork : forall t, sys_vfork t = true;
  st_dup : forall t a b, sys_dup2 t a b = true;
  st_dir : forall t d, sys_chdir t d = true;
}.

Lemma do_cgi_run v cs sr c q s w rule bin text write_r write_w read_r read_w :
  state_ok s -> by_socket s (cs_socket c) = Some None -> at_sr w cs sr c q -> says q v ->
  cgi_addr (cs_socket c) w = Some (ev_addr v, w) -> (len (sr_data q) <> 0 -> exists d, view (sr_data q) = Some d) ->
  vm_bin rule = Some (Some bin) -> is_cstr bin text -> startable w write_r write_w read_r read_w ->
  exists w' c', do_cgi (ev_file v) (ev_url v) sr cs c (Some rule) s w =
      Some (200, enter s (new_request read_r (cs_socket c) cs sr (promised q)), w') /\
    at_sr w' cs sr c' (promise q) /\ cs_socket c' = cs_socket c /\
    exists f1 f2 e1 e2, w_trace w' = w_trace w ++ start_events q v text read_r read_w write_r write_w (cs_socket c) f1 f2 e1 e2.
Proof.
  intros Hs Hfree Hat Hsay Haddr Hdata Hbin Htext [S1 S2 S3 S5 S4]. unfold do_cgi.
  erewrite call_run by (eapply get_at_sr; exact Hat). erewrite call_run by exact Haddr.
  erewrite liftP_run by (apply cgi_env_run; exact Hsay).
  erewrite call_run by (apply do_pipe_run; exact S1). cbv iota beta.
  erewrite call_run by (apply do_pipe_run; exact S2). cbv iota beta.
  erewrite call_run by reflexivity. rewrite S3. cbn [negb].
  erewrite call_run by (eapply cgi_child_run; [exact S5|exact S4|exact Hbin|exact Htext]).
  erewrite call_run by reflexivity. erewrite call_run by reflexivity.
  match goal with |- context [cgi_parent _ _ _ _ _ _ s ?w0] =>
    destruct (cgi_parent_run read_r write_w cs sr c q s w0 Hs Hfree ltac:(destruct Hat; by split) Hdata)
      as (w' & c' & H1 & H2 & H3 & f1 & f2 & e1 & e2 & H4) end.
  exists w', c'. split; [exact H1|]. split; [exact H2|]. split; [exact H3|]. exists f1, f2, e1, e2. rewrite H4.
  unfold logged. cbn. rewrite <- !app_assoc. reflexivity.
Qed.

(** The request once its program runs. *)
Definition started (q : session_request) : session_request :=
  set_headers (fun sh => sh <| sh_status := 200 |> <| sh_cgi := 1 |>) (promise q).

(** A request whose URL the first rule of its virtual host matches, but
    not the expression of the server, starts the interpreter of the rule in the
    directory of the file, with the file as its argument and the variables of
    the request as its environment, each cut to the size of its buffer; the body
    of the request is given to it. The request is entered in the list and the
    table, its answer is announced in chunks to a client of HTTP/1.1, and the
    client sleeps until there is output. *)
Theorem cgi_stage_30_starts conf re cs sr s w c q v rule bin text path write_r write_w read_r read_w :
  state_ok s -> asks w cs sr c q (ev_url v) -> Z.of_nat (length (ev_url v)) < 1024 -> fi_is_file (sr_file_info q) <> 0 ->
  match_regex conf = Some re -> takes conf re (ev_url v) (sr_host_conf q) (Some rule) ->
  by_socket s (cs_socket c) = Some None -> says q v -> data (sr_real_path q) = Some path -> is_cstr path (ev_file v) ->
  cgi_addr (cs_socket c) w = Some (ev_addr v, w) -> (len (sr_data q) <> 0 -> exists d, view (sr_data q) = Some d) ->
  vm_bin rule = Some (Some bin) -> is_cstr bin text -> startable w write_r write_w read_r read_w ->
  exists s' w' c', Cgi._mkp_stage_30 conf cs sr s w = Some (MK_PLUGIN_RET_CONTINUE, s', w') /\
    s' = enter s (new_request read_r (cs_socket c) cs sr (promised q)) /\ state_ok s' /\
    at_sr w' cs sr c' (started q) /\
    (exists f1 f2 e1 e2, w_trace w' = w_trace w ++ start_events q v text read_r read_w write_r write_w (cs_socket c) f1 f2 e1 e2) /\
    Forall (fun x => (length x < 1024)%nat) (vars_text v).
Proof.
  intros Hs Hask Hl Hf Hre Htake Hfree Hsay Hpath Hfile Haddr Hdata Hbin Htext Hstart.
  pose proof (takes_run _ _ _ _ _ Hre Htake) as Hm. pose proof (ask_at _ _ _ _ _ _ Hask) as Hat.
  rewrite (stage_30_run conf cs sr s w c q (ev_url v) _ Hask Hl Hf Hm).
  assert (Hget : cgi_req_get (cs_socket c) s w = Some (None, s, w)).
  { unfold cgi_req_get. erewrite P_bind_run by reflexivity. fold (by_socket s (cs_socket c)). unfold liftP. now rewrite Hfree. }
  erewrite P_bind_run by exact Hget. cbv iota.
  erewrite liftP_run by (rewrite Hpath; mstep; apply cstr_cstr; exact Hfile).
  destruct (do_cgi_run v cs sr c q s w rule bin text write_r write_w read_r read_w Hs Hfree Hat Hsay Haddr Hdata Hbin Htext Hstart)
    as (w1 & c1 & H1 & Hat1 & _ & f1 & f2 & e1 & e2 & Ht). erewrite P_bind_run by exact H1.
  destruct (mod_sr_run cs sr (set_headers (fun sh => sh <| sh_status := 200 |>)) w1 c1 _ Hat1) as [Hm1 Hat2].
  unfold mk_header_set_http_status. erewrite call_run by exact Hm1. change (negb (200 =? 200)) with false. cbv iota.
  match type of Hat2 with at_sr ?w2 _ _ ?c2 ?q2 =>
    destruct (mod_sr_run cs sr (set_headers (fun sh => sh <| sh_cgi := 1 |>)) w2 c2 q2 Hat2) as [Hm2 Hat3] end.
  erewrite call_run by exact Hm2. eexists _, _, _. split; [reflexivity|]. split; [done|]. split; [|split; [exact Hat3|split]].
  - apply enter_ok; [done| |exact Hfree]. split; cbn; [done|lia].
  - exists f1, f2, e1, e2. exact Ht.
  - unfold vars_text. clear. assert (Hcut : forall n name t, (0 < n <= 1024)%nat -> (length (cut n name t) < 1024)%nat)
      by (intros n name t Hn; unfold cut; rewrite length_take; lia).
    rewrite !Forall_app. split_and!.
    + do 3 (apply Forall_cons_2; [cbn; lia|]). repeat (apply Forall_cons_2; [apply Hcut; lia|]). apply Forall_nil_2.
    + destruct (ev_query v); repeat (apply Forall_cons_2; [apply Hcut; lia|]); apply Forall_nil_2.
    + repeat (apply Forall_cons_2; [apply Hcut; lia|]). apply Forall_nil_2.
    + case_if; repeat (apply Forall_cons_2; [apply Hcut; lia|]); apply Forall_nil_2.
    + destruct (ev_type v); repeat (apply Forall_cons_2; [apply Hcut; lia|]); apply Forall_nil_2.
Qed.
End WithEnv.

(** ** Examples *)

(** "POST /a.cgi?x=1" with the body "data" and a content type that ends in the
    middle of the buffer of the session. *)
Definition form_request : session_request :=
  get_request "/a.cgi" <| sr_method_p := mk_pointer_init "POST" |> <| sr_query_string := mk_pointer_init "x=1" |> <| sr_port := 80 |>
    <| sr_data := mk_pointer_init "data" |> <| sr_real_path := mk_pointer_init "/srv/www/a.cgi" |>
    <| sr_content_type := {| data := Some (lit "application/x-www-form-urlencoded" ++ crlf ++ crlf ++ lit "data" ++ [0]); len := 33 |} |>
    <| sr_file_info := {| fi_size := 5; fi_last_modification := 0; fi_flags_read_only := 0; fi_exists := 1; fi_is_file := 1; fi_is_link := 0;
                          fi_is_directory := 0; fi_exec_access := 1; fi_read_access := 1 |} |>.
Definition form_vars : cgi_vars :=
  {| ev_method := lit "POST"; ev_server := lit "Monkey"; ev_host := []; ev_protocol := lit "HTTP/1.1"; ev_url := lit "/a.cgi";
     ev_query := Some (lit "x=1"); ev_file := lit "/srv/www/a.cgi"; ev_addr := lit "127.0.0.1"; ev_port := 80; ev_length := 4;
     ev_type := Some (lit "application/x-www-form-urlencoded" ++ crlf ++ crlf ++ lit "data") |}.

Definition perl_rule : cgi_vhost_match_t :=
  {| vm_match := Some (lit ".cgi"); vm_bin := Some (Some (clit "/usr/bin/perl")); vm_content_type := None |}.
Definition cgi_conf_example : cgi_config :=
  {| match_regex := Some (lit "/cgi-bin/"); cgi_vhosts := Some [ {| vh_host := 0; vh_matches := Some [perl_rule] |} ] |}.

Lemma spans_lit s : 0 ∉ lit s -> spans (mk_pointer_init s) (lit s).
Proof.
  intros H. exists (clit s). rewrite mk_pointer_init_lit. split; [done|]. split; [done|]. split; [|done].
  unfold clit. now rewrite take_app_length.
Qed.

Lemma form_says : @says example_env form_request form_vars.
Proof.
  split; try done.
  - exists (clit "POST"). split; [done|]. apply is_cstr_clit. decide_closed.
  - eexists. split; [reflexivity|]. apply is_cstr_clit. decide_closed.
  - by right.
  - split; [done|]. apply (spans_lit "x=1"). decide_closed.
  - split; [done|]. eexists. split; [reflexivity|]. split; [exists []; reflexivity|decide_closed].
Qed.

Lemma form_taken g re : @takes (cgi_globals_of g) cgi_conf_example re (lit "/a.cgi") (Some 0%nat) (Some perl_rule) <-> list_infixb re (lit "/a.cgi") = false.
Proof.
  split.
  - intros H. inversion H; done.
  - intros H. apply (takes_rule _ _ _ _ perl_rule (lit ".cgi")); [exact H| |reflexivity]. eexists. split; [reflexivity|]. by exists [].
Qed.

Definition form_started : cgi_state := enter (cgi_init 10 1) (new_request 22 5 1 0 true).

(** The type of the form is cut after 22 characters. *)
Example form_environment :
  vars_text form_vars =
  [ lit "PATH_INFO="; lit "GATEWAY_INTERFACE=CGI/1.1"; lit "REDIRECT_STATUS=200"; lit "REQUEST_METHOD=POST"; lit "SERVER_SOFTWARE=Monkey";
    lit "HTTP_HOST="; lit "SERVER_PROTOCOL=HTTP/1.1"; lit "REQUEST_URI=/a.cgi?x=1"; lit "SCRIPT_FILENAME=/srv/www/a.cgi";
    lit "SCRIPT_NAME=/a.cgi"; lit "QUERY_STRING=x=1"; lit "REMOTE_ADDR=127.0.0.1"; lit "REMOTE_PORT=80"; lit "CONTENT_LENGTH=4";
    lit "CONTENT_TYPE=application/x-www-form" ].
Proof. vm_compute. reflexivity. Qed.

Lemma cgi_stage_30_starts_witness :
  exists s' w' c', @Cgi._mkp_stage_30 example_env local_peer (cgi_globals_of []) cgi_conf_example 1 0 (cgi_init 10 1) (request_world form_request) =
      Some (MK_PLUGIN_RET_CONTINUE, s', w') /\
    s' = form_started /\ state_ok s' /\ at_sr w' 1 0 c' (started form_request) /\
    (exists f1 f2 e1 e2, w_trace w' = start_events form_request form_vars (lit "/usr/bin/perl") 22 23 20 21 5 f1 f2 e1 e2) /\
    Forall (fun x => (length x < 1024)%nat) (vars_text form_vars).
Proof.
  apply (@cgi_stage_30_starts example_env local_peer (cgi_globals_of []) cgi_conf_example (lit "/cgi-bin/") 1 0 (cgi_init 10 1)
    (request_world form_request) (request_session form_request) form_request form_vars perl_rule (clit "/usr/bin/perl") (lit "/usr/bin/perl")
    (clit "/srv/www/a.cgi") 20 21 22 23).
  - apply cgi_init_ok.
  - split; [apply request_world_at|reflexivity|decide_closed].
  - reflexivity.
  - discriminate.
  - reflexivity.
  - apply form_taken. reflexivity.
  - reflexivity.
  - apply form_says.
  - reflexivity.
  - apply is_cstr_clit. decide_closed.
  - reflexivity.
  - intros _. eexists. reflexivity.
  - reflexivity.
  - apply is_cstr_clit. decide_closed.
  - split; reflexivity.
Defined.

(** A server without rules of virtual hosts: every file is to be executed. *)
Definition cgi_conf_global : cgi_config := {| match_regex := Some (lit "/cgi-bin/"); cgi_vhosts := None |}.

Lemma cgi_stage_30_routes_witness :
  @Cgi._mkp_stage_30 example_env local_peer (cgi_globals_of []) cgi_conf_global 1 0 (cgi_init 10 1) (request_world form_request) = None /\
  @Cgi._mkp_stage_30 example_env local_peer (cgi_globals_of []) cgi_conf_example 1 0 form_started (request_world form_request) =
    Some (MK_PLUGIN_RET_CONTINUE, form_started, request_world form_request).
Proof.
  assert (Hask : asks (request_world form_request) 1 0 (request_session form_request) form_request (lit "/a.cgi"))
    by (split; [apply request_world_at|reflexivity|decide_closed]).
  split.
  - destruct (@cgi_stage_30_routes example_env local_peer (cgi_globals_of []) cgi_conf_global (lit "/cgi-bin/") 1 0 (cgi_init 10 1)
      (request_world form_request) (request_session form_request) form_request (lit "/a.cgi") Hask eq_refl) as [_ H]; [cbn; lia|].
    destruct (H None) as [_ H']; [cbn; lia|done|by apply takes_all|]. apply H'; done.
  - destruct (@cgi_stage_30_routes example_env local_peer (cgi_globals_of []) cgi_conf_example (lit "/cgi-bin/") 1 0 form_started
      (request_world form_request) (request_session form_request) form_request (lit "/a.cgi") Hask eq_refl) as [_ H]; [cbn; lia|].
    destruct (H (Some perl_rule)) as [H' _]; [cbn; lia|done|by apply form_taken|]. by apply (H' 0%nat).
Defined.

(** A second worker runs: it has no request of its own, but finds the one of the
    first under its socket, and would hand on its output, had the client gone
    and its socket been given to a client of this worker. *)
Definition other_worker : cgi_state := resume 0 form_started.
Example other_worker_finds w :
  cg_list other_worker = [] /\ cg_others other_worker = [[0%nat]] /\
  cgi_req_get_by_fd 22 other_worker w = Some (None, other_worker, w) /\ cgi_req_get 5 other_worker w = Some (Some 0%nat, other_worker, w).
Proof. by split_and!. Qed.

Lemma cgi_reachable_witness :
  let g := cgi_globals_of [lit "Content-type: text/html"] in
  cg_lists other_worker = [0%nat] /\ @cgi_reaches example_env local_peer g cgi_conf_example 10 1 other_worker /\
  state_ok other_worker /\ forall fd w, exists ret s' w', @Cgi._mkp_event_read example_env g fd other_worker w = Some (ret, s', w') /\ state_ok s'.
Proof.
  intros g. assert (Hr : @cgi_reaches example_env local_peer g cgi_conf_example 10 1 other_worker).
  { set (run := @Cgi._mkp_stage_30 example_env local_peer g cgi_conf_example 1 0 (cgi_init 10 1) (request_world form_request)).
    assert (H : exists w', run = Some (100, form_started, w')) by (eexists; vm_compute; reflexivity). destruct H as [w' H].
    exact (reaches_resume _ _ _ _ 0 (reaches_stage_30 cgi_conf_example 10 1 (cgi_init 10 1) (request_world form_request) 1 0 100 form_started w'
      (reaches_init _ _ _) H)). }
  split; [reflexivity|]. split; [exact Hr|].
  exact (@cgi_reachable_ok example_env local_peer g (globals_read _) cgi_conf_example 10 1 other_worker Hr).
Defined.
