(* ===== verification/PalmProtocol.v ===== *)
(** * plugins/palm: the request sent to a Palm server (protocol.c, cgi.c)

    The variables of a request, one to a line, and an empty line. *)
From S2P Require Import Prelude CString MkString MkMemory MkTypes MkToc MkSession MkResponse MkSocket FcgiEnv.
Import Iov.
Local Open Scope Z_scope.

(** ** Names of variables (cgi.h) *)

Definition mk_cgi_document_root : mk_pointer := mk_pointer_init "DOCUMENT_ROOT".
Definition mk_cgi_content_length : mk_pointer := mk_pointer_init "CONTENT_LENGTH".
Definition mk_cgi_content_type : mk_pointer := mk_pointer_init "CONTENT_TYPE".
Definition mk_cgi_server_port : mk_pointer := mk_pointer_init "SERVER_PORT".
Definition mk_cgi_server_name : mk_pointer := mk_pointer_init "SERVER_NAME".
Definition mk_cgi_server_protocol : mk_pointer := mk_pointer_init "SERVER_PROTOCOL".
Definition mk_cgi_server_signature : mk_pointer := mk_pointer_init "SERVER_SIGNATURE".
Definition mk_cgi_remote_addr : mk_pointer := mk_pointer_init "REMOTE_ADDR".
Definition mk_cgi_remote_port : mk_pointer := mk_pointer_init "REMOTE_PORT".
Definition mk_cgi_gateway_interface : mk_pointer := mk_pointer_init "GATEWAY_INTERFACE".
Definition mk_cgi_request_uri : mk_pointer := mk_pointer_init "REQUEST_URI".
Definition mk_cgi_request_method : mk_pointer := mk_pointer_init "REQUEST_METHOD".
Definition mk_cgi_script_name : mk_pointer := mk_pointer_init "SCRIPT_NAME".
Definition mk_cgi_script_filename : mk_pointer := mk_pointer_init "SCRIPT_FILENAME".
Definition mk_cgi_query_string : mk_pointer := mk_pointer_init "QUERY_STRING".
Definition mk_cgi_post_vars : mk_pointer := mk_pointer_init "POST_VARS".
Definition mk_cgi_version : mk_pointer := mk_pointer_init "CGI/1.1".
Definition mk_server_protocol : mk_pointer := mk_pointer_init "HTTP/1.1".
Definition mk_iov_crlfcrlf : mk_pointer := lit_pointer [13; 10; 13; 10].

(** ** Header lines *)

(** The loop over the characters of a line; [i] counts those before the colon. *)
Fixpoint header2cgi_loop (buf : bytes) (n : nat) (i offset : Z) (dest : bytes) : option (bytes * Z) :=
  match n with
  | O => Some (dest, i)
  | S n =>
    match buf with
    | [] => None
    | c :: buf =>
      if c =? 58 then dest ← bwrite dest (offset + i) [0]; Some (dest, i)
      else dest ← bwrite dest (offset + i) [if c =? 45 then 95 else toupper c]; header2cgi_loop buf n (i + 1) offset dest
    end
  end.

(** The name in [dest] and its length. *)
Definition prot_header2cgi (buf : bytes) (len : Z) (dest : bytes) : option (bytes * Z) :=
  content ← strncasecmp buf (clit "Content-") 8;
  cookie ← (if content =? 0 then Some 0 else strncasecmp buf (clit "Cookie-") 7);
  '(dest, offset) ← (if (content =? 0) || (cookie =? 0) then Some (dest, 0)
                     else dest ← bwrite dest 0 (lit "HTTP_"); Some (dest, 5));
  '(dest, i) ← header2cgi_loop buf (Z.to_nat len) 0 offset dest;
  Some (dest, i + offset).

Definition prot_add_header (header value : mk_pointer) (iov : mk_iov) : option mk_iov :=
  iov ← add_entry iov header mk_iov_equal MK_IOV_NOT_FREE_BUF;
  add_entry iov value mk_iov_crlf MK_IOV_NOT_FREE_BUF.

Section Request.
Context `{env : Env} `{peers : PeerNames}.

Definition junk (n : Z) : bytes := map sys_junk (seq 0 (Z.to_nat n)).

(** A number printed to fresh memory of [size] bytes. *)
Definition number (value size : Z) : option mk_pointer :=
  '(buf, n) ← mk_string_itop value (junk size);
  Some {| data := Some buf; len := n - 2 |}.

Definition add_row (row : header_toc_row) (iov : mk_iov) : option mk_iov :=
  let len := i16 (pdiff (row_end row) (row_init row)) in
  '(row_buf, row_len) ← prot_header2cgi (row_init row) len (junk (len + 1));
  iov ← add_entry iov {| data := Some row_buf; len := row_len |} mk_iov_equal MK_IOV_FREE_BUF;
  prefixed ← strncmp row_buf (clit "HTTP_") 5;
  let offset := if prefixed =? 0 then 5 else 0 in
  p ← padd (row_init row) (row_len - offset + 2);
  add_entry iov {| data := Some p; len := u64 (len - (row_len - offset) - 2) |} mk_iov_crlf MK_IOV_NOT_FREE_BUF.

Fixpoint add_rows (toc : headers_toc) (iov : mk_iov) : option mk_iov :=
  match toc with [] => Some iov | row :: toc => iov ← add_row row iov; add_rows toc iov end.

(** The variables before those of the header lines; [port] is [mk_server_port]. *)
Definition add_server (port : mk_pointer) (sr : session_request) (iov : mk_iov) : option mk_iov :=
  h ← request_vhost sr;
  iov ← prot_add_header mk_cgi_document_root (h_documentroot h) iov;
  iov ← (if (sr_method sr =? HTTP_METHOD_POST) && (0 <=? sr_content_length sr)
         then p ← number (sr_content_length sr) 32; prot_add_header mk_cgi_content_length p iov else Some iov);
  iov ← (if 0 <? len (sh_content_type (sr_headers sr)) then prot_add_header mk_cgi_content_type (sh_content_type (sr_headers sr)) iov else Some iov);
  iov ← prot_add_header mk_cgi_server_port port iov;
  a ← sr_host_alias sr;
  iov ← prot_add_header mk_cgi_server_name {| data := Some (ha_name a); len := ha_len a |} iov;
  iov ← prot_add_header mk_cgi_server_protocol mk_server_protocol iov;
  s ← data (h_header_host_signature h);
  s ← padd s 8;
  prot_add_header mk_cgi_server_signature {| data := Some s; len := u64 (len (h_header_host_signature h) - 8) |} iov.

(** Those behind them; [addr] is the text of the peer and [peer_port] what the
    program takes for its port. *)
Definition add_remote (addr : mk_pointer) (peer_port : Z) (sr : session_request) (iov : mk_iov) : option mk_iov :=
  iov ← prot_add_header mk_cgi_remote_addr addr iov;
  p ← number peer_port 8;
  iov ← add_entry iov mk_cgi_remote_port mk_iov_equal MK_IOV_NOT_FREE_BUF;
  iov ← add_entry iov p mk_iov_crlf MK_IOV_FREE_BUF;
  iov ← prot_add_header mk_cgi_gateway_interface mk_cgi_version iov;
  let query := 0 <? len (sr_query_string sr) in
  let uri_len := if query then u64 (len (sr_uri sr) + len (sr_query_string sr) + 1) else len (sr_uri sr) in
  iov ← prot_add_header mk_cgi_request_uri {| data := data (sr_uri sr); len := uri_len |} iov;
  iov ← prot_add_header mk_cgi_request_method (sr_method_p sr) iov;
  iov ← prot_add_header mk_cgi_script_name (sr_uri sr) iov;
  iov ← prot_add_header mk_cgi_script_filename (sr_real_path sr) iov;
  iov ← (if query then prot_add_header mk_cgi_query_string (sr_query_string sr) iov else Some iov);
  iov ← (if (0 <? sr_content_length sr) && (0 <? len (sr_data sr)) then prot_add_header mk_cgi_post_vars (sr_data sr) iov else Some iov);
  add_entry iov mk_iov_crlfcrlf mk_iov_none MK_IOV_NOT_FREE_BUF.

(** The vector of the thread, emptied. *)
Definition prot_template (iov : mk_iov) : mk_iov :=
  let iov := snd (mk_iov_free_marked iov) in
  {| io := io iov; buf_to_free := buf_to_free iov; iov_idx := 0; buf_idx := 0; size := size iov; total_len := 0 |}.

(** The vector and the buffer of addresses of the thread afterwards, and whether
    there is a request: not without the address of the peer. *)
Definition mk_palm_protocol_request_new (port : mk_pointer) (peer_port : Z) (cs : client_session) (sr : session_request) (iov : mk_iov) (ip : bytes)
    : M (mk_iov * bytes * bool) :=
  iov ← lift (add_server port sr (prot_template iov));
  iov ← lift (add_rows (sr_headers_toc sr) iov);
  addr ← mk_socket_ip_str (cs_socket cs) ip (INET6_ADDRSTRLEN + 1);
  match addr with
  | None => mret (iov, ip, false)
  | Some (buf, n) =>
    iov ← lift (add_remote {| data := Some buf; len := n |} peer_port sr iov);
    mret (iov, buf, true)
  end.
End Request.

(** [mk_palm_protocol_thread_init] *)
Definition palm_iov_init : option mk_iov := mk_iov_create 128 0.
