(* ===== verification/PalmVars.v ===== *)
(** * plugins/palm: the variables of a request reach the Palm server

    What a request is sent as, how its reader gets the variables back, and the
    header lines whose name does not fit the memory made for it. *)
From S2P Require Import Prelude CString MkString MkMemory MkTypes MkToc MkSession MkResponse MkSocket FcgiProtocol FcgiEnv PalmProtocol.
Import Iov.
Local Open Scope Z_scope.

(** ** Names of header lines *)

Fixpoint starts_nocase (p s : bytes) : bool :=
  match p, s with
  | [], _ => true
  | c :: p, d :: s => (tolower d =? tolower c) && starts_nocase p s
  | _, [] => false
  end.
Definition unprefixed (name : bytes) : bool := starts_nocase (lit "Content-") name || starts_nocase (lit "Cookie-") name.
Definition cgi_name (name : bytes) : bytes := if unprefixed name then map env_char name else env_name name.

Lemma strncasecmp_prefix p : forall s x,
  0 ∉ s -> Forall (fun c => tolower c <> 58 /\ c <> 0) p ->
  exists r, strncasecmp (s ++ 58 :: x) (p ++ [0]) (Z.of_nat (length p)) = Some r /\ (r =? 0) = starts_nocase p s.
Proof.
  induction p as [|c p IH]; intros s x H0 Hp; [exists 0; split; [destruct s; reflexivity|reflexivity]|].
  apply Forall_cons in Hp as [[Hc Hc0] Hp]. unfold strncasecmp. cbn [length]. destruct s as [|d s].
  - exists (tolower 58 - tolower c). cbn [app strncmp_by]. replace (_ <=? 0) with false by zb.
    change (tolower 58) with 58. replace (58 =? tolower c) with false by zb. cbn [negb starts_nocase]. split; [done|]. zb.
  - apply not_elem_of_cons in H0 as [Hd H0]. cbn [app strncmp_by starts_nocase]. replace (_ <=? 0) with false by zb.
    destruct (tolower d =? tolower c) eqn:E; cbn [negb andb].
    + replace (d =? 0) with false by zb. destruct (IH s x H0 Hp) as (r & Hr & Hr0). exists r. split; [|done].
      unfold strncasecmp in Hr. rewrite <- Hr. f_equal. lia.
    + exists (tolower d - tolower c). split; [done|]. zbool. zb.
Qed.

Lemma header2cgi_run s : forall m i offset rest pre mid z post,
  58 ∉ s -> Z.of_nat (length pre) = offset + i -> length mid = length s ->
  header2cgi_loop (s ++ 58 :: rest) (length s + S m) i offset (pre ++ mid ++ z :: post) =
  Some (pre ++ map env_char s ++ 0 :: post, i + Z.of_nat (length s)).
Proof.
  induction s as [|c s IH]; intros m i offset rest pre mid z post H58 Hp Hm.
  - destruct mid; [|done]. cbn [app length Nat.add header2cgi_loop map]. change (58 =? 58) with true. cbv iota.
    change (z :: post) with ([z] ++ post). rewrite (bwrite_app pre [z] post [0]) by (done || lia). mstep. now rewrite Z.add_0_r.
  - apply not_elem_of_cons in H58 as [Hc H58]. destruct mid as [|d mid]; [done|]. cbn [length] in Hm.
    cbn [app length Nat.add header2cgi_loop]. replace (c =? 58) with false by zb. fold (env_char c).
    change (pre ++ d :: mid ++ z :: post) with (pre ++ [d] ++ mid ++ z :: post).
    rewrite (bwrite_app pre [d] (mid ++ z :: post) [env_char c]) by (done || lia). mstep. rewrite app_assoc.
    rewrite (IH m (i + 1) offset rest (pre ++ [env_char c]) mid z post); [|done|rewrite length_app; cbn; lia|lia].
    rewrite <- app_assoc. cbn [map app]. do 2 f_equal. lia.
Qed.

Lemma header2cgi_overrun s : forall m i offset rest dest,
  58 ∉ s -> Z.of_nat (length dest) <= offset + i + Z.of_nat (length s) -> header2cgi_loop (s ++ 58 :: rest) (length s + S m) i offset dest = None.
Proof.
  induction s as [|c s IH]; intros m i offset rest dest H58 Hd.
  - cbn [app length Nat.add header2cgi_loop]. change (58 =? 58) with true. cbv iota. rewrite bwrite_out; [done|]. cbn in *. lia.
  - apply not_elem_of_cons in H58 as [Hc H58]. cbn [app length Nat.add header2cgi_loop]. replace (c =? 58) with false by zb.
    destruct (bwrite dest _ _) as [dest'|] eqn:E; mstep; [|done]. apply bwrite_length in E. apply IH; [done|]. cbn [length] in Hd. lia.
Qed.

(** The name of a line "Name: value" is written in capitals, behind "HTTP_"
    unless it starts with Content- or Cookie-, ends in NUL and has the length
    returned, in memory that is one byte longer than the line. A name that is
    prefixed does not fit when its value has less than three characters: it is
    written past the end of the memory. *)
Lemma prot_header2cgi_spec name value rest dest :
  58 ∉ name -> 0 ∉ name -> length dest = (length name + 2 + length value + 1)%nat ->
  prot_header2cgi (name ++ lit ": " ++ value ++ rest) (Z.of_nat (length name + 2 + length value)) dest =
  if unprefixed name then Some (map env_char name ++ 0 :: drop (length name + 1) dest, Z.of_nat (length name))
  else if (length value <? 3)%nat then None
  else Some (env_name name ++ 0 :: drop (length name + 6) dest, Z.of_nat (length (env_name name))).
Proof.
  intros H58 H0 Hd. unfold prot_header2cgi. change (lit ": " ++ value ++ rest) with (58 :: 32 :: value ++ rest).
  destruct (strncasecmp_prefix (lit "Content-") name (32 :: value ++ rest) H0) as (r1 & E1 & Z1); [decide_closed|].
  destruct (strncasecmp_prefix (lit "Cookie-") name (32 :: value ++ rest) H0) as (r2 & E2 & Z2); [decide_closed|].
  change (lit "Content-" ++ [0]) with (clit "Content-") in E1. change (Z.of_nat (length (lit "Content-"))) with 8 in E1.
  change (lit "Cookie-" ++ [0]) with (clit "Cookie-") in E2. change (Z.of_nat (length (lit "Cookie-"))) with 7 in E2.
  rewrite E1. mstep. rewrite E2. rewrite Nat2Z.id. replace (length name + 2 + length value)%nat with (length name + S (1 + length value))%nat by lia.
  set (u := unprefixed name). assert (Hu : exists r, (if r1 =? 0 then Some 0 else Some r2) = Some r /\ (r1 =? 0) || (r =? 0) = u).
  { unfold u, unprefixed. rewrite <- Z1, <- Z2. destruct (r1 =? 0) eqn:E; [exists 0|exists r2]; split; try done. }
  destruct Hu as (r & -> & Hu). mstep. rewrite Hu. clearbody u. destruct u; mstep.
  - destruct (split_length dest (length name) (S (2 + length value))) as (mid & post & -> & Hmid & Hpost); [lia|].
    destruct post as [|z post]; [done|]. rewrite (header2cgi_run name (1 + length value) 0 0 _ [] mid z post) by (done || lia). mstep.
    rewrite drop_app_ge by lia.
    replace (length name + 1 - length mid)%nat with 1%nat by lia. cbn [drop app]. do 2 f_equal. lia.
  - destruct (length value <? 3)%nat eqn:E; [apply Nat.ltb_lt in E|apply Nat.ltb_ge in E].
    + destruct (bwrite dest 0 (lit "HTTP_")) as [dest'|] eqn:Ew; mstep; [|done]. apply bwrite_length in Ew.
      rewrite (header2cgi_overrun name); [done|done|]. lia.
    + destruct (split_length dest 5 (length name + (length value - 2))) as (five & d2 & -> & H5 & Hd2); [lia|].
      change (five ++ d2) with ([] ++ five ++ d2). rewrite (bwrite_app [] five d2 (lit "HTTP_")) by done. mstep. cbn [app].
      destruct (split_length d2 (length name) (S (length value - 3))) as (mid & post & -> & Hmid & Hpost); [lia|].
      destruct post as [|z post]; [done|]. rewrite (header2cgi_run name (1 + length value) 0 5 _ (lit "HTTP_") mid z post) by (done || lia). mstep.
      unfold env_name. rewrite length_app, length_map. change (length (lit "HTTP_")) with 5%nat. rewrite <- app_assoc.
      assert (Hpast : drop (length name + 6) (five ++ mid ++ z :: post) = post).
      { rewrite app_assoc, drop_app_ge by (rewrite length_app; lia). rewrite length_app.
        by replace (length name + 6 - (length five + length mid))%nat with 1%nat by lia. }
      rewrite Hpast. do 2 f_equal. lia.
Qed.

(** ** The text of a request *)

Definition var_line (kv : bytes * bytes) : bytes := kv.1 ++ lit "=" ++ kv.2 ++ crlf.
Definition var_lines (l : list (bytes * bytes)) : bytes := concat (map var_line l).
Definition palm_text (l : list (bytes * bytes)) : bytes := var_lines l ++ crlf ++ crlf.

(** How a Palm server reads it: lines up to an empty one, each a name and a
    value around the first "=". *)
Fixpoint split_eq (s : bytes) : option (bytes * bytes) :=
  match s with
  | [] => None
  | c :: s => if c =? 61 then Some ([], s) else '(k, v) ← split_eq s; Some (c :: k, v)
  end.
Fixpoint read_vars (fuel : nat) (s : bytes) : option (list (bytes * bytes)) :=
  match fuel with
  | O => None
  | S fuel =>
    '(l, rest) ← split_crlf s;
    match l with [] => Some [] | _ => kv ← split_eq l; r ← read_vars fuel rest; Some (kv :: r) end
  end.

Lemma split_eq_run k v : 61 ∉ k -> split_eq (k ++ 61 :: v) = Some (k, v).
Proof.
  induction k as [|c k IH]; intros H; [done|]. apply not_elem_of_cons in H as [Hc H]. cbn [app split_eq]. replace (c =? 61) with false by zb.
  by rewrite IH.
Qed.

Lemma split_crlf_run l rest : 13 ∉ l -> split_crlf (l ++ crlf ++ rest) = Some (l, rest).
Proof.
  unfold crlf. induction l as [|c l IH]; intros H; [reflexivity|]. apply not_elem_of_cons in H as [Hc H]. specialize (IH H).
  destruct l as [|d l]; cbn [app] in *; rewrite split_crlf_cons; replace (c =? 13) with false by zb; cbn [andb]; rewrite IH; reflexivity.
Qed.

Definition var_ok (kv : bytes * bytes) : Prop := 61 ∉ kv.1 /\ 13 ∉ kv.1 /\ 13 ∉ kv.2.

Lemma read_vars_run l : Forall var_ok l -> read_vars (S (length l)) (palm_text l) = Some l.
Proof.
  unfold palm_text. induction 1 as [|[k v] l (Hk & Hk13 & Hv) H IH]; [reflexivity|]. cbn [fst snd] in *. cbn [length]. remember (S (length l)) as n. cbn [read_vars].
  unfold var_lines. cbn [map concat]. fold (var_lines l).
  assert (Hline : var_line (k, v) = (k ++ 61 :: v) ++ crlf) by (unfold var_line; cbn [fst snd]; by rewrite <- app_assoc).
  rewrite Hline, <- !app_assoc. rewrite (app_assoc k (61 :: v)), split_crlf_run.
  2: { rewrite not_elem_of_app. split; [done|]. apply not_elem_of_cons. split; [done|done]. }
  mstep. destruct (k ++ 61 :: v) as [|c r] eqn:E; [by destruct k|]. rewrite <- E, split_eq_run by done. mstep. by rewrite IH.
Qed.

(** ** The variables of a request *)

Record palm_vars := {
  pv_root : bytes; pv_length : option Z; pv_type : option bytes; pv_port : bytes; pv_name : bytes; pv_signature : bytes;
  pv_headers : list (bytes * bytes); pv_addr : bytes; pv_peer_port : Z; pv_uri : bytes; pv_query : option bytes; pv_method : bytes;
  pv_path : bytes; pv_post : option bytes
}.

Definition opt_var (name : string) (v : option bytes) : list (bytes * bytes) := match v with Some v => [(lit name, v)] | None => [] end.
Definition server_vars (v : palm_vars) : list (bytes * bytes) :=
  [(lit "DOCUMENT_ROOT", pv_root v)] ++ opt_var "CONTENT_LENGTH" (option_map dec (pv_length v)) ++ opt_var "CONTENT_TYPE" (pv_type v) ++
  [(lit "SERVER_PORT", pv_port v); (lit "SERVER_NAME", pv_name v); (lit "SERVER_PROTOCOL", lit "HTTP/1.1"); (lit "SERVER_SIGNATURE", pv_signature v)].
Definition header_vars (v : palm_vars) : list (bytes * bytes) := map (fun kv => (cgi_name kv.1, kv.2)) (pv_headers v).
Definition remote_vars (v : palm_vars) : list (bytes * bytes) :=
  [(lit "REMOTE_ADDR", pv_addr v); (lit "REMOTE_PORT", dec (pv_peer_port v)); (lit "GATEWAY_INTERFACE", lit "CGI/1.1");
   (lit "REQUEST_URI", match pv_query v with Some q => pv_uri v ++ lit "?" ++ q | None => pv_uri v end);
   (lit "REQUEST_METHOD", pv_method v); (lit "SCRIPT_NAME", pv_uri v); (lit "SCRIPT_FILENAME", pv_path v)] ++
  opt_var "QUERY_STRING" (pv_query v) ++ opt_var "POST_VARS" (pv_post v).
Definition all_vars (v : palm_vars) : list (bytes * bytes) := server_vars v ++ header_vars v ++ remote_vars v.

(** A pointer to a text. *)
Definition shows (p : mk_pointer) (s : bytes) : Prop := reads (data p) (len p) s.

(** A row of the line "Name: value" that the memory of its name can hold. *)
Record palm_row (row : header_toc_row) (kv : bytes * bytes) : Prop := {
  pr_init : row_init row = kv.1 ++ lit ": " ++ kv.2 ++ row_end row;
  pr_colon : 58 ∉ kv.1;
  pr_text : 0 ∉ kv.1;
  pr_short : Z.of_nat (length kv.1 + length kv.2) < 2 ^ 15 - 2;
  pr_room : unprefixed kv.1 = true \/ (3 <= length kv.2)%nat;
}.

(** Each step adds its lines. *)
Definition adds (n : nat) (f : mk_iov -> option mk_iov) (l : list (bytes * bytes)) : Prop :=
  appends (4 * Z.of_nat n) f (var_lines l).

Lemma adds_nil : adds 0 Some [].
Proof. apply appends_skip. Qed.
Lemma adds_bind n m f g l k : adds n f l -> adds m g k -> adds (n + m) (fun iov => iov ← f iov; g iov) (l ++ k).
Proof.
  intros Hf Hg. unfold adds, var_lines. rewrite map_app, concat_app, Nat2Z.inj_add, Z.mul_add_distr_l.
  apply appends_bind; [exact Hf|exact Hg|lia].
Qed.
Lemma adds_more n m f l : adds n f l -> (n <= m)%nat -> adds m f l.
Proof. intros H Hn. eapply appends_more; [|exact H]. lia. Qed.
Lemma adds_ext n f g l : (forall iov, f iov = g iov) -> adds n f l -> adds n g l.
Proof. intros He Hf iov d k H Hk. rewrite <- He. now apply Hf. Qed.

Lemma shows_name s : Z.of_nat (length (lit s)) < 2 ^ 64 -> shows (mk_pointer_init s) (lit s).
Proof. intros H. unfold shows. rewrite mk_pointer_init_lit. by apply reads_lit. Qed.
Lemma reads_equal : reads (data mk_iov_equal) (len mk_iov_equal) (lit "=").
Proof. apply (shows_name "="). done. Qed.

(** A name and a value in two entries. *)
Lemma adds_pair h free1 x free2 k v :
  shows h k -> shows x v -> (free1 = MK_IOV_FREE_BUF -> data h <> None) -> (free2 = MK_IOV_FREE_BUF -> data x <> None) ->
  adds 1 (fun iov => iov ← add_entry iov h mk_iov_equal free1; add_entry iov x mk_iov_crlf free2) [(k, v)].
Proof.
  intros Hk Hv H1 H2. unfold adds, var_lines, var_line. cbn [map concat fst snd]. rewrite app_nil_r, app_assoc. change (4 * Z.of_nat 1) with (2 + 2).
  apply appends_bind; [|eapply appends_more; [|apply appends_entry; [exact Hv|apply reads_crlf|done]]; done|lia].
  eapply appends_more; [|apply appends_entry; [exact Hk|apply reads_equal|done]]. done.
Qed.

Lemma adds_header s x v : Z.of_nat (length (lit s)) < 2 ^ 64 -> shows x v -> adds 1 (prot_add_header (mk_pointer_init s) x) [(lit s, v)].
Proof. intros Hs Hv. apply adds_pair; [by apply shows_name|done|done|done]. Qed.

Lemma adds_option (b : bool) f s v :
  (b = true -> exists t, v = Some t /\ adds 1 f [(lit s, t)]) -> (b = false -> v = None) ->
  adds 1 (fun iov => if b then f iov else Some iov) (opt_var s v).
Proof.
  intros Ht Hf. destruct b; [destruct (Ht eq_refl) as (t & -> & H); exact H|]. rewrite Hf by done. apply (adds_more 0); [apply adds_nil|lia].
Qed.

Section Request.
Context `{env : Env} `{peers : PeerNames}.

Lemma junk_length n : length (junk n) = Z.to_nat n.
Proof. unfold junk. by rewrite length_map, length_seq. Qed.

Lemma number_run value size :
  - 2 ^ 31 < value < 2 ^ 31 -> Z.of_nat (length (dec value)) + 3 <= size < 2 ^ 31 ->
  exists p, number value size = Some p /\ shows p (dec value) /\ data p <> None.
Proof.
  intros Hv Hs. unfold number.
  destruct (mk_string_itop_fit value (junk size) Hv) as (rest & Hi & Hl); [rewrite dec_itop, junk_length by done; lia|].
  rewrite dec_itop in Hi, Hl by done. rewrite Hi. mstep. eexists. split; [reflexivity|]. split; [|done].
  unfold shows. cbn [data len]. apply reads_text; lia.
Qed.

Lemma number_short value : -1 <= value < 2 ^ 16 -> Z.of_nat (length (dec value)) <= 5.
Proof.
  intros H. unfold dec. rewrite length_app, length_rev. destruct (decide (value = -1)) as [->|Hne]; [clear; vm_compute; discriminate|].
  replace (value <? 0) with false by zb. rewrite (itop_digits_fuel 5) by (cbn; lia). pose proof (itop_digits_length 5 (Z.abs value)). cbn [length]. lia.
Qed.

(** What a request consists of. *)
Record palm_says (port : mk_pointer) (sr : session_request) (v : palm_vars) : Prop := {
  ps_port : shows port (pv_port v);
  ps_host : exists h s, request_vhost sr = Some h /\ shows (h_documentroot h) (pv_root v) /\
    data (h_header_host_signature h) = Some s /\ len (h_header_host_signature h) = 8 + Z.of_nat (length (pv_signature v)) /\
    exists pre rest, s = pre ++ pv_signature v ++ rest /\ length pre = 8%nat;
  ps_signature : Z.of_nat (length (pv_signature v)) < 2 ^ 63;
  ps_alias : exists a, sr_host_alias sr = Some a /\ shows {| data := Some (ha_name a); len := ha_len a |} (pv_name v);
  ps_length : pv_length v = if (sr_method sr =? HTTP_METHOD_POST) && (0 <=? sr_content_length sr) then Some (sr_content_length sr) else None;
  ps_length_int : sr_content_length sr < 2 ^ 31;
  ps_type : if 0 <? len (sh_content_type (sr_headers sr)) then exists t, pv_type v = Some t /\ shows (sh_content_type (sr_headers sr)) t else pv_type v = None;
  ps_headers : Forall2 palm_row (sr_headers_toc sr) (pv_headers v);
  ps_peer : -1 <= pv_peer_port v < 2 ^ 16;
  ps_uri : shows (sr_uri sr) (pv_uri v);
  ps_query : if 0 <? len (sr_query_string sr) then exists q, pv_query v = Some q /\ shows (sr_query_string sr) q /\
      (** the query follows the URI in memory *)
      shows {| data := data (sr_uri sr); len := len (sr_uri sr) + len (sr_query_string sr) + 1 |} (pv_uri v ++ lit "?" ++ q)
    else pv_query v = None;
  ps_method : shows (sr_method_p sr) (pv_method v);
  ps_path : shows (sr_real_path sr) (pv_path v);
  ps_post : if (0 <? sr_content_length sr) && (0 <? len (sr_data sr)) then exists d, pv_post v = Some d /\ shows (sr_data sr) d else pv_post v = None;
}.

Lemma add_server_run port sr v : palm_says port sr v -> adds 7 (add_server port sr) (server_vars v).
Proof.
  intros H. destruct (ps_host _ _ _ H) as (h & s & Hh & Hroot & Hs & Hlen & pre & rest & -> & Hpre). destruct (ps_alias _ _ _ H) as (a & Ha & Hname).
  set (sig := {| data := Some (pv_signature v ++ rest); len := Z.of_nat (length (pv_signature v)) |}).
  apply (adds_ext _ (fun iov =>
    iov ← prot_add_header mk_cgi_document_root (h_documentroot h) iov;
    iov ← (fun iov => if (sr_method sr =? HTTP_METHOD_POST) && (0 <=? sr_content_length sr)
           then p ← number (sr_content_length sr) 32; prot_add_header mk_cgi_content_length p iov else Some iov) iov;
    iov ← (fun iov => if 0 <? len (sh_content_type (sr_headers sr)) then prot_add_header mk_cgi_content_type (sh_content_type (sr_headers sr)) iov else Some iov) iov;
    iov ← prot_add_header mk_cgi_server_port port iov;
    iov ← prot_add_header mk_cgi_server_name {| data := Some (ha_name a); len := ha_len a |} iov;
    iov ← prot_add_header mk_cgi_server_protocol mk_server_protocol iov;
    prot_add_header mk_cgi_server_signature sig iov)).
  { intros iov. unfold add_server. rewrite Hh. mstep. destruct (prot_add_header _ _ _) as [i1|]; mstep; [|done].
    destruct (if (_ =? _) && _ then _ else _) as [i2|]; mstep; [|done]. destruct (if 0 <? _ then _ else _) as [i3|]; mstep; [|done].
    destruct (prot_add_header mk_cgi_server_port _ _) as [i4|]; mstep; [|done]. rewrite Ha. mstep.
    destruct (prot_add_header mk_cgi_server_name _ _) as [i5|]; mstep; [|done].
    destruct (prot_add_header mk_cgi_server_protocol _ _) as [i6|]; mstep; [|done].
    rewrite Hs. mstep. unfold padd. rewrite length_app. replace (_ && _) with true by zb. mstep.
    change (Z.to_nat 8) with 8%nat. rewrite <- Hpre, drop_app_length. unfold sig. pose proof (ps_signature _ _ _ H).
    rewrite Hlen. replace (8 + _ - 8) with (Z.of_nat (length (pv_signature v))) by lia. rewrite u64_small by lia. reflexivity. }
  apply (adds_bind 1 6 _ _ [_]); [by apply adds_header|].
  apply (adds_bind 1 5).
  { apply adds_option; [intros Hb|intros Hb; by rewrite (ps_length _ _ _ H), Hb].
    exists (dec (sr_content_length sr)). rewrite (ps_length _ _ _ H), Hb. split; [done|]. apply andb_prop in Hb as [_ Hb]. zbool.
    destruct (number_run (sr_content_length sr) 32) as (p & Hp & Hshow & _); [pose proof (ps_length_int _ _ _ H); lia|pose proof (dec_length (sr_content_length sr)); lia|].
    eapply adds_ext; [|apply (adds_header "CONTENT_LENGTH" p); [done|exact Hshow]]. intros iov. by rewrite Hp. }
  apply (adds_bind 1 4).
  { pose proof (ps_type _ _ _ H) as Ht. apply adds_option; intros Hb; rewrite Hb in Ht; [|done].
    destruct Ht as (t & Ht & Hshow). exists t. split; [done|]. by apply adds_header. }
  apply (adds_bind 1 3 _ _ [_]); [apply adds_header; [done|apply H]|].
  apply (adds_bind 1 2 _ _ [_]); [by apply adds_header|].
  apply (adds_bind 1 1 _ _ [_]); [apply adds_header; [done|by apply shows_name]|].
  apply adds_header; [done|]. unfold shows, sig. cbn [data len]. pose proof (ps_signature _ _ _ H). apply reads_text; lia.
Qed.

Lemma add_row_run row kv : palm_row row kv -> adds 1 (add_row row) [(cgi_name kv.1, kv.2)].
Proof.
  intros [Hi Hc H0 Hs Hroom]. destruct kv as [name value]. cbn [fst snd] in *.
  assert (Hlen : pdiff (row_end row) (row_init row) = Z.of_nat (length name + 2 + length value)) by (unfold pdiff; rewrite Hi, !length_app; cbn; lia).
  set (dest := junk (Z.of_nat (length name + 2 + length value) + 1)).
  assert (Hd : length dest = (length name + 2 + length value + 1)%nat) by (unfold dest; rewrite junk_length; lia).
  assert (Hrun : exists rest, prot_header2cgi (row_init row) (Z.of_nat (length name + 2 + length value)) dest =
      Some (cgi_name name ++ 0 :: rest, Z.of_nat (length (cgi_name name))) /\
    exists off, strncmp (cgi_name name ++ 0 :: rest) (clit "HTTP_") 5 = Some off /\ (if off =? 0 then 5 else 0) = Z.of_nat (length (cgi_name name)) - Z.of_nat (length name)).
  { rewrite Hi. pose proof (prot_header2cgi_spec name value (row_end row) dest Hc H0 Hd) as Hspec. unfold cgi_name in *.
    destruct (unprefixed name) eqn:Eu.
    - eexists. rewrite length_map. split; [exact Hspec|]. destruct name as [|c name]; [discriminate|].
      assert (Hcap : env_char c = 67).
      { unfold unprefixed in Eu. cbn [lit map starts_nocase] in Eu. assert (Ec : tolower c = 99) by (apply orb_prop in Eu as [Eu|Eu]; apply andb_prop in Eu as [Eu _]; by apply Z.eqb_eq in Eu).
        unfold tolower in Ec. case_if_in Ec; zbool; [assert (c = 67) as -> by lia|subst c]; reflexivity. }
      exists (67 - 72). cbn [map app]. rewrite Hcap. split; [reflexivity|]. change (67 - 72 =? 0) with false. cbv iota. lia.
    - destruct Hroom as [?|Hroom]; [done|]. replace (length value <? 3)%nat with false in Hspec by (symmetry; apply Nat.ltb_ge; lia).
      eexists. split; [exact Hspec|]. exists 0. split.
      { unfold env_name. rewrite <- app_assoc. generalize (map env_char name ++ 0 :: drop (length name + 6) dest). intros x. by destruct x. }
      unfold env_name. rewrite length_app, length_map. cbn. lia. }
  destruct Hrun as (rest & Hrun & off & Hoff & Hpos). set (key := cgi_name name) in *.
  eapply adds_ext; [|apply (adds_pair {| data := Some (key ++ 0 :: rest); len := Z.of_nat (length key) |} MK_IOV_FREE_BUF
    {| data := Some (value ++ row_end row); len := Z.of_nat (length value) |} MK_IOV_NOT_FREE_BUF key value)].
  - intros iov. unfold add_row. rewrite Hlen, i16_small by lia. fold dest. rewrite Hrun. mstep. destruct (add_entry _ _ _ _) as [i1|]; mstep; [|done].
    rewrite Hoff. mstep. rewrite Hpos. replace (_ - _ + 2) with (Z.of_nat (length name + 2)) by lia.
    assert (Hp : padd (row_init row) (Z.of_nat (length name + 2)) = Some (value ++ row_end row)).
    { rewrite Hi. change (lit ": " ++ value ++ row_end row) with ([58; 32] ++ value ++ row_end row). rewrite app_assoc. rewrite padd_app by (rewrite length_app; cbn; lia).
      f_equal. rewrite drop_ge by (rewrite length_app; cbn; lia). reflexivity. }
    rewrite Hp. mstep. do 2 f_equal. rewrite u64_small; lia.
  - unfold shows. cbn [data len]. apply reads_text; [done|]. unfold key, cgi_name, env_name. case_if; rewrite ?length_app, length_map; [lia|cbn; lia].
  - unfold shows. cbn [data len]. apply reads_text; lia.
  - done.
  - done.
Qed.

Lemma add_rows_run toc kvs : Forall2 palm_row toc kvs -> adds (length kvs) (add_rows toc) (map (fun kv => (cgi_name kv.1, kv.2)) kvs).
Proof.
  induction 1 as [|row kv toc kvs Hrow H IH]; [apply adds_nil|]. cbn [length map add_rows].
  apply (adds_bind 1 (length kvs) _ _ [_]); [by apply add_row_run|exact IH].
Qed.

Lemma add_remote_run port sr v addr :
  palm_says port sr v -> shows addr (pv_addr v) ->
  appends 37 (add_remote addr (pv_peer_port v) sr) (var_lines (remote_vars v) ++ crlf ++ crlf).
Proof.
  intros H Haddr. pose proof (ps_query _ _ _ H) as Hq. pose proof (ps_post _ _ _ H) as Hpost.
  destruct (number_run (pv_peer_port v) 8) as (p & Hp & Hshow & Hdata); [pose proof (ps_peer _ _ _ H); lia|pose proof (number_short _ (ps_peer _ _ _ H)); lia|].
  set (query := 0 <? len (sr_query_string sr)) in *.
  set (uri := {| data := data (sr_uri sr); len := if query then len (sr_uri sr) + len (sr_query_string sr) + 1 else len (sr_uri sr) |}).
  assert (Huri : shows uri (match pv_query v with Some q => pv_uri v ++ lit "?" ++ q | None => pv_uri v end)).
  { unfold uri. destruct query; [destruct Hq as (q & -> & _ & Hq); exact Hq|rewrite Hq]. pose proof (ps_uri _ _ _ H). by destruct (sr_uri sr). }
  assert (Hall : adds 9 (fun iov =>
    iov ← prot_add_header mk_cgi_remote_addr addr iov;
    iov ← (fun iov => iov ← add_entry iov mk_cgi_remote_port mk_iov_equal MK_IOV_NOT_FREE_BUF; add_entry iov p mk_iov_crlf MK_IOV_FREE_BUF) iov;
    iov ← prot_add_header mk_cgi_gateway_interface mk_cgi_version iov;
    iov ← prot_add_header mk_cgi_request_uri uri iov;
    iov ← prot_add_header mk_cgi_request_method (sr_method_p sr) iov;
    iov ← prot_add_header mk_cgi_script_name (sr_uri sr) iov;
    iov ← prot_add_header mk_cgi_script_filename (sr_real_path sr) iov;
    iov ← (fun iov => if query then prot_add_header mk_cgi_query_string (sr_query_string sr) iov else Some iov) iov;
    (if (0 <? sr_content_length sr) && (0 <? len (sr_data sr)) then prot_add_header mk_cgi_post_vars (sr_data sr) iov else Some iov)) (remote_vars v)).
  { apply (adds_bind 1 8 _ _ [_]); [by apply adds_header|].
    apply (adds_bind 1 7 _ _ [_]); [apply adds_pair; [by apply shows_name|exact Hshow|done|done]|].
    apply (adds_bind 1 6 _ _ [_]); [apply adds_header; [done|by apply shows_name]|].
    apply (adds_bind 1 5 _ _ [_]); [by apply adds_header|].
    apply (adds_bind 1 4 _ _ [_]); [apply adds_header; [done|apply H]|].
    apply (adds_bind 1 3 _ _ [_]); [apply adds_header; [done|apply H]|].
    apply (adds_bind 1 2 _ _ [_]); [apply adds_header; [done|apply H]|].
    apply (adds_bind 1 1).
    - apply adds_option; intros Hb; rewrite Hb in Hq; [|done]. destruct Hq as (q & Hq & Hsq & _). exists q. split; [done|]. by apply adds_header.
    - apply adds_option; intros Hb; rewrite Hb in Hpost; [|done]. destruct Hpost as (d & Hd & Hsd). exists d. split; [done|]. by apply adds_header. }
  assert (Hend : appends 1 (fun iov => add_entry iov mk_iov_crlfcrlf mk_iov_none MK_IOV_NOT_FREE_BUF) (crlf ++ crlf)).
  { eapply appends_more; [|rewrite <- (app_nil_r (crlf ++ crlf)); apply appends_entry; [by apply reads_lit|apply reads_none|intros Hf; discriminate Hf]]. done. }
  pose proof (appends_bind 36 1 _ _ _ _ Hall Hend ltac:(lia)) as Hboth. intros iov d k Hat Hk.
  destruct (Hboth iov d k Hat Hk) as (iov' & k' & Hrun & Hrest). exists iov', k'. split; [|exact Hrest]. rewrite <- Hrun. unfold add_remote. fold query.
  unfold mbind, option_bind. destruct (prot_add_header mk_cgi_remote_addr addr iov) as [i1|]; [|done]. rewrite Hp.
  destruct (add_entry i1 _ _ _) as [i2|]; [|done]. destruct (add_entry i2 _ _ _) as [i3|]; [|done].
  destruct (prot_add_header mk_cgi_gateway_interface _ i3) as [i4|]; [|done].
  assert (Hl : (if query then u64 (len (sr_uri sr) + len (sr_query_string sr) + 1) else len (sr_uri sr)) = len uri).
  { unfold uri. cbn [len]. destruct query; [|done]. destruct Hq as (q & _ & _ & Hq1 & Hq2 & _). cbn [data len] in *. rewrite u64_small; lia. }
  cbv zeta. rewrite Hl. change {| data := data (sr_uri sr); len := len uri |} with uri. clear.
  repeat lazymatch goal with |- match ?x with Some _ => _ | None => None end = _ => destruct x; [|done] end. done.
Qed.

Lemma prot_template_at iov d k : iov_at iov d k -> iov_at (prot_template iov) [] 0 /\ size (prot_template iov) = size iov.
Proof. intros [H1 H2 H3 H4 H5 H6]. split; [|done]. split; cbn; try done; lia. Qed.

Lemma palm_request_run port cs sr v iov ip w d k :
  palm_says port sr v -> peer_text w (cs_socket cs) (pv_addr v) -> iov_at iov d k -> size iov = 128 -> length ip = 47%nat ->
  (length (pv_headers v) <= 15)%nat ->
  exists iov' k', mk_palm_protocol_request_new port (pv_peer_port v) cs sr iov ip w = Some ((iov', peer_buffer (pv_addr v) ip, true), w) /\
    iov_at iov' (palm_text (all_vars v)) k' /\ size iov' = 128.
Proof.
  intros H Hpeer Hat Hsize Hip Hn.
  destruct (prot_template_at _ _ _ Hat) as [H0 Hsize0]. rewrite Hsize in Hsize0.
  destruct (add_server_run _ _ _ H _ _ _ H0) as (i1 & k1 & R1 & A1 & B1 & S1); [lia|].
  destruct (add_rows_run _ _ (ps_headers _ _ _ H) _ _ _ A1) as (i2 & k2 & R2 & A2 & B2 & S2); [lia|].
  set (addr := {| data := Some (peer_buffer (pv_addr v) ip); len := Z.of_nat (length (pv_addr v)) |}).
  assert (Haddr : shows addr (pv_addr v)).
  { unfold shows, addr, peer_buffer. cbn [data len]. apply reads_text; [done|]. destruct Hpeer as (? & _ & _ & _ & _ & ?). lia. }
  destruct (add_remote_run _ _ _ _ H Haddr _ _ _ A2) as (i3 & k3 & R3 & A3 & B3 & S3); [lia|].
  exists i3, k3. split; [|split; [|lia]].
  - unfold mk_palm_protocol_request_new. erewrite lift_run by exact R1. erewrite lift_run by exact R2.
    erewrite bind_run by (by apply mk_socket_ip_str_run). cbv beta iota. erewrite lift_run by exact R3. reflexivity.
  - unfold palm_text, all_vars, header_vars. unfold var_lines in *. rewrite !map_app, !concat_app, <- !app_assoc. rewrite app_nil_l, <- !app_assoc in A3. exact A3.
Qed.
(** C28: the request sent to a Palm server consists of the variables of the
    request, a line each, and an empty line; from them a server reads the
    variables back as long as none has a carriage return and no name an equals
    sign. The vector of the thread holds them when there are at most 15 header
    lines. The header lines are "Name: value", shorter than 2^15 bytes, and of
    those that get the prefix HTTP_ none has a value of less than three
    characters, for which the memory of the name would be too small. *)
Theorem palm_request_vars port cs sr v iov ip w d k :
  palm_says port sr v -> peer_text w (cs_socket cs) (pv_addr v) -> iov_at iov d k -> size iov = 128 -> length ip = 47%nat ->
  (length (pv_headers v) <= 15)%nat ->
  (exists iov' k', mk_palm_protocol_request_new port (pv_peer_port v) cs sr iov ip w = Some ((iov', peer_buffer (pv_addr v) ip, true), w) /\
    iov_at iov' (palm_text (all_vars v)) k' /\ size iov' = 128) /\
  (Forall var_ok (all_vars v) -> read_vars (S (length (all_vars v))) (palm_text (all_vars v)) = Some (all_vars v)).
Proof. intros H Hpeer Hat Hsize Hip Hn. split; [by eapply palm_request_run|apply read_vars_run]. Qed.
End Request.

(** ** Examples *)

Definition env_name_of (row : string) : header_toc_row := {| row_init := lit row ++ [13; 10; 0]; row_end := [13; 10; 0]; row_status := 0 |}.
Definition palm_post (rows : list header_toc_row) (post : bytes) : session_request :=
  get_request "/a.php" <| sr_uri := {| data := Some (clit "/a.php?x=1"); len := 6 |} |> <| sr_method := HTTP_METHOD_POST |> <| sr_method_p := mk_pointer_init "POST" |>
    <| sr_real_path := mk_pointer_init "/srv/a.php" |> <| sr_query_string := mk_pointer_init "x=1" |> <| sr_content_length := Z.of_nat (length post) |> <| sr_data := lit_pointer post |>
    <| sr_host_alias := Some {| ha_name := clit "x"; ha_len := 1 |} |> <| sr_headers_toc := rows |>
    <| sr_file_info := {| fi_size := 5; fi_last_modification := 0; fi_flags_read_only := 0; fi_exists := 1; fi_is_file := 1; fi_is_link := 0;
                          fi_is_directory := 0; fi_exec_access := 0; fi_read_access := 1 |} |>.
Definition palm_request (rows : list header_toc_row) (post : bytes) : option bytes :=
  iov ← palm_iov_init;
  '(iov, _, _, _) ← @mk_palm_protocol_request_new example_env local_peer (mk_pointer_init "2001") 4660 (request_session (palm_post rows post))
    (palm_post rows post) iov (repeat 0 47) (request_world (palm_post rows post));
  mk_iov_data iov.
Definition palm_example : palm_vars :=
  {| pv_root := lit "/srv"; pv_length := Some 5; pv_type := None; pv_port := lit "2001"; pv_name := lit "x"; pv_signature := lit "Monkey";
     pv_headers := [(lit "User-Agent", lit "curl")]; pv_addr := lit "127.0.0.1"; pv_peer_port := 4660; pv_uri := lit "/a.php"; pv_query := Some (lit "x=1");
     pv_method := lit "POST"; pv_path := lit "/srv/a.php"; pv_post := Some (lit "a=b&c") |}.

Lemma palm_example_says : @palm_says example_env (mk_pointer_init "2001") (palm_post [env_name_of "User-Agent: curl"] (lit "a=b&c")) palm_example.
Proof.
  split; try (by apply shows_name); try done.
  - eexists _, (clit "Server: Monkey"). split; [reflexivity|]. split; [by apply shows_name|]. split; [reflexivity|]. split; [reflexivity|].
    exists (lit "Server: "), [0]. split; reflexivity.
  - exists {| ha_name := clit "x"; ha_len := 1 |}. split; [reflexivity|]. apply (reads_text (lit "x") [0]); done.
  - constructor; [|constructor]. split; [reflexivity|decide_closed|decide_closed|cbn; lia|right; cbn; lia].
  - apply (reads_text (lit "/a.php") (lit "?x=1" ++ [0])); done.
  - cbn [len sr_query_string palm_post Z.ltb]. eexists. split; [reflexivity|]. split; [by apply shows_name|].
    apply (reads_text (lit "/a.php?x=1") [0]); done.
  - eexists. split; [reflexivity|]. by apply reads_lit.
Qed.

Definition palm_iov_example : mk_iov := default iov_example palm_iov_init.
Lemma palm_request_vars_witness :
  let sr := palm_post [env_name_of "User-Agent: curl"] (lit "a=b&c") in
  (exists iov' k', @mk_palm_protocol_request_new example_env local_peer (mk_pointer_init "2001") 4660 (request_session sr) sr palm_iov_example (repeat 0 47) (request_world sr) =
     Some ((iov', peer_buffer (lit "127.0.0.1") (repeat 0 47), true), request_world sr) /\
   iov_at iov' (palm_text (all_vars palm_example)) k' /\ size iov' = 128) /\
  read_vars 17 (palm_text (all_vars palm_example)) = Some (all_vars palm_example).
Proof.
  intros sr.
  destruct (@palm_request_vars example_env local_peer (mk_pointer_init "2001") (request_session sr) sr palm_example palm_iov_example (repeat 0 47) (request_world sr) [] 0)
    as [H1 H2].
  - exact palm_example_says.
  - exists (AF_INET 1). split; [reflexivity|]. split; [done|]. split; [reflexivity|]. split; [decide_closed|cbn; lia].
  - by split.
  - reflexivity.
  - reflexivity.
  - cbn. lia.
  - split; [exact H1|apply H2]. repeat constructor; decide_closed.
Defined.

(** The data of a request can say what it likes: everything behind a line break
    is a variable of its own. *)
Example palm_post_injects :
  (s ← palm_request [] (lit "a" ++ crlf ++ lit "SCRIPT_FILENAME=/etc/passwd"); l ← read_vars 20 s; Some (drop 14 l)) =
  Some [(lit "POST_VARS", lit "a"); (lit "SCRIPT_FILENAME", lit "/etc/passwd")].
Proof. vm_compute. reflexivity. Qed.

(** The vector has room for 16 header lines here, the request for 32. *)
Example palm_vector_overflows :
  palm_request (repeat (env_name_of "User-Agent: curl") 16) (lit "a") <> None /\ palm_request (repeat (env_name_of "User-Agent: curl") 17) (lit "a") = None.
Proof. split; [intros H; vm_compute in H; discriminate|vm_compute; reflexivity]. Qed.

(** The memory for "HTTP_HOST" is that of the line "Host: x". *)
Example palm_short_value : palm_request [env_name_of "Host: abc"] (lit "a") <> None /\ palm_request [env_name_of "Host: x"] (lit "a") = None.
Proof. split; [intros H; vm_compute in H; discriminate|vm_compute; reflexivity]. Qed.
