(* ===== verification/Palm.v ===== *)
(** * plugins/palm: requests answered by a Palm server (palm.c, request.c)

    A request of a file with a known extension is sent to a server; what it
    answers is kept in a buffer of the request and handed on to the client. *)
From stdpp Require Import gmap.
From S2P Require Import Prelude CString MkString MkMemory MkUtils MkTypes MkToc MkSession MkEpoll MkPlugin MkScheduler MkConfig MkResponse MkConnection.
From S2P Require Import MkSocket PluginState FcgiEnv Chunked PalmProtocol.
Import Iov.
Local Open Scope Z_scope.

(** ** Data *)

Definition MK_PALM_BUFFER_SIZE : Z := 32768.

(** [struct mk_palm]: a value the configuration does not give is NULL. *)
Record mk_palm := { extension : option bytes; mimetype : option bytes; server_addr : option bytes; server_port : Z }.

(** [struct mk_palm_request]: the session and its request are named by their
    numbers. *)
Record mk_palm_request := {
  client_fd : Z;
  palm_fd : Z;
  in_buffer : bytes;
  out_buffer : bytes;
  in_len : Z;
  out_len : Z;
  in_offset : Z;
  bytes_sent : Z;
  bytes_read : Z;
  headers_sent : bool;
  is_te_chunked : bool;
  pending_end_chunk : bool;
  pr_palm : mk_palm;
  pr_cs : nat;
  pr_sr : nat;
}.
#[export] Instance eta_mk_palm_request : Eta mk_palm_request := fun r =>
  {| client_fd := client_fd r; palm_fd := palm_fd r; in_buffer := in_buffer r; out_buffer := out_buffer r; in_len := in_len r; out_len := out_len r;
     in_offset := in_offset r; bytes_sent := bytes_sent r; bytes_read := bytes_read r; headers_sent := headers_sent r; is_te_chunked := is_te_chunked r;
     pending_end_chunk := pending_end_chunk r; pr_palm := pr_palm r; pr_cs := pr_cs r; pr_sr := pr_sr r |}.

(** The data of a thread: the requests in memory, their list, the vector and the
    buffer of addresses. *)
Record palm_state := {
  pm_heap : gmap nat mk_palm_request;
  pm_next : nat;
  pm_list : list nat;
  iov_protocol_request : mk_iov;
  palm_ip_str : bytes;
}.
#[export] Instance eta_palm_state : Eta palm_state := fun s =>
  {| pm_heap := pm_heap s; pm_next := pm_next s; pm_list := pm_list s; iov_protocol_request := iov_protocol_request s; palm_ip_str := palm_ip_str s |}.

Class PalmGlobals := {
  (** this plugin, in the list of the plugins *)
  palm_plugin : nat;
  palms : list mk_palm;
  mk_server_port : mk_pointer;
  (** the connection the network plugin makes, [writev(2)], and the port of the
      address [getpeername(2)] gives, as it is stored there *)
  palm_socket_connect : list event -> option bytes -> Z -> Z;
  palm_writev : list event -> Z -> bytes -> Z;
  palm_sin_port : list event -> Z -> option Z
}.

Definition SH_CGI : Z := 1.

Abbreviation PM := (P palm_state).

(** ** The list of requests (request.c) *)

Definition get_pr (i : nat) : PM mk_palm_request := s ← getP; liftP (pm_heap s !! i).
Definition put_pr (i : nat) (r : mk_palm_request) : PM unit := modP (fun s => s <| pm_heap := <[i := r]> (pm_heap s) |>).
Definition mod_pr (i : nat) (f : mk_palm_request -> mk_palm_request) : PM unit := r ← get_pr i; put_pr i (f r).

Definition mk_palm_request_create (client_fd palm_fd : Z) (cs sr : nat) (palm : mk_palm) : PM nat :=
  s ← getP;
  let i := pm_next s in
  put_pr i {| client_fd := client_fd; palm_fd := palm_fd; in_buffer := repeat 0 (Z.to_nat MK_PALM_BUFFER_SIZE);
              out_buffer := repeat 0 (Z.to_nat MK_PALM_BUFFER_SIZE); in_len := 0; out_len := 0; in_offset := 0; bytes_sent := 0; bytes_read := 0;
              headers_sent := false; is_te_chunked := false; pending_end_chunk := false; pr_palm := palm; pr_cs := cs; pr_sr := sr |};;
  modP (fun s => s <| pm_next := S i |>);;
  mret i.

Definition mk_palm_request_add (pr : nat) : PM unit := modP (fun s => s <| pm_list := pm_list s ++ [pr] |>).

Fixpoint pr_find (f : mk_palm_request -> bool) (l : list nat) : PM (option nat) :=
  match l with
  | [] => mret None
  | i :: l => r ← get_pr i; if f r then mret (Some i) else pr_find f l
  end.
Definition mk_palm_request_get (fd : Z) : PM (option nat) := s ← getP; pr_find (fun r => palm_fd r =? fd) (pm_list s).
Definition mk_palm_request_get_by_http (socket : Z) : PM (option nat) := s ← getP; pr_find (fun r => client_fd r =? socket) (pm_list s).

Definition mk_palm_request_update (socket : Z) (pr : nat) : PM unit :=
  node ← mk_palm_request_get socket;
  match node with
  | None => mret tt
  | Some i => r ← get_pr pr; mod_pr i (fun n => n <| bytes_sent := bytes_sent r |> <| bytes_read := bytes_read r |> <| headers_sent := headers_sent r |>)
  end.

Definition mk_palm_request_delete (socket : Z) : PM Z :=
  node ← mk_palm_request_get socket;
  match node with
  | None => mret (-1)
  | Some i => modP (fun s => s <| pm_list := List.remove Nat.eq_dec i (pm_list s) |> <| pm_heap := delete i (pm_heap s) |>);; mret 0
  end.

(** ** Extensions *)

(** [while (file->data[j] != '.' && j >= 0) j--]; without a point the byte
    before the text is read. *)
Fixpoint ext_loop (d : bytes) (j : nat) : option nat :=
  match d !! j with
  | None => None
  | Some c => if c =? 46 then Some j else match j with O => None | S j => ext_loop d j end
  end.

(** Names are compared up to the end of the extension of the file. *)
Fixpoint palm_by_extension (p : bytes) (extlen : Z) (l : list mk_palm) : option (option mk_palm) :=
  match l with
  | [] => Some None
  | m :: l => e ← extension m; c ← strncasecmp p e extlen; if c =? 0 then Some (Some m) else palm_by_extension p extlen l
  end.

Definition mk_palm_get_handler (palms : list mk_palm) (file : mk_pointer) : option (option mk_palm) :=
  d ← data file;
  j ← (if i32 (len file) <? 0 then None else ext_loop d (Z.to_nat (i32 (len file))));
  let extlen := i32 (len file - Z.of_nat j - 1) in
  if (j =? 0)%nat then Some None else
  p ← padd d (Z.of_nat j + 1);
  palm_by_extension p (u64 extlen) palms.

Section WithEnv.
Context `{env : Env} `{peers : PeerNames} `{globals : PalmGlobals}.

(** ** The request *)

(** [get_port_by_socket] *)
Definition get_port_by_socket (t : list event) (fd : Z) : Z := match palm_sin_port t fd with Some port => port | None => -1 end.

(** [mk_iov_send] *)
Definition palm_iov_send (fd : Z) (iov : mk_iov) : M Z :=
  d ← lift (mk_iov_data iov);
  t ← gets w_trace;
  let n := palm_writev t fd d in
  emit (EvWrite fd (take (Z.to_nat n) d));;
  mret (if n <? 0 then -1 else n).

(** A request without the address of its peer is NULL, which is sent. *)
Definition mk_palm_send_request (cs sr : nat) : PM Z :=
  c ← call (get_cs cs);
  pr ← mk_palm_request_get_by_http (cs_socket c);
  match pr with
  | None => mret (-1)
  | Some i =>
    r ← get_pr i;
    (if bytes_sent r =? 0 then
       q ← call (get_sr cs sr);
       t ← call (gets w_trace);
       s ← getP;
       '(iov, ip, made) ← call (mk_palm_protocol_request_new mk_server_port (get_port_by_socket t (cs_socket c)) c q (iov_protocol_request s) (palm_ip_str s));
       modP (fun s => s <| iov_protocol_request := iov |> <| palm_ip_str := ip |>);;
       if negb made then liftP None else
       bytes_iov ← call (palm_iov_send (palm_fd r) iov);
       if 0 <=? bytes_iov then mod_pr i (fun r => r <| bytes_sent := u64 (bytes_sent r + bytes_iov) |>) else mret tt
     else mret tt);;
    r ← get_pr i;
    mret (i32 (bytes_sent r))
  end.

Definition mk_palm_connect (palm : mk_palm) (cs sr : nat) (c : client_session) : PM (option nat) :=
  t ← call (gets w_trace);
  let palm_socket := palm_socket_connect t (server_addr palm) (server_port palm) in
  if palm_socket <? 0 then
    call (mk_header_set_http_status cs sr MK_SERVER_INTERNAL_ERROR);;
    mret None
  else i ← mk_palm_request_create (cs_socket c) palm_socket cs sr palm; mret (Some i).

Definition _mkp_stage_30 (cs sr : nat) : PM Z :=
  c ← call (get_cs cs);
  pr ← mk_palm_request_get_by_http (cs_socket c);
  match pr with
  | Some _ => mret MK_PLUGIN_RET_CONTINUE
  | None =>
    q ← call (get_sr cs sr);
    palm ← liftP (mk_palm_get_handler palms (sr_real_path q));
    match palm with
    | None => mret MK_PLUGIN_RET_NOT_ME
    | Some palm =>
      if fi_size (sr_file_info q) =? -1 then mret MK_PLUGIN_RET_NOT_ME else
      pr ← mk_palm_connect palm cs sr c;
      match pr with
      | None => mret MK_PLUGIN_RET_CLOSE_CONX
      | Some i =>
        mk_palm_request_add i;;
        r ← get_pr i;
        _ ← call (mk_plugin_event_add (palm_fd r) MK_EPOLL_READ (Some palm_plugin) MK_EPOLL_LEVEL_TRIGGERED);
        _ ← mk_palm_send_request cs sr;
        mret MK_PLUGIN_RET_CONTINUE
      end
    end
  end.

(** ** The answer *)

Definition mk_palm_write (socket : Z) (buffer : bytes) (len : Z) (is_chunked : bool) : M Z :=
  if len <=? 0 then mret 0 else
  (if is_chunked then
     mk_socket_set_cork_flag socket TCP_CORK_ON;;
     let text := hex len ++ [13; 10] in
     _ ← mk_socket_send socket (snprintf 15 text ++ [0]) (Z.of_nat (length text)); mret tt
   else mret tt);;
  n ← mk_socket_send socket buffer len;
  (if is_chunked then
     _ ← mk_socket_send socket [13; 10; 0] 2;
     mk_socket_set_cork_flag socket TCP_CORK_OFF
   else mret tt);;
  mret n.

Definition mk_palm_send_end_chunk (socket : Z) (pr : mk_palm_request) : M Z :=
  if is_te_chunked pr then mk_socket_send socket (lit "0" ++ [13; 10; 13; 10; 0]) 5 else mret 0.

(** The status the server gives and where the rest of its answer starts. *)
Definition mk_palm_cgi_status (data : bytes) : option (option (Z * Z)) :=
  n ← strlen data;
  if n <=? 8 + 3 then Some None else
  c ← strncmp data (clit "Status: ") 8;
  if negb (c =? 0) then Some None else
  p ← padd data 8;
  digits ← strncpy p 3;
  status ← atoi (digits ++ [0]);
  if status =? 0 then Some None else
  offset ← mk_string_search data [13; 10; 0] MK_STR_SENSITIVE;
  if 0 <? offset then Some (Some (status, offset + 2)) else
  offset ← mk_string_search data [10; 0] MK_STR_SENSITIVE;
  if 0 <? offset then Some (Some (status, offset + 1)) else Some None.

Definition palm_chunks (sr : session_request) : bool :=
  (HTTP_PROTOCOL_11 <=? sr_protocol sr) &&
  ((sh_status (sr_headers sr) <? MK_REDIR_MULTIPLE) || (MK_REDIR_USE_PROXY <? sh_status (sr_headers sr))).

Definition mk_palm_send_headers (i : nat) : PM Z :=
  r ← get_pr i;
  q ← call (get_sr (pr_cs r) (pr_sr r));
  (if sh_status (sr_headers q) =? 0 then call (mk_header_set_http_status (pr_cs r) (pr_sr r) MK_HTTP_OK) else mret tt);;
  call (mod_sr (pr_cs r) (pr_sr r) (set_headers (fun sh => sh <| sh_cgi := SH_CGI |>)));;
  q ← call (get_sr (pr_cs r) (pr_sr r));
  (if palm_chunks q then
     call (mod_sr (pr_cs r) (pr_sr r) (set_headers (fun sh => sh <| sh_transfer_encoding := MK_HEADER_TE_TYPE_CHUNKED |>)));;
     mod_pr i (fun r => r <| is_te_chunked := true |>)
   else mret tt);;
  c ← call (get_cs (pr_cs r));
  n ← call (mk_header_send (cs_socket c) (pr_cs r) (pr_sr r));
  call (mk_socket_set_cork_flag (cs_socket c) TCP_CORK_OFF);;
  mret (i32 n).

(** ** Events *)

Definition _mkp_event_write (sockfd : Z) : PM Z :=
  pr ← mk_palm_request_get_by_http sockfd;
  match pr with
  | None => mret MK_PLUGIN_RET_EVENT_CONTINUE
  | Some i =>
    r ← get_pr i;
    (if (0 <? in_len r) && headers_sent r then
       p ← liftP (padd (in_buffer r) (in_offset r));
       n ← call (mk_palm_write sockfd p (in_len r - in_offset r) (is_te_chunked r));
       (if (0 <=? n) && (n <? in_len r - in_offset r) then
          saved ← liftP (strncpy (in_buffer r) (Z.to_nat (in_len r - n)));
          out ← liftP (bwrite (out_buffer r) 0 saved);
          put_pr i (r <| out_buffer := out |> <| out_len := in_len r - n |>)
        else mret tt);;
       mod_pr i (fun r => r <| in_len := 0 |> <| in_offset := 0 |>)
     else mret tt);;
    mret MK_PLUGIN_RET_EVENT_OWNED
  end.

(** The end of the headers in the buffer. *)
Definition palm_headers_end (buf : bytes) : option (option Z) :=
  e ← mk_string_search buf [13; 10; 13; 10; 0] MK_STR_SENSITIVE;
  e ← (if e <=? 0 then mk_string_search buf [10; 10; 10; 10; 0] MK_STR_SENSITIVE else Some e);
  Some (if e <=? 0 then None else Some (e + 4)).

(** The status, the header of the server and the headers of the program; the
    result is false when the client cannot be written to. *)
Definition palm_first (i : nat) (headers_end : Z) : PM bool :=
  r ← get_pr i;
  status ← liftP (mk_palm_cgi_status (in_buffer r));
  offset ← (match status with
            | None => mret 0
            | Some (code, offset) => call (mod_sr (pr_cs r) (pr_sr r) (set_headers (fun sh => sh <| sh_status := code |>)));; mret offset
            end);
  _ ← mk_palm_send_headers i;
  p ← liftP (padd (in_buffer r) offset);
  n ← call (mk_palm_write (client_fd r) p (headers_end - offset) false);
  if n <? 0 then mret false else
  mod_pr i (fun r => r <| headers_sent := true |> <| in_offset := headers_end + offset |>);;
  mret true.

Definition _mkp_event_read (sockfd : Z) : PM Z :=
  pr ← mk_palm_request_get sockfd;
  match pr with
  | None => mret MK_PLUGIN_RET_EVENT_NEXT
  | Some i =>
    r ← get_pr i;
    got ← call (mk_socket_read (palm_fd r) (MK_PALM_BUFFER_SIZE - in_len r));
    match got with
    | inl (c :: d) =>
      buf ← liftP (bwrite (in_buffer r) (in_len r) (c :: d));
      put_pr i (r <| in_buffer := buf |> <| in_len := in_len r + Z.of_nat (length (c :: d)) |>);;
      headers_end ← (if headers_sent r then mret None else e ← liftP (palm_headers_end buf); mret (Some e));
      match headers_end with
      | Some None => mret MK_PLUGIN_RET_EVENT_OWNED
      | Some (Some e) =>
        ok ← palm_first i e;
        if negb ok then mret MK_PLUGIN_RET_EVENT_CLOSE else
        mk_palm_request_update sockfd i;; mret MK_PLUGIN_RET_EVENT_OWNED
      | None => mk_palm_request_update sockfd i;; mret MK_PLUGIN_RET_EVENT_OWNED
      end
    | _ =>
      q ← call (get_sr (pr_cs r) (pr_sr r));
      (if HTTP_PROTOCOL_11 <=? sr_protocol q then _ ← call (mk_palm_send_end_chunk (client_fd r) r); mret tt else mret tt);;
      mret MK_PLUGIN_RET_EVENT_CLOSE
    end
  end.

(** [fuel] bounds the calls to itself: the end of the request of a client may
    close its connection. *)
Fixpoint hangup (fuel : nat) (sockfd : Z) : PM Z :=
  match fuel with
  | O => liftP None
  | S fuel =>
    pr ← mk_palm_request_get sockfd;
    match pr with
    | Some i =>
      r ← get_pr i;
      _ ← call (mk_plugin_event_del (palm_fd r));
      _ ← plugin_http_request_end (hangup fuel) (client_fd r);
      call (emit (EvClose sockfd));;
      _ ← mk_palm_request_delete sockfd;
      mret MK_PLUGIN_RET_EVENT_CONTINUE
    | None =>
      pr ← mk_palm_request_get_by_http sockfd;
      match pr with
      | Some i =>
        r ← get_pr i;
        call (emit (EvClose (palm_fd r)));;
        _ ← mk_palm_request_delete (palm_fd r);
        mret MK_PLUGIN_RET_EVENT_CONTINUE
      | None => mret MK_PLUGIN_RET_EVENT_CONTINUE
      end
    end
  end.
Definition _mkp_event_close (sockfd : Z) : PM Z := hangup 2 sockfd.
Definition _mkp_event_error (sockfd : Z) : PM Z := hangup 2 sockfd.

(** ** Configuration *)

Fixpoint palm_sections (conf : mk_config) : option (list mk_palm) :=
  match conf with
  | [] => Some []
  | section :: conf =>
    c ← strcasecmp (cs_name section) (clit "PALM");
    if negb (c =? 0) then palm_sections conf else
    ext ← get_str section "Extension";
    mime ← get_str section "Mimetype";
    addr ← get_str section "ServerAddr";
    port ← get_num section "ServerPort" MK_CONFIG_VAL_NUM;
    rest ← palm_sections conf;
    Some ({| extension := ext; mimetype := mime; server_addr := addr; server_port := i32 port |} :: rest)
  end.

(** A file that cannot be read is a NULL configuration. *)
Definition mk_palm_conf (fopen_read : bytes -> option bytes) (confdir : bytes) : option (cfg_result (list mk_palm)) :=
  s ← cstr confdir;
  '(conf_path, _) ← mk_string_build (s ++ lit "/palm.conf");
  conf ← mk_config_create (fopen_read conf_path);
  conf ← conf;
  match conf with
  | CfgExit n e => Some (CfgExit n e)
  | CfgOk conf => l ← palm_sections conf; Some (CfgOk l)
  end.

(** [_mkp_init]: the port printed to six bytes, and the configuration. *)
Definition palm_init (fopen_read : bytes -> option bytes) (confdir : bytes) : option (cfg_result (mk_pointer * list mk_palm)) :=
  port ← number (c_serverport config) 6;
  conf ← mk_palm_conf fopen_read confdir;
  Some (match conf with CfgOk l => CfgOk (port, l) | CfgExit n e => CfgExit n e end).

(** The address of the socket of the server, where the process is to go on
    ([Some]) and not to end. *)
Definition _mkp_core_prctx (getsockname : Z -> option Z) (inet_ntoa : Z -> bytes) (server_fd : Z) : option (option mk_pointer) :=
  match getsockname server_fd with
  | None => Some None
  | Some addr => n ← strlen (inet_ntoa addr); Some (Some {| data := Some (inet_ntoa addr); len := n |})
  end.

(** [_mkp_core_thctx] *)
Definition palm_thctx : option palm_state :=
  iov ← palm_iov_init;
  Some {| pm_heap := ∅; pm_next := 0; pm_list := []; iov_protocol_request := iov; palm_ip_str := junk (INET6_ADDRSTRLEN + 1) |}.
End WithEnv.
