(* ===== verification/PalmOutput.v ===== *)
(** * plugins/palm: the answer of a Palm server reaches its client

    A client that keeps up gets the header of the server, the headers of the
    answer and its body, in chunks or as it is, however reading from the server
    and writing to the client interleave. *)
From stdpp Require Import gmap.
From S2P Require Import Prelude CString MkString MkMemory MkUtils MkTypes MkToc MkSession MkEpoll MkPlugin MkScheduler MkConfig MkResponse MkConnection.
From S2P Require Import MkSocket PluginState FcgiProtocol FcgiEnv Chunked PluginOutput PalmProtocol PalmVars Palm.
Local Open Scope Z_scope.

(** ** The first lines of an answer *)

(** A status line, its status of three digits, or none. *)
Definition palm_status_text (st : option (Z * bytes)) : bytes :=
  match st with Some (status, tail) => lit "Status: " ++ dec status ++ tail ++ crlf | None => [] end.
Definition palm_status_ok (st : option (Z * bytes)) (out : bytes) : Prop :=
  match st with
  | Some (status, tail) => 100 <= status < 1000 /\ 13 ∉ tail /\ 0 ∉ tail
  | None => take 8 out <> lit "Status: "
  end.

Lemma strstr_crlf_first l rest : 13 ∉ l -> 0 ∉ l -> strstr (l ++ crlf ++ rest) [13; 10; 0] = Some (Some (Z.of_nat (length l))).
Proof.
  unfold strstr. induction l as [|c l IH]; intros H13 H0; [reflexivity|].
  apply not_elem_of_cons in H13 as [Hc H13]. apply not_elem_of_cons in H0 as [Hz H0]. cbn [app strstr_by].
  assert (Hs : starts_by eq_cs (c :: l ++ crlf ++ rest) [13; 10; 0] = Some false).
  { cbn [starts_by]. unfold eq_cs. replace (c =? 13) with false by zb. reflexivity. }
  rewrite Hs. mstep. replace (c =? 0) with false by zb. rewrite (IH H13 H0). mstep. unfold osucc. cbn [fmap option_fmap option_map length]. do 2 f_equal. lia.
Qed.

Lemma dec_three status : 100 <= status < 1000 -> exists a b c, dec status = [a; b; c] /\ a <> 0 /\ b <> 0 /\ c <> 0 /\ 13 ∉ dec status /\ 0 ∉ dec status.
Proof.
  intros H. unfold dec. replace (status <? 0) with false by zb. rewrite Z.abs_eq by lia.
  set (a := status / 10). set (b := a / 10).
  assert (1 <= b < 10) by (unfold b, a; rewrite Z.div_div by lia; split; [apply Z.div_le_lower_bound; lia|apply Z.div_lt_upper_bound; lia]).
  assert (1 <= a) by (unfold b in *; pose proof (Z.div_mod a 10); pose proof (Z.mod_pos_bound a 10); lia).
  assert (Hd : itop_digits 20 status = [48 + status mod 10; 48 + a mod 10; 48 + b]).
  { cbn [itop_digits]. fold a. fold b. replace (a =? 0) with false by zb. replace (b =? 0) with false by zb.
    replace (b / 10 =? 0) with true by (rewrite Z.div_small by lia; done). by rewrite (Z.mod_small b) by lia. }
  rewrite Hd. cbn [rev app]. pose proof (Z.mod_pos_bound status 10 ltac:(lia)). pose proof (Z.mod_pos_bound a 10 ltac:(lia)).
  eexists _, _, _. split; [reflexivity|].
  split_and!; try lia; repeat (apply not_elem_of_cons; split; [lia|]); apply not_elem_of_nil.
Qed.

(** The text in a buffer that holds [out] and a NUL. *)
Lemma cstr_of_buffer out r :
  exists s, is_cstr (out ++ 0 :: r) s /\ s `prefix_of` out /\ forall p, 0 ∉ p -> p `prefix_of` out -> p `prefix_of` s.
Proof.
  induction out as [|c out (s & Hs & Hp & Hmax)].
  - exists []. split; [apply is_cstr_nil; by eexists|]. split; [done|]. by intros p _ Hp.
  - destruct (decide (c = 0)) as [-> |Hc].
    + exists []. split; [apply is_cstr_nil; by eexists|]. split; [apply prefix_nil|]. intros [|d p] H0 Hd; [done|].
      apply prefix_cons_inv_1 in Hd as ->. by apply not_elem_of_cons in H0 as [? _].
    + exists (c :: s). split; [apply is_cstr_cons; by exists (out ++ 0 :: r)|]. split; [by apply prefix_cons|]. intros [|d p] H0 Hd; [apply prefix_nil|].
      apply prefix_cons_inv_1 in Hd as Hdc. apply prefix_cons_inv_2 in Hd. subst d. apply prefix_cons, Hmax; [|done]. by apply not_elem_of_cons in H0 as [_ ?].
Qed.

Lemma mk_string_search_run p q : mk_string_search p q MK_STR_SENSITIVE = r ← strstr p q; Some (pos_or_minus1 r).
Proof. unfold mk_string_search, _mk_string_search. reflexivity. Qed.

(** What the plugin takes from the first lines. *)
Lemma palm_status_run st out rest r :
  out = palm_status_text st ++ rest -> palm_status_ok st out ->
  mk_palm_cgi_status (out ++ 0 :: r) = Some (match st with Some (status, _) => Some (status, Z.of_nat (length (palm_status_text st))) | None => None end).
Proof.
  intros Hout Hok. unfold mk_palm_cgi_status. destruct (cstr_of_buffer out r) as (s & Hs & Hp & Hmax).
  rewrite (strlen_cstr _ _ Hs). mstep.
  destruct (strncmp_spec _ _ (lit "Status: ") [0] Hs) as (c & Hc & Hz); [decide_closed|].
  change (lit "Status: " ++ [0]) with (clit "Status: ") in Hc. change (Z.of_nat (length (lit "Status: "))) with 8 in Hc. change (length (lit "Status: ")) with 8%nat in Hz.
  destruct st as [[status tail]|]; cbn [palm_status_text] in *.
  - destruct Hok as (Hst & H13 & H0). destruct (dec_three status Hst) as (x & y & z & Hdec & Hx & Hy & Hzz & Hd13 & Hd0).
    set (line := lit "Status: " ++ dec status ++ tail) in *.
    assert (Hline : out = line ++ crlf ++ rest) by (unfold line; rewrite Hout, <- !app_assoc; reflexivity).
    assert (Hl0 : 0 ∉ line) by (unfold line; rewrite !not_elem_of_app; split; [decide_closed|done]).
    assert (Hl13 : 13 ∉ line) by (unfold line; rewrite !not_elem_of_app; split; [decide_closed|done]).
    assert (Hlen : (11 <= length line)%nat) by (unfold line; rewrite Hdec, !length_app; cbn; lia).
    destruct (Hmax (line ++ crlf)) as [s' Hs']; [rewrite not_elem_of_app; split; [done|decide_closed]|rewrite Hline, app_assoc; by exists rest|].
    replace (Z.of_nat (length s) <=? 8 + 3) with false by (rewrite Hs', !length_app; cbn [length crlf]; zb).
    rewrite Hc. mstep. assert (c = 0) as -> by (apply Hz; rewrite Hs'; unfold line; rewrite <- !app_assoc; reflexivity). cbn [negb Z.eqb].
    assert (Hpadd : padd (out ++ 0 :: r) 8 = Some ([x; y; z] ++ tail ++ crlf ++ rest ++ 0 :: r)).
    { rewrite padd_drop by (rewrite Hline, !length_app; lia). rewrite Hline. unfold line. rewrite Hdec, <- !app_assoc. reflexivity. }
    rewrite Hpadd. mstep. cbn [app strncpy]. replace (x =? 0) with false by zb. replace (y =? 0) with false by zb. replace (z =? 0) with false by zb. mstep.
    rewrite <- Hdec, <- dec_itop, itop_text_atoi by (done || lia). mstep. rewrite !dec_itop by lia. replace (status =? 0) with false by zb.
    rewrite (mk_string_search_run _ [13; 10; 0]), Hline, <- !app_assoc, strstr_crlf_first by done. mstep. cbn [pos_or_minus1].
    replace (0 <? Z.of_nat (length line)) with true by zb.
    replace (lit "Status: " ++ dec status ++ tail ++ crlf) with (line ++ crlf) by (unfold line; by rewrite <- !app_assoc).
    rewrite length_app, Nat2Z.inj_add. reflexivity.
  - destruct (Z.of_nat (length s) <=? 8 + 3) eqn:E; [done|]. zbool. rewrite Hc. mstep.
    replace (c =? 0) with false; [done|]. symmetry. apply Z.eqb_neq. intros H. apply Hz in H. apply Hok. destruct Hp as [x ->].
    rewrite take_app_le; [done|]. lia.
Qed.

Lemma palm_headers_run out body r hdrs :
  ends_headers hdrs -> hdrs <> [] -> out = hdrs ++ empty_line ++ body -> palm_headers_end (out ++ 0 :: r) = Some (Some (Z.of_nat (length hdrs) + 4)).
Proof.
  intros Hends Hne ->. unfold palm_headers_end. rewrite (mk_string_search_run _ [13; 10; 13; 10; 0]), <- !app_assoc.
  change [13; 10; 13; 10; 0] with (empty_line ++ [0]). rewrite (ends_headers_rest hdrs _ Hends). mstep. cbn [pos_or_minus1].
  replace (Z.of_nat (length hdrs) <=? 0) with false by (destruct hdrs; [done|cbn [length]; zb]). mstep. by replace (Z.of_nat (length hdrs) <=? 0) with false by (destruct hdrs; [done|cbn [length]; zb]).
Qed.

Section WithEnv.
Context `{env : Env} `{peers : PeerNames} `{globals : PalmGlobals}.

(** Every text is written by one call; the network gives no more than it is
    asked for. *)
Hypothesis no_safe_event : c_safe_event_write config = MK_FALSE.
Hypothesis reads_fit : forall t fd n d, net_read t fd n = inl d -> Z.of_nat (length d) <= n.

(** ** Writing *)

(** A client that keeps up: from now on its socket takes each text whole. *)
Definition keeps_up (w : world) (socket : Z) : Prop :=
  forall t d, w_trace w `prefix_of` t -> net_write t socket d = Z.of_nat (length d) /\ net_writev t socket d = Z.of_nat (length d).
Lemma keeps_up_later w w' socket : keeps_up w socket -> w_trace w `prefix_of` w_trace w' -> keeps_up w' socket.
Proof. intros H Hp t d Ht. apply H. by etrans. Qed.

Abbreviation passed := (passed true).
Lemma passed_later socket fd w w' o i k : passed socket fd w w' o i -> keeps_up w k -> keeps_up w' k.
Proof. intros [(t & E & _)] H. eapply keeps_up_later; [exact H|]. rewrite E. by exists t. Qed.

(** Between two worlds the data passed, and the sessions are the same. *)
Definition moved (socket fd : Z) (w w' : world) (out inp : bytes) : Prop := passed socket fd w w' out inp /\ w_sessions w' = w_sessions w.

Lemma moved_refl socket fd w : moved socket fd w w [] [].
Proof. split; [apply passed_refl|done]. Qed.
Lemma moved_trans socket fd w w1 w2 o1 i1 o2 i2 : moved socket fd w w1 o1 i1 -> moved socket fd w1 w2 o2 i2 -> moved socket fd w w2 (o1 ++ o2) (i1 ++ i2).
Proof. intros [H1 S1] [H2 S2]. split; [exact (passed_trans _ _ _ _ _ _ _ _ _ _ H1 H2)|congruence]. Qed.

Lemma moved_later socket fd w w' o i k : moved socket fd w w' o i -> keeps_up w k -> keeps_up w' k.
Proof. intros [H _]. exact (passed_later _ _ _ _ _ _ _ H). Qed.

Lemma send_moved socket fd d rest w :
  keeps_up w socket -> Z.of_nat (length d) < 2 ^ 31 ->
  exists w', mk_socket_send socket (d ++ rest) (Z.of_nat (length d)) w = Some (Z.of_nat (length d), w') /\ moved socket fd w w' d [].
Proof.
  intros Hk Hd. unfold mk_socket_send, mk_socket_safe_event_write. mrun. rewrite memread_all, no_safe_event, (proj1 (Hk _ _ (reflexivity _))).
  change (MK_FALSE =? MK_TRUE) with false. unfold mod_w. rewrite Nat2Z.id, take_ge, i32_small by lia. eexists. split; [reflexivity|].
  split; [|done]. pose proof (passed_logged true socket fd w [EvWrite socket d]) as Hp. cbn in Hp. rewrite Z.eqb_refl, app_nil_r in Hp. exact Hp.
Qed.

Lemma cork_moved socket fd state w : exists w', mk_socket_set_cork_flag socket state w = Some (tt, w') /\ moved socket fd w w' [] [].
Proof. eexists. split; [reflexivity|]. split; [apply (passed_logged true socket fd w [EvCork socket state])|done]. Qed.

Lemma palm_write_run socket fd d rest is_chunked w :
  keeps_up w socket -> Z.of_nat (length d) <= 32768 ->
  exists w', mk_palm_write socket (d ++ rest) (Z.of_nat (length d)) is_chunked w = Some (Z.of_nat (length d), w') /\
    moved socket fd w w' (wires is_chunked (piece d)) [].
Proof.
  intros Hk Hd. unfold mk_palm_write. destruct (Z.of_nat (length d) <=? 0) eqn:E; zbool.
  { assert (d = []) as -> by (destruct d; [done|cbn in E; lia]). exists w. split; [done|]. destruct is_chunked; apply moved_refl. }
  assert (Hp : wires is_chunked (piece d) = wire is_chunked d) by (destruct d; [cbn in E; lia|]; unfold wires, piece; cbn [map concat]; by rewrite app_nil_r).
  rewrite Hp. destruct is_chunked; cbn [wire].
  - destruct (cork_moved socket fd TCP_CORK_ON w) as (w1 & H1 & M1). set (text := hex (Z.of_nat (length d)) ++ [13; 10]).
    assert (Ht : Z.of_nat (length text) <= 6).
    { pose proof (hex_short 16 4 (Z.of_nat (length d)) ltac:(cbn; lia) ltac:(lia)) as Hh. unfold text. rewrite length_app. cbn [length]. unfold hex. lia. }
    assert (Hsn : snprintf 15 text = text) by (unfold snprintf; change (Z.to_nat (15 - 1)) with 14%nat; rewrite take_ge by lia; done).
    pose proof (moved_later _ _ _ _ _ _ _ M1 Hk) as K1. destruct (send_moved socket fd text [0] w1 K1) as (w2 & H2 & M2); [lia|].
    pose proof (moved_later _ _ _ _ _ _ _ M2 K1) as K2. destruct (send_moved socket fd d rest w2 K2) as (w3 & H3 & M3); [lia|].
    pose proof (moved_later _ _ _ _ _ _ _ M3 K2) as K3. destruct (send_moved socket fd crlf [0] w3 K3) as (w4 & H4 & M4); [cbn; lia|].
    destruct (cork_moved socket fd TCP_CORK_OFF w4) as (w5 & H5 & M5).
    exists w5. split.
    + erewrite bind_run by (erewrite bind_run by exact H1; cbv zeta; fold text; rewrite Hsn; erewrite bind_run by exact H2; reflexivity).
      erewrite bind_run by exact H3. erewrite bind_run by (erewrite bind_run by exact H4; exact H5). reflexivity.
    + pose proof (moved_trans _ _ _ _ _ _ _ _ _ (moved_trans _ _ _ _ _ _ _ _ _ (moved_trans _ _ _ _ _ _ _ _ _ (moved_trans _ _ _ _ _ _ _ _ _ M1 M2) M3) M4) M5) as M.
      rewrite !app_nil_r in M. cbn [app] in M. unfold text in M. rewrite <- !app_assoc in M. exact M.
  - destruct (send_moved socket fd d rest w Hk) as (w1 & H1 & M1); [lia|]. exists w1. split; [|exact M1].
    erewrite bind_run by reflexivity. erewrite bind_run by exact H1. reflexivity.
Qed.

(** ** A request that is served *)

Definition upd (s : palm_state) (i : nat) (r : mk_palm_request) : palm_state := s <| pm_heap := <[i := r]> (pm_heap s) |>.
Lemma palm_upd_upd s i r r' : upd (upd s i r) i r' = upd s i r'.
Proof. unfold upd. cbn. f_equal. apply insert_insert_eq. Qed.
Lemma palm_upd_at s i r : pm_heap (upd s i r) !! i = Some r.
Proof. unfold upd. cbn. apply lookup_insert_eq. Qed.
Lemma palm_upd_id s i r : pm_heap s !! i = Some r -> upd s i r = s.
Proof. intros H. unfold upd. cbn. rewrite insert_id by done. by destruct s. Qed.

Record palm_request_ok (r : mk_palm_request) : Prop := {
  po_buf : Z.of_nat (length (in_buffer r)) = 32768;
  po_len : 0 <= in_len r <= 32768;
  po_offset : 0 <= in_offset r <= in_len r;
}.

(** The request [i] is found under both its descriptors. *)
Record palm_serves (s : palm_state) (i : nat) (r : mk_palm_request) : Prop := {
  ps_heap : pm_heap s !! i = Some r;
  ps_list : exists l1 l2, pm_list s = l1 ++ i :: l2 /\
    forall j, j ∈ l1 -> j <> i /\ exists x, pm_heap s !! j = Some x /\ palm_fd x <> palm_fd r /\ client_fd x <> client_fd r;
  ps_ok : palm_request_ok r;
}.

Lemma palm_serves_upd s i r r' :
  palm_serves s i r -> client_fd r' = client_fd r -> palm_fd r' = palm_fd r -> palm_request_ok r' -> palm_serves (upd s i r') i r'.
Proof.
  intros [H1 (l1 & l2 & Hl & Hj) H3] Hc Hp Hok. split; [apply palm_upd_at| |done].
  exists l1, l2. split; [exact Hl|]. intros j Hin. destruct (Hj j Hin) as (Hne & x & Hx & Hd). split; [done|]. exists x. rewrite Hc, Hp. split; [|done].
  cbn. now rewrite lookup_insert_ne.
Qed.

Lemma get_pr_run s i r w : pm_heap s !! i = Some r -> get_pr i s w = Some (r, s, w).
Proof. intros H. unfold get_pr, mbind, P_bind, getP, liftP. now rewrite H. Qed.
Lemma put_pr_run i r s w : put_pr i r s w = Some (tt, upd s i r, w).
Proof. reflexivity. Qed.
Lemma mod_pr_run i f r s w : pm_heap s !! i = Some r -> mod_pr i f s w = Some (tt, upd s i (f r), w).
Proof. intros H. unfold mod_pr. erewrite P_bind_run by (by apply get_pr_run). reflexivity. Qed.

Lemma pr_find_run s i r f w l1 l2 :
  pm_heap s !! i = Some r -> f r = true -> (forall j, j ∈ l1 -> exists x, pm_heap s !! j = Some x /\ f x = false) ->
  pr_find f (l1 ++ i :: l2) s w = Some (Some i, s, w).
Proof.
  intros Hi Hf. induction l1 as [|j l1 IH]; intros Hj; cbn [app pr_find].
  - erewrite P_bind_run by (by apply get_pr_run). by rewrite Hf.
  - destruct (Hj j) as (x & Hx & Hfx); [left|]. erewrite P_bind_run by (apply get_pr_run; exact Hx). rewrite Hfx. apply IH. intros k Hk. apply Hj. by right.
Qed.

Lemma palm_serves_get s i r w : palm_serves s i r -> get_pr i s w = Some (r, s, w).
Proof. intros []. now apply get_pr_run. Qed.
Lemma palm_serves_fd s i r w : palm_serves s i r -> mk_palm_request_get (palm_fd r) s w = Some (Some i, s, w).
Proof.
  intros [Hi (l1 & l2 & Hl & Hj) _]. unfold mk_palm_request_get. erewrite P_bind_run by reflexivity. rewrite Hl. apply (pr_find_run s i r); [done|by apply Z.eqb_eq|].
  intros j Hin. destruct (Hj j Hin) as (_ & x & Hx & Hne & _). exists x. split; [done|]. by apply Z.eqb_neq.
Qed.
Lemma palm_serves_http s i r w : palm_serves s i r -> mk_palm_request_get_by_http (client_fd r) s w = Some (Some i, s, w).
Proof.
  intros [Hi (l1 & l2 & Hl & Hj) _]. unfold mk_palm_request_get_by_http. erewrite P_bind_run by reflexivity. rewrite Hl. apply (pr_find_run s i r); [done|by apply Z.eqb_eq|].
  intros j Hin. destruct (Hj j Hin) as (_ & x & Hx & _ & Hne). exists x. split; [done|]. by apply Z.eqb_neq.
Qed.
Lemma palm_update_run s i r w : palm_serves s i r -> mk_palm_request_update (palm_fd r) i s w = Some (tt, s, w).
Proof.
  intros Hs. unfold mk_palm_request_update. erewrite P_bind_run by (by apply palm_serves_fd). cbv iota.
  erewrite P_bind_run by (by eapply palm_serves_get). erewrite mod_pr_run by apply Hs. do 3 f_equal. destruct r; apply palm_upd_id, Hs.
Qed.

(** What was read and is still to be sent. *)
Definition unsent (r : mk_palm_request) : bytes := drop (Z.to_nat (in_offset r)) (take (Z.to_nat (in_len r)) (in_buffer r)).

Lemma unsent_buf r : palm_request_ok r ->
  exists rest, padd (in_buffer r) (in_offset r) = Some (unsent r ++ rest) /\ Z.of_nat (length (unsent r)) = in_len r - in_offset r.
Proof.
  intros [H1 H2 H3]. exists (drop (Z.to_nat (in_len r)) (in_buffer r)). split.
  - rewrite padd_drop by lia. f_equal. unfold unsent. rewrite <- (take_drop (Z.to_nat (in_len r)) (in_buffer r)) at 1.
    apply drop_app_le. rewrite length_take. lia.
  - unfold unsent. rewrite length_drop, length_take. lia.
Qed.

(** A writable client gets what there is. *)
Lemma palm_event_write_run s i r w :
  keeps_up w (client_fd r) -> palm_serves s i r -> headers_sent r = true ->
  exists w', let r' := r <| in_len := 0 |> <| in_offset := 0 |> in
    Palm._mkp_event_write (client_fd r) s w = Some (MK_PLUGIN_RET_EVENT_OWNED, upd s i r', w') /\ palm_serves (upd s i r') i r' /\
    moved (client_fd r) (palm_fd r) w w' (wires (is_te_chunked r) (piece (unsent r))) [].
Proof.
  intros Hk Hs Hh. destruct (ps_ok _ _ _ Hs) as [O1 O2 O3]. destruct (unsent_buf r (ps_ok _ _ _ Hs)) as (rest & Hp & Hl).
  set (r' := r <| in_len := 0 |> <| in_offset := 0 |>).
  assert (Hs' : palm_serves (upd s i r') i r') by (apply (palm_serves_upd s i r); [done..|split; cbn; lia]).
  unfold Palm._mkp_event_write. erewrite P_bind_run by (by apply palm_serves_http). cbv iota. erewrite P_bind_run by (by eapply palm_serves_get).
  rewrite Hh, andb_true_r. destruct (0 <? in_len r) eqn:E; zbool.
  - destruct (palm_write_run (client_fd r) (palm_fd r) (unsent r) rest (is_te_chunked r) w Hk) as (w' & H1 & M1); [lia|]. rewrite Hl in H1.
    exists w'. split; [|done]. erewrite P_bind_run; [reflexivity|]. erewrite liftP_run by exact Hp. erewrite call_run by exact H1.
    replace (_ && _) with false by zb. erewrite P_bind_run by reflexivity. erewrite mod_pr_run by apply Hs. reflexivity.
  - exists w. split; [|split; [done|]].
    + replace r' with r; [rewrite palm_upd_id by apply Hs; erewrite P_bind_run by reflexivity; reflexivity|]. unfold r'. destruct r; cbn in *. f_equal; lia.
    + replace (unsent r) with (@nil Z); [destruct (is_te_chunked r); apply moved_refl|]. symmetry. apply length_zero_iff_nil. lia.
Qed.

(** What is read goes behind what there is; nothing read, or an error, ends the
    answer. *)
Definition grown (r : mk_palm_request) (buf d : bytes) : mk_palm_request := r <| in_buffer := buf |> <| in_len := in_len r + Z.of_nat (length d) |>.

Lemma palm_read_moved r w :
  palm_request_ok r ->
  (exists got w', mk_socket_read (palm_fd r) (MK_PALM_BUFFER_SIZE - in_len r) w = Some (got, w') /\ w_sessions w' = w_sessions w /\
     ((got = inl [] \/ exists e, got = inr e) /\ moved (client_fd r) (palm_fd r) w w' [] [] \/
      exists c d buf, got = inl (c :: d) /\ moved (client_fd r) (palm_fd r) w w' [] (c :: d) /\ bwrite (in_buffer r) (in_len r) (c :: d) = Some buf /\
        palm_request_ok (grown r buf (c :: d)) /\ take (Z.to_nat (in_len (grown r buf (c :: d)))) buf = take (Z.to_nat (in_len r)) (in_buffer r) ++ c :: d)).
Proof.
  intros [O1 O2 O3]. unfold mk_socket_read. mrun.
  assert (Hm : forall d, moved (client_fd r) (palm_fd r) w (w <| w_trace := w_trace w ++ [EvRead (palm_fd r) d] |>) [] d).
  { intros d. split; [|done]. pose proof (passed_logged true (client_fd r) (palm_fd r) w [EvRead (palm_fd r) d]) as P. cbn in P.
    rewrite Z.eqb_refl, app_nil_r in P. exact P. }
  destruct (net_read _ _ _) as [[|c d]|e] eqn:Er; (eexists _, _; split; [reflexivity|]; split; [reflexivity|]).
  - left. split; [by left|apply Hm].
  - right. apply reads_fit in Er. unfold MK_PALM_BUFFER_SIZE in Er. destruct (bwrite_ok (in_buffer r) (in_len r) (c :: d)) as (buf & Hb & Hbl & Hbt & _); [lia|lia|].
    exists c, d, buf. split; [done|]. split; [apply Hm|]. split; [done|]. split; [split; cbn [grown in_buffer in_len in_offset set_field]; lia|].
    specialize (Hbt (take (Z.to_nat (in_len r)) (in_buffer r))). rewrite length_app, length_take in Hbt. cbn [grown in_len set_field].
    replace (Z.to_nat (in_len r + Z.of_nat (length (c :: d)))) with (Z.to_nat (in_len r) `min` length (in_buffer r) + length (c :: d))%nat by lia.
    apply Hbt; [|lia]. f_equal. lia.
  - left. split; [by right; eexists|apply Hm].
Qed.

Lemma palm_event_read_run s i r w c q :
  keeps_up w (client_fd r) -> palm_serves s i r -> headers_sent r = true -> at_sr w (pr_cs r) (pr_sr r) c q -> (is_te_chunked r = true -> HTTP_PROTOCOL_11 <= sr_protocol q) ->
  (exists d buf w', Palm._mkp_event_read (palm_fd r) s w = Some (MK_PLUGIN_RET_EVENT_OWNED, upd s i (grown r buf d), w') /\
     palm_serves (upd s i (grown r buf d)) i (grown r buf d) /\ moved (client_fd r) (palm_fd r) w w' [] d /\ unsent (grown r buf d) = unsent r ++ d) \/
  (exists w', Palm._mkp_event_read (palm_fd r) s w = Some (MK_PLUGIN_RET_EVENT_CLOSE, s, w') /\
     moved (client_fd r) (palm_fd r) w w' (if is_te_chunked r then last_chunk else []) []).
Proof.
  intros Hk Hs Hh Hat Hte. pose proof (ps_ok _ _ _ Hs) as Hok. unfold Palm._mkp_event_read.
  erewrite P_bind_run by (by apply palm_serves_fd). cbv iota. erewrite P_bind_run by (by eapply palm_serves_get).
  destruct (palm_read_moved r w Hok) as (got & w1 & H1 & S1 & [[Hend M1]|(x & d & buf & -> & M1 & Hb & Hok' & Ht)]); erewrite call_run by exact H1.
  - right. assert (Hat1 : at_sr w1 (pr_cs r) (pr_sr r) c q) by (destruct Hat; split; congruence).
    assert (Hlast : exists w2, (if HTTP_PROTOCOL_11 <=? sr_protocol q then _ ← call (mk_palm_send_end_chunk (client_fd r) r); mret tt else mret tt) s w1 = Some (tt, s, w2) /\
      moved (client_fd r) (palm_fd r) w1 w2 (if is_te_chunked r then last_chunk else []) []).
    { unfold mk_palm_send_end_chunk. destruct (is_te_chunked r).
      - replace (HTTP_PROTOCOL_11 <=? sr_protocol q) with true by (specialize (Hte eq_refl); zb).
        destruct (send_moved (client_fd r) (palm_fd r) last_chunk [0] w1 (moved_later _ _ _ _ _ _ _ M1 Hk)) as (w2 & H2 & M2); [cbn; lia|]. exists w2. split; [|exact M2].
        erewrite call_run by exact H2. reflexivity.
      - exists w1. split; [case_if; reflexivity|apply moved_refl]. }
    destruct Hlast as (w2 & H2 & M2). exists w2. split; [|exact (moved_trans _ _ _ _ _ _ _ _ _ M1 M2)].
    destruct Hend as [-> |[e ->]]; cbv iota; (erewrite call_run by (by eapply get_at_sr)); (erewrite P_bind_run by exact H2); reflexivity.
  - left. exists (x :: d), buf, w1. assert (Hs' : palm_serves (upd s i (grown r buf (x :: d))) i (grown r buf (x :: d))) by (by apply (palm_serves_upd s i r)).
    split; [|split; [done|split; [done|]]].
    + cbv iota. erewrite liftP_run by exact Hb. erewrite P_bind_run by apply put_pr_run. fold (grown r buf (x :: d)). rewrite Hh.
      erewrite P_bind_run by reflexivity. cbv iota. erewrite P_bind_run by (apply (palm_update_run _ i _ w1 Hs')). reflexivity.
    + unfold unsent. change (in_buffer (grown r buf (x :: d))) with buf. rewrite Ht. change (in_offset (grown r buf (x :: d))) with (in_offset r). destruct Hok. rewrite drop_app_le; [done|]. rewrite length_take. lia.
Qed.

(** What happens on the two descriptors of a request, until the plugin asks for
    the end. *)
Inductive palm_event := ServerReadable | ClientWritable.

Definition palm_event_run (fd socket : Z) (e : palm_event) : PM Z :=
  match e with ServerReadable => Palm._mkp_event_read fd | ClientWritable => Palm._mkp_event_write socket end.
Fixpoint palm_events (fd socket : Z) (es : list palm_event) : PM Z :=
  match es with
  | [] => mret MK_PLUGIN_RET_EVENT_OWNED
  | e :: es => ret ← palm_event_run fd socket e; if ret =? MK_PLUGIN_RET_EVENT_CLOSE then mret ret else palm_events fd socket es
  end.

Lemma palm_events_run es s i r w c q :
  keeps_up w (client_fd r) -> palm_serves s i r -> headers_sent r = true -> at_sr w (pr_cs r) (pr_sr r) c q -> (is_te_chunked r = true -> HTTP_PROTOCOL_11 <= sr_protocol q) ->
  exists ret r' w' ps d, palm_events (palm_fd r) (client_fd r) es s w = Some (ret, upd s i r', w') /\ Forall small ps /\ unsent r ++ d = concat ps ++ unsent r' /\
    moved (client_fd r) (palm_fd r) w w' (wires (is_te_chunked r) ps ++ if (ret =? MK_PLUGIN_RET_EVENT_CLOSE) && is_te_chunked r then last_chunk else []) d.
Proof.
  revert s r w; induction es as [|e es IH]; intros s r w Hk Hs Hh Hat Hte; cbn [palm_events].
  { exists MK_PLUGIN_RET_EVENT_OWNED, r, w, [], []. rewrite palm_upd_id, app_nil_r by apply Hs. split_and!; [done|apply Forall_nil_2|done|apply moved_refl]. }
  assert (Hnext : forall r1 w1, palm_serves (upd s i r1) i r1 -> client_fd r1 = client_fd r -> palm_fd r1 = palm_fd r -> headers_sent r1 = true -> pr_cs r1 = pr_cs r -> pr_sr r1 = pr_sr r -> is_te_chunked r1 = is_te_chunked r ->
    w_sessions w1 = w_sessions w -> keeps_up w1 (client_fd r) -> exists ret r' w' ps d, palm_events (palm_fd r) (client_fd r) es (upd s i r1) w1 = Some (ret, upd s i r', w') /\ Forall small ps /\ unsent r1 ++ d = concat ps ++ unsent r' /\
    moved (client_fd r) (palm_fd r) w1 w' (wires (is_te_chunked r) ps ++ if (ret =? MK_PLUGIN_RET_EVENT_CLOSE) && is_te_chunked r then last_chunk else []) d).
  { intros r1 w1 Hs1 E1 E2 E3 E4 E5 E6 E7 K1. destruct (IH (upd s i r1) r1 w1) as (ret & r' & w' & ps & d & H1 & H2).
    - by rewrite E1.
    - done.
    - done.
    - rewrite E4, E5. destruct Hat. split; congruence.
    - by rewrite E6.
    - rewrite E1, E2, E6, palm_upd_upd in *. exists ret, r', w', ps, d. done. }
  destruct e; cbn [palm_event_run].
  - destruct (palm_event_read_run s i r w c q Hk Hs Hh Hat Hte) as [(d & buf & w1 & H1 & Hs1 & M1 & Hu)|(w1 & H1 & M1)]; erewrite P_bind_run by exact H1; cbn [Z.eqb].
    + destruct (Hnext (grown r buf d) w1 Hs1) as (ret & r' & w' & ps & d2 & H2 & Hsm & Hcat & M2); [done..|apply M1|exact (moved_later _ _ _ _ _ _ _ M1 Hk)|].
      exists ret, r', w', ps, (d ++ d2). split; [exact H2|]. split; [done|]. split; [rewrite app_assoc, <- Hu; exact Hcat|].
      exact (moved_trans _ _ _ _ _ _ _ _ _ M1 M2).
    + exists MK_PLUGIN_RET_EVENT_CLOSE, r, w1, [], []. rewrite palm_upd_id, app_nil_r by apply Hs. split_and!; [done|apply Forall_nil_2|done|exact M1].
  - destruct (palm_event_write_run s i r w Hk Hs Hh) as (w1 & H1 & Hs1 & M1). erewrite P_bind_run by exact H1. cbn [Z.eqb].
    destruct (Hnext _ w1 Hs1) as (ret & r' & w' & ps & d2 & H2 & Hsm & Hcat & M2); [done..|apply M1|exact (moved_later _ _ _ _ _ _ _ M1 Hk)|].
    destruct (unsent_buf r (ps_ok _ _ _ Hs)) as (_ & _ & Hl). destruct (ps_ok _ _ _ Hs).
    exists ret, r', w', (piece (unsent r) ++ ps), d2. split; [exact H2|]. split; [apply Forall_app; split; [apply piece_small; lia|done]|]. split.
    + rewrite concat_app, piece_concat, <- app_assoc. f_equal. exact Hcat.
    + rewrite wires_app, <- app_assoc. exact (moved_trans _ _ _ _ _ _ _ _ _ M1 M2).
Qed.

(** ** The headers *)

(** Only the sessions differ. *)
Record quiet (w w' : world) : Prop := {
  qu_trace : w_trace w' = w_trace w;
  qu_iov : w_iov w' = w_iov w;
  qu_time : w_header_time w' = w_header_time w;
  qu_gmt : w_gmt w' = w_gmt w;
}.
Lemma quiet_refl w : quiet w w.
Proof. by split. Qed.
Lemma quiet_trans w w1 w2 : quiet w w1 -> quiet w1 w2 -> quiet w w2.
Proof. intros [] []. split; congruence. Qed.
Lemma quiet_passed socket fd w w1 w2 o i : quiet w w1 -> passed socket fd w1 w2 o i -> passed socket fd w w2 o i.
Proof. intros [Ht _ _ _] [H]. split. by rewrite Ht in H. Qed.

Lemma quiet_later w w' k : quiet w w' -> keeps_up w k -> keeps_up w' k.
Proof. intros [Ht _ _ _] H. eapply keeps_up_later; [exact H|]. by rewrite Ht. Qed.

Lemma told_told c sr a b : told (told c sr a) sr b = told c sr b.
Proof. unfold told. cbn. by rewrite list_insert_insert_eq. Qed.

(** The request changes and is told to the session. *)
Definition telling (cs sr : nat) (c : client_session) (q q' : session_request) (m : M unit) : Prop :=
  forall w c0, at_sr w cs sr (told c0 sr q) q -> c = c0 -> exists w', m w = Some (tt, w') /\ at_sr w' cs sr (told c sr q') q' /\ quiet w w'.

Lemma mod_sr_telling cs sr c q f : telling cs sr c q (f q) (mod_sr cs sr f).
Proof.
  intros w c0 Hat ->. destruct (mod_sr_run cs sr f w _ q Hat) as [H1 H2].
  fold (told (told c0 sr q) sr (f q)) in H1, H2. rewrite told_told in H1, H2. eexists. split; [exact H1|]. split; [exact H2|by split].
Qed.

(** The request as its header is sent. *)
Definition palm_ok_status (q : session_request) : session_request :=
  if sh_status (sr_headers q) =? 0 then set_headers (fun sh => sh <| sh_status := MK_HTTP_OK |>) q else q.
Definition palm_answered (q : session_request) : session_request :=
  let q := set_headers (fun sh => sh <| sh_cgi := SH_CGI |>) (palm_ok_status q) in
  if palm_chunks q then set_headers (fun sh => sh <| sh_transfer_encoding := MK_HEADER_TE_TYPE_CHUNKED |>) q else q.

Lemma palm_chunks_answered q : palm_chunks (palm_answered q) = palm_chunks (palm_ok_status q).
Proof. unfold palm_answered. cbv zeta. by case_if. Qed.

Lemma palm_send_headers_run s i r w c q status signature now :
  keeps_up w (client_fd r) -> palm_serves s i r -> is_te_chunked r = false -> at_sr w (pr_cs r) (pr_sr r) (told c (pr_sr r) q) q -> cs_socket c = client_fd r ->
  cgi_headers (palm_answered q) -> sections_ready w (told c (pr_sr r) (palm_answered q)) (palm_answered q) status signature now ->
  exists n w', let r' := r <| is_te_chunked := palm_chunks (palm_answered q) |> in mk_palm_send_headers i s w = Some (n, upd s i r', w') /\
    at_sr w' (pr_cs r) (pr_sr r) (told c (pr_sr r) (palm_answered q)) (palm_answered q) /\
    passed (client_fd r) (palm_fd r) w w' (sections_text status signature now (told c (pr_sr r) (palm_answered q)) (palm_answered q)) [].
Proof.
  intros Hk Hs Hte Hat Hc Hcgi Hready. unfold mk_palm_send_headers.
  erewrite P_bind_run by (by eapply palm_serves_get). erewrite call_run by (by eapply get_at_sr).
  set (cs := pr_cs r) in *. set (sr := pr_sr r) in *.
  assert (H1 : exists w1, (if sh_status (sr_headers q) =? 0 then call (mk_header_set_http_status cs sr MK_HTTP_OK) else mret tt) s w = Some (tt, s, w1) /\
    at_sr w1 cs sr (told c sr (palm_ok_status q)) (palm_ok_status q) /\ quiet w w1).
  { unfold palm_ok_status. case_if; [|exists w; split; [done|]; split; [done|apply quiet_refl]].
    destruct (mod_sr_telling cs sr c q (set_headers (fun sh => sh <| sh_status := MK_HTTP_OK |>)) w c Hat eq_refl) as (w1 & R1 & A1 & Q1).
    exists w1. split; [|done]. unfold call, mk_header_set_http_status. by rewrite R1. }
  destruct H1 as (w1 & R1 & A1 & Q1). erewrite P_bind_run by exact R1.
  destruct (mod_sr_telling cs sr c _ (set_headers (fun sh => sh <| sh_cgi := SH_CGI |>)) w1 c A1 eq_refl) as (w2 & R2 & A2 & Q2).
  erewrite call_run by exact R2. erewrite call_run by (by eapply get_at_sr). set (q2 := set_headers _ _) in *.
  assert (Ha : palm_answered q = if palm_chunks q2 then set_headers (fun sh => sh <| sh_transfer_encoding := MK_HEADER_TE_TYPE_CHUNKED |>) q2 else q2) by reflexivity.
  assert (Hch : palm_chunks (palm_answered q) = palm_chunks q2) by (rewrite palm_chunks_answered; reflexivity).
  rewrite Hch. set (r' := r <| is_te_chunked := palm_chunks q2 |>).
  assert (H3 : exists w3, (if palm_chunks q2 then
      call (mod_sr cs sr (set_headers (fun sh => sh <| sh_transfer_encoding := MK_HEADER_TE_TYPE_CHUNKED |>)));; mod_pr i (fun r => r <| is_te_chunked := true |>)
    else mret tt) s w2 = Some (tt, upd s i r', w3) /\ at_sr w3 cs sr (told c sr (palm_answered q)) (palm_answered q) /\ quiet w2 w3).
  { unfold r'. rewrite Ha. destruct (palm_chunks q2).
    - destruct (mod_sr_telling cs sr c q2 (set_headers (fun sh => sh <| sh_transfer_encoding := MK_HEADER_TE_TYPE_CHUNKED |>)) w2 c A2 eq_refl) as (w3 & R3 & A3 & Q3).
      exists w3. split; [|done]. erewrite call_run by exact R3. by erewrite mod_pr_run by apply Hs.
    - exists w2. split; [|split; [done|apply quiet_refl]]. replace (r <| is_te_chunked := false |>) with r by (rewrite <- Hte; by destruct r). rewrite palm_upd_id by apply Hs. done. }
  destruct H3 as (w3 & R3 & A3 & Q3). erewrite P_bind_run by exact R3.
  assert (Hcs : get_cs cs w3 = Some (told c sr (palm_answered q), w3)) by (by eapply get_at_cs).
  erewrite call_run by exact Hcs. change (cs_socket (told c sr (palm_answered q))) with (cs_socket c). rewrite Hc.
  pose proof (quiet_trans _ _ _ (quiet_trans _ _ _ Q1 Q2) Q3) as [T1 T2 T3 T4].
  destruct (header_passed_core no_safe_event true (client_fd r) (palm_fd r) cs sr w3 _ _ status signature now A3) as (w4 & R4 & P4 & C4).
  { by apply (sections_ready_world w). } { done. }
  unfold header_taken in P4. rewrite (proj2 (Hk _ _ (prefix_app_r _ _ _ (eq_ind _ (fun x => _ `prefix_of` x) (reflexivity _) _ (eq_sym T1))))), Nat2Z.id, take_ge in P4 by done.
  erewrite call_run by exact R4. destruct (cork_moved (client_fd r) (palm_fd r) TCP_CORK_OFF w4) as (w5 & R5 & [P5 S5]). erewrite call_run by exact R5.
  eexists _, w5. split; [reflexivity|]. split.
  - pose proof (core_at_sr w3 w4 cs sr _ _ C4 A3) as []. split; congruence.
  - apply (quiet_passed _ _ w w3); [by split|]. exact (passed_silent _ _ _ _ _ _ _ _ P4 P5).
Qed.

(** ** The first lines *)

(** A request whose answer has not begun. *)
Record palm_waiting (r : mk_palm_request) (had : bytes) : Prop := {
  pw_headers : headers_sent r = false;
  pw_chunked : is_te_chunked r = false;
  pw_offset : in_offset r = 0;
  pw_len : in_len r = Z.of_nat (length had);
  pw_buffer : exists n, in_buffer r = had ++ repeat 0 n;
}.

(** The request once the headers are sent. *)
Definition palm_begun (r : mk_palm_request) (buf : bytes) (len offset : Z) (chunked : bool) : mk_palm_request :=
  r <| in_buffer := buf |> <| in_len := len |> <| is_te_chunked := chunked |> <| headers_sent := true |> <| in_offset := offset |>.

Lemma palm_buffer_run r had d :
  palm_waiting r had -> palm_request_ok r -> Z.of_nat (length (had ++ d)) < 32768 ->
  exists rest, bwrite (in_buffer r) (in_len r) d = Some (had ++ d ++ 0 :: rest) /\ Z.of_nat (length (had ++ d ++ 0 :: rest)) = 32768.
Proof.
  intros [_ _ _ Hlen (n & Hb)] [O1 O2 O3] Hout. rewrite Hb, length_app, repeat_length in O1. rewrite length_app in Hout.
  destruct (n - length d)%nat as [|k] eqn:Ek; [lia|]. exists (repeat 0 k). split.
  - rewrite Hb. replace n with (length d + S k)%nat by lia. rewrite repeat_app. apply bwrite_app; [done|apply repeat_length].
  - rewrite !length_app. cbn [length]. rewrite repeat_length. lia.
Qed.

(** The header of the server and the headers of the answer go to the client. *)
Lemma palm_first_run s i r w out rest st hdrs body c q status signature now :
  let q' := palm_answered (with_status st q) in
  keeps_up w (client_fd r) -> palm_serves s i r -> is_te_chunked r = false -> in_buffer r = out ++ 0 :: rest ->
  out = palm_status_text st ++ hdrs ++ empty_line ++ body -> palm_status_ok st out -> Z.of_nat (length out) < 32768 ->
  at_sr w (pr_cs r) (pr_sr r) c q -> cs_socket c = client_fd r -> cgi_headers q' -> sections_ready w (told c (pr_sr r) q') q' status signature now ->
  let line := Z.of_nat (length (palm_status_text st)) in
  let e := line + Z.of_nat (length hdrs) + 4 in
  exists w', palm_first i e s w = Some (true, upd s i (palm_begun r (in_buffer r) (in_len r) (e + line) (palm_chunks q')), w') /\
    at_sr w' (pr_cs r) (pr_sr r) (told c (pr_sr r) q') q' /\
    passed (client_fd r) (palm_fd r) w w' (sections_text status signature now (told c (pr_sr r) q') q' ++ hdrs ++ empty_line) [].
Proof.
  intros q' Hk Hs Hte Hbuf Hout Hok Hl Hat Hc Hcgi Hready line e. unfold palm_first. erewrite P_bind_run by (by eapply palm_serves_get).
  rewrite Hbuf. erewrite liftP_run by (eapply palm_status_run; eassumption). rewrite <- Hbuf.
  assert (H1 : exists w1, (match (match st with Some (status, _) => Some (status, line) | None => None end) with
      | None => mret 0
      | Some (code, offset) => call (mod_sr (pr_cs r) (pr_sr r) (set_headers (fun sh => sh <| sh_status := code |>)));; mret offset
      end) s w = Some (line, s, w1) /\ at_sr w1 (pr_cs r) (pr_sr r) (told c (pr_sr r) (with_status st q)) (with_status st q) /\ quiet w w1).
  { assert (Hat0 : at_sr w (pr_cs r) (pr_sr r) (told c (pr_sr r) q) q) by (rewrite told_id; [done|apply Hat]). destruct st as [[code tail]|]; cbn [with_status].
    - destruct (mod_sr_telling _ _ c q (set_headers (fun sh => sh <| sh_status := code |>)) w c Hat0 eq_refl) as (w1 & R1 & A1 & Q1).
      exists w1. split; [|done]. erewrite call_run by exact R1. reflexivity.
    - exists w. split; [reflexivity|]. split; [done|apply quiet_refl]. }
  destruct H1 as (w1 & R1 & A1 & Q1). erewrite P_bind_run by exact R1. pose proof Q1 as [T1 T2 T3 T4].
  destruct (palm_send_headers_run s i r w1 c (with_status st q) status signature now (quiet_later _ _ _ Q1 Hk) Hs Hte A1 Hc Hcgi) as (n & w2 & R2 & A2 & P2); [by apply (sections_ready_world w)|].
  erewrite P_bind_run by exact R2. fold q' in R2, A2, P2 |- *. set (r1 := r <| is_te_chunked := palm_chunks q' |>) in *.
  assert (Hpad : padd (in_buffer r) line = Some ((hdrs ++ empty_line) ++ body ++ 0 :: rest)).
  { rewrite padd_drop by (rewrite Hbuf, length_app, Hout, length_app; unfold line; lia). unfold line. rewrite Nat2Z.id, Hbuf, Hout, <- !app_assoc, drop_app_length. done. }
  erewrite liftP_run by exact Hpad. assert (Hlh : Z.of_nat (length (hdrs ++ empty_line)) = e - line) by (unfold e; rewrite length_app; cbn [length empty_line]; lia).
  destruct (palm_write_run (client_fd r) (palm_fd r) (hdrs ++ empty_line) (body ++ 0 :: rest) false w2) as (w3 & R3 & [P3 S3]).
  { exact (passed_later _ _ _ _ _ _ _ P2 (quiet_later _ _ _ Q1 Hk)). }
  { rewrite Hout, !length_app in Hl. rewrite length_app. lia. }
  rewrite Hlh in R3. erewrite call_run by exact R3. replace (e - line <? 0) with false by (unfold e; zb).
  erewrite P_bind_run by (apply mod_pr_run, palm_upd_at). rewrite palm_upd_upd. exists w3. split; [|split].
  - replace (palm_begun _ _ _ _ _) with (r1 <| headers_sent := true |> <| in_offset := e + line |>); [done|]. unfold r1, palm_begun. by destruct r.
  - destruct A2. split; congruence.
  - apply (quiet_passed _ _ w w1); [done|]. pose proof (passed_trans _ _ _ _ _ _ _ _ _ _ P2 P3) as P. unfold wires, piece in P.
    destruct (hdrs ++ empty_line) as [|x l] eqn:E; [by destruct hdrs|]. cbn [map concat wire] in P. rewrite app_nil_r in P. exact P.
Qed.

Lemma palm_begins s i r w had d st hdrs body c q status signature now :
  let out := had ++ d in
  let q' := palm_answered (with_status st q) in
  keeps_up w (client_fd r) -> palm_serves s i r -> palm_waiting r had -> net_read (w_trace w) (palm_fd r) (MK_PALM_BUFFER_SIZE - in_len r) = inl d -> d <> [] ->
  out = palm_status_text st ++ hdrs ++ empty_line ++ body -> palm_status_ok st out -> ends_headers (palm_status_text st ++ hdrs) ->
  palm_status_text st ++ hdrs <> [] -> (length (palm_status_text st) <= length body)%nat -> Z.of_nat (length out) < 32768 ->
  at_sr w (pr_cs r) (pr_sr r) c q -> cs_socket c = client_fd r -> cgi_headers q' -> sections_ready w (told c (pr_sr r) q') q' status signature now ->
  exists r' w', Palm._mkp_event_read (palm_fd r) s w = Some (MK_PLUGIN_RET_EVENT_OWNED, upd s i r', w') /\ palm_serves (upd s i r') i r' /\
    headers_sent r' = true /\ is_te_chunked r' = palm_chunks q' /\ unsent r' = drop (length (palm_status_text st)) body /\
    client_fd r' = client_fd r /\ palm_fd r' = palm_fd r /\ pr_cs r' = pr_cs r /\ pr_sr r' = pr_sr r /\
    at_sr w' (pr_cs r) (pr_sr r) (told c (pr_sr r) q') q' /\
    passed (client_fd r) (palm_fd r) w w' (sections_text status signature now (told c (pr_sr r) q') q' ++ hdrs ++ empty_line) d.
Proof.
  intros out q' Hk Hs Hw Hread Hd Hout Hok Hends Hne Hlb Hl Hat Hc Hcgi Hready. pose proof (ps_ok _ _ _ Hs) as Hrok.
  destruct (palm_buffer_run r had d Hw Hrok Hl) as (rest & Hb & Hbl). rewrite app_assoc in Hb, Hbl. fold out in Hb, Hbl.
  set (buf := out ++ 0 :: rest) in *. set (r1 := r <| in_buffer := buf |> <| in_len := in_len r + Z.of_nat (length d) |>).
  destruct Hw as [W1 W2 W3 W4 _]. assert (Hin : in_len r + Z.of_nat (length d) = Z.of_nat (length out)) by (unfold out; rewrite length_app; lia).
  assert (Hs1 : palm_serves (upd s i r1) i r1) by (apply (palm_serves_upd s i r); [done..|split; cbn; lia]).
  set (w1 := w <| w_trace := w_trace w ++ [EvRead (palm_fd r) d] |>).
  assert (P1 : passed (client_fd r) (palm_fd r) w w1 [] d).
  { pose proof (passed_logged true (client_fd r) (palm_fd r) w [EvRead (palm_fd r) d]) as P. cbn in P. rewrite Z.eqb_refl, app_nil_r in P. exact P. }
  unfold Palm._mkp_event_read. erewrite P_bind_run by (by apply palm_serves_fd). cbv iota. erewrite P_bind_run by (by eapply palm_serves_get).
  erewrite call_run by (unfold mk_socket_read; mrun; rewrite Hread; reflexivity). fold w1. destruct d as [|x d]; [done|].
  erewrite liftP_run by exact Hb. erewrite P_bind_run by apply put_pr_run. fold r1. rewrite W1.
  assert (Hhe : palm_headers_end buf = Some (Some (Z.of_nat (length (palm_status_text st ++ hdrs)) + 4))) by (apply (palm_headers_run out body); [done|done|by rewrite <- app_assoc]).
  erewrite P_bind_run by (erewrite liftP_run by exact Hhe; reflexivity). cbv iota.
  rewrite length_app, Nat2Z.inj_add.
  destruct (palm_first_run (upd s i r1) i r1 w1 out rest st hdrs body c q status signature now (passed_later _ _ _ _ _ _ _ P1 Hk) Hs1 W2 eq_refl Hout Hok Hl) as (w2 & R2 & A2 & P2);
    [destruct Hat; by split|done|done|by apply (sections_ready_world w)|].
  erewrite P_bind_run by exact R2. cbn [negb]. rewrite palm_upd_upd. set (r2 := palm_begun _ _ _ _ _) in *.
  assert (Hoff : in_offset r2 = Z.of_nat (length (palm_status_text st ++ hdrs ++ empty_line)) + Z.of_nat (length (palm_status_text st))).
  { cbn [r2 palm_begun in_offset set_field]. rewrite !length_app. cbn [length empty_line]. lia. }
  assert (Hlo : length out = (length (palm_status_text st ++ hdrs ++ empty_line) + length body)%nat) by (rewrite Hout, !length_app; lia).
  assert (Hok2 : palm_request_ok r2).
  { split; [exact Hbl|change (0 <= in_len r + Z.of_nat (length (x :: d)) <= 32768); lia|]. rewrite Hoff. change (in_len r2) with (in_len r + Z.of_nat (length (x :: d))). lia. }
  assert (Hs2 : palm_serves (upd s i r2) i r2) by (by apply (palm_serves_upd s i r)).
  exists r2, w2. split; [|split_and!; try done].
  - erewrite P_bind_run by exact (palm_update_run _ i r2 w2 Hs2). reflexivity.
  - unfold unsent. change (in_len r2) with (in_len r + Z.of_nat (length (x :: d))). change (in_buffer r2) with buf. rewrite Hin, Nat2Z.id. unfold buf. rewrite take_app_length, Hoff, Hout.
    rewrite !app_assoc, <- (app_assoc (palm_status_text st)), drop_app_ge by lia. f_equal. lia.
  - pose proof (passed_trans _ _ _ _ _ _ _ _ _ _ P1 P2) as P. rewrite app_nil_r in P. exact P.
Qed.

End WithEnv.

(** ** Examples *)

(** The server answers with the pieces, one for each read, and then ends; the
    network takes at most [limit] bytes of what it is given. *)
Definition palm_env (limit : Z) (answer : list bytes) : Env :=
  {| config := @config example_env; EUID := 1000; EGID := 1000; sys_lstat := @sys_lstat example_env;
     sys_stat := @sys_stat example_env; sys_open := @sys_open example_env;
     sys_access := @sys_access example_env; sys_readlink := @sys_readlink example_env;
     sys_getpwnam := @sys_getpwnam example_env; sys_strptime := @sys_strptime example_env;
     sys_mktime := @sys_mktime example_env; sys_epoll_ctl := @sys_epoll_ctl example_env;
     net_read := fun t _ n =>
       let k := length (List.filter (fun e => match e with EvRead _ _ => true | _ => false end) t) in
       if n <? 0 then inr (-1, false) else inl (take (Z.to_nat n) (nth k answer []));
     net_write := fun _ _ d => Z.min limit (Z.of_nat (length d)); net_writev := @net_writev example_env;
     net_send_file := @net_send_file example_env; sys_getfd := @sys_getfd example_env; sys_realloc := @sys_realloc example_env;
     sys_junk := @sys_junk example_env; mimecommon := @mimecommon example_env;
     mimearr := @mimearr example_env; mimetype_default := @mimetype_default example_env; plugins := [] |}.
Definition fast (answer : list bytes) : Env :=
  example_net (fun t _ n =>
    let k := length (List.filter (fun e => match e with EvRead _ _ => true | _ => false end) t) in
    if n <? 0 then inr (-1, false) else inl (take (Z.to_nat n) (nth k answer []))) (@net_writev example_env).

Lemma fast_reads answer t fd n d : @net_read (fast answer) t fd n = inl d -> Z.of_nat (length d) <= n.
Proof. cbn. case_if; [done|]. zbool. intros [= <-]. rewrite length_take. lia. Qed.

Definition php : mk_palm := {| extension := Some (clit "php"); mimetype := Some (clit "text/html"); server_addr := Some (clit "127.0.0.1"); server_port := 2000 |}.
Definition palm_globals : PalmGlobals :=
  {| palm_plugin := 0; palms := [php]; mk_server_port := mk_pointer_init "80"; palm_socket_connect := fun _ _ _ => 20;
     palm_writev := fun _ _ d => Z.of_nat (length d); palm_sin_port := fun _ _ => Some 4660 |}.

(** A request that was sent. *)
Definition palm_sent_request : mk_palm_request :=
  {| client_fd := 5; palm_fd := 20; in_buffer := repeat 0 (Z.to_nat 32768); out_buffer := repeat 0 (Z.to_nat 32768); in_len := 0; out_len := 0; in_offset := 0;
     bytes_sent := 100; bytes_read := 0; headers_sent := false; is_te_chunked := false; pending_end_chunk := false; pr_palm := php; pr_cs := 1; pr_sr := 0 |}.
Definition palm_sent_state : palm_state :=
  {| pm_heap := {[0%nat := palm_sent_request]}; pm_next := 1; pm_list := [0%nat]; iov_protocol_request := palm_iov_example; palm_ip_str := repeat 0 47 |}.
Definition palm_sent_world : world := request_world (get_request "/a.php").

(** What the client gets. *)
Definition palm_client (env : Env) (es : list palm_event) : option bytes :=
  match @palm_events env 20 5 es palm_sent_state palm_sent_world with
  | Some (_, _, w) => Some (written 5 (w_trace w))
  | None => None
  end.

Definition palm_text_plain : bytes := lit "Content-type: text/plain" ++ crlf ++ crlf.
Definition palm_header (status : string) : bytes :=
  lit "HTTP/1.1 " ++ lit status ++ crlf ++ lit "Server: Monkey" ++ crlf ++ lit "Date: nowConnection: Close" ++ crlf ++
  lit "Transfer-Encoding: Chunked" ++ crlf.

Definition read_write : list palm_event := [ServerReadable; ClientWritable].
Example palm_in_chunks :
  palm_client (fast [palm_text_plain ++ lit "hello"; lit " world"]) (read_write ++ read_write ++ [ServerReadable]) =
  Some (palm_header "200 OK" ++ palm_text_plain ++ chunk (lit "hello") ++ chunk (lit " world") ++ last_chunk).
Proof. vm_compute. reflexivity. Qed.

(** The body loses as much as the status line is long. *)
Example palm_status_cuts_body :
  palm_client (fast [lit "Status: 404 Not Found" ++ crlf ++ palm_text_plain ++ lit "0123456789 123456789 12 and the rest"]) (read_write ++ [ServerReadable]) =
  Some (palm_header "404 Not Found" ++ palm_text_plain ++ chunk (lit " and the rest") ++ last_chunk).
Proof. vm_compute. reflexivity. Qed.

(** A server that ends before the client was writable: the last chunk is sent,
    the body is not. *)
Example palm_ends_first :
  palm_client (fast [palm_text_plain ++ lit "hello"]) [ServerReadable; ServerReadable; ClientWritable] = Some (palm_header "200 OK" ++ palm_text_plain ++ last_chunk).
Proof. vm_compute. reflexivity. Qed.

(** What the network does not take at once is copied, from the start of the
    answer, and never sent. *)
Example palm_slow_client :
  palm_client (palm_env 27 [palm_text_plain ++ lit "0123456789 123456789 123456789"]) (read_write ++ [ClientWritable; ServerReadable]) =
  Some (palm_header "200 OK" ++ take 27 palm_text_plain ++ lit "1e" ++ crlf ++ lit "0123456789 123456789 123456" ++ crlf ++ last_chunk).
Proof. vm_compute. reflexivity. Qed.

Lemma palm_sent_serves : palm_serves palm_sent_state 0 palm_sent_request.
Proof.
  split; [apply lookup_singleton_eq| |split; [|vm_compute; split; discriminate|vm_compute; split; discriminate]].
  - exists [], []. split; [done|]. intros j Hj. by apply elem_of_nil in Hj.
  - unfold palm_sent_request. cbn [in_buffer]. rewrite repeat_length. lia.
Qed.

Definition palm_body : bytes := lit "0123456789 123456789 12 and the rest".
Definition palm_answer : bytes := lit "Status: 404 Not Found" ++ crlf ++ palm_text_plain ++ palm_body.
Lemma palm_ready_example :
  let q' := palm_answered (with_status (Some (404, lit " Not Found")) (get_request "/a.php")) in
  @sections_ready (fast [palm_answer]) palm_sent_world (told (request_session (get_request "/a.php")) (pr_sr palm_sent_request) q') q'
    (lit "HTTP/1.1 404 Not Found" ++ crlf) (lit "Server: Monkey") (lit "now").
Proof.
  intros q'. split; [exact (header_world_example (get_request "/a.php"))| | | | intros H; vm_compute in H; discriminate].
  - split; [split; cbn; lia | split; cbn; lia | done | cbn; lia | cbn; lia].
  - eexists. split; [reflexivity|]. now apply (reads_lit (lit "HTTP/1.1 404 Not Found" ++ crlf)).
  - eexists. split; [reflexivity|]. apply (reads_lit (lit "Server: Monkey")). cbn. lia.
Qed.

Lemma palm_example_ends : ends_headers (palm_status_text (Some (404, lit " Not Found")) ++ lit "Content-type: text/plain").
Proof. vm_compute. reflexivity. Qed.
Lemma palm_example_nonempty : palm_status_text (Some (404, lit " Not Found")) ++ lit "Content-type: text/plain" <> [].
Proof. intros H. vm_compute in H. discriminate. Qed.

