(* ===== verification/PalmState.v ===== *)
(** * plugins/palm: the requests in memory

    Which requests are sent to a Palm server, and what the end of a connection
    leaves. *)
From stdpp Require Import gmap.
From S2P Require Import Prelude CString MkString MkMemory MkUtils MkTypes MkToc MkSession MkEpoll MkPlugin MkScheduler MkConfig MkResponse MkConnection.
From S2P Require Import MkSocket PluginState FcgiProtocol FcgiEnv Chunked PluginOutput PalmProtocol PalmVars Palm PalmOutput.
Import Iov.
Local Open Scope Z_scope.

(** ** The invariant *)

Record palm_bounds (r : mk_palm_request) : Prop := {
  pb_in : Z.of_nat (length (in_buffer r)) = 32768;
  pb_out : Z.of_nat (length (out_buffer r)) = 32768;
  pb_len : 0 <= in_len r <= 32768;
}.

Record palm_state_ok (s : palm_state) : Prop := {
  pk_requests i r : pm_heap s !! i = Some r -> palm_bounds r;
  pk_fresh i r : pm_heap s !! i = Some r -> (i < pm_next s)%nat;
  pk_nodup : NoDup (pm_list s);
  pk_list i : i ∈ pm_list s <-> is_Some (pm_heap s !! i);
}.

Lemma palm_upd_ok s i r r' : palm_state_ok s -> pm_heap s !! i = Some r -> palm_bounds r' -> palm_state_ok (upd s i r').
Proof.
  intros [H1 H2 H3 H4] Hi Hok. split; cbn.
  - intros j x [[<- <-]|[_ Hx]]%lookup_insert_Some; [done|by apply (H1 j)].
  - intros j x [[<- <-]|[_ Hx]]%lookup_insert_Some; [by apply H2 in Hi|by apply (H2 j x)].
  - done.
  - intros j. rewrite H4. destruct (decide (i = j)) as [<-|Hne]; [rewrite lookup_insert_eq, Hi; split; eauto|by rewrite lookup_insert_ne].
Qed.

Definition enter (s : palm_state) (r : mk_palm_request) : palm_state :=
  s <| pm_heap := <[pm_next s := r]> (pm_heap s) |> <| pm_next := S (pm_next s) |> <| pm_list := pm_list s ++ [pm_next s] |>.

Lemma palm_fresh_none s : palm_state_ok s -> pm_heap s !! pm_next s = None.
Proof. intros H. destruct (pm_heap s !! pm_next s) as [x|] eqn:E; [apply pk_fresh in E; [lia|done]|done]. Qed.

Lemma palm_enter_ok s r : palm_state_ok s -> palm_bounds r -> palm_state_ok (enter s r).
Proof.
  intros Hs Hr. pose proof (palm_fresh_none s Hs) as Hn. destruct Hs as [H1 H2 H3 H4]. split; cbn.
  - intros j x [[<- <-]|[_ Hx]]%lookup_insert_Some; [done|by apply (H1 j)].
  - intros j x [[<- <-]|[_ Hx]]%lookup_insert_Some; [lia|apply H2 in Hx; lia].
  - apply NoDup_app. split; [done|]. split; [|apply NoDup_singleton]. intros j Hj Hj2. apply list_elem_of_singleton in Hj2 as ->.
    apply H4 in Hj as [x Hx]. congruence.
  - intros j. rewrite elem_of_app, list_elem_of_singleton, H4. destruct (decide (pm_next s = j)) as [<-|Hne].
    + rewrite lookup_insert_eq. split; [eauto|by right].
    + rewrite lookup_insert_ne by done. split; [by intros [? | ->]|by left].
Qed.

Definition leave (s : palm_state) (i : nat) : palm_state :=
  s <| pm_list := List.remove Nat.eq_dec i (pm_list s) |> <| pm_heap := delete i (pm_heap s) |>.

Lemma palm_leave_ok s i : palm_state_ok s -> palm_state_ok (leave s i).
Proof.
  intros [H1 H2 H3 H4]. destruct (remove_NoDup (pm_list s) i H3) as [R1 R2]. split; cbn.
  - intros j x [_ H]%lookup_delete_Some. by apply (H1 j).
  - intros j x [_ H]%lookup_delete_Some. by apply (H2 j x).
  - done.
  - intros j. rewrite R2, H4. destruct (decide (i = j)) as [<-|Hne].
    + rewrite lookup_delete_eq. split; [tauto|by intros [? ?]].
    + rewrite lookup_delete_ne by done. split; [tauto|]. intros; split; [done|congruence].
Qed.

(** *** The list *)

(** The first request of the list with the property. *)
Fixpoint first_with (f : mk_palm_request -> bool) (s : palm_state) (l : list nat) : option nat :=
  match l with
  | [] => None
  | i :: l => match pm_heap s !! i with Some r => if f r then Some i else first_with f s l | None => first_with f s l end
  end.
Definition server_of (s : palm_state) (fd : Z) : option nat := first_with (fun r => palm_fd r =? fd) s (pm_list s).
Definition client_of (s : palm_state) (socket : Z) : option nat := first_with (fun r => client_fd r =? socket) s (pm_list s).

Lemma pr_find_first f s l w : (forall i, i ∈ l -> is_Some (pm_heap s !! i)) -> pr_find f l s w = Some (first_with f s l, s, w).
Proof.
  induction l as [|i l IH]; intros Hl; cbn [pr_find first_with]; [done|].
  destruct (Hl i) as [r Hr]; [left|]. erewrite P_bind_run by (by apply get_pr_run). rewrite Hr. case_if; [done|]. apply IH. intros j Hj. apply Hl. by right.
Qed.
Lemma server_run s fd w : palm_state_ok s -> mk_palm_request_get fd s w = Some (server_of s fd, s, w).
Proof. intros Hs. unfold mk_palm_request_get. erewrite P_bind_run by reflexivity. apply pr_find_first. intros i. apply Hs. Qed.
Lemma client_run s k w : palm_state_ok s -> mk_palm_request_get_by_http k s w = Some (client_of s k, s, w).
Proof. intros Hs. unfold mk_palm_request_get_by_http. erewrite P_bind_run by reflexivity. apply pr_find_first. intros i. apply Hs. Qed.

Lemma first_with_Some f s l i : first_with f s l = Some i -> i ∈ l /\ exists r, pm_heap s !! i = Some r /\ f r = true.
Proof.
  induction l as [|j l IH]; cbn [first_with]; [done|]. destruct (pm_heap s !! j) as [r|] eqn:E; [case_if|].
  - intros [= <-]. split; [left|eauto].
  - intros H. apply IH in H as [? ?]. split; [by right|done].
  - intros H. apply IH in H as [? ?]. split; [by right|done].
Qed.
Lemma first_with_None f s l : first_with f s l = None -> forall i r, i ∈ l -> pm_heap s !! i = Some r -> f r = false.
Proof.
  induction l as [|j l IH]; cbn [first_with]; intros H i r Hi Hr; [by apply elem_of_nil in Hi|]. apply elem_of_cons in Hi as [->|Hi].
  - rewrite Hr in H. by case_if_in H.
  - apply (IH) with (i := i); [|done|done]. destruct (pm_heap s !! j); [by case_if_in H|done].
Qed.

(** ** What the handlers do to it *)

Definition has (i : nat) (s : palm_state) : Prop := palm_state_ok s /\ is_Some (pm_heap s !! i).

Lemma get_pr_has i : triple (has i) (get_pr i) (fun r s => has i s /\ palm_bounds r).
Proof.
  intros s w r s' w' [Hs [x Hx]]. rewrite (get_pr_run s i x w Hx). intros [= <- <- <-]. split; [by split|by apply (pk_requests s Hs i)].
Qed.
Lemma put_pr_has i r : palm_bounds r -> triple (has i) (put_pr i r) (fun _ => has i).
Proof.
  intros Hr. apply triple_mod. intros s [Hs [x Hx]]. split; [by apply (palm_upd_ok s i x)|]. cbn. rewrite lookup_insert_eq. by eexists.
Qed.
Lemma mod_pr_has i f : (forall r, palm_bounds r -> palm_bounds (f r)) -> triple (has i) (mod_pr i f) (fun _ => has i).
Proof.
  intros Hf. eapply triple_bind; [apply get_pr_has|]. intros r. apply triple_fact. intros Hr. by apply put_pr_has, Hf.
Qed.

Lemma server_triple fd : triple palm_state_ok (mk_palm_request_get fd) (fun o s => palm_state_ok s /\ o = server_of s fd).
Proof. intros s w o s' w' Hs. rewrite server_run by done. by intros [= <- <- <-]. Qed.
Lemma client_triple k : triple palm_state_ok (mk_palm_request_get_by_http k) (fun o s => palm_state_ok s /\ o = client_of s k).
Proof. intros s w o s' w' Hs. rewrite client_run by done. by intros [= <- <- <-]. Qed.

Lemma first_has f s i : palm_state_ok s -> first_with f s (pm_list s) = Some i -> has i s.
Proof. intros Hs H. apply first_with_Some in H as (_ & r & Hr & _). split; [done|by eexists]. Qed.

(** Steps on a request that is in memory. *)
Ltac hret := first [apply (triple_ret _ (fun _ => has _)) | eapply triple_pre; [|apply (triple_ret _ (fun _ => has _))]; tauto].
Ltac hget := eapply triple_bind; [apply get_pr_has|]; intros ?; apply triple_fact; intros ?.
Ltac hmod := eapply triple_bind; [apply mod_pr_has; intros ? []; by split|]; intros ?.

Section WithEnv.
Context `{env : Env} `{peers : PeerNames} `{globals : PalmGlobals}.

Lemma palm_update_ok fd i : triple (has i) (mk_palm_request_update fd i) (fun _ => palm_state_ok).
Proof.
  unfold mk_palm_request_update. eapply (triple_bind _ _ _ (fun o s => has i s /\ o = server_of s fd)).
  - intros s w o s' w' [Hs Hi]. rewrite server_run by done. intros [= <- <- <-]. by split.
  - intros [j|]; [|eapply triple_pre; [|apply (triple_ret _ (fun _ => palm_state_ok))]; intros s [[? _] _]; done].
    eapply (triple_bind _ _ _ (fun _ => has j)).
    + intros s w r s' w' [[Hs [x Hx]] Hj]. rewrite (get_pr_run s i x w Hx). intros [= <- <- <-]. by eapply first_has.
    + intros r. eapply triple_post; [apply mod_pr_has; intros ? []; by split|]. by intros ? s [? _].
Qed.

Lemma palm_send_headers_ok i : triple (has i) (mk_palm_send_headers i) (fun _ => has i).
Proof.
  unfold mk_palm_send_headers. hget. tcall. eapply (triple_bind _ _ _ (fun _ => has i)); [case_if; [apply triple_call|hret]|]. intros ?.
  do 2 tcall. eapply (triple_bind _ _ _ (fun _ => has i)).
  - case_if; [|hret]. tcall. apply mod_pr_has. intros ? []. by split.
  - intros ?. do 3 tcall. hret.
Qed.

Lemma palm_first_ok i e : triple (has i) (palm_first i e) (fun _ => has i).
Proof.
  unfold palm_first. hget. tlift. eapply (triple_bind _ _ _ (fun _ => has i)).
  - destruct a0 as [[code offset]|]; [tcall|]; hret.
  - intros ?. eapply triple_bind; [apply palm_send_headers_ok|]. intros ?. tlift. tcall. case_if; [hret|]. hmod. hret.
Qed.

Lemma palm_event_write_ok k : triple palm_state_ok (Palm._mkp_event_write k) (fun _ => palm_state_ok).
Proof.
  unfold Palm._mkp_event_write. eapply triple_bind; [apply client_triple|]. intros [i|].
  2: { eapply triple_pre; [|apply (triple_ret _ (fun _ => palm_state_ok))]. tauto. }
  apply (triple_pre _ (has i)); [intros s [Hs Hf]; by eapply first_has|].
  apply (triple_post _ _ (fun _ => has i)); [|by intros ? s [? _]]. hget.
  eapply (triple_bind _ _ _ (fun _ => has i)); [|intros ?; hret].
  case_if; [|hret]. tlift. tcall. eapply (triple_bind _ _ _ (fun _ => has i)).
  - case_if; [|hret]. tlift. tlift. apply put_pr_has.
    repeat match goal with H : palm_bounds _ |- _ => destruct H | H : bwrite _ _ _ = Some _ |- _ => apply bwrite_length in H end. split; cbn; [done|congruence|done].
  - intros ?. apply mod_pr_has. intros ? []. split; cbn; [done|done|lia].
Qed.

Lemma bwrite_fits buf off d buf' : bwrite buf off d = Some buf' -> 0 <= off /\ off + Z.of_nat (length d) <= Z.of_nat (length buf).
Proof. unfold bwrite. case_if; [|done]. zbool. lia. Qed.

Lemma palm_event_read_ok fd : triple palm_state_ok (Palm._mkp_event_read fd) (fun _ => palm_state_ok).
Proof.
  unfold Palm._mkp_event_read. eapply triple_bind; [apply server_triple|]. intros [i|].
  2: { eapply triple_pre; [|apply (triple_ret _ (fun _ => palm_state_ok))]. tauto. }
  apply (triple_pre _ (has i)); [intros s [Hs Hf]; by eapply first_has|].
  assert (Hret : forall z, triple (has i) (mret z) (fun (_ : Z) => palm_state_ok)).
  { intros z. eapply triple_pre; [|apply (triple_ret _ (fun _ => palm_state_ok))]. by intros s [? _]. }
  hget. tcall. destruct a0 as [[|c d]|]; [|tlift|].
  1, 3: tcall; eapply (triple_bind _ _ _ (fun _ => has i)); [case_if; [tcall|]; hret|intros ?; apply Hret].
  match goal with H : bwrite _ _ _ = Some _ |- _ => pose proof (bwrite_length _ _ _ _ H) as Hbl; apply bwrite_fits in H end.
  eapply triple_bind; [apply put_pr_has|intros ?].
  { match goal with H : palm_bounds _ |- _ => destruct H end. split; cbn -[length]; [congruence|done|lia]. }
  eapply (triple_bind _ _ _ (fun _ => has i)); [case_if; [hret|tlift; hret]|]. intros [[e|]|]; [|apply Hret|].
  - eapply triple_bind; [apply palm_first_ok|]. intros ok. case_if; [apply Hret|]. eapply triple_bind; [apply palm_update_ok|]. intros ?. apply (triple_ret _ (fun _ => palm_state_ok)).
  - eapply triple_bind; [apply palm_update_ok|]. intros ?. apply (triple_ret _ (fun _ => palm_state_ok)).
Qed.

Lemma palm_send_request_ok cs sr : triple palm_state_ok (mk_palm_send_request cs sr) (fun _ => palm_state_ok).
Proof.
  unfold mk_palm_send_request. tcall. eapply triple_bind; [apply client_triple|]. intros [i|].
  2: { eapply triple_pre; [|apply (triple_ret _ (fun _ => palm_state_ok))]. tauto. }
  apply (triple_pre _ (has i)); [intros s [Hs Hf]; by eapply first_has|].
  apply (triple_post _ _ (fun _ => has i)); [|by intros ? s [? _]]. hget.
  eapply (triple_bind _ _ _ (fun _ => has i)); [|intros ?; hget; hret].
  case_if; [|hret]. do 2 tcall. eapply triple_bind; [apply triple_get|]. intros s0.
  apply (triple_pre _ (has i)); [by intros s [? _]|]. tcall. destruct a3 as [[iov ip] made].
  eapply (triple_bind _ _ _ (fun _ => has i)).
  - apply triple_mod. intros s [[H1 H2 H3 H4] [x Hx]]. split; [by split|by eexists].
  - intros ?. case_if; [intros s w x s' w' _ He; by apply liftP_inv in He as (_ & _ & He)|]. tcall. case_if; [apply mod_pr_has; intros ? []; by split|hret].
Qed.

Definition new_request (palm : mk_palm) (client_fd palm_fd : Z) (cs sr : nat) : mk_palm_request :=
  {| client_fd := client_fd; palm_fd := palm_fd; in_buffer := repeat 0 (Z.to_nat MK_PALM_BUFFER_SIZE); out_buffer := repeat 0 (Z.to_nat MK_PALM_BUFFER_SIZE);
     in_len := 0; out_len := 0; in_offset := 0; bytes_sent := 0; bytes_read := 0; headers_sent := false; is_te_chunked := false; pending_end_chunk := false;
     pr_palm := palm; pr_cs := cs; pr_sr := sr |}.

Lemma new_request_bounds palm k fd cs sr : palm_bounds (new_request palm k fd cs sr).
Proof. split; cbn [new_request in_buffer out_buffer in_len]; rewrite ?repeat_length; unfold MK_PALM_BUFFER_SIZE; lia. Qed.

(** The request is made, and then entered in the list. *)
Lemma palm_enter_run {B} palm k fd cs sr (rest : nat -> PM B) s w :
  (i ← mk_palm_request_create k fd cs sr palm; mk_palm_request_add i;; rest i) s w = rest (pm_next s) (enter s (new_request palm k fd cs sr)) w.
Proof. reflexivity. Qed.

Lemma palm_stage_30_ok cs sr : triple palm_state_ok (Palm._mkp_stage_30 cs sr) (fun _ => palm_state_ok).
Proof.
  unfold Palm._mkp_stage_30. tcall. eapply triple_bind; [apply client_triple|].
  assert (Hret : forall z, triple palm_state_ok (mret z) (fun (_ : Z) => palm_state_ok)) by (intros z; apply (triple_ret _ (fun _ => palm_state_ok))).
  intros [i|]; (apply (triple_pre _ palm_state_ok); [by intros s [? _]|]); [apply Hret|].
  tcall. tlift. destruct a1 as [palm|]; [|apply Hret]. case_if; [apply Hret|].
  unfold mk_palm_connect. intros s w ret s' w' Hs. cbv zeta. unfold mbind at 1, P_bind at 1.
  erewrite call_run by reflexivity. destruct (_ <? 0).
  - destruct (mk_header_set_http_status cs sr MK_SERVER_INTERNAL_ERROR w) as [[[] w1]|] eqn:Em.
    + erewrite call_run by exact Em. by intros [= <- <- <-].
    + unfold mbind at 1, P_bind at 1, call. by rewrite Em.
  - intros Hrun. set (fd := palm_socket_connect _ _ _) in *. set (r := new_request palm (cs_socket a) fd cs sr).
    assert (He : palm_state_ok (enter s r)) by (apply palm_enter_ok; [done|apply new_request_bounds]).
    assert (Hrest : triple palm_state_ok (r ← get_pr (pm_next s); _ ← call (mk_plugin_event_add (palm_fd r) MK_EPOLL_READ (Some palm_plugin) MK_EPOLL_LEVEL_TRIGGERED);
      _ ← mk_palm_send_request cs sr; mret MK_PLUGIN_RET_CONTINUE) (fun _ => palm_state_ok)).
    { eapply (triple_bind _ _ _ (fun _ => palm_state_ok)).
      - unfold get_pr. eapply triple_bind; [apply triple_get|]. intros s0 s1 w1 x s2 w2 [Hok _] Hl. by apply liftP_inv in Hl as (-> & _ & _).
      - intros ?. tcall. eapply triple_bind; [apply palm_send_request_ok|]. intros ?. apply Hret. }
    exact (Hrest _ w ret s' w' He Hrun).
Qed.

Lemma palm_delete_ok fd : triple palm_state_ok (mk_palm_request_delete fd) (fun _ => palm_state_ok).
Proof.
  unfold mk_palm_request_delete. eapply triple_bind; [apply server_triple|]. intros [i|].
  2: { eapply triple_pre; [|apply (triple_ret _ (fun _ => palm_state_ok))]. tauto. }
  eapply (triple_bind _ _ _ (fun _ => palm_state_ok)); [|intros ?; apply (triple_ret _ (fun _ => palm_state_ok))].
  apply triple_mod. intros s [Hs _]. by apply palm_leave_ok.
Qed.

Lemma palm_hangup_ok fuel fd : triple palm_state_ok (hangup fuel fd) (fun _ => palm_state_ok).
Proof.
  revert fd; induction fuel as [|fuel IH]; intros fd; cbn [hangup].
  { intros s w a s' w' Hs E. by apply liftP_inv in E as (-> & -> & E). }
  assert (Hget : forall i Pre, triple Pre (get_pr i) (fun _ => Pre)).
  { intros i Pre. unfold get_pr. eapply triple_bind; [apply triple_get|]. intros s0 s1 w1 x s2 w2 [Hok _] Hl. by apply liftP_inv in Hl as (-> & _ & _). }
  eapply triple_bind; [apply server_triple|]. intros [i|]; (apply (triple_pre _ palm_state_ok); [by intros s [? _]|]).
  - eapply triple_bind; [apply Hget|]. intros r. tcall.
    eapply triple_bind; [apply plugin_http_request_end_triple; exact IH|]. intros ?. tcall.
    eapply triple_bind; [apply palm_delete_ok|]. intros ?. apply (triple_ret _ (fun _ => palm_state_ok)).
  - eapply triple_bind; [apply client_triple|]. intros [i|]; (apply (triple_pre _ palm_state_ok); [by intros s [? _]|]); [|apply (triple_ret _ (fun _ => palm_state_ok))].
    eapply triple_bind; [apply Hget|]. intros r. tcall. eapply triple_bind; [apply palm_delete_ok|]. intros ?. apply (triple_ret _ (fun _ => palm_state_ok)).
Qed.

(** Whatever the plugin is called for. *)
Inductive palm_reaches : palm_state -> Prop :=
  | pr_start s : palm_thctx = Some s -> palm_reaches s
  | pr_stage_30 s w cs sr ret s' w' : palm_reaches s -> Palm._mkp_stage_30 cs sr s w = Some (ret, s', w') -> palm_reaches s'
  | pr_read s w fd ret s' w' : palm_reaches s -> Palm._mkp_event_read fd s w = Some (ret, s', w') -> palm_reaches s'
  | pr_write s w fd ret s' w' : palm_reaches s -> Palm._mkp_event_write fd s w = Some (ret, s', w') -> palm_reaches s'
  | pr_close s w fd ret s' w' : palm_reaches s -> Palm._mkp_event_close fd s w = Some (ret, s', w') -> palm_reaches s'
  | pr_error s w fd ret s' w' : palm_reaches s -> Palm._mkp_event_error fd s w = Some (ret, s', w') -> palm_reaches s'.

Lemma palm_start_ok s : palm_thctx = Some s -> palm_state_ok s.
Proof.
  unfold palm_thctx. destruct palm_iov_init; [|done]. intros [= <-]. split; cbn.
  - intros i r. by rewrite lookup_empty.
  - intros i r. by rewrite lookup_empty.
  - constructor.
  - intros i. rewrite lookup_empty, elem_of_nil. split; [done|by intros [? ?]].
Qed.

(** Whatever requests come and whatever servers answer, the list of the
    thread holds exactly the requests in memory, each once, and what is in a
    buffer is within its 32768 bytes: what is read next fits behind it. *)
Theorem palm_reachable_ok s :
  palm_reaches s ->
  palm_state_ok s /\
  forall i r d, pm_heap s !! i = Some r -> Z.of_nat (length d) <= MK_PALM_BUFFER_SIZE - in_len r -> exists buf, bwrite (in_buffer r) (in_len r) d = Some buf.
Proof.
  intros H. assert (Hs : palm_state_ok s).
  { induction H as [s E|s w cs sr ret s' w' _ IH E|s w fd ret s' w' _ IH E|s w fd ret s' w' _ IH E|s w fd ret s' w' _ IH E|s w fd ret s' w' _ IH E].
    - by apply palm_start_ok.
    - exact (palm_stage_30_ok cs sr s w ret s' w' IH E).
    - exact (palm_event_read_ok fd s w ret s' w' IH E).
    - exact (palm_event_write_ok fd s w ret s' w' IH E).
    - exact (palm_hangup_ok 2 fd s w ret s' w' IH E).
    - exact (palm_hangup_ok 2 fd s w ret s' w' IH E). }
  split; [done|]. intros i r d Hr Hd. destruct (pk_requests s Hs i r Hr) as [B1 _ B3]. unfold MK_PALM_BUFFER_SIZE in Hd.
  destruct (bwrite_ok (in_buffer r) (in_len r) d) as (buf & Hb & _); [lia|lia|]. by exists buf.
Qed.

(** ** The end of a connection *)

(** No two requests share a descriptor, and none is the client of one and the
    server of another. *)
Definition palm_distinct (s : palm_state) : Prop :=
  forall i j r x, pm_heap s !! i = Some r -> pm_heap s !! j = Some x -> client_fd r <> palm_fd x /\ (i <> j -> client_fd r <> client_fd x /\ palm_fd r <> palm_fd x).

(** Whose descriptor it is. *)
Definition owner (s : palm_state) (fd : Z) : option nat := match server_of s fd with Some i => Some i | None => client_of s fd end.
Definition released (s : palm_state) (fd : Z) : palm_state := match owner s fd with Some i => leave s i | None => s end.

Lemma owner_unique s fd i r : palm_state_ok s -> palm_distinct s -> pm_heap s !! i = Some r ->
  (palm_fd r = fd -> server_of s fd = Some i) /\ (client_fd r = fd -> server_of s fd = None /\ client_of s fd = Some i).
Proof.
  intros Hs Hd Hi. assert (Hin : i ∈ pm_list s) by (apply Hs; by eexists). split; intros Hfd.
  - unfold server_of. destruct (first_with _ s (pm_list s)) as [j|] eqn:E.
    + apply first_with_Some in E as (_ & x & Hx & Hxf). zbool. destruct (decide (i = j)) as [->|Hne]; [done|]. destruct (Hd i j r x Hi Hx) as [_ H]. apply H in Hne as [_ Hne]. congruence.
    + pose proof (first_with_None _ _ _ E i r Hin Hi) as H. cbn in H. zbool. congruence.
  - split.
    + unfold server_of. destruct (first_with _ s (pm_list s)) as [j|] eqn:E; [|done]. apply first_with_Some in E as (_ & x & Hx & Hxf). zbool.
      destruct (Hd i j r x Hi Hx) as [H _]. congruence.
    + unfold client_of. destruct (first_with _ s (pm_list s)) as [j|] eqn:E.
      * apply first_with_Some in E as (_ & x & Hx & Hxf). zbool. destruct (decide (i = j)) as [->|Hne]; [done|]. destruct (Hd i j r x Hi Hx) as [_ H]. apply H in Hne as [Hne _]. congruence.
      * pose proof (first_with_None _ _ _ E i r Hin Hi) as H. cbn in H. zbool. congruence.
Qed.

Lemma palm_delete_run s fd w : palm_state_ok s -> exists z, mk_palm_request_delete fd s w = Some (z, match server_of s fd with Some i => leave s i | None => s end, w).
Proof.
  intros Hs. unfold mk_palm_request_delete. erewrite P_bind_run by (by apply server_run). destruct (server_of s fd); eexists; reflexivity.
Qed.

(** The end of the connection of a client, or of no one. *)
Lemma hangup_client_run n s fd w :
  palm_state_ok s -> palm_distinct s -> server_of s fd = None ->
  exists w', hangup (S n) fd s w = Some (MK_PLUGIN_RET_EVENT_CONTINUE, released s fd, w') /\
    w_trace w' = w_trace w ++ match client_of s fd with Some i => match pm_heap s !! i with Some r => [EvClose (palm_fd r)] | None => [] end | None => [] end.
Proof.
  intros Hs Hd Hn. unfold released, owner. rewrite Hn. cbn [hangup]. erewrite P_bind_run by (by apply server_run). rewrite Hn.
  erewrite P_bind_run by (by apply client_run). destruct (client_of s fd) as [i|] eqn:Ec.
  - pose proof Ec as Hc. apply first_with_Some in Hc as (_ & r & Hr & _). erewrite P_bind_run by (by apply get_pr_run). erewrite call_run by reflexivity.
    match goal with |- context [(mk_palm_request_delete _ ≫= _) s ?w1] => destruct (palm_delete_run s (palm_fd r) w1 Hs) as (z & Hz) end.
    erewrite P_bind_run by exact Hz. destruct (owner_unique s (palm_fd r) i r Hs Hd Hr) as [Ho _]. rewrite (Ho eq_refl), Hr.
    eexists. split; [reflexivity|done].
  - exists w. split; [done|]. by rewrite app_nil_r.
Qed.

Lemma leave_lookup s i j x : pm_heap (leave s i) !! j = Some x -> i <> j /\ pm_heap s !! j = Some x.
Proof. apply lookup_delete_Some. Qed.

Lemma palm_distinct_leave s i : palm_distinct s -> palm_distinct (leave s i).
Proof. intros H j k r x [_ Hj]%leave_lookup [_ Hk]%leave_lookup. by apply H. Qed.

Lemma server_leave s i r : palm_state_ok s -> palm_distinct s -> pm_heap s !! i = Some r -> server_of (leave s i) (palm_fd r) = None.
Proof.
  intros Hs Hd Hi. destruct (server_of _ _) as [j|] eqn:E; [|done]. apply first_with_Some in E as (_ & x & [Hne Hx]%leave_lookup & Hf). zbool.
  destruct (Hd i j r x Hi Hx) as [_ H]. apply H in Hne as [_ Hne]. congruence.
Qed.

(** Nobody has the descriptor afterwards. *)
Lemma released_ok s fd :
  palm_state_ok s -> palm_distinct s -> palm_state_ok (released s fd) /\ palm_distinct (released s fd) /\ owner (released s fd) fd = None.
Proof.
  intros Hs Hd. unfold released. destruct (owner s fd) as [i|] eqn:Eo; [|done]. split; [by apply palm_leave_ok|]. split; [by apply palm_distinct_leave|].
  assert (Hi : exists r, pm_heap s !! i = Some r /\ (palm_fd r = fd \/ client_fd r = fd)).
  { unfold owner in Eo. destruct (server_of s fd) as [j|] eqn:Ej; [injection Eo as ->; apply first_with_Some in Ej as (_ & r & Hr & Hf)|apply first_with_Some in Eo as (_ & r & Hr & Hf)];
      exists r; zbool; tauto. }
  destruct Hi as (r & Hr & Hfd). unfold owner. destruct (server_of (leave s i) fd) as [j|] eqn:Es; [|destruct (client_of (leave s i) fd) as [j|] eqn:Ec; [|done]].
  - apply first_with_Some in Es as (_ & x & [Hne Hx]%leave_lookup & Hf). zbool. destruct (Hd i j r x Hr Hx) as [H1 H2]. apply H2 in Hne as [_ Hne]. destruct Hfd; congruence.
  - apply first_with_Some in Ec as (_ & x & [Hne Hx]%leave_lookup & Hf). zbool. destruct (Hd i j r x Hr Hx) as [H1 H2], (Hd j i x r Hx Hr) as [H3 _]. apply H2 in Hne as [Hne _]. destruct Hfd; congruence.
Qed.

(** The end of the request of a client, which may end its connection. *)
Lemma request_end_run n s i r w :
  palm_state_ok s -> palm_distinct s -> pm_heap s !! i = Some r ->
  plugin_http_request_end (hangup (S n)) (client_fd r) s w = plugin_http_request_end (hangup 1) (client_fd r) s w /\
  forall z s1 w1, plugin_http_request_end (hangup 1) (client_fd r) s w = Some (z, s1, w1) -> s1 = s \/ s1 = leave s i.
Proof.
  intros Hs Hd Hr. destruct (owner_unique s (client_fd r) i r Hs Hd Hr) as [_ Ho]. destruct (Ho eq_refl) as [Hn Hc].
  assert (Heq : forall w, hangup (S n) (client_fd r) s w = hangup 1 (client_fd r) s w).
  { intros w0. cbn [hangup]. unfold mbind, P_bind. rewrite server_run by done. by rewrite Hn. }
  unfold plugin_http_request_end, mbind, P_bind, call. destruct (mk_http_request_end (client_fd r) w) as [[z w1]|]; [|done].
  destruct (z <? 0); [|split; [done|intros ? ? ? [= <- <- <-]; by left]]. unfold plugin_conn_close, mbind, P_bind.
  rewrite Heq. split; [done|]. destruct (hangup_client_run 0 s (client_fd r) w1 Hs Hd Hn) as (w2 & H1 & _). rewrite H1.
  unfold released, owner. rewrite Hn, Hc. intros ? ? ?.
  change (MK_PLUGIN_RET_EVENT_CONTINUE =? MK_PLUGIN_RET_EVENT_NEXT) with false. change (MK_PLUGIN_RET_EVENT_CONTINUE =? MK_PLUGIN_RET_EVENT_OWNED) with false.
  change (MK_PLUGIN_RET_EVENT_CONTINUE =? MK_PLUGIN_RET_EVENT_CLOSE) with false. cbv iota. unfold call. destruct (mk_sched_remove_client _ _) as [[? ?]|]; [|done].
  intros [= <- <- <-]. by right.
Qed.

(** The end of the connection of a server. *)
Lemma hangup_server_run n s i r w :
  palm_state_ok s -> server_of s (palm_fd r) = Some i -> pm_heap s !! i = Some r ->
  hangup (S n) (palm_fd r) s w =
  (_ ← call (mk_plugin_event_del (palm_fd r)); _ ← plugin_http_request_end (hangup n) (client_fd r);
   call (emit (EvClose (palm_fd r)));; _ ← mk_palm_request_delete (palm_fd r); mret MK_PLUGIN_RET_EVENT_CONTINUE) s w.
Proof.
  intros Hs Es Hr. cbn [hangup]. erewrite P_bind_run by (by apply server_run). rewrite Es. erewrite P_bind_run by (by apply get_pr_run). done.
Qed.

(** The end of a connection frees its request, whether it is the one of
    the client or the one of the server, and no other request: the call that
    the end of the request of a client makes to the plugin itself finds a
    client, so that it makes no further call. *)
Theorem palm_hangup_releases s fd w :
  palm_state_ok s -> palm_distinct s ->
  (forall n, hangup (2 + n) fd s w = hangup 2 fd s w) /\
  (forall ret s' w', Palm._mkp_event_close fd s w = Some (ret, s', w') ->
     ret = MK_PLUGIN_RET_EVENT_CONTINUE /\ s' = released s fd /\ palm_state_ok s' /\ palm_distinct s' /\ owner s' fd = None).
Proof.
  intros Hs Hd. pose proof (released_ok s fd Hs Hd) as Hend. destruct (server_of s fd) as [i|] eqn:Es.
  2: { split; [intros n; cbn [hangup Nat.add]; unfold mbind, P_bind; rewrite server_run by done; by rewrite Es|].
       intros ret s' w' E. destruct (hangup_client_run 1 s fd w Hs Hd Es) as (w2 & H2 & _). unfold Palm._mkp_event_close in E. rewrite H2 in E. injection E as <- <- <-. by split. }
  pose proof Es as Hi. apply first_with_Some in Hi as (_ & r & Hr & Hfd). zbool. subst fd. split.
  - intros n. change (2 + n)%nat with (S (S n)). rewrite !(hangup_server_run _ s i r) by done.
    match goal with |- (call ?m ≫= ?k1) s w = (_ ≫= ?k2) s w => destruct (call_cases m k1 s w) as [[-> Hm]|(a & w1 & Hm & ->)] end.
    + unfold mbind, P_bind, call at 1. by rewrite Hm.
    + erewrite call_run by exact Hm. by apply P_bind_ext, (request_end_run n s i r w1).
  - intros ret s' w' E. unfold Palm._mkp_event_close in E. rewrite (hangup_server_run 1 s i r) in E by done.
    unfold mbind at 1, P_bind at 1, call at 1 in E. destruct (mk_plugin_event_del _ _) as [[? w1]|]; [|done].
    unfold mbind at 1, P_bind at 1 in E.
    destruct (request_end_run 0 s i r w1 Hs Hd Hr) as [_ H2]. destruct (plugin_http_request_end _ _ s w1) as [[[z2 s1] w2]|] eqn:Ep; [|done].
    erewrite call_run in E by reflexivity. specialize (H2 z2 s1 w2 eq_refl).
    assert (Hs1 : palm_state_ok s1) by (destruct H2 as [->| ->]; [done|by apply palm_leave_ok]).
    match type of E with (_ ≫= _) s1 ?w3 = _ => destruct (palm_delete_run s1 (palm_fd r) w3 Hs1) as (y & Hy) end.
    erewrite P_bind_run in E by exact Hy. injection E as <- <- <-.
    assert (Hfin : match server_of s1 (palm_fd r) with Some j => leave s1 j | None => s1 end = released s (palm_fd r)).
    { unfold released, owner. rewrite Es. destruct H2 as [->| ->]; [by rewrite Es|]. by rewrite (server_leave s i r). }
    rewrite Hfin. by split.
Qed.

(** ** A request is sent *)

(** The request of a client without one is sent to the server of its extension. *)
Record palm_asks (s : palm_state) (w : world) (cs sr : nat) (c : client_session) (q : session_request) (m : mk_palm) (k : Z) : Prop := {
  pa_ok : palm_state_ok s;
  pa_none : client_of s (cs_socket c) = None;
  pa_at : at_sr w cs sr c q;
  pa_handler : mk_palm_get_handler palms (sr_real_path q) = Some (Some m);
  pa_file : fi_size (sr_file_info q) <> -1;
  pa_connect : palm_socket_connect (w_trace w) (server_addr m) (server_port m) = k;
  pa_connected : 0 <= k;
  pa_new : server_of s k = None;
  pa_vector : exists d n, iov_at (iov_protocol_request s) d n;
  pa_size : size (iov_protocol_request s) = 128;
  pa_buffer : length (palm_ip_str s) = 47%nat;
}.

Lemma palm_entered s w cs sr c q m k :
  palm_asks s w cs sr c q m k -> let r := new_request m (cs_socket c) k cs sr in palm_serves (enter s r) (pm_next s) r.
Proof.
  intros [Hs Hn _ _ _ _ _ Hk _ _ _] r. split; [cbn; apply lookup_insert_eq| |].
  - exists (pm_list s), []. split; [done|]. intros j Hj. assert (Hj' := Hj). apply Hs in Hj' as [x Hx]. pose proof (pk_fresh s Hs j x Hx).
    split; [lia|]. exists x. split; [cbn; rewrite lookup_insert_ne by lia; done|].
    pose proof (first_with_None _ _ _ Hk j x Hj Hx) as H1. pose proof (first_with_None _ _ _ Hn j x Hj Hx) as H2. cbn in H1, H2. zbool. done.
  - split; cbn [r new_request in_buffer in_len in_offset]; [rewrite repeat_length; unfold MK_PALM_BUFFER_SIZE; lia|lia|lia].
Qed.

Lemma palm_send_request_run s i r w cs sr c q v d n :
  palm_serves s i r -> client_fd r = cs_socket c -> bytes_sent r = 0 -> at_sr w cs sr c q -> iov_at (iov_protocol_request s) d n -> size (iov_protocol_request s) = 128 ->
  length (palm_ip_str s) = 47%nat -> palm_says mk_server_port q v -> peer_text w (cs_socket c) (pv_addr v) ->
  get_port_by_socket (w_trace w) (cs_socket c) = pv_peer_port v -> (length (pv_headers v) <= 15)%nat ->
  let text := palm_text (all_vars v) in let sent := palm_writev (w_trace w) (palm_fd r) text in 0 <= sent ->
  exists z iov n', mk_palm_send_request cs sr s w =
    Some (z, upd (s <| iov_protocol_request := iov |> <| palm_ip_str := peer_buffer (pv_addr v) (palm_ip_str s) |>) i (r <| bytes_sent := u64 sent |>),
          logged w [EvWrite (palm_fd r) (take (Z.to_nat sent) text)]) /\ iov_at iov text n' /\ size iov = 128.
Proof.
  intros Hs Hc Hb Hat Hiov Hsize Hip Hsays Hpeer Hport Hn text sent Hsent.
  destruct (palm_request_run mk_server_port c q v _ (palm_ip_str s) w d n Hsays Hpeer Hiov Hsize Hip Hn) as (iov & n' & Hrun & Hat' & Hsz).
  unfold mk_palm_send_request. erewrite call_run by (by eapply get_at_cs). rewrite <- Hc in *.
  erewrite P_bind_run by (by apply palm_serves_http). cbv iota. erewrite P_bind_run by (by eapply palm_serves_get). rewrite Hb. cbn [Z.eqb].
  set (s1 := s <| iov_protocol_request := iov |> <| palm_ip_str := peer_buffer (pv_addr v) (palm_ip_str s) |>).
  assert (Hheap : pm_heap s1 !! i = Some r) by apply Hs. assert (Hiovsend : palm_iov_send (palm_fd r) iov w = Some (sent, logged w [EvWrite (palm_fd r) (take (Z.to_nat sent) text)])).
  { unfold palm_iov_send. erewrite lift_run by apply Hat'. erewrite bind_run by reflexivity. fold text. fold sent. erewrite bind_run by reflexivity. replace (sent <? 0) with false by zb. reflexivity. }
  assert (Hsend : forall (k : unit -> PM Z), ((q ← call (get_sr cs sr); t ← call (gets w_trace); s ← getP;
       '(iov, ip, made) ← call (mk_palm_protocol_request_new mk_server_port (get_port_by_socket t (client_fd r)) c q (iov_protocol_request s) (palm_ip_str s));
       modP (fun s => s <| iov_protocol_request := iov |> <| palm_ip_str := ip |>);;
       if negb made then liftP None else
       bytes_iov ← call (palm_iov_send (palm_fd r) iov);
       if 0 <=? bytes_iov then mod_pr i (fun r => r <| bytes_sent := u64 (bytes_sent r + bytes_iov) |>) else mret tt) ≫= k) s w =
    k tt (upd s1 i (r <| bytes_sent := u64 sent |>)) (logged w [EvWrite (palm_fd r) (take (Z.to_nat sent) text)])).
  { intros k. apply P_bind_run. erewrite call_run by (by eapply get_at_sr). erewrite call_run by reflexivity. erewrite P_bind_run by reflexivity.
    rewrite Hport. erewrite call_run by exact Hrun. cbv beta iota. erewrite P_bind_run by reflexivity. fold s1. cbn [negb].
    erewrite call_run by exact Hiovsend. replace (0 <=? sent) with true by zb. rewrite (mod_pr_run i _ r s1) by done. rewrite Hb, Z.add_0_l. done. }
  rewrite Hsend. erewrite P_bind_run by (apply get_pr_run, palm_upd_at). by eexists _, iov, n'.
Qed.

(** A request of a file with a known extension whose client has no request
    at a Palm server is entered in the list of the thread, waiting for an
    answer, its connection is watched, and the server gets the text of its
    variables. *)
Theorem palm_stage_30_sends s w cs sr c q m k v :
  palm_asks s w cs sr c q m k -> palm_says mk_server_port q v -> (forall w, peer_text w (cs_socket c) (pv_addr v)) ->
  (forall t, get_port_by_socket t (cs_socket c) = pv_peer_port v) -> (length (pv_headers v) <= 15)%nat ->
  (forall t d, palm_writev t k d = Z.of_nat (length d)) ->
  exists s' w' r, Palm._mkp_stage_30 cs sr s w = Some (MK_PLUGIN_RET_CONTINUE, s', w') /\
    palm_serves s' (pm_next s) r /\ palm_waiting r [] /\ client_fd r = cs_socket c /\ palm_fd r = k /\ pr_cs r = cs /\ pr_sr r = sr /\
    palm_state_ok s' /\ at_sr w' cs sr c q /\
    exists efd ev, w_trace w' = w_trace w ++ [EvEpollCtl EPOLL_CTL_ADD efd k ev; EvWrite k (palm_text (all_vars v))].
Proof.
  intros Hask Hsays Hpeer Hport Hn Hwritev. pose proof (palm_entered _ _ _ _ _ _ _ _ Hask) as Hserves. cbv zeta in Hserves.
  destruct Hask as [Hs Hnone Hat Hm Hf Hcon Hk Hnew (d & n & Hiov) Hsize Hip]. set (r := new_request m (cs_socket c) k cs sr) in *.
  unfold Palm._mkp_stage_30. erewrite call_run by (by eapply get_at_cs). erewrite P_bind_run by (by apply client_run). rewrite Hnone.
  erewrite call_run by (by eapply get_at_sr). erewrite liftP_run by exact Hm. replace (fi_size (sr_file_info q) =? -1) with false by zb.
  unfold mk_palm_connect. cbv zeta. erewrite P_bind_run.
  2: { erewrite call_run by reflexivity. rewrite Hcon. replace (k <? 0) with false by zb. reflexivity. }
  cbv iota. erewrite P_bind_run by reflexivity.
  match goal with |- context [(get_pr _ ≫= _) ?s1 w] => change s1 with (enter s r) end.
  erewrite P_bind_run by (apply get_pr_run, Hserves). change (palm_fd r) with k.
  destruct (event_add_run k MK_EPOLL_READ palm_plugin w) as (z1 & w1 & H1 & S1 & efd & ev & T1). erewrite call_run by exact H1.
  assert (Hat1 : at_sr w1 cs sr c q) by (destruct Hat; split; congruence).
  destruct (palm_send_request_run (enter s r) (pm_next s) r w1 cs sr c q v d n Hserves eq_refl eq_refl Hat1 Hiov Hsize Hip Hsays (Hpeer w1) (Hport _) Hn)
    as (z2 & iov & n' & H2 & _ & _); [change (palm_fd r) with k; rewrite Hwritev; lia|].
  erewrite P_bind_run by exact H2. change (palm_fd r) with k in *. rewrite Hwritev in *. rewrite Nat2Z.id, take_ge by done. cbn [mret P_ret].
  set (r' := r <| bytes_sent := _ |>). eexists _, _, r'. split; [reflexivity|]. split.
  - destruct Hserves as [G1 G2 G3]. split; [apply palm_upd_at| |done]. destruct G2 as (l1 & l2 & Hl & Hj). exists l1, l2. split; [exact Hl|].
    intros j Hin. destruct (Hj j Hin) as (Hne & x & Hx & Hd). split; [done|]. exists x. split; [cbn in Hx |- *; by rewrite lookup_insert_ne|done].
  - split; [split; try done; by eexists|]. split; [done|]. split; [done|]. split; [done|]. split; [done|]. split; [|split].
    + apply (palm_upd_ok _ _ r); [|apply Hserves|destruct (new_request_bounds m (cs_socket c) k cs sr); by split]. destruct (palm_enter_ok s r Hs (new_request_bounds _ _ _ _ _)). by split.
    + by destruct Hat1.
    + exists efd, ev. unfold logged. cbn. rewrite T1, <- app_assoc. done.
Qed.
End WithEnv.

(** ** Examples *)

(** Extensions are compared over the length of the one of the file, and a path
    without a point is read before its start. *)
Example extensions :
  map (fun p => option_map (option_map server_port) (mk_palm_get_handler [php] (mk_pointer_init p))) ["/srv/a.php"; "/srv/a.html"; "/srv/a.p"; "/srv/a."; "/srv/a"]%string =
  [Some (Some 2000); Some None; Some (Some 2000); Some (Some 2000); None].
Proof. reflexivity. Qed.

(** The memory for the port holds three digits. *)
Example palm_port_digits : option_map len (@number example_env 999 6) = Some 3 /\ @number example_env 2001 6 = None.
Proof. split; reflexivity. Qed.

Definition palm_post_example : session_request := palm_post [env_name_of "User-Agent: curl"] (lit "a=b&c").
Definition palm_empty : palm_state := {| pm_heap := ∅; pm_next := 0; pm_list := []; iov_protocol_request := palm_iov_example; palm_ip_str := repeat 0 47 |}.
Definition palm_globals_2001 : PalmGlobals :=
  {| palm_plugin := 0; palms := [php]; mk_server_port := mk_pointer_init "2001"; palm_socket_connect := fun _ _ _ => 20;
     palm_writev := fun _ _ d => Z.of_nat (length d); palm_sin_port := fun _ _ => Some 4660 |}.

Lemma palm_empty_ok : palm_state_ok palm_empty.
Proof.
  split; cbn; [intros i r; by rewrite lookup_empty..|constructor|]. intros i. rewrite lookup_empty, elem_of_nil. split; [done|by intros [? ?]].
Qed.

Lemma palm_stage_30_witness :
  exists s' w' r, @Palm._mkp_stage_30 example_env local_peer palm_globals_2001 1 0 palm_empty (request_world palm_post_example) = Some (MK_PLUGIN_RET_CONTINUE, s', w') /\
    palm_serves s' (pm_next palm_empty) r /\ palm_waiting r [] /\ client_fd r = cs_socket (request_session palm_post_example) /\ palm_fd r = 20 /\ pr_cs r = 1%nat /\ pr_sr r = 0%nat /\
    palm_state_ok s' /\ at_sr w' 1 0 (request_session palm_post_example) palm_post_example /\
    exists efd ev, w_trace w' = w_trace (request_world palm_post_example) ++ [EvEpollCtl EPOLL_CTL_ADD efd 20 ev; EvWrite 20 (palm_text (all_vars palm_example))].
Proof.
  apply (@palm_stage_30_sends example_env local_peer palm_globals_2001 palm_empty (request_world palm_post_example) 1 0 (request_session palm_post_example) palm_post_example php 20 palm_example).
  - split; try reflexivity; try done; [exact palm_empty_ok|exists [], 0; by split].
  - exact palm_example_says.
  - intros w. exists (AF_INET 1). split; [reflexivity|]. split; [done|]. split; [reflexivity|]. split; [decide_closed|cbn; lia].
  - done.
  - cbn. lia.
  - done.
Defined.

Lemma palm_sent_state_ok : palm_state_ok palm_sent_state.
Proof.
  split; cbn [palm_sent_state pm_heap pm_next pm_list].
  - intros i r [<- <-]%lookup_singleton_Some. split; [..|vm_compute; split; discriminate]; unfold palm_sent_request; cbn [in_buffer out_buffer]; rewrite repeat_length; lia.
  - intros i r [<- <-]%lookup_singleton_Some. lia.
  - apply NoDup_singleton.
  - intros i. rewrite list_elem_of_singleton. split; [intros ->; rewrite lookup_singleton_eq; by eexists|]. intros [x [<- _]%lookup_singleton_Some]. done.
Qed.
Lemma palm_sent_distinct : palm_distinct palm_sent_state.
Proof.
  intros i j r x Hi Hj. cbn [palm_sent_state pm_heap] in Hi, Hj. apply lookup_singleton_Some in Hi as [<- <-], Hj as [<- <-]. by split.
Qed.

Lemma palm_hangup_witness :
  (forall n, @hangup example_env (2 + n) 20 palm_sent_state palm_sent_world = @hangup example_env 2 20 palm_sent_state palm_sent_world) /\
  (forall ret s' w', @Palm._mkp_event_close example_env 20 palm_sent_state palm_sent_world = Some (ret, s', w') ->
     ret = MK_PLUGIN_RET_EVENT_CONTINUE /\ s' = released palm_sent_state 20 /\ palm_state_ok s' /\ palm_distinct s' /\ owner s' 20 = None).
Proof. exact (@palm_hangup_releases example_env palm_sent_state 20 palm_sent_world palm_sent_state_ok palm_sent_distinct). Defined.

(** The connection of the server is closed twice when that of the client ends. *)
Example palm_closed_twice :
  match @Palm._mkp_event_close example_env 20 palm_sent_state palm_sent_world with Some (_, _, w) => w_trace w | None => [] end =
  [EvClose 20; EvEpollCtl EPOLL_CTL_DEL 4 5 0; EvClose 5; EvClose 20].
Proof. vm_compute. reflexivity. Qed.

Definition palm_started : palm_state := default palm_empty (@palm_thctx example_env).
Lemma palm_reachable_witness :
  palm_state_ok palm_started /\
  forall i r d, pm_heap palm_started !! i = Some r -> Z.of_nat (length d) <= MK_PALM_BUFFER_SIZE - in_len r -> exists buf, bwrite (in_buffer r) (in_len r) d = Some buf.
Proof. exact (@palm_reachable_ok example_env local_peer palm_globals palm_started (@pr_start example_env local_peer palm_globals palm_started eq_refl)). Defined.
